(* ===== verification/_CoqProject ===== *)
-Q . S2P
Prelude.v
Effects.v
PyFloat.v
PySort.v
PyStr.v
Hash.v
FloatRepr.v
Json.v
JsonText.v
PyNumber.v
StateSchema.v
StateCompiler.v
CandidateCompiler.v
Cvoc.v
CostTwin.v
Authority.v
VerifierFirewall.v
CommitGateway.v
TraceLedger.v
Sinks.v
LedgerAnchor.v
SystemOne.v
Invocations.v
ClmAdapter.v
Inference.v
Controls.v
Providers.v
Runtime.v
HostFactory.v
Responses.v
HttpService.v
Access.v
PgAccess.v
DecisionMix.v
PyTime.v
GovernedStore.v
IngressProxy.v
RetentionJob.v
LocalArtifacts.v
InternalReadiness.v
ProductionHost.v
Serve.v
CredentialRecovery.v
KeyManagement.v
StagingHost.v
CalibrationFit.v
LayaBackend.v
TraceControlDryRun.v
ControlledPairs.v
PreviewDataset.v
Sha1.v
ReleaseIdentity.v
EnvFile.v
StoreFiles.v
Rollout.v
Drills.v
DeepseekLaunch.v
Probes.v
ModelTransport.v
StreamDelivery.v
ModelDefaults.v
DecisionService.v
Deployment.v
Inspections.v
