(* ===== verification/Prelude.v ===== *)
(** * C3R: a verification development

    C3R is the Python control plane of an agent: it compiles a bounded state and a
    bounded set of candidate actions, lets calibrated rankings and a conservative
    controller choose among them, has the choice verified under host policy, lets
    nothing act on the outside world except through a commit gateway, and records every
    decision in a hash chain.  Around that core stand an HTTP service with credentials,
    quotas and streaming, a serving process, a retention job, recovery tools, and the
    scripts that release and exercise a deployment.  This library models that program
    file by file and proves what makes each part, and their composition, correct.

    ** How the files correspond to the code

    Paths are below [src/].  A file of the library lists, in its own header, what it
    takes as a parameter.

    Python itself.  [Prelude] has results and exceptions ([result], the class hierarchy
    as far as the code catches it), computations over a world ([io]), transactions
    ([atomically]), loops and dictionaries; [Effects] has the weakest preconditions used
    to reason about computations ([wp]).  [PyFloat] (binary64 by [SpecFloat]), [PyNumber]
    ([int], [float], [round], [math]), [FloatRepr] ([repr] of a float), [PyStr], [PySort],
    [PyTime], [Json] and [JsonText] ([json.dumps], [json.loads]), [Hash] (SHA-256, HMAC),
    [Sha1] and [EnvFile] are executable models of what the source uses of the language
    and its standard library.

    The controller ([c3r/]).
    - [StateSchema]: [state_schema.py].  [StateCompiler]: [state_compiler.py].
    - [CandidateCompiler]: [candidate_compiler.py], [progressive_widening.py].
    - [Cvoc]: [cvoc.py].  [CostTwin]: [cost_twin.py].
    - [SystemOne]: [system_one/] calibration, abstention, fast path, questions;
      [CalibrationFit]: [system_one/calibration_fit.py]; [ClmAdapter], [Inference]:
      [system_one/clm_adapter.py], [inference.py]; [LayaBackend]:
      [system_one/laya_backend.py].
    - [Providers]: [adapters/providers.py], [deliberative/]; [ModelTransport]:
      [http_transport.py], [_default_transport], [ClmAdapter._post],
      [system_one/factory.py].
    - [Authority], [VerifierFirewall], [CommitGateway]: [authority.py],
      [verifier_firewall.py], [commit_gateway.py].
    - [TraceLedger]: [telemetry/trace.py], [trace_ledger.py], [ephemeral.py],
      [sqlite_ledger.py]; [Sinks]: the [TraceSink] protocol; [LedgerAnchor],
      [GovernedStore], [Invocations]: the same names in [telemetry/]; [StoreFiles]: the
      constructors that open the stores' files.
    - [ModelDefaults]: [system_prompt.py], the constants of [deliberative/defaults.py],
      the exports of [deliberative/__init__.py].
    - [Runtime]: [runtime.py], which calls all of the above through their definitions;
      [Controls]: [feature_flags.py], [colibri.py], [readiness.py]; [HostFactory]:
      [host_factory.py], [catalogs/], [provenance.py]; [DecisionMix]:
      [decisionmix/dataset.py].

    The service ([c3r/]).
    - [Responses]: [responses.py]; [HttpService]: [http_service.py], its handlers and
      routing; [StreamDelivery]: [_open_stream] and [_send_stream] of the same file with
      their watcher threads.
    - [DecisionService]: the composition of [http_service.py] with [runtime.py], a
      request factory and a sink, and the one [production_host.py] makes;
      [Deployment]: [ingress_proxy.py] in front of that service.
    - [Access], [PgAccess]: [api_access.py], [pg_access.py]; [IngressProxy]:
      [ingress_proxy.py]; [KeyManagement], [CredentialRecovery]: the files of those names.
    - [LocalArtifacts], [InternalReadiness], [ProductionHost], [StagingHost], [Serve],
      [RetentionJob]: the files of those names, with [host_components.py] in
      [ProductionHost].

    Release and operation ([deploy/], [scripts/]).
    - [ReleaseIdentity]: [encoder_identity.py], [clm_runtime.py], [attest_encoder.py],
      [download_clm_artifacts.py]; [DeepseekLaunch]: [deepseek-v41/launch.py].
    - [Rollout]: [replace_private_candidate.py]; [Drills]: [drill_private_core.py],
      [start_private_core.py]; [Probes]: [measure_private_core.py],
      [probe_private_core.py], [probe_live_models.py].
    - [Inspections]: [inspect_head_sboms.py],
      [deepseek-v41/check_upstream_dependencies.py].
    - [TraceControlDryRun], [ControlledPairs], [PreviewDataset]: the scripts
      [run_trace_control_dry_run.py], [run_controlled_pairs.py],
      [build_decisionmix_preview.py], run on the models of the components they drive.

    ** How state and operations are represented

    A record stands for a dataclass or an object's fields, an inductive type for an enum
    or a union, one definition for a function or method, with its guards in the code's
    order.  A fallible pure function returns a [result]; code with effects is a
    computation [io W A] over a world [W] and keeps the state it reached when it raises.
    A component's own state stands beside the world of the parts it calls
    ([io (S * E) A], [beside]).  Mappings are [gmap]s where order does not matter and
    association lists where it does.  Integers are unbounded, as Python's; floats round.
    Strings are lists of code points below 256.  What belongs to the operating system, a
    database engine, a network peer, a third-party package or the host's own code is a
    class of operations ([Os], [Sql], [Host], [Outside], [ReleaseFiles], [LaunchHost],
    [DeploymentHost], [ProbeHost], [StoreFileHost], ...) or an argument; where a theorem
    relies on documented behaviour of such a part, it is a named law ([DockerLaws],
    [SteadyClock], the laws of [TraceSink], of [ObjectClient] and of nonce stores) with an
    instance that satisfies it.

    ** What the theorems show

    - Authority.  [CommitGateway]: an effect is executed exactly when its verification and
      approval authorise that very action, and over any interleaving each approval is used
      once; [Authority]: fingerprints and attestations identify what they sign, absent
      SHA-256 collisions; [Runtime]: every outcome that names an action is a verified,
      permitted recommendation, every run that returns appended one trace, and handled
      failures never escape; [ControlledPairs]: the same over the script's fixtures.
    - Candidates and choice.  [CandidateCompiler], [StateCompiler], [Cvoc]: soundness and
      completeness of compilation, its termination, and maximality of the selection;
      [SystemOne], [CalibrationFit], [LayaBackend], [ClmAdapter]: answers are calibrated,
      pinned, of the right type, and read completely or refused; the one-pass metrics equal
      their definition.
    - Records.  [TraceLedger], [GovernedStore], [LedgerAnchor], [Sinks]: the chain stays
      valid and binds all history, SQLite's append refines the in-memory one, purging keeps
      the head, the line format round-trips; [TraceControlDryRun], [DecisionMix],
      [PreviewDataset]: the dry run decides, the dataset ignores order and is the published
      one.
    - The service.  [IngressProxy], [HttpService], [Responses], [StreamDelivery]: requests
      are gated, answered once and accounted for, streams follow their grammar and their
      bounds, and the two threads of a stream give back what was taken and end;
      [DecisionService]: what is answered is what is recorded, request by request, and
      the production composition names no action; [Deployment]: what a caller of the
      proxy gets is what was recorded, for a caller that passed the gate;
      [Access], [PgAccess]: authentication refines an abstract list of grants, admissions
      stay within limits, and the two stores are equivalent; [Serve], [ProductionHost],
      [InternalReadiness]: construction fails closed and serving ends clean.
    - The model servers.  [Providers], [ModelTransport]: a stream ends within its bound, a
      compiled state leaves the machine at most once and only where its boundary allows,
      and a ranking only talks to the local server; [ReleaseIdentity], [DeepseekLaunch]:
      published identities are measured, verified files are the pinned ones, and a launch
      is gated by them and by exact measurements; [ModelDefaults], [Inspections]: every
      import has the reviewed prompt, and a build has exactly the reviewed conflict.
    - Operation.  [Rollout], [Drills], [Probes], [CredentialRecovery], [KeyManagement],
      [RetentionJob]: replacements restore or replace, drills give back what they stop and
      report what they saw, restores revoke every key, purges remove what expired.

    Examples ending in a refuted expectation ([..._fails_open], [..._leaks_...],
    [..._blocks_...] and the like) are the findings: runs on which the code does not do
    what it means to.

    ** Bounds and fuel

    Loops over data are structural.  The others carry fuel:
    - [CandidateCompiler.widen_loop] gets the distance to its bound, which it reaches.
    - [Providers.drain] and [Responses.pull] get more than the deliveries left in the
      backend; [pull_enough] shows that any more gives the same run.
    - [IngressProxy.STREAM_FUEL] is the stream's byte bound and two, since every turn reads
      a byte or ends; [relayed_stream_is_bounded] shows that any more gives the same run.
    - [Json.scan_value] gets [fuel_for] the text, enough for every text it can accept.
    - [RetentionJob.list_pages] is enough with one page more than the tokens a server can
      give ([list_pages_fuel]), since a repeated token ends the listing.
    - [ModelTransport.open_url] gets [urllib]'s limit of ten redirections; the code's own
      handler follows none.
    - [Serve.watch], [Rollout.await_ready] and [Drills.await_status] wait for the outside:
      out of fuel they are [None], a run still going.  [serving_goes_on_while_quiet] says
      that this is then right; under a [SteadyClock], a clock that passes its deadline,
      [replacement_ends] and [drill_ends] give fuel with which they end.
    - [StreamDelivery] has no fuel: its runs are schedules of single steps, its theorems
      speak of all of them, and [both_threads_end] counts the steps needed.
    - [Sha1], [Hash], [FloatRepr]: rounds and digits are counted by the algorithm.

    ** What is not modelled, and why

    - Threads are modelled where the code synchronises by more than a lock around an
      operation ([StreamDelivery], the pool and the row locks of [PgAccess], the watcher of
      [IngressProxy] as an operation of the world); elsewhere an operation under a lock is
      one step.
    - Sockets, HTTP parsing, TLS, SQLite's and PostgreSQL's engines, docker, the hub, the
      model runtimes and [argparse] are outside; the classes above say what is used.
    - [exp], [log] and [pow] of the platform are parameters; [sum] of floats is the plain
      left fold of Python 3.11.  NaN keys are excluded where a sort's result is used.
    - Code points above 255, [os.umask], file locking and the time a computation takes.
    - Re-exports ([__init__.py] files other than that of [deliberative]) and typing
      protocols ([adapters/base.py]) have no behaviour.  What is left of the other files
      is imports, logging switched off, [__exit__] methods that call a modelled
      [close], the SQL text of the schemas, and command-line entry points. *)

From Stdlib Require Import Lia ZArith Permutation Sorted.
From stdpp Require Import base option strings gmap list.

Declare Scope py_scope.
Delimit Scope py_scope with py.

(** Lemmas that close the routine side conditions of the components. *)
Create HintDb c3r.

(** ** Python exceptions

    The exception classes the source raises or catches, with the part of the
    class hierarchy its [except] clauses depend on. *)

Inductive exn_kind : Type :=
  | ValueError | JSONDecodeError | UnicodeEncodeError
  | TypeError | AttributeError
  | KeyError | IndexError
  | RuntimeError | RecursionError
  | OSError | TimeoutError
  | ZeroDivisionError | OverflowError
  | StopIteration
  | SqliteError | PgError | HTTPException
  | OtherException.

Global Instance exn_kind_eq_dec : EqDecision exn_kind.
Proof. solve_decision. Defined.

(** The direct base class, as far as the source can observe it. *)
Definition base_class (k : exn_kind) : option exn_kind :=
  match k with
  | JSONDecodeError | UnicodeEncodeError => Some ValueError
  | RecursionError => Some RuntimeError
  | TimeoutError => Some OSError
  | _ => None
  end.

(** [except (k1, ..., kn)] catches [k]. *)
Definition caught_by (handlers : list exn_kind) (k : exn_kind) : bool :=
  existsb (fun h => bool_decide (k = h) || bool_decide (base_class k = Some h))
          handlers.

Record exn : Type := Exn { exn_class : exn_kind; exn_msg : string }.

Global Instance exn_eq_dec : EqDecision exn.
Proof. solve_decision. Defined.

(** ** Results of code that may raise *)

Inductive result (A : Type) : Type :=
  | Ok (a : A)
  | Raise (e : exn).
Arguments Ok {A} a.
Arguments Raise {A} e.

Definition raise {A} (k : exn_kind) (msg : string) : result A :=
  Raise (Exn k msg).

Global Instance result_ret : MRet result := fun A a => Ok a.
Global Instance result_bind : MBind result := fun A B f r =>
  match r with Ok a => f a | Raise e => Raise e end.
Global Instance result_fmap : FMap result := fun A B f r =>
  match r with Ok a => Ok (f a) | Raise e => Raise e end.

Definition is_ok {A} (r : result A) : bool :=
  match r with Ok _ => true | Raise _ => false end.

(** [try: r except handlers: h]. *)
Definition try_except {A} (r : result A) (handlers : list exn_kind)
    (h : exn -> result A) : result A :=
  match r with
  | Ok a => Ok a
  | Raise e => if caught_by handlers (exn_class e) then h e else Raise e
  end.

(** [if c: raise k(msg)]. *)
Definition raise_if (c : bool) (k : exn_kind) (msg : string) : result unit :=
  if c then raise k msg else Ok tt.

(** A [for] loop that collects the values of a body that may raise. *)
Fixpoint mapR {A B} (f : A -> result B) (l : list A) : result (list B) :=
  match l with
  | [] => Ok []
  | x :: l' => y ← f x; ys ← mapR f l'; Ok (y :: ys)
  end.

Fixpoint foldR {A S} (f : S -> A -> result S) (s : S) (l : list A) : result S :=
  match l with
  | [] => Ok s
  | x :: l' => s' ← f s x; foldR f s' l'
  end.

Lemma bind_ok {A B} (r : result A) (f : A -> result B) b :
  (r ≫= f) = Ok b -> exists a, r = Ok a /\ f a = Ok b.
Proof. destruct r; simpl; [eauto | discriminate]. Qed.

Lemma raise_if_ok c k msg u : raise_if c k msg = Ok u -> c = false.
Proof. destruct c; simpl; [discriminate | done]. Qed.

Lemma mapR_ok {A B} (f : A -> result B) l ys :
  mapR f l = Ok ys <-> Forall2 (fun x y => f x = Ok y) l ys.
Proof.
  split.
  - revert ys; induction l as [|x l IH]; intros ys H; simpl in H.
    + injection H as <-. constructor.
    + apply bind_ok in H as (y & Hy & H). apply bind_ok in H as (ys' & Hys & H).
      injection H as <-. constructor; auto.
  - induction 1 as [|x y l ys Hy _ IH]; simpl; [done|].
    by rewrite Hy; simpl; rewrite IH.
Qed.

(** Where the exception of a loop comes from. *)
Lemma foldR_raise {A S} (f : S -> A -> result S) s l e :
  foldR f s l = Raise e -> exists s' x, x ∈ l /\ f s' x = Raise e.
Proof.
  revert s; induction l as [|x l IH]; intros s H; cbn [foldR] in H; [discriminate|].
  destruct (f s x) as [s1|e1] eqn:E; simpl in H.
  - destruct (IH _ H) as (s' & y & Hy & Hf). exists s', y. split; [by right|done].
  - injection H as ->. exists s, x. split; [left|done].
Qed.

Lemma mapR_raise {A B} (f : A -> result B) l e :
  mapR f l = Raise e -> exists x, x ∈ l /\ f x = Raise e.
Proof.
  induction l as [|x l IH]; intros H; cbn [mapR] in H; [discriminate|].
  destruct (f x) as [y|e1] eqn:E; simpl in H.
  - destruct (mapR f l) as [ys|e2]; simpl in H; [discriminate|]. injection H as ->.
    destruct IH as (z & Hz & Hf); [done|]. exists z. split; [by right|done].
  - injection H as ->. exists x. split; [left|done].
Qed.

(** A loop whose body computes a value and then updates the state computes all
    the values first. *)
Lemma foldR_mapR {A B S} (f : A -> result B) (g : S -> B -> S) s l :
  foldR (fun s x => y ← f x; Ok (g s y)) s l = (ys ← mapR f l; Ok (fold_left g ys s)).
Proof.
  revert s; induction l as [|x l IH]; intros s; cbn [foldR mapR]; [done|].
  destruct (f x) as [y|e]; [|done]. cbn. rewrite IH. by destruct (mapR f l).
Qed.

(** Inversion of successful monadic computations in the context. *)
Ltac result_inv :=
  repeat match goal with
  | H : Ok _ = Ok _ |- _ => injection H; clear H; intros; try subst
  | H : Ok _ = Raise _ |- _ => discriminate H
  | H : Raise _ = Ok _ |- _ => discriminate H
  | H : raise _ _ = Ok _ |- _ => discriminate H
  | H : (_ ≫= _) = Ok _ |- _ =>
      let a := fresh "a" in let Ha := fresh "Ha" in
      apply bind_ok in H as (a & Ha & H); cbv beta in H
  | H : raise_if _ _ _ = Ok _ |- _ => apply raise_if_ok in H
  end.

(** Boolean reflection used throughout. *)
Ltac bool_hyps :=
  repeat match goal with
  | H : _ && _ = true |- _ => apply andb_true_iff in H as [? ?]
  | H : _ || _ = false |- _ => apply orb_false_iff in H as [? ?]
  | H : negb _ = true |- _ => apply negb_true_iff in H
  | H : negb _ = false |- _ => apply negb_false_iff in H
  | H : bool_decide _ = true |- _ => apply bool_decide_eq_true in H
  | H : bool_decide _ = false |- _ => apply bool_decide_eq_false in H
  | H : Z.ltb _ _ = true |- _ => apply Z.ltb_lt in H
  | H : Z.ltb _ _ = false |- _ => apply Z.ltb_ge in H
  | H : Z.leb _ _ = true |- _ => apply Z.leb_le in H
  | H : Z.leb _ _ = false |- _ => apply Z.leb_gt in H
  end.

(** ** Lists *)

Definition sumZ (l : list Z) : Z := fold_right Z.add 0%Z l.

Lemma sumZ_app l1 l2 : sumZ (l1 ++ l2) = (sumZ l1 + sumZ l2)%Z.
Proof. induction l1; simpl; lia. Qed.

Definition lenZ {A} (l : list A) : Z := Z.of_nat (length l).

Lemma existsb_false_Forall {A} (f : A -> bool) l :
  existsb f l = false <-> Forall (fun x => f x = false) l.
Proof.
  induction l as [|x l IH]; simpl; [by split|].
  rewrite orb_false_iff, Forall_cons. by rewrite IH.
Qed.

Lemma forallb_true_Forall {A} (f : A -> bool) l :
  forallb f l = true <-> Forall (fun x => f x = true) l.
Proof.
  induction l as [|x l IH]; simpl; [by split|].
  rewrite andb_true_iff, Forall_cons. by rewrite IH.
Qed.

Lemma existsb_elem {A} (f : A -> bool) l :
  existsb f l = true <-> exists x, x ∈ l /\ f x = true.
Proof.
  rewrite existsb_exists. setoid_rewrite list_elem_of_In. done.
Qed.

Lemma NoDup_map_inj {A B} (f : A -> B) l x y :
  NoDup (map f l) -> x ∈ l -> y ∈ l -> f x = f y -> x = y.
Proof.
  induction l as [|z l IH]; [by intros _ ?%elem_of_nil|]. cbn. intros Hnd Hx Hy E.
  apply NoDup_cons in Hnd as [Hz Hnd].
  apply elem_of_cons in Hx as [->|Hx]; apply elem_of_cons in Hy as [->|Hy]; auto;
    destruct Hz; [rewrite E|rewrite <- E]; by apply list_elem_of_fmap_2.
Qed.

Lemma lenZ_nonneg {A} (l : list A) : (0 <= lenZ l)%Z.
Proof. unfold lenZ; lia. Qed.

(** ** [defaultdict(list)] in insertion order

    [group_add] is [d[k].append(x)]; [group_by f l] is the dict a loop over [l]
    leaves. *)
Section grouping.
Context {K A : Type} `{EqDecision K}.

Fixpoint group_add (k : K) (x : A) (d : list (K * list A)) : list (K * list A) :=
  match d with
  | [] => [(k, [x])]
  | (k', xs) :: d' =>
      if bool_decide (k = k') then (k', (xs ++ [x])%list) :: d' else (k', xs) :: group_add k x d'
  end.

Definition group_by (f : A -> K) (l : list A) : list (K * list A) :=
  fold_left (fun d x => group_add (f x) x d) l [].

(** [d[k]], the empty list for an absent key. *)
Fixpoint group_get (k : K) (d : list (K * list A)) : list A :=
  match d with
  | [] => []
  | (k', xs) :: d' => if bool_decide (k = k') then xs else group_get k d'
  end.

Lemma group_get_add k k' x d :
  group_get k (group_add k' x d)
  = if bool_decide (k = k') then (group_get k d ++ [x])%list else group_get k d.
Proof.
  induction d as [|[k2 xs] d IH]; simpl.
  - by destruct (bool_decide_reflect (k = k')).
  - destruct (bool_decide_reflect (k' = k2)) as [->|Hne]; simpl.
    + by destruct (bool_decide_reflect (k = k2)).
    + rewrite IH. destruct (bool_decide_reflect (k = k2)) as [->|]; [|done].
      by rewrite bool_decide_eq_false_2.
Qed.

Lemma group_add_keys k x d :
  map fst (group_add k x d)
  = if bool_decide (k ∈ map fst d) then map fst d else (map fst d ++ [k])%list.
Proof.
  induction d as [|[k2 xs] d IH]; [by rewrite bool_decide_eq_false_2 by set_solver|simpl].
  destruct (bool_decide_reflect (k = k2)) as [->|Hne]; simpl.
  - by rewrite bool_decide_eq_true_2 by set_solver.
  - rewrite IH. destruct (bool_decide_reflect (k ∈ map fst d)).
    + by rewrite bool_decide_eq_true_2 by set_solver.
    + by rewrite bool_decide_eq_false_2 by set_solver.
Qed.

Lemma group_add_NoDup k x d : NoDup (map fst d) -> NoDup (map fst (group_add k x d)).
Proof.
  intros H. rewrite group_add_keys. case_bool_decide; [done|].
  apply NoDup_app. split; [done|]. split; [set_solver|]. apply NoDup_singleton.
Qed.

Lemma group_by_snoc f l x : group_by f (l ++ [x])%list = group_add (f x) x (group_by f l).
Proof. unfold group_by. by rewrite fold_left_app. Qed.

Lemma group_by_NoDup f l : NoDup (map fst (group_by f l)).
Proof.
  induction l as [|x l IH] using rev_ind; [constructor|].
  rewrite group_by_snoc. by apply group_add_NoDup.
Qed.

(** A key's list is the input's elements of that key, in order. *)
Lemma group_get_by f l k :
  group_get k (group_by f l) = filter (fun x => f x = k) l.
Proof.
  induction l as [|x l IH] using rev_ind; [done|].
  rewrite group_by_snoc, group_get_add, IH, filter_app. simpl.
  rewrite filter_cons, filter_nil.
  destruct (bool_decide_reflect (k = f x)) as [->|Hne].
  - by rewrite decide_True.
  - rewrite decide_False by done. by rewrite app_nil_r.
Qed.

Lemma group_by_keys f l k : k ∈ map fst (group_by f l) <-> exists x, x ∈ l /\ f x = k.
Proof.
  induction l as [|x l IH] using rev_ind; [simpl; set_solver|].
  rewrite group_by_snoc, group_add_keys. setoid_rewrite elem_of_app.
  setoid_rewrite list_elem_of_singleton.
  case_bool_decide as Hin; rewrite ?elem_of_app, IH, ?list_elem_of_singleton.
  - split; [naive_solver|]. intros (y & Hy & <-). destruct Hy as [Hy| ->]; [eauto|].
    by apply IH.
  - naive_solver.
Qed.

Lemma group_get_elem k xs d : NoDup (map fst d) -> (k, xs) ∈ d -> group_get k d = xs.
Proof.
  induction d as [|[k2 ys] d IH]; simpl; [set_solver|].
  intros Hd Hin. apply NoDup_cons in Hd as [Hk Hd].
  apply elem_of_cons in Hin as [Heq|Hin]; [injection Heq as -> ->|].
  - by rewrite bool_decide_eq_true_2.
  - rewrite bool_decide_eq_false_2; [eauto|]. intros ->. apply Hk.
    rewrite list_elem_of_fmap. exists (k2, xs). done.
Qed.

Lemma group_by_elem f l k xs :
  (k, xs) ∈ group_by f l <-> xs = filter (fun x => f x = k) l /\ exists x, x ∈ l /\ f x = k.
Proof.
  rewrite <- group_by_keys. split.
  - intros Hin. split.
    + rewrite <- group_get_by. symmetry. apply group_get_elem; [apply group_by_NoDup|done].
    + rewrite list_elem_of_fmap. by exists (k, xs).
  - intros [-> Hk]. rewrite list_elem_of_fmap in Hk. destruct Hk as ([k' ys] & -> & Hin). simpl.
    rewrite <- group_get_by. by rewrite (group_get_elem k' ys) by (done || apply group_by_NoDup).
Qed.
End grouping.

(** ** Loops with [break]

    [for x in l: body; if stop: break]. *)
Fixpoint for_break {A S} (stop : S -> bool) (body : S -> A -> result S)
    (l : list A) (s : S) : result S :=
  match l with
  | [] => Ok s
  | x :: l' => s' ← body s x; if stop s' then Ok s' else for_break stop body l' s'
  end.

(** A loop that appends the values [g x] to a list and stops once the list is
    full collects the first [cap] values. *)
Lemma for_break_take {A B S} (cap : nat) (view : S -> list B) (g : A -> list B)
    (stop : S -> bool) (body : S -> A -> result S) l s :
  (forall s, stop s = Nat.leb cap (length (view s))) ->
  (forall s x, x ∈ l -> length (view s) < cap ->
     exists s', body s x = Ok s' /\ view s' = take cap (view s ++ g x)) ->
  length (view s) < cap ->
  exists s', for_break stop body l s = Ok s' /\ view s' = take cap (view s ++ concat (map g l)).
Proof.
  intros Hstop. revert s; induction l as [|x l IH]; intros s Hbody Hs; simpl.
  - exists s. split; [done|]. rewrite app_nil_r, take_ge by lia. done.
  - destruct (Hbody s x) as (s' & -> & Hv); [by left|done|]. simpl. rewrite Hstop.
    destruct (Nat.leb_spec cap (length (view s'))) as [Hle|Hlt].
    + exists s'. split; [done|]. rewrite Hv in *. rewrite length_take in Hle.
      rewrite app_assoc, (take_app_le (view s ++ g x)%list) by lia. done.
    + rewrite Hv, length_take in Hlt. rewrite take_ge in Hv by lia.
      destruct (IH s') as (s'' & -> & Hv'').
      * intros s0 y Hy. apply Hbody. by right.
      * rewrite Hv. lia.
      * exists s''. split; [done|]. by rewrite Hv'', Hv, <- app_assoc.
Qed.

(** ** Code with effects

    A computation over the state [W] of the world it talks to: network peers,
    clocks, files.  A raised exception keeps the state reached. *)
Definition io (W A : Type) : Type := W -> result A * W.

Global Instance io_ret W : MRet (io W) := fun A a w => (Ok a, w).
Global Instance io_bind W : MBind (io W) := fun A B f m w =>
  match m w with
  | (Ok a, w') => f a w'
  | (Raise e, w') => (Raise e, w')
  end.

(** A pure computation that may raise. *)
Definition lift {W A} (r : result A) : io W A := fun w => (r, w).

(** [try: m except handlers: h]. *)
Definition io_try {W A} (m : io W A) (handlers : list exn_kind) (h : exn -> io W A) : io W A :=
  fun w =>
    match m w with
    | (Ok a, w') => (Ok a, w')
    | (Raise e, w') => if caught_by handlers (exn_class e) then h e w' else (Raise e, w')
    end.

Fixpoint io_map {W A B} (f : A -> io W B) (l : list A) : io W (list B) :=
  match l with
  | [] => mret []
  | x :: l' => y ← f x; ys ← io_map f l'; mret (y :: ys)
  end.

Lemma io_bind_ok {W A B} (m : io W A) (f : A -> io W B) w b w' :
  (m ≫= f) w = (Ok b, w') -> exists a w1, m w = (Ok a, w1) /\ f a w1 = (Ok b, w').
Proof.
  unfold mbind, io_bind. destruct (m w) as [[a|e] w1]; [eauto|discriminate].
Qed.

Lemma lift_ok {W A} (r : result A) (w : W) a w' : lift r w = (Ok a, w') -> r = Ok a /\ w' = w.
Proof. unfold lift. intros H. by apply pair_equal_spec in H as [-> <-]. Qed.

Lemma io_map_ok {W A B} (f : A -> io W B) l w ys w' :
  io_map f l w = (Ok ys, w') -> Forall2 (fun x y => exists w1 w2, f x w1 = (Ok y, w2)) l ys.
Proof.
  revert w ys w'; induction l as [|x l IH]; intros w ys w' H; cbn [io_map] in H.
  - injection H as <- _. constructor.
  - apply io_bind_ok in H as (y & w1 & Hy & H). apply io_bind_ok in H as (ys' & w2 & Hys & H).
    injection H as <- _. constructor; [by exists w, w1 | by eapply IH].
Qed.

(** Inversion of successful effectful computations in the context. *)
Ltac io_inv :=
  repeat match goal with
  | H : (_ ≫= _) _ = (Ok _, _) |- _ =>
      let a := fresh "a" in let w := fresh "w" in let Ha := fresh "Ha" in
      apply io_bind_ok in H as (a & w & Ha & H); cbv beta in H
  | H : lift _ _ = (Ok _, _) |- _ => unfold lift in H; injection H as H ?; try subst
  | H : mret _ _ = (Ok _, _) |- _ => injection H as H ?; try subst
  end.

(** ** Transactions

    A store [DB] next to the outside world [E].  [atomically start commit body]
    keeps the writes of [body] when it returns and the commit succeeds, and
    restores the store otherwise. *)

Definition atomically {DB E A} (start commit : io E unit) (body : io (DB * E) A) : io (DB * E) A :=
  fun '(db, e) =>
  match start e with
  | (Raise x, e1) => (Raise x, (db, e1))
  | (Ok _, e1) =>
      match body (db, e1) with
      | (Raise x, (_, e2)) => (Raise x, (db, e2))
      | (Ok a, (db', e2)) =>
          match commit e2 with
          | (Ok _, e3) => (Ok a, (db', e3))
          | (Raise x, e3) => (Raise x, (db, e3))
          end
      end
  end.

Lemma atomically_ok {DB E A} start commit (body : io (DB * E) A) db e a w' :
  atomically start commit body (db, e) = (Ok a, w') ->
  exists e1 db' e2 e3, body (db, e1) = (Ok a, (db', e2)) /\ w' = (db', e3).
Proof.
  unfold atomically. intros H.
  destruct (start e) as [[t|x] e1]; [|done]. destruct (body (db, e1)) as [[c|x] [db' e2]] eqn:Eb; [|done].
  destruct (commit e2) as [[v|x] e3]; [|done]. apply pair_equal_spec in H as [[= ->] <-]. eauto 10.
Qed.

Lemma atomically_raise {DB E A} start commit (body : io (DB * E) A) w x w' :
  atomically start commit body w = (Raise x, w') -> fst w' = fst w.
Proof.
  destruct w as [db e]. unfold atomically. intros H.
  destruct (start e) as [[t|y] e1]; [|by apply pair_equal_spec in H as [_ <-]].
  destruct (body (db, e1)) as [[c|y] [db' e2]]; [|by apply pair_equal_spec in H as [_ <-]].
  destruct (commit e2) as [[v|y] e3]; [done|by apply pair_equal_spec in H as [_ <-]].
Qed.

(** A computation of the outside world beside the store. *)
Definition beside {DB E A} (m : io E A) : io (DB * E) A := fun '(db, e) =>
  let '(r, e') := m e in (r, (db, e')).

Lemma beside_ok {DB E A} (m : io E A) (db : DB) e a w' :
  beside m (db, e) = (Ok a, w') -> exists e', m e = (Ok a, e') /\ w' = (db, e').
Proof.
  unfold beside. destruct (m e) as [r e']. intros H. apply pair_equal_spec in H as [-> <-]. eauto.
Qed.
