(* ===== verification/Effects.v ===== *)
(** * Weakest preconditions for code with effects

    [wp m Q w]: run from the world [w], [m] ends with a result and a world
    related by [Q].  Computations are total functions, so the predicate also
    says that they end; the rules follow the combinators of the prelude. *)

From stdpp Require Import base option list.
From S2P Require Import Prelude.

Section wp.
Context {W : Type}.

Definition wp {A} (m : io W A) (Q : result A -> W -> Prop) (w : W) : Prop := Q (fst (m w)) (snd (m w)).

Lemma wp_mono {A} (m : io W A) (Q Q' : result A -> W -> Prop) w :
  wp m Q w -> (forall r w', Q r w' -> Q' r w') -> wp m Q' w.
Proof. unfold wp. auto. Qed.

Lemma wp_and {A} (m : io W A) (Q Q' : result A -> W -> Prop) w :
  wp m Q w -> wp m Q' w -> wp m (fun r w' => Q r w' /\ Q' r w') w.
Proof. done. Qed.

Lemma wp_any {A} (m : io W A) (Q : result A -> W -> Prop) w : (forall r w', Q r w') -> wp m Q w.
Proof. unfold wp. auto. Qed.

Lemma wp_run {A} (m : io W A) (Q : result A -> W -> Prop) w r w' : wp m Q w -> m w = (r, w') -> Q r w'.
Proof. unfold wp. by intros H E; rewrite E in H. Qed.

Lemma wp_ret {A} (a : A) (Q : result A -> W -> Prop) w : Q (Ok a) w -> wp (mret a) Q w.
Proof. done. Qed.

Lemma wp_lift {A} (r : result A) (Q : result A -> W -> Prop) w : Q r w -> wp (lift r) Q w.
Proof. done. Qed.

Lemma wp_bind {A B} (m : io W A) (f : A -> io W B) (Q : result B -> W -> Prop) w :
  wp m (fun r w' => match r with Ok a => wp (f a) Q w' | Raise e => Q (Raise e) w' end) w ->
  wp (m ≫= f) Q w.
Proof. unfold wp, mbind, io_bind. destruct (m w) as [[a|e] w']; done. Qed.

Lemma wp_try {A} (m : io W A) handlers h (Q : result A -> W -> Prop) w :
  wp m (fun r w' => match r with
                    | Ok a => Q (Ok a) w'
                    | Raise e => if caught_by handlers (exn_class e) then wp (h e) Q w' else Q (Raise e) w'
                    end) w ->
  wp (io_try m handlers h) Q w.
Proof. unfold wp, io_try. destruct (m w) as [[a|e] w']; [done|]. cbn. by destruct (caught_by _ _). Qed.

(** [try: m finally: cleanup]. *)
Definition io_finally {A} (m : io W A) (cleanup : io W unit) : io W A := fun w =>
  match m w with
  | (r, w1) => match cleanup w1 with
               | (Ok _, w2) => (r, w2)
               | (Raise e, w2) => (Raise e, w2)
               end
  end.

Lemma wp_finally {A} (m : io W A) cleanup (Q : result A -> W -> Prop) w :
  wp m (fun r w1 => wp cleanup (fun r' w2 => match r' with Ok _ => Q r w2 | Raise e => Q (Raise e) w2 end) w1) w ->
  wp (io_finally m cleanup) Q w.
Proof. unfold wp, io_finally. destruct (m w) as [r w1]. cbn. by destruct (cleanup w1) as [[]]. Qed.
End wp.

Lemma wp_beside {DB E A} (m : io E A) (Q : result A -> DB * E -> Prop) db e :
  (forall r e', m e = (r, e') -> Q r (db, e')) -> wp (beside m) Q (db, e).
Proof. unfold wp, beside. destruct (m e). cbn. auto. Qed.

(** ** Exceptions a computation may raise *)

(** [m] raises nothing a handler of [handlers] would let through. *)
Definition raises_within {W A} (handlers : list exn_kind) (m : io W A) : Prop :=
  forall w, wp m (fun r _ => match r with Ok _ => True | Raise e => caught_by handlers (exn_class e) = true end) w.

Section raises.
Context {W : Type} (handlers : list exn_kind).

Lemma raises_ret {A} (a : A) : raises_within handlers (mret a : io W A).
Proof. done. Qed.

Lemma raises_lift {A} (r : result A) :
  match r with Ok _ => True | Raise e => caught_by handlers (exn_class e) = true end ->
  raises_within handlers (lift r : io W A).
Proof. by intros H w. Qed.

Lemma raises_raise_if b k msg :
  caught_by handlers k = true -> raises_within handlers (lift (raise_if b k msg) : io W unit).
Proof. intros H. apply raises_lift. by destruct b. Qed.

Lemma raises_bind {A B} (m : io W A) (f : A -> io W B) :
  raises_within handlers m -> (forall a, raises_within handlers (f a)) -> raises_within handlers (m ≫= f).
Proof.
  intros Hm Hf w. apply wp_bind. eapply wp_mono; [apply Hm|]. intros [a|e] w' H; [apply Hf|done].
Qed.

Lemma raises_finally {A} (m : io W A) c :
  raises_within handlers m -> raises_within handlers c -> raises_within handlers (io_finally m c).
Proof.
  intros Hm Hc w. apply wp_finally. eapply wp_mono; [apply Hm|]. intros r w' H.
  eapply wp_mono; [apply Hc|]. intros [[]|e] w'' H'; done.
Qed.

(** [try: m except handlers: return a] always returns. *)
Lemma try_returns {A} (m : io W A) (a : A) w :
  raises_within handlers m -> exists b w', io_try m handlers (fun _ => mret a) w = (Ok b, w').
Proof.
  intros Hm. specialize (Hm w). unfold wp in Hm. unfold io_try. destruct (m w) as [[b|e] w'];
    cbn in Hm; [eauto|]. rewrite Hm. by exists a, w'.
Qed.
End raises.

#[export] Hint Resolve raises_ret raises_raise_if raises_bind raises_finally : c3r.

(** ** Invariants of the world *)

Section preserves.
Context {W : Type} (I : W -> Prop).

(** [m] keeps the invariant, however it ends. *)
Definition preserves {A} (m : io W A) : Prop := forall w, I w -> wp m (fun _ => I) w.

Lemma preserves_ret {A} (a : A) : preserves (mret a).
Proof. by intros w. Qed.
Lemma preserves_lift {A} (r : result A) : preserves (lift r).
Proof. by intros w. Qed.
Lemma preserves_bind {A B} (m : io W A) (f : A -> io W B) :
  preserves m -> (forall a, preserves (f a)) -> preserves (m ≫= f).
Proof.
  intros Hm Hf w Hw. apply wp_bind. eapply wp_mono; [by apply Hm|]. intros [a|e] w' H; [by apply Hf|done].
Qed.
Lemma preserves_try {A} (m : io W A) hs h : preserves m -> (forall e, preserves (h e)) -> preserves (io_try m hs h).
Proof.
  intros Hm Hh w Hw. apply wp_try. eapply wp_mono; [by apply Hm|]. intros [a|e] w' H; [done|].
  destruct (caught_by _ _); [by apply Hh|done].
Qed.
Lemma preserves_finally {A} (m : io W A) c : preserves m -> preserves c -> preserves (io_finally m c).
Proof.
  intros Hm Hc w Hw. apply wp_finally. eapply wp_mono; [by apply Hm|]. intros r w' H.
  eapply wp_mono; [by apply Hc|]. by intros [] ?.
Qed.

(** What [m] ends with beyond the invariant. *)
Lemma wp_preserves {A} (m : io W A) (Q : result A -> W -> Prop) w :
  preserves m -> I w -> (forall r w', I w' -> Q r w') -> wp m Q w.
Proof. intros Hm Hw HQ. eapply wp_mono; [by apply Hm|]. auto. Qed.
End preserves.

#[export] Hint Resolve preserves_ret preserves_lift : c3r.

(** One step through a computation built from the combinators. *)
Ltac wp_step :=
  lazymatch goal with
  | |- wp (mbind _ _) _ _ => apply wp_bind
  | |- wp (mret _) _ _ => apply wp_ret
  | |- wp (lift _) _ _ => apply wp_lift
  | |- wp (io_try _ _ _) _ _ => apply wp_try
  | |- wp (io_finally _ _) _ _ => apply wp_finally
  | |- wp (match ?x with _ => _ end) _ _ => destruct x eqn:?
  end.
Ltac wp_steps := repeat wp_step.
