(* ===== verification/PyFloat.v ===== *)
(** * Python floats

    A Python [float] is an IEEE 754 binary64 number.  The development uses the
    Standard Library's executable specification of that format
    ([SpecFloat]), so every comparison and every arithmetic operation rounds,
    overflows and propagates NaN exactly as the interpreter does.  The file
    holds the operations the source uses, the order facts about comparisons
    and the sign facts about arithmetic that the components rely on. *)

From Stdlib Require Import Lia ZArith SpecFloat.
From stdpp Require Import base option strings gmap list.
From S2P Require Import Prelude.

Abbreviation float := spec_float.

Definition prec : Z := 53.
Definition emax : Z := 1024.

Global Instance float_eq_dec : EqDecision float.
Proof. intros x y; unfold Decision; repeat decide equality. Defined.

(** ** Operations *)

Definition fadd (x y : float) : float := SFadd prec emax x y.
Definition fsub (x y : float) : float := SFsub prec emax x y.
Definition fmul (x y : float) : float := SFmul prec emax x y.
Definition fneg (x : float) : float := SFopp x.
Definition fabs (x : float) : float := SFabs x.

(** [x / y]: Python raises where IEEE 754 returns an infinity or NaN. *)
Definition fdiv (x y : float) : result float :=
  match y with
  | S754_zero _ => raise ZeroDivisionError "float division by zero"
  | _ => Ok (SFdiv prec emax x y)
  end.

Definition flt (x y : float) : bool := SFltb x y.
Definition fle (x y : float) : bool := SFleb x y.
Definition feq (x y : float) : bool := SFeqb x y.
Abbreviation fgt x y := (flt y x).
Abbreviation fge x y := (fle y x).

Definition is_nan (x : float) : bool :=
  match x with S754_nan => true | _ => false end.

(** [math.isfinite]. *)
Definition isfinite (x : float) : bool :=
  match x with S754_zero _ | S754_finite _ _ _ => true | _ => false end.

Definition fzero : float := S754_zero false.
Definition finf : float := S754_infinity false.
Definition fninf : float := S754_infinity true.
Definition fnan : float := S754_nan.

(** [float(n)] for a Python int: OverflowError when the rounded value does
    not fit. *)
Definition float_of_Z (n : Z) : float := binary_normalize prec emax n 0 false.

(** The double nearest to [m * 10^e], ties to even: the value of a decimal
    literal. *)
Definition float_of_decimal (m e : Z) : float :=
  match m, e with
  | Z0, _ => S754_zero false
  | _, Zneg p =>
      let '(mz, ez, lz) :=
        SFdiv_core_binary prec emax (Z.abs m) 0 (10 ^ Z.pos p) 0 in
      binary_round_aux prec emax (Z.ltb m 0) mz ez lz
  | _, _ => binary_normalize prec emax (m * 10 ^ e) 0 false
  end.

Definition fone : float := float_of_Z 1.

(** Python's [max(x, y)] and [min(x, y)] on two floats: the first argument
    unless the second one is strictly greater (smaller). *)
Definition fmax (x y : float) : float := if flt x y then y else x.
Definition fmin (x y : float) : float := if flt y x then y else x.

(** [sum(values)] on floats starts from the int 0. *)
Definition fsum (l : list float) : float := fold_left fadd l fzero.

Definition fnonneg (x : float) : bool := fle fzero x.

(** ** Order

    A number that is not NaN is ranked by its class, exponent and mantissa;
    comparison is the lexicographic order of the ranks. *)

Definition frank (x : float) : Z * Z * Z :=
  match x with
  | S754_infinity true => (-2, 0, 0)
  | S754_finite true m e => (-1, - e, - Z.pos m)
  | S754_zero _ | S754_nan => (0, 0, 0)
  | S754_finite false m e => (1, e, Z.pos m)
  | S754_infinity false => (2, 0, 0)
  end%Z.

Definition rank_lt (a b : Z * Z * Z) : Prop :=
  match a, b with
  | (a1, a2, a3), (b1, b2, b3) =>
      (a1 < b1 \/ (a1 = b1 /\ (a2 < b2 \/ (a2 = b2 /\ a3 < b3))))%Z
  end.

Lemma SFcompare_rank x y c :
  SFcompare x y = Some c ->
  match c with
  | Eq => frank x = frank y
  | Lt => rank_lt (frank x) (frank y)
  | Gt => rank_lt (frank y) (frank x)
  end.
Proof.
  destruct x as [sx|sx| |sx mx ex], y as [sy|sy| |sy my ey];
    simpl; try discriminate;
    try (destruct sx); try (destruct sy); intros [= <-]; simpl; try done; try lia.
  - destruct (Z.compare_spec ex ey) as [->|?|?]; simpl; try lia.
    change (Pos.compare_cont Eq mx my) with (Pos.compare mx my).
    destruct (Pos.compare_spec mx my) as [->|?|?]; simpl; [done|lia|lia].
  - destruct (Z.compare_spec ex ey) as [->|?|?]; simpl; try lia.
    change (Pos.compare_cont Eq mx my) with (Pos.compare mx my).
    destruct (Pos.compare_spec mx my) as [->|?|?]; simpl; [done|lia|lia].
Qed.

Lemma SFcompare_total x y :
  is_nan x = false -> is_nan y = false -> exists c, SFcompare x y = Some c.
Proof. destruct x, y; simpl; try discriminate; eauto. Qed.

Lemma SFcompare_nan_l y : SFcompare S754_nan y = None.
Proof. by destruct y. Qed.
Lemma SFcompare_nan_r x : SFcompare x S754_nan = None.
Proof. by destruct x as [| | |[]]. Qed.

Lemma rank_lt_irrefl a : ~ rank_lt a a.
Proof. destruct a as [[? ?] ?]; simpl; lia. Qed.
Lemma rank_lt_trans a b c : rank_lt a b -> rank_lt b c -> rank_lt a c.
Proof. destruct a as [[? ?] ?], b as [[? ?] ?], c as [[? ?] ?]; simpl; lia. Qed.
Lemma rank_lt_total a b : rank_lt a b \/ a = b \/ rank_lt b a.
Proof.
  destruct a as [[a1 a2] a3], b as [[b1 b2] b3]; simpl.
  destruct (Z.lt_total a1 b1) as [?|[->|?]]; [lia| |lia].
  destruct (Z.lt_total a2 b2) as [?|[->|?]]; [lia| |lia].
  destruct (Z.lt_total a3 b3) as [?|[->|?]]; [lia|by right; left|lia].
Qed.

Lemma flt_rank x y :
  flt x y = true <->
  is_nan x = false /\ is_nan y = false /\ rank_lt (frank x) (frank y).
Proof.
  unfold flt, SFltb. split.
  - intros H.
    destruct (is_nan x) eqn:Hx; [destruct x; try discriminate; by rewrite SFcompare_nan_l in H|].
    destruct (is_nan y) eqn:Hy; [destruct y; try discriminate; by rewrite SFcompare_nan_r in H|].
    destruct (SFcompare_total x y Hx Hy) as [c Hc]. rewrite Hc in H.
    apply SFcompare_rank in Hc. by destruct c.
  - intros (Hx & Hy & Hr). destruct (SFcompare_total x y Hx Hy) as [c Hc].
    rewrite Hc. apply SFcompare_rank in Hc. destruct c; [|done|].
    + rewrite Hc in Hr. by apply rank_lt_irrefl in Hr.
    + by destruct (rank_lt_irrefl _ (rank_lt_trans _ _ _ Hr Hc)).
Qed.

Lemma fle_rank x y :
  fle x y = true <->
  is_nan x = false /\ is_nan y = false /\ ~ rank_lt (frank y) (frank x).
Proof.
  unfold fle, SFleb. split.
  - intros H.
    destruct (is_nan x) eqn:Hx; [destruct x; try discriminate; by rewrite SFcompare_nan_l in H|].
    destruct (is_nan y) eqn:Hy; [destruct y; try discriminate; by rewrite SFcompare_nan_r in H|].
    destruct (SFcompare_total x y Hx Hy) as [c Hc]. rewrite Hc in H.
    apply SFcompare_rank in Hc. destruct c; try done; repeat split; intros Hr.
    + rewrite Hc in Hr. by apply rank_lt_irrefl in Hr.
    + by destruct (rank_lt_irrefl _ (rank_lt_trans _ _ _ Hr Hc)).
  - intros (Hx & Hy & Hr). destruct (SFcompare_total x y Hx Hy) as [c Hc].
    rewrite Hc. apply SFcompare_rank in Hc. by destruct c.
Qed.

Lemma feq_rank x y :
  feq x y = true <->
  is_nan x = false /\ is_nan y = false /\ frank x = frank y.
Proof.
  unfold feq, SFeqb. split.
  - intros H.
    destruct (is_nan x) eqn:Hx; [destruct x; try discriminate; by rewrite SFcompare_nan_l in H|].
    destruct (is_nan y) eqn:Hy; [destruct y; try discriminate; by rewrite SFcompare_nan_r in H|].
    destruct (SFcompare_total x y Hx Hy) as [c Hc]. rewrite Hc in H.
    apply SFcompare_rank in Hc. by destruct c.
  - intros (Hx & Hy & Hr). destruct (SFcompare_total x y Hx Hy) as [c Hc].
    rewrite Hc. apply SFcompare_rank in Hc. destruct c; [done| |].
    + rewrite Hr in Hc. by apply rank_lt_irrefl in Hc.
    + rewrite Hr in Hc. by apply rank_lt_irrefl in Hc.
Qed.

Lemma flt_irrefl x : flt x x = false.
Proof.
  destruct (flt x x) eqn:H; [|done].
  apply flt_rank in H as (_ & _ & H). by apply rank_lt_irrefl in H.
Qed.

Lemma flt_trans x y z : flt x y = true -> flt y z = true -> flt x z = true.
Proof.
  rewrite !flt_rank. intros (? & ? & ?) (? & ? & ?).
  repeat split; eauto using rank_lt_trans.
Qed.

Lemma flt_asym x y : flt x y = true -> flt y x = false.
Proof.
  intros H. destruct (flt y x) eqn:H'; [|done].
  pose proof (flt_trans _ _ _ H H') as Hc. by rewrite flt_irrefl in Hc.
Qed.

Lemma fle_refl x : is_nan x = false -> fle x x = true.
Proof. intros. apply fle_rank. eauto using rank_lt_irrefl. Qed.

Lemma fle_trans x y z : fle x y = true -> fle y z = true -> fle x z = true.
Proof.
  rewrite !fle_rank. intros (Hx & Hy & H1) (_ & Hz & H2).
  repeat split; try done. intros H3.
  destruct (rank_lt_total (frank x) (frank y)) as [H|[H|H]].
  - by apply H2, (rank_lt_trans _ (frank x)).
  - rewrite <- H in H2. by apply H2.
  - by apply H1.
Qed.

Lemma flt_fle x y : flt x y = true -> fle x y = true.
Proof.
  rewrite flt_rank, fle_rank. intros (? & ? & H). repeat split; try done.
  intros H'. by apply (rank_lt_irrefl (frank x)), (rank_lt_trans _ (frank y)).
Qed.

Lemma flt_false x y :
  is_nan x = false -> is_nan y = false -> flt x y = false <-> fle y x = true.
Proof.
  intros Hx Hy. rewrite fle_rank. split.
  - intros H. repeat split; try done. intros H'.
    assert (flt x y = true) as Hc by by apply flt_rank. congruence.
  - intros (_ & _ & H). destruct (flt x y) eqn:H'; [|done].
    apply flt_rank in H' as (_ & _ & H'). done.
Qed.

Lemma flt_false_trans x y z :
  is_nan y = false -> flt x y = false -> flt y z = false -> flt x z = false.
Proof.
  intros Hy H1 H2. destruct (flt x z) eqn:H3; [|done].
  pose proof H3 as H3'. apply flt_rank in H3' as (Hx & Hz & _).
  apply (flt_false x y) in H1; [|done|done].
  apply (flt_false y z) in H2; [|done|done].
  pose proof (fle_trans _ _ _ H2 H1) as H4.
  apply flt_false in H4; congruence.
Qed.

Lemma feq_flt x y : feq x y = true -> flt x y = false.
Proof.
  rewrite feq_rank. intros (_ & _ & H). destruct (flt x y) eqn:H'; [|done].
  apply flt_rank in H' as (_ & _ & H'). rewrite H in H'. by apply rank_lt_irrefl in H'.
Qed.

Lemma feq_false_cases x y :
  is_nan x = false -> is_nan y = false -> feq x y = false ->
  flt x y = true \/ flt y x = true.
Proof.
  intros Hx Hy H. destruct (rank_lt_total (frank x) (frank y)) as [Hl|[He|Hl]].
  - left. by apply flt_rank.
  - assert (feq x y = true) by by apply feq_rank. congruence.
  - right. by apply flt_rank.
Qed.

Lemma feq_sym x y : feq x y = feq y x.
Proof. apply eq_true_iff_eq. rewrite !feq_rank. naive_solver. Qed.

Lemma feq_refl x : is_nan x = false -> feq x x = true.
Proof. intros. by apply feq_rank. Qed.

Lemma feq_trans x y z : feq x y = true -> feq y z = true -> feq x z = true.
Proof. rewrite !feq_rank. intros (?&?&->) (?&?&->). done. Qed.

Lemma isfinite_not_nan x : isfinite x = true -> is_nan x = false.
Proof. by destruct x. Qed.

(** ** Signs of rounded results

    Rounding preserves the sign of the exact result and never yields NaN from
    a finite one. *)

Definition has_sign (s : bool) (x : float) : bool :=
  match x with
  | S754_zero s' | S754_infinity s' | S754_finite s' _ _ => Bool.eqb s s'
  | S754_nan => false
  end.

Lemma shr_1_nonneg r : (0 <= shr_m r)%Z -> (0 <= shr_m (shr_1 r))%Z.
Proof. destruct r as [[|[p|p|]|p] ? ?]; simpl; lia. Qed.

Lemma iter_shr_nonneg p r : (0 <= shr_m r)%Z -> (0 <= shr_m (@SpecFloat.iter_pos _ shr_1 p r))%Z.
Proof. revert r; induction p; simpl; eauto using shr_1_nonneg. Qed.

Lemma shr_nonneg r e n : (0 <= shr_m r)%Z -> (0 <= shr_m (fst (shr r e n)))%Z.
Proof. destruct n; simpl; eauto using iter_shr_nonneg. Qed.

Lemma shr_record_of_loc_m m l : shr_m (shr_record_of_loc m l) = m.
Proof. by destruct l as [|[]]. Qed.

Lemma shr_fexp_nonneg m e l :
  (0 <= m)%Z -> (0 <= shr_m (fst (shr_fexp prec emax m e l)))%Z.
Proof. intros. apply shr_nonneg. by rewrite shr_record_of_loc_m. Qed.

Lemma round_nearest_even_nonneg m l : (0 <= m)%Z -> (0 <= round_nearest_even m l)%Z.
Proof. destruct l as [|[]]; simpl; try destruct (Z.even m); lia. Qed.

Lemma binary_round_aux_sign s m e l :
  (0 <= m)%Z -> has_sign s (binary_round_aux prec emax s m e l) = true.
Proof.
  intros Hm. unfold binary_round_aux.
  pose proof (shr_fexp_nonneg m e l Hm) as H1.
  destruct (shr_fexp prec emax m e l) as [r1 e1]. simpl in H1.
  pose proof (shr_fexp_nonneg _ e1 loc_Exact
    (round_nearest_even_nonneg _ (loc_of_shr_record r1) H1)) as H2.
  destruct (shr_fexp _ _ _ e1 loc_Exact) as [r2 e2]. simpl in H2.
  destruct (shr_m r2) as [|p|p]; [by destruct s| |lia].
  by destruct (Z.leb e2 (emax - prec)), s.
Qed.

Lemma binary_round_sign s m e : has_sign s (binary_round prec emax s m e) = true.
Proof.
  unfold binary_round. destruct (shl_align _ _ _) as [mz ez].
  apply binary_round_aux_sign. lia.
Qed.

Lemma binary_normalize_sign m e z :
  has_sign (if Z.ltb m 0 then true else if Z.eqb m 0 then z else false)
    (binary_normalize prec emax m e z) = true.
Proof. destruct m; simpl; [by destruct z | apply binary_round_sign..]. Qed.

Lemma has_sign_not_nan s x : has_sign s x = true -> is_nan x = false.
Proof. by destruct x. Qed.

Lemma has_sign_fnonneg x : has_sign false x = true -> fnonneg x = true.
Proof. by destruct x as [[]|[]| |[] ? ?]. Qed.

Lemma fnonneg_cases x :
  fnonneg x = true ->
  (exists s, x = S754_zero s) \/ x = finf \/ exists m e, x = S754_finite false m e.
Proof. destruct x as [[]|[]| |[] ? ?]; try discriminate; eauto. Qed.

Lemma fnonneg_not_nan x : fnonneg x = true -> is_nan x = false.
Proof. by destruct x. Qed.

Lemma fadd_nonneg x y : fnonneg x = true -> fnonneg y = true -> fnonneg (fadd x y) = true.
Proof.
  intros Hx Hy.
  apply fnonneg_cases in Hx as [[[] ->]|[->|(mx & ex & ->)]];
  apply fnonneg_cases in Hy as [[[] ->]|[->|(my & ey & ->)]]; try done.
  unfold fadd, SFadd. set (m := (_ + _)%Z).
  assert (0 < m)%Z as Hm by (unfold m; simpl; lia).
  pose proof (binary_normalize_sign m (Z.min ex ey) false) as H.
  destruct (Z.ltb_spec m 0); [lia|]. destruct (Z.eqb_spec m 0); [lia|].
  by apply has_sign_fnonneg.
Qed.

Lemma fmul_nonneg_finite x y :
  fnonneg x = true -> fnonneg y = true -> isfinite x = true -> isfinite y = true ->
  fnonneg (fmul x y) = true.
Proof.
  intros Hx Hy Fx Fy.
  apply fnonneg_cases in Hx as [[sx ->]|[->|(mx & ex & ->)]]; try discriminate;
  apply fnonneg_cases in Hy as [[sy ->]|[->|(my & ey & ->)]]; try discriminate;
  try (destruct sx); try (destruct sy); try done.
  unfold fmul, SFmul. apply has_sign_fnonneg, binary_round_aux_sign. lia.
Qed.

(** Subtracting a non-negative number from anything that is neither NaN nor
    positive infinity stays clear of both. *)
Definition below_inf (x : float) : bool :=
  match x with S754_nan | S754_infinity false => false | _ => true end.

Lemma below_inf_not_nan x : below_inf x = true -> is_nan x = false.
Proof. by destruct x. Qed.

Lemma is_nan_fneg x : is_nan (fneg x) = is_nan x.
Proof. by destruct x. Qed.

(** Subtraction yields NaN only from a NaN or from two infinities. *)
Lemma fsub_not_nan x y : is_nan x = false -> isfinite y = true -> is_nan (fsub x y) = false.
Proof.
  intros Hx Hy. destruct x as [sx|sx| |sx mx ex], y as [sy|sy| |sy my ey]; try done;
    try (by destruct sx, sy). 
  unfold fsub, SFsub. simpl.
  eapply has_sign_not_nan, binary_normalize_sign.
Qed.

Lemma fmul_not_nan x y : isfinite x = true -> isfinite y = true -> is_nan (fmul x y) = false.
Proof.
  destruct x as [sx|sx| |sx mx ex], y as [sy|sy| |sy my ey]; try done; intros _ _.
  unfold fmul, SFmul. eapply has_sign_not_nan, binary_round_aux_sign. lia.
Qed.

(** [max(0.0, x)] is never negative and never NaN. *)
Lemma fmax_zero_nonneg x : fnonneg (fmax fzero x) = true.
Proof. unfold fmax. destruct (flt fzero x) eqn:E; [by apply flt_fle|done]. Qed.

(** [x > n] for a float [x] and an int [n]: exact, as the interpreter compares
    them. *)
Definition compare_Z (x : float) (n : Z) : option comparison :=
  match x with
  | S754_nan => None
  | S754_infinity s => Some (if s then Lt else Gt)
  | S754_zero _ => Some (Z.compare 0 n)
  | S754_finite s m e =>
      let v := if s then Z.neg m else Z.pos m in
      Some (if Z.leb 0 e then Z.compare (v * 2 ^ e) n else Z.compare v (n * 2 ^ (- e)))
  end.

Definition fgt_Z (x : float) (n : Z) : bool :=
  match compare_Z x n with Some Gt => true | _ => false end.

Definition fge_Z (x : float) (n : Z) : bool :=
  match compare_Z x n with Some Gt | Some Eq => true | _ => false end.

(** [float(n)] and [math.isfinite(n)] of an int raise OverflowError when the
    rounded value does not fit. *)
Definition int_to_float (n : Z) : result float :=
  if isfinite (float_of_Z n) then Ok (float_of_Z n)
  else raise OverflowError "int too large to convert to float".

(** [int(x)] of a float: truncation towards zero. *)
Definition int_of_float (x : float) : result Z :=
  match x with
  | S754_zero _ => Ok 0%Z
  | S754_finite s m e =>
      let magnitude := if Z.leb 0 e then (Z.pos m * 2 ^ e)%Z else (Z.pos m / 2 ^ (- e))%Z in
      Ok (if s then - magnitude else magnitude)%Z
  | S754_infinity _ => raise OverflowError "cannot convert float infinity to integer"
  | S754_nan => raise ValueError "cannot convert float NaN to integer"
  end.
