(* ===== verification/PySort.v ===== *)
(** * Python's [sorted], [max] and [min]

    [sorted] is a stable sort that only evaluates [<] on the keys.  On keys
    for which [<] is a strict weak order every stable sort returns the same
    list, so it is modelled by stable insertion; the theorems that speak about
    the result carry the strict-weak-order hypothesis, which excludes NaN keys
    (CPython's result then depends on the algorithm).  [max] and [min] return
    the first extremal element, as the interpreter's loop does. *)

From Stdlib Require Import Lia Permutation Sorted.
From stdpp Require Import base option strings gmap sorting list.
From S2P Require Import Prelude.

Section sorting.
Context {A : Type} (lt : A -> A -> bool).

Fixpoint sort_insert (x : A) (l : list A) : list A :=
  match l with
  | [] => [x]
  | y :: l' => if lt y x then y :: sort_insert x l' else x :: l
  end.

Definition sorted_by (l : list A) : list A := foldr sort_insert [] l.

(** [x] may stand before [y] in the result. *)
Definition not_after (x y : A) : Prop := lt y x = false.

Definition max_by (x : A) (l : list A) : A :=
  fold_left (fun best y => if lt best y then y else best) l x.

Definition min_by (x : A) (l : list A) : A :=
  fold_left (fun best y => if lt y best then y else best) l x.

Lemma sort_insert_perm x l : Permutation (sort_insert x l) (x :: l).
Proof.
  induction l as [|y l IH]; simpl; [done|].
  destruct (lt y x); [|done]. rewrite IH. constructor.
Qed.

Lemma sorted_by_perm l : Permutation (sorted_by l) l.
Proof. induction l as [|x l IH]; simpl; [done|]. by rewrite sort_insert_perm, IH. Qed.

Lemma length_sorted_by l : length (sorted_by l) = length l.
Proof. by rewrite sorted_by_perm. Qed.

Lemma elem_of_sorted_by x l : x ∈ sorted_by l <-> x ∈ l.
Proof. by rewrite sorted_by_perm. Qed.

Lemma Forall_sorted_by (P : A -> Prop) l : Forall P (sorted_by l) <-> Forall P l.
Proof. by rewrite sorted_by_perm. Qed.

Lemma max_by_elem x l : max_by x l ∈ x :: l.
Proof.
  unfold max_by. revert x; induction l as [|y l IH]; intros x; simpl; [set_solver|].
  destruct (lt x y); specialize (IH y) as IHy; specialize (IH x); set_solver.
Qed.

Lemma min_by_elem x l : min_by x l ∈ x :: l.
Proof.
  unfold min_by. revert x; induction l as [|y l IH]; intros x; simpl; [set_solver|].
  destruct (lt y x); specialize (IH y) as IHy; specialize (IH x); set_solver.
Qed.

(** [<] restricted to the elements satisfying [P] is a strict weak order. *)
Class StrictWeak (P : A -> Prop) : Prop := {
  sw_asym x y : P x -> P y -> lt x y = true -> lt y x = false;
  sw_neg_trans x y z : P x -> P y -> P z ->
    lt x y = false -> lt y z = false -> lt x z = false }.

Section ordered.
Context (P : A -> Prop) `{!StrictWeak P}.

Lemma sort_insert_Forall (Q : A -> Prop) x l :
  Q x -> Forall Q l -> Forall Q (sort_insert x l).
Proof. intros. rewrite sort_insert_perm. by constructor. Qed.

Lemma sort_insert_sorted x l :
  P x -> Forall P l ->
  StronglySorted not_after l -> StronglySorted not_after (sort_insert x l).
Proof.
  intros Hx Hl Hs. induction Hs as [|y l Hs IH Hy]; simpl.
  - constructor; [constructor|done].
  - apply Forall_cons in Hl as [Py Hl]. destruct (lt y x) eqn:E.
    + constructor; [by apply IH|]. apply sort_insert_Forall; [|done].
      unfold not_after. by apply (sw_asym (P:=P) y x).
    + constructor; [by constructor|]. constructor; [done|].
      rewrite Forall_forall in Hy, Hl |- *. intros z Hz.
      unfold not_after in *. apply (sw_neg_trans z y x); eauto.
Qed.

Lemma sorted_by_sorted l : Forall P l -> StronglySorted not_after (sorted_by l).
Proof.
  induction 1 as [|x l Hx Hl IH]; simpl; [constructor|].
  apply sort_insert_sorted; [done| |done]. by apply Forall_sorted_by.
Qed.

Lemma sort_insert_id x l :
  Forall (not_after x) l -> sort_insert x l = x :: l.
Proof. destruct l as [|y l]; simpl; [done|]. inversion 1; subst. by rewrite H2. Qed.

Lemma sorted_by_id l : StronglySorted not_after l -> sorted_by l = l.
Proof.
  induction 1 as [|x l Hs IH Hx]; simpl; [done|]. rewrite IH. by apply sort_insert_id.
Qed.

(** Sorting twice is sorting once. *)
Lemma sorted_by_idemp l : Forall P l -> sorted_by (sorted_by l) = sorted_by l.
Proof. intros. by apply sorted_by_id, sorted_by_sorted. Qed.

Lemma max_by_upper x l : P x -> Forall P l -> Forall (fun y => lt (max_by x l) y = false) (x :: l).
Proof.
  revert x; induction l as [|y l IH]; intros x Hx Hl; simpl.
  - constructor; [|constructor]. destruct (lt x x) eqn:E; [|done].
    by rewrite (sw_asym (P:=P) x x) in E.
  - apply Forall_cons in Hl as [Hy Hl]. unfold max_by in *; simpl.
    destruct (lt x y) eqn:E.
    + specialize (IH y Hy Hl). apply Forall_cons in IH as [Hm IH].
      constructor; [|by constructor].
      set (m := fold_left _ _ _) in *.
      assert (P m).
      { pose proof (max_by_elem y l) as Hin. unfold max_by in Hin. fold m in Hin.
        apply elem_of_cons in Hin as [->|Hin]; [done|]. by rewrite Forall_forall in Hl; apply Hl. }
      apply (sw_neg_trans m y x); eauto using sw_asym.
    + specialize (IH x Hx Hl). apply Forall_cons in IH as [Hm IH].
      constructor; [done|]. constructor; [|done].
      set (m := fold_left _ _ _) in *.
      assert (P m).
      { pose proof (max_by_elem x l) as Hin. unfold max_by in Hin. fold m in Hin.
        apply elem_of_cons in Hin as [->|Hin]; [done|]. by rewrite Forall_forall in Hl; apply Hl. }
      apply (sw_neg_trans m x y); eauto.
Qed.
End ordered.
End sorting.

(** A prefix of a sorted list ranks before the rest of it. *)
Lemma StronglySorted_take_drop {A} (R : A -> A -> Prop) l n x y :
StronglySorted R l -> x ∈ take n l -> y ∈ drop n l -> R x y.
Proof.
intros Hs; revert n; induction Hs as [|z l Hs IH Hz]; intros [|n]; simpl;
  try set_solver.
  intros Hx Hy. apply elem_of_cons in Hx as [->|Hx]; [|by eapply IH].
  rewrite Forall_forall in Hz. apply Hz.
  rewrite <- (take_drop n l). set_solver.
Qed.

Lemma StronglySorted_take {A} (R : A -> A -> Prop) l n :
  StronglySorted R l -> StronglySorted R (take n l).
Proof.
  intros Hs; revert n; induction Hs as [|z l Hs IH Hz]; intros [|n]; simpl; try constructor.
  - apply IH.
  - by apply Forall_take.
Qed.

(** Sorting commutes with a map that respects the order. *)
Lemma sort_insert_map {A B} (f : A -> B) (lt : A -> A -> bool) (lt' : B -> B -> bool) x l :
  (forall x y, lt' (f x) (f y) = lt x y) ->
  sort_insert lt' (f x) (map f l) = map f (sort_insert lt x l).
Proof.
  intros H. induction l as [|y l IH]; simpl; [done|].
  rewrite H. destruct (lt y x); simpl; [by rewrite IH|done].
Qed.

Lemma sorted_by_map {A B} (f : A -> B) (lt : A -> A -> bool) (lt' : B -> B -> bool) l :
  (forall x y, lt' (f x) (f y) = lt x y) ->
  sorted_by lt' (map f l) = map f (sorted_by lt l).
Proof.
  intros H. unfold sorted_by. induction l as [|x l IH]; simpl; [done|].
  rewrite IH. by apply sort_insert_map.
Qed.

(** Lexicographic comparison of pairs of keys, as Python compares tuples. *)
Lemma strict_weak_lex {A} (P : A -> Prop) (eq1 lt1 lt2 : A -> A -> bool) :
  (forall x y, P x -> P y -> eq1 x y = negb (lt1 x y) && negb (lt1 y x)) ->
  StrictWeak lt1 P -> StrictWeak lt2 P ->
  StrictWeak (fun x y => if eq1 x y then lt2 x y else lt1 x y) P.
Proof.
  intros Heq H1 H2. split.
  - intros x y Px Py. rewrite !Heq by done.
    destruct (lt1 x y) eqn:E1, (lt1 y x) eqn:E2; simpl; try done.
    + by rewrite (sw_asym lt1 (P:=P) x y) in E2.
    + by apply (sw_asym lt2 (P:=P)).
  - intros x y z Px Py Pz. rewrite !Heq by done.
    pose proof (sw_neg_trans lt1 (P:=P) x y z Px Py Pz).
    pose proof (sw_neg_trans lt1 (P:=P) z y x Pz Py Px).
    pose proof (sw_asym lt1 (P:=P) x z Px Pz).
    pose proof (sw_neg_trans lt1 (P:=P) y z x Py Pz Px).
    pose proof (sw_neg_trans lt1 (P:=P) z x y Pz Px Py).
    pose proof (sw_neg_trans lt1 (P:=P) y x z Py Px Pz).
    pose proof (sw_neg_trans lt1 (P:=P) x z y Px Pz Py).
    pose proof (sw_asym lt1 (P:=P) x y Px Py).
    pose proof (sw_asym lt1 (P:=P) y z Py Pz).
    pose proof (sw_neg_trans lt2 (P:=P) x y z Px Py Pz).
    destruct (lt1 x y), (lt1 y x), (lt1 y z), (lt1 z y), (lt1 x z), (lt1 z x); simpl in *;
      intuition congruence.
Qed.

(** A total order sorts every permutation of a list the same way. *)
Lemma sorted_by_permutation {A} (lt : A -> A -> bool) (P : A -> Prop) `{!StrictWeak lt P} l1 l2 :
  (forall x y, P x -> P y -> lt x y = false -> lt y x = false -> x = y) ->
  Forall P l1 -> Permutation l1 l2 -> sorted_by lt l1 = sorted_by lt l2.
Proof.
  intros Htot H1 Hp. assert (Forall P l2) as H2 by by rewrite <- Hp.
  apply (StronglySorted_unique_strong (not_after lt)).
  - intros x y Hx Hy. rewrite elem_of_sorted_by in Hx, Hy. rewrite Forall_forall in H1, H2.
    intros ? ?. apply Htot; auto.
  - by apply (sorted_by_sorted lt P).
  - by apply (sorted_by_sorted lt P).
  - by rewrite !sorted_by_perm.
Qed.

(** Reversing a sorted list sorts it by the converse relation. *)
Lemma StronglySorted_snoc {A} (R : A -> A -> Prop) l x :
  StronglySorted R l -> Forall (fun y => R y x) l -> StronglySorted R (l ++ [x]).
Proof.
  induction 1 as [|y l Hl IH Hy]; simpl; intros Hx; [repeat constructor|].
  apply Forall_cons in Hx as [Hyx Hx]. constructor; [auto|].
  apply Forall_app. split; [done|]. by constructor.
Qed.

Lemma StronglySorted_rev {A} (R : A -> A -> Prop) l :
  StronglySorted R l -> StronglySorted (fun x y => R y x) (rev l).
Proof.
  induction 1 as [|x l Hl IH Hx]; simpl; [constructor|].
  apply StronglySorted_snoc; [done|]. rewrite Forall_forall in *.
  intros y Hy. apply Hx. rewrite <- Permutation_rev in Hy. done.
Qed.
