(* ===== verification/PyStr.v ===== *)
(** * Python strings

    A Python [str] is modelled by a [string] whose characters are code points
    below 256.  Length, equality, order, slicing, [startswith] and [join] are
    those of Python on such strings; [encode("utf-8")] yields one byte for a
    code point below 128 and two bytes otherwise.  Byte strings reuse the same
    type, one character per byte. *)

From Stdlib Require Import Lia ZArith Ascii String.
From stdpp Require Import base option strings gmap list.
From S2P Require Import Prelude PySort.

Local Open Scope string_scope.

#[global] Arguments String.append : simpl nomatch.

Definition len (s : string) : Z := Z.of_nat (String.length s).

Definition nonempty (s : string) : bool :=
  match s with EmptyString => false | _ => true end.

Definition code (c : ascii) : Z := Z.of_N (N_of_ascii c).
Definition chr (n : Z) : ascii := ascii_of_N (Z.to_N n).

Definition in_range (lo hi : Z) (c : ascii) : bool :=
  (Z.leb lo (code c) && Z.leb (code c) hi)%bool.

Fixpoint str_forall (f : ascii -> bool) (s : string) : bool :=
  match s with
  | EmptyString => true
  | String c s' => (f c && str_forall f s')%bool
  end.

(** ** Order of strings: lexicographic by code point *)

Fixpoint str_ltb (s t : string) : bool :=
  match s, t with
  | _, EmptyString => false
  | EmptyString, String _ _ => true
  | String c s', String d t' =>
      if Ascii.eqb c d then str_ltb s' t' else Z.ltb (code c) (code d)
  end.

Lemma code_inj c d : code c = code d -> c = d.
Proof.
  unfold code. intros H. apply N2Z.inj in H.
  rewrite <- (ascii_N_embedding c), <- (ascii_N_embedding d). by rewrite H.
Qed.

Lemma str_ltb_irrefl s : str_ltb s s = false.
Proof. induction s as [|c s IH]; simpl; [done|]. by rewrite Ascii.eqb_refl. Qed.

Lemma str_ltb_trans s t u : str_ltb s t = true -> str_ltb t u = true -> str_ltb s u = true.
Proof.
  revert t u; induction s as [|c s IH]; intros [|d t] [|e u]; simpl; try done.
  destruct (Ascii.eqb_spec c d) as [->|Hcd], (Ascii.eqb_spec d e) as [->|Hde]; eauto.
  - destruct (Ascii.eqb_spec c e); [congruence|]. done.
  - destruct (Ascii.eqb_spec c e) as [->|]; rewrite !Z.ltb_lt; lia.
Qed.

Lemma str_ltb_total s t : str_ltb s t = true \/ s = t \/ str_ltb t s = true.
Proof.
  revert t; induction s as [|c s IH]; intros [|d t]; simpl; auto.
  destruct (Ascii.eqb_spec c d) as [->|Hcd].
  - rewrite Ascii.eqb_refl. destruct (IH t) as [?|[->|?]]; auto.
  - destruct (Ascii.eqb_spec d c) as [->|_]; [done|].
    destruct (Z.lt_total (code c) (code d)) as [H|[H|H]].
    + left. by apply Z.ltb_lt.
    + by apply code_inj in H.
    + right; right. by apply Z.ltb_lt.
Qed.

Lemma str_ltb_asym s t : str_ltb s t = true -> str_ltb t s = false.
Proof.
  intros H. destruct (str_ltb t s) eqn:H'; [|done].
  pose proof (str_ltb_trans _ _ _ H H') as Hc. by rewrite str_ltb_irrefl in Hc.
Qed.

Lemma str_ltb_neg_trans s t u :
  str_ltb s t = false -> str_ltb t u = false -> str_ltb s u = false.
Proof.
  intros H1 H2. destruct (str_ltb s u) eqn:H3; [|done].
  destruct (str_ltb_total s t) as [?|[->|H4]]; [congruence..|].
  pose proof (str_ltb_trans _ _ _ H4 H3). congruence.
Qed.

Global Instance str_ltb_strict_weak P : StrictWeak str_ltb P.
Proof. split; intros *; eauto using str_ltb_asym, str_ltb_neg_trans. Qed.

Lemma str_ltb_strict_weak_on {A} (f : A -> string) P :
  StrictWeak (fun x y => str_ltb (f x) (f y)) P.
Proof. split; intros *; eauto using str_ltb_asym, str_ltb_neg_trans. Qed.

(** ** Methods *)

Definition startswith (s p : string) : bool := String.prefix p s.

(** [str.isspace] on the code points below 256. *)
Definition is_space (c : ascii) : bool :=
  in_range 9 13 c || in_range 28 32 c || in_range 133 133 c || in_range 160 160 c.

Fixpoint lstrip (s : string) : string :=
  match s with
  | EmptyString => EmptyString
  | String c s' => if is_space c then lstrip s' else s
  end.

Fixpoint rstrip (s : string) : string :=
  match s with
  | EmptyString => EmptyString
  | String c s' =>
      match rstrip s' with
      | EmptyString => if is_space c then EmptyString else String c EmptyString
      | r => String c r
      end
  end.

Definition strip (s : string) : string := rstrip (lstrip s).

(** [str.lower]: ASCII and Latin-1 capitals (215 is the multiplication sign). *)
Definition lower_char (c : ascii) : ascii :=
  if in_range 65 90 c || (in_range 192 222 c && negb (in_range 215 215 c))
  then chr (code c + 32) else c.

Fixpoint lower (s : string) : string :=
  match s with
  | EmptyString => EmptyString
  | String c s' => String (lower_char c) (lower s')
  end.

(** [sep.join(parts)]. *)
Fixpoint join (sep : string) (parts : list string) : string :=
  match parts with
  | [] => ""
  | [s] => s
  | s :: parts' => s ++ sep ++ join sep parts'
  end.

(** The line boundaries of [str.splitlines] below 256, [\r] apart. *)
Definition is_line_break (c : ascii) : bool :=
  in_range 10 12 c || in_range 28 30 c || Z.eqb (code c) 133.

Definition is_cr (c : ascii) : bool := Z.eqb (code c) 13.

(** [str.splitlines()]. *)
Fixpoint splitlines (s : string) : list string :=
  match s with
  | EmptyString => []
  | String c s' =>
      if is_cr c then
        match s' with
        | String d s'' => if Z.eqb (code d) 10 then "" :: splitlines s'' else "" :: splitlines s'
        | EmptyString => [""]
        end
      else if is_line_break c then "" :: splitlines s'
      else match splitlines s' with
           | [] => [String c EmptyString]
           | l :: ls => String c l :: ls
           end
  end.

(** [encode("utf-8")]. *)
Fixpoint utf8 (s : string) : string :=
  match s with
  | EmptyString => EmptyString
  | String c s' =>
      if Z.ltb (code c) 128 then String c (utf8 s')
      else String (chr (192 + code c / 64)) (String (chr (128 + code c mod 64)) (utf8 s'))
  end.

Definition is_ascii (s : string) : bool := str_forall (fun c => Z.ltb (code c) 128) s.

Lemma utf8_ascii s : is_ascii s = true -> utf8 s = s.
Proof.
  unfold is_ascii. induction s as [|c s IH]; cbn [str_forall utf8]; [done|].
  intros H. apply andb_true_iff in H as [Hc Hs]. by rewrite Hc, IH.
Qed.

(** [str(n)] of an int: its decimal digits behind an optional sign. *)
Fixpoint digits_of (fuel : nat) (n : Z) : string :=
  match fuel with
  | O => EmptyString
  | S f =>
      let last := String (chr (48 + n mod 10)) EmptyString in
      if Z.ltb n 10 then last else digits_of f (n / 10) ++ last
  end.

Definition str_of_nonneg (n : Z) : string := digits_of (S (Z.to_nat (Z.log2 n))) n.

Definition str_of_Z (n : Z) : string :=
  if Z.ltb n 0 then String "-" (str_of_nonneg (- n)) else str_of_nonneg n.

Definition is_digit (c : ascii) : bool := in_range 48 57 c.

Definition is_hex (c : ascii) : bool := in_range 48 57 c || in_range 97 102 c.

(** [re.fullmatch("[0-9a-f]{64}", s)]. *)
Definition is_hash64 (s : string) : bool := Z.eqb (len s) 64 && str_forall is_hex s.

(** [re.fullmatch("[0-9a-f]{40,64}", s)]. *)
Definition is_revision (s : string) : bool :=
  Z.leb 40 (len s) && Z.leb (len s) 64 && str_forall is_hex s.

Lemma len_app s t : len (s ++ t) = (len s + len t)%Z.
Proof.
  unfold len. rewrite <- Nat2Z.inj_add. f_equal.
  induction s as [|c s IH]; simpl; [done|]. by rewrite IH.
Qed.

Lemma len_nonneg s : (0 <= len s)%Z.
Proof. unfold len. lia. Qed.

Lemma str_app_assoc (a b c : string) : (a ++ b) ++ c = a ++ (b ++ c).
Proof. induction a as [|x a IH]; simpl; [done|]. by rewrite IH. Qed.

Lemma str_app_nil_r (a : string) : a ++ "" = a.
Proof. induction a as [|x a IH]; simpl; [done|]. by rewrite IH. Qed.

Lemma str_app_inj_l (a b c : string) : a ++ b = a ++ c -> b = c.
Proof. induction a as [|x a IH]; simpl; [done|]. intros [= H]. auto. Qed.

(** Strings of equal length decompose a concatenation uniquely. *)
Lemma str_app_inj_len (a a' b b' : string) :
  len a = len a' -> a ++ b = a' ++ b' -> a = a' /\ b = b'.
Proof.
  unfold len. revert a'; induction a as [|x a IH]; intros [|y a']; simpl; try lia; [done|].
  intros Hl [= -> H]. destruct (IH a' ltac:(lia) H) as [-> ->]. done.
Qed.

(** [encode("utf-8")] determines the text. *)
Lemma utf8_inj s t : utf8 s = utf8 t -> s = t.
Proof.
  assert (Hc : forall n, (0 <= n < 256)%Z -> code (chr n) = n).
  { intros n Hn. unfold code, chr.
    rewrite N_ascii_embedding by (apply N2Z.inj_lt; rewrite Z2N.id by lia; simpl; lia).
    apply Z2N.id. lia. }
  assert (Hr : forall c, (0 <= code c < 256)%Z).
  { intros c. unfold code. pose proof (N_ascii_bounded c) as Hb.
    apply N2Z.inj_lt in Hb. simpl in Hb. split; [apply N2Z.is_nonneg|done]. }
  revert t; induction s as [|c s IH]; intros [|d t]; cbn [utf8]; [done|..].
  - by destruct (Z.ltb (code d) 128).
  - by destruct (Z.ltb (code c) 128).
  - pose proof (Hr c) as Rc. pose proof (Hr d) as Rd.
    assert (forall n, (0 <= n < 256)%Z -> (0 <= n / 64 < 4)%Z) as Hdiv
      by (intros; split; [apply Z.div_pos; lia | apply Z.div_lt_upper_bound; lia]).
    pose proof (Hdiv _ Rc). pose proof (Hdiv _ Rd).
    pose proof (Z.mod_pos_bound (code c) 64 ltac:(lia)).
    pose proof (Z.mod_pos_bound (code d) 64 ltac:(lia)).
    pose proof (Z.div_mod (code c) 64 ltac:(lia)). pose proof (Z.div_mod (code d) 64 ltac:(lia)).
    assert (forall x y, chr x = y -> (0 <= x < 256)%Z -> x = code y) as Hinv by (intros x y <- ?; by rewrite Hc).
    destruct (Z.ltb_spec (code c) 128), (Z.ltb_spec (code d) 128).
    + intros [= -> H']. f_equal. auto.
    + intros [= H' _]. symmetry in H'. apply Hinv in H'; lia.
    + intros [= H' _]. apply Hinv in H'; lia.
    + intros [= H1' H2' H3']. apply Hinv in H1'; [|lia]. rewrite Hc in H1' by lia.
      apply Hinv in H2'; [|lia]. rewrite Hc in H2' by lia.
      f_equal; [|auto]. apply code_inj. lia.
Qed.

(** ** Separators *)

Definition no_char (c : ascii) (s : string) : bool := str_forall (fun d => negb (Ascii.eqb c d)) s.

Lemma str_app_split (c : ascii) a a' b b' :
  no_char c a = true -> no_char c a' = true ->
  a ++ String c b = a' ++ String c b' -> a = a' /\ b = b'.
Proof.
  unfold no_char. revert a'; induction a as [|x a IH]; intros [|y a']; cbn; intros Ha Ha' H.
  - by injection H as <-.
  - injection H as <- _. by rewrite Ascii.eqb_refl in Ha'.
  - injection H as -> _. by rewrite Ascii.eqb_refl in Ha.
  - injection H as -> H. apply andb_true_iff in Ha as [_ Ha], Ha' as [_ Ha'].
    by destruct (IH a' Ha Ha' H) as [-> ->].
Qed.

(** Joining with a one-character separator is injective on lists of the same
    length whose elements, the last one apart, do not contain it. *)
Lemma join_inj (c : ascii) l1 l2 :
  length l1 = length l2 ->
  Forall (fun s => no_char c s = true) (removelast l1) ->
  Forall (fun s => no_char c s = true) (removelast l2) ->
  join (String c EmptyString) l1 = join (String c EmptyString) l2 -> l1 = l2.
Proof.
  revert l2; induction l1 as [|s1 l1 IH]; intros [|s2 l2] Hlen; try done.
  destruct l1 as [|t1 l1], l2 as [|t2 l2]; try done.
  - cbn. by intros _ _ ->.
  - intros H1 H2 H. cbn [removelast] in H1, H2.
    apply Forall_cons in H1 as [Hs1 H1]. apply Forall_cons in H2 as [Hs2 H2].
    apply (str_app_split c) in H as [-> H]; [|done..]. f_equal. apply IH; auto.
Qed.

(** ** Lines *)

Definition one_line (s : string) : bool := str_forall (fun c => negb (is_cr c || is_line_break c)) s.

Lemma splitlines_one s : one_line s = true -> s <> "" -> splitlines s = [s].
Proof.
  unfold one_line. induction s as [|c s IH]; [done|]. cbn [str_forall splitlines]. intros H _.
  apply andb_true_iff in H as [Hc Hs]. apply negb_true_iff, orb_false_iff in Hc as [-> ->].
  destruct s as [|d s]; [done|]. by rewrite IH.
Qed.

Lemma splitlines_cons s rest :
  one_line s = true -> splitlines (s ++ String "010" rest) = s :: splitlines rest.
Proof.
  unfold one_line. induction s as [|c s IH]; [done|]. cbn [str_forall String.append splitlines].
  intros H. apply andb_true_iff in H as [Hc Hs]. apply negb_true_iff, orb_false_iff in Hc as [-> ->].
  by rewrite IH.
Qed.

(** Joining non-empty single lines with newlines and splitting again. *)
Lemma splitlines_join l :
  Forall (fun s => one_line s = true /\ s <> "") l ->
  splitlines (join (String "010" EmptyString) l) = l.
Proof.
  induction 1 as [|s l [Hs Hne] Hl IH]; [done|]. destruct l as [|t l]; cbn [join].
  - by apply splitlines_one.
  - change (s ++ String "010" "" ++ ?r) with (s ++ String "010" r).
    rewrite splitlines_cons by done. f_equal. exact IH.
Qed.

Lemma str_forall_impl (f g : ascii -> bool) s :
  (forall c, f c = true -> g c = true) -> str_forall f s = true -> str_forall g s = true.
Proof.
  intros H. induction s as [|c s IH]; [done|]. cbn. intros Hs. apply andb_true_iff in Hs as [Hc Hs].
  by rewrite (H c Hc), IH.
Qed.

Lemma str_forall_app f s t : str_forall f (s ++ t) = str_forall f s && str_forall f t.
Proof. induction s as [|c s IH]; cbn; [done|]. by rewrite IH, andb_assoc. Qed.

Lemma lstrip_head c s : is_space c = false -> lstrip (String c s) = String c s.
Proof. cbn [lstrip]. by intros ->. Qed.

Lemma rstrip_nonempty c s : is_space c = false -> rstrip (String c s) <> "".
Proof. intros H. cbn [rstrip]. destruct (rstrip s); [by rewrite H|done]. Qed.
