(* ===== verification/Hash.v ===== *)
(** * [hashlib.sha256] and [hmac]

    An executable SHA-256 (FIPS 180-4) and HMAC-SHA-256 (RFC 2104) on byte
    strings, and [hexdigest].  The digests are the real ones: the test vectors
    at the end of the file are checked by computation.  The components treat
    [sha256_hex] as a black box; the theorems that need collision freedom state
    it for the finite set of messages at hand. *)

From Stdlib Require Import Lia NArith ZArith Ascii String.
From stdpp Require Import base option strings gmap list.
From S2P Require Import Prelude PyStr.

Local Open Scope N_scope.

Module Sha256.

Definition mask : N := 0xffffffff.
Definition wadd (a b : N) : N := N.land (a + b) mask.
Definition rotr (n x : N) : N :=
  N.lor (N.shiftr x n) (N.land (N.shiftl x (32 - n)) mask).

Definition choose (e f g : N) : N :=
  N.lxor (N.land e f) (N.land (N.lxor e mask) g).
Definition majority (a b c : N) : N :=
  N.lxor (N.land a b) (N.lxor (N.land a c) (N.land b c)).
Definition big_sigma0 (a : N) : N := N.lxor (rotr 2 a) (N.lxor (rotr 13 a) (rotr 22 a)).
Definition big_sigma1 (e : N) : N := N.lxor (rotr 6 e) (N.lxor (rotr 11 e) (rotr 25 e)).
Definition small_sigma0 (x : N) : N := N.lxor (rotr 7 x) (N.lxor (rotr 18 x) (N.shiftr x 3)).
Definition small_sigma1 (x : N) : N := N.lxor (rotr 17 x) (N.lxor (rotr 19 x) (N.shiftr x 10)).

(** FIPS 180-4, 4.2.2 and 5.3.3: the first 32 bits of the fractional parts of
    the cube roots of the first 64 primes, and of the square roots of the first
    eight. *)
Definition primes : list N :=
  filter (fun n => forallb (fun d => negb (N.eqb (N.modulo n (N.of_nat d)) 0))
                           (seq 2 (N.to_nat n - 2)))
         (map N.of_nat (seq 2 310)).

(** The largest [r] below [2 ^ bits] with [r ^ 3 <= n], bit by bit. *)
Fixpoint cube_root_bits (bits : nat) (n r : N) : N :=
  match bits with
  | O => r
  | S b =>
      let r' := r + N.shiftl 1 (N.of_nat b) in
      cube_root_bits b n (if N.leb (r' * r' * r') n then r' else r)
  end.

Definition round_constants : list N :=
  Eval vm_compute in
    map (fun p => N.land (cube_root_bits 36 (N.shiftl p 96) 0) mask) primes.

Record regs : Type := Regs { ra : N; rb : N; rc : N; rd : N; re : N; rf : N; rg : N; rh : N }.

Definition regs_of (l : list N) : regs :=
  let at_ i := nth i l 0 in
  Regs (at_ 0%nat) (at_ 1%nat) (at_ 2%nat) (at_ 3%nat)
       (at_ 4%nat) (at_ 5%nat) (at_ 6%nat) (at_ 7%nat).

Definition initial : regs :=
  Eval vm_compute in
    regs_of (map (fun p => N.land (N.sqrt (N.shiftl p 64)) mask) (firstn 8 primes)).

(** The message schedule, newest word first. *)
Fixpoint extend (n : nat) (w : list N) : list N :=
  match n with
  | O => w
  | S n' =>
      let wt := wadd (wadd (small_sigma1 (nth 1 w 0)) (nth 6 w 0))
                     (wadd (small_sigma0 (nth 14 w 0)) (nth 15 w 0)) in
      extend n' (wt :: w)
  end.

Definition schedule (block : list N) : list N := rev (extend 48 (rev block)).

Definition step (r : regs) (kw : N * N) : regs :=
  let '(Regs a b c d e f g h) := r in
  let t1 := wadd (wadd h (big_sigma1 e)) (wadd (choose e f g) (wadd (fst kw) (snd kw))) in
  let t2 := wadd (big_sigma0 a) (majority a b c) in
  Regs (wadd t1 t2) a b c (wadd d t1) e f g.

Definition compress (r : regs) (block : list N) : regs :=
  let r' := fold_left step (combine round_constants (schedule block)) r in
  Regs (wadd (ra r) (ra r')) (wadd (rb r) (rb r')) (wadd (rc r) (rc r')) (wadd (rd r) (rd r'))
       (wadd (re r) (re r')) (wadd (rf r) (rf r')) (wadd (rg r) (rg r')) (wadd (rh r) (rh r')).

(** Big-endian bytes of an [n]-byte number, and 32-bit words of a byte list. *)
Fixpoint be_bytes (n : nat) (x : N) : list N :=
  match n with
  | O => []
  | S n' => N.land (N.shiftr x (8 * N.of_nat n')) 255 :: be_bytes n' x
  end.

Fixpoint words (bs : list N) : list N :=
  match bs with
  | b0 :: b1 :: b2 :: b3 :: rest =>
      N.lor (N.shiftl b0 24) (N.lor (N.shiftl b1 16) (N.lor (N.shiftl b2 8) b3)) :: words rest
  | _ => []
  end.

Definition pad (bs : list N) : list N :=
  let n := length bs in
  let zeros := Nat.modulo (119 - Nat.modulo n 64) 64 in
  bs ++ 128 :: replicate zeros 0 ++ be_bytes 8 (8 * N.of_nat n).

Fixpoint blocks (fuel : nat) (ws : list N) : list (list N) :=
  match fuel, ws with
  | S fuel', _ :: _ => take 16 ws :: blocks fuel' (drop 16 ws)
  | _, _ => []
  end.

Definition digest (bs : list N) : list N :=
  let ws := words (pad bs) in
  let '(Regs a b c d e f g h) := fold_left compress (blocks (length ws) ws) initial in
  concat (map (be_bytes 4) [a; b; c; d; e; f; g; h]).

End Sha256.

Definition bytes_of_string (s : string) : list N := map N_of_ascii (String.list_ascii_of_string s).
Definition string_of_bytes (bs : list N) : string := String.string_of_list_ascii (map ascii_of_N bs).

Definition hex_digit (n : N) : ascii :=
  if n <? 10 then ascii_of_N (48 + n) else ascii_of_N (87 + n).

(** [bytes.hex()]. *)
Fixpoint hex (bs : list N) : string :=
  match bs with
  | [] => EmptyString
  | b :: bs' => String (hex_digit (N.shiftr b 4)) (String (hex_digit (N.land b 15)) (hex bs'))
  end.

(** [hashlib.sha256(data).hexdigest()] on the bytes of [data]. *)
Definition sha256_hex (data : string) : string := hex (Sha256.digest (bytes_of_string data)).

Definition hmac_sha256 (key data : list N) : list N :=
  let k0 := if (64 <? length key)%nat then Sha256.digest key else key in
  let k := k0 ++ replicate (64 - length k0)%nat 0 in
  Sha256.digest (map (N.lxor 0x5c) k ++ Sha256.digest (map (N.lxor 0x36) k ++ data)).

(** [hmac.new(key, data, hashlib.sha256).hexdigest()]. *)
Definition hmac_sha256_hex (key data : string) : string :=
  hex (hmac_sha256 (bytes_of_string key) (bytes_of_string data)).

(** [hmac.compare_digest]: constant-time equality. *)
Definition compare_digest (a b : string) : bool := String.eqb a b.

(** On [str] arguments it raises TypeError unless both are ASCII. *)
Definition compare_digest_str (a b : string) : result bool :=
  if is_ascii a && is_ascii b then Ok (compare_digest a b)
  else raise TypeError "comparing strings with non-ASCII characters is not supported".

(** A digest is 64 lowercase hexadecimal characters. *)

Lemma length_be_bytes n x : length (Sha256.be_bytes n x) = n.
Proof. induction n; simpl; auto. Qed.

Lemma length_digest bs : length (Sha256.digest bs) = 32%nat.
Proof.
  unfold Sha256.digest. destruct (fold_left _ _ _).
  cbn [map concat]. rewrite !length_app, !length_be_bytes. done.
Qed.

Lemma be_bytes_small n x : Forall (fun b => b < 256) (Sha256.be_bytes n x).
Proof.
  induction n as [|n IH]; cbn [Sha256.be_bytes]; constructor; [|done].
  change 255 with (N.ones 8). rewrite N.land_ones. by apply N.mod_lt.
Qed.

Lemma digest_small bs : Forall (fun b => b < 256) (Sha256.digest bs).
Proof.
  unfold Sha256.digest. destruct (fold_left _ _ _).
  apply Forall_concat. repeat (apply Forall_cons; split; [apply be_bytes_small|]).
  apply Forall_nil_2.
Qed.

Lemma hex_digit_is_hex n : n < 16 -> is_hex (hex_digit n) = true.
Proof.
  intros H. destruct n as [|p]; [done|].
  do 4 (destruct p as [p|p|]; try done); lia.
Qed.

Lemma hex_chars bs : Forall (fun b => b < 256) bs -> str_forall is_hex (hex bs) = true.
Proof.
  induction 1 as [|b bs Hb _ IH]; cbn [hex str_forall]; [done|].
  rewrite IH, !hex_digit_is_hex; [done| |].
  - change 15 with (N.ones 4). rewrite N.land_ones. by apply N.mod_lt.
  - rewrite N.shiftr_div_pow2. apply N.Div0.div_lt_upper_bound. simpl. lia.
Qed.

Lemma len_hex bs : len (hex bs) = (2 * Z.of_nat (length bs))%Z.
Proof. unfold len. induction bs; cbn [hex String.length length]; lia. Qed.

Lemma digest_is_hash64 bs : is_hash64 (hex (Sha256.digest bs)) = true.
Proof.
  unfold is_hash64. rewrite len_hex, length_digest, hex_chars; [done|]. apply digest_small.
Qed.

Lemma sha256_hex_is_hash64 s : is_hash64 (sha256_hex s) = true.
Proof. apply digest_is_hash64. Qed.

Lemma hmac_sha256_hex_is_hash64 k s : is_hash64 (hmac_sha256_hex k s) = true.
Proof. apply digest_is_hash64. Qed.

Lemma compare_digest_eq a b : compare_digest a b = true <-> a = b.
Proof. apply String.eqb_eq. Qed.

(** Test vectors: the empty string, FIPS 180-4's ["abc"], RFC 4231's case 2. *)
Example sha256_empty :
  sha256_hex "" = "e3b0c44298fc1c149afbf4c8996fb92427ae41e4649b934ca495991b7852b855"%string.
Proof. vm_compute. reflexivity. Qed.

Example sha256_abc :
  sha256_hex "abc" = "ba7816bf8f01cfea414140de5dae2223b00361a396177a9cb410ff61f20015ad"%string.
Proof. vm_compute. reflexivity. Qed.

Example hmac_rfc4231_2 :
  hmac_sha256_hex "Jefe" "what do ya want for nothing?"
  = "5bdcc146bf60754e6a042426089575c75a003f089d2739839dec58b964ec3843"%string.
Proof. vm_compute. reflexivity. Qed.

(** Conversion unfolds a digest only as a last resort. *)
#[global] Strategy 1000 [sha256_hex hmac_sha256_hex].
