(* ===== verification/FloatRepr.v ===== *)
(** * [float.__repr__] and [float(text)]

    The shortest decimal that rounds to the given double, laid out as the
    interpreter does, and the reading of a decimal literal.  Both are
    executable; [repr_round_trips] is the decidable fact that reading the
    printed digits gives the float back, which the JSON round trip relies on. *)

From Stdlib Require Import Lia ZArith Ascii String SpecFloat.
From stdpp Require Import base option strings gmap list.
From S2P Require Import Prelude PyStr PyFloat.

Local Open Scope string_scope.
Local Open Scope Z_scope.

(** The value of [m * 2^e] as a ratio, and comparison with a power of ten. *)
Definition ratio_num (m : positive) (e : Z) : Z := Z.pos m * 2 ^ (Z.max e 0).
Definition ratio_den (e : Z) : Z := 2 ^ (Z.max (- e) 0).

Definition ge_pow10 (num den j : Z) : bool :=
  if 0 <=? j then 10 ^ j * den <=? num else den <=? num * 10 ^ (- j).

(** The position of the decimal point: [10^(k-1) <= v < 10^k]. *)
Fixpoint find_decpt (fuel : nat) (num den k : Z) : Z :=
  match fuel with
  | O => k
  | S f =>
      if ge_pow10 num den k then find_decpt f num den (k + 1)
      else if ge_pow10 num den (k - 1) then k
      else find_decpt f num den (k - 1)
  end.

Definition decpt_of (m : positive) (e : Z) : Z :=
  let num := ratio_num m e in let den := ratio_den e in
  find_decpt 8 num den ((Z.log2 (Z.pos m) + e) * 30103 / 100000 + 1).

(** The [n]-digit decimals around [v], nearest first, as mantissas of
    [10^(k-n)]. *)
Definition candidates (num den k n : Z) : list Z :=
  let p := n - k in
  let a := if 0 <=? p then num * 10 ^ p else num in
  let b := if 0 <=? p then den else den * 10 ^ (- p) in
  let q := a / b in
  let r := a mod b in
  if 2 * r <? b then [q; q + 1]
  else if b <? 2 * r then [q + 1; q]
  else if Z.even q then [q; q + 1] else [q + 1; q].

Fixpoint shortest (fuel : nat) (x : float) (num den k n : Z) : Z * Z :=
  match fuel with
  | O => (hd 0 (candidates num den k 17), k - 17)
  | S f =>
      match find (fun d => bool_decide (float_of_decimal d (k - n) = x))
                 (candidates num den k n) with
      | Some d => (d, k - n)
      | None => shortest f x num den k (n + 1)
      end
  end.

Definition zeros (n : Z) : string := String.concat "" (repeat "0" (Z.to_nat n)).

Fixpoint strip_zeros (s : string) : string :=
  match s with
  | EmptyString => EmptyString
  | String c s' =>
      match strip_zeros s' with
      | EmptyString => if Ascii.eqb c "0" then EmptyString else String c EmptyString
      | r => String c r
      end
  end.

Definition take_str (n : Z) (s : string) : string := String.substring 0 (Z.to_nat n) s.
Definition drop_str (n : Z) (s : string) : string :=
  String.substring (Z.to_nat n) (String.length s - Z.to_nat n) s.

(** Digits [ds] with the decimal point at [k]: [0.ds * 10^k]. *)
Definition layout (ds : string) (k : Z) : string :=
  let nd := len ds in
  if (k <=? -4) || (16 <? k) then
    let ex := k - 1 in
    let frac := drop_str 1 ds in
    let mant := if nonempty frac then take_str 1 ds ++ "." ++ frac else take_str 1 ds in
    let digits := str_of_Z (Z.abs ex) in
    mant ++ "e" ++ (if ex <? 0 then "-" else "+")
      ++ (if len digits <? 2 then "0" ++ digits else digits)
  else if k <=? 0 then "0." ++ zeros (- k) ++ ds
  else if nd <=? k then ds ++ zeros (k - nd) ++ ".0"
  else take_str k ds ++ "." ++ drop_str k ds.

Definition float_repr (x : float) : string :=
  match x with
  | S754_nan => "nan"
  | S754_infinity false => "inf"
  | S754_infinity true => "-inf"
  | S754_zero false => "0.0"
  | S754_zero true => "-0.0"
  | S754_finite s m e =>
      let num := ratio_num m e in
      let den := ratio_den e in
      let k := decpt_of m e in
      let '(d, p) := shortest 17 (S754_finite false m e) num den k 1 in
      let ds := str_of_Z d in
      let text := layout (strip_zeros ds) (p + len ds) in
      if s then "-" ++ text else text
  end.

(** ** Reading a number token *)

Fixpoint span_digits (s : string) : string * string :=
  match s with
  | String c s' =>
      if is_digit c then let '(a, b) := span_digits s' in (String c a, b) else ("", s)
  | EmptyString => ("", "")
  end.

Fixpoint digits_value (acc : Z) (s : string) : Z :=
  match s with
  | EmptyString => acc
  | String c s' => digits_value (acc * 10 + (code c - 48)) s'
  end.

(** [(-?(?:0|[1-9][0-9]* ))([.][0-9]+)?([eE][-+]?[0-9]+)?], the token json's
    scanner reads: sign, integer digits, fraction digits, exponent. *)
Record number_token : Type := NumberToken {
  nt_neg : bool; nt_int : string; nt_frac : option string; nt_exp : option Z }.

Definition lex_int (s : string) : option (string * string) :=
  let '(ds, rest) := span_digits s in
  match ds with
  | EmptyString => None
  | String c ds' =>
      if Ascii.eqb c "0" then
        (* a leading zero is a token by itself *)
        Some ("0", ds' ++ rest)
      else Some (ds, rest)
  end.

Definition lex_frac (s : string) : option string * string :=
  match s with
  | String c s' =>
      if Ascii.eqb c "." then
        match span_digits s' with
        | (EmptyString, _) => (None, s)
        | (ds, rest) => (Some ds, rest)
        end
      else (None, s)
  | EmptyString => (None, s)
  end.

Definition lex_exp (s : string) : option Z * string :=
  match s with
  | String c s' =>
      if Ascii.eqb c "e" || Ascii.eqb c "E" then
        let '(sg, t) :=
          match s' with
          | String d t =>
              if Ascii.eqb d "-" then (-1, t) else if Ascii.eqb d "+" then (1, t) else (1, s')
          | EmptyString => (1, s')
          end in
        match span_digits t with
        | (EmptyString, _) => (None, s)
        | (ds, rest) => (Some (sg * digits_value 0 ds), rest)
        end
      else (None, s)
  | EmptyString => (None, s)
  end.

Definition lex_number (s : string) : option (number_token * string) :=
  let '(neg, t) :=
    match s with
    | String c t => if Ascii.eqb c "-" then (true, t) else (false, s)
    | EmptyString => (false, s)
    end in
  match lex_int t with
  | None => None
  | Some (ids, r1) =>
      let '(fr, r2) := lex_frac r1 in
      let '(ex, r3) := lex_exp r2 in
      Some (NumberToken neg ids fr ex, r3)
  end.

(** [float(text)] of a token: correctly rounded, keeping the sign of zero. *)
Definition token_float (t : number_token) : float :=
  let fr := default "" (nt_frac t) in
  let x := float_of_decimal (digits_value 0 (nt_int t ++ fr)) (default 0 (nt_exp t) - len fr) in
  if nt_neg t then fneg x else x.

Definition token_int (t : number_token) : Z :=
  let n := digits_value 0 (nt_int t) in if nt_neg t then - n else n.

(** Reading the printed float gives it back. *)
Definition repr_round_trips (x : float) : bool :=
  match lex_number (float_repr x) with
  | Some (t, EmptyString) =>
      bool_decide (token_float t = x)
      && (match nt_frac t, nt_exp t with None, None => false | _, _ => true end)
  | _ => false
  end.

(** ** Properties of the number scanner *)

Lemma chr_code n : (0 <= n < 256)%Z -> code (chr n) = n.
Proof.
  intros H. unfold code, chr. rewrite N_ascii_embedding by lia. lia.
Qed.

Lemma digits_value_snoc acc s c :
  digits_value acc (s ++ String c "") = digits_value acc s * 10 + (code c - 48).
Proof. revert acc; induction s as [|d s IH]; intros acc; simpl; [done|]. apply IH. Qed.

Lemma digit_char n : 0 <= n < 10 -> is_digit (chr (48 + n)) = true.
Proof. intros H. unfold is_digit, in_range. rewrite chr_code by lia. lia. Qed.

Lemma digits_of_spec fuel n :
  0 <= n < 10 ^ Z.of_nat fuel -> (0 < fuel)%nat ->
  str_forall is_digit (digits_of fuel n) = true
  /\ digits_value 0 (digits_of fuel n) = n
  /\ exists c t, digits_of fuel n = String c t
       /\ (n = 0 -> t = "") /\ (0 < n -> code c <> 48).
Proof.
  revert n; induction fuel as [|f IH]; intros n Hn Hf; [lia|].
  cbn [digits_of]. pose proof (Z.mod_pos_bound n 10 ltac:(lia)) as Hm.
  destruct (Z.ltb_spec n 10) as [Hlt|Hge].
  - rewrite Z.mod_small in * by lia. cbn [str_forall digits_value].
    rewrite digit_char, chr_code by lia. repeat split; [lia|].
    do 2 eexists; split; [done|]. rewrite chr_code by lia. split; [done|lia].
  - assert (0 < f)%nat as Hf'.
    { destruct f; [|lia]. simpl in Hn. lia. }
    assert (0 <= n / 10 < 10 ^ Z.of_nat f) as Hd.
    { split; [apply Z.div_pos; lia|]. apply Z.div_lt_upper_bound; [lia|].
      rewrite Nat2Z.inj_succ, Z.pow_succ_r in Hn by lia. lia. }
    destruct (IH (n / 10) Hd Hf') as (H1 & H2 & c & t & Hc & _ & H3).
    rewrite str_forall_app, digits_value_snoc, H1, H2. cbn [str_forall].
    rewrite digit_char, chr_code by lia. repeat split.
    + pose proof (Z.div_mod n 10). lia.
    + rewrite Hc. exists c, (t ++ String (chr (48 + n mod 10)) ""). repeat split; [lia|].
      intros _. apply H3. apply Z.div_str_pos. lia.
Qed.

Lemma str_of_nonneg_spec n :
  0 <= n ->
  str_forall is_digit (str_of_nonneg n) = true
  /\ digits_value 0 (str_of_nonneg n) = n
  /\ exists c t, str_of_nonneg n = String c t
       /\ (n = 0 -> t = "") /\ (0 < n -> code c <> 48).
Proof.
  intros H. apply digits_of_spec; [|lia]. split; [done|].
  destruct (Z.eq_dec n 0) as [->|Hn]; [vm_compute; done|].
  destruct (Z.log2_spec n ltac:(lia)) as [_ Hlog].
  rewrite Nat2Z.inj_succ, Z2Nat.id by apply Z.log2_nonneg.
  eapply Z.lt_le_trans; [exact Hlog|].
  apply Z.pow_le_mono_l. lia.
Qed.

(** [r] cannot continue a number token. *)
Definition number_stop (r : string) : bool :=
  match r with
  | String c _ => negb (is_digit c || Ascii.eqb c "." || Ascii.eqb c "e" || Ascii.eqb c "E")
  | EmptyString => true
  end.

Definition digit_stop (r : string) : bool :=
  match r with String c _ => negb (is_digit c) | EmptyString => true end.

Lemma number_stop_digit_stop r : number_stop r = true -> digit_stop r = true.
Proof. destruct r; simpl; [done|]. intros H. bool_hyps. by rewrite H. Qed.

Lemma span_digits_all s r :
  str_forall is_digit s = true -> digit_stop r = true -> span_digits (s ++ r) = (s, r).
Proof.
  induction s as [|c s IH]; simpl.
  - intros _. destruct r as [|d r]; simpl; [done|]. by destruct (is_digit d).
  - intros H Hr. bool_hyps. rewrite H. by rewrite IH.
Qed.

Lemma span_digits_spec s a b :
  span_digits s = (a, b) -> s = a ++ b /\ str_forall is_digit a = true /\ digit_stop b = true.
Proof.
  revert a b; induction s as [|c s IH]; intros a b; simpl; [by intros [= <- <-]|].
  destruct (is_digit c) eqn:E.
  - destruct (span_digits s) as [a' b'] eqn:E'. intros [= <- <-].
    destruct (IH a' b' eq_refl) as (-> & Ha & Hb). simpl. by rewrite E, Ha.
  - intros [= <- <-]. simpl. by rewrite E.
Qed.

Lemma digit_stop_app b r : digit_stop b = true -> digit_stop r = true -> digit_stop (b ++ r) = true.
Proof. by destruct b. Qed.

Lemma span_digits_app s a b r :
  span_digits s = (a, b) -> digit_stop r = true -> span_digits (s ++ r) = (a, b ++ r).
Proof.
  intros H Hr. apply span_digits_spec in H as (-> & Ha & Hb).
  rewrite str_app_assoc. apply span_digits_all; [done|]. by apply digit_stop_app.
Qed.

Lemma lex_int_app s d b r :
  lex_int s = Some (d, b) -> digit_stop r = true -> lex_int (s ++ r) = Some (d, b ++ r).
Proof.
  unfold lex_int. destruct (span_digits s) as [a b'] eqn:E. intros H Hr.
  rewrite (span_digits_app _ _ _ _ E Hr). destruct a as [|c a]; [done|].
  destruct (Ascii.eqb c "0"); injection H as <- <-; [by rewrite str_app_assoc|done].
Qed.

Lemma lex_frac_app s f b r :
  lex_frac s = (f, b) -> number_stop r = true -> lex_frac (s ++ r) = (f, b ++ r).
Proof.
  intros H Hr. pose proof (number_stop_digit_stop _ Hr) as Hd.
  destruct s as [|c s]; simpl in *.
  - injection H as <- <-. destruct r as [|c r]; simpl in *; [done|].
    destruct (Ascii.eqb c "."); [|done]. by rewrite orb_true_r in Hr.
  - destruct (Ascii.eqb c "."); [|by injection H as <- <-].
    destruct (span_digits s) as [a b'] eqn:E. rewrite (span_digits_app _ _ _ _ E Hd).
    destruct a; by injection H as <- <-.
Qed.

Lemma lex_exp_app s x r :
  lex_exp s = (x, "") -> number_stop r = true -> lex_exp (s ++ r) = (x, r).
Proof.
  intros H Hr. pose proof (number_stop_digit_stop _ Hr) as Hd.
  destruct s as [|c s]; simpl in *.
  - injection H as <-. destruct r as [|c r]; simpl in *; [done|].
    destruct (Ascii.eqb c "e"); [by rewrite ?orb_true_r in Hr|].
    destruct (Ascii.eqb c "E"); [by rewrite ?orb_true_r in Hr|done].
  - destruct (Ascii.eqb c "e" || Ascii.eqb c "E"); [|done].
    destruct s as [|d s]; [done|]. simpl.
    destruct (Ascii.eqb d "-").
    + destruct (span_digits s) as [a b'] eqn:E. rewrite (span_digits_app _ _ _ _ E Hd).
      destruct a; [done|]. injection H as <- ->. done.
    + destruct (Ascii.eqb d "+").
      * destruct (span_digits s) as [a b'] eqn:E. rewrite (span_digits_app _ _ _ _ E Hd).
        destruct a; [done|]. injection H as <- ->. done.
      * change (String d (s ++ r)) with (String d s ++ r).
        destruct (span_digits (String d s)) as [a b'] eqn:E.
        rewrite (span_digits_app _ _ _ _ E Hd).
        destruct a; [done|]. injection H as <- ->. done.
Qed.

(** A text that is one number token is read as that token in front of anything
    that cannot continue it. *)
Lemma lex_number_app s t r :
  lex_number s = Some (t, "") -> number_stop r = true -> lex_number (s ++ r) = Some (t, r).
Proof.
  intros H Hr. unfold lex_number in *.
  destruct s as [|c s]; [done|]. cbn [String.append].
  set (nt := if Ascii.eqb c "-" then (true, s) else (false, String c s)) in *.
  assert ((if Ascii.eqb c "-" then (true, s ++ r) else (false, String c (s ++ r)))
          = (fst nt, snd nt ++ r)) as ->.
  { unfold nt. by destruct (Ascii.eqb c "-"). }
  destruct nt as [neg u]. cbn [fst snd] in *.
  destruct (lex_int u) as [[ids r1]|] eqn:E1; [|done].
  rewrite (lex_int_app _ _ _ _ E1 (number_stop_digit_stop _ Hr)).
  destruct (lex_frac r1) as [fr r2] eqn:E2. rewrite (lex_frac_app _ _ _ _ E2 Hr).
  destruct (lex_exp r2) as [ex r3] eqn:E3. injection H as <- ->.
  by rewrite (lex_exp_app _ _ _ E3 Hr).
Qed.

Lemma lex_number_int n :
  exists t, lex_number (str_of_Z n) = Some (t, "")
    /\ nt_frac t = None /\ nt_exp t = None /\ token_int t = n.
Proof.
  assert (forall m, 0 <= m -> forall sg, exists t,
    match lex_int (str_of_nonneg m) with
    | None => None
    | Some (ids, r1) =>
        let '(fr, r2) := lex_frac r1 in
        let '(ex, r3) := lex_exp r2 in Some (NumberToken sg ids fr ex, r3)
    end = Some (t, "") /\ nt_frac t = None /\ nt_exp t = None
    /\ token_int t = if sg : bool then - m else m) as Hkey.
  { intros m Hm sg. destruct (str_of_nonneg_spec m Hm) as (H1 & H2 & c & u & Hc & H0 & Hp).
    assert (lex_int (str_of_nonneg m) = Some (str_of_nonneg m, "")) as ->.
    { unfold lex_int. rewrite <- (str_app_nil_r (str_of_nonneg m)) at 1.
      rewrite span_digits_all by done. rewrite Hc at 1.
      destruct (Ascii.eqb_spec c "0") as [->|]; [|done].
      destruct (Z.eq_dec m 0) as [->|Hm0]; [by rewrite Hc, (H0 eq_refl)|].
      destruct Hp; [lia|done]. }
    cbn [lex_frac lex_exp]. eexists; split; [done|]. repeat split.
    unfold token_int. cbn [nt_int nt_neg]. by rewrite H2. }
  unfold lex_number, str_of_Z. destruct (Z.ltb_spec n 0) as [Hn|Hn].
  - cbn. destruct (Hkey (- n) ltac:(lia) true) as (t & Ht & ? & ? & ?).
    exists t. repeat split; try done. lia.
  - destruct (str_of_nonneg_spec n Hn) as (H1 & _ & c & u & Hc & _).
    destruct (Hkey n Hn false) as (t & Ht & ? & ? & ?). rewrite Hc in *.
    simpl in H1. bool_hyps.
    destruct (Ascii.eqb_spec c "-") as [->|]; [done|]. eauto.
Qed.

Lemma lex_number_head s t r :
  lex_number s = Some (t, r) ->
  exists c u, s = String c u /\
    (is_digit c = true \/ (c = "-"%char /\ exists d v, u = String d v /\ is_digit d = true)).
Proof.
  assert (forall s x, lex_int s = Some x -> exists c u, s = String c u /\ is_digit c = true) as Hint.
  { intros [|c u] x; [done|]. unfold lex_int. cbn [span_digits].
    destruct (is_digit c) eqn:E; [eauto|done]. }
  unfold lex_number. destruct s as [|c s]; [done|].
  destruct (Ascii.eqb_spec c "-") as [->|Hc]; intros H.
  - destruct (lex_int s) eqn:E; [|done]. apply Hint in E as (d & v & -> & Hd). eauto 10.
  - destruct (lex_int (String c s)) eqn:E; [|done].
    apply Hint in E as (d & v & [= <- <-] & Hd). eauto 10.
Qed.
