(* ===== verification/Json.v ===== *)
(** * [json.dumps] and [json.loads]

    JSON values as the Python objects [json] works on (a dict is its list of
    items in insertion order), the encoder with the options the source uses
    ([sort_keys], [separators], [ensure_ascii], [allow_nan]) and the decoder,
    strict mode included.  [loads_dumps] is the round trip both ledgers rest
    on.  [\uXXXX] escapes beyond code point 255 are outside the string model:
    the decoder rejects them. *)

From Stdlib Require Import Lia ZArith Ascii String SpecFloat Permutation Sorted.
From stdpp Require Import base option strings gmap list.
From S2P Require Import Prelude PyStr PySort PyFloat FloatRepr Hash.

Local Open Scope string_scope.

Inductive json : Type :=
  | JNull
  | JBool (b : bool)
  | JInt (n : Z)
  | JFloat (x : float)
  | JStr (s : string)
  | JArr (l : list json)
  | JObj (kvs : list (string * json)).

(** Induction with the hypothesis for every element. *)
Section json_ind'.
Context (P : json -> Prop)
  (Hnull : P JNull) (Hbool : forall b, P (JBool b)) (Hint : forall n, P (JInt n))
  (Hfloat : forall x, P (JFloat x)) (Hstr : forall s, P (JStr s))
  (Harr : forall l, Forall P l -> P (JArr l))
  (Hobj : forall kvs, Forall (fun kv => P (snd kv)) kvs -> P (JObj kvs)).

Fixpoint json_ind' (j : json) : P j :=
  match j with
  | JNull => Hnull
  | JBool b => Hbool b
  | JInt n => Hint n
  | JFloat x => Hfloat x
  | JStr s => Hstr s
  | JArr l => Harr l
      ((fix go l := match l return Forall P l with
        | [] => Forall_nil_2 P
        | x :: l' => Forall_cons_2 P x l' (json_ind' x) (go l') end) l)
  | JObj kvs => Hobj kvs
      ((fix go l := match l return Forall (fun kv => P (snd kv)) l with
        | [] => Forall_nil_2 _
        | x :: l' => Forall_cons_2 _ x l' (json_ind' (snd x)) (go l') end) kvs)
  end.
End json_ind'.

(** ** Encoding *)

Record dump_options : Type := DumpOptions {
  item_sep : string; key_sep : string; sort_keys : bool; ensure_ascii : bool; allow_nan : bool }.

(** [sort_keys=True, separators=(",", ":"), ensure_ascii=False, allow_nan=False]. *)
Definition canonical_options : dump_options := DumpOptions "," ":" true false false.

(** [sort_keys=True, separators=(",", ":")]. *)
Definition compact_options : dump_options := DumpOptions "," ":" true true true.

Definition quote_char : ascii := "034".
Definition backslash : ascii := "092".

(** The escape of one character: the short forms, [\u00XX] for the other
    control characters and, under [ensure_ascii], for everything that is not
    printable ASCII. *)
Definition escape_char (o : dump_options) (c : ascii) : string :=
  let n := code c in
  if Z.eqb n 34 then String backslash (String quote_char EmptyString)
  else if Z.eqb n 92 then "\\"
  else if Z.eqb n 10 then "\n"
  else if Z.eqb n 13 then "\r"
  else if Z.eqb n 9 then "\t"
  else if Z.eqb n 12 then "\f"
  else if Z.eqb n 8 then "\b"
  else if Z.ltb n 32 || (ensure_ascii o && Z.leb 127 n)
    then "\u" ++ hex (Sha256.be_bytes 2 (Z.to_N n))
  else String c EmptyString.

Fixpoint escape (o : dump_options) (s : string) : string :=
  match s with
  | EmptyString => EmptyString
  | String c s' => escape_char o c ++ escape o s'
  end.

Definition quote (o : dump_options) (s : string) : string :=
  String quote_char (escape o s ++ String quote_char EmptyString).

Definition print_float (x : float) : string :=
  match x with
  | S754_nan => "NaN"
  | S754_infinity false => "Infinity"
  | S754_infinity true => "-Infinity"
  | _ => float_repr x
  end.

Definition key_lt {V} (a b : string * V) : bool := str_ltb (fst a) (fst b).

Definition sort_items {V} (o : dump_options) (l : list (string * V)) : list (string * V) :=
  if sort_keys o then sorted_by key_lt l else l.

Fixpoint print (o : dump_options) (j : json) : string :=
  match j with
  | JNull => "null"
  | JBool true => "true"
  | JBool false => "false"
  | JInt n => str_of_Z n
  | JFloat x => print_float x
  | JStr s => quote o s
  | JArr l => "[" ++ join (item_sep o) (map (print o) l) ++ "]"
  | JObj kvs =>
      "{" ++ join (item_sep o)
               (map (fun kv => quote o (fst kv) ++ key_sep o ++ snd kv)
                 (sort_items o (map (fun kv => (fst kv, print o (snd kv))) kvs))) ++ "}"
  end.

Fixpoint all_finite (j : json) : bool :=
  match j with
  | JFloat x => isfinite x
  | JArr l => forallb all_finite l
  | JObj kvs => forallb (fun kv => all_finite (snd kv)) kvs
  | _ => true
  end.

Definition dumps (o : dump_options) (j : json) : result string :=
  if allow_nan o || all_finite j then Ok (print o j)
  else raise ValueError "Out of range float values are not JSON compliant".

(** ** Decoding *)

Definition is_ws (c : ascii) : bool :=
  match code c with 32%Z | 9%Z | 10%Z | 13%Z => true | _ => false end.

Fixpoint skip_ws (s : string) : string :=
  match s with
  | String c s' => if is_ws c then skip_ws s' else s
  | EmptyString => s
  end.

Definition hex_value (c : ascii) : option Z :=
  if in_range 48 57 c then Some (code c - 48)%Z
  else if in_range 97 102 c then Some (code c - 87)%Z
  else if in_range 65 70 c then Some (code c - 55)%Z
  else None.

Definition unescape (c : ascii) : option ascii :=
  match code c with
  | 34%Z => Some "034"%char | 92%Z => Some "092"%char | 47%Z => Some "/"%char
  | 98%Z => Some "008"%char | 102%Z => Some "012"%char | 110%Z => Some "010"%char
  | 114%Z => Some "013"%char | 116%Z => Some "009"%char | _ => None
  end.

(** The body of a string up to its closing quote: control characters are
    rejected (strict mode). *)
Fixpoint scan_string (s : string) : option (string * string) :=
  match s with
  | EmptyString => None
  | String c s1 =>
      if Z.eqb (code c) 34 then Some ("", s1)
      else if Z.ltb (code c) 32 then None
      else if Z.eqb (code c) 92 then
        match s1 with
        | EmptyString => None
        | String d s2 =>
            if Z.eqb (code d) 117 then
              match s2 with
              | String h3 (String h2 (String h1 (String h0 s3))) =>
                  match hex_value h3, hex_value h2, hex_value h1, hex_value h0 with
                  | Some a, Some b, Some c, Some d =>
                      let n := (((a * 16 + b) * 16 + c) * 16 + d)%Z in
                      if Z.ltb n 256 then
                        match scan_string s3 with
                        | Some (t, r) => Some (String (chr n) t, r)
                        | None => None
                        end
                      else None
                  | _, _, _, _ => None
                  end
              | _ => None
              end
            else
              match unescape d, scan_string s2 with
              | Some e, Some (t, r) => Some (String e t, r)
              | _, _ => None
              end
        end
      else
        match scan_string s1 with
        | Some (t, r) => Some (String c t, r)
        | None => None
        end
  end.

Fixpoint strip_prefix (p s : string) : option string :=
  match p, s with
  | EmptyString, _ => Some s
  | String a p', String b s' => if Ascii.eqb a b then strip_prefix p' s' else None
  | _, EmptyString => None
  end.

Definition scan_constant (s : string) : option (json * string) :=
  match strip_prefix "null" s with Some r => Some (JNull, r) | None =>
  match strip_prefix "true" s with Some r => Some (JBool true, r) | None =>
  match strip_prefix "false" s with Some r => Some (JBool false, r) | None =>
  match strip_prefix "NaN" s with Some r => Some (JFloat fnan, r) | None =>
  match strip_prefix "Infinity" s with Some r => Some (JFloat finf, r) | None =>
  match strip_prefix "-Infinity" s with Some r => Some (JFloat fninf, r) | None =>
  None end end end end end end.

Definition scan_number (s : string) : option (json * string) :=
  match lex_number s with
  | Some (t, r) =>
      match nt_frac t, nt_exp t with
      | None, None => Some (JInt (token_int t), r)
      | _, _ => Some (JFloat (token_float t), r)
      end
  | None => None
  end.

(** [dict(pairs)]: a later pair replaces the value of an earlier one, which
    keeps its position. *)
Fixpoint dict_set {V} (k : string) (v : V) (d : list (string * V)) : list (string * V) :=
  match d with
  | [] => [(k, v)]
  | (k', v') :: d' => if String.eqb k k' then (k', v) :: d' else (k', v') :: dict_set k v d'
  end.

Definition dict_of_pairs {V} (l : list (string * V)) : list (string * V) :=
  fold_left (fun d kv => dict_set (fst kv) (snd kv) d) l [].

(** The scanner, on fuel; [loads] supplies enough for every text. *)
Fixpoint scan_value (fuel : nat) (s : string) : option (json * string) :=
  match fuel with
  | O => None
  | S f =>
      match s with
      | EmptyString => None
      | String c s' =>
          if Z.eqb (code c) 34 then
            match scan_string s' with
            | Some (t, r) => Some (JStr t, r)
            | None => None
            end
          else if Z.eqb (code c) 91 then
            match skip_ws s' with
            | String "]" r => Some (JArr [], r)
            | t => match scan_elements f t with
                   | Some (l, r) => Some (JArr l, r)
                   | None => None
                   end
            end
          else if Z.eqb (code c) 123 then
            match skip_ws s' with
            | String "}" r => Some (JObj [], r)
            | t => match scan_members f t with
                   | Some (l, r) => Some (JObj (dict_of_pairs l), r)
                   | None => None
                   end
            end
          else
            match scan_constant s with
            | Some v => Some v
            | None => scan_number s
            end
      end
  end
with scan_elements (fuel : nat) (s : string) : option (list json * string) :=
  match fuel with
  | O => None
  | S f =>
      match scan_value f s with
      | None => None
      | Some (v, r) =>
          match skip_ws r with
          | String "]" r' => Some ([v], r')
          | String "," r' =>
              match scan_elements f (skip_ws r') with
              | Some (l, r'') => Some (v :: l, r'')
              | None => None
              end
          | _ => None
          end
      end
  end
with scan_members (fuel : nat) (s : string) : option (list (string * json) * string) :=
  match fuel with
  | O => None
  | S f =>
      match s with
      | String c s' =>
          if Z.eqb (code c) 34 then
            match scan_string s' with
            | None => None
            | Some (k, r) =>
                match skip_ws r with
                | String ":" r1 =>
                    match scan_value f (skip_ws r1) with
                    | None => None
                    | Some (v, r2) =>
                        match skip_ws r2 with
                        | String "}" r3 => Some ([(k, v)], r3)
                        | String "," r3 =>
                            match scan_members f (skip_ws r3) with
                            | Some (l, r4) => Some ((k, v) :: l, r4)
                            | None => None
                            end
                        | _ => None
                        end
                    end
                | _ => None
                end
            end
          else None
      | EmptyString => None
      end
  end.

Definition fuel_for (s : string) : nat := S (2 * String.length s).

Definition loads (s : string) : result json :=
  let t := skip_ws s in
  match scan_value (fuel_for t) t with
  | Some (v, r) =>
      match skip_ws r with
      | EmptyString => Ok v
      | _ => raise JSONDecodeError "Extra data"
      end
  | None => raise JSONDecodeError "Expecting value"
  end.

(** ** The round trip *)

(** The value read back: dict items in the order they were printed. *)
Fixpoint canon (o : dump_options) (j : json) : json :=
  match j with
  | JArr l => JArr (map (canon o) l)
  | JObj kvs => JObj (sort_items o (map (fun kv => (fst kv, canon o (snd kv))) kvs))
  | _ => j
  end.

(** Dicts have distinct keys; floats are finite and read back from their
    digits. *)
Fixpoint wf_json (j : json) : bool :=
  match j with
  | JFloat x => isfinite x && repr_round_trips x
  | JArr l => forallb wf_json l
  | JObj kvs => bool_decide (NoDup (map fst kvs)) && forallb (fun kv => wf_json (snd kv)) kvs
  | _ => true
  end.

Definition compact (o : dump_options) : Prop := item_sep o = "," /\ key_sep o = ":".

Lemma scan_escape_char o c t :
  scan_string (escape_char o c ++ t)
  = match scan_string t with Some (u, r) => Some (String c u, r) | None => None end.
Proof.
  destruct o as [? ? ? [] ?];
    destruct c as [[] [] [] [] [] [] [] []]; reflexivity.
Qed.

Lemma scan_escape o s r :
  scan_string (escape o s ++ String quote_char r) = Some (s, r).
Proof.
  induction s as [|c s IH]; simpl; [done|].
  by rewrite str_app_assoc, scan_escape_char, IH.
Qed.

Lemma quote_app o s r :
  quote o s ++ r = String quote_char (escape o s ++ String quote_char r).
Proof. unfold quote. simpl. by rewrite str_app_assoc. Qed.

(** First characters: what the scanner dispatches on. *)
Definition value_head (s : string) : Prop :=
  exists c t, s = String c t /\ is_ws c = false /\ c <> "]"%char /\ c <> "}"%char.

Lemma value_head_app s r : value_head s -> value_head (s ++ r).
Proof. intros (c & t & -> & H). exists c, (t ++ r). done. Qed.

Lemma value_head_skip s : value_head s -> skip_ws s = s.
Proof. intros (c & t & -> & H & _). simpl. by rewrite H. Qed.

Lemma lex_number_value_head s t r : lex_number s = Some (t, r) -> value_head s.
Proof.
  intros H. apply lex_number_head in H as (c & u & -> & H). exists c, u.
  split; [done|]. destruct H as [H|[-> _]]; [|done].
  destruct c as [[] [] [] [] [] [] [] []]; try discriminate H; repeat split; done.
Qed.

Lemma scan_value_number f s t r :
  lex_number s = Some (t, r) -> scan_value (S f) s = scan_number s.
Proof.
  intros H. apply lex_number_head in H as (c & u & -> & H). cbn [scan_value].
  destruct H as [H|[-> (d & v & -> & H)]].
  - destruct c as [[] [] [] [] [] [] [] []]; try discriminate H; reflexivity.
  - destruct d as [[] [] [] [] [] [] [] []]; try discriminate H; reflexivity.
Qed.

Lemma float_repr_token x :
  isfinite x = true -> repr_round_trips x = true ->
  exists t, lex_number (print_float x) = Some (t, "")
    /\ token_float t = x /\ (nt_frac t <> None \/ nt_exp t <> None).
Proof.
  intros Hf H. assert (print_float x = float_repr x) as ->.
  { by destruct x as [| | |]. }
  unfold repr_round_trips in H. destruct (lex_number _) as [[t [|]]|]; try done.
  bool_hyps. exists t. repeat split; [done|].
  destruct (nt_frac t), (nt_exp t); [left|left|right|]; done.
Qed.

Lemma print_value_head o j : wf_json j = true -> value_head (print o j).
Proof.
  destruct j as [|[]|n|x|s|l|kvs]; cbn [print wf_json]; intros H;
    try (eexists _, _; split; [reflexivity|repeat split; done]).
  - destruct (lex_number_int n) as (t & Ht & _). by eapply lex_number_value_head.
  - bool_hyps. destruct (float_repr_token x) as (t & Ht & _); [done..|].
    by eapply lex_number_value_head.
Qed.

Lemma dict_set_fresh {V} k (v : V) d : k ∉ map fst d -> dict_set k v d = (d ++ [(k, v)])%list.
Proof.
  induction d as [|[k' v'] d IH]; simpl; [done|]. intros H.
  destruct (String.eqb_spec k k') as [->|]; [set_solver|]. rewrite IH; [done|set_solver].
Qed.

Lemma dict_of_pairs_nodup {V} (l : list (string * V)) :
  NoDup (map fst l) -> dict_of_pairs l = l.
Proof.
  unfold dict_of_pairs. intros H.
  enough (forall d, NoDup (map fst (d ++ l)%list) ->
    fold_left (fun d kv => dict_set (fst kv) (snd kv) d) l d = (d ++ l)%list) as E by by apply (E []).
  clear H. induction l as [|[k v] l IH]; intros d H; simpl; [by rewrite app_nil_r|].
  rewrite map_app in H. cbn [map fst] in H.
  rewrite dict_set_fresh.
  - rewrite IH; [by rewrite <- app_assoc|]. rewrite <- app_assoc, map_app. done.
  - apply NoDup_app in H as (_ & H & _). intros Hk. apply (H k Hk). set_solver.
Qed.

Definition scans (o : dump_options) (j : json) : Prop :=
  forall fuel rest,
    2 * String.length (print o j) <= fuel -> number_stop rest = true ->
    scan_value fuel (print o j ++ rest) = Some (canon o j, rest).

Lemma str_len_app (a b : string) : String.length (a ++ b) = String.length a + String.length b.
Proof. induction a as [|c a IH]; simpl; [done|]. by rewrite IH. Qed.

Lemma value_head_len s : value_head s -> 1 <= String.length s.
Proof. intros (c & t & -> & _). simpl. lia. Qed.

Lemma scans_number o j t :
  lex_number (print o j) = Some (t, "") -> canon o j = j ->
  scan_number (print o j) = Some (j, "") -> scans o j.
Proof.
  intros Ht Hc Hs fuel rest Hfuel Hr.
  assert (1 <= fuel) as Hf.
  { apply lex_number_value_head, value_head_len in Ht. lia. }
  destruct fuel as [|f]; [lia|].
  pose proof (lex_number_app _ _ _ Ht Hr) as Ht'.
  rewrite (scan_value_number f _ _ _ Ht'), Hc.
  unfold scan_number in *. rewrite Ht'. rewrite Ht in Hs.
  destruct (nt_frac t), (nt_exp t); by injection Hs as ->.
Qed.

Lemma scan_elements_join o l rest fuel :
  Forall (scans o) l -> Forall (fun j => value_head (print o j)) l -> l <> [] ->
  2 * String.length (join "," (map (print o) l)) + 1 <= fuel ->
  scan_elements fuel (join "," (map (print o) l) ++ String "]" rest)
  = Some (map (canon o) l, rest).
Proof.
  revert fuel; induction l as [|j l IH]; intros fuel Hs Hh Hl Hf; [done|].
  apply Forall_cons in Hs as [Hj Hs]. apply Forall_cons in Hh as [Hhj Hh].
  destruct fuel as [|f]; [lia|]. destruct l as [|j' l].
  - cbn [map join] in *. cbn [scan_elements].
    by rewrite Hj by (done || lia).
  - change (join "," (map (print o) (j :: j' :: l)))
      with (print o j ++ "," ++ join "," (map (print o) (j' :: l))) in *.
    set (js := join "," (map (print o) (j' :: l))) in *.
    rewrite !str_len_app in Hf. cbn [String.length] in Hf.
    pose proof (value_head_len _ Hhj).
    rewrite !str_app_assoc. cbn [scan_elements].
    rewrite Hj by (done || lia). cbn [String.append].
    change (skip_ws (String "," (js ++ String "]" rest)))
      with (String "," (js ++ String "]" rest)). cbv iota.
    assert (value_head js) as Hjs.
    { apply Forall_cons in Hh as [Hh' _]. unfold js. cbn [map].
      destruct l; cbn [map join]; [done|]. by apply value_head_app. }
    rewrite (value_head_skip (js ++ _)) by by apply value_head_app.
    rewrite IH by (done || lia). done.
Qed.

(** The printed items of a dict, in the order they appear. *)
Definition print_item (o : dump_options) (kv : string * json) : string :=
  quote o (fst kv) ++ ":" ++ print o (snd kv).

Lemma print_item_head o kv : value_head (print_item o kv).
Proof. eexists _, _. split; [reflexivity|repeat split; done]. Qed.

Lemma scan_members_step f o k t :
  scan_members (S f) (quote o k ++ ":" ++ t)
  = match scan_value f (skip_ws t) with
    | None => None
    | Some (v, r2) =>
        match skip_ws r2 with
        | String "}" r3 => Some ([(k, v)], r3)
        | String "," r3 =>
            match scan_members f (skip_ws r3) with
            | Some (l, r4) => Some ((k, v) :: l, r4)
            | None => None
            end
        | _ => None
        end
    end.
Proof. cbn [scan_members]. rewrite quote_app. cbn [String.append]. rewrite scan_escape. done. Qed.

Lemma scan_members_join o l rest fuel :
  Forall (fun kv => scans o (snd kv)) l ->
  Forall (fun kv => value_head (print o (snd kv))) l -> l <> [] ->
  2 * String.length (join "," (map (print_item o) l)) + 1 <= fuel ->
  scan_members fuel (join "," (map (print_item o) l) ++ String "}" rest)
  = Some (map (fun kv => (fst kv, canon o (snd kv))) l, rest).
Proof.
  revert fuel; induction l as [|[k j] l IH]; intros fuel Hs Hh Hl Hf; [done|].
  apply Forall_cons in Hs as [Hj Hs]. apply Forall_cons in Hh as [Hhj Hh].
  cbn [snd] in Hj, Hhj. destruct fuel as [|f]; [lia|]. destruct l as [|kv' l].
  - cbn [map join] in *. unfold print_item in *. cbn [fst snd] in *.
    rewrite !str_len_app in Hf. rewrite !str_app_assoc, scan_members_step.
    rewrite value_head_skip by by apply value_head_app.
    rewrite Hj by (done || lia). done.
  - change (join "," (map (print_item o) ((k, j) :: kv' :: l)))
      with (print_item o (k, j) ++ "," ++ join "," (map (print_item o) (kv' :: l))) in *.
    set (js := join "," (map (print_item o) (kv' :: l))) in *.
    unfold print_item in Hf |- *. cbn [fst snd] in *.
    rewrite !str_len_app in Hf. cbn [String.length] in Hf.
    rewrite !str_app_assoc, scan_members_step.
    rewrite value_head_skip by by apply value_head_app.
    rewrite Hj by (done || lia). cbn [String.append].
    change (skip_ws (String "," (js ++ String "}" rest)))
      with (String "," (js ++ String "}" rest)). cbv iota.
    assert (value_head js) as Hjs.
    { unfold js. cbn [map]. destruct l; cbn [map join];
        [|apply value_head_app]; apply print_item_head. }
    rewrite (value_head_skip (js ++ _)) by by apply value_head_app.
    rewrite IH by (done || lia). done.
Qed.

Lemma key_lt_fst {V W} (a b : string * V) (f : string * V -> string * W) :
  (forall x, fst (f x) = fst x) -> key_lt (f a) (f b) = key_lt a b.
Proof. intros H. unfold key_lt. by rewrite !H. Qed.

Lemma sort_items_map {V W} o (f : string * V -> string * W) l :
  (forall x, fst (f x) = fst x) -> sort_items o (map f l) = map f (sort_items o l).
Proof.
  intros H. unfold sort_items. destruct (sort_keys o); [|done].
  apply sorted_by_map. intros. by apply key_lt_fst.
Qed.

Lemma sort_items_perm {V} o (l : list (string * V)) : Permutation (sort_items o l) l.
Proof. unfold sort_items. destruct (sort_keys o); [apply sorted_by_perm|done]. Qed.

(** The items of a dict, printed from the value. *)
Lemma print_obj o kvs :
  compact o ->
  print o (JObj kvs) = "{" ++ join "," (map (print_item o) (sort_items o kvs)) ++ "}".
Proof.
  intros [Hi Hk]. cbn [print]. rewrite Hi, Hk, sort_items_map by done.
  rewrite map_map. done.
Qed.

Lemma canon_obj o kvs :
  canon o (JObj kvs) = JObj (map (fun kv => (fst kv, canon o (snd kv))) (sort_items o kvs)).
Proof. cbn [canon]. by rewrite sort_items_map. Qed.

Lemma scan_value_bracket f s t :
  value_head s ->
  scan_value (S f) (String "[" (s ++ t))
  = match scan_elements f (s ++ t) with Some (l, r) => Some (JArr l, r) | None => None end.
Proof.
  intros (c & u & -> & Hw & Hb & Hc). cbn [scan_value String.append].
  change (Z.eqb (code "[") 34) with false. change (Z.eqb (code "[") 91) with true.
  cbv iota. cbn [skip_ws]. rewrite Hw.
  destruct c as [[] [] [] [] [] [] [] []]; congruence || reflexivity.
Qed.

Lemma scan_value_brace f s t :
  value_head s ->
  scan_value (S f) (String "{" (s ++ t))
  = match scan_members f (s ++ t) with
    | Some (l, r) => Some (JObj (dict_of_pairs l), r) | None => None end.
Proof.
  intros (c & u & -> & Hw & Hb & Hc). cbn [scan_value String.append].
  change (Z.eqb (code "{") 34) with false. change (Z.eqb (code "{") 91) with false.
  change (Z.eqb (code "{") 123) with true.
  cbv iota. cbn [skip_ws]. rewrite Hw.
  destruct c as [[] [] [] [] [] [] [] []]; congruence || reflexivity.
Qed.

Lemma scans_array o l :
  compact o -> Forall (scans o) l -> Forall (fun j => value_head (print o j)) l ->
  scans o (JArr l).
Proof.
  intros [Hi _] Hs Hh fuel rest Hf _. cbn [print canon] in *. rewrite Hi in *.
  cbn [String.length String.append] in *. rewrite str_len_app in Hf.
  cbn [String.length] in Hf. rewrite str_app_assoc. cbn [String.append].
  destruct fuel as [|f]; [lia|].
  destruct l as [|j l]; [reflexivity|].
  rewrite scan_value_bracket, scan_elements_join; try done; [lia|].
  apply Forall_cons in Hh as [Hj _]. cbn [map].
  destruct l; cbn [map join]; [done|]. by apply value_head_app.
Qed.

Lemma scans_object o kvs :
  compact o -> NoDup (map fst kvs) ->
  Forall (fun kv => scans o (snd kv)) kvs ->
  Forall (fun kv => value_head (print o (snd kv))) kvs ->
  scans o (JObj kvs).
Proof.
  intros Hc Hnd Hs Hh fuel rest Hf _. rewrite (print_obj o kvs Hc), canon_obj in *.
  assert (Hnd' : NoDup (map fst (sort_items o kvs))) by by rewrite sort_items_perm.
  rewrite <- (sort_items_perm o kvs) in Hs, Hh. set (l := sort_items o kvs) in *.
  cbn [String.length String.append] in *. rewrite str_len_app in Hf.
  cbn [String.length] in Hf. rewrite str_app_assoc. cbn [String.append].
  destruct fuel as [|f]; [lia|].
  destruct l as [|kv l]; [reflexivity|].
  rewrite scan_value_brace, scan_members_join; try done; [|lia|].
  - rewrite dict_of_pairs_nodup; [done|]. by rewrite map_map.
  - cbn [map]. destruct l; cbn [map join]; [|apply value_head_app]; apply print_item_head.
Qed.

Lemma scans_wf o j : compact o -> wf_json j = true -> scans o j.
Proof.
  intros Hc. induction j as [|b|n|x|s|l IH|kvs IH] using json_ind'; intros Hw.
  - intros [|f] rest Hf _; [simpl in Hf; lia|reflexivity].
  - intros [|f] rest Hf _; [destruct b; simpl in Hf; lia|by destruct b].
  - destruct (lex_number_int n) as (t & Ht & Hfr & Hex & Hn).
    apply (scans_number o _ t); [done|done|]. unfold scan_number. cbn [print].
    by rewrite Ht, Hfr, Hex, Hn.
  - cbn [wf_json] in Hw. bool_hyps.
    destruct (float_repr_token x) as (t & Ht & Hx & Hor); [done..|].
    apply (scans_number o _ t); [done|done|]. unfold scan_number. cbn [print]. rewrite Ht, Hx.
    destruct (nt_frac t), (nt_exp t); try done. by destruct Hor.
  - intros [|f] rest Hf _; [simpl in Hf; lia|].
    cbn [print canon]. rewrite quote_app. cbn [scan_value].
    by rewrite scan_escape.
  - cbn [wf_json] in Hw. apply forallb_true_Forall in Hw.
    assert (Forall (fun j => value_head (print o j)) l).
    { eapply Forall_impl; [exact Hw|]. intros j. apply print_value_head. }
    apply scans_array; [done| |done].
    rewrite Forall_forall in *. eauto.
  - cbn [wf_json] in Hw. bool_hyps. rewrite forallb_true_Forall in H0.
    assert (Forall (fun kv => value_head (print o (snd kv))) kvs).
    { eapply Forall_impl; [exact H0|]. intros j. apply print_value_head. }
    apply scans_object; [done|done| |done].
    rewrite Forall_forall in *. eauto.
Qed.

(** Decoding what was encoded gives the value back, dict items reordered as
    printed. *)
Lemma loads_print o j :
  compact o -> wf_json j = true -> loads (print o j) = Ok (canon o j).
Proof.
  intros Hc Hw. unfold loads. pose proof (print_value_head o j Hw) as Hh.
  rewrite value_head_skip by done.
  pose proof (scans_wf o j Hc Hw (fuel_for (print o j)) "" ltac:(unfold fuel_for; lia) eq_refl) as H.
  rewrite str_app_nil_r in H. by rewrite H.
Qed.

Lemma wf_all_finite j : wf_json j = true -> all_finite j = true.
Proof.
  induction j as [|b|n|x|s|l IH|kvs IH] using json_ind'; cbn [wf_json all_finite]; try done.
  - intros H. by bool_hyps.
  - rewrite !forallb_true_Forall, !Forall_forall in *. eauto.
  - intros H. bool_hyps. rewrite !forallb_true_Forall, !Forall_forall in *. eauto.
Qed.

Lemma dumps_wf o j : wf_json j = true -> dumps o j = Ok (print o j).
Proof. intros H. unfold dumps. by rewrite (wf_all_finite j H), orb_true_r. Qed.

Global Instance key_lt_strict_weak {V} P : StrictWeak (@key_lt V) P.
Proof.
  split; unfold key_lt; intros; [by apply str_ltb_asym|by eapply str_ltb_neg_trans].
Qed.

Lemma sort_items_idemp {V} o (l : list (string * V)) :
  sort_items o (sort_items o l) = sort_items o l.
Proof.
  unfold sort_items. destruct (sort_keys o); [|done].
  apply (sorted_by_idemp key_lt (fun _ => True)). by apply Forall_true.
Qed.

(** Printing does not see the reordering that reading back performs. *)
Lemma print_canon o j : print o (canon o j) = print o j.
Proof.
  induction j as [|b|n|x|s|l IH|kvs IH] using json_ind'; try done.
  - cbn [canon print]. do 3 f_equal. rewrite map_map. apply map_ext_Forall, IH.
  - cbn [canon print]. do 4 f_equal.
    rewrite <- (sort_items_map o (fun kv => (fst kv, print o (snd kv)))) by done.
    rewrite sort_items_idemp, map_map. f_equal. apply map_ext_Forall.
    eapply Forall_impl; [exact IH|]. intros kv Hkv. simpl. by rewrite Hkv.
Qed.

Lemma wf_canon o j : wf_json j = true -> wf_json (canon o j) = true.
Proof.
  induction j as [|b|n|x|s|l IH|kvs IH] using json_ind'; try done.
  - cbn [canon wf_json]. rewrite !forallb_true_Forall, Forall_map.
    intros H. rewrite Forall_forall in *. intros. apply IH; [done|]. by apply H.
  - rewrite canon_obj. cbn [wf_json]. intros H. bool_hyps.
    rewrite forallb_true_Forall in H0. apply andb_true_iff. split.
    + apply bool_decide_eq_true. rewrite map_map. simpl. by rewrite sort_items_perm.
    + rewrite forallb_true_Forall, Forall_map, sort_items_perm.
      rewrite Forall_forall in *. intros kv Hkv. simpl. apply IH; [done|]. by apply H0.
Qed.

(** The encoding determines the value, up to the order of dict items. *)
Lemma print_inj o j1 j2 :
  compact o -> wf_json j1 = true -> wf_json j2 = true ->
  print o j1 = print o j2 -> canon o j1 = canon o j2.
Proof.
  intros Hc H1 H2 H. apply (loads_print o _ Hc) in H1. apply (loads_print o _ Hc) in H2.
  congruence.
Qed.

Lemma canonical_compact : compact canonical_options.
Proof. by split. Qed.
Lemma compact_compact : compact compact_options.
Proof. by split. Qed.

#[export] Hint Resolve canonical_compact compact_compact : c3r.

(** ** [str] of a decoded value *)

Definition quote_repr (s : string) : ascii :=
  if negb (str_forall (fun c => negb (Z.eqb (code c) 39)) s)
     && str_forall (fun c => negb (Z.eqb (code c) 34)) s
  then quote_char else "'"%char.

(** One character of [repr(s)] between the quotes [q]; [repr] escapes what is
    not printable. *)
Definition repr_char (q c : ascii) : string :=
  let n := code c in
  if Ascii.eqb c q || Z.eqb n 92 then String backslash (String c EmptyString)
  else if Z.eqb n 9 then "\t" else if Z.eqb n 10 then "\n" else if Z.eqb n 13 then "\r"
  else if Z.ltb n 32 || (Z.leb 127 n && Z.leb n 160) || Z.eqb n 173
  then "\x" ++ hex [Z.to_N n]
  else String c EmptyString.

Definition repr_string (s : string) : string :=
  let q := quote_repr s in
  String q (join "" (map (repr_char q) (String.list_ascii_of_string s)) ++ String q EmptyString).

Fixpoint py_repr (j : json) : string :=
  match j with
  | JNull => "None"
  | JBool true => "True"
  | JBool false => "False"
  | JInt n => str_of_Z n
  | JFloat S754_nan => "nan"
  | JFloat (S754_infinity false) => "inf"
  | JFloat (S754_infinity true) => "-inf"
  | JFloat x => float_repr x
  | JStr s => repr_string s
  | JArr l => "[" ++ join ", " (map py_repr l) ++ "]"
  | JObj kvs =>
      "{" ++ join ", " (map (fun kv => repr_string (fst kv) ++ ": " ++ py_repr (snd kv)) kvs) ++ "}"
  end.

Definition py_str (j : json) : string := match j with JStr s => s | _ => py_repr j end.

(** [value["key"]]. *)
Fixpoint assoc {V} (k : string) (l : list (string * V)) : option V :=
  match l with
  | [] => None
  | (k', v) :: l' => if String.eqb k k' then Some v else assoc k l'
  end.

Definition subscript (j : json) (k : string) : result json :=
  match j with
  | JObj kvs => match assoc k kvs with Some v => Ok v | None => raise KeyError k end
  | _ => raise TypeError "value is not subscriptable by a string"
  end.

Example py_str_example :
  py_str (JObj [("a", JArr [JInt 1; JNull; JStr "it's"]); ("b", JBool true)])
  = "{'a': [1, None, " ++ String quote_char ("it's" ++ String quote_char "], 'b': True}").
Proof. vm_compute. reflexivity. Qed.

(** Under [ensure_ascii] an escaped text is printable ASCII, hence one line. *)
Definition printable (c : ascii) : bool := in_range 32 126 c.

Lemma hex_digit_printable n : (n < 16)%N -> printable (hex_digit n) = true.
Proof.
  intros H. apply hex_digit_is_hex in H. unfold is_hex, printable, in_range in *.
  apply orb_true_iff in H as [H|H]; apply andb_true_iff in H as [H1 H2];
    apply andb_true_iff; split; apply Z.leb_le; apply Z.leb_le in H1, H2; lia.
Qed.

Lemma hex_printable bs : Forall (fun b => (b < 256)%N) bs -> str_forall printable (hex bs) = true.
Proof.
  induction 1 as [|b bs Hb _ IH]; [done|]. cbn [hex str_forall].
  rewrite !hex_digit_printable, IH; [done| |].
  - rewrite N.land_ones with (n := 4%N). by apply N.mod_lt.
  - rewrite N.shiftr_div_pow2. apply N.Div0.div_lt_upper_bound. simpl. lia.
Qed.

Lemma escape_char_printable o c : ensure_ascii o = true -> str_forall printable (escape_char o c) = true.
Proof.
  intros Ho. unfold escape_char. rewrite Ho. cbn [andb].
  repeat (destruct (Z.eqb _ _); [reflexivity|]).
  destruct (Z.ltb_spec (code c) 32); cbn [orb].
  - rewrite str_forall_app. apply hex_printable, be_bytes_small.
  - destruct (Z.leb_spec 127 (code c)).
    + rewrite str_forall_app. apply hex_printable, be_bytes_small.
    + cbn [str_forall]. rewrite andb_true_r. unfold printable, in_range.
      apply andb_true_iff; split; apply Z.leb_le; lia.
Qed.

Lemma escape_printable o s : ensure_ascii o = true -> str_forall printable (escape o s) = true.
Proof.
  intros Ho. induction s as [|c s IH]; [done|]. cbn [escape].
  by rewrite str_forall_app, escape_char_printable, IH.
Qed.

Lemma printable_one_line s : str_forall printable s = true -> one_line s = true.
Proof.
  unfold one_line. induction s as [|c s IH]; [done|]. cbn [str_forall]. intros H.
  apply andb_true_iff in H as [Hc Hs]. rewrite IH, andb_true_r by done.
  unfold printable, in_range in Hc. apply andb_true_iff in Hc as [H1 H2].
  apply Z.leb_le in H1, H2. unfold is_cr, is_line_break, in_range.
  apply negb_true_iff, orb_false_iff. split; [apply Z.eqb_neq; lia|].
  apply orb_false_iff. split; [|apply Z.eqb_neq; lia].
  apply orb_false_iff. split; apply andb_false_iff; right; apply Z.leb_gt; lia.
Qed.

Lemma loads_class s e : loads s = Raise e -> exn_class e = JSONDecodeError.
Proof.
  unfold loads, raise. destruct (scan_value _ _) as [[v r]|]; [|by intros [= <-]].
  destruct (skip_ws r); [done|]. by intros [= <-].
Qed.

Lemma dumps_class o j e : dumps o j = Raise e -> exn_class e = ValueError.
Proof. unfold dumps, raise. destruct (_ || _); [done|]. by intros [= <-]. Qed.
