(* ===== verification/JsonText.v ===== *)
(** * The characters of a printed document

    [json.dumps] escapes every control character of a string, and numbers, constants
    and punctuation have none: a printed document is one line, whatever it holds. *)

From Stdlib Require Import Lia ZArith Ascii String.
From stdpp Require Import base option strings list.
From S2P Require Import Prelude PyStr PySort PyFloat Hash FloatRepr Json.

Local Open Scope string_scope.

(** Not a control character of ASCII. *)
Definition plain (c : ascii) : bool := Z.leb 32 (code c).

Abbreviation all_plain := (str_forall plain).

Lemma str_forall_append (f : ascii -> bool) a b :
  str_forall f a = true -> str_forall f b = true -> str_forall f (a ++ b) = true.
Proof. intros. rewrite str_forall_app. by apply andb_true_iff. Qed.

Lemma str_forall_substring (f : ascii -> bool) s : forall n m,
  str_forall f s = true -> str_forall f (String.substring n m s) = true.
Proof.
  induction s as [|c s IH]; intros [|n] [|m]; cbn; intros H; try done; apply andb_true_iff in H as [Hc Hs]; auto.
  apply andb_true_iff. auto.
Qed.

#[local] Hint Resolve str_forall_append str_forall_substring : core.

Lemma digit_plain c : is_digit c = true -> plain c = true.
Proof. unfold is_digit, in_range, plain. intros H. apply andb_true_iff in H as [H _]. lia. Qed.

Lemma printable_plain c : printable c = true -> plain c = true.
Proof. unfold printable, in_range, plain. intros H. apply andb_true_iff in H as [H _]. done. Qed.

Lemma str_of_nonneg_plain n : all_plain (str_of_nonneg n) = true.
Proof.
  unfold str_of_nonneg. generalize (S (Z.to_nat (Z.log2 n))). intros f. revert n.
  assert (Hd : forall n, all_plain (String (chr (48 + n mod 10)) EmptyString) = true).
  { intros n. cbn. rewrite andb_true_r. apply digit_plain, digit_char. apply Z.mod_pos_bound. lia. }
  induction f as [|f IH]; intros n; [done|]. cbn [digits_of]. destruct (Z.ltb n 10); auto.
Qed.

Lemma str_of_Z_plain n : all_plain (str_of_Z n) = true.
Proof. unfold str_of_Z. destruct (Z.ltb n 0); [|apply str_of_nonneg_plain]. cbn. apply str_of_nonneg_plain. Qed.

Lemma strip_zeros_plain s : all_plain s = true -> all_plain (strip_zeros s) = true.
Proof.
  induction s as [|c s IH]; [done|]. cbn. intros H. apply andb_true_iff in H as [Hc Hs]. specialize (IH Hs).
  destruct (strip_zeros s); [destruct (Ascii.eqb c "0"); cbn; by rewrite ?Hc|].
  cbn in *. by rewrite Hc.
Qed.

Lemma zeros_plain n : all_plain (zeros n) = true.
Proof.
  unfold zeros. induction (Z.to_nat n) as [|[|k] IH]; [done|done|].
  change (String.concat "" (repeat "0" (S (S k)))) with ("0" ++ "" ++ String.concat "" (repeat "0" (S k))).
  auto.
Qed.

#[local] Hint Resolve str_of_Z_plain strip_zeros_plain zeros_plain : core.

Lemma layout_plain ds k : all_plain ds = true -> all_plain (layout ds k) = true.
Proof.
  intros H. unfold layout, take_str, drop_str. repeat case_match; auto 10.
Qed.

Lemma print_float_plain x : all_plain (print_float x) = true.
Proof.
  destruct x as [[]|[]| |s m e]; try done. cbn [print_float float_repr].
  destruct (shortest _ _ _ _ _ _) as [d p]. destruct s; auto using layout_plain.
Qed.

Lemma escape_char_plain o c : all_plain (escape_char o c) = true.
Proof.
  unfold escape_char. repeat (destruct (Z.eqb _ _); [reflexivity|]).
  destruct (Z.ltb_spec (code c) 32); cbn [orb].
  - apply str_forall_append; [done|]. apply (str_forall_impl printable); [apply printable_plain|].
    apply hex_printable, be_bytes_small.
  - destruct (ensure_ascii o && _).
    + apply str_forall_append; [done|]. apply (str_forall_impl printable); [apply printable_plain|].
      apply hex_printable, be_bytes_small.
    + cbn. rewrite andb_true_r. unfold plain. lia.
Qed.

Lemma quote_plain o s : all_plain (quote o s) = true.
Proof.
  unfold quote. cbn [str_forall]. apply str_forall_append; [|done].
  induction s as [|c s IH]; [done|]. cbn [escape]. auto using escape_char_plain.
Qed.

Lemma join_plain sep l : all_plain sep = true -> Forall (fun s => all_plain s = true) l -> all_plain (join sep l) = true.
Proof.
  intros Hs. induction 1 as [|s [|t l] H Hl IH]; [done|done|].
  change (join sep (s :: t :: l)) with (s ++ sep ++ join sep (t :: l)). auto.
Qed.

(** A printed document has no control character, so it is one line. *)
Lemma print_plain o j :
  all_plain (item_sep o) = true -> all_plain (key_sep o) = true -> all_plain (print o j) = true.
Proof.
  intros Hi Hk. induction j as [|[]|n|x|s|l IH|kvs IH] using json_ind'; try done; cbn [print].
  - apply str_of_Z_plain.
  - apply print_float_plain.
  - apply quote_plain.
  - apply str_forall_append; [done|]. apply str_forall_append; [|done]. apply join_plain; [done|].
    by apply Forall_map.
  - apply str_forall_append; [done|]. apply str_forall_append; [|done]. apply join_plain; [done|].
    apply Forall_map. apply (Permutation_Forall (x := map (fun kv => (fst kv, print o (snd kv))) kvs)).
    + symmetry. apply sort_items_perm.
    + apply Forall_map. eapply Forall_impl; [exact IH|]. intros [k v] Hv. cbn [fst snd] in *.
      auto using quote_plain.
Qed.

Lemma utf8_plain s : all_plain s = true -> all_plain (utf8 s) = true.
Proof.
  induction s as [|c s IH]; [done|]. cbn [str_forall utf8]. intros H. apply andb_true_iff in H as [Hc Hs].
  assert (Hb : (0 <= code c < 256)%Z) by (unfold code; pose proof (N_ascii_bounded c); lia).
  destruct (Z.ltb_spec (code c) 128); cbn [str_forall]; [by rewrite Hc, IH|].
  pose proof (Z.mod_pos_bound (code c) 64). pose proof (Z.div_mod (code c) 64).
  rewrite (IH Hs). unfold plain. rewrite !chr_code by lia. lia.
Qed.

(** ** Lines *)

Definition line_feed : string := String "010" EmptyString.

(** The lines of a text, each without its line feed. *)
Fixpoint lines (s : string) : list string :=
  match s with
  | EmptyString => [""]
  | String c s' =>
      if Z.eqb (code c) 10 then "" :: lines s'
      else match lines s' with
           | l :: ls => String c l :: ls
           | [] => [String c ""]
           end
  end.

Lemma lines_plain s rest : all_plain s = true -> lines (s ++ line_feed ++ rest) = s :: lines rest.
Proof.
  induction s as [|c s IH]; [done|]. cbn [str_forall String.append lines]. intros H.
  apply andb_true_iff in H as [Hc Hs]. rewrite (IH Hs).
  destruct (Z.eqb_spec (code c) 10) as [E|]; [|done]. unfold plain in Hc. lia.
Qed.

Lemma utf8_app a b : utf8 (a ++ b) = utf8 a ++ utf8 b.
Proof.
  induction a as [|c a IH]; [done|]. cbn [String.append utf8]. rewrite IH. by destruct (Z.ltb _ _).
Qed.
