(* ===== verification/PyNumber.v ===== *)
(** * Numbers from text and from JSON values, and the [math] module

    [int(text)] and [float(text)] as the interpreter reads them, [float(value)]
    of a JSON value, and [math.exp], [math.log], [math.ceil] and [**] with the
    errors Python raises around the C functions, which are arguments here. *)

From Stdlib Require Import Lia ZArith Ascii String SpecFloat.
From stdpp Require Import base option strings gmap list.
From S2P Require Import Prelude PyStr PyFloat FloatRepr Json.

Local Open Scope string_scope.

(** ** [int(text)] *)

(** Digits with single underscores between them, as [int] reads them. *)
Fixpoint read_digits (s : string) (acc : Z) (after_digit : bool) : option Z :=
  match s with
  | EmptyString => if after_digit then Some acc else None
  | String c s' =>
      if is_digit c then read_digits s' (acc * 10 + (code c - 48))%Z true
      else if Ascii.eqb c "_" && after_digit then read_digits s' acc false
      else None
  end.

Fixpoint digit_count (s : string) : Z :=
  match s with
  | EmptyString => 0
  | String c s' => (if is_digit c then 1 else 0) + digit_count s'
  end%Z.

(** [int(text)], which refuses more than 4300 digits. *)
Definition parse_int (text : string) : option Z :=
  if Z.ltb 4300 (digit_count text) then None
  else match strip text with
  | String "-" s => match read_digits s 0 false with Some n => Some (- n)%Z | None => None end
  | String "+" s => read_digits s 0 false
  | s => read_digits s 0 false
  end.

(** ** [float(text)] *)

(** Underscores stand between digits only; they are dropped. *)
Fixpoint drop_underscores (s : string) (after_digit : bool) : option string :=
  match s with
  | EmptyString => Some EmptyString
  | String c s' =>
      if Ascii.eqb c "_"
      then match s' with
           | String d _ => if after_digit && is_digit d then drop_underscores s' false else None
           | EmptyString => None
           end
      else String c <$> drop_underscores s' (is_digit c)
  end.

(** An exponent: its value, and nothing left. *)
Definition read_exponent (s : string) : option Z :=
  let '(neg, t) := match s with
                   | String "-" t => (true, t)
                   | String "+" t => (false, t)
                   | _ => (false, s)
                   end in
  match span_digits t with
  | (String _ _ as ds, EmptyString) => Some (if neg then - digits_value 0 ds else digits_value 0 ds)%Z
  | _ => None
  end.

(** [digits[.digits][e exponent]] with a digit somewhere before the exponent. *)
Definition read_decimal (s : string) : option float :=
  let '(i, r) := span_digits s in
  let '(f, r) := match r with String "." r' => span_digits r' | _ => ("", r) end in
  if nonempty (i ++ f)
  then match r with
       | EmptyString => Some (float_of_decimal (digits_value 0 (i ++ f)) (- len f))
       | String c e =>
           if Ascii.eqb c "e" || Ascii.eqb c "E"
           then n ← read_exponent e; Some (float_of_decimal (digits_value 0 (i ++ f)) (n - len f))
           else None
       end
  else None.

Definition read_unsigned (s : string) : option float :=
  if bool_decide (lower s ∈ ["inf"; "infinity"]) then Some finf
  else if String.eqb (lower s) "nan" then Some fnan
  else read_decimal s.

Definition parse_float (text : string) : option float :=
  s ← drop_underscores (strip text) false;
  match s with
  | String "-" s' => fneg <$> read_unsigned s'
  | String "+" s' => read_unsigned s'
  | _ => read_unsigned s
  end.

(** [float(text)]. *)
Definition float_of_string (text : string) : result float :=
  match parse_float text with
  | Some x => Ok x
  | None => raise ValueError ("could not convert string to float: " ++ repr_string text)
  end.

(** ** JSON values *)

(** [value.get(key)]. *)
Definition get_of (j : json) (k : string) : result (option json) :=
  match j with
  | JObj kvs => Ok (assoc k kvs)
  | _ => raise AttributeError "object has no attribute 'get'"
  end.

(** [float(value)]. *)
Definition float_of_json (j : json) : result float :=
  match j with
  | JBool b => Ok (if b then fone else fzero)
  | JInt n => int_to_float n
  | JFloat x => Ok x
  | JStr s => float_of_string s
  | _ => raise TypeError "float() argument must be a string or a real number"
  end.

(** ** Arithmetic *)

Definition tiny : float := float_of_decimal 1 (-12).

(** [x / n] of a float or an int by an int of at most 53 bits. *)
Definition div_int (x : float) (n : Z) : result float :=
  if Z.eqb n 0 then raise ZeroDivisionError "division by zero"
  else Ok (SpecFloat.SFdiv prec emax x (float_of_Z n)).

(** [math.ceil(x)]. *)
Definition ceil (x : float) : result Z :=
  match x with
  | S754_zero _ => Ok 0%Z
  | S754_finite s m e =>
      let v := if s then Z.neg m else Z.pos m in
      Ok (if Z.leb 0 e then v * 2 ^ e else - ((- v) / 2 ^ (- e)))%Z
  | S754_infinity _ => raise OverflowError "cannot convert float infinity to integer"
  | S754_nan => raise ValueError "cannot convert float NaN to integer"
  end.

Definition is_inf (x : float) : bool := negb (is_nan x) && negb (isfinite x).

(** The integer nearest to [n / d], ties to even. *)
Definition nearest (n d : Z) : Z :=
  let q := (n / d)%Z in
  match Z.compare (2 * (n mod d)) d with
  | Lt => q
  | Gt => (q + 1)%Z
  | Eq => if Z.even q then q else (q + 1)%Z
  end.

(** [round(x, digits)] for [digits >= 0]: the exact value of [x] rounded half to
    even in decimal, and the double nearest to the result. *)
Definition py_round (x : float) (digits : Z) : float :=
  match x with
  | S754_finite s m e =>
      let scaled := (Z.pos m * 10 ^ digits)%Z in
      let n := if Z.leb 0 e then (scaled * 2 ^ e)%Z else nearest scaled (2 ^ (- e)) in
      let y := float_of_decimal n (- digits) in
      if s then fneg y else y
  | _ => x
  end.

(** ** [math] *)

Definition math_exp (exp : float -> float) (x : float) : result float :=
  let r := exp x in
  if isfinite x && is_inf r then raise OverflowError "math range error" else Ok r.

Definition math_log (log : float -> float) (x : float) : result float :=
  if is_nan x then Ok x
  else if fle x fzero then raise ValueError "math domain error"
  else if is_inf x then Ok x
  else Ok (log x).

(** [x ** 2] on a float. *)
Definition square (pow : float -> float -> float) (x : float) : result float :=
  let r := pow x (float_of_Z 2) in
  if isfinite x && is_inf r then raise OverflowError "(34, 'Numerical result out of range')" else Ok r.

Example py_round_runs :
  py_round (float_of_decimal 2675 (-3)) 2 = float_of_decimal 267 (-2)
  /\ py_round (float_of_decimal 125 (-3)) 2 = float_of_decimal 12 (-2)
  /\ py_round (fneg (float_of_decimal 15 (-1))) 0 = fneg (float_of_Z 2).
Proof. vm_compute. repeat split; reflexivity. Qed.

Example float_of_string_runs :
  float_of_string " 1_0.5e-1" = Ok (float_of_decimal 105 (-2)) /\ float_of_string "-Infinity" = Ok fninf
  /\ float_of_string ".5" = Ok (float_of_decimal 5 (-1)) /\ float_of_string "5." = Ok (float_of_Z 5)
  /\ is_ok (float_of_string "1__0") = false /\ is_ok (float_of_string ".") = false
  /\ is_ok (float_of_string "1e") = false /\ is_ok (float_of_string "_1") = false
  /\ is_ok (float_of_string "") = false /\ is_ok (float_of_string "0x1") = false.
Proof. vm_compute. repeat split; reflexivity. Qed.
