(* ===== verification/StateSchema.v ===== *)
(** * Shared schemas of the control path ([c3r/state_schema.py])

    The enums and frozen dataclasses every component exchanges.  Tuples are
    lists, frozensets are [gset]s, mappings with string keys are [gmap]s.  A
    field annotated [float] holds a [float]; an int the host passes there
    stands for the float of the same value. *)

From Stdlib Require Import Lia ZArith Ascii String.
From stdpp Require Import base option strings gmap list.
From S2P Require Import Prelude PyStr PySort PyFloat FloatRepr Json.

Local Open Scope string_scope.

Definition SCHEMA_VERSION : string := "c3r.state.v1".

Inductive CompilationStatus : Type := COMPILED | STATE_UNSAFE_TO_COMPRESS.

Definition status_value (s : CompilationStatus) : string :=
  match s with
  | COMPILED => "COMPILED"
  | STATE_UNSAFE_TO_COMPRESS => "STATE_UNSAFE_TO_COMPRESS"
  end.

Inductive ActionFamily : Type :=
  | DIRECT_TYPED_ACTION | TOOL | RETRIEVAL | LOCAL_MODEL | FRONTIER_MODEL
  | VERIFY | DELIBERATE | ASK_USER | STOP.

Inductive RiskClass : Type :=
  | READ_ONLY | LOW_REVERSIBLE | EXTERNAL_WRITE | HIGH_CONSEQUENCE
  | DESTRUCTIVE | APPROVAL_REQUIRED.

Global Instance CompilationStatus_eq_dec : EqDecision CompilationStatus.
Proof. solve_decision. Defined.
Global Instance ActionFamily_eq_dec : EqDecision ActionFamily.
Proof. solve_decision. Defined.
Global Instance RiskClass_eq_dec : EqDecision RiskClass.
Proof. solve_decision. Defined.

(** [family.value] and [risk_class.value] of the [StrEnum]s. *)
Definition family_value (f : ActionFamily) : string :=
  match f with
  | DIRECT_TYPED_ACTION => "DIRECT_TYPED_ACTION"
  | TOOL => "TOOL"
  | RETRIEVAL => "RETRIEVAL"
  | LOCAL_MODEL => "LOCAL_MODEL"
  | FRONTIER_MODEL => "FRONTIER_MODEL"
  | VERIFY => "VERIFY"
  | DELIBERATE => "DELIBERATE"
  | ASK_USER => "ASK_USER"
  | STOP => "STOP"
  end.

Definition risk_value (r : RiskClass) : string :=
  match r with
  | READ_ONLY => "READ_ONLY"
  | LOW_REVERSIBLE => "LOW_REVERSIBLE"
  | EXTERNAL_WRITE => "EXTERNAL_WRITE"
  | HIGH_CONSEQUENCE => "HIGH_CONSEQUENCE"
  | DESTRUCTIVE => "DESTRUCTIVE"
  | APPROVAL_REQUIRED => "APPROVAL_REQUIRED"
  end.

(** The enums in declaration order. *)
Definition all_families : list ActionFamily :=
  [DIRECT_TYPED_ACTION; TOOL; RETRIEVAL; LOCAL_MODEL; FRONTIER_MODEL; VERIFY;
   DELIBERATE; ASK_USER; STOP].
Definition all_risks : list RiskClass :=
  [READ_ONLY; LOW_REVERSIBLE; EXTERNAL_WRITE; HIGH_CONSEQUENCE; DESTRUCTIVE; APPROVAL_REQUIRED].

Global Instance ActionFamily_countable : Countable ActionFamily.
Proof.
  refine (inj_countable family_value
    (fun s => find (fun f => String.eqb (family_value f) s) all_families) _).
  by intros [].
Defined.

Global Instance RiskClass_countable : Countable RiskClass.
Proof.
  refine (inj_countable risk_value
    (fun s => find (fun r => String.eqb (risk_value r) s) all_risks) _).
  by intros [].
Defined.

Global Instance family_value_inj : Inj (=) (=) family_value.
Proof. by intros [] []. Qed.
Global Instance risk_value_inj : Inj (=) (=) risk_value.
Proof. by intros [] []. Qed.

Record Provenance : Type := mkProvenance {
  source : string; observed_at : string; prov_digest : option string }.

(** A value of type [str | float | bool]. *)
Inductive scalar : Type := SStr (s : string) | SFloat (x : float) | SBool (b : bool).

Record RawState : Type := mkRawState {
  raw_goal : string;
  raw_current_subgoal : string;
  raw_verified_facts : list string;
  raw_open_questions : list string;
  raw_recent_failures : list string;
  raw_available_action_families : list ActionFamily;
  raw_tool_summary : list string;
  raw_model_inventory : list string;
  raw_budget : gmap string float;
  raw_runtime_summary : gmap string scalar;
  raw_risk : gmap string scalar;
  raw_reversibility : string;
  raw_approval_required : bool;
  raw_data_boundary : string;
  raw_rollback_state : option string;
  raw_ambiguity : float;
  raw_consequence : string;
  raw_provenance : gmap string Provenance }.

(** [RawState(goal=g, current_subgoal=s)]: every other field at its default. *)
Definition raw_state_defaults (g s : string) : RawState :=
  mkRawState g s [] [] [] [] [] [] ∅ ∅ ∅ "unknown" false "unknown" None fzero "low" ∅.

Record CompiledState : Type := mkCompiledState {
  goal : string;
  current_subgoal : string;
  verified_facts : list string;
  open_questions : list string;
  recent_failures : list string;
  available_action_families : list ActionFamily;
  tool_summary : list string;
  model_inventory : list string;
  budget : gmap string float;
  runtime_summary : gmap string scalar;
  risk : gmap string scalar;
  reversibility : string;
  approval_required : bool;
  data_boundary : string;
  rollback_state : option string;
  ambiguity : float;
  state_compilation_confidence : float;
  provenance : gmap string Provenance;
  schema_version : string }.

Record CompilationResult : Type := mkCompilationResult {
  status : CompilationStatus;
  state : option CompiledState;
  reasons : list string }.

Record ActionCandidate : Type := mkActionCandidate {
  ac_id : string;
  ac_family : ActionFamily;
  ac_risk_class : RiskClass;
  ac_optimistic_utility : float;
  ac_requested_verifier : option string;
  ac_payload : list (string * string) }.

(** [ActionCandidate(id, family, risk_class, optimistic_utility)]. *)
Definition skeleton_candidate (i : string) (f : ActionFamily) (r : RiskClass) (u : float)
    : ActionCandidate := mkActionCandidate i f r u None [].

Record ActionDefinition : Type := mkActionDefinition {
  ad_id : string;
  ad_family : ActionFamily;
  ad_subgroup : string;
  ad_operation : string;
  ad_risk_class : RiskClass;
  ad_argument_variants : list (list (string * string));
  ad_placements : list string;
  ad_verifier_ids : list string;
  ad_optimistic_utility : float;
  ad_estimated_cost : float;
  ad_provenance_complete : bool;
  ad_data_boundary : string;
  ad_required_argument_keys : gset string;
  ad_allowed_argument_keys : gset string }.

Record AuthorityPolicy : Type := mkAuthorityPolicy {
  allowed_families : gset ActionFamily;
  allowed_risks : gset RiskClass;
  allowed_data_boundaries : gset string }.

Definition default_data_boundaries : gset string :=
  list_to_set ["local"; "approved_remote"; "public"; "unknown"].

Definition permits (p : AuthorityPolicy) (c : ActionCandidate) : bool :=
  bool_decide (ac_family c ∈ allowed_families p)
  && bool_decide (ac_risk_class c ∈ allowed_risks p).

Record CandidateCompilation : Type := mkCandidateCompilation {
  cc_candidates : list ActionCandidate;
  cc_masked_ids : list string;
  cc_no_safe_action : bool;
  cc_pruned_ids : list string;
  cc_widened_families : list ActionFamily }.

Record ValueEstimate : Type := mkValueEstimate {
  expected_gain : float; total_cost : float; risk_penalty : float; uncertainty : float }.

Record CvocDecision : Type := mkCvocDecision {
  selected : option ActionCandidate;
  lower_bound : float;
  fallback : option ActionFamily }.

Record VerificationResult : Type := mkVerificationResult {
  vr_verifier_id : string;
  vr_candidate_id : string;
  vr_action_fingerprint : string;
  vr_policy_version : string;
  vr_accepted : bool;
  vr_evidence : string;
  vr_attestation : string }.

Global Instance ActionCandidate_eq_dec : EqDecision ActionCandidate.
Proof. solve_decision. Defined.
Global Instance VerificationResult_eq_dec : EqDecision VerificationResult.
Proof. solve_decision. Defined.

Lemma permits_spec p c :
  permits p c = true <-> ac_family c ∈ allowed_families p /\ ac_risk_class c ∈ allowed_risks p.
Proof. unfold permits. rewrite andb_true_iff, !bool_decide_eq_true. done. Qed.

(** The JSON a dataclass field contributes under [asdict]. *)
Definition json_strings (l : list string) : json := JArr (map JStr l).
Definition json_opt (o : option string) : json :=
  match o with Some s => JStr s | None => JNull end.
Definition json_scalar (v : scalar) : json :=
  match v with SStr s => JStr s | SFloat x => JFloat x | SBool b => JBool b end.
Definition json_map {V} (f : V -> json) (m : gmap string V) : json :=
  JObj (map (fun kv => (fst kv, f (snd kv))) (map_to_list m)).

Lemma wf_json_strings l : wf_json (json_strings l) = true.
Proof. cbn [json_strings wf_json]. rewrite forallb_true_Forall, Forall_map. by apply Forall_true. Qed.

Lemma wf_json_opt o : wf_json (json_opt o) = true.
Proof. by destruct o. Qed.

Lemma wf_json_map {V} (f : V -> json) (m : gmap string V) :
  (forall k v, m !! k = Some v -> wf_json (f v) = true) -> wf_json (json_map f m) = true.
Proof.
  intros H. cbn [json_map wf_json]. apply andb_true_iff. split.
  - apply bool_decide_eq_true. rewrite map_map. simpl.
    apply NoDup_fst_map_to_list.
  - rewrite forallb_true_Forall, Forall_map, Forall_forall. intros [k v] Hin.
    apply elem_of_map_to_list in Hin. simpl. eauto.
Qed.

#[export] Hint Resolve wf_json_strings wf_json_opt : c3r.
