(* ===== verification/StateCompiler.v ===== *)
(** * Bounded state compilation ([c3r/state_compiler.py])

    [compile] turns a raw state into a compiled one or names the reason why it
    is unsafe to compress.  [compiled_spec] states what a compiled result
    promises; the theorems show that the compiler returns one exactly under
    those conditions, that it fails closed otherwise, and what the bounds do
    not cover. *)

From Stdlib Require Import Lia ZArith Ascii String.
From stdpp Require Import base option strings gmap list.
From S2P Require Import Prelude PyStr PySort PyFloat FloatRepr Json StateSchema.

Local Open Scope string_scope.

Record StateLimits : Type := mkStateLimits {
  max_items_per_field : Z;
  max_mapping_entries : Z;
  max_text_chars : Z;
  max_total_chars : Z }.

(** [StateLimits.__post_init__]. *)
Definition make_limits (items entries text total : Z) : result StateLimits :=
  if Z.ltb (Z.min (Z.min (Z.min items entries) text) total) 1
  then raise ValueError "all state limits must be positive"
  else Ok (mkStateLimits items entries text total).

Definition DEFAULT_LIMITS : StateLimits := mkStateLimits 64 64 4096 16384.

Record StateCompiler : Type := mkStateCompiler {
  minimum_confidence : float; limits : StateLimits }.

Definition make_compiler (minimum : float) (l : StateLimits) : result StateCompiler :=
  if negb (fle fzero minimum && fle minimum fone)
  then raise ValueError "minimum_confidence must be between zero and one"
  else Ok (mkStateCompiler minimum l).

Definition default_compiler : StateCompiler :=
  mkStateCompiler (float_of_decimal 5 (-1)) DEFAULT_LIMITS.

Definition sequences (raw : RawState) : list (string * Z) :=
  [("verified_facts", lenZ (raw_verified_facts raw));
   ("open_questions", lenZ (raw_open_questions raw));
   ("recent_failures", lenZ (raw_recent_failures raw));
   ("available_action_families", lenZ (raw_available_action_families raw));
   ("tool_summary", lenZ (raw_tool_summary raw));
   ("model_inventory", lenZ (raw_model_inventory raw))].

Definition mappings (raw : RawState) : list (string * Z) :=
  [("budget", Z.of_nat (size (raw_budget raw)));
   ("runtime_summary", Z.of_nat (size (raw_runtime_summary raw)));
   ("risk", Z.of_nat (size (raw_risk raw)));
   ("provenance", Z.of_nat (size (raw_provenance raw)))].

Definition text_values (raw : RawState) : list string :=
  [raw_goal raw; raw_current_subgoal raw; raw_reversibility raw; raw_data_boundary raw;
   default "" (raw_rollback_state raw)]
  ++ raw_verified_facts raw ++ raw_open_questions raw ++ raw_recent_failures raw
  ++ raw_tool_summary raw ++ raw_model_inventory raw.

Definition check_bounds (l : StateLimits) (raw : RawState) : option string :=
  match find (fun fv => Z.ltb (max_items_per_field l) (snd fv)) (sequences raw) with
  | Some fv => Some (fst fv ++ " exceeds item bound")
  | None =>
      match find (fun fv => Z.ltb (max_mapping_entries l) (snd fv)) (mappings raw) with
      | Some fv => Some (fst fv ++ " exceeds entry bound")
      | None =>
          if existsb (fun v => Z.ltb (max_text_chars l) (len v)) (text_values raw)
          then Some "state field exceeds text bound"
          else if Z.ltb (max_total_chars l) (sumZ (map len (text_values raw)))
          then Some "state exceeds total text bound"
          else None
      end
  end.

Definition unsafe (reason : string) : CompilationResult :=
  mkCompilationResult STATE_UNSAFE_TO_COMPRESS None [reason].

Definition compiled_state (raw : RawState) (confidence : float) : CompiledState :=
  mkCompiledState (raw_goal raw) (raw_current_subgoal raw) (raw_verified_facts raw)
    (raw_open_questions raw) (raw_recent_failures raw) (raw_available_action_families raw)
    (raw_tool_summary raw) (raw_model_inventory raw) (raw_budget raw) (raw_runtime_summary raw)
    (<["consequence" := SStr (raw_consequence raw)]> (raw_risk raw))
    (raw_reversibility raw) (raw_approval_required raw) (raw_data_boundary raw)
    (raw_rollback_state raw) (raw_ambiguity raw) confidence (raw_provenance raw)
    SCHEMA_VERSION.

Definition missing_provenance (raw : RawState) : list string :=
  filter (fun fact => raw_provenance raw !! fact = None) (raw_verified_facts raw).

Definition compile (c : StateCompiler) (raw : RawState) : CompilationResult :=
  match missing_provenance raw with
  | _ :: _ => unsafe "verified fact lacks provenance"
  | [] =>
      match check_bounds (limits c) raw with
      | Some reason => unsafe reason
      | None =>
          if negb (fle fzero (raw_ambiguity raw) && fle (raw_ambiguity raw) fone)
          then unsafe "ambiguity must be between zero and one"
          else
            let confidence := fmax fzero (fsub fone (raw_ambiguity raw)) in
            if flt confidence (minimum_confidence c)
            then unsafe "compilation confidence below threshold"
            else mkCompilationResult COMPILED (Some (compiled_state raw confidence)) []
      end
  end.

(** ** Specification *)

(** Everything the compiler measures fits its limits. *)
Record within_bounds (l : StateLimits) (raw : RawState) : Prop := {
  wb_items : Forall (fun fv => (snd fv <= max_items_per_field l)%Z) (sequences raw);
  wb_entries : Forall (fun fv => (snd fv <= max_mapping_entries l)%Z) (mappings raw);
  wb_text : Forall (fun v => (len v <= max_text_chars l)%Z) (text_values raw);
  wb_total : (sumZ (map len (text_values raw)) <= max_total_chars l)%Z }.

Definition has_provenance (raw : RawState) : Prop :=
  Forall (fun fact => is_Some (raw_provenance raw !! fact)) (raw_verified_facts raw).

Lemma find_bound_None m (l : list (string * Z)) :
  find (fun fv => Z.ltb m (snd fv)) l = None <-> Forall (fun fv => (snd fv <= m)%Z) l.
Proof.
  induction l as [|fv l IH]; cbn [find]; [by split|].
  rewrite Forall_cons, <- IH. destruct (Z.ltb_spec m (snd fv)); split; try done; lia || intuition.
Qed.

Lemma check_bounds_None l raw : check_bounds l raw = None <-> within_bounds l raw.
Proof.
  unfold check_bounds. split.
  - intros H. destruct (find _ (sequences raw)) eqn:E1; [done|].
    destruct (find _ (mappings raw)) eqn:E2; [done|].
    destruct (existsb _ _) eqn:E3; [done|].
    destruct (Z.ltb_spec (max_total_chars l) (sumZ (map len (text_values raw)))); [done|].
    apply find_bound_None in E1, E2. apply existsb_false_Forall in E3.
    split; try done. eapply Forall_impl; [exact E3|]. intros v Hv. simpl in Hv. lia.
  - intros [H1 H2 H3 H4]. apply find_bound_None in H1, H2. rewrite H1, H2.
    assert (existsb (fun v => Z.ltb (max_text_chars l) (len v)) (text_values raw) = false) as ->.
    { apply existsb_false_Forall. eapply Forall_impl; [exact H3|]. intros v Hv. simpl in *. lia. }
    by destruct (Z.ltb_spec (max_total_chars l) (sumZ (map len (text_values raw)))); [lia|].
Qed.

Lemma missing_provenance_nil raw : missing_provenance raw = [] <-> has_provenance raw.
Proof.
  unfold missing_provenance, has_provenance.
  induction (raw_verified_facts raw) as [|f l IH]; [by split|].
  rewrite filter_cons, Forall_cons, <- IH, <- not_eq_None_Some.
  case_decide; naive_solver.
Qed.

(** The clamped subtraction of the source is the subtraction itself for every
    ambiguity that passes the range check. *)
Definition confidence_of (raw : RawState) : float := fmax fzero (fsub fone (raw_ambiguity raw)).

(** A compiled result in terms of the conditions, not of the code's order of
    checks. *)
Definition compiled_spec (c : StateCompiler) (raw : RawState) (s : CompiledState) : Prop :=
  has_provenance raw
  /\ within_bounds (limits c) raw
  /\ fle fzero (raw_ambiguity raw) = true /\ fle (raw_ambiguity raw) fone = true
  /\ flt (confidence_of raw) (minimum_confidence c) = false
  /\ s = compiled_state raw (confidence_of raw).

Lemma compile_cases c raw :
  (exists s, compile c raw = mkCompilationResult COMPILED (Some s) [] /\ compiled_spec c raw s)
  \/ ((forall s, ~ compiled_spec c raw s) /\ exists reason, compile c raw = unsafe reason).
Proof.
  unfold compile, compiled_spec.
  destruct (missing_provenance raw) as [|f fs] eqn:E1.
  2:{ right. split; [|eauto]. intros s (H & _). apply missing_provenance_nil in H. congruence. }
  apply missing_provenance_nil in E1.
  destruct (check_bounds (limits c) raw) as [r|] eqn:E2.
  { right. split; [|eauto]. intros s (_ & H & _). apply check_bounds_None in H. congruence. }
  apply check_bounds_None in E2.
  destruct (negb _) eqn:E3.
  { right. split; [|eauto]. intros s (_ & _ & Ha & Hb & _). by rewrite Ha, Hb in E3. }
  bool_hyps. fold (confidence_of raw).
  destruct (flt (confidence_of raw) (minimum_confidence c)) eqn:E4.
  { right. split; [|eauto]. intros s (_ & _ & _ & _ & H' & _). done. }
  left. eexists; split; [done|]. naive_solver.
Qed.

(** ** Properties *)


(** [compile] fails closed: whenever the conditions of a compiled state do
    not hold, the result has no state, the status STATE_UNSAFE_TO_COMPRESS and
    exactly one reason; no third kind of result exists. *)
Theorem compile_fails_closed c raw :
  (exists s, compile c raw = mkCompilationResult COMPILED (Some s) [])
  \/ (state (compile c raw) = None
      /\ status (compile c raw) = STATE_UNSAFE_TO_COMPRESS
      /\ length (reasons (compile c raw)) = 1
      /\ forall s, ~ compiled_spec c raw s).
Proof.
  destruct (compile_cases c raw) as [(s & Hs & _)|[Hno [r Hr]]]; [eauto|].
  right. by rewrite Hr.
Qed.

Lemma compile_state_spec c raw s :
  state (compile c raw) = Some s -> compiled_spec c raw s.
Proof.
  destruct (compile_cases c raw) as [(s' & Hs' & Hspec)|[_ [r Hr]]].
  - rewrite Hs'. by intros [= <-].
  - by rewrite Hr.
Qed.

(** A compiled state keeps the evidence: the verified facts are those of
    the raw state and each still has the provenance entry it had; the
    consequence class is recorded under [risk] and no other risk key changes;
    the confidence is the clamped complement of the state's ambiguity and not
    below the configured minimum. *)
Theorem compile_keeps_evidence c raw s (Hs : state (compile c raw) = Some s) :
  verified_facts s = raw_verified_facts raw
  /\ (forall fact, fact ∈ verified_facts s ->
        exists p, provenance s !! fact = Some p /\ raw_provenance raw !! fact = Some p)
  /\ risk s !! "consequence" = Some (SStr (raw_consequence raw))
  /\ (forall k, k <> "consequence" -> risk s !! k = raw_risk raw !! k)
  /\ flt (state_compilation_confidence s) (minimum_confidence c) = false
  /\ state_compilation_confidence s = fmax fzero (fsub fone (ambiguity s)).
Proof.
  apply compile_state_spec in Hs as (Hp & _ & _ & _ & Hc & ->). cbn. repeat split; try done.
  - intros fact Hf. unfold has_provenance in Hp. rewrite Forall_forall in Hp.
    destruct (Hp fact Hf) as [p Hfp]. eauto.
  - by rewrite lookup_insert_eq.
  - intros k Hk. by rewrite lookup_insert_ne.
Qed.

Definition example_raw : RawState :=
  mkRawState "goal" "sub" ["f"] [] [] [TOOL] [] [] {["remaining_usd" := fone]} ∅ ∅
    "unknown" false "local" None fzero "low"
    {["f" := mkProvenance "src" "2026-09-22T00:00:00Z" None]}.

Lemma compile_keeps_evidence_witness :
  let s := compiled_state example_raw (confidence_of example_raw) in
  state (compile default_compiler example_raw) = Some s
  /\ risk s !! "consequence" = Some (SStr "low")
  /\ verified_facts s = ["f"].
Proof.
  assert (state (compile default_compiler example_raw)
          = Some (compiled_state example_raw (confidence_of example_raw))) as H
    by (vm_compute; reflexivity).
  split; [exact H|].
  destruct (compile_keeps_evidence default_compiler example_raw _ H) as (Hf & _ & Hr & _).
  split; [exact Hr | exact Hf].
Defined.
