(* ===== verification/CandidateCompiler.v ===== *)
(** * Policy-first candidate compilation
    ([c3r/candidate_compiler.py], [c3r/progressive_widening.py])

    [widen_when_margin_is_small] cuts a ranking at the first wide gap;
    [compile] masks candidates by policy and keeps the best of each family;
    [compile_hierarchical] masks and prunes action definitions before it
    expands them through subgroup, operation, arguments, placement and
    verifier.  The nested [for]/[break] loops are [for_break] over the growing
    list of the family's candidates. *)

From Stdlib Require Import Lia ZArith Ascii String Permutation Sorted.
From stdpp Require Import base option strings gmap list.
From S2P Require Import Prelude PyStr PySort PyFloat FloatRepr Json StateSchema.

Local Open Scope string_scope.

(** [a < b] on the sort keys [(-optimistic_utility, id)]: the second component
    decides only when the first ones are equal. *)
Definition rank_ltb (a b : ActionCandidate) : bool :=
  let ka := fneg (ac_optimistic_utility a) in
  let kb := fneg (ac_optimistic_utility b) in
  if feq ka kb then str_ltb (ac_id a) (ac_id b) else flt ka kb.

Definition ranked (l : list ActionCandidate) : list ActionCandidate := sorted_by rank_ltb l.

(** ** Progressive widening *)

(** [ordered[i].optimistic_utility]; the indices of the loop are in range. *)
Definition utility_at (ordered : list ActionCandidate) (i : nat) : float :=
  match ordered !! i with Some c => ac_optimistic_utility c | None => fnan end.

(** The [while] loop; it makes at most [bound - width] turns. *)
Fixpoint widen_loop (fuel : nat) (ordered : list ActionCandidate) (margin : float)
    (bound width : nat) : nat :=
  match fuel with
  | O => width
  | S fuel' =>
      if Nat.ltb width bound then
        let boundary := fsub (utility_at ordered (width - 1)) (utility_at ordered width) in
        if fgt boundary margin then width
        else widen_loop fuel' ordered margin bound (S width)
      else width
  end.

Definition widen_when_margin_is_small (rankedl : list ActionCandidate)
    (initial_width maximum_width : Z) (margin : float) : result (list ActionCandidate) :=
  if Z.ltb initial_width 1 || Z.ltb maximum_width initial_width
  then raise ValueError "invalid widening bounds"
  else match rankedl with
  | [] => Ok []
  | _ =>
      let ordered := ranked rankedl in
      let width := Z.to_nat (Z.min initial_width (lenZ ordered)) in
      let bound := Z.to_nat (Z.min maximum_width (lenZ ordered)) in
      Ok (take (widen_loop (bound - width) ordered margin bound width) ordered)
  end.

(** ** Flat compilation *)

Record CandidateCompiler : Type := mkCandidateCompiler { per_family_cap : Z }.

Definition make_candidate_compiler (cap : Z) : result CandidateCompiler :=
  if Z.ltb cap 1 then raise ValueError "per_family_cap must be positive"
  else Ok (mkCandidateCompiler cap).

Definition family_ltb (a b : ActionFamily) : bool := str_ltb (family_value a) (family_value b).

(** One turn of the masking loop: the masked ids and the surviving items. *)
Definition mask_step (policy : AuthorityPolicy)
    (s : list (ActionFamily * list ActionCandidate) * list string) (c : ActionCandidate) :=
  let '(feasible, masked) := s in
  if negb (permits policy c) then (feasible, (masked ++ [ac_id c])%list)
  else (group_add (ac_family c) c feasible, masked).

Definition compile (c : CandidateCompiler) (candidates : list ActionCandidate)
    (policy : AuthorityPolicy) : CandidateCompilation :=
  let '(feasible, masked) := fold_left (mask_step policy) candidates ([], []) in
  let bounded :=
    concat (map (fun family => take (Z.to_nat (per_family_cap c))
                                    (ranked (group_get family feasible)))
                (sorted_by family_ltb (map fst feasible))) in
  mkCandidateCompilation bounded masked
    (match bounded with [] => true | _ => false end) [] [].

(** ** Hierarchical compilation *)

(** [definition.argument_variants or ((),)], [definition.placements or ("default",)]. *)
Definition variants_of (d : ActionDefinition) : list (list (string * string)) :=
  match ad_argument_variants d with [] => [[]] | vs => vs end.
Definition placements_of (d : ActionDefinition) : list string :=
  match ad_placements d with [] => ["default"] | ps => ps end.

Definition variant_is_valid (d : ActionDefinition) (variant : list (string * string)) : bool :=
  let keys := map fst variant in
  bool_decide (NoDup keys)
  && bool_decide (ad_required_argument_keys d ⊆ list_to_set keys)
  && (bool_decide (ad_allowed_argument_keys d = ∅)
      || bool_decide ((list_to_set keys : gset string) ⊆ ad_allowed_argument_keys d))
  && forallb (fun kv => nonempty (fst kv) && nonempty (snd kv)) variant.

Definition argument_keys_are_valid (d : ActionDefinition) : bool :=
  forallb (variant_is_valid d) (variants_of d).

Definition placement_is_valid (allowed_placements : option (gset string)) (d : ActionDefinition)
    : bool :=
  match allowed_placements with
  | None => true
  | Some allowed => bool_decide ((list_to_set (placements_of d) : gset string) ⊆ allowed)
  end.

Definition definition_skeleton (d : ActionDefinition) : ActionCandidate :=
  skeleton_candidate (ad_id d) (ad_family d) (ad_risk_class d) (ad_optimistic_utility d).

(** The condition under which a definition is masked. *)
Definition is_masked (policy : AuthorityPolicy) (allowed_verifiers : gset string)
    (allowed_placements : option (gset string)) (d : ActionDefinition) : bool :=
  negb (permits policy (definition_skeleton d))
  || negb (bool_decide (ad_data_boundary d ∈ allowed_data_boundaries policy))
  || negb (ad_provenance_complete d)
  || negb (argument_keys_are_valid d)
  || negb (placement_is_valid allowed_placements d)
  || bool_decide (allowed_verifiers ∩ list_to_set (ad_verifier_ids d) = ∅).

Definition is_pruned (remaining_budget minimum_utility : float) (d : ActionDefinition) : bool :=
  fgt (ad_estimated_cost d) remaining_budget
  || flt (ad_optimistic_utility d) minimum_utility.

Definition net_utility (d : ActionDefinition) : float :=
  fsub (ad_optimistic_utility d) (ad_estimated_cost d).

(** [min(items, key=risk_class.value).risk_class] and [max] of the net utilities. *)
Definition subgroup_skeleton (family : ActionFamily) (g : string * list ActionDefinition)
    : result ActionCandidate :=
  match snd g with
  | [] => raise ValueError "min() arg is an empty sequence"
  | d :: ds =>
      Ok (skeleton_candidate (fst g) family
            (ad_risk_class (min_by (fun a b => str_ltb (risk_value (ad_risk_class a))
                                                       (risk_value (ad_risk_class b))) d ds))
            (max_by flt (net_utility d) (map net_utility ds)))
  end.

Definition operation_skeleton (d : ActionDefinition) : ActionCandidate :=
  skeleton_candidate (ad_id d) (ad_family d) (ad_risk_class d) (net_utility d).

(** The candidate of one variant, placement and verifier:
    [replace(selected_skeleton, id=..., requested_verifier=..., payload=...)]. *)
Definition expand (skeleton : ActionCandidate) (d : ActionDefinition) (variant_index : nat)
    (arguments : list (string * string)) (placement verifier : string) : ActionCandidate :=
  mkActionCandidate
    (ad_id d ++ ":" ++ str_of_Z (Z.of_nat variant_index) ++ ":" ++ placement ++ ":" ++ verifier)
    (ac_family skeleton) (ac_risk_class skeleton) (ac_optimistic_utility skeleton)
    (Some verifier)
    (("subgroup", ad_subgroup d) :: ("operation", ad_operation d)
      :: ("placement", placement) :: arguments).

Definition verifiers_of (allowed_verifiers : gset string) (d : ActionDefinition) : list string :=
  filter (fun v => v ∈ allowed_verifiers) (ad_verifier_ids d).

(** [definitions_by_id[id]]: the comprehension keeps the last definition of an id. *)
Definition definition_by_id (ds : list ActionDefinition) (i : string) : result ActionDefinition :=
  match find (fun d => String.eqb (ad_id d) i) (rev ds) with
  | Some d => Ok d
  | None => raise KeyError i
  end.

Definition full (cap : Z) (family_candidates : list ActionCandidate) : bool :=
  Z.leb cap (lenZ family_candidates).

(** The three innermost loops. *)
Definition expand_operation (cap : Z) (allowed_verifiers : gset string)
    (subgroup_definitions : list ActionDefinition)
    (family_candidates : list ActionCandidate) (skeleton : ActionCandidate)
    : result (list ActionCandidate) :=
  d ← definition_by_id subgroup_definitions (ac_id skeleton);
  for_break (full cap)
    (fun acc iv =>
       for_break (full cap)
         (fun acc placement =>
            for_break (full cap)
              (fun acc verifier =>
                 Ok (acc ++ [expand skeleton d (fst iv) (snd iv) placement verifier])%list)
              (verifiers_of allowed_verifiers d) acc)
         (placements_of d) acc)
    (zip (seq 0 (length (variants_of d))) (variants_of d)) family_candidates.

Definition widened_to (selected : list ActionCandidate) (initial_width : Z)
    (all : list ActionCandidate) : bool :=
  Z.ltb (Z.min initial_width (lenZ all)) (lenZ selected).

Record hier_options : Type := mkHierOptions {
  h_cap : Z; h_allowed_verifiers : gset string; h_initial_width : Z; h_maximum_width : Z;
  h_margin : float }.

(** The body of the loop over the selected subgroups; the state is the
    family's candidates and the widened families. *)
Definition expand_subgroup (o : hier_options) (family : ActionFamily)
    (by_subgroup : list (string * list ActionDefinition))
    (s : list ActionCandidate * list ActionFamily) (subgroup : ActionCandidate)
    : result (list ActionCandidate * list ActionFamily) :=
  let '(family_candidates, widened) := s in
  let subgroup_definitions := group_get (ac_id subgroup) by_subgroup in
  let operation_skeletons := map operation_skeleton subgroup_definitions in
  selected ← widen_when_margin_is_small operation_skeletons (h_initial_width o)
               (Z.min (h_maximum_width o) (h_cap o)) (h_margin o);
  let widened' :=
    if widened_to selected (h_initial_width o) operation_skeletons
       && negb (bool_decide (family ∈ widened))
    then (widened ++ [family])%list else widened in
  fc ← for_break (full (h_cap o))
         (expand_operation (h_cap o) (h_allowed_verifiers o) subgroup_definitions)
         selected family_candidates;
  Ok (fc, widened').

(** The body of the loop over the feasible families. *)
Definition compile_family (o : hier_options)
    (feasible : list (ActionFamily * list ActionDefinition))
    (s : list ActionCandidate * list ActionFamily) (family : ActionFamily)
    : result (list ActionCandidate * list ActionFamily) :=
  let '(compiled, widened) := s in
  let by_subgroup := group_by ad_subgroup (group_get family feasible) in
  subgroup_skeletons ← mapR (subgroup_skeleton family) by_subgroup;
  selected ← widen_when_margin_is_small subgroup_skeletons (h_initial_width o)
               (Z.min (h_maximum_width o) (h_cap o)) (h_margin o);
  let widened' :=
    if widened_to selected (h_initial_width o) subgroup_skeletons
    then (widened ++ [family])%list else widened in
  fcw ← for_break (fun s => full (h_cap o) (fst s)) (expand_subgroup o family by_subgroup)
          selected ([], widened');
  Ok ((compiled ++ fst fcw)%list, snd fcw).

(** The masking and pruning loop: feasible definitions by family, masked and
    pruned ids. *)
Definition classify_step (policy : AuthorityPolicy) (verifiers : gset string)
    (placements : option (gset string)) (budget minimum : float)
    (s : list (ActionFamily * list ActionDefinition) * list string * list string)
    (d : ActionDefinition) :=
  let '(feasible, masked, pruned) := s in
  if is_masked policy verifiers placements d
  then (feasible, (masked ++ [ad_id d])%list, pruned)
  else if is_pruned budget minimum d
  then (feasible, masked, (pruned ++ [ad_id d])%list)
  else (group_add (ad_family d) d feasible, masked, pruned).

(** The keyword arguments of [compile_hierarchical]. *)
Record hier_request : Type := mkHierRequest {
  hr_remaining_budget : float;
  hr_allowed_verifiers : gset string;
  hr_allowed_placements : option (gset string);
  hr_initial_width : Z;
  hr_maximum_width : option Z;
  hr_widening_margin : float;
  hr_minimum_utility : float }.

(** [maximum_width or self._per_family_cap]: 0 counts as absent. *)
Definition effective_maximum (cap : Z) (maximum_width : option Z) : Z :=
  match maximum_width with
  | Some w => if Z.eqb w 0 then cap else w
  | None => cap
  end.

Definition compile_hierarchical (c : CandidateCompiler) (definitions : list ActionDefinition)
    (policy : AuthorityPolicy) (r : hier_request) : result CandidateCompilation :=
  _ ← raise_if (flt (hr_remaining_budget r) fzero) ValueError
        "remaining_budget cannot be negative";
  _ ← raise_if (Z.ltb (hr_initial_width r) 1) ValueError "initial_width must be positive";
  let o := mkHierOptions (per_family_cap c) (hr_allowed_verifiers r) (hr_initial_width r)
             (effective_maximum (per_family_cap c) (hr_maximum_width r))
             (hr_widening_margin r) in
  let '(feasible, masked, pruned) :=
    fold_left (classify_step policy (hr_allowed_verifiers r) (hr_allowed_placements r)
                 (hr_remaining_budget r) (hr_minimum_utility r)) definitions ([], [], []) in
  cw ← foldR (compile_family o feasible) ([], []) (sorted_by family_ltb (map fst feasible));
  Ok (mkCandidateCompilation (fst cw) masked
        (match fst cw with [] => true | _ => false end) pruned (snd cw)).

(** ** Ranking *)

Definition comparable (c : ActionCandidate) : Prop := is_nan (ac_optimistic_utility c) = false.

Global Instance rank_strict_weak : StrictWeak rank_ltb comparable.
Proof.
  unfold rank_ltb, comparable. apply strict_weak_lex.
  - intros x y Hx Hy. rewrite <- is_nan_fneg in Hx, Hy.
    destruct (feq _ _) eqn:E.
    + pose proof E as E'. rewrite feq_sym in E'. by rewrite !feq_flt by done.
    + apply feq_false_cases in E as [E|E]; [| |done|done]; rewrite E; [done|].
      by rewrite andb_false_r.
  - split; intros *; rewrite <- !(is_nan_fneg (ac_optimistic_utility _)).
    + intros _ _. apply flt_asym.
    + intros _ Hy _. by apply flt_false_trans.
  - apply (str_ltb_strict_weak_on ac_id).
Qed.

(** ** Widening *)

(** The utility gap at rank [i]. *)
Definition gap (ordered : list ActionCandidate) (i : nat) : float :=
  fsub (utility_at ordered (i - 1)) (utility_at ordered i).

Lemma widen_loop_spec fuel ordered margin bound width :
  (width <= bound)%nat -> (bound - width <= fuel)%nat ->
  let w := widen_loop fuel ordered margin bound width in
  (width <= w <= bound)%nat
  /\ (forall i, (width <= i < w)%nat -> fgt (gap ordered i) margin = false)
  /\ ((w < bound)%nat -> fgt (gap ordered w) margin = true).
Proof.
  revert width; induction fuel as [|fuel IH]; intros width Hle Hf; cbn [widen_loop].
  - split; [lia|]. split; [lia|]. lia.
  - destruct (Nat.ltb_spec width bound) as [Hlt|Hge].
    2:{ split; [lia|]. split; lia. }
    fold (gap ordered width). destruct (fgt (gap ordered width) margin) eqn:E.
    + split; [lia|]. split; [lia|]. done.
    + destruct (IH (S width)) as (H1 & H2 & H3); [lia..|].
      split; [lia|]. split; [|done]. intros i Hi.
      destruct (decide (i = width)) as [->|]; [done|]. apply H2. lia.
Qed.

Lemma widen_ok l i m margin sel :
  widen_when_margin_is_small l i m margin = Ok sel ->
  (1 <= i <= m)%Z /\ exists w, sel = take w (ranked l)
  /\ (Z.to_nat (Z.min i (lenZ l)) <= w <= Z.to_nat (Z.min m (lenZ l)))%nat
  /\ (forall k, (Z.to_nat (Z.min i (lenZ l)) <= k < w)%nat ->
        fgt (gap (ranked l) k) margin = false)
  /\ ((w < Z.to_nat (Z.min m (lenZ l)))%nat -> fgt (gap (ranked l) w) margin = true).
Proof.
  unfold widen_when_margin_is_small.
  destruct (_ || _) eqn:E; [done|]. bool_hyps.
  assert (1 <= i <= m)%Z by lia.
  assert (lenZ (ranked l) = lenZ l) as Hlen by (unfold lenZ, ranked; by rewrite length_sorted_by).
  destruct l as [|c l]; intros Hsel; apply (f_equal (fun r => match r with Ok x => x | _ => [] end)) in Hsel;
    cbv beta iota in Hsel; subst sel; (split; [done|]).
  - exists 0%nat. split; [done|]. unfold lenZ; simpl. split; [lia|]. split; lia.
  - eexists. split; [reflexivity|]. rewrite Hlen.
    apply widen_loop_spec; [|lia]. pose proof (lenZ_nonneg (c :: l)). lia.
Qed.

Lemma widen_total l i m margin :
  (1 <= i <= m)%Z -> exists sel, widen_when_margin_is_small l i m margin = Ok sel.
Proof.
  intros H. unfold widen_when_margin_is_small.
  destruct (_ || _) eqn:E; [apply orb_true_iff in E; lia|]. destruct l; eauto.
Qed.

Lemma widen_elem l i m margin sel c :
  widen_when_margin_is_small l i m margin = Ok sel -> c ∈ sel -> c ∈ l.
Proof.
  intros H Hc. apply widen_ok in H as (_ & w & -> & _).
  rewrite <- (elem_of_sorted_by rank_ltb). eapply elem_of_take in Hc as (k & Hk & _).
  by eapply list_elem_of_lookup_2.
Qed.

Lemma widen_nonempty l i m margin sel :
  widen_when_margin_is_small l i m margin = Ok sel -> l <> [] -> sel <> [].
Proof.
  intros H Hl. apply widen_ok in H as (Hi & w & -> & Hw & _).
  assert (1 <= lenZ l)%Z by (destruct l; [done|unfold lenZ; simpl; lia]).
  intros E. apply (f_equal length) in E. rewrite length_take in E.
  unfold ranked in E. rewrite length_sorted_by in E. unfold lenZ in *. simpl in E. lia.
Qed.

(** ** Flat compilation *)

Definition permitted (policy : AuthorityPolicy) (l : list ActionCandidate) : list ActionCandidate :=
  filter (fun c => permits policy c = true) l.

Lemma mask_loop policy l :
  fold_left (mask_step policy) l ([], [])
  = (group_by ac_family (permitted policy l),
     map ac_id (filter (fun c => permits policy c = false) l)).
Proof.
  induction l as [|c l IH] using rev_ind; [done|].
  unfold permitted. rewrite fold_left_app, IH, !filter_app. simpl. rewrite !filter_cons, !filter_nil.
  destruct (permits policy c); simpl.
  - by rewrite app_nil_r, group_by_snoc.
  - by rewrite map_app, app_nil_r.
Qed.

Definition best_of (cap : Z) (policy : AuthorityPolicy) (l : list ActionCandidate)
    (f : ActionFamily) : list ActionCandidate :=
  take (Z.to_nat cap) (ranked (filter (fun c => ac_family c = f) (permitted policy l))).

Definition families_of (l : list ActionFamily) : list ActionFamily := sorted_by family_ltb l.

Lemma compile_candidates cp l policy :
  cc_candidates (compile cp l policy)
  = concat (map (best_of (per_family_cap cp) policy l)
       (families_of (map fst (group_by ac_family (permitted policy l))))).
Proof.
  unfold compile. rewrite mask_loop. cbn [cc_candidates]. unfold families_of, best_of.
  f_equal. apply map_ext. intros f. by rewrite group_get_by.
Qed.

Lemma best_of_elem cap policy l f c :
  c ∈ best_of cap policy l f -> c ∈ l /\ permits policy c = true /\ ac_family c = f.
Proof.
  unfold best_of. intros H. eapply elem_of_take in H as (i & Hi & _).
  apply list_elem_of_lookup_2 in Hi. unfold ranked in Hi. rewrite elem_of_sorted_by in Hi.
  unfold permitted in Hi. rewrite !list_elem_of_filter in Hi. naive_solver.
Qed.

Lemma elem_of_concat_map {A B} (f : A -> list B) l y :
  y ∈ concat (map f l) <-> exists x, x ∈ l /\ y ∈ f x.
Proof.
  induction l as [|x l IH]; simpl; [set_solver|].
  rewrite elem_of_app, IH. set_solver.
Qed.

(** The family blocks of the output are disjoint. *)
Lemma filter_family_concat (g : ActionFamily -> list ActionCandidate) fs f :
  (forall f c, c ∈ g f -> ac_family c = f) -> NoDup fs ->
  filter (fun c => ac_family c = f) (concat (map g fs)) = if bool_decide (f ∈ fs) then g f else [].
Proof.
  intros Hg. assert (Hall : forall f', filter (fun c => ac_family c = f) (g f')
                                       = if bool_decide (f = f') then g f' else []).
  { intros f'. assert (Forall (fun c => ac_family c = f') (g f')) as Hf
      by (apply Forall_forall; eauto).
    case_bool_decide as E; induction Hf as [|c cs Hc Hcs IH]; try done;
      rewrite filter_cons, IH; case_decide; naive_solver congruence. }
  induction 1 as [|f' fs Hn Hd IH]; [done|]. simpl. rewrite filter_app, Hall, IH.
  destruct (bool_decide_reflect (f = f')) as [->|Hne].
  - rewrite bool_decide_eq_false_2 by done. rewrite bool_decide_eq_true_2 by set_solver.
    by rewrite app_nil_r.
  - case_bool_decide.
    + by rewrite bool_decide_eq_true_2 by set_solver.
    + by rewrite bool_decide_eq_false_2 by set_solver.
Qed.

Lemma families_of_NoDup l : NoDup l -> NoDup (families_of l).
Proof. unfold families_of. by rewrite sorted_by_perm. Qed.

Lemma families_of_elem l f : f ∈ families_of l <-> f ∈ l.
Proof. apply elem_of_sorted_by. Qed.

(** The output restricted to a family is the family's [best_of]. *)
Lemma compile_family_block cp l policy f :
  filter (fun c => ac_family c = f) (cc_candidates (compile cp l policy))
  = best_of (per_family_cap cp) policy l f.
Proof.
  rewrite compile_candidates, filter_family_concat.
  2:{ intros f' c Hc. by apply best_of_elem in Hc as (_ & _ & ?). }
  2:{ apply families_of_NoDup, group_by_NoDup. }
  case_bool_decide as Hf; [done|]. rewrite families_of_elem, group_by_keys in Hf.
  unfold best_of. destruct (filter _ (permitted _ _)) as [|c cs] eqn:E; [symmetry; apply take_nil|].
  exfalso. apply Hf. assert (c ∈ c :: cs) as Hc by left. rewrite <- E in Hc.
  apply list_elem_of_filter in Hc. naive_solver.
Qed.

(** ** Properties of the flat compiler *)

(** [compile] puts policy first and is exact about what it drops.  Every
    candidate it returns is an input candidate the policy permits; the masked
    ids are those of the refused inputs, in order; a family contributes at most
    [per_family_cap] candidates; a permitted input that is missing is beaten, in
    the order of decreasing utility and then id, by no less than the cap's
    number of candidates of its own family; and [no_safe_action] holds exactly
    when the policy permits nothing.  Utilities are not NaN. *)
Theorem compile_policy_first cp l policy (Hcap : (1 <= per_family_cap cp)%Z)
    (Hu : Forall comparable l) :
  let r := compile cp l policy in
  (forall c, c ∈ cc_candidates r -> c ∈ l /\ permits policy c = true)
  /\ cc_masked_ids r = map ac_id (filter (fun c => permits policy c = false) l)
  /\ (forall f, (lenZ (filter (fun c => ac_family c = f) (cc_candidates r)) <= per_family_cap cp)%Z)
  /\ (forall c, c ∈ l -> permits policy c = true -> c ∉ cc_candidates r ->
        let kept := filter (fun c' => ac_family c' = ac_family c) (cc_candidates r) in
        lenZ kept = per_family_cap cp /\ Forall (fun c' => rank_ltb c c' = false) kept)
  /\ (cc_no_safe_action r = true <-> Forall (fun c => permits policy c = false) l).
Proof.
  intros r.
  assert (Hsound : forall c, c ∈ cc_candidates r -> c ∈ l /\ permits policy c = true).
  { intros c. unfold r. rewrite compile_candidates, elem_of_concat_map.
    intros (f & _ & Hc). apply best_of_elem in Hc. naive_solver. }
  assert (Hkept : forall c, c ∈ l -> permits policy c = true ->
            c ∈ ranked (filter (fun c' => ac_family c' = ac_family c) (permitted policy l))).
  { intros c Hc Hp. unfold ranked, permitted. rewrite elem_of_sorted_by, !list_elem_of_filter. done. }
  assert (Hblock : forall c, c ∈ filter (fun c' => ac_family c' = ac_family c) (cc_candidates r)
            <-> c ∈ cc_candidates r).
  { intros c. rewrite list_elem_of_filter. naive_solver. }
  split; [done|]. split; [unfold r, compile; by rewrite mask_loop|]. split; [|split].
  - intros f. unfold r. rewrite compile_family_block. unfold best_of, lenZ. rewrite length_take. lia.
  - intros c Hc Hp Hn. rewrite <- Hblock in Hn. unfold r in *.
    rewrite compile_family_block in *. apply (Hkept c Hc) in Hp as Hin. unfold best_of in *.
    set (s := ranked _) in *. set (n := Z.to_nat (per_family_cap cp)) in *.
    assert (c ∈ drop n s) as Hd.
    { rewrite <- (take_drop n s) in Hin. set_solver. }
    split.
    + unfold lenZ. rewrite length_take.
      assert (n < length s)%nat.
      { destruct (Nat.ltb_spec n (length s)); [done|]. rewrite drop_ge in Hd by lia. set_solver. }
      lia.
    + apply Forall_forall. intros c' Hc'.
      apply (StronglySorted_take_drop (not_after rank_ltb) s n c' c); [|done|done].
      apply (sorted_by_sorted rank_ltb comparable).
      apply Forall_forall. intros x Hx. unfold permitted in Hx. rewrite !list_elem_of_filter in Hx.
      rewrite Forall_forall in Hu. naive_solver.
  - rewrite Forall_forall. unfold r in *. split.
    + intros Hno c Hc. destruct (permits policy c) eqn:Hp; [|done]. exfalso.
      apply (Hkept c Hc) in Hp.
      assert (cc_candidates (compile cp l policy) = []) as Hnil.
      { unfold compile in *. destruct (fold_left _ _ _) as [fe ma]. cbn in *. by destruct (concat _). }
      pose proof (compile_family_block cp l policy (ac_family c)) as Hb.
      rewrite Hnil in Hb. unfold best_of in Hb. destruct (ranked _) as [|x xs]; [set_solver|].
      destruct (Z.to_nat (per_family_cap cp)) eqn:E; [lia|done].
    + intros Hall. destruct (cc_candidates (compile cp l policy)) as [|c cs] eqn:E.
      * unfold compile in *. destruct (fold_left _ _ _) as [fe ma]. cbn in *. by rewrite E.
      * destruct (Hsound c) as [Hc Hp]; [left|]. by rewrite Hall in Hp.
Qed.

Definition example_policy : AuthorityPolicy :=
  mkAuthorityPolicy {[TOOL; RETRIEVAL]} {[READ_ONLY]} default_data_boundaries.

Definition example_candidates : list ActionCandidate :=
  [skeleton_candidate "b" TOOL READ_ONLY fone;
   skeleton_candidate "a" TOOL READ_ONLY fone;
   skeleton_candidate "w" TOOL EXTERNAL_WRITE fone;
   skeleton_candidate "c" RETRIEVAL READ_ONLY fzero].

Lemma compile_policy_first_witness :
  let r := compile (mkCandidateCompiler 1) example_candidates example_policy in
  map ac_id (cc_candidates r) = ["c"; "a"]
  /\ cc_masked_ids r = ["w"]
  /\ (cc_no_safe_action r = true <->
      Forall (fun c => permits example_policy c = false) example_candidates).
Proof.
  split; [vm_compute; reflexivity|].
  destruct (compile_policy_first (mkCandidateCompiler 1) example_candidates example_policy)
    as (_ & Hm & _ & _ & Hn).
  - simpl. lia.
  - repeat constructor.
  - split; [rewrite Hm; vm_compute; reflexivity | exact Hn].
Defined.

(** ** Hierarchical compilation: the loops as list operations *)

(** A definition that is neither masked nor pruned. *)
Definition is_feasible (policy : AuthorityPolicy) (r : hier_request) (d : ActionDefinition) : bool :=
  negb (is_masked policy (hr_allowed_verifiers r) (hr_allowed_placements r) d)
  && negb (is_pruned (hr_remaining_budget r) (hr_minimum_utility r) d).

Definition feasible_definitions policy r (l : list ActionDefinition) : list ActionDefinition :=
  filter (fun d => is_feasible policy r d = true) l.

Definition masked_definitions policy r (l : list ActionDefinition) : list ActionDefinition :=
  filter (fun d => is_masked policy (hr_allowed_verifiers r) (hr_allowed_placements r) d = true) l.

Definition pruned_definitions policy r (l : list ActionDefinition) : list ActionDefinition :=
  filter (fun d => is_pruned (hr_remaining_budget r) (hr_minimum_utility r) d = true)
    (filter (fun d => is_masked policy (hr_allowed_verifiers r) (hr_allowed_placements r) d = false) l).

Lemma classify_loop policy r l :
  fold_left (classify_step policy (hr_allowed_verifiers r) (hr_allowed_placements r)
               (hr_remaining_budget r) (hr_minimum_utility r)) l ([], [], [])
  = (group_by ad_family (feasible_definitions policy r l),
     map ad_id (masked_definitions policy r l), map ad_id (pruned_definitions policy r l)).
Proof.
  unfold feasible_definitions, masked_definitions, pruned_definitions, is_feasible.
  induction l as [|d l IH] using rev_ind; [done|].
  rewrite fold_left_app, IH, !filter_app. simpl. rewrite !filter_cons, !filter_nil.
  destruct (is_masked _ _ _ d); simpl; [by rewrite !app_nil_r, map_app|].
  rewrite filter_cons, filter_nil.
  destruct (is_pruned _ _ d); simpl; rewrite ?app_nil_r, ?map_app; [done|].
  by rewrite group_by_snoc.
Qed.

(** All candidates of one operation, in the order of the loops. *)
Definition expansions (verifiers : gset string) (d : ActionDefinition) (sk : ActionCandidate)
    : list ActionCandidate :=
  concat (map (fun iv =>
    concat (map (fun placement =>
      map (fun verifier => expand sk d (fst iv) (snd iv) placement verifier) (verifiers_of verifiers d))
      (placements_of d)))
    (zip (seq 0 (length (variants_of d))) (variants_of d))).

Definition operation_candidates (o : hier_options) (ds : list ActionDefinition)
    (sk : ActionCandidate) : list ActionCandidate :=
  match definition_by_id ds (ac_id sk) with
  | Ok d => expansions (h_allowed_verifiers o) d sk
  | Raise _ => []
  end.

Definition widened_ops (o : hier_options) (l : list ActionCandidate) : list ActionCandidate :=
  match widen_when_margin_is_small l (h_initial_width o)
          (Z.min (h_maximum_width o) (h_cap o)) (h_margin o) with
  | Ok sel => sel
  | Raise _ => []
  end.

Definition subgroup_candidates (o : hier_options) (by_subgroup : list (string * list ActionDefinition))
    (sk : ActionCandidate) : list ActionCandidate :=
  let ds := group_get (ac_id sk) by_subgroup in
  concat (map (operation_candidates o ds) (widened_ops o (map operation_skeleton ds))).

Definition subgroup_skeletons_of (family : ActionFamily)
    (by_subgroup : list (string * list ActionDefinition)) : list ActionCandidate :=
  match mapR (subgroup_skeleton family) by_subgroup with Ok sks => sks | Raise _ => [] end.

Definition family_candidates_of (o : hier_options)
    (feasible : list (ActionFamily * list ActionDefinition)) (family : ActionFamily)
    : list ActionCandidate :=
  let by_subgroup := group_by ad_subgroup (group_get family feasible) in
  take (Z.to_nat (h_cap o))
    (concat (map (subgroup_candidates o by_subgroup)
               (widened_ops o (subgroup_skeletons_of family by_subgroup)))).

Lemma full_leb cap l : (1 <= cap)%Z -> full cap l = Nat.leb (Z.to_nat cap) (length l).
Proof.
  intros H. unfold full, lenZ.
  destruct (Z.leb_spec cap (Z.of_nat (length l))), (Nat.leb_spec (Z.to_nat cap) (length l)); lia.
Qed.

Lemma definition_by_id_ok ds i d :
  definition_by_id ds i = Ok d -> d ∈ ds /\ ad_id d = i.
Proof.
  unfold definition_by_id. destruct (find _ _) as [d'|] eqn:E; [|done]. intros [= ->].
  apply find_some in E as [Hin Hi]. split; [|by apply String.eqb_eq].
  apply list_elem_of_In. by apply in_rev.
Qed.

Lemma definition_by_id_total ds d : d ∈ ds -> exists d', definition_by_id ds (ad_id d) = Ok d'.
Proof.
  intros Hd. unfold definition_by_id. destruct (find _ _) as [d'|] eqn:E; [eauto|].
  exfalso. pose proof (find_none _ _ E d) as Hf. cbv beta in Hf.
  rewrite String.eqb_refl in Hf. discriminate Hf. by apply in_rev, list_elem_of_In; rewrite rev_involutive.
Qed.

Lemma subgroup_skeletons_ok family ds :
  mapR (subgroup_skeleton family) (group_by ad_subgroup ds)
  = Ok (subgroup_skeletons_of family (group_by ad_subgroup ds))
  /\ map ac_id (subgroup_skeletons_of family (group_by ad_subgroup ds))
     = map fst (group_by ad_subgroup ds).
Proof.
  assert (Forall (fun g => snd g <> []) (group_by ad_subgroup ds)) as Hne.
  { apply Forall_forall. intros [k xs] Hin. apply group_by_elem in Hin as (-> & x & Hx & Hk).
    simpl. intros E. assert (x ∈ filter (fun x => ad_subgroup x = k) ds) as Hx'
      by by apply list_elem_of_filter. rewrite E in Hx'. set_solver. }
  unfold subgroup_skeletons_of.
  induction Hne as [|[k xs] gs Hx _ [IH1 IH2]]; [done|].
  destruct xs as [|d ds']; [done|]. simpl.
  destruct (mapR (subgroup_skeleton family) gs) as [sks|e]; [|done]. simpl in *.
  split; [done|]. by rewrite IH2.
Qed.

Section loops.
Context (o : hier_options) (Hcap : (1 <= h_cap o)%Z).

Lemma expand_operation_take ds acc sk d :
  definition_by_id ds (ac_id sk) = Ok d -> length acc < Z.to_nat (h_cap o) ->
  exists acc', expand_operation (h_cap o) (h_allowed_verifiers o) ds acc sk = Ok acc'
  /\ acc' = take (Z.to_nat (h_cap o)) (acc ++ operation_candidates o ds sk).
Proof.
  intros Hd Hacc. unfold expand_operation, operation_candidates, expansions. rewrite Hd. simpl.
  apply (for_break_take (Z.to_nat (h_cap o)) (fun x => x)); [intros; by apply full_leb| |done].
  intros s [i variant] _ Hs. simpl.
  apply (for_break_take (Z.to_nat (h_cap o)) (fun x => x)); [intros; by apply full_leb| |done].
  clear s Hs. intros s placement _ Hs.
  destruct (for_break_take (Z.to_nat (h_cap o)) (fun x => x)
    (fun verifier => [expand sk d i variant placement verifier]) (full (h_cap o))
    (fun acc verifier => Ok (acc ++ [expand sk d i variant placement verifier])%list)
    (verifiers_of (h_allowed_verifiers o) d) s) as (s' & -> & ->);
    [intros; by apply full_leb| |done|].
  - intros s2 v _ Hs2. eexists; split; [done|]. rewrite take_ge; [done|].
    rewrite length_app. simpl. lia.
  - eexists; split; [done|]. do 2 f_equal.
    induction (verifiers_of (h_allowed_verifiers o) d) as [|v vs IH]; simpl; congruence.
Qed.

Context (Hwidth : (1 <= h_initial_width o <= Z.min (h_maximum_width o) (h_cap o))%Z).

Lemma widened_ops_ok l :
  widen_when_margin_is_small l (h_initial_width o) (Z.min (h_maximum_width o) (h_cap o)) (h_margin o)
  = Ok (widened_ops o l).
Proof.
  unfold widened_ops.
  destruct (widen_total l (h_initial_width o) (Z.min (h_maximum_width o) (h_cap o)) (h_margin o))
    as [sel ->]; done.
Qed.

Lemma expand_subgroup_take family by_subgroup s sk :
  length (fst s) < Z.to_nat (h_cap o) ->
  exists s', expand_subgroup o family by_subgroup s sk = Ok s'
  /\ fst s' = take (Z.to_nat (h_cap o)) (fst s ++ subgroup_candidates o by_subgroup sk).
Proof.
  destruct s as [fc widened]. simpl. intros Hs. rewrite widened_ops_ok. simpl.
  unfold subgroup_candidates. set (ds := group_get _ _).
  destruct (for_break_take (Z.to_nat (h_cap o)) (fun x => x) (operation_candidates o ds)
    (full (h_cap o)) (expand_operation (h_cap o) (h_allowed_verifiers o) ds)
    (widened_ops o (map operation_skeleton ds)) fc) as (s' & -> & ->);
    [intros; by apply full_leb| |done|].
  - intros s op Hop Hlen. 
    pose proof (widened_ops_ok (map operation_skeleton ds)) as Hw.
    apply (widen_elem _ _ _ _ _ op) in Hw; [|done].
    apply list_elem_of_fmap in Hw as (d0 & -> & Hd0).
    destruct (definition_by_id_total ds d0 Hd0) as [d Hd].
    by apply (expand_operation_take ds s (operation_skeleton d0) d).
  - simpl. eexists; split; [done|]. done.
Qed.

Lemma compile_family_candidates feasible s family :
  exists w, compile_family o feasible s family
  = Ok ((fst s ++ family_candidates_of o feasible family)%list, w).
Proof.
  destruct s as [compiled widened]. unfold compile_family, family_candidates_of.
  set (by_subgroup := group_by _ _).
  destruct (subgroup_skeletons_ok family (group_get family feasible)) as [Hsk _].
  fold by_subgroup in Hsk. rewrite Hsk. cbn [mbind result_bind].
  rewrite widened_ops_ok. cbn [mbind result_bind].
  set (w0 := if widened_to _ _ _ then _ else _).
  destruct (for_break_take (Z.to_nat (h_cap o)) fst (subgroup_candidates o by_subgroup)
    (fun s => full (h_cap o) (fst s)) (expand_subgroup o family by_subgroup)
    (widened_ops o (subgroup_skeletons_of family by_subgroup)) ([], w0)) as ([fc w] & -> & Hfc).
  - intros; by apply full_leb.
  - intros s sk _ Hs. by apply expand_subgroup_take.
  - simpl. lia.
  - simpl in *. exists w. by rewrite Hfc.
Qed.

Lemma compile_families feasible s fams :
  exists w, foldR (compile_family o feasible) s fams
  = Ok ((fst s ++ concat (map (family_candidates_of o feasible) fams))%list, w).
Proof.
  revert s; induction fams as [|f fams IH]; intros s; simpl.
  - destruct s as [c w]. exists w. by rewrite app_nil_r.
  - destruct (compile_family_candidates feasible s f) as [w ->]. cbn [mbind result_bind].
    destruct (IH ((fst s ++ family_candidates_of o feasible f)%list, w)) as [w' ->].
    exists w'. simpl. by rewrite <- app_assoc.
Qed.
End loops.

(** ** Hierarchical compilation: shared facts *)

Definition options_of (cp : CandidateCompiler) (r : hier_request) : hier_options :=
  mkHierOptions (per_family_cap cp) (hr_allowed_verifiers r) (hr_initial_width r)
    (effective_maximum (per_family_cap cp) (hr_maximum_width r)) (hr_widening_margin r).

Definition widths_ok (cp : CandidateCompiler) (r : hier_request) : Prop :=
  (hr_initial_width r
   <= Z.min (effective_maximum (per_family_cap cp) (hr_maximum_width r)) (per_family_cap cp))%Z.

Global Instance widths_ok_dec cp r : Decision (widths_ok cp r) := Z_le_dec _ _.

Definition by_family policy r l : list (ActionFamily * list ActionDefinition) :=
  group_by ad_family (feasible_definitions policy r l).

Definition hierarchical_candidates cp l policy r : list ActionCandidate :=
  concat (map (family_candidates_of (options_of cp r) (by_family policy r l))
            (families_of (map fst (by_family policy r l)))).

Definition hierarchical_result cp l policy r widened : CandidateCompilation :=
  let compiled := hierarchical_candidates cp l policy r in
  mkCandidateCompilation compiled (map ad_id (masked_definitions policy r l))
    (match compiled with [] => true | _ => false end)
    (map ad_id (pruned_definitions policy r l)) widened.

Lemma by_family_nil policy r l : feasible_definitions policy r l = [] -> by_family policy r l = [].
Proof. unfold by_family. by intros ->. Qed.

(** Every outcome of [compile_hierarchical]. *)
Lemma compile_hierarchical_cases cp l policy r :
  (1 <= per_family_cap cp)%Z ->
  (exists m, compile_hierarchical cp l policy r = raise ValueError m
     /\ (flt (hr_remaining_budget r) fzero = true \/ (hr_initial_width r < 1)%Z
         \/ (feasible_definitions policy r l <> [] /\ ~ widths_ok cp r)))
  \/ (exists w, compile_hierarchical cp l policy r = Ok (hierarchical_result cp l policy r w)
      /\ flt (hr_remaining_budget r) fzero = false /\ (1 <= hr_initial_width r)%Z
      /\ (feasible_definitions policy r l = [] \/ widths_ok cp r)).
Proof.
  intros Hcap. unfold compile_hierarchical, raise_if.
  destruct (flt (hr_remaining_budget r) fzero) eqn:Eb; [left; eauto|].
  destruct (Z.ltb_spec (hr_initial_width r) 1) as [Hw|Hw]; [left; eauto|].
  rewrite classify_loop. cbn [mbind result_bind].
  fold (options_of cp r) (by_family policy r l).
  destruct (feasible_definitions policy r l) as [|d ds] eqn:Ef.
  - right. exists []. split; [|by auto].
    unfold hierarchical_result, hierarchical_candidates. by rewrite (by_family_nil _ _ _ Ef).
  - destruct (decide (widths_ok cp r)) as [Hok|Hbad].
    + right. destruct (compile_families (options_of cp r) Hcap (conj Hw Hok)
        (by_family policy r l) ([], []) (families_of (map fst (by_family policy r l)))) as [w Hfam].
      exists w. unfold families_of in Hfam. rewrite Hfam. split; [done|]. eauto.
    + left. unfold families_of. 
      destruct (sorted_by family_ltb (map fst (by_family policy r l))) as [|f fs] eqn:Es.
      { exfalso. assert (ad_family d ∈ map fst (by_family policy r l)) as Hin.
        { unfold by_family. rewrite Ef. apply group_by_keys. exists d. split; [left|done]. }
        rewrite <- (elem_of_sorted_by family_ltb), Es in Hin. set_solver. }
      simpl. rewrite (proj1 (subgroup_skeletons_ok _ _)). simpl.
      unfold widen_when_margin_is_small at 1. simpl.
      unfold widths_ok in Hbad.
      destruct (Z.ltb_spec (Z.min (effective_maximum (per_family_cap cp) (hr_maximum_width r))
        (per_family_cap cp)) (hr_initial_width r)); [|lia].
      rewrite orb_true_r. simpl. eexists. split; [done|]. right. right. by split.
Qed.

Lemma feasible_elem policy r l d :
  d ∈ feasible_definitions policy r l <-> is_feasible policy r d = true /\ d ∈ l.
Proof. unfold feasible_definitions. by rewrite list_elem_of_filter. Qed.

Lemma family_definitions policy r l f d :
  d ∈ group_get f (by_family policy r l)
  <-> ad_family d = f /\ is_feasible policy r d = true /\ d ∈ l.
Proof. unfold by_family. rewrite group_get_by, list_elem_of_filter, feasible_elem. done. Qed.

Lemma expansions_elem vs d sk c :
  c ∈ expansions vs d sk <->
  exists i variant placement verifier,
    variants_of d !! i = Some variant /\ placement ∈ placements_of d
    /\ verifier ∈ ad_verifier_ids d /\ verifier ∈ vs
    /\ c = expand sk d i variant placement verifier.
Proof.
  unfold expansions. rewrite elem_of_concat_map. split.
  - intros ([i variant] & Hiv & Hc). apply elem_of_concat_map in Hc as (p & Hp & Hc).
    apply list_elem_of_fmap in Hc as (v & -> & Hv). apply list_elem_of_filter in Hv as [? ?].
    apply list_elem_of_lookup in Hiv as [k Hk]. apply lookup_zip_Some in Hk as [Hi Hvar].
    apply lookup_seq in Hi as [-> _]. exists k, variant, p, v. done.
  - intros (i & variant & p & v & Hvar & Hp & Hv & Hvs & ->).
    exists (i, variant). split.
    + apply list_elem_of_lookup. exists i. apply lookup_zip_Some. split; [|done].
      apply lookup_seq. split; [done|]. by eapply lookup_lt_Some.
    + apply elem_of_concat_map. exists p. split; [done|].
      apply list_elem_of_fmap. exists v. split; [done|]. by apply list_elem_of_filter.
Qed.

(** Where a candidate of a family comes from. *)
Lemma family_candidates_sound cp policy r l f c :
  c ∈ family_candidates_of (options_of cp r) (by_family policy r l) f ->
  exists d d0,
    (d ∈ l /\ is_feasible policy r d = true) /\ (d0 ∈ l /\ is_feasible policy r d0 = true)
    /\ ad_id d0 = ad_id d /\ ad_family d0 = f /\ ad_family d = f /\ ad_subgroup d0 = ad_subgroup d
    /\ c ∈ expansions (hr_allowed_verifiers r) d (operation_skeleton d0).
Proof.
  unfold family_candidates_of. intros Hc.
  eapply elem_of_take in Hc as (k & Hc & _). apply list_elem_of_lookup_2 in Hc.
  apply elem_of_concat_map in Hc as (sg & _ & Hc). unfold subgroup_candidates in Hc.
  apply elem_of_concat_map in Hc as (op & Hop & Hc).
  set (ds := group_get (ac_id sg) _) in *.
  unfold operation_candidates in Hc.
  destruct (definition_by_id ds (ac_id op)) as [d|] eqn:Ed; [|set_solver].
  apply definition_by_id_ok in Ed as [Hd Hid].
  unfold widened_ops in Hop. destruct (widen_when_margin_is_small _ _ _ _) eqn:Ew; [|set_solver].
  apply (widen_elem _ _ _ _ _ _ Ew) in Hop.
  apply list_elem_of_fmap in Hop as (d0 & -> & Hd0). simpl in Hid.
  unfold ds in Hd, Hd0. rewrite group_get_by, list_elem_of_filter, family_definitions in Hd, Hd0.
  destruct Hd as (Hs & Hf & Hfd & Hl), Hd0 as (Hs0 & Hf0 & Hfd0 & Hl0).
  exists d, d0. repeat split; try done. by rewrite Hs.
Qed.

Lemma feasible_verifiers policy r d :
  is_feasible policy r d = true -> verifiers_of (hr_allowed_verifiers r) d <> [].
Proof.
  unfold is_feasible, is_masked. intros H. bool_hyps. intros E.
  match goal with Hv : _ <> ∅ |- _ => apply Hv end.
  apply set_eq. intros v. rewrite elem_of_intersection, elem_of_list_to_set.
  split; [|set_solver]. intros [Hv1 Hv2].
  assert (v ∈ verifiers_of (hr_allowed_verifiers r) d) as Hv by by apply list_elem_of_filter.
  rewrite E in Hv. set_solver.
Qed.

Lemma nonempty_elem {A} (l : list A) : l <> [] -> exists x, x ∈ l.
Proof. destruct l as [|x l]; [done|]. exists x. left. Qed.

Lemma expansions_nonempty policy r d sk :
  is_feasible policy r d = true -> exists c, c ∈ expansions (hr_allowed_verifiers r) d sk.
Proof.
  intros Hf. apply feasible_verifiers, nonempty_elem in Hf as [v Hv].
  apply list_elem_of_filter in Hv as [Hv1 Hv2].
  assert (exists variant, variants_of d !! 0 = Some variant) as [variant Hvar]
    by (unfold variants_of; destruct (ad_argument_variants d); simpl; eauto).
  assert (exists p, p ∈ placements_of d) as [p Hp]
    by (apply nonempty_elem; unfold placements_of; by destruct (ad_placements d)).
  exists (expand sk d 0 variant p v). apply expansions_elem. exists 0, variant, p, v. done.
Qed.

Lemma family_candidates_family cp policy r l f c :
  c ∈ family_candidates_of (options_of cp r) (by_family policy r l) f -> ac_family c = f.
Proof.
  intros Hc. apply family_candidates_sound in Hc as (d & d0 & _ & _ & _ & Hf & _ & _ & Hc).
  apply expansions_elem in Hc as (? & ? & ? & ? & _ & _ & _ & _ & ->). done.
Qed.

Lemma hierarchical_family_block cp l policy r d :
  d ∈ l -> is_feasible policy r d = true ->
  filter (fun c => ac_family c = ad_family d) (hierarchical_candidates cp l policy r)
  = family_candidates_of (options_of cp r) (by_family policy r l) (ad_family d).
Proof.
  intros Hd Hf. unfold hierarchical_candidates.
  rewrite filter_family_concat; [|apply family_candidates_family|apply families_of_NoDup, group_by_NoDup].
  rewrite bool_decide_eq_true_2; [done|]. rewrite families_of_elem. unfold by_family.
  apply group_by_keys. exists d. by rewrite feasible_elem.
Qed.

Lemma widened_ops_nonempty o l :
  (1 <= h_initial_width o <= Z.min (h_maximum_width o) (h_cap o))%Z ->
  l <> [] -> exists c, c ∈ widened_ops o l /\ c ∈ l.
Proof.
  intros Hw Hl. pose proof (widened_ops_ok o Hw l) as E.
  pose proof (widen_nonempty _ _ _ _ _ E Hl) as Hne.
  destruct (nonempty_elem _ Hne) as [c Hc]. exists c. split; [done|]. by eapply widen_elem.
Qed.

Lemma family_candidates_nonempty cp policy r l d :
  (1 <= per_family_cap cp)%Z -> (1 <= hr_initial_width r)%Z -> widths_ok cp r ->
  d ∈ l -> is_feasible policy r d = true ->
  family_candidates_of (options_of cp r) (by_family policy r l) (ad_family d) <> [].
Proof.
  intros Hcap Hi Hw Hd Hf. unfold family_candidates_of.
  set (ds := group_get (ad_family d) (by_family policy r l)).
  set (o := options_of cp r). assert (Hwo : (1 <= h_initial_width o
    <= Z.min (h_maximum_width o) (h_cap o))%Z) by (split; [exact Hi | exact Hw]).
  destruct (subgroup_skeletons_ok (ad_family d) ds) as [_ Hids].
  assert (Hdd : d ∈ ds) by by apply family_definitions.
  destruct (widened_ops_nonempty o (subgroup_skeletons_of (ad_family d) (group_by ad_subgroup ds)))
    as (sg & Hsel & Hsg); [done| |].
  { intros E. rewrite E in Hids. simpl in Hids.
    assert (ad_subgroup d ∈ map fst (group_by ad_subgroup ds)) as Hin
      by (apply group_by_keys; eauto). rewrite <- Hids in Hin. set_solver. }
  assert (ac_id sg ∈ map fst (group_by ad_subgroup ds)) as Hk
    by (rewrite <- Hids; by apply list_elem_of_fmap_2).
  apply group_by_keys in Hk as (x & Hx & Hxs).
  set (sds := group_get (ac_id sg) (group_by ad_subgroup ds)).
  assert (Hxd : x ∈ sds) by (unfold sds; by rewrite group_get_by, list_elem_of_filter).
  destruct (widened_ops_nonempty o (map operation_skeleton sds)) as (op & Hop & Hop').
  { done. }
  { intros E. apply map_eq_nil in E. rewrite E in Hxd. set_solver. }
  apply list_elem_of_fmap in Hop' as (y & -> & Hy).
  destruct (definition_by_id_total sds y Hy) as [z Hz].
  pose proof (definition_by_id_ok _ _ _ Hz) as [Hzd _].
  unfold sds in Hzd. rewrite group_get_by, list_elem_of_filter in Hzd.
  destruct Hzd as [_ Hzd]. apply family_definitions in Hzd as (_ & Hzf & _).
  destruct (expansions_nonempty policy r z (operation_skeleton y) Hzf) as [c Hc].
  assert (Hin : c ∈ concat (map (subgroup_candidates o (group_by ad_subgroup ds))
    (widened_ops o (subgroup_skeletons_of (ad_family d) (group_by ad_subgroup ds))))).
  { apply elem_of_concat_map. exists sg. split; [done|]. unfold subgroup_candidates.
    apply elem_of_concat_map. exists (operation_skeleton y). split; [done|].
    unfold operation_candidates. fold sds. simpl. by rewrite Hz. }
  destruct (concat _) as [|c0 cs]; [set_solver|]. simpl.
  destruct (Z.to_nat (per_family_cap cp)) eqn:E; [lia|]. done.
Qed.

(** Where a candidate's family and risk class come from. *)
Lemma hierarchical_candidate_of cp l policy r res c :
  (1 <= per_family_cap cp)%Z -> compile_hierarchical cp l policy r = Ok res -> c ∈ cc_candidates res ->
  exists d, d ∈ l /\ is_feasible policy r d = true /\ permits policy c = true
  /\ ac_family c = ad_family d /\ ac_risk_class c = ad_risk_class d.
Proof.
  intros Hcap Hres Hc. destruct (compile_hierarchical_cases cp l policy r Hcap)
    as [(m & Hr & _)|(w & Hr & _ & _ & _)]; rewrite Hr in Hres; [done|].
  injection Hres as <-. cbn [cc_candidates hierarchical_result] in Hc.
  unfold hierarchical_candidates in Hc. apply elem_of_concat_map in Hc as (f & _ & Hc).
  apply family_candidates_sound in Hc
    as (d & d0 & [Hd Hdf] & [Hd0 Hd0f] & Hid & Hf0 & Hf & Hs & Hc).
  apply expansions_elem in Hc as (i & variant & p & v & Hvar & Hp & Hv & Hvs & ->).
  exists d0. split; [done|]. split; [done|]. split; [|done].
  unfold is_feasible, is_masked in Hd0f. bool_hyps. done.
Qed.

(** With the default widths a budget that is not negative always compiles. *)
Lemma hierarchical_defaults_total cp l policy r :
  (1 <= per_family_cap cp)%Z -> flt (hr_remaining_budget r) fzero = false ->
  hr_initial_width r = 1%Z -> hr_maximum_width r = None ->
  exists res, compile_hierarchical cp l policy r = Ok res.
Proof.
  intros Hcap Hb Hi Hm. destruct (compile_hierarchical_cases cp l policy r Hcap)
    as [(m & _ & [H|[H|[_ H]]])|(w & Hr & _)]; [congruence|lia| |eauto].
  exfalso. apply H. unfold widths_ok. rewrite Hi, Hm. cbn [effective_maximum]. lia.
Qed.

(** ** Properties of the hierarchical compiler *)

(** The conditions on a definition that no mask or prune removes, one by one. *)
Record admissible (policy : AuthorityPolicy) (r : hier_request) (d : ActionDefinition) : Prop := {
  adm_family : ad_family d ∈ allowed_families policy;
  adm_risk : ad_risk_class d ∈ allowed_risks policy;
  adm_boundary : ad_data_boundary d ∈ allowed_data_boundaries policy;
  adm_provenance : ad_provenance_complete d = true;
  adm_arguments variant : variant ∈ variants_of d ->
    NoDup (map fst variant)
    /\ (forall k, k ∈ ad_required_argument_keys d -> k ∈ map fst variant)
    /\ (ad_allowed_argument_keys d = ∅
        \/ forall k, k ∈ map fst variant -> k ∈ ad_allowed_argument_keys d)
    /\ forall k v, (k, v) ∈ variant -> k <> "" /\ v <> "";
  adm_placements allowed p :
    hr_allowed_placements r = Some allowed -> p ∈ placements_of d -> p ∈ allowed;
  adm_verifier : exists v, v ∈ hr_allowed_verifiers r /\ v ∈ ad_verifier_ids d;
  adm_cost : fgt (ad_estimated_cost d) (hr_remaining_budget r) = false;
  adm_utility : flt (ad_optimistic_utility d) (hr_minimum_utility r) = false }.

Lemma variant_is_valid_spec d variant :
  variant_is_valid d variant = true <->
  NoDup (map fst variant)
  /\ (forall k, k ∈ ad_required_argument_keys d -> k ∈ map fst variant)
  /\ (ad_allowed_argument_keys d = ∅
      \/ forall k, k ∈ map fst variant -> k ∈ ad_allowed_argument_keys d)
  /\ forall k v, (k, v) ∈ variant -> k <> "" /\ v <> "".
Proof.
  unfold variant_is_valid. rewrite !andb_true_iff, orb_true_iff, !bool_decide_eq_true, forallb_forall.
  rewrite !elem_of_subseteq. setoid_rewrite elem_of_list_to_set.
  assert (Hne : forall s, nonempty s = true <-> s <> "") by by intros [].
  setoid_rewrite andb_true_iff. setoid_rewrite Hne. split.
  - intros (((? & ?) & ?) & Hv). repeat split; try done; apply (Hv (k, v)); by apply list_elem_of_In.
  - intros (? & ? & ? & Hv). repeat split; try done; destruct x as [k v]; by apply (Hv k v), list_elem_of_In.
Qed.

Lemma is_feasible_spec policy r d : is_feasible policy r d = true <-> admissible policy r d.
Proof.
  unfold is_feasible, is_masked, is_pruned, argument_keys_are_valid, placement_is_valid.
  rewrite andb_true_iff, !negb_true_iff, !orb_false_iff, !negb_false_iff, permits_spec, forallb_forall,
    bool_decide_eq_true, bool_decide_eq_false.
  setoid_rewrite <- list_elem_of_In. setoid_rewrite variant_is_valid_spec.
  split.
  - intros [[[[[[[? ?] ?] ?] ?] Hp] Hv] [? ?]]. constructor; try done.
    + intros allowed p Ha Hin. rewrite Ha in Hp. apply bool_decide_eq_true in Hp.
      apply Hp, elem_of_list_to_set, Hin.
    + apply set_choose_L in Hv as [v Hv]. apply elem_of_intersection in Hv as [? Hv].
      apply elem_of_list_to_set in Hv. eauto.
  - intros [? ? ? ? Ha Hp (v & Hv1 & Hv2) ? ?]. split_and!; try done.
    + destruct (hr_allowed_placements r) as [allowed|]; [|done]. apply bool_decide_eq_true.
      intros p Hin. apply elem_of_list_to_set in Hin. by apply (Hp allowed).
    + intros He. apply (not_elem_of_empty (C := gset string) v). rewrite <- He.
      apply elem_of_intersection. split; [done|]. by apply elem_of_list_to_set.
Qed.

(** C16: Every candidate of a hierarchical compilation is an expansion of a
    definition of the input that passed every mask (family, risk, data boundary,
    provenance, argument keys, placements, a shared verifier) and both prunes:
    its verifier is one of the definition's and allowed, its placement one of
    the definition's, its arguments one of its variants, and the payload and id
    are built from them.  Family, risk class and utility come from a feasible
    definition of the same id, family and subgroup, which is the same definition
    when no two definitions share an id. *)
Theorem compile_hierarchical_sound cp l policy r res c (Hcap : (1 <= per_family_cap cp)%Z)
    (Hres : compile_hierarchical cp l policy r = Ok res) (Hc : c ∈ cc_candidates res) :
  exists d d0 i variant placement verifier,
    d ∈ l /\ admissible policy r d /\ d0 ∈ l /\ admissible policy r d0
    /\ ad_id d0 = ad_id d /\ ad_family d0 = ad_family d /\ ad_subgroup d0 = ad_subgroup d
    /\ (NoDup (map ad_id l) -> d0 = d)
    /\ variants_of d !! i = Some variant /\ placement ∈ placements_of d
    /\ verifier ∈ ad_verifier_ids d /\ verifier ∈ hr_allowed_verifiers r
    /\ c = expand (operation_skeleton d0) d i variant placement verifier.
Proof.
  destruct (compile_hierarchical_cases cp l policy r Hcap)
    as [(m & Hr & _)|(w & Hr & _ & _ & _)]; rewrite Hr in Hres; [done|].
  injection Hres as <-. cbn [cc_candidates hierarchical_result] in Hc.
  unfold hierarchical_candidates in Hc. apply elem_of_concat_map in Hc as (f & _ & Hc).
  apply family_candidates_sound in Hc
    as (d & d0 & [Hd Hdf] & [Hd0 Hd0f] & Hid & Hf0 & Hf & Hs & Hc).
  apply expansions_elem in Hc as (i & variant & p & v & Hvar & Hp & Hv & Hvs & ->).
  exists d, d0, i, variant, p, v. rewrite <- !is_feasible_spec. repeat split; try done; [congruence|].
  intros Hnd. apply list_elem_of_lookup in Hd as [a Ha]. apply list_elem_of_lookup in Hd0 as [b Hb].
  assert (a = b) as ->; [|congruence].
  eapply (NoDup_lookup (map ad_id l) a b (ad_id d)); [done| |].
  - rewrite list_lookup_fmap, Ha. done.
  - rewrite list_lookup_fmap, Hb. simpl. by rewrite Hid.
Qed.

(** C28: Hierarchical compilation terminates and is complete at the level of
    families: unless it raises, every feasible definition leaves at least one and
    at most [per_family_cap] candidates of its family in the result,
    [no_safe_action] holds exactly when no definition is feasible, and masked and
    pruned ids together with the feasible definitions account for every input
    definition, in order. *)
Theorem compile_hierarchical_complete cp l policy r (Hcap : (1 <= per_family_cap cp)%Z)
    (Hb : flt (hr_remaining_budget r) fzero = false) (Hi : (1 <= hr_initial_width r)%Z)
    (Hw : widths_ok cp r) :
  exists res, compile_hierarchical cp l policy r = Ok res
  /\ (forall d, d ∈ l -> is_feasible policy r d = true ->
        (1 <= lenZ (filter (fun c => ac_family c = ad_family d) (cc_candidates res))
           <= per_family_cap cp)%Z)
  /\ (cc_no_safe_action res = true <-> feasible_definitions policy r l = [])
  /\ cc_masked_ids res = map ad_id (masked_definitions policy r l)
  /\ cc_pruned_ids res = map ad_id (pruned_definitions policy r l)
  /\ Permutation l (masked_definitions policy r l ++ pruned_definitions policy r l
                    ++ feasible_definitions policy r l).
Proof.
  destruct (compile_hierarchical_cases cp l policy r Hcap)
    as [(m & _ & [H|[H|[_ H]]])|(w & Hr & _ & _ & _)]; [congruence|lia|done|].
  exists (hierarchical_result cp l policy r w). split; [done|].
  assert (Hblock : forall d, d ∈ l -> is_feasible policy r d = true ->
    (1 <= lenZ (filter (fun c => ac_family c = ad_family d) (hierarchical_candidates cp l policy r))
       <= per_family_cap cp)%Z).
  { intros d Hd Hf. rewrite hierarchical_family_block by done.
    pose proof (family_candidates_nonempty cp policy r l d Hcap Hi Hw Hd Hf) as Hne.
    unfold lenZ. split.
    - destruct (family_candidates_of _ _ _); [done|]. simpl. lia.
    - unfold family_candidates_of. rewrite length_take. simpl. lia. }
  split; [done|]. cbn [cc_no_safe_action cc_masked_ids cc_pruned_ids hierarchical_result].
  split; [|split; [done|split; [done|]]].
  - split.
    + intros Hno. destruct (feasible_definitions policy r l) as [|d ds] eqn:E; [done|].
      assert (d ∈ feasible_definitions policy r l) as Hd by (rewrite E; left).
      apply feasible_elem in Hd as [Hdf Hd]. specialize (Hblock d Hd Hdf).
      destruct (hierarchical_candidates cp l policy r); [|done]. unfold lenZ in Hblock. simpl in Hblock. lia.
    + intros E. unfold hierarchical_candidates. by rewrite (by_family_nil _ _ _ E).
  - unfold masked_definitions, pruned_definitions, feasible_definitions, is_feasible.
    clear. induction l as [|d l IH]; [done|]. rewrite !filter_cons.
    destruct (is_masked _ _ _ d) eqn:E1; cbn [negb andb].
    + rewrite decide_True by done. rewrite decide_False by done. rewrite decide_False by done.
      simpl. by constructor.
    + rewrite decide_False by done. rewrite decide_True by done. rewrite filter_cons.
      destruct (is_pruned _ _ d) eqn:E2; cbn [negb].
      * rewrite decide_True by done. rewrite decide_False by done.
        rewrite IH at 1. simpl. apply Permutation_middle.
      * rewrite decide_False by done. rewrite decide_True by done.
        rewrite IH at 1. rewrite !app_assoc. apply Permutation_middle.
Qed.

(** The exact error behaviour: [compile_hierarchical] raises, and then a
    ValueError, exactly when the budget is negative, the initial width is below
    one, or some definition is feasible and the initial width exceeds the smaller
    of the cap and the maximum width; a KeyError from the id lookup or the error
    of an empty [min] never escapes. *)
Theorem compile_hierarchical_raises cp l policy r (Hcap : (1 <= per_family_cap cp)%Z) :
  (exists e, compile_hierarchical cp l policy r = Raise e)
  <-> (flt (hr_remaining_budget r) fzero = true \/ (hr_initial_width r < 1)%Z
       \/ (feasible_definitions policy r l <> [] /\ ~ widths_ok cp r)).
Proof.
  destruct (compile_hierarchical_cases cp l policy r Hcap)
    as [(m & Hr & H)|(w & Hr & H1 & H2 & H3)]; rewrite Hr.
  - split; [done|]. intros _. unfold raise. eauto.
  - split; [by intros [e [=]]|]. intros [H|[H|[H H']]]; [congruence|lia|]. naive_solver.
Qed.

(** Progressive widening returns the longest admissible prefix of the
    ranking: at least [initial_width] and at most [maximum_width] candidates (or
    all there are), every gap it widened across is at most the margin, and it
    stopped short of the maximum only at a gap above the margin. *)
Theorem widening_spec l i m margin sel
    (H : widen_when_margin_is_small l i m margin = Ok sel) :
  let n := length sel in
  sel = take n (ranked l)
  /\ (Z.min i (lenZ l) <= lenZ sel <= Z.min m (lenZ l))%Z
  /\ (forall k, (Z.min i (lenZ l) <= Z.of_nat k < lenZ sel)%Z ->
        fgt (gap (ranked l) k) margin = false)
  /\ ((lenZ sel < Z.min m (lenZ l))%Z -> fgt (gap (ranked l) n) margin = true).
Proof.
  apply widen_ok in H as (Hi & w & -> & Hw & Hin & Hstop).
  assert (Hlen : length (ranked l) = length l) by apply length_sorted_by.
  assert (length (take w (ranked l)) = w) as Hl
    by (rewrite length_take, Hlen; unfold lenZ in Hw; lia).
  cbv zeta. unfold lenZ in *. rewrite Hl. split; [done|]. split; [lia|]. split.
  - intros k Hk. apply Hin. lia.
  - intros Hlt. apply Hstop. lia.
Qed.

(** ** Witnesses and findings *)

Definition example_definition (i op : string) (risk : RiskClass) (u cost : float) : ActionDefinition :=
  mkActionDefinition i TOOL "files" op risk [[("path", "a")]; [("path", "b")]] ["local"; "edge"]
    ["v1"; "v2"] u cost true "local" {["path"]} ∅.

Definition example_request (width : Z) : hier_request :=
  mkHierRequest fone {["v2"]} None width (Some 2)%Z fzero fzero.

Definition example_definitions : list ActionDefinition :=
  [example_definition "read" "read" READ_ONLY fone fzero;
   example_definition "drop" "drop" DESTRUCTIVE fone fzero;
   example_definition "costly" "scan" READ_ONLY fone (float_of_Z 7)].

Definition example_compiled : CandidateCompilation :=
  hierarchical_result (mkCandidateCompiler 3) example_definitions example_policy (example_request 1) [].

Lemma example_compiles :
  compile_hierarchical (mkCandidateCompiler 3) example_definitions example_policy (example_request 1)
  = Ok example_compiled.
Proof. vm_compute. reflexivity. Qed.

Definition example_candidate : ActionCandidate :=
  expand (operation_skeleton (example_definition "read" "read" READ_ONLY fone fzero))
    (example_definition "read" "read" READ_ONLY fone fzero) 0 [("path", "a")] "edge" "v2".

Lemma example_candidate_in : example_candidate ∈ cc_candidates example_compiled.
Proof. apply (bool_decide_eq_true_1 _). vm_compute. reflexivity. Qed.

Lemma compile_hierarchical_sound_witness :
  ac_id example_candidate = "read:0:edge:v2"
  /\ exists d, d ∈ example_definitions
       /\ admissible example_policy (example_request 1) d.
Proof.
  split; [vm_compute; reflexivity|].
  destruct (compile_hierarchical_sound (mkCandidateCompiler 3) example_definitions example_policy
    (example_request 1) example_compiled example_candidate) as (d & d0 & i & va & p & v & Hd & Hf & _).
  - simpl. lia.
  - exact example_compiles.
  - exact example_candidate_in.
  - exists d. split; [exact Hd | exact Hf].
Defined.

Lemma compile_hierarchical_complete_witness :
  exists res,
    compile_hierarchical (mkCandidateCompiler 3) example_definitions example_policy (example_request 1)
    = Ok res
    /\ map ac_id (cc_candidates res) = ["read:0:local:v2"; "read:0:edge:v2"; "read:1:local:v2"]
    /\ cc_masked_ids res = ["drop"] /\ cc_pruned_ids res = ["costly"].
Proof.
  destruct (compile_hierarchical_complete (mkCandidateCompiler 3) example_definitions example_policy
    (example_request 1)) as (res & Hres & _ & _ & Hm & Hp & _).
  - simpl. lia.
  - vm_compute. reflexivity.
  - simpl. lia.
  - unfold widths_ok. simpl. lia.
  - exists res. rewrite example_compiles in Hres. injection Hres as <-.
    split; [exact example_compiles|]. split; [vm_compute; reflexivity|].
    rewrite Hm, Hp. split; vm_compute; reflexivity.
Defined.

Lemma compile_hierarchical_raises_witness :
  (exists e, compile_hierarchical (mkCandidateCompiler 3) example_definitions example_policy
    (example_request 3) = Raise e).
Proof.
  apply (compile_hierarchical_raises (mkCandidateCompiler 3)); [simpl; lia|].
  right. right. split; [|unfold widths_ok; simpl; lia].
  vm_compute. discriminate.
Defined.

Lemma widening_spec_witness :
  widen_when_margin_is_small example_candidates 1 3 fzero
    = Ok (take 3 (ranked example_candidates))
  /\ map ac_id (take 3 (ranked example_candidates)) = ["a"; "b"; "w"]
  /\ (1 <= lenZ (take 3 (ranked example_candidates)) <= 3)%Z.
Proof.
  assert (widen_when_margin_is_small example_candidates 1 3 fzero
    = Ok (take 3 (ranked example_candidates))) as H by (vm_compute; reflexivity).
  split; [exact H|]. split; [vm_compute; reflexivity|].
  exact (proj1 (proj2 (widening_spec _ _ _ _ _ H))).
Defined.

(** Two definitions that share an id: the selected skeleton is the first one's,
    the arguments, operation and verifiers are the last one's, so the candidate
    of a write operation carries the risk class of the read. *)
Lemma duplicate_ids_launder_risk :
  let read := example_definition "x" "read_file" READ_ONLY fone fzero in
  let write := example_definition "x" "write_file" EXTERNAL_WRITE fone fzero in
  let policy := mkAuthorityPolicy {[TOOL]} {[READ_ONLY; EXTERNAL_WRITE]} default_data_boundaries in
  exists res c,
    compile_hierarchical (mkCandidateCompiler 1) [read; write] policy
      (mkHierRequest fone {["v2"]} None 1 None fzero fzero) = Ok res
    /\ cc_candidates res = [c]
    /\ ac_risk_class c = READ_ONLY /\ ("operation", "write_file") ∈ ac_payload c.
Proof.
  eexists _, _. split; [vm_compute; reflexivity|]. split; [reflexivity|]. split; [reflexivity|].
  cbn [ac_payload]. right. left.
Qed.

(** A NaN cost estimate is never pruned, whatever the budget. *)
Lemma nan_cost_is_not_pruned budget minimum d :
  ad_estimated_cost d = fnan -> flt (ad_optimistic_utility d) minimum = false ->
  is_pruned budget minimum d = false.
Proof.
  unfold is_pruned. intros -> ->. destruct (flt budget fnan) eqn:E; [|done].
  apply flt_rank in E as (_ & E & _). done.
Qed.
