(* ===== verification/Cvoc.v ===== *)
(** * Value-of-computation selection ([c3r/cvoc.py])

    The controller picks the candidate whose pessimistic net value (gain minus
    cost, risk penalty and a multiple of the uncertainty) is largest, and stops
    unless that value is positive. *)

From Stdlib Require Import Lia ZArith Ascii String.
From stdpp Require Import base option strings gmap list.
From S2P Require Import Prelude PyStr PySort PyFloat FloatRepr Json StateSchema.

Local Open Scope string_scope.

Record RobustCvocController : Type := mkController { uncertainty_multiplier : float }.

Definition make_controller (m : float) : result RobustCvocController :=
  if flt m fzero then raise ValueError "uncertainty_multiplier cannot be negative"
  else Ok (mkController m).

(** [RobustCvocController.lower_bound]. *)
Definition lower_bound_of (c : RobustCvocController) (e : ValueEstimate) : float :=
  if negb (forallb isfinite [expected_gain e; total_cost e; risk_penalty e; uncertainty e])
  then fninf
  else if flt (fmin (fmin (total_cost e) (risk_penalty e)) (uncertainty e)) fzero
  then fninf
  else fsub (fsub (fsub (expected_gain e) (total_cost e)) (risk_penalty e))
            (fmul (uncertainty_multiplier c) (uncertainty e)).

(** The keys [(lower_bound, candidate.id)]. *)
Definition scored_ltb (a b : float * ActionCandidate) : bool :=
  if feq (fst a) (fst b) then str_ltb (ac_id (snd a)) (ac_id (snd b)) else flt (fst a) (fst b).

Definition score (c : RobustCvocController) (estimates : gmap string ValueEstimate)
    (candidates : list ActionCandidate) : list (float * ActionCandidate) :=
  omap (fun candidate =>
          match estimates !! ac_id candidate with
          | Some e => Some (lower_bound_of c e, candidate)
          | None => None
          end) candidates.

Definition select (c : RobustCvocController) (candidates : list ActionCandidate)
    (estimates : gmap string ValueEstimate) : CvocDecision :=
  match score c estimates candidates with
  | [] => mkCvocDecision None fninf (Some STOP)
  | s :: ss =>
      let '(bound, selected) := max_by scored_ltb s ss in
      if fle bound fzero then mkCvocDecision None bound (Some STOP)
      else mkCvocDecision (Some selected) bound None
  end.

(** ** Lower bounds *)

(** The estimates the controller accepts. *)
Definition usable (e : ValueEstimate) : Prop :=
  isfinite (expected_gain e) = true /\ isfinite (total_cost e) = true
  /\ isfinite (risk_penalty e) = true /\ isfinite (uncertainty e) = true
  /\ fnonneg (total_cost e) = true /\ fnonneg (risk_penalty e) = true
  /\ fnonneg (uncertainty e) = true.

(** The uncertainty charge does not overflow. *)
Definition charge_finite (c : RobustCvocController) (e : ValueEstimate) : Prop :=
  isfinite (fmul (uncertainty_multiplier c) (uncertainty e)) = true.

Lemma fmin3_nonneg x y z :
  is_nan x = false -> is_nan y = false -> is_nan z = false ->
  flt (fmin (fmin x y) z) fzero = false ->
  fnonneg x = true /\ fnonneg y = true /\ fnonneg z = true.
Proof.
  intros Hx Hy Hz. unfold fmin, fnonneg.
  rewrite <- !flt_false by done. intros H.
  pose proof (fun a b => flt_asym a b) as Has.
  destruct (flt y x) eqn:E1; [apply Has in E1|];
    match type of H with flt (if flt z ?m then _ else _) _ = _ =>
      destruct (flt z m) eqn:E2; [apply Has in E2|]; pose proof (flt_false_trans) as T;
      match goal with
      | H : flt z fzero = false |- _ =>
          assert (flt m fzero = false) as Hm by by apply (T m z)
      | H : flt m fzero = false |- _ =>
          assert (flt z fzero = false) as Hz0 by by apply (T z m)
      end
    end; repeat split; try done; by (apply (T x y) || apply (T y x)).
Qed.

Lemma lower_bound_usable c e :
  (usable e /\ lower_bound_of c e
     = fsub (fsub (fsub (expected_gain e) (total_cost e)) (risk_penalty e))
            (fmul (uncertainty_multiplier c) (uncertainty e)))
  \/ lower_bound_of c e = fninf.
Proof.
  unfold lower_bound_of, usable.
  destruct (negb _) eqn:E1; [by right|]. simpl in E1. bool_hyps.
  destruct (flt (fmin _ _) fzero) eqn:E2; [by right|]. left.
  apply fmin3_nonneg in E2 as (? & ? & ?); eauto using isfinite_not_nan. done.
Qed.

Lemma lower_bound_not_nan c e : charge_finite c e -> is_nan (lower_bound_of c e) = false.
Proof.
  intros Hc. destruct (lower_bound_usable c e) as [[(H1 & H2 & H3 & H4 & _) ->]| ->]; [|done].
  repeat apply fsub_not_nan; eauto using isfinite_not_nan.
Qed.

(** ** Selection *)

Lemma score_elem c estimates l b x :
  (b, x) ∈ score c estimates l <->
  x ∈ l /\ exists e, estimates !! ac_id x = Some e /\ b = lower_bound_of c e.
Proof.
  unfold score. rewrite list_elem_of_omap. split.
  - intros (y & Hy & H). destruct (estimates !! ac_id y) as [e|] eqn:E; [|done].
    injection H as <- <-. eauto.
  - intros (Hx & e & He & ->). exists x. by rewrite He.
Qed.

Definition scored_ok (s : float * ActionCandidate) : Prop := is_nan (fst s) = false.

Global Instance scored_strict_weak : StrictWeak scored_ltb scored_ok.
Proof.
  unfold scored_ltb, scored_ok.
  apply (strict_weak_lex _ (fun x y => feq (fst x) (fst y)) (fun x y => flt (fst x) (fst y))
    (fun x y => str_ltb (ac_id (snd x)) (ac_id (snd y)))).
  - intros x y Hx Hy. destruct (feq (fst x) (fst y)) eqn:E.
    + pose proof E as E'. rewrite feq_sym in E'. by rewrite !feq_flt by done.
    + apply feq_false_cases in E as [E|E]; [| |done|done]; rewrite E; [done|].
      by rewrite andb_false_r.
  - split; intros *; [intros _ _; apply flt_asym|intros _ Hy _; by apply flt_false_trans].
  - apply (str_ltb_strict_weak_on (fun x => ac_id (snd x))).
Qed.

(** Whatever the multiplier, what is selected has a usable estimate and a bound
    that is not at most zero. *)
Lemma select_usable_bound c l estimates x :
  selected (select c l estimates) = Some x ->
  x ∈ l /\ exists e, estimates !! ac_id x = Some e /\ usable e
  /\ lower_bound (select c l estimates) = lower_bound_of c e
  /\ fle (lower_bound_of c e) fzero = false.
Proof.
  unfold select. intros H. destruct (score c estimates l) as [|s ss] eqn:Es; [done|].
  pose proof (max_by_elem scored_ltb s ss) as Hin. rewrite <- Es in Hin.
  destruct (max_by scored_ltb s ss) as [b y].
  destruct (fle b fzero) eqn:E; [done|]. injection H as ->.
  apply score_elem in Hin as (Hx & e & He & ->). split; [done|]. exists e. split; [done|].
  destruct (lower_bound_usable c e) as [[Hu _]|Hninf]; [done|]. by rewrite Hninf in E.
Qed.

(** ** Properties *)


(** Whatever the multiplier, an estimate with a NaN or infinite entry, or
    with a negative cost, risk penalty or uncertainty, is never selected on: the
    estimate of a selected candidate is finite and its charges are
    non-negative. *)
Theorem select_only_usable c l estimates x
    (H : selected (select c l estimates) = Some x) :
  x ∈ l /\ exists e, estimates !! ac_id x = Some e /\ usable e.
Proof.
  apply select_usable_bound in H as (Hx & e & He & Hu & _). eauto.
Qed.

(** ** Witnesses and findings *)

Definition example_estimates : gmap string ValueEstimate :=
  {["a" := mkValueEstimate (float_of_Z 5) fone fone fzero;
    "b" := mkValueEstimate (float_of_Z 9) fone fone fone;
    "c" := mkValueEstimate (float_of_Z 90) (fneg fone) fone fone]}.

Definition example_actions : list ActionCandidate :=
  map (fun i => skeleton_candidate i TOOL READ_ONLY fone) ["a"; "b"; "c"; "d"].


Lemma select_only_usable_witness :
  selected (select (mkController fnan) example_actions example_estimates)
    = Some (skeleton_candidate "a" TOOL READ_ONLY fone)
  /\ exists e, example_estimates !! "a" = Some e /\ usable e.
Proof.
  assert (selected (select (mkController fnan) example_actions example_estimates)
    = Some (skeleton_candidate "a" TOOL READ_ONLY fone)) as H by (vm_compute; reflexivity).
  split; [exact H|]. exact (proj2 (select_only_usable _ _ _ _ H)).
Defined.

(** The constructor's check [uncertainty_multiplier < 0] lets NaN through, and
    with a NaN multiplier a candidate of negative value is selected: the bound
    is NaN, for which [lower_bound <= 0] is false. *)
Lemma nan_multiplier_fails_open :
  exists c, make_controller fnan = Ok c
  /\ let e := mkValueEstimate (fneg (float_of_Z 5)) fone fone fone in
     let a := skeleton_candidate "a" TOOL READ_ONLY fone in
     selected (select c [a] {["a" := e]}) = Some a.
Proof. eexists. split; [reflexivity|]. vm_compute. reflexivity. Qed.
