(* ===== verification/CostTwin.v ===== *)
(** * Adaptive cost twin ([c3r/cost_twin.py])

    Per action a prior forecast, a smoothed residual and a staleness flag. *)

From Stdlib Require Import Lia ZArith Ascii String.
From stdpp Require Import base option strings gmap list.
From S2P Require Import Prelude PyStr PySort PyFloat.

Local Open Scope string_scope.

Record CostForecast : Type := mkCostForecast { expected : float; p95 : float; stale : bool }.

Record AdaptiveCostTwin : Type := mkTwin {
  priors : gmap string CostForecast;
  residual_alpha : float;
  stale_error_threshold : float;
  residuals : gmap string float;
  stale_ids : gset string }.

(** The dataclass's constructor with the two defaults. *)
Definition make_twin (p : gmap string CostForecast) : AdaptiveCostTwin :=
  mkTwin p (float_of_decimal 2 (-1)) (float_of_decimal 5 (-1)) ∅ ∅.

Definition residual_of (t : AdaptiveCostTwin) (i : string) : float :=
  default fzero (residuals t !! i).

Definition forecast (t : AdaptiveCostTwin) (i : string) : result CostForecast :=
  match priors t !! i with
  | None => raise KeyError i
  | Some prior =>
      let residual := residual_of t i in
      Ok (mkCostForecast
            (fmax fzero (fadd (expected prior) residual))
            (fmax fzero (fadd (p95 prior) (fabs residual)))
            (bool_decide (i ∈ stale_ids t) || stale prior))
  end.

Definition tiny : float := float_of_decimal 1 (-9).

Definition observe (t : AdaptiveCostTwin) (i : string) (observed_cost : float)
    : result AdaptiveCostTwin :=
  f ← forecast t i;
  let error := fsub observed_cost (expected f) in
  let previous := residual_of t i in
  let residuals' := <[i := fadd previous (fmul (residual_alpha t) error)]> (residuals t) in
  relative_error ← fdiv (fabs error) (fmax (expected f) tiny);
  Ok (mkTwin (priors t) (residual_alpha t) (stale_error_threshold t) residuals'
        (if fgt relative_error (stale_error_threshold t)
         then {[i]} ∪ stale_ids t else stale_ids t)).

(** A sequence of observations. *)
Definition observe_all (t : AdaptiveCostTwin) (l : list (string * float))
    : result AdaptiveCostTwin :=
  foldR (fun t o => observe t (fst o) (snd o)) t l.

(** ** Lemmas *)

Lemma tiny_finite : exists m e, tiny = SpecFloat.S754_finite false m e.
Proof. do 2 eexists. vm_compute. reflexivity. Qed.

(** The divisor of the relative error is never zero. *)
Lemma fdiv_tiny x y : exists q, fdiv x (fmax y tiny) = Ok q.
Proof.
  destruct tiny_finite as (m & e & ->). unfold fmax.
  destruct (flt y _) eqn:E; [simpl; eauto|]. destruct y; simpl; eauto. by destruct s.
Qed.

(** [observe] succeeds exactly on known actions, and then changes only the
    residual and the flag of the observed one. *)
Lemma observe_cases t i c :
  (priors t !! i = None /\ observe t i c = raise KeyError i)
  \/ exists f t' q, forecast t i = Ok f /\ observe t i c = Ok t'
     /\ fdiv (fabs (fsub c (expected f))) (fmax (expected f) tiny) = Ok q
     /\ priors t' = priors t /\ residual_alpha t' = residual_alpha t
     /\ stale_error_threshold t' = stale_error_threshold t
     /\ residuals t' = <[i := fadd (residual_of t i)
                                (fmul (residual_alpha t) (fsub c (expected f)))]> (residuals t)
     /\ stale_ids t' = if fgt q (stale_error_threshold t)
                       then {[i]} ∪ stale_ids t else stale_ids t.
Proof.
  unfold observe. unfold forecast at 1 2 3. destruct (priors t !! i) as [p|] eqn:E; [right|by left].
  cbn [mbind result_bind].
  set (f := mkCostForecast _ _ _).
  destruct (fdiv_tiny (fabs (fsub c (expected f))) (expected f)) as [q Hq].
  rewrite Hq. cbn [mbind result_bind]. eexists f, _, q. done.
Qed.

Lemma observe_all_cons t i c l :
  observe_all t ((i, c) :: l) = (t' ← observe t i c; observe_all t' l).
Proof. done. Qed.

(** A stale flag survives an observation of any action. *)
Ltac bool_stale Hs Hst :=
  apply orb_true_iff in Hs as [Hs| ->]; [|by rewrite orb_true_r];
  apply bool_decide_eq_true in Hs; rewrite bool_decide_eq_true_2; [done|];
  rewrite Hst; destruct (flt _ _); set_solver.

(** ** Properties *)

(** The twin over any sequence of observations.  It fails only, and then
    with a KeyError, when an action without a prior is observed; the priors and
    parameters never change; every forecast it gives is non-negative and not NaN
    (whatever was observed, infinities and NaN included); an action outside the
    sequence keeps its forecast; and an action once stale stays stale. *)
Theorem observe_all_spec t l :
  (forall t', observe_all t l = Ok t' ->
     priors t' = priors t
     /\ (forall i, i ∉ map fst l -> forecast t' i = forecast t i)
     /\ (forall i f, forecast t' i = Ok f -> fnonneg (expected f) = true /\ fnonneg (p95 f) = true)
     /\ (forall i f, forecast t i = Ok f -> stale f = true ->
           exists f', forecast t' i = Ok f' /\ stale f' = true))
  /\ ((exists t', observe_all t l = Ok t') <-> Forall (fun o => is_Some (priors t !! fst o)) l)
  /\ (forall e, observe_all t l = Raise e -> exn_class e = KeyError).
Proof.
  assert (Hnn : forall t i f, forecast t i = Ok f -> fnonneg (expected f) = true /\ fnonneg (p95 f) = true).
  { intros t0 i f. unfold forecast. destruct (priors t0 !! i); [|done].
    intros [= <-]. split; apply fmax_zero_nonneg. }
  revert t; induction l as [|[i c] l IH]; intros t.
  { split; [|split; [|done]].
    - intros t' [= <-]. repeat split; eauto; try (by eapply Hnn).
    - split; [constructor|]. intros _. by exists t. }
  rewrite observe_all_cons.
  destruct (observe_cases t i c) as [[Hp ->]|(f & t1 & q & Hf & -> & Hq & Hpr & _ & _ & Hres & Hst)];
    cbn [mbind result_bind].
  { split; [done|]. split; [|by intros e [= <-]]. split; [by intros [? ?]|].
    intros H. apply Forall_cons in H as [[p H] _]. simpl in H. congruence. }
  destruct (IH t1) as (IH1 & IH2 & IH3). split; [|split; [|done]].
  - intros t' Ht'. destruct (IH1 t' Ht') as (H1 & H2 & H3 & H4). split; [congruence|].
    split; [|split; [done|]].
    + intros k Hk. simpl in Hk. rewrite not_elem_of_cons in Hk. destruct Hk as [Hne Hk].
      rewrite H2 by done. unfold forecast, residual_of. rewrite Hpr, Hres, lookup_insert_ne by done.
      assert (k ∈ stale_ids t1 <-> k ∈ stale_ids t) as Hk2
        by (rewrite Hst; destruct (fgt q _); set_solver).
      by rewrite (bool_decide_ext _ _ Hk2).
    + intros k g Hg Hs.
      assert (exists g1, forecast t1 k = Ok g1 /\ stale g1 = true) as (g1 & Hg1 & Hs1)
        by (unfold forecast in Hg |- *; rewrite Hpr; destruct (priors t !! k); [|done];
            injection Hg as <-; eexists; split; [done|]; simpl in *; bool_stale Hs Hst).
      by eapply H4.
  - rewrite IH2, Hpr, Forall_cons. split; [|by intros [_ ?]]. intros H. split; [|done].
    simpl. unfold forecast in Hf. destruct (priors t !! i); [eauto|done].
Qed.

(** One observation moves the residual of its action by the learning rate
    times the forecast error and marks the action stale exactly when it was
    stale or the error relative to the forecast exceeds the threshold; the
    division of the source never raises. *)
Theorem observe_updates t i c t' f (Hf : forecast t i = Ok f) (Ht : observe t i c = Ok t') :
  exists q, fdiv (fabs (fsub c (expected f))) (fmax (expected f) tiny) = Ok q
  /\ residual_of t' i = fadd (residual_of t i) (fmul (residual_alpha t) (fsub c (expected f)))
  /\ (i ∈ stale_ids t' <-> i ∈ stale_ids t \/ fgt q (stale_error_threshold t) = true)
  /\ (forall k, k <> i -> residuals t' !! k = residuals t !! k
                         /\ (k ∈ stale_ids t' <-> k ∈ stale_ids t)).
Proof.
  destruct (observe_cases t i c)
    as [[Hp H]|(f' & t1 & q & Hf' & H & Hq & _ & _ & _ & Hres & Hst)]; [by rewrite H in Ht|].
  assert (f' = f) as -> by congruence. assert (t1 = t') as -> by congruence.
  exists q. split; [done|]. unfold residual_of at 1. rewrite Hres, lookup_insert_eq.
  split; [done|]. split.
  - rewrite Hst. destruct (fgt q _) eqn:E; set_solver.
  - intros k Hk. rewrite lookup_insert_ne by done. split; [done|].
    rewrite Hst. destruct (fgt q _); set_solver.
Qed.

Definition example_twin : AdaptiveCostTwin :=
  make_twin {["a" := mkCostForecast fone (float_of_Z 2) false]}.

Lemma observe_updates_witness :
  exists t', observe example_twin "a" (float_of_Z 3) = Ok t' /\ "a" ∈ stale_ids t'.
Proof.
  destruct (observe example_twin "a" (float_of_Z 3)) as [t'|e] eqn:E; [|by vm_compute in E].
  exists t'. split; [reflexivity|].
  destruct (observe_updates example_twin "a" (float_of_Z 3) t'
    (mkCostForecast fone (float_of_Z 2) false)) as (q & Hq & _ & Hs & _).
  - vm_compute. reflexivity.
  - exact E.
  - apply Hs. right. vm_compute in Hq. injection Hq as <-. vm_compute. reflexivity.
Defined.
