(* ===== verification/Authority.v ===== *)
(** * Attestation primitives ([c3r/authority.py])

    The fingerprint of an action and keyed attestations over NUL-joined
    fields. *)

From Stdlib Require Import Lia ZArith Ascii String Permutation.
From stdpp Require Import base option strings gmap list.
From S2P Require Import Prelude PyStr PySort PyFloat FloatRepr Json Hash StateSchema.

Local Open Scope string_scope.

(** [sorted(candidate.payload)]: tuples of strings. *)
Definition pair_ltb (a b : string * string) : bool :=
  if String.eqb (fst a) (fst b) then str_ltb (snd a) (snd b) else str_ltb (fst a) (fst b).

Definition canonical_action (c : ActionCandidate) : json :=
  JObj [("family", JStr (family_value (ac_family c)));
        ("id", JStr (ac_id c));
        ("optimistic_utility", JFloat (ac_optimistic_utility c));
        ("payload", JArr (map (fun kv => JArr [JStr (fst kv); JStr (snd kv)])
                              (sorted_by pair_ltb (ac_payload c))));
        ("requested_verifier", json_opt (ac_requested_verifier c));
        ("risk_class", JStr (risk_value (ac_risk_class c)))].

(** The bytes that are hashed.  [json.dumps] with its default [allow_nan]
    never raises here. *)
Definition action_encoding (c : ActionCandidate) : string :=
  utf8 (print compact_options (canonical_action c)).

Definition action_fingerprint (c : ActionCandidate) : string := sha256_hex (action_encoding c).

Definition nul : ascii := "000".

Definition signed_payload (fields : list string) : string :=
  utf8 (join (String nul EmptyString) fields).

Definition sign_fields (key : string) (fields : list string) : result string :=
  if Z.ltb (len key) 16
  then raise ValueError "attestation keys must contain at least 16 bytes"
  else Ok (hmac_sha256_hex key (signed_payload fields)).

Definition attestation_matches (attestation key : string) (fields : list string) : result bool :=
  expected ← sign_fields key fields;
  compare_digest_str attestation expected.

(** ** Payload order *)

Global Instance pair_strict_weak P : StrictWeak pair_ltb P.
Proof.
  unfold pair_ltb.
  apply (strict_weak_lex P (fun a b => String.eqb (fst a) (fst b))
    (fun a b => str_ltb (fst a) (fst b)) (fun a b => str_ltb (snd a) (snd b)));
    [|apply (str_ltb_strict_weak_on fst)|apply (str_ltb_strict_weak_on snd)].
  intros x y _ _. destruct (String.eqb_spec (fst x) (fst y)) as [->|Hne].
  - by rewrite str_ltb_irrefl.
  - destruct (str_ltb_total (fst x) (fst y)) as [H|[H|H]]; [|done|];
      rewrite H; [done|by rewrite andb_false_r].
Qed.

Lemma pair_ltb_total a b : pair_ltb a b = false -> pair_ltb b a = false -> a = b.
Proof.
  unfold pair_ltb. destruct a as [a1 a2], b as [b1 b2]. simpl. rewrite (String.eqb_sym b1 a1).
  destruct (String.eqb_spec a1 b1) as [->|Hne]; intros H1 H2.
  - destruct (str_ltb_total a2 b2) as [?|[->|?]]; congruence.
  - destruct (str_ltb_total a1 b1) as [?|[->|?]]; congruence.
Qed.

Lemma sorted_payload_permutation l1 l2 :
  Permutation l1 l2 -> sorted_by pair_ltb l1 = sorted_by pair_ltb l2.
Proof.
  intros H. apply (sorted_by_permutation pair_ltb (fun _ => True)); [|by apply Forall_true|done].
  intros x y _ _. apply pair_ltb_total.
Qed.

(** ** Fingerprints *)

(** Candidates that differ only in the order of their payload. *)
Definition same_action (c1 c2 : ActionCandidate) : Prop :=
  ac_id c1 = ac_id c2 /\ ac_family c1 = ac_family c2 /\ ac_risk_class c1 = ac_risk_class c2
  /\ ac_optimistic_utility c1 = ac_optimistic_utility c2
  /\ ac_requested_verifier c1 = ac_requested_verifier c2
  /\ Permutation (ac_payload c1) (ac_payload c2).

(** The utility is a number whose digits read back. *)
Definition plain_utility (c : ActionCandidate) : Prop :=
  wf_json (JFloat (ac_optimistic_utility c)) = true.

Lemma canonical_action_wf c : plain_utility c -> wf_json (canonical_action c) = true.
Proof.
  unfold plain_utility, canonical_action. intros H.
  change (wf_json (JObj ?kvs)) with
    (bool_decide (NoDup (map fst kvs)) && forallb (fun kv => wf_json (snd kv)) kvs).
  apply andb_true_iff. split; [by vm_compute|].
  cbn [forallb snd]. rewrite H, wf_json_opt. cbn [wf_json andb].
  rewrite !andb_true_r. apply forallb_true_Forall, Forall_map, Forall_true. done.
Qed.

Lemma canon_payload l :
  canon compact_options (JArr (map (fun kv => JArr [JStr (fst kv); JStr (snd kv)]) l))
  = JArr (map (fun kv => JArr [JStr (fst kv); JStr (snd kv)]) l).
Proof. cbn [canon]. f_equal. rewrite map_map. by apply map_ext. Qed.

Lemma canon_action c : canon compact_options (canonical_action c) = canonical_action c.
Proof.
  unfold canonical_action. rewrite canon_obj.
  match goal with |- context [sort_items compact_options ?l] =>
    change (sort_items compact_options l) with l end.
  cbn [map fst snd]. rewrite canon_payload.
  replace (canon compact_options (json_opt (ac_requested_verifier c)))
    with (json_opt (ac_requested_verifier c)) by (by destruct (ac_requested_verifier c)).
  reflexivity.
Qed.

(** The encoded bytes determine the action. *)
Lemma action_encoding_inj c1 c2 :
  plain_utility c1 -> plain_utility c2 ->
  action_encoding c1 = action_encoding c2 -> same_action c1 c2.
Proof.
  intros H1 H2 H. apply utf8_inj in H.
  apply print_inj in H; [|by auto with c3r|by apply canonical_action_wf..].
  rewrite !canon_action in H. unfold canonical_action in H.
  injection H as Hf Hi Hu Hp Hv Hr.
  apply family_value_inj in Hf. apply risk_value_inj in Hr.
  unfold same_action. repeat split; try done.
  - destruct (ac_requested_verifier c1), (ac_requested_verifier c2); simpl in Hv; congruence.
  - rewrite <- (sorted_by_perm pair_ltb (ac_payload c1)), <- (sorted_by_perm pair_ltb (ac_payload c2)).
    apply list_fmap_eq_inj in Hp; [by rewrite Hp|].
    intros [a b] [a' b'] H'. by injection H' as -> ->.
Qed.

(** ** Properties *)

(** C30: The fingerprint identifies the action.  Two candidates that differ at
    most in the order of their payload have the same fingerprint; conversely,
    when SHA-256 does not collide on their two encodings, equal fingerprints
    mean the same id, family, risk class, utility, requested verifier and
    payload up to order. *)
Theorem fingerprint_identifies_action c1 c2 :
  (same_action c1 c2 -> action_fingerprint c1 = action_fingerprint c2)
  /\ (plain_utility c1 -> plain_utility c2 ->
      (sha256_hex (action_encoding c1) = sha256_hex (action_encoding c2) ->
       action_encoding c1 = action_encoding c2) ->
      action_fingerprint c1 = action_fingerprint c2 -> same_action c1 c2).
Proof.
  split.
  - intros (Hi & Hf & Hr & Hu & Hv & Hp). unfold action_fingerprint, action_encoding, canonical_action.
    by rewrite Hi, Hf, Hr, Hu, Hv, (sorted_payload_permutation _ _ Hp).
  - intros H1 H2 Hcoll Hfp. apply action_encoding_inj; auto.
Qed.

Lemma sign_fields_ok key fields :
  (16 <= len key)%Z -> sign_fields key fields = Ok (hmac_sha256_hex key (signed_payload fields)).
Proof. intros H. unfold sign_fields. destruct (Z.ltb_spec (len key) 16); [lia|done]. Qed.

Lemma hash64_ascii s : is_hash64 s = true -> is_ascii s = true.
Proof.
  unfold is_hash64, is_ascii. intros H. apply andb_true_iff in H as [_ H].
  induction s as [|c s IH]; [done|]. cbn [str_forall] in *. apply andb_true_iff in H as [Hc Hs].
  rewrite (IH Hs), andb_true_r. unfold is_hex, in_range in Hc.
  destruct (Z.ltb_spec (code c) 128); [done|].
  apply orb_true_iff in Hc as [Hc|Hc]; apply andb_true_iff in Hc as [H1 H2]; lia.
Qed.

Lemma hash64_no_nul s : is_hash64 s = true -> no_char nul s = true.
Proof.
  unfold is_hash64, no_char. intros H. apply andb_true_iff in H as [_ H].
  induction s as [|c s IH]; [done|]. cbn [str_forall] in *. apply andb_true_iff in H as [Hc Hs].
  rewrite (IH Hs), andb_true_r. destruct (Ascii.eqb_spec nul c) as [<-|]; [|done].
  by vm_compute in Hc.
Qed.

(** What a match means. *)
Lemma attestation_matches_true a key fields :
  attestation_matches a key fields = Ok true ->
  (16 <= len key)%Z /\ a = hmac_sha256_hex key (signed_payload fields).
Proof.
  unfold attestation_matches, sign_fields. destruct (Z.ltb_spec (len key) 16); [done|].
  cbn [mbind result_bind]. unfold compare_digest_str. destruct (_ && _); [|done].
  intros [= H']. by apply compare_digest_eq in H'.
Qed.

Lemma attestation_matches_ok a key fields :
  (16 <= len key)%Z -> is_ascii a = true ->
  attestation_matches a key fields = Ok (String.eqb a (hmac_sha256_hex key (signed_payload fields))).
Proof.
  intros Hk Ha. unfold attestation_matches. rewrite sign_fields_ok by done.
  cbn [mbind result_bind]. unfold compare_digest_str.
  by rewrite Ha, (hash64_ascii _ (hmac_sha256_hex_is_hash64 key _)).
Qed.

Lemma attestation_self key fields :
  (16 <= len key)%Z ->
  attestation_matches (hmac_sha256_hex key (signed_payload fields)) key fields = Ok true.
Proof.
  intros Hk. rewrite attestation_matches_ok; [|done|by apply hash64_ascii, hmac_sha256_hex_is_hash64].
  by rewrite String.eqb_refl.
Qed.

(** A field other than the last one is free of the separator. *)
Definition separable (fields : list string) : Prop :=
  Forall (fun s => no_char nul s = true) (removelast fields).

(** An attestation speaks for one tuple of fields.  Signing returns a
    64-digit hexadecimal MAC exactly for keys of at least 16 bytes and its own
    fields match it; if an attestation made for [f1] also matches [f2] with as
    many fields, neither of which has a NUL before its last field, then the
    fields are equal, unless HMAC collides on the two payloads. *)
Theorem attestation_authenticates key f1 f2 a (Hs : sign_fields key f1 = Ok a) :
  (16 <= len key)%Z /\ is_hash64 a = true /\ attestation_matches a key f1 = Ok true
  /\ (attestation_matches a key f2 = Ok true ->
      (hmac_sha256_hex key (signed_payload f1) = hmac_sha256_hex key (signed_payload f2) ->
       signed_payload f1 = signed_payload f2) ->
      length f1 = length f2 -> separable f1 -> separable f2 -> f1 = f2).
Proof.
  unfold sign_fields in Hs. destruct (Z.ltb_spec (len key) 16) as [|Hk]; [done|].
  injection Hs as <-. split; [done|]. split; [apply hmac_sha256_hex_is_hash64|].
  split; [by apply attestation_self|].
  intros Hm Hcoll Hlen H1 H2. apply attestation_matches_true in Hm as [_ Hm].
  apply Hcoll, utf8_inj in Hm. by eapply join_inj.
Qed.

Lemma attestation_authenticates_witness :
  exists a, sign_fields "0123456789abcdef" ["v"; "c"] = Ok a
  /\ attestation_matches a "0123456789abcdef" ["v"; "c"] = Ok true.
Proof.
  exists (hmac_sha256_hex "0123456789abcdef" (signed_payload ["v"; "c"])).
  assert (sign_fields "0123456789abcdef" ["v"; "c"]
    = Ok (hmac_sha256_hex "0123456789abcdef" (signed_payload ["v"; "c"]))) as H
    by (apply sign_fields_ok; vm_compute; discriminate).
  split; [exact H|].
  exact (proj1 (proj2 (proj2 (attestation_authenticates _ _ ["v"; "c"] _ H)))).
Defined.

(** The separator is not escaped: fields with a NUL in another than the last
    position share their payload with a different tuple of the same length. *)
Lemma sign_fields_ambiguous key a b c :
  sign_fields key [a ++ String nul b; c; ""] = sign_fields key [a; b; c ++ String nul ""].
Proof.
  unfold sign_fields, signed_payload. destruct (Z.ltb _ _); [done|]. do 3 f_equal.
  cbn [join]. rewrite !str_app_assoc. do 2 f_equal. 
Qed.

#[global] Strategy 900 [action_fingerprint signed_payload].
