(* ===== verification/VerifierFirewall.v ===== *)
(** * Verifier firewall ([c3r/verifier_firewall.py])

    The host's policy, never the proposal, selects the verifier; its verdict is
    attested under the verification key.  A verifier is the host's code: a
    function that may raise. *)

From Stdlib Require Import Lia ZArith Ascii String.
From stdpp Require Import base option strings gmap list.
From S2P Require Import Prelude PyStr PySort PyFloat FloatRepr Json Hash StateSchema Authority.

Local Open Scope string_scope.

Record VerifierDecision : Type := mkVerifierDecision { vd_accepted : bool; vd_evidence : string }.

Definition Verifier : Type := ActionCandidate -> result VerifierDecision.

Record VerifierPolicy : Type := mkVerifierPolicy {
  default_verifier : string;
  by_risk : gmap RiskClass string;
  vp_version : string }.

(** [VerifierPolicy.select]. *)
Definition select_verifier (p : VerifierPolicy) (c : ActionCandidate) : string :=
  default (default_verifier p) (by_risk p !! ac_risk_class c).

Record VerifierFirewall : Type := mkFirewall {
  fw_verifiers : gmap string Verifier;
  fw_policy : VerifierPolicy;
  fw_attestation_key : string }.

Definition available_verifier_ids (fw : VerifierFirewall) : gset string := dom (fw_verifiers fw).

Definition accepted_flag (b : bool) : string := if b then "1" else "0".

(** The six fields a verification attests. *)
Definition verification_fields (verifier_id candidate_id fingerprint version : string)
    (accepted : bool) (evidence : string) : list string :=
  [verifier_id; candidate_id; fingerprint; version; accepted_flag accepted; evidence].

Definition verify (fw : VerifierFirewall) (c : ActionCandidate) : result VerificationResult :=
  let verifier_id := select_verifier (fw_policy fw) c in
  match fw_verifiers fw !! verifier_id with
  | None => raise ValueError "policy-selected verifier is unavailable"
  | Some verifier =>
      decision ← verifier c;
      let fingerprint := action_fingerprint c in
      attestation ← sign_fields (fw_attestation_key fw)
        (verification_fields verifier_id (ac_id c) fingerprint (vp_version (fw_policy fw))
           (vd_accepted decision) (vd_evidence decision));
      Ok (mkVerificationResult verifier_id (ac_id c) fingerprint (vp_version (fw_policy fw))
            (vd_accepted decision) (vd_evidence decision) attestation)
  end.

(** The fields a verification result presents. *)
Definition presented_fields (v : VerificationResult) : list string :=
  verification_fields (vr_verifier_id v) (vr_candidate_id v) (vr_action_fingerprint v)
    (vr_policy_version v) (vr_accepted v) (vr_evidence v).

(** Everything [verify] promises about its result. *)
Lemma verify_ok fw c v :
  verify fw c = Ok v ->
  exists verifier d,
    fw_verifiers fw !! select_verifier (fw_policy fw) c = Some verifier /\ verifier c = Ok d
    /\ (16 <= len (fw_attestation_key fw))%Z
    /\ vr_verifier_id v = select_verifier (fw_policy fw) c
    /\ vr_candidate_id v = ac_id c /\ vr_action_fingerprint v = action_fingerprint c
    /\ vr_policy_version v = vp_version (fw_policy fw)
    /\ vr_accepted v = vd_accepted d /\ vr_evidence v = vd_evidence d
    /\ vr_attestation v
       = hmac_sha256_hex (fw_attestation_key fw) (signed_payload (presented_fields v)).
Proof.
  unfold verify. destruct (fw_verifiers fw !! _) as [verifier|] eqn:E; [|done].
  intros H. apply bind_ok in H as (d & Hd & H). apply bind_ok in H as (a & Ha & H).
  injection H as <-. unfold sign_fields in Ha.
  destruct (Z.ltb_spec (len (fw_attestation_key fw)) 16); [done|]. injection Ha as <-.
  exists verifier, d. by repeat split.
Qed.

(** Verification is selected by policy alone and always attested: with a
    usable key, [verify] returns a result exactly when the verifier the policy
    names for the candidate's risk class is configured and does not raise, and
    the result then carries that verifier's id and verdict, the candidate's id
    and fingerprint, the policy version, and an attestation that matches these
    fields; without the verifier it raises ValueError. *)
Theorem verify_policy_selected fw c (Hk : (16 <= len (fw_attestation_key fw))%Z) :
  (forall v, verify fw c = Ok v <->
     exists verifier d,
       fw_verifiers fw !! default (default_verifier (fw_policy fw))
         (by_risk (fw_policy fw) !! ac_risk_class c) = Some verifier
       /\ verifier c = Ok d
       /\ v = mkVerificationResult (select_verifier (fw_policy fw) c) (ac_id c)
                (action_fingerprint c) (vp_version (fw_policy fw)) (vd_accepted d) (vd_evidence d)
                (vr_attestation v)
       /\ attestation_matches (vr_attestation v) (fw_attestation_key fw) (presented_fields v) = Ok true)
  /\ (fw_verifiers fw !! select_verifier (fw_policy fw) c = None ->
      exists m, verify fw c = raise ValueError m).
Proof.
  split.
  - intros v. split.
    + intros H. apply verify_ok in H
        as (verifier & d & Hv & Hd & _ & H1 & H2 & H3 & H4 & H5 & H6 & H7).
      exists verifier, d. split; [done|]. split; [done|]. split.
      * destruct v; simpl in *. congruence.
      * rewrite H7. by apply attestation_self.
    + intros (verifier & d & Hv & Hd & -> & Hm). unfold verify.
      change (select_verifier (fw_policy fw) c) with
        (default (default_verifier (fw_policy fw)) (by_risk (fw_policy fw) !! ac_risk_class c)).
      rewrite Hv, Hd. cbn [mbind result_bind]. rewrite sign_fields_ok by done.
      apply attestation_matches_true in Hm as [_ Hm]. cbn [vr_attestation] in Hm |- *.
      do 2 f_equal. by rewrite Hm.
  - intros H. exists "policy-selected verifier is unavailable". unfold verify.
    destruct (fw_verifiers fw !! _) eqn:E; [congruence|done].
Qed.

Definition accept_all : Verifier := fun _ => Ok (mkVerifierDecision true "ok").

Definition example_firewall : VerifierFirewall :=
  mkFirewall {["strict" := accept_all]} (mkVerifierPolicy "strict" ∅ "policy-v1")
    "verification-key".

Definition example_action : ActionCandidate := skeleton_candidate "a" TOOL READ_ONLY fone.

(** The verification the example firewall issues for the example action. *)
Definition example_fields : list string :=
  verification_fields "strict" "a" (action_fingerprint example_action) "policy-v1" true "ok".

Definition example_verification : VerificationResult :=
  mkVerificationResult "strict" "a" (action_fingerprint example_action) "policy-v1" true "ok"
    (hmac_sha256_hex "verification-key" (signed_payload example_fields)).

Lemma example_verified : verify example_firewall example_action = Ok example_verification.
Proof.
  change (verify example_firewall example_action) with
    (a ← sign_fields "verification-key" example_fields;
     Ok (mkVerificationResult "strict" "a" (action_fingerprint example_action) "policy-v1" true
           "ok" a)).
  rewrite sign_fields_ok; [reflexivity | vm_compute; discriminate].
Qed.

Lemma verify_policy_selected_witness :
  verify example_firewall example_action = Ok example_verification
  /\ attestation_matches (vr_attestation example_verification) "verification-key"
       (presented_fields example_verification) = Ok true.
Proof.
  destruct (verify_policy_selected example_firewall example_action) as [H _];
    [vm_compute; discriminate|].
  split; [exact example_verified|].
  destruct (proj1 (H _) example_verified) as (verifier & d & _ & _ & _ & Hm). exact Hm.
Defined.
