(* ===== verification/CommitGateway.v ===== *)
(** * Trusted commit gateway ([c3r/commit_gateway.py])

    Every externally visible effect passes through [commit].  The nonce store is
    an interface: [ApprovalNonceStore] states what [claim] promises, the
    in-memory store implements it, and the gateway's theorems use only the
    interface.  The state carries, next to the store, the calls made to the
    executor, so that theorems can speak about effects. *)

From Stdlib Require Import Lia ZArith Ascii String.
From stdpp Require Import base option strings gmap list.
From S2P Require Import Prelude PyStr PySort PyFloat FloatRepr Json Hash StateSchema Authority.
From S2P Require Import VerifierFirewall.

Local Open Scope string_scope.

Record ApprovalGrant : Type := mkApprovalGrant {
  ag_candidate_id : string;
  ag_action_fingerprint : string;
  ag_policy_version : string;
  ag_authority_id : string;
  ag_nonce : string;
  ag_expires_at_epoch_s : Z;
  ag_attestation : string }.

Record CommitRequest : Type := mkCommitRequest {
  cr_candidate : ActionCandidate;
  cr_verification : VerificationResult;
  cr_approval : option ApprovalGrant }.

Record CommitResult : Type := mkCommitResult { committed : bool; reason : string }.

(** ** Nonce stores *)

(** What the gateway relies on: [claim s nonce expires now] succeeds at most
    once per nonce over the store's life and never after the expiry; [claimed]
    is the set of nonces of the successful claims. *)
Class ApprovalNonceStore (S : Type) := {
  claim : S -> string -> Z -> float -> bool * S;
  claimed : S -> gset string;
  claim_true s n t now s' : claim s n t now = (true, s') ->
    n ∉ claimed s /\ fgt_Z now t = false /\ claimed s' = {[n]} ∪ claimed s;
  claim_false s n t now s' : claim s n t now = (false, s') ->
    claimed s' = claimed s }.

(** [InMemoryApprovalNonceStore]: the lock makes a claim one step. *)
Record InMemoryApprovalNonceStore : Type := mkNonces { ns_claimed : gset string }.

Definition empty_nonces : InMemoryApprovalNonceStore := mkNonces ∅.

Definition memory_claim (s : InMemoryApprovalNonceStore) (nonce : string) (expires : Z)
    (now : float) : bool * InMemoryApprovalNonceStore :=
  if fgt_Z now expires || bool_decide (nonce ∈ ns_claimed s) then (false, s)
  else (true, mkNonces ({[nonce]} ∪ ns_claimed s)).

Global Program Instance memory_nonce_store : ApprovalNonceStore InMemoryApprovalNonceStore := {|
  claim := memory_claim;
  claimed := ns_claimed |}.
Next Obligation.
  unfold memory_claim. intros s n t now s' H.
  destruct (_ || _) eqn:E; [done|]. injection H as <-. bool_hyps. done.
Qed.
Next Obligation.
  unfold memory_claim. intros s n t now s' H. destruct (_ || _); [by injection H as <-|done].
Qed.

(** ** The gateway *)

Record TrustedCommitGateway : Type := mkGateway {
  trusted_verifier_ids : gset string;
  verification_key : string;
  approval_key : string;
  gw_policy_version : string }.

Definition make_gateway (trusted : gset string) (vkey akey version : string)
    : result TrustedCommitGateway :=
  if bool_decide (trusted = ∅) then raise ValueError "at least one trusted verifier is required"
  else Ok (mkGateway trusted vkey akey version).

Definition approval_classes : gset RiskClass :=
  {[EXTERNAL_WRITE; HIGH_CONSEQUENCE; DESTRUCTIVE; APPROVAL_REQUIRED]}.

(** The six fields an approval attests. *)
Definition approval_fields (a : ApprovalGrant) : list string :=
  [ag_authority_id a; ag_candidate_id a; ag_action_fingerprint a; ag_policy_version a;
   ag_nonce a; str_of_Z (ag_expires_at_epoch_s a)].

Section gateway.
Context {S : Type} `{!ApprovalNonceStore S}.

(** The nonce store and the executor calls so far, oldest first. *)
Record gateway_state : Type := mkGatewayState { gs_store : S; gs_executed : list ActionCandidate }.

Definition refuse (r : string) (s : S) : result (option string) * S := (Ok (Some r), s).

(** The approval branch: a refusal reason or [None], and the store after the
    claim. *)
Definition check_approval (gw : TrustedCommitGateway) (now : float) (s : S)
    (request : CommitRequest) : result (option string) * S :=
  let candidate := cr_candidate request in
  match cr_approval request with
  | None => refuse "approval required" s
  | Some a =>
      if negb (String.eqb (ag_candidate_id a) (ac_id candidate))
      then refuse "approval candidate mismatch" s
      else if negb (String.eqb (ag_action_fingerprint a) (action_fingerprint candidate))
      then refuse "approval action mismatch" s
      else if negb (String.eqb (ag_policy_version a) (gw_policy_version gw))
      then refuse "approval policy mismatch" s
      else match attestation_matches (ag_attestation a) (approval_key gw) (approval_fields a) with
      | Raise e => (Raise e, s)
      | Ok false => refuse "invalid approval attestation" s
      | Ok true =>
          match claim s (ag_nonce a) (ag_expires_at_epoch_s a) now with
          | (false, s') => refuse "approval expired or replayed" s'
          | (true, s') => (Ok None, s')
          end
      end
  end.

(** The checks that precede the approval branch. *)
Definition check_verification (gw : TrustedCommitGateway) (request : CommitRequest)
    : result (option string) :=
  let v := cr_verification request in
  let candidate := cr_candidate request in
  if negb (bool_decide (vr_verifier_id v ∈ trusted_verifier_ids gw))
  then Ok (Some "untrusted verifier")
  else if negb (String.eqb (vr_candidate_id v) (ac_id candidate))
  then Ok (Some "verification candidate mismatch")
  else if negb (String.eqb (vr_action_fingerprint v) (action_fingerprint candidate))
  then Ok (Some "verification action mismatch")
  else if negb (String.eqb (vr_policy_version v) (gw_policy_version gw))
  then Ok (Some "verification policy mismatch")
  else m ← attestation_matches (vr_attestation v) (verification_key gw) (presented_fields v);
       if negb m then Ok (Some "invalid verification attestation")
       else if negb (vr_accepted v) then Ok (Some "verification failed")
       else Ok None.

(** [commit(request, executor)] with the clock reading [now]; the executor may
    raise, which propagates after its call was made. *)
Definition commit (gw : TrustedCommitGateway) (now : float) (request : CommitRequest)
    (executor : ActionCandidate -> result unit) (st : gateway_state)
    : result CommitResult * gateway_state :=
  match check_verification gw request with
  | Raise e => (Raise e, st)
  | Ok (Some r) => (Ok (mkCommitResult false r), st)
  | Ok None =>
      let '(approval, s') :=
        if bool_decide (ac_risk_class (cr_candidate request) ∈ approval_classes)
        then check_approval gw now (gs_store st) request
        else (Ok None, gs_store st) in
      match approval with
      | Raise e => (Raise e, mkGatewayState s' (gs_executed st))
      | Ok (Some r) => (Ok (mkCommitResult false r), mkGatewayState s' (gs_executed st))
      | Ok None =>
          let st' := mkGatewayState s' (gs_executed st ++ [cr_candidate request])%list in
          match executor (cr_candidate request) with
          | Raise e => (Raise e, st')
          | Ok _ => (Ok (mkCommitResult true "committed"), st')
          end
      end
  end.

(** ** Authorisation, as the conditions rather than the order of checks *)

Definition verified (gw : TrustedCommitGateway) (r : CommitRequest) : Prop :=
  let v := cr_verification r in
  let c := cr_candidate r in
  vr_verifier_id v ∈ trusted_verifier_ids gw
  /\ vr_candidate_id v = ac_id c /\ vr_action_fingerprint v = action_fingerprint c
  /\ vr_policy_version v = gw_policy_version gw
  /\ attestation_matches (vr_attestation v) (verification_key gw) (presented_fields v) = Ok true
  /\ vr_accepted v = true.

Definition needs_approval (r : CommitRequest) : Prop :=
  ac_risk_class (cr_candidate r) ∈ approval_classes.

Definition approved (gw : TrustedCommitGateway) (now : float) (s s' : S) (r : CommitRequest) : Prop :=
  exists a, cr_approval r = Some a
  /\ ag_candidate_id a = ac_id (cr_candidate r)
  /\ ag_action_fingerprint a = action_fingerprint (cr_candidate r)
  /\ ag_policy_version a = gw_policy_version gw
  /\ attestation_matches (ag_attestation a) (approval_key gw) (approval_fields a) = Ok true
  /\ claim s (ag_nonce a) (ag_expires_at_epoch_s a) now = (true, s').

Lemma check_verification_None gw r : check_verification gw r = Ok None <-> verified gw r.
Proof.
  unfold check_verification, verified. cbv zeta.
  destruct (bool_decide_reflect (vr_verifier_id (cr_verification r) ∈ trusted_verifier_ids gw));
    cbn [negb]; [|naive_solver].
  destruct (String.eqb_spec (vr_candidate_id (cr_verification r)) (ac_id (cr_candidate r)));
    cbn [negb]; [|naive_solver].
  destruct (String.eqb_spec (vr_action_fingerprint (cr_verification r))
    (action_fingerprint (cr_candidate r))); cbn [negb]; [|naive_solver].
  destruct (String.eqb_spec (vr_policy_version (cr_verification r)) (gw_policy_version gw));
    cbn [negb]; [|naive_solver].
  destruct (attestation_matches _ _ _) as [[]|]; cbn [mbind result_bind negb]; [|naive_solver..].
  destruct (vr_accepted (cr_verification r)); cbn [negb]; naive_solver.
Qed.

Lemma check_approval_None gw now s s' r :
  check_approval gw now s r = (Ok None, s') <-> approved gw now s s' r.
Proof.
  unfold check_approval, approved, refuse. cbv zeta.
  destruct (cr_approval r) as [a|]; [|naive_solver]. split.
  - intros H. exists a. split; [done|].
    destruct (String.eqb_spec (ag_candidate_id a) (ac_id (cr_candidate r))); [|done].
    destruct (String.eqb_spec (ag_action_fingerprint a) (action_fingerprint (cr_candidate r))); [|done].
    destruct (String.eqb_spec (ag_policy_version a) (gw_policy_version gw)); [|done].
    cbn [negb] in H. destruct (attestation_matches _ _ _) as [[]|]; [|done..].
    destruct (claim _ _ _ _) as [[] s2]; [|done]. injection H as ->. done.
  - intros (a' & Ha & Hi & Hf & Hp & Hm & Hc). injection Ha as <-.
    rewrite Hi, Hf, Hp, !String.eqb_refl. cbn [negb]. by rewrite Hm, Hc.
Qed.

(** A refused approval never changes the set of claimed nonces. *)
Lemma check_approval_claimed gw now s r out s' :
  check_approval gw now s r = (out, s') -> out <> Ok None -> claimed s' = claimed s.
Proof.
  unfold check_approval, refuse. cbv zeta. intros H Hn.
  destruct (cr_approval r) as [a|]; [|by injection H as <- <-].
  repeat (destruct (negb _); [by injection H as <- <-|]).
  destruct (attestation_matches _ _ _) as [[]|]; try by injection H as <- <-.
  destruct (claim _ _ _ _) as [[] s2] eqn:E; injection H as <- <-; [done|].
  by eapply claim_false.
Qed.

(** One commit either makes no call and claims nothing, or is authorised, makes
    exactly one call and claims exactly the approval's nonce if one is needed. *)
Lemma commit_cases gw now r ex st out st' :
  commit gw now r ex st = (out, st') ->
  (gs_executed st' = gs_executed st /\ claimed (gs_store st') = claimed (gs_store st)
   /\ ((exists e, out = Raise e) \/ exists m, out = Ok (mkCommitResult false m))
   /\ ~ (verified gw r /\ (needs_approval r -> exists s', approved gw now (gs_store st) s' r)))
  \/ (verified gw r
      /\ ((~ needs_approval r /\ gs_store st' = gs_store st)
          \/ (needs_approval r /\ approved gw now (gs_store st) (gs_store st') r))
      /\ gs_executed st' = (gs_executed st ++ [cr_candidate r])%list
      /\ out = match ex (cr_candidate r) with
               | Ok _ => Ok (mkCommitResult true "committed") | Raise e => Raise e end).
Proof.
  unfold commit. pose proof (check_verification_None gw r) as Hv.
  destruct (check_verification gw r) as [[m|]|e].
  - intros [= <- <-]. left. repeat split; eauto.
    intros [H _]. apply Hv in H. done.
  - destruct Hv as [Hv _]. specialize (Hv eq_refl).
    case_bool_decide as Hc; fold (needs_approval r) in Hc.
    + destruct (check_approval gw now (gs_store st) r) as [ap s'] eqn:Ea.
      destruct ap as [[m|]|e].
      * intros [= <- <-]. left. cbn. pose proof (check_approval_claimed _ _ _ _ _ _ Ea) as Hcl.
        repeat split; [by apply Hcl|by eauto|].
            intros [_ H]. destruct (H Hc) as [s2 H2]. apply check_approval_None in H2. congruence.
      * intros H. right. apply check_approval_None in Ea.
        destruct (ex (cr_candidate r)); injection H as <- <-; cbn; naive_solver.
      * intros [= <- <-]. left. cbn. pose proof (check_approval_claimed _ _ _ _ _ _ Ea) as Hcl.
        repeat split; [by apply Hcl|by eauto|].
        intros [_ H]. destruct (H Hc) as [s2 H2]. apply check_approval_None in H2. congruence.
    + intros H. right. destruct (ex (cr_candidate r)); injection H as <- <-; cbn; naive_solver.
  - intros [= <- <-]. left. repeat split; eauto.
    intros [H _]. apply Hv in H. done.
Qed.

(** ** Sequences of commits

    Replicas that share the store and the verification and approval keys
    interleave their commits; each entry names the gateway, the clock reading,
    the request and the executor. *)
Definition commit_call : Type :=
  TrustedCommitGateway * float * CommitRequest * (ActionCandidate -> result unit).

Definition run_commit (st : gateway_state) (c : commit_call) : gateway_state :=
  let '(gw, now, r, ex) := c in snd (commit gw now r ex st).

Definition run_commits (st : gateway_state) (l : list commit_call) : gateway_state :=
  fold_left run_commit l st.

(** The call executed its candidate. *)
Definition effective (st : gateway_state) (c : commit_call) : bool :=
  Nat.ltb (length (gs_executed st)) (length (gs_executed (run_commit st c))).

(** The nonces under which calls of a run were executed with an approval. *)
Fixpoint spent_nonces (st : gateway_state) (l : list commit_call) : list string :=
  match l with
  | [] => []
  | c :: l' =>
      let '(_, _, r, _) := c in
      let rest := spent_nonces (run_commit st c) l' in
      if effective st c && bool_decide (ac_risk_class (cr_candidate r) ∈ approval_classes)
      then match cr_approval r with Some a => ag_nonce a :: rest | None => rest end
      else rest
  end.

Lemma spent_nonces_fresh st l :
  NoDup (spent_nonces st l) /\ Forall (fun n => n ∉ claimed (gs_store st)) (spent_nonces st l).
Proof.
  revert st; induction l as [|[[[gw now] r] ex] l IH]; intros st; cbn [spent_nonces].
  { by split; constructor. }
  destruct (commit gw now r ex st) as [out st'] eqn:E.
  assert (run_commit st (gw, now, r, ex) = st') as Hrun by (unfold run_commit; by rewrite E).
  unfold effective. rewrite Hrun. destruct (IH st') as [Hnd Hfr]. clear IH.
  destruct (commit_cases _ _ _ _ _ _ _ E)
    as [(Hx & Hcl & _)|(_ & [[Hna Hst]|[Hna (a & Ha & _ & _ & _ & _ & Hclaim)]] & Hx & _)].
  - rewrite Hx, Nat.ltb_irrefl. cbn [andb]. by rewrite <- Hcl.
  - rewrite (bool_decide_eq_false_2 _ Hna), andb_false_r. by rewrite <- Hst.
  - rewrite Hx, length_app. cbn [length].
    destruct (Nat.ltb_spec (length (gs_executed st)) (length (gs_executed st) + 1)); [|lia].
    rewrite (bool_decide_eq_true_2 _ Hna), Ha. cbn [andb].
    apply claim_true in Hclaim as (Hfresh & _ & Hcl). rewrite Hcl in Hfr.
    rewrite Forall_forall in Hfr. split.
    + constructor; [|done]. intros Hin. apply Hfr in Hin. set_solver.
    + constructor; [done|]. apply Forall_forall. intros n Hn. apply Hfr in Hn. set_solver.
Qed.
End gateway.
Arguments gateway_state S : clear implicits.

(** ** Properties *)

(** C4: Complete mediation.  A commit calls the executor, once and with the
    request's candidate, exactly when the verification is trusted, accepted,
    attested and about this very action under this policy version, and, for the
    approval classes, an attested approval of the same action was claimed.  In
    every other case it makes no call, claims no nonce and does not report a
    commit; it reports one exactly when the call returned. *)
Theorem commit_complete_mediation {S} `{!ApprovalNonceStore S} gw now r ex (st : gateway_state S) :
  let '(out, st') := commit gw now r ex st in
  let authorised := verified gw r /\
    (needs_approval r -> exists s', approved gw now (gs_store st) s' r) in
  (authorised <-> gs_executed st' = (gs_executed st ++ [cr_candidate r])%list)
  /\ (~ authorised -> gs_executed st' = gs_executed st
                      /\ claimed (gs_store st') = claimed (gs_store st)
                      /\ forall m, out <> Ok (mkCommitResult true m))
  /\ (out = Ok (mkCommitResult true "committed")
      <-> authorised /\ ex (cr_candidate r) = Ok tt).
Proof.
  destruct (commit gw now r ex st) as [out st'] eqn:E.
  assert (Hneq : forall (l : list ActionCandidate) x, l <> (l ++ [x])%list).
  { intros l x H. apply (f_equal length) in H. rewrite length_app in H. simpl in H. lia. }
  destruct (commit_cases _ _ _ _ _ _ _ E)
    as [(Hx & Hcl & Hout & Hno)|(Hv & Hap & Hx & Hout)]; cbv zeta.
  - split; [|split].
    + split; [done|]. rewrite Hx. intros H. by apply Hneq in H.
    + intros _. split; [done|]. split; [done|].
      intros m ->. destruct Hout as [[e H]|[m' H]]; discriminate.
    + split; [|by intros [? _]]. intros ->. destruct Hout as [[e H]|[m' H]]; discriminate.
  - assert (Ha : needs_approval r -> exists s', approved gw now (gs_store st) s' r).
    { intros Hn. destruct Hap as [[Hn' _]|[_ Hap]]; [done|eauto]. }
    split; [|split].
    + split; [done|]. intros _. by split.
    + intros Hno. by destruct Hno.
    + rewrite Hout. destruct (ex (cr_candidate r)) as [[]|e]; split; try done. by intros [_ ?].
Qed.

(** C5: An approval is spent at most once: over any interleaving of commits by
    any number of gateways that share a nonce store, the executed calls of the
    approval classes carry pairwise different nonces, none of which was claimed
    before the run. *)
Theorem approval_nonce_single_use {S} `{!ApprovalNonceStore S} (st : gateway_state S)
    (l : list commit_call) :
  NoDup (spent_nonces st l) /\ Forall (fun n => n ∉ claimed (gs_store st)) (spent_nonces st l).
Proof. apply spent_nonces_fresh. Qed.

(** Firewall and gateway fit together: a gateway that trusts the firewall's
    verifiers, shares its key and policy version commits a verified action of a
    class that needs no approval exactly when the selected verifier accepted
    it. *)
Theorem firewall_result_commits {S} `{!ApprovalNonceStore S} fw gw c v now ex (st : gateway_state S)
    (Hv : verify fw c = Ok v)
    (Hkey : verification_key gw = fw_attestation_key fw)
    (Hpol : gw_policy_version gw = vp_version (fw_policy fw))
    (Htrust : available_verifier_ids fw ⊆ trusted_verifier_ids gw)
    (Hclass : ac_risk_class c ∉ approval_classes) :
  let '(_, st') := commit gw now (mkCommitRequest c v None) ex st in
  gs_store st' = gs_store st
  /\ gs_executed st' = if vr_accepted v then (gs_executed st ++ [c])%list else gs_executed st.
Proof.
  apply verify_ok in Hv as (verifier & d & Hsel & Hd & Hk & H1 & H2 & H3 & H4 & H5 & H6 & H7).
  assert (Hchk : check_verification gw (mkCommitRequest c v None)
    = Ok (if vr_accepted v then None else Some "verification failed")).
  { unfold check_verification. cbn [cr_verification cr_candidate].
    rewrite bool_decide_eq_true_2.
    2:{ apply Htrust. rewrite H1. unfold available_verifier_ids. by eapply elem_of_dom_2. }
    rewrite H2, H3, H4, Hpol, !String.eqb_refl, Hkey. cbn [negb].
    rewrite H7, attestation_self by done. cbn. by destruct (vr_accepted v). }
  unfold commit. rewrite Hchk. destruct (vr_accepted v); [|done].
  rewrite bool_decide_eq_false_2 by done. cbn. by destruct (ex c).
Qed.

Lemma firewall_result_commits_witness :
  exists v, verify example_firewall example_action = Ok v
  /\ forall ex, gs_executed (snd (commit (mkGateway {["strict"]} "verification-key" "k" "policy-v1")
       fzero (mkCommitRequest example_action v None) ex (mkGatewayState empty_nonces [])))
     = [example_action].
Proof.
  pose proof example_verified as Hv. set (v := example_verification) in Hv.
  exists v. split; [exact Hv|]. intros ex.
  pose proof (firewall_result_commits example_firewall
    (mkGateway {["strict"]} "verification-key" "k" "policy-v1") example_action v fzero ex
    (mkGatewayState empty_nonces []) Hv eq_refl eq_refl) as H.
  destruct (commit _ _ _ _ _) as [out st'] eqn:E in H; rewrite E. apply H.
  - intros i Hi. vm_compute in Hi |- *. exact Hi.
  - intros Hi. apply (bool_decide_eq_true_2 _) in Hi. vm_compute in Hi. discriminate.
Defined.

(** Only what a verifier accepted is committed.  If the attestation of an
    executable request is one that the firewall issued for some action, then it
    was issued for this action with an accepting verdict: the verification
    presented is the one issued.  The fields other than the evidence contain no
    NUL, and neither HMAC nor SHA-256 collides on the two messages. *)
Theorem committed_was_verified fw gw c1 v1 r (Hv : verify fw c1 = Ok v1)
    (Hkey : verification_key gw = fw_attestation_key fw) (Hr : verified gw r)
    (Hatt : vr_attestation (cr_verification r) = vr_attestation v1)
    (Hs1 : separable (presented_fields v1)) (Hs2 : separable (presented_fields (cr_verification r)))
    (Hu1 : plain_utility c1) (Hu2 : plain_utility (cr_candidate r))
    (Hmac : let k := fw_attestation_key fw in
            let p1 := signed_payload (presented_fields v1) in
            let p2 := signed_payload (presented_fields (cr_verification r)) in
            hmac_sha256_hex k p1 = hmac_sha256_hex k p2 -> p1 = p2)
    (Hsha : action_fingerprint c1 = action_fingerprint (cr_candidate r) ->
            action_encoding c1 = action_encoding (cr_candidate r)) :
  cr_verification r = v1 /\ vr_accepted v1 = true /\ same_action c1 (cr_candidate r).
Proof.
  apply verify_ok in Hv as (_ & _ & _ & _ & Hk & H1 & H2 & H3 & H4 & _ & _ & H7).
  destruct Hr as (_ & Hc & Hf & _ & Hm & Hacc).
  apply attestation_matches_true in Hm as [_ Hm].
  rewrite Hatt, H7, Hkey in Hm.
  assert (Hp : presented_fields v1 = presented_fields (cr_verification r)).
  { apply (join_inj nul); [done..|]. apply utf8_inj. by apply Hmac. }
  unfold presented_fields, verification_fields in Hp. injection Hp as P1 P2 P3 P4 P5 P6.
  assert (vr_accepted v1 = vr_accepted (cr_verification r)) as P5'
    by (destruct (vr_accepted v1), (vr_accepted (cr_verification r)); done).
  split; [|split].
  - destruct v1, (cr_verification r). simpl in *. congruence.
  - congruence.
  - apply action_encoding_inj; [done..|]. apply Hsha. congruence.
Qed.

Lemma committed_was_verified_witness :
  exists v, verify example_firewall example_action = Ok v /\ vr_accepted v = true.
Proof.
  pose proof example_verified as Hv. set (v := example_verification) in Hv.
  assert (separable (presented_fields v)) as Hs.
  { change (presented_fields v) with example_fields. unfold separable, example_fields, verification_fields. cbn [removelast].
    constructor; [reflexivity|]. constructor; [reflexivity|].
    constructor; [apply hash64_no_nul, sha256_hex_is_hash64|].
    constructor; [reflexivity|]. constructor; [reflexivity|]. constructor. }
  assert (plain_utility example_action) as Hu by (vm_compute; reflexivity).
  exists v. split; [exact Hv|].
  refine (proj1 (proj2 (committed_was_verified example_firewall
    (mkGateway {["strict"]} "verification-key" "k" "policy-v1") example_action v
    (mkCommitRequest example_action v None) Hv eq_refl _ eq_refl Hs Hs Hu Hu _ _))).
  - split; [apply (bool_decide_eq_true_1 _); vm_compute; reflexivity|].
    split; [reflexivity|]. split; [reflexivity|]. split; [reflexivity|].
    split; [apply attestation_self; vm_compute; discriminate | reflexivity].
  - intros. reflexivity.
  - intros. reflexivity.
Defined.

(** The attested fields are joined by NUL without escaping.  A verdict on an
    action whose id contains NULs can therefore be presented, with the same
    attestation, as an acceptance of another action: here a rejection of [c1] by
    verifier [vid] opens the gateway for [c2]. *)
Lemma rejection_reparses_as_acceptance fw gw c1 c2 v1 e :
  verify fw c1 = Ok v1 -> vr_accepted v1 = false ->
  ac_id c1 = join (String nul "")
    [ac_id c2; action_fingerprint c2; vp_version (fw_policy fw); "1"; e] ->
  vr_verifier_id v1 ∈ trusted_verifier_ids gw ->
  verification_key gw = fw_attestation_key fw ->
  gw_policy_version gw = vp_version (fw_policy fw) ->
  exists v2, verified gw (mkCommitRequest c2 v2 None).
Proof.
  intros Hv Hrej Hid Htr Hkey Hpol.
  apply verify_ok in Hv as (_ & d & _ & _ & Hk & H1 & H2 & H3 & H4 & H5 & H6 & H7).
  exists (mkVerificationResult (vr_verifier_id v1) (ac_id c2) (action_fingerprint c2)
    (vp_version (fw_policy fw)) true
    (join (String nul "") [e; vr_action_fingerprint v1; vr_policy_version v1; "0"; vr_evidence v1])
    (vr_attestation v1)).
  unfold verified. cbn [cr_verification cr_candidate vr_verifier_id vr_candidate_id
    vr_action_fingerprint vr_policy_version vr_accepted vr_attestation].
  repeat split; try done. rewrite Hkey, H7.
  replace (signed_payload (presented_fields v1)) with (signed_payload (presented_fields
    (mkVerificationResult (vr_verifier_id v1) (ac_id c2) (action_fingerprint c2)
    (vp_version (fw_policy fw)) true
    (join (String nul "") [e; vr_action_fingerprint v1; vr_policy_version v1; "0"; vr_evidence v1])
    (hmac_sha256_hex (fw_attestation_key fw) (signed_payload (presented_fields v1)))))).
  { by apply attestation_self. }
  unfold signed_payload, presented_fields, verification_fields. f_equal.
  cbn [vr_verifier_id vr_candidate_id vr_action_fingerprint vr_policy_version vr_accepted vr_evidence].
  rewrite Hrej, H2, Hid. cbn [accepted_flag join].
  rewrite ?str_app_assoc. reflexivity.
Qed.
