(* ===== verification/TraceLedger.v ===== *)
(** * Decision traces and their hash chain
    ([c3r/telemetry/trace.py], [trace_ledger.py], [ephemeral.py], [sqlite_ledger.py])

    The in-memory ledger, its JSON-lines form, the request-local sink and the
    SQLite ledger.  [append] computes the canonical text outside the lock and
    changes the records in one step inside it. *)

From Stdlib Require Import Lia ZArith Ascii String.
From stdpp Require Import base option strings gmap list.
From S2P Require Import Prelude PyStr PySort PyFloat FloatRepr Json Hash StateSchema.

Local Open Scope string_scope.

Record DecisionTrace : Type := mkTrace {
  run_id : string;
  state_hash : string;
  access_level : string;
  model_provider : string;
  candidate_ids : list string;
  probabilities : gmap string (list float);
  utility_quantiles : gmap string float;
  selected_action_id : option string;
  authority_result : string;
  system_cost : gmap string float;
  task_outcome : gmap string scalar;
  artifact_refs : list string }.

Record LedgerRecord : Type := mkRecord {
  previous_hash : string; record_hash : string; canonical_json : string }.

Global Instance LedgerRecord_eq_dec : EqDecision LedgerRecord.
Proof. solve_decision. Defined.

Definition newline : string := String "010" EmptyString.

(** [_GENESIS_HASH]. *)
Definition GENESIS_HASH : string :=
  "0000000000000000000000000000000000000000000000000000000000000000".

(** The bytes hashed for a record. *)
Definition record_message (previous canonical : string) : string :=
  utf8 (previous ++ newline ++ canonical).

(** [record_hash(previous_hash, canonical_json)]. *)
Definition hash_record (previous canonical : string) : string :=
  sha256_hex (record_message previous canonical).

(** [asdict(trace)]. *)
Definition trace_json (t : DecisionTrace) : json :=
  JObj [("run_id", JStr (run_id t));
        ("state_hash", JStr (state_hash t));
        ("access_level", JStr (access_level t));
        ("model_provider", JStr (model_provider t));
        ("candidate_ids", json_strings (candidate_ids t));
        ("probabilities", json_map (fun l => JArr (map JFloat l)) (probabilities t));
        ("utility_quantiles", json_map JFloat (utility_quantiles t));
        ("selected_action_id", json_opt (selected_action_id t));
        ("authority_result", JStr (authority_result t));
        ("system_cost", json_map JFloat (system_cost t));
        ("task_outcome", json_map json_scalar (task_outcome t));
        ("artifact_refs", json_strings (artifact_refs t))].

Definition canonical_trace_json (t : DecisionTrace) : result string :=
  dumps canonical_options (trace_json t).

(** ** Verification *)

(** [json.dumps(json.loads(text), ...)] of the canonical form. *)
Definition recanonicalised (text : string) : result string :=
  decoded ← loads text; dumps canonical_options decoded.

Fixpoint verify_from (previous : string) (records : list LedgerRecord) : result bool :=
  match records with
  | [] => Ok true
  | r :: rs =>
      if negb (String.eqb (previous_hash r) previous) then Ok false
      else match recanonicalised (canonical_json r) with
      | Raise e => if caught_by [JSONDecodeError; ValueError; TypeError] (exn_class e)
                   then Ok false else Raise e
      | Ok canonical =>
          if negb (String.eqb canonical (canonical_json r)) then Ok false
          else if negb (String.eqb (hash_record previous canonical) (record_hash r)) then Ok false
          else verify_from (record_hash r) rs
      end
  end.

(** [TraceLedger.verify]. *)
Definition verify_chain (records : list LedgerRecord) : result bool := verify_from GENESIS_HASH records.

(** ** The ledger *)

Record TraceLedger : Type := mkLedger { records : list LedgerRecord }.

(** [TraceLedger(records)]. *)
Definition make_ledger (rs : list LedgerRecord) : result TraceLedger :=
  ok ← verify_chain rs;
  if negb ok then raise ValueError "trace ledger hash chain is invalid" else Ok (mkLedger rs).

Definition last_hash (rs : list LedgerRecord) : string :=
  match last rs with Some r => record_hash r | None => GENESIS_HASH end.

Definition chain_record (previous canonical : string) : LedgerRecord :=
  mkRecord previous (hash_record previous canonical) canonical.

(** [TraceLedger.append]: the record and the ledger after it. *)
Definition append (l : TraceLedger) (t : DecisionTrace) : result (LedgerRecord * TraceLedger) :=
  canonical ← canonical_trace_json t;
  let r := chain_record (last_hash (records l)) canonical in
  Ok (r, mkLedger (records l ++ [r])%list).

(** ** JSON lines *)

Definition record_json (r : LedgerRecord) : json :=
  JObj [("previous_hash", JStr (previous_hash r));
        ("record_hash", JStr (record_hash r));
        ("canonical_json", JStr (canonical_json r))].

(** [json.dumps(asdict(record), ...)]; a record holds no float. *)
Definition record_line (r : LedgerRecord) : string := print compact_options (record_json r).

Definition to_jsonl (l : TraceLedger) : string := join newline (map record_line (records l)).

Definition parse_record (line : string) : result LedgerRecord :=
  value ← loads line;
  p ← subscript value "previous_hash";
  h ← subscript value "record_hash";
  c ← subscript value "canonical_json";
  Ok (mkRecord (py_str p) (py_str h) (py_str c)).

(** One turn of the loop over the numbered lines. *)
Definition parse_line (acc : list LedgerRecord) (numbered : Z * string) : result (list LedgerRecord) :=
  let '(line_number, line) := numbered in
  if negb (nonempty (strip line)) then Ok acc
  else
    r ← try_except (parse_record line) [JSONDecodeError; KeyError; TypeError]
          (fun _ => raise ValueError ("invalid trace ledger record on line " ++ str_of_Z line_number));
    Ok (acc ++ [r])%list.

Definition numbered (l : list string) : list (Z * string) :=
  zip (map (fun i => Z.of_nat (S i)) (seq 0 (length l))) l.

Definition from_jsonl (payload : string) : result TraceLedger :=
  rs ← foldR parse_line [] (numbered (splitlines payload));
  make_ledger rs.

(** ** The request-local sink *)

(** [EphemeralTraceSink.append]. *)
Definition ephemeral_append (t : DecisionTrace) : result LedgerRecord :=
  canonical ← canonical_trace_json t;
  Ok (chain_record GENESIS_HASH canonical).

(** ** The SQLite ledger

    The table as its committed rows and, inside a transaction, the pending
    ones; a row is its sequence number and record.  A fault plan says which
    statement of an [append] raises. *)

Record database : Type := mkDb {
  db_rows : list (Z * LedgerRecord); db_pending : option (list (Z * LedgerRecord)) }.

Inductive statement : Type := BEGIN | SELECT_LAST | INSERT | COMMIT.

Definition fault_plan : Type := statement -> option exn.

(** [ORDER BY sequence]. *)
Definition by_sequence (rows : list (Z * LedgerRecord)) : list (Z * LedgerRecord) :=
  sorted_by (fun a b => Z.ltb (fst a) (fst b)) rows.

Definition visible (d : database) : list (Z * LedgerRecord) := default (db_rows d) (db_pending d).

Definition run_statement (faults : fault_plan) (s : statement) (d d' : database) : result database :=
  match faults s with Some e => Raise e | None => Ok d' end.

(** [AUTOINCREMENT]: above every sequence number in use. *)
Definition next_sequence (rows : list (Z * LedgerRecord)) : Z :=
  (1 + fold_right Z.max 0 (map fst rows))%Z.

Definition rollback (d : database) : database := mkDb (db_rows d) None.

(** The statements between BEGIN and COMMIT. *)
Definition insert_record (faults : fault_plan) (canonical : string) (d : database)
    : result (LedgerRecord * database) :=
  d1 ← run_statement faults SELECT_LAST d d;
  let previous := last_hash (map snd (by_sequence (visible d1))) in
  let r := chain_record previous canonical in
  d2 ← run_statement faults INSERT d1
         (mkDb (db_rows d1) (Some (visible d1 ++ [(next_sequence (visible d1), r)])%list));
  d3 ← run_statement faults COMMIT d2 (mkDb (visible d2) None);
  Ok (r, d3).

(** [SqliteTraceLedger.append]: the outcome and the database after it. *)
Definition sqlite_append (faults : fault_plan) (d : database) (t : DecisionTrace)
    : result LedgerRecord * database :=
  match canonical_trace_json t with
  | Raise e => (Raise e, d)
  | Ok canonical =>
      match run_statement faults BEGIN d (mkDb (db_rows d) (Some (db_rows d))) with
      | Raise e => (Raise e, d)
      | Ok d1 =>
          match insert_record faults canonical d1 with
          | Ok (r, d2) => (Ok r, d2)
          | Raise e => (Raise e, rollback d1)
          end
      end
  end.

(** [records]: the committed rows in sequence order. *)
Definition sqlite_records (d : database) : list LedgerRecord :=
  map snd (by_sequence (db_rows d)).

(** Opening an existing database. *)
Definition sqlite_open (rows : list (Z * LedgerRecord)) : result database :=
  let d := mkDb rows None in
  ok ← verify_chain (sqlite_records d);
  if negb ok then raise ValueError "persisted trace ledger hash chain is invalid" else Ok d.

(** ** Verified chains *)

Definition valid (rs : list LedgerRecord) : Prop := verify_chain rs = Ok true.

(** A record whose text is canonical and whose hash is right for [previous]. *)
Definition links (previous : string) (r : LedgerRecord) : Prop :=
  previous_hash r = previous
  /\ recanonicalised (canonical_json r) = Ok (canonical_json r)
  /\ record_hash r = hash_record previous (canonical_json r).

Lemma verify_from_cons previous r rs :
  verify_from previous (r :: rs) = Ok true <->
  links previous r /\ verify_from (record_hash r) rs = Ok true.
Proof.
  unfold links. cbn [verify_from].
  destruct (String.eqb_spec (previous_hash r) previous) as [Hp|Hp]; cbn [negb]; [|naive_solver].
  destruct (recanonicalised (canonical_json r)) as [c|e].
  2:{ destruct (caught_by _ _); naive_solver. }
  destruct (String.eqb_spec c (canonical_json r)) as [->|Hc]; cbn [negb]; [|naive_solver].
  destruct (String.eqb_spec (hash_record previous (canonical_json r)) (record_hash r)) as [Hh|Hh];
    cbn [negb]; naive_solver.
Qed.

(** Verification always returns: the decoder and encoder raise only what it
    catches. *)
Lemma verify_from_total previous rs : exists b, verify_from previous rs = Ok b.
Proof.
  revert previous; induction rs as [|r rs IH]; intros previous; cbn [verify_from]; [eauto|].
  destruct (negb _); [eauto|].
  destruct (recanonicalised (canonical_json r)) as [c|e] eqn:E.
  - destruct (negb _); [eauto|]. destruct (negb _); eauto.
  - unfold recanonicalised in E. destruct (loads (canonical_json r)) as [j|e'] eqn:Ej; simpl in E.
    + apply dumps_class in E. rewrite E. eauto.
    + injection E as ->. apply loads_class in Ej. rewrite Ej. eauto.
Qed.

Lemma last_hash_snoc rs r : last_hash (rs ++ [r])%list = record_hash r.
Proof. unfold last_hash. by rewrite last_snoc. Qed.

(** The hash a chain starting at [previous] ends with. *)
Definition end_hash (previous : string) (rs : list LedgerRecord) : string :=
  match last rs with Some r => record_hash r | None => previous end.

Lemma end_hash_cons previous r rs : end_hash previous (r :: rs) = end_hash (record_hash r) rs.
Proof.
  unfold end_hash. destruct rs as [|r' rs]; [done|].
  change (last (r :: r' :: rs)) with (last (r' :: rs)).
  destruct (last (r' :: rs)) eqn:E; [done|]. by apply last_None in E.
Qed.

Lemma verify_from_snoc previous rs r :
  verify_from previous (rs ++ [r])%list = Ok true <->
  verify_from previous rs = Ok true /\ links (end_hash previous rs) r.
Proof.
  revert previous; induction rs as [|r' rs IH]; intros previous.
  - change ([] ++ [r])%list with [r]. rewrite verify_from_cons. cbn. naive_solver.
  - change ((r' :: rs) ++ [r])%list with (r' :: (rs ++ [r]))%list.
    rewrite !verify_from_cons, IH, end_hash_cons. tauto.
Qed.

Lemma valid_snoc rs r :
  valid (rs ++ [r])%list <-> valid rs /\ links (last_hash rs) r.
Proof. apply verify_from_snoc. Qed.

Lemma valid_make_ledger rs : valid rs <-> make_ledger rs = Ok (mkLedger rs).
Proof.
  unfold make_ledger, valid, verify_chain.
  destruct (verify_from_total GENESIS_HASH rs) as [[] ->]; simpl; by split.
Qed.

(** Every text the encoder writes for a well-formed value is canonical. *)
Lemma recanonicalised_print j :
  wf_json j = true ->
  recanonicalised (print canonical_options j) = Ok (print canonical_options j).
Proof.
  intros H. unfold recanonicalised. rewrite loads_print by auto with c3r. cbn [mbind result_bind].
  rewrite dumps_wf by by apply wf_canon. by rewrite print_canon.
Qed.

(** The floats of the trace are finite and their digits read back. *)
Definition plain_trace (t : DecisionTrace) : Prop := wf_json (trace_json t) = true.

Lemma canonical_trace_plain t :
  plain_trace t -> canonical_trace_json t = Ok (print canonical_options (trace_json t)).
Proof. apply dumps_wf. Qed.

Lemma chain_record_links previous t :
  plain_trace t -> links previous (chain_record previous (print canonical_options (trace_json t))).
Proof. intros H. split; [done|]. split; [by apply recanonicalised_print|done]. Qed.

(** ** Reading JSON lines back *)

Lemma record_line_shape r :
  exists body, record_line r = String "{" body /\ one_line (record_line r) = true.
Proof.
  assert (record_line r = "{" ++
    join "," (map (fun kv => quote compact_options (fst kv) ++ ":" ++ snd kv)
      [("canonical_json", quote compact_options (canonical_json r));
       ("previous_hash", quote compact_options (previous_hash r));
       ("record_hash", quote compact_options (record_hash r))]) ++ "}") as -> by reflexivity.
  eexists. split; [reflexivity|]. apply printable_one_line.
  assert (forall s, str_forall printable (quote compact_options s) = true) as Hq.
  { intros s. unfold quote. cbn [str_forall]. rewrite str_forall_app, escape_printable by done.
    reflexivity. }
  cbn [map fst snd join]. rewrite !str_forall_app, !Hq. reflexivity.
Qed.

Lemma parse_record_line r : parse_record (record_line r) = Ok r.
Proof.
  unfold parse_record, record_line. rewrite loads_print by (auto with c3r || reflexivity).
  change (canon compact_options (record_json r)) with
    (JObj [("canonical_json", JStr (canonical_json r)); ("previous_hash", JStr (previous_hash r));
           ("record_hash", JStr (record_hash r))]).
  simpl. by destruct r.
Qed.

Lemma parse_line_record acc n r : parse_line acc (n, record_line r) = Ok (acc ++ [r])%list.
Proof.
  unfold parse_line. destruct (record_line_shape r) as (body & Hb & _).
  assert (nonempty (strip (record_line r)) = true) as ->.
  { rewrite Hb. unfold strip. rewrite lstrip_head by reflexivity.
    pose proof (rstrip_nonempty "{"%char body eq_refl) as H. by destruct (rstrip _). }
  cbn [negb]. by rewrite parse_record_line.
Qed.

Lemma parse_lines acc ns rs :
  length ns = length rs ->
  foldR parse_line acc (zip ns (map record_line rs)) = Ok (acc ++ rs)%list.
Proof.
  revert acc ns; induction rs as [|r rs IH]; intros acc [|n ns]; try done; intros Hlen; cbn [map zip].
  - by rewrite app_nil_r.
  - cbn [foldR zip_with]. rewrite parse_line_record. cbn [mbind result_bind].
    rewrite IH by (simpl in Hlen; lia). by rewrite <- app_assoc.
Qed.

(** ** SQLite rows *)

Definition seq_lt (a b : Z * LedgerRecord) : bool := Z.ltb (fst a) (fst b).

Global Instance seq_strict_weak P : StrictWeak seq_lt P.
Proof.
  unfold seq_lt. split; intros; [apply Z.ltb_ge; apply Z.ltb_lt in H1; lia|].
  apply Z.ltb_ge in H2, H3. apply Z.ltb_ge. lia.
Qed.

(** The rows stand in sequence order. *)
Definition ordered (rows : list (Z * LedgerRecord)) : Prop := Sorted.StronglySorted (not_after seq_lt) rows.

Lemma by_sequence_id rows : ordered rows -> by_sequence rows = rows.
Proof. apply (sorted_by_id seq_lt). Qed.

Lemma max_upper (l : list Z) x : x ∈ l -> (x <= fold_right Z.max 0 l)%Z.
Proof. induction l as [|y l IH]; [set_solver|]. intros [->|H]%elem_of_cons; simpl; [lia|]. specialize (IH H). lia. Qed.

Lemma ordered_snoc rows r : ordered rows -> ordered (rows ++ [(next_sequence rows, r)])%list.
Proof.
  assert (forall rows' n, ordered rows' -> (forall k, k ∈ map fst rows' -> (k <= n)%Z) ->
    ordered (rows' ++ [(n, r)])%list) as H.
  { intros rows' n Ho. induction Ho as [|x l Hl IH Hx]; simpl; intros Hn.
    - repeat constructor.
    - constructor; [apply IH; set_solver|]. rewrite Forall_app. split; [done|].
      constructor; [|constructor]. unfold not_after, seq_lt. apply Z.ltb_ge. apply Hn. left. }
  intros Ho. apply H; [done|]. intros k Hk. unfold next_sequence.
  apply max_upper in Hk. lia.
Qed.

(** ** Properties *)

(** C8: Appending to a valid ledger never breaks it.  A trace of readable
    finite floats is appended: one record is added at the end, it is linked to the
    previous head, its text decodes to the trace, and the extended chain
    verifies; any other outcome of [append] is a ValueError. *)
Theorem append_extends_chain l t (Hl : valid (records l)) :
  (plain_trace t -> exists r l',
     append l t = Ok (r, l') /\ records l' = (records l ++ [r])%list /\ valid (records l')
     /\ previous_hash r = last_hash (records l) /\ last_hash (records l') = record_hash r
     /\ is_hash64 (record_hash r) = true
     /\ loads (canonical_json r) = Ok (canon canonical_options (trace_json t)))
  /\ (forall e, append l t = Raise e -> exn_class e = ValueError).
Proof.
  split.
  - intros Ht. unfold append. rewrite canonical_trace_plain by done. cbn [mbind result_bind].
    eexists _, _. split; [reflexivity|]. cbn [records]. split; [done|].
    split; [apply valid_snoc; split; [done|by apply chain_record_links]|].
    split; [done|]. split; [apply last_hash_snoc|]. split; [apply sha256_hex_is_hash64|].
    apply loads_print; auto with c3r.
  - unfold append. intros e. destruct (canonical_trace_json t) as [c|e'] eqn:E; [done|].
    simpl. intros [= ->]. by eapply dumps_class.
Qed.

(** C31: The head binds the history.  Two valid ledgers with the same last hash
    are the same ledger, provided SHA-256 does not collide between their records
    and no record hashes to the genesis value: any edit, reordering, removal or
    insertion in a valid chain changes its head. *)
Theorem head_binds_history rs1 rs2 (H1 : valid rs1) (H2 : valid rs2)
    (Hcoll : forall a b, a ∈ rs1 -> b ∈ rs2 ->
       hash_record (previous_hash a) (canonical_json a) = hash_record (previous_hash b) (canonical_json b) ->
       record_message (previous_hash a) (canonical_json a)
       = record_message (previous_hash b) (canonical_json b))
    (Hgen : forall a, a ∈ (rs1 ++ rs2)%list -> record_hash a <> GENESIS_HASH)
    (Hhead : last_hash rs1 = last_hash rs2) :
  rs1 = rs2.
Proof.
  assert (Hprev : forall rs r, valid (rs ++ [r])%list -> len (last_hash rs) = 64%Z).
  { intros rs r Hv. destruct rs as [|x xs _] using rev_ind; [done|].
    rewrite last_hash_snoc. apply valid_snoc in Hv as [Hv _]. apply valid_snoc in Hv as [_ Hx].
    destruct Hx as (_ & _ & ->). unfold hash_record.
    pose proof (sha256_hex_is_hash64 (record_message (last_hash xs) (canonical_json x))) as Hh.
    unfold is_hash64 in Hh. apply andb_true_iff in Hh as [Hh _]. by apply Z.eqb_eq. }
  revert rs2 H2 Hcoll Hgen Hhead. induction rs1 as [|a rs1 IH] using rev_ind; intros rs2 H2 Hcoll Hgen Hhead.
  - destruct rs2 as [|b rs2 _] using rev_ind; [done|]. exfalso.
    rewrite last_hash_snoc in Hhead. apply (Hgen b); [set_solver|]. by rewrite <- Hhead.
  - destruct rs2 as [|b rs2 _] using rev_ind.
    { exfalso. rewrite last_hash_snoc in Hhead. apply (Hgen a); [set_solver|]. by rewrite Hhead. }
    rewrite !last_hash_snoc in Hhead.
    pose proof (Hprev _ _ H1) as L1. pose proof (Hprev _ _ H2) as L2.
    apply valid_snoc in H1 as [H1 (P1 & _ & R1)]. apply valid_snoc in H2 as [H2 (P2 & _ & R2)].
    assert (Hm : record_message (previous_hash a) (canonical_json a)
                 = record_message (previous_hash b) (canonical_json b)).
    { apply Hcoll; [set_solver|set_solver|]. congruence. }
    unfold record_message in Hm. apply utf8_inj in Hm. rewrite P1, P2 in Hm.
    apply str_app_inj_len in Hm as [Hp Hc]; [|congruence].
    apply str_app_inj_l in Hc.
    rewrite (IH H1 rs2 H2).
    + f_equal. f_equal. destruct a, b. simpl in *. congruence.
    + intros x y Hx Hy. apply Hcoll; set_solver.
    + intros x Hx. apply Hgen. set_solver.
    + exact Hp.
Qed.

(** C32: A valid ledger survives its JSON-lines form: parsing what [to_jsonl]
    writes gives back the same ledger, record by record and verified. *)
Theorem jsonl_round_trip l (Hl : valid (records l)) : from_jsonl (to_jsonl l) = Ok l.
Proof.
  unfold from_jsonl, to_jsonl, numbered, newline. rewrite splitlines_join.
  2:{ apply Forall_map, Forall_true. intros r. destruct (record_line_shape r) as (b & Hb & H1).
      split; [done|]. by rewrite Hb. }
  rewrite parse_lines by by rewrite length_map, length_seq, length_map.
  cbn [mbind result_bind app]. apply valid_make_ledger in Hl. rewrite Hl. by destruct l.
Qed.

(** What an append to an ordered table with no open transaction does. *)
Lemma sqlite_append_cases faults d t out d' :
  ordered (db_rows d) -> db_pending d = None -> sqlite_append faults d t = (out, d') ->
  db_pending d' = None /\ ordered (db_rows d')
  /\ match out with
     | Ok r => exists c, canonical_trace_json t = Ok c
               /\ r = chain_record (last_hash (sqlite_records d)) c
               /\ sqlite_records d' = (sqlite_records d ++ [r])%list
     | Raise _ => d' = d
     end.
Proof.
  intros Ho Hp H. unfold sqlite_append in H. destruct (canonical_trace_json t) as [c|e] eqn:Ec.
  2:{ by injection H as <- <-. }
  unfold run_statement at 1 in H. destruct (faults BEGIN) as [e|]; [by injection H as <- <-|].
  set (d1 := mkDb (db_rows d) (Some (db_rows d))) in *.
  assert (Hroll : rollback d1 = d) by (destruct d; simpl in *; unfold rollback; simpl; by rewrite Hp).
  destruct (insert_record faults c d1) as [[r d2]|e] eqn:E.
  2:{ rewrite Hroll in H. by injection H as <- <-. }
  injection H as <- <-. unfold insert_record, run_statement in E.
  destruct (faults SELECT_LAST); [done|]. cbn [mbind result_bind] in E.
  destruct (faults INSERT); [done|]. cbn [mbind result_bind] in E.
  destruct (faults COMMIT); [done|]. cbn [mbind result_bind] in E.
  unfold d1, visible in E. cbn [db_rows db_pending default] in E.
  injection E as <- <-. cbn [db_rows db_pending].
  assert (Ho' : ordered (db_rows d ++ [(next_sequence (db_rows d),
    chain_record (last_hash (map snd (by_sequence (db_rows d)))) c)])%list) by by apply ordered_snoc.
  split; [done|]. split; [done|]. exists c. split; [done|]. split; [done|].
  unfold sqlite_records. cbn [db_rows]. rewrite (by_sequence_id _ Ho'), (by_sequence_id _ Ho).
  by rewrite map_app.
Qed.

(** An append of a readable trace that no statement fails succeeds. *)
Lemma sqlite_append_succeeds faults d t :
  plain_trace t -> (forall s, faults s = None) -> is_ok (fst (sqlite_append faults d t)) = true.
Proof.
  intros Ht Hf. unfold sqlite_append. rewrite canonical_trace_plain by done.
  unfold run_statement, insert_record, run_statement. rewrite Hf.
  do 3 (rewrite Hf; cbn [mbind result_bind]). done.
Qed.

(** C33: The SQLite ledger refines the in-memory one whatever statement fails.
    On an ordered, valid table with no open transaction, an append either
    raises and leaves exactly the committed rows, or returns the record and the
    records that the in-memory [append] gives; in both cases no transaction stays
    open and the table is ordered and opens again; and it succeeds when no
    statement raises and the trace is readable. *)
Theorem sqlite_refines_ledger faults d t (Ho : ordered (db_rows d)) (Hp : db_pending d = None)
    (Hv : valid (sqlite_records d)) :
  let '(out, d') := sqlite_append faults d t in
  match out with
  | Ok r => plain_trace t -> append (mkLedger (sqlite_records d)) t = Ok (r, mkLedger (sqlite_records d'))
  | Raise _ => db_rows d' = db_rows d
  end
  /\ db_pending d' = None /\ ordered (db_rows d')
  /\ (plain_trace t -> sqlite_open (db_rows d') = Ok d')
  /\ (plain_trace t -> (forall s, faults s = None) -> is_ok out = true).
Proof.
  assert (Hopen : forall d, db_pending d = None -> valid (sqlite_records d) -> sqlite_open (db_rows d) = Ok d).
  { intros [rows p] Hp' Hv'. simpl in Hp'. subst p. unfold sqlite_open, valid in *.
    change (sqlite_records (mkDb rows None)) with (map snd (by_sequence rows)) in *.
    unfold sqlite_records. cbn [db_rows]. by rewrite Hv'. }
  pose proof (sqlite_append_succeeds faults d t) as Hs.
  destruct (sqlite_append faults d t) as [out d'] eqn:E.
  destruct (sqlite_append_cases _ _ _ _ _ Ho Hp E) as (Hp' & Ho' & Hcase).
  destruct out as [r|e].
  - destruct Hcase as (c & Hc & -> & Hrec). split; [|split; [done|split; [done|split; [|done]]]].
    + intros _. unfold append. rewrite Hc. cbn [mbind result_bind records]. by rewrite Hrec.
    + intros Ht. apply Hopen; [done|]. rewrite Hrec. apply valid_snoc. split; [done|].
      rewrite canonical_trace_plain in Hc by done. injection Hc as <-. by apply chain_record_links.
  - subst d'. split; [done|]. split; [done|]. split; [done|]. split; [auto|]. intros Ht Hf. by apply Hs.
Qed.

(** ** Witnesses *)

Definition example_trace : DecisionTrace :=
  mkTrace "run" "hash" "local" "none" ["a"] {["a" := [fone]]} {["a" := fone]} (Some "a")
    "RECOMMENDED" {["usd" := fzero]} {["status" := SStr "ok"; "done" := SBool true]} [].

Lemma example_trace_plain : plain_trace example_trace.
Proof. vm_compute. reflexivity. Qed.

Definition example_record : LedgerRecord := chain_record GENESIS_HASH "1".

Lemma example_chain_valid : valid [example_record].
Proof. apply (valid_snoc [] example_record). split; [reflexivity|]. split; [|split]; reflexivity. Qed.

Lemma append_extends_chain_witness :
  exists r l', append (mkLedger [example_record]) example_trace = Ok (r, l')
  /\ valid (records l') /\ previous_hash r = record_hash example_record.
Proof.
  destruct (append_extends_chain (mkLedger [example_record]) example_trace example_chain_valid) as [H _].
  destruct (H example_trace_plain) as (r & l' & Ha & _ & Hv & Hp & _).
  exists r, l'. split; [exact Ha|]. split; [exact Hv | exact Hp].
Defined.

Lemma head_binds_history_witness : [example_record] = [chain_record GENESIS_HASH "1"].
Proof.
  apply (head_binds_history [example_record] [chain_record GENESIS_HASH "1"]).
  - exact example_chain_valid.
  - exact example_chain_valid.
  - intros a b Ha Hb _. apply list_elem_of_singleton in Ha, Hb. subst a b. reflexivity.
  - assert (record_hash example_record <> GENESIS_HASH) as Hne by (vm_compute; discriminate).
    intros a Ha. change ([example_record] ++ [chain_record GENESIS_HASH "1"])%list
      with [example_record; example_record] in Ha.
    apply elem_of_cons in Ha as [->|Ha]; [exact Hne|].
    apply list_elem_of_singleton in Ha. subst a. exact Hne.
  - reflexivity.
Defined.

Lemma jsonl_round_trip_witness :
  from_jsonl (to_jsonl (mkLedger [example_record])) = Ok (mkLedger [example_record]).
Proof. apply jsonl_round_trip. exact example_chain_valid. Defined.

Lemma sqlite_refines_ledger_witness :
  let '(out, d') := sqlite_append (fun _ => None) (mkDb [] None) example_trace in
  is_ok out = true /\ db_pending d' = None.
Proof.
  pose proof (sqlite_refines_ledger (fun _ => None) (mkDb [] None) example_trace) as H.
  destruct (sqlite_append (fun _ => None) (mkDb [] None) example_trace) as [out d'].
  destruct H as (_ & H1 & _ & _ & H2); [constructor | reflexivity | reflexivity|].
  split; [|exact H1]. apply H2; [exact example_trace_plain | reflexivity].
Defined.

(** A trace with a NaN or infinite measurement is refused. *)
Lemma append_refuses_nan l t k :
  system_cost t !! k = Some fnan -> exists e, append l t = Raise e.
Proof.
  intros Hk. unfold append, canonical_trace_json, dumps.
  assert (all_finite (trace_json t) = false) as ->; [|simpl; unfold raise; simpl; eauto].
  unfold trace_json. cbn [all_finite forallb snd].
  assert (all_finite (json_map JFloat (system_cost t)) = false) as ->
    by (cbn [json_map all_finite]; apply not_true_is_false; rewrite forallb_true_Forall, Forall_map,
        Forall_forall; intros H; specialize (H (k, fnan)); rewrite elem_of_map_to_list in H;
        specialize (H Hk); done).
  by rewrite !andb_false_r.
Qed.
