(* ===== verification/Sinks.v ===== *)
(** * Trace sinks ([c3r/runtime.py], the protocol TraceSink)

    What the controller needs of the place it appends traces to, and the three
    sinks the source provides: the in-memory ledger, the SQLite ledger under a
    fault plan, and the request-local sink that retains nothing. *)

From Stdlib Require Import Lia ZArith Ascii String.
From stdpp Require Import base option strings gmap list.
From S2P Require Import Prelude PyStr PySort PyFloat FloatRepr Json Hash StateSchema TraceLedger.

Local Open Scope string_scope.

(** A sink over its own state [L].  [trace_persistence] is false for the
    request-local sink alone. *)
Class TraceSink (L : Type) := {
  sink_append : DecisionTrace -> L -> result LedgerRecord * L;
  trace_persistence : bool;
  sink_invariant : L -> Prop;
  sink_records : L -> list LedgerRecord;
  sink_append_ok t l r l' :
    sink_invariant l -> sink_append t l = (Ok r, l') ->
    sink_invariant l' /\ canonical_trace_json t = Ok (canonical_json r)
    /\ r = chain_record (previous_hash r) (canonical_json r)
    /\ sink_records l' = if trace_persistence then (sink_records l ++ [r])%list else sink_records l;
  sink_append_raise t l e l' :
    sink_invariant l -> sink_append t l = (Raise e, l') ->
    sink_invariant l' /\ sink_records l' = sink_records l }.

(** [TraceLedger.append] as a state transition. *)
Definition memory_append (t : DecisionTrace) (l : TraceLedger) : result LedgerRecord * TraceLedger :=
  match append l t with
  | Ok (r, l') => (Ok r, l')
  | Raise e => (Raise e, l)
  end.

#[global] Program Instance memory_sink : TraceSink TraceLedger := {|
  sink_append := memory_append; trace_persistence := true;
  sink_invariant l := True; sink_records := records |}.
Next Obligation.
  intros t l r l' _ H. unfold memory_append, append in H.
  destruct (canonical_trace_json t) as [c|e]; [|done]. cbn [mbind result_bind] in H.
  apply pair_equal_spec in H as [H <-]. injection H as <-. done.
Qed.
Next Obligation.
  intros t l e l' _ H. unfold memory_append in H.
  destruct (append l t) as [[r l1]|e1]; [done|]. by apply pair_equal_spec in H as [_ <-].
Qed.

#[global] Program Instance ephemeral_sink : TraceSink unit := {|
  sink_append t l := (ephemeral_append t, l); trace_persistence := false;
  sink_invariant l := True; sink_records l := [] |}.
Next Obligation.
  intros t l r l' _ H. cbn beta in H. apply pair_equal_spec in H as [H _]. unfold ephemeral_append in H.
  destruct (canonical_trace_json t) as [c|e]; [|done]. cbn [mbind result_bind] in H. by injection H as <-.
Qed.
Next Obligation. done. Qed.

(** The SQLite ledger whose statements fail by a given plan. *)
Definition sqlite_sink (faults : fault_plan) : TraceSink database.
Proof.
  refine {| sink_append t d := sqlite_append faults d t; trace_persistence := true;
            sink_invariant d := ordered (db_rows d) /\ db_pending d = None;
            sink_records := sqlite_records |}.
  - intros t d r d' [Ho Hp] H.
    destruct (sqlite_append_cases _ _ _ _ _ Ho Hp H) as (Hp' & Ho' & c & Hc & -> & Hr). done.
  - intros t d e d' [Ho Hp] H.
    destruct (sqlite_append_cases _ _ _ _ _ Ho Hp H) as (Hp' & Ho' & ->). done.
Defined.
