(* ===== verification/LedgerAnchor.v ===== *)
(** * Signed ledger heads ([c3r/telemetry/ledger_anchor.py])

    The signer and verifier belong to the deployment and are parameters, as is
    the ISO-8601 reader [datetime.fromisoformat(...).utcoffset()] of the host's
    standard library: [utc_offset s] is [None] when it raises ValueError, and
    otherwise the offset in seconds, absent for a naive timestamp. *)

From Stdlib Require Import Lia ZArith Ascii String.
From stdpp Require Import base option strings gmap list.
From S2P Require Import Prelude PyStr PySort PyFloat FloatRepr Json Hash StateSchema.

Local Open Scope string_scope.

Section anchor.
Context (utc_offset : string -> option (option Z)).

Record LedgerHead : Type := mkHead {
  lh_sequence : Z; lh_record_hash : string; captured_at : string; lh_policy_version : string }.

(** [LedgerHead(...)] with its [__post_init__]. *)
Definition make_head (sequence : Z) (record_hash captured policy : string) : result LedgerHead :=
  if Z.ltb sequence 0 || negb (is_hash64 record_hash)
  then raise ValueError "invalid ledger head"
  else if negb (nonempty policy) || Z.ltb 64 (len policy)
  then raise ValueError "invalid policy version"
  else match utc_offset captured with
  | None => raise ValueError "invalid capture timestamp"
  | Some offset =>
      if bool_decide (offset = Some 0%Z)
      then Ok (mkHead sequence record_hash captured policy)
      else raise ValueError "capture timestamp must be UTC"
  end.

(** [sort_keys=True, separators=(",", ":"), ensure_ascii=False]. *)
Definition payload_options : dump_options := DumpOptions "," ":" true false true.

Definition head_json (h : LedgerHead) : json :=
  JObj [("sequence", JInt (lh_sequence h)); ("record_hash", JStr (lh_record_hash h));
        ("captured_at", JStr (captured_at h)); ("policy_version", JStr (lh_policy_version h))].

(** [LedgerHead.payload]. *)
Definition head_payload (h : LedgerHead) : string := utf8 (print payload_options (head_json h)).

Record SignedLedgerAnchor : Type := mkAnchor {
  an_head : LedgerHead; an_key_id : string; an_signature_hex : string }.

(** [capture_head], the clock's reading already in [isoformat]. *)
Definition capture_head (now : string) (sequence : Z) (record_hash policy : string)
    : result LedgerHead := make_head sequence record_hash now policy.

Definition sign_head (signer : string -> result string) (h : LedgerHead) (key_id : string)
    : result SignedLedgerAnchor :=
  if negb (nonempty key_id) || Z.ltb 256 (len key_id)
  then raise ValueError "invalid signer key identifier"
  else
    signature ← signer (head_payload h);
    if negb (nonempty signature) then raise ValueError "empty signature"
    else Ok (mkAnchor h key_id (hex (bytes_of_string signature))).

(** [bytes.fromhex]: pairs of digits, ASCII white space between them skipped. *)
Definition is_ascii_space (c : ascii) : bool := in_range 9 13 c || Z.eqb (code c) 32.

Fixpoint fromhex (s : string) : result string :=
  match s with
  | EmptyString => Ok EmptyString
  | String c s' =>
      if is_ascii_space c then fromhex s'
      else match s' with
      | EmptyString => raise ValueError "non-hexadecimal number found in fromhex()"
      | String d s'' =>
          match hex_value c, hex_value d with
          | Some a, Some b => r ← fromhex s''; Ok (String (chr (16 * a + b)) r)
          | _, _ => raise ValueError "non-hexadecimal number found in fromhex()"
          end
      end
  end.

Definition verify_anchor (verifier : string -> string -> string -> bool) (a : SignedLedgerAnchor)
    (sequence : Z) (record_hash : string) : result bool :=
  if negb (Z.eqb (lh_sequence (an_head a)) sequence)
     || negb (String.eqb (lh_record_hash (an_head a)) record_hash)
  then Ok false
  else match fromhex (an_signature_hex a) with
  | Raise e => if caught_by [ValueError] (exn_class e) then Ok false else Raise e
  | Ok signature =>
      Ok (nonempty signature && verifier (an_key_id a) (head_payload (an_head a)) signature)
  end.

(** ** Lemmas *)

Lemma head_payload_inj h1 h2 : head_payload h1 = head_payload h2 -> h1 = h2.
Proof.
  intros H. apply utf8_inj in H.
  apply print_inj in H; [|by split|reflexivity|reflexivity].
  assert (forall h, canon payload_options (head_json h) = JObj
    [("captured_at", JStr (captured_at h)); ("policy_version", JStr (lh_policy_version h));
     ("record_hash", JStr (lh_record_hash h)); ("sequence", JInt (lh_sequence h))]) as Hc
    by reflexivity.
  rewrite !Hc in H. injection H as H1 H2 H3 H4. destruct h1, h2. simpl in *. congruence.
Qed.

Lemma hex_value_digit n : (n < 16)%N -> hex_value (hex_digit n) = Some (Z.of_N n)
  /\ is_ascii_space (hex_digit n) = false.
Proof.
  intros H. assert (n ∈ map N.of_nat (seq 0 16)) as Hin.
  { apply list_elem_of_fmap. exists (N.to_nat n). split; [lia|]. apply elem_of_seq. lia. }
  clear H. revert n Hin. apply Forall_forall. repeat constructor.
Qed.

Lemma fromhex_hex bs :
  Forall (fun b => (b < 256)%N) bs -> fromhex (hex bs) = Ok (string_of_bytes bs).
Proof.
  induction 1 as [|b bs Hb _ IH]; [done|]. cbn [hex fromhex].
  assert (N.shiftr b 4 < 16)%N as H1
    by (rewrite N.shiftr_div_pow2; apply N.Div0.div_lt_upper_bound; simpl; lia).
  assert (N.land b 15 < 16)%N as H2 by (change 15%N with (N.ones 4); rewrite N.land_ones; by apply N.mod_lt).
  destruct (hex_value_digit _ H1) as [-> ->]. destruct (hex_value_digit _ H2) as [-> _].
  rewrite IH. cbn [mbind result_bind]. unfold string_of_bytes. cbn [map String.string_of_list_ascii].
  do 2 f_equal. unfold chr. f_equal.
  change 15%N with (N.ones 4). rewrite N.shiftr_div_pow2, N.land_ones.
  pose proof (N.div_mod b 16 ltac:(lia)) as Hd. change (2 ^ 4)%N with 16%N.
  rewrite Hd at 3. lia.
Qed.

Lemma fromhex_class s e : fromhex s = Raise e -> exn_class e = ValueError.
Proof.
  remember (String.length s) as n eqn:Hn. assert (String.length s <= n)%nat as Hl by lia.
  clear Hn. revert s Hl. induction n as [|n IH]; intros [|c s] Hl H; try discriminate H; simpl in Hl;
    [lia|].
  cbn [fromhex] in H. destruct (is_ascii_space c); [apply (IH s); [lia|done]|].
  destruct s as [|d s]; [by injection H as <-|].
  destruct (hex_value c), (hex_value d); try by injection H as <-.
  destruct (fromhex s) as [r|e'] eqn:Es; [done|]. apply (IH s); [simpl in Hl; lia|].
  simpl in H. by rewrite Es.
Qed.

Lemma bytes_round_trip s : string_of_bytes (bytes_of_string s) = s.
Proof.
  unfold string_of_bytes, bytes_of_string. rewrite map_map.
  rewrite (map_ext _ id) by apply ascii_N_embedding. rewrite map_id.
  apply String.string_of_list_ascii_of_string.
Qed.

Lemma fromhex_bytes s : fromhex (hex (bytes_of_string s)) = Ok s.
Proof.
  rewrite fromhex_hex, bytes_round_trip; [done|]. unfold bytes_of_string.
  apply Forall_map, Forall_true. intros c. apply N_ascii_bounded.
Qed.

(** ** Properties *)

(** An anchor speaks for one ledger head.  [verify_anchor] never raises; it
    accepts exactly when the anchor's head has the given sequence and hash and the
    deployment's verifier accepts the decoded, non-empty signature over that head's
    payload; payloads of different heads differ; and an anchor made by [sign_head]
    is accepted for its own head, and for no other sequence or hash, whenever the
    verifier accepts what the signer signed. *)
Theorem anchor_binds_head verifier a sequence record_hash :
  (exists b, verify_anchor verifier a sequence record_hash = Ok b)
  /\ (verify_anchor verifier a sequence record_hash = Ok true <->
      lh_sequence (an_head a) = sequence /\ lh_record_hash (an_head a) = record_hash
      /\ exists signature, fromhex (an_signature_hex a) = Ok signature /\ signature <> ""
           /\ verifier (an_key_id a) (head_payload (an_head a)) signature = true)
  /\ (forall h1 h2, head_payload h1 = head_payload h2 -> h1 = h2)
  /\ (forall signer h key_id, sign_head signer h key_id = Ok a ->
        (forall s, signer (head_payload h) = Ok s -> verifier key_id (head_payload h) s = true) ->
        (verify_anchor verifier a sequence record_hash = Ok true <->
         sequence = lh_sequence h /\ record_hash = lh_record_hash h)).
Proof.
  assert (Hiff : verify_anchor verifier a sequence record_hash = Ok true <->
      lh_sequence (an_head a) = sequence /\ lh_record_hash (an_head a) = record_hash
      /\ exists signature, fromhex (an_signature_hex a) = Ok signature /\ signature <> ""
           /\ verifier (an_key_id a) (head_payload (an_head a)) signature = true).
  { unfold verify_anchor.
    destruct (Z.eqb_spec (lh_sequence (an_head a)) sequence) as [Hs|Hs]; [|simpl; naive_solver].
    destruct (String.eqb_spec (lh_record_hash (an_head a)) record_hash) as [Hh|Hh]; [|simpl; naive_solver].
    cbn [negb orb]. destruct (fromhex (an_signature_hex a)) as [s|e] eqn:E.
    - split.
      + intros H. injection H as H. apply andb_true_iff in H as [H1 H2].
        split; [done|]. split; [done|]. exists s. split; [done|]. split; [|done]. by destruct s.
      + intros (_ & _ & s' & H' & Hne & Hok). injection H' as <-. rewrite Hok. by destruct s.
    - split; [by destruct (caught_by _ _)|]. by intros (_ & _ & s & ? & _). }
  split; [|split; [exact Hiff|split; [apply head_payload_inj|]]].
  - unfold verify_anchor. destruct (_ || _); [eauto|].
    destruct (fromhex (an_signature_hex a)) as [s|e] eqn:E; [eauto|].
    apply fromhex_class in E. rewrite E. simpl. eauto.
  - intros signer h key_id Hsign Hver. rewrite Hiff. unfold sign_head in Hsign.
    destruct (_ || _); [done|]. apply bind_ok in Hsign as (s & Hs & H).
    destruct (nonempty s) eqn:Ene; [|done]. injection H as <-. cbn [an_head an_key_id an_signature_hex].
    split; [naive_solver|]. intros [-> ->]. split; [done|]. split; [done|].
    exists s. rewrite fromhex_bytes. split; [done|]. split; [by intros ->|]. by apply Hver.
Qed.
End anchor.
