(* ===== verification/SystemOne.v ===== *)
(** * System One: calibration, abstention and the guarded fast path
    ([c3r/system_one/abstention.py], [calibration.py], [question_registry.py],
    [fast_path.py], [advisory.py], [laya_adapter.py])

    [math.exp] is the platform's C function; it is the parameter [exp].  An
    inference adapter is a record of methods over the world it talks to; the
    adapters of the source are its instances. *)

From Stdlib Require Import Lia ZArith Ascii String Permutation Sorted.
From stdpp Require Import base option strings gmap list.
From S2P Require Import Prelude PyStr PySort PyFloat FloatRepr Json StateSchema.

Local Open Scope string_scope.

(** ** Questions *)

Record TypedQuestion : Type := mkQuestion { q_id : string; q_options : list string }.

Definition BOOLEAN : list string := ["NO"; "YES"].

Definition C3R_QUESTIONS : list TypedQuestion :=
  [mkQuestion "ACTION_FAMILY" (map family_value all_families);
   mkQuestion "FRONTIER_MODEL_NEEDED" BOOLEAN;
   mkQuestion "LOCAL_MODEL_SUFFICIENT" BOOLEAN;
   mkQuestion "RETRIEVAL_EXPECTED_TO_HELP" BOOLEAN;
   mkQuestion "VERIFICATION_REQUIRED" BOOLEAN;
   mkQuestion "DELIBERATION_REQUIRED" BOOLEAN;
   mkQuestion "STOP_NOW" BOOLEAN;
   mkQuestion "ASK_USER_REQUIRED" BOOLEAN;
   mkQuestion "RISK_CLASS" (map risk_value all_risks);
   mkQuestion "REVERSIBILITY_CLASS" ["REVERSIBLE"; "COMPENSATABLE"; "IRREVERSIBLE"];
   mkQuestion "DATA_BOUNDARY_CLASS" ["LOCAL_ONLY"; "APPROVED_REMOTE"; "PUBLIC"]].

(** ** Abstention *)

(** [sorted(values, reverse=True)]. *)
Definition descending (l : list float) : list float := rev (sorted_by flt (rev l)).

Definition should_abstain (probabilities : list float) (minimum_top minimum_margin : float) : bool :=
  if Z.ltb (lenZ probabilities) 2 then true
  else match descending probabilities with
  | first :: second :: _ => flt first minimum_top || flt (fsub first second) minimum_margin
  | _ => true
  end.

(** ** Calibration *)

Record CalibrationKey : Type := mkKey {
  question_type : string; action_family : string; option_count_bucket_of : string;
  language : string; consequence_class : string }.

Global Instance CalibrationKey_eq_dec : EqDecision CalibrationKey.
Proof. solve_decision. Defined.
Global Instance CalibrationKey_countable : Countable CalibrationKey.
Proof.
  refine (inj_countable' (fun k => (question_type k, action_family k, option_count_bucket_of k,
                                    language k, consequence_class k))
            (fun '(a, b, c, d, e) => mkKey a b c d e) _).
  by intros [].
Defined.

Record TemperatureCalibrator : Type := mkCalibrator { temperatures : gmap CalibrationKey float }.

Definition supports (c : TemperatureCalibrator) (k : CalibrationKey) : bool :=
  match temperatures c !! k with
  | Some t => fgt t fzero
  | None => false
  end.

Section exponential.
Context (exp : float -> float).

(** The body of [apply] after its checks, and [_softmax] of calibration_fit. *)
Definition softmax (logits : list float) (temperature : float) : result (list float) :=
  scaled ← mapR (fun v => fdiv v temperature) logits;
  match scaled with
  | [] => raise ValueError "max() arg is an empty sequence"
  | s :: ss =>
      let peak := max_by flt s ss in
      let exps := map (fun v => exp (fsub v peak)) scaled in
      let total := fsum exps in
      mapR (fun v => fdiv v total) exps
  end.

(** [TemperatureCalibrator.apply]. *)
Definition apply_calibration (c : TemperatureCalibrator) (logits : list float) (k : CalibrationKey)
    : result (list float) :=
  match temperatures c !! k with
  | None => raise ValueError "calibration metadata unavailable for decision slice"
  | Some temperature =>
      if fle temperature fzero
      then raise ValueError "calibration metadata unavailable for decision slice"
      else if bool_decide (logits = []) || negb (forallb isfinite logits)
      then raise ValueError "model logits must be finite and non-empty"
      else softmax logits temperature
  end.

(** ** The guarded fast path *)

Definition option_count_bucket (n : Z) : string :=
  if Z.leb n 2 then str_of_Z n
  else if Z.leb n 5 then "3-5"
  else if Z.leb n 10 then "6-10"
  else if Z.leb n 20 then "11-20"
  else "21+".

Record FastPathDecision : Type := mkFastPathDecision {
  fp_answers : gmap string string;
  fp_probabilities : gmap string (list float);
  fp_abstained : bool;
  fp_reasons : list string;
  fp_model_id : string;
  fp_model_revision : string;
  fp_candidate_probabilities : list float }.

(** [TypedInferenceAdapter]: the methods over a world [W]; [deadline] is a
    reading of the monotonic clock. *)
Record InferenceAdapter (W : Type) : Type := mkAdapter {
  a_model_id : string;
  a_revision : string;
  a_provider : string;
  a_predict : CompiledState -> list TypedQuestion -> option float -> io W (gmap string (list float));
  a_rank_actions : CompiledState -> list string -> option float -> io W (list float) }.
#[global] Arguments mkAdapter {W}.
#[global] Arguments a_model_id {W}.
#[global] Arguments a_revision {W}.
#[global] Arguments a_provider {W}.
#[global] Arguments a_predict {W}.
#[global] Arguments a_rank_actions {W}.

Record CalibratedFastPath (W : Type) : Type := mkFastPath {
  cf_adapter : InferenceAdapter W;
  cf_calibrator : TemperatureCalibrator;
  cf_minimum_top : float;
  cf_minimum_margin : float;
  cf_maximum_seconds : float }.
#[global] Arguments mkFastPath {W}.
#[global] Arguments cf_adapter {W}.
#[global] Arguments cf_calibrator {W}.
#[global] Arguments cf_minimum_top {W}.
#[global] Arguments cf_minimum_margin {W}.
#[global] Arguments cf_maximum_seconds {W}.

Definition within_unit (x : float) : bool := fle fzero x && fle x fone.

Definition make_fast_path {W} (a : InferenceAdapter W) (c : TemperatureCalibrator)
    (top margin seconds : float) : result (CalibratedFastPath W) :=
  if negb (within_unit top)
  then raise ValueError "minimum_top_probability must be between 0 and 1"
  else if negb (within_unit margin)
  then raise ValueError "minimum_margin must be between 0 and 1"
  else if negb (isfinite seconds) || fle seconds fzero
  then raise ValueError "maximum_decision_seconds must be positive and finite"
  else Ok (mkFastPath a c top margin seconds).

(** [str(value)] of a risk value. *)
Definition scalar_str (v : scalar) : string :=
  match v with
  | SStr s => s
  | SFloat x => py_repr (JFloat x)
  | SBool b => py_repr (JBool b)
  end.

(** [str(state.risk.get("consequence", "default"))]. *)
Definition consequence_of (s : CompiledState) : string :=
  match risk s !! "consequence" with Some v => scalar_str v | None => "default" end.

(** [max(range(len(l)), key=l.__getitem__)]. *)
Definition argmax (l : list float) : result nat :=
  match l with
  | [] => raise ValueError "max() arg is an empty sequence"
  | x :: xs => Ok (fst (fold_left (fun best iv => if flt (snd best) (snd iv) then iv else best)
                          (zip (seq 1 (length xs)) xs) (0, x)))
  end.

Record fast_state : Type := mkFastState {
  fs_answers : gmap string string; fs_probabilities : gmap string (list float);
  fs_reasons : list string }.

Definition add_reason (s : fast_state) (r : string) : fast_state :=
  mkFastState (fs_answers s) (fs_probabilities s) (fs_reasons s ++ [r])%list.

(** One turn of the loop over the questions. *)
Definition answer_question {W} (fp : CalibratedFastPath W) (family lang consequence : string)
    (logits_by_question : gmap string (list float)) (s : fast_state) (q : TypedQuestion)
    : result fast_state :=
  let invalid := add_reason s ("invalid prediction for " ++ q_id q) in
  match logits_by_question !! q_id q with
  | None => Ok invalid
  | Some logits =>
      if negb (Z.eqb (lenZ logits) (lenZ (q_options q))) || negb (forallb isfinite logits)
      then Ok invalid
      else
        let key := mkKey (q_id q) family (option_count_bucket (lenZ (q_options q))) lang consequence in
        if negb (supports (cf_calibrator fp) key)
        then Ok (add_reason s ("missing calibration for " ++ q_id q))
        else
          calibrated ← apply_calibration (cf_calibrator fp) logits key;
          let probabilities := <[q_id q := calibrated]> (fs_probabilities s) in
          if should_abstain calibrated (cf_minimum_top fp) (cf_minimum_margin fp)
          then Ok (mkFastState (fs_answers s) probabilities
                     (fs_reasons s ++ [("low decision margin for " ++ q_id q)%string])%list)
          else
            best ← argmax calibrated;
            match q_options q !! best with
            | Some option => Ok (mkFastState (<[q_id q := option]> (fs_answers s)) probabilities
                                   (fs_reasons s))
            | None => raise IndexError "tuple index out of range"
            end
  end.

(** [CalibratedFastPath.decide]; [monotonic] reads the clock. *)
Definition decide {W} (monotonic : io W float) (fp : CalibratedFastPath W) (state : CompiledState)
    (questions : list TypedQuestion) (family lang : string) (candidate_options : list string)
    : io W FastPathDecision :=
  now ← monotonic;
  let deadline := fadd now (cf_maximum_seconds fp) in
  candidate_probabilities ←
    match candidate_options with
    | [] => mret []
    | _ => a_rank_actions (cf_adapter fp) state candidate_options (Some deadline)
    end;
  logits ← a_predict (cf_adapter fp) state questions (Some deadline);
  s ← lift (foldR (answer_question fp family lang (consequence_of state) logits)
              (mkFastState ∅ ∅ []) questions);
  mret (mkFastPathDecision (fs_answers s) (fs_probabilities s)
          (negb (bool_decide (fs_reasons s = []))) (fs_reasons s)
          (a_model_id (cf_adapter fp)) (a_revision (cf_adapter fp)) candidate_probabilities).
End exponential.

(** [AdvisoryFastPath.decide]: the adapter's ranking only, no deadline. *)
Definition advisory_decide {W} (a : InferenceAdapter W) (state : CompiledState)
    (candidate_options : list string) : io W FastPathDecision :=
  scores ← match candidate_options with
           | [] => mret []
           | _ => a_rank_actions a state candidate_options None
           end;
  mret (mkFastPathDecision ∅ ∅ false ["UNCALIBRATED_ADVISORY_ONLY"]
          (a_model_id a) (a_revision a) scores).

(** ** The Laya adapter *)

Definition approved_checkpoints : list string :=
  ["convaiinnovations/laya"; "convaiinnovations/laya-multilingual";
   "ColomboAI/C3R-Decision-Laya-421M-v0.1"].

(** [LayaAdapter(model_id, revision, backend)]. *)
Definition make_laya_adapter {W} (model_id revision : string)
    (backend : CompiledState -> list TypedQuestion -> io W (gmap string (list float)))
    : result (InferenceAdapter W) :=
  if negb (bool_decide (model_id ∈ approved_checkpoints))
  then raise ValueError "unapproved System-One checkpoint"
  else if negb (is_revision revision)
  then raise ValueError "revision must be an immutable 40-64 character hexadecimal hash"
  else Ok (mkAdapter model_id revision "laya" (fun state questions _ => backend state questions)
             (fun _ _ _ => mret [])).

(** ** Abstention in terms of the two largest values *)

Global Instance flt_strict_weak : StrictWeak flt (fun x => is_nan x = false).
Proof. split; intros *; [intros _ _; apply flt_asym|intros _ Hy _; by apply flt_false_trans]. Qed.

Lemma descending_perm l : Permutation (descending l) l.
Proof. unfold descending. rewrite <- Permutation_rev, sorted_by_perm. symmetry. apply Permutation_rev. Qed.

Lemma descending_sorted l :
  Forall (fun x => is_nan x = false) l ->
  StronglySorted (fun x y => flt x y = false) (descending l).
Proof.
  intros H. unfold descending.
  apply (StronglySorted_rev (not_after flt)), (sorted_by_sorted flt (fun x => is_nan x = false)).
  rewrite Forall_forall in *. intros x Hx. apply H. by rewrite Permutation_rev.
Qed.

(** Two values stand out: the largest reaches the threshold and leads the next
    one by the margin. *)
Definition decisive (l : list float) (minimum_top minimum_margin : float) : Prop :=
  exists first second rest, Permutation l (first :: second :: rest)
  /\ flt first second = false /\ Forall (fun x => flt second x = false) rest
  /\ flt first minimum_top = false /\ flt (fsub first second) minimum_margin = false.

Lemma should_abstain_false l top margin :
  Forall (fun x => is_nan x = false) l -> should_abstain l top margin = false -> decisive l top margin.
Proof.
  intros Hn H. unfold should_abstain in H. destruct (Z.ltb _ _); [done|].
  pose proof (descending_sorted l Hn) as Hs. pose proof (descending_perm l) as Hp.
  destruct (descending l) as [|a [|b rest]]; [done..|].
  apply orb_false_iff in H as [H1 H2].
  inversion Hs as [|x xs Hs' Ha]; subst. inversion Hs' as [|x xs Hs'' Hb]; subst.
  apply Forall_cons in Ha as [Hab _].
  exists a, b, rest. by rewrite Hp.
Qed.

Lemma argmax_fold (l : list (nat * float)) best :
  let r := fold_left (fun best iv => if flt (snd best) (snd iv) then iv else best) l best in
  r = best \/ r ∈ l.
Proof.
  revert best; induction l as [|iv l IH]; intros best; simpl; [by left|].
  destruct (flt (snd best) (snd iv)).
  - destruct (IH iv) as [->|H]; right; [left|by right].
  - destruct (IH best) as [->|H]; [by left|by right; right].
Qed.

Lemma argmax_ok l i : argmax l = Ok i -> exists x, l !! i = Some x.
Proof.
  unfold argmax. destruct l as [|x xs]; [done|]. intros [= <-].
  destruct (argmax_fold (zip (seq 1 (length xs)) xs) (0, x)) as [->|H]; [by exists x|].
  destruct (fold_left _ _ _) as [k y]. simpl.
  apply list_elem_of_lookup in H as [j Hj]. apply lookup_zip_Some in Hj as [Hk Hy].
  apply lookup_seq in Hk as [-> _]. exists y. by rewrite <- Hy.
Qed.

(** ** The loop over the questions *)

Section fast_path.
Context (exp : float -> float) {W : Type} (fp : CalibratedFastPath W)
  (family lang consequence : string).

Lemma mapR_length {A B} (f : A -> result B) l ys : mapR f l = Ok ys -> length ys = length l.
Proof. intros H. apply mapR_ok in H. symmetry. by eapply Forall2_length. Qed.

Lemma softmax_length logits t ps : softmax exp logits t = Ok ps -> length ps = length logits.
Proof.
  unfold softmax. intros H. apply bind_ok in H as (sc & Hsc & H). apply mapR_length in Hsc.
  destruct sc as [|s ss]; [done|]. apply mapR_length in H. rewrite length_map in H. congruence.
Qed.

Lemma apply_length c logits k ps :
  apply_calibration exp c logits k = Ok ps -> length ps = length logits.
Proof.
  unfold apply_calibration. destruct (temperatures c !! k); [|done].
  destruct (fle _ _); [done|]. destruct (_ || _); [done|]. apply softmax_length.
Qed.

(** What backs the answer to a question. *)
Definition backed (logits_by : gmap string (list float)) (s : fast_state) (q : TypedQuestion)
    (option : string) : Prop :=
  exists logits ps best,
    logits_by !! q_id q = Some logits /\ length logits = length (q_options q)
    /\ forallb isfinite logits = true
    /\ supports (cf_calibrator fp)
         (mkKey (q_id q) family (option_count_bucket (lenZ (q_options q))) lang consequence) = true
    /\ apply_calibration exp (cf_calibrator fp) logits
         (mkKey (q_id q) family (option_count_bucket (lenZ (q_options q))) lang consequence) = Ok ps
    /\ fs_probabilities s !! q_id q = Some ps /\ length ps = length (q_options q)
    /\ should_abstain ps (cf_minimum_top fp) (cf_minimum_margin fp) = false
    /\ argmax ps = Ok best /\ q_options q !! best = Some option.

(** One question either adds a reason and no answer, or answers with backing;
    other questions are untouched. *)
Lemma answer_question_cases logits_by s q s' :
  answer_question exp fp family lang consequence logits_by s q = Ok s' ->
  (forall i, i <> q_id q -> fs_answers s' !! i = fs_answers s !! i
                         /\ fs_probabilities s' !! i = fs_probabilities s !! i)
  /\ ((exists r, fs_reasons s' = (fs_reasons s ++ [r])%list /\ fs_answers s' = fs_answers s)
      \/ (fs_reasons s' = fs_reasons s
          /\ exists option, fs_answers s' = <[q_id q := option]> (fs_answers s)
                            /\ backed logits_by s' q option)).
Proof.
  unfold answer_question. cbv zeta.
  destruct (logits_by !! q_id q) as [logits|] eqn:El; [|intros [= <-]; naive_solver].
  destruct (Z.eqb_spec (lenZ logits) (lenZ (q_options q))) as [Hlen|]; cbn [negb orb];
    [|intros [= <-]; naive_solver].
  destruct (forallb isfinite logits) eqn:Ef; cbn [negb]; [|intros [= <-]; naive_solver].
  destruct (supports _ _) eqn:Es; cbn [negb]; [|intros [= <-]; naive_solver].
  intros H. apply bind_ok in H as (ps & Hps & H).
  pose proof (apply_length _ _ _ _ Hps) as Hpl.
  destruct (should_abstain _ _ _) eqn:Ea.
  { injection H as <-. split; [|left; eauto]. intros i Hi. simpl. by rewrite lookup_insert_ne. }
  apply bind_ok in H as (best & Hbest & H).
  destruct (q_options q !! best) as [option|] eqn:Eo; [|done]. injection H as <-.
  split.
  - intros i Hi. simpl. by rewrite !lookup_insert_ne.
  - right. split; [done|]. exists option. split; [done|]. unfold lenZ in Hlen.
    exists logits, ps, best. repeat split; try done; try lia. simpl. by rewrite lookup_insert_eq.
Qed.

Lemma answer_question_ok logits_by s q logits ps best option :
  logits_by !! q_id q = Some logits -> lenZ logits = lenZ (q_options q) ->
  forallb isfinite logits = true ->
  supports (cf_calibrator fp)
    (mkKey (q_id q) family (option_count_bucket (lenZ (q_options q))) lang consequence) = true ->
  apply_calibration exp (cf_calibrator fp) logits
    (mkKey (q_id q) family (option_count_bucket (lenZ (q_options q))) lang consequence) = Ok ps ->
  should_abstain ps (cf_minimum_top fp) (cf_minimum_margin fp) = false ->
  argmax ps = Ok best -> q_options q !! best = Some option ->
  answer_question exp fp family lang consequence logits_by s q
  = Ok (mkFastState (<[q_id q := option]> (fs_answers s)) (<[q_id q := ps]> (fs_probabilities s))
          (fs_reasons s)).
Proof.
  intros H1 H2 H3 H4 H5 H6 H7 H8. unfold answer_question. cbv zeta.
  rewrite H1, H2, Z.eqb_refl, H3, H4, H5. cbn [negb orb mbind result_bind].
  rewrite H6, H7. cbn [mbind result_bind]. by rewrite H8.
Qed.

(** No lookup by the index of the best probability is out of range. *)
Lemma answer_question_raises logits_by s q e :
  answer_question exp fp family lang consequence logits_by s q = Raise e ->
  exists logits, logits_by !! q_id q = Some logits
  /\ (apply_calibration exp (cf_calibrator fp) logits
        (mkKey (q_id q) family (option_count_bucket (lenZ (q_options q))) lang consequence) = Raise e).
Proof.
  unfold answer_question. cbv zeta.
  destruct (logits_by !! q_id q) as [logits|]; [|done].
  destruct (Z.eqb_spec (lenZ logits) (lenZ (q_options q))) as [Hlen|]; cbn [negb orb]; [|done].
  destruct (forallb isfinite logits); cbn [negb]; [|done].
  destruct (supports _ _); cbn [negb]; [|done].
  destruct (apply_calibration _ _ _ _) as [ps|e'] eqn:Ea; cbn [mbind result_bind].
  2:{ intros [= ->]. by exists logits. }
  destruct (should_abstain ps _ _) eqn:Eab; [done|].
  destruct ps as [|p ps]; [done|]. destruct (argmax (p :: ps)) as [best|] eqn:Eb; [|done].
  cbn [mbind result_bind].
  apply argmax_ok in Eb as [x Hx]. apply apply_length in Ea. unfold lenZ in Hlen.
  destruct (q_options q !! best) eqn:Eo; [done|].
  apply lookup_ge_None in Eo. apply lookup_lt_Some in Hx. lia.
Qed.

Lemma answer_loop logits_by qs s s' :
  NoDup (map q_id qs) ->
  foldR (answer_question exp fp family lang consequence logits_by) s qs = Ok s' ->
  (forall i, i ∉ map q_id qs -> fs_answers s' !! i = fs_answers s !! i
                               /\ fs_probabilities s' !! i = fs_probabilities s !! i)
  /\ (forall q option, q ∈ qs -> fs_answers s !! q_id q = None ->
        fs_answers s' !! q_id q = Some option -> backed logits_by s' q option)
  /\ (fs_reasons s' = [] -> fs_reasons s = []
      /\ forall q, q ∈ qs -> exists option, fs_answers s' !! q_id q = Some option).
Proof.
  revert s; induction qs as [|q qs IH]; intros s Hnd H; cbn [foldR] in H.
  { injection H as <-. split; [done|]. split; [set_solver|]. split; [done|]. set_solver. }
  apply bind_ok in H as (s1 & H1 & H). cbn [map] in Hnd. apply NoDup_cons in Hnd as [Hq Hnd].
  destruct (IH s1 Hnd H) as (I1 & I2 & I3). apply answer_question_cases in H1 as [C1 C2].
  destruct (I1 _ Hq) as [A1 A2].
  split; [|split].
  - intros i Hi. cbn [map] in Hi. rewrite not_elem_of_cons in Hi. destruct Hi as [Hne Hi].
    destruct (I1 i Hi) as [-> ->]. auto.
  - intros q' option Hin Hnone Hsome. apply elem_of_cons in Hin as [->|Hin].
    + rewrite A1 in Hsome. destruct C2 as [(r & _ & Ha)|(_ & o & Ha & Hb)]; [congruence|].
      rewrite Ha, lookup_insert_eq in Hsome. injection Hsome as ->.
      destruct Hb as (lg & ps & b & B1 & B2 & B3 & B4 & B5 & B6 & B7).
      exists lg, ps, b. rewrite A2. done.
    + apply I2; [done| |done].
      assert (q_id q' <> q_id q) as Hne by (intros E; apply Hq; rewrite <- E; by apply list_elem_of_fmap_2).
      destruct (C1 _ Hne) as [-> _]. done.
  - intros Hr. destruct (I3 Hr) as [Hr1 Hall].
    destruct C2 as [(r & Hr' & _)|(Hr' & o & Ha & _)].
    { rewrite Hr1 in Hr'. by destruct (fs_reasons s). }
    split; [congruence|]. intros q' Hin. apply elem_of_cons in Hin as [->|Hin]; [|auto].
    exists o. by rewrite A1, Ha, lookup_insert_eq.
Qed.
End fast_path.

(** A question answered by the fast path has a supported slice and logits of the
    adapter; the prediction ran in a world with every property [Inv] the clock and
    the ranking preserve, and left the world of the decision. *)
Lemma answers_backed exp {W} (Inv : W -> Prop) monotonic (fp : CalibratedFastPath W) state qs family lang opts
    w d w' q o :
  (forall w r w', Inv w -> monotonic w = (r, w') -> Inv w') ->
  (forall state opts deadline w r w', Inv w ->
     a_rank_actions (cf_adapter fp) state opts deadline w = (r, w') -> Inv w') ->
  Inv w -> NoDup (map q_id qs) ->
  decide exp monotonic fp state qs family lang opts w = (Ok d, w') ->
  q ∈ qs -> fp_answers d !! q_id q = Some o ->
  supports (cf_calibrator fp)
    (mkKey (q_id q) family (option_count_bucket (lenZ (q_options q))) lang (consequence_of state)) = true
  /\ exists deadline w1 logits_by logits,
       Inv w1 /\ a_predict (cf_adapter fp) state qs (Some deadline) w1 = (Ok logits_by, w')
       /\ logits_by !! q_id q = Some logits.
Proof.
  unfold decide. intros Hmono Hrank Hw Hnd Hd Hq Ho. apply io_bind_ok in Hd as (now & w1 & Hn & Hd).
  apply io_bind_ok in Hd as (cand & w2 & Hc & Hd). apply io_bind_ok in Hd as (logits & w3 & Hp & Hd).
  apply io_bind_ok in Hd as (s & w4 & Hs & Hd). unfold lift in Hs. injection Hs as Hs <-. injection Hd as <- <-.
  apply answer_loop in Hs as (_ & H2 & _); [|done].
  destruct (H2 q o Hq (lookup_empty _) Ho) as (lg & ps & best & H1). destruct_and? H1.
  split; [done|]. assert (Inv w2). { destruct opts; [by injection Hc as _ <-; eauto|eauto]. }
  by eexists _, _, _, _.
Qed.

(** ** Properties *)


(** A step function stands for [math.exp] in the example. *)
Definition example_exp (x : float) : float := if fle fzero x then fone else fzero.

Definition example_state : CompiledState :=
  mkCompiledState "g" "s" [] [] [] [] [] [] ∅ ∅ {["consequence" := SStr "low"]} "unknown" false
    "local" None fzero fone ∅ SCHEMA_VERSION.

Definition example_question : TypedQuestion := mkQuestion "STOP_NOW" BOOLEAN.

Definition example_adapter (l : list float) : InferenceAdapter unit :=
  mkAdapter "m" "r" "clm" (fun _ _ _ => mret {["STOP_NOW" := l]}) (fun _ _ _ => mret []).

Definition example_fast_path (l : list float) : CalibratedFastPath unit :=
  mkFastPath (example_adapter l)
    (mkCalibrator {[mkKey "STOP_NOW" "TOOL" "2" "en" "low" := float_of_decimal 25 (-2)]})
    (float_of_decimal 65 (-2)) (float_of_decimal 1 (-1)) (float_of_decimal 5 (-1)).

Definition example_decision : FastPathDecision :=
  mkFastPathDecision {["STOP_NOW" := "YES"]} {["STOP_NOW" := [fzero; fone]]} false [] "m" "r" [].


(** The abstention test is vacuous on NaN. *)
Lemma nan_probabilities_do_not_abstain top margin : should_abstain [fnan; fnan] top margin = false.
Proof. by destruct top, margin. Qed.

(** Logits that are finite but overflow when divided by the temperature give NaN
    probabilities, and the guarded path answers with them. *)
Lemma overflowing_logits_are_answered exp (Hnan : exp fnan = fnan) :
  exists d, decide exp (mret fzero) (example_fast_path [float_of_decimal 1 308; fzero]) example_state
    [example_question] "TOOL" "en" [] tt = (Ok d, tt)
  /\ fp_abstained d = false /\ fp_answers d !! "STOP_NOW" = Some "NO"
  /\ fp_probabilities d !! "STOP_NOW" = Some [fnan; fnan].
Proof.
  assert (Hadd : forall x, fadd x fnan = fnan) by by intros [].
  set (l := [float_of_decimal 1 308; fzero]).
  assert (Happ : apply_calibration exp (cf_calibrator (example_fast_path l)) l
    (mkKey "STOP_NOW" "TOOL" "2" "en" "low") = Ok [fnan; fnan]).
  { unfold apply_calibration.
    replace (temperatures _ !! _) with (Some (float_of_decimal 25 (-2))) by (vm_compute; reflexivity).
    replace (fle _ fzero) with false by (vm_compute; reflexivity).
    replace (_ || _) with false by (vm_compute; reflexivity).
    unfold softmax. replace (mapR _ l) with (Ok [finf; fzero]) by (vm_compute; reflexivity).
    cbn [mbind result_bind map]. replace (max_by flt finf [fzero]) with finf by (vm_compute; reflexivity).
    replace (fsub finf finf) with fnan by reflexivity. rewrite Hnan.
    set (y := exp (fsub fzero finf)).
    assert (fsum [fnan; y] = fnan) as -> by (unfold fsum; cbn [fold_left]; destruct y; reflexivity).
    cbn. by destruct y. }
  eexists. split.
  - change (decide exp (mret fzero) (example_fast_path l) example_state [example_question] "TOOL" "en" [] tt)
      with (match (s' ← answer_question exp (example_fast_path l) "TOOL" "en" "low" {["STOP_NOW" := l]}
                          (mkFastState ∅ ∅ []) example_question; Ok s') with
            | Ok s => (Ok (mkFastPathDecision (fs_answers s) (fs_probabilities s)
                (negb (bool_decide (fs_reasons s = []))) (fs_reasons s) "m" "r" []), tt)
            | Raise e => (Raise e, tt)
            end).
    rewrite (answer_question_ok exp (example_fast_path l) "TOOL" "en" "low" {["STOP_NOW" := l]}
      (mkFastState ∅ ∅ []) example_question l [fnan; fnan] 0 "NO");
      [reflexivity|reflexivity|reflexivity|vm_compute; reflexivity|vm_compute; reflexivity| | | |reflexivity].
    + exact Happ.
    + apply nan_probabilities_do_not_abstain.
    + reflexivity.
  - split; [reflexivity|]. split; vm_compute; reflexivity.
Qed.
