(* ===== verification/Invocations.v ===== *)
(** * Transport-attempt counters ([c3r/telemetry/invocations.py])

    The context variable holds the counters of the request being captured, or
    nothing.  [HasCounts] is what the adapters need of the world they run in. *)

From Stdlib Require Import Lia ZArith Ascii String.
From stdpp Require Import base option strings gmap list.
From S2P Require Import Prelude PyStr PySort PyFloat FloatRepr Json StateSchema.

Local Open Scope string_scope.

Definition counts : Type := list (string * Z).

Class HasCounts (W : Type) := {
  get_counts : W -> option counts;
  set_counts : option counts -> W -> W;
  get_set_counts c w : get_counts (set_counts c w) = c }.

Global Program Instance counts_self : HasCounts (option counts) := {|
  get_counts := id; set_counts c _ := c |}.
Next Obligation. done. Qed.

Definition fresh_counts : counts := [("system_one_invocations", 0%Z); ("system_two_invocations", 0%Z)].

(** [counts[key] += 1]. *)
Fixpoint bump (k : string) (c : counts) : result counts :=
  match c with
  | [] => raise KeyError k
  | (k', n) :: c' => if String.eqb k k' then Ok ((k', (n + 1)%Z) :: c')
                     else r ← bump k c'; Ok ((k', n) :: r)
  end.

Definition transport_attempt {W} `{!HasCounts W} (system : string) : io W unit := fun w =>
  match get_counts w with
  | None => (Ok tt, w)
  | Some c =>
      match bump (system ++ "_invocations") c with
      | Ok c' => (Ok tt, set_counts (Some c') w)
      | Raise e => (Raise e, w)
      end
  end.

(** [with capture_invocations(): body], the variable reset on every exit. *)
Definition capture_invocations {W A} `{!HasCounts W} (body : io W A) : io W A := fun w =>
  let '(r, w') := body (set_counts (Some fresh_counts) w) in
  (r, set_counts (get_counts w) w').

(** [metadata.update(counts)]. *)
Definition update_counts (metadata : list (string * json)) (c : counts) : list (string * json) :=
  fold_left (fun d kn => dict_set (fst kn) (JInt (snd kn)) d) c metadata.

Definition with_invocations {W} `{!HasCounts W} (value : list (string * json)) (w : W)
    : list (string * json) :=
  match get_counts w with
  | None => value
  | Some c =>
      let metadata := match assoc "c3r" value with Some (JObj kvs) => kvs | _ => [] end in
      let metadata := dict_set "invocation_basis" (JStr "adapter_transport_attempts")
                        (update_counts metadata c) in
      dict_set "c3r" (JObj metadata) value
  end.

Lemma assoc_dict_set {V} k k' (v : V) d :
  assoc k (dict_set k' v d) = if String.eqb k k' then Some v else assoc k d.
Proof.
  induction d as [|[k2 v2] d IH]; cbn [dict_set assoc]; [done|].
  destruct (String.eqb_spec k' k2) as [->|Hne]; cbn [assoc].
  - by destruct (String.eqb_spec k k2).
  - rewrite IH. destruct (String.eqb_spec k k2) as [->|]; [|done].
    destruct (String.eqb_spec k2 k'); [congruence|done].
Qed.

(** Attempts of one system in a list of attempts. *)
Definition attempts_of (system : string) (l : list string) : Z :=
  lenZ (filter (fun s => s = system) l).

Fixpoint run_attempts {W} `{!HasCounts W} (l : list string) : io W unit :=
  match l with
  | [] => mret tt
  | s :: l' => _ ← transport_attempt s; run_attempts l'
  end.

Lemma run_attempts_counts {W} `{!HasCounts W} l (w : W) a b :
  Forall (fun s => s ∈ ["system_one"; "system_two"]) l ->
  get_counts w = Some [("system_one_invocations", a); ("system_two_invocations", b)] ->
  exists w', run_attempts l w = (Ok tt, w')
  /\ get_counts w' = Some [("system_one_invocations", (a + attempts_of "system_one" l)%Z);
                          ("system_two_invocations", (b + attempts_of "system_two" l)%Z)].
Proof.
  intros Hl. revert w a b; induction Hl as [|s l Hs Hl IH]; intros w a b Hw.
  { exists w. split; [done|]. rewrite Hw. unfold attempts_of, lenZ. simpl. by rewrite !Z.add_0_r. }
  cbn [run_attempts]. unfold mbind, io_bind, transport_attempt at 1. rewrite Hw.
  assert (Hcons : forall x, attempts_of x (s :: l)
    = ((if decide (s = x) then 1 else 0) + attempts_of x l)%Z).
  { intros x. unfold attempts_of, lenZ. rewrite filter_cons. destruct (decide (s = x)); simpl; lia. }
  rewrite !Hcons.
  apply elem_of_cons in Hs as [->|Hs]; [|apply list_elem_of_singleton in Hs as ->].
  - simpl (bump _ _). cbv beta iota.
    edestruct (IH (set_counts (Some [("system_one_invocations", (a + 1)%Z); ("system_two_invocations", b)]) w))
      as (w' & Hr & Hc); [apply get_set_counts|].
    exists w'. split; [exact Hr|]. rewrite Hc. rewrite decide_True, decide_False by done. by rewrite !Z.add_assoc, Z.add_0_r.
  - simpl (bump _ _). cbv beta iota.
    edestruct (IH (set_counts (Some [("system_one_invocations", a); ("system_two_invocations", (b + 1)%Z)]) w))
      as (w' & Hr & Hc); [apply get_set_counts|].
    exists w'. split; [exact Hr|]. rewrite Hc. rewrite decide_False, decide_True by done. by rewrite !Z.add_assoc, Z.add_0_r.
Qed.

(** Counting is exact and local: a captured sequence of attempts reports
    exactly its attempts under [c3r], outside a capture nothing is counted or
    reported, and the enclosing counters are restored whatever the outcome. *)
Theorem invocations_are_exact {W} `{!HasCounts W} l value (w : W)
    (Hl : Forall (fun s => s ∈ ["system_one"; "system_two"]) l) :
  (exists w', run_attempts l (set_counts (Some fresh_counts) w) = (Ok tt, w')
     /\ forall m, assoc "c3r" (with_invocations value w') = Some m ->
        exists kvs, m = JObj kvs
        /\ assoc "system_one_invocations" kvs = Some (JInt (attempts_of "system_one" l))
        /\ assoc "system_two_invocations" kvs = Some (JInt (attempts_of "system_two" l))
        /\ assoc "invocation_basis" kvs = Some (JStr "adapter_transport_attempts"))
  /\ (forall A (body : io W A), get_counts (snd (capture_invocations body w)) = get_counts w)
  /\ (get_counts w = None -> run_attempts l w = (Ok tt, w) /\ with_invocations value w = value).
Proof.
  split; [|split].
  - destruct (run_attempts_counts l (set_counts (Some fresh_counts) w) 0 0 Hl (get_set_counts _ _))
      as (w' & Hr & Hc). exists w'. split; [done|]. intros m. unfold with_invocations. rewrite Hc.
    rewrite assoc_dict_set, String.eqb_refl. intros [= <-]. eexists. split; [reflexivity|].
    rewrite !assoc_dict_set. done.
  - intros A body. unfold capture_invocations. destruct (body _) as [r w']. apply get_set_counts.
  - intros Hw. split; [|unfold with_invocations; by rewrite Hw].
    clear Hl. induction l as [|s l IH]; [done|]. cbn [run_attempts].
    unfold mbind, io_bind, transport_attempt at 1. by rewrite Hw.
Qed.
