(* ===== verification/ClmAdapter.v ===== *)
(** * CLM ranking adapter ([c3r/system_one/clm_adapter.py])

    Rankings of a local CLM server turned into typed logits in the original
    option order.  The transport (the HTTP exchange of [_post] or the injected
    callable), the monotonic clock, [math.log] and [urllib.parse.urlsplit] are
    parameters; everything the adapter checks of a response is modelled. *)

From Stdlib Require Import Lia ZArith Ascii String Permutation.
From stdpp Require Import base option strings gmap list.
From S2P Require Import Prelude PyStr PySort PyFloat FloatRepr Json StateSchema SystemOne Invocations.

Local Open Scope string_scope.

Definition MAX_CONTEXT_BYTES : Z := 32768.
Definition MAX_OPTIONS : Z := 64.

(** The attributes of [urlsplit(endpoint)] the constructor reads. *)
Record split_url : Type := mkSplit {
  u_scheme : string; u_hostname : option string; u_path : string; u_username : option string;
  u_password : option string; u_query : string; u_fragment : string; u_port : option Z }.

Record ClmAdapter : Type := mkClm {
  clm_revision : string;
  clm_endpoint : string;
  clm_api_key : option string;
  clm_timeout_seconds : float;
  clm_model_id : string;
  clm_served_model : string }.

Definition local_origin (u : split_url) : bool :=
  String.eqb (u_scheme u) "http"
  && bool_decide (u_hostname u ∈ [Some "127.0.0.1"; Some "localhost"; Some "::1"])
  && bool_decide (u_path u ∈ [""; "/"])
  && bool_decide (u_username u = None) && bool_decide (u_password u = None)
  && negb (nonempty (u_query u)) && negb (nonempty (u_fragment u))
  && negb (bool_decide (u_port u = None)).

(** [ClmAdapter.__post_init__]; [urlsplit] may raise ValueError itself. *)
Definition make_clm (urlsplit : string -> result split_url) (a : ClmAdapter) : result ClmAdapter :=
  parsed ← urlsplit (clm_endpoint a);
  if negb (local_origin parsed)
  then raise ValueError "CLM endpoint must be a local HTTP origin with an explicit port"
  else if negb (is_revision (clm_revision a))
  then raise ValueError "CLM artifact revision must be an immutable SHA-256/SHA-1 hash"
  else if negb (isfinite (clm_timeout_seconds a))
          || negb (flt fzero (clm_timeout_seconds a) && fle (clm_timeout_seconds a) (float_of_Z 10))
  then raise ValueError "CLM timeout must be finite and at most ten seconds"
  else if negb (nonempty (clm_served_model a)) || Z.ltb 128 (len (clm_served_model a))
  then raise ValueError "CLM served model name must be bounded"
  else Ok a.

(** [asdict(state)]. *)
Definition provenance_json (p : Provenance) : json :=
  JObj [("source", JStr (source p)); ("observed_at", JStr (observed_at p));
        ("digest", json_opt (prov_digest p))].

Definition compiled_state_json (s : CompiledState) : json :=
  JObj [("goal", JStr (goal s)); ("current_subgoal", JStr (current_subgoal s));
        ("verified_facts", json_strings (verified_facts s));
        ("open_questions", json_strings (open_questions s));
        ("recent_failures", json_strings (recent_failures s));
        ("available_action_families", json_strings (map family_value (available_action_families s)));
        ("tool_summary", json_strings (tool_summary s));
        ("model_inventory", json_strings (model_inventory s));
        ("budget", json_map JFloat (budget s));
        ("runtime_summary", json_map json_scalar (runtime_summary s));
        ("risk", json_map json_scalar (risk s));
        ("reversibility", JStr (reversibility s));
        ("approval_required", JBool (approval_required s));
        ("data_boundary", JStr (data_boundary s));
        ("rollback_state", json_opt (rollback_state s));
        ("ambiguity", JFloat (ambiguity s));
        ("state_compilation_confidence", JFloat (state_compilation_confidence s));
        ("provenance", json_map provenance_json (provenance s));
        ("schema_version", JStr (schema_version s))].

(** [sort_keys=True, allow_nan=False, ensure_ascii=False], default separators. *)
Definition context_options : dump_options := DumpOptions ", " ": " true false false.

(** [ClmAdapter._context]. *)
Definition clm_context (s : CompiledState) : result string :=
  context ← dumps context_options (compiled_state_json s);
  if Z.ltb MAX_CONTEXT_BYTES (len (utf8 context))
  then raise ValueError "compiled state exceeds the bounded CLM context"
  else Ok context.

(** ** Reading a ranking *)

(** The checks on [prob]: not a bool, an int or float, finite, in [0, 1];
    [None] when one fails. *)
Definition probability_of (v : option json) : result (option float) :=
  match v with
  | Some (JInt n) =>
      x ← int_to_float n;
      Ok (if Z.leb 0 n && Z.leb n 1 then Some x else None)
  | Some (JFloat x) => Ok (if isfinite x && within_unit x then Some x else None)
  | _ => Ok None
  end.

Definition bad_ranking {A} : result A :=
  raise ValueError "CLM ranking contains an unknown or invalid probability".

(** One turn of the loop over the ranking items. *)
Definition ranking_step (options : list string) (probabilities : list (string * float)) (item : json)
    : result (list (string * float)) :=
  match item with
  | JObj kvs =>
      match assoc "candidate" kvs with
      | Some (JStr candidate) =>
          if negb (bool_decide (candidate ∈ options))
             || bool_decide (candidate ∈ map fst probabilities)
          then bad_ranking
          else
            p ← probability_of (assoc "prob" kvs);
            match p with
            | Some x => Ok (probabilities ++ [(candidate, x)])%list
            | None => bad_ranking
            end
      | _ => bad_ranking
      end
  | _ => raise ValueError "CLM returned an invalid ranking item"
  end.

Definition total_low : float := float_of_decimal 98 (-2).
Definition total_high : float := float_of_decimal 102 (-2).

(** Everything [_rank] does with the response. *)
Definition read_ranking (served : string) (options : list string) (response : list (string * json))
    : result (list float) :=
  if negb (match assoc "model" response with Some (JStr m) => String.eqb m served | _ => false end)
  then raise ValueError "CLM served model does not match the requested model"
  else match assoc "ranked" response with
  | Some (JArr ranked) =>
      if negb (Z.eqb (lenZ ranked) (lenZ options))
      then raise ValueError "CLM returned an incomplete ranking"
      else
        probabilities ← foldR (ranking_step options) [] ranked;
        let total := fsum (map snd probabilities) in
        if negb (fle total_low total && fle total total_high)
        then raise ValueError "CLM ranking probabilities do not sum to one"
        else mapR (fun option =>
                     match assoc option probabilities with
                     | Some p => fdiv p total
                     | None => raise KeyError option
                     end) options
  | _ => raise ValueError "CLM returned an incomplete ranking"
  end.

Definition check_options (options : list string) : result unit :=
  if bool_decide (options = []) || Z.ltb MAX_OPTIONS (lenZ options)
     || negb (bool_decide (NoDup options))
  then raise ValueError "CLM options must be unique and bounded"
  else if existsb (fun option => negb (nonempty option) || Z.ltb 1024 (len option)) options
  then raise ValueError "CLM option is empty or oversized"
  else Ok tt.

Definition rank_payload (a : ClmAdapter) (context question : string) (options : list string)
    : list (string * json) :=
  [("context", JStr context); ("question", JStr question); ("answers", json_strings options);
   ("model", JStr (clm_served_model a))].

Section adapter.
Context {W : Type} `{!HasCounts W} (monotonic : io W float) (log : float -> float)
  (transport : ClmAdapter -> list (string * json) -> float -> io W (list (string * json))).

(** [ClmAdapter._rank]. *)
Definition rank (a : ClmAdapter) (context question : string) (options : list string)
    (deadline : option float) : io W (list float) :=
  _ ← lift (check_options options);
  remaining ←
    match deadline with
    | None => mret (clm_timeout_seconds a)
    | Some d => now ← monotonic; mret (fmin (clm_timeout_seconds a) (fsub d now))
    end;
  _ ← lift (raise_if (fle remaining fzero) TimeoutError "CLM decision deadline exceeded");
  _ ← transport_attempt "system_one";
  response ← transport a (rank_payload a context question options) remaining;
  lift (read_ranking (clm_served_model a) options response).

Definition smallest_probability : float := float_of_decimal 1 (-12).

(** [ClmAdapter.predict]. *)
Fixpoint predict_questions (a : ClmAdapter) (context : string) (questions : list TypedQuestion)
    (deadline : option float) (output : gmap string (list float)) : io W (gmap string (list float)) :=
  match questions with
  | [] => mret output
  | q :: qs =>
      probabilities ← rank a context (q_id q) (q_options q) deadline;
      predict_questions a context qs deadline
        (<[q_id q := map (fun v => log (fmax v smallest_probability)) probabilities]> output)
  end.

Definition predict (a : ClmAdapter) (state : CompiledState) (questions : list TypedQuestion)
    (deadline : option float) : io W (gmap string (list float)) :=
  context ← lift (clm_context state);
  predict_questions a context questions deadline ∅.

Definition rank_actions (a : ClmAdapter) (state : CompiledState) (candidate_ids : list string)
    (deadline : option float) : io W (list float) :=
  context ← lift (clm_context state);
  rank a context "NEXT_ACTION" candidate_ids deadline.

Definition rank_text (a : ClmAdapter) (context question : string) (options : list string)
    (deadline : option float) : io W (list float) :=
  _ ← lift (raise_if (negb (nonempty context) || Z.ltb MAX_CONTEXT_BYTES (len (utf8 context)))
              ValueError "CLM context must be nonempty and bounded");
  _ ← lift (raise_if (negb (nonempty question) || Z.ltb 1024 (len question))
              ValueError "CLM question must be nonempty and bounded");
  rank a context question options deadline.

(** The adapter as the fast path sees it. *)
Definition clm_inference_adapter (a : ClmAdapter) : InferenceAdapter W :=
  mkAdapter (clm_model_id a) (clm_revision a) "clm" (predict a) (rank_actions a).
End adapter.

(** ** The ranking is read completely *)

Lemma ranking_step_ok options ps item ps' :
  ranking_step options ps item = Ok ps' ->
  exists c x, ps' = (ps ++ [(c, x)])%list /\ c ∈ options /\ c ∉ map fst ps
  /\ isfinite x = true /\ within_unit x = true.
Proof.
  unfold ranking_step. destruct item as [| | | | | |kvs]; try done.
  destruct (assoc "candidate" kvs) as [[| | | |c| |]|]; try done.
  destruct (bool_decide_reflect (c ∈ options)); cbn [negb orb]; [|done].
  destruct (bool_decide_reflect (c ∈ map fst ps)); [done|]. intros H.
  apply bind_ok in H as (p & Hp & H). destruct p as [x|]; [|done]. injection H as <-.
  exists c, x. split; [done|]. split; [done|]. split; [done|].
  unfold probability_of in Hp. destruct (assoc "prob" kvs) as [[| |m|y| | |]|]; try done.
  - apply bind_ok in Hp as (y & Hy & Hp). unfold int_to_float in Hy.
    destruct (isfinite (float_of_Z m)) eqn:Ef; [|done]. injection Hy as <-.
    destruct (Z.leb_spec 0 m); [|done]. destruct (Z.leb_spec m 1); [|done].
    cbn [andb] in Hp. injection Hp as <-. split; [done|].
    assert (m = 0 \/ m = 1)%Z as [->| ->] by lia; reflexivity.
  - destruct (isfinite y) eqn:Ef; [|done]. destruct (within_unit y) eqn:Eu; [|done].
    cbn [andb] in Hp. injection Hp as <-. done.
Qed.

Lemma ranking_loop options items ps ps' :
  NoDup (map fst ps) -> map fst ps ⊆ options ->
  Forall (fun p => isfinite (snd p) = true /\ within_unit (snd p) = true) ps ->
  foldR (ranking_step options) ps items = Ok ps' ->
  NoDup (map fst ps') /\ map fst ps' ⊆ options /\ length ps' = length ps + length items
  /\ Forall (fun p => isfinite (snd p) = true /\ within_unit (snd p) = true) ps'.
Proof.
  revert ps; induction items as [|item items IH]; intros ps Hnd Hsub Hps H; cbn [foldR] in H.
  - injection H as <-. split; [done|]. split; [done|]. split; [simpl; lia|done].
  - apply bind_ok in H as (ps1 & H1 & H). apply ranking_step_ok in H1 as (c & x & -> & Hc & Hn & Hf & Hu).
    apply IH in H.
    + destruct H as (H1 & H2 & H3 & H4). split; [done|]. split; [done|]. split; [|done].
      rewrite H3, length_app. simpl. lia.
    + rewrite map_app. apply NoDup_app. split; [done|]. split; [set_solver|]. apply NoDup_singleton.
    + rewrite map_app. set_solver.
    + apply Forall_app. split; [done|]. by repeat constructor.
Qed.

Lemma assoc_elem {V} k (l : list (string * V)) : k ∈ map fst l -> exists v, assoc k l = Some v /\ (k, v) ∈ l.
Proof.
  induction l as [|[k' v] l IH]; [set_solver|]. cbn [map fst assoc].
  intros [->|H]%elem_of_cons.
  - rewrite String.eqb_refl. exists v. split; [done|left].
  - destruct (String.eqb_spec k k') as [->|]; [exists v; split; [done|left]|].
    destruct (IH H) as (v' & Hv & Hin). exists v'. split; [done|by right].
Qed.

(** The total that passed the bounds is a positive finite number. *)
Lemma total_positive total : fle total_low total = true -> exists m e, total = SpecFloat.S754_finite false m e \/ total = finf.
Proof.
  intros H. assert (exists m e, total_low = SpecFloat.S754_finite false m e) as (ml & el & El)
    by (do 2 eexists; vm_compute; reflexivity).
  rewrite El in H. destruct total as [[]|[]| |[] m e]; try discriminate H; eauto.
  Unshelve. all: exact xH || exact 0%Z.
Qed.

Lemma read_ranking_ok served options response ps :
  NoDup options -> read_ranking served options response = Ok ps ->
  exists probabilities,
    assoc "model" response = Some (JStr served)
    /\ Permutation (map fst probabilities) options
    /\ Forall (fun p => isfinite (snd p) = true /\ within_unit (snd p) = true) probabilities
    /\ fle total_low (fsum (map snd probabilities)) = true
    /\ fle (fsum (map snd probabilities)) total_high = true
    /\ Forall2 (fun option p => exists x, (option, x) ∈ probabilities
                   /\ fdiv x (fsum (map snd probabilities)) = Ok p) options ps.
Proof.
  intros Hnd. unfold read_ranking.
  destruct (match assoc "model" response with Some _ => _ | None => _ end) eqn:Em; cbn [negb]; [|done].
  assert (assoc "model" response = Some (JStr served)) as Hm.
  { destruct (assoc "model" response) as [[| | | |m| |]|]; try discriminate Em.
    apply String.eqb_eq in Em. by subst m. }
  destruct (assoc "ranked" response) as [[| | | | |ranked|]|]; try done.
  destruct (Z.eqb_spec (lenZ ranked) (lenZ options)) as [Hl|]; cbn [negb]; [|done].
  intros H. apply bind_ok in H as (pr & Hpr & H). cbv zeta in H.
  apply ranking_loop in Hpr as (H1 & H2 & H3 & H4); [|constructor|apply list_subseteq_nil|constructor].
  destruct (fle total_low _) eqn:E1; [|done]. destruct (fle _ total_high) eqn:E2; [|done].
  cbn [negb andb] in H. exists pr. split; [done|].
  assert (Hperm : Permutation (map fst pr) options).
  { apply submseteq_length_Permutation; [by apply NoDup_submseteq|].
    rewrite length_map, H3. unfold lenZ in Hl. simpl. lia. }
  repeat (split; [done|]). apply mapR_ok in H.
  eapply Forall2_impl; [exact H|]. intros option p Hp. cbv beta in Hp.
  destruct (assoc option pr) as [x|] eqn:Ea; [|done]. exists x. split; [|done].
  clear -Ea. induction pr as [|[k v] pr IH]; [done|]. cbn [assoc] in Ea.
  destruct (String.eqb_spec option k) as [->|]; [injection Ea as ->; left|right; auto].
Qed.

(** ** Properties *)

Lemma ranking_step_raises options ps item e :
  ranking_step options ps item = Raise e -> exn_class e = ValueError \/ exn_class e = OverflowError.
Proof.
  unfold ranking_step, bad_ranking, raise.
  destruct item as [| | | | | |kvs]; try (intros [= <-]; by left).
  destruct (assoc "candidate" kvs) as [[| | | |c| |]|]; try (intros [= <-]; by left).
  destruct (_ || _); [intros [= <-]; by left|].
  unfold probability_of, int_to_float, raise.
  destruct (assoc "prob" kvs) as [[| |m|y| | |]|]; simpl; try (intros [= <-]; by left).
  - destruct (isfinite (float_of_Z m)); simpl; [|intros [= <-]; by right].
    destruct (_ && _); simpl; [done|intros [= <-]; by left].
  - destruct (_ && _); simpl; [done|intros [= <-]; by left].
Qed.

Lemma fdiv_total x total : fle total_low total = true -> exists q, fdiv x total = Ok q.
Proof. intros H. apply total_positive in H as (m & e & [->| ->]); simpl; eauto. Qed.

(** A ranking is accepted whole or not at all.  For distinct options, a
    response that is read gives one score per option in the options' order: the
    reported probabilities are those of exactly these options, each in [0, 1], they
    come from the requested model, their sum lies in [0.98, 1.02], and every score is
    its option's probability over that sum.  Otherwise the only exceptions are
    ValueError and OverflowError: no option is ever missing (KeyError) and the
    division is never by zero. *)
Theorem ranking_all_or_nothing served options response (Hnd : NoDup options) :
  (forall ps, read_ranking served options response = Ok ps ->
     length ps = length options
     /\ exists probabilities,
        assoc "model" response = Some (JStr served)
        /\ Permutation (map fst probabilities) options
        /\ Forall (fun p => isfinite (snd p) = true /\ within_unit (snd p) = true) probabilities
        /\ fle total_low (fsum (map snd probabilities)) = true
        /\ fle (fsum (map snd probabilities)) total_high = true
        /\ Forall2 (fun option p => exists x, (option, x) ∈ probabilities
                      /\ fdiv x (fsum (map snd probabilities)) = Ok p) options ps)
  /\ (forall e, read_ranking served options response = Raise e ->
        exn_class e = ValueError \/ exn_class e = OverflowError).
Proof.
  split.
  - intros ps H. pose proof (read_ranking_ok _ _ _ _ Hnd H) as (pr & H1 & H2 & H3 & H4 & H5 & H6).
    split; [symmetry; by eapply Forall2_length|]. by exists pr.
  - intros e. unfold read_ranking. destruct (negb _); [intros [= <-]; by left|].
    destruct (assoc "ranked" response) as [[| | | | |ranked|]|]; try (intros [= <-]; by left).
    destruct (Z.eqb_spec (lenZ ranked) (lenZ options)) as [Hl|]; cbn [negb]; [|intros [= <-]; by left].
    destruct (foldR (ranking_step options) [] ranked) as [pr|e'] eqn:Ef; cbn [mbind result_bind].
    2:{ intros [= ->]. apply foldR_raise in Ef as (s & it & _ & Ef). by eapply ranking_step_raises. }
    pose proof (ranking_loop options ranked [] pr) as HL.
    destruct HL as (H1 & H2 & H3 & _); [constructor|apply list_subseteq_nil|constructor|done|].
    cbv zeta. destruct (fle total_low _) eqn:E1; [|intros [= <-]; by left].
    destruct (fle _ total_high) eqn:E2; [|intros [= <-]; by left]. cbn [negb andb].
    intros H. exfalso.
    assert (Hperm : Permutation (map fst pr) options).
    { apply submseteq_length_Permutation; [by apply NoDup_submseteq|].
      rewrite length_map, H3. unfold lenZ in Hl. simpl. lia. }
    apply mapR_raise in H as (o & Ho & H). rewrite <- Hperm in Ho.
    destruct (assoc_elem _ _ Ho) as (x & Hx & _). rewrite Hx in H.
    destruct (fdiv_total x _ E1) as [q Hq]. by rewrite Hq in H.
Qed.

Definition example_response : list (string * json) :=
  [("model", JStr "clm-latest");
   ("ranked", JArr [JObj [("candidate", JStr "b"); ("prob", JFloat (float_of_decimal 75 (-2)))];
                    JObj [("candidate", JStr "a"); ("prob", JFloat (float_of_decimal 25 (-2)))]])].

Lemma ranking_all_or_nothing_witness :
  read_ranking "clm-latest" ["a"; "b"] example_response
    = Ok [float_of_decimal 25 (-2); float_of_decimal 75 (-2)]
  /\ length [float_of_decimal 25 (-2); float_of_decimal 75 (-2)] = 2.
Proof.
  assert (read_ranking "clm-latest" ["a"; "b"] example_response
    = Ok [float_of_decimal 25 (-2); float_of_decimal 75 (-2)]) as H by (vm_compute; reflexivity).
  split; [exact H|].
  destruct (ranking_all_or_nothing "clm-latest" ["a"; "b"] example_response) as [Hok _].
  - apply (bool_decide_eq_true_1 _). reflexivity.
  - exact (proj1 (Hok _ H)).
Defined.

(** A probability sent as an integer beyond the range of floats raises
    OverflowError, which is no ValueError. *)
Lemma huge_integer_probability_overflows :
  exists m, read_ranking "m" ["a"]
    [("model", JStr "m"); ("ranked", JArr [JObj [("candidate", JStr "a"); ("prob", JInt (10 ^ 400))]])]
  = raise OverflowError m.
Proof. eexists. vm_compute. reflexivity. Qed.
