(* ===== verification/Inference.v ===== *)
(** * Stateless ranking requests ([c3r/system_one/inference.py])

    A request is validated completely ([check_request], [prepare_candidates],
    [prepare_questions]) before any provider call; a payload is a decoded JSON
    object. *)

From Stdlib Require Import Lia ZArith Ascii String Permutation Sorted.
From stdpp Require Import base option strings gmap list.
From S2P Require Import Prelude PyStr PySort PyFloat FloatRepr Json StateSchema SystemOne Invocations.
From S2P Require Import ClmAdapter.

Local Open Scope string_scope.

(** [_text(value, limit)]; [None] stands for an absent key, as [value.get]. *)
Definition text_of (v : option json) (limit : Z) : result string :=
  match v with
  | Some (JStr s) =>
      if negb (nonempty (strip s)) || Z.ltb limit (len s)
      then raise ValueError "nonempty bounded text required" else Ok s
  | _ => raise ValueError "nonempty bounded text required"
  end.

Definition mapping_of (v : option json) : result (list (string * json)) :=
  match v with Some (JObj kvs) => Ok kvs | _ => raise ValueError "object required" end.

Definition list_of (v : option json) : result (list json) :=
  match v with Some (JArr l) => Ok l | _ => raise ValueError "array required" end.

(** [value in {...}] for a set of strings: lists and dicts are unhashable. *)
Definition in_string_set (v : option json) (l : list string) : result bool :=
  match v with
  | Some (JStr s) => Ok (bool_decide (s ∈ l))
  | Some (JArr _) | Some (JObj _) => raise TypeError "unhashable type"
  | _ => Ok false
  end.

Definition keys_within (kvs : list (string * json)) (allowed : list string) : bool :=
  forallb (fun kv => bool_decide (fst kv ∈ allowed)) kvs.

Definition has_key (k : string) (kvs : list (string * json)) : bool :=
  match assoc k kvs with Some _ => true | None => false end.

(** ** Validation *)

Record checked_request : Type := mkChecked { ck_model : string; ck_context : string }.

(** The checks up to the choice between questions and candidates. *)
Definition check_request (payload : list (string * json)) : result checked_request :=
  _ ← raise_if (negb (keys_within payload ["model"; "state"; "questions"; "candidates"]))
        ValueError "unsupported System-One fields";
  let model := match assoc "model" payload with Some m => m | None => JStr "c3r-system-one" end in
  known ← in_string_set (Some model) ["c3r-system-one"; "c3r-verifier"];
  _ ← raise_if (negb known) ValueError "unsupported ranking model";
  context ← match assoc "state" payload with
            | Some (JObj kvs) => dumps context_options (JObj kvs)
            | v => text_of v 32768
            end;
  _ ← raise_if (Z.ltb 32768 (len (utf8 context))) ValueError "state too large";
  _ ← raise_if (Bool.eqb (has_key "questions" payload) (has_key "candidates" payload)) ValueError
        "provide either questions or candidates";
  Ok (mkChecked (py_str model) context).

Definition prepare_candidates (payload : list (string * json)) : result (list string) :=
  raw ← list_of (assoc "candidates" payload);
  _ ← raise_if (negb (Z.leb 1 (lenZ raw) && Z.leb (lenZ raw) 64)) ValueError
        "candidate count out of bounds";
  options ← mapR (fun o => text_of (Some o) 1024) raw;
  _ ← raise_if (negb (bool_decide (NoDup options))) ValueError "candidates must be unique";
  Ok options.

Record prepared_question : Type := mkPrepared {
  pq_name : string; pq_kind : string; pq_prompt : string; pq_keys : list string;
  pq_options : list string }.

(** [value.get("options", value.get("criteria"))]. *)
Definition raw_options (value : list (string * json)) : option json :=
  match assoc "options" value with Some v => Some v | None => assoc "criteria" value end.

Definition is_none (v : option json) : bool :=
  match v with None | Some JNull => true | _ => false end.

Definition is_kind (v : option json) (k : string) : bool :=
  match v with Some (JStr s) => String.eqb s k | _ => false end.

Definition count_bounds {A} (l : list A) : bool := Z.leb 2 (lenZ l) && Z.leb (lenZ l) 64.

(** Keys and options of one question by its kind. *)
Definition question_options (kind raw : option json) (prompt : string)
    : result (string * list string * list string) :=
  if is_kind kind "choice" then
    kvs ← mapping_of raw;
    _ ← raise_if (negb (count_bounds kvs)) ValueError "choice requires option descriptions";
    keys ← mapR (fun kv => text_of (Some (JStr (fst kv))) 128) kvs;
    options ← mapR (fun kv => text_of (Some (snd kv)) 1024) kvs;
    Ok ("choice", keys, options)
  else
    boolean ← in_string_set kind ["boolean"; "noul"];
    if (boolean : bool) then
      let name := match kind with Some (JStr s) => s | _ => "" end in
      if is_none raw
      then Ok (name, ["false"; "true"],
               ["false: No. This is false: " ++ prompt; "true: Yes. This is true: " ++ prompt])
      else
        kvs ← mapping_of raw;
        _ ← raise_if (negb (keys_within kvs ["false"; "true"] && has_key "false" kvs && has_key "true" kvs))
              ValueError "boolean criteria require false and true";
        options ← mapR (fun k => text_of (assoc k kvs) 1024) ["false"; "true"];
        Ok (name, ["false"; "true"], options)
    else if is_kind kind "score" then
      l ← list_of raw;
      _ ← raise_if (negb (count_bounds l)) ValueError "score requires ordered levels";
      options ← mapR (fun o => text_of (Some o) 1024) l;
      Ok ("score", map (fun i => str_of_Z (Z.of_nat i)) (seq 0 (length options)), options)
    else raise ValueError "unsupported question type".

Definition prepare_question (q : string * json) : result prepared_question :=
  name ← text_of (Some (JStr (fst q))) 128;
  value ← mapping_of (Some (snd q));
  _ ← raise_if (negb (keys_within value ["type"; "options"; "criteria"; "instructions"])) ValueError
        "invalid question";
  prompt ← text_of (match assoc "instructions" value with Some v => Some v | None => Some (JStr name) end)
             1024;
  _ ← raise_if (has_key "options" value && has_key "criteria" value) ValueError "ambiguous options";
  r ← question_options (assoc "type" value) (raw_options value) prompt;
  let '(kind, keys, options) := r in
  _ ← raise_if (negb (bool_decide (NoDup options)) || existsb (fun o => Z.ltb 1024 (len o)) options)
        ValueError "options must be unique and bounded";
  Ok (mkPrepared name kind prompt keys options).

Definition prepare_questions (payload : list (string * json)) : result (list prepared_question) :=
  questions ← mapping_of (assoc "questions" payload);
  _ ← raise_if (negb (Z.leb 1 (lenZ questions) && Z.leb (lenZ questions) 16)) ValueError
        "question count out of bounds";
  prepared ← mapR prepare_question questions;
  _ ← raise_if (Z.ltb 64 (sumZ (map (fun q => lenZ (pq_options q)) prepared))) ValueError
        "total options exceeds budget";
  Ok prepared.

(** ** Execution *)

Definition base_result (model : string) : list (string * json) :=
  [("model", JStr model); ("provider", JStr "clm"); ("calibrated", JBool false);
   ("effect_executed", JBool false); ("scope", JStr "advisory_only")].

(** [sorted(zip(options, scores), key=score, reverse=True)]. *)
Definition rank_pairs (options : list string) (scores : list float) : list (string * float) :=
  rev (sorted_by (fun a b => flt (snd a) (snd b)) (rev (zip options scores))).

Definition ranked_json (options : list string) (scores : list float) : json :=
  JArr (map (fun p => JObj [("candidate", JStr (fst p)); ("score", JFloat (snd p))])
          (rank_pairs options scores)).

(** [sum(index * score for index, score in enumerate(scores))]. *)
Definition expected_level (scores : list float) : float :=
  fsum (map (fun iv => fmul (float_of_Z (Z.of_nat (fst iv))) (snd iv))
          (zip (seq 0 (length scores)) scores)).

Definition answer_json (q : prepared_question) (scores : list float) : result json :=
  let base := ("scores", JObj (dict_of_pairs (zip (pq_keys q) (map JFloat scores)))) in
  if String.eqb (pq_kind q) "choice" then
    best ← argmax scores;
    match pq_keys q !! best with
    | Some k => Ok (JObj [base; ("choice", JStr k)])
    | None => raise IndexError "tuple index out of range"
    end
  else if bool_decide (pq_kind q ∈ ["boolean"; "noul"]) then
    match scores !! 1 with
    | Some s => Ok (JObj [base; ("score", JFloat s)])
    | None => raise IndexError "tuple index out of range"
    end
  else Ok (JObj [base; ("score", JFloat (expected_level scores))]).

Section inference.
Context {W : Type} `{!HasCounts W} (monotonic : io W float)
  (transport : ClmAdapter -> list (string * json) -> float -> io W (list (string * json)))
  (adapter : ClmAdapter).

(** [SystemOneInference._rank]. *)
Definition guarded_rank (context question : string) (options : list string) (deadline : float)
    : io W (list float) :=
  io_try (rank_text monotonic transport adapter context question options (Some deadline))
    [OSError; TypeError; ValueError; KeyError]
    (fun _ => lift (raise RuntimeError "CLM inference unavailable")).

Fixpoint answer_all (context : string) (deadline : float) (prepared : list prepared_question)
    (answers : list (string * json)) : io W (list (string * json)) :=
  match prepared with
  | [] => mret answers
  | q :: qs =>
      scores ← guarded_rank context (pq_prompt q) (pq_options q) deadline;
      answer ← lift (answer_json q scores);
      answer_all context deadline qs (dict_set (pq_name q) answer answers)
  end.

(** [SystemOneInference.infer]. *)
Definition infer (payload : list (string * json)) : io W json :=
  checked ← lift (check_request payload);
  now ← monotonic;
  let deadline := fadd now (clm_timeout_seconds adapter) in
  if has_key "candidates" payload then
    options ← lift (prepare_candidates payload);
    scores ← guarded_rank (ck_context checked) "NEXT_ACTION" options deadline;
    mret (JObj (base_result (ck_model checked) ++ [("ranked", ranked_json options scores)])%list)
  else
    prepared ← lift (prepare_questions payload);
    answers ← answer_all (ck_context checked) deadline prepared [];
    mret (JObj (base_result (ck_model checked) ++ [("answers", JObj answers)])%list).

(** [SystemOneInference.ready], the host's probe as a computation. *)
Definition ready (readiness : option (io W bool)) : io W bool :=
  match readiness with
  | None => mret false
  | Some probe => io_try probe [OSError; RuntimeError; ValueError; TypeError] (fun _ => mret false)
  end.
End inference.

(** What the request must satisfy, as one pure check. *)
Definition validate (payload : list (string * json)) : result unit :=
  _ ← check_request payload;
  if has_key "candidates" payload then _ ← prepare_candidates payload; Ok tt
  else _ ← prepare_questions payload; Ok tt.

(** ** Prepared questions *)

Definition well_prepared (q : prepared_question) : Prop :=
  length (pq_keys q) = length (pq_options q) /\ (2 <= length (pq_options q) <= 64)%nat
  /\ NoDup (pq_options q) /\ pq_kind q ∈ ["choice"; "boolean"; "noul"; "score"].

Lemma mapR_len {A B} (f : A -> result B) l ys : mapR f l = Ok ys -> length ys = length l.
Proof. intros H. apply mapR_ok in H. symmetry. by eapply Forall2_length. Qed.

Lemma count_bounds_len {A} (l : list A) : count_bounds l = true -> (2 <= length l <= 64)%nat.
Proof.
  unfold count_bounds, lenZ. intros H. apply andb_true_iff in H as [H1 H2].
  apply Z.leb_le in H1, H2. lia.
Qed.

Lemma question_options_ok kind raw prompt k keys options :
  question_options kind raw prompt = Ok (k, keys, options) ->
  length keys = length options /\ (2 <= length options <= 64)%nat
  /\ k ∈ ["choice"; "boolean"; "noul"; "score"].
Proof.
  unfold question_options. destruct (is_kind kind "choice") eqn:Ek.
  - intros H. result_inv. apply negb_false_iff, count_bounds_len in Ha0.
    apply mapR_len in Ha1, Ha2. split; [lia|]. split; [lia|]. left.
  - intros H. apply bind_ok in H as (b & Hb & H). destruct b.
    + unfold in_string_set in Hb. destruct kind as [[| | | |s| |]|]; try done.
      injection Hb as Hb. apply bool_decide_eq_true in Hb.
      assert (Hs : s ∈ ["choice"; "boolean"; "noul"; "score"]) by set_solver.
      destruct (is_none raw).
      * injection H as <- <- <-. simpl. split; [done|]. split; [lia|done].
      * result_inv. apply mapR_len in Ha1. simpl in *.
        split; [done|]. split; [lia|done].
    + destruct (is_kind kind "score"); [|done]. result_inv.
      apply negb_false_iff, count_bounds_len in Ha0.
      apply mapR_len in Ha1. rewrite length_map, length_seq. split; [done|]. split; [lia|]. set_solver.
Qed.

Lemma prepare_question_ok q p : prepare_question q = Ok p -> well_prepared p.
Proof.
  unfold prepare_question. intros H. result_inv. 
  match goal with Hq : question_options _ _ _ = Ok ?r |- _ =>
    destruct r as [[k keys] options]; apply question_options_ok in Hq as (H1 & H2 & H3) end.
  result_inv.
  match goal with Hn : negb (bool_decide (NoDup _)) || _ = false |- _ =>
    apply orb_false_iff in Hn as [Hn _]; apply negb_false_iff, bool_decide_eq_true in Hn end.
  unfold well_prepared. cbn. split; [exact H1|]. split; [exact H2|]. split; [assumption|exact H3].
Qed.

Lemma prepare_questions_ok payload l : prepare_questions payload = Ok l ->
  (1 <= length l <= 16)%nat /\ Forall well_prepared l
  /\ (sumZ (map (fun q => lenZ (pq_options q)) l) <= 64)%Z.
Proof.
  unfold prepare_questions. intros H. result_inv.
  apply negb_false_iff, andb_true_iff in Ha0 as [H1 H2]. apply Z.leb_le in H1, H2.
  pose proof (mapR_len _ _ _ Ha1) as Hl. apply Z.ltb_ge in Ha2. unfold lenZ in H1, H2.
  split; [lia|]. split; [|done].
  apply mapR_ok in Ha1. clear -Ha1. induction Ha1; constructor; eauto using prepare_question_ok.
Qed.

Lemma prepare_candidates_ok payload l : prepare_candidates payload = Ok l ->
  (1 <= length l <= 64)%nat /\ NoDup l.
Proof.
  unfold prepare_candidates. intros H. result_inv.
  apply negb_false_iff, andb_true_iff in Ha0 as [H1 H2]. apply Z.leb_le in H1, H2.
  apply negb_false_iff, bool_decide_eq_true in Ha2. apply mapR_len in Ha1. unfold lenZ in *.
  split; [lia|done].
Qed.

Lemma answer_json_ok q scores :
  well_prepared q -> length scores = length (pq_options q) -> exists j, answer_json q scores = Ok j.
Proof.
  intros (Hk & Hn & _ & _) Hs. unfold answer_json.
  destruct (String.eqb (pq_kind q) "choice").
  - destruct (argmax scores) as [best|e] eqn:Eb.
    + apply argmax_ok in Eb as [x Hx]. cbn [mbind result_bind].
      destruct (pq_keys q !! best) eqn:El; [eauto|].
      apply lookup_ge_None in El. apply lookup_lt_Some in Hx. lia.
    + destruct scores; [simpl in Hs; lia|done].
  - destruct (bool_decide _); [|eauto]. destruct scores as [|a [|b s]]; simpl in *; [lia|lia|eauto].
Qed.

(** ** Provider calls *)

Section calls.
Context {W : Type} `{!HasCounts W} (monotonic : io W float)
  (transport : ClmAdapter -> list (string * json) -> float -> io W (list (string * json)))
  (adapter : ClmAdapter).

Definition provider_errors : list exn_kind := [OSError; TypeError; ValueError; KeyError].

Lemma guarded_rank_raises context question options deadline w e w' :
  guarded_rank monotonic transport adapter context question options deadline w = (Raise e, w') ->
  caught_by provider_errors (exn_class e) = false.
Proof.
  unfold guarded_rank, io_try, provider_errors.
  destruct (rank_text _ _ _ _ _ _ _ _) as [[ps|e0] w0]; [done|].
  destruct (caught_by _ (exn_class e0)) eqn:Ec; [|by intros [= <- <-]].
  unfold lift, raise. by intros [= <- <-].
Qed.

Lemma guarded_rank_length context question options deadline w ps w' :
  NoDup options ->
  guarded_rank monotonic transport adapter context question options deadline w = (Ok ps, w') ->
  length ps = length options.
Proof.
  intros Hnd. unfold guarded_rank, io_try.
  destruct (rank_text _ _ _ _ _ _ _ _) as [[ps'|e0] w0] eqn:E.
  2:{ destruct (caught_by _ _); intros H; [unfold lift, raise in H|]; discriminate H. }
  intros H. injection H as -> ->. unfold rank_text, rank in E. io_inv.
  destruct (read_ranking_ok _ _ _ _ Hnd E) as (pr & _ & _ & _ & _ & _ & HF).
  symmetry. by eapply Forall2_length.
Qed.

Lemma answer_all_raises context deadline qs answers w e w' :
  Forall well_prepared qs ->
  answer_all monotonic transport adapter context deadline qs answers w = (Raise e, w') ->
  caught_by provider_errors (exn_class e) = false.
Proof.
  intros Hqs. revert answers w. induction Hqs as [|q qs Hq Hqs IH]; intros answers w H; [done|].
  cbn [answer_all] in H. unfold mbind, io_bind in H.
  destruct (guarded_rank _ _ _ _ _ _ _ _) as [[ps|e0] w0] eqn:E.
  - unfold lift in H. destruct (answer_json_ok q ps Hq) as [j Hj].
    { apply (guarded_rank_length _ _ _ _ _ _ _ (proj1 (proj2 (proj2 Hq))) E). }
    rewrite Hj in H. by eapply IH.
  - injection H as -> ->. by eapply guarded_rank_raises.
Qed.
End calls.

(** ** Properties *)

(** A request is validated before anything is sent.  When [infer] raises
    an OSError, TypeError, ValueError or KeyError and the clock does not fail, the
    pure validation raised that very exception and nothing but the clock was
    consulted: no transport attempt was counted and no provider call was made.  A
    valid request fails only with what the provider path lets through, and a result
    always declares itself uncalibrated, advisory and without effect. *)
Theorem infer_validates_first {W} `{!HasCounts W} monotonic transport adapter payload (w w' : W) out
    (Hclock : forall w0, exists t, monotonic w0 = (Ok t, w0))
    (H : infer monotonic transport adapter payload w = (out, w')) :
  (forall e, out = Raise e -> caught_by provider_errors (exn_class e) = true ->
     validate payload = Raise e /\ w' = w)
  /\ (forall e, validate payload = Raise e -> out = Raise e /\ w' = w)
  /\ (forall j, out = Ok j -> validate payload = Ok tt /\ exists kvs, j = JObj kvs
        /\ assoc "calibrated" kvs = Some (JBool false)
        /\ assoc "effect_executed" kvs = Some (JBool false)
        /\ assoc "scope" kvs = Some (JStr "advisory_only")).
Proof.
  unfold infer in H. unfold validate. unfold mbind at 1, io_bind at 1, lift at 1 in H.
  destruct (check_request payload) as [ck|e0]; cbn [mbind result_bind].
  2:{ injection H as <- <-. split; [by intros e [= <-]|]. split; [by intros e [= <-]|]. done. }
  destruct (Hclock w) as [t Ht]. unfold mbind at 1, io_bind at 1 in H. rewrite Ht in H.
  destruct (has_key "candidates" payload).
  - unfold mbind at 1, io_bind at 1, lift at 1 in H.
    destruct (prepare_candidates payload) as [options|e0]; cbn [mbind result_bind].
    2:{ injection H as <- <-. split; [by intros e [= <-]|]. split; [by intros e [= <-]|]. intros j Hj; discriminate Hj. }
    unfold mbind, io_bind in H.
    destruct (guarded_rank _ _ _ _ _ _ _ w) as [[ps|e0] w0] eqn:E.
    + injection H as <- <-. split; [done|]. split; [done|]. intros j [= <-]. split; [done|].
      eexists. split; [reflexivity|]. done.
    + injection H as <- <-. split; [|by split]. intros e [= <-] Hc.
      apply guarded_rank_raises in E. congruence.
  - unfold mbind at 1, io_bind at 1, lift at 1 in H.
    destruct (prepare_questions payload) as [qs|e0] eqn:Eq; cbn [mbind result_bind].
    2:{ injection H as <- <-. split; [by intros e [= <-]|]. split; [by intros e [= <-]|]. intros j Hj; discriminate Hj. }
    apply prepare_questions_ok in Eq as (_ & Hqs & _).
    unfold mbind, io_bind in H.
    destruct (answer_all _ _ _ _ _ _ _ w) as [[ans|e0] w0] eqn:E.
    + injection H as <- <-. split; [done|]. split; [done|]. intros j [= <-]. split; [done|].
      eexists. split; [reflexivity|]. done.
    + injection H as <- <-. split; [|by split]. intros e [= <-] Hc.
      apply answer_all_raises in E; [congruence|done].
Qed.

Definition example_clm : ClmAdapter :=
  mkClm "0123456789012345678901234567890123456789" "http://127.0.0.1:8700" None
    (float_of_decimal 5 (-1)) "Contrastive-LM/CLM" "clm-latest".

Definition example_payload : list (string * json) :=
  [("state", JStr "ctx"); ("candidates", JArr [JStr "a"; JStr "b"])].

Definition example_clock : io (option counts) float := fun w => (Ok fzero, w).

Definition example_transport (a : ClmAdapter) (p : list (string * json)) (t : float)
    : io (option counts) (list (string * json)) := mret example_response.

Lemma infer_validates_first_witness :
  exists j, infer example_clock example_transport example_clm example_payload (None : option counts)
      = (Ok j, None)
  /\ exists kvs, j = JObj kvs /\ assoc "calibrated" kvs = Some (JBool false).
Proof.
  destruct (infer example_clock example_transport example_clm example_payload (None : option counts))
    as [[j|e] w'] eqn:E; [|vm_compute in E; discriminate E].
  exists j. destruct (infer_validates_first example_clock example_transport example_clm example_payload
    None w' (Ok j)) as (_ & _ & Hok).
  - intros w0. exists fzero. reflexivity.
  - exact E.
  - destruct (Hok j eq_refl) as (_ & kvs & Hj & Hc & _). split.
    + f_equal. vm_compute in E. injection E as _ <-. reflexivity.
    + exists kvs. split; [exact Hj | exact Hc].
Defined.
