(* ===== verification/Controls.v ===== *)
(** * Host controls
    ([c3r/feature_flags.py], [c3r/colibri.py], [c3r/readiness.py])

    Feature flags that fail closed, the shadow controller whose
    recommendations carry no authority, and the cached readiness probe. *)

From Stdlib Require Import Lia ZArith Ascii String.
From stdpp Require Import base option strings gmap list.
From S2P Require Import Prelude PyStr PySort PyFloat FloatRepr Json.

Local Open Scope string_scope.

(** ** Feature flags *)

(** [_boolean(values, name, default)]. *)
Definition boolean_flag (values : gmap string string) (name : string) (default : bool) : result bool :=
  match values !! name with
  | None => Ok default
  | Some raw =>
      let normalized := lower (strip raw) in
      if bool_decide (normalized ∈ ["1"; "true"; "yes"; "on"]) then Ok true
      else if bool_decide (normalized ∈ ["0"; "false"; "no"; "off"]) then Ok false
      else raise ValueError (name ++ " must be an explicit boolean")
  end.

Record FeatureFlags : Type := mkFlags {
  enabled_requested : bool;
  system_one_requested : bool;
  deliberative_requested : bool;
  routing_requested : bool;
  speculation_requested : bool;
  moe_control_requested : bool;
  online_learning_requested : bool;
  system_one_provider : string }.

(** [FeatureFlags()]. *)
Definition default_flags : FeatureFlags := mkFlags false false false false false false false "clm".

Definition known_providers : list string := ["clm"; "laya"; "jev"; "rule"].

Definition flags_from_mapping (values : gmap string string) : result FeatureFlags :=
  enabled ← boolean_flag values "C3R_ENABLED" false;
  system_one ← boolean_flag values "C3R_SYSTEM_ONE" false;
  deliberative ← boolean_flag values "C3R_DELIBERATIVE" false;
  routing ← boolean_flag values "C3R_ROUTING" false;
  speculation ← boolean_flag values "C3R_SPECULATION" false;
  moe ← boolean_flag values "C3R_MOE_CONTROL" false;
  learning ← boolean_flag values "C3R_ONLINE_LEARNING" false;
  let provider := lower (strip (default "clm" (values !! "C3R_SYSTEM_ONE_PROVIDER"))) in
  let flags := mkFlags enabled system_one deliberative routing speculation moe learning provider in
  _ ← raise_if (negb (bool_decide (provider ∈ known_providers))) ValueError
        "C3R_SYSTEM_ONE_PROVIDER must be clm, laya, jev, or rule";
  _ ← raise_if learning ValueError "autonomous online learning is prohibited";
  Ok flags.

Definition system_one_enabled (f : FeatureFlags) : bool := enabled_requested f && system_one_requested f.
Definition deliberative_enabled (f : FeatureFlags) : bool := enabled_requested f && deliberative_requested f.
Definition routing_enabled (f : FeatureFlags) : bool := enabled_requested f && routing_requested f.
Definition speculation_enabled (f : FeatureFlags) : bool := enabled_requested f && speculation_requested f.
Definition moe_control_enabled (f : FeatureFlags) : bool := enabled_requested f && moe_control_requested f.

(** ** Colibri *)

Inductive ColibriAction : Type :=
  | TARGET_ONLY | DRAFT_2 | DRAFT_4 | DRAFT_8 | DRAFT_K | PAUSE_SPECULATION | RESUME_SPECULATION
  | PREFETCH | RETAIN_RESOURCE | NATIVE_FALLBACK.

Record ColibriSnapshot : Type := mkSnapshot {
  route_trace : string; coli_usage : float; dspark_acceptance : float; verification_width : Z;
  expert_union : Z; cache_residency : float; expert_hit_rate : float; bytes_read : Z;
  io_rate : float; cpu_utilization : float; gpu_utilization : float; context_length : Z }.

Definition proportion (x : float) : bool := isfinite x && fle fzero x && fle x fone.

(** [ColibriSnapshot.__post_init__]. *)
Definition make_snapshot (s : ColibriSnapshot) : result ColibriSnapshot :=
  if negb (forallb proportion [coli_usage s; dspark_acceptance s; cache_residency s;
                               expert_hit_rate s; cpu_utilization s; gpu_utilization s])
  then raise ValueError "Colibri proportions must be finite values from zero to one"
  else if Z.ltb (Z.min (Z.min (Z.min (verification_width s) (expert_union s)) (bytes_read s))
                       (context_length s)) 0
  then raise ValueError "Colibri counters cannot be negative"
  else if negb (isfinite (io_rate s)) || flt (io_rate s) fzero
  then raise ValueError "Colibri I/O rate must be finite and non-negative"
  else Ok s.

Record ColibriRecommendation : Type := mkRecommendation {
  co_action : ColibriAction; co_reason : string; co_route_trace : string; authoritative : bool }.

Record ColibriShadowController : Type := mkShadow {
  minimum_acceptance : float; high_cache_residency : float }.

Definition make_shadow (acceptance residency : float) : result ColibriShadowController :=
  if negb (fle fzero acceptance && fle acceptance fone)
  then raise ValueError "minimum_acceptance must be between zero and one"
  else if negb (fle fzero residency && fle residency fone)
  then raise ValueError "high_cache_residency must be between zero and one"
  else Ok (mkShadow acceptance residency).

Definition low_hit_rate : float := float_of_decimal 5 (-1).

Definition recommend (c : ColibriShadowController) (s : ColibriSnapshot) : ColibriRecommendation :=
  let '(action, reason) :=
    if flt (dspark_acceptance s) (minimum_acceptance c)
    then (TARGET_ONLY, "native draft acceptance is below the shadow release threshold")
    else if fge (cache_residency s) (high_cache_residency c)
    then (DRAFT_4, "native acceptance and cache residency support bounded speculation")
    else if flt (expert_hit_rate s) low_hit_rate
    then (PREFETCH, "expert hit rate is low; recommend advisory prefetch")
    else (DRAFT_2, "use conservative bounded speculation in shadow mode") in
  mkRecommendation action reason (route_trace s) false.

Definition colibri_fallback (reason : string) : ColibriRecommendation :=
  mkRecommendation NATIVE_FALLBACK ("native Colibri behavior retained: " ++ reason) "unavailable" false.

(** ** Cached readiness

    The cell of the probe; a call holds the lock throughout. *)
Record CachedReadiness : Type := mkReadiness { cr_ttl : float; cr_value : bool; cr_expires : float }.

Definition make_readiness (ttl : float) : result CachedReadiness :=
  if negb (flt fzero ttl && fle ttl (float_of_Z 30))
  then raise ValueError "readiness TTL must be between zero and 30 seconds"
  else Ok (mkReadiness ttl false fninf).

(** [CachedReadiness.__call__] over a world with a clock and a probe: the value
    and the cell after the call; an exception of the clock or one the handler
    does not name leaves the cell as it was. *)
Definition call_readiness {W} (clock : io W float) (probe : io W bool) (c : CachedReadiness)
    : W -> result bool * CachedReadiness * W := fun w =>
  match clock w with
  | (Raise e, w1) => (Raise e, c, w1)
  | (Ok now, w1) =>
      if flt now (cr_expires c) then (Ok (cr_value c), c, w1)
      else
        match io_try probe [OSError; RuntimeError; ValueError; TypeError; KeyError]
                (fun _ => mret false) w1 with
        | (Raise e, w2) => (Raise e, c, w2)
        | (Ok v, w2) =>
            match clock w2 with
            | (Raise e, w3) => (Raise e, mkReadiness (cr_ttl c) v (cr_expires c), w3)
            | (Ok later, w3) =>
                (Ok v, mkReadiness (cr_ttl c) v (fadd later (cr_ttl c)), w3)
            end
        end
  end.

(** ** Lemmas *)

Lemma boolean_flag_explicit values name b :
  boolean_flag values name false = Ok b ->
  b = true -> exists raw, values !! name = Some raw /\ lower (strip raw) ∈ ["1"; "true"; "yes"; "on"].
Proof.
  unfold boolean_flag. destruct (values !! name) as [raw|]; [|by intros [= <-]].
  cbv zeta. destruct (bool_decide_reflect (lower (strip raw) ∈ ["1"; "true"; "yes"; "on"])) as [H|H]; [by eauto|].
  destruct (bool_decide (lower (strip raw) ∈ ["0"; "false"; "no"; "off"])); [by intros [= <-]|done].
Qed.

Lemma boolean_flag_cases values name d :
  (exists b, boolean_flag values name d = Ok b)
  \/ (exists raw, values !! name = Some raw
      /\ boolean_flag values name d = raise ValueError (name ++ " must be an explicit boolean")).
Proof.
  unfold boolean_flag. destruct (values !! name) as [raw|]; [|left; eauto].
  cbv zeta. destruct (bool_decide _); [left; eauto|]. destruct (bool_decide _); [left; eauto|].
  right. eauto.
Qed.

(** ** Properties *)

(** The environment variable that switches a control surface on. *)
Definition surface_variables : list (string * (FeatureFlags -> bool)) :=
  [("C3R_SYSTEM_ONE", system_one_enabled); ("C3R_DELIBERATIVE", deliberative_enabled);
   ("C3R_ROUTING", routing_enabled); ("C3R_SPECULATION", speculation_enabled);
   ("C3R_MOE_CONTROL", moe_control_enabled)].

(** Flags fail closed.  Whenever parsing succeeds, online learning is off,
    the provider is a known one, and every control surface that is enabled was
    switched on by an explicit affirmative value of its own variable and of
    C3R_ENABLED; parsing raises nothing but ValueError, and the empty environment
    gives the all-off defaults. *)
Theorem flags_fail_closed values :
  (forall f, flags_from_mapping values = Ok f ->
     online_learning_requested f = false /\ system_one_provider f ∈ known_providers
     /\ forall variable surface, (variable, surface) ∈ surface_variables -> surface f = true ->
          forall name, name ∈ ["C3R_ENABLED"; variable] ->
          exists raw, values !! name = Some raw /\ lower (strip raw) ∈ ["1"; "true"; "yes"; "on"])
  /\ (forall e, flags_from_mapping values = Raise e -> exn_class e = ValueError)
  /\ flags_from_mapping ∅ = Ok default_flags.
Proof.
  split; [|split; [|reflexivity]].
  - intros f H. unfold flags_from_mapping in H.
    apply bind_ok in H as (b1 & H1 & H). apply bind_ok in H as (b2 & H2 & H).
    apply bind_ok in H as (b3 & H3 & H). apply bind_ok in H as (b4 & H4 & H).
    apply bind_ok in H as (b5 & H5 & H). apply bind_ok in H as (b6 & H6 & H).
    apply bind_ok in H as (b7 & H7 & H). cbv zeta in H.
    apply bind_ok in H as (u & Hp & H). apply bind_ok in H as (u' & Hl & H).
    apply raise_if_ok in Hp, Hl. apply negb_false_iff, bool_decide_eq_true in Hp.
    injection H as <-. cbn. split; [done|]. split; [done|].
    intros variable surface Hin Hs.
    assert (Hen : b1 = true -> forall raw, raw = "C3R_ENABLED" -> exists r, values !! raw = Some r
      /\ lower (strip r) ∈ ["1"; "true"; "yes"; "on"])
      by (intros -> ? ->; by apply (boolean_flag_explicit _ _ _ H1)).
    unfold surface_variables in Hin.
    repeat (apply elem_of_cons in Hin as [Heq|Hin];
      [injection Heq as -> ->; unfold system_one_enabled, deliberative_enabled, routing_enabled,
         speculation_enabled, moe_control_enabled in Hs; cbn in Hs; apply andb_true_iff in Hs as [Ha Hb];
       intros name Hname; apply elem_of_cons in Hname as [->|Hname]; [by apply Hen|];
       apply list_elem_of_singleton in Hname as ->; subst;
       by (apply (boolean_flag_explicit _ _ _ H2) || apply (boolean_flag_explicit _ _ _ H3)
           || apply (boolean_flag_explicit _ _ _ H4) || apply (boolean_flag_explicit _ _ _ H5)
           || apply (boolean_flag_explicit _ _ _ H6)) |]).
    by apply elem_of_nil in Hin.
  - intros e. unfold flags_from_mapping.
    repeat match goal with |- context [boolean_flag values ?n ?d] =>
      destruct (boolean_flag_cases values n d) as [[? ->]|(? & _ & ->)];
      cbn [mbind result_bind]; [|by intros [= <-]] end.
    cbv zeta. destruct (negb _); [by intros [= <-]|]. unfold raise_if at 1. cbn [mbind result_bind].
    destruct x5; cbn; [by intros [= <-]|done].
Qed.

(** Colibri's recommendations are never authoritative, and a recommendation to
    speculate needs the acceptance threshold. *)
Theorem colibri_shadow_only c s reason :
  authoritative (recommend c s) = false /\ authoritative (colibri_fallback reason) = false
  /\ co_route_trace (recommend c s) = route_trace s
  /\ (co_action (recommend c s) = TARGET_ONLY <-> flt (dspark_acceptance s) (minimum_acceptance c) = true)
  /\ co_action (recommend c s) ∈ [TARGET_ONLY; DRAFT_2; DRAFT_4; PREFETCH].
Proof.
  unfold recommend.
  destruct (flt (dspark_acceptance s) (minimum_acceptance c)),
    (fge (cache_residency s) (high_cache_residency c)), (flt (expert_hit_rate s) low_hit_rate);
    cbn [co_action co_route_trace authoritative]; rewrite list_elem_of_In; cbn [In]; intuition done.
Qed.

(** The cached readiness calls its probe at most once per call, returns the
    cached value without probing before the expiry, and treats a probe that
    fails with a handled exception as not ready. *)
Theorem readiness_cached {W} clock probe c (w : W) now w1
    (Hc : clock w = (Ok now, w1)) :
  (flt now (cr_expires c) = true -> call_readiness clock probe c w = (Ok (cr_value c), c, w1))
  /\ (flt now (cr_expires c) = false ->
      forall e w2, probe w1 = (Raise e, w2) ->
        caught_by [OSError; RuntimeError; ValueError; TypeError; KeyError] (exn_class e) = true ->
        forall later w3, clock w2 = (Ok later, w3) ->
        call_readiness clock probe c w
        = (Ok false, mkReadiness (cr_ttl c) false (fadd later (cr_ttl c)), w3)).
Proof.
  unfold call_readiness. rewrite Hc. split.
  - by intros ->.
  - intros -> e w2 Hp Hcaught later w3 Hl. unfold io_try. rewrite Hp, Hcaught. cbn. by rewrite Hl.
Qed.
