(* ===== verification/Providers.v ===== *)
(** * Deliberative provider adapters
    ([c3r/adapters/providers.py], [c3r/deliberative/provider_bridge.py],
    [c3r/deliberative/defaults.py], [c3r/system_prompt.py])

    Requests to and replies from the generative providers: endpoint checks, the
    three codecs, structured deliberation, bounded text generation, and the
    reader of an event stream.  The HTTP exchange, [urllib.parse.urlparse], the
    decoding of a byte line and the prompt resource file are parameters. *)

From Stdlib Require Import Lia ZArith Ascii String.
From stdpp Require Import base option strings gmap list.
From S2P Require Import PyNumber.
From S2P Require Import Prelude PyStr PySort PyFloat FloatRepr Json StateSchema SystemOne Invocations.
From S2P Require Import ClmAdapter.

Local Open Scope string_scope.

Definition MAX_RESPONSE_BYTES : Z := 65536.
Definition MAX_ARRAY_ITEMS : Z := 32.
Definition MAX_ITEM_CHARS : Z := 2048.
Definition MAX_STRUCTURED_CHARS : Z := 32768.

Inductive ProviderKind : Type := OPENAI | ANTHROPIC | GEMINI | OPENAI_COMPATIBLE.

Global Instance ProviderKind_eq_dec : EqDecision ProviderKind.
Proof. solve_decision. Defined.

Record ProviderConfig : Type := mkProvider {
  provider_id : string;
  kind : ProviderKind;
  base_url : string;
  model : string;
  api_key : option string;
  timeout_seconds : float }.

Definition default_timeout : float := float_of_Z 60.

(** [s.rstrip("/")]. *)
Fixpoint rstrip_slash (s : string) : string :=
  match s with
  | EmptyString => EmptyString
  | String c s' =>
      match rstrip_slash s' with
      | EmptyString => if Ascii.eqb c "/" then EmptyString else String c EmptyString
      | r => String c r
      end
  end.

Definition local_host (u : split_url) : bool :=
  bool_decide (u_hostname u ∈ [Some "localhost"; Some "127.0.0.1"; Some "::1"]).

(** Truth of an optional string. *)
Definition truthy (v : option string) : bool :=
  match v with Some s => nonempty s | None => false end.

Section config.
Context (urlparse : string -> result split_url).

(** [ProviderConfig.__post_init__]. *)
Definition make_provider (c : ProviderConfig) : result ProviderConfig :=
  parsed ← urlparse (base_url c);
  if negb (String.eqb (u_scheme parsed) "https")
     && negb (String.eqb (u_scheme parsed) "http" && local_host parsed)
  then raise ValueError "remote provider endpoints must use HTTPS"
  else if truthy (u_username parsed) || truthy (u_password parsed)
          || nonempty (u_query parsed) || nonempty (u_fragment parsed)
  then raise ValueError "provider origin must not contain credentials, query, or fragment"
  else if negb (nonempty (provider_id c)) || negb (nonempty (model c))
  then raise ValueError "provider_id and model are required"
  else if negb (isfinite (timeout_seconds c))
          || negb (flt fzero (timeout_seconds c) && fle (timeout_seconds c) (float_of_Z 120))
  then raise ValueError "timeout_seconds must be positive"
  else Ok c.

Definition is_local (c : ProviderConfig) : result bool :=
  parsed ← urlparse (base_url c); Ok (local_host parsed).

Definition uses_openrouter (c : ProviderConfig) : bool :=
  String.eqb (rstrip_slash (base_url c)) "https://openrouter.ai/api/v1".

(** [default_provider_config]. *)
Definition default_provider_config (key : option string) (gateway : string) : result ProviderConfig :=
  if String.eqb gateway "self_hosted"
  then make_provider (mkProvider "deepseek-local" OPENAI_COMPATIBLE "http://127.0.0.1:8000/v1"
                        "/model" None default_timeout)
  else if negb (bool_decide (gateway ∈ ["openrouter"; "deepseek"]))
  then raise ValueError "unknown gateway"
  else if negb (truthy key) then raise ValueError "api_key is required"
  else if String.eqb gateway "deepseek"
  then make_provider (mkProvider "deepseek" OPENAI_COMPATIBLE "https://api.deepseek.com"
                        "deepseek-flash" key default_timeout)
  else make_provider (mkProvider "openrouter-deepseek" OPENAI_COMPATIBLE
                        "https://openrouter.ai/api/v1" "deepseek/deepseek-v4.1-flash" key
                        default_timeout).
End config.

Record TransportResponse : Type := mkResponse {
  status : Z; body : list (string * json); latency_ms : float }.

Record DeliberativeResult : Type := mkDeliberation {
  plan : list string; assumptions : list string; uncertainty : list string;
  candidate_commitments : list string; requested_actions : list string }.

Record ProviderExecutionResult : Type := mkExecution {
  deliberation : DeliberativeResult;
  observed_cost : list (string * float);
  er_provider_id : string;
  er_model_id : string }.

Record ControlledDeliberation : Type := mkControlled {
  cd_result : option ProviderExecutionResult;
  selected_action : ActionFamily;
  fallback_used : bool;
  failure_reason : option string }.

(** ** Access to decoded JSON, with Python's exceptions *)

(** [value[0]]. *)
Definition first_of (j : json) : result json :=
  match j with
  | JArr (x :: _) => Ok x
  | JArr [] => raise IndexError "list index out of range"
  | JStr (String c _) => Ok (JStr (String c EmptyString))
  | JStr EmptyString => raise IndexError "string index out of range"
  | JObj _ => raise KeyError "0"
  | _ => raise TypeError "object is not subscriptable"
  end.

(** Truth of [value.get(key)]. *)
Definition truth (v : option json) : bool :=
  match v with
  | None | Some JNull => false
  | Some (JBool b) => b
  | Some (JInt n) => negb (Z.eqb n 0)
  | Some (JFloat x) => negb (feq x fzero)
  | Some (JStr s) => nonempty s
  | Some (JArr l) => negb (bool_decide (length l = 0))
  | Some (JObj l) => negb (bool_decide (length l = 0))
  end.

Definition malformed {A} : result A :=
  raise TypeError "provider returned malformed or oversized structured deliberation".

(** [_number]. *)
Definition number (v : option json) : result float :=
  match v with
  | Some (JInt n) => x ← int_to_float n; Ok (if isfinite x && fnonneg x then x else fzero)
  | Some (JFloat x) => Ok (if isfinite x && fnonneg x then x else fzero)
  | _ => Ok fzero
  end.

(** [_string_tuple]. *)
Definition string_tuple (v : option json) : result (list string) :=
  match v with
  | Some (JArr items) =>
      if Z.ltb MAX_ARRAY_ITEMS (lenZ items) then malformed
      else if negb (forallb (fun i => match i with JStr s => Z.leb (len s) MAX_ITEM_CHARS | _ => false end) items)
      then malformed
      else Ok (flat_map (fun i => match i with JStr s => [s] | _ => [] end) items)
  | _ => malformed
  end.

(** [_content]. *)
Definition content_of (j : json) : result string :=
  match j with
  | JStr s => if Z.ltb MAX_STRUCTURED_CHARS (len s) then malformed else Ok s
  | _ => malformed
  end.

(** ** Codecs *)

Definition RUNTIME_BOUNDARY : string :=
  "C3R v0.1 RUNTIME BOUNDARY" ++ String "010"
  ("The prompt describes intended reasoning and communication, not additional capabilities or " ++
  "permissions. This runtime provides text and verified recommendations only. Do not claim to " ++
  "execute tools, external actions, commits or authorizations. Do not claim empirical calibration, " ++
  "production qualification, measurements or verification that the runtime has not supplied. " ++
  "Deterministic controller admission, independent verification and operator policy remain " ++
  "authoritative. Never disclose private reasoning; return conclusions and concise rationale.").

Definition line_feed : string := String "010" EmptyString.

Definition TEXT_SYSTEM_PROMPT (prompt : string) : string :=
  prompt ++ line_feed ++ line_feed ++ RUNTIME_BOUNDARY ++ line_feed ++ "Provide a final answer only.".

Definition SYSTEM (prompt : string) : string :=
  prompt ++ line_feed ++ line_feed ++ RUNTIME_BOUNDARY ++ line_feed ++
  "Return only one JSON object with string-array fields plan, assumptions, uncertainty, " ++
  "candidate_commitments, and requested_actions. Propose computation; never claim commit authority.".

Record request : Type := mkRequest {
  url : string; headers : list (string * string); payload : list (string * json) }.

Definition timeout_header (c : ProviderConfig) : list (string * string) :=
  [("X-C3R-Timeout", print_float (timeout_seconds c))].

(** The entry added [if config.api_key]. *)
Definition key_header (c : ProviderConfig) (name prefix : string) : list (string * string) :=
  match api_key c with
  | Some key => if nonempty key then [(name, prefix ++ key)] else []
  | None => []
  end.

Definition message_of (role content : string) : json :=
  JObj [("role", JStr role); ("content", JStr content)].

(** [_CODECS[kind].build]. *)
Definition build (prompt : string) (c : ProviderConfig) (state : string) : request :=
  match kind c with
  | OPENAI | OPENAI_COMPATIBLE =>
      mkRequest (rstrip_slash (base_url c) ++ "/chat/completions")
        (timeout_header c ++ key_header c "Authorization" "Bearer ")%list
        [("model", JStr (model c)); ("temperature", JInt 0);
         ("response_format", JObj [("type", JStr "json_object")]);
         ("messages", JArr [message_of "system" (SYSTEM prompt); message_of "user" state])]
  | ANTHROPIC =>
      mkRequest (rstrip_slash (base_url c) ++ "/messages")
        (timeout_header c ++ [("anthropic-version", "2023-06-01")] ++ key_header c "x-api-key" "")%list
        [("model", JStr (model c)); ("max_tokens", JInt 2048); ("system", JStr (SYSTEM prompt));
         ("messages", JArr [message_of "user" state])]
  | GEMINI =>
      mkRequest (rstrip_slash (base_url c) ++ "/models/" ++ model c ++ ":generateContent")
        (timeout_header c ++ key_header c "x-goog-api-key" "")%list
        [("systemInstruction", JObj [("parts", JArr [JObj [("text", JStr (SYSTEM prompt))]])]);
         ("contents", JArr [JObj [("role", JStr "user"); ("parts", JArr [JObj [("text", JStr state)]])]]);
         ("generationConfig", JObj [("responseMimeType", JStr "application/json"); ("temperature", JInt 0)])]
  end.

(** The two token counters of a usage object. *)
Definition usage_counts (usage : json) (input output : string) : result (list (string * float)) :=
  i ← get_of usage input; x ← number (Some (default (JInt 0) i));
  o ← get_of usage output; y ← number (Some (default (JInt 0) o));
  Ok [("input_tokens", x); ("output_tokens", y)].

(** [_CODECS[kind].extract]. *)
Definition extract (k : ProviderKind) (b : list (string * json)) : result (string * list (string * float)) :=
  match k with
  | OPENAI | OPENAI_COMPATIBLE =>
      choices ← subscript (JObj b) "choices"; choice ← first_of choices;
      message ← subscript choice "message"; content ← subscript message "content";
      text ← content_of content;
      counts ← usage_counts (default (JObj []) (assoc "usage" b)) "prompt_tokens" "completion_tokens";
      Ok (text, counts)
  | ANTHROPIC =>
      blocks ← subscript (JObj b) "content"; block ← first_of blocks;
      content ← subscript block "text"; text ← content_of content;
      counts ← usage_counts (default (JObj []) (assoc "usage" b)) "input_tokens" "output_tokens";
      Ok (text, counts)
  | GEMINI =>
      candidates ← subscript (JObj b) "candidates"; first ← first_of candidates;
      candidate ← subscript first "content"; parts ← subscript candidate "parts";
      part ← first_of parts; content ← subscript part "text"; text ← content_of content;
      counts ← usage_counts (default (JObj []) (assoc "usageMetadata" b))
                 "promptTokenCount" "candidatesTokenCount";
      Ok (text, counts)
  end.

(** ** The adapter *)

(** [json.dumps(body, separators=(",", ":"))] and [json.dumps(body, allow_nan=False)]. *)
Definition body_options : dump_options := DumpOptions "," ":" false true true.
Definition strict_body_options : dump_options := DumpOptions ", " ": " false true false.

(** The routing constraints added for the OpenRouter gateway. *)
Definition openrouter_policy : json :=
  JObj [("zdr", JBool true); ("data_collection", JStr "deny");
        ("require_parameters", JBool true); ("allow_fallbacks", JBool false)].

Definition text_messages (prompt text : string) : json :=
  JArr [message_of "system" (TEXT_SYSTEM_PROMPT prompt); message_of "user" text].

Definition check_generation (c : ProviderConfig) (text : string) (max_output_tokens : Z) : result unit :=
  if negb (bool_decide (kind c ∈ [OPENAI; OPENAI_COMPATIBLE]))
  then raise ValueError "text generation requires an OpenAI-compatible provider"
  else if negb (nonempty text) || Z.ltb 16384 (len (utf8 text))
          || negb (Z.leb 1 max_output_tokens && Z.leb max_output_tokens 2048)
  then raise ValueError "generation request outside bounds"
  else Ok tt.

(** The payload's last entry, [if config.uses_openrouter]. *)
Definition openrouter_entry (c : ProviderConfig) : result (list (string * json)) :=
  if uses_openrouter c
  then if truthy (api_key c) then Ok [("provider", openrouter_policy)]
       else raise RuntimeError "hosted provider credential unavailable"
  else Ok [].

(** Whether [cost] is a finite non-negative number; [isfinite] of an integer
    beyond the float range raises OverflowError. *)
Definition reported_cost (v : option json) : result (option float) :=
  match v with
  | Some (JInt n) => x ← int_to_float n; Ok (if isfinite x && Z.leb 0 n then Some x else None)
  | Some (JFloat x) => Ok (if isfinite x && fnonneg x then Some x else None)
  | _ => Ok None
  end.

(** What [generate] makes of a reply's body. *)
Definition read_generation (r : TransportResponse) : result (string * string * list (string * float)) :=
  choices ← subscript (JObj (body r)) "choices"; choice ← first_of choices;
  message ← subscript choice "message";
  tool_calls ← get_of message "tool_calls";
  function_call ← (if truth tool_calls then Ok None else get_of message "function_call");
  _ ← raise_if (truth tool_calls || truth function_call) ValueError "tool execution is not supported";
  content ← subscript message "content"; output ← content_of content;
  choice ← first_of choices; reason ← get_of choice "finish_reason";
  finish ←
    (if negb (nonempty (strip output)) then raise ValueError "invalid generation result"
     else match reason with
          | Some (JStr s) => if bool_decide (s ∈ ["stop"; "length"]) then Ok s
                             else raise ValueError "invalid generation result"
          | Some (JArr _) | Some (JObj _) => raise TypeError "unhashable type"
          | _ => raise ValueError "invalid generation result"
          end);
  let usage := default (JObj []) (assoc "usage" (body r)) in
  i ← get_of usage "prompt_tokens"; input ← number i;
  o ← get_of usage "completion_tokens"; out ← number o;
  c ← get_of usage "cost"; cost ← reported_cost c;
  Ok (output, finish,
      ([("input_tokens", input); ("output_tokens", out); ("latency_ms", latency_ms r)]
       ++ match cost with Some x => [("provider_cost_usd", x)] | None => [] end)%list).

(** What [deliberate] makes of a reply's body. *)
Definition read_deliberation (k : ProviderKind) (b : list (string * json))
    : result (DeliberativeResult * list (string * float)) :=
  extracted ← extract k b;
  decoded ← loads (fst extracted);
  match decoded with
  | JObj value =>
      plan ← string_tuple (assoc "plan" value);
      assumptions ← string_tuple (assoc "assumptions" value);
      uncertainty ← string_tuple (assoc "uncertainty" value);
      commitments ← string_tuple (assoc "candidate_commitments" value);
      actions ← string_tuple (assoc "requested_actions" value);
      Ok (mkDeliberation plan assumptions uncertainty commitments actions, snd extracted)
  | _ => raise TypeError ""
  end.

Definition state_items (s : CompiledState) : list (string * json) :=
  match compiled_state_json s with JObj kvs => kvs | _ => [] end.

Section adapter.
Context {W : Type} `{!HasCounts W} (prompt : string) (urlparse : string -> result split_url)
  (transport : string -> list (string * string) -> list (string * json) -> io W TransportResponse).

(** [ProviderAdapter.generate]. *)
Definition generate (c : ProviderConfig) (text : string) (max_output_tokens : Z)
    : io W (string * string * list (string * float)) :=
  _ ← lift (check_generation c text max_output_tokens);
  routing ← lift (openrouter_entry c);
  let payload := ([("model", JStr (model c)); ("max_tokens", JInt max_output_tokens);
                   ("temperature", JInt 0); ("messages", text_messages prompt text)] ++ routing)%list in
  sent ← io_try
    (_ ← transport_attempt "system_two";
     response ← transport (rstrip_slash (base_url c) ++ "/chat/completions")
                  (timeout_header c ++ key_header c "Authorization" "Bearer ")%list payload;
     text ← lift (dumps strict_body_options (JObj (body response)));
     mret (response, len (utf8 text)))
    [OSError; ValueError; TypeError]
    (fun _ => lift (raise RuntimeError "generative provider transport unavailable"));
  let '(response, size) := sent in
  _ ← lift (raise_if (negb (Z.leb 200 (status response) && Z.ltb (status response) 300))
              RuntimeError "generative provider unavailable");
  _ ← lift (raise_if (Z.ltb MAX_RESPONSE_BYTES size) RuntimeError
              "generative provider response oversized");
  lift (try_except (read_generation response) [KeyError; IndexError; TypeError; ValueError; AttributeError]
          (fun _ => raise RuntimeError "invalid generative provider response")).

(** [ProviderAdapter.deliberate]. *)
Definition deliberate (c : ProviderConfig) (state : list (string * json)) : io W ProviderExecutionResult :=
  text ← lift (dumps compact_options (JObj state));
  let r := build prompt c text in
  _ ← transport_attempt "system_two";
  response ← transport (url r) (headers r) (payload r);
  reply ← lift (dumps body_options (JObj (body response)));
  _ ← lift (raise_if (Z.ltb MAX_RESPONSE_BYTES (len (utf8 reply))) ValueError
              "provider response exceeds byte limit");
  _ ← lift (raise_if (Z.ltb (status response) 200 || Z.leb 300 (status response)) RuntimeError
              ("provider request failed with status " ++ str_of_Z (status response)));
  read ← lift (try_except (read_deliberation (kind c) (body response))
                 [KeyError; IndexError; TypeError; ValueError; JSONDecodeError]
                 (fun _ => raise ValueError
                    "provider returned malformed or oversized structured deliberation"));
  mret (mkExecution (fst read) (("latency_ms", latency_ms response) :: snd read)
          (provider_id c) (model c)).

Definition exn_name (k : exn_kind) : string :=
  match k with
  | ValueError => "ValueError" | JSONDecodeError => "JSONDecodeError"
  | UnicodeEncodeError => "UnicodeEncodeError" | TypeError => "TypeError"
  | AttributeError => "AttributeError" | KeyError => "KeyError" | IndexError => "IndexError"
  | RuntimeError => "RuntimeError" | RecursionError => "RecursionError" | OSError => "OSError"
  | TimeoutError => "TimeoutError" | ZeroDivisionError => "ZeroDivisionError"
  | OverflowError => "OverflowError" | StopIteration => "StopIteration"
  | SqliteError => "Error" | PgError => "Error" | HTTPException => "HTTPException"
  | OtherException => "Exception"
  end.

(** [ProviderController.deliberate]. *)
Definition controlled_deliberate (c : ProviderConfig) (fallback_action : ActionFamily)
    (state : list (string * json)) : io W ControlledDeliberation :=
  io_try (result ← deliberate c state; mret (mkControlled (Some result) DELIBERATE false None))
    [OSError; RuntimeError; TypeError; ValueError]
    (fun e => mret (mkControlled None fallback_action true (Some (exn_name (exn_class e))))).

(** [ProviderDeliberator.deliberate]. *)
Definition bridge_deliberate (c : ProviderConfig) (state : CompiledState) : io W ProviderExecutionResult :=
  parsed ← lift (urlparse (base_url c));
  _ ← lift (raise_if (negb (local_host parsed)
                      && negb (bool_decide (data_boundary state ∈ ["approved_remote"; "public"])))
              ValueError "state is not approved for a remote provider");
  deliberate c (state_items state).
End adapter.

(** ** Event streams

    The backend is the list of what [readline] delivers from now on: bytes or an
    exception, and whether another thread called [abort] while it was blocked.
    Past the end of the list it delivers the empty line. *)

Record delivery : Type := mkDelivery { outcome : result string; aborted : bool }.

Record TextGenerationStream : Type := mkStream {
  backend : list delivery;
  finished : bool;
  saw_finish : bool;
  bytes_read : Z;
  response_closed : bool;
  connection_closed : bool }.

Definition open_stream (backend : list delivery) : TextGenerationStream :=
  mkStream backend false false 0 false false.

(** [abort]. *)
Definition abort_stream (s : TextGenerationStream) : TextGenerationStream :=
  if finished s then s
  else mkStream (backend s) true (saw_finish s) (bytes_read s) (response_closed s) true.

(** [close] outside a pending read. *)
Definition close_stream (s : TextGenerationStream) : TextGenerationStream :=
  let s := abort_stream s in
  mkStream (backend s) (finished s) (saw_finish s) (bytes_read s) true (connection_closed s).

(** The effect of a blocked [readline] on the stream: a concurrent [abort], then
    the [finally] clause. *)
Definition after_read (d : delivery) (rest : list delivery) (s : TextGenerationStream)
    : TextGenerationStream :=
  let s := if aborted d then abort_stream s else s in
  mkStream rest (finished s) (saw_finish s) (bytes_read s)
    (response_closed s || finished s) (connection_closed s).

(** White space of [bytes.strip]. *)
Definition is_byte_space (c : ascii) : bool := in_range 9 13 c || in_range 32 32 c.

Fixpoint byte_lstrip (s : string) : string :=
  match s with
  | EmptyString => EmptyString
  | String c s' => if is_byte_space c then byte_lstrip s' else s
  end.

Fixpoint byte_rstrip (s : string) : string :=
  match s with
  | EmptyString => EmptyString
  | String c s' =>
      match byte_rstrip s' with
      | EmptyString => if is_byte_space c then EmptyString else String c EmptyString
      | r => String c r
      end
  end.

Record stream_event : Type := mkEvent {
  ev_content : string; ev_finish : option string; ev_counts : option (list (string * Z)) }.

(** A token count: an int that is not a bool, not negative. *)
Definition count_of (v : option json) : result Z :=
  match v with
  | Some (JInt n) => if Z.ltb n 0 then raise ValueError "invalid generation token counts" else Ok n
  | _ => raise ValueError "invalid generation token counts"
  end.

Definition usage_of (v : option json) : result (option (list (string * Z))) :=
  match v with
  | None | Some JNull => Ok None
  | Some (JObj kvs) =>
      i ← count_of (assoc "prompt_tokens" kvs);
      o ← count_of (assoc "completion_tokens" kvs);
      Ok (Some [("input_tokens", i); ("output_tokens", o)])
  | _ => raise TypeError "invalid generation usage"
  end.

(** [finish], the value of [choice.get("finish_reason")] after its checks. *)
Definition finish_of (v : option json) : result (option string) :=
  match v with
  | None | Some JNull => Ok None
  | Some (JStr s) => if bool_decide (s ∈ ["stop"; "length"]) then Ok (Some s)
                     else raise ValueError "invalid generation finish reason"
  | _ => raise TypeError "invalid generation finish reason"
  end.

(** The event of a decoded line, every check of the loop's body. *)
Definition event_of (event_raw : json) : result stream_event :=
  match event_raw with
  | JObj event =>
      counts ← usage_of (assoc "usage" event);
      match assoc "choices" event with
      | Some (JArr []) =>
          match counts with
          | None => raise ValueError "empty generation stream event"
          | Some _ => Ok (mkEvent "" None counts)
          end
      | Some (JArr [JObj choice]) =>
          match assoc "delta" choice with
          | Some (JObj delta) =>
              if truth (assoc "tool_calls" delta) || truth (assoc "function_call" delta)
              then raise ValueError "invalid generation delta"
              else match default (JStr "") (assoc "content" delta) with
                   | JStr content =>
                       finish ← finish_of (assoc "finish_reason" choice);
                       Ok (mkEvent content finish counts)
                   | _ => raise TypeError "invalid generation text"
                   end
          | _ => raise TypeError "invalid generation delta"
          end
      | Some (JArr [_]) => raise TypeError "invalid generation choice"
      | Some (JArr _) => raise ValueError "invalid generation choices"
      | _ => raise TypeError "invalid generation choices"
      end
  | _ => raise TypeError "invalid generation stream event"
  end.

Definition MAX_LINE : Z := 16384.

Section stream.
(** [json.loads] of a byte line. *)
Context (loads_bytes : string -> result json).

Definition handled : list exn_kind := [OSError; TypeError; ValueError; RuntimeError; JSONDecodeError].

(** An exception inside [try]: the named classes close the stream. *)
Definition fail_with {A} (e : exn) (s : TextGenerationStream) : result A * TextGenerationStream :=
  (Raise e, if caught_by handled (exn_class e) then close_stream s else s).

Definition with_bytes (n : Z) (s : TextGenerationStream) : TextGenerationStream :=
  mkStream (backend s) (finished s) (saw_finish s) n (response_closed s) (connection_closed s).

Definition with_finish (s : TextGenerationStream) : TextGenerationStream :=
  mkStream (backend s) (finished s) true (bytes_read s) (response_closed s) (connection_closed s).

(** The loop of [__next__] over the deliveries [ds] still to come. *)
Fixpoint next_loop (ds : list delivery) (s : TextGenerationStream)
    : result stream_event * TextGenerationStream :=
  match ds with
  | [] => fail_with (Exn RuntimeError "generation stream ended without completion")
            (after_read (mkDelivery (Ok "") false) [] s)
  | d :: rest =>
      let s := after_read d rest s in
      match outcome d with
      | Raise e => fail_with e s
      | Ok line =>
          if negb (nonempty line) || Z.ltb MAX_LINE (len line)
          then fail_with (Exn RuntimeError "generation stream ended without completion") s
          else
            let s := with_bytes (bytes_read s + len line)%Z s in
            if Z.ltb MAX_RESPONSE_BYTES (bytes_read s)
            then fail_with (Exn RuntimeError "generation stream exceeds byte limit") s
            else match strip_prefix "data: " line with
            | None => next_loop rest s
            | Some tail =>
                let data := byte_rstrip (byte_lstrip tail) in
                if String.eqb data "[DONE]"
                then let s := close_stream s in
                     if saw_finish s then (Raise (Exn StopIteration ""), s)
                     else fail_with (Exn RuntimeError "generation stream ended without a finish reason") s
                else match (event_raw ← loads_bytes data; event_of event_raw) with
                | Raise e => fail_with e s
                | Ok ev => (Ok ev, if bool_decide (ev_finish ev = None) then s else with_finish s)
                end
            end
      end
  end.

(** [TextGenerationStream.__next__]. *)
Definition stream_next (s : TextGenerationStream) : result stream_event * TextGenerationStream :=
  if finished s then (Raise (Exn StopIteration ""), s) else next_loop (backend s) s.

(** [for event in stream], the events and how the loop ended. *)
Fixpoint drain (fuel : nat) (s : TextGenerationStream)
    : list stream_event * option exn * TextGenerationStream :=
  match fuel with
  | O => ([], None, s)
  | S fuel =>
      match stream_next s with
      | (Raise e, s') => ([], Some e, s')
      | (Ok ev, s') => let '(evs, e, s'') := drain fuel s' in (ev :: evs, e, s'')
      end
  end.
End stream.

(** ** Opening a stream

    The connection's operations; [cancelled] reads the caller's event, which the
    watcher thread and the caller may set at any time. *)

Record connection (W : Type) : Type := mkConnection {
  is_cancelled : io W bool;
  connect : io W bool;
  send_request : string -> string -> list (string * string) -> io W unit;
  get_response : io W (Z * string * list delivery);
  close_response : io W unit;
  close_connection : io W unit }.
#[global] Arguments is_cancelled {W}.
#[global] Arguments connect {W}.
#[global] Arguments send_request {W}.
#[global] Arguments get_response {W}.
#[global] Arguments close_response {W}.
#[global] Arguments close_connection {W}.

Section opening.
Context {W : Type} `{!HasCounts W} (prompt : string) (urlparse : string -> result split_url)
  (net : split_url -> ProviderConfig -> connection W).

(** [if cancelled is not None and cancelled.is_set(): raise]. *)
Definition stop_if_cancelled (n : connection W) : io W unit :=
  set ← is_cancelled n; lift (raise_if set RuntimeError "generation cancelled").

(** [except BaseException: connection.close(); raise]. *)
Definition closing {A} (n : connection W) (m : io W A) : io W A := fun w =>
  match m w with
  | (Ok a, w') => (Ok a, w')
  | (Raise e, w') =>
      match close_connection n w' with
      | (Ok _, w'') => (Raise e, w'')
      | (Raise e', w'') => (Raise e', w'')
      end
  end.

(** The checks of a response; a refused one is closed. *)
Definition accept_response (n : connection W) (code : Z) (content_type : string)
    (lines : list delivery) (cancelled : bool) : io W TextGenerationStream :=
  if cancelled then (_ ← close_response n; lift (raise RuntimeError "generation cancelled"))
  else if negb (Z.leb 200 code && Z.ltb code 300) || negb (String.eqb content_type "text/event-stream")
  then (_ ← close_response n;
        lift (raise RuntimeError "provider did not return a successful event stream"))
  else mret (open_stream lines).

(** [ProviderAdapter.stream_generate]; [get_response] gives the status, the
    content type and the body's deliveries, [connect] whether a socket exists. *)
Definition stream_generate (c : ProviderConfig) (text : string) (max_output_tokens : Z)
    : io W TextGenerationStream :=
  _ ← lift (check_generation c text max_output_tokens);
  routing ← lift (openrouter_entry c);
  let payload := ([("model", JStr (model c)); ("max_tokens", JInt max_output_tokens);
                   ("temperature", JInt 0); ("stream", JBool true);
                   ("stream_options", JObj [("include_usage", JBool true)]);
                   ("messages", text_messages prompt text)] ++ routing)%list in
  let headers := (("Content-Type", "application/json") :: key_header c "Authorization" "Bearer ")%list in
  parsed ← lift (urlparse (base_url c));
  _ ← lift (raise_if (bool_decide (u_hostname parsed = None)) ValueError "provider origin requires a host");
  let n := net parsed c in
  closing n
    (_ ← stop_if_cancelled n;
     _ ← transport_attempt "system_two";
     socket ← connect n;
     _ ← lift (raise_if (negb socket) OSError "provider connection unavailable");
     _ ← stop_if_cancelled n;
     encoded ← lift (dumps body_options (JObj payload));
     _ ← send_request n (rstrip_slash (u_path parsed) ++ "/chat/completions") encoded headers;
     reply ← get_response n;
     let '(code, content_type, lines) := reply in
     set ← is_cancelled n;
     accept_response n code content_type lines set).
End opening.

(** ** Lemmas *)

(** What an event that [__next__] returns satisfies. *)
Definition valid_event (ev : stream_event) : Prop :=
  ev_finish ev ∈ [None; Some "stop"; Some "length"]
  /\ forall counts, ev_counts ev = Some counts ->
       map fst counts = ["input_tokens"; "output_tokens"] /\ Forall (fun kn => (0 <= snd kn)%Z) counts.

Definition closed (s : TextGenerationStream) : Prop :=
  finished s = true /\ response_closed s = true /\ connection_closed s = true.

(** A finished stream has no open connection. *)
Definition shut (s : TextGenerationStream) : Prop := finished s = true -> connection_closed s = true.

Lemma count_of_ok v n : count_of v = Ok n -> (0 <= n)%Z.
Proof.
  destruct v as [[| |z| | | |]|]; cbn; try done.
  destruct (Z.ltb_spec z 0); [done|]. by intros [= <-].
Qed.

Lemma usage_of_ok v counts :
  usage_of v = Ok (Some counts) ->
  map fst counts = ["input_tokens"; "output_tokens"] /\ Forall (fun kn => (0 <= snd kn)%Z) counts.
Proof.
  destruct v as [[| | | | | |kvs]|]; cbn; try done. intros H. result_inv.
  apply count_of_ok in Ha, Ha0. split; [done|]. by repeat constructor.
Qed.

Lemma finish_of_ok v f : finish_of v = Ok f -> f ∈ [None; Some "stop"; Some "length"].
Proof.
  destruct v as [[| | | |s| |]|]; cbn; try done; try (intros [= <-]; left).
  case_bool_decide as Hs; [|done]. intros [= <-].
  apply elem_of_cons in Hs as [->|Hs]; [right; left|].
  apply list_elem_of_singleton in Hs as ->. right; right; left.
Qed.

Lemma event_of_valid j ev : event_of j = Ok ev -> valid_event ev.
Proof.
  destruct j as [| | | | | |event]; cbn [event_of]; try done.
  intros H. apply bind_ok in H as (counts & Hc & H).
  assert (Hcounts : forall cs, counts = Some cs ->
    map fst cs = ["input_tokens"; "output_tokens"] /\ Forall (fun kn => (0 <= snd kn)%Z) cs)
    by (intros cs ->; by apply usage_of_ok in Hc).
  destruct (assoc "choices" event) as [[| | | | |[|[| | | | | |choice] [|]]|]|]; try done.
  - destruct counts; [|done]. injection H as <-. split; [left|done].
  - destruct (assoc "delta" choice) as [[| | | | | |delta]|]; try done.
    destruct (_ || _); [done|]. destruct (default _ _); try done.
    apply bind_ok in H as (f & Hf & H). injection H as <-. split; [by apply finish_of_ok in Hf|done].
Qed.

Lemma usage_of_raises v e : usage_of v = Raise e -> exn_class e ∈ [ValueError; TypeError].
Proof.
  assert (Hcount : forall v e, count_of v = Raise e -> exn_class e ∈ [ValueError; TypeError]).
  { clear. intros [[| |z| | | |]|] e; cbn; try (by intros [= <-]; left).
    destruct (Z.ltb z 0); [by intros [= <-]; left|done]. }
  destruct v as [[| | | | | |kvs]|]; cbn; try done; try (by intros [= <-]; right; left).
  destruct (count_of (assoc "prompt_tokens" kvs)) eqn:E1; cbn; [|intros [= <-]; eauto].
  destruct (count_of (assoc "completion_tokens" kvs)) eqn:E2; cbn; [done|intros [= <-]; eauto].
Qed.

Lemma finish_of_raises v e : finish_of v = Raise e -> exn_class e ∈ [ValueError; TypeError].
Proof.
  destruct v as [[| | | |s| |]|]; cbn; try done; try (by intros [= <-]; right; left).
  case_bool_decide; [done|]. intros [= <-]. left.
Qed.

Lemma event_of_raises j e : event_of j = Raise e -> exn_class e ∈ [ValueError; TypeError].
Proof.
  assert (HT : forall m, exn_class (Exn TypeError m) ∈ [ValueError; TypeError]) by (intros; right; left).
  assert (HV : forall m, exn_class (Exn ValueError m) ∈ [ValueError; TypeError]) by (intros; left).
  destruct j as [| | | | | |event]; cbn [event_of]; try (by intros [= <-]).
  destruct (usage_of (assoc "usage" event)) as [counts|e1] eqn:Eu; cbn [mbind result_bind];
    [|intros [= <-]; by eapply usage_of_raises].
  destruct (assoc "choices" event) as [[| | | | |[|choice [|]]|]|]; try (by intros [= <-]).
  - destruct counts; [done|by intros [= <-]].
  - destruct choice as [| | | | | |choice]; try (by intros [= <-]).
    destruct (assoc "delta" choice) as [[| | | | | |delta]|]; try (by intros [= <-]).
    destruct (_ || _); [by intros [= <-]|]. destruct (default _ _); try (by intros [= <-]).
    destruct (finish_of (assoc "finish_reason" choice)) as [f|e1] eqn:Ef; cbn; [done|].
    intros [= <-]. by eapply finish_of_raises.
  - destruct choice; by intros [= <-].
Qed.

Lemma strip_prefix_len p s t : strip_prefix p s = Some t -> (len s = len p + len t)%Z.
Proof.
  revert s; induction p as [|c p IH]; intros s H; cbn in H.
  - injection H as <-. unfold len. cbn. lia.
  - destruct s as [|d s]; [done|]. destruct (Ascii.eqb c d); [|done].
    apply IH in H. unfold len in *. cbn [String.length]. lia.
Qed.

Lemma closed_close s : shut s -> closed (close_stream s).
Proof. unfold shut, closed, close_stream, abort_stream. destruct (finished s) eqn:E; cbn; auto. Qed.

Lemma fail_with_closed {A} e s : shut s ->
  caught_by handled (exn_class e) = true -> closed (snd (fail_with (A := A) e s)).
Proof. unfold fail_with. intros Hs ->. by apply closed_close. Qed.

Lemma fail_with_inv {A} e s e' s' : fail_with (A := A) e s = (Raise e', s') ->
  shut s -> e = e' /\ (caught_by handled (exn_class e') = true -> closed s').
Proof.
  intros H Hs. pose proof (fail_with_closed (A := A) e s Hs) as Hc. rewrite H in Hc. cbn [snd] in Hc.
  unfold fail_with in H. apply pair_equal_spec in H as [He _]. injection He as ->. done.
Qed.

Lemma fail_with_finish {A} e s : saw_finish (snd (fail_with (A := A) e s)) = saw_finish s.
Proof.
  unfold fail_with. cbn [snd]. destruct (caught_by _ _); [|done].
  unfold close_stream, abort_stream. by destruct (finished s).
Qed.

Lemma shut_after_read d rest s : shut s -> shut (after_read d rest s).
Proof.
  unfold shut, after_read, abort_stream. destruct (aborted d); [|done].
  destruct (finished s) eqn:E; cbn; auto.
Qed.

Lemma after_read_fields d rest s :
  backend (after_read d rest s) = rest /\ saw_finish (after_read d rest s) = saw_finish s
  /\ bytes_read (after_read d rest s) = bytes_read s
  /\ (aborted d = false -> finished (after_read d rest s) = finished s).
Proof.
  unfold after_read, abort_stream. destruct (aborted d), (finished s) eqn:E; cbn; by rewrite ?E.
Qed.

(** A pass of the loop that returns an event. *)
Lemma next_loop_ok loads_bytes ds s ev s' :
  shut s -> next_loop loads_bytes ds s = (Ok ev, s') ->
  valid_event ev /\ shut s'
  /\ (bytes_read s + 6 <= bytes_read s' <= MAX_RESPONSE_BYTES)%Z
  /\ saw_finish s' = saw_finish s || negb (bool_decide (ev_finish ev = None))
  /\ (exists d used, ds = (d :: used ++ backend s')%list)
  /\ (Forall (fun d => aborted d = false) ds -> finished s' = finished s).
Proof.
  revert s; induction ds as [|d rest IH]; intros s Hs H; [done|]. cbn [next_loop] in H.
  destruct (after_read_fields d rest s) as (Hb & Hf & Hn & Ha).
  pose proof (shut_after_read d rest s Hs) as Hs1.
  set (s1 := after_read d rest s) in *. clearbody s1. cbv zeta in H.
  destruct (outcome d) as [line|e]; [|done].
  destruct (negb (nonempty line) || Z.ltb MAX_LINE (len line)); [done|].
  destruct (Z.ltb_spec MAX_RESPONSE_BYTES (bytes_read (with_bytes (bytes_read s1 + len line) s1))) as [|Hle];
    [done|]. cbn [with_bytes bytes_read] in Hle. pose proof (len_nonneg line).
  assert (Htail : forall used, Forall (fun d => aborted d = false) (d :: used) ->
    finished s1 = finished s) by (intros used Hfa; apply Ha; by apply Forall_cons in Hfa as [? _]).
  destruct (strip_prefix "data: " line) as [tail|] eqn:Ep.
  - apply strip_prefix_len in Ep. change (len "data: ") with 6%Z in Ep. pose proof (len_nonneg tail).
    destruct (String.eqb (byte_rstrip _) _).
    + destruct (saw_finish (close_stream _)); discriminate H.
    + destruct (_ ≫= _) as [ev'|e] eqn:Ee; [|done]. injection H as -> <-.
      apply bind_ok in Ee as (j & _ & Hj). split; [by eapply event_of_valid|].
      destruct (bool_decide_reflect (ev_finish ev = None));
        cbn [with_finish with_bytes backend saw_finish bytes_read finished];
        rewrite ?Hf, ?Hn, ?Hb, ?orb_false_r, ?orb_true_r in *;
        (split; [done|split; [lia|split; [done|split; [by exists d, []|by apply Htail]]]]).
  - apply IH in H; [|done]. cbn [with_bytes backend saw_finish bytes_read finished] in H.
    rewrite Hf, Hn in H. destruct H as (H1 & H2 & H3 & H4 & (d' & used & Hrest) & H6).
    split; [done|]. split; [done|]. split; [lia|]. split; [done|].
    split; [exists d, (d' :: used); by rewrite Hrest|].
    intros Hfa. rewrite H6 by (by apply Forall_cons in Hfa as [_ ?]). by apply (Htail rest).
Qed.

(** A pass of the loop that raises. *)
Lemma next_loop_raise loads_bytes ds s e s' :
  shut s -> next_loop loads_bytes ds s = (Raise e, s') ->
  (caught_by handled (exn_class e) = true -> closed s')
  /\ (exn_class e = StopIteration ->
      (forall x e', loads_bytes x = Raise e' -> exn_class e' <> StopIteration) ->
      Forall (fun d => forall e', outcome d = Raise e' -> exn_class e' <> StopIteration) ds ->
      closed s' /\ saw_finish s = true).
Proof.
  revert s; induction ds as [|d rest IH]; intros s Hs H.
  - cbn [next_loop] in H. pose proof (shut_after_read (mkDelivery (Ok "") false) [] s Hs) as Hs1.
    apply fail_with_inv in H as [<- Hc]; done.
  - cbn [next_loop] in H. destruct (after_read_fields d rest s) as (Hb & Hf & Hn & Ha).
    pose proof (shut_after_read d rest s Hs) as Hs1.
    set (s1 := after_read d rest s) in *. clearbody s1. cbv zeta in H.
    destruct (outcome d) as [line|e0] eqn:Eo.
    2:{ apply fail_with_inv in H as [-> Hc]; [|done]. split; [done|]. intros Hc1 _ Hd.
        apply Forall_cons in Hd as [Hd _]. by apply Hd in Eo. }
    destruct (negb (nonempty line) || Z.ltb MAX_LINE (len line)).
    { apply fail_with_inv in H as [<- Hc]; done. }
    destruct (Z.ltb MAX_RESPONSE_BYTES _). { apply fail_with_inv in H as [<- Hc]; done. }
    assert (Hs2 : shut (with_bytes (bytes_read s1 + len line) s1)) by done.
    destruct (strip_prefix "data: " line) as [tail|].
    + destruct (String.eqb (byte_rstrip _) _).
      * pose proof (closed_close _ Hs2) as Hc2.
        destruct (saw_finish (close_stream _)) eqn:Ef.
        -- injection H as <- <-. split; [done|]. intros _ _ _. split; [done|].
           rewrite <- Hf. revert Ef. unfold close_stream, abort_stream, with_bytes. cbn [finished].
           by destruct (finished s1).
        -- apply fail_with_inv in H as [<- Hc]; [done|]. by intros _; apply Hc2.
      * destruct (_ ≫= _) as [ev|e1] eqn:Ee; [done|]. apply fail_with_inv in H as [-> Hc]; [|done].
        split; [done|]. intros Hstop Hl _. exfalso.
        destruct (loads_bytes _) as [j|e2] eqn:El; [|injection Ee as ->; by apply (Hl _ _ El)].
        cbn in Ee. apply event_of_raises in Ee. rewrite Hstop in Ee.
        apply (bool_decide_eq_true_2 _) in Ee. discriminate Ee.
    + apply IH in H as [Hc Hst]; [|done]. split; [done|]. intros Hstop Hl Hd.
      apply Forall_cons in Hd as [_ Hd]. destruct (Hst Hstop Hl Hd) as [? Hsf]. split; [done|].
      by rewrite <- Hf.
Qed.

(** Where the exception of a pass comes from. *)
Lemma next_loop_class loads_bytes ds s e s' :
  next_loop loads_bytes ds s = (Raise e, s') ->
  exn_class e ∈ [StopIteration; RuntimeError; ValueError; TypeError]
  \/ (exists x, loads_bytes x = Raise e) \/ (exists d, d ∈ ds /\ outcome d = Raise e).
Proof.
  assert (Hfail : forall e1 s1, fail_with (A := stream_event) e1 s1 = (Raise e, s') -> e1 = e)
    by (unfold fail_with; intros e1 s1 H; apply pair_equal_spec in H as [H _]; by injection H).
  revert s; induction ds as [|d rest IH]; intros s H; cbn [next_loop] in H.
  { apply Hfail in H as <-. left. right; left. }
  cbv zeta in H. set (s1 := after_read d rest s) in *. clearbody s1.
  destruct (outcome d) as [line|e0] eqn:Eo; [|apply Hfail in H as ->; right; right; by exists d; split; [left|]].
  destruct (_ || _); [apply Hfail in H as <-; left; right; left|].
  destruct (Z.ltb MAX_RESPONSE_BYTES _); [apply Hfail in H as <-; left; right; left|].
  destruct (strip_prefix "data: " line) as [tail|].
  - destruct (String.eqb (byte_rstrip _) _).
    + destruct (saw_finish (close_stream _)); [injection H as <- _; left; left|].
      apply Hfail in H as <-. left. right; left.
    + destruct (_ ≫= _) as [ev|e1] eqn:Ee; [done|]. apply Hfail in H as ->.
      destruct (loads_bytes _) as [j|e2] eqn:El; [|injection Ee as ->; right; left; eauto].
      cbn in Ee. apply event_of_raises in Ee. left. right; right. exact Ee.
  - apply IH in H as [H|[H|(d1 & Hd & H)]]; [by left|by right; left|].
    right; right. exists d1. split; [by right|done].
Qed.

(** One step of the stream, whatever its state. *)
Lemma stream_next_ok loads_bytes s ev s' :
  shut s -> stream_next loads_bytes s = (Ok ev, s') ->
  valid_event ev /\ shut s' /\ length (backend s') < length (backend s)
  /\ Forall (fun d => d ∈ backend s) (backend s').
Proof.
  intros Hs. unfold stream_next. destruct (finished s); [done|]. intros H.
  destruct (next_loop_ok _ _ _ _ _ Hs H) as (Hv & Hs' & _ & _ & (d & used & Hd) & _).
  split; [done|]. split; [done|]. rewrite Hd. split; [cbn; rewrite length_app; lia|].
  apply Forall_forall. intros x Hx. right. apply elem_of_app. by right.
Qed.

Lemma stream_next_raise loads_bytes s e s' :
  shut s -> stream_next loads_bytes s = (Raise e, s') ->
  (forall x e', loads_bytes x = Raise e' -> exn_class e' <> StopIteration) ->
  (forall d e', d ∈ backend s -> outcome d = Raise e' -> exn_class e' <> StopIteration) ->
  exn_class e = StopIteration -> finished s' = true /\ connection_closed s' = true.
Proof.
  intros Hs H Hl Hd Hc. unfold stream_next in H. destruct (finished s) eqn:Ef.
  - injection H as _ <-. auto.
  - destruct (next_loop_raise _ _ _ _ _ Hs H) as [_ Hst]. destruct (Hst Hc Hl) as [(? & ? & ?) _]; [|done].
    apply Forall_forall. eauto.
Qed.

(** Every pass leaves the stream shut and deliveries it has not read yet. *)
Lemma next_loop_shut loads_bytes ds s r s' :
  shut s -> next_loop loads_bytes ds s = (r, s') -> shut s' /\ forall d, d ∈ backend s' -> d ∈ ds.
Proof.
  assert (Hclose : forall t, shut t -> shut (close_stream t) /\ backend (close_stream t) = backend t).
  { intros t Ht. unfold close_stream, abort_stream, shut in *. destruct (finished t) eqn:E; cbn; auto. }
  assert (Hfail : forall e1 s1 r s', fail_with (A := stream_event) e1 s1 = (r, s') -> shut s1 ->
    shut s' /\ backend s' = backend s1).
  { unfold fail_with. intros e1 s1 r1 s2 H Hs. apply pair_equal_spec in H as [_ <-].
    destruct (caught_by _ _); auto. }
  revert s r s'; induction ds as [|d rest IH]; intros s r s' Hs H; cbn [next_loop] in H.
  { apply Hfail in H as [? Hb]; [|by apply shut_after_read]. split; [done|].
    rewrite Hb. unfold after_read; cbn. done. }
  cbv zeta in H. destruct (after_read_fields d rest s) as (Hb & _).
  pose proof (shut_after_read d rest s Hs) as Hs1. set (s1 := after_read d rest s) in *. clearbody s1.
  assert (Hrest : forall t, shut t /\ backend t = rest -> shut t /\ forall x, x ∈ backend t -> x ∈ d :: rest)
    by (intros t [? ->]; split; [done|]; intros x Hx; by right).
  assert (Hf1 : forall e1 s2, fail_with e1 s2 = (r, s') -> shut s2 -> backend s2 = rest ->
    shut s' /\ forall x, x ∈ backend s' -> x ∈ d :: rest)
    by (intros e1 s2 H1 H2 H3; apply Hrest; rewrite <- H3; by eapply Hfail).
  destruct (outcome d) as [line|e0]; [|by eapply Hf1].
  destruct (_ || _); [by eapply Hf1|]. destruct (Z.ltb MAX_RESPONSE_BYTES _); [by eapply Hf1|].
  set (s2 := with_bytes _ s1) in *. assert (Hs2 : shut s2 /\ backend s2 = rest) by done.
  destruct Hs2 as [Hs2 Hb2]. clearbody s2.
  destruct (strip_prefix "data: " line) as [tail|].
  - destruct (String.eqb (byte_rstrip _) _).
    + destruct (Hclose s2 Hs2) as [Hc Hcb]. rewrite Hb2 in Hcb.
      destruct (saw_finish (close_stream s2)); [injection H as _ <-; by apply Hrest|by eapply Hf1].
    + destruct (_ ≫= _) as [ev|e1]; [|by eapply Hf1]. injection H as _ <-. apply Hrest.
      by destruct (bool_decide _).
  - apply IH in H as [H1 H2]; [|done]. split; [done|]. intros x Hx. right. by apply H2.
Qed.

Lemma stream_next_shut loads_bytes s r s' :
  shut s -> stream_next loads_bytes s = (r, s') -> shut s' /\ forall d, d ∈ backend s' -> d ∈ backend s.
Proof.
  intros Hs. unfold stream_next. destruct (finished s); [by intros [= _ <-]|].
  intros H. by eapply next_loop_shut.
Qed.

Lemma drain_spec loads_bytes fuel s evs e s' :
  shut s -> length (backend s) < fuel -> drain loads_bytes fuel s = (evs, e, s') ->
  exists x, e = Some x
  /\ Forall valid_event evs
  /\ (0 <= bytes_read s <= MAX_RESPONSE_BYTES -> bytes_read s + 6 * lenZ evs <= MAX_RESPONSE_BYTES)%Z
  /\ (caught_by handled (exn_class x) = true -> closed s')
  /\ (finished s = false -> exn_class x = StopIteration ->
      (forall t e', loads_bytes t = Raise e' -> exn_class e' <> StopIteration) ->
      Forall (fun d => aborted d = false /\ forall e', outcome d = Raise e' -> exn_class e' <> StopIteration)
        (backend s) ->
      closed s' /\ (saw_finish s = true \/ Exists (fun ev => ev_finish ev <> None) evs)).
Proof.
  revert s evs e s'; induction fuel as [|fuel IH]; intros s evs e s' Hs Hlt H; [lia|].
  cbn [drain] in H. unfold stream_next in H. destruct (finished s) eqn:Ef.
  - injection H as <- <- <-. exists (Exn StopIteration ""). repeat split; try done. unfold lenZ; cbn; lia.
  - destruct (next_loop loads_bytes (backend s) s) as [[ev|x] s1] eqn:En.
    + destruct (drain loads_bytes fuel s1) as [[evs1 e1] s2] eqn:Ed. injection H as <- <- <-.
      destruct (next_loop_ok _ _ _ _ _ Hs En) as (Hv & Hs1 & Hb & Hsf & (d & used & Hd) & Hfin).
      assert (Hlen : length (backend s1) < length (backend s))
        by (rewrite Hd; cbn; rewrite length_app; lia).
      destruct (IH s1 evs1 e1 s2 Hs1 ltac:(lia) Ed) as (x & -> & Hvs & Hbs & Hc & Hst).
      exists x. split; [done|]. split; [by constructor|]. split.
      { intros H0. unfold lenZ in *. cbn [length]. specialize (Hbs ltac:(lia)). lia. }
      split; [done|]. intros _ Hx Hl Hfa.
      assert (Hfa1 : Forall (fun d => aborted d = false) (backend s))
        by (eapply Forall_impl; [exact Hfa|]; by intros ? [? _]).
      assert (Hrest : Forall (fun d => aborted d = false
        /\ forall e', outcome d = Raise e' -> exn_class e' <> StopIteration) (backend s1))
        by (rewrite Hd in Hfa; apply Forall_cons in Hfa as [_ Hfa]; by apply Forall_app in Hfa as [_ ?]).
      destruct (Hst ltac:(by rewrite Hfin, Ef) Hx Hl Hrest) as [Hcl [Hfs|Hex]];
        (split; [done|]); [|by right; right].
      rewrite Hsf in Hfs. destruct (saw_finish s); [by left|]. right; left.
      cbn [orb] in Hfs. by apply negb_true_iff, bool_decide_eq_false in Hfs.
    + injection H as <- <- <-. destruct (next_loop_raise _ _ _ _ _ Hs En) as [Hc Hst].
      exists x. split; [done|]. split; [done|]. split; [unfold lenZ; cbn; lia|]. split; [done|].
      intros _ Hx Hl Hd. destruct (Hst Hx Hl) as [? ?]; [|by auto].
      eapply Forall_impl; [exact Hd|]. by intros d [_ ?].
Qed.

(** ** Properties *)

(** C35: Reading an event stream is bounded and fails closed.  Whatever the
    backend delivers, iterating a fresh stream ends after at most one step per
    delivery and yields at most 10,922 events, all valid; a handled error leaves
    the stream and its connection closed; and a stream nobody aborts ends normally
    only when it was closed after an event with a finish reason. *)
Theorem stream_bounded loads_bytes ds evs e s
    (H : drain loads_bytes (S (length ds)) (open_stream ds) = (evs, e, s)) :
  exists x, e = Some x
  /\ Forall valid_event evs /\ (lenZ evs <= 10922)%Z
  /\ (caught_by handled (exn_class x) = true -> closed s)
  /\ (exn_class x = StopIteration ->
      (forall t e', loads_bytes t = Raise e' -> exn_class e' <> StopIteration) ->
      Forall (fun d => aborted d = false /\ forall e', outcome d = Raise e' -> exn_class e' <> StopIteration) ds ->
      closed s /\ Exists (fun ev => ev_finish ev <> None) evs).
Proof.
  assert (Hsh : shut (open_stream ds)) by done.
  destruct (drain_spec _ _ _ _ _ _ Hsh (Nat.lt_succ_diag_r _) H) as (x & -> & Hv & Hb & Hc & Hst).
  exists x. split; [done|]. split; [done|]. split.
  { cbn [open_stream bytes_read] in Hb. unfold MAX_RESPONSE_BYTES in Hb. specialize (Hb ltac:(lia)). lia. }
  split; [done|]. intros Hx Hl Hd. destruct (Hst eq_refl Hx Hl Hd) as [? [|?]]; done.
Qed.

(** A stream of one event and the end marker. *)
Definition quoted (s : string) : string := String quote_char (s ++ String quote_char "").

Definition event_line : string :=
  "data: {" ++ quoted "choices" ++ ":[{" ++ quoted "delta" ++ ":{" ++ quoted "content" ++ ":" ++ quoted "hi"
  ++ "}," ++ quoted "finish_reason" ++ ":" ++ quoted "stop" ++ "}]}" ++ line_feed.

Definition example_stream : list delivery :=
  [mkDelivery (Ok event_line) false; mkDelivery (Ok line_feed) false;
   mkDelivery (Ok ("data: [DONE]" ++ line_feed)) false].

Definition drained_stream : TextGenerationStream := mkStream [] true true 84 true true.

Lemma stream_bounded_witness :
  drain loads 4 (open_stream example_stream)
  = ([mkEvent "hi" (Some "stop") None], Some (Exn StopIteration ""), drained_stream)
  /\ closed drained_stream.
Proof.
  assert (Hd : drain loads 4 (open_stream example_stream)
    = ([mkEvent "hi" (Some "stop") None], Some (Exn StopIteration ""), drained_stream))
    by (vm_compute; reflexivity).
  split; [exact Hd|].
  destruct (stream_bounded loads example_stream _ _ _ Hd) as (x & Hx & _ & _ & _ & Hst).
  injection Hx as <-. apply Hst.
  - reflexivity.
  - intros t e' Hl. apply loads_class in Hl. rewrite Hl. discriminate.
  - repeat constructor; discriminate.
Defined.

Lemma string_tuple_ok v l :
  string_tuple v = Ok l -> (lenZ l <= MAX_ARRAY_ITEMS)%Z /\ Forall (fun s => (len s <= MAX_ITEM_CHARS)%Z) l.
Proof.
  destruct v as [[| | | | |items|]|]; cbn [string_tuple]; try done.
  destruct (Z.ltb_spec MAX_ARRAY_ITEMS (lenZ items)) as [|Hle]; [done|].
  destruct (forallb _ items) eqn:Ef; cbn [negb]; [|done]. intros [= <-]. revert Ef Hle.
  unfold lenZ. generalize MAX_ARRAY_ITEMS as bound.
  induction items as [|i items IH]; intros bound Ef Hle; [by split|].
  cbn [forallb] in Ef. apply andb_true_iff in Ef as [Hi Ef]. destruct i; try done.
  apply Z.leb_le in Hi. cbn [flat_map length app] in *.
  destruct (IH (bound - 1)%Z Ef) as [? ?]; [lia|]. split; [lia|]. by constructor.
Qed.

Lemma number_ok v x : number v = Ok x -> isfinite x = true /\ fnonneg x = true.
Proof.
  destruct v as [[| |n|y| | |]|]; cbn [number]; try (by intros [= <-]).
  - intros H. result_inv. destruct (isfinite a) eqn:E1, (fnonneg a) eqn:E2; by cbn.
  - destruct (isfinite y) eqn:E1, (fnonneg y) eqn:E2; cbn; by intros [= <-].
Qed.

Lemma usage_counts_ok u i o l :
  usage_counts u i o = Ok l ->
  exists x y, l = [("input_tokens", x); ("output_tokens", y)]
  /\ Forall (fun kv => isfinite (snd kv) = true /\ fnonneg (snd kv) = true) l.
Proof.
  unfold usage_counts. intros H. result_inv. apply number_ok in Ha0, Ha2.
  eexists _, _. split; [done|]. constructor; [exact Ha0|]. constructor; [exact Ha2|constructor].
Qed.

Lemma extract_ok k b t l :
  extract k b = Ok (t, l) ->
  (len t <= MAX_STRUCTURED_CHARS)%Z /\ map fst l = ["input_tokens"; "output_tokens"]
  /\ Forall (fun kv => isfinite (snd kv) = true /\ fnonneg (snd kv) = true) l.
Proof.
  assert (Hcontent : forall j t, content_of j = Ok t -> (len t <= MAX_STRUCTURED_CHARS)%Z).
  { clear. intros [| | | |s| |] t; cbn [content_of]; try done.
    destruct (Z.ltb_spec MAX_STRUCTURED_CHARS (len s)); [done|]. by intros [= <-]. }
  destruct k; cbn [extract]; intros H; result_inv;
    match goal with Hc : content_of _ = Ok _, Hu : usage_counts _ _ _ = Ok _ |- _ =>
      apply Hcontent in Hc; apply usage_counts_ok in Hu as (? & ? & -> & ?) end; done.
Qed.

(** The five fields of a deliberation. *)
Definition deliberation_fields (d : DeliberativeResult) : list (list string) :=
  [plan d; assumptions d; uncertainty d; candidate_commitments d; requested_actions d].

Lemma read_deliberation_ok k b d l :
  read_deliberation k b = Ok (d, l) ->
  Forall (fun f => (lenZ f <= MAX_ARRAY_ITEMS)%Z /\ Forall (fun s => (len s <= MAX_ITEM_CHARS)%Z) f)
    (deliberation_fields d)
  /\ map fst l = ["input_tokens"; "output_tokens"]
  /\ Forall (fun kv => isfinite (snd kv) = true /\ fnonneg (snd kv) = true) l.
Proof.
  unfold read_deliberation. intros H. apply bind_ok in H as ([t l'] & He & H).
  apply bind_ok in H as (j & _ & H). destruct j as [| | | | | |value]; try done. result_inv.
  apply extract_ok in He as (_ & Hn & Hl).
  repeat match goal with Ht : string_tuple _ = Ok _ |- _ => apply string_tuple_ok in Ht end.
  split; [|done]. unfold deliberation_fields. cbn. by repeat (constructor; [done|]).
Qed.

Section deliberation.
Context {W : Type} `{!HasCounts W} (prompt : string) (urlparse : string -> result split_url)
  (transport : string -> list (string * string) -> list (string * json) -> io W TransportResponse).

(** A deliberation that succeeds made exactly one exchange, with the
    configured provider's request for the encoded state; its reply had a
    success status and at most 65,536 bytes; the plan it carries is bounded in
    every field; and its cost report has finite, non-negative token counts and
    the identity of the configured provider. *)
Theorem deliberate_contract c state w r w'
    (H : deliberate prompt transport c state w = (Ok r, w')) :
  exists text w1 response reply,
    dumps compact_options (JObj state) = Ok text
    /\ transport_attempt "system_two" w = (Ok tt, w1)
    /\ transport (url (build prompt c text)) (headers (build prompt c text))
         (payload (build prompt c text)) w1 = (Ok response, w')
    /\ (200 <= status response < 300)%Z
    /\ dumps body_options (JObj (body response)) = Ok reply /\ (len (utf8 reply) <= MAX_RESPONSE_BYTES)%Z
    /\ Forall (fun f => (lenZ f <= MAX_ARRAY_ITEMS)%Z /\ Forall (fun s => (len s <= MAX_ITEM_CHARS)%Z) f)
         (deliberation_fields (deliberation r))
    /\ (exists input output,
          observed_cost r = [("latency_ms", latency_ms response); ("input_tokens", input);
                             ("output_tokens", output)]
          /\ Forall (fun x => isfinite x = true /\ fnonneg x = true) [input; output])
    /\ er_provider_id r = provider_id c /\ er_model_id r = model c.
Proof.
  unfold deliberate in H.
  apply io_bind_ok in H as (text & w0 & Ht & H). apply lift_ok in Ht as [Ht ->]. cbv zeta in H.
  apply io_bind_ok in H as ([] & w1 & Hat & H).
  apply io_bind_ok in H as (response & w2 & Htr & H).
  apply io_bind_ok in H as (reply & w3 & Hr & H). apply lift_ok in Hr as [Hr ->].
  apply io_bind_ok in H as (u1 & w3 & Hsize & H). apply lift_ok in Hsize as [Hsize ->].
  apply io_bind_ok in H as (u2 & w3 & Hst & H). apply lift_ok in Hst as [Hst ->].
  apply io_bind_ok in H as ([d l] & w3 & Hread & H). apply lift_ok in Hread as [Hread ->].
  apply raise_if_ok in Hsize, Hst. bool_hyps.
  assert (Hok : read_deliberation (kind c) (body response) = Ok (d, l)).
  { unfold try_except in Hread. destruct (read_deliberation _ _); [done|].
    by destruct (caught_by _ _). }
  apply read_deliberation_ok in Hok as (Hf & Hn & Hl).
  destruct l as [|[k1 x] [|[k2 y] [|]]]; try done. injection Hn as -> ->.
  apply Forall_cons in Hl as [Hx Hl]. apply Forall_cons in Hl as [Hy _].
  apply pair_equal_spec in H as [Hres ->]. injection Hres as <-.
  exists text, w1, response, reply. cbn [fst snd deliberation observed_cost er_provider_id er_model_id].
  do 3 (split; [done|]). split; [lia|]. split; [done|]. split; [done|]. split; [done|]. split; [|done].
  exists x, y. split; [done|]. by repeat (constructor; [done|]).
Qed.

(** A compiled state leaves the machine only where it may: with an accepted
    configuration, either the endpoint's host is the local one, or it is reached
    over HTTPS and the state's data boundary allows a remote provider, or the
    bridge refuses with ValueError before any exchange. *)
Theorem remote_state_is_approved c state parsed w
    (Hc : make_provider urlparse c = Ok c) (Hu : urlparse (base_url c) = Ok parsed) :
  local_host parsed = true
  \/ u_scheme parsed = "https" /\ data_boundary state ∈ ["approved_remote"; "public"]
  \/ bridge_deliberate prompt urlparse transport c state w
     = (Raise (Exn ValueError "state is not approved for a remote provider"), w).
Proof.
  destruct (local_host parsed) eqn:El; [by left|right].
  destruct (bool_decide_reflect (data_boundary state ∈ ["approved_remote"; "public"])) as [Hb|Hb].
  - left. split; [|done]. unfold make_provider in Hc. rewrite Hu in Hc. cbn in Hc.
    rewrite El, andb_false_r in Hc. destruct (String.eqb_spec (u_scheme parsed) "https"); [done|].
    by cbn in Hc.
  - right. unfold bridge_deliberate, lift. unfold mbind, io_bind. rewrite Hu, El. cbn [negb andb].
    by rewrite bool_decide_eq_false_2.
Qed.

(** The controller returns the plan, or the fallback action with the name of the
    handled exception. *)
Theorem controller_falls_back c fallback_action state w cd w'
    (H : controlled_deliberate prompt transport c fallback_action state w = (Ok cd, w')) :
  (exists r, deliberate prompt transport c state w = (Ok r, w')
             /\ cd = mkControlled (Some r) DELIBERATE false None)
  \/ (exists e, deliberate prompt transport c state w = (Raise e, w')
             /\ caught_by [OSError; RuntimeError; TypeError; ValueError] (exn_class e) = true
             /\ cd = mkControlled None fallback_action true (Some (exn_name (exn_class e)))).
Proof.
  unfold controlled_deliberate, io_try, mbind, io_bind in H.
  destruct (deliberate prompt transport c state w) as [[r|e] w1].
  - injection H as <- <-. left. eauto.
  - destruct (caught_by _ _) eqn:Ec; [|done]. injection H as <- <-. right. eauto.
Qed.
End deliberation.

(** A configuration of the local server and a transport that answers every
    request with one plan. *)
Definition example_config : ProviderConfig :=
  mkProvider "local" OPENAI_COMPATIBLE "http://127.0.0.1:8000/v1" "/model" None default_timeout.

Definition example_urlparse (_ : string) : result split_url :=
  Ok (mkSplit "https" (Some "models.example") "/v1" None None "" "" None).

Definition example_plan : string :=
  print compact_options
    (JObj [("plan", JArr [JStr "read"]); ("assumptions", JArr []); ("uncertainty", JArr []);
           ("candidate_commitments", JArr []); ("requested_actions", JArr [])]).

Definition example_body (usage : list (string * json)) : list (string * json) :=
  (("choices", JArr [JObj [("message", JObj [("content", JStr example_plan)])]]) :: usage)%list.

Definition example_transport (b : list (string * json)) (u : string) (h : list (string * string))
    (p : list (string * json)) : io (option counts) TransportResponse :=
  fun w => (Ok (mkResponse 200 b fone), w).

Definition example_execution : ProviderExecutionResult :=
  mkExecution (mkDeliberation ["read"] [] [] [] [])
    [("latency_ms", fone); ("input_tokens", fzero); ("output_tokens", fzero)] "local" "/model".

Lemma deliberate_contract_witness :
  exists text w1 response reply,
    dumps compact_options (JObj [("goal", JStr "x")]) = Ok text
    /\ transport_attempt "system_two" (Some fresh_counts) = (Ok tt, w1)
    /\ example_transport (example_body []) (url (build "p" example_config text))
         (headers (build "p" example_config text)) (payload (build "p" example_config text)) w1
       = (Ok response, Some [("system_one_invocations", 0%Z); ("system_two_invocations", 1%Z)])
    /\ dumps body_options (JObj (body response)) = Ok reply.
Proof.
  assert (Hd : deliberate (W := option counts) "p" (example_transport (example_body [])) example_config
    [("goal", JStr "x")] (Some fresh_counts)
    = (Ok example_execution, Some [("system_one_invocations", 0%Z); ("system_two_invocations", 1%Z)]))
    by (vm_compute; reflexivity).
  destruct (deliberate_contract _ _ _ _ _ _ _ Hd) as (text & w1 & response & reply & H1 & H2 & H3 & _ & H4 & _).
  exists text, w1, response, reply. done.
Defined.

Definition remote_config : ProviderConfig :=
  mkProvider "remote" OPENAI "https://models.example/v1" "m" (Some "k") default_timeout.

Lemma remote_state_is_approved_witness :
  bridge_deliberate "p" example_urlparse (example_transport (example_body [])) remote_config
    example_state (Some fresh_counts)
  = (Raise (Exn ValueError "state is not approved for a remote provider"), Some fresh_counts).
Proof.
  assert (Hc : make_provider example_urlparse remote_config = Ok remote_config) by (vm_compute; reflexivity).
  destruct (remote_state_is_approved (W := option counts) "p" example_urlparse
    (example_transport (example_body [])) remote_config example_state
    (mkSplit "https" (Some "models.example") "/v1" None None "" "" None) (Some fresh_counts)
    Hc eq_refl) as [H|[[_ H]|H]].
  - discriminate H.
  - exfalso. apply (bool_decide_eq_true_2 _) in H. vm_compute in H. discriminate H.
  - exact H.
Defined.

(** A reply whose usage is the JSON null escapes the handlers of [deliberate]
    (and of the host controller, which expects OSError, RuntimeError, TypeError
    and ValueError) as an AttributeError. *)
Lemma null_usage_escapes :
  exists m, fst (deliberate (W := option counts) "p" (example_transport (example_body [("usage", JNull)])) example_config
                   [("goal", JStr "x")] None) = Raise (Exn AttributeError m).
Proof. exists "object has no attribute 'get'". vm_compute. reflexivity. Qed.

(** A reported token count beyond the float range escapes as an OverflowError. *)
Lemma huge_usage_escapes :
  exists m, fst (generate (W := option counts) "p"
    (example_transport
       [("choices", JArr [JObj [("message", JObj [("content", JStr "ok")]); ("finish_reason", JStr "stop")]]);
        ("usage", JObj [("prompt_tokens", JInt (10 ^ 400))])])
    example_config "hello" 16 None) = Raise (Exn OverflowError m).
Proof. eexists. vm_compute. reflexivity. Qed.
