(* ===== verification/Runtime.v ===== *)
(** * The standalone controller ([c3r/runtime.py])

    One run compiles the state and the candidates, consults the fast path,
    selects by value of computation, verifies, and ends in exactly one call of
    [finish], which appends the trace.  The models live in a world [E] and the
    sink in its own state [L]; a run is a computation over both. *)

From Stdlib Require Import Lia ZArith Ascii String.
From stdpp Require Import base option strings gmap list.
From S2P Require Import Prelude PyStr PySort PyFloat FloatRepr Json Hash StateSchema.
From S2P Require StateCompiler CandidateCompiler.
From S2P Require Import Cvoc Authority VerifierFirewall TraceLedger Sinks SystemOne ClmAdapter.
From S2P Require Import Controls Providers.

Local Open Scope string_scope.

(** What a deliberator returns: a provider's execution result, or another object
    of the host. *)
Inductive deliberated (D : Type) : Type :=
  | Executed (r : ProviderExecutionResult)
  | Opaque (d : D).
#[global] Arguments Executed {D} r.
#[global] Arguments Opaque {D} d.

(** [RuntimeOutcome.deliberation]. *)
Inductive deliberation_of (D : Type) : Type :=
  | Plan (d : DeliberativeResult)
  | Object (d : D).
#[global] Arguments Plan {D} d.
#[global] Arguments Object {D} d.

(** The fast path as the controller sees it. *)
Record FastPath (E : Type) : Type := mkFast {
  fast_provider : string;
  fast_decide : CompiledState -> list TypedQuestion -> string -> string -> list string
                -> io E FastPathDecision }.
#[global] Arguments mkFast {E}.
#[global] Arguments fast_provider {E}.
#[global] Arguments fast_decide {E}.

Definition calibrated_path {E} (exp : float -> float) (monotonic : io E float)
    (fp : CalibratedFastPath E) : FastPath E :=
  mkFast (a_provider (cf_adapter fp)) (decide exp monotonic fp).

Definition advisory_path {E} (a : InferenceAdapter E) : FastPath E :=
  mkFast (a_provider a) (fun state _ _ _ options => advisory_decide a state options).

Record RuntimeRequest : Type := mkRuntimeRequest {
  raw_state : RawState;
  definitions : list ActionDefinition;
  policy : AuthorityPolicy;
  estimates : gmap string ValueEstimate;
  rq_run_id : string;
  rq_access_level : string;
  language : string;
  requested_text_generation : bool }.

Record RuntimeOutcome (D : Type) : Type := mkOutcome {
  route : string;
  ro_selected_action_id : option string;
  ro_authority_result : string;
  reason : string;
  ledger_record : LedgerRecord;
  ro_candidate_ids : list string;
  ro_fast_path : option FastPathDecision;
  ro_deliberation : option (deliberation_of D);
  cvoc_lower_bound : option float }.
#[global] Arguments mkOutcome {D}.
#[global] Arguments route {D}.
#[global] Arguments ro_selected_action_id {D}.
#[global] Arguments ro_authority_result {D}.
#[global] Arguments reason {D}.
#[global] Arguments ledger_record {D}.
#[global] Arguments ro_candidate_ids {D}.
#[global] Arguments ro_fast_path {D}.
#[global] Arguments ro_deliberation {D}.
#[global] Arguments cvoc_lower_bound {D}.

Definition deliberator (E D : Type) : Type := CompiledState -> io E (deliberated D).

Record StandaloneController (E D : Type) : Type := mkStandalone {
  sc_flags : FeatureFlags;
  sc_compiler : StateCompiler.StateCompiler;
  sc_candidates : CandidateCompiler.CandidateCompiler;
  sc_cvoc : RobustCvocController;
  sc_verifier : VerifierFirewall;
  sc_fast_path : option (FastPath E);
  sc_deliberator : option (deliberator E D);
  sc_readiness_probe : option (io E bool) }.
#[global] Arguments mkStandalone {E D}.
#[global] Arguments sc_flags {E D}.
#[global] Arguments sc_compiler {E D}.
#[global] Arguments sc_candidates {E D}.
#[global] Arguments sc_cvoc {E D}.
#[global] Arguments sc_verifier {E D}.
#[global] Arguments sc_fast_path {E D}.
#[global] Arguments sc_deliberator {E D}.
#[global] Arguments sc_readiness_probe {E D}.

(** The constructor's only check: an executor is refused. *)
Definition make_standalone {E D X} (executor : option X) (c : StandaloneController E D)
    : result (StandaloneController E D) :=
  match executor with
  | Some _ => raise ValueError "external effects are unsupported by StandaloneController"
  | None => Ok c
  end.

(** ** The host's view *)

Definition present {A} (o : option A) : bool := match o with Some _ => true | None => false end.

Definition effect_execution_enabled {E D} (c : StandaloneController E D) : bool := false.
Definition decision_enabled {E D} (c : StandaloneController E D) : bool :=
  enabled_requested (sc_flags c).
Definition sc_system_one_enabled {E D} (c : StandaloneController E D) : bool :=
  system_one_enabled (sc_flags c) && present (sc_fast_path c).

(** The exceptions the controller turns into outcomes. *)
Definition runtime_handled : list exn_kind := [OSError; RuntimeError; TypeError; ValueError].

Definition provider_ready {E D} (c : StandaloneController E D) : io E bool :=
  match sc_readiness_probe c with
  | None => mret false
  | Some probe => io_try probe runtime_handled (fun _ => mret false)
  end.

(** ** Finishing a run *)

(** The arguments of [finish], with the defaults of its keywords. *)
Record finish_args (D : Type) : Type := mkFinish {
  fa_route : string;
  fa_reason : string;
  fa_selected : option ActionCandidate;
  fa_candidate_ids : list string;
  fa_lower_bound : option float;
  fa_authority : string;
  fa_fast : option FastPathDecision;
  fa_deliberation : option (deliberation_of D);
  fa_system_cost : list (string * float);
  fa_provider_id : option string }.
#[global] Arguments mkFinish {D}.
#[global] Arguments fa_route {D}.
#[global] Arguments fa_reason {D}.
#[global] Arguments fa_selected {D}.
#[global] Arguments fa_candidate_ids {D}.
#[global] Arguments fa_lower_bound {D}.
#[global] Arguments fa_authority {D}.
#[global] Arguments fa_fast {D}.
#[global] Arguments fa_deliberation {D}.
#[global] Arguments fa_system_cost {D}.
#[global] Arguments fa_provider_id {D}.

(** [finish("deterministic", reason, candidate_ids=ids, fast=fast)] and the like. *)
Definition stop_with {D} (route reason : string) (ids : list string) (fast : option FastPathDecision)
    : finish_args D :=
  mkFinish route reason None ids None "not_attempted" fast None [] None.

(** [asdict(raw_state)]. *)
Definition raw_state_json (s : RawState) : json :=
  JObj [("goal", JStr (raw_goal s)); ("current_subgoal", JStr (raw_current_subgoal s));
        ("verified_facts", json_strings (raw_verified_facts s));
        ("open_questions", json_strings (raw_open_questions s));
        ("recent_failures", json_strings (raw_recent_failures s));
        ("available_action_families", json_strings (map family_value (raw_available_action_families s)));
        ("tool_summary", json_strings (raw_tool_summary s));
        ("model_inventory", json_strings (raw_model_inventory s));
        ("budget", json_map JFloat (raw_budget s));
        ("runtime_summary", json_map json_scalar (raw_runtime_summary s));
        ("risk", json_map json_scalar (raw_risk s));
        ("reversibility", JStr (raw_reversibility s));
        ("approval_required", JBool (raw_approval_required s));
        ("data_boundary", JStr (raw_data_boundary s));
        ("rollback_state", json_opt (raw_rollback_state s));
        ("ambiguity", JFloat (raw_ambiguity s));
        ("consequence", JStr (raw_consequence s));
        ("provenance", json_map provenance_json (raw_provenance s))].

(** [state_hash]: [allow_nan=False] raises ValueError on a non-finite float. *)
Definition state_hash_of (s : RawState) : result string :=
  text ← dumps canonical_options (raw_state_json s); Ok (sha256_hex (utf8 text)).

(** [provider_id or (fast.model_id if fast is not None else route)]. *)
Definition model_provider_of {D} (a : finish_args D) : string :=
  let other := match fa_fast a with Some f => fp_model_id f | None => fa_route a end in
  match fa_provider_id a with
  | Some p => if nonempty p then p else other
  | None => other
  end.

Definition probabilities_of (fast : option FastPathDecision) : gmap string (list float) :=
  match fast with
  | None => ∅
  | Some f =>
      match fp_candidate_probabilities f with
      | [] => fp_probabilities f
      | ranks => <["CANDIDATE_RANK" := ranks]> (fp_probabilities f)
      end
  end.

(** The trace [finish] builds. *)
Definition trace_of {D} (rq : RuntimeRequest) (state_hash : string) (a : finish_args D) : DecisionTrace :=
  mkTrace (rq_run_id rq) state_hash (rq_access_level rq) (model_provider_of a) (fa_candidate_ids a)
    (probabilities_of (fa_fast a))
    (match fa_lower_bound a with None => ∅ | Some b => {["selected_lower_bound" := b]} end)
    (ac_id <$> fa_selected a) (fa_authority a) (list_to_map (fa_system_cost a))
    {["status" := SStr (fa_reason a)]} [].

Definition outcome_of {D} (a : finish_args D) (r : LedgerRecord) : RuntimeOutcome D :=
  mkOutcome (fa_route a) (ac_id <$> fa_selected a) (fa_authority a) (fa_reason a) r
    (fa_candidate_ids a) (fa_fast a) (fa_deliberation a) (fa_lower_bound a).

(** [candidate_options]: identifiers and public metadata only. *)
Definition candidate_option (c : ActionCandidate) : string :=
  ac_id c ++ " | " ++ family_value (ac_family c) ++ " | " ++ risk_value (ac_risk_class c).

Definition control_questions : list TypedQuestion :=
  [mkQuestion "STOP_NOW" BOOLEAN; mkQuestion "DELIBERATION_REQUIRED" BOOLEAN].

(** [compile_hierarchical] with the keyword defaults the controller leaves. *)
Definition hierarchical_request (fw : VerifierFirewall) (remaining_budget : float)
    : CandidateCompiler.hier_request :=
  CandidateCompiler.mkHierRequest remaining_budget (available_verifier_ids fw) None 1 None
    (float_of_decimal 5 (-2)) fzero.

Definition in_available_family (state : CompiledState) (d : ActionDefinition) : bool :=
  bool_decide (ad_family d ∈ available_action_families state).

Section controller.
Context {E D L : Type} `{!TraceSink L} (c : StandaloneController E D).

(** [_deliberate_or_stop]; the result is the call of [finish] it ends in. *)
Definition deliberate_or_stop (state : CompiledState) (ids : list string) (reason : string)
    (fast : option FastPathDecision) (other : option (deliberator E D)) : io E (finish_args D) :=
  let deliberator := match other with Some d => Some d | None => sc_deliberator c end in
  match deliberator with
  | None => mret (stop_with "deterministic" (reason ++ "_NO_PROVIDER") ids fast)
  | Some deliberate =>
      if negb (deliberative_enabled (sc_flags c))
      then mret (stop_with "deterministic" (reason ++ "_NO_PROVIDER") ids fast)
      else
        io_try
          (d ← deliberate state;
           mret (match d with
                 | Executed r =>
                     if existsb (fun kv => negb (isfinite (snd kv)) || flt (snd kv) fzero) (observed_cost r)
                     then stop_with "deterministic" "DELIBERATIVE_INVALID_COST" ids fast
                     else mkFinish "deliberative" reason None ids None "not_attempted" fast
                            (Some (Plan (deliberation r))) (observed_cost r) (Some (er_provider_id r))
                 | Opaque o =>
                     mkFinish "deliberative" reason None ids None "not_attempted" fast
                       (Some (Object o)) [] None
                 end))
          runtime_handled
          (fun _ => mret (stop_with "deterministic" "DELIBERATIVE_FAILURE" ids fast))
  end.

(** The lines after the fast path: selection, verification and its outcomes. *)
Definition select_and_verify (rq : RuntimeRequest) (requested_deliberator : option (deliberator E D))
    (state : CompiledState) (candidates : list ActionCandidate) (fast : option FastPathDecision)
    : io E (finish_args D) :=
  let ids := map ac_id candidates in
  let decision := Cvoc.select (sc_cvoc c) candidates (estimates rq) in
  match selected decision with
  | None =>
      let non_positive := mret (stop_with "deterministic" "NON_POSITIVE_CVOC" ids fast) in
      if requested_text_generation rq && present requested_deliberator
      then match find (fun x => bool_decide (ac_family x = DELIBERATE)
                                && bool_decide (ac_risk_class x = READ_ONLY)) candidates with
           | None => non_positive
           | Some fallback =>
               match verify (sc_verifier c) fallback with
               | Raise e => if caught_by runtime_handled (exn_class e)
                            then mret (stop_with "deterministic" "VERIFIER_FAILURE" ids None)
                            else lift (Raise e)
               | Ok v => if vr_accepted v
                         then deliberate_or_stop state ids "REQUESTED_TEXT_POLICY_FALLBACK" fast
                                requested_deliberator
                         else mret (stop_with "deterministic" "VERIFICATION_REJECTED" ids None)
               end
           end
      else non_positive
  | Some chosen =>
      match verify (sc_verifier c) chosen with
      | Raise e => if caught_by runtime_handled (exn_class e)
                   then mret (stop_with "deterministic" "VERIFIER_FAILURE" ids fast)
                   else lift (Raise e)
      | Ok v =>
          if negb (vr_accepted v)
          then mret (stop_with "deterministic" "VERIFICATION_REJECTED" ids fast)
          else if bool_decide (ac_family chosen = DELIBERATE)
          then deliberate_or_stop state ids "CVOC_SELECTED_DELIBERATION" fast
                 (if requested_text_generation rq then requested_deliberator else None)
          else if negb (bool_decide (ac_risk_class chosen = READ_ONLY))
          then mret (mkFinish "deterministic" "EFFECT_EXECUTION_UNAVAILABLE" None ids
                       (Some (lower_bound decision)) "not_attempted" fast None [] None)
          else mret (mkFinish "recommendation" "VERIFIED_RECOMMENDATION" (Some chosen) ids
                       (Some (lower_bound decision)) "verified_not_committed" fast None [] None)
      end
  end.

(** What a decision of the fast path leads to. *)
Definition after_fast (rq : RuntimeRequest) (requested_deliberator : option (deliberator E D))
    (state : CompiledState) (candidates : list ActionCandidate) (fast : option FastPathDecision)
    : io E (finish_args D) :=
  let ids := map ac_id candidates in
  match fast with
  | None => select_and_verify rq requested_deliberator state candidates None
  | Some f =>
      if fp_abstained f then deliberate_or_stop state ids "SYSTEM_ONE_ABSTAINED" fast None
      else if bool_decide (fp_answers f !! "STOP_NOW" = Some "YES")
      then mret (stop_with "system_one" "STOP_NOW" ids fast)
      else if bool_decide (fp_answers f !! "DELIBERATION_REQUIRED" = Some "YES")
      then deliberate_or_stop state ids "DELIBERATION_REQUIRED" fast None
      else select_and_verify rq requested_deliberator state candidates fast
  end.

(** The stage of the fast path. *)
Definition consult_fast_path (rq : RuntimeRequest) (requested_deliberator : option (deliberator E D))
    (state : CompiledState) (candidates : list ActionCandidate) : io E (finish_args D) :=
  let ids := map ac_id candidates in
  if negb (system_one_enabled (sc_flags c))
  then select_and_verify rq requested_deliberator state candidates None
  else match sc_fast_path c with
  | None => mret (stop_with "deterministic" "SYSTEM_ONE_UNAVAILABLE" ids None)
  | Some fp =>
      if negb (String.eqb (fast_provider fp) (system_one_provider (sc_flags c)))
      then mret (stop_with "deterministic" "SYSTEM_ONE_PROVIDER_MISMATCH" ids None)
      else
        answer ← io_try
          (f ← fast_decide fp state control_questions "CONTROL" (language rq)
                 (map candidate_option candidates);
           mret (Some f))
          runtime_handled (fun _ => mret None);
        match answer with
        | None =>
            if requested_text_generation rq
            then after_fast rq requested_deliberator state candidates None
            else deliberate_or_stop state ids "SYSTEM_ONE_FAILURE" None None
        | Some f => after_fast rq requested_deliberator state candidates (Some f)
        end
  end.

(** Everything between the state hash and the final call of [finish]. *)
Definition decide_run (rq : RuntimeRequest) (requested_deliberator : option (deliberator E D))
    : io E (finish_args D) :=
  if negb (enabled_requested (sc_flags c))
  then mret (stop_with "deterministic" "C3R_DISABLED" [] None)
  else
    let compilation := StateCompiler.compile (sc_compiler c) (raw_state rq) in
    match StateSchema.state compilation with
    | None => mret (stop_with "deterministic" (status_value (StateSchema.status compilation)) [] None)
    | Some state =>
        let remaining_budget := default fzero (budget state !! "remaining_usd") in
        if flt remaining_budget fzero
        then mret (stop_with "deterministic" "INVALID_BUDGET" [] None)
        else
          compiled ← lift (CandidateCompiler.compile_hierarchical (sc_candidates c)
                             (List.filter (in_available_family state) (definitions rq)) (policy rq)
                             (hierarchical_request (sc_verifier c) remaining_budget));
          if cc_no_safe_action compiled
          then mret (stop_with "deterministic" "NO_SAFE_ACTION" (map ac_id (cc_candidates compiled)) None)
          else consult_fast_path rq requested_deliberator state (cc_candidates compiled)
    end.

(** [finish]. *)
Definition finish (rq : RuntimeRequest) (state_hash : string) (a : finish_args D) (l : L)
    : result (RuntimeOutcome D) * L :=
  match sink_append (trace_of rq state_hash a) l with
  | (Ok r, l') => (Ok (outcome_of a r), l')
  | (Raise e, l') => (Raise e, l')
  end.

(** [StandaloneController.run]. *)
Definition run (rq : RuntimeRequest) (requested_deliberator : option (deliberator E D))
    : io (E * L) (RuntimeOutcome D) := fun '(e, l) =>
  if negb (nonempty (rq_run_id rq)) then (raise ValueError "run_id is required", (e, l))
  else match state_hash_of (raw_state rq) with
  | Raise x => (Raise x, (e, l))
  | Ok state_hash =>
      match decide_run rq requested_deliberator e with
      | (Raise x, e') => (Raise x, (e', l))
      | (Ok a, e') => let '(out, l') := finish rq state_hash a l in (out, (e', l'))
      end
  end.
End controller.

(** ** What every stage of a run guarantees *)

Section stages.
Context {E D L : Type} `{!TraceSink L} (c : StandaloneController E D).

(** A recommendation: a read-only candidate that is not a deliberation, selected
    on a usable estimate with the recorded bound, and accepted by the policy's
    verifier. *)
Definition recommended (rq : RuntimeRequest) (candidates : list ActionCandidate) (a : finish_args D)
    (x : ActionCandidate) : Prop :=
  x ∈ candidates /\ ac_risk_class x = READ_ONLY /\ ac_family x <> DELIBERATE
  /\ (exists v, verify (sc_verifier c) x = Ok v /\ vr_accepted v = true)
  /\ (exists est, estimates rq !! ac_id x = Some est /\ usable est
       /\ fa_lower_bound a = Some (lower_bound_of (sc_cvoc c) est)
       /\ fle (lower_bound_of (sc_cvoc c) est) fzero = false)
  /\ fa_route a = "recommendation" /\ fa_reason a = "VERIFIED_RECOMMENDATION"
  /\ fa_authority a = "verified_not_committed" /\ fa_deliberation a = None.

(** What the arguments of a final [finish] satisfy. *)
Definition sound_finish (rq : RuntimeRequest) (candidates : list ActionCandidate)
    (a : finish_args D) : Prop :=
  Forall (fun kv => isfinite (snd kv) = true /\ flt (snd kv) fzero = false) (fa_system_cost a)
  /\ (fa_deliberation a <> None -> deliberative_enabled (sc_flags c) = true)
  /\ (fa_route a = "deliberative" <-> fa_deliberation a <> None)
  /\ match fa_selected a with
     | None => fa_authority a = "not_attempted" /\ fa_route a <> "recommendation"
     | Some x => recommended rq candidates a x
     end.

Lemma stop_with_sound rq candidates route reason ids fast :
  route ∈ ["deterministic"; "system_one"] ->
  sound_finish rq candidates (stop_with route reason ids fast).
Proof.
  intros Hr. unfold sound_finish, stop_with. cbn. split; [constructor|]. split; [done|].
  apply elem_of_cons in Hr as [->|Hr]; [done|]. by apply list_elem_of_singleton in Hr as ->.
Qed.

(** The exceptions an effectful component may raise without stopping the run. *)
Definition only_handled {A} (m : io E A) : Prop :=
  forall e x e', m e = (Raise x, e') -> caught_by runtime_handled (exn_class x) = true.

Definition tame_deliberator (d : option (deliberator E D)) : Prop :=
  forall f, d = Some f -> forall state, only_handled (f state).

Lemma deliberate_or_stop_sound rq candidates state ids reason fast other e a e' :
  deliberate_or_stop c state ids reason fast other e = (Ok a, e') ->
  sound_finish rq candidates a.
Proof.
  assert (Hstop : forall r, sound_finish rq candidates (stop_with "deterministic" r ids fast))
    by (intros; apply stop_with_sound; left).
  unfold deliberate_or_stop. destruct (match other with Some d => Some d | None => sc_deliberator c end) as [f|];
    [|by intros [= <- _]].
  destruct (deliberative_enabled (sc_flags c)) eqn:En; cbn [negb]; [|by intros [= <- _]].
  unfold io_try, mbind, io_bind. destruct (f state e) as [[d|x] e1].
  - intros [= <- _]. destruct d as [r|o].
    + destruct (existsb _ (observed_cost r)) eqn:Ec; [done|].
      apply existsb_false_Forall in Ec. split; [|done]. cbn. eapply Forall_impl; [exact Ec|].
      intros [k v] Hv. cbn in *. by bool_hyps.
    + split; [constructor|done].
  - destruct (caught_by _ _); [|done]. by intros [= <- _].
Qed.

Lemma deliberate_or_stop_total state ids reason fast other e :
  tame_deliberator other -> tame_deliberator (sc_deliberator c) ->
  exists a e', deliberate_or_stop c state ids reason fast other e = (Ok a, e').
Proof.
  intros Ho Hd. unfold deliberate_or_stop.
  destruct (match other with Some d => Some d | None => sc_deliberator c end) as [f|] eqn:Ef; [|eauto].
  assert (Hf : only_handled (f state)).
  { destruct other as [g|]; [injection Ef as ->; by apply Ho|by apply Hd]. }
  destruct (negb _); [eauto|]. unfold io_try, mbind, io_bind.
  destruct (f state e) as [[d|x] e1] eqn:E1; [by eauto|].
  rewrite (Hf _ _ _ E1). eauto.
Qed.

Lemma deliberate_or_stop_quiet state ids reason fast other e :
  deliberative_enabled (sc_flags c) = false ->
  exists a, deliberate_or_stop c state ids reason fast other e = (Ok a, e).
Proof.
  intros En. unfold deliberate_or_stop. rewrite En.
  destruct (match other with Some d => Some d | None => sc_deliberator c end); eauto.
Qed.

(** Every configured verifier raises only what the controller handles. *)
Definition tame_verifiers : Prop :=
  forall i f x e, fw_verifiers (sc_verifier c) !! i = Some f -> f x = Raise e ->
    caught_by runtime_handled (exn_class e) = true.

Lemma verify_raises_handled x e :
  tame_verifiers -> verify (sc_verifier c) x = Raise e -> caught_by runtime_handled (exn_class e) = true.
Proof.
  intros Ht. unfold verify. destruct (fw_verifiers (sc_verifier c) !! _) as [f|] eqn:Ef; [|by intros [= <-]].
  destruct (f x) as [d|e1] eqn:Ed; cbn [mbind result_bind]; [|intros [= <-]; by eapply Ht].
  unfold sign_fields. destruct (Z.ltb _ 16); cbn [mbind result_bind raise]; [by intros [= <-]|done].
Qed.

Lemma select_and_verify_sound rq rd state candidates fast e a e' :
  select_and_verify c rq rd state candidates fast e = (Ok a, e') -> sound_finish rq candidates a.
Proof.
  assert (Hstop : forall r f, sound_finish rq candidates (stop_with "deterministic" r (map ac_id candidates) f))
    by (intros; apply stop_with_sound; left).
  unfold select_and_verify. cbv zeta.
  destruct (selected (Cvoc.select (sc_cvoc c) candidates (estimates rq))) as [x|] eqn:Es.
  - destruct (verify (sc_verifier c) x) as [v|ex] eqn:Ev.
    2:{ destruct (caught_by _ _); [by intros [= <- _]|done]. }
    destruct (vr_accepted v) eqn:Ea; cbn [negb]; [|by intros [= <- _]].
    destruct (bool_decide_reflect (ac_family x = DELIBERATE)) as [|Hf];
      [by apply deliberate_or_stop_sound|].
    destruct (bool_decide_reflect (ac_risk_class x = READ_ONLY)) as [Hr|]; cbn [negb]; intros [= <- _].
    + apply select_usable_bound in Es as (Hx & est & He & Hu & Hb & Hpos).
      split; [constructor|]. split; [done|]. split; [done|]. cbn [fa_selected].
      split; [done|]. split; [done|]. split; [done|]. split; [eauto|]. split; [|done].
      exists est. cbn [fa_lower_bound]. by rewrite Hb.
    + split; [constructor|]. by repeat split.
  - destruct (requested_text_generation rq && present rd); [|by intros [= <- _]].
    destruct (find _ candidates) as [y|]; [|by intros [= <- _]].
    destruct (verify (sc_verifier c) y) as [v|ex].
    2:{ destruct (caught_by _ _); [by intros [= <- _]|done]. }
    destruct (vr_accepted v); [by apply deliberate_or_stop_sound|by intros [= <- _]].
Qed.

(** The components of a run raise nothing the controller does not handle. *)
Definition tame (rd : option (deliberator E D)) : Prop :=
  tame_verifiers /\ tame_deliberator rd /\ tame_deliberator (sc_deliberator c)
  /\ forall fp, sc_fast_path c = Some fp ->
       forall state qs family lang options, only_handled (fast_decide fp state qs family lang options).

Lemma select_and_verify_total rq rd state candidates fast e :
  tame rd -> exists a e', select_and_verify c rq rd state candidates fast e = (Ok a, e').
Proof.
  intros (Hv & Hrd & Hd & _).
  assert (Hrd' : tame_deliberator (if requested_text_generation rq then rd else None))
    by (destruct (requested_text_generation rq); done).
  unfold select_and_verify. cbv zeta.
  destruct (selected (Cvoc.select (sc_cvoc c) candidates (estimates rq))) as [x|].
  - destruct (verify (sc_verifier c) x) as [v|ex] eqn:Ev;
      [|rewrite (verify_raises_handled _ _ Hv Ev); eauto].
    destruct (negb (vr_accepted v)); [eauto|].
    destruct (bool_decide _); [by apply deliberate_or_stop_total|]. destruct (negb _); eauto.
  - destruct (requested_text_generation rq && present rd); [|eauto].
    destruct (find _ candidates) as [y|]; [|eauto].
    destruct (verify (sc_verifier c) y) as [v|ex] eqn:Ev;
      [|rewrite (verify_raises_handled _ _ Hv Ev); eauto].
    destruct (vr_accepted v); [by apply deliberate_or_stop_total|eauto].
Qed.

Lemma select_and_verify_quiet rq rd state candidates fast e :
  deliberative_enabled (sc_flags c) = false ->
  snd (select_and_verify c rq rd state candidates fast e) = e.
Proof.
  intros Hd.
  assert (Hq : forall ids why other, snd (deliberate_or_stop c state ids why fast other e) = e).
  { intros. by destruct (deliberate_or_stop_quiet state ids why fast other e Hd) as [? ->]. }
  unfold select_and_verify. cbv zeta.
  destruct (selected (Cvoc.select (sc_cvoc c) candidates (estimates rq))) as [x|].
  - destruct (verify (sc_verifier c) x) as [v|ex]; [|by destruct (caught_by _ _)].
    destruct (negb (vr_accepted v)); [done|]. destruct (bool_decide _); [done|]. by destruct (negb _).
  - destruct (requested_text_generation rq && present rd); [|done].
    destruct (find _ candidates) as [y|]; [|done].
    destruct (verify (sc_verifier c) y) as [v|ex]; [|by destruct (caught_by _ _)].
    by destruct (vr_accepted v).
Qed.

Lemma after_fast_sound rq rd state candidates fast e a e' :
  after_fast c rq rd state candidates fast e = (Ok a, e') -> sound_finish rq candidates a.
Proof.
  unfold after_fast. destruct fast as [f|]; [|apply select_and_verify_sound].
  destruct (fp_abstained f); [by apply deliberate_or_stop_sound|].
  destruct (bool_decide _). { intros [= <- _]. apply stop_with_sound. right; left. }
  destruct (bool_decide _); [by apply deliberate_or_stop_sound|apply select_and_verify_sound].
Qed.

Lemma after_fast_total rq rd state candidates fast e :
  tame rd -> exists a e', after_fast c rq rd state candidates fast e = (Ok a, e').
Proof.
  intros Ht. pose proof Ht as (_ & _ & Hd & _).
  unfold after_fast. destruct fast as [f|]; [|by apply select_and_verify_total].
  destruct (fp_abstained f); [by apply deliberate_or_stop_total|].
  destruct (bool_decide _); [eauto|].
  destruct (bool_decide _); [by apply deliberate_or_stop_total|by apply select_and_verify_total].
Qed.

Lemma consult_fast_path_sound rq rd state candidates e a e' :
  consult_fast_path c rq rd state candidates e = (Ok a, e') -> sound_finish rq candidates a.
Proof.
  unfold consult_fast_path. cbv zeta.
  destruct (negb (system_one_enabled (sc_flags c))); [apply select_and_verify_sound|].
  destruct (sc_fast_path c) as [fp|]; [|intros [= <- _]; apply stop_with_sound; left].
  destruct (negb (String.eqb _ _)); [intros [= <- _]; apply stop_with_sound; left|].
  intros H. apply io_bind_ok in H as (answer & e1 & _ & H).
  destruct answer as [f|]; [by eapply after_fast_sound|].
  destruct (requested_text_generation rq); [by eapply after_fast_sound|by eapply deliberate_or_stop_sound].
Qed.

Lemma consult_fast_path_total rq rd state candidates e :
  tame rd -> exists a e', consult_fast_path c rq rd state candidates e = (Ok a, e').
Proof.
  intros Ht. pose proof Ht as (_ & _ & Hd & Hfp). unfold consult_fast_path. cbv zeta.
  destruct (negb (system_one_enabled (sc_flags c))); [by apply select_and_verify_total|].
  destruct (sc_fast_path c) as [fp|] eqn:Ef; [|eauto].
  destruct (negb (String.eqb _ _)); [eauto|]. unfold io_try, mbind, io_bind.
  destruct (fast_decide fp state _ _ _ _ e) as [[f|x] e1] eqn:E1; [by apply after_fast_total|].
  rewrite (Hfp _ eq_refl _ _ _ _ _ _ _ _ E1). cbv [mret io_ret].
  destruct (requested_text_generation rq); [by apply after_fast_total|by apply deliberate_or_stop_total].
Qed.

(** The state and the candidates the selection of a run works on. *)
Definition run_candidates (rq : RuntimeRequest) (state : CompiledState) (compiled : CandidateCompilation) : Prop :=
  StateSchema.state (StateCompiler.compile (sc_compiler c) (raw_state rq)) = Some state
  /\ CandidateCompiler.compile_hierarchical (sc_candidates c)
       (List.filter (in_available_family state) (definitions rq)) (policy rq)
       (hierarchical_request (sc_verifier c) (default fzero (budget state !! "remaining_usd"))) = Ok compiled.

Lemma decide_run_sound rq rd e a e' :
  decide_run c rq rd e = (Ok a, e') ->
  (fa_selected a = None /\ sound_finish rq [] a)
  \/ enabled_requested (sc_flags c) = true
     /\ exists state compiled, run_candidates rq state compiled
        /\ sound_finish rq (cc_candidates compiled) a.
Proof.
  assert (Hstop : forall r ids, fa_selected (D := D) (stop_with "deterministic" r ids None) = None
    /\ sound_finish rq [] (stop_with "deterministic" r ids None))
    by (split; [done|apply stop_with_sound; left]).
  unfold decide_run. cbv zeta.
  destruct (enabled_requested (sc_flags c)) eqn:En; cbn [negb]; [|intros [= <- _]; by left].
  destruct (StateSchema.state _) as [state|] eqn:Es; [|intros [= <- _]; by left].
  destruct (flt _ fzero); [intros [= <- _]; by left|]. intros H.
  apply io_bind_ok in H as (compiled & e1 & Hc & H). apply lift_ok in Hc as [Hc ->].
  destruct (cc_no_safe_action compiled); [injection H as <- _; by left|].
  right. split; [done|]. exists state, compiled. split; [by split|]. by eapply consult_fast_path_sound.
Qed.

Lemma decide_run_total rq rd e :
  (1 <= CandidateCompiler.per_family_cap (sc_candidates c))%Z -> tame rd ->
  exists a e', decide_run c rq rd e = (Ok a, e').
Proof.
  intros Hcap Ht. unfold decide_run. cbv zeta. destruct (negb _); [eauto|].
  destruct (StateSchema.state _) as [state|]; [|eauto].
  destruct (flt _ fzero) eqn:Eb; [eauto|].
  destruct (CandidateCompiler.hierarchical_defaults_total (sc_candidates c)
    (List.filter (in_available_family state) (definitions rq)) (policy rq)
    (hierarchical_request (sc_verifier c) (default fzero (budget state !! "remaining_usd"))))
    as [compiled Hc]; [done..|].
  unfold mbind, io_bind, lift. rewrite Hc.
  destruct (cc_no_safe_action compiled); [eauto|by apply consult_fast_path_total].
Qed.

Lemma decide_run_quiet rq rd e :
  enabled_requested (sc_flags c) = false
  \/ system_one_enabled (sc_flags c) = false /\ deliberative_enabled (sc_flags c) = false ->
  snd (decide_run c rq rd e) = e.
Proof.
  intros Hq. unfold decide_run. cbv zeta. destruct (negb _) eqn:En; [done|].
  destruct Hq as [Hq|[Hs Hd]]; [by rewrite Hq in En|].
  destruct (StateSchema.state _) as [state|]; [|done]. destruct (flt _ fzero); [done|].
  unfold mbind, io_bind, lift. destruct (CandidateCompiler.compile_hierarchical _ _ _ _); [|done].
  destruct (cc_no_safe_action _); [done|]. unfold consult_fast_path. rewrite Hs. cbn [negb].
  by apply select_and_verify_quiet.
Qed.
End stages.

(** ** Properties *)

Section properties.
Context {E D L : Type} `{!TraceSink L} (c : StandaloneController E D).

(** A run that returns appended the trace of what [decide_run] decided. *)
Lemma run_ok rq rd e l o e' l' :
  run c rq rd (e, l) = (Ok o, (e', l')) ->
  exists hash a r, nonempty (rq_run_id rq) = true /\ state_hash_of (raw_state rq) = Ok hash
  /\ decide_run c rq rd e = (Ok a, e')
  /\ sink_append (trace_of rq hash a) l = (Ok r, l') /\ o = outcome_of a r.
Proof.
  unfold run. destruct (nonempty (rq_run_id rq)); cbn [negb]; [|done].
  destruct (state_hash_of (raw_state rq)) as [hash|x]; [|done].
  destruct (decide_run c rq rd e) as [[a|x] e1]; [|done].
  unfold finish. destruct (sink_append _ l) as [[r|x] l1] eqn:Es; [|done].
  intros H. apply pair_equal_spec in H as [H1 H]. apply pair_equal_spec in H as [<- <-].
  injection H1 as <-. eauto 10.
Qed.

(** C1: A selected action is a verified, affordable, permitted read-only action.
    Whenever an outcome of the controller names an action, C3R was enabled, the
    action is a candidate built from a definition of the request that passed
    every mask and prune and belongs to a family the state offers, the policy
    permits it, it is read-only and not a deliberation, its estimate is usable
    and its pessimistic value (the outcome's bound) is not at most zero, the
    verifier the policy selects accepted it, and the outcome is a recommendation
    that was not committed. *)
Theorem recommendation_is_verified rq rd e l o e' l' i
    (Hcap : (1 <= CandidateCompiler.per_family_cap (sc_candidates c))%Z)
    (Hrun : run c rq rd (e, l) = (Ok o, (e', l'))) (Hi : ro_selected_action_id o = Some i) :
  enabled_requested (sc_flags c) = true
  /\ exists state d x v est,
       StateSchema.state (StateCompiler.compile (sc_compiler c) (raw_state rq)) = Some state
       /\ d ∈ definitions rq /\ ad_family d ∈ available_action_families state
       /\ CandidateCompiler.is_feasible (policy rq)
            (hierarchical_request (sc_verifier c) (default fzero (budget state !! "remaining_usd"))) d = true
       /\ ac_id x = i /\ ac_family x = ad_family d /\ ac_risk_class x = ad_risk_class d
       /\ permits (policy rq) x = true /\ ac_risk_class x = READ_ONLY /\ ac_family x <> DELIBERATE
       /\ verify (sc_verifier c) x = Ok v /\ vr_accepted v = true
       /\ estimates rq !! i = Some est /\ usable est
       /\ cvoc_lower_bound o = Some (lower_bound_of (sc_cvoc c) est)
       /\ fle (lower_bound_of (sc_cvoc c) est) fzero = false
       /\ route o = "recommendation" /\ reason o = "VERIFIED_RECOMMENDATION"
       /\ ro_authority_result o = "verified_not_committed".
Proof.
  apply run_ok in Hrun as (hash & a & r & _ & _ & Ha & _ & ->).
  cbn [outcome_of ro_selected_action_id] in Hi.
  destruct (fa_selected a) as [x|] eqn:Ex; [|done]. injection Hi as <-.
  apply decide_run_sound in Ha as [[? _]|(Hen & state & compiled & [Hs Hc] & Hsound)]; [congruence|].
  split; [done|]. destruct Hsound as (_ & _ & _ & Hrec). rewrite Ex in Hrec.
  destruct Hrec as (Hx & Hro & Hnd & (v & Hv & Hacc) & (est & He & Hu & Hb & Hpos) & H1 & H2 & H3 & _).
  destruct (CandidateCompiler.hierarchical_candidate_of _ _ _ _ _ _ Hcap Hc Hx) as (d & Hd & Hf & Hp & Hfa & Hri).
  apply list_elem_of_In, filter_In in Hd as [Hd Hav]. apply list_elem_of_In in Hd.
  unfold in_available_family in Hav. apply bool_decide_eq_true in Hav.
  exists state, d, x, v, est. cbn. by rewrite H1, H2, H3, Hb.
Qed.

(** Every outcome is one trace, and a failed run is none.  On a sound sink, a
    run that returns appended exactly the record its outcome carries, and that
    record's text is the canonical form of a trace with the request's run id, the
    hash of its raw state, and the outcome's action, authority result, candidates
    and reason; a run that raises left the sink's records as they were. *)
Theorem every_outcome_is_traced rq rd e l out e' l'
    (Hl : sink_invariant l) (Hrun : run c rq rd (e, l) = (out, (e', l'))) :
  sink_invariant l'
  /\ match out with
     | Ok o =>
         sink_records l' = (if trace_persistence then sink_records l ++ [ledger_record o]
                            else sink_records l)%list
         /\ exists t,
              canonical_trace_json t = Ok (canonical_json (ledger_record o))
              /\ record_hash (ledger_record o)
                 = hash_record (previous_hash (ledger_record o)) (canonical_json (ledger_record o))
              /\ run_id t = rq_run_id rq /\ Ok (state_hash t) = state_hash_of (raw_state rq)
              /\ selected_action_id t = ro_selected_action_id o
              /\ authority_result t = ro_authority_result o
              /\ candidate_ids t = ro_candidate_ids o
              /\ task_outcome t !! "status" = Some (SStr (reason o))
     | Raise _ => sink_records l' = sink_records l
     end.
Proof.
  destruct out as [o|x].
  - apply run_ok in Hrun as (hash & a & r & _ & Hh & _ & Hs & ->).
    apply sink_append_ok in Hs as (Hl' & Hc & Hr & Hrec); [|done]. split; [done|].
    cbn [outcome_of ledger_record]. split; [done|]. exists (trace_of rq hash a).
    split; [done|]. split; [by rewrite Hr at 1|]. by rewrite Hh.
  - unfold run in Hrun. destruct (negb _); [by injection Hrun as _ _ <-|].
    destruct (state_hash_of (raw_state rq)) as [hash|y]; [|by injection Hrun as _ _ <-].
    destruct (decide_run c rq rd e) as [[a|y] e1]; [|by injection Hrun as _ _ <-].
    unfold finish in Hrun. destruct (sink_append _ l) as [[r|y] l1] eqn:Es; [done|].
    injection Hrun as _ _ <-. by eapply sink_append_raise.
Qed.

(** C36: Failures of the models and verifiers are outcomes, never exceptions.  With
    a run id, a raw state of finite numbers and components that raise only the
    four handled classes, the controller always reaches the final append: the run
    is that append's result. *)
Theorem run_is_total rq rd e l
    (Hid : rq_run_id rq <> "") (Hfin : all_finite (raw_state_json (raw_state rq)) = true)
    (Hcap : (1 <= CandidateCompiler.per_family_cap (sc_candidates c))%Z) (Ht : tame c rd) :
  exists hash a e' out l',
    state_hash_of (raw_state rq) = Ok hash
    /\ sink_append (trace_of rq hash a) l = (out, l')
    /\ run c rq rd (e, l) = (r ← out; Ok (outcome_of a r), (e', l')).
Proof.
  assert (Hn : nonempty (rq_run_id rq) = true) by (destruct (rq_run_id rq); done).
  assert (Hh : exists hash, state_hash_of (raw_state rq) = Ok hash).
  { unfold state_hash_of, dumps. rewrite Hfin, orb_true_r. eauto. }
  destruct Hh as [hash Hh]. destruct (decide_run_total c rq rd e Hcap Ht) as (a & e' & Ha).
  destruct (sink_append (trace_of rq hash a) l) as [out l'] eqn:Es.
  exists hash, a, e', out, l'. split; [done|]. split; [done|].
  unfold run. rewrite Hn. cbn [negb]. rewrite Hh, Ha. unfold finish. rewrite Es. by destruct out.
Qed.

(** The models are consulted only where the flags allow.  With C3R off, or
    with both System One and deliberation off, no run touches the outside world;
    an outcome carries a deliberation only when deliberation is enabled, then and
    only then its route is the deliberative one, it names no action, and the cost
    its trace records is finite and not negative. *)
Theorem models_need_their_flags rq rd e l out e' l'
    (Hrun : run c rq rd (e, l) = (out, (e', l'))) :
  (enabled_requested (sc_flags c) = false
   \/ system_one_enabled (sc_flags c) = false /\ deliberative_enabled (sc_flags c) = false -> e' = e)
  /\ forall o, out = Ok o ->
     (route o = "deliberative" <-> ro_deliberation o <> None)
     /\ (ro_deliberation o <> None ->
         deliberative_enabled (sc_flags c) = true /\ ro_selected_action_id o = None
         /\ exists hash a r, o = outcome_of a r /\ sink_append (trace_of rq hash a) l = (Ok r, l')
            /\ Forall (fun kv => isfinite (snd kv) = true /\ flt (snd kv) fzero = false) (fa_system_cost a)).
Proof.
  split.
  - intros Hq. pose proof (decide_run_quiet c rq rd e Hq) as Hd. unfold run in Hrun.
    destruct (negb _); [by injection Hrun as _ <- _|].
    destruct (state_hash_of (raw_state rq)) as [hash|y]; [|by injection Hrun as _ <- _].
    destruct (decide_run c rq rd e) as [[a|y] e1]; cbn [snd] in Hd; [|by injection Hrun as _ <- _].
    destruct (finish rq hash a l). by injection Hrun as _ <- _.
  - intros o ->. apply run_ok in Hrun as (hash & a & r & _ & _ & Ha & Hs & ->).
    assert (Hsound : exists cs, sound_finish c rq cs a)
      by (apply decide_run_sound in Ha as [[_ ?]|(_ & st & compiled & _ & ?)]; eauto).
    destruct Hsound as (cs & Hcost & Hdel & Hroute & Hsel). cbn [outcome_of route ro_deliberation].
    split; [done|]. intros Hn. split; [by apply Hdel|]. split; [|by exists hash, a, r].
    cbn [outcome_of ro_selected_action_id]. destruct (fa_selected a) as [x|]; [|done].
    destruct Hsel as (_ & _ & _ & _ & _ & _ & _ & _ & Hnone). congruence.
Qed.
End properties.

(** ** A concrete host *)

Definition example_definition : ActionDefinition :=
  mkActionDefinition "read" TOOL "files" "read" READ_ONLY [] [] ["strict"] fone fzero true "local" ∅ ∅.

Definition example_raw : RawState :=
  mkRawState "g" "s" [] [] [] [TOOL] [] [] {["remaining_usd" := fone]} ∅ ∅ "unknown" false "local"
    None fzero "low" ∅.

Definition example_policy : AuthorityPolicy := mkAuthorityPolicy {[TOOL]} {[READ_ONLY]} {["local"]}.

Definition example_request : RuntimeRequest :=
  mkRuntimeRequest example_raw [example_definition] example_policy
    {["read:0:default:strict" := mkValueEstimate (float_of_Z 5) fone fone fzero]} "run-1" "internal" "en" false.

Definition example_flags (system_one deliberative : bool) : FeatureFlags :=
  mkFlags true system_one deliberative false false false false "clm".

Definition example_controller (flags : FeatureFlags) : StandaloneController unit unit :=
  mkStandalone flags StateCompiler.default_compiler (CandidateCompiler.mkCandidateCompiler 4)
    (mkController fone) example_firewall None
    (Some (fun _ e => (Ok (Executed example_execution), e))) None.

Definition example_run (flags : FeatureFlags) (rq : RuntimeRequest) :
    result (RuntimeOutcome unit) * (unit * TraceLedger) :=
  run (example_controller flags) rq None (tt, mkLedger []).

(** What a check of a run's outcome sees. *)
Definition outcome_is (out : result (RuntimeOutcome unit) * (unit * TraceLedger))
    (P : RuntimeOutcome unit -> TraceLedger -> Prop) : Prop :=
  match out with (Ok o, (_, l)) => P o l | _ => False end.

Lemma example_recommends :
  outcome_is (example_run (example_flags false false) example_request)
    (fun o _ => ro_selected_action_id o = Some "read:0:default:strict").
Proof. vm_compute. reflexivity. Qed.

Lemma recommendation_is_verified_witness :
  outcome_is (example_run (example_flags false false) example_request)
    (fun o _ => route o = "recommendation" /\ ro_authority_result o = "verified_not_committed").
Proof.
  pose proof example_recommends as Hi. unfold example_run in *.
  destruct (run (example_controller (example_flags false false)) example_request None (tt, mkLedger []))
    as [[o|x] [e' l']] eqn:E; cbn [outcome_is] in *; [|destruct Hi].
  assert (Hcap : (1 <= CandidateCompiler.per_family_cap
    (sc_candidates (example_controller (example_flags false false))))%Z)
    by (vm_compute; discriminate).
  destruct (recommendation_is_verified _ _ _ _ _ _ _ _ _ Hcap E Hi)
    as (_ & st & d & x & v & est & _ & _ & _ & _ & _ & _ & _ & _ & _ & _ & _ & _ & _ & _ & _ & _ & H1 & _ & H2).
  split; [exact H1|exact H2].
Defined.

Lemma every_outcome_is_traced_witness :
  outcome_is (example_run (example_flags false false) example_request)
    (fun o l => records l = [ledger_record o]).
Proof.
  pose proof example_recommends as Hi. unfold example_run in *.
  destruct (run (example_controller (example_flags false false)) example_request None (tt, mkLedger []))
    as [[o|x] [e' l']] eqn:E; cbn [outcome_is] in *; [|destruct Hi].
  assert (Hl : sink_invariant (mkLedger [])) by exact I.
  destruct (every_outcome_is_traced _ _ _ _ _ _ _ _ Hl E) as (_ & Hr & _). exact Hr.
Defined.

(** A host whose only verifier always fails: the run still ends in an outcome. *)
Definition failing_firewall : VerifierFirewall :=
  mkFirewall {["strict" := fun _ => raise OSError "verifier offline"]}
    (mkVerifierPolicy "strict" ∅ "policy-v1") "verification-key".

Definition failing_controller : StandaloneController unit unit :=
  mkStandalone (example_flags false true) StateCompiler.default_compiler
    (CandidateCompiler.mkCandidateCompiler 4) (mkController fone) failing_firewall None
    (Some (fun _ e => (raise TimeoutError "model offline", e))) None.

Lemma run_is_total_witness :
  exists hash a e' out l',
    state_hash_of example_raw = Ok hash
    /\ sink_append (L := TraceLedger) (trace_of example_request hash a) (mkLedger []) = (out, l')
    /\ run failing_controller example_request None (tt, mkLedger [])
       = (r ← out; Ok (outcome_of a r), (e', l')).
Proof.
  assert (Hid : rq_run_id example_request <> "") by discriminate.
  assert (Hfin : all_finite (raw_state_json (raw_state example_request)) = true)
    by (vm_compute; reflexivity).
  assert (Hcap : (1 <= CandidateCompiler.per_family_cap (sc_candidates failing_controller))%Z)
    by (vm_compute; discriminate).
  assert (Ht : tame failing_controller None).
  { split; [|split; [|split]].
    - intros i f x e Hf Hx. cbn [failing_controller sc_verifier failing_firewall fw_verifiers] in Hf.
      apply lookup_singleton_Some in Hf as [_ <-]. cbn beta in Hx. injection Hx as <-. reflexivity.
    - intros f Hf. discriminate Hf.
    - intros f Hf state e x e' Hx. injection Hf as <-. cbn beta in Hx. injection Hx as <- _. reflexivity.
    - intros fp Hf. discriminate Hf. }
  exact (run_is_total failing_controller example_request None tt (mkLedger []) Hid Hfin Hcap Ht).
Defined.

(** A request for which only deliberation is on offer. *)
Definition deliberation_request : RuntimeRequest :=
  mkRuntimeRequest
    (mkRawState "g" "s" [] [] [] [DELIBERATE] [] [] {["remaining_usd" := fone]} ∅ ∅ "unknown" false
       "local" None fzero "low" ∅)
    [mkActionDefinition "think" DELIBERATE "text" "think" READ_ONLY [] [] ["strict"] fone fzero true "local" ∅ ∅]
    (mkAuthorityPolicy {[DELIBERATE]} {[READ_ONLY]} {["local"]})
    {["think:0:default:strict" := mkValueEstimate (float_of_Z 5) fone fone fzero]} "run-2" "internal" "en" false.

Lemma example_deliberates :
  outcome_is (example_run (example_flags false true) deliberation_request)
    (fun o _ => route o = "deliberative").
Proof. vm_compute. reflexivity. Qed.

Lemma models_need_their_flags_witness :
  outcome_is (example_run (example_flags false true) deliberation_request)
    (fun o _ => ro_deliberation o <> None /\ ro_selected_action_id o = None).
Proof.
  pose proof example_deliberates as Hi. unfold example_run in *.
  destruct (run (example_controller (example_flags false true)) deliberation_request None (tt, mkLedger []))
    as [[o|x] [e' l']] eqn:E; cbn [outcome_is] in *; [|destruct Hi].
  destruct (models_need_their_flags _ _ _ _ _ _ _ _ E) as [_ H].
  destruct (H o eq_refl) as [Hr Hd]. apply Hr in Hi. split; [exact Hi|]. exact (proj1 (proj2 (Hd Hi))).
Defined.
