(* ===== verification/HostFactory.v ===== *)
(** * Host-owned requests
    ([c3r/host_factory.py], [c3r/catalogs/], [c3r/provenance.py],
    [c3r/action_taxonomy.py])

    A caller sends task text; definitions, policy, budget, data boundary and
    estimates come from the host.  The estimate source and [uuid4] are
    computations over the world [E]; a source that returns no mapping is [None]. *)

From Stdlib Require Import Lia ZArith Ascii String.
From stdpp Require Import base option strings gmap list.
From S2P Require Import Prelude PyStr PySort PyFloat FloatRepr Json Hash StateSchema.
From S2P Require StateCompiler CandidateCompiler.
From S2P Require Import Cvoc Authority VerifierFirewall TraceLedger Sinks SystemOne ClmAdapter.
From S2P Require Import Inference Controls Providers Runtime.

Local Open Scope string_scope.

(** [ACTION_FAMILIES] and [RISK_CLASSES]. *)
Definition ACTION_FAMILIES : list ActionFamily := all_families.
Definition RISK_CLASSES : list RiskClass := all_risks.

(** [provenance_for]. *)
Definition provenance_for (source observed_at content : string) : Provenance :=
  mkProvenance source observed_at (Some (sha256_hex (utf8 content))).

Section factory.
Context {E : Type} (uuid4 : io E string).

Definition EstimateSource : Type := RawState -> io E (option (gmap string ValueEstimate)).

Record ReadOnlyRequestFactory : Type := mkFactory {
  rf_definitions : list ActionDefinition;
  rf_policy : AuthorityPolicy;
  rf_estimate_source : EstimateSource;
  rf_remaining_usd : float;
  rf_model_inventory : list string;
  rf_data_boundary : string }.

(** [ReadOnlyRequestFactory.__init__]. *)
Definition make_factory (f : ReadOnlyRequestFactory) : result ReadOnlyRequestFactory :=
  if bool_decide (rf_definitions f = [])
     || existsb (fun d => negb (bool_decide (ad_risk_class d = READ_ONLY))) (rf_definitions f)
  then raise ValueError "HTTP catalog must contain read-only definitions only"
  else if negb (bool_decide (allowed_risks (rf_policy f) = {[READ_ONLY]}))
  then raise ValueError "HTTP policy must permit read-only risk only"
  else if negb (isfinite (rf_remaining_usd f)) || flt (rf_remaining_usd f) fzero
  then raise ValueError "remaining_usd must be finite and non-negative"
  else if negb (bool_decide (rf_data_boundary f ∈ ["local"; "approved_remote"; "public"]))
  then raise ValueError "host data boundary must be explicit"
  else Ok f.

(** [_text(value, name)]. *)
Definition task_text (v : option json) (name : string) : result string :=
  match v with
  | Some (JStr s) =>
      if negb (nonempty (strip s)) || Z.ltb 4096 (len s)
      then raise ValueError (name ++ " must be non-empty bounded text") else Ok s
  | _ => raise ValueError (name ++ " must be non-empty bounded text")
  end.

(** [open_questions]. *)
Definition question_texts (v : option json) : result (list string) :=
  match default (JArr []) v with
  | JArr l => if Z.ltb 64 (lenZ l) then raise ValueError "open_questions must be a bounded array"
              else mapR (fun q => task_text (Some q) "open_question") l
  | _ => raise ValueError "open_questions must be a bounded array"
  end.

(** The raw state of a caller's text under the host's settings. *)
Definition factory_state (f : ReadOnlyRequestFactory) (goal current_subgoal : string)
    (open_questions : list string) : RawState :=
  mkRawState goal current_subgoal [] open_questions []
    (sorted_by CandidateCompiler.family_ltb (elements (allowed_families (rf_policy f))))
    [] (rf_model_inventory f) {["remaining_usd" := rf_remaining_usd f]} ∅ ∅ "unknown" false
    (rf_data_boundary f) None fzero "low" ∅.

(** [ReadOnlyRequestFactory.build]. *)
Definition factory_build (f : ReadOnlyRequestFactory) (payload : list (string * json))
    : io E RuntimeRequest :=
  goal ← lift (task_text (assoc "goal" payload) "goal");
  current_subgoal ← lift (task_text (assoc "current_subgoal" payload) "current_subgoal");
  open_questions ← lift (question_texts (assoc "open_questions" payload));
  let raw := factory_state f goal current_subgoal open_questions in
  source ← rf_estimate_source f raw;
  estimates ← lift (match source with
                    | Some m => Ok m
                    | None => raise ValueError "host estimate source returned an invalid mapping"
                    end);
  run_id ← uuid4;
  mret (mkRuntimeRequest raw (rf_definitions f) (rf_policy f) estimates run_id "internal" "en" false).

(** ** Catalogs *)

Record Catalog : Type := mkCatalog {
  cat_name : string; cat_definitions : list ActionDefinition; cat_policy : AuthorityPolicy }.

Definition catalog_operations : list (string * ActionFamily) :=
  [("STOP", STOP); ("WAIT", STOP); ("VERIFY", VERIFY); ("RETRIEVE", RETRIEVAL);
   ("SYSTEM_ONE", LOCAL_MODEL); ("DELIBERATE", DELIBERATE); ("CALL_LOCAL_MODEL", LOCAL_MODEL);
   ("CALL_FRONTIER_MODEL", FRONTIER_MODEL); ("ASK_USER", ASK_USER)].

Definition catalog_definition (op : string * ActionFamily) : ActionDefinition :=
  mkActionDefinition (fst op) (snd op) "compute" (fst op) READ_ONLY [[]] ["local"] ["recommendation"]
    fzero fzero true "local" ∅ ∅.

(** [general_catalog]; [browser_catalog] and [tool_catalog] are it under other names. *)
Definition general_catalog (name : string) : Catalog :=
  mkCatalog name (map catalog_definition catalog_operations)
    (mkAuthorityPolicy (list_to_set (map snd catalog_operations)) {[READ_ONLY]} {["local"]}).

Definition browser_catalog : Catalog := general_catalog "browser-v1".
Definition tool_catalog : Catalog := general_catalog "tool-routing-v1".

(** The factory of a catalog: no budget and no estimates. *)
Definition catalog_factory (c : Catalog) : ReadOnlyRequestFactory :=
  mkFactory (cat_definitions c) (cat_policy c) (fun _ e => (Ok (Some ∅), e)) fzero
    ["c3r-system-one"; "deepseek"] "local".

Definition CatalogRegistry : Type := list (string * ReadOnlyRequestFactory).

(** [CatalogRegistry.__init__]. *)
Definition make_registry (catalogs : list Catalog) : result CatalogRegistry :=
  factories ← mapR (fun c => f ← make_factory (catalog_factory c); Ok (cat_name c, f)) catalogs;
  Ok (dict_of_pairs factories).

(** [json.dumps(state, ensure_ascii=False, allow_nan=False)]. *)
Definition state_text_options : dump_options := DumpOptions ", " ": " false false false.

(** [payload.get("state", payload.get("current_subgoal", payload.get("goal")))]. *)
Definition state_field (payload : list (string * json)) : option json :=
  match assoc "state" payload with
  | Some v => Some v
  | None => match assoc "current_subgoal" payload with
            | Some v => Some v
            | None => assoc "goal" payload
            end
  end.

Definition optional_entry (k : string) (v : option json) : list (string * json) :=
  match v with Some j => [(k, j)] | None => [(k, JNull)] end.

(** [CatalogRegistry.build]. *)
Definition registry_build (r : CatalogRegistry) (payload : list (string * json)) : io E RuntimeRequest :=
  _ ← lift (raise_if (negb (keys_within payload
              ["goal"; "state"; "current_subgoal"; "open_questions"; "catalog"; "application_id"]))
              ValueError "caller authority or unsupported fields rejected");
  factory ← lift (match default (JStr "agent-v1") (assoc "catalog" payload) with
                  | JStr name => match assoc name r with
                                 | Some f => Ok f
                                 | None => raise ValueError "unregistered catalog"
                                 end
                  | _ => raise ValueError "unregistered catalog"
                  end);
  _ ← lift (match default JNull (assoc "application_id" payload) with
            | JNull => Ok tt
            | JStr s => raise_if (Z.ltb 128 (len s)) ValueError "invalid application identifier"
            | _ => raise ValueError "invalid application identifier"
            end);
  state ← lift (match state_field payload with
                | Some (JObj kvs) => text ← dumps state_text_options (JObj kvs); Ok (Some (JStr text))
                | v => Ok v
                end);
  factory_build factory
    (optional_entry "goal" (assoc "goal" payload) ++ optional_entry "current_subgoal" state
     ++ [("open_questions", default (JArr []) (assoc "open_questions" payload))])%list.
End factory.

(** ** Lemmas *)

Lemma dict_set_elem {V} k (v : V) d x : x ∈ dict_set k v d -> x = (k, v) \/ x ∈ d.
Proof.
  induction d as [|[k2 v2] d IH]; cbn [dict_set]; [rewrite list_elem_of_singleton; by left|].
  destruct (String.eqb_spec k k2) as [->|]; rewrite !elem_of_cons; [tauto|]. intros [->|H]; [tauto|]. destruct (IH H); tauto.
Qed.

Lemma dict_of_pairs_elem {V} (l : list (string * V)) x : x ∈ dict_of_pairs l -> x ∈ l.
Proof.
  unfold dict_of_pairs. enough (H : forall d, x ∈ fold_left (fun d kv => dict_set (fst kv) (snd kv) d) l d ->
    x ∈ d \/ x ∈ l) by (intros Hx; apply H in Hx as [Hx|Hx]; [by apply elem_of_nil in Hx|done]).
  induction l as [|[k v] l IH]; intros d Hx; cbn [fold_left] in Hx; [by left|].
  apply IH in Hx as [Hx|Hx]; [|by right; right].
  apply dict_set_elem in Hx as [->|Hx]; [by right; left|by left].
Qed.

Lemma assoc_in {V} k (l : list (string * V)) v : assoc k l = Some v -> (k, v) ∈ l.
Proof.
  induction l as [|[k2 v2] l IH]; cbn [assoc]; [done|].
  destruct (String.eqb_spec k k2) as [->|]; [intros [= ->]; left|intros H; right; eauto].
Qed.

Lemma make_factory_ok {E} (f g : @ReadOnlyRequestFactory E) :
  make_factory f = Ok g ->
  g = f /\ Forall (fun d => ad_risk_class d = READ_ONLY) (rf_definitions f)
  /\ allowed_risks (rf_policy f) = {[READ_ONLY]}.
Proof.
  unfold make_factory. destruct (bool_decide (rf_definitions f = [])); [done|]. cbn [orb].
  destruct (existsb _ _) eqn:Ee; [done|].
  destruct (bool_decide_reflect (allowed_risks (rf_policy f) = {[READ_ONLY]})); cbn [negb]; [|done].
  destruct (negb (isfinite _) || _); [done|]. destruct (negb _); [done|]. intros [= <-].
  split; [done|]. split; [|done]. apply existsb_false_Forall in Ee.
  eapply Forall_impl; [exact Ee|]. intros d Hd. cbn beta in Hd. by bool_hyps.
Qed.

Lemma registry_factory {E} catalogs (r : @CatalogRegistry E) name f :
  make_registry catalogs = Ok r -> assoc name r = Some f ->
  exists c, c ∈ catalogs /\ cat_name c = name /\ f = catalog_factory c
  /\ Forall (fun d => ad_risk_class d = READ_ONLY) (cat_definitions c)
  /\ allowed_risks (cat_policy c) = {[READ_ONLY]}.
Proof.
  unfold make_registry. intros H Ha. apply bind_ok in H as (fs & Hfs & H). injection H as <-.
  apply assoc_in, dict_of_pairs_elem in Ha. apply mapR_ok in Hfs.
  apply list_elem_of_lookup in Ha as [i Hi].
  destruct (Forall2_lookup_r _ _ _ _ _ Hfs Hi) as (c & Hc & Hok).
  apply bind_ok in Hok as (g & Hg & Hok). injection Hok as <- <-.
  apply make_factory_ok in Hg as (-> & Hr & Hp).
  exists c. split; [by eapply list_elem_of_lookup_2|]. done.
Qed.

(** Bounded task text. *)
Definition task_bounded (s : string) : Prop := nonempty (strip s) = true /\ (len s <= 4096)%Z.

Lemma task_text_ok v name s : task_text v name = Ok s -> v = Some (JStr s) /\ task_bounded s.
Proof.
  destruct v as [[| | | |t| |]|]; cbn [task_text]; try done.
  destruct (nonempty (strip t)) eqn:En; cbn [negb orb]; [|done].
  destruct (Z.ltb_spec 4096 (len t)); [done|]. by intros [= <-].
Qed.

Lemma question_texts_ok v l : question_texts v = Ok l -> (lenZ l <= 64)%Z /\ Forall task_bounded l.
Proof.
  unfold question_texts. destruct (default (JArr []) v) as [| | | | |items|]; try done.
  destruct (Z.ltb_spec 64 (lenZ items)) as [|Hle]; [done|]. intros H. apply mapR_ok in H.
  split; [unfold lenZ in *; by rewrite <- (Forall2_length _ _ _ H)|].
  apply Forall_lookup. intros i s Hi. destruct (Forall2_lookup_r _ _ _ _ _ H Hi) as (q & _ & Hq).
  by apply task_text_ok in Hq as [_ ?].
Qed.

(** The request a factory builds: the caller's text, everything else the host's. *)
Lemma factory_build_ok {E} uuid4 (f : @ReadOnlyRequestFactory E) payload e rq e' :
  factory_build uuid4 f payload e = (Ok rq, e') ->
  exists goal subgoal questions m run_id e1 e2,
    assoc "goal" payload = Some (JStr goal) /\ assoc "current_subgoal" payload = Some (JStr subgoal)
    /\ Forall task_bounded (goal :: subgoal :: questions) /\ (lenZ questions <= 64)%Z
    /\ rf_estimate_source f (factory_state f goal subgoal questions) e = (Ok (Some m), e1)
    /\ uuid4 e1 = (Ok run_id, e2)
    /\ rq = mkRuntimeRequest (factory_state f goal subgoal questions) (rf_definitions f) (rf_policy f)
              m run_id "internal" "en" false.
Proof.
  unfold factory_build. intros H.
  apply io_bind_ok in H as (goal & w1 & Hg & H). apply lift_ok in Hg as [Hg ->].
  apply io_bind_ok in H as (subgoal & w2 & Hs & H). apply lift_ok in Hs as [Hs ->].
  apply io_bind_ok in H as (questions & w3 & Hq & H). apply lift_ok in Hq as [Hq ->].
  cbv zeta in H. apply io_bind_ok in H as (source & w4 & Hsrc & H).
  apply io_bind_ok in H as (m & w5 & Hm & H). apply lift_ok in Hm as [Hm ->].
  apply io_bind_ok in H as (run_id & w6 & Hu & H). injection H as <- <-.
  destruct source as [m'|]; [|done]. injection Hm as ->.
  apply task_text_ok in Hg as [Hg Hg']. apply task_text_ok in Hs as [Hs Hs'].
  apply question_texts_ok in Hq as [Hq Hq'].
  exists goal, subgoal, questions, m, run_id, w4, w6. split; [done|]. split; [done|].
  split; [constructor; [done|]; by constructor|]. done.
Qed.

(** Without estimates no run names an action. *)
Lemma no_estimates_no_action {E D L} `{!TraceSink L} (c : StandaloneController E D) rq rd e l o e' l' :
  estimates rq = ∅ -> run c rq rd (e, l) = (Ok o, (e', l')) -> ro_selected_action_id o = None.
Proof.
  intros Hest Hrun. apply run_ok in Hrun as (hash & a & r & _ & _ & Ha & _ & ->).
  cbn [outcome_of ro_selected_action_id]. destruct (fa_selected a) as [x|] eqn:Ex; [|done]. exfalso.
  assert (exists cs, sound_finish c rq cs a) as (cs & _ & _ & _ & Hsel)
    by (apply decide_run_sound in Ha as [[_ ?]|(_ & ? & ? & _ & ?)]; eauto).
  rewrite Ex in Hsel. destruct Hsel as (_ & _ & _ & _ & (est & He & _) & _).
  rewrite Hest in He. by rewrite lookup_empty in He.
Qed.

(** ** Properties *)

(** A caller of the catalogs supplies text and nothing else.  Every request the
    registry builds has the definitions and policy of one registered catalog, all
    read-only, no estimates, a zero budget, the local data boundary and bounded
    non-blank text; and whatever controller runs it, the outcome names no action:
    the catalogs give no caller a way to an action. *)
Theorem catalog_grants_no_action {E} uuid4 catalogs (r : @CatalogRegistry E) payload e rq e'
    (Hr : make_registry catalogs = Ok r) (Hb : registry_build uuid4 r payload e = (Ok rq, e')) :
  (exists c, c ∈ catalogs /\ definitions rq = cat_definitions c /\ policy rq = cat_policy c
     /\ Forall (fun d => ad_risk_class d = READ_ONLY) (definitions rq)
     /\ allowed_risks (policy rq) = {[READ_ONLY]})
  /\ estimates rq = ∅ /\ raw_budget (raw_state rq) = {["remaining_usd" := fzero]}
  /\ raw_data_boundary (raw_state rq) = "local" /\ requested_text_generation rq = false
  /\ Forall task_bounded (raw_goal (raw_state rq) :: raw_current_subgoal (raw_state rq)
                          :: raw_open_questions (raw_state rq))
  /\ (lenZ (raw_open_questions (raw_state rq)) <= 64)%Z
  /\ (forall k v, (k, v) ∈ payload ->
        k ∈ ["goal"; "state"; "current_subgoal"; "open_questions"; "catalog"; "application_id"])
  /\ forall E' D L (sink : TraceSink L) (c : StandaloneController E' D) rd w l o w' l',
       run c rq rd (w, l) = (Ok o, (w', l')) -> ro_selected_action_id o = None.
Proof.
  unfold registry_build in Hb.
  apply io_bind_ok in Hb as (u & w1 & Hk & Hb). apply lift_ok in Hk as [Hk ->].
  apply raise_if_ok in Hk. apply negb_false_iff in Hk.
  apply io_bind_ok in Hb as (f & w1 & Hf & Hb). apply lift_ok in Hf as [Hf ->].
  apply io_bind_ok in Hb as (u2 & w1 & _ & Hb). apply io_bind_ok in Hb as (st & w2 & _ & Hb).
  destruct (default _ (assoc "catalog" payload)) as [| | | |name| |]; try done.
  destruct (assoc name r) as [g|] eqn:Eg; [|done]. injection Hf as ->.
  destruct (registry_factory _ _ _ _ Hr Eg) as (c & Hc & _ & -> & Hro & Hpol).
  apply factory_build_ok in Hb as (goal & sub & qs & m & rid & e1 & e2 & _ & _ & Htext & Hlen & Hsrc & _ & ->).
  cbn [catalog_factory rf_estimate_source] in Hsrc. injection Hsrc as <- <-.
  cbn [definitions policy estimates raw_state requested_text_generation factory_state raw_budget
    raw_data_boundary raw_goal raw_current_subgoal raw_open_questions catalog_factory rf_definitions
    rf_policy rf_remaining_usd rf_data_boundary].
  split; [exists c; done|]. do 6 (split; [done|]). split.
  - intros k v Hin. unfold keys_within in Hk. apply forallb_true_Forall in Hk.
    rewrite Forall_forall in Hk. specialize (Hk _ Hin). by apply bool_decide_eq_true in Hk.
  - intros E' D L sink c' rd w l o w' l'. by apply no_estimates_no_action.
Qed.

Definition example_payload : list (string * json) := [("goal", JStr "summarise")].

Definition example_uuid : io unit string := fun e => (Ok "00000000-0000-4000-8000-000000000000", e).

Definition example_registry : result (@CatalogRegistry unit) :=
  make_registry [general_catalog "agent-v1"; tool_catalog].

Lemma example_registry_builds :
  match example_registry with
  | Ok r => is_ok (fst (registry_build example_uuid r example_payload tt))
  | Raise _ => false
  end = true.
Proof. vm_compute. reflexivity. Qed.

Lemma catalog_grants_no_action_witness :
  exists r rq e', example_registry = Ok r /\ registry_build example_uuid r example_payload tt = (Ok rq, e')
  /\ estimates rq = ∅ /\ raw_data_boundary (raw_state rq) = "local".
Proof.
  pose proof example_registry_builds as H. destruct example_registry as [r|x] eqn:Hr; [|discriminate H].
  destruct (registry_build example_uuid r example_payload tt) as [[rq|x] e'] eqn:Eb; [|discriminate H].
  destruct (catalog_grants_no_action _ _ _ _ _ _ _ Hr Eb) as (_ & H1 & _ & H2 & _).
  exists r, rq, e'. split; [reflexivity|]. split; [exact Eb|]. split; [exact H1|exact H2].
Defined.
