(* ===== verification/Responses.v ===== *)
(** * Text responses ([c3r/responses.py])

    The Responses subset: requests are validated, decided by the controller with
    a text deliberator, and answered with one document or with a stream of
    events drawn from the generation stream.  [uuid4] and the wall clock are
    computations over the world [E]. *)

From Stdlib Require Import Lia ZArith Ascii String SpecFloat.
From stdpp Require Import base option strings gmap list.
From S2P Require Import Prelude PyStr PySort PyFloat FloatRepr Json Hash StateSchema.
From S2P Require Import TraceLedger Sinks SystemOne Invocations ClmAdapter Inference Controls Providers.
From S2P Require Import Runtime.

Local Open Scope string_scope.

Record TextGenerationResult : Type := mkTextResult {
  tg_text : string; tg_finish : string; tg_usage : list (string * float) }.

(** What a text deliberator returns. *)
Inductive text_deliberation : Type :=
  | TextResult (r : TextGenerationResult)
  | TextStream (s : TextGenerationStream).

(** ** Events *)

Inductive response_event : Type :=
  | Created (response : json)
  | Delta (identifier delta : string)
  | TextDone (identifier text : string)
  | Completed (response : json)
  | Failed (response : json).

(** The name and data of an event. *)
Definition event_data (ev : response_event) : string * json :=
  match ev with
  | Created r => ("response.created", JObj [("type", JStr "response.created"); ("response", r)])
  | Delta i d =>
      ("response.output_text.delta",
       JObj [("type", JStr "response.output_text.delta"); ("response_id", JStr i);
             ("output_index", JInt 0); ("content_index", JInt 0); ("delta", JStr d)])
  | TextDone i t =>
      ("response.output_text.done",
       JObj [("type", JStr "response.output_text.done"); ("response_id", JStr i);
             ("output_index", JInt 0); ("content_index", JInt 0); ("text", JStr t)])
  | Completed r => ("response.completed", JObj [("type", JStr "response.completed"); ("response", r)])
  | Failed r =>
      ("response.failed",
       JObj [("type", JStr "response.failed"); ("response", r);
             ("error", JObj [("type", JStr "server_error"); ("message", JStr "Generation failed.")])])
  end.

Record ResponseEventStream : Type := mkEvents {
  es_backend : TextGenerationStream;
  es_identifier : string;
  es_message_id : string;
  es_reason : string;
  es_provider : string;
  es_created_at : Z;
  es_started : bool;
  es_done : bool;
  es_pending : list response_event;
  es_text : string;
  es_finish : option string;
  es_usage : option (list (string * Z)) }.

Definition open_events (backend : TextGenerationStream) (identifier message_id reason provider : string)
    (created_at : Z) : ResponseEventStream :=
  mkEvents backend identifier message_id reason provider created_at false false [] "" None None.

(** The total of the two counters; a usage always has both. *)
Definition usage_json (usage : option (list (string * Z))) : result json :=
  match usage with
  | None => Ok JNull
  | Some u =>
      match assoc "input_tokens" u, assoc "output_tokens" u with
      | Some i, Some o =>
          Ok (JObj [("input_tokens", JInt i); ("output_tokens", JInt o); ("total_tokens", JInt (i + o))])
      | _, _ => raise KeyError "input_tokens"
      end
  end.

Definition controller_json (reason provider : string) : list (string * json) :=
  [("route", JStr "deliberative"); ("system_one_provider", JStr "clm");
   ("controller_reason", JStr reason); ("effect_executed", JBool false);
   ("selection_basis", JStr "explicit_text_only_request_policy_fallback");
   ("calibrated", JBool false); ("provider", JStr provider)].

Definition message_json (message_id status text : string) : json :=
  JObj [("id", JStr message_id); ("type", JStr "message"); ("role", JStr "assistant");
        ("status", JStr status);
        ("content", JArr [JObj [("type", JStr "output_text"); ("text", JStr text);
                                ("annotations", JArr [])]])].

(** [_response(status)]. *)
Definition response_json (s : ResponseEventStream) (status : string) : result json :=
  usage ← usage_json (es_usage s);
  Ok (JObj [("id", JStr (es_identifier s)); ("object", JStr "response");
            ("created_at", JInt (es_created_at s)); ("model", JStr "c3r-core"); ("status", JStr status);
            ("store", JBool false);
            ("output", JArr (if String.eqb status "in_progress" then []
                             else [message_json (es_message_id s) status (es_text s)]));
            ("usage", usage); ("c3r", JObj (controller_json (es_reason s) (es_provider s)))]).

Definition with_backend (b : TextGenerationStream) (s : ResponseEventStream) : ResponseEventStream :=
  mkEvents b (es_identifier s) (es_message_id s) (es_reason s) (es_provider s) (es_created_at s)
    (es_started s) (es_done s) (es_pending s) (es_text s) (es_finish s) (es_usage s).

Definition with_progress (text : string) (finish : option string) (usage : option (list (string * Z)))
    (s : ResponseEventStream) : ResponseEventStream :=
  mkEvents (es_backend s) (es_identifier s) (es_message_id s) (es_reason s) (es_provider s)
    (es_created_at s) (es_started s) (es_done s) (es_pending s) text finish usage.

Definition with_flags (started done : bool) (pending : list response_event) (s : ResponseEventStream)
    : ResponseEventStream :=
  mkEvents (es_backend s) (es_identifier s) (es_message_id s) (es_reason s) (es_provider s)
    (es_created_at s) started done pending (es_text s) (es_finish s) (es_usage s).

Definition MAX_TEXT_BYTES : Z := 65536.

Section events.
Context (loads_bytes : string -> result json).

(** The outcome of the [try] block: an event, or an exception with the state it
    was raised in. *)
Definition attempt : Type := result response_event * ResponseEventStream.

(** The [while] loop, on fuel: the backend's deliveries bound its turns. *)
Fixpoint pull (fuel : nat) (s : ResponseEventStream) : attempt :=
  match fuel with
  | O => (raise RuntimeError "out of fuel", s)
  | S fuel =>
      match stream_next loads_bytes (es_backend s) with
      | (Raise e, b) =>
          let s := with_backend b s in
          if bool_decide (exn_class e = StopIteration)
          then match es_finish s with
               | None => (raise RuntimeError "provider stream omitted finish reason", s)
               | Some f =>
                   let s := with_flags (es_started s) true (es_pending s) s in
                   let status := if String.eqb f "stop" then "completed" else "incomplete" in
                   match response_json s status with
                   | Raise e => (Raise e, s)
                   | Ok r => (Ok (TextDone (es_identifier s) (es_text s)),
                              with_flags (es_started s) true (es_pending s ++ [Completed r])%list s)
                   end
               end
          else (Raise e, s)
      | (Ok ev, b) =>
          let s := with_backend b s in
          let usage := match ev_counts ev with Some u => Some u | None => es_usage s end in
          let s := with_progress (es_text s) (es_finish s) usage s in
          let finish := match ev_finish ev with Some f => Some f | None => es_finish s end in
          if nonempty (ev_content ev)
          then if negb (bool_decide (es_finish s = None))
               then (raise RuntimeError "provider emitted text after finish", s)
               else
                 let s := with_progress (es_text s ++ ev_content ev) (es_finish s) usage s in
                 if Z.ltb MAX_TEXT_BYTES (len (utf8 (es_text s)))
                 then (raise RuntimeError "provider output exceeds byte limit", s)
                 else (Ok (Delta (es_identifier s) (ev_content ev)),
                       with_progress (es_text s) finish usage s)
          else pull fuel (with_progress (es_text s) finish usage s)
      end
  end.

Definition events_handled : list exn_kind := [OSError; RuntimeError; TypeError; ValueError].

(** [ResponseEventStream.__next__]. *)
Definition events_next (s : ResponseEventStream) : attempt :=
  match es_pending s with
  | ev :: rest => (Ok ev, with_flags (es_started s) (es_done s) rest s)
  | [] =>
      if es_done s then (Raise (Exn StopIteration ""), s)
      else if negb (es_started s)
      then let s := with_flags true (es_done s) [] s in
           match response_json s "in_progress" with
           | Ok r => (Ok (Created r), s)
           | Raise e => (Raise e, s)
           end
      else match pull (S (length (backend (es_backend s)))) s with
      | (Ok ev, s') => (Ok ev, s')
      | (Raise e, s') =>
          if caught_by events_handled (exn_class e)
          then let s' := with_flags (es_started s') true (es_pending s')
                           (with_backend (close_stream (es_backend s')) s') in
               match response_json s' "failed" with
               | Ok r => (Ok (Failed r), s')
               | Raise e => (Raise e, s')
               end
          else (Raise e, s')
      end
  end.

(** [for event in events]. *)
Fixpoint drain_events (fuel : nat) (s : ResponseEventStream)
    : list response_event * option exn * ResponseEventStream :=
  match fuel with
  | O => ([], None, s)
  | S fuel =>
      match events_next s with
      | (Raise e, s') => ([], Some e, s')
      | (Ok ev, s') => let '(evs, e, s'') := drain_events fuel s' in (ev :: evs, e, s'')
      end
  end.
End events.

(** ** The service *)

(** [ResponsesService._validate]: the text and the token limit. *)
Definition validate_request (enabled : bool) (payload : list (string * json)) (stream : bool) : result (string * Z) :=
  _ ← raise_if (negb (keys_within payload ["model"; "input"; "max_output_tokens"; "store"; "stream"]))
        ValueError "unsupported Responses fields";
  _ ← raise_if (negb (match assoc "model" payload with Some (JStr m) => String.eqb m "c3r-core" | _ => false end))
        ValueError "only c3r-core supports text generation";
  let is_bool b v := match v with JBool x => Bool.eqb x b | _ => false end in
  _ ← raise_if (negb (is_bool false (default (JBool false) (assoc "store" payload)))
                || negb (is_bool stream (default (JBool false) (assoc "stream" payload))))
        ValueError "storage is unsupported and stream must be an explicit boolean";
  request ← match assoc "input" payload, default (JInt 512) (assoc "max_output_tokens" payload) with
            | Some (JStr text), JInt maximum =>
                if negb (nonempty (strip text)) || Z.ltb 4096 (len text) || Z.ltb 16384 (len (utf8 text))
                   || negb (Z.leb 1 maximum && Z.leb maximum 2048)
                then raise ValueError "bounded text input and token limit required"
                else Ok (text, maximum)
            | _, _ => raise ValueError "bounded text input and token limit required"
            end;
  _ ← raise_if (negb enabled) RuntimeError "C3R disabled";
  Ok request.

Definition finish_status (finish : string) : string :=
  if String.eqb finish "stop" then "completed" else "incomplete".

Section service.
Context {E L : Type} `{!HasCounts E, !TraceSink L}
  (prompt : string) (urlparse : string -> result split_url)
  (transport : string -> list (string * string) -> list (string * json) -> io E TransportResponse)
  (net : split_url -> ProviderConfig -> connection E)
  (uuid4 : io E string) (wall_clock : io E float).

(** [TextDeliberator.deliberate]. *)
Definition text_deliberate (c : ProviderConfig) (maximum : Z) (stream : bool)
    : deliberator E text_deliberation := fun state =>
  local ← lift (is_local urlparse c);
  _ ← lift (raise_if (negb local && negb (bool_decide (data_boundary state ∈ ["approved_remote"; "public"])))
              ValueError "state is not approved for hosted generation");
  if stream
  then s ← stream_generate prompt urlparse net c (goal state) maximum;
       mret (Opaque (TextStream s))
  else r ← generate prompt transport c (goal state) maximum;
       let '(text, finish, usage) := r in
       mret (Opaque (TextResult (mkTextResult text finish usage))).

Record ResponsesService : Type := mkService {
  rs_runtime : StandaloneController E text_deliberation;
  rs_factory : list (string * json) -> io E RuntimeRequest;
  rs_provider : ProviderConfig }.

Definition in_world {A} (m : io E A) : io (E * L) A := fun '(e, l) =>
  let '(r, e') := m e in (r, (e', l)).

(** [ResponsesService._decide]. *)
Definition decide_text (s : ResponsesService) (text : string) (maximum : Z) (stream : bool)
    : io (E * L) (RuntimeOutcome text_deliberation) :=
  request ← in_world (rs_factory s [("goal", JStr text); ("current_subgoal", JStr text)]);
  run (rs_runtime s)
    (mkRuntimeRequest (raw_state request) (definitions request) (policy request) (estimates request)
       (rq_run_id request) (rq_access_level request) (language request) true)
    (Some (text_deliberate (rs_provider s) maximum stream)).

Definition usage_entry (usage : list (string * float)) (k : string) : result float :=
  match assoc k usage with Some x => Ok x | None => raise KeyError k end.

(** The document [respond] returns. *)
Definition respond_json (identifier message_id reason provider : string) (created_at : Z)
    (r : TextGenerationResult) : result json :=
  i ← usage_entry (tg_usage r) "input_tokens"; input ← int_of_float i;
  o ← usage_entry (tg_usage r) "output_tokens"; output ← int_of_float o;
  total ← int_of_float (fadd i o);
  let cost := match assoc "provider_cost_usd" (tg_usage r) with
              | Some x => [("observed_provider_cost_usd", JFloat x)]
              | None => []
              end in
  Ok (JObj [("id", JStr identifier); ("object", JStr "response"); ("created_at", JInt created_at);
            ("model", JStr "c3r-core"); ("status", JStr (finish_status (tg_finish r)));
            ("store", JBool false);
            ("output", JArr [message_json message_id (finish_status (tg_finish r)) (tg_text r)]);
            ("usage", JObj [("input_tokens", JInt input); ("output_tokens", JInt output);
                            ("total_tokens", JInt total)]);
            ("c3r", JObj (controller_json reason provider ++ cost)%list)]).

Definition declined {A} : result A := raise RuntimeError "controller declined text generation".

(** [ResponsesService.respond]. *)
Definition respond (s : ResponsesService) (payload : list (string * json)) : io (E * L) json :=
  request ← lift (validate_request (decision_enabled (rs_runtime s)) payload false);
  let '(text, maximum) := request in
  decision ← decide_text s text maximum false;
  match ro_deliberation decision with
  | Some (Object (TextResult r)) =>
      identifier ← in_world uuid4;
      now ← in_world wall_clock;
      created_at ← lift (int_of_float now);
      message_id ← in_world uuid4;
      lift (respond_json ("resp_" ++ identifier) ("msg_" ++ message_id) (reason decision)
              (provider_id (rs_provider s)) created_at r)
  | _ => lift declined
  end.

(** [ResponsesService.stream]. *)
Definition stream_response (s : ResponsesService) (payload : list (string * json))
    : io (E * L) ResponseEventStream :=
  request ← lift (validate_request (decision_enabled (rs_runtime s)) payload true);
  let '(text, maximum) := request in
  decision ← decide_text s text maximum true;
  match ro_deliberation decision with
  | Some (Object (TextStream b)) =>
      identifier ← in_world uuid4;
      message_id ← in_world uuid4;
      now ← in_world wall_clock;
      created_at ← lift (int_of_float now);
      mret (open_events b ("resp_" ++ identifier) ("msg_" ++ message_id) (reason decision)
              (provider_id (rs_provider s)) created_at)
  | _ => lift declined
  end.
End service.

(** ** Lemmas *)

Section grammar.
Context (loads_bytes : string -> result json).

(** The decoder and the backend raise only what the event stream handles. *)
Definition tame_backend (ds : list delivery) : Prop :=
  (forall x e, loads_bytes x = Raise e -> caught_by events_handled (exn_class e) = true)
  /\ forall d e, d ∈ ds -> outcome d = Raise e -> caught_by events_handled (exn_class e) = true.

Definition usage_ok (s : ResponseEventStream) : Prop := exists j, usage_json (es_usage s) = Ok j.

(** What every stage of an event stream keeps. *)
Definition sane (s : ResponseEventStream) : Prop :=
  shut (es_backend s) /\ tame_backend (backend (es_backend s)) /\ usage_ok s.

Lemma usage_json_valid ev u : valid_event ev -> ev_counts ev = Some u -> exists j, usage_json (Some u) = Ok j.
Proof.
  intros [_ H] Hu. destruct (H u Hu) as [Hn _].
  destruct u as [|[k1 i] [|[k2 o] [|]]]; try done. injection Hn as -> ->. cbn. eauto.
Qed.

Lemma response_json_ok s status : usage_ok s -> exists r, response_json s status = Ok r.
Proof. intros [j Hj]. unfold response_json. rewrite Hj. cbn. eauto. Qed.

Lemma handled_not_stop e : caught_by events_handled (exn_class e) = true -> exn_class e <> StopIteration.
Proof. intros H Hs. by rewrite Hs in H. Qed.

(** What one run of the loop leaves: a piece of text, the end, or an exception
    the caller turns into a failure. *)
Definition pulled (s : ResponseEventStream) (r : result response_event) (s' : ResponseEventStream) : Prop :=
  es_identifier s' = es_identifier s /\ es_started s' = es_started s /\ sane s'
  /\ match r with
     | Ok (Delta i d) =>
         i = es_identifier s /\ es_text s' = es_text s ++ d
         /\ (len (utf8 (es_text s')) <= MAX_TEXT_BYTES)%Z
         /\ length (backend (es_backend s')) < length (backend (es_backend s))
         /\ es_done s' = es_done s /\ es_pending s' = es_pending s
     | Ok (TextDone i t) =>
         i = es_identifier s /\ t = es_text s /\ es_done s' = true
         /\ finished (es_backend s') = true /\ connection_closed (es_backend s') = true
         /\ exists c, es_pending s' = (es_pending s ++ [Completed c])%list
     | Ok _ => False
     | Raise e => caught_by events_handled (exn_class e) = true /\ es_pending s' = es_pending s
     end.

Lemma pull_spec fuel s r s' :
  sane s -> length (backend (es_backend s)) < fuel -> pull loads_bytes fuel s = (r, s') -> pulled s r s'.
Proof.
  revert s r s'; induction fuel as [|fuel IH]; intros s r s' Hs Hlt H; [lia|].
  destruct Hs as (Hshut & [Hl Hd] & Hu). cbn [pull] in H.
  destruct (stream_next loads_bytes (es_backend s)) as [[ev|e] b] eqn:En.
  - destruct (stream_next_ok _ _ _ _ Hshut En) as (Hv & Hb & Hlen & Hin). cbv zeta in H.
    rewrite Forall_forall in Hin.
    assert (Ht : tame_backend (backend b)) by (split; [done|]; intros d e Hde; apply Hd; by apply Hin).
    set (usage := match ev_counts ev with Some u => Some u | None => es_usage s end) in *.
    assert (Huse : exists j, usage_json usage = Ok j).
    { unfold usage. destruct (ev_counts ev) eqn:Ec; [by eapply usage_json_valid|done]. }
    destruct (nonempty (ev_content ev)).
    + cbn [with_progress with_backend es_finish] in H.
      destruct (negb (bool_decide (es_finish s = None))).
      { injection H as <- <-. split; [done|]. split; [done|]. split; [by split|]. done. }
      destruct (Z.ltb_spec MAX_TEXT_BYTES (len (utf8 (es_text s ++ ev_content ev)))) as [Hgt|Hle];
        cbn [with_progress with_backend es_text] in H.
      all: destruct (Z.ltb_spec MAX_TEXT_BYTES (len (utf8 (es_text s ++ ev_content ev)))) in H; try lia.
      * injection H as <- <-. split; [done|]. split; [done|]. split; [by split|]. done.
      * injection H as <- <-. split; [done|]. split; [done|]. split; [by split|]. done.
    + apply IH in H.
      * destruct H as (H1 & H2 & H3 & H4). split; [done|]. split; [done|]. split; [done|].
        destruct r as [[| | | |]|]; try done; cbn in H4; intuition lia.
      * by split.
      * cbn. lia.
  - assert (Hclass : exn_class e = StopIteration \/ caught_by events_handled (exn_class e) = true).
    { unfold stream_next in En. destruct (finished (es_backend s)); [injection En as <- _; by left|].
      apply next_loop_class in En as [Hc|[(x & Hx)|(d & Hdin & Hx)]]; [|right; eauto..].
      apply elem_of_cons in Hc as [->|Hc]; [by left|right].
      repeat (apply elem_of_cons in Hc as [->|Hc]; [done|]). by apply elem_of_nil in Hc. }
    destruct (stream_next_shut loads_bytes (es_backend s) (Raise e) b Hshut En) as [Hb Hsub].
    assert (Ht : tame_backend (backend b)) by (split; [done|]; intros d e0 Hde; apply Hd; by apply Hsub).
    assert (Hsane : sane (with_backend b s)) by by split.
    cbv zeta in H. destruct (bool_decide_reflect (exn_class e = StopIteration)) as [Hstop|Hn].
    + destruct (stream_next_raise _ _ _ _ Hshut En) as [Hfin Hconn]; [intros; eapply handled_not_stop; eauto..|done|].
      destruct (es_finish (with_backend b s)) as [f|]; [|by injection H as <- <-].
      destruct (response_json_ok (with_flags (es_started s) true (es_pending s) (with_backend b s))
        (if String.eqb f "stop" then "completed" else "incomplete") Hu) as [c Hc].
      change (es_started (with_backend b s)) with (es_started s) in H.
      change (es_pending (with_backend b s)) with (es_pending s) in H.
      rewrite Hc in H. injection H as <- <-. split; [done|]. split; [done|]. split; [done|].
      do 5 (split; [done|]). by exists c.
    + injection H as <- <-. destruct Hclass as [?|?]; [done|]. done.
Qed.

(** The fuel given to the loop does not matter once it covers the deliveries. *)
Lemma pull_enough n m s :
  shut (es_backend s) -> length (backend (es_backend s)) < n -> length (backend (es_backend s)) < m ->
  pull loads_bytes n s = pull loads_bytes m s.
Proof.
  revert m s; induction n as [|n IH]; intros m s Hs Hn Hm; [lia|]. destruct m as [|m]; [lia|].
  cbn [pull]. destruct (stream_next loads_bytes (es_backend s)) as [[ev|e] b] eqn:En; [|done].
  destruct (stream_next_ok _ _ _ _ Hs En) as (_ & Hb & Hlen & _).
  destruct (nonempty (ev_content ev)); [done|]. apply IH; cbn; [done|lia..].
Qed.

Lemma utf8_len s : (len s <= len (utf8 s))%Z.
Proof.
  unfold len. induction s as [|ch s IH]; [done|]. cbn [utf8].
  destruct (Z.ltb (code ch) 128); cbn [String.length] in *; lia.
Qed.

Definition concat_text (l : list string) : string := fold_right String.append "" l.

(** The events of a started stream, and how they end. *)
Definition body_of (s : ResponseEventStream) (evs : list response_event) (s' : ResponseEventStream) : Prop :=
  exists deltas tail,
    evs = (map (Delta (es_identifier s)) deltas ++ tail)%list
    /\ (len (utf8 (es_text s)) <= MAX_TEXT_BYTES ->
        len (utf8 (es_text s ++ concat_text deltas)) <= MAX_TEXT_BYTES)%Z
    /\ ((exists r, tail = [TextDone (es_identifier s) (es_text s ++ concat_text deltas); Completed r])
        \/ (exists r, tail = [Failed r]))
    /\ finished (es_backend s') = true /\ connection_closed (es_backend s') = true.

Lemma drain_body fuel s evs e s' :
  sane s -> es_started s = true -> es_done s = false -> es_pending s = [] ->
  length (backend (es_backend s)) + 3 < fuel -> drain_events loads_bytes fuel s = (evs, e, s') ->
  e = Some (Exn StopIteration "") /\ body_of s evs s'.
Proof.
  revert s evs e s'; induction fuel as [|fuel IH]; intros s evs e s' Hs Hst Hd Hp Hlt H; [lia|].
  cbn [drain_events] in H. unfold events_next in H. rewrite Hp, Hd, Hst in H. cbn [negb] in H.
  destruct (pull loads_bytes (S (length (backend (es_backend s)))) s) as [r s1] eqn:Ep.
  apply pull_spec in Ep as (Hid & Hst1 & Hs1 & Hr); [|done|lia].
  destruct r as [ev|x].
  - destruct (drain_events loads_bytes fuel s1) as [[evs1 e1] s2] eqn:Edr. injection H as <- <- <-.
    destruct ev as [|i d|i t| |]; try done.
    + destruct Hr as (-> & Htext & Hle & Hlen & Hd1 & Hp1).
      apply IH in Edr; [|done|congruence|congruence|congruence|lia].
      destruct Edr as (-> & deltas & tail & -> & Hb & Ht & Hc). split; [done|].
      exists (d :: deltas), tail. rewrite Hid in *. rewrite Htext in *. cbn [map app concat_text fold_right].
      rewrite str_app_assoc in *. fold (concat_text deltas) in *. auto.
    + destruct Hr as (-> & -> & Hdone & Hf & Hcn & c & Hpend). rewrite Hp in Hpend. cbn [app] in Hpend.
      destruct fuel as [|[|fuel]]; [lia|lia|]. cbn [drain_events] in Edr. unfold events_next in Edr.
      rewrite Hpend in Edr. cbn [with_flags es_pending es_done] in Edr. rewrite Hdone in Edr.
      injection Edr as <- <- <-. split; [done|]. exists [], [TextDone (es_identifier s) (es_text s); Completed c].
      cbn [map app concat_text fold_right]. rewrite str_app_nil_r. split; [done|]. split; [done|].
      split; [left; eauto|]. done.
  - destruct Hr as [Hc Hpend]. rewrite Hc in H. destruct Hs1 as (Hsh & Ht & Hu).
    match type of H with context [response_json ?st "failed"] =>
      destruct (response_json_ok st "failed") as [rj Hrj]; [exact Hu|] end.
    rewrite Hrj in H. destruct (drain_events loads_bytes fuel _) as [[evs1 e1] s2] eqn:Edr in H.
    injection H as <- <- <-. destruct fuel as [|fuel]; [lia|]. cbn [drain_events] in Edr.
    unfold events_next in Edr. cbn [with_flags with_backend es_pending es_done] in Edr.
    rewrite Hpend, Hp in Edr. injection Edr as <- <- <-. split; [done|].
    destruct (closed_close _ Hsh) as (Hf & _ & Hcn).
    exists [], [Failed rj]. cbn [map app concat_text fold_right]. rewrite str_app_nil_r.
    split; [done|]. split; [done|]. split; [right; eauto|]. done.
Qed.
End grammar.

Lemma drain_events_S loads_bytes n s :
  drain_events loads_bytes (S n) s
  = match events_next loads_bytes s with
    | (Raise e, s') => ([], Some e, s')
    | (Ok ev, s') => let '(evs, e, s'') := drain_events loads_bytes n s' in (ev :: evs, e, s'')
    end.
Proof. done. Qed.

(** ** Properties *)


