(* ===== verification/HttpService.v ===== *)
(** * The HTTP boundary ([c3r/http_service.py])

    Rate limiting, metrics, authentication, routing and the mapping of outcomes
    and exceptions to replies.  The components behind the boundary are seen
    through [Host], their operations over a world [W]; a handler is a function
    of the server's state and a computation over that world. *)

From Stdlib Require Import Lia ZArith Ascii String.
From stdpp Require Import base option strings gmap list.
From S2P Require Import PyNumber.
From S2P Require Import Prelude PyStr PySort PyFloat FloatRepr Json Hash StateSchema.
From S2P Require Import TraceLedger SystemOne Invocations ClmAdapter Inference Providers Runtime Responses.

Local Open Scope string_scope.

Definition MAX_REQUEST_BYTES : Z := 65536.

(** ** Rate limiting *)

Record TokenBucket : Type := mkBucket {
  tb_capacity : Z; tb_refill : float; tb_tokens : float; tb_last : float }.

(** [TokenBucket.__init__]; [now] is the clock's reading. *)
Definition make_bucket (capacity : Z) (refill now : float) : result TokenBucket :=
  if Z.ltb capacity 1 || fle refill fzero then raise ValueError "rate limit must be positive"
  else Ok (mkBucket capacity refill (float_of_Z capacity) now).

(** The tokens after the refill of a call at [now]. *)
Definition refilled (b : TokenBucket) (now : float) : float :=
  fmin (float_of_Z (tb_capacity b))
    (fadd (tb_tokens b) (fmul (fmax fzero (fsub now (tb_last b))) (tb_refill b))).

(** [TokenBucket.take], under the lock. *)
Definition take_token (b : TokenBucket) (now : float) : bool * TokenBucket :=
  let tokens := refilled b now in
  if flt tokens fone then (false, mkBucket (tb_capacity b) (tb_refill b) tokens now)
  else (true, mkBucket (tb_capacity b) (tb_refill b) (fsub tokens fone) now).

(** ** Metrics *)

Definition ServiceMetrics : Type := gmap string Z.

Definition increment (name : string) (m : ServiceMetrics) : ServiceMetrics :=
  <[name := (default 0 (m !! name) + 1)%Z]> m.

(** ** Requests and replies *)

Record http_request : Type := mkHttp {
  h_path : string;
  h_authorization : list string;
  h_content_length : option string;
  h_body : string }.

(** A document, or an event stream already written to the client. *)
Inductive http_reply : Type :=
  | Sent (status : Z) (value : list (string * json))
  | Streamed
  | Disconnected.

(** How [_open_stream] left: the events, [None] for [ClientDisconnected], or another
    exception; and whether its watcher counted a disconnection. *)
Record opening : Type := mkOpening { op_result : result (option ResponseEventStream); op_counted : bool }.

(** How [_send_stream] left: whether it returned, whether it counted a
    disconnection and whether it gave the generation capacity back. *)
Record delivery : Type := mkDelivery { dv_result : result unit; dv_gone : bool; dv_released : bool }.

(** The components behind the boundary. *)
Record Host (W D : Type) : Type := mkHost {
  h_decision_enabled : bool;
  h_system_one_enabled : bool;
  h_provider_ready : io W bool;
  h_system_one_ready : option (io W bool);
  h_infer : option (list (string * json) -> io W (list (string * json)));
  h_responses : option (list (string * json) -> io W (list (string * json)));
  h_open_stream : list (string * json) -> W -> opening * W;
  h_send_stream : ResponseEventStream -> W -> delivery * W;
  h_factory : list (string * json) -> io W RuntimeRequest;
  h_run : RuntimeRequest -> io W (RuntimeOutcome D) }.
#[global] Arguments mkHost {W D}.
#[global] Arguments h_decision_enabled {W D}.
#[global] Arguments h_system_one_enabled {W D}.
#[global] Arguments h_provider_ready {W D}.
#[global] Arguments h_system_one_ready {W D}.
#[global] Arguments h_infer {W D}.
#[global] Arguments h_responses {W D}.
#[global] Arguments h_open_stream {W D}.
#[global] Arguments h_send_stream {W D}.
#[global] Arguments h_factory {W D}.
#[global] Arguments h_run {W D}.

Record C3RHTTPServer : Type := mkServer {
  sv_bearer_token : string;
  sv_limiter : TokenBucket;
  sv_metrics : ServiceMetrics;
  sv_capacity : Z }.

(** [C3RHTTPServer.__init__], before the socket is bound. *)
Definition make_server (host bearer_token : string) (effects : bool) (requests_per_minute : Z)
    (max_concurrent_generations : Z) (now : float) : result C3RHTTPServer :=
  if negb (bool_decide (host ∈ ["127.0.0.1"; "::1"; "localhost"]))
  then raise ValueError "C3R must bind to loopback behind a TLS gateway"
  else if Z.ltb (len bearer_token) 32
  then raise ValueError "bearer token must have at least 32 characters"
  else if effects then raise ValueError "the HTTP service cannot execute external effects"
  else if Z.ltb max_concurrent_generations 1
  then raise ValueError "generation capacity must be positive"
  else
    rate ← fdiv (float_of_Z requests_per_minute) (float_of_Z 60);
    limiter ← make_bucket requests_per_minute rate now;
    Ok (mkServer bearer_token limiter ∅ max_concurrent_generations).

Definition count (name : string) (s : C3RHTTPServer) : C3RHTTPServer :=
  mkServer (sv_bearer_token s) (sv_limiter s) (increment name (sv_metrics s)) (sv_capacity s).

Definition with_limiter (b : TokenBucket) (s : C3RHTTPServer) : C3RHTTPServer :=
  mkServer (sv_bearer_token s) b (sv_metrics s) (sv_capacity s).

Definition with_capacity (n : Z) (s : C3RHTTPServer) : C3RHTTPServer :=
  mkServer (sv_bearer_token s) (sv_limiter s) (sv_metrics s) n.

(** [_authorized]: exactly one header, equal as UTF-8 bytes. *)
Definition authorized (s : C3RHTTPServer) (r : http_request) : bool :=
  match h_authorization r with
  | [supplied] => String.eqb (utf8 ("Bearer " ++ sv_bearer_token s)) (utf8 supplied)
  | _ => false
  end.

Definition post_paths : list string :=
  ["/v1/decisions"; "/v1/c3r/decide"; "/v1/c3r/rank"; "/v1/system-one"; "/v1/c3r/execute"; "/v1/responses"].

Definition ranking_paths : list string := ["/v1/c3r/rank"; "/v1/system-one"].

Definition error_value (name : string) : list (string * json) := [("error", JStr name)].

Definition json_float_opt (v : option float) : json :=
  match v with Some x => JFloat x | None => JNull end.

(** [asdict] of a deliberation. *)
Definition plan_json (d : DeliberativeResult) : json :=
  JObj [("plan", json_strings (plan d)); ("assumptions", json_strings (assumptions d));
        ("uncertainty", json_strings (uncertainty d));
        ("candidate_commitments", json_strings (candidate_commitments d));
        ("requested_actions", json_strings (requested_actions d))].

(** The scores shown next to the candidates: one bounded score each, or none. *)
Definition shown_scores {D} (o : RuntimeOutcome D) : list float :=
  let scores := match ro_fast_path o with Some f => fp_candidate_probabilities f | None => [] end in
  if negb (Z.eqb (lenZ scores) (lenZ (ro_candidate_ids o)))
     || existsb (fun x => negb (isfinite x) || flt x fzero || flt fone x) scores
  then [] else scores.

(** The document of an outcome. *)
Definition outcome_json {D} (path : string) (o : RuntimeOutcome D) : list (string * json) :=
  ([("route", JStr (route o)); ("selected_action_id", json_opt (ro_selected_action_id o));
    ("authority_result", JStr (ro_authority_result o)); ("reason", JStr (reason o));
    ("trace_hash", JStr (record_hash (ledger_record o))); ("effect_executed", JBool false);
    ("cvoc", JObj [("selected_lower_bound", json_float_opt (cvoc_lower_bound o));
                   ("basis", JStr "host_supplied_estimates")])]
   ++ (if bool_decide (path ∈ ranking_paths)
       then [("abstained", JBool (match ro_fast_path o with Some f => fp_abstained f | None => true end));
             ("model_id", match ro_fast_path o with Some f => JStr (fp_model_id f) | None => JNull end);
             ("scope", JStr "controller_decision_with_system_one_fallback");
             ("candidate_ranking",
              JArr (map (fun p => JObj [("candidate_id", JStr (fst p)); ("system_one_score", JFloat (snd p));
                                        ("calibrated", JBool false)])
                        (rank_pairs (ro_candidate_ids o) (shown_scores o))))]
       else [])
   ++ match ro_deliberation o with Some (Plan d) => [("deliberation", plan_json d)] | _ => [] end)%list.

Section handler.
Context {W D : Type} `{!HasCounts W} (monotonic : io W float) (loads_bytes : string -> result json)
  (host : Host W D).

(** A handler's step: the reply or an escaped exception, the server and the world. *)
Definition handled_by (A : Type) : Type := C3RHTTPServer -> W -> result A * C3RHTTPServer * W.

(** [_send]: the invocation counters of the request join its metadata. *)
Definition send (status : Z) (value : list (string * json)) : handled_by http_reply :=
  fun s w => (Ok (Sent status (with_invocations value w)), s, w).

Definition count_and_send (metric : string) (status : Z) (value : list (string * json))
    : handled_by http_reply := fun s w => send status value (count metric s) w.

(** The [except] clauses of [_post]. *)
Definition on_exception (e : exn) : handled_by http_reply := fun s w =>
  if caught_by [KeyError; TypeError; ValueError; RecursionError; JSONDecodeError] (exn_class e)
  then count_and_send "invalid_request" 400 (error_value "invalid_request") s w
  else if caught_by [OSError; RuntimeError] (exn_class e)
  then count_and_send "internal_failure" 503 (error_value "service_unavailable") s w
  else (Raise e, s, w).

(** Run a component inside the [try]. *)
Definition within {A} (m : io W A) (k : A -> handled_by http_reply) : handled_by http_reply :=
  fun s w => match m w with
             | (Ok a, w') => k a s w'
             | (Raise e, w') => on_exception e s w'
             end.

Definition release (s : C3RHTTPServer) : C3RHTTPServer := with_capacity (sv_capacity s + 1)%Z s.

Definition count_if (b : bool) (name : string) (s : C3RHTTPServer) : C3RHTTPServer :=
  if b then count name s else s.

(** [payload.get("stream") is True]. *)
Definition wants_stream (payload : list (string * json)) : bool :=
  match assoc "stream" payload with Some (JBool b) => b | _ => false end.

(** The branch of "/v1/responses", the semaphore already acquired. *)
Definition post_response (respond : list (string * json) -> io W (list (string * json)))
    (payload : list (string * json)) : handled_by http_reply := fun s w =>
  if wants_stream payload
  then let '(o, w') := h_open_stream host payload w in
       let s := count_if (op_counted o) "stream_disconnect" s in
       match op_result o with
       | Raise e => on_exception e (release s) w'
       | Ok None => (Ok Disconnected, release s, w')
       | Ok (Some events) =>
           let s := count "text_responses" s in
           let '(d, w'') := h_send_stream host events w' in
           let s := count_if (dv_gone d) "stream_disconnect" s in
           let s := if dv_released d then release s else s in
           match dv_result d with
           | Ok _ => (Ok Streamed, s, w'')
           | Raise e => on_exception e s w''
           end
       end
  else match respond payload w with
       | (Raise e, w') => on_exception e (release s) w'
       | (Ok v, w') => count_and_send "text_responses" 200 v (release s) w'
       end.

(** The lines from the request factory to the last [_send]. *)
Definition post_decision (path : string) (payload : list (string * json)) : handled_by http_reply :=
  within (request ← h_factory host payload; h_run host request)
    (fun outcome => count_and_send "decisions" 200 (outcome_json path outcome)).

(** The branch of the ranking paths, else the decision. *)
Definition post_ranking (path : string) (payload : list (string * json)) : handled_by http_reply :=
  match h_infer host with
  | Some infer =>
      if bool_decide (path ∈ ranking_paths)
      then if negb (h_decision_enabled host && h_system_one_enabled host)
           then on_exception (Exn RuntimeError "System-One disabled")
           else within (infer payload) (count_and_send "system_one_inferences" 200)
      else post_decision path payload
  | None => post_decision path payload
  end.

(** The [try] block after the body is decoded. *)
Definition post_payload (path : string) (payload : list (string * json)) : handled_by http_reply := fun s w =>
  match h_responses host with
  | Some respond =>
      if String.eqb path "/v1/responses"
      then if Z.leb (sv_capacity s) 0
           then send 429 (error_value "capacity_exceeded") s w
           else post_response respond payload (with_capacity (sv_capacity s - 1)%Z s) w
      else post_ranking path payload s w
  | None => post_ranking path payload s w
  end.

(** [_post]. *)
Definition post (r : http_request) : handled_by http_reply := fun s w =>
  if negb (bool_decide (h_path r ∈ post_paths)) then send 404 (error_value "not_found") s w
  else if negb (authorized s r) then count_and_send "unauthorized" 401 (error_value "unauthorized") s w
  else match monotonic w with
  | (Raise e, w) => (Raise e, s, w)
  | (Ok now, w) =>
      let '(taken, limiter) := take_token (sv_limiter s) now in
      let s := with_limiter limiter s in
      if negb taken then count_and_send "rate_limited" 429 (error_value "rate_limited") s w
      else if String.eqb (h_path r) "/v1/c3r/execute"
              || (String.eqb (h_path r) "/v1/responses" && negb (present (h_responses host)))
      then send 501 [("error", JStr "not_implemented"); ("reason", JStr "recommendation_only")] s w
      else match parse_int (default "" (h_content_length r)) with
      | None => send 400 (error_value "invalid_content_length") s w
      | Some length =>
          if Z.ltb length 1 || Z.ltb MAX_REQUEST_BYTES length
          then send 413 (error_value "request_size_out_of_bounds") s w
          else match loads_bytes (String.substring 0 (Z.to_nat length) (h_body r)) with
          | Raise e => on_exception e s w
          | Ok (JObj payload) => post_payload (h_path r) payload s w
          | Ok _ => on_exception (Exn TypeError "JSON object required") s w
          end
      end
  end.

(** [do_POST]: the request's invocation counters live for its handling only. *)
Definition do_POST (r : http_request) : handled_by http_reply := fun s w =>
  let '(out, s', w') := post r s (set_counts (Some fresh_counts) w) in
  (out, s', set_counts (get_counts w) w').

(** A component's question inside a GET, no exception handled. *)
Definition asking {A} (m : io W A) (k : A -> handled_by http_reply) : handled_by http_reply :=
  fun s w => match m w with
             | (Ok a, w') => k a s w'
             | (Raise e, w') => (Raise e, s, w')
             end.

Definition service_ready : io W bool :=
  if h_decision_enabled host && h_system_one_enabled host then h_provider_ready host else mret false.

Definition ranking_ready : io W bool :=
  match h_system_one_ready host with
  | Some probe => if h_decision_enabled host && h_system_one_enabled host then probe else mret false
  | None => mret false
  end.

Definition model_json (id capability : string) (text_generation available : bool) : json :=
  JObj [("id", JStr id); ("capability", JStr capability); ("text_generation", JBool text_generation);
        ("calibrated", JBool false); ("effect_execution", JBool false); ("available", JBool available)].

(** [do_GET]. *)
Definition do_GET (r : http_request) : handled_by http_reply := fun s w =>
  if String.eqb (h_path r) "/health" then send 200 [("status", JStr "ok")] s w
  else if bool_decide (h_path r ∈ ["/ready"; "/v1/models"])
  then if negb (authorized s r) then send 401 (error_value "unauthorized") s w
       else if String.eqb (h_path r) "/ready"
       then asking service_ready (fun ok =>
              send (if ok then 200 else 503)
                [("status", JStr (if ok then "ready" else "disabled"));
                 ("scope", JStr "configured_provider_probe_and_decision_policy")]) s w
       else asking service_ready (fun available => asking ranking_ready (fun ranking =>
              let models := JArr
                [model_json "c3r-core" "verified_recommendation" (present (h_responses host)) available;
                 model_json "c3r-system-one" "advisory_ranking" false ranking;
                 model_json "c3r-verifier" "advisory_output_ranking" false ranking] in
              send 200 [("object", JStr "list"); ("data", models); ("models", models)])) s w
  else if String.eqb (h_path r) "/metrics"
  then if negb (authorized s r) then send 401 (error_value "unauthorized") s w
       else send 200 [("counts", json_map JInt (sv_metrics s))] s w
  else send 404 (error_value "not_found") s w.
End handler.

(** ** Lemmas *)

(** A full bucket never holds more than its capacity, whatever the clock does;
    a call is served exactly when the refilled level reaches one token, a
    refused call loses nothing, and a bucket whose clock stands still does not
    refill. *)
Theorem take_token_spec b now :
  let '(taken, b') := take_token b now in
  taken = negb (flt (refilled b now) fone)
  /\ flt (float_of_Z (tb_capacity b)) (refilled b now) = false
  /\ (taken = false -> tb_tokens b' = refilled b now)
  /\ (taken = true -> tb_tokens b' = fsub (refilled b now) fone)
  /\ tb_last b' = now /\ tb_capacity b' = tb_capacity b /\ tb_refill b' = tb_refill b.
Proof.
  assert (Hcap : flt (float_of_Z (tb_capacity b)) (refilled b now) = false).
  { unfold refilled, fmin. destruct (flt _ (float_of_Z (tb_capacity b))) eqn:E; [by apply flt_asym|apply flt_irrefl]. }
  unfold take_token. cbv zeta. by destruct (flt (refilled b now) fone).
Qed.

Definition reply_statuses : list Z := [200; 400; 401; 404; 413; 429; 501; 503]%Z.

Definition http_handled (e : exn) : bool :=
  caught_by [KeyError; TypeError; ValueError; RecursionError; JSONDecodeError] (exn_class e)
  || caught_by [OSError; RuntimeError] (exn_class e).

Section gate.
Context {W D : Type} `{!HasCounts W} (monotonic : io W float) (loads_bytes : string -> result json)
  (host : Host W D).

Definition raises_handled {A} (m : io W A) : Prop :=
  forall w e w', m w = (Raise e, w') -> http_handled e = true.

(** Every component raises only what the boundary maps to a reply, and the delivery
    of a stream gives the capacity back. *)
Record tame_host : Prop := {
  th_loads : forall x e, loads_bytes x = Raise e -> http_handled e = true;
  th_infer : forall f p, h_infer host = Some f -> raises_handled (f p);
  th_responses : forall f p, h_responses host = Some f -> raises_handled (f p);
  th_open : forall p w e, op_result (fst (h_open_stream host p w)) = Raise e -> http_handled e = true;
  th_send : forall ev w, let d := fst (h_send_stream host ev w) in
    dv_released d = true /\ forall e, dv_result d = Raise e -> http_handled e = true;
  th_factory : forall p, raises_handled (h_factory host p);
  th_run : forall rq, raises_handled (h_run host rq) }.

(** What a step of the handler guarantees: a reply of a known status and the
    capacity it was given. *)
Definition replies (n : Z) (x : result http_reply * C3RHTTPServer * W) : Prop :=
  let '(out, s', w') := x in
  sv_capacity s' = n
  /\ exists reply, out = Ok reply /\ forall st v, reply = Sent st v -> st ∈ reply_statuses.

Lemma sent_replies st v s w n :
  st ∈ reply_statuses -> sv_capacity s = n -> replies n (send st v s w).
Proof. intros Hst Hn. split; [done|]. eexists. split; [done|]. by intros ? ? [= <- _]. Qed.

Lemma on_exception_replies e s w n :
  http_handled e = true -> sv_capacity s = n -> replies n (on_exception e s w).
Proof.
  unfold http_handled, on_exception. intros He Hn.
  destruct (caught_by [KeyError; TypeError; ValueError; RecursionError; JSONDecodeError] _).
  - apply sent_replies; [apply (bool_decide_eq_true_1 _); reflexivity|done].
  - cbn [orb] in He. rewrite He. apply sent_replies; [apply (bool_decide_eq_true_1 _); reflexivity|done].
Qed.

Lemma within_replies {A} (m : io W A) k s w n :
  raises_handled m -> sv_capacity s = n -> (forall a w', replies n (k a s w')) -> replies n (within m k s w).
Proof.
  intros Hm Hn Hk. unfold within. destruct (m w) as [[a|e] w'] eqn:E; [done|].
  apply on_exception_replies; [by eapply Hm|done].
Qed.

Lemma counted_replies metric st v s w n :
  st ∈ reply_statuses -> sv_capacity s = n -> replies n (count_and_send metric st v s w).
Proof. intros. by apply sent_replies. Qed.

Lemma post_response_replies respond payload s w n :
  tame_host -> h_responses host = Some respond -> (sv_capacity s + 1)%Z = n ->
  replies n (post_response host respond payload s w).
Proof.
  intros Ht Hr Hn. unfold post_response. destruct (wants_stream payload).
  - pose proof (th_open Ht payload w) as Hopen.
    destruct (h_open_stream host payload w) as [[r counted] w1]. cbn in Hopen |- *.
    assert (Hc : forall m, sv_capacity (release (count_if counted m s)) = n) by (intros m; by destruct counted).
    destruct r as [[events|]|e].
    + pose proof (th_send Ht events w1) as [Hrel Hres].
      destruct (h_send_stream host events w1) as [[r gone released] w2] eqn:Es. cbn in *. rewrite Hrel.
      assert (Hc' : sv_capacity (release (count_if gone "stream_disconnect"
        (count "text_responses" (count_if counted "stream_disconnect" s)))) = n)
        by by destruct gone; apply (Hc "stream_disconnect").
      destruct r as [[]|e]; [split; [done|by eexists]|]. apply on_exception_replies; auto.
    + split; [apply Hc|]. by eexists.
    + apply on_exception_replies; [by apply Hopen|apply Hc].
  - destruct (respond payload w) as [[v|e] w1] eqn:Er.
    + apply sent_replies; [apply (bool_decide_eq_true_1 _); reflexivity|done].
    + apply on_exception_replies; [by eapply (th_responses Ht)|done].
Qed.

Lemma post_decision_replies path payload s w n :
  tame_host -> sv_capacity s = n -> replies n (post_decision host path payload s w).
Proof.
  intros Ht Hn. apply within_replies; [|done|].
  - intros w0 e w1 H. unfold mbind, io_bind in H.
    destruct (h_factory host payload w0) as [[rq|x] w2] eqn:Ef.
    + by eapply (th_run Ht).
    + injection H as <- <-. by eapply (th_factory Ht).
  - intros o w'. apply sent_replies; [apply (bool_decide_eq_true_1 _); reflexivity|done].
Qed.

Lemma post_ranking_replies path payload s w n :
  tame_host -> sv_capacity s = n -> replies n (post_ranking host path payload s w).
Proof.
  intros Ht Hn. unfold post_ranking. destruct (h_infer host) as [infer|] eqn:Ei;
    [|by apply post_decision_replies].
  destruct (bool_decide _); [|by apply post_decision_replies].
  destruct (negb _); [by apply on_exception_replies|].
  apply within_replies; [by eapply (th_infer Ht)|done|].
  intros v w'. apply sent_replies; [apply (bool_decide_eq_true_1 _); reflexivity|done].
Qed.

Lemma post_payload_replies path payload s w :
  tame_host -> replies (sv_capacity s) (post_payload host path payload s w).
Proof.
  intros Ht. unfold post_payload. destruct (h_responses host) as [respond|] eqn:Er;
    [|by apply post_ranking_replies].
  destruct (String.eqb path "/v1/responses"); [|by apply post_ranking_replies].
  destruct (Z.leb (sv_capacity s) 0).
  - apply sent_replies; [apply (bool_decide_eq_true_1 _); reflexivity|done].
  - apply post_response_replies; [done|done|]. cbn. lia.
Qed.

(** A request the boundary lets through to a component. *)
Definition admitted (now : float) (r : http_request) (s : C3RHTTPServer) : Prop :=
  h_path r ∈ post_paths /\ h_path r <> "/v1/c3r/execute" /\ authorized s r = true
  /\ flt (refilled (sv_limiter s) now) fone = false
  /\ exists n payload, parse_int (default "" (h_content_length r)) = Some n
     /\ (1 <= n <= MAX_REQUEST_BYTES)%Z
     /\ loads_bytes (String.substring 0 (Z.to_nat n) (h_body r)) = Ok (JObj payload).

End gate.

(** A host whose request factory refuses everything, and a request that is let
    through to it. *)
Definition refusing_host : Host (option counts) unit :=
  mkHost true true (mret true) None None None (fun _ w => (mkOpening (raise ValueError "no") false, w))
    (fun _ w => (mkDelivery (raise ValueError "no") false true, w)) (fun _ w => (raise ValueError "no", w))
    (fun _ w => (raise ValueError "no", w)).

Definition example_token : string := "0123456789abcdef0123456789abcdef".

Definition example_server : C3RHTTPServer :=
  mkServer example_token (mkBucket 60 fone (float_of_Z 60) fzero) ∅ 4.

Definition example_post : http_request :=
  mkHttp "/v1/decisions" ["Bearer " ++ example_token] (Some "2") "{}".

