(* ===== verification/Access.v ===== *)
(** * Developer credentials and quotas ([c3r/api_access.py])

    The store of organizations, projects, API keys, quota windows, audit events
    and usage records, as tables in row order; every public operation is one
    definition.  An operation runs in a transaction: it keeps its writes when
    its body returns and the commit succeeds, and none of them otherwise.  The
    clock, the connection and the random tokens are computations over the world
    [E].  What SQLite and PostgreSQL decide for themselves is the class [Sql];
    this file has SQLite's instance, [PgAccess.v] PostgreSQL's. *)

From Stdlib Require Import Lia ZArith Ascii String.
From stdpp Require Import base option strings gmap list.
From S2P Require Import Prelude PyStr PySort PyFloat FloatRepr Json Hash StateSchema TraceLedger LedgerAnchor.

Local Open Scope string_scope.

(** [SCOPES], in the order [sorted] gives them. *)
Definition SCOPES : list string :=
  ["decide:write"; "models:read"; "rank:write"; "responses:write"; "system_one:write"].

Definition is_url_char (c : ascii) : bool :=
  in_range 48 57 c || in_range 65 90 c || in_range 97 122 c || Ascii.eqb c "_" || Ascii.eqb c "-".

(** [KEY.fullmatch]: the identifier of a well-formed key. *)
Definition match_key (plaintext : string) : option string :=
  let mode r := match strip_prefix "live_" r with Some r' => Some r' | None => strip_prefix "test_" r end in
  match strip_prefix "c3r_sk_" plaintext with
  | Some r =>
      match mode r with
      | Some r =>
          let id := take_str 24 r in
          match strip_prefix "_" (drop_str 24 r) with
          | Some tail => if Z.eqb (len id) 24 && str_forall is_hex id
                            && Z.eqb (len tail) 43 && str_forall is_url_char tail
                         then Some id else None
          | None => None
          end
      | None => None
      end
  | None => None
  end.

Record IssuedKey : Type := mkIssuedKey { ik_key_id : string; ik_secret : string }.

Record Principal : Type := mkPrincipal {
  p_tenant_id : string; p_project_id : string; p_key_id : string; p_scopes : gset string }.

(** [_identifier]. *)
Definition is_identifier (value : string) : bool :=
  match value with
  | String c r =>
      (is_digit c || in_range 65 90 c || in_range 97 122 c) && Z.leb (len r) 63
      && str_forall (fun d => is_url_char d || Ascii.eqb d ".") r
  | EmptyString => false
  end.

Definition identifier (value : string) : result unit :=
  raise_if (negb (is_identifier value)) ValueError "bounded organization/project identifier required".

(** ** The path of the database file *)

(** What [validate_path] asks the file system: the ancestors' owner and mode,
    the parent first. *)
Record path_view : Type := mkPathView {
  pv_absolute : bool; pv_parent_is_dir : bool; pv_linked : list bool;
  pv_posix : bool; pv_euid : Z; pv_ancestors : list (Z * Z) }.

Definition safe_ancestor (euid : Z) (is_parent : bool) (owner_mode : Z * Z) : bool :=
  let '(uid, mode) := owner_mode in
  let sticky_root := negb is_parent && Z.eqb uid 0 && negb (Z.eqb (Z.land mode 0x200) 0) in
  let unsafe_mode := negb (Z.eqb (Z.land mode (if is_parent then 0x3f else 0x12)) 0) in
  (Z.eqb uid 0 || Z.eqb uid euid) && (negb unsafe_mode || sticky_root).

Definition validate_path (v : path_view) : result unit :=
  if negb (pv_absolute v) || negb (pv_parent_is_dir v) || existsb (fun b => b) (pv_linked v)
  then raise ValueError "non-linked absolute access database path and existing directory required"
  else raise_if (pv_posix v
                 && negb (match pv_ancestors v with
                          | [] => true
                          | parent :: rest => safe_ancestor (pv_euid v) true parent
                                              && forallb (safe_ancestor (pv_euid v) false) rest
                          end))
         ValueError "private operator-owned access database directory required".

(** ** Tables *)

Record key_row : Type := mkKeyRow {
  kr_id : string; kr_salt : string; kr_digest : string; kr_tenant : string; kr_project : string;
  kr_scopes : string; kr_created_at : float; kr_expires_at : option float;
  kr_last_used_at : option float; kr_revoked : bool }.

Record audit_row : Type := mkAuditRow {
  au_tenant : string; au_project : string; au_key_id : string; au_action : string;
  au_request_id : option string; au_at : float }.

Record usage_row : Type := mkUsageRow {
  ur_request_id : string; ur_tenant : string; ur_project : string; ur_key_id : string;
  ur_metadata : string }.

(** [kind], [tenant], [project], [key_id], [window]. *)
Definition quota_key : Type := (string * string * string * string * Z)%type.

Record AccessDb : Type := mkAccessDb {
  organizations : gset string;
  projects : gmap (string * string) (Z * Z);
  api_keys : list key_row;
  quota : gmap quota_key Z;
  audit_events : list audit_row;
  usage_records : list usage_row }.

Definition empty_access : AccessDb := mkAccessDb ∅ ∅ [] ∅ [] [].

Definition with_keys (keys : list key_row) (db : AccessDb) : AccessDb :=
  mkAccessDb (organizations db) (projects db) keys (quota db) (audit_events db) (usage_records db).

Definition with_quota (q : gmap quota_key Z) (db : AccessDb) : AccessDb :=
  mkAccessDb (organizations db) (projects db) (api_keys db) q (audit_events db) (usage_records db).

Definition with_logs (audit : list audit_row) (usage : list usage_row) (db : AccessDb) : AccessDb :=
  mkAccessDb (organizations db) (projects db) (api_keys db) (quota db) audit usage.

(** ** What the database engine decides

    The class of its errors, the value a REAL column stores for a float ([None]
    is NULL), the integers it takes as parameters, the row order of a query
    without ORDER BY, the order in which a purge picks usage records and the
    name of the scope it reports. *)
Class Sql : Type := {
  db_error : exn_kind;
  real_value : float -> option float;
  integer_param : Z -> result unit;
  scan {A : Type} : list A -> list A;
  purge_order : list string -> list string;
  purge_scope : string }.

(** SQLite stores NaN as NULL, takes 64-bit integers, scans in row order. *)
Definition sqlite : Sql := {|
  db_error := SqliteError;
  real_value x := if is_nan x then None else Some x;
  integer_param n := raise_if (Z.ltb n (- 2 ^ 63) || Z.leb (2 ^ 63) n) OverflowError
                       "Python int too large to convert to SQLite INTEGER";
  scan _ l := l;
  purge_order l := l;
  purge_scope := "selected_project_live_database_only" |}.

(** ** Statements *)

Section statements.
Context {engine : Sql}.

(** A value for a REAL NOT NULL column. *)
Definition required_real (x : float) : result float :=
  match real_value x with
  | Some y => Ok y
  | None => raise db_error "NOT NULL constraint failed"
  end.

Definition insert_project (tenant project : string) (rpm key_rps : Z) (db : AccessDb) : result AccessDb :=
  match projects db !! (tenant, project) with
  | Some _ => raise db_error "UNIQUE constraint failed"
  | None => Ok (mkAccessDb ({[tenant]} ∪ organizations db)
                  (<[(tenant, project) := (rpm, key_rps)]> (projects db))
                  (api_keys db) (quota db) (audit_events db) (usage_records db))
  end.

(** The primary key and the foreign key of [api_keys]. *)
Definition insert_key (r : key_row) (db : AccessDb) : result AccessDb :=
  if existsb (fun k => String.eqb (kr_id k) (kr_id r)) (api_keys db)
  then raise db_error "UNIQUE constraint failed"
  else match projects db !! (kr_tenant r, kr_project r) with
       | None => raise db_error "FOREIGN KEY constraint failed"
       | Some _ => Ok (with_keys (api_keys db ++ [r])%list db)
       end.

Definition insert_audit (tenant project key_id action : string) (request_id : option string) (at_ : float)
    (db : AccessDb) : result AccessDb :=
  t ← required_real at_;
  Ok (with_logs (audit_events db ++ [mkAuditRow tenant project key_id action request_id t])%list
        (usage_records db) db).

Definition insert_usage (r : usage_row) (db : AccessDb) : result AccessDb :=
  if existsb (fun u => String.eqb (ur_request_id u) (ur_request_id r)) (usage_records db)
  then raise db_error "UNIQUE constraint failed"
  else Ok (with_logs (audit_events db) (usage_records db ++ [r])%list db).

(** [UPDATE api_keys SET ... WHERE ...] and its row count. *)
Definition update_keys (which : key_row -> bool) (f : key_row -> key_row) (db : AccessDb) : AccessDb * Z :=
  (with_keys (map (fun k => if which k then f k else k) (api_keys db)) db,
   lenZ (List.filter which (api_keys db))).

Definition set_last_used (t : option float) (k : key_row) : key_row :=
  mkKeyRow (kr_id k) (kr_salt k) (kr_digest k) (kr_tenant k) (kr_project k) (kr_scopes k)
    (kr_created_at k) (kr_expires_at k) t (kr_revoked k).

Definition set_revoked (k : key_row) : key_row :=
  mkKeyRow (kr_id k) (kr_salt k) (kr_digest k) (kr_tenant k) (kr_project k) (kr_scopes k)
    (kr_created_at k) (kr_expires_at k) (kr_last_used_at k) true.

(** [json_extract(metadata, '$.timestamp')]. *)
Definition timestamp_of (metadata : string) : option float :=
  match loads metadata with
  | Ok (JObj kvs) => match assoc "timestamp" kvs with
                     | Some (JFloat x) => Some x
                     | Some (JInt n) => Some (float_of_Z n)
                     | _ => None
                     end
  | _ => None
  end.

Definition usage_expired (tenant project : string) (cutoff : float) (u : usage_row) : bool :=
  String.eqb (ur_tenant u) tenant && String.eqb (ur_project u) project
  && match timestamp_of (ur_metadata u) with Some t => flt t cutoff | None => false end.

Definition audit_expired (tenant project : string) (cutoff : float) (a : audit_row) : bool :=
  String.eqb (au_tenant a) tenant && String.eqb (au_project a) project && flt (au_at a) cutoff.

(** The bounded DELETE of usage records: at most [limit] expired rows, and how many. *)
Definition delete_usage (tenant project : string) (cutoff : float) (limit : Z) (l : list usage_row)
    : list usage_row * Z :=
  let victims := take (Z.to_nat limit) (purge_order
                   (map ur_request_id (List.filter (usage_expired tenant project cutoff) l))) in
  let gone u := bool_decide (ur_request_id u ∈ victims) in
  (List.filter (fun u => negb (gone u)) l, lenZ (List.filter gone l)).

(** The bounded DELETE of audit events: the first [limit] expired rows. *)
Fixpoint delete_first {A} (which : A -> bool) (limit : nat) (l : list A) : list A * Z :=
  match l with
  | [] => ([], 0%Z)
  | x :: l' =>
      match limit with
      | O => (l, 0%Z)
      | S n => if which x then let '(kept, d) := delete_first which n l' in (kept, (d + 1)%Z)
               else let '(kept, d) := delete_first which limit l' in (x :: kept, d)
      end
  end.

(** ** Admission *)

(** The two windows of a request: its key's second and its project's minute,
    each with its limit. *)
Definition quota_requests (p : Principal) (now : Z) (limits : Z * Z) : list (quota_key * Z) :=
  [(("key", p_tenant_id p, p_project_id p, p_key_id p, now), snd limits);
   (("project", p_tenant_id p, p_project_id p, "", now / 60 * 60)%Z, fst limits)].

(** The loop of SELECTs: [false] when a window is full. *)
Fixpoint quota_check (requests : list (quota_key * Z)) (q : gmap quota_key Z) : result bool :=
  match requests with
  | [] => Ok true
  | (k, limit) :: rest =>
      _ ← integer_param (snd k);
      match q !! k with
      | Some n => if Z.leb limit n then Ok false else quota_check rest q
      | None => quota_check rest q
      end
  end.

(** [INSERT ... ON CONFLICT DO UPDATE SET count=count+1]. *)
Definition quota_charge (requests : list (quota_key * Z)) (q : gmap quota_key Z) : gmap quota_key Z :=
  fold_left (fun q r => <[fst r := (default 0 (q !! fst r) + 1)%Z]> q) requests q.

(** [DELETE FROM quota WHERE window<?]. *)
Definition quota_purge (before : Z) (q : gmap quota_key Z) : gmap quota_key Z :=
  filter (fun kv => (before <= snd (fst kv))%Z) q.

(** The transaction of [access_admit] at [now]. *)
Definition admit_at (p : Principal) (now : Z) (db : AccessDb) : result (bool * AccessDb) :=
  match projects db !! (p_tenant_id p, p_project_id p) with
  | None => Ok (false, db)
  | Some limits =>
      let requests := quota_requests p now limits in
      free ← quota_check requests (quota db);
      if negb free then Ok (false, db)
      else
        _ ← integer_param (now - 120);
        Ok (true, with_quota (quota_purge (now - 120) (quota_charge requests (quota db))) db)
  end.
End statements.

(** ** Operations *)

(** The reports of [list_keys] and [purge_metadata]. *)
Record listed_key : Type := mkListedKey {
  lk_id : string; lk_tenant : string; lk_project : string; lk_scopes : string; lk_created_at : float;
  lk_expires_at : option float; lk_last_used_at : option float; lk_revoked : bool }.

Record purge_report : Type := mkPurgeReport {
  pr_usage_deleted : Z; pr_audit_deleted : Z; pr_cutoff : float; pr_batch_limit : Z; pr_scope : string }.

(** The caller's account of one request. *)
Record usage_account : Type := mkUsageAccount {
  ue_route : string; ue_model : option string; ue_status : Z; ue_latency_ms : float;
  ue_input_tokens : option Z; ue_output_tokens : option Z; ue_system_one : option Z;
  ue_system_two : option Z; ue_basis : option string }.

Definition json_int_opt (v : option Z) : json := match v with Some n => JInt n | None => JNull end.

Definition usage_metadata (p : Principal) (request_id : string) (u : usage_account) (timestamp : float) : json :=
  JObj [("request_id", JStr request_id); ("tenant_id", JStr (p_tenant_id p));
        ("project_id", JStr (p_project_id p)); ("api_key_id", JStr (p_key_id p));
        ("route", JStr (ue_route u)); ("model", json_opt (ue_model u)); ("status", JInt (ue_status u));
        ("latency_ms", JFloat (ue_latency_ms u)); ("timestamp", JFloat timestamp);
        ("input_tokens", json_int_opt (ue_input_tokens u));
        ("output_tokens", json_int_opt (ue_output_tokens u));
        ("system_one_invocations", json_int_opt (ue_system_one u));
        ("system_two_invocations", json_int_opt (ue_system_two u));
        ("invocation_basis", json_opt (ue_basis u)); ("gpu_allocation_ms", JNull);
        ("allocated_cost_usd", JNull); ("cost_basis", JStr "unmeasured")].

(** [json.dumps(sorted(scopes))] and [frozenset(json.loads(text))]. *)
Definition scope_options : dump_options := DumpOptions ", " ": " false true true.
Definition metadata_options : dump_options := DumpOptions ", " ": " false true false.

Definition scopes_text (scopes : gset string) : result string :=
  dumps scope_options (JArr (map JStr (sorted_by str_ltb (elements scopes)))).

Definition read_scopes (text : string) : result (gset string) :=
  j ← loads text;
  match j with
  | JArr l => names ← mapR (fun v => match v with JStr s => Ok s | _ => raise TypeError "scope" end) l;
              Ok (list_to_set names)
  | _ => raise TypeError "scopes"
  end.

Definition access (E A : Type) : Type := io (AccessDb * E) A.

(** A computation of the outside world, a statement, a block of statements, a query. *)
Definition outside {E A} (m : io E A) : access E A := beside m.
Definition statement {E} (f : AccessDb -> result AccessDb) : access E unit := fun '(db, e) =>
  match f db with Ok db' => (Ok tt, (db', e)) | Raise x => (Raise x, (db, e)) end.
Definition exchange {E A} (f : AccessDb -> result (A * AccessDb)) : access E A := fun '(db, e) =>
  match f db with Ok (a, db') => (Ok a, (db', e)) | Raise x => (Raise x, (db, e)) end.
Definition query {E A} (f : AccessDb -> A) : access E A := fun '(db, e) => (Ok (f db), (db, e)).

(** What a store needs of its host: a clock, random tokens and transactions,
    which keep all of a body's writes or none. *)
Class AccessHost (E : Type) : Type := {
  clock : io E float;
  token_hex : io E string;
  token_urlsafe : io E string;
  token_bytes : io E string;
  transaction {A : Type} : access E A -> access E A;
  transaction_ok {A} (body : access E A) db e a w' :
    transaction body (db, e) = (Ok a, w') ->
    exists e1 db' e2 e3, body (db, e1) = (Ok a, (db', e2)) /\ w' = (db', e3);
  transaction_raise {A} (body : access E A) w x w' :
    transaction body w = (Raise x, w') -> fst w' = fst w }.

(** [with self.connect() as connection: body]. *)
Definition sqlite_transaction {E A} (connect commit : io E unit) (body : access E A) : access E A :=
  atomically connect commit body.

(** The host of [AccessStore]. *)
Program Definition sqlite_host {E} (clock : io E float) (connect commit : io E unit)
    (token_hex token_urlsafe token_bytes : io E string) : AccessHost E := {|
  clock := clock; token_hex := token_hex; token_urlsafe := token_urlsafe; token_bytes := token_bytes;
  transaction A body := sqlite_transaction connect commit body |}.
Next Obligation. intros E clock start commit h u b A body db e a w' H. exact (atomically_ok _ _ _ _ _ _ _ H). Qed.
Next Obligation. intros E clock start commit h u b A body w x w' H. exact (atomically_raise _ _ _ _ _ _ H). Qed.

Section store.
Context {engine : Sql} {E : Type} {host : AccessHost E}.

(** [create_project]. *)
Definition create_project (tenant project : string) (rpm key_rps : Z) : access E unit :=
  _ ← lift (identifier tenant);
  _ ← lift (identifier project);
  _ ← lift (raise_if (negb (Z.leb 1 rpm && Z.leb rpm 100000) || negb (Z.leb 1 key_rps && Z.leb key_rps 10000))
              ValueError "bounded rate limits required");
  transaction (statement (insert_project tenant project rpm key_rps)).

(** The plaintext of a key. *)
Definition key_plaintext (live : bool) (key_id secret : string) : string :=
  "c3r_sk_" ++ (if live then "live" else "test") ++ "_" ++ key_id ++ "_" ++ secret.

(** [issue_key]. *)
Definition issue_key (tenant project : string) (scopes : gset string) (live : bool)
    (expires_at : option float) : access E IssuedKey :=
  _ ← lift (raise_if (bool_decide (scopes = ∅) || negb (bool_decide (scopes ⊆ list_to_set SCOPES)))
              ValueError "nonempty supported API scopes required");
  _ ← lift (raise_if (match expires_at with Some x => negb (isfinite x) | None => false end)
              ValueError "finite expiration required");
  key_id ← outside token_hex;
  secret ← outside token_urlsafe;
  let plaintext := key_plaintext live key_id secret in
  salt ← outside token_bytes;
  let digest := hmac_sha256_hex salt (utf8 plaintext) in
  transaction
    (text ← lift (scopes_text scopes);
     now ← outside clock;
     created_at ← lift (required_real now);
     _ ← statement (insert_key (mkKeyRow key_id (hex (bytes_of_string salt)) digest tenant project text
                                  created_at expires_at None false));
     at_ ← outside clock;
     _ ← statement (insert_audit tenant project key_id "key_issued" None at_);
     mret (mkIssuedKey key_id plaintext)).

(** [expiration is not None and self.clock() >= expiration]. *)
Definition is_expired (expires_at : option float) : access E bool :=
  match expires_at with
  | Some x => now ← outside clock; mret (fle x now)
  | None => mret false
  end.

(** [authenticate]. *)
Definition authenticate (plaintext : string) : access E (option Principal) :=
  match match_key plaintext with
  | None => mret None
  | Some id =>
      transaction
        (row ← query (fun db => List.find (fun k => String.eqb (kr_id k) id) (api_keys db));
         match row with
         | None => mret None
         | Some k =>
             salt ← lift (fromhex (kr_salt k));
             let actual := hmac_sha256_hex salt (utf8 plaintext) in
             if negb (compare_digest (kr_digest k) actual) || kr_revoked k then mret None
             else
               expired ← is_expired (kr_expires_at k);
               if expired : bool then mret None
               else
                 now ← outside clock;
                 _ ← statement (fun db => Ok (fst (update_keys (fun k => String.eqb (kr_id k) id)
                                                     (set_last_used (real_value now)) db)));
                 scopes ← lift (read_scopes (kr_scopes k));
                 mret (Some (mkPrincipal (kr_tenant k) (kr_project k) id scopes))
         end)
  end.

(** [revoke_key]. *)
Definition revoke_key (tenant project key_id : string) : access E unit :=
  transaction
    (let which k := String.eqb (kr_tenant k) tenant && String.eqb (kr_project k) project
                    && String.eqb (kr_id k) key_id in
     changed ← query (fun db => snd (update_keys which set_revoked db));
     _ ← statement (fun db => Ok (fst (update_keys which set_revoked db)));
     _ ← lift (raise_if (negb (Z.eqb changed 1)) ValueError "key not found in selected project");
     now ← outside clock;
     statement (insert_audit tenant project key_id "key_revoked" None now)).

(** [list_keys]. *)
Definition list_keys (tenant project : string) : access E (list listed_key) :=
  transaction (query (fun db =>
    map (fun k => mkListedKey (kr_id k) (kr_tenant k) (kr_project k) (kr_scopes k) (kr_created_at k)
                    (kr_expires_at k) (kr_last_used_at k) (kr_revoked k))
      (scan (List.filter (fun k => String.eqb (kr_tenant k) tenant && String.eqb (kr_project k) project)
               (api_keys db))))).

(** [dispatch_event]. *)
Definition dispatch_event (p : Principal) (request_id : string) : access E unit :=
  transaction (now ← outside clock;
               statement (insert_audit (p_tenant_id p) (p_project_id p) (p_key_id p) "request_dispatch"
                            (Some request_id) now)).

(** [record_usage]. *)
Definition record_usage (p : Principal) (request_id : string) (u : usage_account) : access E unit :=
  now ← outside clock;
  transaction
    (text ← lift (dumps metadata_options (usage_metadata p request_id u now));
     statement (insert_usage (mkUsageRow request_id (p_tenant_id p) (p_project_id p) (p_key_id p) text))).

(** [project_usage]. *)
Definition project_usage (tenant project : string) : access E (list json) :=
  transaction
    (texts ← query (fun db => map ur_metadata (scan
               (List.filter (fun u => String.eqb (ur_tenant u) tenant && String.eqb (ur_project u) project)
                  (usage_records db))));
     lift (mapR loads texts)).

(** [purge_metadata]. *)
Definition purge_metadata (tenant project : string) (retention_seconds limit : Z) : access E purge_report :=
  _ ← lift (identifier tenant);
  _ ← lift (identifier project);
  _ ← lift (raise_if (negb (Z.leb 60 retention_seconds && Z.leb retention_seconds (30 * 86400))
                      || negb (Z.leb 1 limit && Z.leb limit 10000))
              ValueError "bounded metadata retention and batch size required");
  now ← outside clock;
  let cutoff := fsub now (float_of_Z retention_seconds) in
  transaction
    (usage ← query (fun db => delete_usage tenant project cutoff limit (usage_records db));
     audit ← query (fun db => delete_first (audit_expired tenant project cutoff) (Z.to_nat limit)
                                (audit_events db));
     _ ← statement (fun db => Ok (with_logs (fst audit) (fst usage) db));
     mret (mkPurgeReport (snd usage) (snd audit) cutoff limit purge_scope)).

(** [access_admit]. *)
Definition access_admit (p : Principal) : access E bool :=
  time ← outside clock;
  now ← lift (int_of_float time);
  transaction (exchange (admit_at p now)).

(** ** Sequences of calls *)

Inductive access_call : Type :=
  | CreateProject (tenant project : string) (rpm key_rps : Z)
  | IssueKey (tenant project : string) (scopes : gset string) (live : bool) (expires_at : option float)
  | Authenticate (plaintext : string)
  | RevokeKey (tenant project key_id : string)
  | ListKeys (tenant project : string)
  | DispatchEvent (p : Principal) (request_id : string)
  | RecordUsage (p : Principal) (request_id : string) (u : usage_account)
  | ProjectUsage (tenant project : string)
  | PurgeMetadata (tenant project : string) (retention_seconds limit : Z)
  | Admit (p : Principal).

Inductive access_reply : Type :=
  | Done
  | Issued (k : IssuedKey)
  | Authenticated (p : option Principal)
  | Listed (l : list listed_key)
  | UsageOf (l : list json)
  | Purged (r : purge_report)
  | QuotaDecision (b : bool).

Definition perform (c : access_call) : access E access_reply :=
  match c with
  | CreateProject t p rpm rps => _ ← create_project t p rpm rps; mret Done
  | IssueKey t p scopes live x => k ← issue_key t p scopes live x; mret (Issued k)
  | Authenticate s => r ← authenticate s; mret (Authenticated r)
  | RevokeKey t p id => _ ← revoke_key t p id; mret Done
  | ListKeys t p => l ← list_keys t p; mret (Listed l)
  | DispatchEvent p id => _ ← dispatch_event p id; mret Done
  | RecordUsage p id u => _ ← record_usage p id u; mret Done
  | ProjectUsage t p => l ← project_usage t p; mret (UsageOf l)
  | PurgeMetadata t p r n => x ← purge_metadata t p r n; mret (Purged x)
  | Admit p => b ← access_admit p; mret (QuotaDecision b)
  end.

Fixpoint perform_all (calls : list access_call) (w : AccessDb * E)
    : list (result access_reply) * (AccessDb * E) :=
  match calls with
  | [] => ([], w)
  | c :: rest => let '(r, w1) := perform c w in
                 let '(rs, w2) := perform_all rest w1 in (r :: rs, w2)
  end.
End store.

(** ** Lemmas *)

Lemma str_ltb_weak : StrictWeak str_ltb (fun _ => True).
Proof. apply (str_ltb_strict_weak_on (fun s => s)). Qed.

Lemma take_str_app n a b : len a = n -> take_str n (a ++ b) = a.
Proof.
  intros <-. unfold take_str, len. rewrite Nat2Z.id.
  induction a as [|c a IH]; cbn; [by destruct b|by rewrite IH].
Qed.

Lemma substring_all b : String.substring 0 (String.length b) b = b.
Proof. induction b as [|c b IH]; cbn; [done|by rewrite IH]. Qed.

Lemma drop_str_app n a b : len a = n -> drop_str n (a ++ b) = b.
Proof.
  intros <-. unfold drop_str, len. rewrite Nat2Z.id.
  induction a as [|c a IH]; cbn; [rewrite Nat.sub_0_r; apply substring_all|done].
Qed.

(** A key built from tokens of the documented shape is well formed. *)
Lemma match_key_plaintext live id secret :
  len id = 24%Z -> str_forall is_hex id = true -> len secret = 43%Z -> str_forall is_url_char secret = true ->
  match_key (key_plaintext live id secret) = Some id.
Proof.
  intros Hid Hhex Hs Hurl. unfold match_key, key_plaintext.
  assert (Hr : strip_prefix "c3r_sk_" ("c3r_sk_" ++ (if live then "live" else "test") ++ "_" ++ id ++ "_" ++ secret)
               = Some ((if live then "live" else "test") ++ "_" ++ id ++ "_" ++ secret)) by done.
  rewrite Hr. clear Hr.
  assert (Hm : match strip_prefix "live_" ((if live then "live" else "test") ++ "_" ++ id ++ "_" ++ secret) with
               | Some r' => Some r'
               | None => strip_prefix "test_" ((if live then "live" else "test") ++ "_" ++ id ++ "_" ++ secret)
               end = Some (id ++ "_" ++ secret)) by by destruct live.
  rewrite Hm. clear Hm. rewrite (take_str_app 24), (drop_str_app 24) by done.
  change (strip_prefix "_" ("_" ++ secret)) with (Some secret).
  by rewrite Hid, Hs, Hhex, Hurl.
Qed.

(** The sorted scopes are the supported ones among [SCOPES], and their text
    reads back as the set. *)
Lemma sorted_scopes (scopes : gset string) :
  scopes ⊆ list_to_set SCOPES ->
  sorted_by str_ltb (elements scopes) = List.filter (fun s => bool_decide (s ∈ scopes)) SCOPES.
Proof.
  intros Hsub. pose proof str_ltb_weak as Hweak.
  assert (Hnd : NoDup SCOPES) by (apply (bool_decide_eq_true_1 _); vm_compute; reflexivity).
  transitivity (sorted_by str_ltb (List.filter (fun s => bool_decide (s ∈ scopes)) SCOPES)).
  - apply (sorted_by_permutation str_ltb (fun _ => True)).
    + intros x y _ _ H1 H2. destruct (str_ltb_total x y) as [H|[H|H]]; congruence.
    + by apply Forall_forall.
    + apply NoDup_Permutation; [apply NoDup_elements| |].
      * rewrite NoDup_ListNoDup. apply List.NoDup_filter. by rewrite <- NoDup_ListNoDup.
      * intros s. rewrite elem_of_elements, list_elem_of_In, List.filter_In, <- list_elem_of_In, bool_decide_eq_true.
        split; [|tauto]. intros Hs. split; [|done]. apply Hsub in Hs. by apply elem_of_list_to_set in Hs.
  - apply sorted_by_id. cbn [List.filter SCOPES].
    repeat match goal with |- context [bool_decide ?P] => destruct (bool_decide P) end;
      repeat constructor.
Qed.

Lemma mapR_names l :
  mapR (fun v => match v with JStr s => Ok s | _ => raise TypeError "scope" end) (map JStr l) = Ok l.
Proof. induction l as [|s l IH]; [done|]. cbn [mapR map mbind result_bind]. by rewrite IH. Qed.

Lemma read_scopes_text scopes t :
  scopes ⊆ list_to_set SCOPES -> scopes_text scopes = Ok t -> read_scopes t = Ok scopes.
Proof.
  intros Hsub Ht. unfold scopes_text in Ht. rewrite sorted_scopes in Ht by done.
  assert (Hs : list_to_set (List.filter (fun s => bool_decide (s ∈ scopes)) SCOPES) = scopes).
  { apply set_eq. intros s.
    rewrite elem_of_list_to_set, list_elem_of_In, List.filter_In, <- list_elem_of_In, bool_decide_eq_true.
    split; [tauto|]. intros Hin. split; [|done]. apply Hsub in Hin. by apply elem_of_list_to_set in Hin. }
  assert (Hl : loads t = Ok (JArr (map JStr (List.filter (fun s => bool_decide (s ∈ scopes)) SCOPES)))).
  { revert Ht. clear Hs Hsub. cbn [List.filter SCOPES].
    repeat match goal with |- context [bool_decide ?P] => destruct (bool_decide P) end;
      intros [= <-]; vm_compute; reflexivity. }
  unfold read_scopes. rewrite Hl. cbn [mbind result_bind]. rewrite mapR_names. cbn. f_equal. exact Hs.
Qed.

(** The text of supported scopes is never refused. *)
Lemma scopes_text_ok scopes : exists t, scopes_text scopes = Ok t.
Proof.
  unfold scopes_text, dumps. cbn [allow_nan scope_options]. eexists. reflexivity.
Qed.

(** ** What a call keeps

    [keeps R m]: whatever [m] does and however it ends, the tables before and
    after are related by the preorder [R].  [atomic m]: when [m] raises, the
    tables are what they were. *)

Section effects.
Context {E : Type}.

Definition keeps (R : AccessDb -> AccessDb -> Prop) {A} (m : access E A) : Prop :=
  forall w r w', m w = (r, w') -> R (fst w) (fst w').

Definition atomic {A} (m : access E A) : Prop :=
  forall w x w', m w = (Raise x, w') -> fst w' = fst w.

Section preorder.
Context (R : AccessDb -> AccessDb -> Prop) `{!PreOrder R}.

Lemma keeps_lift {A} (r : result A) : keeps R (lift r).
Proof. intros w r' w' [= _ <-]. done. Qed.

Lemma keeps_ret {A} (a : A) : keeps R (mret a).
Proof. intros w r' w' [= _ <-]. done. Qed.

Lemma keeps_outside {A} (m : io E A) : keeps R (outside m).
Proof. intros [db e] r w' H. unfold outside, beside in H. destruct (m e). by injection H as _ <-. Qed.

Lemma keeps_query {A} (f : AccessDb -> A) : keeps R (query f).
Proof. intros [db e] r w' H. by injection H as _ <-. Qed.

Lemma keeps_statement f : (forall db db', f db = Ok db' -> R db db') -> keeps R (statement f).
Proof.
  intros Hf [db e] r w' H. unfold statement in H. destruct (f db) as [db'|x] eqn:Ef; injection H as _ <-; [|done].
  by apply Hf.
Qed.

Lemma keeps_exchange {A} (f : AccessDb -> result (A * AccessDb)) :
  (forall db a db', f db = Ok (a, db') -> R db db') -> keeps R (exchange f).
Proof.
  intros Hf [db e] r w' H. unfold exchange in H.
  destruct (f db) as [[a db']|x] eqn:Ef; injection H as _ <-; [|done]. by eapply Hf.
Qed.

Lemma keeps_bind {A B} (m : access E A) (f : A -> access E B) :
  keeps R m -> (forall a, keeps R (f a)) -> keeps R (m ≫= f).
Proof.
  intros Hm Hf w r w' H. unfold mbind, io_bind in H. destruct (m w) as [[a|x] w1] eqn:Em.
  - etrans; [by eapply Hm|by eapply Hf].
  - injection H as _ <-. by eapply Hm.
Qed.

Lemma keeps_transaction {host : AccessHost E} {A} (body : access E A) :
  keeps R body -> keeps R (transaction body).
Proof.
  intros Hb [db e] r w' H. destruct r as [a|x].
  - apply transaction_ok in H as (e1 & db' & e2 & e3 & H & ->). exact (Hb _ _ _ H).
  - by rewrite (transaction_raise _ _ _ _ H).
Qed.
End preorder.

Lemma atomic_transaction {host : AccessHost E} {A} (body : access E A) : atomic (transaction body).
Proof. intros w x w'. apply transaction_raise. Qed.

Lemma atomic_bind {A B} (m : access E A) (f : A -> access E B) :
  keeps eq m -> (forall a, atomic (f a)) -> atomic (m ≫= f).
Proof.
  intros Hm Hf w x w' H. unfold mbind, io_bind in H. destruct (m w) as [[a|y] w1] eqn:Em.
  - rewrite (Hf _ _ _ _ H). symmetry. by eapply Hm.
  - injection H as _ <-. symmetry. by eapply Hm.
Qed.

Lemma atomic_reply {A B} (m : access E A) (f : A -> B) : atomic m -> atomic (a ← m; mret (f a)).
Proof.
  intros Hm w x w' H. unfold mbind, io_bind in H. destruct (m w) as [[a|y] w1] eqn:Em; [done|].
  injection H as -> <-. by eapply Hm.
Qed.

Lemma atomic_keeps {A} (m : access E A) : keeps eq m -> atomic m.
Proof. intros Hm w x w' H. symmetry. by eapply Hm. Qed.

Lemma outside_ok {A} (m : io E A) (db : AccessDb) e a w' :
  outside m (db, e) = (Ok a, w') -> exists e', m e = (Ok a, e') /\ w' = (db, e').
Proof. apply beside_ok. Qed.

Lemma statement_ok f db (e : E) u w' :
  statement f (db, e) = (Ok u, w') -> exists db', f db = Ok db' /\ w' = (db', e).
Proof.
  unfold statement. destruct (f db) as [db'|x]; intros H; apply pair_equal_spec in H as [H <-]; [eauto|done].
Qed.
End effects.

#[export] Hint Resolve keeps_lift keeps_ret keeps_outside keeps_query keeps_transaction
  atomic_transaction atomic_keeps : c3r.

(** Step through the body of an operation. *)
Ltac keep_steps :=
  repeat first
    [ notypeclasses refine (@keeps_bind _ _ _ _ _ _ _ _ _); [exact _ | | intros ?]
    | notypeclasses refine (@keeps_transaction _ _ _ _ _ _ _); [exact _ | ]
    | notypeclasses refine (@keeps_statement _ _ _ _ _); [exact _ | ]
    | notypeclasses refine (@keeps_exchange _ _ _ _ _ _); [exact _ | ]
    | notypeclasses refine (@keeps_lift _ _ _ _ _); exact _
    | notypeclasses refine (@keeps_ret _ _ _ _ _); exact _
    | notypeclasses refine (@keeps_outside _ _ _ _ _); exact _
    | notypeclasses refine (@keeps_query _ _ _ _ _); exact _
    | match goal with
      | |- keeps _ (match ?x with _ => _ end) => destruct x
      end ].
Ltac atomic_steps :=
  repeat first
    [ apply atomic_transaction | apply atomic_reply | apply atomic_bind; [keep_steps; fail|intros ?]
    | match goal with
      | |- atomic (match ?x with _ => _ end) => destruct x
      end | apply atomic_keeps; keep_steps; fail ].

Section calls.
Context {engine : Sql} {E : Type} {host : AccessHost E}.

(** A call that raises leaves every table as it was. *)
Lemma perform_atomic c : atomic (perform c).
Proof.
  destruct c; cbn [perform];
    unfold create_project, issue_key, authenticate, revoke_key, list_keys, dispatch_event, record_usage,
      project_usage, purge_metadata, access_admit; apply atomic_reply; atomic_steps.
Qed.

End calls.

(** The statements on the logs keep the other tables. *)
Lemma insert_audit_ok {engine : Sql} t p k a id x db db' :
  insert_audit t p k a id x db = Ok db' -> exists l, db' = with_logs l (usage_records db) db.
Proof. unfold insert_audit. destruct (required_real x); [|done]. intros [= <-]. by eexists. Qed.

Lemma insert_usage_ok {engine : Sql} r db db' :
  insert_usage r db = Ok db' -> exists l, db' = with_logs (audit_events db) l db.
Proof. unfold insert_usage. destruct (existsb _ _); [done|]. intros [= <-]. by eexists. Qed.

Lemma insert_project_ok {engine : Sql} t p rpm rps db db' :
  insert_project t p rpm rps db = Ok db' ->
  projects db !! (t, p) = None /\ projects db' = <[(t, p) := (rpm, rps)]> (projects db)
  /\ api_keys db' = api_keys db /\ quota db' = quota db.
Proof. unfold insert_project. destruct (projects db !! _); [done|]. by intros [= <-]. Qed.

Lemma admit_at_ok {engine : Sql} p now db b db' :
  admit_at p now db = Ok (b, db') -> exists q, db' = with_quota q db.
Proof.
  unfold admit_at. destruct (projects db !! _) as [limits|].
  - destruct (quota_check _ _) as [[|]|x]; [|intros [= _ <-]; by exists (quota db); destruct db|done].
    destruct (integer_param _); [|done]. intros [= _ <-]. by eexists.
  - intros [= _ <-]. exists (quota db). by destruct db.
Qed.

(** Everything but issuing, authenticating and revoking keeps the keys. *)
Definition same_keys (db db' : AccessDb) : Prop := api_keys db' = api_keys db.

#[export] Instance same_keys_preorder : PreOrder same_keys.
Proof. split; [done|]. intros a b c H1 H2. unfold same_keys in *. congruence. Qed.

Lemma perform_keys {engine : Sql} {E} {host : AccessHost E} c :
  match c with
  | IssueKey _ _ _ _ _ | Authenticate _ | RevokeKey _ _ _ => True
  | _ => keeps same_keys (perform (E := E) c)
  end.
Proof.
  destruct c; try exact I; cbn [perform];
    unfold create_project, list_keys, dispatch_event, record_usage, project_usage, purge_metadata, access_admit;
    keep_steps; intros db.
  - intros db' (_ & _ & Hk & _)%insert_project_ok. done.
  - by intros db' [l ->]%insert_audit_ok.
  - by intros db' [l ->]%insert_usage_ok.
  - by intros db' [= <-].
  - by intros b db' [q ->]%admit_at_ok.
Qed.

(** ** The abstract store: the keys a history of calls has granted *)

Record grant : Type := mkGrant {
  g_id : string; g_secret : string; g_tenant : string; g_project : string; g_scopes : gset string;
  g_expires : option float; g_revoked : bool }.

Definition revoke_grant (t p id : string) (g : grant) : grant :=
  if String.eqb (g_tenant g) t && String.eqb (g_project g) p && String.eqb (g_id g) id
  then mkGrant (g_id g) (g_secret g) (g_tenant g) (g_project g) (g_scopes g) (g_expires g) true else g.

Definition grants_after (gs : list grant) (step : access_call * result access_reply) : list grant :=
  match step with
  | (IssueKey t p scopes _ x, Ok (Issued k)) =>
      gs ++ [mkGrant (ik_key_id k) (ik_secret k) t p scopes x false]
  | (RevokeKey t p id, Ok _) => map (revoke_grant t p id) gs
  | _ => gs
  end%list.

Definition grants_of (calls : list access_call) (replies : list (result access_reply)) : list grant :=
  fold_left grants_after (zip calls replies) [].

Definition unexpired (g : grant) (now : float) : Prop :=
  match g_expires g with Some x => fle x now = false | None => True end.

Definition principal_of (g : grant) : Principal :=
  mkPrincipal (g_tenant g) (g_project g) (g_id g) (g_scopes g).

(** A stored row implements a grant; the table implements the list of grants. *)
Definition row_of (k : key_row) (g : grant) : Prop :=
  kr_id k = g_id g /\ kr_tenant k = g_tenant g /\ kr_project k = g_project g
  /\ g_scopes g ⊆ list_to_set SCOPES /\ scopes_text (g_scopes g) = Ok (kr_scopes k)
  /\ kr_expires_at k = g_expires g /\ kr_revoked k = g_revoked g
  /\ match_key (g_secret g) = Some (g_id g)
  /\ exists salt, kr_salt k = hex (bytes_of_string salt)
                  /\ kr_digest k = hmac_sha256_hex salt (utf8 (g_secret g)).

Definition implements (db : AccessDb) (gs : list grant) : Prop :=
  Forall2 row_of (api_keys db) gs /\ NoDup (map kr_id (api_keys db)).

Section refinement.
Context {engine : Sql} {E : Type} {host : AccessHost E}.

Lemma issue_key_ok t p scopes live x db e k w' :
  issue_key t p scopes live x (db, e) = (Ok k, w') ->
  exists id secret salt text created e1 e2 e3,
    token_hex e = (Ok id, e1) /\ token_urlsafe e1 = (Ok secret, e2) /\ token_bytes e2 = (Ok salt, e3)
    /\ k = mkIssuedKey id (key_plaintext live id secret)
    /\ scopes ⊆ list_to_set SCOPES /\ scopes_text scopes = Ok text
    /\ existsb (fun r => String.eqb (kr_id r) id) (api_keys db) = false
    /\ api_keys (fst w') = (api_keys db
         ++ [mkKeyRow id (hex (bytes_of_string salt))
               (hmac_sha256_hex salt (utf8 (key_plaintext live id secret))) t p text created x None false])%list.
Proof.
  intros H. unfold issue_key in H.
  apply io_bind_ok in H as (u1 & w1 & H1 & H). apply lift_ok in H1 as [H1 ->].
  apply raise_if_ok in H1. bool_hyps.
  apply io_bind_ok in H as (u2 & w1 & H2 & H). apply lift_ok in H2 as [_ ->].
  apply io_bind_ok in H as (id & w1 & H3 & H). apply outside_ok in H3 as (e1 & H3 & ->).
  apply io_bind_ok in H as (secret & w1 & H4 & H). apply outside_ok in H4 as (e2 & H4 & ->).
  apply io_bind_ok in H as (salt & w1 & H5 & H). apply outside_ok in H5 as (e3 & H5 & ->).
  apply transaction_ok in H as (e4 & db' & e5 & e6 & H & ->).
  apply io_bind_ok in H as (text & w1 & H6 & H). apply lift_ok in H6 as [H6 ->].
  apply io_bind_ok in H as (now & w1 & H7 & H). apply outside_ok in H7 as (e7 & _ & ->).
  apply io_bind_ok in H as (created & w1 & H8 & H). apply lift_ok in H8 as [_ ->].
  apply io_bind_ok in H as (u3 & w1 & H9 & H). apply statement_ok in H9 as (db1 & H9 & ->).
  apply io_bind_ok in H as (at_ & w1 & H10 & H). apply outside_ok in H10 as (e8 & _ & ->).
  apply io_bind_ok in H as (u4 & w1 & H11 & H). apply statement_ok in H11 as (db2 & H11 & ->).
  apply pair_equal_spec in H as [H Hw]. injection H as <-. injection Hw as <- _.
  apply insert_audit_ok in H11 as [l ->].
  unfold insert_key in H9. cbn [kr_id kr_tenant kr_project] in H9.
  destruct (existsb _ _) eqn:Hfresh; [done|]. destruct (projects db !! _); [|done]. injection H9 as <-.
  exists id, secret, salt, text, created, e1, e2, e3. done.
Qed.

Lemma revoke_key_ok t p id db e u w' :
  revoke_key t p id (db, e) = (Ok u, w') ->
  api_keys (fst w') = map (fun k => if String.eqb (kr_tenant k) t && String.eqb (kr_project k) p
                                       && String.eqb (kr_id k) id then set_revoked k else k) (api_keys db).
Proof.
  intros H. unfold revoke_key in H.
  apply transaction_ok in H as (e1 & db' & e2 & e3 & H & ->).
  apply io_bind_ok in H as (n & w1 & H1 & H). apply pair_equal_spec in H1 as [_ <-].
  apply io_bind_ok in H as (u2 & w1 & H2 & H). apply statement_ok in H2 as (db1 & H2 & ->).
  apply io_bind_ok in H as (u3 & w1 & H3 & H). apply lift_ok in H3 as [_ ->].
  apply io_bind_ok in H as (now & w1 & H4 & H). apply outside_ok in H4 as (e4 & _ & ->).
  apply statement_ok in H as (db2 & H & [= -> _]).
  apply insert_audit_ok in H as [l ->]. injection H2 as <-. done.
Qed.

Lemma is_expired_ok x db e b w' :
  is_expired x (db, e) = (Ok b, w') ->
  fst w' = db /\ (b = false -> match x with
                              | Some t => exists now e1 e2, clock e1 = (Ok now, e2) /\ fle t now = false
                              | None => True
                              end).
Proof.
  destruct x as [t|]; cbn [is_expired].
  - intros H. apply io_bind_ok in H as (now & w1 & H1 & H). apply outside_ok in H1 as (e1 & H1 & ->).
    apply pair_equal_spec in H as [[= <-] <-]. split; [done|]. eauto.
  - intros H. apply pair_equal_spec in H as [_ <-]. done.
Qed.

(** What a successful authentication found, and what it wrote. *)
Definition authenticated (p : string) (db : AccessDb) (pr : Principal) : Prop :=
  exists id k salt scopes,
    match_key p = Some id /\ k ∈ api_keys db /\ kr_id k = id /\ kr_revoked k = false
    /\ fromhex (kr_salt k) = Ok salt /\ kr_digest k = hmac_sha256_hex salt (utf8 p)
    /\ match kr_expires_at k with
       | Some t => exists now e1 e2, clock e1 = (Ok now, e2) /\ fle t now = false
       | None => True
       end
    /\ read_scopes (kr_scopes k) = Ok scopes
    /\ pr = mkPrincipal (kr_tenant k) (kr_project k) id scopes.

Lemma authenticate_ok p db e r w' :
  authenticate p (db, e) = (Ok r, w') ->
  (exists id t, api_keys (fst w')
     = map (fun k => if String.eqb (kr_id k) id then set_last_used t k else k) (api_keys db))
  /\ match r with Some pr => authenticated p db pr | None => api_keys (fst w') = api_keys db end
  \/ r = None /\ api_keys (fst w') = api_keys db.
Proof.
  intros H. unfold authenticate in H.
  destruct (match_key p) as [id|] eqn:Hid; [|right; by apply pair_equal_spec in H as [[= <-] <-]].
  apply transaction_ok in H as (e1 & db' & e2 & e3 & H & ->).
  apply io_bind_ok in H as (row & w1 & H1 & H). apply pair_equal_spec in H1 as [[= <-] <-].
  destruct (List.find _ (api_keys db)) as [k|] eqn:Hf; [|right; by apply pair_equal_spec in H as [[= <-] [= <- _]]].
  apply List.find_some in Hf as [Hin Heq]. apply String.eqb_eq in Heq.
  apply io_bind_ok in H as (salt & w1 & H1 & H). apply lift_ok in H1 as [Hsalt ->].
  destruct (negb _ || kr_revoked k) eqn:Hc; [right; by apply pair_equal_spec in H as [[= <-] [= <- _]]|].
  apply orb_false_iff in Hc as [Hd Hrev]. apply negb_false_iff, compare_digest_eq in Hd.
  apply io_bind_ok in H as (b & w1 & H1 & H). destruct w1 as [db1 e4].
  apply is_expired_ok in H1 as [Hdb Hexp]. cbn [fst] in Hdb. subst db1.
  destruct b; [right; by apply pair_equal_spec in H as [[= <-] [= <- _]]|].
  apply io_bind_ok in H as (now & w1 & H1 & H). apply outside_ok in H1 as (e5 & _ & ->).
  apply io_bind_ok in H as (u1 & w1 & H1 & H). apply statement_ok in H1 as (db2 & [= <-] & ->).
  apply io_bind_ok in H as (scopes & w1 & H1 & H). apply lift_ok in H1 as [Hscopes ->].
  apply pair_equal_spec in H as [[= <-] [= <- _]]. left. split; [by eexists _, _|].
  exists id, k, salt, scopes. rewrite list_elem_of_In. specialize (Hexp eq_refl). done.
Qed.

(** What [secrets] documents of its tokens. *)
Definition token_shapes : Prop :=
  (forall e id e', token_hex e = (Ok id, e') -> len id = 24%Z /\ str_forall is_hex id = true)
  /\ (forall e s e', token_urlsafe e = (Ok s, e') -> len s = 43%Z /\ str_forall is_url_char s = true).

Lemma row_of_last_used k g t : row_of k g -> row_of (set_last_used t k) g.
Proof. done. Qed.

Lemma row_of_revoked t p id k g :
  row_of k g ->
  row_of (if String.eqb (kr_tenant k) t && String.eqb (kr_project k) p && String.eqb (kr_id k) id
          then set_revoked k else k) (revoke_grant t p id g).
Proof.
  intros Hrow. pose proof Hrow as (Hid & Ht & Hp & ? & ? & ? & _ & ?). unfold revoke_grant.
  rewrite Hid, Ht, Hp. by destruct (_ && _).
Qed.

Lemma implements_same db db' gs : api_keys db' = api_keys db -> implements db gs -> implements db' gs.
Proof. unfold implements. by intros ->. Qed.

(** Rewriting rows in place keeps the table an implementation. *)
Lemma implements_update db db' gs f h :
  api_keys db' = map f (api_keys db) -> (forall k, kr_id (f k) = kr_id k) ->
  (forall k g, row_of k g -> row_of (f k) (h g)) -> implements db gs -> implements db' (map h gs).
Proof.
  intros Hdb Hid Hrow [Hf Hnd]. unfold implements. rewrite Hdb. split.
  - apply Forall2_fmap_2. by eapply Forall2_impl.
  - rewrite map_map. by rewrite (map_ext _ _ Hid).
Qed.

Lemma perform_implements c db e r w' gs (Htok : token_shapes) :
  perform c (db, e) = (r, w') ->
  implements db gs -> implements (fst w') (grants_after gs (c, r)).
Proof.
  intros H Hi. destruct r as [r|x].
  2: { pose proof (perform_atomic c _ _ _ H) as Ha.
       cbn [fst] in Ha. rewrite Ha. by destruct c. }
  pose proof (perform_keys (E := E) c) as Hk.
  destruct c; try (apply (implements_same db); [by eapply (Hk (db, e))|done]); clear Hk; cbn [perform] in H.
  - apply io_bind_ok in H as (k & w1 & H & Hr). apply pair_equal_spec in Hr as [[= <-] <-].
    apply issue_key_ok in H as (id & secret & salt & text & created & e1 & e2 & e3 & Hid & Hsec & _ & -> & Hs & Ht & Hfresh & Hkeys).
    apply Htok in Hid as [Hid Hhex]. apply Htok in Hsec as [Hsec Hurl].
    cbn [grants_after ik_key_id ik_secret]. destruct Hi as [Hf Hnd]. unfold implements. rewrite Hkeys. split.
    + apply Forall2_app; [done|]. constructor; [|done]. repeat (split; [done|]).
      split; [by apply match_key_plaintext|by exists salt].
    + rewrite map_app. apply NoDup_app. split; [done|]. split; [|apply NoDup_singleton].
      intros i Hin Hi. apply list_elem_of_singleton in Hi. cbn in Hi. subst i.
      apply list_elem_of_fmap in Hin as (k & Hk & Hin). apply existsb_false_Forall in Hfresh.
      rewrite Forall_forall in Hfresh. specialize (Hfresh k Hin). rewrite <- Hk in Hfresh.
      by rewrite String.eqb_refl in Hfresh.
  - apply io_bind_ok in H as (o & w1 & H & Hr). apply pair_equal_spec in Hr as [[= <-] <-].
    apply authenticate_ok in H as [[(id & t & Hkeys) _]|[_ Hkeys]]; [|by apply (implements_same db)].
    cbn [grants_after]. rewrite <- (map_id gs).
    apply (implements_update db _ gs _ _ Hkeys); [intros k; by destruct (String.eqb _ _)| |done].
    intros k g Hkg. by destruct (String.eqb _ _).
  - apply io_bind_ok in H as (o & w1 & H & Hr). apply pair_equal_spec in Hr as [[= <-] <-].
    apply revoke_key_ok in H. cbn [grants_after].
    apply (implements_update db _ gs _ _ H); [intros k; by destruct (_ && _)| |done].
    intros k g. apply row_of_revoked.
Qed.

Lemma perform_all_implements calls db e rs w' gs (Htok : token_shapes) :
  perform_all calls (db, e) = (rs, w') ->
  implements db gs -> implements (fst w') (fold_left grants_after (zip calls rs) gs).
Proof.
  revert db e rs w' gs. induction calls as [|c calls IH]; intros db e rs w' gs H Hi.
  - apply pair_equal_spec in H as [<- <-]. done.
  - cbn [perform_all] in H.
    destruct (perform c (db, e)) as [r w1] eqn:E1.
    destruct (perform_all calls w1) as [rs1 w2] eqn:E2.
    apply pair_equal_spec in H as [<- <-]. destruct w1 as [db1 e1].
    apply (IH _ _ _ _ _ E2). by eapply (perform_implements c db e r (db1, e1)).
Qed.

Lemma implements_elem db gs k : implements db gs -> k ∈ api_keys db -> exists g, g ∈ gs /\ row_of k g.
Proof.
  intros [Hf _] Hk. apply list_elem_of_lookup in Hk as [i Hi].
  destruct (Forall2_lookup_l _ _ _ _ _ Hf Hi) as (g & Hg & Hr). exists g. split; [|done].
  by eapply list_elem_of_lookup_2.
Qed.

Lemma implements_grant db gs g : implements db gs -> g ∈ gs -> exists k, k ∈ api_keys db /\ row_of k g.
Proof.
  intros [Hf _] Hk. apply list_elem_of_lookup in Hk as [i Hi].
  destruct (Forall2_lookup_r _ _ _ _ _ Hf Hi) as (k & Hg & Hr). exists k. split; [|done].
  by eapply list_elem_of_lookup_2.
Qed.

(** The row a SELECT by primary key finds. *)
Lemma find_key (keys : list key_row) k :
  NoDup (map kr_id keys) -> k ∈ keys -> List.find (fun r => String.eqb (kr_id r) (kr_id k)) keys = Some k.
Proof.
  induction keys as [|r keys IH]; intros Hnd Hin; [set_solver|]. apply NoDup_cons in Hnd as [Hr Hnd].
  apply elem_of_cons in Hin as [->|Hin]; cbn [List.find]; [by rewrite String.eqb_refl|].
  destruct (String.eqb_spec (kr_id r) (kr_id k)) as [He|]; [|by apply IH].
  destruct Hr. rewrite He. apply list_elem_of_fmap. by exists k.
Qed.

(** In the world [e], transactions that leave the world alone are committed. *)
Definition commits (e : E) : Prop :=
  forall A (body : access E A) db a db', body (db, e) = (Ok a, (db', e)) ->
    exists w', transaction body (db, e) = (Ok a, w').

(** In a world that commits and whose clock shows [now], the secret of a live
    grant is accepted. *)
Lemma authenticate_live db e gs g now :
  implements db gs -> g ∈ gs -> g_revoked g = false -> unexpired g now ->
  commits e -> clock e = (Ok now, e) ->
  exists w', authenticate (g_secret g) (db, e) = (Ok (Some (principal_of g)), w').
Proof.
  intros Hi Hg Hrev Hexp Hc Ht. destruct (implements_grant _ _ _ Hi Hg) as (k & Hk & Hrow).
  destruct Hrow as (Hid & Hten & Hpr & Hsub & Htext & Hx & Hr & Hmk & salt & Hsalt & Hdig).
  unfold authenticate. rewrite Hmk, <- Hid. eapply Hc.
  unfold mbind at 1, io_bind at 1, query at 1. rewrite (find_key _ _ (proj2 Hi) Hk).
  rewrite Hsalt, fromhex_bytes, Hdig, Hr, Hrev.
  unfold mbind at 1, io_bind at 1, lift at 1.
  rewrite (proj2 (compare_digest_eq _ _) eq_refl). cbn [negb orb].
  assert (He : is_expired (kr_expires_at k) (db, e) = (Ok false, (db, e))).
  { rewrite Hx. unfold unexpired in Hexp. destruct (g_expires g) as [x|]; [|done].
    cbn [is_expired]. unfold mbind, io_bind, outside, beside. rewrite Ht. by rewrite Hexp. }
  unfold mbind at 1, io_bind at 1. rewrite He.
  unfold mbind at 1, io_bind at 1, outside at 1, beside at 1. rewrite Ht.
  unfold mbind at 1, io_bind at 1, statement at 1.
  unfold mbind at 1, io_bind at 1, lift at 1. rewrite (read_scopes_text _ _ Hsub Htext).
  cbv [mret io_ret]. rewrite Hten, Hpr, Hid. done.
Qed.
End refinement.

(** ** Admission

    A history of a store with the admissions it granted, newest first. *)

Inductive store_history {engine : Sql} {E} {host : AccessHost E} : AccessDb -> list (Z * Principal) -> Prop :=
  | history_start : store_history empty_access []
  | history_call db log c e r db' e' :
      store_history db log ->
      perform c (db, e) = (r, (db', e')) ->
      r <> Ok (QuotaDecision true) ->
      store_history db' log
  | history_admitted db log p e t now e1 db' e' :
      store_history db log ->
      clock e = (Ok t, e1) -> int_of_float t = Ok now ->
      perform (Admit p) (db, e)
      = (Ok (QuotaDecision true), (db', e')) ->
      store_history db' ((now, p) :: log).

(** The clock never reads more than a minute less than it once did. *)
Definition steady (log : list (Z * Principal)) : Prop :=
  ForallOrdPairs (fun later earlier => (fst earlier - 60 <= fst later)%Z) log.

(** The windows an admission charges, and how often a log charged one. *)
Definition charges (a : Z * Principal) : list quota_key := map fst (quota_requests (snd a) (fst a) (0, 0)%Z).

Definition charged (k : quota_key) (log : list (Z * Principal)) : Z :=
  lenZ (List.filter (fun a => bool_decide (k ∈ charges a)) log).

Definition project_of (k : quota_key) : string * string :=
  match k with (_, t, p, _, _) => (t, p) end.

Definition limit_of (k : quota_key) (limits : Z * Z) : Z :=
  match k with (kind, _, _, _, _) => if String.eqb kind "key" then snd limits else fst limits end.

Lemma quota_requests_spec p now limits k l :
  (k, l) ∈ quota_requests p now limits <->
  k ∈ charges (now, p) /\ l = limit_of k limits.
Proof.
  unfold charges, quota_requests. cbn [map fst snd]. rewrite !elem_of_cons, !elem_of_nil. split.
  - intros [[= -> ->]|[[= -> ->]|[]]]; cbn; auto.
  - intros [[->|[->|[]]] ->]; cbn; auto.
Qed.

Lemma charges_project a k : k ∈ charges a -> project_of k = (p_tenant_id (snd a), p_project_id (snd a)).
Proof.
  unfold charges, quota_requests. cbn [map fst]. rewrite !elem_of_cons, !elem_of_nil. by intros [->|[->|[]]].
Qed.

Lemma charges_window a k : k ∈ charges a -> (fst a - 60 < snd k)%Z.
Proof.
  unfold charges, quota_requests. cbn [map fst]. rewrite !elem_of_cons, !elem_of_nil.
  intros [->|[->|[]]]; cbn [snd]; [lia|]. pose proof (Z.mod_pos_bound (fst a) 60). rewrite Z.mod_eq in *; lia.
Qed.

Lemma charged_cons k a log :
  charged k (a :: log) = (charged k log + if bool_decide (k ∈ charges a) then 1 else 0)%Z.
Proof. unfold charged, lenZ. cbn [List.filter]. destruct (bool_decide _); cbn [length]; lia. Qed.

Lemma charged_nonneg k log : (0 <= charged k log)%Z.
Proof. apply lenZ_nonneg. Qed.

(** The upserts add one to each of the two windows, which differ in kind. *)
Lemma quota_charge_spec p now limits q k :
  default 0%Z (quota_charge (quota_requests p now limits) q !! k)
  = (default 0 (q !! k) + if bool_decide (k ∈ charges (now, p)) then 1 else 0)%Z.
Proof.
  unfold quota_charge, charges, quota_requests. cbn [map fold_left fst snd].
  set (k1 := ("key", _, _, _, _)). set (k2 := ("project", _, _, _, _)).
  assert (Hne : k1 <> k2) by done.
  destruct (decide (k = k2)) as [->|H2].
  - rewrite lookup_insert_eq, lookup_insert_ne by done. rewrite bool_decide_eq_true_2; [done|].
    right. left.
  - rewrite lookup_insert_ne by done. destruct (decide (k = k1)) as [->|H1].
    + rewrite lookup_insert_eq. rewrite bool_decide_eq_true_2 by left. done.
    + rewrite lookup_insert_ne by done. rewrite bool_decide_eq_false_2; [lia|].
      rewrite !elem_of_cons, elem_of_nil. tauto.
Qed.

Lemma quota_purge_lookup before q k :
  (before <= snd k)%Z -> quota_purge before q !! k = q !! k.
Proof.
  intros Hk. unfold quota_purge. destruct (q !! k) as [n|] eqn:E.
  - apply map_lookup_filter_Some. done.
  - apply map_lookup_filter_None. by left.
Qed.

Lemma quota_check_ok {engine : Sql} requests q :
  quota_check requests q = Ok true ->
  Forall (fun r => match q !! fst r with Some n => (n < snd r)%Z | None => True end) requests.
Proof.
  induction requests as [|[k l] requests IH]; intros H; [constructor|]. cbn [quota_check] in H.
  destruct (integer_param (snd k)); [|done]. cbn [mbind result_bind] in H.
  constructor; cbn [fst snd]; destruct (q !! k) as [n|]; auto.
  - destruct (Z.leb_spec l n); [done|lia].
  - destruct (Z.leb l n); [done|auto].
Qed.

Definition limits_positive (db : AccessDb) : Prop :=
  map_Forall (fun _ l => 1 <= fst l /\ 1 <= snd l)%Z (projects db).

(** What every call but an admission does to the quota: nothing; projects stay. *)
Definition quota_stable (db db' : AccessDb) : Prop :=
  quota db' = quota db /\ projects db ⊆ projects db' /\ (limits_positive db -> limits_positive db').

#[export] Instance quota_stable_preorder : PreOrder quota_stable.
Proof.
  split; [by intros db|]. intros a b c (H1 & H2 & H3) (H4 & H5 & H6).
  split; [congruence|]. split; [by etrans|auto].
Qed.

Lemma stable_logs a u db : quota_stable db (with_logs a u db).
Proof. done. Qed.
Lemma stable_keys keys db : quota_stable db (with_keys keys db).
Proof. done. Qed.

Section admission.
Context {engine : Sql} {E : Type} {host : AccessHost E}.

Lemma create_project_stable t p rpm rps w r w' :
  create_project t p rpm rps w = (r, w') -> quota_stable (fst w) (fst w').
Proof.
  intros H. destruct r as [u|x].
  2: { assert (Ha : atomic (create_project t p rpm rps))
         by (unfold create_project; atomic_steps). by rewrite (Ha _ _ _ H). }
  unfold create_project in H.
  apply io_bind_ok in H as (u1 & w1 & H1 & H). apply lift_ok in H1 as [_ ->].
  apply io_bind_ok in H as (u2 & w1 & H1 & H). apply lift_ok in H1 as [_ ->].
  apply io_bind_ok in H as (u3 & w1 & H1 & H). apply lift_ok in H1 as [H1 ->]. apply raise_if_ok in H1.
  destruct w as [db e].
  apply transaction_ok in H as (e1 & db' & e2 & e3 & H & ->).
  apply statement_ok in H as (db2 & H & [= -> _]). cbn [fst].
  apply insert_project_ok in H as (Hnone & Hproj & _ & Hq). split; [done|]. rewrite Hproj.
  split; [by apply insert_subseteq|]. unfold limits_positive. rewrite Hproj.
  intros Hpos. apply map_Forall_insert_2; [|done]. bool_hyps. cbn. lia.
Qed.

Lemma perform_stable c w r w' :
  perform c w = (r, w') -> r <> Ok (QuotaDecision true) -> quota_stable (fst w) (fst w').
Proof.
  intros H Hr. assert (Hk : match c with CreateProject _ _ _ _ | Admit _ => True | _ => keeps quota_stable (perform c) end).
  { destruct c; try exact I; cbn [perform];
      unfold issue_key, authenticate, is_expired, revoke_key, list_keys, dispatch_event, record_usage, project_usage,
        purge_metadata; keep_steps; intros db.
    - intros db' Hf. unfold insert_key in Hf. destruct (existsb _ _); [done|].
      destruct (projects db !! _); [|done]. by injection Hf as <-.
    - by intros db' [l ->]%insert_audit_ok.
    - intros db' Hf. cbv beta in Hf. by injection Hf as <-.
    - intros db' Hf. cbv beta in Hf. by injection Hf as <-.
    - by intros db' [l ->]%insert_audit_ok.
    - by intros db' [l ->]%insert_audit_ok.
    - by intros db' [l ->]%insert_usage_ok.
    - intros db' Hf. cbv beta in Hf. by injection Hf as <-. }
  destruct c; try (by eapply Hk); clear Hk; cbn [perform] in H.
  - unfold mbind, io_bind in H. destruct (create_project _ _ _ _ _) as [[u|x] w1] eqn:Ec;
      apply pair_equal_spec in H as [_ <-]; by eapply create_project_stable.
  - destruct r as [r|x].
    2: { assert (Ha : fst w' = fst w); [|by rewrite Ha].
         pose proof (perform_atomic (Admit p)) as Ha.
         by eapply Ha. }
    destruct w as [db e]. apply io_bind_ok in H as (b & w1 & H & Hb).
    apply pair_equal_spec in Hb as [[= <-] <-].
    apply io_bind_ok in H as (t & w2 & H1 & H). apply outside_ok in H1 as (e1 & _ & ->).
    apply io_bind_ok in H as (now & w2 & H1 & H). apply lift_ok in H1 as [_ ->].
    apply transaction_ok in H as (e2 & db' & e3 & e4 & H & ->).
    unfold exchange in H. destruct (admit_at p now db) as [[b' db1]|] eqn:Ea; [|done].
    apply pair_equal_spec in H as [[= ->] [= -> _]]. destruct b; [done|].
    unfold admit_at in Ea. destruct (projects db !! _); [|by injection Ea as <-].
    destruct (quota_check _ _) as [[|]|]; [|by injection Ea as <-|done].
    by destruct (integer_param (now - 120)).
Qed.

(** The counters are exact on every window a steady clock can still charge, and
    no window was charged beyond its limit. *)
Definition quota_ok (db : AccessDb) (log : list (Z * Principal)) : Prop :=
  limits_positive db
  /\ Forall (fun a => is_Some (projects db !! (p_tenant_id (snd a), p_project_id (snd a)))) log
  /\ (forall k, Forall (fun a => fst a - 120 <= snd k)%Z log -> default 0%Z (quota db !! k) = charged k log)
  /\ (forall k limits, projects db !! project_of k = Some limits -> (charged k log <= limit_of k limits)%Z).

Lemma uncharged k log db :
  Forall (fun a => is_Some (projects db !! (p_tenant_id (snd a), p_project_id (snd a)))) log ->
  projects db !! project_of k = None -> charged k log = 0%Z.
Proof.
  intros Hlog Hnone. induction Hlog as [|a log Ha _ IH]; [done|]. rewrite charged_cons, IH.
  rewrite bool_decide_eq_false_2; [done|]. intros Hk. apply charges_project in Hk. rewrite Hk in Hnone.
  rewrite Hnone in Ha. by destruct Ha.
Qed.

Lemma quota_ok_stable db db' log : quota_stable db db' -> quota_ok db log -> quota_ok db' log.
Proof.
  intros (Hq & Hp & Hpos) (H1 & H2 & H3 & H4). specialize (Hpos H1). split; [done|]. split.
  - eapply Forall_impl; [exact H2|]. intros a [l Hl]. exists l. by eapply lookup_weaken.
  - rewrite Hq. split; [done|]. intros k limits Hk.
    destruct (projects db !! project_of k) as [l|] eqn:El.
    + rewrite (lookup_weaken _ _ _ _ El Hp) in Hk. injection Hk as <-. by apply H4.
    + rewrite (uncharged _ _ _ H2 El). specialize (Hpos _ _ Hk). unfold limit_of.
      destruct k as [[[[kind t] p] id] window]. destruct (String.eqb kind "key"); lia.
Qed.

Lemma quota_ok_admitted db log p now db' :
  admit_at p now db = Ok (true, db') -> Forall (fun a => fst a - 60 <= now)%Z log ->
  quota_ok db log -> quota_ok db' ((now, p) :: log).
Proof.
  intros Ha Hsteady (H1 & H2 & H3 & H4). unfold admit_at in Ha.
  destruct (projects db !! _) as [limits|] eqn:El; [|done].
  destruct (quota_check _ _) as [[|]|] eqn:Eq; [|done|done].
  cbn [mbind result_bind negb] in Ha. cbv zeta in Ha. destruct (integer_param (now - 120)); [|done].
  assert (db' = with_quota (quota_purge (now - 120) (quota_charge (quota_requests p now limits) (quota db))) db)
    as -> by (cbn [mbind result_bind] in Ha; congruence). clear Ha.
  split; [done|]. split; [by constructor|]. cbn [with_quota quota projects]. split.
  - intros k Hk. apply Forall_cons in Hk as [Hnow Hk]. rewrite quota_purge_lookup by done.
    rewrite quota_charge_spec, charged_cons. by rewrite H3.
  - intros k l Hl. rewrite charged_cons. case_bool_decide as Hin; [|specialize (H4 _ _ Hl); lia].
    pose proof (charges_project _ _ Hin) as Hproj. cbn [snd] in Hproj. rewrite Hproj, El in Hl.
    injection Hl as <-. apply quota_check_ok in Eq. rewrite Forall_forall in Eq.
    specialize (Eq (k, limit_of k limits)). cbn [fst snd] in Eq.
    rewrite <- (H3 k).
    + specialize (Eq (proj2 (quota_requests_spec _ _ _ _ _) (conj Hin eq_refl))).
      match type of Eq with match ?q with _ => _ end =>
        change (default 0 q + 1 <= limit_of k limits)%Z; destruct q; [cbn; lia|] end.
      cbn [from_option]. destruct (H1 _ _ El) as [Hrpm Hrps]. unfold limit_of.
      destruct k as [[[[kind t] pr] id] window]. destruct (String.eqb kind "key"); lia.
    + apply charges_window in Hin. eapply Forall_impl; [exact Hsteady|]. cbn. intros b Hw. cbn in Hin. lia.
Qed.

Lemma history_quota_ok db log :
  store_history db log ->
  steady log -> quota_ok db log.
Proof.
  induction 1 as [|db log c e r db' e' _ IH Hc Hr|db log p e t now e1 db' e' _ IH Ht Hn Hc]; intros Hs.
  - split; [by apply map_Forall_empty|]. split; [constructor|]. split; [done|]. done.
  - apply (quota_ok_stable db); [|auto]. exact (perform_stable c (db, e) r (db', e') Hc Hr).
  - inversion Hs as [|? ? Hhead Htail]; subst. specialize (IH Htail).
    cbn [perform] in Hc. apply io_bind_ok in Hc as (b & w1 & H & Hb).
    apply pair_equal_spec in Hb as [Hb ->]. injection Hb as ->.
    apply io_bind_ok in H as (t' & w2 & H1 & H). apply outside_ok in H1 as (e2 & H1 & ->).
    rewrite Ht in H1. apply pair_equal_spec in H1 as [H1 <-]. injection H1 as <-.
    apply io_bind_ok in H as (now' & w2 & H1 & H). apply lift_ok in H1 as [H1 ->].
    rewrite Hn in H1. injection H1 as <-.
    apply transaction_ok in H as (e3 & db2 & e4 & e5 & H & [= -> _]).
    unfold exchange in H. destruct (admit_at p now db) as [[b' db1]|] eqn:Ea; [|done].
    apply pair_equal_spec in H as [[= ->] [= -> _]]. by apply (quota_ok_admitted db).
Qed.
End admission.


(** ** Properties *)

(** C6: Authentication implements the abstract store of granted keys.  After any
    history of calls on a fresh store, a caller is accepted only as the principal
    of a grant that a successful [issue_key] made, that no later successful
    [revoke_key] withdrew and that had not expired when the clock was read, and
    only with that grant's own secret (or another text with the same HMAC under a
    stored salt); conversely the secret of a live grant is accepted whenever the
    database answers. *)
Theorem authentication_refines_grants {engine : Sql} {E} {host : AccessHost E}
    calls (e0 : E) rs db e p
    (Htok : token_shapes) (H : perform_all calls (empty_access, e0) = (rs, (db, e))) :
  (forall pr w', authenticate p (db, e) = (Ok (Some pr), w') ->
     exists g, g ∈ grants_of calls rs /\ g_revoked g = false /\ pr = principal_of g
       /\ match_key p = Some (g_id g)
       /\ (g_expires g = None \/ exists now e1 e2, clock e1 = (Ok now, e2) /\ unexpired g now)
       /\ (g_secret g = p
           \/ exists k salt, k ∈ api_keys db /\ fromhex (kr_salt k) = Ok salt /\ g_secret g <> p
                /\ hmac_sha256_hex salt (utf8 (g_secret g)) = hmac_sha256_hex salt (utf8 p)))
  /\ (forall g now, g ∈ grants_of calls rs -> g_revoked g = false -> unexpired g now ->
        commits e -> clock e = (Ok now, e) ->
        exists w', authenticate (g_secret g) (db, e) = (Ok (Some (principal_of g)), w')).
Proof.
  pose proof (perform_all_implements calls _ _ _ _ [] Htok H) as Hi.
  cbn [fst] in Hi. assert (H0 : implements empty_access []) by (split; constructor).
  specialize (Hi H0). split.
  - intros pr w' Ha. apply authenticate_ok in Ha as [[_ Ha]|[? _]]; [|done].
    destruct Ha as (id & k & salt & scopes & Hmk & Hk & <- & Hrev & Hsalt & Hdig & Hexp & Hsc & ->).
    destruct (implements_elem _ _ _ Hi Hk) as (g & Hg & Hid & Hten & Hpr & Hsub & Htext & Hx & Hr & Hgk & salt' & Hs' & Hd').
    exists g. rewrite (read_scopes_text _ _ Hsub Htext) in Hsc. injection Hsc as <-.
    rewrite Hs', fromhex_bytes in Hsalt. injection Hsalt as ->.
    split; [done|]. split; [congruence|]. split; [unfold principal_of; congruence|]. split; [congruence|].
    split.
    + rewrite Hx in Hexp. destruct (g_expires g) as [x|] eqn:Eg; [right|by left].
      destruct Hexp as (now & e1 & e2 & Hc & Hf). exists now, e1, e2. unfold unexpired. by rewrite Eg.
    + destruct (decide (g_secret g = p)) as [|Hne]; [by left|right].
      exists k, salt. rewrite Hs', fromhex_bytes. split; [done|]. split; [done|]. split; [done|]. congruence.
  - intros g now Hg Hrev Hexp Hc Ht. by apply (authenticate_live db e _ g now Hi Hg).
Qed.

(** A world whose tokens and clock are counters, for the witnesses. *)
Definition example_hex : string := "00112233445566778899aabb".
Definition example_secret : string := "AAAAAAAAAAAAAAAAAAAAAAAAAAAAAAAAAAAAAAAAAAA".
Definition example_salt : string := "0123456789abcdef0123456789abcdef".
Definition fixed {A} (a : A) : io unit A := fun e => (Ok a, e).

Definition example_calls : list access_call :=
  [CreateProject "acme" "web" 2 1; IssueKey "acme" "web" {["models:read"]} false (Some (float_of_Z 100))].

Definition example_host (now : Z) : AccessHost unit :=
  sqlite_host (fixed (float_of_Z now)) (fixed tt) (fixed tt) (fixed example_hex) (fixed example_secret)
    (fixed example_salt).

Definition example_run (now : Z) (calls : list access_call) : list (result access_reply) * (AccessDb * unit) :=
  perform_all (engine := sqlite) (host := example_host now) calls (empty_access, tt).

Definition example_key : string := key_plaintext false example_hex example_secret.

Definition example_grant : grant :=
  mkGrant example_hex example_key "acme" "web" {["models:read"]} (Some (float_of_Z 100)) false.

Lemma example_shapes now : token_shapes (host := example_host now).
Proof. split; intros e s e' H; injection H as <- _; done. Qed.

Lemma example_commits : commits (host := example_host 7) tt.
Proof.
  intros A body db a db' H. cbn [transaction example_host sqlite_host]. unfold sqlite_transaction, atomically.
  cbn [fixed]. rewrite H. by eexists.
Qed.

Lemma authentication_refines_grants_witness :
  exists rs db, example_run 7 example_calls = (rs, (db, tt))
    /\ grants_of example_calls rs = [example_grant]
    /\ exists w', authenticate (engine := sqlite) (host := example_host 7) example_key (db, tt)
          = (Ok (Some (principal_of example_grant)), w').
Proof.
  destruct (example_run 7 example_calls) as [rs [db []]] eqn:H. exists rs, db. split; [done|].
  pose proof (authentication_refines_grants (engine := sqlite) (host := example_host 7) example_calls tt rs db tt
    example_key (example_shapes 7) H) as [_ Hc].
  assert (Hg : grants_of example_calls rs = [example_grant]).
  { apply (f_equal fst) in H. cbn [fst] in H. rewrite <- H. vm_compute. reflexivity. }
  split; [done|]. rewrite Hg in Hc.
  apply (Hc example_grant (float_of_Z 7)); [by left|done|vm_compute; reflexivity|apply example_commits|done].
Defined.

(** The admissions of a key in one second, of a project in one minute. *)
Definition in_second (t p id : string) (second : Z) (a : Z * Principal) : bool :=
  String.eqb (p_tenant_id (snd a)) t && String.eqb (p_project_id (snd a)) p
  && String.eqb (p_key_id (snd a)) id && Z.eqb (fst a) second.

Definition in_minute (t p : string) (minute : Z) (a : Z * Principal) : bool :=
  String.eqb (p_tenant_id (snd a)) t && String.eqb (p_project_id (snd a)) p && Z.eqb (fst a / 60) minute.

Lemma charged_second t p id second log :
  lenZ (List.filter (in_second t p id second) log) = charged ("key", t, p, id, second) log.
Proof.
  unfold charged. f_equal. apply List.filter_ext. intros [now [t' p' id' sc]]. apply eq_true_iff_eq.
  rewrite bool_decide_eq_true. unfold in_second, charges, quota_requests.
  cbn [map fst snd p_tenant_id p_project_id p_key_id].
  rewrite !andb_true_iff, !String.eqb_eq, Z.eqb_eq, !elem_of_cons, elem_of_nil. split.
  - intros [[[-> ->] ->] ->]. by left.
  - by intros [[= -> -> -> ->]|[[= ]|[]]].
Qed.

Lemma charged_minute t p minute log :
  lenZ (List.filter (in_minute t p minute) log) = charged ("project", t, p, "", (minute * 60)%Z) log.
Proof.
  unfold charged. f_equal. apply List.filter_ext. intros [now [t' p' id' sc]]. apply eq_true_iff_eq.
  rewrite bool_decide_eq_true. unfold in_minute, charges, quota_requests.
  cbn [map fst snd p_tenant_id p_project_id p_key_id].
  rewrite !andb_true_iff, !String.eqb_eq, Z.eqb_eq, !elem_of_cons, elem_of_nil. split.
  - intros [[-> ->] <-]. by right; left.
  - intros [[= ]|[[= -> -> H]|[]]]. split; [done|]. lia.
Qed.

(** C7: Rate limits hold over every history of calls.  While the clock never reads
    more than a minute less than it once did, no key is admitted more often in a
    second than its project's per-key limit, and no project more often in a minute
    than its per-minute limit, whatever else is done to the store and although
    counters older than two minutes are deleted. *)
Theorem admissions_within_limits {engine : Sql} {E} {host : AccessHost E}
    db log t p rpm key_rps
    (H : store_history (E := E) db log)
    (Hs : steady log) (Hp : projects db !! (t, p) = Some (rpm, key_rps)) :
  (forall id second, (lenZ (List.filter (in_second t p id second) log) <= key_rps)%Z)
  /\ (forall minute, (lenZ (List.filter (in_minute t p minute) log) <= rpm)%Z).
Proof.
  destruct (history_quota_ok _ _ H Hs) as (_ & _ & _ & Hle). split.
  - intros id second. rewrite charged_second. exact (Hle ("key", t, p, id, second) _ Hp).
  - intros minute. rewrite charged_minute. exact (Hle ("project", t, p, "", (minute * 60)%Z) _ Hp).
Qed.

Definition example_principal : Principal := principal_of example_grant.

Definition example_perform (c : access_call) (db : AccessDb) : result access_reply * (AccessDb * unit) :=
  perform (engine := sqlite) (host := example_host 7) c (db, tt).

Definition example_created : AccessDb := fst (snd (example_perform (CreateProject "acme" "web" 2 1) empty_access)).
Definition example_admitted : AccessDb := fst (snd (example_perform (Admit example_principal) example_created)).

Lemma example_step c db r :
  fst (example_perform c db) = r -> example_perform c db = (r, (fst (snd (example_perform c db)), tt)).
Proof. destruct (example_perform c db) as [r' [db' []]]. by intros <-. Qed.

Lemma example_created_step :
  example_perform (CreateProject "acme" "web" 2 1) empty_access = (Ok Done, (example_created, tt)).
Proof. apply example_step. vm_compute. reflexivity. Qed.

Lemma example_admitted_step :
  example_perform (Admit example_principal) example_created = (Ok (QuotaDecision true), (example_admitted, tt)).
Proof. apply example_step. vm_compute. reflexivity. Qed.

Lemma example_history :
  store_history (engine := sqlite) (host := example_host 7) example_admitted [(7%Z, example_principal)].
Proof.
  apply (history_admitted (engine := sqlite) (host := example_host 7) example_created [] example_principal tt
           (float_of_Z 7) 7 tt example_admitted tt); [|done|vm_compute; reflexivity|exact example_admitted_step].
  apply (history_call (engine := sqlite) (host := example_host 7) empty_access []
           (CreateProject "acme" "web" 2 1) tt (Ok Done) example_created tt);
    [apply history_start|exact example_created_step|done].
Qed.

Lemma example_limits : projects example_admitted !! ("acme", "web") = Some (2, 1)%Z.
Proof. vm_compute. reflexivity. Qed.

Lemma admissions_within_limits_witness :
  store_history (engine := sqlite) (host := example_host 7) example_admitted [(7%Z, example_principal)]
  /\ (lenZ (List.filter (in_second "acme" "web" example_hex 7) [(7%Z, example_principal)]) <= 1)%Z
  /\ fst (example_run 7 (example_calls ++ [Admit example_principal; Admit example_principal])%list)
     = [Ok Done; Ok (Issued (mkIssuedKey example_hex example_key)); Ok (QuotaDecision true); Ok (QuotaDecision false)].
Proof.
  split; [exact example_history|]. split.
  - exact (proj1 (admissions_within_limits (engine := sqlite) (host := example_host 7) example_admitted
      [(7%Z, example_principal)] "acme" "web" 2 1 example_history
      (FOP_cons _ (Forall_nil_2 _) (FOP_nil _)) example_limits) example_hex 7%Z).
  - vm_compute. reflexivity.
Defined.
