(* ===== verification/PgAccess.v ===== *)
(** * The PostgreSQL credential store ([c3r/pg_access.py])

    The operations of [PostgresAccessStore] are those of [Access.v] under
    PostgreSQL's instance of [Sql] and a transaction that borrows a pooled
    connection.  The connection pool is a step relation, and so are concurrent
    admissions under row locks, where the two stores differ. *)

From Stdlib Require Import Lia ZArith Ascii String.
From stdpp Require Import base option strings gmap list.
From S2P Require Import Prelude PyStr PySort PyFloat FloatRepr Json Hash StateSchema TraceLedger LedgerAnchor Access.

Local Open Scope string_scope.

(** ** Construction *)

(** The attributes of [urlparse(dsn)] the constructor reads. *)
Record dsn_parts : Type := mkDsn {
  dsn_scheme : string; dsn_username : option string; dsn_password : option string;
  dsn_hostname : option string; dsn_port : option Z; dsn_path : string }.

Record pg_params : Type := mkParams {
  pg_user : string; pg_password : string; pg_host : string; pg_port : Z; pg_database : string }.

(** [s.lstrip("/")]. *)
Fixpoint lstrip_slash (s : string) : string :=
  match s with
  | String c s' => if Ascii.eqb c "/" then lstrip_slash s' else s
  | EmptyString => EmptyString
  end.

(** [value or other]. *)
Definition or_else (value : option string) (other : string) : string :=
  match value with Some s => if nonempty s then s else other | None => other end.

(** The checks and connection parameters of [PostgresAccessStore.__init__]. *)
Definition pg_connection (urlparse : string -> result dsn_parts) (unquote : string -> string)
    (dsn : string) (pool_size : Z) : result pg_params :=
  if negb (nonempty dsn) then raise ValueError "Postgres DSN required"
  else if Z.ltb pool_size 1 then raise ValueError "pool size must be positive"
  else
    parsed ← urlparse dsn;
    if negb (bool_decide (dsn_scheme parsed ∈ ["postgres"; "postgresql"]))
    then raise ValueError "Postgres DSN must use the postgres(ql) scheme"
    else Ok (mkParams (unquote (or_else (dsn_username parsed) "")) (unquote (or_else (dsn_password parsed) ""))
               (or_else (dsn_hostname parsed) "127.0.0.1")
               (match dsn_port parsed with Some n => if Z.eqb n 0 then 5432 else n | None => 5432 end)%Z
               (or_else (Some (lstrip_slash (or_else (Some (dsn_path parsed)) "/"))) "postgres")).

(** ** The connection pool

    [idle] is the queue, [created] the counter, [held] the connections borrowed
    by threads, [waiting] the threads blocked in [self._pool.get()]. *)
Record Pool : Type := mkPool {
  pool_size : nat; idle : list nat; created : nat; held : list nat; waiting : nat }.

Definition new_pool (size : nat) : Pool := mkPool size [] 0 [] 0.

(** One thread's step.  [opened] names the connections the driver returned. *)
Inductive pool_step : Pool -> Pool -> Prop :=
  (* [_acquire]: an idle connection *)
  | acquire_idle n c rest k h m : pool_step (mkPool n (c :: rest) k h m) (mkPool n rest k (c :: h) m)
  (* [_acquire]: room for a new connection, and the driver opens it *)
  | acquire_new n c k h m :
      k < n -> c ∉ h -> pool_step (mkPool n [] k h m) (mkPool n [] (S k) (c :: h) m)
  (* [_acquire]: the counter is raised, the driver raises *)
  | acquire_failed n k h m : k < n -> pool_step (mkPool n [] k h m) (mkPool n [] (S k) h m)
  (* [_acquire]: no room; block *)
  | acquire_wait n k h m : n <= k -> pool_step (mkPool n [] k h m) (mkPool n [] k h (S m))
  (* a blocked thread takes a returned connection *)
  | acquire_woken n c rest k h m :
      pool_step (mkPool n (c :: rest) k h (S m)) (mkPool n rest k (c :: h) m)
  (* [_release]: back to the queue *)
  | release_step n q k h1 c h2 m :
      length q < n ->
      pool_step (mkPool n q k (h1 ++ c :: h2) m) (mkPool n (q ++ [c]) k (h1 ++ h2) m)
  (* [_release] with a full queue, or a failed transaction: [_discard] *)
  | discard_step n q k h1 c h2 m :
      pool_step (mkPool n q k (h1 ++ c :: h2) m) (mkPool n q (k - 1) (h1 ++ h2) m).

Inductive pool_steps : Pool -> Pool -> Prop :=
  | pool_refl p : pool_steps p p
  | pool_next p q r : pool_steps p q -> pool_step q r -> pool_steps p r.

(** ** The engine and its transactions *)

Section engine.
Context (collate : list string -> list string) (heap : forall A, list A -> list A).

(** PostgreSQL stores NaN, takes bigint windows, scans a heap and orders text by
    its collation. *)
Definition postgres : Sql := {|
  db_error := PgError;
  real_value x := Some x;
  integer_param n := raise_if (Z.ltb n (- 2 ^ 63) || Z.leb (2 ^ 63) n) PgError "bigint out of range";
  scan A l := heap A l;
  purge_order l := collate l;
  purge_scope := "selected_project_shared_database_only" |}.
End engine.

(** [with self._cursor() as cursor: body]: borrow a connection, open a cursor,
    run, commit; any exception discards the connection, otherwise the cursor is
    closed and the connection released. *)
Definition pg_transaction {E A} (acquire : io E nat) (cursor commit release discard : nat -> io E unit)
    (body : access E A) : access E A := fun '(db, e) =>
  match acquire e with
  | (Raise x, e1) => (Raise x, (db, e1))
  | (Ok c, e1) =>
      let failed {B} (x : exn) (e' : E) : result B * (AccessDb * E) := (Raise x, (db, snd (discard c e'))) in
      match cursor c e1 with
      | (Raise x, e2) => failed x e2
      | (Ok _, e2) =>
          match body (db, e2) with
          | (Raise x, (_, e3)) => failed x e3
          | (Ok a, (db', e3)) =>
              match commit c e3 with
              | (Raise x, e4) => failed x e4
              | (Ok _, e4) => (Ok a, (db', snd (release c e4)))
              end
          end
      end
  end.

Program Definition postgres_host {E} (clock : io E float) (token_hex token_urlsafe token_bytes : io E string)
    (acquire : io E nat) (cursor commit release discard : nat -> io E unit) : AccessHost E := {|
  clock := clock; token_hex := token_hex; token_urlsafe := token_urlsafe; token_bytes := token_bytes;
  transaction A body := pg_transaction acquire cursor commit release discard body |}.
Next Obligation.
  intros E clock h u b acquire cursor commit release discard A body db e a w' H. unfold pg_transaction in H.
  destruct (acquire e) as [[c|x] e1]; [|done]. destruct (cursor c e1) as [[v|x] e2]; [|done].
  destruct (body (db, e2)) as [[d|x] [db' e3]] eqn:Eb; [|done].
  destruct (commit c e3) as [[v'|x] e4]; [|done]. apply pair_equal_spec in H as [[= ->] <-]. eauto 10.
Qed.
Next Obligation.
  intros E clock h u b acquire cursor commit release discard A body [db e] x w' H. unfold pg_transaction in H.
  destruct (acquire e) as [[c|y] e1]; [|by apply pair_equal_spec in H as [_ <-]].
  destruct (cursor c e1) as [[v|y] e2]; [|by apply pair_equal_spec in H as [_ <-]].
  destruct (body (db, e2)) as [[d|y] [db' e3]]; [|by apply pair_equal_spec in H as [_ <-]].
  destruct (commit c e3) as [[v'|y] e4]; [done|by apply pair_equal_spec in H as [_ <-]].
Qed.

(** ** The operations *)

Section operations.
Context (collate : list string -> list string) (heap : forall A, list A -> list A)
  {E : Type} (clock : io E float) (token_hex token_urlsafe token_bytes : io E string)
  (acquire : io E nat) (cursor commit release discard : nat -> io E unit).

#[local] Instance pg_engine : Sql := postgres collate heap.
#[local] Instance pg_host_ops : AccessHost E :=
  postgres_host clock token_hex token_urlsafe token_bytes acquire cursor commit release discard.

Definition pg_create_project (tenant project : string) (rpm key_rps : Z) : access E unit :=
  create_project tenant project rpm key_rps.
Definition pg_issue_key (tenant project : string) (scopes : gset string) (live : bool)
    (expires_at : option float) : access E IssuedKey := issue_key tenant project scopes live expires_at.
Definition pg_authenticate (plaintext : string) : access E (option Principal) := authenticate plaintext.
Definition pg_revoke_key (tenant project key_id : string) : access E unit := revoke_key tenant project key_id.
Definition pg_list_keys (tenant project : string) : access E (list listed_key) := list_keys tenant project.
Definition pg_dispatch_event (p : Principal) (request_id : string) : access E unit := dispatch_event p request_id.
Definition pg_record_usage (p : Principal) (request_id : string) (u : usage_account) : access E unit :=
  record_usage p request_id u.
Definition pg_project_usage (tenant project : string) : access E (list json) := project_usage tenant project.
Definition pg_purge_metadata (tenant project : string) (retention_seconds limit : Z) : access E purge_report :=
  purge_metadata tenant project retention_seconds limit.
Definition pg_admit (p : Principal) : access E bool := access_admit p.

Definition pg_perform (c : access_call) : access E access_reply :=
  match c with
  | CreateProject t p rpm rps => _ ← pg_create_project t p rpm rps; mret Done
  | IssueKey t p scopes live x => k ← pg_issue_key t p scopes live x; mret (Issued k)
  | Authenticate s => r ← pg_authenticate s; mret (Authenticated r)
  | RevokeKey t p id => _ ← pg_revoke_key t p id; mret Done
  | ListKeys t p => l ← pg_list_keys t p; mret (Listed l)
  | DispatchEvent p id => _ ← pg_dispatch_event p id; mret Done
  | RecordUsage p id u => _ ← pg_record_usage p id u; mret Done
  | ProjectUsage t p => l ← pg_project_usage t p; mret (UsageOf l)
  | PurgeMetadata t p r n => x ← pg_purge_metadata t p r n; mret (Purged x)
  | Admit p => b ← pg_admit p; mret (QuotaDecision b)
  end.

Fixpoint pg_perform_all (calls : list access_call) (w : AccessDb * E)
    : list (result access_reply) * (AccessDb * E) :=
  match calls with
  | [] => ([], w)
  | c :: rest => let '(r, w1) := pg_perform c w in
                 let '(rs, w2) := pg_perform_all rest w1 in (r :: rs, w2)
  end.
End operations.

(** ** Concurrent admissions

    Two transactions under READ COMMITTED.  A SELECT FOR UPDATE reads and locks
    the committed row of a window; a missing row cannot be locked.  An upsert
    waits for the other transaction's lock or uncommitted row.  The final DELETE
    of old windows takes effect with the commit. *)

Inductive admission_phase : Type :=
  | Reading (rest : list (quota_key * Z)) (all : list quota_key)
  | Writing (rest : list quota_key)
  | Finished (admitted : bool).

Record admission : Type := mkAdmission {
  ad_now : Z; ad_phase : admission_phase; ad_locks : list quota_key; ad_pending : list quota_key }.

(** The committed counters and the two transactions. *)
Definition pg_state : Type := (gmap quota_key Z * admission * admission)%type.

Definition begin_admission (p : Principal) (now : Z) (limits : Z * Z) : admission :=
  let requests := quota_requests p now limits in mkAdmission now (Reading requests (map fst requests)) [] [].

(** One statement of one transaction, [other] being the other one's row locks
    and uncommitted rows. *)
Inductive admission_step (q : gmap quota_key Z) (other : list quota_key) : gmap quota_key Z -> admission -> admission -> Prop :=
  | read_missing now k l rest all locks pending :
      q !! k = None ->
      admission_step q other q (mkAdmission now (Reading ((k, l) :: rest) all) locks pending)
        (mkAdmission now (Reading rest all) locks pending)
  | read_free now k l n rest all locks pending :
      q !! k = Some n -> k ∉ other -> (n < l)%Z ->
      admission_step q other q (mkAdmission now (Reading ((k, l) :: rest) all) locks pending)
        (mkAdmission now (Reading rest all) (k :: locks) pending)
  | read_full now k l n rest all locks pending :
      q !! k = Some n -> k ∉ other -> (l <= n)%Z ->
      admission_step q other q (mkAdmission now (Reading ((k, l) :: rest) all) locks pending)
        (mkAdmission now (Finished false) [] [])
  | checked now all locks pending :
      admission_step q other q (mkAdmission now (Reading [] all) locks pending)
        (mkAdmission now (Writing all) locks pending)
  | write now k rest locks pending :
      k ∉ other ->
      admission_step q other q (mkAdmission now (Writing (k :: rest)) locks pending)
        (mkAdmission now (Writing rest) locks (k :: pending))
  | commit_writes now locks pending :
      admission_step q other (quota_purge (now - 120) (quota_charge (map (fun k => (k, 0%Z)) pending) q))
        (mkAdmission now (Writing []) locks pending) (mkAdmission now (Finished true) [] []).

Inductive pg_step : pg_state -> pg_state -> Prop :=
  | first_steps q q' a a' b :
      admission_step q (ad_locks b ++ ad_pending b) q' a a' -> pg_step (q, a, b) (q', a', b)
  | second_steps q q' a b b' :
      admission_step q (ad_locks a ++ ad_pending a) q' b b' -> pg_step (q, a, b) (q', a, b').

Inductive pg_steps : pg_state -> pg_state -> Prop :=
  | pg_refl s : pg_steps s s
  | pg_next s t u : pg_step s t -> pg_steps t u -> pg_steps s u.

(** ** Lemmas *)

(** Errors of the two stores: the same class, or each engine's own. *)
Definition same_error (x y : exn) : Prop :=
  exn_class x = exn_class y \/ exn_class x = SqliteError /\ exn_class y = PgError.

Definition same_result {A B} (Q : A -> B -> Prop) (r : result A) (s : result B) : Prop :=
  match r, s with
  | Ok a, Ok b => Q a b
  | Raise x, Raise y => same_error x y
  | _, _ => False
  end.

(** From a state satisfying [P], both computations reach the same state with
    related results. *)
Definition sim {E A B} (P : AccessDb -> Prop) (Q : A -> B -> Prop) (m : access E A) (n : access E B) : Prop :=
  forall db e, P db -> snd (m (db, e)) = snd (n (db, e)) /\ same_result Q (fst (m (db, e))) (fst (n (db, e))).

Definition anything (db : AccessDb) : Prop := True.

Lemma same_result_refl {A} (r : result A) : same_result eq r r.
Proof. destruct r; [done|by left]. Qed.

Section sim.
Context {E : Type}.

Lemma sim_refl {A} P (m : access E A) : sim P eq m m.
Proof. intros db e _. split; [done|apply same_result_refl]. Qed.

Lemma sim_weaken {A B} P (Q Q' : A -> B -> Prop) (m : access E A) n :
  sim P Q m n -> (forall a b, Q a b -> Q' a b) -> sim P Q' m n.
Proof.
  intros H HQ db e Hp. destruct (H db e Hp) as [Hs Hr]. split; [done|].
  destruct (fst (m _)), (fst (n _)); cbn in *; auto.
Qed.

Lemma sim_bind {A A' B B'} (P P' : AccessDb -> Prop) (Q : A -> A' -> Prop) (S : B -> B' -> Prop)
    (m : access E A) n (f : A -> access E B) g :
  sim P Q m n -> (forall db e, P db -> P' (fst (snd (m (db, e))))) ->
  (forall a b, Q a b -> sim P' S (f a) (g b)) -> sim P S (m ≫= f) (n ≫= g).
Proof.
  intros Hm Hp Hf db e H. specialize (Hm db e H) as [Hs Hr]. specialize (Hp db e H).
  unfold mbind, io_bind. destruct (m (db, e)) as [[a|x] [db1 e1]], (n (db, e)) as [[b|y] w2];
    cbn in *; subst; try done. by apply Hf.
Qed.

Lemma sim_step {A A' B B'} (P : AccessDb -> Prop) (Q : A -> A' -> Prop) (S : B -> B' -> Prop)
    (m : access E A) n (f : A -> access E B) g :
  sim P Q m n -> (forall a b, Q a b -> sim anything S (f a) (g b)) -> sim P S (m ≫= f) (n ≫= g).
Proof. intros Hm Hf. by apply (sim_bind P anything Q). Qed.

(** The same read-only step on both sides keeps the precondition. *)
Lemma sim_same {A B B'} (P : AccessDb -> Prop) (S : B -> B' -> Prop) (m : access E A) (f : A -> access E B) g :
  keeps eq m -> (forall a, sim P S (f a) (g a)) -> sim P S (m ≫= f) (m ≫= g).
Proof.
  intros Hk Hf. apply (sim_bind P P eq); [apply sim_refl| |by intros a b ->].
  intros db e Hp. destruct (m (db, e)) as [r w] eqn:Em. apply Hk in Em. cbn in Em |- *. by rewrite <- Em.
Qed.

Lemma sim_ret {A B} P (Q : A -> B -> Prop) a b : Q a b -> sim (E := E) P Q (mret a) (mret b).
Proof. intros H db e _. done. Qed.

Lemma sim_lift {A B} P (Q : A -> B -> Prop) r s : same_result Q r s -> sim (E := E) P Q (lift r) (lift s).
Proof. intros H db e _. done. Qed.

Lemma sim_query {A B} P (Q : A -> B -> Prop) (f : AccessDb -> A) g :
  (forall db, P db -> Q (f db) (g db)) -> sim (E := E) P Q (query f) (query g).
Proof. intros H db e Hp. split; [done|]. by apply H. Qed.

Lemma sim_statement P f g :
  (forall db, same_result eq (f db) (g db)) -> sim (E := E) P eq (statement f) (statement g).
Proof.
  intros H db e Hp. specialize (H db). unfold statement.
  destruct (f db), (g db); cbn in *; subst; done.
Qed.

Lemma sim_exchange {A} P (f g : AccessDb -> result (A * AccessDb)) :
  (forall db, same_result eq (f db) (g db)) -> sim (E := E) P eq (exchange f) (exchange g).
Proof.
  intros H db e Hp. specialize (H db). unfold exchange.
  destruct (f db) as [[a d]|], (g db) as [[b d']|]; cbn in *; try done. by injection H as <- <-.
Qed.

Lemma sim_transaction {A B} P (Q : A -> B -> Prop) (connect commit : io E unit) acquire cursor commit' release discard
    (m : access E A) (n : access E B) :
  (forall e, connect e = (Ok tt, e)) -> (forall e, commit e = (Ok tt, e)) ->
  (forall e, exists c, acquire e = (Ok c, e)) -> (forall c e, cursor c e = (Ok tt, e)) ->
  (forall c e, commit' c e = (Ok tt, e)) -> (forall c e, snd (release c e) = e) -> (forall c e, snd (discard c e) = e) ->
  sim P Q m n ->
  sim P Q (sqlite_transaction connect commit m) (pg_transaction acquire cursor commit' release discard n).
Proof.
  intros H1 H2 H3 H4 H5 H6 H7 H db e Hp. unfold sqlite_transaction, atomically, pg_transaction. rewrite H1.
  destruct (H3 e) as [c ->]. rewrite H4. destruct (H db e Hp) as [Hs Hr].
  destruct (m (db, e)) as [[a|x] [db1 e1]], (n (db, e)) as [[b|y] [db2 e2]]; cbn in *; try done.
  - injection Hs as <- <-. rewrite H2, H5. cbn. by rewrite H6.
  - injection Hs as <- <-. by rewrite H7.
Qed.
End sim.

(** ** The same calls on both stores *)

Section equivalence.
Context (collate : list string -> list string) (heap : forall A, list A -> list A) {E : Type}
  (clock : io E float) (token_hex token_urlsafe token_bytes : io E string)
  (connect commit : io E unit) (acquire : io E nat) (cursor commit' release discard : nat -> io E unit).

(** Both databases answer, the clock reads ordinary times, and PostgreSQL's
    orders are orders: permutations of the rows. *)
Record serving : Prop := {
  sv_connect e : connect e = (Ok tt, e);
  sv_commit e : commit e = (Ok tt, e);
  sv_acquire e : exists c, acquire e = (Ok c, e);
  sv_cursor c e : cursor c e = (Ok tt, e);
  sv_commit' c e : commit' c e = (Ok tt, e);
  sv_release c e : snd (release c e) = e;
  sv_discard c e : snd (discard c e) = e;
  sv_clock e t e' : clock e = (Ok t, e') ->
    is_nan t = false /\ forall n, int_of_float t = Ok n -> (- 2 ^ 62 <= n < 2 ^ 62)%Z;
  sv_collate l : Permutation (collate l) l;
  sv_heap A (l : list A) : Permutation (heap A l) l }.

Context (Hs : serving).

Let eng1 : Sql := sqlite.
Let eng2 : Sql := postgres collate heap.
Let host1 : AccessHost E := sqlite_host clock connect commit token_hex token_urlsafe token_bytes.
Let host2 : AccessHost E :=
  postgres_host clock token_hex token_urlsafe token_bytes acquire cursor commit' release discard.

Lemma sim_tx {A B} P (Q : A -> B -> Prop) (m : access E A) (n : access E B) :
  sim P Q m n -> sim P Q (transaction (AccessHost := host1) m) (transaction (AccessHost := host2) n).
Proof. intros H. by apply sim_transaction; try apply Hs. Qed.

(** Two readings of the clock: the same ordinary time. *)
Definition same_time (a b : float) : Prop :=
  a = b /\ is_nan a = false /\ forall n, int_of_float a = Ok n -> (- 2 ^ 62 <= n < 2 ^ 62)%Z.

Lemma sim_clock P :
  sim P same_time (outside (Access.clock (AccessHost := host1))) (outside (Access.clock (AccessHost := host2))).
Proof.
  intros db e _. cbn. unfold outside, beside. destruct (clock e) as [[t|x] e'] eqn:Ec; cbn; (split; [done|]).
  - split; [done|]. eapply (sv_clock Hs). exact Ec.
  - by left.
Qed.

Lemma same_real t : is_nan t = false ->
  required_real (engine := eng1) t = Ok t /\ required_real (engine := eng2) t = Ok t
  /\ real_value (Sql := eng1) t = Some t /\ real_value (Sql := eng2) t = Some t.
Proof. intros H. unfold required_real. cbn. by rewrite H. Qed.

Lemma same_required t : is_nan t = false ->
  same_result eq (required_real (engine := eng1) t) (required_real (engine := eng2) t).
Proof. intros H. by destruct (same_real _ H) as (-> & -> & _). Qed.

Lemma same_last_used which t db : is_nan t = false ->
  same_result eq (Ok (fst (update_keys which (set_last_used (real_value (Sql := eng1) t)) db)))
    (Ok (fst (update_keys which (set_last_used (real_value (Sql := eng2) t)) db))).
Proof. intros H. by destruct (same_real _ H) as (_ & _ & -> & ->). Qed.

Lemma same_insert_audit t p k a id x db : is_nan x = false ->
  same_result eq (insert_audit (engine := eng1) t p k a id x db) (insert_audit (engine := eng2) t p k a id x db).
Proof. intros H. unfold insert_audit. destruct (same_real _ H) as (-> & -> & _). done. Qed.

Lemma engine_error msg : same_error (Exn SqliteError msg) (Exn PgError msg).
Proof. by right. Qed.

Lemma same_insert_project t p rpm rps db :
  same_result eq (insert_project (engine := eng1) t p rpm rps db) (insert_project (engine := eng2) t p rpm rps db).
Proof. unfold insert_project. destruct (projects db !! _); [apply engine_error|done]. Qed.

Lemma same_insert_key r db :
  same_result eq (insert_key (engine := eng1) r db) (insert_key (engine := eng2) r db).
Proof.
  unfold insert_key. destruct (existsb _ _); [apply engine_error|].
  destruct (projects db !! _); [done|apply engine_error].
Qed.

Lemma same_insert_usage r db :
  same_result eq (insert_usage (engine := eng1) r db) (insert_usage (engine := eng2) r db).
Proof. unfold insert_usage. destruct (existsb _ _); [apply engine_error|done]. Qed.

Lemma param_in_range (engine : Sql) n :
  engine = eng1 \/ engine = eng2 -> (- 2 ^ 63 <= n < 2 ^ 63)%Z -> integer_param (Sql := engine) n = Ok tt.
Proof.
  intros [-> | ->] Hn; cbn; unfold raise_if; destruct (Z.ltb_spec n (- 2 ^ 63)); destruct (Z.leb_spec (2 ^ 63) n);
    try lia; done.
Qed.

Lemma check_in_range (engine : Sql) (requests : list (quota_key * Z)) q :
  engine = eng1 \/ engine = eng2 -> Forall (fun r => - 2 ^ 63 <= snd (fst r) < 2 ^ 63)%Z requests ->
  quota_check (engine := engine) requests q
  = Ok (forallb (fun r : quota_key * Z => match q !! fst r with Some n => negb (Z.leb (snd r) n) | None => true end) requests).
Proof.
  intros He Hr. induction Hr as [|[k l] requests Hk _ IH]; [done|]. cbn [fst snd] in Hk. cbn [quota_check forallb fst snd].
  rewrite (param_in_range _ _ He Hk). cbn [mbind result_bind].
  match goal with |- match ?x with _ => _ end = Ok (match ?y with _ => _ end && _) => change y with x; destruct x end;
    [|done]. by destruct (Z.leb l _).
Qed.

Lemma same_admit_at p now db : (- 2 ^ 62 <= now < 2 ^ 62)%Z ->
  same_result eq (admit_at (engine := eng1) p now db) (admit_at (engine := eng2) p now db).
Proof.
  intros Hn. unfold admit_at. destruct (projects db !! _) as [limits|]; [|done].
  assert (Hr : Forall (fun r => - 2 ^ 63 <= snd (fst r) < 2 ^ 63)%Z (quota_requests p now limits)).
  { pose proof (Z.mod_pos_bound now 60). unfold quota_requests. repeat constructor; cbn [fst snd]; try lia;
      rewrite Z.mod_eq in *; lia. }
  rewrite !check_in_range by auto. cbn [mbind result_bind].
  destruct (forallb _ _); cbn [negb]; [|done]. rewrite !param_in_range by (auto || lia). done.
Qed.

(** With room in the batch, both purges delete every expired record. *)
Lemma take_perm {A} n (l l' : list A) : Permutation l l' -> length l' <= n -> take n l = l.
Proof. intros H Hn. apply take_ge. by rewrite H. Qed.

Lemma same_delete_usage t p cutoff limit l : (lenZ l <= limit)%Z ->
  delete_usage (engine := eng1) t p cutoff limit l = delete_usage (engine := eng2) t p cutoff limit l.
Proof.
  intros Hl. unfold delete_usage. cbn [purge_order eng1 eng2 sqlite postgres].
  set (ids := map ur_request_id _).
  assert (Hn : length ids <= Z.to_nat limit).
  { unfold ids. rewrite length_map. pose proof (List.filter_length_le (usage_expired t p cutoff) l).
    unfold lenZ in Hl. lia. }
  rewrite (take_ge ids) by done. rewrite (take_perm _ (collate ids) ids) by (apply Hs || done).
  assert (Hg : forall u, bool_decide (ur_request_id u ∈ ids) = bool_decide (ur_request_id u ∈ collate ids)).
  { intros u. apply bool_decide_ext. by rewrite (sv_collate Hs ids). }
  f_equal; [|f_equal]; apply List.filter_ext; intros u; by rewrite Hg.
Qed.

(** Replies that agree up to the order of unordered rows and the purge's scope. *)
Definition same_reply (a b : access_reply) : Prop :=
  match a, b with
  | Listed l, Listed m => Permutation l m
  | UsageOf l, UsageOf m => Permutation l m
  | Purged r, Purged s =>
      pr_usage_deleted r = pr_usage_deleted s /\ pr_audit_deleted r = pr_audit_deleted s
      /\ pr_cutoff r = pr_cutoff s /\ pr_batch_limit r = pr_batch_limit s
  | _, _ => a = b
  end.

Lemma mapR_perm {A B} (f : A -> result B) l l' ys :
  Permutation l l' -> mapR f l = Ok ys -> exists zs, mapR f l' = Ok zs /\ Permutation ys zs.
Proof.
  intros H Hy. apply mapR_ok in Hy. destruct (Permutation_Forall2 H Hy) as (zs & Hp & Hz).
  exists zs. split; [by apply mapR_ok|done].
Qed.

Lemma same_mapR (l l' : list string) :
  Permutation l l' -> same_result (@Permutation json) (mapR loads l) (mapR loads l').
Proof.
  intros H. destruct (mapR loads l) as [ys|x] eqn:E1.
  - destruct (mapR_perm _ _ _ _ H E1) as (zs & -> & Hp). done.
  - destruct (mapR loads l') as [zs|y] eqn:E2.
    + symmetry in H. destruct (mapR_perm _ _ _ _ H E2) as (ys & Hy & _). congruence.
    + left. apply mapR_raise in E1 as (a & _ & Ha). apply mapR_raise in E2 as (b & _ & Hb).
      by rewrite (loads_class _ _ Ha), (loads_class _ _ Hb).
Qed.

(** What a purge needs of the table: its records fit in one batch. *)
Definition batch_fits (c : access_call) (db : AccessDb) : Prop :=
  match c with PurgeMetadata _ _ _ limit => (lenZ (usage_records db) <= limit)%Z | _ => True end.

Lemma sim_perform c :
  sim (batch_fits c) same_reply (perform (engine := eng1) (host := host1) c)
    (pg_perform collate heap clock token_hex token_urlsafe token_bytes acquire cursor commit' release discard c).
Proof.
  destruct c; cbn [perform pg_perform].
  - apply (sim_step _ eq); [|by intros; apply sim_ret].
    unfold create_project, pg_create_project, create_project.
    do 3 (apply sim_same; [apply keeps_lift; exact _|intros ?]).
    apply sim_tx, sim_statement, same_insert_project.
  - apply (sim_step _ eq); [|by intros ? ? ->; apply sim_ret].
    unfold pg_issue_key, issue_key.
    do 2 (apply sim_same; [apply keeps_lift; exact _|intros ?]).
    do 3 (apply sim_same; [apply keeps_outside; exact _|intros ?]).
    apply sim_tx. apply sim_same; [apply keeps_lift; exact _|intros text].
    apply (sim_step _ same_time); [apply sim_clock|]. intros now ? [<- [Hn _]].
    apply (sim_step _ eq); [by apply sim_lift, same_required|]. intros created ? <-.
    apply (sim_step _ eq); [apply sim_statement, same_insert_key|]. intros ? ? _.
    apply (sim_step _ same_time); [apply sim_clock|]. intros at_ ? [<- [Ht _]].
    apply (sim_step _ eq); [apply sim_statement; intros db; by apply same_insert_audit|]. intros ? ? _.
    by apply sim_ret.
  - apply (sim_step _ eq); [|by intros ? ? ->; apply sim_ret].
    unfold pg_authenticate, authenticate. destruct (match_key plaintext) as [id|]; [|by apply sim_ret].
    apply sim_tx. apply sim_same; [apply keeps_query; exact _|intros [k|]]; [|by apply sim_ret].
    apply sim_same; [apply keeps_lift; exact _|intros salt].
    destruct (_ || _); [by apply sim_ret|].
    apply (sim_step _ eq).
    { unfold is_expired. destruct (kr_expires_at k) as [x|]; [|by apply sim_ret].
      apply (sim_step _ same_time); [apply sim_clock|]. intros now ? [<- _]. by apply sim_ret. }
    intros expired ? <-. destruct expired; [by apply sim_ret|].
    apply (sim_step _ same_time); [apply sim_clock|]. intros now ? [<- [Hn _]].
    apply (sim_step _ eq); [apply sim_statement; intros db; by apply same_last_used|].
    intros ? ? _. apply sim_same; [apply keeps_lift; exact _|intros scopes]. by apply sim_ret.
  - apply (sim_step _ eq); [|by intros; apply sim_ret]. unfold pg_revoke_key, revoke_key.
    apply sim_tx. apply sim_same; [apply keeps_query; exact _|intros changed].
    apply (sim_step _ eq); [apply sim_refl|]. intros ? ? _.
    apply sim_same; [apply keeps_lift; exact _|intros ?].
    apply (sim_step _ same_time); [apply sim_clock|]. intros now ? [<- [Hn _]].
    apply sim_statement; intros db; by apply same_insert_audit.
  - apply (sim_step _ (@Permutation listed_key)); [|by intros; apply sim_ret].
    unfold pg_list_keys, list_keys. apply sim_tx, sim_query. intros db _.
    apply Permutation_map. symmetry. apply Hs.
  - apply (sim_step _ eq); [|by intros; apply sim_ret]. unfold pg_dispatch_event, dispatch_event.
    apply sim_tx. apply (sim_step _ same_time); [apply sim_clock|]. intros now ? [<- [Hn _]].
    apply sim_statement; intros db; by apply same_insert_audit.
  - apply (sim_step _ eq); [|by intros; apply sim_ret]. unfold pg_record_usage, record_usage.
    apply (sim_step _ same_time); [apply sim_clock|]. intros now ? [<- _].
    apply sim_tx. apply sim_same; [apply keeps_lift; exact _|intros text].
    apply sim_statement, same_insert_usage.
  - apply (sim_step _ (@Permutation json)); [|by intros; apply sim_ret].
    unfold pg_project_usage, project_usage. apply sim_tx.
    apply (sim_step _ (@Permutation string)); [|intros; by apply sim_lift, same_mapR].
    apply sim_query. intros db _. apply Permutation_map. symmetry. apply Hs.
  - apply (sim_step _ (fun r s => pr_usage_deleted r = pr_usage_deleted s /\ pr_audit_deleted r = pr_audit_deleted s
      /\ pr_cutoff r = pr_cutoff s /\ pr_batch_limit r = pr_batch_limit s)); [|by intros; apply sim_ret].
    unfold pg_purge_metadata, purge_metadata.
    do 3 (apply sim_same; [apply keeps_lift; exact _|intros ?]).
    apply sim_same; [apply keeps_outside; exact _|intros now]. apply sim_tx.
    apply (sim_step _ eq); [apply sim_query; intros db; apply same_delete_usage|]. intros usage ? <-.
    apply sim_same; [apply keeps_query; exact _|intros audit].
    apply (sim_step _ eq); [apply sim_refl|]. intros ? ? _. by apply sim_ret.
  - apply (sim_step _ eq); [|by intros ? ? ->; apply sim_ret]. unfold pg_admit, access_admit.
    apply (sim_step _ same_time); [apply sim_clock|]. intros t ? [<- [_ Hr]].
    apply (sim_step _ (fun a b => a = b /\ - 2 ^ 62 <= a < 2 ^ 62)%Z).
    { apply sim_lift. destruct (int_of_float t) as [n|x]; [|by left]. by split; [|apply Hr]. }
    intros now ? [<- Hn]. apply sim_tx, sim_exchange. intros db. by apply same_admit_at.
Qed.

(** The usage table grows by one record per [record_usage] at most. *)
Definition usage_shrinks (db db' : AccessDb) : Prop := (lenZ (usage_records db') <= lenZ (usage_records db))%Z.

#[local] Instance usage_shrinks_preorder : PreOrder usage_shrinks.
Proof. split; unfold usage_shrinks; [intros db; lia|intros a b c ? ?; lia]. Qed.

Lemma usage_same db db' : usage_records db' = usage_records db -> usage_shrinks db db'.
Proof. unfold usage_shrinks. intros ->. lia. Qed.

Definition records (c : access_call) : Z := match c with RecordUsage _ _ _ => 1 | _ => 0 end.

Lemma record_usage_grows p id u db e v w' :
  record_usage (engine := eng1) (host := host1) p id u (db, e) = (Ok v, w') ->
  (lenZ (usage_records (fst w')) <= lenZ (usage_records db) + 1)%Z.
Proof.
  intros H. unfold record_usage in H.
  apply io_bind_ok in H as (now & w1 & H1 & H). apply outside_ok in H1 as (e1 & _ & ->).
  apply transaction_ok in H as (e2 & db' & e3 & e4 & H & ->).
  apply io_bind_ok in H as (text & w1 & H1 & H). apply lift_ok in H1 as [_ ->].
  apply statement_ok in H as (db2 & H & [= -> _]). unfold insert_usage in H.
  destruct (existsb _ _); [done|]. injection H as <-. cbn [fst with_logs usage_records].
  unfold lenZ. rewrite length_app. cbn. lia.
Qed.

Lemma purge_usage_shrinks t p r n db e v w' :
  purge_metadata (engine := eng1) (host := host1) t p r n (db, e) = (Ok v, w') ->
  (lenZ (usage_records (fst w')) <= lenZ (usage_records db))%Z.
Proof.
  intros H. unfold purge_metadata in H.
  do 3 (apply io_bind_ok in H as (? & w1 & H1 & H); apply lift_ok in H1 as [_ ->]).
  apply io_bind_ok in H as (now & w1 & H1 & H). apply outside_ok in H1 as (e1 & _ & ->).
  apply transaction_ok in H as (e2 & db' & e3 & e4 & H & ->).
  apply io_bind_ok in H as (usage & w1 & H1 & H). apply pair_equal_spec in H1 as [[= <-] <-].
  apply io_bind_ok in H as (audit & w1 & H1 & H). apply pair_equal_spec in H1 as [_ <-].
  apply io_bind_ok in H as (stored & w1 & H1 & H). apply statement_ok in H1 as (db2 & [= <-] & ->).
  apply pair_equal_spec in H as [_ [= <- _]]. cbn [fst with_logs usage_records delete_usage].
  unfold lenZ. apply inj_le, List.filter_length_le.
Qed.

Lemma perform_usage c db e r w' :
  perform (engine := eng1) (host := host1) c (db, e) = (r, w') ->
  (lenZ (usage_records (fst w')) <= lenZ (usage_records db) + records c)%Z.
Proof.
  intros H. destruct r as [r|x].
  2: { rewrite (perform_atomic (engine := eng1) (host := host1) c _ _ _ H). cbn [fst]. destruct c; cbn; lia. }
  assert (Hk : match c with RecordUsage _ _ _ | PurgeMetadata _ _ _ _ => True
                         | _ => keeps usage_shrinks (perform (engine := eng1) (host := host1) c) end).
  { destruct c; try exact I; cbn [perform];
      unfold create_project, issue_key, authenticate, is_expired, revoke_key, list_keys, dispatch_event,
        project_usage, access_admit; keep_steps; intros db0.
    - intros db' Hf. unfold insert_project in Hf. destruct (projects db0 !! _); [done|].
      injection Hf as <-. by apply usage_same.
    - intros db' Hf. unfold insert_key in Hf. destruct (existsb _ _); [done|].
      destruct (projects db0 !! _); [|done]. injection Hf as <-. by apply usage_same.
    - intros db' [l ->]%insert_audit_ok. by apply usage_same.
    - intros db' Hf. cbv beta in Hf. injection Hf as <-. by apply usage_same.
    - intros db' Hf. cbv beta in Hf. injection Hf as <-. by apply usage_same.
    - intros db' [l ->]%insert_audit_ok. by apply usage_same.
    - intros db' [l ->]%insert_audit_ok. by apply usage_same.
    - intros b db' [q ->]%admit_at_ok. by apply usage_same. }
  destruct c; cbn [records]; try (rewrite Z.add_0_r; exact (Hk _ _ _ H)); cbn [perform] in H;
    apply io_bind_ok in H as (v & w1 & H & Hr); apply pair_equal_spec in Hr as [_ <-].
  - by eapply record_usage_grows.
  - rewrite Z.add_0_r. by eapply purge_usage_shrinks.
Qed.

Definition recorded (calls : list access_call) : Z := sumZ (map records calls).

Lemma recorded_nonneg calls : (0 <= recorded calls)%Z.
Proof.
  unfold recorded, sumZ. induction calls as [|c calls IH]; [done|]. cbn [map fold_right].
  destruct c; cbn [records]; lia.
Qed.

(** Every purge of the history has room for all the history's usage records. *)
Definition batches_fit (total : Z) (calls : list access_call) : Prop :=
  Forall (fun c => match c with PurgeMetadata _ _ _ limit => (total <= limit)%Z | _ => True end) calls.

Lemma stores_agree total calls db e :
  batches_fit total calls -> (lenZ (usage_records db) + recorded calls <= total)%Z ->
  let lite := perform_all (engine := eng1) (host := host1) calls (db, e) in
  let pg := pg_perform_all collate heap clock token_hex token_urlsafe token_bytes acquire cursor commit'
              release discard calls (db, e) in
  snd lite = snd pg /\ Forall2 (same_result same_reply) (fst lite) (fst pg).
Proof.
  intros Hfit. revert db e. induction Hfit as [|c calls Hc _ IH]; intros db e Hn; [done|].
  cbn [perform_all pg_perform_all].
  change (recorded (c :: calls)) with (records c + recorded calls)%Z in Hn.
  assert (Hb : batch_fits c db).
  { pose proof (recorded_nonneg calls). destruct c; cbn [batch_fits records] in *; auto; lia. }
  destruct (sim_perform c db e Hb) as [Hw Hr].
  destruct (perform c (db, e)) as [r1 [db1 e1]] eqn:E1.
  destruct (pg_perform _ _ _ _ _ _ _ _ _ _ _ c (db, e)) as [r2 w2]. cbn [fst snd] in Hw, Hr. subst w2.
  apply perform_usage in E1. cbn [fst] in E1.
  specialize (IH db1 e1). destruct (perform_all calls (db1, e1)) as [rs1 w1].
  destruct (pg_perform_all _ _ _ _ _ _ _ _ _ _ _ calls (db1, e1)) as [rs2 w2].
  cbn [fst snd] in IH |- *. destruct IH as [-> Hf]; [lia|]. split; [done|].
  by constructor.
Qed.
End equivalence.

(** ** Properties *)


Definition example_serving_calls : list access_call :=
  (example_calls ++ [Authenticate example_key; Admit example_principal; ListKeys "acme" "web";
                     RevokeKey "acme" "web" example_hex; Authenticate example_key])%list.


(** ** The pool *)

Lemma pool_invariant n p :
  pool_steps (new_pool n) p ->
  pool_size p = n /\ NoDup (idle p ++ held p) /\ length (idle p) + length (held p) <= created p <= n.
Proof.
  set (p0 := new_pool n). assert (E0 : p0 = new_pool n) by done. clearbody p0.
  induction 1 as [|p q r _ IH Hs]; [subst; cbn; split; [done|]; split; [constructor|lia]|].
  specialize (IH E0) as (Hn & Hd & Hc).
  destruct Hs; cbn [pool_size idle held created] in *; subst; (split; [done|]);
    rewrite ?length_app in *; cbn [length] in *; (split; [|lia]).
  - by rewrite <- Permutation_middle.
  - by apply NoDup_cons.
  - done.
  - done.
  - by rewrite <- Permutation_middle.
  - rewrite <- app_assoc. by rewrite <- Permutation_middle in Hd.
  - rewrite <- !Permutation_middle in Hd. by apply NoDup_cons in Hd as [_ Hd].
Qed.

(** The pool of [n] connections never has more than [n] of them, and no two
    threads ever share one. *)
Theorem pool_is_bounded n p (H : pool_steps (new_pool n) p) :
  length (idle p) + length (held p) <= n /\ NoDup (idle p ++ held p).
Proof. destruct (pool_invariant n p H) as (_ & Hd & Hc). split; [lia|done]. Qed.

(** Failed connection attempts are never given back: after [n] of them every
    later thread blocks, and no thread ever gets a connection again. *)
Theorem failed_connects_exhaust_pool n :
  pool_steps (new_pool n) (mkPool n [] n [] 0)
  /\ forall p, pool_steps (mkPool n [] n [] 0) p -> idle p = [] /\ held p = [] /\ created p = n.
Proof.
  split.
  - assert (Hk : forall k, k <= n -> pool_steps (new_pool n) (mkPool n [] k [] 0)).
    { induction k as [|k IH]; intros Hk; [constructor|]. eapply pool_next; [apply IH; lia|].
      by apply acquire_failed. }
    by apply Hk.
  - set (p0 := mkPool n [] n [] 0). assert (E0 : p0 = mkPool n [] n [] 0) by done. clearbody p0.
    intros p. cut (pool_steps p0 p -> pool_size p = n /\ idle p = [] /\ held p = [] /\ created p = n).
    { intros Hc Hp. destruct (Hc Hp) as (_ & ? & ? & ?). done. }
    induction 1 as [|p q r _ IH Hs]; [by subst|]. specialize (IH E0) as (Hn & Hi & Hh & Hc).
    destruct Hs; cbn in *; subst; try done; try lia; by destruct h1.
Qed.

(** A stored window is locked by its check; a new one is not.  Two first requests
    of a window with limit one both pass their checks, and both are admitted. *)
Theorem first_requests_overshoot :
  let p := mkPrincipal "t" "p" "k" ∅ in
  let start := begin_admission p 60 (10, 1)%Z in
  exists q, pg_steps (∅, start, start)
      (q, mkAdmission 60 (Finished true) [] [], mkAdmission 60 (Finished true) [] [])
    /\ q !! ("key", "t", "p", "k", 60%Z) = Some 2%Z.
Proof.
  cbv zeta. unfold begin_admission, quota_requests. cbn [map fst snd p_tenant_id p_project_id p_key_id].
  eexists. split.
  - eapply pg_next; [apply first_steps, read_missing; done|].
    eapply pg_next; [apply second_steps, read_missing; done|].
    eapply pg_next; [apply first_steps, read_missing; done|].
    eapply pg_next; [apply second_steps, read_missing; done|].
    eapply pg_next; [apply first_steps, checked|].
    eapply pg_next; [apply second_steps, checked|].
    eapply pg_next; [apply first_steps, write; cbn; apply (bool_decide_eq_true_1 _); reflexivity|].
    eapply pg_next; [apply first_steps, write; cbn; apply (bool_decide_eq_true_1 _); reflexivity|].
    eapply pg_next; [apply first_steps, commit_writes|].
    eapply pg_next; [apply second_steps, write; cbn; apply (bool_decide_eq_true_1 _); reflexivity|].
    eapply pg_next; [apply second_steps, write; cbn; apply (bool_decide_eq_true_1 _); reflexivity|].
    eapply pg_next; [apply second_steps, commit_writes|]. constructor.
  - vm_compute. reflexivity.
Qed.
