(* ===== verification/DecisionMix.v ===== *)
(** * The DecisionMix dataset builder ([c3r/decisionmix/dataset.py])

    Validation, the hash split, the builder's accumulation and the files it
    writes, manifest included.  Directory creation and file writes are
    computations over the world [E]; mappings of a record are decoded objects
    in insertion order. *)

From Stdlib Require Import Lia ZArith Ascii String.
From stdpp Require Import base option strings gmap list.
From S2P Require Import Prelude PyStr PySort PyFloat FloatRepr Json Hash StateSchema.

Local Open Scope string_scope.

Definition DECISIONMIX_VERSION : string := "c3r.decisionmix.v1".
Definition SPLITS : list string := ["train"; "validation"; "test"].

Record SourceProvenance : Type := mkSource {
  sp_source_id : string; sp_license : string; sp_source_partition : string; sp_generator_revision : string }.

Definition fields : Type := list (string * json).

Record DecisionMixRecord : Type := mkRecord {
  dm_record_id : string;
  dm_compiled_state : fields;
  dm_questions : fields;
  dm_candidate_actions : list fields;
  dm_baseline_action : fields;
  dm_counterfactual_actions : list fields;
  dm_verifier_outcome : fields;
  dm_task_outcome : fields;
  dm_latency_ms : list (string * float);
  dm_cost_usd : list (string * float);
  dm_risk_class : string;
  dm_model_or_provider : string;
  dm_decision_family : string;
  dm_provenance : SourceProvenance }.

(** [SourceProvenance.validate]. *)
Definition validate_source (p : SourceProvenance) : result unit :=
  _ ← raise_if (negb (nonempty (sp_source_id p)) || negb (nonempty (sp_license p))) ValueError
        "source provenance and license are required";
  raise_if (negb (is_revision (sp_generator_revision p))) ValueError
    "generator_revision must be an immutable hexadecimal digest".

(** [DecisionMixRecord.validate]. *)
Definition validate_record (r : DecisionMixRecord) : result unit :=
  _ ← raise_if (negb (nonempty (dm_record_id r))) ValueError "record_id is required";
  _ ← raise_if (bool_decide (dm_compiled_state r = []) || bool_decide (dm_questions r = [])
                || bool_decide (dm_candidate_actions r = [])) ValueError
        "state, questions, and candidate actions are required";
  _ ← raise_if (negb (nonempty (dm_risk_class r)) || negb (nonempty (dm_decision_family r))) ValueError
        "risk_class and decision_family are required";
  validate_source (dm_provenance r).

(** [int.from_bytes(digest[:8], "big") % 100]. *)
Definition split_bucket (digest : list N) : N :=
  (fold_left (fun acc b => acc * 256 + b) (take 8 digest) 0 mod 100)%N.

(** [deterministic_split]. *)
Definition deterministic_split (record_id seed : string) : string :=
  let bucket := split_bucket (Sha256.digest (bytes_of_string (utf8 (seed ++ String "000" record_id)))) in
  if N.ltb bucket 80 then "train" else if N.ltb bucket 90 then "validation" else "test".

Record DecisionMixManifest : Type := mkManifest {
  mf_schema_version : string;
  mf_split_seed : string;
  mf_split_counts : list (string * Z);
  mf_file_sha256 : list (string * string);
  mf_licenses : list string;
  mf_source_ids : list string }.

(** The builder: its seed, the rows of each split in order of arrival, the ids seen. *)
Record DecisionMixBuilder : Type := mkBuilder {
  bd_split_seed : string;
  bd_records : string -> list DecisionMixRecord;
  bd_record_ids : gset string }.

Definition make_builder (split_seed : string) : result DecisionMixBuilder :=
  if negb (nonempty split_seed) then raise ValueError "split_seed is required"
  else Ok (mkBuilder split_seed (fun _ => []) ∅).

(** [DecisionMixBuilder.add]. *)
Definition add (b : DecisionMixBuilder) (r : DecisionMixRecord) : result (string * DecisionMixBuilder) :=
  _ ← validate_record r;
  _ ← raise_if (String.eqb (sp_source_partition (dm_provenance r)) "benchmark_test") ValueError
        "benchmark test records cannot enter DecisionMix";
  let assigned := deterministic_split (dm_record_id r) (bd_split_seed b) in
  if bool_decide (dm_record_id r ∈ bd_record_ids b)
  then raise ValueError ("duplicate record_id: " ++ dm_record_id r)
  else Ok (assigned,
           mkBuilder (bd_split_seed b)
             (fun s => if String.eqb s assigned then (bd_records b s ++ [r])%list else bd_records b s)
             ({[dm_record_id r]} ∪ bd_record_ids b)).

(** ** Output *)

Definition json_floats (l : list (string * float)) : json := JObj (map (fun kv => (fst kv, JFloat (snd kv))) l).

Definition source_json (p : SourceProvenance) : json :=
  JObj [("source_id", JStr (sp_source_id p)); ("license", JStr (sp_license p));
        ("source_partition", JStr (sp_source_partition p));
        ("generator_revision", JStr (sp_generator_revision p))].

(** [asdict(record)] with its split. *)
Definition record_json (r : DecisionMixRecord) (split : string) : json :=
  JObj [("record_id", JStr (dm_record_id r)); ("compiled_state", JObj (dm_compiled_state r));
        ("questions", JObj (dm_questions r)); ("candidate_actions", JArr (map JObj (dm_candidate_actions r)));
        ("baseline_action", JObj (dm_baseline_action r));
        ("counterfactual_actions", JArr (map JObj (dm_counterfactual_actions r)));
        ("verifier_outcome", JObj (dm_verifier_outcome r)); ("task_outcome", JObj (dm_task_outcome r));
        ("latency_ms", json_floats (dm_latency_ms r)); ("cost_usd", json_floats (dm_cost_usd r));
        ("risk_class", JStr (dm_risk_class r)); ("model_or_provider", JStr (dm_model_or_provider r));
        ("decision_family", JStr (dm_decision_family r)); ("provenance", source_json (dm_provenance r));
        ("split", JStr split)].

Definition newline : string := String "010" EmptyString.

Definition record_ltb (a b : DecisionMixRecord) : bool := str_ltb (dm_record_id a) (dm_record_id b).

(** The rows of a split's file. *)
Definition split_rows (b : DecisionMixBuilder) (split : string) : list DecisionMixRecord :=
  sorted_by record_ltb (bd_records b split).

Definition split_content (b : DecisionMixBuilder) (split : string) : string :=
  let rows := map (fun r => print compact_options (record_json r split)) (split_rows b split) in
  join newline rows ++ (if bool_decide (rows = []) then "" else newline).

(** [json.dumps(value, indent=2, sort_keys=True)]. *)
Definition indent_options : dump_options := DumpOptions "," ": " true true true.

Fixpoint spaces (n : nat) : string := match n with O => "" | S n' => String " " (spaces n') end.

Definition block (level : nat) (opening closing : string) (items : list string) : string :=
  match items with
  | [] => opening ++ closing
  | _ => opening ++ newline ++ spaces (2 * S level)
         ++ join ("," ++ newline ++ spaces (2 * S level)) items ++ newline ++ spaces (2 * level) ++ closing
  end.

Fixpoint print_indented (level : nat) (j : json) : string :=
  match j with
  | JArr l => block level "[" "]" (map (print_indented (S level)) l)
  | JObj kvs =>
      block level "{" "}"
        (map (fun kv => quote indent_options (fst kv) ++ ": " ++ snd kv)
           (sorted_by key_lt (map (fun kv => (fst kv, print_indented (S level) (snd kv))) kvs)))
  | _ => print indent_options j
  end.

(** [asdict(manifest)]. *)
Definition manifest_json (m : DecisionMixManifest) : json :=
  JObj [("schema_version", JStr (mf_schema_version m)); ("split_seed", JStr (mf_split_seed m));
        ("split_counts", JObj (map (fun kv => (fst kv, JInt (snd kv))) (mf_split_counts m)));
        ("file_sha256", JObj (map (fun kv => (fst kv, JStr (snd kv))) (mf_file_sha256 m)));
        ("licenses", json_strings (mf_licenses m)); ("source_ids", json_strings (mf_source_ids m))].

Definition sorted_set (s : gset string) : list string := sorted_by str_ltb (elements s).

(** The values a field takes over the rows of all splits. *)
Definition collected (b : DecisionMixBuilder) (f : SourceProvenance -> string) : gset string :=
  list_to_set (concat (map (fun s => map (fun r => f (dm_provenance r)) (split_rows b s)) SPLITS)).

Definition file_name (split : string) : string := split ++ ".jsonl".

Definition manifest_of (b : DecisionMixBuilder) : DecisionMixManifest :=
  mkManifest DECISIONMIX_VERSION (bd_split_seed b)
    (map (fun s => (s, lenZ (split_rows b s))) SPLITS)
    (map (fun s => (file_name s, sha256_hex (utf8 (split_content b s)))) SPLITS)
    (sorted_set (collected b sp_license)) (sorted_set (collected b sp_source_id)).

(** [DecisionMixBuilder.write]. *)
Definition write {E} (mkdir : io E unit) (write_text : string -> string -> io E unit)
    (b : DecisionMixBuilder) : io E DecisionMixManifest :=
  _ ← mkdir;
  _ ← io_map (fun s => write_text (file_name s) (split_content b s)) SPLITS;
  _ ← write_text "manifest.json" (print_indented 0 (manifest_json (manifest_of b)) ++ newline);
  mret (manifest_of b).

(** A run of [add]. *)
Definition add_all (b : DecisionMixBuilder) (l : list DecisionMixRecord) : result DecisionMixBuilder :=
  foldR (fun b r => p ← add b r; Ok (snd p)) b l.

(** ** Lemmas *)

(** What [add] asks of a record alone. *)
Definition admissible (r : DecisionMixRecord) : Prop :=
  validate_record r = Ok tt /\ sp_source_partition (dm_provenance r) <> "benchmark_test".

Definition assigned_to (seed split : string) (r : DecisionMixRecord) : bool :=
  String.eqb split (deterministic_split (dm_record_id r) seed).

(** The builder after adding [l] to [b]. *)
Definition extends (b : DecisionMixBuilder) (l : list DecisionMixRecord) (b' : DecisionMixBuilder) : Prop :=
  bd_split_seed b' = bd_split_seed b
  /\ (forall s, bd_records b' s = (bd_records b s ++ List.filter (assigned_to (bd_split_seed b) s) l)%list)
  /\ bd_record_ids b' = list_to_set (map dm_record_id l) ∪ bd_record_ids b.

Definition addable (b : DecisionMixBuilder) (l : list DecisionMixRecord) : Prop :=
  Forall admissible l /\ NoDup (map dm_record_id l)
  /\ Forall (fun r => dm_record_id r ∉ bd_record_ids b) l.

Lemma add_ok b r s b' :
  add b r = Ok (s, b') ->
  admissible r /\ dm_record_id r ∉ bd_record_ids b /\ s = deterministic_split (dm_record_id r) (bd_split_seed b)
  /\ extends b [r] b'.
Proof.
  unfold add. intros H. apply bind_ok in H as ([] & Hv & H). apply bind_ok in H as ([] & Hp & H).
  apply raise_if_ok in Hp. apply String.eqb_neq in Hp. cbv zeta in H.
  case_bool_decide as Hin; [done|]. apply (f_equal (fun r => match r with Ok p => p | _ => (s, b') end)) in H.
  apply pair_equal_spec in H as [<- <-]. split; [done|]. split; [done|]. split; [done|].
  split; [done|]. cbn [bd_records bd_record_ids bd_split_seed]. split.
  - intros t. cbn [List.filter]. unfold assigned_to. destruct (String.eqb _ _); [done|by rewrite app_nil_r].
  - cbn. set_solver.
Qed.

Lemma add_complete b r :
  admissible r -> dm_record_id r ∉ bd_record_ids b -> exists s b', add b r = Ok (s, b').
Proof.
  intros [Hv Hp] Hin. unfold add. rewrite Hv. apply String.eqb_neq in Hp. rewrite Hp.
  cbn [mbind result_bind raise_if]. rewrite bool_decide_eq_false_2 by done. by eexists _, _.
Qed.

Lemma add_all_ok b l b' : add_all b l = Ok b' -> addable b l /\ extends b l b'.
Proof.
  revert b. induction l as [|r l IH]; intros b H.
  - injection H as <-. split; [split; [constructor|split; constructor]|].
    split; [done|]. split; [intros s; by rewrite app_nil_r|]. cbn. set_solver.
  - unfold add_all in H. cbn [foldR] in H. apply bind_ok in H as (b1 & H1 & H).
    apply bind_ok in H1 as ([s b2] & H1 & H2). injection H2 as <-. cbn [snd] in H.
    apply add_ok in H1 as (Ha & Hin & _ & Hs1 & Hr1 & Hi1).
    apply IH in H as [(Hal & Hnd & Hids) (Hs2 & Hr2 & Hi2)].
    rewrite Hi1 in Hids, Hi2. rewrite Hs1 in Hs2. split.
    + split; [by constructor|]. split.
      * cbn [map]. apply NoDup_cons. split; [|done]. intros Hr. apply list_elem_of_fmap in Hr as (x & Hx & Hin').
        rewrite Forall_forall in Hids. specialize (Hids x Hin'). cbn in Hids. set_solver.
      * constructor; [done|]. eapply Forall_impl; [exact Hids|]. cbn. set_solver.
    + split; [done|]. split.
      * intros t. rewrite Hr2, Hr1, Hs1, <- app_assoc. f_equal. cbn [List.filter].
        by destruct (assigned_to _ t r).
      * rewrite Hi2. cbn. set_solver.
Qed.

Lemma add_all_complete b l : addable b l -> exists b', add_all b l = Ok b'.
Proof.
  revert b. induction l as [|r l IH]; intros b (Ha & Hnd & Hids); [by exists b|].
  apply Forall_cons in Ha as [Har Ha]. apply Forall_cons in Hids as [Hir Hids].
  cbn [map] in Hnd. apply NoDup_cons in Hnd as [Hr Hnd].
  destruct (add_complete b r Har Hir) as (s & b1 & H1). pose proof (add_ok _ _ _ _ H1) as (_ & _ & _ & _ & _ & Hi).
  destruct (IH b1) as [b' Hb'].
  - split; [done|]. split; [done|]. rewrite Hi. apply Forall_forall. intros x Hx.
    rewrite Forall_forall in Hids. specialize (Hids x Hx).
    assert (dm_record_id x <> dm_record_id r).
    { intros He. apply Hr. rewrite <- He. apply list_elem_of_fmap. by exists x. }
    cbn. set_solver.
  - exists b'. unfold add_all. cbn [foldR]. rewrite H1. exact Hb'.
Qed.

Lemma filter_perm {A} (f : A -> bool) l1 l2 : Permutation l1 l2 -> Permutation (List.filter f l1) (List.filter f l2).
Proof.
  induction 1 as [|a l1 l2 _ IH|a b l|l1 l2 l3 _ IH1 _ IH2]; cbn; [done| | |by etrans].
  - by destruct (f a); [apply perm_skip|].
  - destruct (f a), (f b); try done. apply perm_swap.
Qed.

Lemma NoDup_map_filter {A B} (f : A -> B) (g : A -> bool) l : NoDup (map f l) -> NoDup (map f (List.filter g l)).
Proof.
  induction l as [|x l IH]; [done|]. cbn [map List.filter]. intros [Hx Hl]%NoDup_cons.
  destruct (g x); [|by apply IH]. apply NoDup_cons. split; [|by apply IH].
  intros Hin. apply Hx. apply list_elem_of_fmap in Hin as (y & -> & Hin). apply list_elem_of_fmap.
  exists y. split; [done|]. apply list_elem_of_In. apply list_elem_of_In, List.filter_In in Hin as [? _]. done.
Qed.

(** Rows with pairwise different ids sort the same way in every order. *)
Lemma sorted_rows l1 l2 :
  Permutation l1 l2 -> NoDup (map dm_record_id l1) -> sorted_by record_ltb l1 = sorted_by record_ltb l2.
Proof.
  intros Hp Hnd.
  assert (Hw : StrictWeak record_ltb (fun r => r ∈ l1)) by apply (str_ltb_strict_weak_on dm_record_id).
  apply (sorted_by_permutation record_ltb (fun r => r ∈ l1)).
  - intros x y Hx Hy H1 H2. assert (Hid : dm_record_id x = dm_record_id y).
    { destruct (str_ltb_total (dm_record_id x) (dm_record_id y)) as [H|[H|H]]; [|done|];
        unfold record_ltb in *; congruence. }
    apply list_elem_of_lookup in Hx as [i Hi]. apply list_elem_of_lookup in Hy as [j Hj].
    assert (i = j); [|congruence]. eapply (NoDup_lookup (map dm_record_id l1)); [done| |].
    + by rewrite list_lookup_fmap, Hi.
    + by rewrite list_lookup_fmap, Hj, Hid.
  - apply Forall_forall. done.
  - done.
Qed.

(** Builders with the same seed and the same rows write the same files. *)
Lemma write_ext {E} mkdir write_text b1 b2 (e : E) :
  bd_split_seed b1 = bd_split_seed b2 -> (forall s, split_rows b1 s = split_rows b2 s) ->
  write mkdir write_text b1 e = write mkdir write_text b2 e.
Proof.
  intros Hs Hr. assert (Hc : forall s, split_content b1 s = split_content b2 s)
    by (intros s; unfold split_content; by rewrite Hr).
  assert (Hm : manifest_of b1 = manifest_of b2).
  { unfold manifest_of, collected. rewrite Hs. cbn [map SPLITS]. by rewrite !Hr, !Hc. }
  unfold write. rewrite Hm. cbn [SPLITS io_map]. by rewrite !Hc.
Qed.

(** ** Properties *)

(** The rows of a split are the records added whose id hashes to it. *)
Lemma add_all_rows seed l b :
  add_all (mkBuilder seed (fun _ => []) ∅) l = Ok b ->
  forall s r, r ∈ split_rows b s <-> r ∈ l /\ s = deterministic_split (dm_record_id r) seed.
Proof.
  intros H. apply add_all_ok in H as [_ (_ & Hr & _)]. cbn in Hr. intros s r.
  unfold split_rows. rewrite elem_of_sorted_by, Hr. cbn.
  rewrite !list_elem_of_In, List.filter_In. unfold assigned_to. rewrite String.eqb_eq. tauto.
Qed.

(** C19: The dataset is a function of its set of records.  When a list of records can
    be added, it can be added in every order, and the files and the manifest
    written are the same; every record is then a row of exactly the split its id
    and the seed determine, ids are unique, and no benchmark test record is among
    the rows. *)
Theorem dataset_ignores_order {E} mkdir write_text seed b0 l1 l2 b1
    (H0 : make_builder seed = Ok b0) (Hp : Permutation l1 l2) (H1 : add_all b0 l1 = Ok b1) :
  (exists b2, add_all b0 l2 = Ok b2
     /\ forall e : E, write mkdir write_text b2 e = write mkdir write_text b1 e)
  /\ (forall s r, r ∈ split_rows b1 s <-> r ∈ l1 /\ s = deterministic_split (dm_record_id r) seed)
  /\ NoDup (map dm_record_id l1)
  /\ Forall (fun r => sp_source_partition (dm_provenance r) <> "benchmark_test") l1.
Proof.
  assert (Hseed : bd_split_seed b0 = seed /\ forall s, bd_records b0 s = []).
  { unfold make_builder in H0. destruct (nonempty seed); [|done]. by injection H0 as <-. }
  destruct Hseed as [Hseed Hempty]. apply add_all_ok in H1 as [(Ha & Hnd & Hids) (Hs1 & Hr1 & _)].
  split.
  - destruct (add_all_complete b0 l2) as [b2 H2].
    { split; [by rewrite <- Hp|]. split; [|by rewrite <- Hp].
      by rewrite <- (Permutation_map dm_record_id Hp). }
    exists b2. split; [done|]. intros e. apply add_all_ok in H2 as [_ (Hs2 & Hr2 & _)].
    apply write_ext; [congruence|]. intros s. unfold split_rows. rewrite Hr1, Hr2, Hempty. cbn.
    apply sorted_rows; [by apply filter_perm|].
    apply NoDup_map_filter. by rewrite <- (Permutation_map dm_record_id Hp).
  - split; [|split; [done|]].
    + intros s r. unfold split_rows. rewrite elem_of_sorted_by, Hr1, Hempty. cbn.
      rewrite !list_elem_of_In, List.filter_In. unfold assigned_to. rewrite String.eqb_eq, Hseed. tauto.
    + eapply Forall_impl; [exact Ha|]. by intros r [_ ?].
Qed.

Definition example_record (id partition : string) : DecisionMixRecord :=
  mkRecord id [("goal", JStr "g")] [("q", JNull)] [[("id", JStr "a")]] [] [] [] [] [("p50", fone)] [] "low" "m" "f"
    (mkSource "src" "MIT" partition "0123456789abcdef0123456789abcdef01234567").

Lemma dataset_ignores_order_witness :
  exists b0 b1 b2,
    make_builder "seed" = Ok b0
    /\ add_all b0 [example_record "r1" "train"; example_record "r2" "train"] = Ok b1
    /\ add_all b0 [example_record "r2" "train"; example_record "r1" "train"] = Ok b2
    /\ (forall e, write (E := list (string * string)) (mret tt) (fun f c w => (Ok tt, w ++ [(f, c)])%list) b2 e
                 = write (mret tt) (fun f c w => (Ok tt, w ++ [(f, c)])%list) b1 e)
    /\ map fst (snd (write (E := list (string * string)) (mret tt) (fun f c w => (Ok tt, w ++ [(f, c)])%list) b1 []))
       = ["train.jsonl"; "validation.jsonl"; "test.jsonl"; "manifest.json"].
Proof.
  eexists _, _. set (b2 := match add_all (mkBuilder "seed" (fun _ => []) ∅)
    [example_record "r2" "train"; example_record "r1" "train"] with Ok b => b | Raise _ => mkBuilder "" (fun _ => []) ∅ end).
  exists b2. split; [reflexivity|]. split; [reflexivity|].
  assert (H2 : add_all (mkBuilder "seed" (fun _ => []) ∅)
    [example_record "r2" "train"; example_record "r1" "train"] = Ok b2) by reflexivity.
  split; [exact H2|]. split.
  - destruct (dataset_ignores_order (E := list (string * string)) (mret tt)
      (fun f c w => (Ok tt, w ++ [(f, c)])%list) "seed" _ _
      [example_record "r2" "train"; example_record "r1" "train"] _ eq_refl (perm_swap _ _ _) eq_refl) as [(b3 & H3 & Hw) _].
    assert (b3 = b2) as -> by congruence. exact Hw.
  - reflexivity.
Defined.
