(* ===== verification/PyTime.v ===== *)
(** * Python's [datetime], as the source uses it

    A timestamp is a wall-clock reading in microseconds since 0001-01-01 with an
    optional UTC offset; [isoformat] by the proleptic Gregorian calendar. *)

From Stdlib Require Import Lia ZArith Ascii String.
From stdpp Require Import base option strings gmap list.
From S2P Require Import Prelude PyStr PySort.

Local Open Scope string_scope.
Local Open Scope Z_scope.

(** [offset] in seconds, [None] for a naive timestamp. *)
Record datetime : Type := mkDatetime { dt_micros : Z; dt_offset : option Z }.

Definition MICROS_PER_DAY : Z := 86400000000.

(** The first microsecond after [datetime.max]. *)
Definition MICROS_END : Z := 3652059 * MICROS_PER_DAY.

(** [value.tzinfo is not None and value.utcoffset() == timedelta(0)]. *)
Definition is_utc (d : datetime) : bool := bool_decide (dt_offset d = Some 0).

(** [d - timedelta(days=n)]. *)
Definition minus_days (d : datetime) (n : Z) : result datetime :=
  let t := dt_micros d - n * MICROS_PER_DAY in
  if Z.ltb t 0 || Z.leb MICROS_END t then raise OverflowError "date value out of range"
  else Ok (mkDatetime t (dt_offset d)).

(** The instant in microseconds, of an aware timestamp. *)
Definition instant (d : datetime) : Z := dt_micros d - default 0 (dt_offset d) * 1000000.

(** Year, month and day of a number of days since 0001-01-01. *)
Definition civil (days : Z) : Z * Z * Z :=
  let z := days + 306 in
  let era := z / 146097 in
  let doe := z mod 146097 in
  let yoe := (doe - doe / 1460 + doe / 36524 - doe / 146096) / 365 in
  let doy := doe - (365 * yoe + yoe / 4 - yoe / 100) in
  let mp := (5 * doy + 2) / 153 in
  let d := doy - (153 * mp + 2) / 5 + 1 in
  let m := if mp <? 10 then mp + 3 else mp - 9 in
  (yoe + era * 400 + (if m <=? 2 then 1 else 0), m, d).

(** [n] in [width] digits. *)
Fixpoint zero_padded (width : nat) (n : Z) : string :=
  match width with
  | O => ""
  | S w => String (chr (48 + (n / 10 ^ Z.of_nat w) mod 10)) (zero_padded w n)
  end.

Definition offset_text (offset : option Z) : string :=
  match offset with
  | None => ""
  | Some o =>
      let a := Z.abs o in
      (if o <? 0 then "-" else "+") ++ zero_padded 2 (a / 3600) ++ ":" ++ zero_padded 2 (a / 60 mod 60)
      ++ (if a mod 60 =? 0 then "" else ":" ++ zero_padded 2 (a mod 60))
  end.

(** [isoformat(timespec="microseconds")] when [micros], else [isoformat()]. *)
Definition isoformat (micros : bool) (d : datetime) : string :=
  let t := dt_micros d in
  let '(y, m, day) := civil (t / MICROS_PER_DAY) in
  let us := t mod MICROS_PER_DAY in
  let s := us / 1000000 in
  let frac := us mod 1000000 in
  zero_padded 4 y ++ "-" ++ zero_padded 2 m ++ "-" ++ zero_padded 2 day ++ "T"
  ++ zero_padded 2 (s / 3600) ++ ":" ++ zero_padded 2 (s / 60 mod 60) ++ ":" ++ zero_padded 2 (s mod 60)
  ++ (if micros || negb (frac =? 0) then "." ++ zero_padded 6 frac else "") ++ offset_text (dt_offset d).

(** 2024-02-29 23:59:59.000001 UTC and the extremes of the calendar. *)
Example isoformat_leap :
  isoformat true (mkDatetime (738944 * MICROS_PER_DAY + 86399000001) (Some 0))
  = "2024-02-29T23:59:59.000001+00:00".
Proof. vm_compute. reflexivity. Qed.

Example isoformat_first : isoformat false (mkDatetime 0 None) = "0001-01-01T00:00:00".
Proof. vm_compute. reflexivity. Qed.

Example isoformat_last :
  isoformat true (mkDatetime (MICROS_END - 1) (Some (-19800))) = "9999-12-31T23:59:59.999999-05:30".
Proof. vm_compute. reflexivity. Qed.
