(* ===== verification/GovernedStore.v ===== *)
(** * The governed trace store ([c3r/telemetry/governed_store.py])

    Source grants, trace admission, appending with a retention gate, purging a
    prefix behind a checkpoint, and verification.  The clock and the start and
    commit of a transaction are computations over the world [E]; file modes,
    pragmas, VACUUM and close are not modelled. *)

From Stdlib Require Import Lia ZArith Ascii String Sorted.
From stdpp Require Import base option strings gmap list.
From S2P Require Import Prelude PyStr PySort PyFloat FloatRepr Json Hash StateSchema PyTime TraceLedger LedgerAnchor.

Local Open Scope string_scope.

Definition RETENTION_DAYS : Z := 30.

Definition is_token_char (c : ascii) : bool :=
  is_digit c || in_range 65 90 c || in_range 97 122 c || existsb (Ascii.eqb c) ["_"; "."; ":"; "-"]%char.

(** [_TOKEN.fullmatch]. *)
Definition is_token (s : string) : bool :=
  Z.leb 1 (len s) && Z.leb (len s) 128 && str_forall is_token_char s.

Record SourceGrant : Type := mkGrant {
  gr_source_id : string; gr_owner : string; gr_task_ids : gset string; gr_rights_attested : bool }.

(** [SourceGrant.__post_init__]. *)
Definition make_grant (g : SourceGrant) : result SourceGrant :=
  if negb (gr_rights_attested g) || bool_decide (gr_task_ids g = ∅)
  then raise ValueError "source rights and task inventory must be attested"
  else if forallb is_token (gr_source_id g :: gr_owner g :: elements (gr_task_ids g))
  then Ok g
  else raise ValueError "source registry identifiers must be bounded tokens".

Definition unit_interval (x : float) : bool := isfinite x && fle fzero x && fle x fone.

Definition trace_identifiers (t : DecisionTrace) : list string :=
  [run_id t; access_level t; model_provider t; authority_result t] ++ candidate_ids t ++ artifact_refs t
  ++ match selected_action_id t with Some a => [a] | None => [] end.

(** [_validate_trace]. *)
Definition validate_trace (t : DecisionTrace) : result unit :=
  let fail := raise ValueError "trace failed redaction schema" in
  if negb (is_hash64 (state_hash t)) || existsb (fun s => negb (is_token s)) (trace_identifiers t) then fail
  else if negb (bool_decide (artifact_refs t = [])) then fail
  else if existsb (fun kv => negb (is_token (fst kv)) || bool_decide (snd kv = [])
                             || existsb (fun x => negb (unit_interval x)) (snd kv))
            (map_to_list (probabilities t)) then fail
  else if existsb (fun kv => negb (is_token (fst kv)) || negb (isfinite (snd kv)))
            (map_to_list (utility_quantiles t) ++ map_to_list (system_cost t)) then fail
  else if existsb (fun kv => flt (snd kv) fzero) (map_to_list (system_cost t)) then fail
  else if existsb (fun kv => negb (is_token (fst kv))
                             || match snd kv with
                                | SStr s => negb (is_token s)
                                | SBool _ => false
                                | SFloat x => negb (isfinite x)
                                end) (map_to_list (task_outcome t)) then fail
  else Ok tt.

(** ** The database *)

Record gov_row : Type := mkRow {
  gv_sequence : Z; gv_run_id : string; gv_collected_at : string; gv_record : LedgerRecord }.

(** [metadata], [records], the counter of [sqlite_sequence], [purge_audit]. *)
Record GovDb : Type := mkGovDb {
  gd_checkpoint : string; gd_last_collected : string; gd_rows : list gov_row; gd_sequence : option Z;
  gd_purges : list (string * Z * string) }.

(** The tables the constructor creates. *)
Definition fresh_store : GovDb := mkGovDb GENESIS_HASH "" [] None [].

(** [ORDER BY sequence]. *)
Definition ordered (rows : list gov_row) : list gov_row :=
  sorted_by (fun a b => Z.ltb (gv_sequence a) (gv_sequence b)) rows.

Definition records_of (db : GovDb) : list LedgerRecord := map gv_record (ordered (gd_rows db)).

Definition is_text (j : json) (s : string) : bool := match j with JStr t => String.eqb t s | _ => false end.

(** The [try] block of a row: its canonical text, or [None] for a column that
    differs from the payload. *)
Definition row_canonical (r : gov_row) : result (option string) :=
  decoded ← loads (canonical_json (gv_record r));
  canonical ← dumps canonical_options decoded;
  trace ← subscript decoded "trace";
  run ← subscript trace "run_id";
  if negb (is_text run (gv_run_id r)) then Ok None
  else
    collected ← subscript decoded "collected_at";
    if negb (is_text collected (gv_collected_at r)) then Ok None else Ok (Some canonical).

(** The loop of [_verified_head]. *)
Fixpoint verify_rows (previous : string) (rows : list gov_row) : result (option string) :=
  match rows with
  | [] => Ok (Some previous)
  | r :: rest =>
      let record := gv_record r in
      if negb (String.eqb (previous_hash record) previous) then Ok None
      else match row_canonical r with
      | Raise e => if caught_by [ValueError; TypeError; KeyError] (exn_class e) then Ok None else Raise e
      | Ok None => Ok None
      | Ok (Some canonical) =>
          if negb (String.eqb canonical (canonical_json record))
             || negb (String.eqb (hash_record (previous_hash record) (canonical_json record)) (record_hash record))
          then Ok None else verify_rows (record_hash record) rest
      end
  end.

(** [_verified_head]. *)
Definition verified_head (db : GovDb) : result (option (Z * string)) :=
  let rows := ordered (gd_rows db) in
  let sequence := default 0%Z (gd_sequence db) in
  match last rows with
  | Some r =>
      if negb (String.eqb (gv_collected_at r) (gd_last_collected db)) || negb (Z.eqb (gv_sequence r) sequence)
      then Ok None
      else head ← verify_rows (gd_checkpoint db) rows; Ok (option_map (fun h => (sequence, h)) head)
  | None => head ← verify_rows (gd_checkpoint db) rows; Ok (option_map (fun h => (sequence, h)) head)
  end.

Definition verify (db : GovDb) : result bool := head ← verified_head db; Ok (bool_decide (head <> None)).

(** The checks of [GovernedTraceStore.__init__] on its grants and on the file's tables. *)
Definition open_store (grants : list SourceGrant) (db : GovDb) : result (gmap string SourceGrant) :=
  if bool_decide (grants = []) || negb (bool_decide (NoDup (map gr_source_id grants)))
  then raise ValueError "unique approved sources are required"
  else
    ok ← verify db;
    if negb ok then raise ValueError "governed trace hash chain is invalid"
    else Ok (list_to_map (map (fun g => (gr_source_id g, g)) grants)).

Definition mem_text (s : string) (o : option SourceGrant) : bool :=
  match o with Some g => bool_decide (s ∈ gr_task_ids g) | None => false end.

(** [validate_task]. *)
Definition validate_task (grants : gmap string SourceGrant) (source_id task_id : string) : result unit :=
  raise_if (negb (mem_text task_id (grants !! source_id))) ValueError "unapproved source or task".

(** The document stored for a trace. *)
Definition governed_json (collected_at source_id task_id : string) (t : DecisionTrace) : json :=
  JObj [("collected_at", JStr collected_at); ("source_id", JStr source_id); ("task_id", JStr task_id);
        ("trace", trace_json t)].

(** [collected_at <= cutoff] on texts. *)
Definition not_later (cutoff : string) (r : gov_row) : bool := negb (str_ltb cutoff (gv_collected_at r)).

(** The sequence number AUTOINCREMENT gives. *)
Definition next_row (db : GovDb) : Z :=
  (1 + Z.max (default 0 (gd_sequence db)) (fold_right Z.max 0 (map gv_sequence (gd_rows db))))%Z.

Definition last_record_hash (db : GovDb) : string :=
  match last (ordered (gd_rows db)) with
  | Some r => record_hash (gv_record r)
  | None => gd_checkpoint db
  end.

(** The statements of [append] inside its transaction. *)
Definition append_row (run collected_at cutoff payload : string) (db : GovDb) : result (LedgerRecord * GovDb) :=
  _ ← raise_if (str_ltb collected_at (gd_last_collected db)) ValueError "trace clock moved backwards";
  _ ← raise_if (existsb (not_later cutoff) (gd_rows db)) ValueError
        "retention purge overdue; new collection is disabled";
  let record := chain_record (last_record_hash db) payload in
  if existsb (fun r => String.eqb (gv_run_id r) run) (gd_rows db)
  then raise SqliteError "UNIQUE constraint failed: records.run_id"
  else
    let n := next_row db in
    Ok (record, mkGovDb (gd_checkpoint db) collected_at
                  (gd_rows db ++ [mkRow n run collected_at record])%list (Some n) (gd_purges db)).

(** The statements of [purge_expired] inside its transaction. *)
Definition purge_rows (cutoff purged_at : string) (db : GovDb) : result (Z * GovDb) :=
  let expired := ordered (List.filter (not_later cutoff) (gd_rows db)) in
  match last expired with
  | None => Ok (0%Z, db)
  | Some r =>
      let checkpoint := record_hash (gv_record r) in
      Ok (lenZ expired,
          mkGovDb checkpoint (gd_last_collected db)
            (List.filter (fun x => negb (Z.leb (gv_sequence x) (gv_sequence r))) (gd_rows db))
            (gd_sequence db) (gd_purges db ++ [(purged_at, lenZ expired, checkpoint)])%list)
  end.

(** A block of statements on the tables. *)
Definition gov_exchange {E A} (f : GovDb -> result (A * GovDb)) : io (GovDb * E) A := fun '(db, e) =>
  match f db with Ok (a, db') => (Ok a, (db', e)) | Raise x => (Raise x, (db, e)) end.

Section store.
Context {E : Type} (clock : io E datetime) (start commit : io E unit) (grants : gmap string SourceGrant).

(** [_now]. *)
Definition utc_now : io E datetime :=
  now ← clock;
  if is_utc now then mret now else lift (raise ValueError "trace clock must return UTC").

(** [append]. *)
Definition append (t : DecisionTrace) (source_id task_id : string) : io (GovDb * E) LedgerRecord :=
  _ ← lift (validate_task grants source_id task_id);
  _ ← lift (validate_trace t);
  now ← beside utc_now;
  let collected_at := isoformat true now in
  past ← lift (minus_days now RETENTION_DAYS);
  let cutoff := isoformat true past in
  payload ← lift (dumps canonical_options (governed_json collected_at source_id task_id t));
  atomically start commit (gov_exchange (append_row (run_id t) collected_at cutoff payload)).

(** [purge_expired]. *)
Definition purge_expired : io (GovDb * E) Z :=
  now ← beside utc_now;
  past ← lift (minus_days now RETENTION_DAYS);
  atomically start commit (gov_exchange (purge_rows (isoformat true past) (isoformat true now))).

(** [records] and [snapshot_head]. *)
Definition store_records : io (GovDb * E) (list LedgerRecord) := fun '(db, e) => (Ok (records_of db), (db, e)).

Definition snapshot_head (utc_offset : string -> option (option Z)) (policy_version : string)
    : io (GovDb * E) LedgerHead := fun '(db, e) =>
  match verified_head db with
  | Raise x => (Raise x, (db, e))
  | Ok None => (raise ValueError "governed trace hash chain is invalid", (db, e))
  | Ok (Some (sequence, hash)) =>
      (now ← beside clock;
       lift (capture_head utc_offset (isoformat false now) sequence hash policy_version)) (db, e)
  end.

(** [BoundGovernedTraceSink]: the task is checked once, then every trace is
    appended under it. *)
Definition bind_sink (source_id task_id : string) : result (DecisionTrace -> io (GovDb * E) LedgerRecord) :=
  _ ← validate_task grants source_id task_id;
  Ok (fun t => append t source_id task_id).

(** ** Sequences of calls *)

Inductive gov_call : Type :=
  | Append (t : DecisionTrace) (source_id task_id : string)
  | Purge.

Inductive gov_reply : Type := Appended (r : LedgerRecord) | PurgedRows (n : Z).

Definition gov_perform (c : gov_call) : io (GovDb * E) gov_reply :=
  match c with
  | Append t s k => r ← append t s k; mret (Appended r)
  | Purge => n ← purge_expired; mret (PurgedRows n)
  end.
End store.

(** ** Lemmas *)

Definition before (a b : gov_row) : Prop := (gv_sequence a < gv_sequence b)%Z.
Definition no_later (a b : gov_row) : Prop := str_ltb (gv_collected_at b) (gv_collected_at a) = false.

(** The columns of a row agree with its payload, which is canonical. *)
Definition row_ok (r : gov_row) : Prop := row_canonical r = Ok (Some (canonical_json (gv_record r))).

Lemma sorted_impl {A} (R R' : A -> A -> Prop) l :
  (forall a b, R a b -> R' a b) -> StronglySorted R l -> StronglySorted R' l.
Proof. intros HR. induction 1 as [|a l _ IH Ha]; constructor; [done|]. eapply Forall_impl; [exact Ha|]. auto. Qed.

Lemma ordered_id rows : StronglySorted before rows -> ordered rows = rows.
Proof.
  intros H. apply sorted_by_id. eapply sorted_impl; [|exact H].
  intros a b Hab. unfold not_after, before in *. apply Z.ltb_ge. lia.
Qed.

Lemma verify_from_app previous l1 l2 :
  verify_from previous (l1 ++ l2)%list = Ok true <->
  verify_from previous l1 = Ok true /\ verify_from (end_hash previous l1) l2 = Ok true.
Proof.
  revert previous. induction l1 as [|r l1 IH]; intros previous.
  - cbn. naive_solver.
  - change ((r :: l1) ++ l2)%list with (r :: (l1 ++ l2))%list.
    rewrite !verify_from_cons, IH, end_hash_cons. tauto.
Qed.

(** Rows that link up are verified, and lead to the last hash. *)
Lemma verify_rows_links previous rows :
  Forall row_ok rows -> verify_from previous (map gv_record rows) = Ok true ->
  verify_rows previous rows = Ok (Some (end_hash previous (map gv_record rows))).
Proof.
  intros Hrows. revert previous. induction Hrows as [|r rows Hr _ IH]; intros previous H; [done|].
  cbn [map] in H. apply verify_from_cons in H as [(Hp & _ & Hh) H].
  cbn [verify_rows]. rewrite Hp, String.eqb_refl. cbn [negb]. rewrite Hr, String.eqb_refl, <- Hh, String.eqb_refl.
  cbn [negb orb map]. rewrite end_hash_cons. by apply IH.
Qed.

Lemma end_hash_app previous l1 l2 : end_hash previous (l1 ++ l2)%list = end_hash (end_hash previous l1) l2.
Proof.
  revert previous. induction l1 as [|r l1 IH]; intros previous; [done|].
  change ((r :: l1) ++ l2)%list with (r :: (l1 ++ l2))%list. by rewrite !end_hash_cons, IH.
Qed.

Lemma last_hash_app l1 l2 : last_hash (l1 ++ l2)%list = end_hash (last_hash l1) l2.
Proof. apply end_hash_app. Qed.

(** In a list sorted for [R], a property closed under earlier elements holds of a prefix. *)
Lemma filter_prefix {A} (R : A -> A -> Prop) (f : A -> bool) l :
  StronglySorted R l -> (forall a b, R a b -> f b = true -> f a = true) ->
  l = (List.filter f l ++ List.filter (fun x => negb (f x)) l)%list.
Proof.
  intros Hs Hf. induction Hs as [|a l _ IH Ha]; [done|]. cbn [List.filter].
  destruct (f a) eqn:Ea; cbn [negb app]; [by f_equal|].
  assert (Hnone : List.filter f l = []).
  { clear IH. induction Ha as [|b l Hab _ IH]; [done|]. cbn [List.filter].
    destruct (f b) eqn:Eb; [|done]. by rewrite (Hf _ _ Hab Eb) in Ea. }
  rewrite Hnone in IH |- *. cbn [app] in IH |- *. by f_equal.
Qed.

Lemma filter_all {A} (f : A -> bool) l : Forall (fun x => f x = true) l -> List.filter f l = l.
Proof. induction 1 as [|x l Hx _ IH]; [done|]. cbn. by rewrite Hx, IH. Qed.

Lemma filter_none {A} (f : A -> bool) l : Forall (fun x => f x = false) l -> List.filter f l = [].
Proof. induction 1 as [|x l Hx _ IH]; [done|]. cbn. by rewrite Hx. Qed.

Lemma sorted_app {A} (R : A -> A -> Prop) l1 l2 :
  StronglySorted R (l1 ++ l2)%list ->
  StronglySorted R l1 /\ StronglySorted R l2 /\ forall a b, a ∈ l1 -> b ∈ l2 -> R a b.
Proof.
  induction l1 as [|x l1 IH]; cbn [app]; intros H; [split; [constructor|]; split; [done|]; set_solver|].
  inversion H as [|? ? Hs Hx]; subst. destruct (IH Hs) as (H1 & H2 & H3). apply Forall_app in Hx as [Hx1 Hx2].
  split; [by constructor|]. split; [done|]. intros a b [->|Ha]%elem_of_cons Hb; [|by apply H3].
  rewrite Forall_forall in Hx2. by apply Hx2.
Qed.

(** Deleting up to the last row of a prefix deletes the prefix. *)
Lemma delete_prefix l1 l2 r :
  StronglySorted before (l1 ++ l2)%list -> last l1 = Some r ->
  List.filter (fun x => negb (Z.leb (gv_sequence x) (gv_sequence r))) (l1 ++ l2)%list = l2.
Proof.
  intros Hs Hl. apply last_Some in Hl as [l ->]. apply sorted_app in Hs as (H1 & _ & H3).
  rewrite List.filter_app, filter_none, filter_all; [done| |].
  - apply Forall_forall. intros x Hx. apply negb_true_iff, Z.leb_gt. apply H3; [|done]. set_solver.
  - apply sorted_app in H1 as (_ & _ & H1). apply Forall_forall. intros x Hx. apply negb_false_iff, Z.leb_le.
    apply elem_of_app in Hx as [Hx|Hx]; [|apply list_elem_of_singleton in Hx as ->; lia].
    specialize (H1 x r Hx ltac:(set_solver)). unfold before in H1. lia.
Qed.

Lemma governed_row n c s k t previous :
  plain_trace t ->
  row_ok (mkRow n (run_id t) c (chain_record previous (print canonical_options (governed_json c s k t)))).
Proof.
  intros Ht. assert (Hw : wf_json (governed_json c s k t) = true).
  { unfold plain_trace in Ht. cbn [governed_json wf_json forallb snd]. rewrite Ht. reflexivity. }
  unfold row_ok, row_canonical. cbn [gv_record canonical_json chain_record].
  rewrite loads_print by auto with c3r. cbn [mbind result_bind].
  rewrite dumps_wf by by apply wf_canon. cbn [mbind result_bind]. rewrite print_canon.
  assert (Hc : exists kvs, canon canonical_options (governed_json c s k t)
    = JObj [("collected_at", JStr c); ("source_id", JStr s); ("task_id", JStr k); ("trace", JObj kvs)]
    /\ assoc "run_id" kvs = Some (JStr (run_id t))) by (eexists; split; reflexivity).
  destruct Hc as (kvs & -> & Hr). cbn [subscript assoc]. cbn. rewrite Hr. cbn.
  by rewrite !String.eqb_refl.
Qed.

(** The tables hold the unpurged end of the full history [log]. *)
Record gov_ok (db : GovDb) (log : list LedgerRecord) : Prop := {
  go_order : StronglySorted before (gd_rows db);
  go_time : StronglySorted no_later (gd_rows db);
  go_last r : last (gd_rows db) = Some r ->
    gv_collected_at r = gd_last_collected db /\ gd_sequence db = Some (gv_sequence r);
  go_chain : exists purged, log = (purged ++ map gv_record (gd_rows db))%list /\ gd_checkpoint db = last_hash purged;
  go_valid : verify_chain log = Ok true;
  go_rows : Forall row_ok (gd_rows db) }.

Lemma gov_ok_head db log :
  gov_ok db log -> verified_head db = Ok (Some (default 0%Z (gd_sequence db), last_hash log)).
Proof.
  intros [Ho Ht Hl (purged & -> & Hc) Hv Hr]. unfold verified_head. rewrite ordered_id by done.
  assert (Hrows : verify_rows (gd_checkpoint db) (gd_rows db)
    = Ok (Some (last_hash (purged ++ map gv_record (gd_rows db))))).
  { apply verify_from_app in Hv as [_ Hv]. rewrite verify_rows_links; [|done|by rewrite Hc].
    by rewrite Hc, last_hash_app. }
  rewrite Hrows. destruct (last (gd_rows db)) as [r|] eqn:El; [|done].
  destruct (Hl r eq_refl) as [Hcol Hseq]. rewrite Hcol, Hseq, String.eqb_refl. cbn [default]. cbn.
  by rewrite Z.eqb_refl.
Qed.

Lemma gov_ok_last_hash db log : gov_ok db log -> last_record_hash db = last_hash log.
Proof.
  intros [Ho _ _ (purged & -> & Hc) _ _]. unfold last_record_hash. rewrite ordered_id by done.
  rewrite last_hash_app, <- Hc.
  unfold end_hash. rewrite fmap_last. by destruct (last (gd_rows db)).
Qed.

(** Every row is at most as late as the last collection. *)
Lemma gov_ok_latest db log a :
  gov_ok db log -> a ∈ gd_rows db -> str_ltb (gd_last_collected db) (gv_collected_at a) = false.
Proof.
  intros [_ Ht Hl _ _ _] Ha. destruct (last (gd_rows db)) as [r|] eqn:El.
  - destruct (Hl r eq_refl) as [<- _]. apply last_Some in El as [l El]. rewrite El in Ht, Ha.
    apply sorted_app in Ht as (_ & _ & Ht).
    apply elem_of_app in Ha as [Ha|Ha]; [|apply list_elem_of_singleton in Ha as ->; apply str_ltb_irrefl].
    exact (Ht a r Ha ltac:(set_solver)).
  - apply last_None in El. rewrite El in Ha. by apply elem_of_nil in Ha.
Qed.

Lemma fold_max_upper l x : x ∈ l -> (x <= fold_right Z.max 0 l)%Z.
Proof. induction 1; cbn; lia. Qed.

Lemma sorted_snoc {A} (R : A -> A -> Prop) l x :
  StronglySorted R l -> (forall a, a ∈ l -> R a x) -> StronglySorted R (l ++ [x])%list.
Proof.
  intros Hs Hx. induction Hs as [|a l _ IH Ha]; cbn; [by repeat constructor|]. constructor.
  - apply IH. intros b Hb. apply Hx. by right.
  - apply Forall_app. split; [done|]. repeat constructor. apply Hx. by left.
Qed.

Lemma append_row_ok db log t c s k cutoff r db' :
  gov_ok db log -> plain_trace t ->
  append_row (run_id t) c cutoff (print canonical_options (governed_json c s k t)) db = Ok (r, db') ->
  gov_ok db' (log ++ [r])%list
  /\ r = chain_record (last_hash log) (print canonical_options (governed_json c s k t))
  /\ (default 0 (gd_sequence db) < default 0 (gd_sequence db'))%Z
  /\ Forall (fun x => not_later cutoff x = false) (gd_rows db).
Proof.
  intros Hok Ht H. unfold append_row in H. apply bind_ok in H as ([] & Hc & H). apply raise_if_ok in Hc.
  apply bind_ok in H as ([] & Hx & H). apply raise_if_ok in Hx. apply existsb_false_Forall in Hx.
  cbv zeta in H. destruct (existsb _ _); [done|].
  assert (Hr : r = chain_record (last_hash log) (print canonical_options (governed_json c s k t)))
    by (rewrite <- (gov_ok_last_hash _ _ Hok); congruence).
  assert (Hdb : db' = mkGovDb (gd_checkpoint db) c
     (gd_rows db ++ [mkRow (next_row db) (run_id t) c r])%list (Some (next_row db)) (gd_purges db)) by congruence.
  clear H. subst db'. split; [|split; [done|split; [|done]]].
  - pose proof (fun a => gov_ok_latest db log a Hok) as Hlate.
    destruct Hok as [Ho Htime Hl (purged & Hlog & Hcp) Hv Hrows].
    split; cbn [gd_rows gd_last_collected gd_sequence gd_checkpoint].
    + apply sorted_snoc; [done|]. intros a Ha. unfold before, next_row. cbn [gv_sequence].
      pose proof (fold_max_upper (map gv_sequence (gd_rows db)) (gv_sequence a)
        ltac:(apply list_elem_of_fmap; by exists a)). lia.
    + apply sorted_snoc; [done|]. intros a Ha. unfold no_later. cbn [gv_collected_at].
      eapply str_ltb_neg_trans; [exact Hc|]. by apply Hlate.
    + intros x Hx'. rewrite last_snoc in Hx'. by injection Hx' as <-.
    + exists purged. rewrite map_app. cbn [map gv_record]. by rewrite Hlog, app_assoc.
    + apply valid_snoc. split; [done|]. rewrite Hr. split; [done|]. split; [|done].
      apply recanonicalised_print. unfold plain_trace in Ht. cbn [governed_json wf_json forallb snd]. by rewrite Ht.
    + apply Forall_app. split; [done|]. repeat constructor. rewrite Hr. by apply governed_row.
  - cbn [gd_sequence]. unfold next_row. cbn [default]. cbn. lia.
Qed.

(** A purge moves its rows from the table to the history behind the checkpoint. *)
Lemma gov_ok_purged db log expired kept r purges :
  gov_ok db log -> gd_rows db = (expired ++ kept)%list -> last expired = Some r ->
  gov_ok (mkGovDb (record_hash (gv_record r)) (gd_last_collected db) kept (gd_sequence db) purges) log.
Proof.
  intros [Ho Ht Hl (purged & Hlog & Hcp) Hv Hrows] Hsplit El. rewrite Hsplit in Ho, Ht, Hl, Hlog, Hrows.
  apply sorted_app in Ho as (_ & Ho & _). apply sorted_app in Ht as (_ & Ht & _).
  apply Forall_app in Hrows as [_ Hrows].
  split; cbn [gd_rows gd_last_collected gd_sequence gd_checkpoint]; try done.
  - intros x Hx. apply Hl. apply last_Some in Hx as [l ->]. by rewrite app_assoc, last_snoc.
  - exists (purged ++ map gv_record expired)%list. rewrite Hlog, map_app, app_assoc. split; [done|].
    rewrite last_hash_app. unfold end_hash. by rewrite fmap_last, El.
Qed.

Lemma purge_rows_ok db log cutoff at_ n db' :
  gov_ok db log -> purge_rows cutoff at_ db = Ok (n, db') ->
  gov_ok db' log /\ gd_sequence db' = gd_sequence db
  /\ gd_rows db' = List.filter (fun r => negb (not_later cutoff r)) (gd_rows db)
  /\ n = (lenZ (gd_rows db) - lenZ (gd_rows db'))%Z.
Proof.
  intros Hok H. pose proof Hok as [Ho Ht Hl (purged & Hlog & Hcp) Hv Hrows].
  set (expired := List.filter (not_later cutoff) (gd_rows db)).
  set (kept := List.filter (fun r => negb (not_later cutoff r)) (gd_rows db)).
  assert (Hsplit : gd_rows db = (expired ++ kept)%list).
  { apply (filter_prefix no_later); [done|]. intros a b Hab Hb. unfold not_later, no_later in *.
    apply negb_true_iff in Hb. apply negb_true_iff. by eapply str_ltb_neg_trans. }
  assert (Hexp : ordered expired = expired).
  { apply ordered_id. rewrite Hsplit in Ho. by apply sorted_app in Ho as [Ho _]. }
  unfold purge_rows in H. fold expired in H. rewrite Hexp in H.
  destruct (last expired) as [r|] eqn:El.
  - injection H as <- <-. cbn [gd_sequence gd_rows]. rewrite Hsplit, (delete_prefix expired kept r) by
      (by rewrite <- ?Hsplit).
    split; [|split; [done|split; [done|]]].
    + by apply (gov_ok_purged db log expired).
    + unfold lenZ. rewrite length_app. lia.
  - injection H as <- <-. apply last_None in El. rewrite El in Hsplit. cbn in Hsplit.
    split; [done|]. split; [done|]. split; [done|]. lia.
Qed.

(** ** Histories *)

Section history.
Context {E : Type} (clock : io E datetime) (start commit : io E unit) (grants : gmap string SourceGrant).

(** A store reached from the fresh one, with every record it ever appended. *)
Inductive governed : GovDb -> list LedgerRecord -> Prop :=
  | governed_start : governed fresh_store []
  | governed_append db log t s k e r db' e' :
      governed db log -> plain_trace t ->
      append clock start commit grants t s k (db, e) = (Ok r, (db', e')) -> governed db' (log ++ [r])%list
  | governed_purge db log e n db' e' :
      governed db log -> purge_expired clock start commit (db, e) = (Ok n, (db', e')) -> governed db' log
  | governed_failed db log c e x db' e' :
      governed db log -> gov_perform clock start commit grants c (db, e) = (Raise x, (db', e')) ->
      governed db' log.

Lemma gov_exchange_ok {A} (f : GovDb -> result (A * GovDb)) db (e : E) a w' :
  gov_exchange f (db, e) = (Ok a, w') -> exists db', f db = Ok (a, db') /\ w' = (db', e).
Proof.
  unfold gov_exchange. destruct (f db) as [[b db']|x]; intros H; apply pair_equal_spec in H as [H <-]; [|done].
  injection H as ->. eauto.
Qed.

(** What a successful [append] went through. *)
Lemma append_ok t s k db e r db' e' :
  append clock start commit grants t s k (db, e) = (Ok r, (db', e')) ->
  validate_task grants s k = Ok tt /\ validate_trace t = Ok tt
  /\ exists c cutoff payload, dumps canonical_options (governed_json c s k t) = Ok payload
     /\ append_row (run_id t) c cutoff payload db = Ok (r, db').
Proof.
  intros H. unfold append in H.
  apply io_bind_ok in H as ([] & w1 & H1 & H). apply lift_ok in H1 as [Hk ->].
  apply io_bind_ok in H as ([] & w1 & H1 & H). apply lift_ok in H1 as [Hv ->].
  apply io_bind_ok in H as (now & w1 & H1 & H). apply beside_ok in H1 as (e1 & _ & ->).
  apply io_bind_ok in H as (past & w1 & H1 & H). apply lift_ok in H1 as [_ ->].
  apply io_bind_ok in H as (payload & w1 & H1 & H). apply lift_ok in H1 as [Hp ->].
  apply atomically_ok in H as (e2 & db1 & e3 & e4 & H & Hw). apply gov_exchange_ok in H as (db2 & H & [= -> ->]).
  injection Hw as -> _. split; [done|]. split; [done|]. eauto.
Qed.

Lemma purge_ok db e n db' e' :
  purge_expired clock start commit (db, e) = (Ok n, (db', e')) ->
  exists now past e1, clock e = (Ok now, e1) /\ is_utc now = true /\ minus_days now RETENTION_DAYS = Ok past
    /\ purge_rows (isoformat true past) (isoformat true now) db = Ok (n, db').
Proof.
  intros H. unfold purge_expired in H.
  apply io_bind_ok in H as (now & w1 & H1 & H). apply beside_ok in H1 as (e1 & Hn & ->).
  apply io_bind_ok in H as (past & w1 & H1 & H). apply lift_ok in H1 as [Hp ->].
  apply atomically_ok in H as (e2 & db1 & e3 & e4 & H & Hw). apply gov_exchange_ok in H as (db2 & H & [= -> ->]).
  injection Hw as -> _. unfold utc_now in Hn. apply io_bind_ok in Hn as (t & e5 & Hc & Hn).
  destruct (is_utc t) eqn:Hu; [|done]. apply pair_equal_spec in Hn as [[= ->] ->]. eauto 10.
Qed.

(** A call that raises leaves the tables alone. *)
Lemma gov_perform_raise c db e x w' :
  gov_perform clock start commit grants c (db, e) = (Raise x, w') -> fst w' = db.
Proof.
  assert (Hl : forall A B (r : result A) (f : A -> io (GovDb * E) B) w y w1,
    (forall a w2, f a w = (Raise y, w2) -> fst w2 = fst w) -> (lift r ≫= f) w = (Raise y, w1) -> fst w1 = fst w).
  { intros A B r f w y w1 Hf H. unfold mbind, io_bind, lift in H. destruct r; [by eapply Hf|]. by injection H as _ <-. }
  assert (Hb : forall A B (m : io E A) (f : A -> io (GovDb * E) B) y d e1 w1,
    (forall a e2 w2, f a (d, e2) = (Raise y, w2) -> fst w2 = d) ->
    (beside m ≫= f) (d, e1) = (Raise y, w1) -> fst w1 = d).
  { intros A B m f y d e1 w1 Hf H. unfold mbind, io_bind, beside in H. destruct (m e1) as [[a|z] e2];
      [by eapply Hf|by injection H as _ <-]. }
  intros H. destruct c as [t s k|]; cbn [gov_perform] in H; unfold mbind at 1, io_bind at 1 in H.
  - destruct (append _ _ _ _ _ _ _ _) as [[r|y] w1] eqn:Ea; [done|]. injection H as -> <-.
    unfold append in Ea. apply Hl in Ea; [done|]. intros [] w2 Ea2. apply Hl in Ea2; [done|].
    intros [] w3 Ea3. apply Hb in Ea3; [done|]. intros now e2 w4 Ea4. apply Hl in Ea4; [done|].
    intros past w5 Ea5. apply Hl in Ea5; [done|]. intros payload w6 Ea6. by apply atomically_raise in Ea6.
  - destruct (purge_expired _ _ _ _) as [[r|y] w1] eqn:Ea; [done|]. injection H as -> <-.
    unfold purge_expired in Ea. apply Hb in Ea; [done|]. intros now e2 w2 Ea2. apply Hl in Ea2; [done|].
    intros past w3 Ea3. by apply atomically_raise in Ea3.
Qed.

Lemma governed_ok db log : governed db log -> gov_ok db log.
Proof.
  induction 1 as [|db log t s k e r db' e' _ IH Ht H|db log e n db' e' _ IH H|db log c e x db' e' _ IH H].
  - split; cbn; try done; try constructor. by exists [].
  - apply append_ok in H as (_ & _ & c & cutoff & payload & Hp & H). unfold plain_trace in Ht.
    assert (Hw : wf_json (governed_json c s k t) = true)
      by (cbn [governed_json wf_json forallb snd]; rewrite Ht; reflexivity).
    rewrite dumps_wf in Hp by done. injection Hp as <-.
    by destruct (append_row_ok _ _ _ _ _ _ _ _ _ IH Ht H).
  - apply purge_ok in H as (now & past & e1 & _ & _ & _ & H). by destruct (purge_rows_ok _ _ _ _ _ _ IH H).
  - apply gov_perform_raise in H. cbn in H. by subst.
Qed.
End history.

(** ** Properties *)

(** C9: Retention is invisible in the verified head.  In every store reached from a
    fresh one by appends, purges and failed calls, verification succeeds and its
    head is the last hash of the full history ever appended, purged records
    included; that history is a valid ledger, the table holds its unpurged end,
    and the checkpoint is the hash before it.  An append extends the history by
    one record under a granted source and task, for an admissible trace; a purge
    keeps the head, returns the number of rows it removed and leaves exactly the
    rows collected after the cutoff, thirty days before its clock. *)
Theorem purge_keeps_verified_head {E} (clock : io E datetime) start commit grants db log
    (H : governed clock start commit grants db log) :
  verify db = Ok true
  /\ verified_head db = Ok (Some (default 0%Z (gd_sequence db), last_hash log))
  /\ verify_chain log = Ok true
  /\ (exists purged, log = (purged ++ records_of db)%list /\ gd_checkpoint db = last_hash purged)
  /\ (forall t s k e r db' e', append clock start commit grants t s k (db, e) = (Ok r, (db', e')) ->
        validate_task grants s k = Ok tt /\ validate_trace t = Ok tt /\ previous_hash r = last_hash log)
  /\ (forall e n db' e', purge_expired clock start commit (db, e) = (Ok n, (db', e')) ->
        verified_head db' = verified_head db /\ n = (lenZ (gd_rows db) - lenZ (gd_rows db'))%Z
        /\ exists now past e1, clock e = (Ok now, e1) /\ minus_days now RETENTION_DAYS = Ok past
           /\ gd_rows db' = List.filter (fun r => negb (not_later (isoformat true past) r)) (gd_rows db)).
Proof.
  apply governed_ok in H. pose proof (gov_ok_head _ _ H) as Hh. split; [|split; [exact Hh|]].
  { unfold verify. rewrite Hh. reflexivity. }
  split; [apply H|]. split; [|split].
  - destruct (go_chain _ _ H) as (purged & Hl & Hc). exists purged. unfold records_of.
    by rewrite ordered_id by apply H.
  - intros t s k e r db' e' Ha. apply append_ok in Ha as (Hk & Hv & c & cutoff & payload & _ & Ha).
    split; [done|]. split; [done|]. unfold append_row in Ha. apply bind_ok in Ha as ([] & _ & Ha).
    apply bind_ok in Ha as ([] & _ & Ha). cbv zeta in Ha. destruct (existsb _ _); [done|].
    rewrite <- (gov_ok_last_hash _ _ H). by injection Ha as <- _.
  - intros e n db' e' Hp. apply purge_ok in Hp as (now & past & e1 & Hc & _ & Hm & Hp).
    destruct (purge_rows_ok _ _ _ _ _ _ H Hp) as (H' & Hs & Hrows & Hn).
    rewrite Hh, (gov_ok_head _ _ H'), Hs. split; [done|]. split; [done|]. eauto 10.
Qed.

(** A world that is its own clock, in microseconds. *)
Definition example_clock : io Z datetime := fun e => (Ok (mkDatetime e (Some 0%Z)), e).
Definition example_grants : gmap string SourceGrant := {["src" := mkGrant "src" "owner" {["task"]} true]}.

Definition governed_trace : DecisionTrace :=
  mkTrace "run-1" GENESIS_HASH "internal" "local" ["a"; "b"] {["q" := [fone]]} ∅ (Some "a") "verified" ∅
    {["ok" := SBool true]} [].

Definition example_append (day : Z) (db : GovDb) : result LedgerRecord * (GovDb * Z) :=
  append example_clock (mret tt) (mret tt) example_grants governed_trace "src" "task" (db, day * MICROS_PER_DAY)%Z.

Definition example_stored : GovDb := fst (snd (example_append 100 fresh_store)).
Definition example_appended : LedgerRecord :=
  match fst (example_append 100 fresh_store) with Ok r => r | Raise _ => mkRecord "" "" "" end.

Definition example_purge (day : Z) (db : GovDb) : result Z * (GovDb * Z) :=
  purge_expired example_clock (mret tt) (mret tt) (db, day * MICROS_PER_DAY)%Z.
Definition example_purged : GovDb := fst (snd (example_purge 130 example_stored)).

Lemma governed_trace_plain : plain_trace governed_trace.
Proof. vm_compute. reflexivity. Qed.

Lemma example_append_step :
  example_append 100 fresh_store = (Ok example_appended, (example_stored, (100 * MICROS_PER_DAY)%Z)).
Proof. vm_compute. reflexivity. Qed.

Lemma example_purge_step :
  example_purge 130 example_stored = (Ok 1%Z, (example_purged, (130 * MICROS_PER_DAY)%Z)).
Proof. vm_compute. reflexivity. Qed.

Lemma purge_keeps_verified_head_witness :
  exists db log, governed example_clock (mret tt) (mret tt) example_grants db log
    /\ verify db = Ok true /\ gd_rows db = [] /\ log = [example_appended]
    /\ verified_head db = Ok (Some (1%Z, record_hash example_appended)).
Proof.
  assert (H : governed example_clock (mret tt) (mret tt) example_grants example_purged [example_appended]).
  { apply (governed_purge example_clock (mret tt) (mret tt) example_grants example_stored _
             (130 * MICROS_PER_DAY)%Z 1%Z _ (130 * MICROS_PER_DAY)%Z); [|exact example_purge_step].
    apply (governed_append example_clock (mret tt) (mret tt) example_grants fresh_store [] governed_trace "src" "task"
             (100 * MICROS_PER_DAY)%Z example_appended _ (100 * MICROS_PER_DAY)%Z);
      [constructor|exact governed_trace_plain|exact example_append_step]. }
  destruct (purge_keeps_verified_head example_clock (mret tt) (mret tt) example_grants _ _ H) as (Hv & Hh & _).
  exists example_purged, [example_appended]. split; [exact H|]. split; [exact Hv|].
  split; [vm_compute; reflexivity|]. split; [done|]. rewrite Hh. vm_compute. reflexivity.
Defined.
