(* ===== verification/IngressProxy.v ===== *)
(** * The ingress proxy ([c3r/ingress_proxy.py])

    The gate in front of the loopback service: authentication against a shared
    token or the credential store, scopes, admission, per-route slots, forwarding
    of documents and event streams, and the accounting of each request.  The
    client's socket, the upstream connection and the credential store are seen
    through [Outside], whose operations act on a world [W]; a handler acts on the
    server's and the request's own state beside it. *)

From Stdlib Require Import Lia ZArith Ascii String.
From stdpp Require Import base option strings gmap list.
From S2P Require Import PyNumber.
From S2P Require Import Prelude Effects PyStr PySort PyFloat FloatRepr Json Hash StateSchema TraceLedger.
From S2P Require Import ClmAdapter Inference Providers Runtime Responses HttpService LedgerAnchor Access.

Local Open Scope string_scope.

Definition MAX_RESPONSE_BYTES : Z := 65536.
Definition MAX_STREAM_BYTES : Z := 2097152.

(** ** The server *)

(** The routes with a semaphore of their own. *)
Inductive route_slot : Type := Generation | SystemOneRoute | RankRoute | Decision.

#[export] Instance route_slot_eq_dec : EqDecision route_slot.
Proof. solve_decision. Defined.

(** [self.route_slots.get(path)]: the three decision paths share one semaphore. *)
Definition route_slot_of (path : string) : option route_slot :=
  if String.eqb path "/v1/responses" then Some Generation
  else if String.eqb path "/v1/system-one" then Some SystemOneRoute
  else if String.eqb path "/v1/c3r/rank" then Some RankRoute
  else if bool_decide (path ∈ ["/v1/decisions"; "/v1/c3r/decide"; "/v1/c3r/execute"]) then Some Decision
  else None.

(** Free places of the semaphores. *)
Record slots : Type := mkSlots { sl_generation : Z; sl_system_one : Z; sl_rank : Z; sl_decision : Z }.

Definition slot_free (k : route_slot) (s : slots) : Z :=
  match k with
  | Generation => sl_generation s | SystemOneRoute => sl_system_one s
  | RankRoute => sl_rank s | Decision => sl_decision s
  end.

Definition slot_add (n : Z) (k : route_slot) (s : slots) : slots :=
  match k with
  | Generation => mkSlots (sl_generation s + n) (sl_system_one s) (sl_rank s) (sl_decision s)
  | SystemOneRoute => mkSlots (sl_generation s) (sl_system_one s + n) (sl_rank s) (sl_decision s)
  | RankRoute => mkSlots (sl_generation s) (sl_system_one s) (sl_rank s + n) (sl_decision s)
  | Decision => mkSlots (sl_generation s) (sl_system_one s) (sl_rank s) (sl_decision s + n)
  end%Z.

Record gateway : Type := mkGateway {
  gw_client_token : string;
  gw_upstream_token : string;
  gw_limiter : TokenBucket;
  gw_connections : Z;
  gw_in_flight : Z;
  gw_slots : slots }.

Record gateway_options : Type := mkOptions {
  go_upstream_host : string; go_upstream_port : Z; go_client_token : string; go_upstream_token : string;
  go_requests_per_minute : Z; go_max_in_flight : Z; go_max_connections : Z;
  go_generation_slots : Z; go_ranking_slots : Z; go_decision_slots : Z; go_timeout : float }.

(** [C3RIngressServer.__init__], before the socket is bound. *)
Definition make_gateway (o : gateway_options) (now : float) : result gateway :=
  _ ← raise_if (negb (bool_decide (go_upstream_host o ∈ ["127.0.0.1"; "::1"]))) ValueError
        "upstream must be loopback";
  _ ← raise_if (Z.ltb (go_upstream_port o) 1 || Z.ltb 65535 (go_upstream_port o)) ValueError
        "invalid upstream port";
  _ ← raise_if (Z.ltb (Z.min (len (go_client_token o)) (len (go_upstream_token o))) 32) ValueError
        "tokens must have at least 32 characters";
  same ← compare_digest_str (go_client_token o) (go_upstream_token o);
  _ ← raise_if same ValueError "client and upstream tokens must be different";
  _ ← raise_if (Z.ltb (go_max_in_flight o) 1 || fle (go_timeout o) fzero) ValueError
        "concurrency and timeout must be positive";
  _ ← raise_if (Z.ltb (go_max_connections o) 1 || Z.ltb 4096 (go_max_connections o)) ValueError
        "bounded accepted connection limit required";
  _ ← raise_if (existsb (fun n => Z.ltb n 1 || Z.ltb 4096 n)
                  [go_generation_slots o; go_ranking_slots o; go_decision_slots o]) ValueError
        "per-route concurrency slots must be bounded positive integers";
  rate ← fdiv (float_of_Z (go_requests_per_minute o)) (float_of_Z 60);
  limiter ← make_bucket (go_requests_per_minute o) rate now;
  Ok (mkGateway (go_client_token o) (go_upstream_token o) limiter (go_max_connections o)
        (go_max_in_flight o)
        (mkSlots (go_generation_slots o) (go_ranking_slots o) (go_ranking_slots o) (go_decision_slots o))).

(** ** Requests, and what a handler sends *)

Record ingress_request : Type := mkIngress {
  ir_command : string; ir_path : string; ir_headers : list (string * string) }.

(** [self.headers.get_all(name, [])]: header names ignore case. *)
Definition get_all (name : string) (r : ingress_request) : list string :=
  map snd (List.filter (fun kv => String.eqb (lower (fst kv)) (lower name)) (ir_headers r)).

(** [self.headers.get(name)]. *)
Definition header (name : string) (r : ingress_request) : option string := head (get_all name r).

(** To the client: a response's head, or bytes. *)
Inductive wire : Type :=
  | Head (status : Z) (headers : list (string * string))
  | Bytes (body : string).

(** To the upstream service. *)
Record upstream_request : Type := mkUpstream {
  uq_method : string; uq_path : string; uq_body : option string; uq_headers : list (string * string) }.

Record upstream_head : Type := mkUpstreamHead { uh_status : Z; uh_content_type : option string }.

(** What the proxy asks of a credential store. *)
Record access_service (W : Type) : Type := mkAccessService {
  as_authenticate : string -> io W (option Principal);
  as_admit : Principal -> io W bool;
  as_dispatch : Principal -> string -> io W unit;
  as_record_usage : Principal -> string -> usage_account -> io W unit }.
#[global] Arguments mkAccessService {W}.
#[global] Arguments as_authenticate {W}.
#[global] Arguments as_admit {W}.
#[global] Arguments as_dispatch {W}.
#[global] Arguments as_record_usage {W}.

(** [AccessStore] as that service. *)
Definition sqlite_service {engine : Sql} {E} {host : AccessHost E} : access_service (AccessDb * E) :=
  mkAccessService authenticate access_admit dispatch_event record_usage.

(** The world around one handler.  [ow_disconnected] reads the event the watcher
    thread sets when the client has left; [ow_stop] stops and joins it. *)
Record Outside (W : Type) : Type := mkOutside {
  ow_monotonic : W -> float * W;
  ow_uuid_hex : W -> string * W;
  ow_read_body : Z -> io W string;
  ow_client : wire -> io W unit;
  ow_disconnected : W -> bool;
  ow_connect : io W unit;
  ow_watch : io W unit;
  ow_request : upstream_request -> io W unit;
  ow_getresponse : io W upstream_head;
  ow_read : Z -> io W string;
  ow_readline : Z -> io W string;
  ow_stop : W -> W;
  ow_close : io W unit;
  ow_loads : string -> result json;
  ow_store : option (access_service W) }.
#[global] Arguments mkOutside {W}.
#[global] Arguments ow_monotonic {W}.
#[global] Arguments ow_uuid_hex {W}.
#[global] Arguments ow_read_body {W}.
#[global] Arguments ow_client {W}.
#[global] Arguments ow_disconnected {W}.
#[global] Arguments ow_connect {W}.
#[global] Arguments ow_watch {W}.
#[global] Arguments ow_request {W}.
#[global] Arguments ow_getresponse {W}.
#[global] Arguments ow_read {W}.
#[global] Arguments ow_readline {W}.
#[global] Arguments ow_stop {W}.
#[global] Arguments ow_close {W}.
#[global] Arguments ow_loads {W}.
#[global] Arguments ow_store {W}.

(** The server and the handler's attributes; then, kept for the theorems, what
    was written to the client, sent upstream and recorded as usage, and whether
    a stream's terminal event was accounted. *)
Record ing_state : Type := mkState {
  is_gateway : gateway;
  is_principal : option Principal;
  is_request_id : string;
  is_started : float;
  is_usage_recorded : bool;
  is_terminal : bool;
  is_wire : list wire;
  is_upstream : list upstream_request;
  is_usage : list Z }.

Definition with_gateway (g : gateway) (s : ing_state) : ing_state :=
  mkState g (is_principal s) (is_request_id s) (is_started s) (is_usage_recorded s) (is_terminal s)
    (is_wire s) (is_upstream s) (is_usage s).
Definition with_principal (p : option Principal) (s : ing_state) : ing_state :=
  mkState (is_gateway s) p (is_request_id s) (is_started s) (is_usage_recorded s) (is_terminal s)
    (is_wire s) (is_upstream s) (is_usage s).
Definition with_terminal (b : bool) (s : ing_state) : ing_state :=
  mkState (is_gateway s) (is_principal s) (is_request_id s) (is_started s) (is_usage_recorded s) b
    (is_wire s) (is_upstream s) (is_usage s).
Definition with_wire (x : wire) (s : ing_state) : ing_state :=
  mkState (is_gateway s) (is_principal s) (is_request_id s) (is_started s) (is_usage_recorded s)
    (is_terminal s) (is_wire s ++ [x]) (is_upstream s) (is_usage s).
Definition with_upstream (q : upstream_request) (s : ing_state) : ing_state :=
  mkState (is_gateway s) (is_principal s) (is_request_id s) (is_started s) (is_usage_recorded s)
    (is_terminal s) (is_wire s) (is_upstream s ++ [q]) (is_usage s).
Definition with_usage (status : Z) (s : ing_state) : ing_state :=
  mkState (is_gateway s) (is_principal s) (is_request_id s) (is_started s) true
    (is_terminal s) (is_wire s) (is_upstream s) (is_usage s ++ [status]).
Definition with_request (id : string) (started : float) (s : ing_state) : ing_state :=
  mkState (is_gateway s) None id started false (is_terminal s) (is_wire s) (is_upstream s) (is_usage s).

Definition gw_with_limiter (b : TokenBucket) (g : gateway) : gateway :=
  mkGateway (gw_client_token g) (gw_upstream_token g) b (gw_connections g) (gw_in_flight g) (gw_slots g).
Definition gw_add_in_flight (n : Z) (g : gateway) : gateway :=
  mkGateway (gw_client_token g) (gw_upstream_token g) (gw_limiter g) (gw_connections g)
    (gw_in_flight g + n) (gw_slots g).
Definition gw_add_slot (n : Z) (k : option route_slot) (g : gateway) : gateway :=
  match k with
  | None => g
  | Some k => mkGateway (gw_client_token g) (gw_upstream_token g) (gw_limiter g) (gw_connections g)
                (gw_in_flight g) (slot_add n k (gw_slots g))
  end.

(** ** The handler *)

Definition ing (W A : Type) : Type := io (ing_state * W) A.

Definition reading {W A} (f : ing_state -> A) : ing W A := fun '(s, w) => (Ok (f s), (s, w)).
Definition update {W} (f : ing_state -> ing_state) : ing W unit := fun '(s, w) => (Ok tt, (f s, w)).
(** An operation of the world that cannot fail. *)
Definition calling {W A} (f : W -> A * W) : ing W A := fun '(s, w) => let '(a, w') := f w in (Ok a, (s, w')).

(** White space and lines of [bytes]. *)
Definition byte_strip (s : string) : string := byte_rstrip (byte_lstrip s).

Fixpoint byte_splitlines (s : string) : list string :=
  match s with
  | EmptyString => []
  | String c s' =>
      if Z.eqb (code c) 13 then
        match s' with
        | String d s'' => if Z.eqb (code d) 10 then "" :: byte_splitlines s'' else "" :: byte_splitlines s'
        | EmptyString => [""]
        end
      else if Z.eqb (code c) 10 then "" :: byte_splitlines s'
      else match byte_splitlines s' with
           | [] => [String c EmptyString]
           | l :: ls => String c l :: ls
           end
  end.

(** [text.split(c, 1)[0]]. *)
Fixpoint before_char (c : ascii) (s : string) : string :=
  match s with
  | EmptyString => EmptyString
  | String d s' => if Ascii.eqb c d then EmptyString else String d (before_char c s')
  end.

(** The data of one event: its [data:] lines. *)
Definition frame_data (frame : string) : string :=
  join (String "010" EmptyString)
    (map (fun part => byte_strip (drop_str 5 part))
       (List.filter (fun part => startswith part "data:") (byte_splitlines frame))).

Definition is_newline (line : string) : bool :=
  String.eqb line (String "010" EmptyString) || String.eqb line (String "013" (String "010" EmptyString)).

Definition error_options : dump_options := DumpOptions "," ":" false true true.
Definition failure_options : dump_options := DumpOptions ", " ": " false true true.

Definition error_category (status : Z) : string :=
  match status with
  | 400 | 413 | 415 => "invalid_request_error"
  | 401 => "authentication_error"
  | 403 => "permission_error"
  | 404 => "not_found_error"
  | 409 => "conflict_error"
  | 429 => "rate_limit_error"
  | 503 => "service_unavailable"
  | _ => "api_error"
  end%Z.

Definition client_error_code (status : Z) : string :=
  match status with
  | 400 => "invalid_request"
  | 413 => "request_too_large"
  | 415 => "unsupported_media_type"
  | 422 => "unprocessable_request"
  | _ => "upstream_rejected"
  end%Z.

Definition required_scope (path : string) : option string :=
  if String.eqb path "/v1/models" then Some "models:read"
  else if String.eqb path "/v1/responses" then Some "responses:write"
  else if String.eqb path "/v1/system-one" then Some "system_one:write"
  else if String.eqb path "/v1/c3r/rank" then Some "rank:write"
  else if bool_decide (path ∈ ["/v1/c3r/decide"; "/v1/decisions"; "/v1/c3r/execute"]) then Some "decide:write"
  else if String.eqb path "/ready" then Some "models:read"
  else None.

Definition identity_headers : list string :=
  ["X-Tenant-ID"; "X-Project-ID"; "OpenAI-Organization"; "OpenAI-Project"; "X-C3R-Organization"; "X-C3R-Project"].

(** [count(value)] of [_record_usage]. *)
Definition usage_count (v : option json) : option Z :=
  match v with Some (JInt n) => if Z.leb 0 n then Some n else None | _ => None end.

Definition object_or_empty (v : option json) : list (string * json) :=
  match v with Some (JObj kvs) => kvs | _ => [] end.

(** The account of one request. *)
Definition account_of (path : string) (status : Z) (latency_ms : float) (decoded : list (string * json))
    : usage_account :=
  let usage := object_or_empty (assoc "usage" decoded) in
  let c3r := object_or_empty (assoc "c3r" decoded) in
  mkUsageAccount path
    (match assoc "model" decoded with
     | Some (JStr m) => if bool_decide (m ∈ ["c3r-core"; "c3r-system-one"; "c3r-verifier"]) then Some m else None
     | _ => None
     end)
    status latency_ms
    (usage_count (assoc "input_tokens" usage)) (usage_count (assoc "output_tokens" usage))
    (usage_count (assoc "system_one_invocations" c3r)) (usage_count (assoc "system_two_invocations" c3r))
    (match assoc "invocation_basis" c3r with
     | Some (JStr b) => if String.eqb b "adapter_transport_attempts" then Some b else None
     | _ => None
     end).

Section handler.
Context {W : Type} (o : Outside W) (r : ingress_request).

(** Handled by [_send_error], [_forward] and [_forward_stream] when the store fails. *)
Definition store_errors : list exn_kind := [OSError; SqliteError].

Definition to_client (x : wire) : ing W unit := _ ← update (with_wire x); beside (ow_client o x).

(** [_begin_request]. *)
Definition begin_request : ing W unit :=
  id ← calling (ow_uuid_hex o);
  now ← calling (ow_monotonic o);
  update (with_request ("req_" ++ id) now).

(** [_record_usage]. *)
Definition record_request (status : Z) (decoded : list (string * json)) : ing W unit :=
  s ← reading id;
  match ow_store o, is_principal s with
  | Some store, Some p =>
      if is_usage_recorded s then mret tt
      else
        now ← calling (ow_monotonic o);
        _ ← beside (as_record_usage store p (is_request_id s)
                      (account_of (ir_path r) status (fmul (fsub now (is_started s)) (float_of_Z 1000)) decoded));
        update (with_usage status)
  | _, _ => mret tt
  end.

(** The document of a refusal. *)
Definition error_document (request_id : string) (status : Z) (code : string) : json :=
  if present (ow_store o)
  then JObj [("error", JObj [("message", JStr "C3R request could not be completed.");
                             ("type", JStr (error_category status)); ("code", JStr code);
                             ("param", JNull); ("request_id", JStr request_id)])]
  else JObj [("error", JStr code)].

Definition document_headers (request_id : string) (body : string) : list (string * string) :=
  [("x-request-id", request_id); ("Content-Type", "application/json"); ("Cache-Control", "no-store");
   ("Content-Length", str_of_Z (len body))].

(** [_send_error]. *)
Definition send_error (status : Z) (code : string) : ing W unit :=
  '(status, code) ← io_try (_ ← record_request status []; mret (status, code)) store_errors
                      (fun _ => mret (503%Z, "access_unavailable"));
  id ← reading is_request_id;
  let body := print error_options (error_document id status code) in
  _ ← to_client (Head status (document_headers id body));
  if String.eqb (ir_command r) "HEAD" then mret tt else to_client (Bytes body).

(** [send_error]: requests the HTTP library refuses. *)
Definition refuse_malformed (code : Z) : ing W unit :=
  _ ← begin_request;
  send_error (if Z.eqb code 501 then 405 else code)%Z
    (if Z.eqb code 501 then "method_not_allowed" else "invalid_request").

(** [_scope_allowed]. *)
Definition scope_allowed (s : ing_state) : bool :=
  match ow_store o with
  | None => true
  | Some _ => match is_principal s, required_scope (ir_path r) with
              | Some p, Some scope => bool_decide (scope ∈ p_scopes p)
              | _, _ => false
              end
  end.

(** [_admitted]. *)
Definition admitted : ing W bool :=
  match ow_store o with
  | None =>
      now ← calling (ow_monotonic o);
      limiter ← reading (fun s => gw_limiter (is_gateway s));
      let '(taken, limiter') := take_token limiter now in
      _ ← update (fun s => with_gateway (gw_with_limiter limiter' (is_gateway s)) s);
      mret taken
  | Some store =>
      p ← reading is_principal;
      match p with
      | None => mret false
      | Some p => beside (as_admit store p)
      end
  end.

(** [_authorized]. *)
Definition authorized : ing W bool :=
  if existsb (fun name => present (header name r)) identity_headers then mret false
  else
    let supplied := get_all "X-C3R-Token" r in
    let authorization := get_all "Authorization" r in
    if Z.ltb 1 (lenZ authorization) || Z.ltb 1 (lenZ supplied) then mret false
    else match ow_store o with
    | Some store =>
        match supplied, authorization with
        | [], [a] =>
            if negb (startswith a "Bearer ") then mret false
            else
              principal ← beside (as_authenticate store (drop_str 7 a));
              match principal with
              | None => mret false
              | Some p => _ ← update (with_principal (Some p)); mret true
              end
        | _, _ => mret false
        end
    | None =>
        token ← reading (fun s => gw_client_token (is_gateway s));
        mret match supplied, authorization with
             | s :: _, _ => compare_digest (utf8 token) (utf8 s)
             | [], [a] => compare_digest (utf8 ("Bearer " ++ token)) (utf8 a)
             | [], _ => false
             end
    end.

(** ** Forwarding *)

(** One event of a stream: decode it, account a terminal one, pass it on. *)
Definition forward_event (frame : string) : ing W unit :=
  event ← lift (ow_loads o (frame_data frame));
  match event with
  | JObj kvs =>
      match assoc "type" kvs with
      | Some (JStr event_type) =>
          _ ← (if bool_decide (event_type ∈ ["response.completed"; "response.failed"])
               then _ ← record_request (if String.eqb event_type "response.completed" then 200 else 503)%Z
                          (object_or_empty (assoc "response" kvs));
                    update (with_terminal true)
               else mret tt);
          to_client (Bytes frame)
      | _ => lift (raise TypeError "invalid stream event type")
      end
  | _ => lift (raise TypeError "invalid stream event")
  end.

(** The [while] loop.  Each round adds a nonempty line to [total]. *)
Fixpoint stream_loop (fuel : nat) (deadline : float) (frame : string) (total : Z) : ing W unit :=
  match fuel with
  | O => lift (raise RuntimeError "out of fuel")
  | S fuel =>
      now ← calling (ow_monotonic o);
      if negb (flt now deadline) then lift (raise ValueError "incomplete stream")
      else
        line ← beside (ow_readline o (MAX_RESPONSE_BYTES + 1));
        if negb (nonempty line) then lift (raise ValueError "incomplete stream")
        else
          let frame := frame ++ line in
          let total := (total + len line)%Z in
          if Z.ltb MAX_RESPONSE_BYTES (len frame) || Z.ltb MAX_STREAM_BYTES total
          then lift (raise ValueError "stream bound exceeded")
          else if negb (is_newline line) then stream_loop fuel deadline frame total
          else
            _ ← forward_event frame;
            terminal ← reading is_terminal;
            if terminal : bool then mret tt else stream_loop fuel deadline "" total
  end.

Definition STREAM_FUEL : nat := Z.to_nat (MAX_STREAM_BYTES + 2).

Definition failure_event : string :=
  "event: response.failed" ++ String "010" ("data: "
  ++ print failure_options
       (JObj [("type", JStr "response.failed");
              ("response", JObj [("status", JStr "failed");
                                 ("error", JObj [("code", JStr "stream_interrupted");
                                                 ("message", JStr "C3R stream interrupted.")])])])
  ++ String "010" (String "010" "")).

Definition stream_headers (request_id : string) : list (string * string) :=
  [("Content-Type", "text/event-stream"); ("Cache-Control", "no-store"); ("X-Accel-Buffering", "no");
   ("x-request-id", request_id)].

(** [disconnected.is_set()]. *)
Definition disconnected : ing W bool := fun '(s, w) => (Ok (ow_disconnected o w), (s, w)).

(** [_forward_stream]. *)
Definition forward_stream : ing W unit :=
  id ← reading is_request_id;
  _ ← to_client (Head 200 (stream_headers id));
  _ ← update (with_terminal false);
  now ← calling (ow_monotonic o);
  io_try (stream_loop STREAM_FUEL (fadd now (float_of_Z 300)) "" 0)
    [OSError; HTTPException; TypeError; ValueError; SqliteError]
    (fun _ =>
       terminal ← reading is_terminal;
       if terminal : bool then mret tt
       else io_try (gone ← disconnected;
                    _ ← record_request (if gone : bool then 499 else 503)%Z [];
                    to_client (Bytes failure_event))
              store_errors (fun _ => mret tt)).

Definition upstream_headers (s : ing_state) (body : option string) : list (string * string) :=
  app [("Authorization", "Bearer " ++ gw_upstream_token (is_gateway s)); ("x-request-id", is_request_id s)]
    (if present body then [("Content-Type", "application/json")] else []).

(** [getheader("Content-Type", "").split(";", 1)[0] == "text/event-stream"]. *)
Definition is_event_stream (h : upstream_head) : bool :=
  Z.eqb (uh_status h) 200
  && String.eqb (before_char ";" (default "" (uh_content_type h))) "text/event-stream".

Definition over_capacity : ing W unit := send_error (if present (ow_store o) then 429 else 503)%Z "over_capacity".

(** The [try] block of [_forward]: [None] when the reply was written, else the
    document to write after the cleanup. *)
Definition exchange_upstream (method : string) (body : option string) : ing W (option (Z * string)) :=
  s ← reading id;
  _ ← (match ow_store o, is_principal s with
       | Some store, Some p => beside (as_dispatch store p (is_request_id s))
       | _, _ => mret tt
       end);
  _ ← beside (ow_connect o);
  _ ← beside (ow_watch o);
  let q := mkUpstream method (ir_path r) body (upstream_headers s body) in
  _ ← update (with_upstream q);
  _ ← beside (ow_request o q);
  response ← beside (ow_getresponse o);
  if is_event_stream response
  then if negb (String.eqb method "POST") || negb (String.eqb (ir_path r) "/v1/responses")
       then lift (raise ValueError "unexpected stream")
       else _ ← forward_stream; mret None
  else
    forwarded ← beside (ow_read o (MAX_RESPONSE_BYTES + 1));
    if Z.ltb MAX_RESPONSE_BYTES (len forwarded)
    then _ ← send_error 502 "invalid_upstream_response"; mret None
    else
      decoded ← lift (ow_loads o forwarded);
      match decoded with
      | JObj kvs =>
          if negb (Z.leb 200 (uh_status response) && Z.leb (uh_status response) 599)
          then lift (raise ValueError "invalid upstream response")
          else
            _ ← record_request (uh_status response) kvs;
            if Z.leb 400 (uh_status response) && present (ow_store o)
            then _ ← send_error (uh_status response) (client_error_code (uh_status response)); mret None
            else mret (Some (uh_status response, forwarded))
      | _ => lift (raise ValueError "invalid upstream response")
      end.

(** The [except] clause of [_forward]. *)
Definition exchange_failed (e : exn) : ing W (option (Z * string)) :=
  gone ← disconnected;
  _ ← (if gone : bool
       then io_try (record_request 499 []) store_errors (fun _ => mret tt)
       else send_error 503 "upstream_unavailable");
  mret None.

Definition forward_errors : list exn_kind := [OSError; HTTPException; ValueError; SqliteError].

Definition on_gateway (f : gateway -> gateway) : ing W unit :=
  update (fun s => with_gateway (f (is_gateway s)) s).

(** The [finally] clause of [_forward]. *)
Definition give_back (slot : option route_slot) : ing W unit :=
  _ ← calling (fun w => (tt, ow_stop o w));
  _ ← beside (ow_close o);
  _ ← on_gateway (gw_add_in_flight 1);
  on_gateway (gw_add_slot 1 slot).

(** [_forward]. *)
Definition forward (method : string) (body : option string) : ing W unit :=
  let slot := route_slot_of (ir_path r) in
  g ← reading is_gateway;
  if match slot with Some k => Z.leb (slot_free k (gw_slots g)) 0 | None => false end
  then over_capacity
  else
    _ ← on_gateway (gw_add_slot (-1) slot);
    if Z.leb (gw_in_flight g) 0
    then _ ← on_gateway (gw_add_slot 1 slot); over_capacity
    else
      _ ← on_gateway (gw_add_in_flight (-1));
      reply ← io_finally (io_try (exchange_upstream method body) forward_errors exchange_failed) (give_back slot);
      match reply with
      | None => mret tt
      | Some (status, forwarded) =>
          id ← reading is_request_id;
          _ ← to_client (Head status (document_headers id forwarded));
          to_client (Bytes forwarded)
      end.

(** ** Routing *)

Definition get_paths : list string := ["/health"; "/metrics"; "/ready"; "/v1/models"].

(** [_get]. *)
Definition ingress_get : ing W unit :=
  _ ← begin_request;
  if negb (bool_decide (ir_path r ∈ get_paths)) then send_error 404 "not_found"
  else
    let guarded := negb (String.eqb (ir_path r) "/health") in
    ok ← (if guarded then authorized else mret true);
    if negb ok then send_error 401 "unauthorized"
    else
      s ← reading id;
      if guarded && negb (scope_allowed s) then send_error 403 "insufficient_scope"
      else
        ok ← (if guarded && present (ow_store o) then admitted else mret true);
        if negb ok then send_error 429 "rate_limited"
        else forward "GET" None.

Definition is_json_content : bool :=
  String.eqb (lower (strip (before_char ";" (default "" (header "Content-Type" r))))) "application/json".

(** The length a POST announces, [-1] when it announces none it can use. *)
Definition announced_length : Z :=
  match get_all "Content-Length" r with
  | [text] => default (-1)%Z (parse_int text)
  | _ => (-1)%Z
  end.

(** [_post]. *)
Definition ingress_post : ing W unit :=
  _ ← begin_request;
  if negb (bool_decide (ir_path r ∈ post_paths)) then send_error 404 "not_found"
  else
    ok ← authorized;
    if negb ok then send_error 401 "unauthorized"
    else
      s ← reading id;
      if negb (scope_allowed s) then send_error 403 "insufficient_scope"
      else if present (header "Transfer-Encoding" r) then send_error 400 "unsupported_transfer_encoding"
      else if negb is_json_content then send_error 415 "unsupported_media_type"
      else
        ok ← admitted;
        if negb ok then send_error 429 "rate_limited"
        else
          let length := announced_length in
          if Z.ltb length 1 || Z.ltb MAX_REQUEST_BYTES length
          then send_error 413 "request_size_out_of_bounds"
          else body ← beside (ow_read_body o length); forward "POST" (Some body).

(** [do_GET], [do_POST]. *)
Definition guarded_handler (m : ing W unit) : ing W unit :=
  io_try m [SqliteError; OSError] (fun _ => send_error 503 "access_unavailable").
Definition ingress_do_GET : ing W unit := guarded_handler ingress_get.
Definition ingress_do_POST : ing W unit := guarded_handler ingress_post.

(** One request, as the HTTP library dispatches it. *)
Definition ingress_handle : ing W unit :=
  if String.eqb (ir_command r) "GET" then ingress_do_GET
  else if String.eqb (ir_command r) "POST" then ingress_do_POST
  else refuse_malformed 501.
End handler.

(** ** Accepted connections

    [process_request] takes a place or refuses; a thread that could not be
    started, or one that ended, gives its place back. *)
Inductive connection_step : gateway * nat -> gateway * nat -> Prop :=
  | accept_connection g n :
      (0 < gw_connections g)%Z ->
      connection_step (g, n)
        (mkGateway (gw_client_token g) (gw_upstream_token g) (gw_limiter g) (gw_connections g - 1)
           (gw_in_flight g) (gw_slots g), S n)
  | refuse_connection g n : (gw_connections g <= 0)%Z -> connection_step (g, n) (g, n)
  | end_connection g n :
      connection_step (g, S n)
        (mkGateway (gw_client_token g) (gw_upstream_token g) (gw_limiter g) (gw_connections g + 1)
           (gw_in_flight g) (gw_slots g), n).

Inductive connection_steps : gateway * nat -> gateway * nat -> Prop :=
  | connections_refl c : connection_steps c c
  | connections_next c d e : connection_steps c d -> connection_step d e -> connection_steps c e.

(** At every moment the free places and the open connections make up the limit. *)
Lemma connections_are_bounded g c : (0 <= gw_connections g)%Z -> connection_steps (g, 0) c ->
  (gw_connections (fst c) + Z.of_nat (snd c) = gw_connections g /\ 0 <= gw_connections (fst c))%Z.
Proof.
  intros Hg H. remember (g, 0) as d eqn:Ed. induction H as [d|d c e _ IH Hs]; subst; [cbn; lia|].
  specialize (IH eq_refl). destruct Hs; cbn [fst snd gw_connections] in *; lia.
Qed.

(** ** What the parts of a handler leave alone *)

(** The server, the caller and what was sent upstream. *)
Definition core (s : ing_state) : gateway * option Principal * string * list upstream_request :=
  (is_gateway s, is_principal s, is_request_id s, is_upstream s).

Definition fixes {W X A} (f : ing_state -> X) (m : ing W A) : Prop :=
  forall s w, wp m (fun _ sw => f (fst sw) = f s) (s, w).

Section fixes.
Context {W X : Type} (o : Outside W) (f : ing_state -> X).

Lemma fixes_ret {A} (a : A) : fixes (W := W) f (mret a).
Proof. done. Qed.
Lemma fixes_lift {A} (x : result A) : fixes (W := W) f (lift x).
Proof. done. Qed.
Lemma fixes_reading {A} (g : ing_state -> A) : fixes (W := W) f (reading g).
Proof. done. Qed.
Lemma fixes_disconnected : fixes f (disconnected o).
Proof. done. Qed.
Lemma fixes_calling {A} (g : W -> A * W) : fixes f (calling g).
Proof. intros s w. unfold wp, calling. by destruct (g w). Qed.
Lemma fixes_beside {A} (m : io W A) : fixes f (beside m).
Proof. intros s w. unfold wp, beside. by destruct (m w). Qed.
Lemma fixes_update g : (forall s, f (g s) = f s) -> fixes (W := W) f (update g).
Proof. intros Hf s w. apply Hf. Qed.
Lemma fixes_bind {A B} (m : ing W A) (g : A -> ing W B) :
  fixes f m -> (forall a, fixes f (g a)) -> fixes f (m ≫= g).
Proof.
  intros Hm Hf s w. apply wp_bind. eapply wp_mono; [apply Hm|]. intros [a|e] [s' w'] H; [|done].
  eapply wp_mono; [apply Hf|]. cbn in *. intros _ _ ->. done.
Qed.
Lemma fixes_try {A} (m : ing W A) hs h : fixes f m -> (forall e, fixes f (h e)) -> fixes f (io_try m hs h).
Proof.
  intros Hm Hh s w. apply wp_try. eapply wp_mono; [apply Hm|]. intros [a|e] [s' w'] H; [done|].
  destruct (caught_by _ _); [|done]. eapply wp_mono; [apply Hh|]. cbn in *. intros _ _ ->. done.
Qed.
Lemma fixes_finally {A} (m : ing W A) c : fixes f m -> fixes f c -> fixes f (io_finally m c).
Proof.
  intros Hm Hc s w. apply wp_finally. eapply wp_mono; [apply Hm|]. intros r [s' w'] H.
  eapply wp_mono; [apply Hc|]. cbn in *. intros [] [] ->; done.
Qed.

(** Reason about such a computation by what it keeps. *)
Lemma wp_fixes {A} (m : ing W A) (Q : result A -> ing_state * W -> Prop) s w :
  fixes f m -> (forall r s' w', f s' = f s -> Q r (s', w')) -> wp m Q (s, w).
Proof. intros Hm HQ. eapply wp_mono; [apply Hm|]. intros x [s' w']. apply HQ. Qed.

(** A property of what the rest keeps carries over to the whole. *)
Definition ends (P : X -> Prop) {A} : result A -> ing_state * W -> Prop := fun _ sw => P (f (fst sw)).

Lemma ends_bind {A B} (P : X -> Prop) (m : ing W A) (k : A -> ing W B) sw :
  wp m (ends P) sw -> (forall a, fixes f (k a)) -> wp (m ≫= k) (ends P) sw.
Proof.
  intros Hm Hk. apply wp_bind. eapply wp_mono; [apply Hm|]. intros [a|e] [s w] H; [|done].
  apply wp_fixes; [done|]. unfold ends in *. cbn in *. by intros _ s' _ ->.
Qed.
Lemma ends_try {A} (P : X -> Prop) (m : ing W A) hs h sw :
  wp m (ends P) sw -> (forall e, fixes f (h e)) -> wp (io_try m hs h) (ends P) sw.
Proof.
  intros Hm Hh. apply wp_try. eapply wp_mono; [apply Hm|]. intros [a|e] [s w] H; [done|].
  destruct (caught_by _ _); [|done]. apply wp_fixes; [done|]. unfold ends in *. cbn in *. by intros _ s' _ ->.
Qed.
Lemma ends_finally {A} (P : X -> Prop) (m : ing W A) c sw :
  wp m (ends P) sw -> fixes f c -> wp (io_finally m c) (ends P) sw.
Proof.
  intros Hm Hc. apply wp_finally. eapply wp_mono; [apply Hm|]. intros r [s w] H.
  apply wp_fixes; [done|]. unfold ends in *. cbn in *. by intros [] s' _ ->.
Qed.
End fixes.

Lemma wp_reading {W A} (g : ing_state -> A) (Q : result A -> ing_state * W -> Prop) s w :
  Q (Ok (g s)) (s, w) -> wp (reading g) Q (s, w).
Proof. done. Qed.
Lemma wp_update {W} (g : ing_state -> ing_state) (Q : result unit -> ing_state * W -> Prop) s w :
  Q (Ok tt) (g s, w) -> wp (update g) Q (s, w).
Proof. done. Qed.
Lemma wp_calling {W A} (g : W -> A * W) (Q : result A -> ing_state * W -> Prop) s w :
  (forall a w', g w = (a, w') -> Q (Ok a) (s, w')) -> wp (calling g) Q (s, w).
Proof. unfold wp, calling. destruct (g w). cbn. auto. Qed.
Lemma fixes_sub {W X Y A} (f : ing_state -> X) (g : ing_state -> Y) (m : ing W A) :
  (forall s s', f s = f s' -> g s = g s') -> fixes f m -> fixes g m.
Proof. intros Hfg Hm s w. eapply wp_mono; [apply Hm|]. intros x [s' w']. cbn. apply Hfg. Qed.

Lemma fixes_upstream {W A} (m : ing W A) : fixes core m -> fixes is_upstream m.
Proof. apply fixes_sub. unfold core. congruence. Qed.

Lemma fixes_server {W A} (m : ing W A) : fixes core m -> fixes is_gateway m.
Proof. apply fixes_sub. unfold core. congruence. Qed.

#[export] Hint Resolve fixes_ret fixes_lift fixes_reading fixes_disconnected fixes_calling fixes_beside
  fixes_upstream fixes_server : c3r.

(** One step of a handler. *)
Ltac ing_step :=
  lazymatch goal with
  | |- wp (reading _) _ (_, _) => apply wp_reading
  | |- wp (update _) _ (_, _) => apply wp_update
  | |- wp (on_gateway _) _ (_, _) => unfold on_gateway; apply wp_update
  | |- wp (calling _) _ (_, _) => apply wp_calling; intros ? ? ?
  | |- wp (beside _) _ (_, _) => apply wp_beside; intros ? ? ?
  | |- match ?x with _ => _ end => destruct x
  | |- _ => wp_step
  end.

(** Step through a computation. *)
Ltac fixes_steps :=
  repeat first
    [ solve [auto with c3r]
    | apply fixes_bind; [|intros ?]
    | apply fixes_try; [|intros ?]
    | apply fixes_finally
    | apply fixes_update; intros ?; reflexivity
    | match goal with
      | |- fixes _ (match ?x with _ => _ end) => destruct x
      end ].

Section kept.
Context {W : Type} (o : Outside W) (r : ingress_request).

Lemma core_to_client x : fixes core (to_client o x).
Proof. unfold to_client. fixes_steps. Qed.
Hint Resolve core_to_client : c3r.
Lemma core_record status decoded : fixes core (record_request o r status decoded).
Proof. unfold record_request. fixes_steps. Qed.
Hint Resolve core_record : c3r.
Lemma core_send_error status code : fixes core (send_error o r status code).
Proof. unfold send_error. fixes_steps. Qed.
Hint Resolve core_send_error : c3r.
Lemma core_forward_event frame : fixes core (forward_event o r frame).
Proof. unfold forward_event. fixes_steps. Qed.
Hint Resolve core_forward_event : c3r.
Lemma core_stream_loop fuel deadline frame total : fixes core (stream_loop o r fuel deadline frame total).
Proof.
  revert frame total; induction fuel as [|fuel IH]; intros frame total; cbn [stream_loop]; fixes_steps; apply IH.
Qed.
Hint Resolve core_stream_loop : c3r.
Lemma core_forward_stream : fixes core (forward_stream o r).
Proof. unfold forward_stream. fixes_steps. Qed.
Lemma core_exchange_failed e : fixes core (exchange_failed o r e).
Proof. unfold exchange_failed. fixes_steps. Qed.
End kept.
#[export] Hint Resolve core_to_client core_record core_send_error core_forward_event core_stream_loop
  core_forward_stream core_exchange_failed : c3r.

(** ** Gating *)

Section gate.
Context {W : Type} (o : Outside W) (r : ingress_request).

(** The caller proved who it is: with the shared token, or with a key the store
    accepts; tenant and project are never taken from its headers. *)
Definition authenticated_call (g : gateway) (p : option Principal) : Prop :=
  (forall name, name ∈ identity_headers -> get_all name r = [])
  /\ match ow_store o with
     | None =>
         get_all "X-C3R-Token" r = [gw_client_token g]
         \/ get_all "X-C3R-Token" r = [] /\ get_all "Authorization" r = ["Bearer " ++ gw_client_token g]
     | Some store =>
         exists token pr, p = Some pr /\ get_all "X-C3R-Token" r = []
         /\ get_all "Authorization" r = ["Bearer " ++ token]
         /\ exists w w', as_authenticate store token w = (Ok (Some pr), w')
     end.

Definition scoped_call (p : option Principal) : Prop :=
  ow_store o = None
  \/ exists pr scope, p = Some pr /\ required_scope (ir_path r) = Some scope /\ scope ∈ p_scopes pr.

(** The quota of the caller, or the proxy's own rate limit, had room. *)
Definition admitted_call (g : gateway) (p : option Principal) : Prop :=
  match ow_store o with
  | None => exists now, fst (take_token (gw_limiter g) now) = true
  | Some store => exists pr w w', p = Some pr /\ as_admit store pr w = (Ok true, w')
  end.

(** The server up to its rate limiter. *)
Definition same_server (g g' : gateway) : Prop := exists b, g' = gw_with_limiter b g.

Lemma startswith_split p s : startswith s p = true -> s = p ++ drop_str (len p) s.
Proof.
  intros H. cut (exists t, s = p ++ t); [by intros [t ->]; rewrite (drop_str_app (len p))|].
  unfold startswith in H. revert s H; induction p as [|c p IH]; intros s H; [by exists s|].
  destruct s as [|d s]; [done|]. cbn in H. destruct (ascii_dec c d) as [->|]; [|done].
  apply IH in H as [t ->]. by exists t.
Qed.

(** What a successful [_authorized] established. *)
Lemma authorized_ok s w :
  wp (authorized o r) (fun b sw =>
    is_upstream (fst sw) = is_upstream s /\ is_gateway (fst sw) = is_gateway s
    /\ is_request_id (fst sw) = is_request_id s
    /\ (b = Ok true -> authenticated_call (is_gateway s) (is_principal (fst sw)))) (s, w).
Proof.
  unfold authorized. destruct (existsb _ identity_headers) eqn:Hid; [by apply wp_ret|].
  assert (Hn : forall name, name ∈ identity_headers -> get_all name r = []).
  { apply existsb_false_Forall in Hid. rewrite Forall_forall in Hid. intros n Hin. specialize (Hid n Hin).
    unfold header in Hid. destruct (get_all n r); done. }
  destruct (Z.ltb 1 _ || _) eqn:Hl; [by apply wp_ret|]. apply orb_false_iff in Hl as [_ Hl].
  unfold authenticated_call. destruct (ow_store o) as [store|].
  - destruct (get_all "X-C3R-Token" r); [|by apply wp_ret].
    destruct (get_all "Authorization" r) as [|a [|]]; [by apply wp_ret| |by apply wp_ret].
    destruct (negb (startswith a "Bearer ")) eqn:Hb; [by apply wp_ret|]. apply negb_false_iff in Hb.
    apply wp_bind. unfold wp at 1, beside. destruct (as_authenticate store _ w) as [[[p|]|e] w'] eqn:E;
      cbn; [|by repeat split|by repeat split].
    split_and!; try done. intros _. split; [done|]. exists (drop_str 7 a), p. split_and!; [done..| |by eauto].
    f_equal. exact (startswith_split "Bearer " a Hb).
  - apply wp_bind. unfold wp at 1, reading. cbn [fst snd]. apply wp_ret. cbn [fst snd].
    split_and!; try done. intros H. split; [done|].
    assert (Heq : forall x y, Ok (compare_digest (utf8 x) (utf8 y)) = Ok true -> x = y).
    { intros x y E. apply utf8_inj, compare_digest_eq. congruence. }
    destruct (get_all "X-C3R-Token" r) as [|t []] eqn:Ht.
    + destruct (get_all "Authorization" r) as [|a [|]]; [done| |done]. right. by rewrite (Heq _ _ H).
    + left. by rewrite (Heq _ _ H).
    + apply Z.ltb_ge in Hl. unfold lenZ in Hl. cbn [length] in Hl. lia.
Qed.

Lemma admitted_ok s w :
  wp (admitted o) (fun b sw =>
    is_upstream (fst sw) = is_upstream s /\ is_principal (fst sw) = is_principal s
    /\ is_request_id (fst sw) = is_request_id s /\ same_server (is_gateway s) (is_gateway (fst sw))
    /\ (b = Ok true -> admitted_call (is_gateway s) (is_principal s))) (s, w).
Proof.
  assert (Hsame : same_server (is_gateway s) (is_gateway s)) by (exists (gw_limiter (is_gateway s)); by destruct (is_gateway s)).
  unfold admitted, admitted_call. destruct (ow_store o) as [store|].
  - do 2 ing_step. destruct (is_principal s) as [p|] eqn:Hp.
    + ing_step. cbn [fst snd]. split_and!; try done. intros ->. eauto.
    + ing_step. by split_and!.
  - do 4 ing_step. destruct (take_token _ _) as [taken b] eqn:E. do 3 ing_step. cbn [fst snd].
    split_and!; try done; [by eexists|]. intros Ht. eexists. rewrite E. cbn. congruence.
Qed.

(** The one request a forwarding handler sends. *)
Definition forwarded_request (method : string) (body : option string) (s : ing_state) : upstream_request :=
  mkUpstream method (ir_path r) body (upstream_headers s body).

Lemma core_with_upstream q s s' : core s' = core s -> core (with_upstream q s') = core (with_upstream q s).
Proof. unfold core. cbn. intros H. congruence. Qed.

Lemma core_upstream s s' : core s' = core s -> is_upstream s' = is_upstream s.
Proof. unfold core. congruence. Qed.

Lemma exchange_upstream_ok method body s w :
  wp (exchange_upstream o r method body) (fun _ sw =>
    core (fst sw) = core s \/ core (fst sw) = core (with_upstream (forwarded_request method body s) s)) (s, w).
Proof.
  unfold exchange_upstream. do 2 ing_step. unfold id.
  apply wp_bind, (wp_fixes core); [fixes_steps|]. intros [?|?] s1 w1 H1; [|by left].
  apply wp_bind, (wp_fixes core); [fixes_steps|]. intros [?|?] s2 w2 H2; [|left; cbn; congruence].
  apply wp_bind, (wp_fixes core); [fixes_steps|]. intros [?|?] s3 w3 H3; [|left; cbn; congruence].
  do 2 ing_step. apply (wp_fixes core); [fixes_steps|]. intros x s4 w4 H4. right. cbn [fst]. rewrite H4.
  apply core_with_upstream. congruence.
Qed.

Lemma fixes_give_back slot : fixes is_upstream (give_back o slot).
Proof. unfold give_back, on_gateway. fixes_steps. Qed.
Lemma fixes_over_capacity : fixes core (over_capacity o r).
Proof. unfold over_capacity. fixes_steps. Qed.
Hint Resolve fixes_give_back fixes_over_capacity : c3r.

(** What forwarding adds to the upstream traffic: nothing, or one request. *)
Lemma forward_ok method body s w :
  wp (forward o r method body) (ends is_upstream (fun up =>
    up = is_upstream s \/ up = (is_upstream s ++ [forwarded_request method body s])%list)) (s, w).
Proof.
  unfold forward. do 2 ing_step. wp_step; [apply (wp_fixes is_upstream); [fixes_steps|by left]|].
  do 2 ing_step. wp_step; [apply (wp_fixes is_upstream); [unfold on_gateway; fixes_steps|by left]|].
  do 2 ing_step. set (s1 := with_gateway _ (with_gateway _ s)).
  assert (Hq : forwarded_request method body s1 = forwarded_request method body s).
  { unfold forwarded_request, upstream_headers. cbn. by destruct (route_slot_of (ir_path r)). }
  apply ends_bind; [|intros a; fixes_steps]. apply ends_finally; [|fixes_steps].
  apply ends_try; [|intros e; fixes_steps]. eapply wp_mono; [apply exchange_upstream_ok|].
  rewrite Hq. intros x [s2 w2] [H|H]; apply core_upstream in H; unfold ends; rewrite H; [by left|by right].
Qed.

(** The requests that may reach the service behind the proxy, with the only
    headers they carry. *)
Inductive may_forward (g : gateway) : upstream_request -> Prop :=
  | health_forwarded id :
      ir_command r = "GET" -> ir_path r = "/health" ->
      may_forward g (mkUpstream "GET" (ir_path r) None
        [("Authorization", "Bearer " ++ gw_upstream_token g); ("x-request-id", id)])
  | get_forwarded p id :
      ir_command r = "GET" -> ir_path r ∈ get_paths ->
      authenticated_call g p -> scoped_call p -> (present (ow_store o) = true -> admitted_call g p) ->
      may_forward g (mkUpstream "GET" (ir_path r) None
        [("Authorization", "Bearer " ++ gw_upstream_token g); ("x-request-id", id)])
  | post_forwarded p id body :
      ir_command r = "POST" -> ir_path r ∈ post_paths ->
      authenticated_call g p -> scoped_call p -> admitted_call g p ->
      header "Transfer-Encoding" r = None -> is_json_content r = true ->
      (1 <= announced_length r <= MAX_REQUEST_BYTES)%Z ->
      may_forward g (mkUpstream "POST" (ir_path r) (Some body)
        [("Authorization", "Bearer " ++ gw_upstream_token g); ("x-request-id", id);
         ("Content-Type", "application/json")]).

Definition gated (g : gateway) (up : list upstream_request) : Prop :=
  up = [] \/ exists q, up = [q] /\ may_forward g q.

Lemma scope_allowed_ok s : scope_allowed o r s = true -> scoped_call (is_principal s).
Proof.
  unfold scope_allowed, scoped_call. destruct (ow_store o); [|by left].
  destruct (is_principal s) as [p|]; [|done]. destruct (required_scope _) as [scope|]; [|done].
  intros H%bool_decide_eq_true. right. eauto.
Qed.

Lemma send_error_gated status code g s w :
  is_upstream s = [] -> wp (send_error o r status code) (ends is_upstream (gated g)) (s, w).
Proof. intros Hs. apply (wp_fixes is_upstream); [fixes_steps|]. intros x s1 w1 H. left. cbn. congruence. Qed.

(** A handler forwards as its gate allows. *)
Lemma forward_gated method body g s w :
  is_upstream s = [] -> may_forward g (forwarded_request method body s) ->
  wp (forward o r method body) (ends is_upstream (gated g)) (s, w).
Proof.
  intros Hs Hq. eapply wp_mono; [apply forward_ok|]. unfold ends, gated. rewrite Hs.
  intros _ sw [->| ->]; [by left|right; eauto].
Qed.

Lemma begin_request_ok s w :
  wp (begin_request o) (fun x sw => x = Ok tt /\ is_upstream (fst sw) = is_upstream s
    /\ is_gateway (fst sw) = is_gateway s) (s, w).
Proof. unfold begin_request. by repeat ing_step. Qed.

Lemma post_gated s w : ir_command r = "POST" -> is_upstream s = [] ->
  wp (ingress_post o r) (ends is_upstream (gated (is_gateway s))) (s, w).
Proof.
  intros Hc Hs. unfold ingress_post. apply wp_bind. eapply wp_mono; [apply begin_request_ok|].
  intros x [s1 w1] (-> & H1 & Hg1). cbn [fst] in *. rewrite Hs in H1.
  ing_step; [by apply send_error_gated|]. bool_hyps.
  apply wp_bind. eapply wp_mono; [apply authorized_ok|].
  intros [b|e] [s2 w2] (H2 & Hg2 & _ & Ha); cbn [fst] in *; [|left; cbn; congruence]. rewrite H1 in H2.
  destruct b; [|by apply send_error_gated]. specialize (Ha eq_refl). cbn [negb]. do 2 ing_step. unfold id.
  ing_step; [by apply send_error_gated|]. bool_hyps. apply scope_allowed_ok in Heqb0.
  ing_step; [by apply send_error_gated|]. ing_step; [by apply send_error_gated|]. bool_hyps.
  apply wp_bind. eapply wp_mono; [apply admitted_ok|].
  intros [b|e] [s3 w3] (H3 & Hp3 & _ & Hg3 & Had); cbn [fst] in *; [|left; cbn; congruence]. rewrite H2 in H3.
  destruct b; [|by apply send_error_gated]. specialize (Had eq_refl). cbn [negb].
  ing_step; [by apply send_error_gated|]. bool_hyps. do 2 ing_step. ing_step; [|by left].
  destruct Hg3 as [lim Hg3]. apply forward_gated; [done|]. unfold forwarded_request, upstream_headers.
  rewrite Hg3, Hg2, Hg1. cbn [gw_upstream_token gw_with_limiter present app].
  rewrite Hg1 in Ha. rewrite Hg2, Hg1 in Had.
  eapply post_forwarded; try done. by destruct (header "Transfer-Encoding" r).
Qed.

Lemma get_gated s w : ir_command r = "GET" -> is_upstream s = [] ->
  wp (ingress_get o r) (ends is_upstream (gated (is_gateway s))) (s, w).
Proof.
  intros Hc Hs. unfold ingress_get. apply wp_bind. eapply wp_mono; [apply begin_request_ok|].
  intros x [s1 w1] (-> & H1 & Hg1). cbn [fst] in *. rewrite Hs in H1.
  ing_step; [by apply send_error_gated|]. bool_hyps.
  destruct (String.eqb_spec (ir_path r) "/health") as [Hh|Hh]; cbn [negb andb].
  - do 2 ing_step. cbn [negb]. do 4 ing_step. cbn [negb].
    apply forward_gated; [done|]. unfold forwarded_request, upstream_headers. cbn [present app].
    rewrite Hg1. by apply health_forwarded.
  - apply wp_bind. eapply wp_mono; [apply authorized_ok|].
    intros [b|e] [s2 w2] (H2 & Hg2 & _ & Ha); cbn [fst] in *; [|left; cbn; congruence]. rewrite H1 in H2.
    destruct b; [|by apply send_error_gated]. specialize (Ha eq_refl). cbn [negb]. do 2 ing_step. unfold id.
    ing_step; [by apply send_error_gated|]. bool_hyps. apply scope_allowed_ok in Heqb0. rewrite Hg1 in Ha.
    assert (Hfwd : forall s3 w3, is_upstream s3 = [] -> gw_upstream_token (is_gateway s3) = gw_upstream_token (is_gateway s) ->
      (present (ow_store o) = true -> admitted_call (is_gateway s) (is_principal s2)) ->
      wp (forward o r "GET" None) (ends is_upstream (gated (is_gateway s))) (s3, w3)).
    { intros s3 w3 H3 Hg3 Had. apply forward_gated; [done|]. unfold forwarded_request, upstream_headers.
      cbn [present app]. rewrite Hg3. by eapply get_forwarded. }
    ing_step. destruct (present (ow_store o)) eqn:Hp.
    + eapply wp_mono; [apply admitted_ok|].
      intros [b|e] [s3 w3] (H3 & Hp3 & _ & [lim Hg3] & Had); cbn [fst] in *; [|left; cbn; congruence].
      rewrite H2 in H3. destruct b; [|by apply send_error_gated]. cbn [negb]. specialize (Had eq_refl).
      rewrite Hg2, Hg1 in *. apply Hfwd; [done| |done]. by rewrite Hg3.
    + ing_step. cbn [negb]. apply Hfwd; [done|congruence|done].
Qed.
End gate.

(** ** Replies and accounts *)

Definition is_head (x : wire) : bool := match x with Head _ _ => true | Bytes _ => false end.

(** No reply and no account yet. *)
Definition unanswered (s : ing_state) : Prop := is_wire s = [] /\ is_usage s = [].

(** One head, then bytes; at most one account, of the reply's own status or, for
    an event stream, of how it ended. *)
Definition answered (s : ing_state) : Prop :=
  exists status hs rest, is_wire s = Head status hs :: rest /\ Forall (fun x => is_head x = false) rest
  /\ (is_usage s = [] \/ is_usage s = [status]
      \/ hs = stream_headers (is_request_id s) /\ exists u, is_usage s = [u] /\ u ∈ [200; 499; 503]%Z).

(** No reply because the client has left. *)
Definition abandoned (s : ing_state) : Prop := is_wire s = [] /\ (is_usage s = [] \/ is_usage s = [499%Z]).

(** The handler's flag says whether its request was accounted. *)
Definition flagged (s : ing_state) : Prop :=
  if is_usage_recorded s then exists u, is_usage s = [u] else is_usage s = [].

(** A client that keeps reading, and a store whose accounting fails, when it
    does, with a database or operating system error. *)
Definition client_reads {W} (o : Outside W) : Prop := forall x w, exists w', ow_client o x w = (Ok tt, w').
Definition store_fails_cleanly {W} (o : Outside W) : Prop :=
  forall store p id u w e w', ow_store o = Some store -> as_record_usage store p id u w = (Raise e, w') ->
  caught_by store_errors (exn_class e) = true.

Section answers.
Context {W : Type} (o : Outside W) (r : ingress_request).
Context (Hclient : client_reads o) (Hrecord : store_fails_cleanly o).

Lemma wp_to_client x (Q : result unit -> ing_state * W -> Prop) s w :
  (forall w', Q (Ok tt) (with_wire x s, w')) -> wp (to_client o x) Q (s, w).
Proof.
  intros HQ. unfold to_client. do 2 ing_step. apply wp_beside. intros c w' E.
  destruct (Hclient x w) as [w1 E']. rewrite E' in E. injection E as <- <-. apply HQ.
Qed.

Lemma wp_record status decoded (Q : result unit -> ing_state * W -> Prop) s w :
  flagged s ->
  (forall s' w', s' = s \/ s' = with_usage status s /\ is_usage s = [] -> Q (Ok tt) (s', w')) ->
  (forall e w', caught_by store_errors (exn_class e) = true -> is_usage s = [] -> Q (Raise e) (s, w')) ->
  wp (record_request o r status decoded) Q (s, w).
Proof.
  intros Hf Hok Hraise. unfold record_request. do 2 ing_step. unfold id.
  destruct (ow_store o) as [store|] eqn:Hst; [|apply wp_ret, Hok; by left].
  destruct (is_principal s) as [p|]; [|apply wp_ret, Hok; by left].
  unfold flagged in Hf. destruct (is_usage_recorded s); [apply wp_ret, Hok; by left|].
  do 3 ing_step. apply wp_beside. intros [[]|e] w2 E.
  - ing_step. apply Hok; by right.
  - eapply Hraise; [by eapply Hrecord|done].
Qed.

(** A refusal answers the request, with the status it accounts. *)
Lemma send_error_answers status code s w :
  is_wire s = [] -> flagged s -> is_usage s = [] \/ is_usage s = [status] ->
  wp (send_error o r status code) (fun x sw => x = Ok tt /\ answered (fst sw)) (s, w).
Proof.
  intros Hw Hf Hu. unfold send_error.
  assert (Hend : forall st code s1 w1, is_wire s1 = [] -> is_usage s1 = [] \/ is_usage s1 = [st] ->
    wp (id ← reading is_request_id;
        _ ← to_client o (Head st (document_headers id (print error_options (error_document o id st code))));
        if String.eqb (ir_command r) "HEAD" then mret tt
        else to_client o (Bytes (print error_options (error_document o id st code))))
      (fun x sw => x = Ok tt /\ answered (fst sw)) (s1, w1)).
  { intros st c s1 w1 Hw1 Hu1. do 2 ing_step. ing_step. apply wp_to_client. intros w2.
    ing_step; [ing_step|apply wp_to_client; intros w3]; (split; [done|]); eexists st, _, _;
      (split; [cbn; by rewrite Hw1|]); (split; [by repeat constructor|]); cbn; tauto. }
  ing_step. ing_step. ing_step. apply wp_record; [done| |].
  - intros s' w' [->|[-> Hn]]; cbn beta iota; ing_step; cbn beta iota; apply Hend; try done.
    right. cbn. by rewrite Hn.
  - intros e w' He Hn. cbn beta iota. rewrite He. ing_step. cbn beta iota. apply Hend; [done|by left].
Qed.
(** An event stream under way. *)
Definition streaming (s : ing_state) : Prop :=
  flagged s /\ exists rest, is_wire s = Head 200 (stream_headers (is_request_id s)) :: rest
  /\ Forall (fun x => is_head x = false) rest
  /\ (is_usage s = [] \/ exists u, is_usage s = [u] /\ u ∈ [200; 499; 503]%Z).

Lemma streaming_answered s : streaming s -> answered s.
Proof. intros (_ & rest & Hw & Hr & Hu). exists 200%Z, (stream_headers (is_request_id s)), rest. tauto. Qed.

Lemma streaming_bytes b s : streaming s -> streaming (with_wire (Bytes b) s).
Proof.
  intros (Hf & rest & Hw & Hr & Hu). split; [done|]. exists (rest ++ [Bytes b])%list.
  cbn. rewrite Hw. split; [done|]. split; [|done]. apply Forall_app. by split; [|constructor].
Qed.

Lemma streaming_usage u s : streaming s -> is_usage s = [] -> u ∈ [200; 499; 503]%Z -> streaming (with_usage u s).
Proof.
  intros (Hf & rest & Hw & Hr & Hu) Hn Hin. split; [exists u; cbn; by rewrite Hn|]. exists rest.
  split_and!; try done. right. exists u. cbn. by rewrite Hn.
Qed.

Lemma record_streaming status decoded s w :
  streaming s -> status ∈ [200; 499; 503]%Z ->
  wp (record_request o r status decoded)
    (fun x sw => streaming (fst sw)
       /\ match x with Ok _ => True | Raise e => caught_by store_errors (exn_class e) = true end) (s, w).
Proof.
  intros Hs Hin. pose proof Hs as [Hf _]. apply wp_record; [done| |by intros].
  intros s' w' [->|[-> Hn]]; (split; [|done]); [done|by apply streaming_usage].
Qed.

Lemma forward_event_streaming frame s w :
  streaming s -> wp (forward_event o r frame) (fun _ sw => streaming (fst sw)) (s, w).
Proof.
  intros Hs. unfold forward_event. do 2 ing_step. destruct (ow_loads o _) as [event|e]; [|done].
  destruct event; try by apply wp_lift. destruct (assoc "type" kvs) as [[]|]; try by apply wp_lift.
  apply wp_bind. eapply (wp_mono _ (fun _ sw => streaming (fst sw))).
  - destruct (bool_decide _); [|by apply wp_ret]. apply wp_bind. eapply wp_mono.
    + apply record_streaming; [done|]. destruct (String.eqb _ _); set_solver.
    + intros [x|e] [s1 w1] [H1 _]; [|done]. by ing_step.
  - intros [x|e] [s1 w1] H1; [|done]. apply wp_to_client. intros w2. by apply streaming_bytes.
Qed.

Lemma stream_loop_streaming fuel deadline frame total s w :
  streaming s -> wp (stream_loop o r fuel deadline frame total) (fun _ sw => streaming (fst sw)) (s, w).
Proof.
  revert frame total s w; induction fuel as [|fuel IH]; intros frame total s w Hs; cbn [stream_loop]; [done|].
  do 2 ing_step. ing_step; [by ing_step|]. apply wp_bind, wp_beside. intros [line|e] w1 _; [|done].
  ing_step; [by ing_step|]. ing_step; [by ing_step|]. ing_step; [by apply IH|].
  apply wp_bind. eapply wp_mono; [by apply forward_event_streaming|]. intros [x|e] [s2 w2] H2; [|done].
  do 2 ing_step. destruct (is_terminal s2); [by ing_step|by apply IH].
Qed.

(** A stream that started is an answer, and none of the errors [_forward] handles
    leaves it. *)
Lemma forward_stream_answers s w :
  unanswered s -> flagged s ->
  wp (forward_stream o r) (fun x sw => answered (fst sw)
    /\ match x with Ok _ => True | Raise e => caught_by forward_errors (exn_class e) = false end) (s, w).
Proof.
  intros [Hw Hu] Hf. unfold forward_stream. do 2 ing_step. apply wp_bind, wp_to_client. intros w1.
  do 4 ing_step. set (s1 := with_terminal false _).
  assert (H1 : streaming s1).
  { split; [done|]. exists []. cbn. rewrite Hw. split_and!; [done|constructor|by left]. }
  ing_step. eapply wp_mono; [by apply stream_loop_streaming|]. intros [x|e] [s2 w2] H2.
  { by split; [apply streaming_answered|]. }
  destruct (caught_by _ (exn_class e)) eqn:He.
  - do 2 ing_step. destruct (is_terminal s2); [ing_step; by split; [apply streaming_answered|]|].
    ing_step. apply wp_bind. unfold wp at 1, disconnected. cbn [fst snd].
    apply wp_bind. eapply wp_mono; [apply record_streaming; [done|destruct (ow_disconnected o w2); set_solver]|].
    intros [y|e'] [s3 w3] [H3 Hc].
    + apply wp_to_client. intros w4. split; [|done]. by apply streaming_answered, streaming_bytes.
    + rewrite Hc. ing_step. by split; [apply streaming_answered|].
  - split; [by apply streaming_answered|]. revert He. unfold caught_by, forward_errors. cbn [existsb].
    rewrite !orb_false_iff. tauto.
Qed.
(** The [try] block leaves a reply, a document still to write with the account
    it has, or an error before any of them. *)
Definition exchanged (x : result (option (Z * string))) (s : ing_state) : Prop :=
  match x with
  | Ok None => answered s
  | Ok (Some (status, _)) => is_wire s = [] /\ (is_usage s = [] \/ is_usage s = [status])
  | Raise e => if caught_by forward_errors (exn_class e) then unanswered s /\ flagged s
               else answered s \/ unanswered s
  end.

Lemma exchanged_early e s : unanswered s -> flagged s -> exchanged (Raise e) s.
Proof. intros. unfold exchanged. destruct (caught_by forward_errors (exn_class e)); [by split|by right]. Qed.

Lemma exchange_answers method body s w :
  unanswered s -> flagged s ->
  wp (exchange_upstream o r method body) (fun x sw => exchanged x (fst sw)) (s, w).
Proof.
  intros Hs Hf. unfold exchange_upstream. do 2 ing_step.
  apply wp_bind. apply wp_mono with (Q := fun x sw => fst sw = s).
  { destruct (ow_store o); [destruct (is_principal _)|]; try by apply wp_ret. by apply wp_beside. }
  intros [u|e] [s1 w1]; cbn [fst]; intros ->; [|by apply exchanged_early].
  apply wp_bind, wp_beside. intros [u1|e] w2 _; [|by apply exchanged_early].
  apply wp_bind, wp_beside. intros [u2|e] w3 _; [|by apply exchanged_early].
  do 2 ing_step. set (s2 := with_upstream _ s).
  assert (Hs2 : unanswered s2) by done. assert (Hf2 : flagged s2) by done.
  apply wp_bind, wp_beside. intros [u3|e] w4 _; [|by apply exchanged_early].
  apply wp_bind, wp_beside. intros [h|e] w5 _; [|by apply exchanged_early].
  ing_step.
  - ing_step; [ing_step; by apply exchanged_early|]. ing_step. eapply wp_mono; [by apply forward_stream_answers|].
    intros [x|e] [s3 w6] [Ha He]; [by ing_step|]. cbn [fst exchanged]. rewrite He. by left.
  - apply wp_bind, wp_beside. intros [fwd|e] w6 _; [|by apply exchanged_early].
    destruct Hs2 as [Hw2 Hu2]. ing_step.
    + ing_step. eapply wp_mono; [apply send_error_answers; auto|]. intros x [s3 w7] [-> Ha]. by ing_step.
    + do 2 ing_step. destruct (ow_loads o fwd) as [decoded|e]; [|by apply exchanged_early].
      destruct decoded; try (ing_step; by apply exchanged_early). ing_step; [ing_step; by apply exchanged_early|].
      ing_step. apply wp_record; [done| |].
      * intros s3 w7 H3.
        assert (H3' : is_wire s3 = [] /\ flagged s3 /\ (is_usage s3 = [] \/ is_usage s3 = [uh_status h])).
        { destruct H3 as [->|[-> Hn]]; [by split_and!; [| |left]|]. pose proof (Hn : is_usage s = []) as Hn'.
          split_and!; [done|exists (uh_status h)|right]; cbn; by rewrite Hn'. }
        destruct H3' as (Hw3 & Hf3 & Hu3). ing_step; [|by ing_step].
        ing_step. eapply wp_mono; [by apply send_error_answers|]. intros x [s4 w8] [-> Ha]. by ing_step.
      * intros e w7 He _. by apply exchanged_early.
Qed.

(** What a handler may leave when it returns. *)
Definition replied (s : ing_state) : Prop :=
  answered s \/ abandoned s /\ exists w, ow_disconnected o w = true.

Definition exchange_ended (x : result (option (Z * string))) (s : ing_state) : Prop :=
  match x with
  | Ok None => replied s
  | Ok (Some (status, _)) => is_wire s = [] /\ (is_usage s = [] \/ is_usage s = [status])
  | Raise e => caught_by forward_errors (exn_class e) = false /\ (answered s \/ unanswered s)
  end.

Lemma exchange_failed_answers e s w :
  unanswered s -> flagged s ->
  wp (exchange_failed o r e) (fun x sw => exchange_ended x (fst sw)) (s, w).
Proof.
  intros [Hw Hu] Hf. unfold exchange_failed. apply wp_bind. unfold wp at 1, disconnected. cbn [fst snd].
  destruct (ow_disconnected o w) eqn:Hd.
  - ing_step. ing_step. apply wp_record; [done| |].
    + intros s1 w1 H1. ing_step. right. split; [|by exists w].
      destruct H1 as [->|[-> Hn]]; (split; [done|]); [by left|right; cbn; by rewrite Hn].
    + intros e' w1 He _. rewrite He. do 2 ing_step. right. split; [|by exists w]. by split; [|left].
  - ing_step. eapply wp_mono; [apply send_error_answers; auto|]. intros x [s1 w1] [-> Ha]. ing_step. by left.
Qed.

Lemma caught_twice e : caught_by forward_errors (exn_class e) = false ->
  caught_by [SqliteError; OSError] (exn_class e) = false.
Proof. unfold caught_by, forward_errors. cbn [existsb]. rewrite !orb_false_iff. tauto. Qed.

(** The outcomes of a handler before [do_GET] and [do_POST] add their refusal. *)
Definition handled (x : result unit) (s : ing_state) : Prop :=
  match x with
  | Ok _ => replied s
  | Raise e => if caught_by [SqliteError; OSError] (exn_class e) then unanswered s /\ flagged s
               else answered s \/ unanswered s
  end.
Context (Hclose : forall w, exists w', ow_close o w = (Ok tt, w')).

Lemma wp_give_back slot (Q : result unit -> ing_state * W -> Prop) s w :
  (forall w', Q (Ok tt) (with_gateway (gw_add_slot 1 slot (gw_add_in_flight 1 (is_gateway s))) s, w')) ->
  wp (give_back o slot) Q (s, w).
Proof.
  intros HQ. unfold give_back. apply wp_bind, wp_calling. intros u w1 _. apply wp_bind, wp_beside. intros c w2 E.
  destruct (Hclose w1) as [w3 E']. rewrite E' in E. injection E as <- <-. do 3 ing_step. apply HQ.
Qed.

Lemma over_capacity_answers s w : unanswered s -> flagged s ->
  wp (over_capacity o r) (fun x sw => handled x (fst sw)) (s, w).
Proof.
  intros [Hw Hu] Hf. unfold over_capacity. eapply wp_mono; [apply send_error_answers; auto|].
  intros x [s1 w1] [-> Ha]. by left.
Qed.

Lemma forward_answers method body s w :
  unanswered s -> flagged s ->
  wp (forward o r method body) (fun x sw => handled x (fst sw)) (s, w).
Proof.
  intros Hs Hf. unfold forward. do 2 ing_step. wp_step; [by apply over_capacity_answers|].
  do 2 ing_step. wp_step; [do 2 ing_step; by apply over_capacity_answers|].
  do 3 ing_step. apply wp_finally, wp_try.
  set (s1 := with_gateway _ (with_gateway _ s)).
  eapply wp_mono; [apply (exchange_answers method body s1); done|]. intros x [s2 w2] H2. cbn [fst] in H2.
  assert (Hend : forall x s3 w3, exchange_ended x s3 ->
    wp (give_back o (route_slot_of (ir_path r))) (fun r' sw =>
      match r' with
      | Ok _ => match x with
                | Ok a => wp (match a with
                              | None => mret tt
                              | Some (status, forwarded) =>
                                  id ← reading is_request_id;
                                  _ ← to_client o (Head status (document_headers id forwarded));
                                  to_client o (Bytes forwarded)
                              end) (fun x sw => handled x (fst sw)) sw
                | Raise e => handled (Raise e) (fst sw)
                end
      | Raise e => handled (Raise e) (fst sw)
      end) (s3, w3)).
  { intros [[[status fwd]|]|e] s3 w3 H3; apply wp_give_back; intros w4.
    - destruct H3 as [Hw Hu]. do 2 ing_step. apply wp_bind, wp_to_client. intros w5. apply wp_to_client. intros w6.
      left. exists status, (document_headers (is_request_id s3) fwd), [Bytes fwd]. cbn. rewrite Hw.
      split_and!; [done|by repeat constructor|tauto].
    - by ing_step.
    - destruct H3 as [He H3]. cbn [fst]. unfold handled. by rewrite (caught_twice e He). }
  destruct x as [[[status fwd]|]|e].
  - exact (Hend (Ok (Some (status, fwd))) s2 w2 H2).
  - apply (Hend (Ok None)). by left.
  - cbn [exchanged] in H2. destruct (caught_by forward_errors (exn_class e)) eqn:He;
      [|apply (Hend (Raise e)); by split].
    destruct H2 as [H2 Hf2]. eapply wp_mono; [by apply exchange_failed_answers|].
    intros y [s3 w3] H3. pose proof (Hend y s3 w3 H3) as Hy. destruct y as [[[status fwd]|]|e']; exact Hy.
Qed.
(** What the gate leaves untouched. *)
Definition logs (s : ing_state) : list wire * list Z * bool := (is_wire s, is_usage s, is_usage_recorded s).

Definition untouched (s : ing_state) : Prop := unanswered s /\ flagged s.

Lemma untouched_logs s s' : logs s' = logs s -> untouched s -> untouched s'.
Proof. unfold logs, untouched, unanswered, flagged. intros [= -> -> ->]. done. Qed.

Lemma fixes_gate : fixes logs (authorized o r) /\ fixes logs (admitted o).
Proof. split; [unfold authorized|unfold admitted]; fixes_steps. Qed.

Lemma refusal status code s w : untouched s ->
  wp (send_error o r status code) (fun x sw => handled x (fst sw)) (s, w).
Proof.
  intros [[Hw Hu] Hf]. eapply wp_mono; [apply send_error_answers; auto|]. intros x [s1 w1] [-> Ha]. by left.
Qed.

Lemma escape e s : untouched s -> handled (Raise e) s.
Proof. intros [? ?]. unfold handled. destruct (caught_by _ (exn_class e)); [done|by right]. Qed.

Lemma gate_step {A} (m : ing W A) (k : A -> ing W unit) s w :
  fixes logs m -> untouched s ->
  (forall a s' w', untouched s' -> wp (k a) (fun x sw => handled x (fst sw)) (s', w')) ->
  wp (m ≫= k) (fun x sw => handled x (fst sw)) (s, w).
Proof.
  intros Hm Hs Hk. apply wp_bind, (wp_fixes logs); [done|]. intros [a|e] s' w' H;
    pose proof (untouched_logs _ _ H Hs); [by apply Hk|by apply escape].
Qed.

Lemma post_answers s w : unanswered s -> wp (ingress_post o r) (fun x sw => handled x (fst sw)) (s, w).
Proof.
  intros Hs. destruct fixes_gate as [Ha Hd]. unfold ingress_post, begin_request.
  do 6 ing_step. set (s1 := with_request _ _ s).
  assert (H1 : untouched s1) by (destruct Hs as [Hw Hu]; by repeat split). ing_step; [by apply refusal|].
  apply gate_step; [done..|]. intros b s2 w2 H2. ing_step; [by apply refusal|].
  do 2 ing_step. do 3 (ing_step; [by apply refusal|]).
  apply gate_step; [done..|]. intros b' s3 w3 H3. do 2 (ing_step; [by apply refusal|]).
  apply gate_step; [fixes_steps|done|]. intros body s4 w4 [H4 Hf4]. by apply forward_answers.
Qed.

Lemma get_answers s w : unanswered s -> wp (ingress_get o r) (fun x sw => handled x (fst sw)) (s, w).
Proof.
  intros Hs. destruct fixes_gate as [Ha Hd]. unfold ingress_get, begin_request.
  do 6 ing_step. set (s1 := with_request _ _ s).
  assert (H1 : untouched s1) by (destruct Hs as [Hw Hu]; by repeat split). ing_step; [by apply refusal|].
  apply gate_step; [fixes_steps|done|]. intros b s2 w2 H2. ing_step; [by apply refusal|].
  do 2 ing_step. ing_step; [by apply refusal|].
  apply gate_step; [fixes_steps|done|]. intros b' s3 w3 [H3 Hf3]. ing_step; [by apply refusal|].
  by apply forward_answers.
Qed.

(** The outcomes of a whole request. *)
Definition concluded (x : result unit) (s : ing_state) : Prop :=
  match x with Ok _ => replied s | Raise _ => answered s \/ unanswered s end.

Lemma guarded_answers m s w :
  wp m (fun x sw => handled x (fst sw)) (s, w) ->
  wp (guarded_handler o r m) (fun x sw => concluded x (fst sw)) (s, w).
Proof.
  intros Hm. apply wp_try. eapply wp_mono; [apply Hm|]. intros [x|e] [s1 w1] H1; [done|].
  cbn [fst handled] in H1. destruct (caught_by _ (exn_class e)); [|done].
  destruct H1 as [[Hw Hu] Hf]. eapply wp_mono; [apply send_error_answers; auto|].
  intros x [s2 w2] [-> Ha]. by left.
Qed.

Lemma handle_answers s w : unanswered s ->
  wp (ingress_handle o r) (fun x sw => concluded x (fst sw)) (s, w).
Proof.
  intros Hs. unfold ingress_handle. ing_step; [by apply guarded_answers, get_answers|].
  ing_step; [by apply guarded_answers, post_answers|]. unfold refuse_malformed, begin_request. do 6 ing_step.
  destruct Hs as [Hw Hu]. eapply wp_mono; [apply send_error_answers; by auto|].
  intros x [s2 w2] [-> Ha]. by left.
Qed.
End answers.

(** ** Capacity *)

(** Free connections, requests in flight and route slots. *)
Definition capacity (s : ing_state) : Z * Z * slots :=
  (gw_connections (is_gateway s), gw_in_flight (is_gateway s), gw_slots (is_gateway s)).

Lemma fixes_capacity {W A} (m : ing W A) : fixes is_gateway m -> fixes capacity m.
Proof. apply fixes_sub. unfold capacity. congruence. Qed.
#[export] Hint Resolve fixes_capacity : c3r.

Lemma slot_add_back k s : slot_add 1 k (slot_add (-1) k s) = s.
Proof. destruct s, k; cbn; f_equal; lia. Qed.

Lemma capacity_back slot s :
  capacity (with_gateway (gw_add_slot 1 slot (gw_add_slot (-1) slot (is_gateway s))) s) = capacity s.
Proof. destruct slot as [k|]; [|done]. unfold capacity. cbn. by rewrite slot_add_back. Qed.

Section capacity.
Context {W : Type} (o : Outside W) (r : ingress_request).
Context (Hclose : forall w, exists w', ow_close o w = (Ok tt, w')).

Lemma forward_capacity method body : fixes capacity (forward o r method body).
Proof.
  intros s w. change (wp (forward o r method body) (ends capacity (fun c => c = capacity s)) (s, w)).
  unfold forward. do 2 ing_step. set (slot := route_slot_of (ir_path r)).
  wp_step; [apply (wp_fixes capacity); [fixes_steps|by intros]|].
  do 2 ing_step. wp_step.
  { do 2 ing_step. apply (wp_fixes capacity); [fixes_steps|]. unfold ends. cbn [fst]. intros x s1 w1 ->.
    exact (capacity_back slot s). }
  do 2 ing_step. apply ends_bind; [|intros a; fixes_steps]. apply wp_finally.
  apply (wp_fixes is_gateway).
  { apply fixes_try; [unfold exchange_upstream; fixes_steps|intros e; fixes_steps]. }
  intros x s1 w1 H1. apply (wp_give_back o Hclose). intros w2. unfold ends. cbn [fst]. rewrite H1.
  transitivity (capacity (with_gateway (gw_add_slot 1 slot (gw_add_slot (-1) slot (is_gateway s))) s));
    [|apply capacity_back].
  unfold capacity. destruct slot; cbn; repeat f_equal; lia.
Qed.
Hint Resolve forward_capacity : c3r.

Lemma handle_capacity : fixes capacity (ingress_handle o r).
Proof.
  unfold ingress_handle, ingress_do_GET, ingress_do_POST, guarded_handler, ingress_get, ingress_post,
    refuse_malformed, begin_request, authorized, admitted. fixes_steps.
Qed.
End capacity.

(** ** Streams *)

Section streams.
Context {W : Type} (o : Outside W) (r : ingress_request).

(** A whole event of a type. *)
Definition event_frame (ty f : string) : Prop :=
  (len f <= MAX_RESPONSE_BYTES)%Z
  /\ exists kvs, ow_loads o (frame_data f) = Ok (JObj kvs) /\ assoc "type" kvs = Some (JStr ty).

Definition terminal_type (ty : string) : bool := bool_decide (ty ∈ ["response.completed"; "response.failed"]).

Lemma nonempty_len line : nonempty line = true -> (1 <= len line)%Z.
Proof. destruct line as [|c t]; [done|]. intros _. pose proof (len_nonneg t). unfold len in *. cbn. lia. Qed.

(** Enough fuel is as good as any. *)
Lemma stream_loop_fuel fuel n deadline frame total sw :
  (0 <= total <= MAX_STREAM_BYTES)%Z -> (MAX_STREAM_BYTES + 1 - total < Z.of_nat fuel)%Z ->
  stream_loop o r (fuel + n) deadline frame total sw = stream_loop o r fuel deadline frame total sw.
Proof.
  revert frame total sw; induction fuel as [|fuel IH]; intros frame total sw Ht Hf; [lia|].
  cbn [Nat.add stream_loop]. unfold mbind, io_bind. destruct sw as [s w]. unfold calling.
  destruct (ow_monotonic o w) as [now w1]. destruct (negb (flt now deadline)); [done|]. unfold beside.
  destruct (ow_readline o _ w1) as [[line|e] w2]; [|done].
  destruct (negb (nonempty line)) eqn:Hl; [done|]. apply negb_false_iff, nonempty_len in Hl.
  destruct (_ || _) eqn:Hb; [done|]. bool_hyps. destruct (negb (is_newline line)); [apply IH; lia|].
  destruct (forward_event o r _ _) as [[u|e] sw3]; [|done]. destruct (reading is_terminal sw3) as [[[]|e] sw4]; [done| |done].
  apply IH; lia.
Qed.

Lemma wp_wire x (Q : result unit -> ing_state * W -> Prop) s w :
  (forall y w', Q y (with_wire x s, w')) -> wp (to_client o x) Q (s, w).
Proof. intros HQ. unfold to_client. do 2 ing_step. apply wp_beside. auto. Qed.

Lemma forward_event_wire frame s w : (len frame <= MAX_RESPONSE_BYTES)%Z ->
  wp (forward_event o r frame) (fun x sw =>
    is_wire (fst sw) = is_wire s /\ is_terminal (fst sw) = is_terminal s /\ (exists e, x = Raise e)
    \/ exists ty, event_frame ty frame /\ is_wire (fst sw) = (is_wire s ++ [Bytes frame])%list
         /\ (terminal_type ty = true -> is_terminal (fst sw) = true)
         /\ (terminal_type ty = false -> is_terminal (fst sw) = is_terminal s)) (s, w).
Proof.
  intros Hlen. unfold forward_event. do 2 ing_step. destruct (ow_loads o _) as [event|e] eqn:El; [|by left; eauto].
  destruct event; try (apply wp_lift; left; eauto). destruct (assoc "type" kvs) as [[]|] eqn:Et;
    try (apply wp_lift; left; eauto).
  assert (Hfr : event_frame s0 frame) by (split; eauto). fold (terminal_type s0). apply wp_bind.
  destruct (terminal_type s0) eqn:Hty.
  - ing_step. apply (wp_fixes (fun s => (is_wire s, is_terminal s))); [unfold record_request; fixes_steps|].
    intros [u|e] s1 w1 [= H1 Ht1].
    + ing_step. apply wp_wire. intros y w2. right. exists s0. cbn. rewrite H1. split_and!; try done. congruence.
    + left. cbn. eauto.
  - ing_step. apply wp_wire. intros y w2. right. exists s0. cbn. split_and!; try done. congruence.
Qed.

(** Only the last event may be a terminal one; [ended] says that it is. *)
Definition event_run (frames : list string) (ended : bool) : Prop :=
  exists rest, Forall (fun f => exists ty, event_frame ty f /\ terminal_type ty = false) rest
  /\ if ended then exists f ty, frames = (rest ++ [f])%list /\ event_frame ty f /\ terminal_type ty = true
     else frames = rest.

Lemma event_run_cons f ty frames b : event_frame ty f -> terminal_type ty = false ->
  event_run frames b -> event_run (f :: frames) b.
Proof.
  intros Hf Ht (rest & Hr & H). exists (f :: rest). split; [constructor; eauto|].
  destruct b; [|by f_equal]. destruct H as (g & u & -> & Hg & Hu). by exists g, u.
Qed.

Lemma event_run_one f ty : event_frame ty f -> event_run [f] (terminal_type ty).
Proof.
  intros Hf. destruct (terminal_type ty) eqn:Ht.
  - exists []. split; [constructor|]. by exists f, ty.
  - exists [f]. split; [constructor; eauto|done].
Qed.

(** What a loop relayed. *)
Definition relayed (limit : Z) (s : ing_state) (x : result unit) (s' : ing_state) : Prop :=
  exists frames, is_wire s' = (is_wire s ++ map Bytes frames)%list
  /\ event_run frames (is_terminal s') /\ (sumZ (map len frames) <= limit)%Z
  /\ (x = Ok tt -> is_terminal s' = true).

Lemma relayed_nothing limit s s' e :
  (0 <= limit)%Z -> is_wire s' = is_wire s -> is_terminal s' = false -> relayed limit s (Raise e) s'.
Proof.
  intros Hl Hw Ht. exists []. cbn. rewrite app_nil_r, Ht. split_and!; [done| |done|done].
  exists []. split; [constructor|done].
Qed.

Lemma stream_loop_frames fuel deadline frame total s w :
  is_terminal s = false -> (total <= MAX_STREAM_BYTES)%Z ->
  wp (stream_loop o r fuel deadline frame total) (fun x sw =>
    relayed (len frame + (MAX_STREAM_BYTES - total)) s x (fst sw)) (s, w).
Proof.
  revert frame total s w; induction fuel as [|fuel IH]; intros frame total s w Ht Htot;
    pose proof (len_nonneg frame) as Hl0;
    (assert (Hnone : forall e, relayed (len frame + (MAX_STREAM_BYTES - total)) s (Raise e) s)
       by (intros e; apply relayed_nothing; [lia|done..])); cbn [stream_loop]; [apply wp_lift, Hnone|].
  do 2 ing_step. ing_step; [apply wp_lift, Hnone|]. apply wp_bind, wp_beside. intros [line|e] w1 _; [|apply Hnone].
  ing_step; [apply wp_lift, Hnone|]. ing_step; [apply wp_lift, Hnone|]. bool_hyps.
  pose proof (len_app frame line) as Hlen. pose proof (len_nonneg line) as Hl1. ing_step.
  - eapply wp_mono; [by apply IH|]. intros x [s1 w2] (frames & Hw & Hr & Hs & Hx). exists frames.
    split_and!; [done..|lia|done].
  - apply wp_bind. eapply wp_mono; [by apply forward_event_wire|].
    intros x [s1 w2] [(Hw & Ht1 & [e ->])|(ty & Hty & Hw & Ht1 & Ht2)]; cbn [fst] in *.
    { apply relayed_nothing; [lia|done|congruence]. }
    assert (Hk : is_terminal s1 = terminal_type ty) by (destruct (terminal_type ty); [auto|rewrite Ht2 by done; done]).
    destruct x as [u|e].
    + do 2 ing_step. destruct (is_terminal s1) eqn:Hs1.
      * ing_step. exists [frame ++ line]. cbn. rewrite Hw, Hs1, Hk. split_and!; [done|by apply event_run_one|lia|done].
      * eapply wp_mono; [apply IH; [done|lia]|]. intros x [s2 w3] (frames & Hw2 & Hr & Hs & Hx).
        exists ((frame ++ line) :: frames). cbn [fst] in *. rewrite Hw2, Hw, <- app_assoc.
        split_and!; [done|by eapply event_run_cons| |done].
        change (len "") with 0%Z in Hs. unfold sumZ in *. cbn [map fold_right]. lia.
    + exists [frame ++ line]. cbn. rewrite Hw, Hk. split_and!; [done|by apply event_run_one|lia|done].
Qed.
End streams.

(** ** The theorems *)

(** C10: Nothing reaches the service behind the proxy but one request, and only
    through the gate.  Whatever the caller sends and whatever fails, a handler
    sends upstream nothing, or a single request whose headers are the service's
    own token, the request id and the content type, never a header of the
    caller; a POST only for a known path, from a caller that proved its identity
    with the shared token or a key the store accepted, whose key has the route's
    scope, with quota left, a JSON content type, no transfer encoding and a
    length within bounds; a GET only for a known path, under the same
    authentication and scope, "/health" excepted. *)
Theorem forwarding_is_gated {W} (o : Outside W) (r : ingress_request) s w
    (Hs : is_upstream s = []) :
  let '(_, (s', _)) := ingress_handle o r (s, w) in
  is_upstream s' = [] \/ exists q, is_upstream s' = [q] /\ may_forward o r (is_gateway s) q.
Proof.
  cut (wp (ingress_handle o r) (ends is_upstream (gated o r (is_gateway s))) (s, w)).
  { unfold wp, ends, gated. by destruct (ingress_handle o r (s, w)) as [x [s' w']]. }
  unfold ingress_handle, ingress_do_GET, ingress_do_POST, guarded_handler.
  destruct (String.eqb_spec (ir_command r) "GET"); [|destruct (String.eqb_spec (ir_command r) "POST")].
  - apply ends_try; [by apply get_gated|]. intros e'. fixes_steps.
  - apply ends_try; [by apply post_gated|]. intros e'. fixes_steps.
  - apply (wp_fixes is_upstream); [|intros x s' w' H; left; cbn; congruence].
    unfold refuse_malformed, begin_request. fixes_steps.
Qed.


(** C18: An upstream event stream is relayed within bounds and never runs on.
    Whatever the upstream sends and whenever the client or the store fails, what
    the client gets is one head, whole decoded events of at most 65,536 bytes
    and 2,097,152 bytes in all, of which only the last is terminal, and after a
    stream without a terminal event at most the event that reports its failure.
    The loop ends by itself: any more fuel gives the same run. *)
Theorem relayed_stream_is_bounded {W} (o : Outside W) (r : ingress_request) s w :
  (let '(_, (s', _)) := forward_stream o r (s, w) in
   exists frames tail ended,
     is_wire s' = (is_wire s ++ Head 200 (stream_headers (is_request_id s)) :: map Bytes frames ++ tail)%list
     /\ event_run o frames ended /\ (sumZ (map len frames) <= MAX_STREAM_BYTES)%Z
     /\ (tail = [] \/ ended = false /\ tail = [Bytes failure_event]))
  /\ forall n deadline sw,
       stream_loop o r (STREAM_FUEL + n) deadline "" 0 sw = stream_loop o r STREAM_FUEL deadline "" 0 sw.
Proof.
  split.
  - cut (wp (forward_stream o r) (fun _ sw => exists frames tail ended,
      is_wire (fst sw) = (is_wire s ++ Head 200 (stream_headers (is_request_id s)) :: map Bytes frames ++ tail)%list
      /\ event_run o frames ended /\ (sumZ (map len frames) <= MAX_STREAM_BYTES)%Z
      /\ (tail = [] \/ ended = false /\ tail = [Bytes failure_event])) (s, w)).
    { unfold wp. by destruct (forward_stream o r (s, w)) as [x [s' w']]. }
    unfold forward_stream. do 2 ing_step. apply wp_bind, wp_wire. intros [u|e] w1.
    2: { exists [], [], false. cbn. split_and!; [done|by exists []|done|by left]. }
    do 4 ing_step. set (s1 := with_terminal false _). ing_step.
    eapply wp_mono; [by apply stream_loop_frames|].
    intros x [s2 w2] (frames & Hw & Hr & Hs & Hx). cbn [fst] in *.
    change (len "" + (MAX_STREAM_BYTES - 0))%Z with MAX_STREAM_BYTES in Hs.
    assert (Hend : forall s3 tail, is_wire s3 = (is_wire s2 ++ tail)%list ->
      tail = [] \/ is_terminal s2 = false /\ tail = [Bytes failure_event] ->
      exists frames tail ended,
        is_wire s3 = (is_wire s ++ Head 200 (stream_headers (is_request_id s)) :: map Bytes frames ++ tail)%list
        /\ event_run o frames ended /\ (sumZ (map len frames) <= MAX_STREAM_BYTES)%Z
        /\ (tail = [] \/ ended = false /\ tail = [Bytes failure_event])).
    { intros s3 tail H3 Ht. exists frames, tail, (is_terminal s2). split_and!; [|done..].
      rewrite H3, Hw. cbn. by rewrite <- !app_assoc. }
    assert (Hstop : forall s3, is_wire s3 = is_wire s2 -> exists frames tail ended,
        is_wire s3 = (is_wire s ++ Head 200 (stream_headers (is_request_id s)) :: map Bytes frames ++ tail)%list
        /\ event_run o frames ended /\ (sumZ (map len frames) <= MAX_STREAM_BYTES)%Z
        /\ (tail = [] \/ ended = false /\ tail = [Bytes failure_event])).
    { intros s3 H3. apply (Hend s3 []); [by rewrite app_nil_r|by left]. }
    destruct x as [u'|e]; [by apply Hstop|]. ing_step; [|by apply Hstop]. do 2 ing_step.
    destruct (is_terminal s2) eqn:Ht; [ing_step; by apply Hstop|].
    ing_step. apply wp_bind. unfold wp at 1, disconnected. cbn [fst snd].
    apply wp_bind, (wp_fixes is_wire); [unfold record_request; fixes_steps|]. intros [y|e'] s3 w3 H3.
    + apply wp_wire. intros [z|e'] w4; [|ing_step; [ing_step|]]; apply (Hend _ [Bytes failure_event]); cbn;
        try (by rewrite H3); by right.
    + ing_step; [ing_step|]; by apply Hstop.
  - intros n deadline sw. apply stream_loop_fuel; unfold STREAM_FUEL, MAX_STREAM_BYTES; lia.
Qed.

(** ** Examples *)

Definition example_principal : Principal := mkPrincipal "acme" "web" "k1" {["models:read"]}.

(** A store that knows one key. *)
Definition example_store (authenticate_result : result (option Principal)) : access_service unit :=
  mkAccessService (fun token w => (if String.eqb token "secret" then authenticate_result else Ok None, w))
    (fun _ w => (Ok true, w)) (fun _ _ w => (Ok tt, w)) (fun _ _ _ w => (Ok tt, w)).

(** An upstream that answers every request with an empty document. *)
Definition example_outside (authenticate_result : result (option Principal)) (close : result unit) : Outside unit :=
  mkOutside (fun w => (fzero, w)) (fun w => ("0", w)) (fun _ w => (Ok "{}", w)) (fun _ w => (Ok tt, w))
    (fun _ => false) (fun w => (Ok tt, w)) (fun w => (Ok tt, w)) (fun _ w => (Ok tt, w))
    (fun w => (Ok (mkUpstreamHead 200 (Some "application/json")), w)) (fun _ w => (Ok "{}", w))
    (fun _ w => (Ok "", w)) (fun w => w) (fun w => (close, w)) loads (Some (example_store authenticate_result)).

Definition example_gateway : gateway :=
  mkGateway "client" "service" (mkBucket 60 fone fone fzero) 32 16 (mkSlots 1 4 4 2).

Definition example_start : ing_state := mkState example_gateway None "" fzero false false [] [] [].

Definition models_request : ingress_request :=
  mkIngress "GET" "/v1/models" [("authorization", "Bearer secret")].

Definition models_run (authenticate_result : result (option Principal)) (close : result unit)
    : result unit * (ing_state * unit) :=
  ingress_handle (example_outside authenticate_result close) models_request (example_start, tt).

Lemma models_forwarded :
  is_upstream (fst (snd (models_run (Ok (Some example_principal)) (Ok tt))))
  = [mkUpstream "GET" "/v1/models" None [("Authorization", "Bearer service"); ("x-request-id", "req_0")]].
Proof. vm_compute. reflexivity. Qed.

Lemma models_answered :
  is_wire (fst (snd (models_run (Ok (Some example_principal)) (Ok tt))))
  = [Head 200 (document_headers "req_0" "{}"); Bytes "{}"].
Proof. vm_compute. reflexivity. Qed.

Lemma forwarding_is_gated_witness :
  exists q, is_upstream (fst (snd (models_run (Ok (Some example_principal)) (Ok tt)))) = [q]
  /\ may_forward (example_outside (Ok (Some example_principal)) (Ok tt)) models_request example_gateway q.
Proof.
  pose proof (forwarding_is_gated (example_outside (Ok (Some example_principal)) (Ok tt)) models_request
    example_start tt eq_refl) as H.
  pose proof models_forwarded as E. unfold models_run in *.
  destruct (ingress_handle _ _ _) as [x [s' w']]. cbn [fst snd] in *.
  destruct H as [H|H]; [congruence|exact H].
Defined.


(** The [finally] clause closes the upstream connection before it gives back the
    in-flight place: when the close raises, the place is kept forever, and the
    service's answer is replaced by a refusal. *)
Example close_error_leaks_capacity :
  let s := fst (snd (models_run (Ok (Some example_principal)) (raise OSError "close"))) in
  capacity s = (32, 15, mkSlots 1 4 4 2)%Z /\ exists hs b, is_wire s = [Head 503 hs; Bytes b].
Proof. vm_compute. split; [reflexivity|by eexists _, _]. Qed.

(** The refusal of a failing store covers SQLite's errors and not PostgreSQL's:
    with the shared store the error leaves the handler and nothing is answered. *)
Example store_errors_are_sqlite_errors :
  (let '(x, (s, _)) := models_run (raise SqliteError "locked") (Ok tt) in
   x = Ok tt /\ exists hs b, is_wire s = [Head 503 hs; Bytes b])
  /\ (let '(x, (s, _)) := models_run (raise PgError "terminated") (Ok tt) in
      x = raise PgError "terminated" /\ is_wire s = []).
Proof. split; vm_compute; [split; [reflexivity|by eexists _, _]|split; reflexivity]. Qed.
