(* ===== verification/RetentionJob.v ===== *)
(** * The retention job ([c3r/retention_job.py])

    [purge] against any object client, with the laws a client promises as a
    class; the bucket-name checks; and the client of the storage service: its
    identity, its paginated listing and the URLs of its deletions.  HTTP is the
    parameter [urlopen]; [json.load] on bytes and [datetime.fromisoformat] are
    parameters as well. *)

From Stdlib Require Import Lia ZArith Ascii String.
From stdpp Require Import base option strings gmap list.
From S2P Require Import PyNumber.
From S2P Require Import Prelude PyStr PySort PyFloat FloatRepr Json PyTime HttpService.

Local Open Scope string_scope.

Definition DELETE_AFTER_DAYS : Z := 28.

(** ** Bucket names *)

Definition bucket_prefix : string := "colomboai-c3r-staging-traces-".

(** [_BUCKET.fullmatch(bucket)]: the project number it names. *)
Definition bucket_project (bucket : string) : option string :=
  if startswith bucket bucket_prefix
  then let number := drop_str (len bucket_prefix) bucket in
       if Z.eqb (len number) 12 && str_forall is_digit number then Some number else None
  else None.

(** [_validated_bucket]. *)
Definition validated_bucket (bucket : string) : result string :=
  match bucket_project bucket with
  | Some _ => Ok bucket
  | None => raise ValueError "C3R_TRACE_BUCKET must name the dedicated C3R staging trace bucket"
  end.

(** [bucket_from_environment]. *)
Definition bucket_from_environment (values : gmap string string) : result string :=
  validated_bucket (default "" (values !! "C3R_TRACE_BUCKET")).

(** [_verify_runtime_project]. *)
Definition verify_runtime_project (bucket project_number : string) : result unit :=
  _ ← validated_bucket bucket;
  raise_if (negb (bool_decide (bucket_project bucket = Some project_number))) ValueError
    "C3R_TRACE_BUCKET does not match the Cloud Run project number".

(** ** Objects and clients *)

(** An object version; its creation time is aware, in UTC. *)
Record StoredObject : Type := mkObject { so_name : string; so_generation : Z; so_created_at : datetime }.

Definition version_of (x : StoredObject) : string * Z := (so_name x, so_generation x).

(** [ObjectClient]. *)
Class ObjectClient (W : Type) : Type := {
  oc_bucket : string;
  oc_list_all : io W (list StoredObject);
  oc_delete : StoredObject -> io W unit }.

(** [item.created_at <= cutoff]. *)
Definition is_expired (cutoff : datetime) (x : StoredObject) : bool :=
  Z.leb (instant (so_created_at x)) (instant cutoff).

Record retention_report : Type := mkReport {
  rr_bucket : string; rr_cutoff_utc : string; rr_objects_before : Z; rr_expired_candidates : Z;
  rr_objects_after : Z }.

(** [purge]. *)
Definition purge {W} {client : ObjectClient W} (now : datetime) : io W retention_report :=
  bucket ← lift (validated_bucket oc_bucket);
  _ ← lift (raise_if (negb (is_utc now)) ValueError "purge clock must be UTC");
  cutoff ← lift (minus_days now DELETE_AFTER_DAYS);
  before ← oc_list_all;
  _ ← lift (raise_if (Z.ltb 100000 (lenZ before) || negb (bool_decide (NoDup (map version_of before)))) ValueError
        "bucket inventory is too large or contains duplicate generations");
  let expired := List.filter (is_expired cutoff) before in
  _ ← io_map oc_delete expired;
  remaining ← oc_list_all;
  _ ← lift (raise_if (existsb (is_expired cutoff) remaining) RuntimeError
        "expired objects remain after purge; collection must stay disabled");
  mret (mkReport bucket (isoformat false cutoff) (lenZ before) (lenZ expired) (lenZ remaining)).

(** ** Query strings *)

Definition is_unreserved (c : ascii) : bool :=
  in_range 48 57 c || in_range 65 90 c || in_range 97 122 c
  || bool_decide (c ∈ ["_"; "."; "-"; "~"]%char).

Definition upper_hex (n : Z) : ascii := if Z.ltb n 10 then chr (48 + n) else chr (55 + n).

(** One byte of [quote(..., safe="")] and of [quote_plus]. *)
Definition quote_byte (space_as_plus : bool) (c : ascii) : string :=
  if is_unreserved c then String c ""
  else if space_as_plus && Z.eqb (code c) 32 then "+"
  else String "%" (String (upper_hex (code c / 16)) (String (upper_hex (code c mod 16)) "")).

Fixpoint quote_bytes (space_as_plus : bool) (s : string) : string :=
  match s with
  | EmptyString => EmptyString
  | String c s' => quote_byte space_as_plus c ++ quote_bytes space_as_plus s'
  end.

(** [quote(text, safe="")], [quote_plus(text)] and [urlencode(query)]. *)
Definition quote_text (s : string) : string := quote_bytes false (utf8 s).
Definition quote_plus (s : string) : string := quote_bytes true (utf8 s).
Definition urlencode (query : list (string * string)) : string :=
  join "&" (map (fun kv => quote_plus (fst kv) ++ "=" ++ quote_plus (snd kv)) query).

(** ** The storage client *)

Record gcs_request : Type := mkGcsRequest {
  gq_method : string; gq_url : string; gq_headers : list (string * string) }.

Record GcsJsonClient : Type := mkGcs { gc_bucket : string; gc_authorization : string }.

(** [self._storage_api]. *)
Definition storage_api (bucket : string) : string := "https://storage.googleapis.com/storage/v1/b/" ++ bucket ++ "/o".

Section client.
Context {W : Type} (urlopen : gcs_request -> io W string) (loads_bytes : string -> result json)
  (fromisoformat : string -> result datetime).

Definition metadata_headers : list (string * string) := [("Metadata-Flavor", "Google")].

(** [bytes.decode("ascii")] of what was read. *)
Definition decode_ascii (s : string) : result string :=
  if is_ascii s then Ok s else raise ValueError "'ascii' codec can't decode byte".

(** [GcsJsonClient.__init__]. *)
Definition make_gcs_client (bucket : string) : io W GcsJsonClient :=
  bucket ← lift (validated_bucket bucket);
  body ← urlopen (mkGcsRequest "GET"
                    "http://metadata.google.internal/computeMetadata/v1/project/numeric-project-id" metadata_headers);
  number ← lift (decode_ascii (take_str 64 body));
  _ ← lift (verify_runtime_project bucket number);
  body ← urlopen (mkGcsRequest "GET"
                    "http://metadata.google.internal/computeMetadata/v1/instance/service-accounts/default/token"
                    metadata_headers);
  data ← lift (loads_bytes body);
  match data with
  | JObj kvs =>
      match assoc "access_token" kvs with
      | Some (JStr token) =>
          if Z.ltb (len token) 20 then lift (raise RuntimeError "Cloud Run service identity token unavailable")
          else mret (mkGcs bucket ("Bearer " ++ token))
      | _ => lift (raise RuntimeError "Cloud Run service identity token unavailable")
      end
  | _ => lift (raise AttributeError "get")
  end.

Context (client : GcsJsonClient).

(** [_request]. *)
Definition gcs_send (method url : string) : io W (option (list (string * json))) :=
  body ← urlopen (mkGcsRequest method url [("Authorization", gc_authorization client)]);
  if String.eqb method "DELETE" then mret None
  else
    data ← lift (loads_bytes body);
    match data with
    | JObj kvs => mret (Some kvs)
    | _ => lift (raise ValueError "invalid GCS response")
    end.

(** [_created_at]. *)
Definition created_at (raw : string) : result datetime :=
  parsed ← fromisoformat raw;
  match dt_offset parsed with
  | None => raise ValueError "object creation time must include UTC offset"
  | Some _ =>
      let t := instant parsed in
      if Z.ltb t 0 || Z.leb MICROS_END t then raise OverflowError "date value out of range"
      else Ok (mkDatetime t (Some 0%Z))
  end.

(** One item of a page. *)
Definition read_item (raw : json) : result StoredObject :=
  match raw with
  | JObj metadata =>
      match assoc "name" metadata, assoc "timeCreated" metadata with
      | Some (JStr name), Some (JStr created) =>
          if negb (nonempty name) then raise ValueError "invalid GCS object metadata"
          else match assoc "generation" metadata with
               | Some (JStr generation) =>
                   if negb (nonempty generation && str_forall is_digit generation)
                   then raise ValueError "invalid GCS object generation"
                   else match parse_int generation with
                        | None => raise ValueError "Exceeds the limit for integer string conversion"
                        | Some n => at_ ← created_at created; Ok (mkObject name n at_)
                        end
               | _ => raise ValueError "invalid GCS object generation"
               end
      | _, _ => raise ValueError "invalid GCS object metadata"
      end
  | _ => raise ValueError "invalid GCS object metadata"
  end.

(** One item added to [found]. *)
Definition add_item (found : list StoredObject) (raw : json) : result (list StoredObject) :=
  x ← read_item raw;
  if Z.ltb 100000 (lenZ found + 1) then raise ValueError "bucket inventory exceeds purge limit"
  else Ok (found ++ [x])%list.

Definition list_query (page_token : option string) : list (string * string) :=
  app [("maxResults", "1000"); ("versions", "true"); ("fields", "items(name,generation,timeCreated),nextPageToken")]
    (match page_token with Some t => [("pageToken", t)] | None => [] end).

Definition list_url (page_token : option string) : string :=
  storage_api (gc_bucket client) ++ "?" ++ urlencode (list_query page_token).

(** The items of a page added to [found], and the token of the next page. *)
Definition read_page (found : list StoredObject) (seen : gset string) (data : list (string * json))
    : result (list StoredObject * option string) :=
  found ← match assoc "items" data with
          | None => Ok found
          | Some (JArr items) => foldR add_item found items
          | Some _ => raise ValueError "invalid GCS object list"
          end;
  match assoc "nextPageToken" data with
  | None | Some JNull => Ok (found, None)
  | Some (JStr t) => if nonempty t && negb (bool_decide (t ∈ seen)) then Ok (found, Some t)
                     else raise ValueError "invalid or repeated GCS page token"
  | Some _ => raise ValueError "invalid or repeated GCS page token"
  end.

(** The [while] loop of [list_all]. *)
Fixpoint list_pages (fuel : nat) (page_token : option string) (seen : gset string) (found : list StoredObject)
    : io W (list StoredObject) :=
  match fuel with
  | O => lift (raise OtherException "out of fuel")
  | S fuel =>
      reply ← gcs_send "GET" (list_url page_token);
      match reply with
      | None => lift (raise OtherException "assert data is not None")
      | Some data =>
          page ← lift (read_page found seen data);
          match snd page with
          | None => mret (fst page)
          | Some t => list_pages fuel (Some t) ({[t]} ∪ seen) (fst page)
          end
      end
  end.

(** [list_all]. *)
Definition list_all (fuel : nat) : io W (list StoredObject) := list_pages fuel None ∅ [].

Definition delete_url (x : StoredObject) : string :=
  storage_api (gc_bucket client) ++ "/" ++ quote_text (so_name x) ++ "?"
  ++ urlencode [("generation", str_of_Z (so_generation x))].

(** [delete_generation]. *)
Definition delete_generation (x : StoredObject) : io W unit :=
  if negb (nonempty (so_name x)) || Z.leb (so_generation x) 0 then lift (raise ValueError "invalid deletion target")
  else _ ← gcs_send "DELETE" (delete_url x); mret tt.

(** [GcsJsonClient] as an object client. *)
Definition gcs_client (fuel : nat) : ObjectClient W :=
  {| oc_bucket := gc_bucket client; oc_list_all := list_all fuel; oc_delete := delete_generation |}.
End client.

(** [main]. *)
Definition retention_main {W} (urlopen : gcs_request -> io W string) (loads_bytes : string -> result json)
    (fromisoformat : string -> result datetime) (environ : gmap string string) (now : io W datetime) (print_report : retention_report -> io W unit) (fuel : nat)
    : io W unit :=
  bucket ← lift (bucket_from_environment environ);
  client ← make_gcs_client urlopen loads_bytes bucket;
  time ← now;
  report ← purge (client := gcs_client urlopen loads_bytes fromisoformat client fuel) time;
  print_report report.

(** ** What a client promises

    [contents] are the object versions in the bucket.  A listing returns them; a
    deletion removes one version, and one that raises may or may not have
    removed it. *)

Definition without (x : StoredObject) (l : list StoredObject) : list StoredObject :=
  List.filter (fun y => negb (bool_decide (version_of y = version_of x))) l.

Class LawfulClient (W : Type) {client : ObjectClient W} : Type := {
  contents : W -> list StoredObject;
  list_lawful w r w' : oc_list_all w = (r, w') -> contents w' = contents w /\ forall l, r = Ok l -> l = contents w;
  delete_ok x w w' : oc_delete x w = (Ok tt, w') -> contents w' = without x (contents w);
  delete_raises x w e w' : oc_delete x w = (Raise e, w') ->
    contents w' = contents w \/ contents w' = without x (contents w) }.

Section purge.
Context {W : Type} {client : ObjectClient W} {lawful : LawfulClient W}.

(** The versions of [l] that are not among [gone]. *)
Definition remove_all (gone l : list StoredObject) : list StoredObject := fold_left (fun l x => without x l) gone l.

Lemma elem_of_without x y l : y ∈ without x l <-> y ∈ l /\ version_of y <> version_of x.
Proof.
  unfold without. rewrite !list_elem_of_In, List.filter_In, negb_true_iff, bool_decide_eq_false. done.
Qed.

Lemma elem_of_remove_all gone l y : y ∈ remove_all gone l <-> y ∈ l /\ version_of y ∉ map version_of gone.
Proof.
  revert l; induction gone as [|x gone IH]; intros l; cbn.
  - split; [|tauto]. intros H. split; [done|]. apply not_elem_of_nil.
  - rewrite IH, elem_of_without, not_elem_of_cons. naive_solver.
Qed.

Lemma filter_remove_all gone l :
  remove_all gone l = List.filter (fun y => negb (bool_decide (version_of y ∈ map version_of gone))) l.
Proof.
  revert l; induction gone as [|x gone IH]; intros l; cbn.
  - induction l as [|y l IHl]; [done|]. cbn. rewrite bool_decide_eq_false_2 by apply not_elem_of_nil. cbn. by f_equal.
  - rewrite IH. unfold without. induction l as [|y l IHl]; [done|]. cbn.
    destruct (bool_decide_reflect (version_of y = version_of x)) as [E|E]; cbn.
    + rewrite bool_decide_eq_true_2 by (rewrite E; left). done.
    + destruct (bool_decide_reflect (version_of y ∈ map version_of gone)) as [E2|E2]; cbn.
      * by rewrite bool_decide_eq_true_2 by (by right).
      * rewrite bool_decide_eq_false_2 by (rewrite not_elem_of_cons; done). cbn. by f_equal.
Qed.

(** The deletion loop removes a prefix of its list, all of it when it returns. *)
Lemma delete_loop l w r w' : io_map oc_delete l w = (r, w') ->
  exists gone, gone `prefix_of` l /\ contents w' = remove_all gone (contents w) /\ (is_ok r = true -> gone = l).
Proof.
  revert w r w'; induction l as [|x l IH]; intros w r w' H; cbn [io_map] in H.
  { injection H as <- <-. by exists []. }
  unfold mbind, io_bind in H. destruct (oc_delete x w) as [[[]|e] w1] eqn:E.
  - apply delete_ok in E. destruct (io_map oc_delete l w1) as [r2 w2] eqn:E2. apply IH in E2 as (gone & Hp & Hc & Hr).
    exists (x :: gone). split; [by apply prefix_cons|]. destruct r2 as [ys|e]; injection H as <- <-; cbn; rewrite Hc, E.
    + split; [done|]. intros _. f_equal. by apply Hr.
    + done.
  - injection H as <- <-. apply delete_raises in E as [E|E].
    + exists []. split; [apply prefix_nil|]. by rewrite E.
    + exists [x]. split; [apply prefix_cons, prefix_nil|]. by rewrite E.
Qed.

Lemma same_version (l : list StoredObject) x y :
  NoDup (map version_of l) -> x ∈ l -> y ∈ l -> version_of x = version_of y -> x = y.
Proof.
  intros Hnd [i Hi]%list_elem_of_lookup [j Hj]%list_elem_of_lookup Hv. assert (i = j) as ->; [|congruence].
  eapply NoDup_lookup; [done|..]; rewrite list_lookup_fmap, ?Hi, ?Hj; cbn; [done|by rewrite Hv].
Qed.

Lemma expired_split cutoff l : NoDup (map version_of l) ->
  remove_all (List.filter (is_expired cutoff) l) l = List.filter (fun y => negb (is_expired cutoff y)) l.
Proof.
  intros Hnd. rewrite filter_remove_all. apply List.filter_ext_in. intros y Hy. f_equal.
  apply eq_true_iff_eq. rewrite bool_decide_eq_true, list_elem_of_fmap. split.
  - intros (x & Hv & Hx). rewrite list_elem_of_In, List.filter_In in Hx. destruct Hx as [Hx He].
    rewrite <- list_elem_of_In in Hx, Hy. by rewrite (same_version l y x).
  - intros He. exists y. split; [done|]. by rewrite list_elem_of_In, List.filter_In.
Qed.

(** The inventory a purge accepts. *)
Definition acceptable (now : datetime) (l : list StoredObject) : Prop :=
  is_ok (validated_bucket oc_bucket) = true /\ is_utc now = true /\ (lenZ l <= 100000)%Z
  /\ NoDup (map version_of l).

Lemma purge_steps now w r w' : purge now w = (r, w') ->
  (contents w' = contents w /\ is_ok r = false)
  \/ exists cutoff gone, acceptable now (contents w) /\ minus_days now DELETE_AFTER_DAYS = Ok cutoff
     /\ gone `prefix_of` List.filter (is_expired cutoff) (contents w)
     /\ contents w' = remove_all gone (contents w)
     /\ forall report, r = Ok report ->
          gone = List.filter (is_expired cutoff) (contents w)
          /\ report = mkReport oc_bucket (isoformat false cutoff) (lenZ (contents w)) (lenZ gone) (lenZ (contents w')).
Proof.
  unfold purge. intros H.
  destruct (validated_bucket oc_bucket) as [b|e] eqn:Eb; [|injection H as <- <-; by left].
  unfold mbind at 1, io_bind at 1, lift at 1 in H.
  destruct (is_utc now) eqn:Eu; [|injection H as <- <-; by left].
  unfold mbind at 1, io_bind at 1, lift at 1 in H. cbn [negb raise_if] in H.
  destruct (minus_days now DELETE_AFTER_DAYS) as [cutoff|e] eqn:Ec; [|injection H as <- <-; by left].
  unfold mbind at 1, io_bind at 1, lift at 1 in H.
  unfold mbind at 1, io_bind at 1 in H. destruct (oc_list_all w) as [[before|e] w1] eqn:El;
    apply list_lawful in El as [Hc1 Hl]; [|injection H as <- <-; by left].
  specialize (Hl before eq_refl) as ->. unfold mbind at 1, io_bind at 1, lift at 1 in H.
  destruct (Z.ltb 100000 _ || _) eqn:Ei; [injection H as <- <-; by left|]. cbn [raise_if] in H. bool_hyps.
  unfold mbind at 1, io_bind at 1 in H. destruct (io_map oc_delete _ w1) as [rd w2] eqn:Ed.
  apply delete_loop in Ed as (gone & Hp & Hc2 & Hr). rewrite Hc1 in Hc2.
  assert (Hacc : acceptable now (contents w)) by (split_and!; [by rewrite Eb|done..]).
  right. exists cutoff, gone. destruct rd as [us|e]; [|injection H as <- <-; by split_and!].
  unfold mbind at 1, io_bind at 1 in H. destruct (oc_list_all w2) as [[remaining|e] w3] eqn:El2;
    apply list_lawful in El2 as [Hc3 Hl2]; [|injection H as <- <-; split_and!; [done..|congruence|done]].
  specialize (Hl2 remaining eq_refl) as ->. unfold mbind at 1, io_bind at 1, lift at 1 in H.
  destruct (existsb _ _); injection H as <- <-; (split_and!; [done..|congruence|]); [done|].
  intros report [= <-]. rewrite (Hr eq_refl). split; [done|]. rewrite Hc3.
  unfold validated_bucket in Eb. destruct (bucket_project oc_bucket); [|done]. by injection Eb as <-.
Qed.

Lemma delete_loop_ok l w : (forall x w, is_ok (fst (oc_delete x w)) = true) -> is_ok (fst (io_map oc_delete l w)) = true.
Proof.
  intros Hd. revert w; induction l as [|x l IH]; intros w; [done|]. cbn [io_map]. unfold mbind, io_bind.
  specialize (Hd x w). destruct (oc_delete x w) as [[u|e] w1]; [|done].
  specialize (IH w1). by destruct (io_map oc_delete l w1) as [[us|e] w2].
Qed.

Lemma purge_returns now w :
  acceptable now (contents w) -> is_ok (minus_days now DELETE_AFTER_DAYS) = true ->
  (forall w, is_ok (fst (oc_list_all w)) = true) -> (forall x w, is_ok (fst (oc_delete x w)) = true) ->
  is_ok (fst (purge now w)) = true.
Proof.
  intros (Hb & Hu & Hn & Hnd) Hcut Hlist Hdel. unfold purge.
  destruct (validated_bucket oc_bucket) as [b|]; [|done]. destruct (minus_days now _) as [cutoff|]; [|done].
  rewrite Hu. unfold lift, mbind, io_bind. cbn [negb raise_if].
  pose proof (Hlist w) as H1. destruct (oc_list_all w) as [[before|e] w1] eqn:El; [|done].
  apply list_lawful in El as [Hc1 Hl]. specialize (Hl before eq_refl) as ->.
  assert (Hi : Z.ltb 100000 (lenZ (contents w)) || negb (bool_decide (NoDup (map version_of (contents w)))) = false).
  { rewrite bool_decide_eq_true_2 by done. apply orb_false_iff. split; [|done]. apply Z.ltb_ge. lia. }
  rewrite Hi. cbn [raise_if].
  pose proof (delete_loop_ok (List.filter (is_expired cutoff) (contents w)) w1 Hdel) as H2.
  destruct (io_map oc_delete _ w1) as [[us|e] w2] eqn:Ed; [|done].
  apply delete_loop in Ed as (gone & _ & Hc2 & Hg). rewrite (Hg eq_refl), Hc1, expired_split in Hc2 by done.
  pose proof (Hlist w2) as H3. destruct (oc_list_all w2) as [[remaining|e] w3] eqn:El2; [|done].
  apply list_lawful in El2 as [_ Hl2]. specialize (Hl2 remaining eq_refl) as ->. rewrite Hc2.
  assert (He : existsb (is_expired cutoff) (List.filter (fun y => negb (is_expired cutoff y)) (contents w)) = false).
  { apply existsb_false_Forall, Forall_forall. intros x. rewrite list_elem_of_In, List.filter_In, negb_true_iff. tauto. }
  by rewrite He.
Qed.
End purge.

(** C37: The retention job deletes what has expired and nothing else.  For any
    client that keeps the promises of the class, whatever fails along the way:
    nothing appears, and a version disappears only from an accepted inventory
    (the dedicated bucket, a UTC clock, at most 100,000 distinct versions) and
    only when it is at least 28 days old; a purge that returns has deleted every
    expired version, kept all others, and reports those numbers; and it returns
    whenever the inventory is acceptable and no request fails. *)
Theorem purge_removes_expired {W} {client : ObjectClient W} {lawful : LawfulClient W} now w r w'
    (H : purge now w = (r, w')) :
  (forall x, x ∈ contents w' -> x ∈ contents w)
  /\ (forall x, x ∈ contents w -> x ∉ contents w' ->
        acceptable now (contents w)
        /\ exists cutoff, minus_days now DELETE_AFTER_DAYS = Ok cutoff /\ is_expired cutoff x = true)
  /\ (forall report, r = Ok report -> exists cutoff,
        minus_days now DELETE_AFTER_DAYS = Ok cutoff
        /\ contents w' = List.filter (fun x => negb (is_expired cutoff x)) (contents w)
        /\ report = mkReport oc_bucket (isoformat false cutoff) (lenZ (contents w))
                      (lenZ (List.filter (is_expired cutoff) (contents w))) (lenZ (contents w')))
  /\ (acceptable now (contents w) -> is_ok (minus_days now DELETE_AFTER_DAYS) = true ->
      (forall w, is_ok (fst (oc_list_all w)) = true) ->
      (forall x w, is_ok (fst (oc_delete x w)) = true) -> is_ok r = true).
Proof.
  split_and!.
  - intros x Hx. destruct (purge_steps _ _ _ _ H) as [[<- _]|(cutoff & gone & _ & _ & _ & Hc & _)]; [done|].
    rewrite Hc in Hx. by apply elem_of_remove_all in Hx as [Hx _].
  - intros x Hx Hn. destruct (purge_steps _ _ _ _ H) as [[Hc _]|(cutoff & gone & Ha & Hcut & [rest Hp] & Hc & _)].
    { by rewrite Hc in Hn. }
    split; [done|]. exists cutoff. split; [done|].
    destruct (decide (version_of x ∈ map version_of gone)) as [Hin|Hout].
    2: { destruct Hn. rewrite Hc. by apply elem_of_remove_all. }
    apply list_elem_of_fmap in Hin as (y & Hv & Hy).
    assert (Hy' : y ∈ List.filter (is_expired cutoff) (contents w)) by (rewrite Hp, elem_of_app; by left).
    rewrite list_elem_of_In, List.filter_In in Hy'. destruct Hy' as [Hyc He]. rewrite <- list_elem_of_In in Hyc.
    destruct Ha as (_ & _ & _ & Hnd). by rewrite (same_version _ x y Hnd Hx Hyc Hv).
  - intros report ->. destruct (purge_steps _ _ _ _ H) as [[_ Hr]|(cutoff & gone & (_ & _ & _ & Hnd) & Hcut & _ & Hc & Hrep)];
      [done|].
    destruct (Hrep report eq_refl) as [Hg ->]. exists cutoff. split_and!; [done| |by rewrite Hg].
    rewrite Hc, Hg. by apply expired_split.
  - intros Ha Hcut Hlist Hdel. pose proof (purge_returns now w Ha Hcut Hlist Hdel) as Hr. by rewrite H in Hr.
Qed.

(** ** The listing *)

Section listing.
Context {W : Type} (urlopen : gcs_request -> io W string) (loads_bytes : string -> result json)
  (fromisoformat : string -> result datetime) (client : GcsJsonClient).

(** A page the service sent for a token. *)
Definition page_sent (page_token : option string) (data : list (string * json)) : Prop :=
  exists body w w', urlopen (mkGcsRequest "GET" (list_url client page_token)
                               [("Authorization", gc_authorization client)]) w = (Ok body, w')
  /\ loads_bytes body = Ok (JObj data).

(** The items of a page, all of them readable. *)
Definition page_items (data : list (string * json)) (items : list StoredObject) : Prop :=
  exists raw, (assoc "items" data = Some (JArr raw) \/ assoc "items" data = None /\ raw = [])
  /\ mapR (read_item fromisoformat) raw = Ok items.

(** A chain of pages from a token on: each gives the token of the next, the last
    gives none. *)
Inductive pages_from : option string -> list (option string) -> list StoredObject -> Prop :=
  | last_page t data items :
      page_sent t data -> page_items data items ->
      (assoc "nextPageToken" data = None \/ assoc "nextPageToken" data = Some JNull) ->
      pages_from t [t] items
  | next_page t data items t' ts rest :
      page_sent t data -> page_items data items -> assoc "nextPageToken" data = Some (JStr t') -> t' <> "" ->
      pages_from (Some t') ts rest -> pages_from t (t :: ts) (items ++ rest).

Lemma add_items_ok items found found' : foldR (add_item fromisoformat) found items = Ok found' ->
  exists l, mapR (read_item fromisoformat) items = Ok l /\ found' = (found ++ l)%list
  /\ (lenZ found <= 100000 -> lenZ found' <= 100000)%Z.
Proof.
  revert found; induction items as [|raw items IH]; intros found H; cbn [foldR] in H.
  { injection H as <-. exists []. rewrite app_nil_r. done. }
  apply bind_ok in H as (f1 & H1 & H). unfold add_item in H1. apply bind_ok in H1 as (x & Hx & H1).
  destruct (Z.ltb_spec 100000 (lenZ found + 1)); [done|]. injection H1 as <-.
  apply IH in H as (l & Hl & -> & Hle). exists (x :: l). cbn [mapR]. rewrite Hx. cbn. rewrite Hl. cbn.
  rewrite <- app_assoc. split_and!; [done..|]. intros _. rewrite <- app_assoc in Hle. apply Hle.
  unfold lenZ in *. rewrite length_app. cbn. lia.
Qed.

Lemma read_page_ok found seen data found' t : read_page fromisoformat found seen data = Ok (found', t) ->
  exists items, page_items data items /\ found' = (found ++ items)%list
  /\ (lenZ found <= 100000 -> lenZ found' <= 100000)%Z
  /\ match t with
     | None => assoc "nextPageToken" data = None \/ assoc "nextPageToken" data = Some JNull
     | Some t => assoc "nextPageToken" data = Some (JStr t) /\ t <> "" /\ t ∉ seen
     end.
Proof.
  intros H. unfold read_page in H. apply bind_ok in H as (f & Hf & H).
  assert (Hi : exists items, page_items data items /\ f = (found ++ items)%list
    /\ (lenZ found <= 100000 -> lenZ f <= 100000)%Z).
  { destruct (assoc "items" data) as [[]|] eqn:Ei; try done.
    - apply add_items_ok in Hf as (l' & Hl & -> & Hle). exists l'. split; [|done]. exists l. split; [by left|done].
    - injection Hf as <-. exists []. rewrite app_nil_r. split; [|done]. exists []. split; [by right|done]. }
  destruct Hi as (items & Hi & -> & Hle). exists items.
  destruct (assoc "nextPageToken" data) as [[]|] eqn:Et; try done; try (injection H as <- <-; by auto).
  destruct (nonempty s && negb (bool_decide (s ∈ seen))) eqn:E; [|done]. injection H as <- <-. bool_hyps.
  split_and!; try done. by destruct s.
Qed.

(** A reply to a listing request is a page sent. *)
Lemma send_page t w data w' :
  gcs_send urlopen loads_bytes client "GET" (list_url client t) w = (Ok (Some data), w') -> page_sent t data.
Proof.
  unfold gcs_send. intros H. apply io_bind_ok in H as (body & w1 & Hb & H). cbn [String.eqb Ascii.eqb eqb] in H.
  apply io_bind_ok in H as (j & w2 & Hj & H). apply lift_ok in Hj as [Hj ->].
  destruct j; try done. apply pair_equal_spec in H as [[= ->] _]. by exists body, w, w1.
Qed.

Lemma list_pages_ok fuel t seen found w l w' :
  list_pages urlopen loads_bytes fromisoformat client fuel t seen found w = (Ok l, w') ->
  (lenZ found <= 100000)%Z ->
  exists us items, pages_from t (t :: map Some us) items /\ l = (found ++ items)%list /\ (lenZ l <= 100000)%Z
  /\ NoDup us /\ forall u, u ∈ us -> u ∉ seen.
Proof.
  revert t seen found w; induction fuel as [|fuel IH]; intros t seen found w H Hn; [done|]. cbn [list_pages] in H.
  apply io_bind_ok in H as (reply & w1 & Hs & H). destruct reply as [data|]; [|done]. apply send_page in Hs.
  apply io_bind_ok in H as ([found' t'] & w2 & Hp & H). apply lift_ok in Hp as [Hp ->].
  apply read_page_ok in Hp as (items & Hi & -> & Hle & Ht). specialize (Hle Hn). cbn [fst snd] in H.
  destruct t' as [t'|].
  - destruct Ht as (Ht & Hne & Hns). apply IH in H as (us & rest & Hpages & -> & Hl & Hnd & Hfresh); [|done].
    exists (t' :: us), (items ++ rest)%list. rewrite <- app_assoc. split_and!; [by eapply next_page|done| | |].
    + by rewrite <- app_assoc in Hl.
    + constructor; [|done]. intros Hin. apply Hfresh in Hin. set_solver.
    + intros u [->|Hu]%elem_of_cons; [done|]. apply Hfresh in Hu. set_solver.
  - apply pair_equal_spec in H as [[= <-] _]. exists [], items.
    split_and!; [by eapply last_page|done|done|constructor|set_solver].
Qed.

(** The tokens the service sends come from a finite set. *)
Definition tokens_within (T : gset string) : Prop :=
  forall t data u, page_sent t data -> assoc "nextPageToken" data = Some (JStr u) -> u ∈ T.

Lemma list_pages_fuel T fuel n t seen found w : tokens_within T -> size (T ∖ seen) < fuel ->
  list_pages urlopen loads_bytes fromisoformat client (fuel + n) t seen found w
  = list_pages urlopen loads_bytes fromisoformat client fuel t seen found w.
Proof.
  intros HT. revert t seen found w; induction fuel as [|fuel IH]; intros t seen found w Hf; [lia|].
  cbn [Nat.add list_pages]. unfold mbind, io_bind.
  destruct (gcs_send _ _ _ _ _ w) as [[[data|]|e] w1] eqn:Es; try done. apply send_page in Es. unfold lift.
  destruct (read_page fromisoformat found seen data) as [[found' [u|]]|e] eqn:Ep; try done. cbn [fst snd].
  apply read_page_ok in Ep as (items & _ & _ & _ & Hu & _ & Hns). apply IH.
  assert (Hin : u ∈ T) by (by eapply HT). assert (Hsub : T ∖ ({[u]} ∪ seen) ⊂ T ∖ seen).
  { split; [set_solver|]. intros Hs. assert (u ∈ T ∖ seen) as Hd by set_solver. apply Hs in Hd. set_solver. }
  apply subset_size in Hsub. lia.
Qed.
End listing.

(** ** Deletions *)

Lemma code_bound c : (0 <= code c < 256)%Z.
Proof. unfold code. pose proof (N_ascii_bounded c). lia. Qed.

Lemma upper_hex_inj n m : (0 <= n < 16)%Z -> (0 <= m < 16)%Z -> upper_hex n = upper_hex m -> n = m.
Proof.
  intros Hn Hm H. apply (f_equal code) in H. revert H. unfold upper_hex.
  destruct (Z.ltb_spec n 10), (Z.ltb_spec m 10); rewrite !chr_code by lia; lia.
Qed.

Lemma hex_byte_inj c d : upper_hex (code c / 16) = upper_hex (code d / 16) ->
  upper_hex (code c mod 16) = upper_hex (code d mod 16) -> c = d.
Proof.
  intros H1 H2. pose proof (code_bound c). pose proof (code_bound d).
  apply upper_hex_inj in H1; [|split; [apply Z.div_pos|apply Z.div_lt_upper_bound]; lia..].
  apply upper_hex_inj in H2; [|apply Z.mod_pos_bound; lia..].
  apply code_inj. rewrite (Z.div_mod (code c) 16), (Z.div_mod (code d) 16) by lia. congruence.
Qed.

(** A quoted byte can be read back, whatever follows. *)
Lemma quote_byte_inj c d s t : quote_byte false c ++ s = quote_byte false d ++ t -> c = d /\ s = t.
Proof.
  unfold quote_byte. cbn [andb]. assert (Hp : is_unreserved "%" = false) by (vm_compute; reflexivity).
  destruct (is_unreserved c) eqn:Ec, (is_unreserved d) eqn:Ed; cbn [append].
  - by intros [= -> ->].
  - intros [= -> _]. congruence.
  - intros [= <- _]. congruence.
  - intros [= H1 H2 ->]. split; [by apply hex_byte_inj|done].
Qed.

Lemma quote_byte_stop c t : exists d u, quote_byte false c ++ t = String d u /\ d <> "?"%char.
Proof.
  unfold quote_byte. cbn [andb]. destruct (is_unreserved c) eqn:Ec; cbn [append]; do 2 eexists; (split; [done|]); [|done].
  intros ->. revert Ec. vm_compute. done.
Qed.

(** Quoted text up to the query identifies the text. *)
Lemma quote_bytes_inj a b s t :
  quote_bytes false a ++ String "?" s = quote_bytes false b ++ String "?" t -> a = b /\ s = t.
Proof.
  revert b; induction a as [|c a IH]; intros [|d b]; cbn [quote_bytes].
  - by intros [= ->].
  - rewrite str_app_assoc. destruct (quote_byte_stop d (quote_bytes false b ++ String "?" t)) as (x & u & -> & Hx).
    cbn. intros [= <- _]. done.
  - rewrite str_app_assoc. destruct (quote_byte_stop c (quote_bytes false a ++ String "?" s)) as (x & u & -> & Hx).
    cbn. intros [= -> _]. done.
  - rewrite !str_app_assoc. intros [-> H]%quote_byte_inj. by apply IH in H as [-> ->].
Qed.

Lemma quote_plus_digits s : str_forall is_digit s = true -> quote_plus s = s.
Proof.
  intros H. unfold quote_plus. rewrite utf8_ascii.
  2: { unfold is_ascii. eapply str_forall_impl; [|exact H]. intros c. unfold is_digit, in_range. lia. }
  induction s as [|c s IH]; [done|]. cbn in *. apply andb_true_iff in H as [Hc Hs]. rewrite IH by done.
  unfold quote_byte, is_unreserved. unfold is_digit in Hc. by rewrite Hc.
Qed.

(** The URL of a deletion names one version. *)
Lemma delete_url_inj client x y : (0 <= so_generation x)%Z -> (0 <= so_generation y)%Z ->
  delete_url client x = delete_url client y -> version_of x = version_of y.
Proof.
  intros Hx Hy H. unfold delete_url, urlencode in H. cbn [map fst snd join] in H.
  apply str_app_inj_l, str_app_inj_l, quote_bytes_inj in H as [Hn%utf8_inj Hg].
  change (quote_plus "generation") with "generation" in Hg. apply str_app_inj_l in Hg. cbn in Hg.
  injection Hg as Hg.
  destruct (str_of_nonneg_spec _ Hx) as (Hdx & Hvx & _), (str_of_nonneg_spec _ Hy) as (Hdy & Hvy & _).
  assert (Hs : forall n, (0 <= n)%Z -> str_of_Z n = str_of_nonneg n) by (intros [] ?; done || lia).
  rewrite !Hs, !quote_plus_digits in Hg by done. unfold version_of. rewrite Hn, <- Hvx, <- Hvy. by rewrite Hg.
Qed.

(** The listing a purge works on is complete, and its deletions are exact.  A
    listing that returns has followed the service's chain of page tokens from the
    first page to the last, never the same token twice, and holds the readable
    items of every page in order, at most 100,000; when the service draws its
    tokens from a finite set, one page more than there are tokens is enough fuel;
    and the URLs of two deletions are equal only for the same name and
    generation. *)
Theorem listing_is_complete {W} (urlopen : gcs_request -> io W string) loads_bytes fromisoformat client :
  (forall fuel w l w', list_all urlopen loads_bytes fromisoformat client fuel w = (Ok l, w') ->
     exists us, pages_from urlopen loads_bytes fromisoformat client None (None :: map Some us) l
     /\ (lenZ l <= 100000)%Z /\ NoDup us)
  /\ (forall T, tokens_within urlopen loads_bytes client T -> forall n w,
        list_all urlopen loads_bytes fromisoformat client (S (size T) + n) w
        = list_all urlopen loads_bytes fromisoformat client (S (size T)) w)
  /\ (forall x y, (0 < so_generation x)%Z -> (0 < so_generation y)%Z ->
        delete_url client x = delete_url client y -> version_of x = version_of y).
Proof.
  split_and!.
  - intros fuel w l w' H. apply list_pages_ok in H as (us & items & Hp & -> & Hl & Hnd & _); [|done]. by exists us.
  - intros T HT n w. unfold list_all. apply (list_pages_fuel _ _ _ _ T); [done|]. rewrite difference_empty_L. lia.
  - intros x y Hx Hy. apply delete_url_inj; lia.
Qed.

(** ** An example *)

#[local] Instance example_client : ObjectClient (list StoredObject) :=
  {| oc_bucket := "colomboai-c3r-staging-traces-012345678901";
     oc_list_all := fun w => (Ok w, w);
     oc_delete := fun x w => (Ok tt, without x w) |}.

#[local] Program Instance example_lawful : LawfulClient (list StoredObject) := {| contents := fun w => w |}.
Next Obligation. intros w r w' [= <- <-]. split; [done|]. by intros l [= <-]. Qed.
Next Obligation. by intros x w w' [= <-]. Qed.
Next Obligation. by intros x w e w' [=]. Qed.

Definition example_day (d : Z) : datetime := mkDatetime (d * MICROS_PER_DAY) (Some 0%Z).
Definition example_objects : list StoredObject :=
  [mkObject "old" 1 (example_day 10); mkObject "old" 2 (example_day 90); mkObject "new" 1 (example_day 95)].

Lemma purge_removes_expired_witness :
  purge (example_day 100) example_objects
  = (Ok (mkReport "colomboai-c3r-staging-traces-012345678901" "0001-03-14T00:00:00+00:00" 3 1 2),
     [mkObject "old" 2 (example_day 90); mkObject "new" 1 (example_day 95)])
  /\ exists cutoff, minus_days (example_day 100) DELETE_AFTER_DAYS = Ok cutoff
     /\ is_expired cutoff (mkObject "old" 1 (example_day 10)) = true.
Proof.
  assert (E : purge (example_day 100) example_objects
    = (Ok (mkReport "colomboai-c3r-staging-traces-012345678901" "0001-03-14T00:00:00+00:00" 3 1 2),
       [mkObject "old" 2 (example_day 90); mkObject "new" 1 (example_day 95)])) by (vm_compute; reflexivity).
  split; [exact E|].
  destruct (purge_removes_expired (example_day 100) example_objects _ _ E) as (_ & H & _).
  destruct (H (mkObject "old" 1 (example_day 10))) as [_ Hc]; [|  |exact Hc].
  - left.
  - cbn [contents]. intros Hin. apply list_elem_of_In in Hin as [Hin|[Hin|[]]]; discriminate Hin.
Defined.
