(* ===== verification/LocalArtifacts.v ===== *)
(** * Pinned local artifacts ([c3r/local_artifacts.py])

    Bounded reads of regular, unlinked local files and the check of an inventory
    of such files against hashes, the inventory itself pinned by its hash.  The
    file system is seen through [LocalFiles]; [pathlib]'s normalisation of a path
    is modelled, since the inventory's distinctness check depends on it. *)

From Stdlib Require Import Lia ZArith Ascii String.
From stdpp Require Import base option strings gmap list.
From S2P Require Import Prelude Effects PyStr Json Hash.

Local Open Scope string_scope.

Definition MAX_TOTAL_BYTES : Z := 64 * 1024 * 1024.
Definition MAX_MANIFEST_BYTES : Z := 65536.

(** ** Paths *)

(** A POSIX path as [pathlib] keeps it: the root ("", "/" or "//") and the
    components. *)
Record path : Type := mkPath { path_root : string; path_tail : list string }.

#[export] Instance path_eq_dec : EqDecision path.
Proof. solve_decision. Defined.

(** [s.split("/")]. *)
Fixpoint split_slash (s : string) : list string :=
  match s with
  | EmptyString => [""]
  | String c s' =>
      match split_slash s' with
      | [] => [String c ""]
      | p :: ps => if Ascii.eqb c "/" then "" :: p :: ps else String c p :: ps
      end
  end.

(** [posixpath.splitroot]: exactly two leading slashes are a root of their own. *)
Definition splitroot (s : string) : string * string :=
  match s with
  | String "/" (String "/" (String "/" _ as s')) => ("/", String "/" s')
  | String "/" (String "/" s') => ("//", s')
  | String "/" s' => ("/", s')
  | _ => ("", s)
  end.

(** [Path(s)]. *)
Definition parse_path (s : string) : path :=
  let '(root, rest) := splitroot s in
  mkPath root (List.filter (fun x => nonempty x && negb (String.eqb x ".")) (split_slash rest)).

(** [str(path)]. *)
Definition path_str (p : path) : string :=
  let text := path_root p ++ join "/" (path_tail p) in
  if nonempty text then text else ".".

Definition is_absolute (p : path) : bool := nonempty (path_root p).

(** [(path, *path.parents)]. *)
Definition with_parents (p : path) : list path :=
  map (fun n => mkPath (path_root p) (take n (path_tail p))) (rev (seq 0 (S (length (path_tail p))))).

(** ** The file system *)

Record file_stat : Type := mkStat { st_regular : bool; st_size : Z; st_mtime_ns : Z; st_ctime_ns : Z }.

(** [fs_open] is [os.open] with the flags of the source, [fs_fdopen] the stream
    made over the descriptor, whose closing closes the descriptor too. *)
Class LocalFiles (W : Type) : Type := {
  fs_is_symlink : path -> io W bool;
  fs_open : path -> io W Z;
  fs_fdopen : Z -> io W unit;
  fs_fstat : Z -> io W file_stat;
  fs_read : Z -> Z -> io W string;
  fs_close : Z -> io W unit }.

Section files.
Context {W : Type} {files : LocalFiles W}.

(** [any(p.is_symlink() for p in ps)]. *)
Fixpoint any_symlink (ps : list path) : io W bool :=
  match ps with
  | [] => mret false
  | p :: ps' => linked ← fs_is_symlink p; if (linked : bool) then mret true else any_symlink ps'
  end.

(** The body of the [with] block. *)
Definition read_stable (descriptor maximum : Z) : io W string :=
  before ← fs_fstat descriptor;
  _ ← lift (raise_if (negb (st_regular before) || Z.ltb maximum (st_size before)) ValueError
              "artifact is not a bounded regular file");
  data ← fs_read descriptor (maximum + 1);
  after ← fs_fstat descriptor;
  _ ← lift (raise_if (Z.ltb maximum (len data) || negb (Z.eqb (st_size before) (st_size after))
                      || negb (Z.eqb (st_mtime_ns before) (st_mtime_ns after))
                      || negb (Z.eqb (st_ctime_ns before) (st_ctime_ns after))) ValueError
              "artifact changed during verification");
  mret data.

(** [_read_regular]. *)
Definition read_regular (p : path) (maximum : Z) : io W string :=
  refused ← (if negb (is_absolute p) then mret true else any_symlink (with_parents p));
  _ ← lift (raise_if refused ValueError "artifact must be an absolute non-linked local file");
  descriptor ← fs_open p;
  _ ← fs_fdopen descriptor;
  io_finally (read_stable descriptor maximum) (fs_close descriptor).
End files.

(** ** The inventory *)

Record artifact : Type := mkArtifact { af_path : path; af_sha256 : string; af_max_bytes : Z }.

(** [set(mapping) == {names}]. *)
Definition keys_are (kvs : list (string * json)) (names : list string) : bool :=
  bool_decide (list_to_set (C := gset string) (map fst kvs) = list_to_set names).

(** One turn of the loop over the rows; [None] is [return False]. *)
Definition read_row (raw_entry : json) : option artifact :=
  match raw_entry with
  | JObj entry =>
      match assoc "path" entry, assoc "sha256" entry, assoc "max_bytes" entry with
      | Some (JStr p), Some (JStr sha), Some (JInt maximum) =>
          if keys_are entry ["path"; "sha256"; "max_bytes"] && is_hash64 sha
             && Z.leb 1 maximum && Z.leb maximum MAX_TOTAL_BYTES
          then Some (mkArtifact (parse_path p) sha maximum) else None
      | _, _, _ => None
      end
  | _ => None
  end.

(** From the parsed manifest to the checked list of files. *)
Definition read_inventory (parsed : json) : option (list artifact) :=
  match parsed with
  | JObj manifest =>
      match assoc "schema" manifest, assoc "files" manifest with
      | Some (JStr schema), Some (JArr rows) =>
          if keys_are manifest ["schema"; "files"] && String.eqb schema "c3r-required-local-files-v1"
             && Z.leb 1 (lenZ rows) && Z.leb (lenZ rows) 32
          then files ← mapM read_row rows;
               if bool_decide (NoDup (map (fun a => path_str (af_path a)) files))
                  && Z.leb (sumZ (map af_max_bytes files)) MAX_TOTAL_BYTES
               then Some files else None
          else None
      | _, _ => None
      end
  | _ => None
  end.

Record PinnedLocalArtifacts : Type := mkPinned { pa_manifest : path; pa_expected_sha256 : string }.

(** [PinnedLocalArtifacts.__init__]. *)
Definition make_pinned (manifest : path) (expected_sha256 : string) : result PinnedLocalArtifacts :=
  if is_hash64 expected_sha256 then Ok (mkPinned manifest expected_sha256)
  else raise ValueError "independent required-file manifest SHA-256 pin required".

Definition verify_errors : list exn_kind := [OSError; ValueError; TypeError; RecursionError].

Section verification.
Context {W : Type} {files : LocalFiles W} (loads_bytes : string -> result json).

(** [all(hashlib.sha256(_read_regular(path, maximum)).hexdigest() == sha for ...)]. *)
Fixpoint all_match (inventory : list artifact) : io W bool :=
  match inventory with
  | [] => mret true
  | a :: rest =>
      data ← read_regular (af_path a) (af_max_bytes a);
      if String.eqb (sha256_hex data) (af_sha256 a) then all_match rest else mret false
  end.

(** [PinnedLocalArtifacts.verify]. *)
Definition verify_artifacts (a : PinnedLocalArtifacts) : io W bool :=
  io_try
    (raw ← read_regular (pa_manifest a) MAX_MANIFEST_BYTES;
     if negb (String.eqb (sha256_hex raw) (pa_expected_sha256 a)) then mret false
     else parsed ← lift (loads_bytes raw);
          match read_inventory parsed with
          | None => mret false
          | Some inventory => all_match inventory
          end)
    verify_errors (fun _ => mret false).
End verification.

(** ** What a read and a verification observe *)

Section facts.
Context {W : Type} {files : LocalFiles W}.

(** A read that went through: the path had no link in it, and the stream over it
    was a regular file within the bound, of the same size and times before and
    after its bytes were taken. *)
Definition read_observed (p : path) (maximum : Z) (data : string) (w w' : W) : Prop :=
  is_absolute p = true /\ (len data <= maximum)%Z
  /\ exists w1 descriptor w2 w3 before w4 w5 after w6,
       any_symlink (with_parents p) w = (Ok false, w1)
       /\ fs_open p w1 = (Ok descriptor, w2) /\ fs_fdopen descriptor w2 = (Ok tt, w3)
       /\ fs_fstat descriptor w3 = (Ok before, w4) /\ st_regular before = true
       /\ (st_size before <= maximum)%Z
       /\ fs_read descriptor (maximum + 1) w4 = (Ok data, w5)
       /\ fs_fstat descriptor w5 = (Ok after, w6) /\ st_size after = st_size before
       /\ st_mtime_ns after = st_mtime_ns before /\ st_ctime_ns after = st_ctime_ns before
       /\ fs_close descriptor w6 = (Ok tt, w').

Lemma read_stable_ok descriptor maximum data w w' :
  read_stable descriptor maximum w = (Ok data, w') ->
  (len data <= maximum)%Z
  /\ exists before w4 w5 after,
       fs_fstat descriptor w = (Ok before, w4) /\ st_regular before = true
       /\ (st_size before <= maximum)%Z
       /\ fs_read descriptor (maximum + 1) w4 = (Ok data, w5)
       /\ fs_fstat descriptor w5 = (Ok after, w') /\ st_size after = st_size before
       /\ st_mtime_ns after = st_mtime_ns before /\ st_ctime_ns after = st_ctime_ns before.
Proof.
  unfold read_stable. intros H. apply io_bind_ok in H as (before & w4 & Hb & H).
  apply io_bind_ok in H as (u & w4' & Hu & H). apply lift_ok in Hu as [Hu ->]. apply raise_if_ok in Hu.
  apply io_bind_ok in H as (read & w5 & Hr & H). apply io_bind_ok in H as (after & w6 & Ha & H).
  apply io_bind_ok in H as (v & w6' & Hv & H). apply lift_ok in Hv as [Hv ->]. apply raise_if_ok in Hv.
  apply pair_equal_spec in H as [[= ->] ->]. bool_hyps.
  repeat match goal with E : Z.eqb _ _ = true |- _ => apply Z.eqb_eq in E end.
  split; [lia|]. exists before, w4, w5, after. naive_solver.
Qed.

Lemma read_regular_ok p maximum data w w' :
  read_regular p maximum w = (Ok data, w') -> read_observed p maximum data w w'.
Proof.
  unfold read_regular. intros H. apply io_bind_ok in H as (refused & w1 & Hr & H).
  apply io_bind_ok in H as (u & w1' & Hu & H). apply lift_ok in Hu as [Hu ->].
  apply raise_if_ok in Hu as ->.
  apply io_bind_ok in H as (descriptor & w2 & Ho & H). apply io_bind_ok in H as ([] & w3 & Hf & H).
  unfold io_finally in H.
  destruct (read_stable descriptor maximum w3) as [r w6] eqn:Es.
  destruct (fs_close descriptor w6) as [[[]|e] w7] eqn:Ec; [|done].
  apply pair_equal_spec in H as [-> ->]. apply read_stable_ok in Es as (Hl & b & w4 & w5 & a & Es).
  destruct (is_absolute p) eqn:Ea; cbn [negb] in Hr; [|by apply pair_equal_spec in Hr as [? _]].
  split; [done|]. split; [done|]. destruct Es as (H1 & H2 & H3 & H4 & H5 & H6 & H7 & H8). exists w1, descriptor, w2, w3, b, w4, w5, a, w6. auto 20.
Qed.

(** Every file of the inventory read in turn, each with the declared hash. *)
Inductive matched : list artifact -> list string -> W -> W -> Prop :=
  | matched_nil w : matched [] [] w w
  | matched_cons a data rest datas w w1 w' :
      read_regular (af_path a) (af_max_bytes a) w = (Ok data, w1) ->
      sha256_hex data = af_sha256 a -> matched rest datas w1 w' ->
      matched (a :: rest) (data :: datas) w w'.

Lemma all_match_true inventory w w' :
  all_match inventory w = (Ok true, w') <-> exists datas, matched inventory datas w w'.
Proof.
  split.
  - revert w; induction inventory as [|a rest IH]; intros w H; cbn [all_match] in H.
    + apply pair_equal_spec in H as [_ <-]. eexists. constructor.
    + apply io_bind_ok in H as (data & w1 & Hr & H).
      destruct (String.eqb_spec (sha256_hex data) (af_sha256 a)) as [Hs|]; [|done].
      apply IH in H as [datas H]. eexists. by econstructor.
  - intros [datas H]. induction H as [w|a data rest datas w w1 w' Hr Hs _ IH]; [done|].
    cbn [all_match]. unfold mbind, io_bind. by rewrite Hr, Hs, String.eqb_refl.
Qed.

Lemma matched_bounded inventory datas w w' :
  matched inventory datas w w' -> (sumZ (map len datas) <= sumZ (map af_max_bytes inventory))%Z.
Proof.
  induction 1 as [|a data rest datas w w1 w' Hr _ _ IH]; cbn [map sumZ fold_right]; [done|].
  apply read_regular_ok in Hr as (_ & Hl & _). unfold sumZ in IH. lia.
Qed.

(** What every accepted inventory satisfies. *)
Definition admissible_artifact (a : artifact) : Prop :=
  is_hash64 (af_sha256 a) = true /\ (1 <= af_max_bytes a <= MAX_TOTAL_BYTES)%Z.

Definition admissible_inventory (inventory : list artifact) : Prop :=
  (1 <= length inventory <= 32) /\ NoDup (map af_path inventory)
  /\ (sumZ (map af_max_bytes inventory) <= MAX_TOTAL_BYTES)%Z /\ Forall admissible_artifact inventory.

Lemma read_row_ok raw a : read_row raw = Some a -> admissible_artifact a.
Proof.
  unfold read_row. destruct raw as [| | | | | |entry]; try done.
  destruct (assoc "path" entry) as [[| | | |p| |]|]; try done.
  destruct (assoc "sha256" entry) as [[| | | |sha| |]|]; try done.
  destruct (assoc "max_bytes" entry) as [[| |n| | | |]|]; try done.
  destruct (_ && _) eqn:E; [|done]. bool_hyps. intros [= <-]. split; cbn; [done|lia].
Qed.

Lemma read_inventory_ok parsed inventory :
  read_inventory parsed = Some inventory -> admissible_inventory inventory.
Proof.
  unfold read_inventory. destruct parsed as [| | | | | |manifest]; try done.
  destruct (assoc "schema" manifest) as [[| | | |schema| |]|]; try done.
  destruct (assoc "files" manifest) as [[| | | | |rows|]|]; try done.
  destruct (_ && _) eqn:E; [|done]. bool_hyps. intros Hi.
  apply bind_Some in Hi as (files' & Hm & Hi). destruct (_ && _) eqn:E2; [|done].
  injection Hi as <-. bool_hyps. apply mapM_Some in Hm. unfold lenZ in *.
  pose proof (Forall2_length _ _ _ Hm). split; [lia|]. split.
  - eapply (NoDup_fmap_1 path_str). by rewrite <- list_fmap_compose.
  - split; [done|]. clear -Hm. induction Hm; constructor; eauto using read_row_ok.
Qed.
End facts.

(** ** Properties *)

Section properties.
Context {W : Type} {files : LocalFiles W} (loads_bytes : string -> result json).

(** Everything outside that a verification calls fails with exceptions its
    handler names. *)
Definition tame_files : Prop :=
  (forall p, raises_within verify_errors (fs_is_symlink p))
  /\ (forall p, raises_within verify_errors (fs_open p))
  /\ (forall d, raises_within verify_errors (fs_fdopen d))
  /\ (forall d, raises_within verify_errors (fs_fstat d))
  /\ (forall d n, raises_within verify_errors (fs_read d n))
  /\ (forall d, raises_within verify_errors (fs_close d))
  /\ (forall s e, loads_bytes s = Raise e -> caught_by verify_errors (exn_class e) = true).

Lemma read_regular_tame p maximum : tame_files -> raises_within verify_errors (read_regular p maximum).
Proof.
  intros (Hl & Ho & Hf & Hs & Hr & Hc & _).
  assert (forall ps, raises_within verify_errors (any_symlink ps)).
  { induction ps as [|q ps IH]; cbn [any_symlink]; [apply raises_ret|].
    apply raises_bind; [done|]. intros [|]; [apply raises_ret|done]. }
  unfold read_regular, read_stable. apply raises_bind; [by destruct (is_absolute p); cbn; auto with c3r|].
  intros refused. apply raises_bind; [by apply raises_raise_if|]. intros _.
  apply raises_bind; [done|]. intros d. apply raises_bind; [done|]. intros _.
  apply raises_finally; [|done]. apply raises_bind; [done|]. intros b.
  apply raises_bind; [by apply raises_raise_if|]. intros _. apply raises_bind; [done|]. intros data.
  apply raises_bind; [done|]. intros a. apply raises_bind; [by apply raises_raise_if|]. intros _.
  apply raises_ret.
Qed.

(** A verification answers true exactly when the manifest was read as a
    bounded regular file whose hash is the independent pin, it parses to an
    accepted inventory, and every file of the inventory was then read in turn
    with the declared hash; such an inventory names between one and 32 distinct
    files, and the bytes read for it stay within 64 MiB. *)
Theorem verification_is_exact a w w' :
  (verify_artifacts loads_bytes a w = (Ok true, w')
   <-> exists raw w1 parsed inventory datas,
         read_regular (pa_manifest a) MAX_MANIFEST_BYTES w = (Ok raw, w1)
         /\ sha256_hex raw = pa_expected_sha256 a /\ loads_bytes raw = Ok parsed
         /\ read_inventory parsed = Some inventory /\ matched inventory datas w1 w')
  /\ (forall parsed inventory datas w1, read_inventory parsed = Some inventory ->
       matched inventory datas w1 w' ->
       admissible_inventory inventory /\ length datas = length inventory
       /\ (sumZ (map len datas) <= MAX_TOTAL_BYTES)%Z).
Proof.
  split; [split|].
  - unfold verify_artifacts. intros H. unfold io_try in H.
    match type of H with (match ?m with _ => _ end) = _ => destruct m as [[b|e] w1] eqn:E end.
    + apply pair_equal_spec in H as [[= ->] ->]. apply io_bind_ok in E as (raw & w1 & Hr & E).
      destruct (String.eqb_spec (sha256_hex raw) (pa_expected_sha256 a)) as [Hs|]; cbn [negb] in E; [|done].
      apply io_bind_ok in E as (parsed & w2 & Hp & E). apply lift_ok in Hp as [Hp ->].
      destruct (read_inventory parsed) as [inventory|] eqn:Ei; [|done].
      apply all_match_true in E as [datas E]. by exists raw, w1, parsed, inventory, datas.
    + destruct (caught_by _ _); [by apply pair_equal_spec in H as [? _]|done].
  - intros (raw & w1 & parsed & inventory & datas & Hr & Hs & Hp & Hi & Hm).
    unfold verify_artifacts, io_try, mbind, io_bind, lift.
    rewrite Hr, Hs, String.eqb_refl. cbn [negb]. rewrite Hp, Hi.
    assert (all_match inventory w1 = (Ok true, w')) as -> by (apply all_match_true; eauto). done.
  - intros parsed inventory datas w1 Hi Hm. pose proof (read_inventory_ok _ _ Hi) as Ha.
    split; [done|]. apply matched_bounded in Hm as Hlen. destruct Ha as (_ & _ & Hb & _).
    split; [clear -Hm; induction Hm; cbn; congruence | lia].
Qed.

(** Two verifications under one pin check one inventory, as far as the hash has
    no collision between the two manifests read. *)
Theorem pin_determines_inventory a raw1 raw2 :
  sha256_hex raw1 = pa_expected_sha256 a -> sha256_hex raw2 = pa_expected_sha256 a ->
  (sha256_hex raw1 = sha256_hex raw2 -> raw1 = raw2) ->
  (p ← loads_bytes raw1; Ok (read_inventory p)) = (p ← loads_bytes raw2; Ok (read_inventory p)).
Proof. intros H1 H2 Hc. rewrite Hc; [done|]. by rewrite H1, H2. Qed.

(** A verification never raises, whatever it reads, as long as the file
    system and the parser fail with OSError, ValueError, TypeError or
    RecursionError: it answers true or false. *)
Theorem verification_fails_closed a w :
  tame_files -> exists b w', verify_artifacts loads_bytes a w = (Ok b, w').
Proof.
  intros Ht. apply try_returns. apply raises_bind; [by apply read_regular_tame|]. intros raw.
  destruct (negb _); [apply raises_ret|]. apply raises_bind.
  - apply raises_lift. destruct Ht as (_ & _ & _ & _ & _ & _ & Hl). destruct (loads_bytes raw) eqn:E; [done|].
    by eapply Hl.
  - intros parsed. destruct (read_inventory parsed) as [inventory|]; [|apply raises_ret].
    induction inventory as [|x rest IH]; cbn [all_match]; [apply raises_ret|].
    apply raises_bind; [by apply read_regular_tame|]. intros data.
    destruct (String.eqb _ _); [done|apply raises_ret].
Qed.

(** A stream that cannot be made over an open descriptor (a directory, which
    [os.open] accepts and [os.fdopen] refuses) leaves it open: the read ends with
    that exception and no close. *)
Theorem failed_stream_leaks_descriptor p maximum w w1 descriptor w2 e w3 :
  is_absolute p = true -> any_symlink (with_parents p) w = (Ok false, w1) ->
  fs_open p w1 = (Ok descriptor, w2) -> fs_fdopen descriptor w2 = (Raise e, w3) ->
  read_regular p maximum w = (Raise e, w3).
Proof.
  intros Ha Hl Ho Hf. unfold read_regular, mbind, io_bind. rewrite Ha. cbn [negb]. rewrite Hl. cbn.
  by rewrite Ho, Hf.
Qed.
End properties.

(** ** A concrete file system *)

Module Example1.
(** Files by path, and the descriptors open with what each still holds; the
    directory "/srv" has no stream. *)
Record disk : Type := mkDisk { contents : list (string * string); opened : list string; directory : string }.

Definition stat_of (data : string) : file_stat := mkStat true (len data) 0 0.

#[export] Instance disk_files : LocalFiles disk := {|
  fs_is_symlink p d := (Ok false, d);
  fs_open p d :=
    let name := path_str p in
    if String.eqb name (directory d) then (Ok (lenZ (opened d)), mkDisk (contents d) (opened d ++ [""])%list (directory d))
    else match assoc name (contents d) with
         | Some data => (Ok (lenZ (opened d)), mkDisk (contents d) (opened d ++ [data])%list (directory d))
         | None => (raise OSError name, d)
         end;
  fs_fdopen n d := match opened d !! Z.to_nat n with
                   | Some "" => (raise OSError "Is a directory", d)
                   | _ => (Ok tt, d)
                   end;
  fs_fstat n d := (Ok (stat_of (default "" (opened d !! Z.to_nat n))), d);
  fs_read n m d := (Ok (String.substring 0 (Z.to_nat m) (default "" (opened d !! Z.to_nat n))), d);
  fs_close n d := (Ok tt, mkDisk (contents d) (take (Z.to_nat n) (opened d)) (directory d)) |}.

Definition receipt : string := "weights receipt".

Definition manifest_text : string :=
  Eval vm_compute in
  match dumps canonical_options (JObj [("schema", JStr "c3r-required-local-files-v1");
    ("files", JArr [JObj [("path", JStr "/opt//receipt"); ("sha256", JStr (sha256_hex receipt));
                          ("max_bytes", JInt 64)]])]) with Ok s => s | Raise _ => "" end.

Definition pinned : PinnedLocalArtifacts :=
  Eval vm_compute in mkPinned (parse_path "/etc/c3r.json") (sha256_hex manifest_text).

Definition honest : disk := mkDisk [("/etc/c3r.json", manifest_text); ("/opt/receipt", receipt)] [] "/srv".
Definition tampered : disk := mkDisk [("/etc/c3r.json", manifest_text); ("/opt/receipt", "other")] [] "/srv".
End Example1.
Import Example1.

(** The honest disk verifies, a changed receipt does not, and neither leaves a
    descriptor open. *)
Example verification_runs :
  verify_artifacts loads pinned honest = (Ok true, honest)
  /\ verify_artifacts loads pinned tampered = (Ok false, tampered).
Proof. by vm_compute. Qed.

Lemma verification_fails_closed_witness :
  @tame_files disk _ loads /\ exists b w', verify_artifacts loads pinned tampered = (Ok b, w').
Proof.
  assert (Ht : @tame_files disk _ loads).
  { repeat split.
    - intros p d. unfold wp. cbn. destruct (String.eqb _ _); [done|]. by destruct (assoc _ _).
    - intros n d. unfold wp. cbn. by destruct (opened d !! Z.to_nat n) as [[]|].
    - intros s e H. unfold loads in H. destruct (scan_value _ _) as [[v rest]|]; [|by injection H as <-].
      destruct (skip_ws rest); [done|by injection H as <-]. }
  split; [exact Ht|]. exact (verification_fails_closed loads pinned tampered Ht).
Defined.

Example directory_stays_open :
  read_regular (parse_path "/srv") 64 honest
  = (raise OSError "Is a directory", mkDisk (contents honest) [""] "/srv").
Proof. by vm_compute. Qed.
