(* ===== verification/InternalReadiness.v ===== *)
(** * The maintenance channel ([c3r/internal_readiness.py])

    An authenticated loopback server that answers whether the host may take
    traffic again: two live, distinct API workers, a probe whose four checks all
    hold, and a hash that names the artifact manifest.  Threads, the stop event
    and the probe act on a world [W]. *)

From Stdlib Require Import Lia ZArith Ascii String.
From stdpp Require Import base option strings gmap list.
From S2P Require Import Prelude Effects PyStr Json Hash StateSchema.

Local Open Scope string_scope.

Definition CHECKS : list string := ["runtime"; "clm_qwen"; "deepseek"; "required_local_artifact_files"].

Definition PIN_FIELD : string := "required_local_artifact_manifest_sha256".

(** The threads and the stop event of the process, by the threads' identity. *)
Class Threads (W T : Type) : Type := {
  stopping_is_set : io W bool;
  is_alive : T -> io W bool }.

(** [irs_probe] returns any object, here as JSON: only a dict is a Mapping. *)
Record InternalReadinessServer (W T : Type) : Type := mkInternal {
  irs_token : string;
  irs_probe : option (io W json);
  irs_api_workers : list T }.
#[global] Arguments mkInternal {W T}.
#[global] Arguments irs_token {W T}.
#[global] Arguments irs_probe {W T}.
#[global] Arguments irs_api_workers {W T}.

(** [InternalReadinessServer.__init__], before the socket is bound. *)
Definition make_internal {W T} (s : InternalReadinessServer W T) : result (InternalReadinessServer W T) :=
  if Z.ltb (len (irs_token s)) 32
  then raise ValueError "internal readiness token must have at least 32 characters"
  else Ok s.

(** A response: status, headers and body. *)
Record ready_reply : Type := mkReadyReply {
  rr_status : Z; rr_headers : list (string * string); rr_body : string }.

Section channel.
Context {W T : Type} `{!EqDecision T} {threads : Threads W T} (s : InternalReadinessServer W T).

(** [all(worker.is_alive() for worker in workers)]. *)
Fixpoint all_alive (workers : list T) : io W bool :=
  match workers with
  | [] => mret true
  | t :: rest => alive ← is_alive t; if (alive : bool) then all_alive rest else mret false
  end.

(** [api_workers_alive]. *)
Definition api_workers_alive : io W bool :=
  stopping ← stopping_is_set (T := T);
  if (stopping : bool) then mret false
  else match irs_api_workers s with
       | [a; b] => if bool_decide (a = b) then mret false else all_alive [a; b]
       | _ => mret false
       end.

(** [report.get(name) is True]. *)
Definition holds (report : list (string * json)) (name : string) : bool :=
  match assoc name report with Some (JBool b) => b | _ => false end.

(** The pin, when it is a hash. *)
Definition pin_of (report : list (string * json)) : option string :=
  match assoc PIN_FIELD report with
  | Some (JStr pin) => if is_hash64 pin then Some pin else None
  | _ => None
  end.

Definition ready_document (ready : bool) (checks : list (string * bool)) (pin : option string)
    : list (string * json) :=
  [("status", JStr (if ready then "ready" else "not_ready"));
   ("checks", JObj (map (fun c => (fst c, JBool (snd c))) checks));
   ("artifact_scope", JStr "required_local_files_not_deepseek_weight_attestation");
   (PIN_FIELD, json_opt pin)].

Definition probe_errors : list exn_kind := [OSError; RuntimeError; TypeError; ValueError; KeyError].

(** The report of the probe; an absent or failing probe, and one that returns no
    mapping, reports nothing. *)
Definition probed (alive : bool) : io W (list (string * json)) :=
  match irs_probe s with
  | Some probe =>
      if alive
      then io_try (raw ← probe; mret (match raw with JObj report => report | _ => [] end))
             probe_errors (fun _ => mret [])
      else mret []
  | None => mret []
  end.

(** [do_GET] up to the call of [_send]: the status and the document. *)
Definition ready_answer (path : string) (authorization : list string) : io W (Z * list (string * json)) :=
  if negb (String.eqb path "/internal/ready") then mret (404%Z, [("error", JStr "not_found")])
  else if negb (match authorization with
                | [supplied] => compare_digest (utf8 ("Bearer " ++ irs_token s)) (utf8 supplied)
                | _ => false
                end)
  then mret (401%Z, [("error", JStr "unauthorized")])
  else
    alive ← api_workers_alive;
    report ← probed alive;
    running ← (if holds report "runtime" then api_workers_alive else mret false);
    let checks := ("runtime", running) :: map (fun name => (name, holds report name)) (tail CHECKS) in
    let ready := forallb snd checks && bool_decide (is_Some (pin_of report)) in
    mret (if ready then 200%Z else 503%Z, ready_document ready checks (pin_of report)).

(** [_send]. *)
Definition ready_send (write : ready_reply -> io W unit) (status : Z) (value : list (string * json)) : io W unit :=
  text ← lift (dumps compact_options (JObj value));
  let body := utf8 text in
  write (mkReadyReply status
           [("Content-Type", "application/json"); ("Cache-Control", "no-store");
            ("Content-Length", str_of_Z (len body))] body).

Definition ready_do_GET (write : ready_reply -> io W unit) (path : string) (authorization : list string) : io W unit :=
  answer ← ready_answer path authorization;
  ready_send write (fst answer) (snd answer).

Definition ready_do_POST (write : ready_reply -> io W unit) : io W unit :=
  ready_send write 405 [("error", JStr "method_not_allowed")].
End channel.

(** ** Properties *)

Section properties.
Context {W T : Type} `{!EqDecision T} {threads : Threads W T} (s : InternalReadinessServer W T).

Definition authenticated (authorization : list string) : Prop :=
  exists supplied, authorization = [supplied] /\ utf8 supplied = utf8 ("Bearer " ++ irs_token s).

Lemma authentication_spec authorization :
  match authorization with
  | [supplied] => compare_digest (utf8 ("Bearer " ++ irs_token s)) (utf8 supplied)
  | _ => false
  end = true <-> authenticated authorization.
Proof.
  unfold authenticated, compare_digest. split.
  - destruct authorization as [|x [|]]; [done| |done]. intros H%String.eqb_eq. eauto.
  - intros (x & -> & Hx). by apply String.eqb_eq.
Qed.

(** Two live and distinct workers, and no stop requested. *)
Lemma api_workers_alive_true w w' :
  api_workers_alive s w = (Ok true, w') ->
  exists a b w1 w2, irs_api_workers s = [a; b] /\ a <> b
  /\ stopping_is_set (T := T) w = (Ok false, w1) /\ is_alive a w1 = (Ok true, w2)
  /\ is_alive b w2 = (Ok true, w').
Proof.
  unfold api_workers_alive. intros H. apply io_bind_ok in H as ([|] & w1 & Hs & H).
  { by apply pair_equal_spec in H as [? _]. }
  destruct (irs_api_workers s) as [|a [|b [|]]];
    try (apply pair_equal_spec in H as [? _]; discriminate).
  destruct (bool_decide_reflect (a = b)); [by apply pair_equal_spec in H as [? _]|].
  cbn [all_alive] in H. apply io_bind_ok in H as ([|] & w2 & Ha & H);
    [|by apply pair_equal_spec in H as [? _]].
  apply io_bind_ok in H as ([|] & w3 & Hb & H); [|by apply pair_equal_spec in H as [? _]].
  apply pair_equal_spec in H as [_ <-]. by exists a, b, w1, w2.
Qed.

Lemma probed_holds alive w report w' name :
  probed s alive w = (Ok report, w') -> holds report name = true ->
  alive = true /\ exists probe, irs_probe s = Some probe /\ probe w = (Ok (JObj report), w').
Proof.
  intros H Hn. unfold probed in H.
  assert (Hempty : forall w1 : W, (Ok (A := list (string * json)) [], w1) <> (Ok report, w')).
  { intros w1 E. apply pair_equal_spec in E as [[= <-] _]. done. }
  destruct (irs_probe s) as [probe|]; [|by apply Hempty in H].
  destruct alive; [|by apply Hempty in H]. split; [done|]. exists probe. split; [done|].
  unfold io_try, mbind, io_bind in H. destruct (probe w) as [[j|e] w1].
  - apply pair_equal_spec in H as [[= Hj] <-]. destruct j; subst; cbn in Hn; try done.
  - destruct (caught_by _ _); [by apply Hempty in H|done].
Qed.

(** What an answer of status 200 rests on. *)
Definition ready_grounds (path : string) (authorization : list string) (w : W)
    (doc : list (string * json)) (w' : W) : Prop :=
  path = "/internal/ready" /\ authenticated authorization
  /\ exists w1 probe report w2 pin,
       api_workers_alive s w = (Ok true, w1)
       /\ irs_probe s = Some probe /\ probe w1 = (Ok (JObj report), w2)
       /\ (forall name, name ∈ CHECKS -> assoc name report = Some (JBool true))
       /\ assoc PIN_FIELD report = Some (JStr pin) /\ is_hash64 pin = true
       /\ api_workers_alive s w2 = (Ok true, w')
       /\ doc = ready_document true (map (fun name => (name, true)) CHECKS) (Some pin).

Lemma holds_true report name : holds report name = true -> assoc name report = Some (JBool true).
Proof. unfold holds. by destruct (assoc name report) as [[| [|] | | | | |]|]. Qed.

Lemma pin_of_some report pin :
  pin_of report = Some pin -> assoc PIN_FIELD report = Some (JStr pin) /\ is_hash64 pin = true.
Proof.
  unfold pin_of. destruct (assoc PIN_FIELD report) as [[| | | |p| |]|]; try done.
  destruct (is_hash64 p) eqn:Eh; [|done]. by intros [= ->].
Qed.

(** The part of the handler behind the path and the credential. *)
Lemma answer_ready authorization w status doc w' :
  authenticated authorization ->
  ready_answer s "/internal/ready" authorization w = (Ok (status, doc), w') ->
  status = 503%Z \/ status = 200%Z /\ ready_grounds "/internal/ready" authorization w doc w'.
Proof.
  intros Hauth H. pose proof Hauth as Ha%authentication_spec. unfold ready_answer in H. rewrite Ha in H.
  cbn [String.eqb negb] in H. cbn in H.
  apply io_bind_ok in H as (alive & w1 & Hal & H). apply io_bind_ok in H as (report & w2 & Hr & H).
  apply io_bind_ok in H as (running & w3 & Hrun & H). cbv zeta in H.
  apply pair_equal_spec in H as [[= Hs Hdoc] ->].
  destruct (_ && bool_decide _) eqn:Eall; [|by left]. right. split; [done|].
  cbn [forallb snd map tail CHECKS] in Eall. bool_hyps.
  match goal with E : is_Some (pin_of report) |- _ => destruct E as [pin Epin] end.
  assert (Hrt : holds report "runtime" = true).
  { destruct (holds report "runtime"); [done|]. by apply pair_equal_spec in Hrun as [[= <-] _]. }
  rewrite Hrt in Hrun. destruct (probed_holds _ _ _ _ _ Hr Hrt) as [-> (probe & Hprobe & Hrep)].
  subst running. apply pin_of_some in Epin as Hpin.
  split; [done|]. split; [done|]. exists w1, probe, report, w2, pin.
  split; [done|]. split; [done|]. split; [done|]. split.
  - intros name Hin. apply holds_true. unfold CHECKS in Hin. set_solver.
  - split; [apply Hpin|]. split; [apply Hpin|]. split; [done|]. rewrite <- Hdoc, Epin.
    cbn [map tail CHECKS]. congruence.
Qed.

(** A request for another path, or without the credential, is refused unseen. *)
Lemma answer_refused path authorization w :
  path <> "/internal/ready" \/ ~ authenticated authorization ->
  exists status doc, ready_answer s path authorization w = (Ok (status, doc), w) /\ status ∈ [401; 404]%Z.
Proof.
  intros H. unfold ready_answer.
  destruct (String.eqb_spec path "/internal/ready") as [->|]; cbn [negb];
    [|eexists _, _; split; [done|set_solver]].
  destruct (match authorization with [_] => _ | _ => _ end) eqn:E; cbn [negb];
    [|eexists _, _; split; [done|set_solver]].
  apply authentication_spec in E. by destruct H.
Qed.

Lemma answer_cases path authorization w status doc w' :
  ready_answer s path authorization w = (Ok (status, doc), w') ->
  status ∈ [401; 404; 503]%Z \/ status = 200%Z /\ ready_grounds path authorization w doc w'.
Proof.
  intros H.
  destruct (decide (path = "/internal/ready")) as [->|Hp];
    [|destruct (answer_refused path authorization w (or_introl Hp)) as (st & d & E & Hst);
      rewrite E in H; injection H as <- <- <-; left; set_solver].
  destruct (match authorization with
            | [supplied] => compare_digest (utf8 ("Bearer " ++ irs_token s)) (utf8 supplied)
            | _ => false
            end) eqn:Ea.
  - apply authentication_spec in Ea. destruct (answer_ready _ _ _ _ _ Ea H) as [->|]; [left; set_solver|by right].
  - destruct (answer_refused "/internal/ready" authorization w) as (st & d & E & Hst).
    { right. intros Hauth%authentication_spec. congruence. }
    rewrite E in H. injection H as <- <- <-. left. set_solver.
Qed.
(** The maintenance channel answers 200 only to an authenticated request for
    the readiness path, while two distinct API workers were alive and no stop was
    requested both before and after the probe, and only when that probe, run for
    this request, reported all four checks true and a SHA-256 as the manifest's
    pin, which the document repeats; every other answer is 401, 404 or 503, and a
    request without the credential changes nothing, the probe included. *)
Theorem ready_means_ready path authorization w :
  (forall status doc w', ready_answer s path authorization w = (Ok (status, doc), w') ->
     status ∈ [401; 404; 503]%Z
     \/ status = 200%Z /\ ready_grounds path authorization w doc w')
  /\ (path <> "/internal/ready" \/ ~ authenticated authorization -> exists status doc,
        ready_answer s path authorization w = (Ok (status, doc), w) /\ status ∈ [401; 404]%Z).
Proof.
  split; [intros status doc w'; apply answer_cases|apply answer_refused].
Qed.
End properties.

(** ** A concrete host *)

Module Example1.
(** The stop event, and the names of the live threads. *)
#[export] Instance host_threads : Threads (bool * list string) string := {|
  stopping_is_set w := (Ok (fst w), w);
  is_alive t w := (Ok (bool_decide (t ∈ snd w)), w) |}.

Definition token : string := "0123456789abcdef0123456789abcdef".
Definition pin : string := "b2b4a8c9c2d39263eff78a351eb909a342ce9b3bf21a3f07c1d1bf15f1c4eda5".

Definition report : list (string * json) :=
  (map (fun name => (name, JBool true)) CHECKS ++ [(PIN_FIELD, JStr pin)])%list.

Definition server (workers : list string) : InternalReadinessServer (bool * list string) string :=
  mkInternal token (Some (fun w => (Ok (JObj report), w))) workers.

Definition status_of {W A} (r : result (Z * A) * W) : option Z :=
  match r with (Ok (n, _), _) => Some n | _ => None end.

Definition asked (workers alive : list string) (stopping : bool) (supplied : string) : option Z :=
  status_of (ready_answer (server workers) "/internal/ready" [supplied] (stopping, alive)).
End Example1.
Import Example1.

(** Ready; one worker dead; one worker listed twice; stopping; wrong token. *)
Example readiness_runs :
  let bearer := ("Bearer " ++ token)%string in
  asked ["api"; "ingress"] ["api"; "ingress"] false bearer = Some 200%Z
  /\ asked ["api"; "ingress"] ["api"] false bearer = Some 503%Z
  /\ asked ["api"; "api"] ["api"] false bearer = Some 503%Z
  /\ asked ["api"; "ingress"] ["api"; "ingress"] true bearer = Some 503%Z
  /\ asked ["api"; "ingress"] ["api"; "ingress"] false token = Some 401%Z.
Proof. by vm_compute. Qed.
