(* ===== verification/ProductionHost.v ===== *)
(** * The production host ([c3r/production_host.py], [c3r/host_components.py],
      [c3r/readiness.py])

    The composition for stateless inference: the readiness checks of the local
    models, the configuration the host refuses to start without, and the closure
    behind the maintenance channel.  The HTTP exchanges, the clock and the file
    system act on a world [E], which also holds the cells of the two cached
    checks. *)

From Stdlib Require Import Lia ZArith Ascii String.
From stdpp Require Import base option strings gmap list.
From S2P Require Import Prelude Effects PyStr PySort PyFloat FloatRepr Json Hash StateSchema.
From S2P Require StateCompiler CandidateCompiler.
From S2P Require Import Cvoc Authority VerifierFirewall TraceLedger Sinks SystemOne Invocations.
From S2P Require Import ClmAdapter Inference Controls Providers Runtime HostFactory Responses.
From S2P Require Import LocalArtifacts InternalReadiness.

Local Open Scope string_scope.

Definition ENCODER_REVISION : string := "b968826d9c46dd6066d109eabc6255188de91218".
Definition HEAD_REVISION : string := "e939398d4556fcd9400c76fa8c5a513202f42b0a".
Definition HEAD_SHA256 : string := "b2b4a8c9c2d39263eff78a351eb909a342ce9b3bf21a3f07c1d1bf15f1c4eda5".
Definition UPSTREAM_CLM_COMMIT : string := "bb42c6c5bf914fd449bed2f6ca65be80602cb1f7".

(** The two cached checks of a [ProviderReadiness]. *)
Class ReadinessCells (E : Type) : Type := {
  cell_system_one : E -> CachedReadiness;
  set_system_one : CachedReadiness -> E -> E;
  cell_deliberative : E -> CachedReadiness;
  set_deliberative : CachedReadiness -> E -> E }.

(** ** Readbacks *)

(** [v == n] for an integer or a boolean [n]. *)
Definition equals_int (n : Z) (v : option json) : bool :=
  match v with
  | Some (JInt m) => Z.eqb m n
  | Some (JBool b) => Z.eqb (if b then 1 else 0) n
  | Some (JFloat x) => match compare_Z x n with Some Eq => true | _ => false end
  | _ => false
  end.

(** [artifact.get(key) == value], for the values of [expected]. *)
Definition equals_expected (v : option json) (value : json) : bool :=
  match value with
  | JStr s => match v with Some (JStr t) => String.eqb t s | _ => false end
  | JInt n => equals_int n v
  | JBool b => equals_int (if b then 1 else 0) v
  | _ => false
  end.

Definition expected_artifact (container_digest : string) : list (string * json) :=
  [("clm_source_revision", JStr UPSTREAM_CLM_COMMIT); ("encoder", JStr "Qwen/Qwen3-8B");
   ("encoder_revision", JStr ENCODER_REVISION); ("head_revision", JStr HEAD_REVISION);
   ("head_sha256", JStr HEAD_SHA256); ("container_digest", JStr container_digest);
   ("embedding_cache_size", JInt 0); ("action_cache_enabled", JBool false);
   ("encoder_content_verified", JBool true);
   ("encoder_identity_basis", JStr "immutable_upstream_git_blobs_and_lfs_sha256")].

Definition artifact_matches (container_digest : string) (artifact : list (string * json)) : bool :=
  forallb (fun kv => equals_expected (assoc (fst kv) artifact) (snd kv)) (expected_artifact container_digest).

Definition string_is (v : option json) (s : string) : bool :=
  match v with Some (JStr t) => String.eqb t s | _ => false end.

(** A model is listed under its identifier and, when asked, its root. *)
Definition lists_model (models : list (string * json)) (wanted : list (string * string)) : bool :=
  match assoc "data" models with
  | Some (JArr rows) =>
      existsb (fun row => match row with
                          | JObj m => forallb (fun kv => string_is (assoc (fst kv) m) (snd kv)) wanted
                          | _ => false
                          end) rows
  | _ => false
  end.

Definition healthy (health : list (string * json)) : bool :=
  match assoc "embedder" health with Some (JBool b) => b | _ => false end
  && match assoc "mock" health with None | Some (JBool false) => true | _ => false end.

Section readiness.
Context {E : Type} `{!HasCounts E, !ReadinessCells E} (http_get : string -> io E string)
  (loads_bytes : string -> result json) (monotonic : io E float)
  (urlparse : string -> result split_url) (prompt : string)
  (clm_transport : ClmAdapter -> list (string * json) -> float -> io E (list (string * json)))
  (transport : string -> list (string * string) -> list (string * json) -> io E TransportResponse)
  (adapter : ClmAdapter) (container_digest : string).

(** [ProviderReadiness._get]; [http_get] opens the URL without proxy or redirect
    and reads at most 65,537 bytes. *)
Definition readback (url : string) : io E (list (string * json)) :=
  body ← http_get url;
  _ ← lift (raise_if (Z.ltb 65536 (len body)) ValueError "oversized provider readback");
  value ← lift (loads_bytes body);
  match value with
  | JObj mapping => mret mapping
  | _ => lift (raise ValueError "invalid provider readback")
  end.

(** [_system_one]. *)
Definition system_one_check : io E bool :=
  io_try
    (models ← readback "http://127.0.0.1:8090/v1/models";
     if negb (lists_model models [("id", "qwen3-8b"); ("root", "/encoder")]) then mret false
     else
       health ← readback (clm_endpoint adapter ++ "/health");
       if negb (healthy health) then mret false
       else
         artifact ← readback (clm_endpoint adapter ++ "/internal/clm/artifact");
         if negb (artifact_matches container_digest artifact) then mret false
         else
           scores ← rank_text monotonic clm_transport adapter "An invoice was charged twice."
                      "Which department handles billing?" ["Billing"; "Technical"] None;
           mret (Z.eqb (lenZ scores) 2))
    [OSError; ValueError; TypeError; KeyError] (fun _ => mret false).

Definition readiness_provider : ProviderConfig :=
  mkProvider "deepseek-readiness" OPENAI_COMPATIBLE "http://127.0.0.1:8000/v1" "/model" None (float_of_Z 5).

(** [_deliberative]. *)
Definition deliberative_check : io E bool :=
  io_try
    (models ← readback "http://127.0.0.1:8000/v1/models";
     if negb (lists_model models [("id", "/model")]) then mret false
     else
       config ← lift (make_provider urlparse readiness_provider);
       generated ← generate prompt transport config "Reply with the word ready only." 256;
       mret (nonempty (strip (fst (fst generated)))))
    [OSError; RuntimeError; ValueError; TypeError] (fun _ => mret false).

(** [self.system_one()] and [self.deliberative()]. *)
Definition cached_system_one : io E bool := fun e =>
  let '(r, c, e') := call_readiness monotonic system_one_check (cell_system_one e) e in (r, set_system_one c e').
Definition cached_deliberative : io E bool := fun e =>
  let '(r, c, e') := call_readiness monotonic deliberative_check (cell_deliberative e) e in (r, set_deliberative c e').

(** [all]. *)
Definition all_ready : io E bool :=
  ok ← cached_system_one; if (ok : bool) then cached_deliberative else mret false.

(** [fresh_maintenance_checks]: past the caches. *)
Definition fresh_maintenance_checks : io E (list (string * json)) :=
  system_one ← system_one_check;
  deliberative ← deliberative_check;
  mret [("clm_qwen", JBool system_one); ("deepseek", JBool deliberative)].
End readiness.

(** ** The composition *)

Record HostComponents (E : Type) : Type := mkComponents {
  hc_runtime : StandaloneController E text_deliberation;
  hc_factory : list (string * json) -> io E RuntimeRequest;
  hc_system_one : ClmAdapter * option (io E bool);
  hc_responses : @ResponsesService E;
  hc_internal_readiness : option (io E json) }.
#[global] Arguments mkComponents {E}.
#[global] Arguments hc_runtime {E}.
#[global] Arguments hc_factory {E}.
#[global] Arguments hc_system_one {E}.
#[global] Arguments hc_responses {E}.
#[global] Arguments hc_internal_readiness {E}.

(** The environment's answer to one of the two collection switches. *)
Definition switched_off (values : gmap string string) (field : string) : bool :=
  bool_decide (lower (default "false" (values !! field)) ∈ ["false"; "off"; "0"]).

(** The checks of [build] before anything is constructed. *)
Definition check_environment (values : gmap string string) : result (FeatureFlags * string) :=
  flags ← flags_from_mapping values;
  _ ← raise_if (negb (enabled_requested flags) || negb (system_one_enabled flags)
                || negb (deliberative_enabled flags) || negb (String.eqb (system_one_provider flags) "clm"))
        ValueError "production host requires enabled CLM and deliberative inference";
  _ ← raise_if (negb (bool_decide (values !! "C3R_MODE" = Some "production_inference")))
        ValueError "production host requires production_inference mode";
  _ ← raise_if (negb (forallb (switched_off values) ["C3R_TRACE_COLLECTION"; "C3R_ONLINE_LEARNING"]))
        ValueError "production host cannot collect or learn online";
  let container := default "" (values !! "C3R_CLM_CONTAINER_DIGEST") in
  _ ← raise_if (negb (Z.eqb (len container) 71) || negb (startswith container "sha256:"))
        ValueError "measured immutable CLM container identity required";
  Ok (flags, container).

(** The only verifier of the host. *)
Definition recommendation_verifier : Verifier := fun candidate =>
  Ok (mkVerifierDecision (bool_decide (ac_risk_class candidate = READ_ONLY))
        "read-only recommendation; no tool execution or truth claim").

Definition production_firewall (attestation_key : string) : VerifierFirewall :=
  mkFirewall {["recommendation" := recommendation_verifier]}
    (mkVerifierPolicy "recommendation" ∅ "policy-v1") attestation_key.

Definition production_provider : ProviderConfig :=
  mkProvider "deepseek-local" OPENAI_COMPATIBLE "http://127.0.0.1:8000/v1" "/model" None (float_of_Z 60).

Definition production_clm : ClmAdapter :=
  mkClm HEAD_SHA256 "http://127.0.0.1:8700" None (float_of_Z 3) "Contrastive-LM/CLM" "clm-latest".

Section host.
Context {E : Type} `{!HasCounts E, !ReadinessCells E} {files : LocalFiles E} (http_get : string -> io E string)
  (loads_bytes : string -> result json) (monotonic : io E float) (log : float -> float) (uuid4 : io E string)
  (urlsplit urlparse : string -> result split_url) (prompt : string)
  (clm_transport : ClmAdapter -> list (string * json) -> float -> io E (list (string * json)))
  (transport : string -> list (string * string) -> list (string * json) -> io E TransportResponse).

(** [if manifest then PinnedLocalArtifacts(Path(manifest), manifest_pin)]; the
    two settings come in a pair. *)
Definition configured_artifacts (values : gmap string string) : result (option PinnedLocalArtifacts) :=
  let manifest := default "" (values !! "C3R_INTERNAL_ARTIFACT_MANIFEST") in
  let pin := default "" (values !! "C3R_INTERNAL_ARTIFACT_MANIFEST_SHA256") in
  _ ← raise_if (negb (Bool.eqb (nonempty manifest) (nonempty pin))) ValueError
        "internal required-file manifest and independent SHA pin must be paired";
  if nonempty manifest
  then a ← make_pinned (parse_path manifest) pin; Ok (Some a)
  else Ok None.

(** The closure [internal_readiness]; the host's sink is the ephemeral one. *)
Definition internal_readiness (runtime : StandaloneController E text_deliberation)
    (artifacts : option PinnedLocalArtifacts) (manifest_pin : string) (adapter : ClmAdapter) (container : string)
    : io E json :=
  verified ← match artifacts with Some a => verify_artifacts loads_bytes a | None => mret false end;
  let report :=
    [("runtime", JBool (decision_enabled runtime && sc_system_one_enabled runtime
                        && negb (trace_persistence (TraceSink := ephemeral_sink))));
     ("required_local_artifact_files", JBool verified);
     (PIN_FIELD, if nonempty manifest_pin then JStr manifest_pin else JNull)] in
  if (verified : bool)
  then fresh ← fresh_maintenance_checks http_get loads_bytes monotonic urlparse prompt clm_transport transport
                 adapter container;
       mret (JObj (report ++ fresh)%list)
  else mret (JObj report).

(** [build]; [attestation_key] is [token_bytes(32)]. *)
Definition production_build (values : gmap string string) (attestation_key : string) : io E (HostComponents E) :=
  checked ← lift (check_environment values);
  let '(flags, container) := checked in
  adapter ← lift (make_clm urlsplit production_clm);
  cell ← lift (make_readiness (float_of_Z 15));
  _ ← (fun e => (Ok tt, set_deliberative cell (set_system_one cell e)));
  registry ← lift (make_registry (E := E) [general_catalog "agent-v1"; browser_catalog; tool_catalog;
                                           general_catalog "research-v1"]);
  candidates ← lift (CandidateCompiler.make_candidate_compiler 8);
  cvoc ← lift (make_controller (float_of_decimal 196 (-2)));
  let one := cached_system_one http_get loads_bytes monotonic clm_transport adapter container in
  let all := all_ready http_get loads_bytes monotonic urlparse prompt clm_transport transport adapter container in
  runtime ← lift (make_standalone (X := Empty_set) None
    (mkStandalone flags StateCompiler.default_compiler candidates cvoc (production_firewall attestation_key)
       (Some (advisory_path (clm_inference_adapter monotonic log clm_transport adapter))) None (Some all)));
  provider ← lift (make_provider urlparse production_provider);
  artifacts ← lift (configured_artifacts values);
  let pin := default "" (values !! "C3R_INTERNAL_ARTIFACT_MANIFEST_SHA256") in
  let factory := registry_build uuid4 registry in
  mret (mkComponents runtime factory (adapter, Some one) (mkService runtime factory provider)
          (Some (internal_readiness runtime artifacts pin adapter container))).
End host.

(** ** What the checks rest on *)

Section check_facts.
Context {E : Type} `{!HasCounts E, !ReadinessCells E} (http_get : string -> io E string)
  (loads_bytes : string -> result json) (monotonic : io E float)
  (urlparse : string -> result split_url) (prompt : string)
  (clm_transport : ClmAdapter -> list (string * json) -> float -> io E (list (string * json)))
  (transport : string -> list (string * string) -> list (string * json) -> io E TransportResponse)
  (adapter : ClmAdapter) (container_digest : string).

Lemma try_true {A} (m : io A bool) handlers w w' :
  io_try m handlers (fun _ => mret false) w = (Ok true, w') -> m w = (Ok true, w').
Proof.
  unfold io_try. destruct (m w) as [[b|e] w1]; [done|].
  destruct (caught_by _ _); [|done]. intros H. by apply pair_equal_spec in H as [? _].
Qed.

Lemma false_ret {A} (w w' : A) : (mret false : io A bool) w <> (Ok true, w').
Proof. intros H. by apply pair_equal_spec in H as [? _]. Qed.

(** The ranking server passed: the encoder is listed, the server is healthy and
    not a mock, its artifact readback is the pinned one, and it ranked. *)
Definition system_one_passed (e e' : E) : Prop :=
  exists models e1 health e2 artifact e3 scores,
    readback http_get loads_bytes "http://127.0.0.1:8090/v1/models" e = (Ok models, e1)
    /\ lists_model models [("id", "qwen3-8b"); ("root", "/encoder")] = true
    /\ readback http_get loads_bytes (clm_endpoint adapter ++ "/health") e1 = (Ok health, e2)
    /\ healthy health = true
    /\ readback http_get loads_bytes (clm_endpoint adapter ++ "/internal/clm/artifact") e2 = (Ok artifact, e3)
    /\ artifact_matches container_digest artifact = true
    /\ rank_text monotonic clm_transport adapter "An invoice was charged twice."
         "Which department handles billing?" ["Billing"; "Technical"] None e3 = (Ok scores, e')
    /\ length scores = 2.

Lemma system_one_check_true e e' :
  system_one_check http_get loads_bytes monotonic clm_transport adapter container_digest e = (Ok true, e') ->
  system_one_passed e e'.
Proof using Type.
  intros H%try_true. apply io_bind_ok in H as (models & e1 & Hm & H).
  destruct (lists_model _ _) eqn:El; cbn [negb] in H; [|by apply false_ret in H].
  apply io_bind_ok in H as (health & e2 & Hh & H).
  destruct (healthy health) eqn:Eh; cbn [negb] in H; [|by apply false_ret in H].
  apply io_bind_ok in H as (artifact & e3 & Ha & H).
  destruct (artifact_matches _ artifact) eqn:Em; cbn [negb] in H; [|by apply false_ret in H].
  apply io_bind_ok in H as (scores & e4 & Hs & H). apply pair_equal_spec in H as [[= Hn] ->].
  apply Z.eqb_eq in Hn. unfold lenZ in Hn.
  exists models, e1, health, e2, artifact, e3, scores. auto 10 with lia.
Qed.

(** The fields of an artifact that carry its identity are the pinned ones. *)
Lemma artifact_matches_spec artifact :
  artifact_matches container_digest artifact = true ->
  assoc "head_sha256" artifact = Some (JStr HEAD_SHA256)
  /\ assoc "encoder_revision" artifact = Some (JStr ENCODER_REVISION)
  /\ assoc "clm_source_revision" artifact = Some (JStr UPSTREAM_CLM_COMMIT)
  /\ assoc "container_digest" artifact = Some (JStr container_digest).
Proof using Type.
  unfold artifact_matches. intros H%forallb_true_Forall.
  assert (Hs : forall k s, (k, JStr s) ∈ expected_artifact container_digest -> assoc k artifact = Some (JStr s)).
  { intros k s Hin. rewrite Forall_forall in H. specialize (H _ Hin). cbn in H.
    destruct (assoc k artifact) as [[| | | |t| |]|]; try done. by apply String.eqb_eq in H as ->. }
  repeat split; apply Hs; unfold expected_artifact; clear; set_solver.
Qed.

(** The generating server passed: it lists the model and wrote something. *)
Definition deliberative_passed (e e' : E) : Prop :=
  exists models e1 text finish usage,
    readback http_get loads_bytes "http://127.0.0.1:8000/v1/models" e = (Ok models, e1)
    /\ lists_model models [("id", "/model")] = true
    /\ make_provider urlparse readiness_provider = Ok readiness_provider
    /\ generate prompt transport readiness_provider "Reply with the word ready only." 256 e1
       = (Ok (text, finish, usage), e')
    /\ nonempty (strip text) = true.

Lemma make_provider_same c c' : make_provider urlparse c = Ok c' -> c' = c.
Proof using Type.
  unfold make_provider. intros H. apply bind_ok in H as (parsed & _ & H).
  repeat match type of H with (if ?b then _ else _) = _ => destruct b end; by simplify_eq.
Qed.

Lemma deliberative_check_true e e' :
  deliberative_check http_get loads_bytes urlparse prompt transport e = (Ok true, e') -> deliberative_passed e e'.
Proof using Type.
  intros H%try_true. apply io_bind_ok in H as (models & e1 & Hm & H).
  destruct (lists_model _ _) eqn:El; cbn [negb] in H; [|by apply false_ret in H].
  apply io_bind_ok in H as (config & e2 & Hc & H). apply lift_ok in Hc as [Hc ->].
  pose proof (make_provider_same _ _ Hc) as ->.
  apply io_bind_ok in H as ([[text finish] usage] & e3 & Hg & H). apply pair_equal_spec in H as [[= Hn] ->].
  exists models, e1, text, finish, usage. auto 10.
Qed.
End check_facts.

Lemma make_clm_same urlsplit a a' : make_clm urlsplit a = Ok a' -> a' = a.
Proof.
  unfold make_clm. intros H. apply bind_ok in H as (parsed & _ & H).
  repeat match type of H with (if ?b then _ else _) = _ => destruct b end; by simplify_eq.
Qed.

(** What [check_environment] has checked. *)
Definition production_environment (values : gmap string string) (flags : FeatureFlags) (container : string) : Prop :=
  flags_from_mapping values = Ok flags
  /\ enabled_requested flags = true /\ system_one_enabled flags = true /\ deliberative_enabled flags = true
  /\ system_one_provider flags = "clm"
  /\ values !! "C3R_MODE" = Some "production_inference"
  /\ switched_off values "C3R_TRACE_COLLECTION" = true /\ switched_off values "C3R_ONLINE_LEARNING" = true
  /\ values !! "C3R_CLM_CONTAINER_DIGEST" = Some container
  /\ len container = 71%Z /\ startswith container "sha256:" = true.

Lemma check_environment_ok values flags container :
  check_environment values = Ok (flags, container) -> production_environment values flags container.
Proof.
  unfold check_environment. intros H. apply bind_ok in H as (f & Hf & H).
  apply bind_ok in H as (? & H1%raise_if_ok & H). apply bind_ok in H as (? & H2%raise_if_ok & H).
  apply bind_ok in H as (? & H3%raise_if_ok & H). cbv zeta in H.
  apply bind_ok in H as (? & H4%raise_if_ok & H). injection H as -> Hc.
  cbn [forallb] in H3. bool_hyps.
  repeat match goal with E : String.eqb _ _ = true |- _ => apply String.eqb_eq in E
                    | E : Z.eqb _ _ = true |- _ => apply Z.eqb_eq in E end.
  subst container. destruct (values !! "C3R_CLM_CONTAINER_DIGEST") as [d|] eqn:Ed; cbn in *; [|done].
  repeat split; done.
Qed.

Section host_facts.
Context {E : Type} `{!HasCounts E, !ReadinessCells E} {files : LocalFiles E} (http_get : string -> io E string)
  (loads_bytes : string -> result json) (monotonic : io E float) (log : float -> float) (uuid4 : io E string)
  (urlsplit urlparse : string -> result split_url) (prompt : string)
  (clm_transport : ClmAdapter -> list (string * json) -> float -> io E (list (string * json)))
  (transport : string -> list (string * string) -> list (string * json) -> io E TransportResponse).

Definition manifest_pin (values : gmap string string) : string :=
  default "" (values !! "C3R_INTERNAL_ARTIFACT_MANIFEST_SHA256").

Lemma configured_artifacts_ok values artifacts a :
  configured_artifacts values = Ok artifacts -> artifacts = Some a ->
  pa_expected_sha256 a = manifest_pin values
  /\ exists path, values !! "C3R_INTERNAL_ARTIFACT_MANIFEST" = Some path /\ pa_manifest a = parse_path path.
Proof using Type.
  unfold configured_artifacts. intros H Ha. apply bind_ok in H as (? & _ & H).
  destruct (nonempty _) eqn:En; [|congruence]. apply bind_ok in H as (a' & Hp & H). subst artifacts.
  unfold make_pinned in Hp. destruct (is_hash64 _); [|done]. simplify_eq. split; [done|].
  destruct (values !! "C3R_INTERNAL_ARTIFACT_MANIFEST") as [path|]; [by exists path|done].
Qed.

(** The shape of what [build] returns. *)
Lemma production_build_ok values key e components e' :
  production_build http_get loads_bytes monotonic log uuid4 urlsplit urlparse prompt clm_transport transport
    values key e = (Ok components, e') ->
  exists flags container registry artifacts,
    production_environment values flags container
    /\ configured_artifacts values = Ok artifacts
    /\ make_registry (E := E) [general_catalog "agent-v1"; browser_catalog; tool_catalog;
                               general_catalog "research-v1"] = Ok registry
    /\ sc_flags (hc_runtime components) = flags
    /\ sc_verifier (hc_runtime components) = production_firewall key
    /\ sc_fast_path (hc_runtime components)
       = Some (advisory_path (clm_inference_adapter monotonic log clm_transport production_clm))
    /\ sc_deliberator (hc_runtime components) = None
    /\ hc_factory components = registry_build uuid4 registry
    /\ hc_responses components = mkService (hc_runtime components) (hc_factory components) production_provider
    /\ hc_internal_readiness components
       = Some (internal_readiness http_get loads_bytes monotonic urlparse prompt clm_transport transport
                 (hc_runtime components) artifacts (manifest_pin values) production_clm container).
Proof using Type.
  unfold production_build. intros H. apply io_bind_ok in H as ([flags container] & e1 & Hc & H).
  apply lift_ok in Hc as [Hc ->]. apply io_bind_ok in H as (adapter & e2 & Ha & H).
  apply lift_ok in Ha as [Ha ->]. pose proof (make_clm_same _ _ _ Ha) as ->.
  apply io_bind_ok in H as (cell & e3 & _ & H). apply io_bind_ok in H as (u & e4 & _ & H).
  apply io_bind_ok in H as (registry & e5 & Hr & H). apply lift_ok in Hr as [Hr ->].
  apply io_bind_ok in H as (candidates & e6 & _ & H). apply io_bind_ok in H as (cvoc & e7 & _ & H).
  cbv zeta in H. apply io_bind_ok in H as (runtime & e8 & Hrt & H). apply lift_ok in Hrt as [[= <-] ->].
  apply io_bind_ok in H as (provider & e9 & Hp & H). apply lift_ok in Hp as [Hp ->].
  pose proof (make_provider_same _ _ _ Hp) as ->.
  apply io_bind_ok in H as (artifacts & e10 & Hart & H). apply lift_ok in Hart as [Hart ->].
  apply pair_equal_spec in H as [[= <-] _].
  exists flags, container, registry, artifacts. split; [by apply check_environment_ok|]. auto 20.
Qed.

(** The closure reports a required check true only when it was made, in order. *)
Lemma internal_readiness_true runtime artifacts pin container w report w' :
  internal_readiness http_get loads_bytes monotonic urlparse prompt clm_transport transport runtime artifacts pin
    production_clm container w = (Ok (JObj report), w') ->
  (forall name, name ∈ CHECKS -> assoc name report = Some (JBool true)) ->
  assoc PIN_FIELD report = Some (if nonempty pin then JStr pin else JNull)
  /\ exists a w1 w2, artifacts = Some a
     /\ verify_artifacts loads_bytes a w = (Ok true, w1)
     /\ system_one_passed http_get loads_bytes monotonic clm_transport production_clm container w1 w2
     /\ deliberative_passed http_get loads_bytes urlparse prompt transport w2 w'.
Proof using Type.
  unfold internal_readiness. intros H Hall. apply io_bind_ok in H as (verified & w1 & Hv & H).
  destruct verified.
  - apply io_bind_ok in H as (fresh & w2 & Hf & H). apply pair_equal_spec in H as [[= <-] ->].
    unfold fresh_maintenance_checks in Hf. apply io_bind_ok in Hf as (b1 & w3 & Hb1 & Hf).
    apply io_bind_ok in Hf as (b2 & w4 & Hb2 & Hf). apply pair_equal_spec in Hf as [[= <-] ->].
    assert (b1 = true) as -> by (specialize (Hall "clm_qwen" ltac:(clear; unfold CHECKS; set_solver)); by injection Hall).
    assert (b2 = true) as -> by (specialize (Hall "deepseek" ltac:(clear; unfold CHECKS; set_solver)); by injection Hall).
    destruct artifacts as [a|]; [|by apply pair_equal_spec in Hv as [? _]].
    split; [|exists a, w1, w3; split; [done|]; split; [done|]; split;
             [by apply system_one_check_true in Hb1|by apply deliberative_check_true in Hb2]].
    done.
  - apply pair_equal_spec in H as [[= <-] ->].
    specialize (Hall "required_local_artifact_files" ltac:(clear; unfold CHECKS; set_solver)). by injection Hall.
Qed.
End host_facts.

(** ** Properties *)

Section properties.
Context {E : Type} `{!HasCounts E, !ReadinessCells E} {files : LocalFiles E} (http_get : string -> io E string)
  (loads_bytes : string -> result json) (monotonic : io E float) (log : float -> float) (uuid4 : io E string)
  (urlsplit urlparse : string -> result split_url) (prompt : string)
  (clm_transport : ClmAdapter -> list (string * json) -> float -> io E (list (string * json)))
  (transport : string -> list (string * string) -> list (string * json) -> io E TransportResponse).

Notation build values key e :=
  (production_build http_get loads_bytes monotonic log uuid4 urlsplit urlparse prompt clm_transport transport
     values key e).


(** The production host starts only when the environment says so and then
    only recommends: each of the three surfaces was switched on by an explicit
    value, the mode is production inference, both collection switches are off and
    the container identity has the form of a digest; the runtime decides, has its
    fast path and no deliberator of its own, its catalog and policies are
    read-only, and its firewall accepts a candidate exactly when it is read-only. *)
Theorem production_host_is_gated values key e components e'
    (Hbuild : build values key e = (Ok components, e')) :
  (exists flags container, production_environment values flags container
     /\ forall name, name ∈ ["C3R_ENABLED"; "C3R_SYSTEM_ONE"; "C3R_DELIBERATIVE"] ->
        exists raw, values !! name = Some raw /\ lower (strip raw) ∈ ["1"; "true"; "yes"; "on"])
  /\ decision_enabled (hc_runtime components) = true
  /\ sc_system_one_enabled (hc_runtime components) = true
  /\ sc_deliberator (hc_runtime components) = None
  /\ (forall c v, verify (sc_verifier (hc_runtime components)) c = Ok v ->
        vr_accepted v = true <-> ac_risk_class c = READ_ONLY).
Proof.
  destruct (production_build_ok _ _ _ _ _ _ _ _ _ _ _ _ _ _ _ Hbuild)
    as (flags & container & registry & artifacts & Henv & _ & _ & Hflags & Hfw & Hfast & Hdel & _).
  pose proof Henv as (Hf & He & Hs & Hd & _).
  split; [exists flags, container; split; [done|]|].
  - intros name Hin. unfold flags_from_mapping in Hf.
    apply bind_ok in Hf as (b1 & H1 & Hf). apply bind_ok in Hf as (b2 & H2 & Hf).
    apply bind_ok in Hf as (b3 & H3 & Hf). apply bind_ok in Hf as (b4 & _ & Hf).
    apply bind_ok in Hf as (b5 & _ & Hf). apply bind_ok in Hf as (b6 & _ & Hf).
    apply bind_ok in Hf as (b7 & _ & Hf). cbv zeta in Hf. apply bind_ok in Hf as (? & _ & Hf).
    apply bind_ok in Hf as (? & _ & Hf). injection Hf as <-.
    unfold system_one_enabled, deliberative_enabled in Hs, Hd. cbn in He, Hs, Hd. bool_hyps. subst.
    repeat (apply elem_of_cons in Hin as [->|Hin]; [by eapply boolean_flag_explicit|]).
    by apply elem_of_nil in Hin.
  - unfold decision_enabled, sc_system_one_enabled. rewrite Hflags, Hfast, He, Hs.
    split; [done|]. split; [done|]. split; [done|]. intros c v Hv. rewrite Hfw in Hv.
    apply verify_ok in Hv as (verifier & d & Hl & Hvd & _ & _ & _ & _ & _ & -> & _).
    unfold production_firewall, select_verifier in Hl. cbn in Hl. rewrite lookup_empty in Hl. cbn in Hl.
    rewrite lookup_singleton_eq in Hl. injection Hl as <-. injection Hvd as <-. cbn.
    by rewrite bool_decide_eq_true.
Qed.
End properties.

(** ** A concrete host *)

Module Example1.
Import LocalArtifacts.Example1.

Record host_world : Type := mkWorld {
  hw_counts : option counts; hw_one : CachedReadiness; hw_deliberative : CachedReadiness; hw_disk : disk;
  hw_threads : list string }.

#[export] Program Instance world_counts : HasCounts host_world := {|
  get_counts := hw_counts;
  set_counts c w := mkWorld c (hw_one w) (hw_deliberative w) (hw_disk w) (hw_threads w) |}.
Next Obligation. done. Qed.

#[export] Instance world_cells : ReadinessCells host_world := {|
  cell_system_one := hw_one;
  set_system_one c w := mkWorld (hw_counts w) c (hw_deliberative w) (hw_disk w) (hw_threads w);
  cell_deliberative := hw_deliberative;
  set_deliberative c w := mkWorld (hw_counts w) (hw_one w) c (hw_disk w) (hw_threads w) |}.

Definition on_disk {A} (m : io disk A) : io host_world A := fun w =>
  let '(r, d) := m (hw_disk w) in (r, mkWorld (hw_counts w) (hw_one w) (hw_deliberative w) d (hw_threads w)).

#[export] Instance world_files : LocalFiles host_world := {|
  fs_is_symlink p := on_disk (fs_is_symlink p);
  fs_open p := on_disk (fs_open p);
  fs_fdopen n := on_disk (fs_fdopen n);
  fs_fstat n := on_disk (fs_fstat n);
  fs_read n m := on_disk (fs_read n m);
  fs_close n := on_disk (fs_close n) |}.

#[export] Instance world_threads : Threads host_world string := {|
  stopping_is_set w := (Ok false, w);
  is_alive t w := (Ok (bool_decide (t ∈ hw_threads w)), w) |}.

Definition container : string := "sha256:" ++ HEAD_SHA256.

Definition environment : gmap string string := list_to_map
  [("C3R_ENABLED", "true"); ("C3R_SYSTEM_ONE", "true"); ("C3R_DELIBERATIVE", "on");
   ("C3R_MODE", "production_inference"); ("C3R_CLM_CONTAINER_DIGEST", container);
   ("C3R_INTERNAL_ARTIFACT_MANIFEST", "/etc/c3r.json");
   ("C3R_INTERNAL_ARTIFACT_MANIFEST_SHA256", pa_expected_sha256 pinned)].

(** The bodies the local services return; [head] is the served head's hash. *)
Definition bodies (head : string) : list (string * json) :=
  [("http://127.0.0.1:8090/v1/models",
    JObj [("data", JArr [JObj [("id", JStr "qwen3-8b"); ("root", JStr "/encoder")]])]);
   ("http://127.0.0.1:8700/health", JObj [("embedder", JBool true)]);
   ("http://127.0.0.1:8700/internal/clm/artifact",
    JObj (("head_sha256", JStr head)
          :: List.filter (fun kv => negb (String.eqb (fst kv) "head_sha256")) (expected_artifact container)));
   ("http://127.0.0.1:8000/v1/models", JObj [("data", JArr [JObj [("id", JStr "/model")]])])].

Definition http_get (head url : string) : io host_world string := fun w =>
  (match assoc url (bodies head) with
   | Some j => dumps compact_options j
   | None => raise OSError "connection refused"
   end, w).

Definition ranking (p : json) : list (string * json) :=
  [("model", JStr "clm-latest");
   ("ranked", JArr [JObj [("candidate", JStr "Billing"); ("prob", p)];
                    JObj [("candidate", JStr "Technical"); ("prob", JInt 0)]])].

Definition rank_transport (p : json) (a : ClmAdapter) (payload : list (string * json)) (t : float)
    : io host_world (list (string * json)) := mret (ranking p).

Definition generated : list (string * json) :=
  [("choices", JArr [JObj [("message", JObj [("content", JStr "ready")]); ("finish_reason", JStr "stop")]]);
   ("usage", JObj [("prompt_tokens", JInt 9); ("completion_tokens", JInt 1)])].

Definition text_transport (url : string) (headers : list (string * string)) (payload : list (string * json))
    : io host_world TransportResponse := mret (mkResponse 200 generated fone).

Definition urls (url : string) : result split_url :=
  Ok (if String.eqb url "http://127.0.0.1:8700"
      then mkSplit "http" (Some "127.0.0.1") "" None None "" "" (Some 8700%Z)
      else mkSplit "http" (Some "127.0.0.1") "/v1" None None "" "" (Some 8000%Z)).

Definition clock : io host_world float := mret fzero.
Definition cell : CachedReadiness := mkReadiness (float_of_Z 15) false fninf.
Definition world : host_world := mkWorld None cell cell honest ["api"; "ingress"].

Definition build (p : json) (head : string) : result (HostComponents host_world) * host_world :=
  production_build (http_get head) loads clock (fun x => x) (mret "id") urls urls "prompt" (rank_transport p)
    text_transport environment "0123456789abcdef" world.

Definition token : string := "0123456789abcdef0123456789abcdef".

(** The maintenance channel over the host that was built. *)
Definition ask (p : json) (head : string) : result (Z * list (string * json)) * host_world :=
  match build p head with
  | (Ok components, w) =>
      ready_answer (mkInternal token (hc_internal_readiness components) ["api"; "ingress"]) "/internal/ready"
        ["Bearer " ++ token] w
  | (Raise e, w) => (Raise e, w)
  end.
End Example1.
Import Example1.

(** Ready; another head than the pinned one; a probability no float holds. *)
Example ready_runs :
  (fst <$> fst (ask (JInt 1) HEAD_SHA256)) = Ok 200%Z
  /\ (fst <$> fst (ask (JInt 1) ENCODER_REVISION)) = Ok 503%Z
  /\ exists m, fst (ask (JInt (2 ^ 1024)) HEAD_SHA256) = Raise (Exn OverflowError m).
Proof. split; [|split; [|eexists]]; vm_compute; reflexivity. Qed.

Lemma production_host_is_gated_witness :
  exists components w, build (JInt 1) HEAD_SHA256 = (Ok components, w)
  /\ decision_enabled (hc_runtime components) = true.
Proof.
  destruct (build (JInt 1) HEAD_SHA256) as [[components|x] w] eqn:E.
  - exists components, w. split; [reflexivity|].
    destruct (production_host_is_gated _ _ _ _ _ _ _ _ _ _ _ _ _ _ _ E) as (_ & H & _). exact H.
  - exfalso. assert (Hok : is_ok (fst (build (JInt 1) HEAD_SHA256)) = true) by (vm_compute; reflexivity).
    rewrite E in Hok. discriminate Hok.
Defined.

