(* ===== verification/Serve.v ===== *)
(** * Serving ([c3r/serve.py])

    The fail-closed composition of a host, the loopback service and the public
    ingress from an environment, and the life of the serving process: its
    sockets, its worker threads and its stop event.  What the operating system
    and the host entry point decide is the class [Os] over a world [E]; the
    process's own state is kept beside it. *)

From Stdlib Require Import Lia ZArith Ascii String.
From stdpp Require Import base option strings gmap list.
From S2P Require Import PyNumber.
From S2P Require Import Prelude Effects PyStr PySort PyFloat FloatRepr Json Hash StateSchema.
From S2P Require Import TraceLedger ClmAdapter Runtime Responses HttpService IngressProxy.
From S2P Require Import LocalArtifacts InternalReadiness ProductionHost.

Local Open Scope string_scope.

Definition environment : Type := gmap string string.

(** ** Reading the environment *)

(** [values.get(name, d)]. *)
Definition get_value (values : environment) (name d : string) : string := default d (values !! name).

(** [_required]. *)
Definition required (values : environment) (name : string) : result string :=
  let value := get_value values name "" in
  if nonempty value then Ok value else raise ValueError (name ++ " is required").

(** [_port]. *)
Definition port_of (values : environment) (name : string) (d : Z) : result Z :=
  match parse_int (get_value values name (str_of_Z d)) with
  | None => raise ValueError (name ++ " must be a TCP port")
  | Some value => if Z.leb 1 value && Z.leb value 65535 then Ok value
                  else raise ValueError (name ++ " must be a TCP port")
  end.

(** [_bounded_int]. *)
Definition bounded_int (values : environment) (name : string) (d lo hi : Z) : result Z :=
  let raw := get_value values name "" in
  if negb (nonempty raw) then Ok d
  else match parse_int raw with
       | None => raise ValueError (name ++ " must be an integer")
       | Some value => if Z.leb lo value && Z.leb value hi then Ok value
                       else raise ValueError (name ++ " must be between " ++ str_of_Z lo ++ " and " ++ str_of_Z hi)
       end.

(** [text.partition(":")]: the part before the first colon, whether there is
    one, and the part after it. *)
Fixpoint partition_colon (text : string) : string * bool * string :=
  match text with
  | EmptyString => ("", false, "")
  | String c rest =>
      if Ascii.eqb c ":" then ("", true, rest)
      else let '(before, found, after) := partition_colon rest in (String c before, found, after)
  end.

(** [str.isidentifier], for characters up to U+00FF. *)
Definition starts_identifier (c : ascii) : bool :=
  in_range 65 90 c || in_range 97 122 c || Ascii.eqb c "_"
  || bool_decide (code c ∈ [170; 181; 186]%Z)
  || in_range 192 214 c || in_range 216 246 c || in_range 248 255 c.

Definition isidentifier (text : string) : bool :=
  match text with
  | EmptyString => false
  | String c rest =>
      starts_identifier c && str_forall (fun d => starts_identifier d || is_digit d || Z.eqb (code d) 183) rest
  end.

(** ** Hosts *)

(** What the host entry point returns: the components, or a runtime with its
    request factory; and whether its trace sink is another than the ephemeral
    one. *)
Record built_host (E : Type) : Type := mkBuilt {
  bh_host : HostComponents E + (StandaloneController E text_deliberation
                                * (list (string * json) -> io E RuntimeRequest));
  bh_trace_persistence : bool }.
#[global] Arguments mkBuilt {E}.
#[global] Arguments bh_host {E}.
#[global] Arguments bh_trace_persistence {E}.

Definition bh_runtime {E} (h : built_host E) : StandaloneController E text_deliberation :=
  match bh_host h with inl c => hc_runtime c | inr p => fst p end.

(** ** The process *)

Definition endpoint : Type := string * Z.

Inductive role : Type := BackendWorker | IngressWorker | InternalWorker.

#[export] Instance role_eq_dec : EqDecision role.
Proof. solve_decision. Defined.

(** The stop event, the listening sockets, the threads started, the servers told
    to shut down and the threads joined. *)
Record process : Type := mkProcess {
  pr_stop : bool;
  pr_sockets : list endpoint;
  pr_started : list role;
  pr_shut : list role;
  pr_joined : list role }.

Inductive access_backend : Type := SqliteFile (p : path) | PostgresDsn (dsn : string).

(** The importer of the host entry point, the sockets, the credential store's
    opening, the threads, and the signals that arrive while [stop.wait] waits. *)
Class Os (E : Type) : Type := {
  os_load : string -> string -> io E (io E (built_host E));
  os_open_store : access_backend -> io E unit;
  os_token_urlsafe : io E string;
  os_monotonic : io E float;
  os_bind : endpoint -> io E unit;
  os_install_signals : io E unit;
  os_start : role -> io E unit;
  os_alive : role -> E -> bool * E;
  os_wait : E -> bool * E;
  os_shutdown : role -> E -> E;
  os_join : role -> E -> E }.

Section serve.
Context {E : Type} {os : Os E}.

Definition W : Type := process * E.

Definition with_sockets (l : list endpoint) (p : process) : process :=
  mkProcess (pr_stop p) l (pr_started p) (pr_shut p) (pr_joined p).

Definition listen (ep : endpoint) : io W unit := fun '(p, e) =>
  (Ok tt, (with_sockets (ep :: pr_sockets p) p, e)).

(** A listening socket, once bound. *)
Definition bind_socket (ep : endpoint) : io W unit := _ ← beside (os_bind ep); listen ep.

(** [server_close]. *)
Fixpoint remove_endpoint (ep : endpoint) (l : list endpoint) : list endpoint :=
  match l with
  | [] => []
  | x :: l' => if bool_decide (x = ep) then l' else x :: remove_endpoint ep l'
  end.

Definition close_socket (ep : endpoint) : io W unit := fun '(p, e) =>
  (Ok tt, (with_sockets (remove_endpoint ep (pr_sockets p)) p, e)).

(** [try: m except BaseException: cleanup; raise]. *)
Definition on_failure {A} (m : io W A) (cleanup : io W unit) : io W A := fun w =>
  match m w with
  | (Ok a, w') => (Ok a, w')
  | (Raise x, w') => match cleanup w' with
                     | (Ok _, w'') => (Raise x, w'')
                     | (Raise y, w'') => (Raise y, w'')
                     end
  end.

(** [load_host_builder]: [os_load] imports the module and raises for an attribute
    that is missing or cannot be called. *)
Definition load_host_builder (reference : string) : io E (io E (built_host E)) :=
  let '(module_name, found, attribute) := partition_colon reference in
  _ ← lift (raise_if (negb found || negb (nonempty module_name) || negb (isidentifier attribute)) ValueError
              "C3R_HOST_ENTRYPOINT must be module:function");
  os_load module_name attribute.

(** ** The two servers *)

Record backend_server : Type := mkBackend {
  bs_server : C3RHTTPServer;
  bs_runtime : StandaloneController E text_deliberation;
  bs_components : option (HostComponents E);
  bs_port : Z }.

Record ingress_server : Type := mkIngressServer {
  ig_gateway : gateway;
  ig_endpoint : endpoint;
  ig_upstream_port : Z;
  ig_timeout : float;
  ig_store : option access_backend }.

Definition backend_endpoint (port : Z) : endpoint := ("127.0.0.1", port).

(** The mode and authentication a first look at the environment gives. *)
Definition mode_of (values : environment) : string := get_value values "C3R_MODE" "staging".

Definition auth_mode_of (values : environment) : string :=
  get_value values "C3R_API_AUTH_MODE"
    (if String.eqb (mode_of values) "production_inference" then "keys" else "static_staging").

Record settings : Type := mkSettings {
  st_reference : string; st_client_token : string; st_backend_token : string;
  st_port : Z; st_backend_port : Z; st_ingress_host : string }.

(** [build_servers] up to the call of the host's builder. *)
Definition read_settings (values : environment) : result settings :=
  reference ← required values "C3R_HOST_ENTRYPOINT";
  client_token ← (if String.eqb (auth_mode_of values) "static_staging"
                  then required values "C3R_CLIENT_TOKEN"
                  else Ok (get_value values "C3R_CLIENT_TOKEN" ""));
  backend_token ← required values "C3R_BACKEND_TOKEN";
  port ← port_of values "PORT" 8080;
  backend_port ← port_of values "C3R_BACKEND_PORT" 8081;
  let ingress_host := get_value values "C3R_INGRESS_HOST" "0.0.0.0" in
  _ ← raise_if (negb (bool_decide (ingress_host ∈ ["0.0.0.0"; "127.0.0.1"]))) ValueError
        "ingress host must be loopback or the TLS-host container interface";
  _ ← raise_if (Z.eqb port backend_port) ValueError "ingress and backend ports must differ";
  Ok (mkSettings reference client_token backend_token port backend_port ingress_host).

Definition off_value (values : environment) (name : string) : bool :=
  bool_decide (lower (strip (get_value values name "false")) ∈ ["false"; "0"; "off"]).

(** The checks of the host that was built. *)
Definition check_host (values : environment) (h : built_host E) : result unit :=
  _ ← raise_if (effect_execution_enabled (bh_runtime h)) ValueError "host must be recommendation-only";
  _ ← raise_if (negb (bool_decide (mode_of values ∈ ["staging"; "production_inference"; "research_collection"])))
        ValueError "C3R_MODE is invalid";
  if String.eqb (mode_of values) "production_inference"
  then
    _ ← raise_if (negb (off_value values "C3R_TRACE_COLLECTION")) ValueError
          "production inference cannot collect traces";
    _ ← raise_if (negb (off_value values "C3R_ONLINE_LEARNING")) ValueError
          "production inference cannot learn online";
    _ ← raise_if (bh_trace_persistence h) ValueError "production inference requires the ephemeral trace sink";
    _ ← raise_if (negb (decision_enabled (bh_runtime h))) ValueError
          "production inference requires decisions enabled";
    raise_if (negb (sc_system_one_enabled (bh_runtime h))) ValueError
      "production inference requires an enabled System-One path"
  else Ok tt.

(** The credential store of the authentication mode. *)
Definition store_of (values : environment) : result (option access_backend) :=
  let auth := auth_mode_of values in
  _ ← raise_if (negb (bool_decide (auth ∈ ["keys"; "static_staging"]))
                || String.eqb (mode_of values) "production_inference" && negb (String.eqb auth "keys"))
        ValueError "production inference requires API key authentication";
  if negb (String.eqb auth "keys") then Ok None
  else
    let backend := get_value values "C3R_API_ACCESS_BACKEND" "sqlite" in
    if String.eqb backend "sqlite"
    then db ← required values "C3R_API_ACCESS_DB"; Ok (Some (SqliteFile (parse_path db)))
    else if String.eqb backend "postgres"
    then dsn ← required values "C3R_API_ACCESS_DSN"; Ok (Some (PostgresDsn dsn))
    else raise ValueError "C3R_API_ACCESS_BACKEND must be 'sqlite' or 'postgres'".

Definition open_access (store : option access_backend) : io E unit :=
  match store with Some s => os_open_store s | None => mret tt end.

(** The token the ingress compares with; in key mode no client presents it. *)
Definition client_token_of (values : environment) (store : option access_backend) (token : string) : io E string :=
  match store with
  | None => lift (required values "C3R_CLIENT_TOKEN")
  | Some _ => if nonempty token then mret token else os_token_urlsafe
  end.

(** [C3RHTTPServer(...)]: the check of the arguments and the bound socket. *)
Definition start_backend (values : environment) (s : settings) (h : built_host E) : io W backend_server :=
  limit ← lift (bounded_int values "C3R_MAX_CONCURRENT_GENERATIONS" 4 1 1024);
  now ← beside os_monotonic;
  server ← lift (make_server "127.0.0.1" (st_backend_token s) (effect_execution_enabled (bh_runtime h)) 60 limit now);
  _ ← bind_socket (backend_endpoint (st_backend_port s));
  mret (mkBackend server (bh_runtime h) (match bh_host h with inl c => Some c | inr _ => None end)
          (st_backend_port s)).

(** [C3RIngressServer(...)]. *)
Definition start_ingress (values : environment) (s : settings) (client_token : string)
    (store : option access_backend) (backend : backend_server) : io W ingress_server :=
  connections ← lift (bounded_int values "C3R_MAX_CONNECTIONS" 32 1 4096);
  in_flight ← lift (bounded_int values "C3R_MAX_IN_FLIGHT" 16 1 4096);
  generation ← lift (bounded_int values "C3R_GENERATION_SLOTS" 1 1 4096);
  ranking ← lift (bounded_int values "C3R_RANKING_SLOTS" 4 1 4096);
  decision ← lift (bounded_int values "C3R_DECISION_SLOTS" 2 1 4096);
  now ← beside os_monotonic;
  let timeout := float_of_Z (if String.eqb (mode_of values) "production_inference" then 65 else 5) in
  g ← lift (make_gateway (mkOptions "127.0.0.1" (bs_port backend) client_token (st_backend_token s) 60 in_flight
                            connections generation ranking decision timeout) now);
  _ ← bind_socket (st_ingress_host s, st_port s);
  mret (mkIngressServer g (st_ingress_host s, st_port s) (bs_port backend) timeout store).

(** [build_servers]. *)
Definition build_servers (values : environment) : io W (backend_server * ingress_server) :=
  s ← lift (read_settings values);
  builder ← beside (load_host_builder (st_reference s));
  host ← beside builder;
  _ ← lift (check_host values host);
  store ← lift (store_of values);
  _ ← beside (open_access store);
  client_token ← beside (client_token_of values store (st_client_token s));
  backend ← start_backend values s host;
  ingress ← on_failure (start_ingress values s client_token store backend)
              (close_socket (backend_endpoint (bs_port backend)));
  mret (backend, ingress).

(** [build_internal_server]; the probe is [backend.internal_readiness]. *)
Definition internal_settings (values : environment) (backend : backend_server)
    : result (option (string * Z)) :=
  if negb (bool_decide (is_Some (values !! "C3R_INTERNAL_READY_PORT")))
     && negb (bool_decide (is_Some (values !! "C3R_INTERNAL_READY_TOKEN")))
  then Ok None
  else
    token ← required values "C3R_INTERNAL_READY_TOKEN";
    _ ← required values "C3R_INTERNAL_READY_PORT";
    port ← port_of values "C3R_INTERNAL_READY_PORT" 8091;
    public ← port_of values "PORT" 8080;
    separate ←
      (if bool_decide (port ∈ [bs_port backend; public]) then Ok false
       else backend_token ← required values "C3R_BACKEND_TOKEN";
            Ok (negb (bool_decide (token ∈ [get_value values "C3R_CLIENT_TOKEN" ""; backend_token]))));
    _ ← raise_if (negb separate) ValueError "internal readiness must use a separate port and token";
    Ok (Some (token, port)).

(** The internal server and its endpoint. *)
Definition build_internal_server (values : environment) (backend : backend_server)
    : io W (option (InternalReadinessServer W role * endpoint)) :=
  configured ← lift (internal_settings values backend);
  match configured with
  | None => mret None
  | Some (token, port) =>
      server ← lift (make_internal (mkInternal token (c ← bs_components backend; probe ← hc_internal_readiness c; Some (beside probe))
                                     [BackendWorker; IngressWorker]));
      _ ← bind_socket ("127.0.0.1", port);
      mret (Some (server, ("127.0.0.1", port)))
  end.

(** ** The life of the process *)

Definition change (f : process -> process) : io W unit := fun '(p, e) => (Ok tt, (f p, e)).

Definition set_stop (p : process) : process :=
  mkProcess true (pr_sockets p) (pr_started p) (pr_shut p) (pr_joined p).
Definition add_started (r : role) (p : process) : process :=
  mkProcess (pr_stop p) (pr_sockets p) (pr_started p ++ [r]) (pr_shut p) (pr_joined p).
Definition add_shut (r : role) (p : process) : process :=
  mkProcess (pr_stop p) (pr_sockets p) (pr_started p) (pr_shut p ++ [r]) (pr_joined p).
Definition add_joined (r : role) (p : process) : process :=
  mkProcess (pr_stop p) (pr_sockets p) (pr_started p) (pr_shut p) (pr_joined p ++ [r]).

Definition alive (r : role) : io W bool := fun '(p, e) => let '(b, e') := os_alive r e in (Ok b, (p, e')).

(** The maintenance channel sees the process's stop event and threads. *)
#[export] Instance process_threads : Threads W role := {|
  stopping_is_set := fun '(p, e) => (Ok (pr_stop p), (p, e));
  is_alive := alive |}.

(** [stop.wait(0.25)]: a signal that arrives meanwhile sets the event. *)
Definition stop_wait : io W bool := fun '(p, e) =>
  let '(arrived, e') := os_wait e in
  (Ok (pr_stop p || arrived), (if arrived then set_stop p else p, e')).

(** [thread.start()]. *)
Definition start (r : role) : io W unit := _ ← beside (os_start r); change (add_started r).

Definition was_started (r : role) : io W bool := fun '(p, e) => (Ok (bool_decide (r ∈ pr_started p)), (p, e)).

(** [server.shutdown()]; the internal server's sets the stop event first. *)
Definition shutdown_server (r : role) : io W unit := fun '(p, e) =>
  (Ok tt, (add_shut r (if bool_decide (r = InternalWorker) then set_stop p else p), os_shutdown r e)).

(** [started and thread.is_alive()] guarding the server's [shutdown]. *)
Definition shut_down (r : role) : io W unit :=
  started ← was_started r;
  running ← (if (started : bool) then alive r else mret false);
  if (running : bool) then shutdown_server r else mret tt.

Definition join (r : role) : io W unit := fun '(p, e) =>
  (Ok tt, if bool_decide (r ∈ pr_started p) then (add_joined r p, os_join r e) else (p, e)).

(** One pass of the loop's body: some worker has died. *)
Definition a_worker_died (internal : bool) : io W bool :=
  backend ← alive BackendWorker;
  if negb backend then mret true
  else
    ingress ← alive IngressWorker;
    if negb ingress then mret true
    else if internal then running ← alive InternalWorker; mret (negb running) else mret false.

(** [while not stop.wait(0.25)]; [None] when the process still serves after
    [fuel] waits. *)
Fixpoint watch (fuel : nat) (internal failed : bool) (w : W) : option (result bool * W) :=
  match fuel with
  | O => None
  | S fuel =>
      match stop_wait w with
      | (Raise x, w') => Some (Raise x, w')
      | (Ok true, w') => Some (Ok failed, w')
      | (Ok false, w') =>
          match a_worker_died internal w' with
          | (Raise x, w'') => Some (Raise x, w'')
          | (Ok true, (p, e)) => watch fuel internal true (set_stop p, e)
          | (Ok false, w'') => watch fuel internal failed w''
          end
      end
  end.

(** The [finally] block. *)
Definition clean_up (ingress backend : endpoint) (internal : option endpoint) : io W unit :=
  _ ← change set_stop;
  _ ← shut_down InternalWorker;
  _ ← shut_down IngressWorker;
  _ ← shut_down BackendWorker;
  _ ← close_socket ingress;
  _ ← close_socket backend;
  _ ← match internal with Some ep => close_socket ep | None => mret tt end;
  _ ← join InternalWorker;
  _ ← join IngressWorker;
  join BackendWorker.

Definition start_workers (internal : bool) : io W unit :=
  _ ← start BackendWorker;
  _ ← start IngressWorker;
  if internal then start InternalWorker else mret tt.

(** The end of [main], from the result of the loop. *)
Definition conclude (ingress backend : endpoint) (internal : option endpoint) (r : result bool) : io W unit :=
  _ ← clean_up ingress backend internal;
  failed ← lift r;
  lift (raise_if failed RuntimeError "C3R serving worker exited unexpectedly").

Definition prepare (values : environment)
    : io W (backend_server * ingress_server * option (InternalReadinessServer W role * endpoint)) :=
  servers ← build_servers values;
  let '(backend, ingress) := servers in
  internal ← on_failure (build_internal_server values backend)
    (_ ← close_socket (ig_endpoint ingress); close_socket (backend_endpoint (bs_port backend)));
  _ ← beside os_install_signals;
  mret (backend, ingress, internal).

(** [main]. *)
Definition serve_main (fuel : nat) (values : environment) (w : W) : option (result unit * W) :=
  match prepare values w with
  | (Raise x, w') => Some (Raise x, w')
  | (Ok (backend, ingress, internal), w') =>
      let present := bool_decide (is_Some internal) in
      let end_with := conclude (ig_endpoint ingress) (backend_endpoint (bs_port backend)) (snd <$> internal) in
      match start_workers present w' with
      | (Raise x, w'') => Some (end_with (Raise x) w'')
      | (Ok _, w'') =>
          match watch fuel present false w'' with
          | None => None
          | Some (r, w3) => Some (end_with r w3)
          end
      end
  end.
End serve.

(** ** Lemmas: the configuration *)

Lemma required_ok values name v : required values name = Ok v -> values !! name = Some v /\ nonempty v = true.
Proof.
  unfold required, get_value. destruct (nonempty _) eqn:E; [|done]. intros [= <-].
  destruct (values !! name); [done|]. by cbn in E.
Qed.

Lemma port_of_ok values name d n : port_of values name d = Ok n -> (1 <= n <= 65535)%Z.
Proof.
  unfold port_of. destruct (parse_int _); [|done]. destruct (_ && _) eqn:E; [|done]. intros [= <-].
  bool_hyps. lia.
Qed.

Lemma bounded_int_ok values name d lo hi n :
  bounded_int values name d lo hi = Ok n -> (lo <= d <= hi)%Z -> (lo <= n <= hi)%Z.
Proof.
  unfold bounded_int. destruct (negb _); [by intros [= <-]|].
  destruct (parse_int _); [|done]. destruct (_ && _) eqn:E; [|done]. intros [= <-] _. bool_hyps. lia.
Qed.

Lemma make_server_ok host token effects rpm limit now s :
  make_server host token effects rpm limit now = Ok s ->
  sv_bearer_token s = token /\ (32 <= len token)%Z /\ effects = false /\ sv_capacity s = limit /\ (1 <= limit)%Z.
Proof.
  unfold make_server. destruct (negb _); [done|]. destruct (Z.ltb_spec (len token) 32); [done|].
  destruct effects; [done|]. destruct (Z.ltb_spec limit 1); [done|]. intros Hs.
  apply bind_ok in Hs as (rate & _ & Hs). apply bind_ok in Hs as (limiter & _ & Hs). injection Hs as <-. auto.
Qed.

Lemma make_gateway_ok o now g :
  make_gateway o now = Ok g ->
  gw_client_token g = go_client_token o /\ gw_upstream_token g = go_upstream_token o
  /\ (32 <= len (go_client_token o))%Z /\ (32 <= len (go_upstream_token o))%Z
  /\ go_client_token o <> go_upstream_token o
  /\ gw_connections g = go_max_connections o /\ gw_in_flight g = go_max_in_flight o
  /\ gw_slots g = mkSlots (go_generation_slots o) (go_ranking_slots o) (go_ranking_slots o) (go_decision_slots o).
Proof.
  unfold make_gateway. intros H. apply bind_ok in H as (? & _ & H). apply bind_ok in H as (? & _ & H).
  apply bind_ok in H as (? & Ht%raise_if_ok & H). apply bind_ok in H as (same & Hs & H).
  apply bind_ok in H as (? & Hsame%raise_if_ok & H). subst same.
  apply bind_ok in H as (? & _ & H). apply bind_ok in H as (? & _ & H). apply bind_ok in H as (? & _ & H).
  apply bind_ok in H as (rate & _ & H). apply bind_ok in H as (limiter & _ & H). injection H as <-. cbn.
  unfold compare_digest_str, compare_digest in Hs. destruct (_ && _) in Hs; [|done]. injection Hs as Hs.
  apply String.eqb_neq in Hs. apply Z.ltb_ge in Ht. repeat split; try done; lia.
Qed.

Section configuration.
Context {E : Type} {os : Os E}.

Lemma read_settings_ok values s :
  read_settings values = Ok s ->
  (1 <= st_port s <= 65535)%Z /\ (1 <= st_backend_port s <= 65535)%Z /\ st_port s <> st_backend_port s
  /\ port_of values "PORT" 8080 = Ok (st_port s)
  /\ st_ingress_host s ∈ ["0.0.0.0"; "127.0.0.1"]
  /\ values !! "C3R_HOST_ENTRYPOINT" = Some (st_reference s)
  /\ values !! "C3R_BACKEND_TOKEN" = Some (st_backend_token s).
Proof.
  unfold read_settings. intros H. apply bind_ok in H as (reference & Hr%required_ok & H).
  apply bind_ok in H as (token & _ & H). apply bind_ok in H as (backend & Hb%required_ok & H).
  apply bind_ok in H as (port & Hport & H). apply bind_ok in H as (bport & Hbp%port_of_ok & H).
  pose proof (port_of_ok _ _ _ _ Hport) as Hp. cbv zeta in H. apply bind_ok in H as (? & Hh%raise_if_ok & H). apply bind_ok in H as (? & Hne%raise_if_ok & H).
  injection H as <-. cbn. apply negb_false_iff, bool_decide_eq_true in Hh. apply Z.eqb_neq in Hne. intuition.
Qed.

Definition production (values : environment) : Prop := mode_of values = "production_inference".

(** What a host serves under: its mode is known, and in production it decides
    through its fast path and keeps no traces. *)
Definition hosted (values : environment) (h : built_host E) : Prop :=
  mode_of values ∈ ["staging"; "production_inference"; "research_collection"]
  /\ (production values ->
      off_value values "C3R_TRACE_COLLECTION" = true /\ off_value values "C3R_ONLINE_LEARNING" = true
      /\ bh_trace_persistence h = false
      /\ decision_enabled (bh_runtime h) = true /\ sc_system_one_enabled (bh_runtime h) = true).

Lemma check_host_ok values h u : check_host values h = Ok u -> hosted values h.
Proof.
  unfold check_host, hosted, production. intros H. apply bind_ok in H as (? & _ & H).
  apply bind_ok in H as (? & Hm%raise_if_ok & H). apply negb_false_iff, bool_decide_eq_true in Hm.
  split; [done|]. intros Hp. rewrite Hp in H. cbn [String.eqb] in H. cbn in H.
  apply bind_ok in H as (? & H1%raise_if_ok & H). apply bind_ok in H as (? & H2%raise_if_ok & H).
  apply bind_ok in H as (? & H3%raise_if_ok & H). apply bind_ok in H as (? & H4%raise_if_ok & H).
  apply raise_if_ok in H. apply negb_false_iff in H1, H2, H4, H. auto.
Qed.

Lemma store_of_ok values store :
  store_of values = Ok store ->
  auth_mode_of values ∈ ["keys"; "static_staging"]
  /\ (is_Some store <-> auth_mode_of values = "keys") /\ (production values -> is_Some store).
Proof.
  unfold store_of, production. intros H. apply bind_ok in H as (? & Ha%raise_if_ok & H).
  apply orb_false_iff in Ha as [Ha Hp]. apply negb_false_iff, bool_decide_eq_true in Ha. split; [done|].
  destruct (String.eqb_spec (auth_mode_of values) "keys") as [Hk|Hk]; cbn [negb] in *.
  - assert (is_Some store) as Hs.
    { repeat match type of H with (if ?b then _ else _) = _ => destruct b end; try done;
        apply bind_ok in H as (db & _ & H); injection H as <-; eauto. }
    by split.
  - injection H as <-. split; [split; [by intros [? ?]|done]|]. intros Hm. rewrite Hm in Hp.
    change ("production_inference" =? "production_inference")%string with true in Hp. done.
Qed.
End configuration.

(** ** Lemmas: the sockets *)

Section sockets.
Context {E : Type} {os : Os E}.

Lemma remove_first ep l : remove_endpoint ep (ep :: l) = l.
Proof. cbn. by rewrite bool_decide_eq_true_2. Qed.

(** A socket is listening exactly when its bind succeeded. *)
Lemma wp_bind_socket ep (Q : result unit -> W -> Prop) p e :
  (forall e', Q (Ok tt) (with_sockets (ep :: pr_sockets p) p, e')) ->
  (forall x e', Q (Raise x) (p, e')) -> wp (bind_socket ep) Q (p, e).
Proof.
  intros Hok Hraise. unfold bind_socket. apply wp_bind, wp_beside. intros [[]|x] e' _; [apply Hok|apply Hraise].
Qed.

(** What the pair of servers satisfies. *)
Definition composed (values : environment) (b : @backend_server E) (i : ingress_server) : Prop :=
  (1 <= bs_port b <= 65535)%Z /\ (1 <= snd (ig_endpoint i) <= 65535)%Z /\ bs_port b <> snd (ig_endpoint i)
  /\ port_of values "PORT" 8080 = Ok (snd (ig_endpoint i))
  /\ ig_upstream_port i = bs_port b /\ fst (ig_endpoint i) ∈ ["0.0.0.0"; "127.0.0.1"]
  /\ values !! "C3R_BACKEND_TOKEN" = Some (sv_bearer_token (bs_server b))
  /\ gw_upstream_token (ig_gateway i) = sv_bearer_token (bs_server b)
  /\ gw_client_token (ig_gateway i) <> gw_upstream_token (ig_gateway i)
  /\ (32 <= Z.min (len (gw_client_token (ig_gateway i))) (len (gw_upstream_token (ig_gateway i))))%Z
  /\ (1 <= sv_capacity (bs_server b) <= 1024)%Z
  /\ Forall (fun n => 1 <= n <= 4096)%Z
       [gw_connections (ig_gateway i); gw_in_flight (ig_gateway i); sl_generation (gw_slots (ig_gateway i));
        sl_system_one (gw_slots (ig_gateway i)); sl_rank (gw_slots (ig_gateway i));
        sl_decision (gw_slots (ig_gateway i))]
  /\ mode_of values ∈ ["staging"; "production_inference"; "research_collection"]
  /\ (is_Some (ig_store i) <-> auth_mode_of values = "keys")
  /\ (production values ->
      is_Some (ig_store i) /\ decision_enabled (bs_runtime b) = true
      /\ sc_system_one_enabled (bs_runtime b) = true).

Lemma wp_start_backend values s h (Q : result backend_server -> W -> Prop) p e :
  (forall x e', Q (Raise x) (p, e')) ->
  (forall b e', bs_port b = st_backend_port s -> bs_runtime b = bh_runtime h ->
     sv_bearer_token (bs_server b) = st_backend_token s -> (1 <= sv_capacity (bs_server b) <= 1024)%Z ->
     Q (Ok b) (with_sockets (backend_endpoint (bs_port b) :: pr_sockets p) p, e')) ->
  wp (start_backend values s h) Q (p, e).
Proof.
  intros Hraise Hok. unfold start_backend. apply wp_bind, wp_lift.
  destruct (bounded_int _ _ _ _ _) as [limit|x] eqn:El; [|apply Hraise].
  apply bounded_int_ok in El; [|lia]. apply wp_bind, wp_beside. intros [now|x] e1 _; [|apply Hraise].
  apply wp_bind, wp_lift. destruct (make_server _ _ _ _ _ _) as [server|x] eqn:Es; [|apply Hraise].
  apply make_server_ok in Es as (Ht & _ & _ & Hc & _).
  apply wp_bind, wp_bind_socket; [|intros; apply Hraise]. intros e2. apply wp_ret.
  apply (Hok (mkBackend server _ _ _)); cbn; [done|done|done|lia].
Qed.

Lemma wp_start_ingress values s token store b (Q : result ingress_server -> W -> Prop) p e :
  (forall x e', Q (Raise x) (p, e')) ->
  (forall i e', ig_endpoint i = (st_ingress_host s, st_port s) -> ig_upstream_port i = bs_port b ->
     ig_store i = store -> gw_upstream_token (ig_gateway i) = st_backend_token s ->
     gw_client_token (ig_gateway i) <> gw_upstream_token (ig_gateway i) ->
     (32 <= Z.min (len (gw_client_token (ig_gateway i))) (len (gw_upstream_token (ig_gateway i))))%Z ->
     Forall (fun n => 1 <= n <= 4096)%Z
       [gw_connections (ig_gateway i); gw_in_flight (ig_gateway i); sl_generation (gw_slots (ig_gateway i));
        sl_system_one (gw_slots (ig_gateway i)); sl_rank (gw_slots (ig_gateway i));
        sl_decision (gw_slots (ig_gateway i))] ->
     Q (Ok i) (with_sockets (ig_endpoint i :: pr_sockets p) p, e')) ->
  wp (start_ingress values s token store b) Q (p, e).
Proof.
  intros Hraise Hok. unfold start_ingress.
  apply wp_bind, wp_lift. destruct (bounded_int _ "C3R_MAX_CONNECTIONS" _ _ _) as [n1|x] eqn:E1; [|apply Hraise].
  apply wp_bind, wp_lift. destruct (bounded_int _ "C3R_MAX_IN_FLIGHT" _ _ _) as [n2|x] eqn:E2; [|apply Hraise].
  apply wp_bind, wp_lift. destruct (bounded_int _ "C3R_GENERATION_SLOTS" _ _ _) as [n3|x] eqn:E3; [|apply Hraise].
  apply wp_bind, wp_lift. destruct (bounded_int _ "C3R_RANKING_SLOTS" _ _ _) as [n4|x] eqn:E4; [|apply Hraise].
  apply wp_bind, wp_lift. destruct (bounded_int _ "C3R_DECISION_SLOTS" _ _ _) as [n5|x] eqn:E5; [|apply Hraise].
  apply bounded_int_ok in E1, E2, E3, E4, E5; try lia.
  apply wp_bind, wp_beside. intros [now|x] e1 _; [|apply Hraise]. cbv zeta.
  apply wp_bind, wp_lift. destruct (make_gateway _ now) as [g|x] eqn:Eg; [|apply Hraise].
  apply make_gateway_ok in Eg as (Hc & Hu & Hlc & Hlu & Hne & Hconn & Hfl & Hsl). cbn in *.
  apply wp_bind, wp_bind_socket; [|intros; apply Hraise]. intros e2. apply wp_ret.
  apply (Hok (mkIngressServer g _ _ _ store)); cbn; try done; [congruence|rewrite Hc, Hu; lia|].
  rewrite Hconn, Hfl, Hsl. cbn. repeat constructor; lia.
Qed.

Lemma wp_build_servers values p e :
  wp (build_servers values)
    (fun r '(p', _) => match r with
                       | Raise _ => p' = p
                       | Ok (b, i) => composed values b i
                           /\ p' = with_sockets (ig_endpoint i :: backend_endpoint (bs_port b) :: pr_sockets p) p
                       end) (p, e).
Proof.
  unfold build_servers. apply wp_bind, wp_lift. destruct (read_settings values) as [s|] eqn:Es; [|done].
  apply read_settings_ok in Es as (Hp & Hbp & Hne & Hport & Hh & _ & Hbt).
  apply wp_bind, wp_beside. intros [builder|x] e1 _; [|done].
  apply wp_bind, wp_beside. intros [host|x] e2 _; [|done].
  apply wp_bind, wp_lift. destruct (check_host values host) as [u|] eqn:Ec; [|done].
  apply check_host_ok in Ec as [Hm Hprod].
  apply wp_bind, wp_lift. destruct (store_of values) as [store|] eqn:Est; [|done].
  apply store_of_ok in Est as (Hauth & Hstore & Hsp).
  apply wp_bind, wp_beside. intros [v|x] e3 _; [|done]. apply wp_bind, wp_beside. intros [token|x] e4 _; [|done].
  apply wp_bind, wp_start_backend; [done|]. intros b e5 Hb Hrt Hbtok Hcap.
  apply wp_bind. unfold on_failure.
  assert (Hi : wp (start_ingress values s token store b)
    (fun r '(p', _) => match r with
       | Raise _ => p' = with_sockets (backend_endpoint (bs_port b) :: pr_sockets p) p
       | Ok i => composed values b i
           /\ p' = with_sockets (ig_endpoint i :: backend_endpoint (bs_port b) :: pr_sockets p) p
       end) (with_sockets (backend_endpoint (bs_port b) :: pr_sockets p) p, e5)).
  { apply wp_start_ingress; [done|]. intros i e' Hep Hup Hst Htok Hdiff Hlen Hall. split; [|done].
    unfold composed. rewrite Hep, Hb, Hup, Hst, Hrt, Hbtok. cbn.
    do 10 (split; [done|]). split; [lia|]. do 3 (split; [done|]).
    intros Hpr. destruct (Hprod Hpr) as (_ & _ & _ & Hd & H1). auto. }
  unfold wp in Hi |- *. destruct (start_ingress _ _ _ _ _ _) as [[i|x] [p' e6]]; cbn in Hi |- *; [done|].
  subst p'. cbn. rewrite bool_decide_eq_true_2 by done. by destruct p.
Qed.
End sockets.

(** ** Lemmas: the life of the process *)

Section lives.
Context {E : Type} {os : Os E}.

(** The sockets a prepared process holds, the internal server's first. *)
Definition internal_sockets (internal : option (InternalReadinessServer (@W E) role * endpoint)) : list endpoint :=
  match internal with Some (_, ep) => [ep] | None => [] end.

Definition separate (values : environment) (b : @backend_server E)
    (internal : option (InternalReadinessServer (@W E) role * endpoint)) : Prop :=
  forall server ep, internal = Some (server, ep) ->
    fst ep = "127.0.0.1" /\ snd ep <> bs_port b /\ port_of values "PORT" 8080 <> Ok (snd ep)
    /\ (32 <= len (irs_token server))%Z
    /\ values !! "C3R_BACKEND_TOKEN" <> Some (irs_token server)
    /\ values !! "C3R_CLIENT_TOKEN" <> Some (irs_token server)
    /\ irs_api_workers server = [BackendWorker; IngressWorker]
    /\ irs_probe server = (c ← bs_components b; probe ← hc_internal_readiness c; Some (beside probe)).

Lemma internal_settings_ok values (b : @backend_server E) token port :
  internal_settings values b = Ok (Some (token, port)) ->
  port <> bs_port b /\ port_of values "PORT" 8080 <> Ok port
  /\ values !! "C3R_BACKEND_TOKEN" <> Some token /\ values !! "C3R_CLIENT_TOKEN" <> Some token.
Proof.
  unfold internal_settings. destruct (_ && _); [done|]. intros H.
  apply bind_ok in H as (tok & _ & H). apply bind_ok in H as (? & _ & H).
  apply bind_ok in H as (n & _ & H). apply bind_ok in H as (public & Hpub & H).
  apply bind_ok in H as (separate & Hsep & H). apply bind_ok in H as (? & Hs%raise_if_ok & H).
  apply negb_false_iff in Hs as ->. injection H as -> ->.
  destruct (bool_decide_reflect (port ∈ [bs_port b; public])) as [|Hport]; [done|].
  apply bind_ok in Hsep as (backend & [Hb _]%required_ok & Hsep). injection Hsep as Hsep.
  apply negb_true_iff, bool_decide_eq_false in Hsep. rewrite Hpub, Hb. unfold get_value in Hsep.
  split; [set_solver|]. split; [set_solver|]. split; [set_solver|].
  intros Hc. rewrite Hc in Hsep. set_solver.
Qed.

Lemma wp_build_internal values (b : @backend_server E) p e :
  wp (build_internal_server values b)
    (fun r '(p', _) => match r with
       | Raise _ => p' = p
       | Ok internal => separate values b internal
           /\ p' = with_sockets (internal_sockets internal ++ pr_sockets p)%list p
       end) (p, e).
Proof.
  unfold build_internal_server. apply wp_bind, wp_lift.
  destruct (internal_settings values b) as [[[token port]|]|] eqn:Es; [| |done].
  - apply internal_settings_ok in Es as (Hp & Hpub & Hbt & Hct). apply wp_bind, wp_lift.
    unfold make_internal. cbn [irs_token]. destruct (Z.ltb_spec (len token) 32); [done|].
    apply wp_bind, wp_bind_socket; [|done]. intros e1. apply wp_ret. split; [|done].
    intros server ep [= <- <-]. cbn. repeat split; done.
  - apply wp_ret. split; [done|]. by destruct p.
Qed.

Definition prepared_sockets (b : @backend_server E) (i : ingress_server)
    (internal : option (InternalReadinessServer (@W E) role * endpoint)) : list endpoint :=
  (internal_sockets internal ++ [ig_endpoint i; backend_endpoint (bs_port b)])%list.

Definition signals_install : Prop := forall e, exists e', os_install_signals e = (Ok tt, e').

Lemma wp_prepare values p e :
  signals_install ->
  wp (prepare values)
    (fun r '(p', _) => match r with
       | Raise _ => p' = p
       | Ok (b, i, internal) => composed values b i /\ separate values b internal
           /\ p' = with_sockets (prepared_sockets b i internal ++ pr_sockets p)%list p
       end) (p, e).
Proof.
  intros Hsig. unfold prepare. apply wp_bind. eapply wp_mono; [apply wp_build_servers|].
  intros [[b i]|x] [p1 e1]; [|done]. intros [Hc ->]. apply wp_bind. unfold on_failure.
  pose proof (wp_build_internal values b
    (with_sockets (ig_endpoint i :: backend_endpoint (bs_port b) :: pr_sockets p) p) e1) as Hi.
  unfold wp in Hi |- *. destruct (build_internal_server _ _ _) as [[internal|x] [p2 e2]]; cbn in Hi |- *.
  - destruct Hi as [Hs ->]. destruct (Hsig e2) as [e3 He]. unfold mbind, io_bind, beside. rewrite He. cbn.
    split; [done|]. split; [done|]. unfold prepared_sockets. rewrite <- app_assoc. by destruct p.
  - subst p2. unfold mbind, io_bind, close_socket. cbn [fst snd pr_sockets with_sockets].
    rewrite !remove_first. by destruct p.
Qed.

Definition workers (internal : bool) : list role :=
  BackendWorker :: IngressWorker :: if internal then [InternalWorker] else [].

Lemma wp_start r (Q : result unit -> W -> Prop) p e :
  (forall x e', Q (Raise x) (p, e')) -> (forall e', Q (Ok tt) (add_started r p, e')) -> wp (start r) Q (p, e).
Proof. intros Hx Ho. apply wp_bind, wp_beside. intros [[]|x] e' _; [apply Ho|apply Hx]. Qed.

(** The threads start in order; a failing start leaves those before it. *)
Lemma wp_start_workers internal p e :
  wp (start_workers internal)
    (fun r '(p', _) => exists n, (is_ok r = true -> n = length (workers internal))
       /\ p' = mkProcess (pr_stop p) (pr_sockets p) (pr_started p ++ take n (workers internal))
                (pr_shut p) (pr_joined p)) (p, e).
Proof.
  unfold start_workers. apply wp_bind, wp_start.
  { intros x e'. exists 0. cbn. rewrite app_nil_r. by destruct p. }
  intros e1. apply wp_bind, wp_start; [intros x e'; by exists 1|]. intros e2.
  destruct internal; cbn [workers].
  - apply wp_start; [intros x e'|intros e3]; [exists 2|exists 3]; (split; [done|]);
      unfold add_started; cbn; by rewrite <- ?app_assoc.
  - exists 2. split; [done|]. unfold add_started. cbn. by rewrite <- app_assoc.
Qed.

(** The polls of the loop up to its end, and whether a worker had died. *)
Inductive watched (internal : bool) : @W E -> bool -> @W E -> Prop :=
  | watched_stop w w1 : stop_wait w = (Ok true, w1) -> watched internal w false w1
  | watched_died w w1 p e w3 :
      stop_wait w = (Ok false, w1) -> a_worker_died internal w1 = (Ok true, (p, e)) ->
      stop_wait (set_stop p, e) = (Ok true, w3) -> watched internal w true w3
  | watched_on w w1 w2 b w3 :
      stop_wait w = (Ok false, w1) -> a_worker_died internal w1 = (Ok false, w2) ->
      watched internal w2 b w3 -> watched internal w b w3.

(** Polls that all saw no stop and live workers. *)
Inductive quiet (internal : bool) : nat -> @W E -> Prop :=
  | quiet_0 w : quiet internal 0 w
  | quiet_S n w w1 w2 :
      stop_wait w = (Ok false, w1) -> a_worker_died internal w1 = (Ok false, w2) ->
      quiet internal n w2 -> quiet internal (S n) w.

Lemma stop_wait_total w : exists b w', stop_wait w = (Ok b, w').
Proof. destruct w as [p e]. unfold stop_wait. destruct (os_wait e) as [arrived e']. eauto. Qed.

Lemma stopped_wait p e : exists w', stop_wait (set_stop p, e) = (Ok true, w').
Proof. unfold stop_wait. destruct (os_wait e) as [arrived e']. eauto. Qed.

Lemma a_worker_died_total internal w : exists b w', a_worker_died internal w = (Ok b, w').
Proof.
  destruct w as [p e]. unfold a_worker_died, alive, mbind, io_bind.
  destruct (os_alive BackendWorker e) as [[|] e1]; cbn; [|eauto].
  destruct (os_alive IngressWorker e1) as [[|] e2]; cbn; [|eauto].
  destruct internal; [|eauto]. destruct (os_alive InternalWorker e2) as [b e3]. eauto.
Qed.

Lemma watch_ends fuel internal w :
  (exists b w', watch (S fuel) internal false w = Some (Ok b, w') /\ watched internal w b w')
  \/ watch (S fuel) internal false w = None /\ quiet internal fuel w.
Proof.
  revert w; induction fuel as [|fuel IH]; intros w; cbn [watch];
    destruct (stop_wait_total w) as ([|] & w1 & Hs); rewrite Hs;
    try (left; eexists _, _; split; [done|by apply watched_stop]);
    destruct (a_worker_died_total internal w1) as ([|] & [p e] & Hd); rewrite Hd.
  - right. split; [done|constructor].
  - right. split; [done|constructor].
  - destruct (stopped_wait p e) as [w3 Hw]. rewrite Hw. left. eexists _, _. split; [done|].
    by eapply watched_died.
  - destruct (IH (p, e)) as [(b & w' & Hw & Hb)|[Hw Hq]]; cbn [watch] in Hw; rewrite Hw.
    + left. eexists _, _. split; [done|]. by eapply watched_on.
    + right. split; [done|]. by econstructor.
Qed.

(** Watching and asking touch the stop event alone. *)
Definition same_but_stop (p p' : process) : Prop :=
  pr_sockets p' = pr_sockets p /\ pr_started p' = pr_started p /\ pr_shut p' = pr_shut p
  /\ pr_joined p' = pr_joined p.

Lemma same_trans p1 p2 p3 : same_but_stop p1 p2 -> same_but_stop p2 p3 -> same_but_stop p1 p3.
Proof. unfold same_but_stop. intuition congruence. Qed.

Lemma stop_wait_same w b w' : stop_wait w = (Ok b, w') -> same_but_stop (fst w) (fst w').
Proof.
  destruct w as [p e]. unfold stop_wait. destruct (os_wait e) as [arrived e1]. intros [= _ <-]. by destruct arrived.
Qed.

Lemma a_worker_died_same internal w b w' : a_worker_died internal w = (Ok b, w') -> fst w' = fst w.
Proof.
  destruct w as [p e]. unfold a_worker_died, alive, mbind, io_bind.
  destruct (os_alive BackendWorker e) as [[|] e1]; cbn; [|by intros [= _ <-]].
  destruct (os_alive IngressWorker e1) as [[|] e2]; cbn; [|by intros [= _ <-]].
  destruct internal; [|by intros [= _ <-]]. destruct (os_alive InternalWorker e2) as [c e3]. by intros [= _ <-].
Qed.

Lemma watched_same internal w b w' : watched internal w b w' -> same_but_stop (fst w) (fst w').
Proof.
  induction 1 as [w w1 H|w w1 p e w3 H1 H2 H3|w w1 w2 b w3 H1 H2 _ IH].
  - by eapply stop_wait_same.
  - apply stop_wait_same in H1, H3. apply a_worker_died_same in H2. cbn in H2, H3. subst p.
    eapply same_trans; [exact H1|]. destruct H3 as (? & ? & ? & ?). done.
  - apply stop_wait_same in H1. apply a_worker_died_same in H2. rewrite H2 in IH. by eapply same_trans.
Qed.

(** Shutting the servers down changes who was told, once the stop is set. *)
Lemma wp_shut_down r p e :
  pr_stop p = true ->
  wp (shut_down r)
    (fun x '(p', _) => x = Ok tt /\ exists l, p' = mkProcess true (pr_sockets p) (pr_started p) (pr_shut p ++ l) (pr_joined p)
       /\ forall r', r' ∈ l -> r' ∈ pr_started p) (p, e).
Proof.
  intros Hstop. assert (Hnone : p = mkProcess true (pr_sockets p) (pr_started p) (pr_shut p ++ []) (pr_joined p))
    by (rewrite app_nil_r, <- Hstop; by destruct p).
  unfold shut_down. apply wp_bind. unfold was_started, wp at 1. cbn.
  destruct (bool_decide_reflect (r ∈ pr_started p)) as [Hr|].
  - apply wp_bind. unfold alive, wp at 1. destruct (os_alive r e) as [[|] e']; cbn.
    + unfold shutdown_server, wp. cbn. split; [done|]. exists [r]. split; [|intros r'; by rewrite list_elem_of_singleton; intros ->].
      unfold add_shut. rewrite <- Hstop. by destruct (bool_decide _); destruct p; cbn in *; subst.
    + split; [done|]. exists []. split; [done|]. intros r' H. by apply elem_of_nil in H.
  - apply wp_bind. unfold wp. cbn. split; [done|]. exists []. split; [done|]. intros r' H. by apply elem_of_nil in H.
Qed.

Definition joined (started : list role) : list role :=
  List.filter (fun r => bool_decide (r ∈ started)) [InternalWorker; IngressWorker; BackendWorker].

Lemma wp_close ep (Q : result unit -> @W E -> Prop) p e :
  Q (Ok tt) (with_sockets (remove_endpoint ep (pr_sockets p)) p, e) -> wp (close_socket ep) Q (p, e).
Proof. done. Qed.

Lemma wp_join r (Q : result unit -> W -> Prop) p e :
  (forall e', Q (Ok tt) (mkProcess (pr_stop p) (pr_sockets p) (pr_started p) (pr_shut p)
     (pr_joined p ++ List.filter (fun x => bool_decide (x ∈ pr_started p)) [r]), e')) ->
  wp (join r) Q (p, e).
Proof.
  intros H. unfold join, wp. cbn in *. destruct (bool_decide (r ∈ pr_started p)); cbn; [apply H|].
  specialize (H e). rewrite app_nil_r in H. by destruct p.
Qed.

Lemma wp_clean_up ingress backend internal p e :
  wp (clean_up ingress backend internal)
    (fun x '(p', _) => x = Ok tt /\ pr_stop p' = true /\ pr_started p' = pr_started p
       /\ pr_sockets p' = (let l := remove_endpoint backend (remove_endpoint ingress (pr_sockets p)) in
                           match internal with Some ep => remove_endpoint ep l | None => l end)
       /\ pr_joined p' = (pr_joined p ++ joined (pr_started p))%list
       /\ forall r, r ∈ pr_shut p' -> r ∈ pr_shut p \/ r ∈ pr_started p) (p, e).
Proof.
  unfold clean_up. apply wp_bind. unfold change, wp at 1. cbn [fst snd].
  apply wp_bind. eapply wp_mono; [by apply wp_shut_down|]. intros r1 [p1 e1] [-> (l1 & -> & H1)].
  apply wp_bind. eapply wp_mono; [by apply wp_shut_down|]. intros r2 [p2 e2] [-> (l2 & -> & H2)].
  apply wp_bind. eapply wp_mono; [by apply wp_shut_down|]. intros r3 [p3 e3] [-> (l3 & -> & H3)].
  apply wp_bind, wp_close. apply wp_bind, wp_close. apply wp_bind.
  cbn [set_stop with_sockets pr_sockets pr_started pr_shut pr_joined pr_stop] in *.
  assert (Hrest : forall q, pr_stop q = true -> pr_started q = pr_started p -> pr_joined q = pr_joined p ->
    pr_shut q = (((pr_shut p ++ l1) ++ l2) ++ l3)%list -> forall f,
    wp (_ ← join InternalWorker; _ ← join IngressWorker; join BackendWorker)
      (fun x '(p', _) => x = Ok tt /\ pr_stop p' = true /\ pr_started p' = pr_started p
         /\ pr_sockets p' = pr_sockets q
         /\ pr_joined p' = (pr_joined p ++ joined (pr_started p))%list
         /\ forall r, r ∈ pr_shut p' -> r ∈ pr_shut p \/ r ∈ pr_started p) (q, f)).
  { intros q Hq1 Hq2 Hq3 Hq4 f. apply wp_bind, wp_join. intros f1. apply wp_bind, wp_join. intros f2.
    apply wp_join. intros f3. cbn [pr_stop pr_started pr_sockets pr_joined pr_shut].
    rewrite Hq2, Hq3, Hq4. split; [done|]. split; [done|]. split; [done|]. split; [done|]. split.
    - unfold joined. rewrite <- !app_assoc. f_equal. rewrite !(app_assoc (List.filter _ _)).
      by rewrite <- !List.filter_app.
    - intros r. rewrite !elem_of_app. naive_solver. }
  destruct internal as [ep|]; [apply wp_close|apply wp_ret];
    (eapply wp_mono; [by apply Hrest|]; by intros x [p' e']).
Qed.
End lives.

(** ** Properties *)

Section properties.
Context {E : Type} {os : Os E}.

(** The composition of the servers fails closed.  [build_servers] either
    raises and leaves the process with the sockets it had, the loopback socket
    closed again when the ingress cannot be made; or it returns two servers that
    listen on different ports in range, the service on loopback only, which share
    the backend token and differ in the client token, both of 32 characters or
    more, with every capacity within its bounds, a known mode, a credential store
    exactly in key mode, and in production a store, decisions and the fast path. *)
Theorem build_servers_fails_closed values p e :
  match build_servers values (p, e) with
  | (Raise _, (p', _)) => p' = p
  | (Ok (b, i), (p', _)) =>
      composed values b i
      /\ p' = with_sockets (ig_endpoint i :: backend_endpoint (bs_port b) :: pr_sockets p) p
  end.
Proof.
  pose proof (wp_build_servers values p e) as H. unfold wp in H.
  by destruct (build_servers values (p, e)) as [[[b i]|x] [p' e']].
Qed.

(** The sockets of a prepared process are gone after the clean-up. *)
Lemma prepared_sockets_close values (b : @backend_server E) i internal l :
  composed values b i -> separate values b internal ->
  (let l' := remove_endpoint (backend_endpoint (bs_port b)) (remove_endpoint (ig_endpoint i)
               (prepared_sockets b i internal ++ l)%list) in
   match snd <$> internal with Some ep => remove_endpoint ep l' | None => l' end) = l.
Proof.
  intros (_ & _ & Hne & Hport & _) Hsep. unfold prepared_sockets.
  destruct internal as [[server ep]|]; cbn [internal_sockets app snd fmap option_fmap option_map].
  - destruct (Hsep _ _ eq_refl) as (_ & Hb & Hp & _).
    assert (ep <> ig_endpoint i) as H1 by (intros ->; by apply Hp).
    assert (ep <> backend_endpoint (bs_port b)) as H2 by (intros ->; by apply Hb).
    repeat first [rewrite bool_decide_eq_true_2 by done | rewrite bool_decide_eq_false_2 by done | progress cbn [remove_endpoint]].
    done.
  - rewrite remove_first. apply remove_first.
Qed.

Lemma fresh_clean_up values (b : @backend_server E) i internal p0 p e r r' p' e' :
  composed values b i -> separate values b internal ->
  pr_sockets p = (prepared_sockets b i internal ++ pr_sockets p0)%list -> pr_shut p = [] -> pr_joined p = [] ->
  conclude (ig_endpoint i) (backend_endpoint (bs_port b)) (snd <$> internal) r (p, e) = (r', (p', e')) ->
  r' = (failed ← r; raise_if failed RuntimeError "C3R serving worker exited unexpectedly")
  /\ pr_sockets p' = pr_sockets p0 /\ pr_started p' = pr_started p /\ pr_joined p' = joined (pr_started p')
  /\ (forall x, x ∈ pr_shut p' -> x ∈ pr_started p') /\ pr_stop p' = true.
Proof.
  intros Hc Hs Hsock Hshut Hjoin H. unfold conclude in H.
  pose proof (wp_clean_up (ig_endpoint i) (backend_endpoint (bs_port b)) (snd <$> internal) p e) as Hcl.
  unfold wp in Hcl. unfold mbind, io_bind in H.
  destruct (clean_up _ _ _ (p, e)) as [x [p1 e1]]; cbn in Hcl.
  destruct Hcl as (-> & Hstop & Hst & Hso & Hj & Hsh). unfold lift in H. cbn in H.
  assert (Hp1 : p1 = p' /\ r' = (failed ← r; raise_if failed RuntimeError "C3R serving worker exited unexpectedly")).
  { destruct r as [[|]|]; by simplify_eq. }
  destruct Hp1 as [-> ->]. split; [done|]. rewrite Hsock in Hso.
  rewrite (prepared_sockets_close _ _ _ _ _ Hc Hs) in Hso. rewrite Hst. rewrite Hjoin in Hj.
  do 3 (split; [done|]). split; [|done]. intros y Hy. destruct (Hsh y Hy) as [Hy'|]; [|done].
  rewrite Hshut in Hy'. by apply elem_of_nil in Hy'.
Qed.


Lemma watch_more fuel internal failed w x k :
  watch fuel internal failed w = Some x -> watch (fuel + k) internal failed w = Some x.
Proof.
  revert failed w; induction fuel as [|fuel IH]; intros failed w; cbn [watch Nat.add]; [done|].
  destruct (stop_wait w) as [[[|]|y] w1]; [done| |done].
  destruct (a_worker_died internal w1) as [[[|]|y] [p e]]; [apply IH|apply IH|done].
Qed.

(** Serving goes on only while it should.  If [main] has not returned after
    [fuel + 1] waits, both servers are up, and the first [fuel] waits saw no stop
    request and only live workers; and the number of waits allowed never changes
    the result of a run that ends. *)
Theorem serving_goes_on_while_quiet fuel values w :
  (serve_main (S fuel) values w = None ->
     exists b i internal w1 w2, prepare values w = (Ok (b, i, internal), w1)
       /\ start_workers (bool_decide (is_Some internal)) w1 = (Ok tt, w2)
       /\ quiet (bool_decide (is_Some internal)) fuel w2)
  /\ (forall x k, serve_main fuel values w = Some x -> serve_main (fuel + k) values w = Some x).
Proof.
  unfold serve_main. split.
  - destruct (prepare values w) as [[[[b i] internal]|x] w1]; [|done].
    destruct (start_workers _ w1) as [[[]|x] w2] eqn:Est; [|done]. intros H.
    destruct (watch_ends fuel (bool_decide (is_Some internal)) w2) as [(died & w3 & Hw & _)|[_ Hq]].
    + by rewrite Hw in H.
    + by exists b, i, internal, w1, w2.
  - intros x k. destruct (prepare values w) as [[[[b i] internal]|y] w1]; [|done].
    destruct (start_workers _ w1) as [[[]|y] w2]; [|done].
    destruct (watch fuel _ _ w2) as [y|] eqn:Ew; [|done]. by rewrite (watch_more _ _ _ _ _ k Ew).
Qed.
End properties.

(** ** A concrete process *)

Module Example1.
Import Controls.

(** The signals the waits see, and the threads that are alive. *)
Record machine : Type := mkMachine { mc_signals : list bool; mc_alive : list role; mc_taken : list endpoint }.

Definition staging_runtime : StandaloneController machine text_deliberation :=
  mkStandalone default_flags StateCompiler.default_compiler (CandidateCompiler.mkCandidateCompiler 8)
    (Cvoc.mkController fzero) (production_firewall "0123456789abcdef") None None None.

Definition staging_host : built_host machine :=
  mkBuilt (inr (staging_runtime, fun _ e => (raise ValueError "no", e))) false.

#[export] Instance machine_os : Os machine := {|
  os_load module attribute m := (Ok (mret staging_host), m);
  os_open_store _ m := (raise OSError "no store", m);
  os_token_urlsafe m := (Ok "unused", m);
  os_monotonic m := (Ok fzero, m);
  os_bind ep m := (if bool_decide (ep ∈ mc_taken m) then raise OSError "address in use" else Ok tt, m);
  os_install_signals m := (Ok tt, m);
  os_start r m := (Ok tt, m);
  os_alive r m := (bool_decide (r ∈ mc_alive m), m);
  os_wait m := match mc_signals m with
               | [] => (false, m)
               | b :: l => (b, mkMachine l (mc_alive m) (mc_taken m))
               end;
  os_shutdown r m := mkMachine (mc_signals m) (List.filter (fun x => negb (bool_decide (x = r))) (mc_alive m)) (mc_taken m);
  os_join r m := m |}.

Definition variables : environment := list_to_map
  [("C3R_HOST_ENTRYPOINT", "c3r.staging_host:build"); ("C3R_CLIENT_TOKEN", "client-0123456789abcdef0123456789");
   ("C3R_BACKEND_TOKEN", "backend-0123456789abcdef012345678"); ("C3R_INTERNAL_READY_PORT", "8091");
   ("C3R_INTERNAL_READY_TOKEN", "internal-0123456789abcdef01234567")].

Definition idle : process := mkProcess false [] [] [] [].
Definition everyone : list role := [BackendWorker; IngressWorker; InternalWorker].

Definition run (values : environment) (signals : list bool) (alive : list role) (taken : list endpoint)
    : option (result unit * process) :=
  x ← serve_main 5 values (idle, mkMachine signals alive taken); Some (fst x, fst (snd x)).
End Example1.
Import Example1.

(** A signal at the third wait; a dead ingress worker; a public port in use; a
    bound out of range; an environment that asks for production without keys. *)
Example serving_runs :
  run variables [false; false; true] everyone []
  = Some (Ok tt, mkProcess true [] everyone [InternalWorker; IngressWorker; BackendWorker]
                   [InternalWorker; IngressWorker; BackendWorker])
  /\ run variables [] [BackendWorker; InternalWorker] []
     = Some (raise RuntimeError "C3R serving worker exited unexpectedly",
             mkProcess true [] everyone [InternalWorker; BackendWorker]
               [InternalWorker; IngressWorker; BackendWorker])
  /\ run variables [] everyone [("0.0.0.0", 8080%Z)] = Some (raise OSError "address in use", idle)
  /\ run (<["C3R_MAX_IN_FLIGHT" := "0"]> variables) [] everyone []
     = Some (raise ValueError "C3R_MAX_IN_FLIGHT must be between 1 and 4096", idle)
  /\ run (<["C3R_MODE" := "production_inference"]> variables) [] everyone []
     = Some (raise ValueError "production inference requires decisions enabled", idle)
  /\ run variables [] everyone [] = None.
Proof. do 5 (split; [vm_compute; reflexivity|]). vm_compute. reflexivity. Qed.

