(* ===== verification/CredentialRecovery.v ===== *)
(** * Credential backup and recovery ([c3r/credential_recovery.py])

    Copying the credential tables of a store into a new file: a backup marks the
    copy as a snapshot, a restore takes only a snapshot whose bytes have the given
    hash and revokes every key it copies.  The file at the destination is kept
    beside a world [E] that holds the source file, the file system and SQLite's
    reading of a database image. *)

From Stdlib Require Import Lia ZArith Ascii String.
From stdpp Require Import base option strings gmap list.
From S2P Require Import Prelude Effects PyStr PySort PyFloat FloatRepr Json Hash StateSchema Access LocalArtifacts.

Local Open Scope string_scope.

Definition MAX_SNAPSHOT_BYTES : Z := 64 * 1024 * 1024.

(** The tables of [CREDENTIAL_TABLES] as a source holds them, whether SQLite's
    quick check passes and the columns exist, and the rows of
    [credential_snapshot] when there is such a table. *)
Record credential_tables : Type := mkTables {
  ct_intact : bool;
  ct_columns : bool;
  ct_organizations : list string;
  ct_projects : list ((string * string) * (Z * Z));
  ct_keys : list key_row;
  ct_versions : option (list Z) }.

(** What the file system says of the source. *)
Record source_facts : Type := mkFacts {
  sf_resolved : bool; sf_is_file : bool; sf_links : Z; sf_posix : bool; sf_uid : Z; sf_euid : Z; sf_mode : Z }.

(** A credential database: the store's tables and the snapshot mark. *)
Record snapshot : Type := mkSnapshot { sn_store : AccessDb; sn_versions : option (list Z) }.

Class RecoveryHost (E : Type) : Type := {
  rh_view : path -> io E path_view;
  rh_resolved : path -> io E bool;
  rh_facts : path -> io E source_facts;
  rh_sidecar : path -> io E bool;
  rh_read : path -> Z -> io E string;
  rh_open : path -> io E credential_tables;
  rh_deserialize : string -> result credential_tables;
  rh_create : path -> io E unit;
  rh_open_store : path -> io E unit;
  rh_connect : io E unit;
  rh_commit : io E unit;
  rh_finish : path -> io E (Z * string) }.

(** [path.with_name(path.name + suffix)]. *)
Definition with_sidecar (p : path) (suffix : string) : result path :=
  match rev (path_tail p) with
  | [] => raise ValueError "path has an empty name"
  | name :: rest => Ok (mkPath (path_root p) (rev rest ++ [(name ++ suffix)%string])%list)
  end.

Section recovery.
Context {E : Type} {host : RecoveryHost E}.

(** [AccessStore.validate_path]. *)
Definition validate (p : path) : io E unit := view ← rh_view p; lift (validate_path view).

Fixpoint refuse_sidecars (p : path) (suffixes : list string) : io E unit :=
  match suffixes with
  | [] => mret tt
  | suffix :: rest =>
      sidecar ← lift (with_sidecar p suffix);
      present ← rh_sidecar sidecar;
      _ ← lift (raise_if present ValueError "unbound snapshot sidecar");
      refuse_sidecars p rest
  end.

(** The bytes of an approved snapshot. *)
Definition read_snapshot (p : path) (expected : string) : io E credential_tables :=
  _ ← lift (raise_if (negb (is_hash64 expected)) ValueError "approved backup hash required");
  _ ← refuse_sidecars p ["-wal"; "-shm"; "-journal"];
  raw ← rh_read p (MAX_SNAPSHOT_BYTES + 1);
  _ ← lift (raise_if (Z.ltb MAX_SNAPSHOT_BYTES (len raw)) ValueError "credential snapshot exceeds recovery bound");
  _ ← lift (raise_if (negb (compare_digest (sha256_hex raw) expected)) ValueError "credential snapshot hash mismatch");
  lift (rh_deserialize raw).

(** What is checked of the connection before it is yielded. *)
Definition check_tables (t : credential_tables) (restore : bool) : result unit :=
  _ ← raise_if (negb (ct_intact t)) ValueError "credential source integrity check failed";
  _ ← raise_if (negb (ct_columns t)) SqliteError "no such table or column";
  if restore
  then match ct_versions t with
       | None => raise SqliteError "no such table: credential_snapshot"
       | Some versions => raise_if (negb (bool_decide (versions = [1%Z]))) ValueError
                            "versioned credential snapshot required"
       end
  else Ok tt.

(** [credential_source]. *)
Definition credential_source (p : path) (expected : option string) : io E credential_tables :=
  _ ← validate p;
  facts ← rh_facts p;
  _ ← lift (raise_if (negb (sf_resolved facts) || negb (sf_is_file facts) || negb (Z.eqb (sf_links facts) 1))
              ValueError "existing unlinked credential source required");
  _ ← lift (raise_if (sf_posix facts && (negb (Z.eqb (sf_uid facts) (sf_euid facts))
                                         || negb (Z.eqb (Z.land (sf_mode facts) 0x3f) 0)))
              ValueError "private credential source ownership/mode required");
  tables ← match expected with None => rh_open p | Some h => read_snapshot p h end;
  _ ← lift (check_tables tables (bool_decide (is_Some expected)));
  mret tables.

(** ** Copying *)

Definition insert_organization (db : AccessDb) (id : string) : result AccessDb :=
  if bool_decide (id ∈ organizations db) then raise SqliteError "UNIQUE constraint failed"
  else Ok (mkAccessDb ({[id]} ∪ organizations db) (projects db) (api_keys db) (quota db) (audit_events db)
             (usage_records db)).

Definition insert_project_row (db : AccessDb) (row : (string * string) * (Z * Z)) : result AccessDb :=
  match projects db !! fst row with
  | Some _ => raise SqliteError "UNIQUE constraint failed"
  | None =>
      if bool_decide (fst (fst row) ∈ organizations db)
      then Ok (mkAccessDb (organizations db) (<[fst row := snd row]> (projects db)) (api_keys db) (quota db)
                 (audit_events db) (usage_records db))
      else raise SqliteError "FOREIGN KEY constraint failed"
  end.

(** The three [executemany]. *)
Definition insert_tables (t : credential_tables) (db : AccessDb) : result AccessDb :=
  db ← foldR insert_organization db (ct_organizations t);
  db ← foldR insert_project_row db (ct_projects t);
  foldR (fun db r => insert_key (engine := sqlite) r db) db (ct_keys t).

(** [PRAGMA foreign_key_check] returns no row. *)
Definition foreign_keys_hold (db : AccessDb) : bool :=
  bool_decide (map_Forall (fun k _ => fst k ∈ organizations db) (projects db))
  && forallb (fun k => bool_decide (is_Some (projects db !! (kr_tenant k, kr_project k)))) (api_keys db).

Definition revoke_all (db : AccessDb) : AccessDb := with_keys (map set_revoked (api_keys db)) db.

Record copy_counts : Type := mkCounts { cc_organizations : Z; cc_projects : Z; cc_keys : Z }.

Definition counts_of (db : AccessDb) : copy_counts :=
  mkCounts (Z.of_nat (size (organizations db))) (Z.of_nat (size (projects db))) (lenZ (api_keys db)).

(** The body of the target's transaction. *)
Definition copy_tables (t : credential_tables) (restore : bool) (d : snapshot) : result (copy_counts * snapshot) :=
  db ← insert_tables t (sn_store d);
  let d := if restore then mkSnapshot (revoke_all db) (sn_versions d) else mkSnapshot db (Some [1%Z]) in
  _ ← raise_if (negb (foreign_keys_hold (sn_store d))) ValueError "credential relationships invalid";
  Ok (counts_of db, d).

(** The file at the destination. *)
Definition destination : Type := option snapshot.

Definition fresh_store : snapshot := mkSnapshot empty_access None.

(** [os.open] with [O_CREAT | O_EXCL], and the store's constructor on the empty
    file. *)
Definition create_destination (p : path) : io (destination * E) unit := fun '(d, e) =>
  match d with
  | Some _ => (raise OSError "File exists", (d, e))
  | None => match rh_create p e with
            | (Ok _, e') => (Ok tt, (Some fresh_store, e'))
            | (Raise x, e') => (Raise x, (None, e'))
            end
  end.

Definition copy_body (t : credential_tables) (restore : bool) : io (destination * E) copy_counts := fun '(d, e) =>
  match d with
  | None => (raise SqliteError "unable to open database file", (d, e))
  | Some s => match copy_tables t restore s with
              | Ok (counts, s') => (Ok counts, (Some s', e))
              | Raise x => (Raise x, (d, e))
              end
  end.

Definition copy_report (restore : bool) (c : copy_counts) (digest : string) : json :=
  JObj [("status", JStr (if restore then "restored_keys_revoked" else "credential_snapshot_created"));
        ("organizations_copied", JInt (cc_organizations c)); ("projects_copied", JInt (cc_projects c));
        ("keys_copied", JInt (cc_keys c)); ("sha256", JStr digest); ("requires_key_rotation", JBool restore);
        ("scope", JStr "credentials_and_project_limits_only"); ("encryption_verified", JBool false);
        ("backup_deletion_verified", JBool false)].

(** [copy_credentials]. *)
Definition copy_credentials (source_path dest : path) (expected : option string) : io (destination * E) json :=
  let restore := bool_decide (is_Some expected) in
  _ ← beside (validate dest);
  resolved ← beside (rh_resolved dest);
  _ ← lift (raise_if (negb resolved) ValueError "non-redirected destination required");
  tables ← beside (credential_source source_path expected);
  _ ← create_destination dest;
  _ ← beside (rh_open_store dest);
  counts ← atomically rh_connect rh_commit (copy_body tables restore);
  finished ← beside (rh_finish dest);
  _ ← lift (raise_if (Z.ltb MAX_SNAPSHOT_BYTES (fst finished)) ValueError "credential snapshot exceeds recovery bound");
  mret (copy_report restore counts (snd finished)).
End recovery.

(** ** Lemmas: the copied tables *)

(** What the target's constraints ask of the copied rows. *)
Record consistent (t : credential_tables) : Prop := {
  cs_organizations : NoDup (ct_organizations t);
  cs_projects : NoDup (map fst (ct_projects t));
  cs_tenants : forall row, row ∈ ct_projects t -> fst (fst row) ∈ ct_organizations t;
  cs_keys : NoDup (map kr_id (ct_keys t));
  cs_owners : forall k, k ∈ ct_keys t -> (kr_tenant k, kr_project k) ∈ map fst (ct_projects t) }.

(** The store that holds exactly those rows. *)
Definition loaded (t : credential_tables) : AccessDb :=
  mkAccessDb (list_to_set (ct_organizations t)) (list_to_map (ct_projects t)) (ct_keys t) ∅ [] [].

Definition with_organizations (o : gset string) (db : AccessDb) : AccessDb :=
  mkAccessDb o (projects db) (api_keys db) (quota db) (audit_events db) (usage_records db).
Definition with_projects (m : gmap (string * string) (Z * Z)) (db : AccessDb) : AccessDb :=
  mkAccessDb (organizations db) m (api_keys db) (quota db) (audit_events db) (usage_records db).

Lemma insert_organizations_spec l db db' :
  foldR insert_organization db l = Ok db' <->
  NoDup l /\ (forall x, x ∈ l -> x ∉ organizations db)
  /\ db' = with_organizations (list_to_set l ∪ organizations db) db.
Proof.
  revert db; induction l as [|x l IH]; intros db; cbn [foldR].
  - split.
    + intros [= <-]. split; [constructor|]. split; [intros y Hy; by apply elem_of_nil in Hy|].
      destruct db. unfold with_organizations. cbn. f_equal. set_solver.
    + intros (_ & _ & ->). destruct db. unfold with_organizations. cbn. do 2 f_equal. set_solver.
  - rewrite NoDup_cons. unfold insert_organization at 2.
    destruct (bool_decide_reflect (x ∈ organizations db)) as [Hx|Hx]; cbn [raise mbind result_bind].
    + split; [done|]. intros (_ & Hn & _). exfalso. apply (Hn x); [left|done].
    + rewrite IH. cbn [organizations]. unfold with_organizations. cbn. split.
      * intros (Hd & Hn & ->). split; [split; [set_solver|done]|]. split; [set_solver|]. f_equal. set_solver.
      * intros ((Hxl & Hd) & Hn & ->). split; [done|]. split; [set_solver|]. f_equal. set_solver.
Qed.

Lemma insert_projects_spec l db db' :
  foldR insert_project_row db l = Ok db' <->
  NoDup (map fst l) /\ (forall x, x ∈ l -> projects db !! fst x = None /\ fst (fst x) ∈ organizations db)
  /\ db' = with_projects (list_to_map l ∪ projects db) db.
Proof.
  revert db; induction l as [|[k v] l IH]; intros db; cbn [foldR map fst].
  - split.
    + intros [= <-]. split; [constructor|]. split; [intros y Hy; by apply elem_of_nil in Hy|].
      destruct db. unfold with_projects. cbn. f_equal. by rewrite (left_id_L ∅ _).
    + intros (_ & _ & ->). destruct db. unfold with_projects. cbn. do 2 f_equal. by rewrite (left_id_L ∅ _).
  - rewrite NoDup_cons. unfold insert_project_row at 2. cbn [fst snd].
    destruct (projects db !! k) as [w|] eqn:Ek; cbn [raise mbind result_bind].
    { split; [done|]. intros (_ & Hn & _). destruct (Hn (k, v)) as [Hk _]; [left|]. cbn in Hk. congruence. }
    destruct (bool_decide_reflect (fst k ∈ organizations db)) as [Ho|Ho]; cbn [raise mbind result_bind].
    2:{ split; [done|]. intros (_ & Hn & _). destruct (Hn (k, v)) as [_ Hk]; [left|]. done. }
    rewrite IH. cbn [projects organizations]. unfold with_projects. cbn.
    assert (Hmap : NoDup (map fst l) -> k ∉ map fst l ->
      (list_to_map l ∪ <[k:=v]> (projects db) : gmap _ _) = <[k:=v]> (list_to_map l) ∪ projects db).
    { intros Hd Hkl. rewrite <- insert_union_l, insert_union_r; [done|]. by apply not_elem_of_list_to_map. }
    split.
    + intros (Hd & Hn & ->).
      assert (Hkl : k ∉ map fst l).
      { rewrite list_elem_of_fmap. intros ([k' v'] & -> & Hin). destruct (Hn _ Hin) as [Hk _]. cbn in Hk.
        by rewrite lookup_insert_eq in Hk. }
      split; [done|]. split; [|by rewrite Hmap].
      intros x Hx. apply elem_of_cons in Hx as [->|Hx]; [done|]. destruct (Hn x Hx) as [Hk Hox]. split; [|done].
      rewrite lookup_insert_ne in Hk; [done|]. intros ->. apply Hkl. rewrite list_elem_of_fmap. by exists x.
    + intros ((Hkl & Hd) & Hn & ->). split; [done|]. split; [|by rewrite Hmap].
      intros x Hx. destruct (Hn x) as [Hk Hox]; [by right|]. split; [|done].
      rewrite lookup_insert_ne; [done|]. intros ->. apply Hkl. rewrite list_elem_of_fmap. by exists x.
Qed.

Lemma insert_keys_spec l db db' :
  foldR (fun db r => insert_key (engine := sqlite) r db) db l = Ok db' <->
  NoDup (map kr_id l)
  /\ (forall k, k ∈ l -> kr_id k ∉ map kr_id (api_keys db) /\ is_Some (projects db !! (kr_tenant k, kr_project k)))
  /\ db' = with_keys (api_keys db ++ l)%list db.
Proof.
  revert db; induction l as [|r l IH]; intros db; cbn [foldR map].
  - split.
    + intros [= <-]. split; [constructor|]. split; [intros y Hy; by apply elem_of_nil in Hy|].
      destruct db. unfold with_keys. cbn. by rewrite app_nil_r.
    + intros (_ & _ & ->). destruct db. unfold with_keys. cbn. by rewrite app_nil_r.
  - rewrite NoDup_cons. unfold insert_key at 2.
    assert (Hid : existsb (fun k => String.eqb (kr_id k) (kr_id r)) (api_keys db) = true
                  <-> kr_id r ∈ map kr_id (api_keys db)).
    { rewrite existsb_elem, list_elem_of_fmap. split; intros (k & H); exists k; rewrite String.eqb_eq in *; naive_solver. }
    destruct (existsb _ (api_keys db)) eqn:Ee; cbn [raise mbind result_bind].
    { split; [done|]. intros (_ & Hn & _). destruct (Hn r) as [Hr _]; [left|]. by apply Hid in Hr || (destruct Hr; by apply Hid). }
    assert (Hr : kr_id r ∉ map kr_id (api_keys db)) by (intros Hr%Hid; congruence).
    destruct (projects db !! (kr_tenant r, kr_project r)) as [w|] eqn:Ep; cbn [raise mbind result_bind].
    2:{ split; [done|]. intros (_ & Hn & _). destruct (Hn r) as [_ [w Hw]]; [left|]. congruence. }
    rewrite IH. unfold with_keys. cbn. rewrite map_app, <- app_assoc. cbn. split.
    + intros (Hd & Hn & ->). split; [split; [|done]|split; [|done]].
      * rewrite list_elem_of_fmap. intros (k & Hk & Hin). destruct (Hn k Hin) as [Hk' _]. apply Hk'. rewrite Hk. set_solver.
      * intros k Hk. apply elem_of_cons in Hk as [->|Hk]; [by split|]. destruct (Hn k Hk) as [Hk' ?]. split; [set_solver|done].
    + intros ((Hrl & Hd) & Hn & ->). split; [done|]. split; [|done]. intros k Hk.
      destruct (Hn k) as [Hk' ?]; [by right|]. split; [|done]. rewrite elem_of_app, list_elem_of_singleton.
      intros [?|Heq]; [done|]. apply Hrl. rewrite <- Heq. rewrite list_elem_of_fmap. by exists k.
Qed.

(** Copying into an empty store takes exactly the consistent rows. *)
Lemma insert_tables_spec t db :
  insert_tables t empty_access = Ok db <-> consistent t /\ db = loaded t.
Proof.
  unfold insert_tables. split.
  - intros H. apply bind_ok in H as (db1 & (H1 & _ & ->)%insert_organizations_spec & H).
    apply bind_ok in H as (db2 & (H2 & H2' & ->)%insert_projects_spec & H).
    apply insert_keys_spec in H as (H3 & H3' & ->). cbn in H2', H3'. split.
    2:{ unfold loaded, with_keys, with_projects, with_organizations. cbn. f_equal; by rewrite (right_id_L ∅ (∪)). }
    split; [done|done| |done|].
    + intros row Hrow. destruct (H2' row Hrow) as [_ Ho]. set_solver.
    + intros k Hk. destruct (H3' k Hk) as [_ [w Hw]]. rewrite (right_id_L ∅ (∪)) in Hw. apply list_elem_of_fmap.
      apply elem_of_list_to_map_2 in Hw. by exists ((kr_tenant k, kr_project k), w).
  - intros [[H1 H2 H2' H3 H3'] ->].
    assert (foldR insert_organization empty_access (ct_organizations t)
            = Ok (with_organizations (list_to_set (ct_organizations t) ∪ ∅) empty_access)) as ->
      by (apply insert_organizations_spec; set_solver).
    cbn [raise mbind result_bind].
    assert (foldR insert_project_row (with_organizations (list_to_set (ct_organizations t) ∪ ∅) empty_access) (ct_projects t)
            = Ok (with_projects (list_to_map (ct_projects t) ∪ ∅) (with_organizations (list_to_set (ct_organizations t) ∪ ∅) empty_access))) as ->.
    { apply insert_projects_spec. split; [done|]. split; [|done]. intros x Hx. split; [done|]. cbn. set_solver. }
    cbn [raise mbind result_bind]. rewrite !(right_id_L ∅ (∪)). apply insert_keys_spec. split; [done|]. split; [|done].
    intros k Hk. split; [cbn; set_solver|]. cbn. specialize (H3' k Hk). apply list_elem_of_fmap in H3' as ([kk v] & Heq & Hin).
    cbn in Heq. exists v. rewrite Heq. by apply elem_of_list_to_map_1.
Qed.

(** ** Lemmas: the copy *)

Section copies.
Context {E : Type} {host : RecoveryHost E}.

(** The copy of consistent tables: all keys revoked, or marked as a snapshot. *)
Definition copied (t : credential_tables) (restore : bool) : snapshot :=
  if restore then mkSnapshot (revoke_all (loaded t)) None else mkSnapshot (loaded t) (Some [1%Z]).

Lemma consistent_foreign_keys t : consistent t -> foreign_keys_hold (loaded t) = true.
Proof.
  intros [_ Hp Ht _ Ho]. unfold foreign_keys_hold. apply andb_true_iff. split.
  - apply bool_decide_eq_true. intros k v Hkv. cbn in *. apply elem_of_list_to_map_2 in Hkv.
    specialize (Ht _ Hkv). set_solver.
  - apply forallb_true_Forall, Forall_forall. intros k Hk. apply bool_decide_eq_true. cbn in *.
    specialize (Ho k Hk). apply list_elem_of_fmap in Ho as ([kk v] & Heq & Hin). cbn in Heq. exists v.
    rewrite Heq. by apply elem_of_list_to_map_1.
Qed.

Lemma revoke_all_foreign_keys db : foreign_keys_hold (revoke_all db) = foreign_keys_hold db.
Proof.
  unfold foreign_keys_hold, revoke_all. cbn. f_equal. induction (api_keys db) as [|k l IH]; cbn; [done|].
  by rewrite IH.
Qed.

Lemma copy_tables_spec t restore c s :
  copy_tables t restore fresh_store = Ok (c, s) <->
  consistent t /\ c = counts_of (loaded t) /\ s = copied t restore.
Proof.
  unfold copy_tables. split.
  - intros H. apply bind_ok in H as (db & [Hc ->]%insert_tables_spec & H). cbv zeta in H.
    apply bind_ok in H as (? & _ & H). injection H as <- <-. split; [done|]. by destruct restore.
  - intros (Hc & -> & ->). assert (insert_tables t (sn_store fresh_store) = Ok (loaded t)) as ->
      by (by apply insert_tables_spec).
    cbn [mbind result_bind]. cbv zeta.
    assert (Hf : foreign_keys_hold (sn_store (copied t restore)) = true).
    { unfold copied. destruct restore; cbn [sn_store]; [rewrite revoke_all_foreign_keys|];
        by apply consistent_foreign_keys. }
    unfold copied in *. destruct restore; cbn [sn_store sn_versions fresh_store] in *; by rewrite Hf.
Qed.

(** A snapshot accepted for a restore. *)
Definition approved (expected : string) (t : credential_tables) : Prop :=
  exists raw, sha256_hex raw = expected /\ (len raw <= MAX_SNAPSHOT_BYTES)%Z
    /\ rh_deserialize raw = Ok t /\ ct_intact t = true /\ ct_versions t = Some [1%Z].

Lemma credential_source_approved p expected e t e' :
  credential_source p (Some expected) e = (Ok t, e') -> approved expected t.
Proof.
  unfold credential_source. intros H. apply io_bind_ok in H as (? & e1 & _ & H).
  apply io_bind_ok in H as (facts & e2 & _ & H). apply io_bind_ok in H as (? & e3 & _ & H).
  apply io_bind_ok in H as (? & e4 & _ & H). apply io_bind_ok in H as (t' & e5 & Ht & H).
  apply io_bind_ok in H as (u & e6 & Hu & H). apply lift_ok in Hu as [Hu ->].
  apply pair_equal_spec in H as [[= ->] _].
  unfold read_snapshot in Ht. apply io_bind_ok in Ht as (? & e7 & _ & Ht).
  apply io_bind_ok in Ht as (? & e8 & _ & Ht). apply io_bind_ok in Ht as (raw & e9 & _ & Ht).
  apply io_bind_ok in Ht as (? & e10 & Hl & Ht). apply lift_ok in Hl as [Hl%raise_if_ok _].
  apply io_bind_ok in Ht as (? & e11 & Hh & Ht). apply lift_ok in Hh as [Hh%raise_if_ok _].
  apply lift_ok in Ht as [Ht _]. apply negb_false_iff in Hh. apply Z.ltb_ge in Hl.
  unfold compare_digest in Hh. apply String.eqb_eq in Hh.
  unfold check_tables in Hu. apply bind_ok in Hu as (? & Hi%raise_if_ok & Hu).
  apply bind_ok in Hu as (? & _ & Hu). cbn in Hu. apply negb_false_iff in Hi.
  destruct (ct_versions t) as [versions|] eqn:Ev; [|done].
  apply raise_if_ok, negb_false_iff, bool_decide_eq_true in Hu. subst versions. by exists raw.
Qed.

(** Where a copy leaves the destination: an existing file is never touched, a
    new one is absent, an empty store or the finished copy. *)
Definition left_at (expected : option string) (d : destination) (r : result json) (d' : destination) : Prop :=
  let restore := bool_decide (is_Some expected) in
  match d with
  | Some _ => d' = d /\ exists x, r = Raise x
  | None =>
      match r with
      | Ok report => exists t digest, consistent t /\ (forall h, expected = Some h -> approved h t)
          /\ d' = Some (copied t restore) /\ report = copy_report restore (counts_of (loaded t)) digest
      | Raise _ => d' = None \/ d' = Some fresh_store
          \/ exists t, (forall h, expected = Some h -> approved h t) /\ d' = Some (copied t restore)
      end
  end.

Lemma wp_copy_credentials source_path dest expected d e :
  wp (copy_credentials source_path dest expected) (fun r '(d', _) => left_at expected d r d') (d, e).
Proof.
  unfold copy_credentials.
  assert (Hsame : forall x, left_at expected d (Raise x) d) by (intros x; destruct d; [by split; [|eexists]|by left]).
  apply wp_bind, wp_beside. intros [u|x] e1 _; [|apply Hsame].
  apply wp_bind, wp_beside. intros [resolved|x] e2 _; [|apply Hsame].
  apply wp_bind, wp_lift. destruct (raise_if _ _ _) as [?|x]; [|apply Hsame].
  apply wp_bind, wp_beside. intros [t|x] e3 Hsrc; [|apply Hsame].
  assert (Happ : forall h, expected = Some h -> approved h t).
  { intros h ->. by apply credential_source_approved in Hsrc. }
  apply wp_bind. unfold create_destination, wp at 1. destruct d as [s|]; cbn.
  { split; [done|by eexists]. }
  destruct (rh_create dest e3) as [[v|x] e4]; cbn; [|by left].
  apply wp_bind, wp_beside. intros [w|x] e5 _; [|by right; left].
  apply wp_bind. unfold atomically, wp at 1. destruct (rh_connect e5) as [[y|x] e6]; cbn; [|by right; left].
  destruct (copy_tables t _ fresh_store) as [[counts s]|x] eqn:Ec; cbn; [|by right; left].
  apply copy_tables_spec in Ec as (Hc & -> & ->).
  destruct (rh_commit e6) as [[z|x] e7]; cbn; [|by right; left].
  apply wp_bind, wp_beside. intros [[n digest]|x] e8 _; [|right; right; by exists t].
  apply wp_bind, wp_lift. destruct (raise_if _ _ _) as [?|x]; [|right; right; by exists t].
  apply wp_ret. by exists t, digest.
Qed.
End copies.

(** ** Properties *)

(** A store whose keys are all revoked lets nobody in. *)
Lemma revoked_store_admits_nobody {engine : Sql} {E : Type} {host : AccessHost E} db plaintext (e : E) p w' :
  Forall (fun k => kr_revoked k = true) (api_keys db) -> authenticate plaintext (db, e) <> (Ok (Some p), w').
Proof.
  intros Hall H. apply authenticate_ok in H as [[_ (id & k & salt & scopes & _ & Hk & _ & Hr & _)]|[? _]]; [|done].
  rewrite Forall_forall in Hall. rewrite Hall in Hr; done.
Qed.

(** C40: A restore never brings a credential back to life.  Whatever happens, an
    existing destination keeps its content and the call raises; a destination
    that did not exist is absent, an empty store or the finished copy, so that no
    key presented to it authenticates; and when the restore reports success, the
    copy is that of tables read from bytes with the given hash, marked as a
    version-1 snapshot, every relation between its rows holding, and every key
    revoked. *)
Theorem restore_revokes_every_key {E} {host : RecoveryHost E} source_path dest expected d (e : E) :
  let '(r, (d', _)) := copy_credentials source_path dest (Some expected) (d, e) in
  (forall s, d = Some s -> d' = Some s /\ exists x, r = Raise x)
  /\ (d = None -> forall s, d' = Some s ->
        forall (engine : Sql) X (store : AccessHost X) plaintext (x : X) p w',
          authenticate plaintext (sn_store s, x) <> (Ok (Some p), w'))
  /\ (forall report, r = Ok report -> exists t digest, d = None
        /\ approved expected t /\ consistent t /\ d' = Some (copied t true)
        /\ report = copy_report true (counts_of (loaded t)) digest
        /\ Forall (fun k => kr_revoked k = true) (api_keys (sn_store (copied t true)))).
Proof.
  pose proof (wp_copy_credentials source_path dest (Some expected) d e) as H. unfold wp in H.
  destruct (copy_credentials source_path dest (Some expected) (d, e)) as [r [d' e']]. cbn in H.
  assert (Hrev : forall t, Forall (fun k => kr_revoked k = true) (api_keys (sn_store (copied t true)))).
  { intros t. unfold copied, revoke_all. cbn. apply Forall_forall. intros k Hk.
    apply list_elem_of_fmap in Hk as (k' & -> & _). done. }
  unfold left_at in H. split; [|split].
  - intros s ->. exact H.
  - intros -> s Hs engine X store plaintext x p w'. apply revoked_store_admits_nobody. cbn in H.
    destruct r as [report|y].
    + destruct H as (t & digest & _ & _ & -> & _). injection Hs as <-. apply Hrev.
    + destruct H as [->|[->|(t & _ & ->)]]; [done| |]; injection Hs as <-; [constructor|apply Hrev].
  - intros report ->. destruct d as [s|]; [by destruct H as [_ [x ?]]|].
    destruct H as (t & digest & Hc & Ha & -> & ->). exists t, digest. specialize (Ha _ eq_refl). auto 10.
Qed.

(** The credential tables of a database image. *)
Definition image (s : snapshot) : credential_tables :=
  mkTables true true (elements (organizations (sn_store s))) (map_to_list (projects (sn_store s)))
    (api_keys (sn_store s)) (sn_versions s).

(** The relations [AccessStore] keeps. *)
Definition related (db : AccessDb) : Prop :=
  NoDup (map kr_id (api_keys db)) /\ foreign_keys_hold db = true.

Lemma image_consistent s : related (sn_store s) -> consistent (image s).
Proof.
  intros [Hk Hf]. unfold foreign_keys_hold in Hf. apply andb_true_iff in Hf as [Ho Hp].
  apply bool_decide_eq_true in Ho. apply forallb_true_Forall in Hp. split; cbn.
  - apply NoDup_elements.
  - apply NoDup_fst_map_to_list.
  - intros [k v] Hin. apply elem_of_map_to_list in Hin. specialize (Ho _ _ Hin). by apply elem_of_elements.
  - done.
  - intros k Hin. rewrite Forall_forall in Hp. specialize (Hp k Hin). apply bool_decide_eq_true in Hp as [v Hv].
    apply list_elem_of_fmap. exists ((kr_tenant k, kr_project k), v). split; [done|]. by apply elem_of_map_to_list.
Qed.

Lemma image_loaded s :
  loaded (image s) = mkAccessDb (organizations (sn_store s)) (projects (sn_store s)) (api_keys (sn_store s)) ∅ [] [].
Proof.
  unfold loaded, image. cbn. by rewrite list_to_map_to_list, list_to_set_elements_L.
Qed.

(** Backing a store up and restoring the backup loses no credential and no
    limit: the backup of a store holds its organizations, projects and keys and
    the snapshot mark; restoring that image gives back the same organizations and
    projects and the same keys in the same order, each of them revoked, without
    quotas, audit events or usage records. *)
Theorem backup_then_restore s
    (H : related (sn_store s)) :
  exists counts backup restored,
    copy_tables (image s) false fresh_store = Ok (counts, backup)
    /\ sn_versions backup = Some [1%Z]
    /\ copy_tables (image backup) true fresh_store = Ok (counts, restored)
    /\ sn_store restored
       = mkAccessDb (organizations (sn_store s)) (projects (sn_store s)) (map set_revoked (api_keys (sn_store s))) ∅ [] []
    /\ counts = counts_of (sn_store s).
Proof.
  pose proof (image_consistent _ H) as Hc.
  assert (Hb : related (sn_store (copied (image s) false))).
  { unfold copied. cbn [sn_store]. rewrite image_loaded. destruct H as [Hk Hf]. split; [done|].
    unfold foreign_keys_hold in *. exact Hf. }
  exists (counts_of (loaded (image s))), (copied (image s) false), (copied (image (copied (image s) false)) true).
  split; [by apply copy_tables_spec|]. split; [done|].
  assert (Hl : loaded (image (copied (image s) false)) = loaded (image s)).
  { rewrite image_loaded. unfold copied. cbn [sn_store]. by rewrite image_loaded. }
  split; [apply copy_tables_spec; split; [by apply image_consistent|]; by rewrite Hl|].
  split; [|by rewrite image_loaded]. unfold copied at 1. cbn [sn_store]. by rewrite Hl, image_loaded.
Qed.

(** ** A concrete recovery *)

Module Example1.
Definition key : key_row :=
  mkKeyRow "k1" "00" "d" "acme" "web" "[]" fone None None false.

Definition db : AccessDb :=
  mkAccessDb {["acme"]} {[("acme", "web") := (60, 10)%Z]} [key] {[("key", "acme", "web", "k1", 7%Z) := 1%Z]} [] [].

(** A source whose bytes are [raw]; only the text "image" is a database. *)
Definition recovery_host (raw : string) : RecoveryHost unit := {|
  rh_view p e := (Ok (mkPathView true true [false] true 1000 [(1000, 448)]%Z), e);
  rh_resolved p e := (Ok true, e);
  rh_facts p e := (Ok (mkFacts true true 1 true 1000 1000 384), e);
  rh_sidecar p e := (Ok false, e);
  rh_read p n e := (Ok raw, e);
  rh_open p e := (Ok (image (mkSnapshot db None)), e);
  rh_deserialize text := if String.eqb text "image" then Ok (image (mkSnapshot db (Some [1%Z])))
                         else raise SqliteError "file is not a database";
  rh_create p e := (Ok tt, e);
  rh_open_store p e := (Ok tt, e);
  rh_connect e := (Ok tt, e);
  rh_commit e := (Ok tt, e);
  rh_finish p e := (Ok (4096%Z, "digest"), e) |}.

Definition restore (raw : string) (expected : option string) (d : destination) : result json * destination :=
  let '(r, (d', _)) := copy_credentials (host := recovery_host raw) (parse_path "/srv/keys.db") (parse_path "/srv/new.db")
                         expected (d, tt) in (r, d').

Definition approved_hash : string := Eval vm_compute in sha256_hex "image".
End Example1.
Import Example1.

(** A restore, a backup, an image that was changed, an existing destination. *)
Example recovery_runs :
  (is_ok (fst (restore "image" (Some approved_hash) None)) = true
   /\ (map kr_revoked ∘ api_keys ∘ sn_store <$> snd (restore "image" (Some approved_hash) None)) = Some [true])
  /\ (map kr_revoked ∘ api_keys ∘ sn_store <$> snd (restore "image" None None)) = Some [false]
  /\ restore "other" (Some approved_hash) None = (raise ValueError "credential snapshot hash mismatch", None)
  /\ restore "image" (Some approved_hash) (Some fresh_store) = (raise OSError "File exists", Some fresh_store).
Proof. split; [split|split; [|split]]; vm_compute; reflexivity. Qed.

Lemma backup_then_restore_witness :
  related db /\ exists counts backup restored,
    copy_tables (image (mkSnapshot db None)) false fresh_store = Ok (counts, backup)
    /\ copy_tables (image backup) true fresh_store = Ok (counts, restored)
    /\ map kr_revoked (api_keys (sn_store restored)) = [true].
Proof.
  assert (Hr : related (sn_store (mkSnapshot db None))).
  { split; [apply (bool_decide_eq_true_1 _); vm_compute; reflexivity|vm_compute; reflexivity]. }
  split; [exact Hr|].
  destruct (backup_then_restore (mkSnapshot db None) Hr) as (c & b & r & H1 & _ & H2 & H3 & _).
  exists c, b, r. split; [exact H1|]. split; [exact H2|]. rewrite H3. reflexivity.
Defined.
