(* ===== verification/KeyManagement.v ===== *)
(** * Key administration ([c3r/key_management.py])

    The operator's commands over a credential store and their output.  The
    command line is parsed already: a [command] holds what argparse returns.  The
    store's database is kept beside the destination of a backup or restore and a
    world [E]. *)

From Stdlib Require Import Lia ZArith Ascii String.
From stdpp Require Import base option strings gmap list.
From S2P Require Import Prelude Effects PyStr PySort PyFloat FloatRepr Json Hash StateSchema Access.
From S2P Require Import LocalArtifacts CredentialRecovery.

Local Open Scope string_scope.

Inductive command : Type :=
  | Backup (dest : path)
  | Restore (dest : path) (expected_sha256 : string)
  | Project (tenant project : string) (rpm key_rps : Z)
  | Issue (tenant project : string) (scopes : gset string) (live : bool) (ttl_seconds : Z)
  | Keys (tenant project : string)
  | Revoke (tenant project key_id : string)
  | Usage (tenant project : string)
  | Purge (tenant project : string) (retention_seconds limit : Z).

(** [json.dumps(result, sort_keys=True)]. *)
Definition output_options : dump_options := DumpOptions ", " ": " true true true.

(** A row of [list_keys] as [dict(row)]. *)
Definition listed_json (k : listed_key) : json :=
  JObj [("id", JStr (lk_id k)); ("tenant", JStr (lk_tenant k)); ("project", JStr (lk_project k));
        ("scopes", JStr (lk_scopes k)); ("created_at", JFloat (lk_created_at k));
        ("expires_at", match lk_expires_at k with Some x => JFloat x | None => JNull end);
        ("last_used_at", match lk_last_used_at k with Some x => JFloat x | None => JNull end);
        ("revoked", JInt (if lk_revoked k then 1 else 0))].

Definition purge_json (r : purge_report) : json :=
  JObj [("usage_deleted", JInt (pr_usage_deleted r)); ("audit_deleted", JInt (pr_audit_deleted r));
        ("cutoff_utc_seconds", JFloat (pr_cutoff r)); ("batch_limit_per_table", JInt (pr_batch_limit r));
        ("scope", JStr (pr_scope r)); ("backup_deletion_verified", JBool false);
        ("physical_erasure_verified", JBool false)].

Definition failure_text : string :=
  print output_options (JObj [("error", JStr "key administration failed; check private database and inputs")]).

Section administration.
Context {engine : Sql} {E : Type} {recovery : RecoveryHost E} {store : AccessHost (destination * E)}
  (database : path) (open_store : path -> io (destination * E) unit) (time : io (destination * E) float).

Definition admin (A : Type) : Type := io (AccessDb * (destination * E)) A.

Definition issued_json (k : IssuedKey) : json :=
  JObj [("api_key_id", JStr (ik_key_id k)); ("api_key", JStr (ik_secret k)); ("show_once", JBool true)].

(** The [try] block up to the printing. *)
Definition administer (c : command) : admin json :=
  match c with
  | Backup dest => beside (copy_credentials database dest None)
  | Restore dest expected => beside (copy_credentials database dest (Some expected))
  | _ =>
      _ ← beside (open_store database);
      match c with
      | Project tenant project rpm key_rps =>
          _ ← create_project tenant project rpm key_rps;
          mret (JObj [("status", JStr "created")])
      | Issue tenant project scopes live ttl_seconds =>
          _ ← lift (raise_if (negb (Z.leb 1 ttl_seconds && Z.leb ttl_seconds 31536000)) ValueError
                      "bounded key expiration required");
          now ← beside time;
          issued ← issue_key tenant project scopes live (Some (fadd now (float_of_Z ttl_seconds)));
          mret (issued_json issued)
      | Revoke tenant project key_id =>
          _ ← revoke_key tenant project key_id;
          mret (JObj [("status", JStr "revoked")])
      | Keys tenant project => rows ← list_keys tenant project; mret (JArr (map listed_json rows))
      | Purge tenant project retention_seconds limit =>
          report ← purge_metadata tenant project retention_seconds limit; mret (purge_json report)
      | Usage tenant project => rows ← project_usage tenant project; mret (JArr rows)
      | Backup _ | Restore _ _ => mret JNull
      end
  end.

(** [main]: the exit code and the line printed. *)
Definition key_main (c : command) : admin (Z * string) :=
  io_try
    (value ← administer c;
     text ← lift (dumps output_options value);
     mret (0%Z, text))
    [OSError; ValueError; SqliteError]
    (fun _ => mret (1%Z, failure_text)).
End administration.

(** ** Commands are atomic *)

Definition administration_errors : list exn_kind := [OSError; ValueError; SqliteError].

Section atomicity.
Context {engine : Sql} {E : Type} {recovery : RecoveryHost E} {store : AccessHost (destination * E)}
  (database : path) (open_store : path -> io (destination * E) unit) (time : io (destination * E) float).

Lemma administer_atomic c : atomic (administer database open_store time c).
Proof.
  assert (Hout : forall A (m : io (destination * E) A), keeps eq (beside m)) by (intros A m; apply keeps_outside; exact _).
  assert (Hlift : forall A (r : result A), keeps (E := destination * E) eq (lift r))
    by (intros A r; apply keeps_lift; exact _).
  destruct c; cbn [administer]; try (by apply atomic_keeps);
    (apply atomic_bind; [done|intros _]);
    unfold create_project, issue_key, revoke_key, list_keys, project_usage, purge_metadata;
    repeat first [apply atomic_bind; [first [apply Hlift|apply Hout]|intros ?]|apply atomic_reply|apply atomic_transaction].
Qed.

(** An administration command either prints its result with exit code 0 or
    leaves every table of the store as it was: then it prints the one generic
    message with exit code 1, or lets an exception out that is none of OSError,
    ValueError and the database's. *)
Theorem administration_is_atomic c w :
  let '(r, w') := key_main database open_store time c w in
  (exists value, r = Ok (0%Z, print output_options value))
  \/ fst w' = fst w
     /\ (r = Ok (1%Z, failure_text) \/ exists x, r = Raise x /\ caught_by administration_errors (exn_class x) = false).
Proof.
  unfold key_main, io_try, mbind, io_bind. pose proof (administer_atomic c w) as Ha.
  destruct (administer database open_store time c w) as [[value|x] w1].
  - unfold lift. change (dumps output_options value) with (Ok (print output_options value)). cbn beta iota.
    left. by exists value.
  - specialize (Ha x w1 eq_refl). fold administration_errors.
    destruct (caught_by administration_errors (exn_class x)) eqn:Ec; right; (split; [done|]); [by left|right; by exists x].
Qed.
End atomicity.

(** ** Only issuing prints a secret *)

(** A store without the stored salts and digests. *)
Definition blank (k : key_row) : key_row :=
  mkKeyRow (kr_id k) "" "" (kr_tenant k) (kr_project k) (kr_scopes k) (kr_created_at k) (kr_expires_at k)
    (kr_last_used_at k) (kr_revoked k).

Definition redact (db : AccessDb) : AccessDb := with_keys (map blank (api_keys db)) db.

(** The same apart from salts and digests. *)
Definition alike (db1 db2 : AccessDb) : Prop := redact db1 = redact db2.

#[export] Instance alike_equivalence : Equivalence alike.
Proof. unfold alike. split; [intros ?; done|intros ? ?; done|intros ? ? ? -> ?; done]. Qed.

(** Run from stores that differ in salts and digests only, a computation gives
    the same result and world, and such stores again. *)
Definition blind {F A} (m : access F A) : Prop := forall db1 db2 e, alike db1 db2 ->
  exists r d1 d2 e', m (db1, e) = (r, (d1, e')) /\ m (db2, e) = (r, (d2, e')) /\ alike d1 d2.

Section blind.
Context {F : Type}.

Lemma blind_lift {A} (r : result A) : blind (F := F) (lift r).
Proof. intros db1 db2 e H. by exists r, db1, db2, e. Qed.

Lemma blind_ret {A} (a : A) : blind (F := F) (mret a).
Proof. intros db1 db2 e H. by exists (Ok a), db1, db2, e. Qed.

Lemma blind_beside {A} (m : io F A) : blind (beside m).
Proof. intros db1 db2 e H. unfold beside. destruct (m e) as [r e']. by exists r, db1, db2, e'. Qed.

Lemma blind_bind {A B} (m : access F A) (f : A -> access F B) : blind m -> (forall a, blind (f a)) -> blind (m ≫= f).
Proof.
  intros Hm Hf db1 db2 e H. destruct (Hm _ _ e H) as ([a|x] & d1 & d2 & e1 & H1 & H2 & Hd);
    unfold mbind, io_bind; rewrite H1, H2; [by apply Hf|]. by exists (Raise x), d1, d2, e1.
Qed.

(** Queries and statements see the store through [redact]. *)
Lemma blind_query {A} (f : AccessDb -> A) : (forall db, f (redact db) = f db) -> blind (F := F) (query f).
Proof.
  intros Hf db1 db2 e H. exists (Ok (f db1)), db1, db2, e. split; [done|]. split; [|done].
  unfold query. by rewrite <- (Hf db2), <- (Hf db1), H.
Qed.

Lemma blind_statement (f : AccessDb -> result AccessDb) :
  (forall db, f (redact db) = redact <$> f db) -> blind (F := F) (statement f).
Proof.
  intros Hf db1 db2 e H. pose proof (Hf db1) as E1. rewrite H, (Hf db2) in E1. unfold statement.
  destruct (f db1) as [d1|x1], (f db2) as [d2|x2]; cbn in E1; try discriminate.
  - assert (E2 : redact d2 = redact d1) by congruence. exists (Ok tt), d1, d2, e.
    split; [done|]. split; [done|]. by symmetry.
  - assert (x2 = x1) as -> by congruence. by exists (Raise x1), db1, db2, e.
Qed.

Lemma blind_atomically {A} start commit (body : access F A) : blind body -> blind (atomically start commit body).
Proof.
  intros Hb db1 db2 e H. unfold atomically. destruct (start e) as [[u|x] e1]; [|by eexists _, db1, db2, e1].
  destruct (Hb _ _ e1 H) as (r & d1 & d2 & e2 & H1 & H2 & Hd). rewrite H1, H2.
  destruct r as [a|x]; [|by exists (Raise x), db1, db2, e2].
  destruct (commit e2) as [[v|y] e3]; [by exists (Ok a), d1, d2, e3|by exists (Raise y), db1, db2, e3].
Qed.

Lemma blind_try {A} (m : access F A) handlers h : blind m -> (forall x, blind (h x)) -> blind (io_try m handlers h).
Proof.
  intros Hm Hh db1 db2 e H. destruct (Hm _ _ e H) as ([a|x] & d1 & d2 & e1 & H1 & H2 & Hd);
    unfold io_try; rewrite H1, H2; [by exists (Ok a), d1, d2, e1|].
  destruct (caught_by handlers (exn_class x)); [by apply Hh|by exists (Raise x), d1, d2, e1].
Qed.
End blind.

Lemma redact_filter (which : key_row -> bool) (keys : list key_row) :
  (forall k, which (blank k) = which k) -> List.filter which (map blank keys) = map blank (List.filter which keys).
Proof.
  intros H. induction keys as [|k keys IH]; cbn; [done|]. rewrite H. destruct (which k); cbn; by rewrite IH.
Qed.

Lemma redact_update which f db :
  (forall k, which (blank k) = which k) -> (forall k, f (blank k) = blank (f k)) ->
  update_keys which f (redact db) = (redact (fst (update_keys which f db)), snd (update_keys which f db)).
Proof.
  intros Hw Hf. unfold update_keys, redact. cbn. f_equal.
  - unfold with_keys. cbn. f_equal. induction (api_keys db) as [|k l IH]; cbn; [done|].
    rewrite Hw, IH. destruct (which k); [by rewrite Hf|done].
  - rewrite redact_filter by done. unfold lenZ. by rewrite length_map.
Qed.

(** ** The commands over SQLite *)

Section secrecy.
Context {E : Type} {recovery : RecoveryHost E} (database : path)
  (open_store : path -> io (destination * E) unit) (time wall_clock : io (destination * E) float)
  (connect commit : io (destination * E) unit) (hex_token url_token byte_token : io (destination * E) string).

Definition issues (c : command) : bool := match c with Issue _ _ _ _ _ => true | _ => false end.

Notation host := (sqlite_host wall_clock connect commit hex_token url_token byte_token).
Notation run := (key_main (engine := sqlite) (store := host) database open_store time).

Lemma blind_insert_audit tenant project key_id action request_id at_ :
  blind (F := destination * E) (statement (insert_audit (engine := sqlite) tenant project key_id action request_id at_)).
Proof. apply blind_statement. intros db. unfold insert_audit. by destruct (required_real at_). Qed.

Lemma insert_project_redact tenant project rpm key_rps db :
  insert_project (engine := sqlite) tenant project rpm key_rps (redact db)
  = redact <$> insert_project (engine := sqlite) tenant project rpm key_rps db.
Proof. unfold insert_project. cbn. by destruct (projects db !! _). Qed.

Lemma listed_redact tenant project db :
  map (fun k => mkListedKey (kr_id k) (kr_tenant k) (kr_project k) (kr_scopes k) (kr_created_at k)
                  (kr_expires_at k) (kr_last_used_at k) (kr_revoked k))
    (scan (Sql := sqlite) (List.filter (fun k => String.eqb (kr_tenant k) tenant && String.eqb (kr_project k) project)
       (api_keys (redact db))))
  = map (fun k => mkListedKey (kr_id k) (kr_tenant k) (kr_project k) (kr_scopes k) (kr_created_at k)
                  (kr_expires_at k) (kr_last_used_at k) (kr_revoked k))
    (scan (Sql := sqlite) (List.filter (fun k => String.eqb (kr_tenant k) tenant && String.eqb (kr_project k) project)
       (api_keys db))).
Proof. cbn. rewrite redact_filter by done. by rewrite map_map. Qed.

Lemma blind_administer c : issues c = false ->
  blind (administer (engine := sqlite) (store := host) database open_store time c).
Proof.
  intros Hc. destruct c; try discriminate; cbn [administer]; try apply blind_beside;
    (apply blind_bind; [apply blind_beside|intros _]); (apply blind_bind; [|intros ?; apply blind_ret]).
  - unfold create_project. do 3 (apply blind_bind; [apply blind_lift|intros _]).
    apply blind_atomically, blind_statement. apply insert_project_redact.
  - unfold list_keys. apply blind_atomically, blind_query. apply listed_redact.
  - unfold revoke_key. apply blind_atomically. cbv zeta.
    apply blind_bind; [apply blind_query; intros db; by rewrite redact_update|intros changed].
    apply blind_bind; [apply blind_statement; intros db; by rewrite redact_update|intros _].
    apply blind_bind; [apply blind_lift|intros _]. apply blind_bind; [apply blind_beside|intros now].
    apply blind_insert_audit.
  - unfold project_usage. apply blind_atomically. apply blind_bind; [by apply blind_query|intros texts].
    apply blind_lift.
  - unfold purge_metadata. do 3 (apply blind_bind; [apply blind_lift|intros _]).
    apply blind_bind; [apply blind_beside|intros now]. cbv zeta. apply blind_atomically.
    apply blind_bind; [by apply blind_query|intros usage]. apply blind_bind; [by apply blind_query|intros audit].
    apply blind_bind; [by apply blind_statement|intros _]. apply blind_ret.
Qed.

(** Only issuing a key prints a secret.  Every other command, run from two
    stores that differ in nothing but the salts and digests of their keys, prints
    the same line, ends with the same exit code and leaves such stores again: its
    output tells nothing about the stored secrets. *)
Theorem only_issue_reveals c db1 db2 w
    (Hc : issues c = false) (Halike : alike db1 db2) :
  exists r d1 d2 w', run c (db1, w) = (r, (d1, w')) /\ run c (db2, w) = (r, (d2, w')) /\ alike d1 d2.
Proof.
  apply blind_try; [|intros x; apply blind_ret|done].
  apply blind_bind; [by apply blind_administer|intros value].
  apply blind_bind; [apply blind_lift|intros text; apply blind_ret].
Qed.
End secrecy.

(** ** A concrete administration *)

Module Example1.
Import CredentialRecovery.Example1.

#[export] Instance example_recovery : RecoveryHost unit := recovery_host "image".

Definition tick : io (destination * unit) float := mret fone.
Definition succeed : io (destination * unit) unit := mret tt.
Definition token (s : string) : io (destination * unit) string := mret s.

Definition other_db : AccessDb :=
  with_keys [mkKeyRow "k1" "ff" "e" "acme" "web" "[]" fone None None false] db.

Definition manage (c : command) (start : AccessDb) : result (Z * string) * (AccessDb * (destination * unit)) :=
  key_main (engine := sqlite)
    (store := sqlite_host tick succeed succeed (token "0123456789abcdef01234567") (token "secret") (token "salt"))
    (parse_path "/srv/keys.db") (fun _ => succeed) tick c (start, (None, tt)).
End Example1.
Import Example1.

(** Listing, revoking a key that does not exist, an unbounded lifetime, issuing. *)
Example administration_runs :
  fst (manage (Keys "acme" "web") CredentialRecovery.Example1.db)
    = Ok (0%Z, print output_options (JArr [JObj [("id", JStr "k1"); ("tenant", JStr "acme"); ("project", JStr "web");
        ("scopes", JStr "[]"); ("created_at", JFloat fone); ("expires_at", JNull); ("last_used_at", JNull);
        ("revoked", JInt 0)]]))
  /\ fst (manage (Revoke "acme" "web" "k2") CredentialRecovery.Example1.db) = Ok (1%Z, failure_text)
  /\ fst (manage (Issue "acme" "web" {["models:read"]} false 31536001) CredentialRecovery.Example1.db) = Ok (1%Z, failure_text)
  /\ fst (manage (Issue "acme" "web" {["models:read"]} false 60) CredentialRecovery.Example1.db)
     = Ok (0%Z, print output_options (JObj [("api_key_id", JStr "0123456789abcdef01234567");
         ("api_key", JStr "c3r_sk_test_0123456789abcdef01234567_secret"); ("show_once", JBool true)])).
Proof. do 3 (split; [vm_compute; reflexivity|]). vm_compute. reflexivity. Qed.

Lemma only_issue_reveals_witness :
  issues (Keys "acme" "web") = false /\ alike CredentialRecovery.Example1.db other_db
  /\ fst (manage (Keys "acme" "web") CredentialRecovery.Example1.db) = fst (manage (Keys "acme" "web") other_db).
Proof.
  split; [reflexivity|]. assert (Ha : alike CredentialRecovery.Example1.db other_db) by reflexivity.
  split; [exact Ha|].
  destruct (only_issue_reveals (parse_path "/srv/keys.db") (fun _ => succeed) tick tick succeed succeed
    (token "0123456789abcdef01234567") (token "secret") (token "salt")
    (Keys "acme" "web") CredentialRecovery.Example1.db other_db (None, tt) eq_refl Ha)
    as (r & d1 & d2 & w' & H1 & H2 & _).
  transitivity r; [exact (f_equal fst H1)|exact (eq_sym (f_equal fst H2))].
Defined.
