(* ===== verification/StagingHost.v ===== *)
(** * The staging host ([c3r/staging_host.py])

    The boundary-smoke composition: decisions fixed off, a verifier that denies
    everything, the request-local sink and a one-action catalog.  It shows what
    the host can never do, and when the server accepts it. *)

From Stdlib Require Import Lia ZArith Ascii String.
From stdpp Require Import base option strings gmap list.
From S2P Require Import Prelude Effects PyStr PySort PyFloat FloatRepr Json Hash StateSchema.
From S2P Require StateCompiler CandidateCompiler.
From S2P Require Import Cvoc Authority VerifierFirewall TraceLedger Sinks SystemOne Invocations.
From S2P Require Import ClmAdapter Controls Providers Runtime HostFactory Responses Serve.

Local Open Scope string_scope.

Section staging.
Context {E : Type} (uuid4 : io E string).

Definition deny_verifier : Verifier := fun _ => Ok (mkVerifierDecision false "staging disabled").

Definition staging_firewall (attestation_key : string) : VerifierFirewall :=
  mkFirewall {["deny" := deny_verifier]} (mkVerifierPolicy "deny" ∅ "policy-v1") attestation_key.

Definition staging_definition : ActionDefinition :=
  mkActionDefinition "staging_noop" TOOL "staging" "noop" READ_ONLY [[]] ["local"] ["deny"] fzero fzero
    true "local" ∅ ∅.

Definition staging_policy : AuthorityPolicy :=
  mkAuthorityPolicy {[TOOL]} {[READ_ONLY]} default_data_boundaries.

(** [build]; [attestation_key] is [token_bytes(32)]. *)
Definition staging_build (attestation_key : string)
    : result (StandaloneController E text_deliberation * @ReadOnlyRequestFactory E) :=
  candidates ← CandidateCompiler.make_candidate_compiler 8;
  cvoc ← make_controller (float_of_decimal 196 (-2));
  controller ← make_standalone (X := Empty_set) None
    (mkStandalone default_flags StateCompiler.default_compiler candidates cvoc (staging_firewall attestation_key)
       None None None);
  factory ← make_factory (mkFactory [staging_definition] staging_policy (fun _ e => (Ok (Some ∅), e)) fzero []
                            "local");
  Ok (controller, factory).

(** What the entry point hands to the server. *)
Definition staging_host (controller : StandaloneController E text_deliberation)
    (factory : @ReadOnlyRequestFactory E) : built_host E :=
  mkBuilt (inr (controller, factory_build uuid4 factory)) false.

(** ** Properties *)

(** The staging host cannot decide.  It always builds; whatever request it
    is given, a run consults nothing outside, keeps no record and, unless the
    request has no identifier or cannot be hashed, ends in the one outcome
    C3R_DISABLED, without a selected action, candidates or deliberation; its
    firewall accepts no candidate; and the server takes it exactly in the two
    modes that are not production. *)
Theorem staging_cannot_decide key :
  exists controller factory, staging_build key = Ok (controller, factory)
  /\ (forall rq deliberator e,
        let '(r, w') := run (L := unit) controller rq deliberator (e, tt) in
        w' = (e, tt)
        /\ match r with
           | Ok o => route o = "deterministic" /\ reason o = "C3R_DISABLED" /\ ro_selected_action_id o = None
               /\ ro_candidate_ids o = [] /\ ro_deliberation o = None /\ ro_fast_path o = None
           | Raise x => rq_run_id rq = "" \/ (exists y, state_hash_of (raw_state rq) = Raise y)
               \/ exists h y, state_hash_of (raw_state rq) = Ok h
                  /\ canonical_trace_json (trace_of rq h (stop_with (D := text_deliberation) "deterministic"
                       "C3R_DISABLED" [] None)) = Raise y
           end)
  /\ (forall c v, verify (sc_verifier controller) c = Ok v -> vr_accepted v = false)
  /\ (forall values, is_ok (check_host values (staging_host controller factory))
        = bool_decide (mode_of values ∈ ["staging"; "research_collection"])).
Proof.
  eexists _, _. split; [reflexivity|]. split; [|split].
  - intros rq deliberator e. unfold run. destruct (nonempty (rq_run_id rq)) eqn:En; cbn [negb].
    2:{ split; [done|]. left. by destruct (rq_run_id rq). }
    destruct (state_hash_of (raw_state rq)) as [h|y] eqn:Eh; [|split; [done|]; right; left; by exists y].
    cbn [decide_run sc_flags default_flags enabled_requested negb].
    unfold decide_run. cbn [sc_flags default_flags enabled_requested negb]. unfold mret, io_ret.
    unfold finish, sink_append, ephemeral_sink, ephemeral_append.
    destruct (canonical_trace_json _) as [t|y] eqn:Et; cbn [mbind result_bind].
    + split; [done|]. by repeat split.
    + split; [done|]. right. right. exists h, y. split; [reflexivity|exact Et].
  - intros c v Hv. apply verify_ok in Hv as (verifier & d & Hl & Hvd & _ & _ & _ & _ & _ & -> & _).
    unfold staging_firewall, select_verifier in Hl. cbn in Hl. rewrite lookup_empty in Hl. cbn in Hl.
    rewrite lookup_singleton_eq in Hl. injection Hl as <-. by injection Hvd as <-.
  - intros values. unfold check_host, bh_runtime. cbn [bh_host staging_host fst effect_execution_enabled raise_if].
    cbn [mbind result_bind].
    destruct (bool_decide_reflect (mode_of values ∈ ["staging"; "production_inference"; "research_collection"]))
      as [Hm|Hm]; cbn [negb raise_if raise mbind result_bind is_ok].
    + destruct (String.eqb_spec (mode_of values) "production_inference") as [->|Hp].
      * repeat match goal with |- context [off_value values ?n] => destruct (off_value values n) end; done.
      * cbn [is_ok]. symmetry. apply bool_decide_eq_true. set_solver.
    + symmetry. apply bool_decide_eq_false. set_solver.
Qed.
End staging.
