(* ===== verification/CalibrationFit.v ===== *)
(** * Temperature fitting and calibration metrics ([c3r/system_one/calibration_fit.py])

    The C functions [exp], [log] and [pow] of the platform are parameters; the
    errors Python's [math] module raises around them are written out.  The
    metrics are computed as the source does, in one pass over the examples that
    fills the tallies and the bins, and are proved equal to a definition by
    comprehension over the scored examples; the fit is proved to treat every
    slice on its own and to keep the first grid temperature of least loss. *)

From Stdlib Require Import Lia ZArith Ascii String Permutation Sorted SpecFloat.
From stdpp Require Import base option strings gmap list.
From S2P Require Import Prelude PyStr PySort PyFloat PyNumber StateSchema SystemOne.

Local Open Scope string_scope.

(** ** Data *)

Record CalibrationExample : Type := mkExample {
  ex_key : CalibrationKey; ex_logits : list float; ex_label : Z }.

Record RiskCoveragePoint : Type := mkPoint {
  rc_coverage : float; rc_selective_risk : float; rc_accepted : Z }.

Record CalibrationMetrics : Type := mkMetrics {
  cm_accuracy : float; cm_brier : float; cm_ece : float;
  cm_maximum_calibration_error : float; cm_nll : float;
  cm_risk_coverage : list RiskCoveragePoint }.

Record CalibrationSliceReport : Type := mkReport {
  sr_sample_size : Z; sr_temperature : float;
  sr_before : CalibrationMetrics; sr_after : CalibrationMetrics }.

Record CalibrationFitResult : Type := mkFitResult {
  fr_calibrator : TemperatureCalibrator;
  fr_reports : gmap CalibrationKey CalibrationSliceReport;
  fr_skipped : gmap CalibrationKey string }.

(** ** Numbers *)

(** A list index, negative ones counted from the end. *)
Definition resolve_index (i n : Z) : result nat :=
  if Z.leb (- n) i && Z.ltb i n then Ok (Z.to_nat (if Z.ltb i 0 then i + n else i))
  else raise IndexError "list index out of range".

(** [float(a == b)]. *)
Definition float_of_bool (b : bool) : float := if b then fone else fzero.

Definition requested_coverages : list float :=
  [float_of_decimal 25 (-2); float_of_decimal 50 (-2); float_of_decimal 75 (-2); fone].

(** [sorted({max(1, math.ceil(count * c)) for c in ...})]. *)
Definition accepted_counts (count : Z) : result (list Z) :=
  cs ← mapR (fun c => k ← ceil (fmul (float_of_Z count) c); Ok (Z.max 1 k)) requested_coverages;
  Ok (sorted_by Z.ltb (remove_dups cs)).

Section fitting.
Context (exp log : float -> float) (pow : float -> float -> float).

(** ** Metrics *)

(** What the loop derives from one example: whether the prediction is right,
    the terms it adds to the Brier score and to the loss, the confidence and
    the bin. *)
Record score : Type := mkScore {
  sc_correct : bool; sc_brier : float; sc_log : float; sc_confidence : float; sc_bin : nat }.

Definition score_example (temperature : float) (bins : Z) (e : CalibrationExample) : result score :=
  probabilities ← softmax exp (ex_logits e) temperature;
  _ ← raise_if (negb (Z.leb 0 (ex_label e) && Z.ltb (ex_label e) (lenZ probabilities)))
        ValueError "label index is outside the probability vector";
  predicted ← argmax probabilities;
  squares ← mapR (fun '(i, p) => square pow (fsub p (float_of_bool (Z.eqb (Z.of_nat i) (ex_label e)))))
              (imap pair probabilities);
  l ← math_log log (fmax (nth (Z.to_nat (ex_label e)) probabilities fzero) tiny);
  width ← int_to_float bins;
  let confidence := match probabilities with [] => fzero | p :: ps => max_by flt p ps end in
  b ← int_of_float (fmul confidence width);
  index ← resolve_index (Z.min b (bins - 1)) bins;
  Ok (mkScore (Z.eqb (Z.of_nat predicted) (ex_label e)) (fsum squares) l confidence index).

Definition outcome (s : score) : float * float := (sc_confidence s, float_of_bool (sc_correct s)).

(** The variables of the loop. *)
Record tally : Type := mkTally {
  t_correct : Z; t_brier : float; t_nll : float;
  t_buckets : list (list (float * float)); t_outcomes : list (float * float) }.

Definition empty_tally (bins : Z) : tally :=
  mkTally 0 fzero fzero (replicate (Z.to_nat bins) []) [].

Definition add_score (t : tally) (s : score) : tally :=
  mkTally (t_correct t + (if sc_correct s then 1 else 0)) (fadd (t_brier t) (sc_brier s))
    (fsub (t_nll t) (sc_log s))
    (alter (fun values => values ++ [outcome s])%list (sc_bin s) (t_buckets t))
    (t_outcomes t ++ [outcome s])%list.

Definition tally_example (temperature : float) (bins : Z) (t : tally) (e : CalibrationExample)
    : result tally :=
  s ← score_example temperature bins e; Ok (add_score t s).

(** The size of a bin and the distance of its mean confidence from its mean
    accuracy; nothing for an empty bin. *)
Definition calibration_error (values : list (float * float)) : result (list (Z * float)) :=
  match values with
  | [] => Ok []
  | _ =>
      average_confidence ← div_int (fsum (map fst values)) (lenZ values);
      average_accuracy ← div_int (fsum (map snd values)) (lenZ values);
      Ok [(lenZ values, fabs (fsub average_confidence average_accuracy))]
  end.

Definition by_confidence (a b : float * float) : bool := flt (fst a) (fst b).

(** [outcomes.sort(key=..., reverse=True)]. *)
Definition most_confident_first (l : list (float * float)) : list (float * float) :=
  rev (sorted_by by_confidence (rev l)).

Definition risk_point (count : Z) (ordered : list (float * float)) (accepted : Z)
    : result RiskCoveragePoint :=
  coverage ← div_int (float_of_Z accepted) count;
  mean ← div_int (fsum (map snd (take (Z.to_nat accepted) ordered))) accepted;
  Ok (mkPoint coverage (fsub fone mean) accepted).

Definition summarise (count : Z) (t : tally) : result CalibrationMetrics :=
  errors ← mapR calibration_error (t_buckets t);
  let errors := concat errors in
  ece ← div_int (fsum (map (fun '(size, error) => fmul (float_of_Z size) error) errors)) count;
  let mce := match map snd errors with [] => fzero | e :: es => max_by flt e es end in
  counts ← accepted_counts count;
  points ← mapR (risk_point count (most_confident_first (t_outcomes t))) counts;
  accuracy ← div_int (float_of_Z (t_correct t)) count;
  brier ← div_int (t_brier t) count;
  nll ← div_int (t_nll t) count;
  Ok (mkMetrics accuracy brier ece mce nll points).

Definition calibration_metrics (examples : list CalibrationExample) (temperature : float) (bins : Z)
    : result CalibrationMetrics :=
  match examples with
  | [] => raise ValueError "at least one calibration example is required"
  | _ =>
      t ← foldR (tally_example temperature bins) (empty_tally bins) examples;
      summarise (lenZ examples) t
  end.

(** ** Fitting *)

Definition BINS : Z := 10.

Definition grid_point (log_lower log_upper : float) (search_steps : Z) (step : nat) : result float :=
  d ← int_to_float (Z.of_nat step);
  q ← div_int (fmul (fsub log_upper log_lower) d) (search_steps - 1);
  math_exp exp (fadd log_lower q).

Definition grid (lower upper : float) (search_steps : Z) : result (list float) :=
  log_lower ← math_log log lower;
  log_upper ← math_log log upper;
  mapR (grid_point log_lower log_upper search_steps) (seq 0 (Z.to_nat search_steps)).

(** [min(candidates, key=...)]: the keys are computed in order, the first least
    one wins. *)
Definition min_key (key : float -> result float) (candidates : list float) : result float :=
  keys ← mapR key candidates;
  match zip candidates keys with
  | [] => raise ValueError "min() arg is an empty sequence"
  | c :: cs => Ok (fst (min_by (fun a b => flt (snd a) (snd b)) c cs))
  end.

Definition slice_nll (examples : list CalibrationExample) (temperature : float) : result float :=
  cm_nll <$> calibration_metrics examples temperature BINS.

Definition insufficient (n minimum : Z) : string :=
  "insufficient support: " ++ str_of_Z n ++ " < " ++ str_of_Z minimum.

Record fit_state : Type := mkFitState {
  ft_temperatures : gmap CalibrationKey float;
  ft_reports : gmap CalibrationKey CalibrationSliceReport;
  ft_skipped : gmap CalibrationKey string }.

Definition fit_slice (minimum : Z) (candidates : list float) (s : fit_state)
    (group : CalibrationKey * list CalibrationExample) : result fit_state :=
  let '(key, examples) := group in
  if Z.ltb (lenZ examples) minimum
  then Ok (mkFitState (ft_temperatures s) (ft_reports s)
             (<[key := insufficient (lenZ examples) minimum]> (ft_skipped s)))
  else
    best ← min_key (slice_nll examples) candidates;
    before ← calibration_metrics examples fone BINS;
    after ← calibration_metrics examples best BINS;
    Ok (mkFitState (<[key := best]> (ft_temperatures s))
          (<[key := mkReport (lenZ examples) best before after]> (ft_reports s)) (ft_skipped s)).

Definition fit_calibration (examples : list CalibrationExample) (minimum_slice_size : Z)
    (lower upper : float) (search_steps : Z) : result CalibrationFitResult :=
  _ ← raise_if (Z.ltb minimum_slice_size 1 || Z.ltb search_steps 2 || fle lower fzero || fle upper lower)
        ValueError "invalid calibration fit configuration";
  let grouped := group_by ex_key examples in
  candidates ← grid lower upper search_steps;
  s ← foldR (fit_slice minimum_slice_size candidates) (mkFitState ∅ ∅ ∅) grouped;
  Ok (mkFitResult (mkCalibrator (ft_temperatures s)) (ft_reports s) (ft_skipped s)).
End fitting.

(** ** The metrics, by comprehension over the scores *)

Definition bin_members (scores : list score) (i : nat) : list (float * float) :=
  map outcome (filter (fun s => sc_bin s = i) scores).

Definition tally_of (bins : Z) (scores : list score) : tally :=
  mkTally (lenZ (filter (fun s => sc_correct s = true) scores))
    (fsum (map sc_brier scores)) (fold_left fsub (map sc_log scores) fzero)
    (map (bin_members scores) (seq 0 (Z.to_nat bins))) (map outcome scores).

Definition metrics_reference exp log pow (examples : list CalibrationExample) (temperature : float) (bins : Z)
    : result CalibrationMetrics :=
  _ ← raise_if (bool_decide (examples = [])) ValueError "at least one calibration example is required";
  scores ← mapR (score_example exp log pow temperature bins) examples;
  summarise (lenZ examples) (tally_of bins scores).

Lemma resolve_index_lt i n k : resolve_index i n = Ok k -> k < Z.to_nat n.
Proof.
  unfold resolve_index. destruct (Z.leb _ _ && Z.ltb i n) eqn:E; [|discriminate].
  bool_hyps. intros Hk; injection Hk as <-. destruct (Z.ltb_spec i 0); lia.
Qed.

Lemma tally_of_snoc bins scores s :
  sc_bin s < Z.to_nat bins -> add_score (tally_of bins scores) s = tally_of bins (scores ++ [s]).
Proof.
  intros Hs. unfold add_score, tally_of. cbn [t_correct t_brier t_nll t_buckets t_outcomes].
  rewrite !filter_app, !map_app. unfold fsum. rewrite !fold_left_app. cbn [map fold_left].
  f_equal.
  - rewrite filter_cons, filter_nil. unfold lenZ. rewrite length_app.
    destruct (sc_correct s); [rewrite decide_True by done|rewrite decide_False by done]; cbn; lia.
  - apply list_eq. intros i. rewrite list_lookup_alter, !list_lookup_fmap.
    unfold bin_members. destruct (base.decide (i < Z.to_nat bins)) as [Hi|Hi].
    + destruct (base.decide (sc_bin s = i)) as [<-|Hne]; rewrite lookup_seq_lt by done;
        cbn [fmap option_fmap option_map plus]; rewrite filter_app, filter_cons, filter_nil, map_app.
      * by rewrite decide_True.
      * rewrite decide_False by done. by rewrite app_nil_r.
    + destruct (base.decide (sc_bin s = i)) as [<-|Hne]; by rewrite lookup_seq_ge by lia.
Qed.

Lemma fold_scores bins scores :
  Forall (fun s => sc_bin s < Z.to_nat bins) scores ->
  fold_left add_score scores (empty_tally bins) = tally_of bins scores.
Proof.
  induction scores as [|s scores IH] using rev_ind; intros Hall.
  - cbn [fold_left]. unfold empty_tally, tally_of. f_equal.
    apply list_eq. intros i. rewrite list_lookup_fmap.
    destruct (base.decide (i < Z.to_nat bins)).
    + by rewrite lookup_seq_lt, lookup_replicate_2 by done.
    + rewrite lookup_seq_ge, lookup_ge_None_2 by (rewrite ?length_replicate; lia). done.
  - apply Forall_app in Hall as [H1 H2]. apply Forall_cons in H2 as [H2 _].
    rewrite fold_left_app. cbn [fold_left]. rewrite IH by done. by apply tally_of_snoc.
Qed.

Section properties.
Context (exp log : float -> float) (pow : float -> float -> float).

Lemma score_bin temperature bins e s :
  score_example exp log pow temperature bins e = Ok s -> sc_bin s < Z.to_nat bins.
Proof.
  unfold score_example. intros H. result_inv. cbn. by eapply resolve_index_lt.
Qed.


(** ** The fit of a slice *)

(** What the fit records for a key whose examples are [slice]. *)
Definition fitted (minimum : Z) (candidates : list float) (key : CalibrationKey)
    (slice : list CalibrationExample) (temperature : option float)
    (report : option CalibrationSliceReport) (skipped : option string) : Prop :=
  if Z.ltb (lenZ slice) minimum
  then temperature = None /\ report = None /\ skipped = Some (insufficient (lenZ slice) minimum)
  else exists best before after,
    min_key (slice_nll exp log pow slice) candidates = Ok best
    /\ calibration_metrics exp log pow slice fone BINS = Ok before
    /\ calibration_metrics exp log pow slice best BINS = Ok after
    /\ temperature = Some best /\ report = Some (mkReport (lenZ slice) best before after)
    /\ skipped = None.

(** The three dictionaries at a key. *)
Definition at_key (s : fit_state) (k : CalibrationKey) :=
  (ft_temperatures s !! k, ft_reports s !! k, ft_skipped s !! k).

Lemma fit_slice_at minimum candidates s k slice s' :
  fit_slice exp log pow minimum candidates s (k, slice) = Ok s' ->
  (forall k', k' <> k -> at_key s' k' = at_key s k')
  /\ (at_key s k = (None, None, None) ->
      fitted minimum candidates k slice (ft_temperatures s' !! k) (ft_reports s' !! k) (ft_skipped s' !! k)).
Proof.
  unfold fit_slice, fitted, at_key. destruct (Z.ltb (lenZ slice) minimum); intros H; result_inv; cbn.
  - split; [intros k' Hk; by rewrite lookup_insert_ne by done|].
    intros E. injection E as -> -> _. by rewrite lookup_insert_eq.
  - split; [intros k' Hk; by rewrite !lookup_insert_ne by done|].
    intros E. injection E as _ _ ->. rewrite !lookup_insert_eq. by eexists _, _, _.
Qed.

Lemma fit_loop_at minimum candidates groups s s' :
  NoDup (map fst groups) ->
  foldR (fit_slice exp log pow minimum candidates) s groups = Ok s' ->
  (forall k, k ∉ map fst groups -> at_key s' k = at_key s k)
  /\ (forall k slice, (k, slice) ∈ groups -> at_key s k = (None, None, None) ->
      fitted minimum candidates k slice (ft_temperatures s' !! k) (ft_reports s' !! k) (ft_skipped s' !! k)).
Proof.
  revert s; induction groups as [|[k0 slice0] groups IH]; intros s Hnd H; cbn [foldR] in H.
  { injection H as <-. split; [done|]. intros k slice Hin. by apply elem_of_nil in Hin. }
  apply bind_ok in H as (s1 & H1 & H). cbn [map fst] in *. apply NoDup_cons in Hnd as [Hk0 Hnd].
  apply fit_slice_at in H1 as [Hother Hself]. destruct (IH s1 Hnd H) as [I1 I2]. split.
  - intros k Hk. apply not_elem_of_cons in Hk as [Hne Hk]. by rewrite I1, Hother by done.
  - intros k slice Hin Hs. apply elem_of_cons in Hin as [E|Hin].
    + injection E as -> ->. specialize (Hself Hs). specialize (I1 k0 Hk0). unfold at_key in I1.
      by injection I1 as -> -> ->.
    + apply I2; [done|]. rewrite Hother; [done|]. intros ->. apply Hk0.
      by apply list_elem_of_fmap_2 with (f := fst) in Hin.
Qed.

(** The examples of a key. *)
Definition slice_of (k : CalibrationKey) (examples : list CalibrationExample) : list CalibrationExample :=
  filter (fun e => ex_key e = k) examples.

Lemma fit_calibration_at examples minimum lower upper steps r :
  fit_calibration exp log pow examples minimum lower upper steps = Ok r ->
  (1 <= minimum)%Z /\ exists candidates, grid exp log lower upper steps = Ok candidates
  /\ forall k,
    if bool_decide (slice_of k examples = [])
    then temperatures (fr_calibrator r) !! k = None /\ fr_reports r !! k = None /\ fr_skipped r !! k = None
    else fitted minimum candidates k (slice_of k examples)
           (temperatures (fr_calibrator r) !! k) (fr_reports r !! k) (fr_skipped r !! k).
Proof.
  unfold fit_calibration. intros H. result_inv. bool_hyps. split; [lia|].
  eexists; split; [eassumption|]. intros k. cbn.
  match goal with E : foldR _ _ _ = Ok _ |- _ => apply fit_loop_at in E as [Hnone Hsome] end;
    [|apply group_by_NoDup].
  case_bool_decide as Hs.
  - specialize (Hnone k). rewrite group_by_keys in Hnone. unfold at_key in Hnone. cbn in Hnone.
    rewrite !lookup_empty in Hnone.
    assert (Hk : ~ exists e, e ∈ examples /\ ex_key e = k).
    { intros (e & He & Hke). apply (filter_nil_not_elem_of (fun e => ex_key e = k) examples e Hs Hke He). }
    apply Hnone in Hk. by injection Hk as -> -> ->.
  - apply Hsome; [|by unfold at_key; cbn; rewrite !lookup_empty].
    apply group_by_elem. split; [done|].
    destruct (slice_of k examples) as [|e l] eqn:E; [done|].
    exists e. assert (He : e ∈ slice_of k examples) by (rewrite E; left).
    unfold slice_of in He. apply list_elem_of_filter in He as [? ?]. done.
Qed.

(** ** The search over the grid *)

(** The least key wins; a candidate whose key is NaN is never less. *)
Lemma min_key_least key candidates best :
  min_key key candidates = Ok best ->
  best ∈ candidates
  /\ forall c, c ∈ candidates -> exists x, key c = Ok x
     /\ ((forall d y, d ∈ candidates -> key d = Ok y -> is_nan y = false) ->
         forall y, key best = Ok y -> flt x y = false).
Proof.
  unfold min_key. intros H. apply bind_ok in H as (keys & Hk & H). apply mapR_ok in Hk.
  assert (Hz : Forall (fun cy => fst cy ∈ candidates /\ key (fst cy) = Ok (snd cy)) (zip candidates keys)).
  { clear -Hk. apply Forall_forall. intros [c y] Hin. apply elem_of_lookup_zip_with in Hin as (i & c' & y' & E & Hc & Hy).
    injection E as -> ->. split; [by eapply list_elem_of_lookup_2|]. by eapply Forall2_lookup_lr in Hk. }
  assert (Hc : forall c, c ∈ candidates -> exists y, (c, y) ∈ zip candidates keys).
  { clear -Hk. intros c Hin. apply list_elem_of_lookup in Hin as [i Hi].
    destruct (Forall2_lookup_l _ _ _ _ _ Hk Hi) as (y & Hy & _). exists y.
    apply list_elem_of_lookup. exists i. by apply lookup_zip_with_Some; exists c, y. }
  destruct (zip candidates keys) as [|p ps] eqn:E; [discriminate|]. injection H as <-.
  set (lt := fun a b : float * float => flt (snd a) (snd b)) in *.
  pose proof (min_by_elem lt p ps) as Hin. set (b := min_by lt p ps) in *.
  rewrite Forall_forall in Hz. destruct (Hz b Hin) as [Hb Hkb]. split; [done|].
  intros c Hcin. destruct (Hc c Hcin) as [x Hx]. destruct (Hz _ Hx) as [_ Hkx]. cbn in Hkx.
  exists x. split; [done|]. intros Hnan y Hy. rewrite Hkb in Hy. injection Hy as <-.
  assert (Hw : StrictWeak (fun a b => lt b a) (fun cy => is_nan (snd cy) = false)).
  { split; unfold lt; [intros; by apply flt_asym|intros u v z _ Hv _ H1 H2; by apply (flt_false_trans _ (snd v))]. }
  assert (Hall : Forall (fun cy => is_nan (snd cy) = false) (p :: ps)).
  { apply Forall_forall. intros cy Hcy. destruct (Hz cy Hcy). by eapply Hnan. }
  apply Forall_cons in Hall as [Hp Hps].
  pose proof (max_by_upper (fun a b => lt b a) _ p ps Hp Hps) as Hup. rewrite Forall_forall in Hup.
  by specialize (Hup _ Hx).
Qed.

(** The fit is a grid search, slice by slice.  When it returns: a key without
    examples is absent from its dictionaries; a key with fewer examples than the
    minimum is only listed as skipped, with the two numbers; every other key has a
    report whose size and metrics (at temperature one and at the chosen
    temperature) are those of its own examples and whose temperature, the one the
    calibrator holds, is a grid point at which the loss is not beaten by any other
    grid point (when no loss on the grid is NaN). *)
Theorem fit_is_grid_search examples minimum lower upper steps r
    (H : fit_calibration exp log pow examples minimum lower upper steps = Ok r) :
  exists candidates, grid exp log lower upper steps = Ok candidates
  /\ forall k, let slice := slice_of k examples in
     let n := lenZ slice in
     (n = 0%Z -> temperatures (fr_calibrator r) !! k = None /\ fr_reports r !! k = None
               /\ fr_skipped r !! k = None)
     /\ ((0 < n < minimum)%Z ->
          temperatures (fr_calibrator r) !! k = None /\ fr_reports r !! k = None
          /\ fr_skipped r !! k = Some (insufficient n minimum))
     /\ ((minimum <= n)%Z -> exists rep, fr_reports r !! k = Some rep /\ fr_skipped r !! k = None
          /\ temperatures (fr_calibrator r) !! k = Some (sr_temperature rep)
          /\ sr_sample_size rep = n /\ sr_temperature rep ∈ candidates
          /\ calibration_metrics exp log pow slice fone BINS = Ok (sr_before rep)
          /\ calibration_metrics exp log pow slice (sr_temperature rep) BINS = Ok (sr_after rep)
          /\ forall c, c ∈ candidates -> exists x, slice_nll exp log pow slice c = Ok x
             /\ ((forall d y, d ∈ candidates -> slice_nll exp log pow slice d = Ok y -> is_nan y = false) ->
                 flt x (cm_nll (sr_after rep)) = false)).
Proof.
  apply fit_calibration_at in H as (Hmin & candidates & Hg & Hat).
  exists candidates. split; [done|]. intros k slice n. specialize (Hat k). fold slice in Hat.
  assert (H0 : slice = [] <-> n = 0%Z).
  { unfold n, lenZ. destruct slice; [done|]. split; [done|]. cbn. lia. }
  case_bool_decide as Hs.
  - assert (n = 0%Z) by tauto. split; [done|]. split; intros; lia.
  - split; [tauto|]. unfold fitted in Hat. fold n in Hat. split; intros Hn.
    + by rewrite (proj2 (Z.ltb_lt _ _)) in Hat by lia.
    + rewrite (proj2 (Z.ltb_ge _ _)) in Hat by lia.
      destruct Hat as (best & before & after & Hb & Hbef & Haft & -> & -> & ->).
      apply min_key_least in Hb as [Hin Hleast]. eexists. split; [done|]. cbn. do 5 (split; [done|]).
      split; [done|]. intros c Hc. destruct (Hleast c Hc) as (x & Hx & Hle).
      exists x. split; [done|]. intros Hnan. apply Hle; [done|]. unfold slice_nll. by rewrite Haft.
Qed.

(** Slices do not influence each other: two fits with the same settings agree
    at every key whose examples, in order, are the same in both. *)
Theorem slices_are_independent examples1 examples2 minimum lower upper steps r1 r2 k
    (H1 : fit_calibration exp log pow examples1 minimum lower upper steps = Ok r1)
    (H2 : fit_calibration exp log pow examples2 minimum lower upper steps = Ok r2)
    (Hk : slice_of k examples1 = slice_of k examples2) :
  temperatures (fr_calibrator r1) !! k = temperatures (fr_calibrator r2) !! k
  /\ fr_reports r1 !! k = fr_reports r2 !! k /\ fr_skipped r1 !! k = fr_skipped r2 !! k.
Proof.
  apply fit_calibration_at in H1 as (_ & c1 & Hc1 & A1). apply fit_calibration_at in H2 as (_ & c2 & Hc2 & A2).
  assert (c1 = c2) as -> by congruence. specialize (A1 k). specialize (A2 k). rewrite Hk in A1.
  case_bool_decide; [destruct A1 as (-> & -> & ->); destruct A2 as (-> & -> & ->); done|].
  unfold fitted in *. destruct (Z.ltb _ _).
  - destruct A1 as (-> & -> & ->). by destruct A2 as (-> & -> & ->).
  - destruct A1 as (b1 & m1 & n1 & X1 & Y1 & Z1 & -> & -> & ->).
    destruct A2 as (b2 & m2 & n2 & X2 & Y2 & Z2 & -> & -> & ->).
    rewrite X1 in X2. injection X2 as <-. rewrite Y1 in Y2. injection Y2 as <-.
    rewrite Z1 in Z2. by injection Z2 as <-.
Qed.

(** System One answers nothing without evidence: a fast path that uses a
    fitted calibrator answers a question only when the examples the calibrator was
    fitted on held at least the minimum number for the very slice of the question
    (its id, family, option count, language and consequence class), and that slice
    has a report. *)
Theorem answers_have_support examples minimum lower upper steps r
    {W} monotonic (fp : CalibratedFastPath W) state qs family lang opts w d w' q o
    (Hfit : fit_calibration exp log pow examples minimum lower upper steps = Ok r)
    (Hcal : cf_calibrator fp = fr_calibrator r)
    (Hnd : NoDup (map q_id qs))
    (Hd : decide exp monotonic fp state qs family lang opts w = (Ok d, w'))
    (Hq : q ∈ qs) (Ho : fp_answers d !! q_id q = Some o) :
  let key := mkKey (q_id q) family (option_count_bucket (lenZ (q_options q))) lang (consequence_of state) in
  (minimum <= lenZ (slice_of key examples))%Z /\ exists rep, fr_reports r !! key = Some rep.
Proof.
  intros key. apply (answers_backed _ (fun _ => True)) with (q := q) (o := o) in Hd as [Hd _]; [|done..].
  fold key in Hd. rewrite Hcal in Hd. unfold supports in Hd.
  apply fit_calibration_at in Hfit as (_ & candidates & _ & Hat). specialize (Hat key).
  case_bool_decide; [destruct Hat as (E & _); by rewrite E in Hd|].
  unfold fitted in Hat. destruct (Z.ltb _ _) eqn:El; [destruct Hat as (E & _); by rewrite E in Hd|].
  destruct Hat as (best & before & after & _ & _ & _ & _ & -> & _). bool_hyps. eauto.
Qed.
End properties.

(** ** Concrete runs

    Approximations of the C functions: [(1 + x / 1024) ^ 1024] for [exp],
    Newton steps for [log]. *)

Fixpoint squarings (n : nat) (x : float) : float :=
  match n with O => x | S n => squarings n (fmul x x) end.

Definition example_exponential (x : float) : float :=
  squarings 10 (fadd fone (SpecFloat.SFdiv prec emax x (float_of_Z 1024))).

Definition newton_step (x y : float) : float :=
  let e := example_exponential y in
  fadd y (fmul (float_of_Z 2) (SpecFloat.SFdiv prec emax (fsub x e) (fadd x e))).

Fixpoint newton (n : nat) (x y : float) : float :=
  match n with O => y | S n => newton n x (newton_step x y) end.

Definition example_log (x : float) : float := newton 12 x fzero.
Definition example_pow (x y : float) : float := fmul x x.

Definition example_key (consequence : string) : CalibrationKey :=
  mkKey "STOP_NOW" "TOOL" "2" "en" consequence.

(** Three predictions right and one wrong at a confidence of three quarters: no
    other temperature fits them better than one. *)
Definition example_slice : list CalibrationExample :=
  map (mkExample (example_key "low") [float_of_decimal 11 (-1); fzero]) [0; 0; 0; 1]%Z.

Definition example_data : list CalibrationExample :=
  (mkExample (example_key "high") [fone; fzero] 0 :: example_slice)%list.

Local Abbreviation example_run data :=
  (fit_calibration example_exponential example_log example_pow data 4
     (float_of_decimal 25 (-2)) (float_of_Z 8) 2).

Definition fit_or_empty (r : result CalibrationFitResult) : CalibrationFitResult :=
  match r with Ok f => f | Raise _ => mkFitResult (mkCalibrator ∅) ∅ ∅ end.

Lemma fit_or_empty_ok r : is_ok r = true -> r = Ok (fit_or_empty r).
Proof. by destruct r. Qed.

Definition example_result : CalibrationFitResult := fit_or_empty (example_run example_data).

Lemma example_run_ok : example_run example_data = Ok example_result.
Proof. apply fit_or_empty_ok. vm_compute. reflexivity. Qed.

(** The grid need not contain the temperature one, and the fitted temperature is
    not compared with it: a fit can make the loss of its slice worse. *)
Example fit_can_worsen_the_loss :
  exists rep, fr_reports example_result !! example_key "low" = Some rep
  /\ flt (cm_nll (sr_before rep)) (cm_nll (sr_after rep)) = true.
Proof. vm_compute. eexists. split; reflexivity. Qed.

Example skipped_slice :
  fr_skipped example_result !! example_key "high" = Some "insufficient support: 1 < 4".
Proof. vm_compute. reflexivity. Qed.

(** Coverages and selective risks of a slice of four, and the errors of the
    entry checks. *)
Example metrics_runs :
  (match calibration_metrics example_exponential example_log example_pow example_slice fone BINS with
   | Ok m => map (fun p => (rc_coverage p, rc_selective_risk p)) (cm_risk_coverage m)
             = [(float_of_decimal 25 (-2), fzero); (float_of_decimal 5 (-1), fzero);
                (float_of_decimal 75 (-2), fzero); (fone, float_of_decimal 25 (-2))]
             /\ cm_accuracy m = float_of_decimal 75 (-2)
   | Raise _ => False
   end)
  /\ calibration_metrics example_exponential example_log example_pow [] fone BINS
     = raise ValueError "at least one calibration example is required"
  /\ calibration_metrics example_exponential example_log example_pow
       [mkExample (example_key "low") [fone; fzero] (-1)] fone BINS
     = raise ValueError "label index is outside the probability vector"
  /\ fit_calibration example_exponential example_log example_pow example_data 4 fone fone 2
     = raise ValueError "invalid calibration fit configuration".
Proof. split; [|split; [|split]]; vm_compute; try split; reflexivity. Qed.

Lemma fit_is_grid_search_witness :
  exists rep, fr_reports example_result !! example_key "low" = Some rep
  /\ sr_sample_size rep = 4%Z.
Proof.
  destruct (fit_is_grid_search example_exponential example_log example_pow _ _ _ _ _ _ example_run_ok)
    as (candidates & _ & Hall).
  destruct (Hall (example_key "low")) as (_ & _ & H).
  destruct H as (rep & Hrep & _ & _ & Hn & _); [vm_compute; discriminate|].
  exists rep. split; [exact Hrep|]. rewrite Hn. vm_compute. reflexivity.
Defined.

Definition example_slice_result : CalibrationFitResult := fit_or_empty (example_run example_slice).

Lemma example_slice_run_ok : example_run example_slice = Ok example_slice_result.
Proof. apply fit_or_empty_ok. vm_compute. reflexivity. Qed.

Lemma slices_are_independent_witness :
  fr_reports example_result !! example_key "low"
  = fr_reports example_slice_result !! example_key "low".
Proof.
  assert (Hk : slice_of (example_key "low") example_data = slice_of (example_key "low") example_slice)
    by (vm_compute; reflexivity).
  exact (proj1 (proj2 (slices_are_independent example_exponential example_log example_pow _ _ _ _ _ _ _ _
    (example_key "low") example_run_ok example_slice_run_ok Hk))).
Defined.

Definition fitted_fast_path : CalibratedFastPath unit :=
  mkFastPath (example_adapter [fzero; float_of_Z 40]) (fr_calibrator example_result)
    (float_of_decimal 65 (-2)) (float_of_decimal 1 (-1)) (float_of_decimal 5 (-1)).

Lemma answers_have_support_witness :
  exists d, decide example_exponential (mret fzero) fitted_fast_path example_state [example_question] "TOOL" "en" [] tt
            = (Ok d, tt)
  /\ fp_answers d !! "STOP_NOW" = Some "YES"
  /\ exists rep, fr_reports example_result !! mkKey (q_id example_question) "TOOL"
       (option_count_bucket (lenZ (q_options example_question))) "en" (consequence_of example_state) = Some rep.
Proof.
  destruct (decide example_exponential (mret fzero) fitted_fast_path example_state [example_question] "TOOL" "en" [] tt)
    as [r []] eqn:E.
  assert (Ha : match r with Ok d => fp_answers d !! "STOP_NOW" = Some "YES" | Raise _ => False end).
  { replace r with (fst (decide example_exponential (mret fzero) fitted_fast_path example_state [example_question]
      "TOOL" "en" [] tt)) by (rewrite E; reflexivity). vm_compute. reflexivity. }
  destruct r as [d|e]; [|destruct Ha]. exists d. split; [reflexivity|]. split; [exact Ha|].
  assert (Hc : cf_calibrator fitted_fast_path = fr_calibrator example_result)
    by (unfold fitted_fast_path; cbn [cf_calibrator]; reflexivity).
  assert (Hnd : NoDup (map q_id [example_question]))
    by (constructor; [intros Hin; apply elem_of_nil in Hin; exact Hin | constructor]).
  exact (proj2 (answers_have_support example_exponential example_log example_pow _ _ _ _ _ _
    (mret fzero) fitted_fast_path example_state [example_question] "TOOL" "en" [] tt d tt example_question "YES"
    example_run_ok Hc Hnd E (list_elem_of_here _ _) Ha)).
Defined.
