(* ===== verification/LayaBackend.v ===== *)
(** * The pinned Laya backend ([c3r/system_one/laya_backend.py])

    The backend object keeps one field that changes, the loaded agent; its
    methods run on that field beside the outside world.  The Hub SDK and the
    Laya SDK are third-party: optional records of the callables the source
    uses, absent when the import fails.  [math.log] is the argument [log]. *)

From Stdlib Require Import Lia ZArith Ascii String.
From stdpp Require Import base option strings gmap list.
From S2P Require Import Prelude PyStr PyFloat Json PyNumber Effects StateSchema SystemOne.

Local Open Scope string_scope.

Record HubModelMetadata : Type := mkHubMetadata { hm_sha : string; hm_license : string }.

(** [model_info(...).card_data]: nothing, an object with [to_dict], or a mapping. *)
Inductive card : Type :=
  | NoCard
  | CardObject (to_dict : list (string * json))
  | CardMapping (entries : list (string * json)).

Definition card_dict (c : card) : list (string * json) :=
  match c with NoCard => [] | CardObject d => d | CardMapping d => d end.

Section backend.
Context {W : Type} (log : float -> float).

(** [LayaAgent]: [predict(asdict(state), questions)]. *)
Record LayaAgent : Type := mkAgent {
  ag_predict : CompiledState -> json -> io W json }.

Record HubSdk : Type := mkHubSdk {
  hub_model_info : string -> string -> io W (json * card);
  hub_snapshot_download : option (string -> string -> list string -> io W json) }.

Record LayaSdk : Type := mkLayaSdk {
  sdk_load : option (string -> option string -> io W LayaAgent) }.

Definition not_installed {A} : io W A :=
  lift (raise RuntimeError "install the 'laya' extra to use the live Laya backend").

(** [_resolve_metadata]. *)
Definition metadata_of (info : json * card) : HubModelMetadata :=
  mkHubMetadata (py_str (fst info)) (py_str (default (JStr "") (assoc "license" (card_dict (snd info))))).

Definition resolve_metadata (hub : option HubSdk) (model_id revision : string) : io W HubModelMetadata :=
  match hub with
  | None => not_installed
  | Some h => info ← hub_model_info h model_id revision; mret (metadata_of info)
  end.

Definition allow_patterns : list string :=
  ["rl_agent_config.json"; "model.safetensors"; "tokenizer/*"; "encoder/*"; "LICENSE*"; "NOTICE*"].

(** [_fetch_snapshot]. *)
Definition fetch_snapshot (hub : option HubSdk) (model_id revision : string) : io W string :=
  match hub with
  | None => not_installed
  | Some h =>
      match hub_snapshot_download h with
      | None => lift (raise TypeError "installed Hub SDK has no snapshot_download callable")
      | Some download => path ← download model_id revision allow_patterns; mret (py_str path)
      end
  end.

(** [_load_agent]. *)
Definition load_agent (laya : option LayaSdk) (path : string) (device : option string) : io W LayaAgent :=
  match laya with
  | None => not_installed
  | Some l =>
      match sdk_load l with
      | None => lift (raise TypeError "installed Laya SDK has no load callable")
      | Some loader => loader path device
      end
  end.

(** ** The backend *)

Record PinnedLayaBackend : Type := mkBackend {
  lb_model_id : string; lb_revision : string; lb_device : option string; lb_expected_license : string;
  lb_metadata_resolver : string -> string -> io W HubModelMetadata;
  lb_snapshot_fetcher : string -> string -> io W string;
  lb_agent_loader : string -> option string -> io W LayaAgent }.

(** The constructor with its default callables. *)
Definition live_backend (hub : option HubSdk) (laya : option LayaSdk) (model_id revision : string)
    (device : option string) : PinnedLayaBackend :=
  mkBackend model_id revision device "apache-2.0" (resolve_metadata hub) (fetch_snapshot hub) (load_agent laya).

Definition license_mismatch (expected found : string) : string :=
  "upstream license mismatch: expected " ++ expected ++ ", found " ++ (if nonempty found then found else "missing").

(** The agent kept in [self._agent], beside the outside world. *)
Definition cell : Type := option LayaAgent.

Definition set_agent (a : LayaAgent) : io (cell * W) unit := fun '(_, w) => (Ok tt, (Some a, w)).
Definition get_agent : io (cell * W) cell := fun s => (Ok (fst s), s).

Definition prepare (b : PinnedLayaBackend) : io (cell * W) LayaAgent :=
  cached ← get_agent;
  match cached with
  | Some agent => mret agent
  | None =>
      metadata ← beside (lb_metadata_resolver b (lb_model_id b) (lb_revision b));
      _ ← lift (raise_if (negb (String.eqb (hm_sha metadata) (lb_revision b)))
                  ValueError "Hub resolved a different model revision");
      _ ← lift (raise_if (negb (String.eqb (lower (hm_license metadata)) (lower (lb_expected_license b))))
                  ValueError (license_mismatch (lb_expected_license b) (hm_license metadata)));
      snapshot ← beside (lb_snapshot_fetcher b (lb_model_id b) (lb_revision b));
      agent ← beside (lb_agent_loader b snapshot (lb_device b));
      _ ← set_agent agent;
      mret agent
  end.

(** [option.lower().replace("_", " ")]. *)
Fixpoint underscores_to_spaces (s : string) : string :=
  match s with
  | EmptyString => EmptyString
  | String c s' => String (if Ascii.eqb c "_" then " "%char else c) (underscores_to_spaces s')
  end.

Definition laya_question (q : TypedQuestion) : json :=
  JObj [("type", JStr "choice");
        ("instructions", JStr ("Select the calibrated C3R value for " ++ q_id q ++ "."));
        ("criteria", JObj (dict_of_pairs
           (map (fun o => (o, JStr (underscores_to_spaces (lower o)))) (q_options q))))].

Definition laya_questions (qs : list TypedQuestion) : json :=
  JObj (dict_of_pairs (map (fun q => (q_id q, laya_question q)) qs)).

(** [value.get(key, default)]. *)
Definition get_default (j : json) (k : string) (d : json) : result json := default d <$> get_of j k.

(** [tuple(float(raw.get(option, 0.0)) for option in options)]. *)
Definition probabilities_of (raw : json) (options : list string) : result (list float) :=
  mapR (fun o => v ← get_default raw o (JFloat fzero); float_of_json v) options.

Definition usable (probabilities : list float) : bool :=
  negb (bool_decide (probabilities = []))
  && forallb (fun v => isfinite v && fle fzero v) probabilities
  && negb (fle (fsum probabilities) fzero).

(** The probabilities the agent reports for a question. *)
Definition reported (raw_answers : json) (q : TypedQuestion) : result (list float) :=
  answer ← get_default raw_answers (q_id q) (JObj []);
  raw ← get_default answer "probabilities" (JObj []);
  probabilities_of raw (q_options q).

Definition log_floor (v : float) : result float := math_log log (fmax v tiny).

(** One turn of the loop over the questions. *)
Definition collect_answer (raw_answers : json) (logits : gmap string (list float)) (q : TypedQuestion)
    : result (gmap string (list float)) :=
  probabilities ← reported raw_answers q;
  if usable probabilities
  then logs ← mapR log_floor probabilities; Ok (<[q_id q := logs]> logits)
  else Ok logits.

(** [PinnedLayaBackend.__call__]. *)
Definition call (b : PinnedLayaBackend) (state : CompiledState) (qs : list TypedQuestion)
    : io (cell * W) (gmap string (list float)) :=
  agent ← prepare b;
  result ← beside (ag_predict agent state (laya_questions qs));
  raw_answers ← lift (get_default result "answers" (JObj []));
  lift (foldR (collect_answer raw_answers) ∅ qs).

(** A history of calls of one backend, each with its outcome. *)
Fixpoint run_calls (b : PinnedLayaBackend) (l : list (CompiledState * list TypedQuestion)) (s : cell * W)
    : list (result (gmap string (list float))) * (cell * W) :=
  match l with
  | [] => ([], s)
  | (state, qs) :: l' =>
      let '(r, s1) := call b state qs s in
      let '(rs, s2) := run_calls b l' s1 in
      (r :: rs, s2)
  end.

(** ** Properties *)

(** [agent] was loaded, with the snapshot of the backend's model at its revision,
    after the Hub named that very revision and the expected license. *)
Definition pinned (b : PinnedLayaBackend) (agent : LayaAgent) : Prop :=
  exists w metadata w1 path w2 w3,
    lb_metadata_resolver b (lb_model_id b) (lb_revision b) w = (Ok metadata, w1)
    /\ hm_sha metadata = lb_revision b
    /\ lower (hm_license metadata) = lower (lb_expected_license b)
    /\ lb_snapshot_fetcher b (lb_model_id b) (lb_revision b) w1 = (Ok path, w2)
    /\ lb_agent_loader b path (lb_device b) w2 = (Ok agent, w3).

Definition cell_pinned (b : PinnedLayaBackend) (c : cell) : Prop := forall a, c = Some a -> pinned b a.

(** The cached agent stays; a load that returns caches a pinned agent; a failure
    leaves the cell as it was. *)
Lemma prepare_spec b c w :
  cell_pinned b c ->
  wp (prepare b) (fun r s => cell_pinned b (fst s) /\ (forall a, c = Some a -> fst s = Some a)
                             /\ match r with Ok a => fst s = Some a | Raise _ => fst s = c end) (c, w).
Proof.
  intros Hc. unfold prepare. apply wp_bind. unfold wp at 1, get_agent. cbn.
  destruct c as [a|]; [apply wp_ret; split; [done|]; split; [done|done]|].
  apply wp_bind, wp_beside. intros [m|e] w1 Hm; [|done].
  apply wp_bind, wp_lift. destruct (String.eqb_spec (hm_sha m) (lb_revision b)) as [Hs|]; cbn; [|done].
  apply wp_bind, wp_lift.
  destruct (String.eqb_spec (lower (hm_license m)) (lower (lb_expected_license b))) as [Hl|]; cbn; [|done].
  apply wp_bind, wp_beside. intros [path|e] w2 Hp; [|done].
  apply wp_bind, wp_beside. intros [agent|e] w3 Ha; [|done].
  unfold wp, set_agent. cbn. split; [|done]. intros a [= <-]. by exists w, m, w1, path, w2, w3.
Qed.

(** Where the logits of a question come from. *)
Definition from_report (raw_answers : json) (q : TypedQuestion) (logits : list float) : Prop :=
  exists ps, reported raw_answers q = Ok ps /\ usable ps = true /\ mapR log_floor ps = Ok logits.

Lemma collect_answers raw_answers qs m logits :
  foldR (collect_answer raw_answers) m qs = Ok logits ->
  forall id l, logits !! id = Some l -> m !! id = Some l \/ exists q, q ∈ qs /\ q_id q = id /\ from_report raw_answers q l.
Proof.
  revert m; induction qs as [|q qs IH]; intros m H id l Hl; cbn [foldR] in H.
  { injection H as <-. by left. }
  apply bind_ok in H as (m1 & H1 & H). destruct (IH _ H id l Hl) as [Hm|(q' & Hq & Hid & Hr)].
  - unfold collect_answer in H1. apply bind_ok in H1 as (ps & Hps & H1).
    destruct (usable ps) eqn:Hu; [|injection H1 as ->; by left].
    apply bind_ok in H1 as (ls & Hls & H1). injection H1 as <-.
    apply lookup_insert_Some in Hm as [[<- <-]|[_ Hm]]; [|by left].
    right. exists q. split; [left|]. split; [done|]. by exists ps.
  - right. exists q'. split; [by right|done].
Qed.

(** One call: the cell, and what a returned answer is made of. *)
Definition answered_by (agent : LayaAgent) (state : CompiledState) (qs : list TypedQuestion)
    (logits : gmap string (list float)) : Prop :=
  exists w1 result w2 raw_answers,
    ag_predict agent state (laya_questions qs) w1 = (Ok result, w2)
    /\ get_default result "answers" (JObj []) = Ok raw_answers
    /\ forall id l, logits !! id = Some l -> exists q, q ∈ qs /\ q_id q = id /\ from_report raw_answers q l.

Lemma call_spec b state qs c w :
  cell_pinned b c ->
  wp (call b state qs)
    (fun r s => cell_pinned b (fst s) /\ (forall a, c = Some a -> fst s = Some a)
                /\ forall logits, r = Ok logits -> exists a, fst s = Some a /\ answered_by a state qs logits) (c, w).
Proof.
  intros Hc. unfold call. apply wp_bind. eapply wp_mono; [by apply prepare_spec|].
  intros [agent|e] [c1 w1] (Hp & Hkeep & Hcell); cbn in *; [|done].
  apply wp_bind, wp_beside. intros [result|e] w2 Hr; cbn; [|done].
  apply wp_bind, wp_lift. destruct (get_default result "answers" (JObj [])) as [raw|e] eqn:Hraw; [|done].
  apply wp_lift. cbn. split; [done|]. split; [done|]. intros logits Hl. exists agent. split; [done|].
  exists w1, result, w2, raw. split; [done|]. split; [done|]. intros id l Hid.
  destruct (collect_answers _ _ _ _ Hl id l Hid) as [E|E]; [by rewrite lookup_empty in E|done].
Qed.

(** A backend answers from one pinned agent.  Over any history of calls of a new
    backend: nothing is answered until an agent has been loaded at the pinned
    revision and license; every answer returned, early or late, is that of the one
    agent loaded, asked about that call's state and questions; and each list of
    logits belongs to a question of the call and is the logarithm of the
    probabilities the agent reported for it, all finite and not negative, with a
    positive sum. *)
Theorem answers_come_from_the_pinned_agent b history w rs c w'
    (H : run_calls b history (None, w) = (rs, (c, w'))) :
  cell_pinned b c
  /\ Forall2 (fun '(state, qs) r => forall logits, r = Ok logits ->
       exists agent, c = Some agent /\ answered_by agent state qs logits) history rs.
Proof.
  enough (G : forall c0, cell_pinned b c0 -> run_calls b history (c0, w) = (rs, (c, w')) ->
    cell_pinned b c /\ (forall a, c0 = Some a -> c = Some a)
    /\ Forall2 (fun '(state, qs) r => forall logits, r = Ok logits ->
         exists agent, c = Some agent /\ answered_by agent state qs logits) history rs).
  { destruct (G None) as (? & _ & ?); done. }
  clear H. revert w rs; induction history as [|[state qs] history IH]; intros w rs c0 Hc H; cbn [run_calls] in H.
  { injection H as <- -> _. split; [done|]. split; [done|constructor]. }
  pose proof (call_spec b state qs c0 w Hc) as Hcall. unfold wp in Hcall.
  destruct (call b state qs (c0, w)) as [r [c1 w1]]. cbn in Hcall. destruct Hcall as (Hp & Hkeep & Hans).
  destruct (run_calls b history (c1, w1)) as [rs1 s2] eqn:E. injection H as <- ->.
  destruct (IH w1 rs1 c1 Hp E) as (Hpc & Hk & Hall). split; [done|]. split; [auto|].
  constructor; [|done]. intros logits Hl. destruct (Hans logits Hl) as (a & Ha & Hb). exists a. auto.
Qed.

(** Nothing is fetched or loaded for a model the Hub does not vouch for: the world
    is the one the metadata request left. *)
Theorem unvouched_models_are_not_fetched b state qs w metadata w1 :
  lb_metadata_resolver b (lb_model_id b) (lb_revision b) w = (Ok metadata, w1) ->
  hm_sha metadata <> lb_revision b \/ lower (hm_license metadata) <> lower (lb_expected_license b) ->
  exists msg, call b state qs (None, w) = (raise ValueError msg, (None, w1)).
Proof.
  intros Hm Hbad. unfold call, prepare, get_agent, beside, mbind, io_bind. cbn. rewrite Hm.
  destruct (String.eqb_spec (hm_sha metadata) (lb_revision b)); cbn; [|by eexists].
  destruct (String.eqb_spec (lower (hm_license metadata)) (lower (lb_expected_license b))); cbn; [tauto|by eexists].
Qed.

(** ** Types *)

Section logarithm.
Hypothesis log_finite : forall x, isfinite x = true -> flt fzero x = true -> isfinite (log x) = true.

Lemma log_floor_finite v :
  isfinite v = true -> exists l, log_floor v = Ok l /\ isfinite l = true.
Proof using log_finite.
  intros Hf. assert (Hv : isfinite (fmax v tiny) = true /\ flt fzero (fmax v tiny) = true).
  { unfold fmax. destruct (flt v tiny) eqn:E; [split; vm_compute; reflexivity|]. split; [done|].
    destruct (flt fzero v) eqn:E0; [done|].
    assert (flt fzero tiny = false) as H0 by (apply (flt_false_trans _ v); auto using isfinite_not_nan).
    vm_compute in H0. discriminate H0. }
  destruct Hv as [H1 H2]. unfold log_floor, math_log.
  rewrite isfinite_not_nan by done. unfold is_inf. rewrite H1, andb_false_r.
  destruct (fle (fmax v tiny) fzero) eqn:E.
  - apply flt_rank in H2 as (_ & _ & Hlt). apply fle_rank in E as (_ & _ & Hle). done.
  - eauto.
Qed.

Lemma usable_logs ps : usable ps = true -> exists ls, mapR log_floor ps = Ok ls
  /\ length ls = length ps /\ ls <> [] /\ Forall (fun l => isfinite l = true) ls.
Proof using log_finite.
  unfold usable. intros H. apply andb_true_iff in H as [H _]. apply andb_true_iff in H as [H Hfin]. bool_hyps.
  assert (Hall : Forall (fun v => isfinite v = true) ps).
  { apply forallb_true_Forall in Hfin. eapply Forall_impl; [exact Hfin|]. cbn. intros. by bool_hyps. }
  enough (G : exists ls, mapR log_floor ps = Ok ls /\ length ls = length ps /\ Forall (fun l => isfinite l = true) ls).
  { destruct G as (ls & H3 & H4 & H5). exists ls. repeat split; try done. intros ->. by destruct ps. }
  clear -Hall log_finite. induction Hall as [|v ps Hv _ (ls & H1 & H2 & H3)]; [by exists []|].
  destruct (log_floor_finite v Hv) as (l & Hl & Hf). exists (l :: ls). cbn [mapR]. rewrite Hl. cbn. rewrite H1. cbn.
  split; [done|]. split; [by rewrite H2|by constructor].
Qed.

(** C25: The answer of a backend has the type the fast path expects, for any agent:
    a mapping whose keys are ids of questions asked and whose values are finite
    logits, as many as the question has options and at least one.  A list that
    could not be turned into such logits is left out, never passed on. *)
Theorem answers_are_well_typed b state qs c w logits s'
    (H : call b state qs (c, w) = (Ok logits, s')) :
  forall id l, logits !! id = Some l ->
  exists q, q ∈ qs /\ q_id q = id /\ length l = length (q_options q) /\ l <> []
            /\ Forall (fun x => isfinite x = true) l.
Proof using log_finite.
  unfold call in H. apply io_bind_ok in H as (agent & s1 & _ & H).
  apply io_bind_ok in H as (res & s2 & _ & H). apply io_bind_ok in H as (raw & s3 & _ & H).
  unfold lift in H. injection H as H _. intros id l Hl.
  destruct (collect_answers _ _ _ _ H id l Hl) as [E|(q & Hq & Hid & ps & Hps & Hu & Hm)];
    [by rewrite lookup_empty in E|].
  exists q. split; [done|]. split; [done|]. destruct (usable_logs ps Hu) as (ls & H1 & H2 & H3 & H4).
  rewrite Hm in H1. injection H1 as <-. split; [|done]. rewrite H2.
  unfold reported in Hps. result_inv. apply mapR_ok, Forall2_length in Hps. done.
Qed.
End logarithm.

(** A decision of the fast path over the Laya adapter rests on a pinned agent.
    Starting from an empty cell or a pinned agent, whenever the decision answers a
    question, the cell holds an agent loaded at the pinned revision and license, and
    the prediction it made for this state reported, for that question, finite
    non-negative probabilities with a positive sum. *)
Theorem laya_decisions_are_pinned exp monotonic b model_id revision a (fp : CalibratedFastPath (cell * W))
    state qs family lang opts c w d c' w' q o
    (Ha : make_laya_adapter model_id revision (call b) = Ok a) (Hfp : cf_adapter fp = a)
    (Hc : cell_pinned b c) (Hnd : NoDup (map q_id qs))
    (Hd : decide exp (beside monotonic) fp state qs family lang opts (c, w) = (Ok d, (c', w')))
    (Hq : q ∈ qs) (Ho : fp_answers d !! q_id q = Some o) :
  exists agent w1 res w2 raw_answers ps,
    c' = Some agent /\ pinned b agent
    /\ ag_predict agent state (laya_questions qs) w1 = (Ok res, w2)
    /\ get_default res "answers" (JObj []) = Ok raw_answers
    /\ reported raw_answers q = Ok ps /\ usable ps = true.
Proof.
  apply (answers_backed _ (fun s => fst s = c)) with (q := q) (o := o) in Hd; try done.
  - destruct Hd as (_ & deadline & [c1 w1] & by_id & lg & Hc1 & Hp & Hl). cbn in Hc1. subst c1.
    rewrite Hfp in Hp. unfold make_laya_adapter in Ha. repeat case_match; try discriminate.
    injection Ha as <-. cbn in Hp. pose proof (call_spec b state qs c w1 Hc) as Hcall. unfold wp in Hcall.
    rewrite Hp in Hcall. cbn in Hcall. destruct Hcall as (Hpin & _ & Hans).
    destruct (Hans by_id eq_refl) as (agent & -> & w2 & res & w3 & raw & Hres & Hraw & Hall).
    destruct (Hall _ _ Hl) as (q' & Hq' & Hid & ps & Hps & Hu & _).
    assert (q' = q) as -> by (eapply NoDup_map_inj; eauto).
    exists agent, w2, res, w3, raw, ps. repeat split; try done. by apply Hpin.
  - intros [c1 w1] r [c2 w2] Hc1 E. unfold beside in E. cbn in *. destruct (monotonic w1).
    by injection E as _ <- _.
  - rewrite Hfp. unfold make_laya_adapter in Ha. repeat case_match; try discriminate.
    injection Ha as <-. intros st os dl w0 r w1 Hw0 E. by injection E as _ <-.
Qed.
End backend.
#[global] Arguments LayaAgent W : clear implicits.
#[global] Arguments HubSdk W : clear implicits.
#[global] Arguments LayaSdk W : clear implicits.
#[global] Arguments PinnedLayaBackend W : clear implicits.
#[global] Arguments cell W : clear implicits.

(** ** A concrete Hub and agent

    The world counts the snapshots fetched. *)

Definition example_revision : string := "0123456789abcdef0123456789abcdef01234567".

Definition example_hub (license : string) : HubSdk nat :=
  mkHubSdk (fun _ revision w => (Ok (JStr revision, CardMapping [("license", JStr license)]), w))
    (Some (fun _ _ _ w => (Ok (JStr "/snapshot"), S w))).

Definition example_agent : LayaAgent nat :=
  mkAgent (fun _ _ w =>
    (Ok (JObj [("answers", JObj [("STOP_NOW", JObj [("probabilities",
                 JObj [("NO", JFloat (float_of_decimal 25 (-2))); ("YES", JStr "0.75")])]);
                                ("ASK_USER_REQUIRED", JObj [("probabilities", JObj [("NO", JInt (-1))])])])]), w)).

Definition example_sdk : LayaSdk nat := mkLayaSdk (Some (fun _ _ w => (Ok example_agent, w))).

Definition example_backend (license : string) : PinnedLayaBackend nat :=
  live_backend (Some (example_hub license)) (Some example_sdk) "convaiinnovations/laya" example_revision None.

(** A step function stands for [math.log]. *)
Definition step_log (x : float) : float := if flt x (float_of_decimal 5 (-1)) then fneg fone else fzero.

Definition example_questions : list TypedQuestion := [example_question; mkQuestion "ASK_USER_REQUIRED" BOOLEAN].

Definition example_history : list (CompiledState * list TypedQuestion) :=
  [(example_state, example_questions); (example_state, example_questions)].

Definition example_logits : gmap string (list float) := {["STOP_NOW" := [fneg fone; fzero]]}.

(** Two calls: one snapshot, the same agent, and no logits for the question whose
    probabilities are negative; another license is refused before any fetch. *)
Example backend_runs :
  run_calls step_log (example_backend "Apache-2.0") example_history (None, 0)
  = ([Ok example_logits; Ok example_logits], (Some example_agent, 1))
  /\ run_calls step_log (example_backend "mit") example_history (None, 0)
     = (let e := raise ValueError "upstream license mismatch: expected apache-2.0, found mit" in [e; e], (None, 0))
  /\ fst (fst (call step_log (live_backend None (Some example_sdk) "m" "r" None) example_state [] (None, 0)), 0)
     = raise RuntimeError "install the 'laya' extra to use the live Laya backend".
Proof. split; [|split]; vm_compute; reflexivity. Qed.

Lemma answers_come_from_the_pinned_agent_witness :
  pinned (example_backend "Apache-2.0") example_agent.
Proof.
  apply (proj1 (answers_come_from_the_pinned_agent step_log (example_backend "Apache-2.0") example_history 0
    [Ok example_logits; Ok example_logits] (Some example_agent) 1 (proj1 backend_runs))).
  reflexivity.
Defined.

Lemma step_log_finite x : isfinite x = true -> flt fzero x = true -> isfinite (step_log x) = true.
Proof. intros _ _. unfold step_log. destruct (flt x _); vm_compute; reflexivity. Qed.

Lemma answers_are_well_typed_witness :
  exists l, example_logits !! "STOP_NOW" = Some l /\ l <> [].
Proof.
  exists [fneg fone; fzero]. split; [vm_compute; reflexivity|].
  destruct (answers_are_well_typed step_log step_log_finite (example_backend "Apache-2.0") example_state example_questions
    None 0 example_logits (Some example_agent, 1)) with (id := "STOP_NOW") (l := [fneg fone; fzero])
    as (q & _ & _ & _ & Hl & _); [vm_compute; reflexivity|vm_compute; reflexivity|exact Hl].
Defined.

Definition laya_adapter : InferenceAdapter (cell nat * nat) :=
  mkAdapter "convaiinnovations/laya" example_revision "laya"
    (fun state questions _ => call step_log (example_backend "Apache-2.0") state questions) (fun _ _ _ => mret []).

Definition laya_fast_path : CalibratedFastPath (cell nat * nat) :=
  mkFastPath laya_adapter
    (mkCalibrator {[mkKey "STOP_NOW" "TOOL" "2" "en" "low" := float_of_decimal 25 (-2)]})
    (float_of_decimal 65 (-2)) (float_of_decimal 1 (-1)) (float_of_decimal 5 (-1)).

Definition laya_decision : FastPathDecision :=
  mkFastPathDecision {["STOP_NOW" := "YES"]} {["STOP_NOW" := [fzero; fone]]} false []
    "convaiinnovations/laya" example_revision [].

Lemma laya_decisions_are_pinned_witness :
  exists agent, pinned (example_backend "Apache-2.0") agent.
Proof.
  assert (Hd : decide example_exp (beside (mret fzero)) laya_fast_path example_state [example_question] "TOOL" "en" []
                 (None, 0) = (Ok laya_decision, (Some example_agent, 1))) by (vm_compute; reflexivity).
  destruct (laya_decisions_are_pinned step_log example_exp (mret fzero) (example_backend "Apache-2.0")
    "convaiinnovations/laya" example_revision laya_adapter laya_fast_path example_state [example_question] "TOOL" "en" []
    None 0 laya_decision (Some example_agent) 1 example_question "YES")
    as (agent & _ & _ & _ & _ & _ & _ & Hp & _).
  - reflexivity.
  - reflexivity.
  - intros a Ha. discriminate Ha.
  - constructor; [intros Hin; apply elem_of_nil in Hin; exact Hin | constructor].
  - exact Hd.
  - left.
  - vm_compute. reflexivity.
  - exists agent. exact Hp.
Defined.
