(* ===== verification/TraceControlDryRun.v ===== *)
(** * The trace-control dry run ([scripts/run_trace_control_dry_run.py])

    The script drives a fresh governed store under a clock it sets itself, so
    the outside world of the store is that clock: the content of the script's
    one-element list, in microseconds.  The temporary directory and the file the
    report goes to are the host's; [start] and [commit] are SQLite's BEGIN
    IMMEDIATE and COMMIT, which may fail. *)

From Stdlib Require Import Lia ZArith Ascii String.
From stdpp Require Import base option strings gmap list.
From S2P Require Import Prelude PyStr PyFloat Json StateSchema TraceLedger PyTime Effects GovernedStore.

Local Open Scope string_scope.

(** [needle in text]. *)
Definition contains (needle text : string) : bool :=
  match String.index 0 needle text with Some _ => true | None => false end.

(** 2026-09-23 00:00 UTC. *)
Definition START : Z := 739881 * MICROS_PER_DAY.
Definition SOURCE_ID : string := "c3r_fixture_review".
Definition TASK_ID : string := "fixture_task_001".

(** [_trace(run_id, **changes)] for the two fields the script changes. *)
Definition fixture_trace (run_id status : string) (artifact_refs : list string) : DecisionTrace :=
  mkTrace run_id "aaaaaaaaaaaaaaaaaaaaaaaaaaaaaaaaaaaaaaaaaaaaaaaaaaaaaaaaaaaaaaaa" "internal" "fixture_only"
    ["recommend"] {["route" := [float_of_decimal 8 (-1); float_of_decimal 2 (-1)]]}
    {["selected_lower_bound" := float_of_decimal 3 (-1)]} (Some "recommend") "verified"
    {["latency_ms" := fone]} {["status" := SStr status]} artifact_refs.

Definition plain_fixture (run_id : string) : DecisionTrace := fixture_trace run_id "fixture_only" [].

(** [_rejects(callback, expected_reason)]. *)
Definition rejects {W A} (callback : io W A) (expected_reason : string) : io W bool :=
  io_try (_ ← callback; mret false) [ValueError] (fun error => mret (contains expected_reason (exn_msg error))).

Definition not_verified : list string :=
  ["deployed encryption and IAM"; "read/export access audit";
   "daily scheduler and deletion of backups or replicas"; "independent ledger-head anchor";
   "alert delivery and rollback"; "live internal-task provenance or outcomes"].

Definition dry_run_report (checks : list (string * bool)) : json :=
  JObj [("evidence_kind", JStr "non_sensitive_local_fixture_dry_run");
        ("live_trace_collection_enabled", JBool false);
        ("source", JStr SOURCE_ID);
        ("task_population", JStr "one C3R-authored synthetic fixture; no customer or product records");
        ("checks", JObj (map (fun '(name, passed) => (name, JBool passed)) checks));
        ("all_local_checks_passed", JBool (forallb snd checks));
        ("not_verified_by_this_run", JArr (map JStr not_verified))].

Section dry_run.
Context (start commit : io Z unit).

(** The list [clock] and the lambda over it. *)
Definition clock : io Z datetime := fun e => (Ok (mkDatetime e (Some 0%Z)), e).
Definition set_clock (t : Z) : io (GovDb * Z) unit := fun '(db, _) => (Ok tt, (db, t)).

Definition grant : result SourceGrant := make_grant (mkGrant SOURCE_ID "c3r_review_fixture" {[TASK_ID]} true).

Section store.
Context (grants : gmap string SourceGrant).

Definition collect (t : DecisionTrace) (source_id : string) : io (GovDb * Z) LedgerRecord :=
  append clock start commit grants t source_id TASK_ID.

Definition count_records : io (GovDb * Z) Z := rs ← store_records; mret (lenZ rs).

Definition store_verifies : io (GovDb * Z) bool := fun s => (verify (fst s), s).

(** The body of the [with] statement. *)
Definition drill : io (GovDb * Z) (list (string * bool)) :=
  first ← collect (plain_fixture "fixture_run_001") SOURCE_ID;
  n1 ← count_records;
  unapproved ← rejects (collect (plain_fixture "fixture_run_002") "customer_logs") "unapproved source or task";
  free_text ← rejects (collect (fixture_trace "fixture_run_003" "email me at a@example.com" []) SOURCE_ID) "redaction";
  artifact ← rejects (collect (fixture_trace "fixture_run_004" "fixture_only" ["private_artifact"]) SOURCE_ID) "redaction";
  n2 ← count_records;
  _ ← set_clock (START + 31 * MICROS_PER_DAY);
  overdue ← rejects (collect (plain_fixture "fixture_run_005") SOURCE_ID) "retention purge overdue";
  purged ← purge_expired clock start commit;
  ok1 ← store_verifies;
  n3 ← count_records;
  second ← collect (plain_fixture "fixture_run_006") SOURCE_ID;
  ok2 ← (if String.eqb (previous_hash second) (record_hash first) then store_verifies else mret false);
  mret [("approved_fixture_admitted", Z.eqb n1 1);
        ("unapproved_source_rejected", unapproved);
        ("free_text_rejected", free_text);
        ("artifact_reference_rejected", artifact);
        ("rejected_rows_not_persisted", Z.eqb n2 1);
        ("overdue_purge_blocks_collection", overdue);
        ("local_expired_row_purged", Z.eqb purged 1);
        ("checkpoint_chain_verifies", ok1 && Z.eqb n3 0);
        ("post_purge_chain_continues", ok2)].
End store.

(** [run]: the checks, and the store and clock at the end. *)
Definition dry_run : result (list (string * bool)) * (GovDb * Z) :=
  (g ← lift grant; grants ← lift (open_store [g] fresh_store); drill grants) (fresh_store, START).

(** [main]: the report is written whatever it says; a failed check ends the
    script with [SystemExit]. *)
Definition dry_run_main {E} (write_report : json -> io E unit) : io E unit :=
  checks ← lift (fst dry_run);
  _ ← write_report (dry_run_report checks);
  lift (raise_if (negb (forallb snd checks)) OtherException "local trace-control dry run failed").
End dry_run.

(** ** Properties *)

(** A write that may fail, before or at its commit, has not happened. *)
Definition no_failure : io Z unit := mret tt.

(** The store after the drill. *)
Definition drilled : GovDb := fst (snd (dry_run no_failure no_failure)).

Lemma drill_runs :
  fst (dry_run no_failure no_failure)
  = Ok (map (fun name => (name, true))
      ["approved_fixture_admitted"; "unapproved_source_rejected"; "free_text_rejected";
       "artifact_reference_rejected"; "rejected_rows_not_persisted"; "overdue_purge_blocks_collection";
       "local_expired_row_purged"; "checkpoint_chain_verifies"; "post_purge_chain_continues"]).
Proof. vm_compute. reflexivity. Qed.

Lemma main_writes start commit {E} (write_report : json -> io E unit) checks w :
  fst (dry_run start commit) = Ok checks -> forallb snd checks = true ->
  dry_run_main start commit write_report w = write_report (dry_run_report checks) w.
Proof.
  intros H Hall. unfold dry_run_main, mbind, io_bind, lift. rewrite H, Hall.
  by destruct (write_report _ w) as [[[]|x] w'].
Qed.

Lemma main_fails start commit {E} (write_report : json -> io E unit) x w :
  fst (dry_run start commit) = Raise x -> dry_run_main start commit write_report w = (Raise x, w).
Proof. intros H. unfold dry_run_main, mbind, io_bind, lift. by rewrite H. Qed.

(** ** Failing databases

    [or_fails m m0]: from every state [m] behaves as [m0], or raises something the
    script does not take for a rejection. *)
Section failures.
Context {W : Type}.

Definition or_fails {A} (m m0 : io W A) : Prop :=
  forall s, m s = m0 s \/ exists e s', m s = (Raise e, s') /\ caught_by [ValueError] (exn_class e) = false.

Lemma or_fails_refl {A} (m : io W A) : or_fails m m.
Proof. by left. Qed.

Lemma or_fails_bind {A B} (m m0 : io W A) (f f0 : A -> io W B) :
  or_fails m m0 -> (forall a, or_fails (f a) (f0 a)) -> or_fails (m ≫= f) (m0 ≫= f0).
Proof.
  intros Hm Hf s. unfold mbind, io_bind. destruct (Hm s) as [->|(e & s' & -> & He)]; [|right; eauto].
  destruct (m0 s) as [[a|e] s1]; [apply Hf|by left].
Qed.

Lemma or_fails_rejects {A} (m m0 : io W A) reason : or_fails m m0 -> or_fails (rejects m reason) (rejects m0 reason).
Proof.
  intros Hm s. unfold rejects, io_try, mbind, io_bind. destruct (Hm s) as [->|(e & s' & -> & He)]; [by left|].
  right. rewrite He. eauto.
Qed.

Lemma or_fails_if {A} (b : bool) (m m0 n : io W A) : or_fails m m0 -> or_fails (if b then m else n) (if b then m0 else n).
Proof. destruct b; [done|intros _; apply or_fails_refl]. Qed.
End failures.

(** Descends through two computations of the same shape. *)
Ltac or_fails_step :=
  lazymatch goal with
  | |- or_fails ?m ?m => apply or_fails_refl
  | |- or_fails (rejects _ _) _ => apply or_fails_rejects
  | |- or_fails (mbind _ _) _ => apply or_fails_bind; [|intros ?]
  | |- or_fails (if _ then _ else _) _ => apply or_fails_if
  | |- _ => solve [eauto]
  end.

Section faulty_store.
Context (start commit : io Z unit).

(** The statements leave the script's clock alone and fail with database errors. *)
Definition database_statement (m : io Z unit) : Prop :=
  forall e, m e = (Ok tt, e) \/ exists x e', m e = (Raise x, e') /\ caught_by [ValueError] (exn_class x) = false.

Hypothesis start_fails : database_statement start.
Hypothesis commit_fails : database_statement commit.

Lemma or_fails_atomically {A} (f : GovDb -> result (A * GovDb)) :
  or_fails (atomically start commit (gov_exchange f)) (atomically no_failure no_failure (gov_exchange f)).
Proof using start_fails commit_fails.
  intros [db e]. unfold atomically, no_failure. cbn [mret io_ret].
  destruct (start_fails e) as [->|(x & e' & -> & Hx)]; [|right; eauto].
  unfold gov_exchange. destruct (f db) as [[a db']|y]; [|by left].
  destruct (commit_fails e) as [->|(x & e' & -> & Hx)]; [by left|right; eauto].
Qed.
Hint Resolve or_fails_atomically : core.

Lemma or_fails_collect grants t source_id :
  or_fails (collect start commit grants t source_id) (collect no_failure no_failure grants t source_id).
Proof using start_fails commit_fails. unfold collect, append. repeat or_fails_step. Qed.
Hint Resolve or_fails_collect : core.

Lemma or_fails_drill grants : or_fails (drill start commit grants) (drill no_failure no_failure grants).
Proof using start_fails commit_fails. unfold drill, purge_expired. repeat or_fails_step. Qed.

Lemma faulty_dry_run :
  fst (dry_run start commit) = fst (dry_run no_failure no_failure)
  \/ exists x, fst (dry_run start commit) = Raise x /\ caught_by [ValueError] (exn_class x) = false.
Proof using start_fails commit_fails.
  assert (H : or_fails (g ← lift grant; grants ← lift (open_store [g] fresh_store); drill start commit grants)
                (g ← lift grant; grants ← lift (open_store [g] fresh_store); drill no_failure no_failure grants)).
  { apply or_fails_bind; [apply or_fails_refl|]. intros g. apply or_fails_bind; [apply or_fails_refl|].
    intros grants. apply or_fails_drill. }
  unfold dry_run. destruct (H (fresh_store, START)) as [->|(x & s & -> & Hx)]; [by left|right; eauto].
Qed.

(** C26: The dry run is decisive.  Whatever the database does, short of changing the
    script's clock, the script either ends with the database's error before any
    report is written, or reports that all nine checks of the governed store passed
    and ends normally: the append of an approved fixture, the four refusals, the
    purge and the continued chain all hold of the store, and a failing statement is
    never taken for a rejection. *)
Theorem dry_run_is_decisive {E} (write_report : json -> io E unit) w :
  (exists x, dry_run_main start commit write_report w = (Raise x, w) /\ caught_by [ValueError] (exn_class x) = false)
  \/ exists checks, fst (dry_run start commit) = Ok checks /\ length checks = 9
       /\ Forall (fun c => snd c = true) checks
       /\ dry_run_main start commit write_report w = write_report (dry_run_report checks) w.
Proof using start_fails commit_fails.
  destruct faulty_dry_run as [H|(x & H & Hx)].
  - right. rewrite drill_runs in H. eexists. split; [exact H|]. split; [reflexivity|].
    split; [by repeat constructor|]. by apply (main_writes start commit).
  - left. exists x. split; [by apply main_fails|exact Hx].
Qed.
End faulty_store.

(** A database whose every statement fails, and one that never does. *)
Definition failing_statement : io Z unit := fun e => (raise SqliteError "database is locked", e).

Lemma dry_run_is_decisive_witness :
  fst (dry_run_main no_failure no_failure (fun report (w : list json) => (Ok tt, report :: w)) [])
  = Ok tt
  /\ exists x, fst (dry_run_main failing_statement no_failure (fun report (w : list json) => (Ok tt, report :: w)) [])
     = Raise x.
Proof.
  assert (H0 : database_statement no_failure) by (intros e; left; reflexivity).
  assert (H1 : database_statement failing_statement)
    by (intros e; right; exists (Exn SqliteError "database is locked"), e; split; reflexivity).
  split.
  - destruct (dry_run_is_decisive no_failure no_failure H0 H0 (fun report (w : list json) => (Ok tt, report :: w)) [])
      as [(x & H & _)|(checks & _ & _ & _ & H)].
    + vm_compute in H. discriminate H.
    + rewrite H. reflexivity.
  - destruct (dry_run_is_decisive failing_statement no_failure H1 H0
      (fun report (w : list json) => (Ok tt, report :: w)) []) as [(x & H & _)|(checks & H & _)].
    + exists x. rewrite H. reflexivity.
    + vm_compute in H. discriminate H.
Defined.
