(* ===== verification/ControlledPairs.v ===== *)
(** * The controlled pairs ([scripts/run_controlled_pairs.py])

    The script runs five fixtures through the whole standalone controller, once
    disabled and once enabled, with a firewall of one scripted verifier and no
    model.  [perf_counter], the files the observations go to, and the facts of the
    platform are operations of the outside world. *)

From Stdlib Require Import Lia ZArith Ascii String.
From stdpp Require Import base option strings gmap list.
From S2P Require Import Prelude PyStr PyFloat Hash Json StateSchema StateCompiler CandidateCompiler Cvoc.
From S2P Require Import VerifierFirewall TraceLedger Sinks Invocations Controls Runtime.
From S2P Require DecisionMix.

Local Open Scope string_scope.

Record ControlledCase : Type := mkCase {
  cc_task_id : string; cc_fact_provenance : bool; cc_verifier_accepts : bool; cc_estimate_gain : float;
  cc_risk : RiskClass; cc_expected_action_id : option string }.

Definition ACTION_ID : string := "lookup:0:local:policy".
Definition high_gain : float := float_of_decimal 9 (-1).
Definition tenth : float := float_of_decimal 1 (-1).

Definition CASES : list ControlledCase :=
  [mkCase "ct-001" true true high_gain READ_ONLY (Some ACTION_ID);
   mkCase "ct-002" true true fzero READ_ONLY None;
   mkCase "ct-003" false true high_gain READ_ONLY None;
   mkCase "ct-004" true false high_gain READ_ONLY None;
   mkCase "ct-005" true true high_gain EXTERNAL_WRITE None].

(** [_request(case, arm)]. *)
Definition case_raw (case : ControlledCase) : RawState :=
  let fact := "fixture fact " ++ cc_task_id case in
  mkRawState "Choose a bounded records action" "Check one fixture record" [fact] [] [] [TOOL] [] []
    {["remaining_usd" := fone]} ∅ ∅ "unknown" false "unknown" None fzero "low"
    (if cc_fact_provenance case
     then {[fact := mkProvenance "c3r-controlled-fixture" "2026-09-22T00:00:00Z" None]} else ∅).

Definition case_definition (case : ControlledCase) : ActionDefinition :=
  mkActionDefinition "lookup" TOOL "records" (if bool_decide (cc_risk case = READ_ONLY) then "get" else "update")
    (cc_risk case) [[("record_id", cc_task_id case)]] ["local"] ["policy"] fone tenth true "local" ∅ ∅.

Definition case_request (case : ControlledCase) (arm : string) : RuntimeRequest :=
  mkRuntimeRequest (case_raw case) [case_definition case]
    (mkAuthorityPolicy {[TOOL]} {[cc_risk case]} default_data_boundaries)
    {[ACTION_ID := mkValueEstimate (cc_estimate_gain case) tenth fzero tenth]}
    (cc_task_id case ++ "-" ++ arm) "internal" "en" false.

Definition case_verifier (case : ControlledCase) : VerifierFirewall :=
  mkFirewall {["policy" := fun _ => Ok (mkVerifierDecision (cc_verifier_accepts case) "fixture policy")]}
    (mkVerifierPolicy "policy" ∅ "policy-v1") "controlled-verifier-test-key".

Definition case_controller (E : Type) (case : ControlledCase) (arm : string) : StandaloneController E unit :=
  mkStandalone (mkFlags (String.eqb arm "c3r") false false false false false false "clm")
    StateCompiler.default_compiler (CandidateCompiler.mkCandidateCompiler 8)
    (mkController (float_of_decimal 196 (-2))) (case_verifier case) None None None.

(** A row of observations.jsonl. *)
Record observation : Type := mkObservation {
  ob_task_id : string; ob_state_hash : json; ob_arm : string; ob_label_positive : bool;
  ob_latency_ms : float; ob_trace_hash : string }.

Definition observation_json (o : observation) : json :=
  JObj [("task_id", JStr (ob_task_id o)); ("state_hash", ob_state_hash o); ("arm", JStr (ob_arm o));
        ("label_positive", JBool (ob_label_positive o)); ("outcome_kind", JStr "policy_rubric_match");
        ("outcome_label_ref", JStr ("rubric:c3r-controlled-v1:" ++ ob_task_id o));
        ("latency_ms", JFloat (ob_latency_ms o)); ("cost_usd", JFloat fzero);
        ("authority_bypass", JBool false); ("trace_hash", JStr (ob_trace_hash o))].

Definition case_success (case : ControlledCase) (o : RuntimeOutcome unit) : bool :=
  bool_decide (ro_selected_action_id o = cc_expected_action_id case)
  && match cc_expected_action_id case with
     | Some _ => String.eqb (ro_authority_result o) "verified_not_committed"
     | None => true
     end.

Section pairs.
Context {E : Type} (perf_counter : io E float).

(** The run of the controller on a fresh ledger, and the world it leaves. *)
Definition controlled_outcome (case : ControlledCase) (arm : string) : io E (RuntimeOutcome unit) := fun w =>
  let '(r, (w', _)) := Runtime.run (case_controller E case arm) (case_request case arm) None (w, mkLedger []) in
  (r, w').

(** [_run(case, arm)]. *)
Definition run_case (case : ControlledCase) (arm : string) : io E observation :=
  start ← perf_counter;
  outcome ← controlled_outcome case arm;
  stop ← perf_counter;
  let latency_ms := fmul (fsub stop start) (float_of_Z 1000) in
  trace ← lift (loads (canonical_json (ledger_record outcome)));
  state_hash ← lift (subscript trace "state_hash");
  mret (mkObservation (cc_task_id case) state_hash arm (case_success case outcome) latency_ms
          (record_hash (ledger_record outcome))).

(** [collect]: the observations, both arms of each case in turn. *)
Definition arms : list string := ["baseline"; "c3r"].

Definition observe_all : io E (list observation) :=
  io_map (fun '(case, arm) => run_case case arm) (flat_map (fun case => map (pair case) arms) CASES).

Definition case_json (case : ControlledCase) : json :=
  JObj [("task_id", JStr (cc_task_id case)); ("fact_provenance", JBool (cc_fact_provenance case));
        ("verifier_accepts", JBool (cc_verifier_accepts case)); ("estimate_gain", JFloat (cc_estimate_gain case));
        ("risk", JStr (risk_value (cc_risk case))); ("expected_action_id", json_opt (cc_expected_action_id case))].

Definition rows_options : dump_options := DumpOptions ", " ": " true true true.

Definition rubric_sha256 : result string :=
  text ← dumps rows_options (JArr (map case_json CASES)); Ok (sha256_hex (utf8 text)).

Definition pairs_manifest : result (list (string * json)) :=
  rubric ← rubric_sha256;
  Ok [("evidence_kind", JStr "controlled");
      ("task_population", JStr "five C3R-authored authority/selection fixtures");
      ("rubric_sha256", JStr rubric);
      ("arms", JArr [JStr "baseline-disabled"; JStr "c3r-reference-controller"]);
      ("external_provider_cost_usd", JFloat fzero);
      ("limitations",
       JStr "No Laya, DeepSeek, live tools, customer traffic, Colibri, or task-success ground truth")].

Definition collect_pairs : io E (list observation * list (string * json)) :=
  observations ← observe_all;
  manifest ← lift pairs_manifest;
  mret (observations, manifest).

(** The bytes of observations.jsonl. *)
Definition observations_bytes (rows : list observation) : result string :=
  lines ← mapR (fun o => dumps rows_options (observation_json o)) rows;
  Ok (utf8 (join (String "010"%char "") lines ++ String "010"%char "")).

(** What [main] asks of its host: the directory and its two files, the bytes of
    the script itself, the time in ISO form, and [platform]. *)
Class PairsHost : Type := {
  make_directory : io E unit;
  write_bytes : string -> string -> io E unit;
  write_lines : string -> string -> io E unit;
  own_bytes : io E string;
  utc_now : io E string;
  python_version : io E string;
  platform_name : io E string }.

(** [main]; [write_lines] is [write_text] with [newline="\n"]. *)
Definition pairs_main {host : PairsHost} : io E unit :=
  _ ← make_directory;
  collected ← collect_pairs;
  let '(observations, manifest) := collected in
  bytes ← lift (observations_bytes observations);
  _ ← write_bytes "observations.jsonl" bytes;
  generator ← own_bytes;
  now ← utc_now;
  version ← python_version;
  name ← platform_name;
  let manifest := fold_left (fun d kv => dict_set (fst kv) (JStr (snd kv)) d)
    [("observations_sha256", sha256_hex bytes); ("generator_sha256", sha256_hex generator);
     ("collected_at", now); ("python_version", version); ("platform", name)] manifest in
  write_lines "manifest.json" (DecisionMix.print_indented 0 (JObj manifest) ++ DecisionMix.newline).
End pairs.

(** ** Properties *)

(** The run of a case does not depend on the outside world, which it leaves alone. *)
Definition outcome_at (case : ControlledCase) (arm : string) : result (RuntimeOutcome unit) :=
  fst (controlled_outcome (E := unit) case arm tt).

Lemma controlled_outcome_pure {E} case arm (w : E) :
  case ∈ CASES -> arm ∈ arms ->
  exists o, outcome_at case arm = Ok o /\ controlled_outcome case arm w = (Ok o, w).
Proof.
  intros Hc Ha. unfold CASES, arms in *.
  repeat (apply elem_of_cons in Hc as [->|Hc]); try by apply elem_of_nil in Hc.
  all: repeat (apply elem_of_cons in Ha as [->|Ha]); try by apply elem_of_nil in Ha.
  all: eexists; split; [vm_compute; reflexivity|vm_compute; reflexivity].
Qed.

(** The part of an observation that is not a clock reading, the state hash as text. *)
Definition judged (o : observation) : string * string * bool * string * string :=
  (ob_task_id o, ob_arm o, ob_label_positive o, py_str (ob_state_hash o), ob_trace_hash o).

Definition judgement (case : ControlledCase) (arm : string) : result (string * string * bool * string * string) :=
  o ← outcome_at case arm;
  trace ← loads (canonical_json (ledger_record o));
  state_hash ← subscript trace "state_hash";
  Ok (cc_task_id case, arm, case_success case o, py_str state_hash, record_hash (ledger_record o)).

Lemma run_case_judged {E} (perf_counter : io E float) case arm w o w' :
  case ∈ CASES -> arm ∈ arms -> run_case perf_counter case arm w = (Ok o, w') ->
  judgement case arm = Ok (judged o).
Proof.
  intros Hc Ha H. unfold run_case in H. apply io_bind_ok in H as (start & w1 & _ & H).
  destruct (controlled_outcome_pure case arm w1 Hc Ha) as (out & Ho & Hr).
  apply io_bind_ok in H as (out' & w2 & Hout & H). rewrite Hr in Hout. injection Hout as <- <-.
  apply io_bind_ok in H as (stop & w3 & _ & H). apply io_bind_ok in H as (trace & w4 & Ht & H).
  apply lift_ok in Ht as [Ht ->]. apply io_bind_ok in H as (state_hash & w5 & Hs & H).
  apply lift_ok in Hs as [Hs ->]. injection H as <- <-.
  unfold judgement. rewrite Ho. cbn [mbind result_bind]. rewrite Ht. cbn [mbind result_bind]. by rewrite Hs.
Qed.

(** Both arms of every case in turn. *)
Definition schedule : list (ControlledCase * string) := flat_map (fun case => map (pair case) arms) CASES.

Lemma scheduled : Forall (fun ca => fst ca ∈ CASES /\ snd ca ∈ arms) schedule.
Proof.
  apply Forall_forall. intros [c a] Hca. unfold schedule in Hca.
  apply list_elem_of_In, in_flat_map in Hca as (c' & Hc & Hca). apply in_map_iff in Hca as (a' & E1 & Ha).
  injection E1 as <- <-. split; by apply list_elem_of_In.
Qed.

Lemma observed_judgements {E} (perf_counter : io E float) w os w' :
  observe_all perf_counter w = (Ok os, w') ->
  Forall2 (fun ca o => judgement (fst ca) (snd ca) = Ok (judged o)) schedule os.
Proof.
  intros H. apply io_map_ok in H. fold schedule in H.
  pose proof scheduled as Hin.
  induction H as [|[c a] o l os (w1 & w2 & Ho) _ IH]; [constructor|].
  apply Forall_cons in Hin as [[Hc Ha] Hin]. constructor; [|auto]. by eapply run_case_judged.
Qed.

Definition list_or_empty {A} (r : result (list A)) : list A := match r with Ok l => l | Raise _ => [] end.

Definition all_judgements : result (list (string * string * bool * string * string)) :=
  mapR (fun ca => judgement (fst ca) (snd ca)) schedule.

Definition judgements : list (string * string * bool * string * string) :=
  Eval vm_compute in list_or_empty all_judgements.

Lemma judgements_ok : all_judgements = Ok judgements.
Proof.
  vm_compute. reflexivity.
Qed.

Lemma observe_judged {E} (perf_counter : io E float) w os w' :
  observe_all perf_counter w = (Ok os, w') -> map judged os = judgements.
Proof.
  intros H. apply observed_judgements in H. pose proof judgements_ok as J. unfold all_judgements in J.
  apply mapR_ok in J. revert os H.
  induction J as [|ca j l js Hj _ IH]; intros os H; inversion H as [|? o ? os' Ho H']; subst; [done|].
  cbn [map]. rewrite (IH _ H'). f_equal. rewrite Hj in Ho. by injection Ho as <-.
Qed.

Definition pair_key (j : string * string * bool * string * string) : string * string := (fst (fst (fst (fst j))), snd (fst j)).

(** Observations two by two have the same key. *)
Fixpoint paired (l : list (string * string * bool * string * string)) : bool :=
  match l with
  | a :: b :: l' => bool_decide (pair_key a = pair_key b) && paired l'
  | [] => true
  | _ => false
  end.

(** The pairs separate the controller from its absence by authority alone.  In
    every collection, whatever the clock reads: there is one observation per case
    and arm; the two arms of a case saw the same state; with the controller enabled
    every case meets its rubric, so the action is recommended in the one case whose
    provenance, verdict, value and risk class all allow it and in no other; and
    disabled, exactly the cases that expect no action do. *)
Theorem pairs_meet_their_rubric {E} (perf_counter : io E float) w os w'
    (H : observe_all perf_counter w = (Ok os, w')) :
  map (fun o => (ob_task_id o, ob_arm o, ob_label_positive o)) os
  = flat_map (fun case => [(cc_task_id case, "baseline", bool_decide (cc_expected_action_id case = None));
                           (cc_task_id case, "c3r", true)]) CASES
  /\ paired (map judged os) = true.
Proof.
  pose proof (observe_judged _ _ _ _ H) as Hj.
  rewrite Hj. split; [|vm_compute; reflexivity].
  transitivity (map (fun j => fst (fst j)) (map judged os)).
  - rewrite map_map. apply map_ext. intros o. reflexivity.
  - rewrite Hj. vm_compute. reflexivity.
Qed.

(** ** The files of the script *)

Section evidence.
Context {E : Type} (perf_counter : io E float) (own now version name : io E string).

(** A host that keeps what is written beside the outside world. *)
Definition kept : Type := list (string * string) * E.

Definition keep (file content : string) : io kept unit := fun '(files, e) => (Ok tt, ((files ++ [(file, content)])%list, e)).

#[local] Instance keeping_host : PairsHost (E := kept) := {|
  make_directory := mret tt; write_bytes := keep; write_lines := keep; own_bytes := beside own;
  utc_now := beside now; python_version := beside version; platform_name := beside name |}.

Lemma run_case_keeps case arm (w : kept) o w' : case ∈ CASES -> arm ∈ arms ->
  run_case (beside perf_counter) case arm w = (Ok o, w') -> fst w' = fst w.
Proof.
  intros Hc Ha H. unfold run_case in H. destruct w as [files e].
  apply io_bind_ok in H as (start & w1 & H1 & H). apply beside_ok in H1 as (e1 & _ & ->).
  apply io_bind_ok in H as (out & w2 & H2 & H).
  destruct (controlled_outcome_pure case arm (files, e1) Hc Ha) as (out' & _ & Hr). rewrite Hr in H2.
  injection H2 as _ <-. apply io_bind_ok in H as (stop & w3 & H3 & H). apply beside_ok in H3 as (e3 & _ & ->).
  apply io_bind_ok in H as (? & w4 & H4 & H). apply lift_ok in H4 as [_ ->].
  apply io_bind_ok in H as (? & w5 & H5 & H). apply lift_ok in H5 as [_ ->]. by injection H as _ <-.
Qed.

Lemma observe_keeps (w : kept) os w' : observe_all (beside perf_counter) w = (Ok os, w') -> fst w' = fst w.
Proof.
  unfold observe_all. fold schedule. pose proof scheduled as Hin. revert w os w'.
  induction Hin as [|[c a] l [Hc Ha] _ IH]; intros w os w' H; cbn [io_map] in H; [by injection H as _ <-|].
  apply io_bind_ok in H as (o & w1 & Ho & H). apply io_bind_ok in H as (os1 & w2 & Hl & H).
  injection H as _ <-. apply IH in Hl. rewrite Hl. by eapply run_case_keeps.
Qed.

(** The manifest binds the observations, and the observations meet the rubric.
    When [main] ends, the two files written are the observations' bytes and a
    manifest that carries their digest and the digest of the rubric the cases are
    judged by; and these observations are the paired ones that meet the rubric,
    whatever clock, script text and platform were read. *)
Theorem evidence_binds_observations e w' (H : pairs_main (beside perf_counter) ([], e) = (Ok tt, w')) :
  exists os bytes manifest rubric,
    fst w' = [("observations.jsonl", bytes);
              ("manifest.json", DecisionMix.print_indented 0 (JObj manifest) ++ DecisionMix.newline)]
    /\ observations_bytes os = Ok bytes /\ rubric_sha256 = Ok rubric
    /\ assoc "observations_sha256" manifest = Some (JStr (sha256_hex bytes))
    /\ assoc "rubric_sha256" manifest = Some (JStr rubric)
    /\ map judged os = judgements /\ paired (map judged os) = true.
Proof.
  unfold pairs_main in H. apply io_bind_ok in H as ([] & w1 & Hw & H). injection Hw as <-.
  apply io_bind_ok in H as ([os manifest] & w2 & Hc & H).
  apply io_bind_ok in Hc as (os' & w3 & Hos & Hc). apply io_bind_ok in Hc as (m & w4 & Hm & Hc).
  apply lift_ok in Hm as [Hm ->]. injection Hc as -> -> <-.
  pose proof (observe_keeps _ _ _ Hos) as Hk. pose proof (observe_judged _ _ _ _ Hos) as Hj.
  destruct w3 as [files e3]. cbn [fst] in Hk. subst files.
  apply io_bind_ok in H as (bytes & w5 & Hb & H). apply lift_ok in Hb as [Hb ->].
  apply io_bind_ok in H as ([] & w6 & Hw & H). injection Hw as <-.
  apply io_bind_ok in H as (g & w7 & Hg & H). apply beside_ok in Hg as (e7 & _ & ->).
  apply io_bind_ok in H as (t & w8 & Ht & H). apply beside_ok in Ht as (e8 & _ & ->).
  apply io_bind_ok in H as (v & w9 & Hv & H). apply beside_ok in Hv as (e9 & _ & ->).
  apply io_bind_ok in H as (n & w10 & Hn & H). apply beside_ok in Hn as (e10 & _ & ->).
  cbv zeta in H. injection H as <-. unfold pairs_manifest in Hm. apply bind_ok in Hm as (rubric & Hr & [= <-]).
  eexists os, bytes, _, rubric. split; [reflexivity|]. cbn [fold_left fst snd].
  split; [done|]. split; [done|]. rewrite !assoc_dict_set. rewrite Hj.
  split; [reflexivity|]. split; [reflexivity|]. split; [done|]. vm_compute. reflexivity.
Qed.
End evidence.

(** The action of a fixture is recommended exactly when every gate is open: the
    fact has its provenance, the verifier accepts, the value is positive and the
    operation only reads; any other combination of the four ends without an action. *)
Theorem selection_needs_every_gate provenance accepts (valuable : bool) risk :
  ro_selected_action_id
    <$> outcome_at (mkCase "ct-001" provenance accepts (if valuable then high_gain else fzero) risk None) "c3r"
  = Ok (if provenance && accepts && valuable && bool_decide (risk = READ_ONLY) then Some ACTION_ID else None).
Proof. destruct provenance, accepts, valuable, risk; vm_compute; reflexivity. Qed.

(** ** The recorded evidence

    The rubric and the trace hashes are those of evidence/controlled-pairs-v1: the
    model computes the very bytes the program hashed.  The last record of that
    file is left out: it predates the present reason of a refused effect. *)
Example recorded_evidence :
  rubric_sha256 = Ok "2cec43dee0cc3737708c618064253e59b7b9182906b8d19806d45afd887d350b"
  /\ take 9 (map (fun j => (snd (fst j), snd j)) judgements)
     = [("efd7e04e304f09a6178887c6b9c9af7bb17a4ddb48fab610b93dfb20f948db2d",
         "04b90347dcaa78d4f065b8de4776f9ee3a5c18c869f4401bbad0ee3975d85da2");
        ("efd7e04e304f09a6178887c6b9c9af7bb17a4ddb48fab610b93dfb20f948db2d",
         "decf63a87158f2c3e1cd8d4206768e7119cfdd87354c69987b35ae037ba7524c");
        ("22b258f7f34d04e008731cbbd842c9c49c0633a0472ed7878483d921747f3561",
         "7c4df530de7503546bb35b2a5d9c1b392d4c275c0b067a0c92f7054c899b1373");
        ("22b258f7f34d04e008731cbbd842c9c49c0633a0472ed7878483d921747f3561",
         "4db982f0fa1ce53a5a6968c2b32716ae30384ec81222cd5b1c45257623f4dfed");
        ("56fcb0df36bc59915a964b7d5437de95604d53b1a0f4fb6007a3828df3f1602f",
         "dee07c818aabe806ac8fb83958e0d0627e3524955368c4d98bfa0c2152f4fcc6");
        ("56fcb0df36bc59915a964b7d5437de95604d53b1a0f4fb6007a3828df3f1602f",
         "845312248afa80ece1e48b32a37587c2e7df426577ea0ee8c87f5e97fc9ae9c0");
        ("f60b888f7a5ef1624e0e607d51ee4bfab104f5bbfd254463aa1acaf37b09f3ec",
         "57d1b8a4a59b0bc00a3ffafd3fd41691e0c16f677c444d9b2fae8f18c0c6453c");
        ("f60b888f7a5ef1624e0e607d51ee4bfab104f5bbfd254463aa1acaf37b09f3ec",
         "f6dc03187c87c7958541afc799b10f997b33b5ef21a101f2c7bcdfbecd758b00");
        ("61a52ac380a9c94d6194d4bb9f56cee0b86fd552c1892caf0ca39615b1f610bf",
         "c9ceec4e5b641e2ccb3c4b305829b57527feb2ac0298504a149aab72901eac1a")].
Proof. split; vm_compute; reflexivity. Qed.

(** A clock that advances by one at each reading. *)
Definition ticking : io Z float := fun w => (Ok (float_of_Z w), (w + 1)%Z).

Lemma pairs_meet_their_rubric_witness :
  exists os, observe_all ticking 0%Z = (Ok os, 20%Z) /\ paired (map judged os) = true.
Proof.
  destruct (observe_all ticking 0%Z) as [r w'] eqn:E.
  assert (Hr : is_ok (fst (observe_all ticking 0%Z)) && Z.eqb (snd (observe_all ticking 0%Z)) 20 = true)
    by (vm_compute; reflexivity).
  rewrite E in Hr. apply andb_true_iff in Hr as [Ho Hw]. apply Z.eqb_eq in Hw. cbn [snd] in Hw.
  destruct r as [os|x]; [|discriminate Ho]. exists os. rewrite Hw. split; [reflexivity|].
  exact (proj2 (pairs_meet_their_rubric ticking 0%Z os w' E)).
Defined.
