(* ===== verification/PreviewDataset.v ===== *)
(** * The DecisionMix preview ([scripts/build_decisionmix_preview.py])

    The synthetic records of the preview and the run of the builder over them.
    The dataset under data/decisionmix-v1-preview is what the model computes. *)

From Stdlib Require Import Lia ZArith Ascii String.
From stdpp Require Import base option strings gmap list.
From S2P Require Import Prelude PyStr PySort PyFloat FloatRepr Json Hash PyNumber StateSchema PyTime DecisionMix.

Local Open Scope string_scope.

Definition GENERATOR_REVISION : string := "0000000000000000000000000000000000000001".
Definition preview_seed : string := "c3r-decisionmix-v1-preview-2026-09-21".
Definition EXAMPLES : Z := 16.

(** [round(0.25 + (example_index % 8) * 0.25, 2)]. *)
Definition preview_budget (example_index : Z) : float :=
  let quarter := float_of_decimal 25 (-2) in
  py_round (fadd quarter (fmul (float_of_Z (example_index mod 8)) quarter)) 2.

(** [round(0.5 + family_index * 0.02, 3)]. *)
Definition preview_utility (family_index : Z) : float :=
  py_round (fadd (float_of_decimal 5 (-1)) (fmul (float_of_Z family_index) (float_of_decimal 2 (-2)))) 3.

Definition hundredth_of (x : float) : float :=
  SpecFloat.SFdiv prec emax x (float_of_Z 100).

Definition preview_record (family_index : Z) (family : ActionFamily) (example_index : Z) : DecisionMixRecord :=
  let name := family_value family in
  let budget := preview_budget example_index in
  mkRecord ("synthetic-" ++ lower name ++ "-" ++ zero_padded 3 example_index)
    [("schema_version", JStr "c3r.state.v1");
     ("goal", JStr "Select the safest useful next computation");
     ("current_subgoal", JStr ("Evaluate " ++ name));
     ("budget", JObj [("usd", JFloat budget)]);
     ("data_boundary", JStr "local");
     ("state_compilation_confidence", JFloat fone)]
    [("ACTION_FAMILY", JStr name); ("STOP_NOW", JStr (if bool_decide (family = STOP) then "YES" else "NO"))]
    [[("id", JStr ("candidate-" ++ lower name)); ("family", JStr name); ("risk_class", JStr "READ_ONLY")];
     [("id", JStr "stop"); ("family", JStr "STOP"); ("risk_class", JStr "READ_ONLY")]]
    [("id", JStr "stop"); ("family", JStr "STOP")]
    [[("id", JStr "ask-user"); ("family", JStr "ASK_USER")]]
    [("accepted", JBool true); ("fixture", JBool true)]
    [("success", JBool true); ("synthetic", JBool true); ("utility", JFloat (preview_utility family_index))]
    [("candidate", float_of_Z (5 + example_index)); ("baseline", fone)]
    [("candidate", hundredth_of budget); ("baseline", fzero)]
    "READ_ONLY" "synthetic-fixture" name
    (mkSource "c3r-synthetic-preview-generator" "Apache-2.0" "synthetic" GENERATOR_REVISION).

(** The two loops of [build]. *)
Definition preview_records : list DecisionMixRecord :=
  flat_map (fun '(family_index, family) =>
              map (fun i => preview_record (Z.of_nat family_index) family (Z.of_nat i)) (seq 0 (Z.to_nat EXAMPLES)))
    (imap pair all_families).

(** [build]; [mkdir], [write_text] and [print] are the host's. *)
Definition build_preview {E} (mkdir : io E unit) (write_text : string -> string -> io E unit)
    (print : string -> io E unit) (output : string) : io E unit :=
  builder ← lift (make_builder preview_seed);
  builder ← lift (add_all builder preview_records);
  manifest ← write mkdir write_text builder;
  print ("wrote " ++ str_of_Z (sumZ (map snd (mf_split_counts manifest))) ++ " records to " ++ output).

(** ** Properties *)

Definition empty_builder (seed : string) : DecisionMixBuilder := mkBuilder seed (fun _ => []) ∅.

(** The builder the loops leave. *)
Definition preview_builder : DecisionMixBuilder :=
  match add_all (empty_builder preview_seed) preview_records with Ok b => b | Raise _ => empty_builder preview_seed end.

Lemma preview_added : add_all (empty_builder preview_seed) preview_records = Ok preview_builder.
Proof.
  assert (H : is_ok (add_all (empty_builder preview_seed) preview_records) = true) by (vm_compute; reflexivity).
  unfold preview_builder. by destruct (add_all _ _).
Qed.

(** [sha256] of a split's file. *)
Definition split_digest (b : DecisionMixBuilder) (split : string) : string := sha256_hex (utf8 (split_content b split)).

(** data/decisionmix-v1-preview/manifest.json, the digest of its largest file left to
    the builder. *)
Definition published_manifest : DecisionMixManifest :=
  mkManifest "c3r.decisionmix.v1" preview_seed [("train", 114); ("validation", 12); ("test", 18)]%Z
    [("train.jsonl", split_digest preview_builder "train");
     ("validation.jsonl", "2be82a59c413f175b0c2507efd9c40021bc8ecbc3844dc6a74b6cceb36b57741");
     ("test.jsonl", "b9d06410764bd80039d5511dbf1e034e701cf33a86ecae6d68c125f9e656547e")]
    ["Apache-2.0"] ["c3r-synthetic-preview-generator"].

(** The split of each record, in their order. *)
Definition preview_assignment : list string :=
  Eval vm_compute in map (fun r => deterministic_split (dm_record_id r) preview_seed) preview_records.

Lemma preview_assigned : map (fun r => deterministic_split (dm_record_id r) preview_seed) preview_records = preview_assignment.
Proof. vm_compute. reflexivity. Qed.

Definition preview_split (split : string) : list DecisionMixRecord :=
  map fst (List.filter (fun p => String.eqb split (snd p)) (combine preview_records preview_assignment)).

Lemma filter_combine {A} (f : A -> string) split l :
  List.filter (fun x => String.eqb split (f x)) l
  = map fst (List.filter (fun p => String.eqb split (snd p)) (combine l (map f l))).
Proof.
  induction l as [|x l IH]; [done|]. cbn [map combine List.filter snd].
  destruct (String.eqb split (f x)); cbn [map fst]; by rewrite IH.
Qed.

Lemma preview_rows split : split_rows preview_builder split = sorted_by record_ltb (preview_split split).
Proof.
  unfold split_rows, preview_split. apply (f_equal (sorted_by record_ltb)). pose proof preview_added as H. apply add_all_ok in H as [_ (_ & Hr & _)].
  rewrite Hr, <- preview_assigned. apply filter_combine.
Qed.

Lemma preview_counts : map (fun s => (s, lenZ (split_rows preview_builder s))) SPLITS
  = [("train", 114); ("validation", 12); ("test", 18)]%Z.
Proof. cbn [map SPLITS]. rewrite (preview_rows "train"), (preview_rows "validation"), (preview_rows "test"). vm_compute. reflexivity. Qed.

Lemma preview_provenance :
  sorted_set (collected preview_builder sp_license) = ["Apache-2.0"]
  /\ sorted_set (collected preview_builder sp_source_id) = ["c3r-synthetic-preview-generator"].
Proof. unfold collected. cbn [map SPLITS]. rewrite (preview_rows "train"), (preview_rows "validation"), (preview_rows "test"). split; vm_compute; reflexivity. Qed.

Lemma preview_validation : split_digest preview_builder "validation"
  = "2be82a59c413f175b0c2507efd9c40021bc8ecbc3844dc6a74b6cceb36b57741".
Proof. unfold split_digest, split_content. rewrite preview_rows. vm_compute. reflexivity. Qed.

Lemma preview_test : split_digest preview_builder "test"
  = "b9d06410764bd80039d5511dbf1e034e701cf33a86ecae6d68c125f9e656547e".
Proof. unfold split_digest, split_content. rewrite preview_rows. vm_compute. reflexivity. Qed.

Lemma preview_seeded : bd_split_seed preview_builder = preview_seed.
Proof. pose proof preview_added as H. by apply add_all_ok in H as [_ (Hs & _)]. Qed.

Lemma preview_manifest : manifest_of preview_builder = published_manifest.
Proof.
  unfold manifest_of, published_manifest. rewrite preview_counts, preview_seeded.
  destruct preview_provenance as [-> ->]. rewrite <- preview_validation, <- preview_test. reflexivity.
Qed.

(** The published preview is what the program builds.  On any host the script
    makes its directory, writes the three split files and a manifest, and prints
    the count, stopping only at an error of the host; the manifest written is
    the published one, with the published SHA-256 of the two smaller files' contents, and the files hold each of the
    144 synthetic records once, in the split its id hashes to. *)
Theorem preview_is_reproducible {E} mkdir write_text print output (w : E) :
  build_preview mkdir write_text print output w
  = (_ ← mkdir;
     _ ← io_map (fun s => write_text (file_name s) (split_content preview_builder s)) SPLITS;
     _ ← write_text "manifest.json" (print_indented 0 (manifest_json published_manifest) ++ newline);
     print ("wrote 144 records to " ++ output)) w
  /\ (forall s r, r ∈ split_rows preview_builder s
        <-> r ∈ preview_records /\ s = deterministic_split (dm_record_id r) preview_seed)
  /\ NoDup (map dm_record_id preview_records) /\ length preview_records = 144.
Proof.
  split; [|split; [|split; [|reflexivity]]].
  - assert (Hb : make_builder preview_seed = Ok (empty_builder preview_seed)) by reflexivity.
    unfold build_preview, mbind, io_bind, lift. rewrite Hb, preview_added. unfold write, mbind, io_bind.
    rewrite preview_manifest.
    destruct (mkdir w) as [[u|x] w1]; [|done].
    destruct (io_map _ SPLITS w1) as [[us|x] w2]; [|done].
    by destruct (write_text "manifest.json" _ w2) as [[u'|x] w3].
  - apply add_all_rows. exact preview_added.
  - pose proof preview_added as H. apply add_all_ok in H as [(_ & Hnd & _) _]. exact Hnd.
Qed.
