(* ===== verification/Sha1.v ===== *)
(** * [hashlib.sha1] and Git blob identities

    An executable SHA-1 (FIPS 180-4) on byte strings, with the padding and word
    functions of [Hash]; the upstream release of the encoder identifies its small
    files by their Git blob identities. *)

From Stdlib Require Import Lia NArith ZArith Ascii String.
From stdpp Require Import base option strings list.
From S2P Require Import Prelude PyStr Hash.

Local Open Scope N_scope.

Module Sha1.

Definition rotl (n x : N) : N := Sha256.rotr (32 - n) x.

Record regs : Type := Regs { ra : N; rb : N; rc : N; rd : N; re : N }.

Definition initial : regs := Regs 0x67452301 0xefcdab89 0x98badcfe 0x10325476 0xc3d2e1f0.

(** The message schedule, newest word first. *)
Fixpoint extend (n : nat) (w : list N) : list N :=
  match n with
  | O => w
  | S n' =>
      let wt := rotl 1 (N.lxor (N.lxor (nth 2 w 0) (nth 7 w 0)) (N.lxor (nth 13 w 0) (nth 15 w 0))) in
      extend n' (wt :: w)
  end.

Definition schedule (block : list N) : list N := rev (extend 64 (rev block)).

(** The function and the constant of a round. *)
Definition round_of (t : nat) (b c d : N) : N * N :=
  if Nat.ltb t 20 then (Sha256.choose b c d, 0x5a827999)
  else if Nat.ltb t 40 then (N.lxor b (N.lxor c d), 0x6ed9eba1)
  else if Nat.ltb t 60 then (Sha256.majority b c d, 0x8f1bbcdc)
  else (N.lxor b (N.lxor c d), 0xca62c1d6).

Definition step (r : regs) (tw : nat * N) : regs :=
  let '(Regs a b c d e) := r in
  let '(f, k) := round_of (fst tw) b c d in
  let t := Sha256.wadd (Sha256.wadd (rotl 5 a) f) (Sha256.wadd e (Sha256.wadd k (snd tw))) in
  Regs t a (rotl 30 b) c d.

Definition compress (r : regs) (block : list N) : regs :=
  let r' := fold_left step (combine (seq 0 80) (schedule block)) r in
  Regs (Sha256.wadd (ra r) (ra r')) (Sha256.wadd (rb r) (rb r')) (Sha256.wadd (rc r) (rc r'))
       (Sha256.wadd (rd r) (rd r')) (Sha256.wadd (re r) (re r')).

Definition digest (bs : list N) : list N :=
  let ws := Sha256.words (Sha256.pad bs) in
  let '(Regs a b c d e) := fold_left compress (Sha256.blocks (length ws) ws) initial in
  concat (map (Sha256.be_bytes 4) [a; b; c; d; e]).

End Sha1.

Definition sha1_hex (data : string) : string := hex (Sha1.digest (bytes_of_string data)).

Local Open Scope string_scope.

(** [f"blob {size}\0"] and the contents. *)
Definition blob_header (size : Z) : string := "blob " ++ str_of_Z size ++ String "000" EmptyString.

Definition git_blob_id (content : string) : string := sha1_hex (blob_header (len content) ++ content).

(** The vectors of FIPS 180-2 and the well-known identities of Git. *)
Example sha1_vectors :
  sha1_hex "abc" = "a9993e364706816aba3e25717850c26c9cd0d89d"
  /\ sha1_hex "" = "da39a3ee5e6b4b0d3255bfef95601890afd80709"
  /\ sha1_hex "abcdbcdecdefdefgefghfghighijhijkijkljklmklmnlmnomnopnopq" = "84983e441c3bd26ebaae4aa1f95129e5e54670f1"
  /\ git_blob_id "" = "e69de29bb2d1d6434b8b29ae775ad8c2e48c5391"
  /\ git_blob_id ("hello" ++ String "010" EmptyString) = "ce013625030ba8dba906f756967f9e9ca394464a"
  /\ git_blob_id "what is up, doc?" = "bd9dbf5aae1a3862dd1526723246b20206e5fc37".
Proof. by vm_compute. Qed.
