(* ===== verification/ReleaseIdentity.v ===== *)
(** * Identity of the encoder release and of the ranking server
      ([deploy/encoder_identity.py], [deploy/attest_encoder.py],
      [deploy/clm_runtime.py], [scripts/download_clm_artifacts.py])

    The files of a release are seen through [ReleaseFiles]; the docker inspection and
    the downloads are computations over the same world. *)

From Stdlib Require Import Lia ZArith Ascii String.
From stdpp Require Import base option strings gmap list.
From S2P Require Import Prelude Effects PyStr PySort Json JsonText Hash Sha1 Invocations Providers LocalArtifacts ProductionHost.

Local Open Scope string_scope.

(** ** [encoder_identity.py] *)

Definition REVISION : string := "b968826d9c46dd6066d109eabc6255188de91218".

Definition LFS : list (string * string) :=
  [("model-00001-of-00005.safetensors", "31d6a825ae35f11fb85b195b4c42c146c051e446433125a215336abdf95cbf5f");
   ("model-00002-of-00005.safetensors", "5991236cea6fe21f3d43cab0f0e84448734fbbe0789816202989f2ddc9d18282");
   ("model-00003-of-00005.safetensors", "c5185c4794be2d8a9784d5753c9922db38df478ce11f9ed0b415b7304d896836");
   ("model-00004-of-00005.safetensors", "b5ee7de71fbf17db3d5704e0c8f2bc7d005ca9e1d7ca2aeb19827b0cfcaa917a");
   ("model-00005-of-00005.safetensors", "20c2d6366ab85c90786ccdd829cd2b9e7d30ef3b2ebbb998280e7e4014b542ff");
   ("tokenizer.json", "aeb13307a71acd8fe81861d94ad54ab689df773318809eed3cbe794b4492dae4")].

Definition GIT_BLOBS : list (string * string) :=
  [("config.json", "d46195ac87f837ad233d02b2f80f148bf7c005e0");
   ("generation_config.json", "20a8a9156fc8c3f25295ca067f61fdf120d517c5");
   ("merges.txt", "31349551d90c7606f325fe0f11bbb8bd5fa0d7c7");
   ("model.safetensors.index.json", "2b85c00f1b118961cd7a477e2bba0fe197a4ce1a");
   ("tokenizer_config.json", "417d038a63fa3de29cfde265caedae14d1a58d92");
   ("vocab.json", "4783fe10ac3adce15ac8f358ef5462739852c569")].

(** The pins of a release: large files by their SHA-256, small ones by their Git blob
    identity. *)
Record pins : Type := mkPins { pn_lfs : list (string * string); pn_blobs : list (string * string) }.

Definition encoder_pins : pins := mkPins LFS GIT_BLOBS.

Definition release_names (ps : pins) : list string := (map fst (pn_lfs ps) ++ map fst (pn_blobs ps))%list.

(** [walk p] is [p.rglob("*")], each path by its parts below [p]; [content p] reads a
    file to its end. *)
Class ReleaseFiles (E : Type) : Type := {
  walk : path -> io E (list (list string));
  is_file : path -> io E bool;
  is_symlink : path -> io E bool;
  file_size : path -> io E Z;
  content : path -> io E string }.

(** [root / part / ...]. *)
Definition below (root : path) (parts : list string) : path := mkPath (path_root root) (path_tail root ++ parts)%list.

(** [path.parts]. *)
Definition parts_of (p : path) : list string :=
  if nonempty (path_root p) then path_root p :: path_tail p else path_tail p.

Section encoder.
Context {E : Type} {files : ReleaseFiles E}.

(** The relative paths that are files outside [.cache]. *)
Fixpoint inventory (root : path) (found : list (list string)) : io E (list string) :=
  match found with
  | [] => mret []
  | parts :: found' =>
      file ← is_file (below root parts);
      rest ← inventory root found';
      mret (if (file : bool) && negb (bool_decide (".cache" ∈ parts_of (below root parts)))
            then join "/" parts :: rest else rest)
  end.

Definition pinned (ps : pins) (name : string) : string :=
  match assoc name (pn_lfs ps) with Some pin => pin | None => default "" (assoc name (pn_blobs ps)) end.

Definition release_digest (ps : pins) (name header text : string) : string :=
  (if bool_decide (name ∈ map fst (pn_lfs ps)) then sha256_hex else sha1_hex) (header ++ text).

Definition verify_file (ps : pins) (root : path) (name : string) : io E unit :=
  let p := below root [name] in
  linked ← is_symlink p;
  _ ← lift (raise_if linked RuntimeError "encoder release must use ordinary read-only files");
  header ← (if bool_decide (name ∈ map fst (pn_blobs ps))
            then size ← file_size p; mret (blob_header size) else mret "");
  text ← content p;
  lift (raise_if (negb (String.eqb (release_digest ps name header text) (pinned ps name))) RuntimeError
          "encoder content does not match independent upstream identity").

Fixpoint verify_files (ps : pins) (root : path) (names : list string) : io E unit :=
  match names with
  | [] => mret tt
  | name :: names' => _ ← verify_file ps root name; verify_files ps root names'
  end.

Definition same_names (l1 l2 : list string) : bool :=
  bool_decide (list_to_set (C := gset string) l1 = list_to_set l2).

Definition verify_release (ps : pins) (root : path) : io E unit :=
  found ← walk root;
  actual ← inventory root found;
  _ ← lift (raise_if (negb (same_names actual (release_names ps))) RuntimeError
              "encoder file inventory does not match pinned release");
  verify_files ps root (sorted_by str_ltb (release_names ps)).

Definition verify_encoder : path -> io E unit := verify_release encoder_pins.
End encoder.

(** ** [clm_runtime.py] *)

Definition CLM_SOURCE : string := "bb42c6c5bf914fd449bed2f6ca65be80602cb1f7".
Definition CLM_HEAD : string := "b2b4a8c9c2d39263eff78a351eb909a342ce9b3bf21a3f07c1d1bf15f1c4eda5".
Definition ARTIFACTS : path := mkPath "/" ["artifacts"].

(** [LocalSession.request]: an encoder exchange stays on the loopback interface and
    follows no redirection. *)
Definition local_request {E A} (request : string -> string -> bool -> io E A) (method url : string) : io E A :=
  if negb (startswith url "http://127.0.0.1:8090/") then lift (raise ValueError "encoder origin must stay loopback")
  else request method url false.

(** [manifest[key] != text]. *)
Definition differs (manifest : json) (key text : string) : result bool :=
  value ← subscript manifest key; Ok (negb (string_is (Some value) text)).

Definition measured_facts (container_digest : string) (torch cuda : json) : list (string * json) :=
  [("container_digest", JStr container_digest); ("container_digest_source", JStr "deployment_host_readback");
   ("head_requires_vllm", JBool false); ("torch_version", torch); ("cuda_version", cuda);
   ("embedding_cache_size", JInt 0); ("action_cache_enabled", JBool false); ("head_device", JStr "cpu");
   ("encoder_content_verified", JBool true);
   ("encoder_identity_basis", JStr "immutable_upstream_git_blobs_and_lfs_sha256")].

(** [{key: value for key, value in manifest.items() if key != "encoder_files"}]. *)
Definition without_files (manifest : list (string * json)) : list (string * json) :=
  List.filter (fun kv => negb (String.eqb (fst kv) "encoder_files")) manifest.

(** [artifact.update(facts)]. *)
Definition updated (artifact facts : list (string * json)) : list (string * json) :=
  fold_left (fun d kv => dict_set (fst kv) (snd kv) d) facts artifact.

(** What the server's parts must be: source, head, encoder. *)
Record server_pins : Type := mkServerPins { sp_source : string; sp_head : string; sp_revision : string; sp_encoder : pins }.

Definition clm_pins : server_pins := mkServerPins CLM_SOURCE CLM_HEAD REVISION encoder_pins.

Section runtime.
Context {E : Type} {files : ReleaseFiles E} (loads_text : string -> result json).

(** [main] up to the artifact it serves; [load_engine] builds the embedder, the engine
    and the application, [environ] is [C3R_CLM_CONTAINER_DIGEST]. *)
Definition pinned_artifact (ps : server_pins) (load_engine : io E unit) (environ : option string) (torch cuda : json)
    : io E (list (string * json)) :=
  text ← content (below ARTIFACTS ["manifest.json"]);
  manifest ← lift (loads_text text);
  source ← content (mkPath "/" ["opt"; "clm"; "source-revision"]);
  other_source ← lift (if negb (String.eqb (strip source) (sp_source ps)) then Ok true
                       else differs manifest "clm_source_revision" (sp_source ps));
  _ ← lift (raise_if other_source RuntimeError "CLM source mismatch");
  head ← content (below ARTIFACTS ["head"; "CLM_v0.1-8B.pt"]);
  let actual_head := sha256_hex head in
  other_head ← lift (if negb (String.eqb actual_head (sp_head ps)) then Ok true
                     else differs manifest "head_sha256" actual_head);
  _ ← lift (raise_if other_head RuntimeError "CLM head mismatch");
  other_encoder ← lift (differs manifest "encoder_revision" (sp_revision ps));
  _ ← lift (raise_if other_encoder RuntimeError "encoder revision mismatch");
  _ ← verify_release (sp_encoder ps) (below ARTIFACTS ["encoder"]);
  _ ← load_engine;
  match manifest with
  | JObj items => mret (updated (without_files items) (measured_facts (default "unattested" environ) torch cuda))
  | _ => lift (raise AttributeError "object has no attribute 'items'")
  end.

Definition clm_artifact : io E unit -> option string -> json -> json -> io E (list (string * json)) :=
  pinned_artifact clm_pins.
End runtime.

(** ** [download_clm_artifacts.py] *)

Definition ENCODER_PATTERNS : list string := ["*.json"; "*.safetensors"; "*.txt"; "*.model"].

Definition downloaded_manifest (head_sha256 : string) (files : list (string * string)) : list (string * json) :=
  [("clm_source_revision", JStr "bb42c6c5bf914fd449bed2f6ca65be80602cb1f7"); ("encoder", JStr "Qwen/Qwen3-8B");
   ("encoder_revision", JStr "b968826d9c46dd6066d109eabc6255188de91218");
   ("head_revision", JStr "e939398d4556fcd9400c76fa8c5a513202f42b0a"); ("head_sha256", JStr head_sha256);
   ("encoder_files", JObj (map (fun kv => (fst kv, JStr (snd kv))) files))].

(** [sorted(root.rglob("*"))]: paths compare by their parts. *)
Fixpoint parts_ltb (a b : list string) : bool :=
  match a, b with
  | _, [] => false
  | [], _ :: _ => true
  | x :: a', y :: b' => str_ltb x y || (String.eqb x y && parts_ltb a' b')
  end.

Section download.
Context {E : Type} {files : ReleaseFiles E}.

Fixpoint digests_of (root : path) (found : list (list string)) : io E (list (string * string)) :=
  match found with
  | [] => mret []
  | parts :: found' =>
      file ← is_file (below root parts);
      if (file : bool) && negb (bool_decide (".cache" ∈ parts_of (below root parts)))
      then text ← content (below root parts);
           rest ← digests_of root found';
           mret ((join "/" parts, sha256_hex text) :: rest)
      else digests_of root found'
  end.

(** [snapshot] and [hub_download] are the two downloads; the manifest the script
    writes. *)
Definition download_artifacts (snapshot : string -> string -> path -> list string -> io E unit)
    (hub_download : string -> string -> string -> path -> io E path) (write_manifest : list (string * json) -> io E unit)
    : io E (list (string * json)) :=
  _ ← snapshot "Qwen/Qwen3-8B" "b968826d9c46dd6066d109eabc6255188de91218" (below ARTIFACTS ["encoder"]) ENCODER_PATTERNS;
  head ← hub_download "Contrastive-LM/CLM-v0.1-8B" "CLM_v0.1-8B.pt" "e939398d4556fcd9400c76fa8c5a513202f42b0a"
           (below ARTIFACTS ["head"]);
  found ← walk (below ARTIFACTS ["encoder"]);
  digests ← digests_of (below ARTIFACTS ["encoder"]) (sorted_by parts_ltb found);
  text ← content head;
  let manifest := downloaded_manifest (sha256_hex text) (dict_of_pairs digests) in
  _ ← write_manifest manifest;
  mret manifest.
End download.

(** ** [attest_encoder.py] *)

Definition ENCODER_IMAGE : string := "sha256:00d577a6a63281e15336029d5bcee4e9a2cf182214a4f20ba6111b1c8e79893d".

Definition endswith (s suffix : string) : bool :=
  Z.leb (len suffix) (len s)
  && String.eqb (String.substring (String.length s - String.length suffix) (String.length suffix) s) suffix.

(** [value[0]]. *)
Definition first_item (j : json) : result json :=
  match j with
  | JArr (x :: _) => Ok x
  | JArr [] => raise IndexError "list index out of range"
  | JStr (String c _) => Ok (JStr (String c EmptyString))
  | JStr EmptyString => raise IndexError "string index out of range"
  | JObj _ => raise KeyError "0"
  | _ => raise TypeError "object is not subscriptable"
  end.

(** What a [for] takes from a value: items, keys or characters. *)
Definition items_of (j : json) : result (list json) :=
  match j with
  | JArr l => Ok l
  | JObj kvs => Ok (map (fun kv => JStr (fst kv)) kvs)
  | JStr s => Ok (map (fun c => JStr (String c EmptyString)) (list_ascii_of_string s))
  | _ => raise TypeError "object is not iterable"
  end.

(** [any(value.endswith("@" + IMAGE) for value in digests)]. *)
Fixpoint approved_digest (digests : list json) : result bool :=
  match digests with
  | [] => Ok false
  | JStr s :: digests' => if endswith s ("@" ++ ENCODER_IMAGE) then Ok true else approved_digest digests'
  | _ => raise AttributeError "object has no attribute 'endswith'"
  end.

(** [arg in args]. *)
Definition has_argument (arg : string) (args : json) : result bool :=
  match args with
  | JArr l => Ok (existsb (fun a => string_is (Some a) arg) l)
  | JObj kvs => Ok (bool_decide (arg ∈ map fst kvs))
  | JStr s => Ok (match String.index 0 arg s with Some _ => true | None => false end)
  | _ => raise TypeError "argument is not iterable"
  end.

(** [[mount for mount in mounts if mount["Destination"] == "/encoder"]]. *)
Fixpoint encoder_mounts (mounts : list json) : result (list json) :=
  match mounts with
  | [] => Ok []
  | mount :: mounts' =>
      destination ← subscript mount "Destination";
      rest ← encoder_mounts mounts';
      Ok (if string_is (Some destination) "/encoder" then mount :: rest else rest)
  end.

Definition process_root (pid : json) : path := mkPath "/" ["proc"; py_str pid; "root"; "encoder"].

Definition attestation (container_id : json) : json :=
  JObj [("encoder_revision", JStr REVISION); ("encoder_container_digest", JStr ENCODER_IMAGE);
        ("encoder_container_id", container_id); ("encoder_content_verified", JBool true);
        ("binding_basis", JStr "host_docker_inspect_and_running_process_mount_hashes")].

(** The process runs the encoder with the approved arguments. *)
Definition serves_encoder (running args : json) : result bool :=
  if negb (truth (Some running)) then Ok false
  else
    encoder ← has_argument "/encoder" args;
    if negb encoder then Ok false
    else pooling ← has_argument "pooling" args;
         if negb pooling then Ok false else has_argument "qwen3-8b" args.

(** The checks on the two inspections; the process they name. *)
Definition inspected (info image : json) : result json :=
  digests ← subscript image "RepoDigests";
  digests ← items_of digests;
  approved ← approved_digest digests;
  _ ← raise_if (negb approved) RuntimeError "encoder container image is not the approved immutable digest";
  config ← subscript info "Config";
  args ← subscript config "Cmd";
  state ← subscript info "State";
  running ← subscript state "Running";
  serving ← serves_encoder running args;
  _ ← raise_if (negb serving) RuntimeError "encoder process configuration mismatch";
  mounts ← subscript info "Mounts";
  mounts ← items_of mounts;
  encoder ← encoder_mounts mounts;
  _ ← match encoder with
      | [mount] => writable ← subscript mount "RW";
                   raise_if (truth (Some writable)) RuntimeError "encoder artifact mount must be read-only"
      | _ => raise RuntimeError "encoder artifact mount must be read-only"
      end;
  subscript state "Pid".

Section attest.
Context {E : Type} {files : ReleaseFiles E} (docker_json : list string -> io E json).

(** [main] of [attest_encoder.py]; [docker_json] is the parsed output of docker. *)
Definition attest_encoder : io E json :=
  listed ← docker_json ["inspect"; "c3r-qwen-encoder"];
  info ← lift (first_item listed);
  image_id ← lift (subscript info "Image");
  images ← docker_json ["image"; "inspect"; py_str image_id];
  image ← lift (first_item images);
  pid ← lift (inspected info image);
  _ ← verify_encoder (process_root pid);
  container_id ← lift (subscript info "Id");
  mret (attestation container_id).
End attest.

(** ** What a verification establishes *)

Section proofs.
Context {E : Type} {files : ReleaseFiles E} (ps : pins).

(** The file was read as an ordinary file with the pinned identity. *)
Definition verified_file (root : path) (name text : string) : Prop :=
  exists e1 e2 e3 header,
    is_symlink (below root [name]) e1 = (Ok false, e2) /\ content (below root [name]) e3 = (Ok text, snd (content (below root [name]) e3))
    /\ (if bool_decide (name ∈ map fst (pn_blobs ps)) then exists size, header = blob_header size else header = "")
    /\ release_digest ps name header text = pinned ps name.

Lemma verify_file_ok root name e e' :
  verify_file ps root name e = (Ok tt, e') -> exists text, verified_file root name text.
Proof.
  unfold verify_file. intros H. apply io_bind_ok in H as (linked & e1 & Hl & H).
  apply io_bind_ok in H as (u & e2 & Hu & H). apply lift_ok in Hu as [Hu ->]. apply raise_if_ok in Hu. subst linked.
  apply io_bind_ok in H as (header & e2 & Hh & H). apply io_bind_ok in H as (text & e3 & Ht & H).
  apply lift_ok in H as [H _]. apply raise_if_ok, negb_false_iff, String.eqb_eq in H.
  exists text, e, e1, e2, header. split; [done|]. split; [by rewrite Ht|]. split; [|done].
  case_bool_decide; [|by injection Hh as <- _]. apply io_bind_ok in Hh as (size & e4 & _ & Hh).
  injection Hh as <- _. by exists size.
Qed.

Lemma verify_files_ok root names : forall e e',
  verify_files ps root names e = (Ok tt, e') -> Forall (fun name => exists text, verified_file root name text) names.
Proof.
  induction names as [|name names IH]; intros e e' H; [constructor|]. cbn [verify_files] in H.
  apply io_bind_ok in H as ([] & e1 & H1 & H). constructor; [by eapply verify_file_ok|by eapply IH].
Qed.
End proofs.

(** A Git header ends at its zero byte, so framed contents determine the contents. *)
Lemma blob_frame_inj size1 size2 text1 text2 :
  blob_header size1 ++ text1 = blob_header size2 ++ text2 -> text1 = text2.
Proof.
  unfold blob_header. rewrite !str_app_assoc. intros H.
  assert (H' : str_of_Z size1 ++ String "000" text1 = str_of_Z size2 ++ String "000" text2).
  { cbn in H. by injection H. }
  assert (Hz : forall n, no_char "000" (str_of_Z n) = true).
  { intros n. unfold no_char. eapply str_forall_impl; [|apply str_of_Z_plain]. intros c Hc.
    destruct (Ascii.eqb_spec "000" c) as [<-|]; [discriminate Hc|done]. }
  apply (str_app_split "000") in H' as [_ H']; auto.
Qed.

(** The hash of a release file. *)
Definition release_hash (ps : pins) (name : string) : string -> string :=
  if bool_decide (name ∈ map fst (pn_lfs ps)) then sha256_hex else sha1_hex.

Lemma verify_release_ok {E} {files : ReleaseFiles E} ps root e e' :
  verify_release ps root e = (Ok tt, e') ->
  (exists e1 found e2 actual, walk root e = (Ok found, e1) /\ inventory root found e1 = (Ok actual, e2)
     /\ same_names actual (release_names ps) = true)
  /\ forall name, name ∈ release_names ps -> exists text, verified_file ps root name text.
Proof.
  unfold verify_release. intros H. apply io_bind_ok in H as (found & e1 & Hw & H).
  apply io_bind_ok in H as (actual & e2 & Hi & H). apply io_bind_ok in H as (u & e3 & Hu & H).
  apply lift_ok in Hu as [Hu ->]. apply raise_if_ok, negb_false_iff in Hu. split; [by exists e1, found, e2, actual|].
  apply verify_files_ok in H. rewrite Forall_forall in H. intros name Hn. apply H.
  rewrite elem_of_sorted_by. exact Hn.
Qed.

(** A verified release is the pinned one.  A verification that succeeds found
    exactly the release's files and read each of them, as an ordinary file, with its
    pinned identity; so what two verifications read under a name, wherever and
    whenever, is the same contents, unless its hash collides on those two. *)
Theorem verified_releases_agree {E1 E2} {files1 : ReleaseFiles E1} {files2 : ReleaseFiles E2} ps root1 root2
    (e1 e1' : E1) (e2 e2' : E2)
    (H1 : verify_release ps root1 e1 = (Ok tt, e1')) (H2 : verify_release ps root2 e2 = (Ok tt, e2')) name
    (Hn : name ∈ release_names ps) :
  exists text1 text2 header1 header2,
    verified_file (files := files1) ps root1 name text1 /\ verified_file (files := files2) ps root2 name text2
    /\ release_hash ps name (header1 ++ text1) = pinned ps name /\ release_hash ps name (header2 ++ text2) = pinned ps name
    /\ (header1 ++ text1 = header2 ++ text2 -> text1 = text2).
Proof.
  destruct (proj2 (verify_release_ok _ _ _ _ H1) name Hn) as (text1 & Hv1).
  destruct (proj2 (verify_release_ok _ _ _ _ H2) name Hn) as (text2 & Hv2).
  pose proof Hv1 as (_ & _ & _ & header1 & _ & _ & Hh1 & Hd1).
  pose proof Hv2 as (_ & _ & _ & header2 & _ & _ & Hh2 & Hd2).
  exists text1, text2, header1, header2. split; [exact Hv1|]. split; [exact Hv2|]. split; [exact Hd1|]. split; [exact Hd2|].
  case_bool_decide.
  - destruct Hh1 as [size1 ->], Hh2 as [size2 ->]. apply blob_frame_inj.
  - by subst.
Qed.

Lemma assoc_without_files k items :
  String.eqb k "encoder_files" = false -> assoc k (without_files items) = assoc k items.
Proof.
  intros Hk. unfold without_files. induction items as [|[k' v] items IH]; [done|]. cbn [List.filter fst].
  destruct (String.eqb_spec k' "encoder_files") as [->|Hne]; cbn [negb assoc].
  - by rewrite Hk.
  - destruct (String.eqb k k'); [done|exact IH].
Qed.

Lemma differs_ok manifest key text : differs manifest key text = Ok false ->
  exists items, manifest = JObj items /\ string_is (assoc key items) text = true.
Proof.
  unfold differs. intros H. apply bind_ok in H as (v & Hv & H). injection H as H. apply negb_false_iff in H.
  destruct manifest as [| | | | | |items]; try discriminate Hv. exists items. split; [done|].
  cbn in Hv. destruct (assoc key items) as [v'|]; [|discriminate Hv]. by injection Hv as ->.
Qed.

(** The host's check of an artifact made from a manifest with these pins. *)
Lemma measured_matches ps digest items container torch cuda :
  string_is (assoc "clm_source_revision" items) (sp_source ps) = true ->
  string_is (assoc "head_sha256" items) (sp_head ps) = true ->
  string_is (assoc "encoder_revision" items) (sp_revision ps) = true ->
  artifact_matches digest (updated (without_files items) (measured_facts container torch cuda))
  = String.eqb (sp_source ps) UPSTREAM_CLM_COMMIT && String.eqb (sp_revision ps) ENCODER_REVISION
    && String.eqb (sp_head ps) HEAD_SHA256
    && (string_is (assoc "encoder" items) "Qwen/Qwen3-8B" && string_is (assoc "head_revision" items) HEAD_REVISION
        && String.eqb container digest).
Proof.
  intros Hs Hh He. unfold artifact_matches, expected_artifact, updated, measured_facts.
  cbn [forallb fold_left fst snd]. rewrite !assoc_dict_set. cbn [String.eqb Ascii.eqb Bool.eqb].
  rewrite !assoc_without_files by reflexivity. cbn [equals_expected equals_int Z.eqb Pos.eqb].
  assert (Hv : forall v pin want, string_is v pin = true ->
            match v with Some (JStr t) => String.eqb t want | _ => false end = String.eqb pin want).
  { intros v pin want Hp. destruct v as [[]|]; try discriminate Hp. cbn in Hp. apply String.eqb_eq in Hp. by subst. }
  rewrite (Hv _ _ _ Hs), (Hv _ _ _ Hh), (Hv _ _ _ He). rewrite String.eqb_refl. cbn [andb]. rewrite andb_true_r.
  unfold string_is. destruct (String.eqb (sp_source ps) _), (String.eqb (sp_revision ps) _), (String.eqb (sp_head ps) _),
    (match assoc "encoder" items with Some _ => _ | None => _ end),
    (match assoc "head_revision" items with Some _ => _ | None => _ end); cbn [andb]; done.
Qed.

(** The identity a ranking server publishes is measured, and it is the identity the
    production host asks for.  The server publishes it only when its source, its head
    and its encoder have the pinned identities; and the host's check of what it
    publishes succeeds exactly when the pins are the host's, the manifest names the
    encoder and the head's revision, and the container digest is the one the host was
    given. *)
Theorem published_identity_is_measured {E} {files : ReleaseFiles E} loads_text ps load_engine environ torch cuda (e : E)
    artifact e' (H : pinned_artifact loads_text ps load_engine environ torch cuda e = (Ok artifact, e')) :
  exists items,
    (exists e1 e2, verify_release (sp_encoder ps) (below ARTIFACTS ["encoder"]) e1 = (Ok tt, e2))
    /\ (exists e1 e2 head, content (below ARTIFACTS ["head"; "CLM_v0.1-8B.pt"]) e1 = (Ok head, e2)
          /\ sha256_hex head = sp_head ps)
    /\ (exists e1 e2 source, content (mkPath "/" ["opt"; "clm"; "source-revision"]) e1 = (Ok source, e2)
          /\ strip source = sp_source ps)
    /\ forall digest, artifact_matches digest artifact
         = String.eqb (sp_source ps) UPSTREAM_CLM_COMMIT && String.eqb (sp_revision ps) ENCODER_REVISION
           && String.eqb (sp_head ps) HEAD_SHA256
           && (string_is (assoc "encoder" items) "Qwen/Qwen3-8B" && string_is (assoc "head_revision" items) HEAD_REVISION
               && String.eqb (default "unattested" environ) digest).
Proof.
  unfold pinned_artifact in H. apply io_bind_ok in H as (text & e1 & Ht & H).
  apply io_bind_ok in H as (manifest & w & Hm & H). apply lift_ok in Hm as [Hm ->].
  apply io_bind_ok in H as (source & e6 & Hs & H). apply io_bind_ok in H as (other & w & Hos & H).
  apply lift_ok in Hos as [Hos ->]. apply io_bind_ok in H as (u & w & Hu & H). apply lift_ok in Hu as [Hu ->].
  apply raise_if_ok in Hu. subst other. apply io_bind_ok in H as (head & e7 & Hh & H). cbv zeta in H.
  apply io_bind_ok in H as (other & w & Hoh & H). apply lift_ok in Hoh as [Hoh ->].
  apply io_bind_ok in H as (u' & w & Hu & H). apply lift_ok in Hu as [Hu ->]. apply raise_if_ok in Hu. subst other.
  apply io_bind_ok in H as (other & w & Hoe & H). apply lift_ok in Hoe as [Hoe ->].
  apply io_bind_ok in H as (u'' & w & Hu & H). apply lift_ok in Hu as [Hu ->]. apply raise_if_ok in Hu. subst other.
  apply io_bind_ok in H as ([] & e8 & Hv & H). apply io_bind_ok in H as (u3 & e9 & _ & H).
  destruct (String.eqb_spec (strip source) (sp_source ps)); [|done]. cbn [negb] in Hos.
  destruct (String.eqb_spec (sha256_hex head) (sp_head ps)) as [Ehead|]; [|done]. cbn [negb] in Hoh.
  apply differs_ok in Hos as (items & -> & Hsrc). apply differs_ok in Hoh as (items' & E1 & Hhead).
  injection E1 as <-. apply differs_ok in Hoe as (items' & E1 & Henc). injection E1 as <-.
  injection H as <- <-. exists items. split; [by exists e7, e8|].
  split; [by exists e6, e7, head|]. split; [by exists e1, e6, source|]. intros digest.
  apply measured_matches; [done| |done]. by rewrite <- Ehead.
Qed.

(** A manifest written by the download names what the host expects. *)
Lemma downloaded_names files head :
  string_is (assoc "encoder" (downloaded_manifest head files)) "Qwen/Qwen3-8B" = true
  /\ string_is (assoc "head_revision" (downloaded_manifest head files)) HEAD_REVISION = true
  /\ string_is (assoc "clm_source_revision" (downloaded_manifest head files)) CLM_SOURCE = true
  /\ string_is (assoc "encoder_revision" (downloaded_manifest head files)) REVISION = true
  /\ CLM_SOURCE = UPSTREAM_CLM_COMMIT /\ CLM_HEAD = HEAD_SHA256 /\ REVISION = ENCODER_REVISION.
Proof. repeat split. Qed.

(** ** A small release *)

(** Files by their parts below a root, at that root. *)
Record tree : Type := mkTree { tr_root : path; tr_files : list (list string * string) }.

Definition tree_content (p : path) (t : tree) : option string :=
  snd <$> find (fun kv => bool_decide (below (tr_root t) (fst kv) = p)) (tr_files t).

#[local] Instance tree_files : ReleaseFiles tree := {|
  walk p t := (Ok (map (fun kv => drop (length (path_tail p) - length (path_tail (tr_root t))) (fst kv))
                    (List.filter (fun kv => bool_decide (take (length (path_tail p)) (path_tail (tr_root t) ++ fst kv)
                                                         = path_tail p)) (tr_files t))), t);
  is_file p t := (Ok (bool_decide (tree_content p t <> None)), t);
  is_symlink _ t := (Ok false, t);
  file_size p t := (match tree_content p t with Some text => Ok (len text) | None => raise OSError "absent" end, t);
  content p t := (match tree_content p t with Some text => Ok text | None => raise OSError "absent" end, t) |}.

Definition small_pins : pins :=
  Eval vm_compute in mkPins [("model", sha256_hex "weights")] [("config.json", git_blob_id "{}")].

Definition server_files : tree :=
  mkTree (mkPath "/" []) [(["artifacts"; "manifest.json"], "M"); (["artifacts"; "encoder"; "model"], "weights");
                          (["artifacts"; "encoder"; "config.json"], "{}");
                          (["artifacts"; "head"; "CLM_v0.1-8B.pt"], "head");
                          (["opt"; "clm"; "source-revision"], "source" ++ line_feed)].

Definition small_server : server_pins :=
  Eval vm_compute in mkServerPins "source" (sha256_hex "head") "revision" small_pins.

Definition small_manifest (_ : string) : result json :=
  Ok (JObj [("clm_source_revision", JStr "source"); ("head_sha256", JStr (sp_head small_server));
            ("encoder_revision", JStr "revision"); ("encoder_files", JObj [])]).

Lemma verified_releases_agree_witness :
  exists text1 text2 header1 header2,
    verified_file small_pins (below ARTIFACTS ["encoder"]) "model" text1
    /\ verified_file small_pins (below ARTIFACTS ["encoder"]) "model" text2
    /\ (header1 ++ text1 = header2 ++ text2 -> text1 = text2).
Proof.
  destruct (verified_releases_agree small_pins (below ARTIFACTS ["encoder"]) (below ARTIFACTS ["encoder"])
    server_files server_files server_files server_files) with (name := "model")
    as (text1 & text2 & header1 & header2 & H1 & H2 & _ & _ & H3); [vm_compute; reflexivity..|left|].
  by exists text1, text2, header1, header2.
Defined.

Lemma published_identity_is_measured_witness :
  match pinned_artifact small_manifest small_server (mret tt) (Some "sha256:d") JNull JNull server_files with
  | (Ok artifact, _) => exists items : list (string * json), forall digest, artifact_matches digest artifact
      = false && (string_is (assoc "encoder" items) "Qwen/Qwen3-8B"
                  && string_is (assoc "head_revision" items) HEAD_REVISION && String.eqb "sha256:d" digest)
  | _ => False
  end.
Proof.
  destruct (pinned_artifact small_manifest small_server (mret tt) (Some "sha256:d") JNull JNull server_files)
    as [[artifact|x] e'] eqn:E; [|vm_compute in E; discriminate E].
  destruct (published_identity_is_measured _ _ _ _ _ _ _ _ _ E) as (items & _ & _ & _ & H).
  exists items. exact H.
Defined.

(** One changed byte of a file of either kind, or a file too many, is refused. *)
Example other_releases_are_refused :
  let verify files := fst (verify_release small_pins (mkPath "/" ["e"]) (mkTree (mkPath "/" ["e"]) files)) in
  verify [(["model"], "weights"); (["config.json"], "{}"); ([".cache"; "x"], "")] = Ok tt
  /\ verify [(["model"], "Weights"); (["config.json"], "{}")] <> Ok tt
  /\ verify [(["model"], "weights"); (["config.json"], "{ }")] <> Ok tt
  /\ verify [(["model"], "weights"); (["config.json"], "{}"); (["notes"], "")] <> Ok tt.
Proof. by vm_compute. Qed.
