(* ===== verification/EnvFile.v ===== *)
(** * Environment files of the deployment

    The candidate's settings are kept as lines [KEY=value].  The scripts write them
    ([replace_private_candidate.py], [start_private_core.py]) and read them back
    ([drill_private_core.py], [measure_private_core.py], [probe_private_core.py]);
    [deploy/deepseek-v41/launch.py] reads its own kind, with comments and without
    duplicates. *)

From Stdlib Require Import Lia ZArith Ascii String.
From stdpp Require Import base option strings list.
From S2P Require Import Prelude PyStr Json JsonText.

Local Open Scope string_scope.

(** [line.split("=", 1)]: the part after the first "=", if there is one. *)
Fixpoint split_equals (line : string) : string * option string :=
  match line with
  | EmptyString => ("", None)
  | String c rest =>
      if Ascii.eqb c "=" then ("", Some rest)
      else let '(key, value) := split_equals rest in (String c key, value)
  end.

(** An item of [dict(...)], which wants two parts. *)
Definition env_item (line : string) : result (string * string) :=
  match split_equals line with
  | (key, Some value) => Ok (key, value)
  | _ => raise ValueError "dictionary update sequence element has length 1; 2 is required"
  end.

(** [dict(line.split("=", 1) for line in text.splitlines())]. *)
Definition env_of_text (text : string) : result (list (string * string)) :=
  dict_of_pairs <$> mapR env_item (splitlines text).

Definition env_line (kv : string * string) : string := fst kv ++ "=" ++ snd kv.

(** ["".join(f"{key}={value}\n" for key, value in config.items())]. *)
Definition env_text (config : list (string * string)) : string :=
  String.concat "" (map (fun kv => env_line kv ++ line_feed) config).

(** [load_config] of the DeepSeek launcher. *)
Definition load_step (values : list (string * string)) (line : string) : result (list (string * string)) :=
  if negb (nonempty line) || startswith line "#" then Ok values
  else match split_equals line with
       | (_, None) => raise ValueError "not enough values to unpack (expected 2, got 1)"
       | (key, Some value) =>
           if bool_decide (key ∈ map fst values) then raise ValueError "duplicate canonical setting"
           else Ok (dict_set key value values)
       end.

Definition load_config (text : string) : result (list (string * string)) := foldR load_step [] (splitlines text).

(** ** Properties *)

(** No line break and no "=" in the key, no line break in the value. *)
Definition env_ok (kv : string * string) : bool :=
  one_line (fst kv) && one_line (snd kv) && no_char "=" (fst kv).

Lemma split_equals_line key value : no_char "=" key = true -> split_equals (key ++ String "=" value) = (key, Some value).
Proof.
  induction key as [|c key IH]; [done|]. unfold no_char in *. cbn [str_forall String.append split_equals].
  intros H. apply andb_true_iff in H as [Hc Hk]. apply negb_true_iff in Hc.
  rewrite (Ascii.eqb_sym c), Hc. by rewrite IH.
Qed.

Lemma env_item_line kv : env_ok kv = true -> env_item (env_line kv) = Ok kv.
Proof.
  destruct kv as [key value]. unfold env_ok, env_item, env_line. intros H. bool_hyps. cbn [fst snd] in *.
  change (key ++ "=" ++ value) with (key ++ String "=" value). by rewrite split_equals_line.
Qed.

Lemma env_line_one kv : env_ok kv = true -> one_line (env_line kv) = true.
Proof.
  unfold env_ok, env_line, one_line. intros H. bool_hyps. by repeat apply str_forall_append.
Qed.

Lemma env_lines config : Forall (fun kv => env_ok kv = true) config -> splitlines (env_text config) = map env_line config.
Proof.
  unfold env_text. induction 1 as [|kv config Hkv H IH]; [done|]. cbn [map].
  assert (E : String.concat "" ((env_line kv ++ line_feed) :: map (fun kv => env_line kv ++ line_feed) config)
              = env_line kv ++ String "010" (String.concat "" (map (fun kv => env_line kv ++ line_feed) config))).
  { destruct config as [|kv' config]; cbn [map String.concat]; [done|].
    rewrite str_app_assoc. done. }
  rewrite E, splitlines_cons by by apply env_line_one. by rewrite IH.
Qed.

Lemma env_items config :
  Forall (fun kv => env_ok kv = true) config -> mapR env_item (map env_line config) = Ok config.
Proof.
  induction 1 as [|kv config Hkv H IH]; [done|]. cbn [map mapR]. rewrite env_item_line by done. cbn. by rewrite IH.
Qed.

(** Settings written to an environment file are the settings read from it: keys
    without "=", and keys and values that are single lines, come back as they were,
    in their order. *)
Theorem env_round_trip config :
  NoDup (map fst config) -> Forall (fun kv => env_ok kv = true) config ->
  env_of_text (env_text config) = Ok config.
Proof.
  intros Hn H. unfold env_of_text. rewrite env_lines, env_items by done. cbn.
  by rewrite dict_of_pairs_nodup.
Qed.

Lemma env_round_trip_witness :
  env_of_text (env_text [("C3R_MODE", "production_inference"); ("TOKEN", "a=b==")])
  = Ok [("C3R_MODE", "production_inference"); ("TOKEN", "a=b==")].
Proof.
  apply env_round_trip; [|repeat constructor]. apply (bool_decide_eq_true_1 _). reflexivity.
Defined.

(** A canonical setting is read once. *)
Theorem load_config_distinct text config : load_config text = Ok config -> NoDup (map fst config).
Proof.
  unfold load_config. assert (Hn : NoDup (map (fst (A := string) (B := string)) [])) by constructor.
  revert Hn. generalize (@nil (string * string)) as values. induction (splitlines text) as [|line lines IH];
    intros values Hn H; cbn [foldR] in H; [by injection H as <-|].
  apply bind_ok in H as (values' & Hs & H). apply (IH values'); [|done]. unfold load_step in Hs.
  destruct (_ || _) in Hs; [by injection Hs as <-|]. destruct (split_equals line) as [key [value|]]; [|done].
  destruct (bool_decide_reflect (key ∈ map fst values)); [done|]. injection Hs as <-.
  rewrite dict_set_fresh, map_app by done. apply NoDup_app. split; [done|]. split; [|apply NoDup_singleton].
  intros x Hx Hk. cbn in Hk. apply list_elem_of_singleton in Hk as ->. done.
Qed.
