(* ===== verification/StoreFiles.v ===== *)
(** * Opening the stores' files

    What the constructors of [SqliteTraceLedger], [GovernedTraceStore] and
    [AccessStore] do before a store answers: the checks of the path, the private
    creation of the file, the check of its mode, the connection and its schema, and
    the verification of the chain found in it.  The file system and SQLite are seen
    through [StoreFileHost]; [TraceLedger], [GovernedStore] and [Access] model the
    stores themselves. *)

From Stdlib Require Import Lia ZArith Ascii String.
From stdpp Require Import base option strings gmap list.
From S2P Require Import Prelude Effects PyStr PySort LocalArtifacts TraceLedger Access GovernedStore.

Local Open Scope string_scope.

(** [sf_create] is [os.open] with [O_CREAT | O_EXCL | O_WRONLY] and mode 0600; a stat
    is the owner and the mode; [sq_execute] a statement of the connection and
    [sq_records], [sq_tables] what its queries find afterwards. *)
Class StoreFileHost (E : Type) : Type := {
  sf_posix : bool;
  sf_euid : Z;
  sf_view : path -> io E path_view;
  sf_parent_is_dir : path -> io E bool;
  sf_is_symlink : path -> io E bool;
  sf_exists : path -> io E bool;
  sf_is_file : path -> io E bool;
  sf_create : path -> io E Z;
  sf_close : Z -> io E unit;
  sf_stat : path -> io E (Z * Z);
  sq_connect : path -> io E unit;
  sq_execute : string -> io E unit;
  sq_records : io E (list (Z * LedgerRecord));
  sq_tables : io E GovDb;
  sq_commit : io E unit;
  sq_close : io E unit }.

Definition LEDGER_SCHEMA : list string :=
  ["PRAGMA journal_mode=WAL"; "PRAGMA synchronous=FULL";
   "CREATE TABLE IF NOT EXISTS records (sequence INTEGER PRIMARY KEY AUTOINCREMENT, previous_hash TEXT NOT NULL, "
   ++ "record_hash TEXT NOT NULL, canonical_json TEXT NOT NULL)"].

Definition STORE_SCHEMA : list string :=
  ["PRAGMA journal_mode=DELETE"; "PRAGMA synchronous=FULL"; "PRAGMA secure_delete=ON";
   "CREATE TABLE IF NOT EXISTS metadata (id INTEGER PRIMARY KEY CHECK(id=1), checkpoint_hash TEXT NOT NULL, "
   ++ "last_collected_at TEXT NOT NULL)";
   "INSERT OR IGNORE INTO metadata (id, checkpoint_hash, last_collected_at) VALUES (1, ?, '')";
   "CREATE TABLE IF NOT EXISTS records (sequence INTEGER PRIMARY KEY AUTOINCREMENT, run_id TEXT NOT NULL UNIQUE, "
   ++ "collected_at TEXT NOT NULL, previous_hash TEXT NOT NULL, record_hash TEXT NOT NULL, canonical_json TEXT NOT NULL)";
   "CREATE TABLE IF NOT EXISTS purge_audit (sequence INTEGER PRIMARY KEY AUTOINCREMENT, purged_at TEXT NOT NULL, "
   ++ "record_count INTEGER NOT NULL, checkpoint_hash TEXT NOT NULL)"].

Definition CONNECTION_PRAGMAS : list string :=
  ["PRAGMA foreign_keys=ON"; "PRAGMA synchronous=FULL"; "PRAGMA busy_timeout=5000"].

(** Group or others have some access. *)
Definition shared_mode (mode : Z) : bool := negb (Z.eqb (Z.land mode 0x3f) 0).

Section stores.
Context {E : Type} {host : StoreFileHost E}.

Fixpoint execute_all (statements : list string) : io E unit :=
  match statements with
  | [] => mret tt
  | statement :: rest => _ ← sq_execute statement; execute_all rest
  end.

(** [not path.parent.is_dir() or path.is_symlink()]. *)
Definition misplaced_store (p : path) : io E bool :=
  there ← sf_parent_is_dir p;
  if negb there then mret true else sf_is_symlink p.

Definition create_if_absent (p : path) : io E unit :=
  present ← sf_exists p;
  if present : bool then mret tt
  else descriptor ← sf_create p; sf_close descriptor.

(** [stat.S_IMODE(path.stat().st_mode) & 0o077], on POSIX. *)
Definition refuse_shared (p : path) (message : string) : io E unit :=
  if sf_posix
  then facts ← sf_stat p; lift (raise_if (shared_mode (Z.land (snd facts) 0xfff)) ValueError message)
  else mret tt.

(** [SqliteTraceLedger.__init__]. *)
Definition open_ledger (p : path) : io E database :=
  refused ← misplaced_store p;
  _ ← lift (raise_if refused ValueError "ledger parent must exist and path must not be a symlink");
  _ ← create_if_absent p;
  _ ← refuse_shared p "ledger file must not be accessible to group or other users";
  _ ← sq_connect p;
  _ ← execute_all LEDGER_SCHEMA;
  rows ← sq_records;
  ok ← lift (verify_chain (sqlite_records (mkDb rows None)));
  if negb (ok : bool) then _ ← sq_close; lift (raise ValueError "persisted trace ledger hash chain is invalid")
  else mret (mkDb rows None).

(** [GovernedTraceStore.__init__]: its grants by source and its tables. *)
Definition open_governed (p : path) (grants : list SourceGrant) : io E (gmap string SourceGrant * GovDb) :=
  refused ← misplaced_store p;
  _ ← lift (raise_if refused ValueError "store parent must exist and path must not be a symlink");
  _ ← lift (raise_if (bool_decide (grants = []) || negb (bool_decide (NoDup (map gr_source_id grants)))) ValueError
              "unique approved sources are required");
  _ ← create_if_absent p;
  _ ← refuse_shared p "store file must not be accessible to group or other users";
  _ ← sq_connect p;
  _ ← execute_all STORE_SCHEMA;
  tables ← sq_tables;
  ok ← lift (verify tables);
  if negb (ok : bool) then _ ← sq_close; lift (raise ValueError "governed trace hash chain is invalid")
  else mret (list_to_map (map (fun g => (gr_source_id g, g)) grants), tables).

(** [path.stat().st_uid != os.geteuid() or path.stat().st_mode & 0o077]. *)
Definition unsafe_owner_or_mode (p : path) : io E bool :=
  owner ← sf_stat p;
  if negb (Z.eqb (fst owner) sf_euid) then mret true
  else facts ← sf_stat p; mret (shared_mode (snd facts)).

(** [AccessStore.connect] around a body: the pragmas, the transaction, the closing. *)
Definition with_connection (p : path) (body : io E unit) : io E unit :=
  _ ← sq_connect p;
  io_finally (_ ← execute_all CONNECTION_PRAGMAS; _ ← body; sq_commit) sq_close.

(** [AccessStore.__init__]; [schema] is its script. *)
Definition open_access_store (schema : string) (p : path) : io E unit :=
  view ← sf_view p;
  _ ← lift (validate_path view);
  _ ← create_if_absent p;
  file ← sf_is_file p;
  _ ← lift (raise_if (negb (file : bool)) ValueError "access database must be a regular file");
  unsafe ← (if sf_posix then unsafe_owner_or_mode p else mret false);
  _ ← lift (raise_if unsafe ValueError "access database ownership/mode unsafe");
  with_connection p (sq_execute schema).
End stores.

(** ** What an opened store rests on *)

Lemma shared_permissions mode : shared_mode (Z.land mode 0xfff) = shared_mode mode.
Proof. unfold shared_mode. by rewrite <- Z.land_assoc. Qed.

Section proofs.
Context {E : Type} {host : StoreFileHost E}.

(** The connection was made right after the file's mode had been found private. *)
Definition connected_privately (p : path) : Prop :=
  exists e e1 e2, sq_connect p e1 = (Ok tt, e2)
    /\ (sf_posix = true -> exists uid mode, sf_stat p e = (Ok (uid, mode), e1) /\ shared_mode mode = false).

Definition not_linked (p : path) : Prop :=
  exists e e1 e2 e3, sf_parent_is_dir p e = (Ok true, e1) /\ sf_is_symlink p e2 = (Ok false, e3).

Lemma placed_store p e e' : misplaced_store p e = (Ok false, e') -> not_linked p.
Proof.
  unfold misplaced_store. intros H. apply io_bind_ok in H as (there & e1 & Hd & H). destruct there; [|done].
  by exists e, e1, e1, e'.
Qed.

Lemma refused_shared p message e e1 e2 :
  refuse_shared p message e = (Ok tt, e1) -> sq_connect p e1 = (Ok tt, e2) -> connected_privately p.
Proof.
  unfold refuse_shared. intros H Hc. exists e, e1, e2. split; [done|]. intros Hp. rewrite Hp in H.
  apply io_bind_ok in H as ([uid mode] & e3 & Hs & H). apply lift_ok in H as [H ->]. apply raise_if_ok in H.
  cbn [snd] in H. rewrite shared_permissions in H. by exists uid, mode.
Qed.

(** A ledger that opens lies at a plain path in an existing directory, was private when
    it was connected to, and holds a valid chain. *)
Theorem opened_ledger_is_private p e d e' : open_ledger p e = (Ok d, e') ->
  not_linked p /\ connected_privately p /\ valid (sqlite_records d) /\ db_pending d = None.
Proof.
  unfold open_ledger. intros H. apply io_bind_ok in H as (refused & e1 & Hr & H).
  apply io_bind_ok in H as (u & w & Hu & H). apply lift_ok in Hu as [Hu ->]. apply raise_if_ok in Hu. subst refused.
  apply io_bind_ok in H as (u1 & e2 & _ & H). apply io_bind_ok in H as ([] & e3 & Hm & H).
  apply io_bind_ok in H as ([] & e4 & Hc & H). apply io_bind_ok in H as (u2 & e5 & _ & H).
  apply io_bind_ok in H as (rows & e6 & _ & H). apply io_bind_ok in H as (ok & w & Hok & H).
  apply lift_ok in Hok as [Hok ->]. destruct ok; cbn [negb] in H.
  - injection H as <- _. split; [by eapply placed_store|]. split; [by eapply refused_shared|done].
  - apply io_bind_ok in H as (u3 & e7 & _ & H). done.
Qed.

(** A governed store that opens has distinct approved sources, was private when it was
    connected to, and its tables verify. *)
Theorem opened_governed_store_is_private p grants e sources tables e' :
  open_governed p grants e = (Ok (sources, tables), e') ->
  not_linked p /\ connected_privately p /\ verify tables = Ok true
  /\ grants <> [] /\ open_store grants tables = Ok sources.
Proof.
  unfold open_governed. intros H. apply io_bind_ok in H as (refused & e1 & Hr & H).
  apply io_bind_ok in H as (u & w & Hu & H). apply lift_ok in Hu as [Hu ->]. apply raise_if_ok in Hu. subst refused.
  apply io_bind_ok in H as (u0 & w & Hg & H). apply lift_ok in Hg as [Hg ->]. apply raise_if_ok in Hg.
  apply io_bind_ok in H as (u1 & e2 & _ & H). apply io_bind_ok in H as ([] & e3 & Hm & H).
  apply io_bind_ok in H as ([] & e4 & Hc & H). apply io_bind_ok in H as (u2 & e5 & _ & H).
  apply io_bind_ok in H as (found & e6 & _ & H). apply io_bind_ok in H as (ok & w & Hok & H).
  apply lift_ok in Hok as [Hok ->]. destruct ok; cbn [negb] in H.
  - injection H as <- <- _. split; [by eapply placed_store|]. split; [by eapply refused_shared|]. split; [done|].
    unfold open_store. rewrite Hg, Hok. cbn [mbind result_bind negb]. split; [|done].
    intros ->. rewrite bool_decide_eq_true_2 in Hg; done.
  - apply io_bind_ok in H as (u3 & e7 & _ & H). done.
Qed.

(** A credential store that opens passed the checks of its path, is a regular file, and
    was its operator's own and private when it was connected to. *)
Theorem opened_access_store_is_private schema p e e' : open_access_store schema p e = (Ok tt, e') ->
  (exists e1 e2 view, sf_view p e1 = (Ok view, e2) /\ validate_path view = Ok tt)
  /\ (exists e1 e2, sf_is_file p e1 = (Ok true, e2)) /\ connected_privately p.
Proof.
  unfold open_access_store. intros H. apply io_bind_ok in H as (view & e1 & Hv & H).
  apply io_bind_ok in H as ([] & w & Hu & H). apply lift_ok in Hu as [Hu ->].
  apply io_bind_ok in H as (u1 & e2 & _ & H). apply io_bind_ok in H as (file & e3 & Hf & H).
  apply io_bind_ok in H as (u2 & w & Hu2 & H). apply lift_ok in Hu2 as [Hu2 ->].
  apply raise_if_ok, negb_false_iff in Hu2. subst file. apply io_bind_ok in H as (unsafe & e4 & Hs & H).
  apply io_bind_ok in H as (u3 & w & Hu3 & H). apply lift_ok in Hu3 as [Hu3 ->]. apply raise_if_ok in Hu3. subst unsafe.
  unfold with_connection in H. apply io_bind_ok in H as ([] & e5 & Hc & _).
  split; [by exists e, e1, view|]. split; [by exists e2, e3|].
  assert (Hp : sf_posix = true -> exists w1 uid mode, sf_stat p w1 = (Ok (uid, mode), e4) /\ shared_mode mode = false).
  { intros Hx. rewrite Hx in Hs. unfold unsafe_owner_or_mode in Hs. apply io_bind_ok in Hs as (owner & w1 & _ & Hs).
    destruct (negb _); [done|]. apply io_bind_ok in Hs as ([uid mode] & w2 & Hst & Hs). injection Hs as Hs ->.
    by exists w1, uid, mode. }
  destruct sf_posix eqn:Ex.
  - destruct (Hp eq_refl) as (w1 & uid & mode & Hst & Hsh). exists w1, e4, e5. split; [done|]. intros _.
    by exists uid, mode.
  - exists e4, e4, e5. split; [done|]. by rewrite Ex.
Qed.
End proofs.

(** A file of this mode, of user 1000, with these records in it. *)
Definition one_file (mode : Z) (rows : list (Z * LedgerRecord)) : StoreFileHost (list string) := {|
  sf_posix := true;
  sf_euid := 1000;
  sf_view p e := (Ok (mkPathView true true [false] true 1000 [(1000%Z, 0x1c0%Z)]), e);
  sf_parent_is_dir p e := (Ok true, e);
  sf_is_symlink p e := (Ok false, e);
  sf_exists p e := (Ok true, e);
  sf_is_file p e := (Ok true, e);
  sf_create p e := (raise OSError "File exists", e);
  sf_close d e := (Ok tt, e);
  sf_stat p e := (Ok (1000%Z, mode), e);
  sq_connect p e := (Ok tt, (e ++ ["connect"])%list);
  sq_execute s e := (Ok tt, e);
  sq_records e := (Ok rows, e);
  sq_tables e := (Ok fresh_store, e);
  sq_commit e := (Ok tt, (e ++ ["commit"])%list);
  sq_close e := (Ok tt, (e ++ ["close"])%list) |}.

(** A shared file is never connected to; a chain that does not verify is closed. *)
Example stores_open :
  let p := mkPath "/" ["var"; "c3r.sqlite"] in
  let grants := [mkGrant "src" "owner" {["task"]} true] in
  let bad := [(1%Z, mkRecord "previous" "hash" "{}")] in
  open_ledger (host := one_file 0x8180 []) p [] = (Ok (mkDb [] None), ["connect"])
  /\ open_ledger (host := one_file 0x81a4 []) p []
     = (raise ValueError "ledger file must not be accessible to group or other users", [])
  /\ open_ledger (host := one_file 0x8180 bad) p []
     = (raise ValueError "persisted trace ledger hash chain is invalid", ["connect"; "close"])
  /\ is_ok (fst (open_governed (host := one_file 0x8180 []) p grants [])) = true
  /\ open_governed (host := one_file 0x8180 []) p [] [] = (raise ValueError "unique approved sources are required", [])
  /\ open_access_store (host := one_file 0x8180 []) "schema" p [] = (Ok tt, ["connect"; "commit"; "close"])
  /\ open_access_store (host := one_file 0x8190 []) "schema" p [] = (raise ValueError "access database ownership/mode unsafe", []).
Proof. vm_compute. by repeat split. Qed.
