(* ===== verification/Rollout.v ===== *)
(** * Private candidate rollout and drills ([scripts/replace_private_candidate.py],
      [scripts/drill_private_core.py], [scripts/start_private_core.py])

    The deployment host is an interface: the docker command, the clock, the candidate's
    readiness endpoint and the settings files.  [containers] is what docker holds; the
    laws say what a successful docker command does to it and what a failing one may
    have done.  The scripts' local lists and their printed documents live next to the
    host's own state. *)

From Stdlib Require Import Lia ZArith Ascii String.
From stdpp Require Import base option strings gmap list.
From S2P Require Import Prelude Effects PyStr PyFloat Json EnvFile.

Local Open Scope string_scope.

(** ** The host *)

Record container : Type := mkContainer { ct_id : Z; ct_image : string; ct_running : bool }.

#[export] Instance container_eq_dec : EqDecision container.
Proof. solve_decision. Defined.

Definition stopped (c : container) : container := mkContainer (ct_id c) (ct_image c) false.
Definition started (c : container) : container := mkContainer (ct_id c) (ct_image c) true.

(** [docker args] is the command's output without the surrounding white space;
    [probe] is the status of a request, the client's exceptions as [OSError]. *)
Class DeploymentHost (E : Type) : Type := {
  docker : list string -> io E string;
  containers : E -> gmap string container;
  clock : io E float;
  sleep : Z -> io E unit;
  probe : string -> option json -> string -> io E Z;
  config_exists : string -> io E bool;
  config_read : string -> io E string;
  config_create : string -> string -> io E unit }.

Definition stop_command (name : string) : list string := ["stop"; "--time"; "10"; name].
Definition rename_command (old new : string) : list string := ["rename"; old; new].
Definition start_command (name : string) : list string := ["start"; name].
Definition inspect_command (reference : string) : list string :=
  ["image"; "inspect"; reference; "--format"; "{{.Id}}"].

(** [docker run -d --name name options... image]. *)
Definition run_command (name : string) (options : list string) (image : string) : list string :=
  (["run"; "-d"; "--name"; name] ++ options ++ [image])%list.

(** What docker documents of these commands.  One that fails changes nothing, but
    [run] may leave the container created and not running. *)
Class DockerLaws (E : Type) `{!DeploymentHost E} : Prop := {
  dl_stop name e r e' : docker (stop_command name) e = (r, e') ->
    match r with
    | Ok _ => exists c, containers e !! name = Some c /\ containers e' = <[name := stopped c]> (containers e)
    | Raise _ => containers e' = containers e
    end;
  dl_start name e r e' : docker (start_command name) e = (r, e') ->
    match r with
    | Ok _ => exists c, containers e !! name = Some c /\ containers e' = <[name := started c]> (containers e)
    | Raise _ => containers e' = containers e
    end;
  dl_rename old new e r e' : docker (rename_command old new) e = (r, e') ->
    match r with
    | Ok _ => exists c, containers e !! old = Some c /\ containers e !! new = None
                /\ containers e' = <[new := c]> (delete old (containers e))
    | Raise _ => containers e' = containers e
    end;
  dl_run name options image e r e' : docker (run_command name options image) e = (r, e') ->
    match r with
    | Ok _ => exists c, containers e !! name = None /\ ct_image c = image /\ ct_running c = true
                /\ containers e' = <[name := c]> (containers e)
    | Raise _ => containers e' = containers e
                 \/ exists c, containers e !! name = None /\ ct_running c = false
                              /\ containers e' = <[name := c]> (containers e)
    end;
  dl_inspect reference e r e' : docker (inspect_command reference) e = (r, e') -> containers e' = containers e;
  dl_clock e r e' : clock e = (r, e') -> containers e' = containers e;
  dl_sleep n e r e' : sleep n e = (r, e') -> containers e' = containers e;
  dl_probe path body token e r e' : probe path body token e = (r, e') -> containers e' = containers e;
  dl_exists name e r e' : config_exists name e = (r, e') -> containers e' = containers e;
  dl_read name e r e' : config_read name e = (r, e') -> containers e' = containers e;
  dl_create name text e r e' : config_create name text e = (r, e') -> containers e' = containers e }.

(** ** [replace_private_candidate.py] *)

(** The script's lists and what it printed. *)
Record script : Type := mkScript { sc_moved : list string; sc_started : list string; sc_printed : list json }.

Definition begin_script : script := mkScript [] [] [].

Section replace.
Context {E : Type} {host : DeploymentHost E}.

Definition add_moved (name : string) : io (script * E) unit := fun '(s, e) =>
  (Ok tt, (mkScript (sc_moved s ++ [name])%list (sc_started s) (sc_printed s), e)).
Definition add_started (name : string) : io (script * E) unit := fun '(s, e) =>
  (Ok tt, (mkScript (sc_moved s) (sc_started s ++ [name])%list (sc_printed s), e)).
Definition print_json (j : json) : io (script * E) unit := fun '(s, e) =>
  (Ok tt, (mkScript (sc_moved s) (sc_started s) (sc_printed s ++ [j])%list, e)).
Definition moved_names : io (script * E) (list string) := fun s => (Ok (sc_moved (fst s)), s).
Definition started_names : io (script * E) (list string) := fun s => (Ok (sc_started (fst s)), s).

Fixpoint each {W A} (f : A -> io W unit) (l : list A) : io W unit :=
  match l with
  | [] => mret tt
  | x :: l' => _ ← f x; each f l'
  end.

(** [try: m except BaseException: handler; raise]. *)
Definition reraising {W A} (m : io W A) (handler : io W unit) : io W A := fun w =>
  match m w with
  | (Ok a, w') => (Ok a, w')
  | (Raise x, w') => match handler w' with
                     | (Ok _, w'') => (Raise x, w'')
                     | (Raise x', w'') => (Raise x', w'')
                     end
  end.

Definition CORE : string := "c3r-core-private".
Definition CLM : string := "c3r-clm".
Definition before (name : string) : string := name ++ "-before-v3".
Definition failed (name : string) : string := name ++ "-failed-v3".

Definition setting (config : list (string * string)) (key : string) : result string :=
  match assoc key config with Some v => Ok v | None => raise KeyError key end.

(** Only settings of non-collecting private inference are replaced. *)
Definition replaceable (config : list (string * string)) : bool :=
  bool_decide (assoc "C3R_INGRESS_HOST" config = Some "127.0.0.1")
  && bool_decide (assoc "C3R_TRACE_COLLECTION" config = Some "false")
  && bool_decide (assoc "C3R_ONLINE_LEARNING" config = Some "false").

Definition clm_options (clm_image : string) : list string :=
  ["--network"; "host"; "--read-only"; "--tmpfs"; "/tmp:rw,size=256m"; "-v"; "/mnt/c3r-models/c3r-clm:/artifacts:ro";
   "-e"; "C3R_CLM_CONTAINER_DIGEST=" ++ clm_image].

Definition core_options (env_file : string) : list string :=
  ["--network"; "host"; "--env-file"; env_file; "--read-only"; "--cap-drop"; "ALL"; "--security-opt";
   "no-new-privileges"; "--pids-limit"; "128"; "--memory"; "512m"; "--cpus"; "2"].

Definition ready_json (core_image clm_image : string) : json :=
  JObj [("status", JStr "private_candidate_ready"); ("core_image", JStr core_image); ("clm_image", JStr clm_image);
        ("trace_collection", JBool false); ("public_access", JBool false)].

Definition restored_json : json := JObj [("status", JStr "previous_private_candidate_restored")].

Definition set_aside (name : string) : io (script * E) unit :=
  _ ← beside (docker (stop_command name));
  _ ← beside (docker (rename_command name (before name)));
  add_moved name.

(** The readiness loop, at most [fuel] turns of it: true once ready, [None] when the
    turns are used up. *)
Fixpoint await_ready (fuel : nat) (config : list (string * string)) (deadline : float) : io (script * E) (option bool) :=
  match fuel with
  | O => mret None
  | S f =>
      now ← beside clock;
      if negb (flt now deadline) then mret (Some false)
      else
        token ← lift (setting config "C3R_CLIENT_TOKEN");
        ready ← io_try (status ← beside (probe "/ready" None token); mret (Z.eqb status 200)) [OSError]
                  (fun _ => mret false);
        if (ready : bool) then mret (Some true)
        else _ ← beside (sleep 3); await_ready f config deadline
  end.

(** The containers exchanged and the new ones started; the deadline of their
    readiness. *)
Definition launch (current : string) (clm_image core_image : string) : io (script * E) float :=
  _ ← each set_aside [CORE; CLM];
  _ ← beside (docker (run_command CLM (clm_options clm_image) clm_image));
  _ ← add_started CLM;
  _ ← beside (docker (run_command CORE (core_options current) core_image));
  _ ← add_started CORE;
  begun ← beside clock;
  mret (fadd begun (float_of_Z 120)).

(** The [try] body; [None] when the readiness loop has turns left to take. *)
Definition roll_forward (fuel : nat) (current : string) (config : list (string * string)) (clm_image core_image : string)
    : io (script * E) (option unit) :=
  deadline ← launch current clm_image core_image;
  ready ← await_ready fuel config deadline;
  match ready with
  | None => mret None
  | Some true => _ ← print_json (ready_json core_image clm_image); mret (Some tt)
  | Some false => lift (raise RuntimeError "private candidate readiness deadline exceeded")
  end.

Definition discard (name : string) : io (script * E) unit :=
  _ ← beside (docker (stop_command name));
  _ ← beside (docker (rename_command name (failed name)));
  mret tt.

Definition put_back (name : string) : io (script * E) unit :=
  _ ← beside (docker (rename_command (before name) name));
  _ ← beside (docker (start_command name));
  mret tt.

(** The [except] clause. *)
Definition roll_back : io (script * E) unit :=
  new ← started_names;
  _ ← each discard (rev new);
  old ← moved_names;
  _ ← each put_back (rev old);
  print_json restored_json.

(** What precedes the [try]: the settings and the two images. *)
Definition prepare_rollout (previous current : string) : io (script * E) (list (string * string) * string * string) :=
  present ← beside (config_exists current);
  _ ← lift (raise_if present RuntimeError "v3 config exists; do not implicitly rotate or replace");
  text ← beside (config_read previous);
  config ← lift (env_of_text text);
  _ ← lift (raise_if (negb (replaceable config)) RuntimeError
              "replacement is restricted to non-collecting private inference");
  clm_image ← beside (docker (inspect_command "c3r-clm:hardened-clean-bb42c6c"));
  core_image ← beside (docker (inspect_command "c3r-core:reviewed-20260930"));
  let config := dict_set "C3R_CLM_CONTAINER_DIGEST" clm_image config in
  _ ← beside (config_create current (env_text config));
  mret (config, clm_image, core_image).

Definition replace_main (fuel : nat) (previous current : string) : io (script * E) (option unit) :=
  prepared ← prepare_rollout previous current;
  let '(config, clm_image, core_image) := prepared in
  reraising (roll_forward fuel current config clm_image core_image) roll_back.
End replace.

(** ** What the commands do *)

Section laws.
Context {E : Type} `{laws : DockerLaws E}.

(** A step of the host that leaves the containers alone. *)
Definition quiet {A} (m : io E A) : Prop := forall e r e', m e = (r, e') -> containers e' = containers e.

Lemma wp_quiet {S A} (m : io E A) (Q : result A -> S * E -> Prop) (s : S) e :
  quiet m -> (forall r e', containers e' = containers e -> Q r (s, e')) -> wp (beside m) Q (s, e).
Proof. intros Hm H. unfold wp, beside. destruct (m e) as [r e'] eqn:Em. cbn. eauto. Qed.

Lemma wp_stop {S} name (Q : result string -> S * E -> Prop) (s : S) e :
  (forall x e', containers e' = containers e -> Q (Raise x) (s, e')) ->
  (forall o c e', containers e !! name = Some c -> containers e' = <[name := stopped c]> (containers e) ->
     Q (Ok o) (s, e')) ->
  wp (beside (docker (stop_command name))) Q (s, e).
Proof.
  intros Hr Ho. unfold wp, beside. destruct (docker _ e) as [[o|x] e'] eqn:Ed; apply dl_stop in Ed; cbn; [|auto].
  destruct Ed as (c & Hc & Ed). eauto.
Qed.

Lemma wp_docker_start {S} name (Q : result string -> S * E -> Prop) (s : S) e :
  (forall x e', containers e' = containers e -> Q (Raise x) (s, e')) ->
  (forall o c e', containers e !! name = Some c -> containers e' = <[name := started c]> (containers e) ->
     Q (Ok o) (s, e')) ->
  wp (beside (docker (start_command name))) Q (s, e).
Proof.
  intros Hr Ho. unfold wp, beside. destruct (docker _ e) as [[o|x] e'] eqn:Ed; apply dl_start in Ed; cbn; [|auto].
  destruct Ed as (c & Hc & Ed). eauto.
Qed.

Lemma wp_rename {S} old new (Q : result string -> S * E -> Prop) (s : S) e :
  (forall x e', containers e' = containers e -> Q (Raise x) (s, e')) ->
  (forall o c e', containers e !! old = Some c -> containers e !! new = None ->
     containers e' = <[new := c]> (delete old (containers e)) -> Q (Ok o) (s, e')) ->
  wp (beside (docker (rename_command old new))) Q (s, e).
Proof.
  intros Hr Ho. unfold wp, beside. destruct (docker _ e) as [[o|x] e'] eqn:Ed; apply dl_rename in Ed; cbn; [|auto].
  destruct Ed as (c & Hc & Hn & Ed). eauto.
Qed.

(** Whether it works or not, [run] touches one name only. *)
Lemma wp_run_container {S} name options image (Q : result string -> S * E -> Prop) (s : S) e :
  (forall x e', (forall k, k <> name -> containers e' !! k = containers e !! k) -> Q (Raise x) (s, e')) ->
  (forall o c e', containers e !! name = None -> ct_image c = image -> ct_running c = true ->
     containers e' = <[name := c]> (containers e) -> Q (Ok o) (s, e')) ->
  wp (beside (docker (run_command name options image))) Q (s, e).
Proof.
  intros Hr Ho. unfold wp, beside. destruct (docker _ e) as [[o|x] e'] eqn:Ed; apply dl_run in Ed; cbn.
  - destruct Ed as (c & Hc & Hi & Hrun & Ed). eauto.
  - apply Hr. intros k Hk. destruct Ed as [->|(c & _ & _ & ->)]; [done|by rewrite lookup_insert_ne].
Qed.

Lemma clock_quiet : quiet clock. Proof. intros e r e'. apply dl_clock. Qed.
Lemma sleep_quiet n : quiet (sleep n). Proof. intros e r e'. apply dl_sleep. Qed.
Lemma probe_quiet path body token : quiet (probe path body token). Proof. intros e r e'. apply dl_probe. Qed.
Lemma inspect_quiet reference : quiet (docker (inspect_command reference)). Proof. intros e r e'. apply dl_inspect. Qed.
Lemma exists_quiet name : quiet (config_exists name). Proof. intros e r e'. apply dl_exists. Qed.
Lemma read_quiet name : quiet (config_read name). Proof. intros e r e'. apply dl_read. Qed.
Lemma create_quiet name text : quiet (config_create name text). Proof. intros e r e'. apply dl_create. Qed.
#[local] Hint Resolve clock_quiet sleep_quiet probe_quiet inspect_quiet exists_quiet read_quiet create_quiet : core.

(** The loop changes neither the script's lists nor the containers. *)
Lemma await_quiet fuel config deadline : forall s e,
  wp (await_ready fuel config deadline) (fun _ w' => fst w' = s /\ containers (snd w') = containers e) (s, e).
Proof.
  induction fuel as [|f IH]; intros s e; cbn [await_ready]; [by apply wp_ret|].
  apply wp_bind, wp_quiet; [auto|]. intros [now|x] e1 E1; [|done].
  destruct (negb _); [by apply wp_ret|].
  apply wp_bind, wp_lift. destruct (setting _ _) as [token|x]; [|done].
  apply wp_bind, wp_try, wp_bind, wp_quiet; [auto|]. intros [status|x] e2 E2; rewrite E1 in E2.
  - apply wp_ret. destruct (Z.eqb status 200); [apply wp_ret; cbn; by rewrite E2|].
    apply wp_bind, wp_quiet; [auto|]. intros [u|x] e3 E3; [|cbn; by rewrite E3, E2].
    eapply wp_mono; [apply IH|]. cbn. intros r w' [-> ->]. by rewrite E3, E2.
  - destruct (caught_by _ _); [|cbn; by rewrite E2]. apply wp_ret. cbn.
    apply wp_bind, wp_quiet; [auto|]. intros [u|x'] e3 E3; [|cbn; by rewrite E3, E2].
    eapply wp_mono; [apply IH|]. cbn. intros r w' [-> ->]. by rewrite E3, E2.
Qed.

(** ** Rolling forward and back *)

Definition names : list string := [CORE; CLM].

(** Where the container that had [name] at the start is now: aside and stopped, or
    still in place. *)
Definition kept (M0 M : gmap string container) (moved : list string) (name : string) : Prop :=
  forall c, M0 !! name = Some c ->
    if bool_decide (name ∈ moved) then M !! before name = Some (stopped c)
    else M !! name = Some c \/ M !! name = Some (stopped c).

(** How far the script came. *)
Definition progress : list (list string * list string) :=
  [([], []); ([CORE], []); (names, []); (names, [CLM]); (names, [CLM; CORE])].

Record forward_ok (M0 : gmap string container) (w : script * E) : Prop := {
  fo_kept : forall name, name ∈ names -> kept M0 (containers (snd w)) (sc_moved (fst w)) name;
  fo_progress : (sc_moved (fst w), sc_started (fst w)) ∈ progress;
  fo_silent : restored_json ∉ sc_printed (fst w) }.

Lemma discard_keeps l : forall s e,
  wp (each discard l) (fun r w' => fst w' = s /\ (r = Ok tt -> forall k, k ∉ l -> k ∉ map failed l ->
        containers (snd w') !! k = containers e !! k)) (s, e).
Proof.
  induction l as [|n l IH]; intros s e; cbn [each]; [by apply wp_ret|].
  apply wp_bind. unfold discard. apply wp_bind, wp_stop; [by intros|]. intros o c e1 _ E1.
  apply wp_bind, wp_rename; [by intros|]. intros o' c' e2 _ _ E2. apply wp_ret.
  eapply wp_mono; [apply IH|]. intros r w' [Hs Hk]. split; [done|].
  intros Hr k H1 H2. cbn [map] in H2. rewrite (Hk Hr) by set_solver. rewrite E2, E1.
  rewrite lookup_insert_ne, lookup_delete_ne, lookup_insert_ne by set_solver. done.
Qed.

Lemma put_back_restores l : forall s e,
  NoDup (map before l) -> (forall n m, n ∈ l -> m ∈ l -> before n <> m) ->
  wp (each put_back l) (fun r w' => fst w' = s /\ (r = Ok tt ->
        (forall n c, n ∈ l -> containers e !! before n = Some c -> containers (snd w') !! n = Some (started c))
        /\ (forall k, k ∉ l -> k ∉ map before l -> containers (snd w') !! k = containers e !! k))) (s, e).
Proof.
  induction l as [|a l IH]; intros s e Hn Hd; cbn [each].
  { apply wp_ret. split; [done|]. intros _. split; [set_solver|done]. }
  cbn [map] in Hn. apply NoDup_cons in Hn as [Ha Hn].
  assert (Hal : a ∉ l) by (intros Hal; apply Ha; by apply list_elem_of_fmap_2).
  apply wp_bind. unfold put_back. apply wp_bind, wp_rename; [by intros|]. intros o c e1 Hc Hfree E1.
  apply wp_bind, wp_docker_start; [by intros|]. intros o' c' e2 Hc' E2. apply wp_ret.
  rewrite E1, lookup_insert_eq in Hc'. injection Hc' as <-.
  eapply wp_mono; [apply IH; [done|]; intros; apply Hd; set_solver|]. intros r w' [Hs H].
  split; [done|]. intros Hr. destruct (H Hr) as (Hin & Hout). split.
  - intros n c' Hnl Hb. apply elem_of_cons in Hnl as [->|Hnl].
    + rewrite Hout; [|done|].
      * rewrite E2, lookup_insert_eq. congruence.
      * intros (m & Em & Hm)%list_elem_of_fmap. symmetry in Em. revert Em. apply Hd; set_solver.
    + apply Hin; [done|]. rewrite E2, E1.
      rewrite !lookup_insert_ne by (intros Em; symmetry in Em; revert Em; apply Hd; set_solver).
      rewrite lookup_delete_ne; [done|]. intros Em. apply Ha. rewrite Em. by apply list_elem_of_fmap_2.
  - intros k Hk Hkb. cbn [map] in Hkb. rewrite Hout by set_solver. rewrite E2, E1.
    rewrite !lookup_insert_ne, lookup_delete_ne by set_solver. done.
Qed.

(** What a rollback that completes leaves under a name. *)
Definition restored (M0 M : gmap string container) (moved : list string) (name : string) : Prop :=
  forall c, M0 !! name = Some c ->
    if bool_decide (name ∈ moved) then M !! name = Some (started c)
    else M !! name = Some c \/ M !! name = Some (stopped c).

Lemma started_stopped c : started (stopped c) = started c.
Proof. done. Qed.

Lemma in_names (P : string -> Prop) : P CORE -> P CLM -> forall name, name ∈ names -> P name.
Proof. intros H1 H2 name H. apply elem_of_cons in H as [->|H%list_elem_of_singleton]; [done|by subst]. Qed.

(** Names never collide with the names given aside. *)
Definition progress_sound (p : list string * list string) : Prop :=
  NoDup (map before (rev (fst p)))
  /\ Forall (fun n => Forall (fun m => before n <> m) (rev (fst p))) (rev (fst p))
  /\ Forall (fun name => before name ∉ rev (snd p) /\ before name ∉ map failed (rev (snd p))
        /\ (name ∉ fst p -> snd p = [] /\ name ∉ rev (fst p) /\ name ∉ map before (rev (fst p)))) names.

Lemma progress_is_sound : Forall progress_sound progress.
Proof.
  unfold progress, progress_sound, names.
  repeat first [apply Forall_cons; split | apply Forall_nil]; cbn [fst snd rev app map];
    apply (bool_decide_eq_true_1 _); reflexivity.
Qed.

Lemma wp_moved (Q : result (list string) -> script * E -> Prop) s e :
  Q (Ok (sc_moved s)) (s, e) -> wp moved_names Q (s, e).
Proof. done. Qed.

Lemma wp_started (Q : result (list string) -> script * E -> Prop) s e :
  Q (Ok (sc_started s)) (s, e) -> wp started_names Q (s, e).
Proof. done. Qed.

Lemma roll_back_restores M0 s e :
  forward_ok M0 (s, e) ->
  wp roll_back (fun _ w' => restored_json ∈ sc_printed (fst w') -> sc_moved (fst w') = sc_moved s
        /\ forall name, name ∈ names -> restored M0 (containers (snd w')) (sc_moved s) name) (s, e).
Proof.
  intros [Hk Hp Hq]. cbn [fst snd] in *. unfold roll_back.
  apply wp_bind, wp_started. apply wp_bind. eapply wp_mono; [apply discard_keeps|].
  intros [[]|x] [s1 e1] [Es H1]; cbn [fst snd] in Es, H1; subst s1; [|done].
  specialize (H1 eq_refl). apply wp_bind, wp_moved. apply wp_bind.
  apply list_elem_of_In in Hp. pose proof progress_is_sound as Hps. rewrite List.Forall_forall in Hps.
  destruct (Hps _ Hp) as (Hnd & Hdist & Hnames). clear Hps Hp. cbn [fst snd] in Hnd, Hdist, Hnames.
  eapply wp_mono; [apply put_back_restores; [done|]|].
  { intros n m Hn Hm. rewrite Forall_forall in Hdist. specialize (Hdist n Hn). rewrite Forall_forall in Hdist. auto. }
  intros [[]|x] [s2 e2] [Es H2]; cbn [fst snd] in Es, H2; subst s2; [|done].
  destruct (H2 eq_refl) as [Hin Hout]. unfold wp, print_json. cbn [fst snd sc_moved]. intros _. split; [done|].
  intros name Hname c Hc. specialize (Hk name Hname c Hc). rewrite Forall_forall in Hnames.
  destruct (Hnames name Hname) as (B1 & B2 & B3).
  destruct (bool_decide_reflect (name ∈ sc_moved s)) as [Hm|Hm].
  - rewrite <- started_stopped. apply Hin.
    + apply list_elem_of_In, in_rev. rewrite rev_involutive. by apply list_elem_of_In.
    + rewrite <- Hk. by apply H1.
  - destruct (B3 Hm) as (B4 & B5 & B6). rewrite Hout by done. by rewrite H1 by (rewrite B4; cbn; set_solver).
Qed.

Lemma set_aside_does n s e :
  wp (set_aside n) (fun r w' =>
    match r with
    | Ok _ => fst w' = mkScript (sc_moved s ++ [n])%list (sc_started s) (sc_printed s)
        /\ (forall c, containers e !! n = Some c -> containers (snd w') !! before n = Some (stopped c))
        /\ (forall k, k <> n -> k <> before n -> containers (snd w') !! k = containers e !! k)
    | Raise _ => fst w' = s
        /\ (forall k, k <> n -> containers (snd w') !! k = containers e !! k)
        /\ (forall c, containers e !! n = Some c ->
              containers (snd w') !! n = Some c \/ containers (snd w') !! n = Some (stopped c))
    end) (s, e).
Proof.
  unfold set_aside. apply wp_bind, wp_stop.
  { intros x e1 E1. cbn. rewrite E1. auto. }
  intros o c e1 Hc E1. apply wp_bind, wp_rename.
  { intros x e2 E2. cbn. rewrite E2, E1. split; [done|]. split.
    - intros k Hk. by rewrite lookup_insert_ne.
    - intros c' Hc'. right. rewrite lookup_insert_eq. congruence. }
  intros o' c' e2 Hc' _ E2. rewrite E1, lookup_insert_eq in Hc'. injection Hc' as <-.
  unfold wp, add_moved. cbn. split; [done|]. rewrite E2, E1. split.
  - intros c' Hc'. rewrite lookup_insert_eq. congruence.
  - intros k H1 H2. by rewrite lookup_insert_ne, lookup_delete_ne, lookup_insert_ne.
Qed.

(** Both containers are aside. *)
Definition aside (M0 M : gmap string container) : Prop :=
  forall name, name ∈ names -> forall c, M0 !! name = Some c -> M !! before name = Some (stopped c).

Lemma aside_ok M0 st printed e :
  aside M0 (containers e) -> (names, st) ∈ progress -> restored_json ∉ printed ->
  forward_ok M0 (mkScript names st printed, e).
Proof.
  intros Ha Hp Hq. split; [|done|done]. intros name Hn c Hc. cbn [fst snd sc_moved].
  rewrite bool_decide_eq_true_2 by done. by apply Ha.
Qed.

Lemma before_is_new n name : n ∈ names -> name ∈ names -> before n <> name.
Proof. intros Hn Hm. revert n Hn. apply in_names; revert name Hm; by apply in_names. Qed.

Lemma aside_insert M0 M M' name :
  aside M0 M -> name ∈ names -> (forall k, k <> name -> M' !! k = M !! k) -> aside M0 M'.
Proof.
  intros Ha Hn H n Hnn c Hc. rewrite H; [by apply Ha|]. by apply before_is_new.
Qed.

(** New containers run the two images under the two names. *)
Definition running_image (M : gmap string container) (name image : string) : Prop :=
  exists c, M !! name = Some c /\ ct_image c = image /\ ct_running c = true.

Definition rolled (M0 : gmap string container) (clm_image core_image : string) (w : script * E) : Prop :=
  aside M0 (containers (snd w)) /\ running_image (containers (snd w)) CLM clm_image
  /\ running_image (containers (snd w)) CORE core_image.

Lemma set_both_aside e :
  wp (each set_aside names) (fun r w' =>
    match r with
    | Ok _ => fst w' = mkScript names [] [] /\ aside (containers e) (containers (snd w'))
    | Raise _ => forward_ok (containers e) w'
    end) (begin_script, e).
Proof.
  cbn [each]. apply wp_bind. eapply wp_mono; [apply set_aside_does|]. intros [[]|x] [s1 e1].
  2: { cbn. intros (-> & Hk & Hc). split; [|by left|set_solver]. apply in_names; cbn; intros c Hc0.
       - by apply Hc.
       - left. by rewrite Hk. }
  cbn [fst snd]. intros (-> & Hc1 & Hk1).
  apply wp_bind. eapply wp_mono; [apply set_aside_does|]. intros [[]|x] [s2 e2].
  2: { cbn. intros (-> & Hk & Hc). split; [|by right; left|set_solver]. apply in_names; cbn; intros c Hc0.
       - rewrite bool_decide_eq_true_2 by set_solver. rewrite Hk by done. by apply Hc1.
       - rewrite bool_decide_eq_false_2 by (vm_compute; set_solver). apply Hc. by rewrite Hk1. }
  cbn [fst snd]. intros (-> & Hc2 & Hk2). apply wp_ret. split; [done|].
  refine (in_names (fun name => forall c, containers e !! name = Some c ->
                      containers e2 !! before name = Some (stopped c)) _ _); intros c Hc0.
  - rewrite Hk2 by done. by apply Hc1.
  - apply Hc2. by rewrite Hk1.
Qed.

Lemma wp_add_started name (Q : result unit -> script * E -> Prop) s e :
  Q (Ok tt) (mkScript (sc_moved s) (sc_started s ++ [name])%list (sc_printed s), e) -> wp (add_started name) Q (s, e).
Proof. done. Qed.

(** The old containers are aside, the new ones run. *)
Definition exchanged (M0 : gmap string container) (clm_image core_image : string) (w : script * E) : Prop :=
  fst w = mkScript names [CLM; CORE] [] /\ rolled M0 clm_image core_image w.

Definition deadline_of (seconds : Z) (d : float) : Prop :=
  exists e e' begun, clock (E := E) e = (Ok begun, e') /\ d = fadd begun (float_of_Z seconds).

Lemma exchanged_ok M0 clm_image core_image w : exchanged M0 clm_image core_image w -> forward_ok M0 w.
Proof.
  destruct w as [s e]. cbn. intros [Hs [Ha _]]. cbn in Hs. rewrite Hs. apply aside_ok; [done|set_solver|set_solver].
Qed.

Lemma launch_does current clm_image core_image e :
  wp (launch current clm_image core_image) (fun r w' =>
    match r with
    | Ok d => exchanged (containers e) clm_image core_image w' /\ deadline_of 120 d
    | Raise _ => forward_ok (containers e) w'
    end) (begin_script, e).
Proof.
  unfold launch. apply wp_bind. eapply wp_mono; [apply set_both_aside|]. intros [[]|x] [s1 e1]; [|done].
  cbn [fst snd]. intros [-> Ha]. apply wp_bind, wp_run_container.
  { intros x e2 Hk. apply aside_ok; [|set_solver|set_solver]. eapply aside_insert; [exact Ha| |exact Hk]. set_solver. }
  intros o c1 e2 _ Hi1 Hr1 E2. apply wp_bind, wp_add_started. cbn [sc_moved sc_started sc_printed app].
  assert (Ha2 : aside (containers e) (containers e2)).
  { eapply (aside_insert _ _ _ CLM); [exact Ha|set_solver|]. intros k Hk. by rewrite E2, lookup_insert_ne. }
  apply wp_bind, wp_run_container.
  { intros x e3 Hk. apply aside_ok; [|set_solver|set_solver]. eapply aside_insert; [exact Ha2| |exact Hk]. set_solver. }
  intros o' c2 e3 _ Hi2 Hr2 E3. apply wp_bind, wp_add_started. cbn [sc_moved sc_started sc_printed app].
  assert (Hex : forall e', containers e' = containers e3 ->
            exchanged (containers e) clm_image core_image (mkScript names [CLM; CORE] [], e')).
  { intros e' E'. split; [done|]. unfold rolled. cbn [snd]. rewrite E', E3. split; [|split].
    - eapply (aside_insert _ _ _ CORE); [exact Ha2|set_solver|]. intros k Hk. by rewrite lookup_insert_ne.
    - exists c1. rewrite lookup_insert_ne, E2, lookup_insert_eq by done. done.
    - exists c2. by rewrite lookup_insert_eq. }
  apply wp_bind. unfold wp at 1, beside. destruct (clock e3) as [[begun|x] e4] eqn:Ec.
  - apply wp_ret. split; [apply Hex; by eapply dl_clock|]. by exists e3, e4, begun.
  - eapply exchanged_ok, Hex. by eapply dl_clock.
Qed.

Lemma roll_forward_does fuel current config clm_image core_image e :
  wp (roll_forward fuel current config clm_image core_image) (fun r w' =>
    match r with
    | Ok (Some _) => rolled (containers e) clm_image core_image w'
        /\ sc_printed (fst w') = [ready_json core_image clm_image]
    | _ => forward_ok (containers e) w'
    end) (begin_script, e).
Proof.
  unfold roll_forward. apply wp_bind. eapply wp_mono; [apply launch_does|]. intros [d|x] [s1 e1]; [|done].
  intros [[Hs Hr] _]. cbn [fst] in Hs. subst s1.
  apply wp_bind. eapply wp_mono; [apply await_quiet|]. intros r [s5 e5] [Es E5]. cbn [fst snd] in Es, E5. subst s5.
  assert (Hex : exchanged (containers e) clm_image core_image (mkScript names [CLM; CORE] [], e5)).
  { split; [done|]. unfold rolled in *. cbn [snd] in *. by rewrite E5. }
  pose proof (exchanged_ok _ _ _ _ Hex) as Hok.
  destruct r as [[[]|]|x]; [|by apply wp_lift|by apply wp_ret|done].
  apply wp_bind. unfold wp at 1, print_json. cbn [fst snd sc_moved sc_started sc_printed app].
  apply wp_ret. split; [|done]. exact (proj2 Hex).
Qed.

(** The script before the [try] changes no container and none of its lists. *)
Lemma prepare_quiet previous current e :
  wp (prepare_rollout previous current) (fun _ w' => fst w' = begin_script /\ containers (snd w') = containers e)
    (begin_script, e).
Proof.
  assert (H : forall A (m : io E A) (f : A -> io (script * E) (list (string * string) * string * string)),
    quiet m ->
    (forall a e', containers e' = containers e ->
       wp (f a) (fun _ w' => fst w' = begin_script /\ containers (snd w') = containers e) (begin_script, e')) ->
    forall e', containers e' = containers e ->
    wp (beside m ≫= f) (fun _ w' => fst w' = begin_script /\ containers (snd w') = containers e) (begin_script, e')).
  { intros A m f Hm Hf e1 E1. apply wp_bind, wp_quiet; [done|]. intros [a|x] e2 E2; [|cbn; split; [done|congruence]].
    apply Hf. congruence. }
  unfold prepare_rollout. apply H; [apply exists_quiet| |done]. intros present e1 E1.
  apply wp_bind, wp_lift. destruct (raise_if _ _ _); [|done].
  apply H; [apply read_quiet| |done]. intros text e2 E2. apply wp_bind, wp_lift. destruct (env_of_text _); [|done].
  apply wp_bind, wp_lift. destruct (raise_if _ _ _); [|done].
  apply H; [apply inspect_quiet| |done]. intros clm_image e3 E3.
  apply H; [apply inspect_quiet| |done]. intros core_image e4 E4. cbv zeta.
  apply H; [apply create_quiet| |done]. intros u e5 E5. by apply wp_ret.
Qed.

(** C20: A replacement that reports a restored candidate has restored it.  Whenever the
    script printed that the previous candidate is back, each of the two names names
    the very container it named before the script, running again if it had been set
    aside; and when the script ends normally the new containers run the inspected
    images under the two names, with the old ones set aside and stopped. *)
Theorem replacement_restores_or_replaces fuel previous current e :
  wp (replace_main fuel previous current) (fun r w' =>
    (restored_json ∈ sc_printed (fst w') ->
       forall name, name ∈ names -> restored (containers e) (containers (snd w')) (sc_moved (fst w')) name)
    /\ (forall u, r = Ok (Some u) -> exists clm_image core_image, rolled (containers e) clm_image core_image w'
          /\ sc_printed (fst w') = [ready_json core_image clm_image])) (begin_script, e).
Proof.
  unfold replace_main. apply wp_bind. eapply wp_mono; [apply prepare_quiet|].
  intros r [s e1] [Es E1]. cbn [fst snd] in Es, E1. subst s. destruct r as [[[config clm_image] core_image]|x]; [|split; [set_solver|done]].
  unfold wp, reraising. pose proof (roll_forward_does fuel current config clm_image core_image e1) as H.
  unfold wp in H. rewrite E1 in H. destruct (roll_forward _ _ _ _ _ (begin_script, e1)) as [[[u|]|x] [s2 e2]]; cbn in H.
  - destruct H as [Hr Hp]. cbn [fst snd] in *. rewrite Hp. split; [|eauto 10].
    intros Hin. apply list_elem_of_singleton in Hin. discriminate Hin.
  - split; [|done]. intros Hin. by destruct (fo_silent _ _ H).
  - pose proof (roll_back_restores _ _ _ H) as Hb. unfold wp in Hb.
    destruct (roll_back (s2, e2)) as [[u|x'] w3]; cbn [fst snd] in *; (split; [|done]); intros Hin;
      destruct (Hb Hin) as [-> Hres]; exact Hres.
Qed.
End laws.

(** ** The readiness loop ends *)

(** Time passes: [patience d e] bounds the pauses of [pause] seconds left until a
    deadline [d] set [seconds] ahead. *)
Class SteadyClock (E : Type) `{!DeploymentHost E} (seconds pause : Z) : Type := {
  patience : float -> E -> nat;
  sk_late d e t e' : deadline_of seconds d -> clock e = (Ok t, e') -> patience d e = 0 -> flt t d = false;
  sk_clock d e r e' : clock e = (r, e') -> patience d e' <= patience d e;
  sk_probe d path body token e r e' : probe path body token e = (r, e') -> patience d e' <= patience d e;
  sk_sleep d e r e' : sleep pause e = (r, e') -> patience d e' <= pred (patience d e) }.

Section ends.
Context {E : Type} `{laws : DockerLaws E} `{!SteadyClock E 120 3}.

Lemma await_ends fuel config d : deadline_of 120 d -> forall s e,
  patience d e < fuel -> wp (await_ready fuel config d) (fun r _ => r <> Ok None) (s, e).
Proof.
  intros Hd. induction fuel as [|f IH]; intros s e Hf; [lia|]. cbn [await_ready].
  apply wp_bind. unfold wp at 1, beside. destruct (clock e) as [[t|x] e1] eqn:Ec; cbn [fst snd]; [|done].
  pose proof (sk_clock d e _ _ Ec) as P1. destruct (flt t d) eqn:Et; cbn [negb]; [|by apply wp_ret].
  assert (P0 : patience d e <> 0) by (intros P0; by rewrite (sk_late d e t e1 Hd Ec P0) in Et).
  apply wp_bind, wp_lift. destruct (setting _ _) as [token|x]; [|done].
  assert (Hnext : forall e2, patience d e2 <= patience d e1 ->
    wp (_ ← beside (sleep 3); await_ready f config d) (fun r _ => r <> Ok None) (s, e2)).
  { intros e2 P2. apply wp_bind. unfold wp at 1, beside. destruct (sleep 3 e2) as [[u|x] e3] eqn:Es; cbn [fst snd]; [|done].
    pose proof (sk_sleep d e2 _ _ Es). apply IH. lia. }
  apply wp_bind, wp_try, wp_bind. unfold wp at 1, beside.
  destruct (probe _ _ _ e1) as [[status|x] e2] eqn:Ep; cbn [fst snd]; pose proof (sk_probe d _ _ _ _ _ _ Ep) as P2.
  - apply wp_ret. destruct (Z.eqb status 200); [by apply wp_ret|by apply Hnext].
  - destruct (caught_by _ _); [|done]. apply wp_ret. by apply Hnext.
Qed.

(** A replacement ends: with enough turns for its readiness loop it returns or
    raises, whatever docker, the settings and the readiness endpoint do. *)
Theorem replacement_ends previous current e :
  exists enough, forall fuel, enough <= fuel -> wp (replace_main fuel previous current) (fun r _ => r <> Ok None) (begin_script, e).
Proof.
  unfold replace_main. destruct (prepare_rollout previous current (begin_script, e)) as [p w1] eqn:Ep.
  pose proof (prepare_quiet previous current e) as Hq. unfold wp in Hq. rewrite Ep in Hq. destruct Hq as [Hs _].
  destruct w1 as [s1 e1]. cbn in Hs. subst s1.
  destruct p as [[[config clm_image] core_image]|x].
  2: { exists 0. intros fuel _. apply wp_bind. unfold wp. by rewrite Ep. }
  destruct (launch current clm_image core_image (begin_script, e1)) as [l w2] eqn:El.
  pose proof (launch_does current clm_image core_image e1) as Hl. unfold wp in Hl. rewrite El in Hl.
  exists (match l with Ok d => S (patience d (snd w2)) | Raise _ => 0 end). intros fuel Hf.
  apply wp_bind. unfold wp at 1. rewrite Ep. cbn [fst snd]. unfold wp, reraising.
  assert (Hr : fst (roll_forward fuel current config clm_image core_image (begin_script, e1)) <> Ok None).
  { change (wp (roll_forward fuel current config clm_image core_image) (fun r _ => r <> Ok None) (begin_script, e1)).
    unfold roll_forward. apply wp_bind. unfold wp at 1. rewrite El. destruct l as [d|x]; cbn [fst snd]; [|done].
    destruct Hl as [_ Hd]. apply wp_bind. destruct w2 as [s2 e2]. eapply wp_mono; [by apply await_ends|].
    intros [[[]|]|x] w3 Hn; [|by apply wp_lift|done|done].
    apply wp_bind. unfold wp at 1, print_json. destruct w3. by apply wp_ret. }
  destruct (roll_forward _ _ _ _ _ _) as [[[u|]|x] w3]; [done|done|]. destruct (roll_back w3) as [[u|x'] w4]; done.
Qed.
End ends.

(** ** A small docker *)

Inductive verdict : Type := Works | Refused | HalfDone.

(** Containers, what the next commands do, the seconds passed, the next readiness
    statuses and the settings file written. *)
Record sim : Type := mkSim {
  sim_containers : gmap string container; sim_plan : list verdict; sim_time : N; sim_statuses : list Z;
  sim_text : string }.

Definition with_containers (m : gmap string container) (e : sim) : sim :=
  mkSim m (tail (sim_plan e)) (sim_time e) (sim_statuses e) (sim_text e).

(** A command on the containers; [None] refuses. *)
Definition sim_command (v : verdict) (args : list string) (m : gmap string container)
    : option (gmap string container) * bool :=
  match args, v with
  | ["stop"; "--time"; "10"; name], Works => ((c ← m !! name; Some (<[name := stopped c]> m)), true)
  | ["start"; name], Works => ((c ← m !! name; Some (<[name := started c]> m)), true)
  | ["rename"; old; new], Works =>
      ((c ← m !! old; match m !! new with None => Some (<[new := c]> (delete old m)) | Some _ => None end), true)
  | "run" :: "-d" :: "--name" :: name :: rest, Works =>
      (match m !! name with
       | None => Some (<[name := mkContainer 100 (List.last rest "") true]> m)
       | Some _ => None
       end, true)
  | "run" :: "-d" :: "--name" :: name :: rest, HalfDone =>
      (match m !! name with
       | None => Some (<[name := mkContainer 100 (List.last rest "") false]> m)
       | Some _ => None
       end, false)
  | ["image"; "inspect"; _; _; _], Works => (Some m, true)
  | _, _ => (None, true)
  end.

Definition sim_docker (args : list string) : io sim string := fun e =>
  match sim_command (hd Works (sim_plan e)) args (sim_containers e) with
  | (Some m, true) => (Ok "sha256:new", with_containers m e)
  | (Some m, false) => (raise OtherException "returned non-zero exit status", with_containers m e)
  | (None, _) => (raise OtherException "returned non-zero exit status", with_containers (sim_containers e) e)
  end.

(** A clock that jumps far ahead after a hundred seconds. *)
Definition sim_clock (e : sim) : float := if N.leb (sim_time e) 100 then fzero else float_of_Z (2 ^ 60).

#[export] Instance sim_host : DeploymentHost sim := {|
  docker := sim_docker;
  containers := sim_containers;
  clock e := (Ok (sim_clock e), e);
  sleep n e := (Ok tt, mkSim (sim_containers e) (sim_plan e) (sim_time e + Z.to_N n) (sim_statuses e) (sim_text e));
  probe _ _ _ e := (match sim_statuses e with s :: _ => Ok s | [] => raise OSError "refused" end,
                    mkSim (sim_containers e) (sim_plan e) (sim_time e) (tail (sim_statuses e)) (sim_text e));
  config_exists _ e := (Ok false, e);
  config_read _ e := (Ok (sim_text e), e);
  config_create _ text e := (Ok tt, mkSim (sim_containers e) (sim_plan e) (sim_time e) (sim_statuses e) text) |}.

#[export] Instance sim_laws : DockerLaws sim.
Proof.
  assert (Hlast : forall l (x d : string), List.last (l ++ [x])%list d = x) by (intros; apply List.last_last).
  split; try (intros *; cbn; intros [= _ <-]; done).
  - intros name e r e' H. cbn in H. unfold sim_docker, raise in H. cbn in H.
    destruct (hd Works _), (sim_containers e !! name) eqn:E; cbn in H; injection H as <- <-; cbn; first [done|eauto].
  - intros name e r e' H. cbn in H. unfold sim_docker, raise in H. cbn in H.
    destruct (hd Works _), (sim_containers e !! name) eqn:E; cbn in H; injection H as <- <-; cbn; first [done|eauto].
  - intros old new e r e' H. cbn in H. unfold sim_docker, raise in H. cbn in H.
    destruct (hd Works _); [|by injection H as <- <-..].
    destruct (sim_containers e !! old) eqn:E1; cbn in H; [|by injection H as <- <-].
    destruct (sim_containers e !! new) eqn:E2; cbn in H; injection H as <- <-; cbn; first [done|eauto].
  - intros name options image e r e' H. cbn in H. unfold sim_docker, raise in H. cbn in H.
    destruct (hd Works _); [| |]; [| by injection H as <- <-; left |].
    all: destruct (sim_containers e !! name) eqn:E; cbn in H; injection H as <- <-; [by left|].
    + eexists. split; [done|]. split; [|split; [|done]]; [apply Hlast|done].
    + right. eexists. split; [done|]. split; [|done]. done.
  - intros reference e r e' H. cbn in H. unfold sim_docker, raise in H. cbn in H.
    by destruct (hd Works _); injection H as <- <-.
Qed.

Definition jumped (seconds : Z) : bool :=
  forallb (fun begun => negb (flt (float_of_Z (2 ^ 60)) (fadd begun (float_of_Z seconds)))) [fzero; float_of_Z (2 ^ 60)].

Definition sim_steady seconds pause : jumped seconds = true -> Z.leb 1 pause = true -> SteadyClock sim seconds pause.
Proof.
  intros Hs Hp. refine {| patience := fun _ e => 101 - N.to_nat (sim_time e) |}.
  - intros d e t e' (e0 & e0' & begun & H0 & ->) H1 H2. cbn in H0, H1. injection H0 as <- _. injection H1 as <- _.
    apply andb_true_iff in Hs as [Hs1 Hs2]. apply andb_true_iff in Hs2 as [Hs2 _].
    apply negb_true_iff in Hs1, Hs2. unfold sim_clock. destruct (N.leb_spec (sim_time e) 100); [lia|].
    by destruct (N.leb (sim_time e0) 100).
  - intros d e r e' H. cbn in H. by injection H as _ <-.
  - intros d path body token e r e' H. cbn in H. by injection H as _ <-.
  - intros d e r e' H. cbn in H. injection H as _ <-. cbn [sim_time]. apply Z.leb_le in Hp. lia.
Defined.

#[export] Instance sim_replacement_clock : SteadyClock sim 120 3 := sim_steady 120 3 eq_refl eq_refl.
#[export] Instance sim_outage_clock : SteadyClock sim 45 2 := sim_steady 45 2 eq_refl eq_refl.
#[export] Instance sim_recovery_clock : SteadyClock sim 120 2 := sim_steady 120 2 eq_refl eq_refl.

(** ** Examples *)

Definition sim_settings : string :=
  env_text [("C3R_INGRESS_HOST", "127.0.0.1"); ("C3R_TRACE_COLLECTION", "false"); ("C3R_ONLINE_LEARNING", "false");
            ("C3R_CLIENT_TOKEN", "token")].

Definition old_core : container := mkContainer 1 "old-core" true.
Definition old_clm : container := mkContainer 2 "old-clm" true.

Definition sim_start (plan : list verdict) (statuses : list Z) : sim :=
  mkSim {[CORE := old_core; CLM := old_clm]} plan 0 statuses sim_settings.

Abbreviation sim_run plan statuses := (replace_main 60 "v2" "v3" (begin_script, sim_start plan statuses)).

(** Ready at the second probe; never ready. *)
Example replacement_runs :
  fst (sim_run [] [503; 200]%Z) = Ok (Some tt)
  /\ fst (sim_run [] []) = raise RuntimeError "private candidate readiness deadline exceeded"
  /\ sim_containers (snd (snd (sim_run [] []))) !! CORE = Some old_core.
Proof. by vm_compute. Qed.

(** The rename of a container that was already stopped is refused: the script reports
    the previous candidate restored and leaves its container stopped. *)
Example refused_rename_leaves_it_stopped :
  let run := sim_run [Works; Works; Works; Refused] [] in
  sc_printed (fst (snd run)) = [restored_json]
  /\ sim_containers (snd (snd run)) !! CORE = Some (stopped old_core).
Proof. by vm_compute. Qed.

(** A [run] that creates its container and fails to start it is not in [started]; it
    keeps the name, the rollback's first rename is refused, and nothing is put back. *)
Example half_run_blocks_the_rollback :
  let run := sim_run [Works; Works; Works; Works; Works; Works; HalfDone] [] in
  sc_printed (fst (snd run)) = []
  /\ sim_containers (snd (snd run)) !! CORE = None
  /\ sim_containers (snd (snd run)) !! before CORE = Some (stopped old_core)
  /\ sim_containers (snd (snd run)) !! before CLM = Some (stopped old_clm).
Proof. by vm_compute. Qed.

Lemma replacement_restores_or_replaces_witness :
  Forall (restored (sim_containers (sim_start [] [])) (sim_containers (snd (snd (sim_run [] []))))
            (sc_moved (fst (snd (sim_run [] []))))) names.
Proof.
  pose proof (replacement_restores_or_replaces 60 "v2" "v3" (sim_start [] [])) as H.
  assert (Hp : sc_printed (fst (snd (sim_run [] []))) = [restored_json]) by (vm_compute; reflexivity).
  apply Forall_forall, (proj1 H). rewrite Hp. by left.
Defined.

Lemma replacement_ends_witness :
  exists enough, forall fuel, enough <= fuel ->
    wp (replace_main fuel "v2" "v3") (fun r _ => r <> Ok None) (begin_script, sim_start [] []).
Proof. exact (replacement_ends "v2" "v3" (sim_start [] [])). Defined.
