(* ===== verification/Drills.v ===== *)
(** * Drills of the private candidate ([scripts/drill_private_core.py]) and its first
      start ([scripts/start_private_core.py])

    The drill stops and starts the candidate's two containers and watches the statuses
    of its API.  Waiting for a readiness status is a loop with a deadline; a
    computation that may still be waiting answers [None], and [and_then] chains such
    computations. *)

From Stdlib Require Import Lia ZArith Ascii String.
From stdpp Require Import base option strings gmap list.
From S2P Require Import Prelude Effects PyStr PyFloat Json EnvFile Rollout.

Local Open Scope string_scope.

Definition and_then {W A B} (m : io W (option A)) (f : A -> io W (option B)) : io W (option B) :=
  o ← m; match o with Some a => f a | None => mret None end.

Definition surely {W A} (m : io W A) : io W (option A) := a ← m; mret (Some a).

(** The set [stopped] and the list [evidence] of the script. *)
Record drill_state : Type := mkDrill { dr_stopped : list string; dr_evidence : list (list (string * json)) }.

Definition begin_drill : drill_state := mkDrill [] [].

(** [stopped.add(name)] and [stopped.remove(name)]. *)
Definition marked (name : string) (l : list string) : list string :=
  if bool_decide (name ∈ l) then l else (l ++ [name])%list.

Definition unmarked (name : string) (l : list string) : list string :=
  List.filter (fun n => negb (String.eqb n name)) l.

Section drill.
Context {E : Type} {host : DeploymentHost E}.

Definition mark_stopped (name : string) : io (drill_state * E) unit := fun '(s, e) =>
  (Ok tt, (mkDrill (marked name (dr_stopped s)) (dr_evidence s), e)).
Definition mark_started (name : string) : io (drill_state * E) unit := fun '(s, e) =>
  (Ok tt, (mkDrill (unmarked name (dr_stopped s)) (dr_evidence s), e)).
Definition add_evidence (item : list (string * json)) : io (drill_state * E) unit := fun '(s, e) =>
  (Ok tt, (mkDrill (dr_stopped s) (dr_evidence s ++ [item])%list, e)).
Definition stopped_names : io (drill_state * E) (list string) := fun s => (Ok (dr_stopped (fst s)), s).
Definition the_evidence : io (drill_state * E) (list (list (string * json))) := fun s => (Ok (dr_evidence (fst s)), s).

(** [status]: [None] is "unreachable". *)
Definition status_of (token path : string) (payload : option json) : io (drill_state * E) (option Z) :=
  io_try (code ← beside (probe path payload token); mret (Some code)) [OSError] (fun _ => mret None).

Definition status_json (code : option Z) : json :=
  match code with Some n => JInt n | None => JStr "unreachable" end.

(** The loop of [ready]. *)
Fixpoint await_status (fuel : nat) (token : string) (expected : Z) (until : float) : io (drill_state * E) (option Z) :=
  match fuel with
  | O => mret None
  | S f =>
      now ← beside clock;
      if negb (flt now until) then lift (raise RuntimeError "readiness transition deadline exceeded")
      else
        value ← status_of token "/ready" None;
        if bool_decide (value = Some expected) then mret (Some expected)
        else _ ← beside (sleep 2); await_status f token expected until
  end.

Definition ready (fuel : nat) (token : string) (expected deadline : Z) : io (drill_state * E) (option Z) :=
  begun ← beside clock; await_status fuel token expected (fadd begun (float_of_Z deadline)).

Definition stop_for_drill (name : string) : io (drill_state * E) unit :=
  _ ← beside (docker (stop_command name)); mark_stopped name.

Definition start_again (name : string) : io (drill_state * E) unit :=
  _ ← beside (docker (start_command name)); mark_started name.

Definition ranking_payload : json :=
  JObj [("state", JStr "Duplicate invoice"); ("candidates", JArr [JStr "Billing"; JStr "Technical"])].
Definition fallback_payload : json := JObj [("model", JStr "c3r-core"); ("input", JStr "Reply briefly: ready.")].

Definition recovered (drill : string) (code : Z) : list (string * json) :=
  [("drill", JStr drill); ("readiness", JInt code); ("passed", JBool true)].

(** The outage of the ranking server. *)
Definition clm_outage (fuel : nat) (token : string) : io (drill_state * E) (option unit) :=
  _ ← stop_for_drill CLM;
  and_then (ready fuel token 503 45) (fun outage =>
  surely (ranking ← status_of token "/v1/system-one" (Some ranking_payload);
          fallback ← status_of token "/v1/responses" (Some fallback_payload);
          add_evidence
            [("drill", JStr "clm_outage"); ("readiness", JInt outage); ("ranking", status_json ranking);
             ("text_only_policy_fallback", status_json fallback);
             ("passed", JBool (Z.eqb outage 503 && bool_decide (ranking = Some 503%Z)
                               && bool_decide (fallback = Some 200%Z)))])).

Definition operator_kill (token : string) : io (drill_state * E) unit :=
  _ ← stop_for_drill CORE;
  killed ← status_of token "/ready" None;
  add_evidence [("drill", JStr "operator_kill"); ("readiness", status_json killed);
                ("passed", JBool (bool_decide (killed = None)))].

(** The [try] body. *)
Definition drill_body (fuel : nat) (token : string) : io (drill_state * E) (option unit) :=
  baseline ← status_of token "/ready" None;
  _ ← lift (raise_if (negb (bool_decide (baseline = Some 200%Z))) RuntimeError "private baseline is not ready");
  and_then (clm_outage fuel token) (fun _ =>
  and_then (_ ← start_again CLM; ready fuel token 200 120) (fun code =>
  and_then (_ ← add_evidence (recovered "clm_recovery" code); _ ← operator_kill token; _ ← start_again CORE;
            ready fuel token 200 120) (fun code' =>
  surely (add_evidence (recovered "operator_recovery" code'))))).

(** The [finally] clause. *)
Definition restart_stopped : io (drill_state * E) unit :=
  names ← stopped_names; each (fun name => _ ← beside (docker (start_command name)); mret tt) names.

Definition passed_item (item : list (string * json)) : bool :=
  match assoc "passed" item with Some (JBool b) => b | _ => false end.

Definition drill_report (evidence : list (list (string * json))) : json :=
  JObj [("scope", JStr "private_clm_outage_and_operator_recovery_not_canary");
        ("shared_deepseek_stopped", JBool false); ("checks", JArr (map JObj evidence));
        ("all_passed", JBool (forallb passed_item evidence))].

(** [main]; the report it prints and the exit it raises when a check failed. *)
Definition drill_main (fuel : nat) (path : string) : io (drill_state * E) (option (json * result unit)) :=
  text ← beside (config_read path);
  config ← lift (env_of_text text);
  _ ← lift (raise_if (negb (bool_decide (assoc "C3R_INGRESS_HOST" config = Some "127.0.0.1"))) RuntimeError
              "drill restricted to private candidate");
  token ← lift (setting config "C3R_CLIENT_TOKEN");
  and_then (io_finally (drill_body fuel token) restart_stopped) (fun _ =>
  surely (evidence ← the_evidence;
          mret (drill_report evidence, raise_if (negb (forallb passed_item evidence)) OtherException "1"))).
End drill.

(** ** What the drill does to the containers *)

Lemma marked_in name l : name ∈ marked name l.
Proof. unfold marked. case_bool_decide; set_solver. Qed.

Lemma marked_names name k l : k ∈ marked name l -> k = name \/ k ∈ l.
Proof. unfold marked. case_bool_decide; set_solver. Qed.

Lemma in_marked name name' l : name' <> name -> name' ∈ marked name l <-> name' ∈ l.
Proof. intros H. unfold marked. case_bool_decide; set_solver. Qed.

Lemma in_unmarked name name' l : name' ∈ unmarked name l <-> name' ∈ l /\ name' <> name.
Proof. unfold unmarked. rewrite !list_elem_of_In, List.filter_In, negb_true_iff, String.eqb_neq. done. Qed.

Section laws.
Context {E : Type} `{laws : DockerLaws E}.

(** Every other container is as it was; the two of the candidate are the same
    containers, those in [down] stopped and the others running if they were. *)
Definition in_place (M0 M : gmap string container) (down : list string) : Prop :=
  (forall k, k ∈ down -> k ∈ names) /\ (forall k, k ∉ names -> M !! k = M0 !! k)
  /\ forall name, name ∈ names -> forall c, M0 !! name = Some c ->
       if bool_decide (name ∈ down) then M !! name = Some (stopped c)
       else M !! name = Some c \/ M !! name = Some (started c).

Definition steady (M0 : gmap string container) (w : drill_state * E) : Prop :=
  in_place M0 (containers (snd w)) (dr_stopped (fst w)).

Lemma steady_begin e : steady (containers e) (begin_drill, e).
Proof. split; [set_solver|]. split; [done|]. cbn. intros name _ c Hc. rewrite bool_decide_eq_false_2 by set_solver. by left. Qed.

Lemma stop_for_drill_steady M0 name s e : name ∈ names -> steady M0 (s, e) ->
  wp (stop_for_drill name) (fun _ w' => steady M0 w' /\ dr_evidence (fst w') = dr_evidence s) (s, e).
Proof.
  intros Hn (Hd & Ho & Hk). cbn [fst snd] in *. unfold stop_for_drill. apply wp_bind, wp_stop.
  { intros x e1 E1. unfold steady. cbn. rewrite E1. by repeat split. }
  intros o c e1 Hc E1. unfold wp, mark_stopped. cbn. split; [|done]. unfold steady. cbn. rewrite E1.
  split; [by intros k [->|Hk']%marked_names; auto|]. split.
  - intros k Hk'. rewrite lookup_insert_ne by (intros ->; done). by apply Ho.
  - intros name' Hn' c' Hc'. specialize (Hk name' Hn' c' Hc'). destruct (decide (name' = name)) as [->|Hne].
    + rewrite lookup_insert_eq, bool_decide_eq_true_2 by apply marked_in.
      case_bool_decide; [rewrite Hk in Hc; by injection Hc as <-|].
      destruct Hk as [Hk|Hk]; rewrite Hk in Hc; by injection Hc as <-.
    + rewrite lookup_insert_ne by done.
      assert (Hiff : name' ∈ marked name (dr_stopped s)
                     <-> name' ∈ dr_stopped s) by (apply in_marked; congruence).
      by rewrite (bool_decide_ext _ _ Hiff).
Qed.

Lemma start_again_steady M0 name s e : name ∈ names -> steady M0 (s, e) ->
  wp (start_again name) (fun _ w' => steady M0 w' /\ dr_evidence (fst w') = dr_evidence s) (s, e).
Proof.
  intros Hn (Hd & Ho & Hk). cbn [fst snd] in *. unfold start_again. apply wp_bind, wp_docker_start.
  { intros x e1 E1. unfold steady. cbn. rewrite E1. by repeat split. }
  intros o c e1 Hc E1. unfold wp, mark_started. cbn. split; [|done]. unfold steady. cbn. rewrite E1.
  split; [intros k [Hk' _]%in_unmarked; auto|]. split.
  - intros k Hk'. rewrite lookup_insert_ne by (intros ->; done). by apply Ho.
  - intros name' Hn' c' Hc'. specialize (Hk name' Hn' c' Hc'). destruct (decide (name' = name)) as [->|Hne].
    + rewrite lookup_insert_eq, bool_decide_eq_false_2 by (rewrite in_unmarked; tauto). right.
      case_bool_decide; [rewrite Hk in Hc; by injection Hc as <-|].
      destruct Hk as [Hk|Hk]; rewrite Hk in Hc; by injection Hc as <-.
    + rewrite lookup_insert_ne by done.
      assert (Hiff : name' ∈ unmarked name (dr_stopped s) <-> name' ∈ dr_stopped s)
        by (rewrite in_unmarked; tauto).
      by rewrite (bool_decide_ext _ _ Hiff).
Qed.

(** A computation that only looks. *)
Definition only_looks {A} (m : io (drill_state * E) A) : Prop :=
  forall s e, wp m (fun _ w' => fst w' = s /\ containers (snd w') = containers e) (s, e).

Lemma looks_beside {A} (m : io E A) : quiet m -> only_looks (beside m).
Proof. intros Hm s e. by apply wp_quiet. Qed.

Lemma looks_bind {A B} (m : io (drill_state * E) A) (f : A -> io (drill_state * E) B) :
  only_looks m -> (forall a, only_looks (f a)) -> only_looks (m ≫= f).
Proof.
  intros Hm Hf s e. apply wp_bind. eapply wp_mono; [apply Hm|]. intros [a|x] [s1 e1] [Hs He]; cbn [fst snd] in *;
    [|done]. subst s1. eapply wp_mono; [apply Hf|]. cbn. intros r w' [-> ->]. done.
Qed.

Lemma looks_lift {A} (r : result A) : only_looks (lift r).
Proof. done. Qed.

Lemma status_looks token path payload : only_looks (status_of token path payload).
Proof.
  intros s e. unfold status_of. apply wp_try, wp_bind, wp_quiet; [apply probe_quiet|]. intros [code|x] e1 E1.
  - by apply wp_ret.
  - destruct (caught_by _ _); [by apply wp_ret|done].
Qed.

Lemma await_looks fuel token expected until : only_looks (await_status fuel token expected until).
Proof.
  induction fuel as [|f IH]; cbn [await_status]; [done|].
  apply looks_bind; [apply looks_beside, clock_quiet|]. intros now. destruct (negb _); [apply looks_lift|].
  apply looks_bind; [apply status_looks|]. intros value. case_bool_decide; [done|].
  apply looks_bind; [apply looks_beside, sleep_quiet|done].
Qed.

Lemma ready_looks fuel token expected deadline : only_looks (ready fuel token expected deadline).
Proof. apply looks_bind; [apply looks_beside, clock_quiet|]. intros begun. apply await_looks. Qed.

(** A readiness status that is returned is the expected one. *)
Lemma await_expected fuel token expected until : forall w,
  wp (await_status fuel token expected until) (fun r _ => forall n, r = Ok (Some n) -> n = expected) w.
Proof.
  induction fuel as [|f IH]; intros w; cbn [await_status]; [by apply wp_ret|].
  apply wp_bind. eapply wp_mono; [by apply wp_any with (Q := fun _ _ => True)|]. intros [now|x] w1 _; [|done].
  destruct (negb _); [by apply wp_lift|].
  apply wp_bind. eapply wp_mono; [by apply wp_any with (Q := fun _ _ => True)|]. intros [value|x] w2 _; [|done].
  case_bool_decide; [apply wp_ret; congruence|].
  apply wp_bind. eapply wp_mono; [by apply wp_any with (Q := fun _ _ => True)|]. intros [u|x] w3 _; [apply IH|done].
Qed.

(** ** The drill as a whole *)

Lemma steady_looks {A} M0 (m : io (drill_state * E) A) s e : only_looks m -> steady M0 (s, e) ->
  wp m (fun _ w' => steady M0 w' /\ dr_evidence (fst w') = dr_evidence s) (s, e).
Proof.
  intros Hm Hs. eapply wp_mono; [apply Hm|]. intros r [s1 e1] [H1 H2]. cbn [fst snd] in *. subst s1.
  unfold steady in *. cbn [fst snd] in *. by rewrite H2.
Qed.

(** A step that keeps the candidate in place, with evidence [ev], and leads to [Q]. *)
Lemma wp_steady {A B} M0 (m : io (drill_state * E) A) (f : A -> io (drill_state * E) B)
    (Q : result B -> drill_state * E -> Prop) s e :
  wp m (fun _ w' => steady M0 w' /\ dr_evidence (fst w') = dr_evidence s) (s, e) ->
  (forall x w', steady M0 w' -> Q (Raise x) w') ->
  (forall a s' e', steady M0 (s', e') -> dr_evidence s' = dr_evidence s -> fst (m (s, e)) = Ok a -> wp (f a) Q (s', e')) ->
  wp (m ≫= f) Q (s, e).
Proof.
  intros Hm Hr Hf. apply wp_bind. unfold wp in *. destruct (m (s, e)) as [[a|x] [s1 e1]]; cbn [fst snd] in *.
  - destruct Hm as [H1 H2]. by apply Hf.
  - apply Hr, Hm.
Qed.

Lemma wp_evidence M0 item (Q : result unit -> drill_state * E -> Prop) s e :
  steady M0 (s, e) ->
  (steady M0 (mkDrill (dr_stopped s) (dr_evidence s ++ [item])%list, e) ->
   Q (Ok tt) (mkDrill (dr_stopped s) (dr_evidence s ++ [item])%list, e)) ->
  wp (add_evidence item) Q (s, e).
Proof. intros Hs HQ. apply HQ. exact Hs. Qed.

Definition outage_item (ranking fallback : option Z) : list (string * json) :=
  [("drill", JStr "clm_outage"); ("readiness", JInt 503); ("ranking", status_json ranking);
   ("text_only_policy_fallback", status_json fallback);
   ("passed", JBool (bool_decide (ranking = Some 503%Z) && bool_decide (fallback = Some 200%Z)))].

Definition kill_item (killed : option Z) : list (string * json) :=
  [("drill", JStr "operator_kill"); ("readiness", status_json killed); ("passed", JBool (bool_decide (killed = None)))].

(** The evidence of a drill that went through. *)
Definition full_evidence (ranking fallback killed : option Z) : list (list (string * json)) :=
  [outage_item ranking fallback; recovered "clm_recovery" 200; kill_item killed; recovered "operator_recovery" 200].

Lemma ready_expected fuel token expected deadline w n :
  fst (ready fuel token expected deadline w) = Ok (Some n) -> n = expected.
Proof.
  intros H. assert (Hw : wp (ready fuel token expected deadline) (fun r _ => forall n, r = Ok (Some n) -> n = expected) w).
  { unfold ready. apply wp_bind. eapply wp_mono; [by apply wp_any with (Q := fun _ _ => True)|].
    intros [t|x] w1 _; [apply await_expected|done]. }
  by apply (Hw n).
Qed.

Lemma clm_outage_does M0 fuel token e s : steady M0 (s, e) ->
  wp (clm_outage fuel token) (fun r w' => steady M0 w' /\ forall u, r = Ok (Some u) -> exists ranking fallback,
        dr_evidence (fst w') = (dr_evidence s ++ [outage_item ranking fallback])%list) (s, e).
Proof.
  intros Hs. unfold clm_outage. apply (wp_steady M0); [apply stop_for_drill_steady; [set_solver|done]|done|].
  intros [] s1 e1 Hs1 Ev1 _. unfold and_then. apply (wp_steady M0); [apply steady_looks; [apply ready_looks|done]|done|].
  intros [outage|] s2 e2 Hs2 Ev2 Hout; [|by apply wp_ret].
  apply ready_expected in Hout as ->. unfold surely. apply wp_bind.
  apply (wp_steady M0); [apply steady_looks; [apply status_looks|done]|done|]. intros ranking s3 e3 Hs3 Ev3 _.
  apply (wp_steady M0); [apply steady_looks; [apply status_looks|done]|done|]. intros fallback s4 e4 Hs4 Ev4 _.
  apply (wp_evidence M0); [done|]. intros Hs5. apply wp_ret. split; [done|]. intros u _.
  exists ranking, fallback. cbn. by rewrite Ev4, Ev3, Ev2, Ev1.
Qed.

Lemma operator_kill_does M0 token s e : steady M0 (s, e) ->
  wp (operator_kill token) (fun r w' => steady M0 w' /\ forall u, r = Ok u -> exists killed,
        dr_evidence (fst w') = (dr_evidence s ++ [kill_item killed])%list) (s, e).
Proof.
  intros Hs. unfold operator_kill. apply (wp_steady M0); [apply stop_for_drill_steady; [set_solver|done]|done|].
  intros [] s1 e1 Hs1 Ev1 _. apply (wp_steady M0); [apply steady_looks; [apply status_looks|done]|done|].
  intros killed s2 e2 Hs2 Ev2 _. apply (wp_evidence M0); [done|]. intros Hs3. split; [done|]. intros u _.
  exists killed. cbn. by rewrite Ev2, Ev1.
Qed.

Lemma ready_does M0 fuel token expected deadline s e : steady M0 (s, e) ->
  wp (ready fuel token expected deadline) (fun r w' => steady M0 w' /\ dr_evidence (fst w') = dr_evidence s
        /\ forall n, r = Ok (Some n) -> n = expected) (s, e).
Proof.
  intros Hs. pose proof (steady_looks M0 _ _ _ (ready_looks fuel token expected deadline) Hs) as H.
  destruct H as [H1 H2]. split; [done|]. split; [done|]. intros n Hn. by eapply ready_expected.
Qed.

Lemma drill_body_does M0 fuel token e : steady M0 (begin_drill, e) ->
  wp (drill_body fuel token) (fun r w' => steady M0 w' /\ forall u, r = Ok (Some u) -> exists ranking fallback killed,
        dr_evidence (fst w') = full_evidence ranking fallback killed) (begin_drill, e).
Proof.
  intros Hs. unfold drill_body. apply (wp_steady M0); [apply steady_looks; [apply status_looks|done]|done|].
  intros baseline s1 e1 Hs1 Ev1 _. apply wp_bind, wp_lift. destruct (raise_if _ _ _); [|done].
  unfold and_then at 1. apply wp_bind. eapply wp_mono; [by apply clm_outage_does|].
  intros [[u1|]|x] [s2 e2] [Hs2 H2]; [|by apply wp_ret|done].
  destruct (H2 u1 eq_refl) as (ranking & fallback & Ev2). rewrite Ev1 in Ev2. cbn [fst] in Ev2. clear H2.
  unfold and_then at 1. apply wp_bind. apply (wp_steady M0); [apply start_again_steady; [set_solver|done]|done|].
  intros [] s3 e3 Hs3 Ev3 _. eapply wp_mono; [by apply ready_does|].
  intros [[code|]|x] [s4 e4] (Hs4 & Ev4 & Hc); [|by apply wp_ret|done]. cbn [fst] in Ev4.
  rewrite (Hc code eq_refl). clear Hc. unfold and_then at 1. apply wp_bind. apply wp_bind.
  apply (wp_evidence M0); [done|]. intros Hs5. apply wp_bind. eapply wp_mono; [by apply operator_kill_does|].
  intros [[]|x] [s6 e6] [Hs6 H6]; [|done]. destruct (H6 tt eq_refl) as [killed Ev6]. cbn [fst dr_evidence] in Ev6. clear H6.
  apply (wp_steady M0); [apply start_again_steady; [set_solver|done]|done|].
  intros [] s7 e7 Hs7 Ev7 _. eapply wp_mono; [by apply ready_does|].
  intros [[code'|]|x] [s8 e8] (Hs8 & Ev8 & Hc); [|by apply wp_ret|done]. cbn [fst] in Ev8.
  rewrite (Hc code' eq_refl). clear Hc. unfold surely. apply wp_bind. apply (wp_evidence M0); [done|]. intros Hs9.
  apply wp_ret. split; [done|]. intros u _. exists ranking, fallback, killed. cbn.
  rewrite Ev8, Ev7, Ev6, Ev4, Ev3, Ev2. done.
Qed.

Lemma restart_starts l : forall (s : drill_state) e,
  wp (each (fun name => _ ← beside (docker (start_command name)); mret tt) l) (fun r w' =>
    fst w' = s /\ (forall k, k ∉ l -> containers (snd w') !! k = containers e !! k)
    /\ (forall k c, containers e !! k = Some c ->
          containers (snd w') !! k = Some c \/ containers (snd w') !! k = Some (started c))
    /\ (r = Ok tt -> forall k c, k ∈ l -> containers e !! k = Some c -> containers (snd w') !! k = Some (started c)))
    (s, e).
Proof.
  induction l as [|a l IH]; intros s e; cbn [each].
  { apply wp_ret. repeat split; auto. set_solver. }
  apply wp_bind, wp_bind, wp_docker_start.
  { intros x e1 E1. cbn. rewrite E1. repeat split; auto. done. }
  intros o c e1 Hc E1. apply wp_ret. eapply wp_mono; [apply IH|].
  intros r w' (Hs & Hout & Hall & Hin). split; [done|]. split; [|split].
  - intros k Hk. rewrite Hout, E1, lookup_insert_ne by set_solver. done.
  - intros k c' Hk. destruct (decide (k = a)) as [->|Hne].
    + rewrite Hc in Hk. injection Hk as <-. destruct (Hall a (started c)) as [H|H]; [by rewrite E1, lookup_insert_eq|..];
        by right.
    + apply Hall. by rewrite E1, lookup_insert_ne.
  - intros Hr k c' Hk Hkc. destruct (decide (k = a)) as [->|Hne].
    + rewrite Hc in Hkc. injection Hkc as <-. destruct (Hall a (started c)) as [H|H]; [by rewrite E1, lookup_insert_eq|..];
        done.
    + apply Hin; [done|set_solver|]. by rewrite E1, lookup_insert_ne.
Qed.

(** The drill gives back what it took.  However far it got and whatever it met, the
    containers other than the candidate's two are as they were, the two are the same
    containers, and once the final starts have succeeded each of them runs again if
    it ran before. *)
Theorem drill_restarts_what_it_stopped fuel token e :
  let '(_, w1) := drill_body fuel token (begin_drill, e) in
  let '(r, (_, e2)) := restart_stopped w1 in
  (forall k, k ∉ names -> containers e2 !! k = containers e !! k)
  /\ (forall name c, name ∈ names -> containers e !! name = Some c ->
        containers e2 !! name ∈ map Some [c; stopped c; started c])
  /\ (r = Ok tt -> forall name c, name ∈ names -> containers e !! name = Some c ->
        containers e2 !! name ∈ map Some [c; started c]).
Proof.
  pose proof (drill_body_does (containers e) fuel token e (steady_begin e)) as H. unfold wp in H.
  destruct (drill_body fuel token (begin_drill, e)) as [r1 [s1 e1]]. cbn [fst snd] in H. destruct H as [(Hd & Ho & Hk) _].
  cbn [fst snd] in Hd, Ho, Hk. unfold restart_stopped.
  pose proof (restart_starts (dr_stopped s1) s1 e1) as H. unfold wp in H. unfold mbind, io_bind, stopped_names.
  cbn [fst]. destruct (each _ _ (s1, e1)) as [r [s2 e2]]. cbn [fst snd] in H. destruct H as (_ & Hout & Hall & Hin).
  split; [|split].
  - intros k Hkn. rewrite Hout by auto. by apply Ho.
  - intros name c Hn Hc. specialize (Hk name Hn c Hc). cbn [map]. rewrite !elem_of_cons.
    destruct (bool_decide (name ∈ dr_stopped s1)); [destruct (Hall _ _ Hk) as [->| ->]; auto|].
    destruct Hk as [Hk|Hk]; destruct (Hall _ _ Hk) as [->| ->]; auto.
  - intros Hr name c Hn Hc. specialize (Hk name Hn c Hc). cbn [map]. rewrite !elem_of_cons.
    destruct (bool_decide_reflect (name ∈ dr_stopped s1)) as [Hm|Hm]; [rewrite (Hin Hr _ _ Hm Hk); auto|].
    rewrite Hout by done. destruct Hk as [->| ->]; auto.
Qed.

Lemma wp_drill_evidence (Q : result (list (list (string * json))) -> drill_state * E -> Prop) s e :
  Q (Ok (dr_evidence s)) (s, e) -> wp the_evidence Q (s, e).
Proof. done. Qed.

(** The report of a drill tells what was seen.  A drill that comes to its report saw
    the readiness fall to 503 and come back to 200 twice; it exits without an error
    exactly when the ranking answered 503 and the text fallback 200 during the outage
    and the stopped candidate was unreachable. *)
Theorem drill_report_is_true fuel path e :
  wp (drill_main fuel path) (fun r _ => forall report exit, r = Ok (Some (report, exit)) ->
    exists ranking fallback killed,
      report = drill_report (full_evidence ranking fallback killed)
      /\ (exit = Ok tt <-> ranking = Some 503%Z /\ fallback = Some 200%Z /\ killed = None)) (begin_drill, e).
Proof.
  unfold drill_main. apply wp_bind, wp_quiet; [apply read_quiet|]. intros [text|x] e1 E1; [|done].
  apply wp_bind, wp_lift. destruct (env_of_text text) as [config|x]; [|done].
  apply wp_bind, wp_lift. destruct (raise_if _ _ _); [|done].
  apply wp_bind, wp_lift. destruct (setting _ _) as [token|x]; [|done].
  unfold and_then. apply wp_bind, wp_finally. eapply wp_mono; [apply drill_body_does, steady_begin|].
  intros r1 [s2 e2] [_ H]. unfold restart_stopped. apply wp_bind. unfold wp at 1, stopped_names. cbn [fst snd].
  eapply wp_mono; [apply restart_starts|]. intros [[]|x] [s3 e3] (Hs & _); cbn [fst] in Hs; subst s3; [|done].
  destruct r1 as [[u|]|x]; [|by apply wp_ret|done].
  destruct (H u eq_refl) as (ranking & fallback & killed & Ev). cbn [fst] in Ev.
  unfold surely. apply wp_bind, wp_bind, wp_drill_evidence. apply wp_ret, wp_ret.
  intros report exit Heq. injection Heq as <- <-. exists ranking, fallback, killed. rewrite Ev. split; [done|].
  unfold raise_if. change (forallb passed_item (full_evidence ranking fallback killed)) with
    ((bool_decide (ranking = Some 503%Z) && bool_decide (fallback = Some 200%Z))
     && (true && (bool_decide (killed = None) && (true && true)))).
  destruct (bool_decide_reflect (ranking = Some 503%Z)), (bool_decide_reflect (fallback = Some 200%Z)),
    (bool_decide_reflect (killed = None)); cbn [andb negb]; (split; [|tauto]); by intros [=].
Qed.
End laws.

(** ** The drill ends *)

Section ends.
Context {E : Type} {host : DeploymentHost E}.

Lemma await_status_ends {seconds} (k : SteadyClock E seconds 2) fuel token expected d : deadline_of seconds d -> forall s e,
  patience d e < fuel -> wp (await_status fuel token expected d) (fun r _ => r <> Ok None) (s, e).
Proof.
  intros Hd. induction fuel as [|f IH]; intros s e Hf; [lia|]. cbn [await_status].
  apply wp_bind. unfold wp at 1, beside. destruct (clock e) as [[t|x] e1] eqn:Ec; cbn [fst snd]; [|done].
  pose proof (sk_clock d e _ _ Ec) as P1. destruct (flt t d) eqn:Et; cbn [negb]; [|by apply wp_lift].
  assert (P0 : patience d e <> 0) by (intros P0; by rewrite (sk_late d e t e1 Hd Ec P0) in Et).
  apply wp_bind, wp_try, wp_bind. unfold wp at 1, beside.
  destruct (probe _ _ _ e1) as [[code|x] e2] eqn:Ep; cbn [fst snd]; pose proof (sk_probe d _ _ _ _ _ _ Ep) as P2.
  all: assert (Hnext : wp (_ ← beside (sleep 2); await_status f token expected d) (fun r _ => r <> Ok None) (s, e2));
    [apply wp_bind; unfold wp at 1, beside; destruct (sleep 2 e2) as [[u|x'] e3] eqn:Es; cbn [fst snd]; [|done];
     pose proof (sk_sleep d e2 _ _ Es); apply IH; lia|].
  - apply wp_ret. case_bool_decide; [by apply wp_ret|exact Hnext].
  - destruct (caught_by _ _); [|done]. apply wp_ret. case_bool_decide; [by apply wp_ret|exact Hnext].
Qed.

(** A bound on the pauses of any deadline when it is set. *)
Definition within_patience (bound : nat) {seconds} (k : SteadyClock E seconds 2) : Prop :=
  forall e t e', clock e = (Ok t, e') -> patience (fadd t (float_of_Z seconds)) e' < bound.

Lemma ready_ends fuel seconds (k : SteadyClock E seconds 2) token expected w : within_patience fuel k ->
  wp (ready fuel token expected seconds) (fun r _ => r <> Ok None) w.
Proof.
  intros Hb. destruct w as [s e]. unfold ready. apply wp_bind. unfold wp at 1, beside.
  destruct (clock e) as [[t|x] e1] eqn:Ec; cbn [fst snd]; [|done]. apply (await_status_ends k); [|by eapply Hb].
  by exists e, e1, t.
Qed.

Lemma and_then_ends {A B} (m : io (drill_state * E) (option A)) (f : A -> io (drill_state * E) (option B)) w :
  wp m (fun r _ => r <> Ok None) w -> (forall a w, wp (f a) (fun r _ => r <> Ok None) w) ->
  wp (and_then m f) (fun r _ => r <> Ok None) w.
Proof.
  intros Hm Hf. apply wp_bind. eapply wp_mono; [exact Hm|]. intros [[a|]|x] w' H; [apply Hf|done|done].
Qed.

Lemma after_any {A B} (m : io (drill_state * E) A) (f : A -> io (drill_state * E) (option B)) w :
  (forall a w, wp (f a) (fun r _ => r <> Ok None) w) -> wp (m ≫= f) (fun r _ => r <> Ok None) w.
Proof. intros Hf. apply wp_bind. apply wp_any. intros [a|x] w'; [apply Hf|done]. Qed.

Lemma surely_ends {A} (m : io (drill_state * E) A) w : wp (surely m) (fun r _ => r <> Ok None) w.
Proof. apply after_any. intros a w'. by apply wp_ret. Qed.

(** The drill ends.  When the clock passes any deadline of 45 or 120 seconds within
    [fuel] pauses of two seconds, no wait of the drill is left unfinished: it reports,
    or raises. *)
Theorem drill_ends fuel path (k45 : SteadyClock E 45 2) (k120 : SteadyClock E 120 2) w :
  within_patience fuel k45 -> within_patience fuel k120 ->
  wp (drill_main fuel path) (fun r _ => r <> Ok None) w.
Proof.
  intros H45 H120. unfold drill_main.
  apply after_any; intros text w1. apply after_any; intros config w2. apply after_any; intros u w3.
  apply after_any; intros token w4. apply and_then_ends; [|intros; apply surely_ends].
  apply wp_finally. apply (wp_mono _ (fun r _ => r <> Ok None)).
  - unfold drill_body, clm_outage. apply after_any; intros baseline w5. apply after_any; intros u' w6.
    apply and_then_ends; [|intros _ w7].
    + apply after_any; intros u2 w8. apply and_then_ends; [by apply (ready_ends fuel 45 k45)|intros; apply surely_ends].
    + apply and_then_ends; [|intros code w8].
      * apply after_any; intros u2 w9. by apply (ready_ends fuel 120 k120).
      * apply and_then_ends; [|intros; apply surely_ends].
        apply after_any; intros u2 w9. apply after_any; intros u3 w10. apply after_any; intros u4 w11.
        by apply (ready_ends fuel 120 k120).
  - intros r w5 Hr. apply wp_any. intros [u'|x] w6; [exact Hr|done].
Qed.
End ends.

(** ** [start_private_core.py] *)

Definition CANDIDATE_IMAGE : string := "c3r-core:working-20260930".

Definition candidate_settings (client_token backend_token : string) : list (string * string) :=
  [("C3R_HOST_ENTRYPOINT", "c3r.production_host:build"); ("C3R_MODE", "production_inference");
   ("C3R_ENABLED", "true"); ("C3R_SYSTEM_ONE", "true"); ("C3R_SYSTEM_ONE_PROVIDER", "clm");
   ("C3R_DELIBERATIVE", "true"); ("C3R_TRACE_COLLECTION", "false"); ("C3R_ONLINE_LEARNING", "false");
   ("C3R_INGRESS_HOST", "127.0.0.1"); ("PORT", "8088"); ("C3R_BACKEND_PORT", "8089");
   ("C3R_CLM_CONTAINER_DIGEST", "sha256:922fe094c0804fc2b4e327f2dbbe97b749e47de7d8806b2f467cae7ecd0d2dda");
   ("C3R_CLIENT_TOKEN", client_token); ("C3R_BACKEND_TOKEN", backend_token)].

Definition started_json (container_id : string) : json :=
  JObj [("container_id", JStr container_id); ("bind", JStr "127.0.0.1:8088"); ("trace_collection", JBool false)].

(** [token] is [secrets.token_urlsafe(48)]. *)
Definition start_private_core {E} `{DeploymentHost E} (token : io E string) (config : string) : io E json :=
  present ← config_exists config;
  _ ← lift (raise_if present RuntimeError "candidate config already exists; do not rotate implicitly");
  client ← token;
  backend ← token;
  _ ← config_create config (env_text (candidate_settings client backend));
  output ← docker (run_command CORE (core_options config) CANDIDATE_IMAGE);
  mret (started_json output).

(** The candidate starts once, on the loopback interface, with settings that collect
    nothing: an existing settings file stops the script before it does anything. *)
Theorem start_is_private {E} `{DeploymentHost E} token config e r e'
    (H0 : start_private_core token config e = (r, e')) :
  (forall e1, config_exists config e = (Ok true, e1) ->
     e' = e1 /\ r = raise RuntimeError "candidate config already exists; do not rotate implicitly")
  /\ (forall j, r = Ok j -> exists client backend e1 e2 output,
        config_create config (env_text (candidate_settings client backend)) e1 = (Ok tt, e2)
        /\ docker (run_command CORE (core_options config) CANDIDATE_IMAGE) e2 = (Ok output, e')
        /\ j = started_json output).
Proof.
  unfold start_private_core in H0. split.
  - intros e1 Hx. unfold mbind, io_bind, lift in H0. rewrite Hx in H0. cbn in H0. by injection H0 as <- <-.
  - intros j ->. apply io_bind_ok in H0 as (present & e1 & _ & H0). apply io_bind_ok in H0 as (u & e2 & _ & H0).
    apply io_bind_ok in H0 as (client & e3 & _ & H0). apply io_bind_ok in H0 as (backend & e4 & _ & H0).
    apply io_bind_ok in H0 as ([] & e5 & Hc & H0). apply io_bind_ok in H0 as (output & e6 & Hd & H0).
    injection H0 as <- <-. by exists client, backend, e4, e5, output.
Qed.

(** ** Examples *)

Definition drilled (statuses : list Z) : sim := mkSim {[CORE := old_core; CLM := old_clm]} [] 0 statuses sim_settings.

(** The baseline, the outage, the ranking, the fallback, the recovery, the kill (no
    answer counts as unreachable) and its recovery need an endpoint that can refuse;
    here it answers throughout, so the kill is not seen. *)
Example whole_drill_runs :
  match fst (drill_main 60 "v3" (begin_drill, drilled [200; 503; 503; 200; 200; 200; 200]%Z)) with
  | Ok (Some (report, exit)) => exit = raise OtherException "1"
      /\ report = drill_report (full_evidence (Some 503%Z) (Some 200%Z) (Some 200%Z))
  | _ => False
  end.
Proof. vm_compute. split; reflexivity. Qed.

Lemma drill_report_is_true_witness :
  exists ranking fallback killed,
    drill_report (full_evidence (Some 503%Z) (Some 200%Z) (Some 200%Z))
    = drill_report (full_evidence ranking fallback killed)
    /\ (raise OtherException "1" = Ok tt <-> ranking = Some 503%Z /\ fallback = Some 200%Z /\ killed = None).
Proof.
  pose proof (drill_report_is_true 60 "v3" (drilled [200; 503; 503; 200; 200; 200; 200]%Z)) as H.
  apply H. vm_compute. reflexivity.
Defined.

Lemma drill_restarts_what_it_stopped_witness :
  forall name c, name ∈ names -> sim_containers (drilled []) !! name = Some c ->
    sim_containers (drilled []) !! name ∈ map Some [c; stopped c; started c].
Proof.
  pose proof (drill_restarts_what_it_stopped 60 "token" (drilled [])) as H.
  destruct (drill_body 60 "token" (begin_drill, drilled [])) as [r1 w1] eqn:Eb.
  destruct (restart_stopped w1) as [r [s2 e2]] eqn:Er. destruct H as (_ & H & _).
  assert (E2 : sim_containers e2 = sim_containers (drilled [])).
  { vm_compute in Eb. injection Eb as <- <-. vm_compute in Er. injection Er as <- <- <-. vm_compute. reflexivity. }
  intros name c Hn Hc. rewrite <- E2. exact (H name c Hn Hc).
Defined.

Lemma drill_ends_witness :
  fst (drill_main 200 "v3" (begin_drill, drilled [])) <> Ok None.
Proof.
  apply (drill_ends 200 "v3" sim_outage_clock sim_recovery_clock (begin_drill, drilled []));
    intros e t e' _; unfold patience; cbn; lia.
Defined.
