(* ===== verification/DeepseekLaunch.v ===== *)
(** * Pinned launch of the language model ([deploy/deepseek-v41/launch.py])

    The launcher reads the committed settings, checks the checkpoint file by file
    against the pinned upstream identities, measures the GPUs and the host's memory
    and then issues one [docker run].  Docker, [nvidia-smi] and the files are seen
    through [LaunchHost]; the commands issued and the lines printed are kept beside
    that world. *)

From Stdlib Require Import Lia ZArith Ascii String SpecFloat.
From stdpp Require Import base option strings gmap list.
From S2P Require Import Prelude Effects PyStr PyFloat PyNumber Json JsonText Hash Sha1 Providers LocalArtifacts.
From S2P Require Import ProductionHost ReleaseIdentity EnvFile Rollout.

Local Open Scope string_scope.

(** [sibling name] is [Path(__file__).with_name(name).read_text()]; [run] and
    [check_output] are those of [subprocess], with their timeouts. *)
Class LaunchHost (E : Type) : Type := {
  lh_files :: ReleaseFiles E;
  resolve : path -> io E path;
  is_dir : path -> io E bool;
  sibling : string -> io E string;
  run : list string -> Z -> io E unit;
  check_output : list string -> Z -> io E string }.

(** ** Texts *)

(** [text.split(sep)] for a separator of one character. *)
Fixpoint split_on (sep : ascii) (text : string) : list string :=
  match text with
  | EmptyString => [""]
  | String c rest =>
      match split_on sep rest with
      | [] => [String c ""]
      | part :: parts => if Ascii.eqb c sep then "" :: part :: parts else String c part :: parts
      end
  end.

(** [text.split()]: the words between white space. *)
Fixpoint words (text word : string) : list string :=
  match text with
  | EmptyString => if nonempty word then [word] else []
  | String c rest =>
      if is_space c then (if nonempty word then word :: words rest "" else words rest "")
      else words rest (word ++ String c "")
  end.

(** [int(text)]. *)
Definition int_of_text (text : string) : result Z :=
  match parse_int text with Some n => Ok n | None => raise ValueError "invalid literal for int() with base 10" end.

(** ** The command *)

Definition server_args (config : list (string * string)) : result (list string) :=
  text_only ← setting config "LANGUAGE_MODEL_ONLY";
  unqualified ← (if negb (String.eqb text_only "true") then Ok true
                 else offload ← setting config "ENGRAM_CPU_OFFLOAD"; Ok (negb (String.eqb offload "true")));
  _ ← raise_if unqualified ValueError "qualification requires text-only Engram CPU offload";
  tp ← setting config "TP";
  tokenizer ← setting config "TOKENIZER_MODE";
  reasoning ← setting config "REASONING_PARSER";
  tool_call ← setting config "TOOL_CALL_PARSER";
  max_model_len ← setting config "MAX_MODEL_LEN";
  max_num_seqs ← setting config "MAX_NUM_SEQS";
  max_batched ← setting config "MAX_NUM_BATCHED_TOKENS";
  utilization ← setting config "GPU_MEMORY_UTILIZATION";
  Ok ["--model"; "/model"; "--served-model-name"; "/model"; "deepseek-v4.1-flash";
      "--tensor-parallel-size"; tp; "--language-model-only";
      "--tokenizer-mode"; tokenizer; "--reasoning-parser"; reasoning;
      "--tool-call-parser"; tool_call; "--enable-auto-tool-choice";
      "--engram-config"; print compact_options (JObj [("cpu_offload", JBool true)]);
      "--max-model-len"; max_model_len; "--max-num-seqs"; max_num_seqs;
      "--max-num-batched-tokens"; max_batched; "--gpu-memory-utilization"; utilization;
      "--generation-config"; "vllm"; "--host"; "0.0.0.0"; "--port"; "8000"; "--no-enable-log-requests"].

(** The parsed arguments and their defaults. *)
Record launch_args : Type := mkLaunchArgs {
  la_model_path : path; la_cache_path : path; la_name : string; la_port : Z; la_execute : bool; la_server_args : bool }.

Definition default_name : string := "c3r-deepseek-qualified".
Definition default_port : Z := 18000.

Definition launch_command (args : launch_args) (config : list (string * string)) (model cache : path)
    : result (list string) :=
  memory ← setting config "HOST_RAM_LIMIT_GIB";
  image ← setting config "VLLM_IMAGE_ID";
  serving ← server_args config;
  Ok (["docker"; "run"; "-d"; "--name"; la_name args; "--gpus"; "all";
       "--network"; "bridge"; "-p"; ("127.0.0.1:" ++ str_of_Z (la_port args) ++ ":8000")%string;
       "--read-only"; "--cap-drop"; "ALL"; "--security-opt"; "no-new-privileges";
       "--shm-size"; "16g"; "--memory"; (memory ++ "g")%string; "--memory-swap"; (memory ++ "g")%string;
       "--tmpfs"; "/tmp:rw,mode=1777,size=2g";
       "--mount"; ("type=bind,src=" ++ path_str model ++ ",dst=/model,readonly")%string;
       "--mount"; ("type=bind,src=" ++ path_str cache ++ ",dst=/runtime")%string;
       "-e"; "VLLM_CACHE_ROOT=/runtime/vllm"; "-e"; "XDG_CACHE_HOME=/runtime/.cache";
       "-e"; "FLASHINFER_WORKSPACE_BASE=/runtime/flashinfer"; image] ++ serving)%list.

Definition image_inspection (image : string) : list string := ["docker"; "image"; "inspect"; image].
Definition gpu_query : list string :=
  ["nvidia-smi"; "--query-gpu=memory.total,memory.free"; "--format=csv,noheader,nounits"].

(** [p.is_relative_to(q)]. *)
Definition is_relative_to (p q : path) : bool :=
  String.eqb (path_root p) (path_root q)
  && bool_decide (take (length (path_tail q)) (path_tail p) = path_tail q).

(** [a or b], the second asked only when the first is false. *)
Definition io_or {W} (a b : io W bool) : io W bool := x ← a; if (x : bool) then mret true else b.

(** ** The checkpoint *)

(** [{item["path"] for item in files}]; only hashable values go into a set. *)
Definition expected_path (item : json) : result json :=
  p ← subscript item "path";
  match p with
  | JArr _ | JObj _ => raise TypeError "unhashable type"
  | _ => Ok p
  end.

Definition known_file (expected : list json) (parts : list string) : bool :=
  existsb (fun j => string_is (Some j) (join "/" parts)) expected
  || bool_decide (take 2 parts = [".cache"; "huggingface"]).

(** [Path(item["path"])]. *)
Definition relative_path (item : json) : result path :=
  p ← subscript item "path";
  match p with JStr s => Ok (parse_path s) | _ => raise TypeError "expected str, bytes or os.PathLike object" end.

(** [item["lfs_sha256"] or item["git_blob_id"]]. *)
Definition item_pin (item lfs : json) : result json :=
  if truth (Some lfs) then Ok lfs else subscript item "git_blob_id".

Definition item_digest (size lfs : json) (text : string) : string :=
  if truth (Some lfs) then sha256_hex text
  else sha1_hex ("blob " ++ py_str size ++ String "000" EmptyString ++ text).

Section checkpoint.
Context {E : Type} {host : LaunchHost E}.

(** The loop over everything below the model's directory. *)
Fixpoint no_strays (model : path) (expected : list json) (found : list (list string)) : io E unit :=
  match found with
  | [] => mret tt
  | parts :: found' =>
      linked ← is_symlink (below model parts);
      _ ← lift (raise_if linked RuntimeError "checkpoint symlinks are not admitted");
      file ← is_file (below model parts);
      _ ← lift (raise_if ((file : bool) && negb (known_file expected parts)) RuntimeError
                  "unexpected unpinned checkpoint file");
      no_strays model expected found'
  end.

(** The file is not an ordinary file inside the model's directory of the item's size. *)
Definition misplaced (model p : path) (item : json) : io E bool :=
  io_or (is_symlink p)
    (io_or (file ← is_file p; mret (negb (file : bool)))
       (io_or (target ← resolve p; mret (negb (is_relative_to target model)))
          (measured ← file_size p; size ← lift (subscript item "size"); mret (negb (equals_int measured (Some size)))))).

(** The body of the loop over the manifest. *)
Definition verify_item (model : path) (item : json) : io E unit :=
  relative ← lift (relative_path item);
  _ ← lift (raise_if (is_absolute relative || bool_decide (".." ∈ path_tail relative)) ValueError
              "unsafe checkpoint path");
  let p := below model (path_tail relative) in
  refused ← misplaced model p item;
  _ ← lift (raise_if refused RuntimeError "checkpoint file admission failed");
  lfs ← lift (subscript item "lfs_sha256");
  size ← lift (subscript item "size");
  text ← content p;
  pin ← lift (item_pin item lfs);
  lift (raise_if (negb (string_is (Some pin) (item_digest size lfs text))) RuntimeError
          "checkpoint content differs from pinned upstream revision").

Fixpoint verify_items (model : path) (items : list json) : io E unit :=
  match items with
  | [] => mret tt
  | item :: items' => _ ← verify_item model item; verify_items model items'
  end.

(** [manifest[key] != config[name]]. *)
Definition disagrees (manifest : json) (key : string) (config : list (string * string)) (name : string) : result bool :=
  pinned ← subscript manifest key; wanted ← setting config name; Ok (negb (string_is (Some pinned) wanted)).

(** [verify_checkpoint] up to the line it prints: the number of files. *)
Definition verify_checkpoint (loads_text : string -> result json) (model : path) (config : list (string * string))
    : io E Z :=
  text ← sibling "checkpoint-manifest.json";
  manifest ← lift (loads_text text);
  other_model ← lift (disagrees manifest "model_id" config "CHECKPOINT");
  other ← lift (if other_model : bool then Ok true else disagrees manifest "revision" config "CHECKPOINT_REVISION");
  _ ← lift (raise_if other RuntimeError "upstream manifest/config identity mismatch");
  files ← lift (subscript manifest "files");
  items ← lift (items_of files);
  expected ← lift (mapR expected_path items);
  found ← walk model;
  _ ← no_strays model expected found;
  _ ← verify_items model items;
  mret (lenZ items).
End checkpoint.

(** ** The measurements *)

(** What the engine takes of a card and the reserve. *)
Definition headroom (total utilization reserve : float) : float := fadd (fmul total utilization) reserve.

(** [free < total * float(...) + int(...)]. *)
Definition short_of_headroom (config : list (string * string)) (total free : Z) : result bool :=
  text ← setting config "GPU_MEMORY_UTILIZATION";
  utilization ← float_of_string text;
  total_float ← int_to_float total;
  text ← setting config "MIN_GPU_FREE_MIB";
  reserve ← int_of_text text;
  reserve_float ← int_to_float reserve;
  Ok (fgt_Z (headroom total_float utilization reserve_float) free).

(** One line of the query. *)
Definition gpu_is_short (config : list (string * string)) (row : string) : result bool :=
  numbers ← mapR int_of_text (split_on "," row);
  match numbers with
  | [total; free] => short_of_headroom config total free
  | _ => raise ValueError "wrong number of values to unpack (expected 2)"
  end.

Fixpoint gpus_fit (config : list (string * string)) (rows : list string) : result unit :=
  match rows with
  | [] => Ok tt
  | row :: rows' =>
      short ← gpu_is_short config row;
      _ ← raise_if short RuntimeError "insufficient co-resident headroom; do not overlap model engines";
      gpus_fit config rows'
  end.

Definition measured_gpus (config : list (string * string)) (rows : list string) : result unit :=
  text ← setting config "TP";
  wanted ← int_of_text text;
  _ ← raise_if (negb (Z.eqb (lenZ rows) wanted)) RuntimeError "expected eight measured GPUs";
  gpus_fit config rows.

Definition memory_keys : list string := ["MemTotal"; "MemAvailable"; "SwapTotal"; "SwapFree"].

Definition memory_key (line : string) : string := match split_on ":" line with key :: _ => key | [] => "" end.

Definition memory_item (line : string) : result (string * Z) :=
  match words line "" with
  | _ :: word :: _ => n ← int_of_text word; Ok (memory_key line, n)
  | _ => raise IndexError "list index out of range"
  end.

(** The dictionary made of [/proc/meminfo]. *)
Definition memory_of (text : string) : result (list (string * Z)) :=
  dict_of_pairs <$> mapR memory_item (List.filter (fun line => bool_decide (memory_key line ∈ memory_keys)) (splitlines text)).

Definition entry (memory : list (string * Z)) (key : string) : result Z :=
  match assoc key memory with Some n => Ok n | None => raise KeyError key end.

(** The host-RAM reserve and no-swap gate: true when it fails. *)
Definition host_is_short (config : list (string * string)) (memory : list (string * Z)) : result bool :=
  available ← entry memory "MemAvailable";
  text ← setting config "HOST_RAM_LIMIT_GIB";
  limit ← int_of_text text;
  total ← entry memory "MemTotal";
  total_float ← int_to_float total;
  limit_float ← int_to_float (limit * 1024 ^ 2);
  if fgt_Z (fadd limit_float (fmul total_float (float_of_decimal 2 (-1)))) available then Ok true
  else swap ← entry memory "SwapTotal"; unused ← entry memory "SwapFree"; Ok (negb (Z.eqb swap unused)).

(** ** [main] *)

(** The lines printed and the commands issued. *)
Record launch_log : Type := mkLaunchLog { ll_printed : list json; ll_issued : list (list string) }.

Definition begin_launch : launch_log := mkLaunchLog [] [].

Definition FAILED_IMAGE : string := "sha256:10b3c8fe9c38f6e87dfef21c8d0e457f76ab89b32892bb37a056375b25ddbf85".

Section main.
Context {E : Type} {host : LaunchHost E} (loads_text : string -> result json).

Definition print_line (j : json) : io (launch_log * E) unit := fun '(l, e) =>
  (Ok tt, (mkLaunchLog (ll_printed l ++ [j])%list (ll_issued l), e)).

(** A command is issued, whatever becomes of it. *)
Definition issuing {A} (command : list string) (m : io E A) : io (launch_log * E) A := fun '(l, e) =>
  beside m (mkLaunchLog (ll_printed l) (ll_issued l ++ [command])%list, e).

(** The directories: distinct, existing, neither inside the other. *)
Definition directories (args : launch_args) : io E (path * path) :=
  model ← resolve (la_model_path args);
  cache ← resolve (la_cache_path args);
  refused ← io_or (there ← is_dir model; mret (negb (there : bool)))
              (io_or (there ← is_dir cache; mret (negb (there : bool)))
                 (mret (is_relative_to model cache || is_relative_to cache model)));
  _ ← lift (raise_if refused ValueError "distinct existing checkpoint and private cache directories required");
  mret (model, cache).

Definition scoped (args : launch_args) : bool :=
  Z.leb 1 (la_port args) && Z.leb (la_port args) 65535 && startswith (la_name args) "c3r-deepseek-".

(** From the directories to the command. *)
Definition prepare_launch (args : launch_args) (config : list (string * string)) : io E (path * list string) :=
  dirs ← directories args;
  let '(model, cache) := dirs in
  _ ← lift (raise_if (negb (scoped args)) ValueError "invalid scoped name or loopback port");
  command ← lift (launch_command args config model cache);
  mret (model, command).

(** The measurements that precede the container. *)
Definition measure_host (config : list (string * string)) : io (launch_log * E) unit :=
  image ← lift (setting config "VLLM_IMAGE_ID");
  _ ← issuing (image_inspection image) (run (image_inspection image) 20);
  rows ← issuing gpu_query (check_output gpu_query 15);
  _ ← lift (measured_gpus config (splitlines rows));
  text ← beside (content (mkPath "/" ["proc"; "meminfo"]));
  memory ← lift (memory_of text);
  short ← lift (host_is_short config memory);
  lift (raise_if short RuntimeError "host-RAM reserve or no-swap gate failed").

Definition execute_launch (config : list (string * string)) (model : path) (command : list string)
    : io (launch_log * E) unit :=
  image ← lift (setting config "VLLM_IMAGE_ID");
  _ ← lift (raise_if (String.eqb image FAILED_IMAGE) RuntimeError
              "known failed compiler preflight; rebuild, scan and repin before execution");
  count ← beside (verify_checkpoint loads_text model config);
  _ ← print_line (JObj [("checkpoint_verified", JBool true); ("files", JInt count)]);
  _ ← measure_host config;
  issuing command (run command 60).

Definition launch_main (args : launch_args) : io (launch_log * E) unit :=
  text ← beside (sibling "h100-production.env");
  config ← lift (load_config text);
  if la_server_args args
  then serving ← lift (server_args config); print_line (JArr (map JStr serving))
  else
    prepared ← beside (prepare_launch args config);
    let '(model, command) := prepared in
    if negb (la_execute args)
    then print_line (JObj [("command", JArr (map JStr command)); ("qualification_status", JStr "pending")])
    else execute_launch config model command.
End main.

(** ** The committed settings *)

(** [deploy/deepseek-v41/h100-production.env]. *)
Definition committed_env (config : list (string * string)) : string :=
  "# Qualification target, NOT release authorization. No credentials or host identifiers." ++ line_feed ++ env_text config.

Definition committed_config : list (string * string) :=
  [("CHECKPOINT", "deepseek-ai/DeepSeek-V4.1-Flash");
   ("CHECKPOINT_REVISION", "dba1be0a40aa45a94ad051997016db3960a90277");
   ("VLLM_SOURCE_REVISION", "ac68c3087215e0a4f3cdfa218508c6aada57235d");
   ("VLLM_BASE_DIGEST", "sha256:98adb2311118263a453ec0acd5d4b72bda3db26cecc0fe8ffc94b9ab03c951f9");
   ("VLLM_IMAGE_ID", FAILED_IMAGE); ("TP", "8"); ("GPU_MEMORY_UTILIZATION", "0.85");
   ("ENGRAM_CPU_OFFLOAD", "true"); ("MAX_MODEL_LEN", "32768"); ("MAX_NUM_SEQS", "2");
   ("MAX_NUM_BATCHED_TOKENS", "4096"); ("TOKENIZER_MODE", "deepseek_v41"); ("REASONING_PARSER", "deepseek_v41");
   ("TOOL_CALL_PARSER", "deepseek_v41"); ("LANGUAGE_MODEL_ONLY", "true"); ("HOST_RAM_LIMIT_GIB", "1024");
   ("MIN_GPU_FREE_MIB", "3072")].

Example committed_env_loads : load_config (committed_env committed_config) = Ok committed_config.
Proof. vm_compute. reflexivity. Qed.

(** On a card whose free memory is reported in whole MiB, the float arithmetic decides
    for this total as exact arithmetic does. *)
Definition decides_exactly (total : Z) : bool :=
  match float_of_string "0.85" with
  | Ok utilization =>
      match headroom (float_of_Z total) utilization (float_of_Z 3072) with
      | S754_finite false m e =>
          isfinite (float_of_Z total) && Z.ltb e 0
          && Z.eqb ((Z.pos m - 1) / 2 ^ (- e)) ((85 * total + 307200 - 1) / 100)
      | _ => false
      end
  | Raise _ => false
  end.

Lemma le_div_iff a b n : (0 < b)%Z -> (b * n <= a)%Z <-> (n <= a / b)%Z.
Proof. intros Hb. split; [by apply Z.div_le_lower_bound|]. intros H. pose proof (Z.mul_div_le a b Hb). nia. Qed.

Lemma exact_decision total free : decides_exactly total = true ->
  short_of_headroom committed_config total free = Ok (Z.ltb (100 * free) (85 * total + 307200)).
Proof.
  unfold decides_exactly, short_of_headroom. intros H.
  change (setting committed_config "GPU_MEMORY_UTILIZATION") with (Ok "0.85").
  change (setting committed_config "MIN_GPU_FREE_MIB") with (Ok "3072"). cbn [mbind result_bind].
  destruct (float_of_string "0.85") as [u|]; [|done]. cbn [mbind result_bind].
  change (int_of_text "3072") with (Ok 3072%Z). cbn [mbind result_bind].
  change (int_to_float 3072) with (Ok (float_of_Z 3072)). unfold int_to_float.
  destruct (headroom _ _ _) as [| | |[] m e] eqn:Eh; try done.
  apply andb_true_iff in H as [H Heq]. apply andb_true_iff in H as [Hf He].
  apply Z.ltb_lt in He. apply Z.eqb_eq in Heq. rewrite Hf. cbn [mbind result_bind]. rewrite Eh. f_equal.
  unfold fgt_Z, compare_Z. rewrite (proj2 (Z.leb_gt 0 e)) by done.
  assert (Hp : (0 < 2 ^ (- e))%Z) by (apply Z.pow_pos_nonneg; lia).
  pose proof (le_div_iff (Z.pos m - 1) (2 ^ (- e)) free Hp) as H1.
  pose proof (le_div_iff (85 * total + 307200 - 1) 100 free ltac:(lia)) as H2. rewrite <- Heq in H2.
  assert (Hm : (free * 2 ^ (- e) < Z.pos m)%Z <-> (100 * free < 85 * total + 307200)%Z) by lia.
  destruct (Z.compare_spec (Z.pos m) (free * 2 ^ (- e))) as [Hc|Hc|Hc]; symmetry;
    [apply Z.ltb_ge|apply Z.ltb_ge|apply Z.ltb_lt]; lia.
Qed.

(** The totals, in MiB, that a card of 80 GiB may report. *)
Fixpoint from (first : Z) (count : nat) : list Z :=
  match count with O => [] | S n => first :: from (first + 1) n end.

Lemma elem_of_from n first x : (first <= x < first + Z.of_nat n)%Z -> x ∈ from first n.
Proof.
  revert first. induction n as [|n IH]; intros first H; [lia|]. cbn [from]. apply elem_of_cons.
  destruct (decide (x = first)) as [->|]; [by left|]. right. apply IH. lia.
Qed.

Lemma cards_decide : forallb decides_exactly (from 81000 921) = true.
Proof. vm_compute. reflexivity. Qed.

(** The GPU gate is exact.  With the committed settings, on a card that reports
    between 81000 and 81920 MiB, the float comparison of the launcher refuses exactly
    the cards whose free memory is below 85 % of the total and 3072 MiB. *)
Theorem gpu_gate_is_exact total free (H : (81000 <= total <= 81920)%Z) :
  short_of_headroom committed_config total free = Ok (Z.ltb (100 * free) (85 * total + 307200)).
Proof.
  apply exact_decision. pose proof cards_decide as Hc. rewrite forallb_forall in Hc. apply Hc.
  apply list_elem_of_In, elem_of_from. lia.
Qed.

Lemma gpu_gate_is_exact_witness :
  short_of_headroom committed_config 81559 72398 = Ok false /\ short_of_headroom committed_config 81559 72397 = Ok true.
Proof.
  split; [rewrite (gpu_gate_is_exact 81559 72398)|rewrite (gpu_gate_is_exact 81559 72397)]; first [lia|reflexivity].
Defined.

(** ** What a checked checkpoint is *)

Section facts.
Context {E : Type} {host : LaunchHost E}.

(** The item's file was read, inside the model's directory, with the pinned
    identity. *)
Definition pinned_item (model : path) (item : json) : Prop :=
  exists relative lfs size pin text,
    relative_path item = Ok relative /\ is_absolute relative = false /\ ".." ∉ path_tail relative
    /\ subscript item "size" = Ok size /\ subscript item "lfs_sha256" = Ok lfs /\ item_pin item lfs = Ok pin
    /\ let p := below model (path_tail relative) in
       (exists e e', content p e = (Ok text, e'))
       /\ string_is (Some pin) (item_digest size lfs text) = true
       /\ (exists e e', is_symlink p e = (Ok false, e')) /\ (exists e e', is_file p e = (Ok true, e'))
       /\ (exists e e' measured, file_size p e = (Ok measured, e') /\ equals_int measured (Some size) = true)
       /\ exists e e' target, resolve p e = (Ok target, e') /\ is_relative_to target model = true.

(** What was found below the model's directory is no link, and a file only if the
    manifest lists it or it is the hub's own. *)
Definition no_stray (model : path) (expected : list json) (parts : list string) : Prop :=
  (exists e e', is_symlink (below model parts) e = (Ok false, e'))
  /\ exists e e' file, is_file (below model parts) e = (Ok file, e') /\ (file = true -> known_file expected parts = true).

Lemma io_or_false (a b : io E bool) e e' :
  io_or a b e = (Ok false, e') -> exists e1, a e = (Ok false, e1) /\ b e1 = (Ok false, e').
Proof.
  unfold io_or. intros H. apply io_bind_ok in H as (x & e1 & Ha & H). destruct x; [done|]. by exists e1.
Qed.

Lemma misplaced_false model p item e e' : misplaced model p item e = (Ok false, e') ->
  (exists e1, is_symlink p e = (Ok false, e1)) /\ (exists e1 e2, is_file p e1 = (Ok true, e2))
  /\ (exists e1 e2 target, resolve p e1 = (Ok target, e2) /\ is_relative_to target model = true)
  /\ exists e1 e2 measured size, file_size p e1 = (Ok measured, e2) /\ subscript item "size" = Ok size
       /\ equals_int measured (Some size) = true.
Proof.
  intros H. apply io_or_false in H as (e1 & H1 & H). apply io_or_false in H as (e2 & H2 & H).
  apply io_or_false in H as (e3 & H3 & H). split; [by exists e1|].
  apply io_bind_ok in H2 as (file & e4 & H2 & Hf). injection Hf as Hf _. apply negb_false_iff in Hf. subst file.
  apply io_bind_ok in H3 as (target & e5 & H3 & Ht). injection Ht as Ht _. apply negb_false_iff in Ht.
  apply io_bind_ok in H as (measured & e6 & H & Hs). apply io_bind_ok in Hs as (size & e7 & Hs & Hq).
  apply lift_ok in Hs as [Hs ->]. injection Hq as Hq _. apply negb_false_iff in Hq.
  split; [by exists e1, e4|]. split; [by exists e2, e5, target|]. by exists e3, e6, measured, size.
Qed.

Lemma verify_item_ok model item e e' : verify_item model item e = (Ok tt, e') -> pinned_item model item.
Proof.
  unfold verify_item. intros H. apply io_bind_ok in H as (relative & w & Hr & H). apply lift_ok in Hr as [Hr ->].
  apply io_bind_ok in H as (u & w & Hu & H). apply lift_ok in Hu as [Hu ->]. apply raise_if_ok in Hu. cbv zeta in H.
  apply io_bind_ok in H as (refused & e1 & Hm & H). apply io_bind_ok in H as (u' & w & Hu' & H).
  apply lift_ok in Hu' as [Hu' ->]. apply raise_if_ok in Hu'. subst refused.
  apply io_bind_ok in H as (lfs & w & Hl & H). apply lift_ok in Hl as [Hl ->].
  apply io_bind_ok in H as (size & w & Hs & H). apply lift_ok in Hs as [Hs ->].
  apply io_bind_ok in H as (text & e2 & Ht & H). apply io_bind_ok in H as (pin & w & Hp & H).
  apply lift_ok in Hp as [Hp ->]. apply lift_ok in H as [H _]. apply raise_if_ok, negb_false_iff in H.
  apply misplaced_false in Hm as ((e3 & Hm1) & (e4 & e5 & Hm2) & Hm3 & (e6 & e7 & measured & size' & Hm4 & Hs' & Hq)).
  rewrite Hs in Hs'. injection Hs' as <-. bool_hyps. exists relative, lfs, size, pin, text.
  repeat (split; [done|]). cbv zeta. split; [by exists e1, e2|]. split; [done|].
  split; [by exists e, e3|]. split; [by exists e4, e5|]. split; [by exists e6, e7, measured|].
  destruct Hm3 as (e8 & e9 & target & Hm3). by exists e8, e9, target.
Qed.

Lemma verify_items_ok model items : forall e e', verify_items model items e = (Ok tt, e') -> Forall (pinned_item model) items.
Proof.
  induction items as [|item items IH]; intros e e' H; [constructor|]. cbn [verify_items] in H.
  apply io_bind_ok in H as ([] & e1 & H1 & H). constructor; [by eapply verify_item_ok|by eapply IH].
Qed.

Lemma no_strays_ok model expected found : forall e e',
  no_strays model expected found e = (Ok tt, e') -> Forall (no_stray model expected) found.
Proof.
  induction found as [|parts found IH]; intros e e' H; [constructor|]. cbn [no_strays] in H.
  apply io_bind_ok in H as (linked & e1 & Hl & H). apply io_bind_ok in H as (u & w & Hu & H).
  apply lift_ok in Hu as [Hu ->]. apply raise_if_ok in Hu. subst linked.
  apply io_bind_ok in H as (file & e2 & Hf & H). apply io_bind_ok in H as (u' & w & Hu & H).
  apply lift_ok in Hu as [Hu ->]. apply raise_if_ok in Hu. constructor; [|by eapply IH].
  split; [by exists e, e1|]. exists e1, e2, file. split; [done|]. intros ->. cbn in Hu. by apply negb_false_iff in Hu.
Qed.

Lemma disagrees_ok manifest key config name : disagrees manifest key config name = Ok false ->
  exists j wanted, subscript manifest key = Ok j /\ assoc name config = Some wanted /\ string_is (Some j) wanted = true.
Proof.
  unfold disagrees, setting. intros H. apply bind_ok in H as (j & Hj & H). apply bind_ok in H as (wanted & Hw & H).
  injection H as H. apply negb_false_iff in H. exists j, wanted. split; [done|]. split; [|done].
  destruct (assoc name config); [by injection Hw as ->|discriminate Hw].
Qed.

(** A verified checkpoint is the pinned upstream revision.  When the verification
    succeeds, the manifest names the model and the revision of the settings; every
    file it lists was read, as an ordinary file inside the model's directory and of
    the listed size, with its SHA-256 or Git blob identity; and nothing else was found
    there: no link, and no further file but the hub's own. *)
Theorem verified_checkpoint_is_pinned loads_text model config (e : E) count e'
    (H : verify_checkpoint loads_text model config e = (Ok count, e')) :
  exists manifest id revision files items expected found,
    subscript manifest "model_id" = Ok (JStr id) /\ assoc "CHECKPOINT" config = Some id
    /\ subscript manifest "revision" = Ok (JStr revision) /\ assoc "CHECKPOINT_REVISION" config = Some revision
    /\ subscript manifest "files" = Ok files /\ items_of files = Ok items /\ count = lenZ items
    /\ mapR expected_path items = Ok expected
    /\ Forall (pinned_item model) items
    /\ (exists e1 e2, walk model e1 = (Ok found, e2)) /\ Forall (no_stray model expected) found.
Proof.
  unfold verify_checkpoint in H. apply io_bind_ok in H as (text & e1 & _ & H).
  apply io_bind_ok in H as (manifest & w & _ & H). apply io_bind_ok in H as (other_model & w1 & Ho & H).
  apply lift_ok in Ho as [Ho ->]. apply io_bind_ok in H as (other & w1 & Hr & H). apply lift_ok in Hr as [Hr ->].
  apply io_bind_ok in H as (u & w1 & Hu & H). apply lift_ok in Hu as [Hu ->]. apply raise_if_ok in Hu. subst other.
  destruct other_model; [done|]. apply disagrees_ok in Ho as (j1 & id & Hj1 & Hid & Hs1).
  apply disagrees_ok in Hr as (j2 & revision & Hj2 & Hrev & Hs2).
  apply io_bind_ok in H as (files & w1 & Hf & H). apply lift_ok in Hf as [Hf ->].
  apply io_bind_ok in H as (items & w1 & Hi & H). apply lift_ok in Hi as [Hi ->].
  apply io_bind_ok in H as (expected & w1 & He & H). apply lift_ok in He as [He ->].
  apply io_bind_ok in H as (found & e2 & Hw & H). apply io_bind_ok in H as ([] & e3 & Hn & H).
  apply io_bind_ok in H as ([] & e4 & Hv & H). injection H as <- _.
  destruct j1; try discriminate Hs1. cbn in Hs1. apply String.eqb_eq in Hs1. subst.
  destruct j2; try discriminate Hs2. cbn in Hs2. apply String.eqb_eq in Hs2. subst.
  exists manifest, id, revision, files, items, expected, found. repeat (split; [done|]).
  split; [by eapply verify_items_ok|]. split; [by exists w, e2|]. by eapply no_strays_ok.
Qed.
End facts.

(** ** What a launch issues *)

Section gates.
Context {E : Type} {host : LaunchHost E} (loads_text : string -> result json).

Lemma wp_issuing {A} command (m : io E A) (Q : result A -> launch_log * E -> Prop) l e :
  (forall r e', m e = (r, e') -> Q r (mkLaunchLog (ll_printed l) (ll_issued l ++ [command])%list, e')) ->
  wp (issuing command m) Q (l, e).
Proof. intros H. unfold wp, issuing, beside. destruct (m e) as [r e'] eqn:Em. by apply H. Qed.

(** The settings [config] were read from the committed file. *)
Definition read_config (config : list (string * string)) : Prop :=
  exists (e e' : E) text, sibling "h100-production.env" e = (Ok text, e') /\ load_config text = Ok config.

(** The measurements went through. *)
Definition host_measured (config : list (string * string)) : Prop :=
  (exists (e e' : E) rows, check_output gpu_query 15 e = (Ok rows, e') /\ measured_gpus config (splitlines rows) = Ok tt)
  /\ exists (e e' : E) text memory, content (mkPath "/" ["proc"; "meminfo"]) e = (Ok text, e')
       /\ memory_of text = Ok memory /\ host_is_short config memory = Ok false.

(** The commands of a launch, in order. *)
Definition launch_commands (image : string) (command : list string) : list (list string) :=
  [image_inspection image; gpu_query; command].

Lemma measure_issues config image l e : ll_issued l = [] -> assoc "VLLM_IMAGE_ID" config = Some image ->
  wp (measure_host config)
     (fun r w' => exists n, ll_issued (fst w') = firstn n [image_inspection image; gpu_query] /\ n <= 2
                            /\ (is_ok r = true -> n = 2 /\ host_measured config)) (l, e).
Proof.
  intros Hl Hi. unfold measure_host, setting. rewrite Hi. cbn [lift]. apply wp_bind, wp_lift.
  apply wp_bind, wp_issuing. intros [[]|x] e1 _; [|exists 1; cbn [fst ll_issued]; rewrite Hl; split; [done|split; [lia|done]]]. cbn [ll_printed ll_issued]. rewrite Hl.
  apply wp_bind, wp_issuing. intros [rows|x] e2 Hq; [|by exists 2]. cbn [ll_printed ll_issued].
  apply wp_bind, wp_lift. destruct (measured_gpus config (splitlines rows)) as [[]|x] eqn:Eg; [|by exists 2].
  apply wp_bind, wp_beside. intros [text|x] e3 Ht; [|by exists 2].
  apply wp_bind, wp_lift. destruct (memory_of text) as [memory|x] eqn:Em; [|by exists 2].
  apply wp_bind, wp_lift. destruct (host_is_short config memory) as [short|x] eqn:Es; [|by exists 2].
  apply wp_lift. exists 2. split; [done|]. split; [done|]. destruct short; [done|]. intros _. split; [done|].
  split; [by exists e1, e2, rows|]. by exists e2, e3, text, memory.
Qed.

(** What allows a launch to issue [command]. *)
Record launch_allowed (args : launch_args) (config : list (string * string)) (model cache : path) (image : string)
    (command : list string) : Prop := {
  al_execute : la_execute args = true /\ la_server_args args = false;
  al_config : read_config config;
  al_scoped : scoped args = true;
  al_apart : is_relative_to model cache = false /\ is_relative_to cache model = false;
  al_image : assoc "VLLM_IMAGE_ID" config = Some image /\ image <> FAILED_IMAGE;
  al_command : launch_command args config model cache = Ok command;
  al_checkpoint : exists (e e' : E) count, verify_checkpoint loads_text model config e = (Ok count, e') }.

Lemma io_or_runs {W} (a b : io W bool) w w' :
  io_or a b w = (Ok false, w') -> exists w1, b w1 = (Ok false, w').
Proof. unfold io_or. intros H. apply io_bind_ok in H as (x & w1 & _ & H). destruct x; [done|]. by exists w1. Qed.

Lemma directories_apart args e model cache e' : directories args e = (Ok (model, cache), e') ->
  is_relative_to model cache = false /\ is_relative_to cache model = false.
Proof.
  unfold directories. intros H. apply io_bind_ok in H as (m & e1 & _ & H). apply io_bind_ok in H as (c & e2 & _ & H).
  apply io_bind_ok in H as (refused & e3 & Hr & H). apply io_bind_ok in H as (u & w & Hu & H).
  apply lift_ok in Hu as [Hu ->]. apply raise_if_ok in Hu. subst refused. injection H as <- <- _.
  apply io_or_runs in Hr as (w1 & Hr). apply io_or_runs in Hr as (w2 & Hr). injection Hr as Hr _. by bool_hyps.
Qed.

Lemma prepare_launch_ok args config e model command e' : prepare_launch args config e = (Ok (model, command), e') ->
  scoped args = true /\ exists cache, is_relative_to model cache = false /\ is_relative_to cache model = false
                                      /\ launch_command args config model cache = Ok command.
Proof.
  unfold prepare_launch. intros H. apply io_bind_ok in H as ([m c] & e1 & Hd & H).
  apply io_bind_ok in H as (u & w & Hu & H). apply lift_ok in Hu as [Hu ->]. apply raise_if_ok, negb_false_iff in Hu.
  apply io_bind_ok in H as (command' & w1 & Hc & H). apply lift_ok in Hc as [Hc ->]. injection H as -> -> _.
  split; [done|]. exists c. by apply directories_apart in Hd as [??].
Qed.

(** C21: A launch is gated.  Whatever becomes of the launcher, it has issued nothing, or
    it was asked to execute, with a scoped name and a loopback port, on distinct
    directories, from the committed settings, whose image is not the known failed one,
    and the checkpoint had been verified.  What it issued is then a prefix of: the
    inspection of that image, the query of the GPUs, and the one [docker run] built
    from those settings; the last only after the GPUs and the host's memory had been
    measured and found to fit. *)
Theorem launch_is_gated args e :
  wp (launch_main loads_text args)
     (fun _ w' => ll_issued (fst w') = []
        \/ exists config model cache image command n,
             launch_allowed args config model cache image command
             /\ ll_issued (fst w') = firstn n (launch_commands image command)
             /\ (n = 3 -> host_measured config) /\ n <= 3) (begin_launch, e).
Proof.
  unfold launch_main. apply wp_bind, wp_beside. intros [text|x] e1 Ht; [|by left].
  apply wp_bind, wp_lift. destruct (load_config text) as [config|x] eqn:Ec; [|by left].
  assert (Hconfig : read_config config) by (by exists e, e1, text).
  destruct (la_server_args args) eqn:Hsa.
  { apply wp_bind, wp_lift. destruct (server_args config); by left. }
  apply wp_bind, wp_beside. intros [[model command]|x] e2 Hp; [|by left].
  apply prepare_launch_ok in Hp as (Hs & cache & Ha1 & Ha2 & Hcmd).
  destruct (la_execute args) eqn:Hex; [|by left]. cbn [negb]. unfold execute_launch.
  apply wp_bind, wp_lift. unfold setting. destruct (assoc "VLLM_IMAGE_ID" config) as [image|] eqn:Hi; [|by left].
  apply wp_bind, wp_lift. destruct (String.eqb_spec image FAILED_IMAGE) as [|Hne]; [by left|]. cbn [raise_if].
  apply wp_bind, wp_beside. intros [count|x] e3 Hv; [|by left].
  assert (Hall : launch_allowed args config model cache image command) by (constructor; [done..|by exists e2, e3, count]).
  apply wp_bind. unfold print_line. unfold wp at 1. cbn [fst snd]. apply wp_bind.
  eapply wp_mono; [by apply (measure_issues config image)|]. intros r [l1 e4] (n & Hl & Hn & Hm). cbn [fst] in Hl.
  destruct r as [[]|x].
  - destruct (Hm eq_refl) as [-> Hmeasured]. apply wp_issuing. intros r e5 _. right.
    exists config, model, cache, image, command, 3. cbn [fst ll_issued]. rewrite Hl.
    split; [done|]. split; [done|]. split; [done|lia].
  - right. exists config, model, cache, image, command, n. cbn [fst]. split; [done|]. split.
    + rewrite Hl. by destruct n as [|[|[|]]]; [..|lia].
    + split; [intros ->; lia|lia].
Qed.
End gates.

(** ** A small host *)

(** A directory [/model] with two pinned files and one of the hub's own, and the host's
    memory. *)
Definition checkpoint_files : tree :=
  mkTree (mkPath "/" []) [(["model"; "weights"], "weights"); (["model"; "config.json"], "{}");
                          (["model"; ".cache"; "huggingface"; "x"], "");
                          (["proc"; "meminfo"],
                           join line_feed ["MemTotal:       2113536000 kB"; "MemFree: 5 kB"; "MemAvailable:   2000000000 kB";
                                           "SwapTotal: 0 kB"; "SwapFree: 0 kB"])].

Definition checkpoint_manifest : json :=
  Eval vm_compute in
  JObj [("model_id", JStr "deepseek-ai/DeepSeek-V4.1-Flash");
        ("revision", JStr "dba1be0a40aa45a94ad051997016db3960a90277");
        ("files", JArr [JObj [("path", JStr "weights"); ("size", JInt 7); ("git_blob_id", JStr "");
                              ("lfs_sha256", JStr (sha256_hex "weights"))];
                        JObj [("path", JStr "config.json"); ("size", JInt 2); ("git_blob_id", JStr (git_blob_id "{}"));
                              ("lfs_sha256", JNull)]])].

(** A host with these settings, whose GPUs report [row]. *)
Definition small_host (env row : string) : LaunchHost tree := {|
  lh_files := tree_files;
  resolve p t := (Ok p, t);
  is_dir p t := (Ok true, t);
  sibling name t := (Ok (if String.eqb name "h100-production.env" then env else print canonical_options checkpoint_manifest), t);
  run _ _ t := (Ok tt, t);
  check_output _ _ t := (Ok (join line_feed (repeat row 8)), t) |}.

Definition rebuilt_config : list (string * string) := dict_set "VLLM_IMAGE_ID" "sha256:rebuilt" committed_config.

Definition small_args : launch_args :=
  mkLaunchArgs (mkPath "/" ["model"]) (mkPath "/" ["cache"]) default_name default_port true false.

Definition launched (config : list (string * string)) (row : string) (args : launch_args) : result unit * list (list string) :=
  let '(r, (l, _)) := launch_main (host := small_host (committed_env config) row) loads args (begin_launch, checkpoint_files) in
  (r, ll_issued l).

Lemma verified_checkpoint_is_pinned_witness :
  exists items : list json, length items = 2 /\ Forall (pinned_item (host := small_host "" "") (mkPath "/" ["model"])) items.
Proof.
  destruct (@verified_checkpoint_is_pinned tree (small_host "" "") loads (mkPath "/" ["model"]) committed_config
              checkpoint_files 2 checkpoint_files) as (m & i & r & fs & items & x & f & _ & _ & _ & _ & _ & _ & Hc & _ & Hp & _);
    [vm_compute; reflexivity|].
  exists items. split; [unfold lenZ in Hc; lia|exact Hp].
Defined.

(** With a rebuilt image the launcher goes all the way; with the committed settings,
    with a GPU below the headroom, or without [--execute], no container is started. *)
Example launches_run :
  match launch_command small_args rebuilt_config (mkPath "/" ["model"]) (mkPath "/" ["cache"]) with
  | Ok command =>
      launched rebuilt_config "81559, 80000" small_args = (Ok tt, launch_commands "sha256:rebuilt" command)
      /\ snd (launched rebuilt_config "81559, 72397" small_args) = [image_inspection "sha256:rebuilt"; gpu_query]
  | Raise _ => False
  end
  /\ launched committed_config "81559, 80000" small_args
     = (raise RuntimeError "known failed compiler preflight; rebuild, scan and repin before execution", [])
  /\ launched rebuilt_config "81559, 80000" (mkLaunchArgs (mkPath "/" ["model"]) (mkPath "/" ["cache"]) default_name 18000 false false)
     = (Ok tt, [])
  /\ is_ok (fst (launched rebuilt_config "81559, 80000" (mkLaunchArgs (mkPath "/" ["model"]) (mkPath "/" ["model"; "c"]) default_name 18000 true false)))
     = false.
Proof. vm_compute. by repeat split. Qed.
