(* ===== verification/Probes.v ===== *)
(** * Probes of a running candidate ([scripts/measure_private_core.py],
      [scripts/probe_private_core.py], [scripts/probe_live_models.py])

    The load pilot with its nearest-rank percentiles and its predeclared abort, the
    smoke and security checks of the private interface, and the drill of the two model
    servers.  The settings, the clock and the HTTP exchanges are seen through
    [ProbeHost]; the thread pool of the pilot is a parameter. *)

From Stdlib Require Import Lia ZArith Ascii String Sorted.
From stdpp Require Import base option strings gmap list sorting.
From S2P Require Import Prelude Effects PyFloat PySort PyStr PyNumber Json SystemOne Providers EnvFile Rollout CalibrationFit.
From S2P Require Import Invocations ProductionHost ReleaseIdentity DeepseekLaunch.

Local Open Scope string_scope.

Record probe_request : Type := mkProbeRequest {
  pr_method : string; pr_url : string; pr_token : option string; pr_payload : option json; pr_timeout : option Z }.

(** An exchange gives the status and the body's text; the client's exceptions are
    [OSError]s. *)
Class ProbeHost (E : Type) : Type := {
  pb_config : io E string;
  pb_clock : io E float;
  pb_exchange : probe_request -> io E (Z * string) }.

(** ["http://127.0.0.1:" + config.get("PORT", "8088")]. *)
Definition probe_base (config : list (string * string)) : string :=
  "http://127.0.0.1:" ++ default "8088" (assoc "PORT" config).

(** [round((end - started) * 1000, 2)]. *)
Definition rounded_ms (started ended : float) : float := py_round (fmul (fsub ended started) (float_of_Z 1000)) 2.

(** ** The load pilot *)

(** A request's status and its latency in milliseconds. *)
Definition measurement : Type := string * float.

Definition EXPECTED_STATUSES : list string := ["200"; "429"; "503"].
Definition CONCURRENCIES : list Z := [1%Z; 10%Z; 25%Z; 50%Z; 100%Z].

Definition rank_payload : json :=
  JObj [("state", JStr "An invoice was charged twice."); ("candidates", JArr [JStr "Billing"; JStr "Technical"])].

(** [sorted(latency for status, latency in results if status == "200")]. *)
Definition successful (results : list measurement) : list float :=
  sorted_by flt (map snd (List.filter (fun m => String.eqb (fst m) "200") results)).

(** [dict(Counter(status for status, _ in results))]. *)
Definition status_counts (results : list measurement) : list (string * Z) :=
  map (fun kv => (fst kv, lenZ (snd kv))) (group_by fst results).

(** [values[i]]. *)
Definition at_index (values : list float) (i : Z) : result float :=
  k ← resolve_index i (lenZ values);
  match values !! k with Some x => Ok x | None => raise IndexError "list index out of range" end.

Definition median_index (n : Z) : Z := (n - 1) / 2.

(** [math.ceil(n * .95) - 1]. *)
Definition p95_index (n : Z) : result Z :=
  x ← int_to_float n; c ← ceil (fmul x (float_of_decimal 95 (-2))); Ok (c - 1)%Z.

(** [None if not values else round(values[i], 2)]. *)
Definition percentile (values : list float) (index : result Z) : result (option float) :=
  match values with
  | [] => Ok None
  | _ => i ← index; x ← at_index values i; Ok (Some (py_round x 2))
  end.

Record load_profile : Type := mkProfile {
  lp_concurrency : Z; lp_requests : Z; lp_statuses : list (string * Z); lp_elapsed : float; lp_rate : float;
  lp_p50 : option float; lp_p95 : option float }.

Definition make_profile (concurrency : Z) (results : list measurement) (elapsed : float) : result load_profile :=
  let values := successful results in
  count ← int_to_float (lenZ values);
  rate ← fdiv count elapsed;
  p50 ← percentile values (Ok (median_index (lenZ values)));
  p95 ← percentile values (p95_index (lenZ values));
  Ok (mkProfile concurrency (lenZ results) (status_counts results) (py_round elapsed 3) (py_round rate 3) p50 p95).

(** [any(status not in {"200", "429", "503"} for status in counts)]. *)
Definition unexpected (p : load_profile) : bool :=
  existsb (fun kv => negb (bool_decide (fst kv ∈ EXPECTED_STATUSES))) (lp_statuses p).

Definition percentile_json (p : option float) : json := match p with Some x => JFloat x | None => JNull end.

Definition profile_json (p : load_profile) : json :=
  JObj [("concurrency", JInt (lp_concurrency p)); ("requests", JInt (lp_requests p));
        ("statuses", JObj (map (fun kv => (fst kv, JInt (snd kv))) (lp_statuses p)));
        ("elapsed_seconds", JFloat (lp_elapsed p)); ("successful_requests_per_second", JFloat (lp_rate p));
        ("successful_p50_ms", percentile_json (lp_p50 p)); ("successful_p95_ms", percentile_json (lp_p95 p))].

Definition pilot_report (taken : list load_profile * bool) : json :=
  if snd taken
  then JObj [("scope", JStr "private_synthetic_load_pilot"); ("aborted", JBool true);
             ("profiles", JArr (map profile_json (fst taken)))]
  else JObj [("scope", JStr "private_synthetic_load_pilot_not_slo_or_canary");
             ("currency_cost", JStr "unqualified_no_billing_allocation"); ("profiles", JArr (map profile_json (fst taken)))].

Section pilot.
Context {E : Type} {host : ProbeHost E}.
Context (gather : Z -> io E measurement -> io E (list measurement)).

(** [call]. *)
Definition load_call (base token : string) : io E measurement :=
  started ← pb_clock;
  status ← io_try (reply ← pb_exchange (mkProbeRequest "POST" (base ++ "/v1/c3r/rank") (Some token) (Some rank_payload) (Some 15%Z));
                   mret (str_of_Z (fst reply)))
             [OSError] (fun _ => mret "transport_failure");
  ended ← pb_clock;
  mret (status, fmul (fsub ended started) (float_of_Z 1000)).

(** One turn of the loop. *)
Definition measure_profile (base token : string) (concurrency : Z) : io E load_profile :=
  started ← pb_clock;
  results ← gather concurrency (load_call base token);
  ended ← pb_clock;
  lift (make_profile concurrency results (fsub ended started)).

(** The loop: the profiles taken, and whether the pilot was aborted. *)
Fixpoint run_pilot (base token : string) (concurrencies : list Z) : io E (list load_profile * bool) :=
  match concurrencies with
  | [] => mret ([], false)
  | concurrency :: rest =>
      profile ← measure_profile base token concurrency;
      if unexpected profile then mret ([profile], true)
      else more ← run_pilot base token rest; mret (profile :: fst more, snd more)
  end.

(** [main]: the report printed and how it exits. *)
Definition measure_main : io E (json * result unit) :=
  text ← pb_config;
  config ← lift (env_of_text text);
  token ← lift (setting config "C3R_CLIENT_TOKEN");
  taken ← run_pilot (probe_base config) token CONCURRENCIES;
  mret (pilot_report taken, raise_if (snd taken) OtherException "1").
End pilot.

(** ** What a profile says *)

Lemma below_rank (l : list float) i x : StronglySorted (not_after flt) l -> l !! i = Some x ->
  S i <= length (List.filter (fun y => negb (flt x y)) l) /\ length (List.filter (fun y => flt y x) l) <= i.
Proof.
  intros Hs. revert i. induction Hs as [|y l Hs IH Hy]; intros i Hi; [done|].
  rewrite Forall_forall in Hy. cbn [List.filter]. destruct i as [|i]; cbn in Hi.
  - injection Hi as ->. rewrite flt_irrefl. cbn [negb length]. split; [lia|].
    assert (Hn : List.filter (fun y => flt y x) l = []); [|by rewrite Hn].
    clear IH Hs. induction l as [|z l IH]; [done|]. cbn [List.filter].
    rewrite (Hy z) by set_solver. apply IH. intros w Hw. apply Hy. set_solver.
  - destruct (IH i Hi) as [H1 H2]. assert (Hx : flt x y = false) by (apply Hy; by eapply list_elem_of_lookup_2).
    rewrite Hx. cbn [negb length]. split; [lia|]. destruct (flt y x); cbn [length]; lia.
Qed.

(** The nearest rank of 95 %. *)
Definition rank_is_nearest (n : Z) : bool :=
  match p95_index n with
  | Ok i => Z.leb 0 i && Z.ltb i n && Z.leb (95 * n) (100 * (i + 1)) && Z.ltb (100 * i) (95 * n)
  | Raise _ => false
  end.

Lemma ranks_are_nearest : forallb rank_is_nearest (from 1 100) = true.
Proof. vm_compute. reflexivity. Qed.

Lemma at_index_ok values i : (0 <= i < lenZ values)%Z ->
  exists x, values !! Z.to_nat i = Some x /\ at_index values i = Ok x.
Proof.
  intros Hi. unfold at_index, resolve_index.
  destruct (lookup_lt_is_Some_2 values (Z.to_nat i)) as [x Hx]; [unfold lenZ in Hi; lia|].
  exists x. split; [done|]. rewrite (proj2 (Z.leb_le _ _)), (proj2 (Z.ltb_lt i _)) by lia. cbn [andb mbind result_bind].
  rewrite (proj2 (Z.ltb_ge i 0)) by lia. by rewrite Hx.
Qed.

Lemma successful_sorted results : Forall (fun m => is_nan (snd m) = false) results ->
  StronglySorted (not_after flt) (successful results).
Proof.
  intros H. unfold successful. apply (sorted_by_sorted flt (fun x => is_nan x = false)).
  rewrite Forall_forall in H. apply Forall_forall. intros x Hx. apply list_elem_of_fmap in Hx as (m & -> & Hm). apply H.
  apply list_elem_of_In, List.filter_In in Hm as [Hm _]. by apply list_elem_of_In.
Qed.

(** A percentile of a profile is an order statistic of the successful latencies: at
    least the share [num / 100] of them does not exceed it, and less than that share is
    below it.  Up to a hundred requests, the float product rounds to the right rank. *)
Definition nearest_rank (num : Z) (values : list float) (x : float) : Prop :=
  x ∈ values
  /\ (num * lenZ values <= 100 * lenZ (List.filter (fun y => negb (flt x y)) values))%Z
  /\ (100 * lenZ (List.filter (fun y => flt y x) values) < num * lenZ values)%Z.

Lemma percentile_is_rank num values i : (0 < num)%Z -> StronglySorted (not_after flt) values ->
  (0 <= i < lenZ values)%Z -> (num * lenZ values <= 100 * (i + 1))%Z -> (100 * i < num * lenZ values)%Z ->
  exists x, percentile values (Ok i) = Ok (Some (py_round x 2)) /\ nearest_rank num values x.
Proof.
  intros Hnum Hs Hi H1 H2. destruct (at_index_ok values i Hi) as (x & Hx & Hat). exists x. split.
  - unfold percentile. destruct values; [unfold lenZ in Hi; cbn in Hi; lia|]. cbn [mbind result_bind]. by rewrite Hat.
  - destruct (below_rank values (Z.to_nat i) x Hs Hx) as [Hle Hlt]. split; [by eapply list_elem_of_lookup_2|].
    unfold lenZ in *. split; lia.
Qed.

Theorem percentiles_are_nearest_ranks concurrency results elapsed p :
  Forall (fun m => is_nan (snd m) = false) results -> successful results <> [] -> (lenZ results <= 100)%Z ->
  make_profile concurrency results elapsed = Ok p ->
  exists x y, nearest_rank 50 (successful results) x /\ lp_p50 p = Some (py_round x 2)
    /\ nearest_rank 95 (successful results) y /\ lp_p95 p = Some (py_round y 2).
Proof.
  intros Hn Hne Hlen H. set (n := lenZ (successful results)).
  assert (Hb : (1 <= n <= 100)%Z).
  { split; [unfold n, lenZ; destruct (successful results); [done|cbn; lia]|]. etransitivity; [|exact Hlen].
    unfold n, lenZ, successful. rewrite length_sorted_by, length_map.
    pose proof (List.filter_length_le (fun m => String.eqb (fst m) "200") results). lia. }
  pose proof (successful_sorted results Hn) as Hs.
  assert (Hr : rank_is_nearest n = true).
  { pose proof ranks_are_nearest as Hr. rewrite forallb_forall in Hr. apply Hr, list_elem_of_In, elem_of_from. lia. }
  unfold rank_is_nearest in Hr. destruct (p95_index n) as [i|] eqn:Ei; [|done]. bool_hyps.
  destruct (percentile_is_rank 50 (successful results) (median_index n)) as (x & Hx & Hrx);
    [lia|done|fold n; unfold median_index; Z.div_mod_to_equations; lia..|].
  destruct (percentile_is_rank 95 (successful results) i) as (y & Hy & Hry); [lia|done|fold n; lia..|].
  unfold make_profile in H. cbv zeta in H. fold n in H. rewrite Ei, Hx, Hy in H.
  apply bind_ok in H as (count & _ & H). apply bind_ok in H as (rate & _ & H). cbn [mbind result_bind] in H.
  injection H as <-. exists x, y. split; [done|]. split; [done|]. by split.
Qed.

Lemma lenZ_snoc {A} (l : list A) x : lenZ (l ++ [x])%list = (lenZ l + 1)%Z.
Proof. unfold lenZ. rewrite length_app. cbn [length]. lia. Qed.

Lemma lenZ_pos {A} (x : A) l : x ∈ l -> (0 < lenZ l)%Z.
Proof. destruct l; [set_solver|]. unfold lenZ. cbn [length]. lia. Qed.

(** The groups of a list hold its elements. *)
Lemma group_by_total {K A} `{EqDecision K} (f : A -> K) (l : list A) :
  sumZ (map (fun kv => lenZ (snd kv)) (group_by f l)) = lenZ l.
Proof.
  induction l as [|x l IH] using rev_ind; [done|]. rewrite group_by_snoc.
  assert (Hg : forall d, sumZ (map (fun kv : K * list A => lenZ (snd kv)) (group_add (f x) x d))
               = (sumZ (map (fun kv : K * list A => lenZ (snd kv)) d) + 1)%Z).
  { unfold sumZ. induction d as [|[k xs] d IHd]; [done|]. cbn [group_add].
    case_bool_decide; cbn [map snd fold_right]; [|rewrite IHd; lia].
    rewrite lenZ_snoc. ring. }
  by rewrite Hg, IH, lenZ_snoc.
Qed.

(** The counters of a profile account for every request. *)
Theorem statuses_are_accounted concurrency results elapsed p :
  make_profile concurrency results elapsed = Ok p ->
  sumZ (map snd (lp_statuses p)) = lenZ results /\ NoDup (map fst (lp_statuses p))
  /\ forall status n, (status, n) ∈ lp_statuses p -> n = lenZ (filter (fun m => fst m = status) results) /\ (0 < n)%Z.
Proof.
  intros H. apply bind_ok in H as (count & _ & H). apply bind_ok in H as (rate & _ & H).
  apply bind_ok in H as (x & _ & H). apply bind_ok in H as (y & _ & H). injection H as <-. cbn [lp_statuses].
  unfold status_counts. split; [|split].
  - rewrite map_map. apply group_by_total.
  - rewrite map_map. cbn [fst]. apply group_by_NoDup.
  - intros status n Hin. apply list_elem_of_fmap in Hin as ([k xs] & [= -> ->] & Hin). cbn [fst snd].
    apply group_by_elem in Hin as (-> & m & Hm & Hk). split; [done|].
    apply (lenZ_pos m). by apply list_elem_of_filter.
Qed.

(** The pilot takes the profiles in order and stops at the first one with a status it
    does not expect: every profile before the last had only expected ones, the last is
    unexpected exactly when the pilot says it was aborted, and only an aborted pilot
    leaves profiles out. *)
Theorem pilot_stops_at_the_first_surprise {E} {host : ProbeHost E} gather base token concurrencies e taken aborted e' :
  run_pilot gather base token concurrencies e = (Ok (taken, aborted), e') ->
  map lp_concurrency taken = firstn (length taken) concurrencies
  /\ Forall (fun p => unexpected p = false) (if aborted then removelast taken else taken)
  /\ (aborted = true -> exists p, last taken = Some p /\ unexpected p = true)
  /\ (aborted = false -> length taken = length concurrencies).
Proof.
  revert e taken aborted e'. induction concurrencies as [|c cs IH]; intros e taken aborted e' H; cbn [run_pilot] in H.
  { injection H as <- <- _. by repeat split. }
  apply io_bind_ok in H as (p & e1 & Hp & H).
  assert (Hc : lp_concurrency p = c).
  { unfold measure_profile in Hp. apply io_bind_ok in Hp as (t1 & w1 & _ & Hp). apply io_bind_ok in Hp as (rs & w2 & _ & Hp).
    apply io_bind_ok in Hp as (t2 & w3 & _ & Hp). apply lift_ok in Hp as [Hp _]. unfold make_profile in Hp.
    apply bind_ok in Hp as (count & _ & Hp). apply bind_ok in Hp as (rate & _ & Hp).
    apply bind_ok in Hp as (x & _ & Hp). apply bind_ok in Hp as (y & _ & Hp). by injection Hp as <-. }
  destruct (unexpected p) eqn:Hu.
  { injection H as <- <- _. cbn. rewrite Hc. split; [done|]. split; [constructor|]. split; [|done]. intros _. by exists p. }
  apply io_bind_ok in H as ([taken' aborted'] & e2 & Hr & H). injection H as <- <- _. cbn [fst snd].
  apply IH in Hr as (H1 & H2 & H3 & H4). cbn [map length firstn]. rewrite Hc, H1. split; [done|]. split; [|split].
  - destruct aborted'; [|by constructor]. destruct (H3 eq_refl) as (q & Hq & _).
    destruct taken' as [|r taken']; [done|]. cbn [removelast] in *. by constructor.
  - intros Ha. destruct (H3 Ha) as (q & Hq & Hqu). exists q. split; [|done]. by destruct taken'.
  - intros Ha. cbn. by rewrite (H4 Ha).
Qed.

(** ** The checks of the private interface *)

Record smoke_check : Type := mkCheck {
  ck_name : string; ck_method : string; ck_path : string; ck_payload : option json; ck_expected : Z }.

Definition text_field (k v : string) : string * json := (k, JStr v).

Definition smoke_checks : list smoke_check :=
  [mkCheck "readiness" "GET" "/ready" None 200;
   mkCheck "models" "GET" "/v1/models" None 200;
   mkCheck "typed" "POST" "/v1/system-one"
     (Some (JObj [text_field "model" "c3r-system-one"; text_field "state" "An invoice was charged twice";
                  ("questions", JObj
                    [("department", JObj [text_field "type" "choice";
                                          ("options", JObj [text_field "billing" "Invoices and charges";
                                                            text_field "technical" "Software bugs"])]);
                     ("urgent", JObj [text_field "type" "boolean"])])])) 200;
   mkCheck "rank" "POST" "/v1/c3r/rank"
     (Some (JObj [text_field "state" "An invoice was charged twice"; ("candidates", JArr [JStr "billing"; JStr "technical"])])) 200;
   mkCheck "decide" "POST" "/v1/c3r/decide"
     (Some (JObj [text_field "goal" "Route invoice inquiry"; text_field "state" "An invoice was charged twice";
                  text_field "catalog" "agent-v1"])) 200;
   mkCheck "responses" "POST" "/v1/responses"
     (Some (JObj [text_field "model" "c3r-core";
                  text_field "input" "Explain briefly why an invoice may appear charged twice."])) 200;
   mkCheck "authority_override" "POST" "/v1/c3r/decide"
     (Some (JObj [text_field "goal" "test"; text_field "state" "test"; text_field "risk" "DESTRUCTIVE";
                  text_field "approval" "forged"])) 400;
   mkCheck "internal_url_override" "POST" "/v1/system-one"
     (Some (JObj [text_field "state" "test"; ("candidates", JArr [JStr "A"; JStr "B"]);
                  text_field "endpoint" "http://169.254.169.254"])) 400;
   mkCheck "candidate_overflow" "POST" "/v1/system-one"
     (Some (JObj [text_field "state" "test"; ("candidates", JArr (map (fun i => JStr (str_of_Z i)) (from 0 65)))])) 400;
   mkCheck "storage_rejected" "POST" "/v1/responses"
     (Some (JObj [text_field "model" "c3r-core"; text_field "input" "test"; ("store", JBool true)])) 400;
   mkCheck "execute_disabled" "POST" "/v1/c3r/execute" (Some (JObj [])) 501].

(** [value.get(key, other)]. *)
Definition get_or (j : json) (k : string) (other : json) : result json := v ← get_of j k; Ok (default other v).

(** [body.get("answers", {}).get("department", {}).get("choice") == "billing"]. *)
Definition chose_billing (body : json) : result bool :=
  answers ← get_or body "answers" (JObj []);
  department ← get_or answers "department" (JObj []);
  choice ← get_of department "choice";
  Ok (string_is choice "billing").

(** [bool(body.get("output", [{}])[0].get("content", [{}])[0].get("text"))]. *)
Definition answered_text (body : json) : result bool :=
  output ← get_or body "output" (JArr [JObj []]);
  item ← first_item output;
  content ← get_or item "content" (JArr [JObj []]);
  part ← first_item content;
  text ← get_of part "text";
  Ok (truth text).

Definition check_passed (c : smoke_check) (status : Z) (body : json) : result bool :=
  if negb (Z.eqb status (ck_expected c)) then Ok false
  else if String.eqb (ck_name c) "typed" then chose_billing body
  else if String.eqb (ck_name c) "responses" then answered_text body
  else Ok true.

Record smoke_result : Type := mkSmoke {
  sr_check : string; sr_status : Z; sr_passed : bool; sr_latency : option float }.

Definition smoke_json (r : smoke_result) : json :=
  JObj ([("check", JStr (sr_check r)); ("status", JInt (sr_status r)); ("passed", JBool (sr_passed r))]
        ++ match sr_latency r with Some x => [("latency_ms", JFloat x)] | None => [] end)%list.

Definition smoke_report (results : list smoke_result) : json :=
  JObj [("scope", JStr "private_synthetic_api_probe_not_canary"); ("checks", JArr (map smoke_json results));
        ("all_passed", JBool (forallb sr_passed results))].

Section smoke.
Context {E : Type} {host : ProbeHost E} (loads_text : string -> result json).

Definition check_request (base token : string) (c : smoke_check) : probe_request :=
  mkProbeRequest (ck_method c) (base ++ ck_path c) (Some token) (ck_payload c) (Some 65%Z).

(** One turn of the loop. *)
Definition run_check (base token : string) (c : smoke_check) : io E smoke_result :=
  started ← pb_clock;
  reply ← pb_exchange (check_request base token c);
  body ← lift (loads_text (snd reply));
  passed ← lift (check_passed c (fst reply) body);
  ended ← pb_clock;
  mret (mkSmoke (ck_name c) (fst reply) passed (Some (rounded_ms started ended))).

Definition strangers : list (string * option string) := [("missing_auth", None); ("invalid_auth", Some "wrong")].

Definition stranger_request (base : string) (token : option string) : probe_request :=
  mkProbeRequest "GET" (base ++ "/v1/models") token None None.

Definition run_stranger (base : string) (s : string * option string) : io E smoke_result :=
  reply ← pb_exchange (stranger_request base (snd s));
  mret (mkSmoke (fst s) (fst reply) (Z.eqb (fst reply) 401) None).

(** [main] of [probe_private_core.py]: the results it prints as [smoke_report]. *)
Definition smoke_main : io E (list smoke_result) :=
  text ← pb_config;
  config ← lift (env_of_text text);
  token ← lift (setting config "C3R_CLIENT_TOKEN");
  let base := probe_base config in
  checked ← io_map (run_check base token) smoke_checks;
  refused ← io_map (run_stranger base) strangers;
  mret (checked ++ refused)%list.

(** What a passed check saw. *)
Definition check_seen (base token : string) (c : smoke_check) : Prop :=
  exists (e e' : E) text body,
    pb_exchange (check_request base token c) e = (Ok (ck_expected c, text), e') /\ loads_text text = Ok body
    /\ (ck_name c = "typed" -> chose_billing body = Ok true)
    /\ (ck_name c = "responses" -> answered_text body = Ok true).

Lemma check_passed_true c status body : check_passed c status body = Ok true ->
  status = ck_expected c /\ (ck_name c = "typed" -> chose_billing body = Ok true)
  /\ (ck_name c = "responses" -> answered_text body = Ok true).
Proof.
  unfold check_passed. destruct (Z.eqb_spec status (ck_expected c)) as [->|]; [|done]. cbn [negb].
  destruct (String.eqb_spec (ck_name c) "typed") as [E1|N1].
  { intros H. split; [done|]. split; [done|]. rewrite E1. discriminate. }
  destruct (String.eqb_spec (ck_name c) "responses"); intros H; by repeat split.
Qed.

(** A report whose checks all passed saw every expected status, the billing department
    chosen and a text answered, and both strangers refused with 401. *)
Theorem passed_probe_saw_it_all e results e' :
  smoke_main e = (Ok results, e') -> forallb sr_passed results = true ->
  exists config token,
    Forall (check_seen (probe_base config) token) smoke_checks
    /\ Forall (fun s => exists (e1 e2 : E) text,
                 pb_exchange (stranger_request (probe_base config) (snd s)) e1 = (Ok (401%Z, text), e2)) strangers.
Proof.
  unfold smoke_main. intros H Hall. apply io_bind_ok in H as (text & e1 & _ & H).
  apply io_bind_ok in H as (config & w & Hc & H). apply io_bind_ok in H as (token & w1 & _ & H). cbv zeta in H.
  apply io_bind_ok in H as (checked & e2 & H1 & H). apply io_bind_ok in H as (refused & e3 & H2 & H).
  injection H as <- _. rewrite forallb_app in Hall. apply andb_true_iff in Hall as [A1 A2].
  apply io_map_ok in H1. apply io_map_ok in H2. exists config, token. split.
  - rewrite forallb_forall in A1. clear H2 A2. induction H1 as [|c r cs rs (w2 & w3 & Hr) _ IH]; [constructor|].
    constructor; [|apply IH; intros x Hx; apply A1; by right].
    specialize (A1 r (or_introl eq_refl)). unfold run_check in Hr. apply io_bind_ok in Hr as (started & w4 & _ & Hr).
    apply io_bind_ok in Hr as ([status body_text] & w5 & Hx & Hr). cbn [fst snd] in Hr.
    apply io_bind_ok in Hr as (body & w6 & Hb & Hr).
    apply lift_ok in Hb as [Hb ->]. apply io_bind_ok in Hr as (passed & w7 & Hp & Hr). apply lift_ok in Hp as [Hp ->].
    apply io_bind_ok in Hr as (ended & w8 & _ & Hr). injection Hr as <- _. cbn [sr_passed] in A1. subst passed.
    apply check_passed_true in Hp as (-> & Ht & Ha). by exists w4, w5, body_text, body.
  - rewrite forallb_forall in A2. clear H1 A1. induction H2 as [|c r cs rs (w2 & w3 & Hr) _ IH]; [constructor|].
    constructor; [|apply IH; intros x Hx; apply A2; by right].
    specialize (A2 r (or_introl eq_refl)). unfold run_stranger in Hr.
    apply io_bind_ok in Hr as ([status body_text] & w5 & Hx & Hr). cbn [fst snd] in Hr. injection Hr as <- _.
    cbn [sr_passed] in A2. apply Z.eqb_eq in A2. subst status. by exists w2, w5, body_text.
Qed.
End smoke.

(** ** The drill of the model servers *)

Definition live_probes : list (string * string * json) :=
  [("clm", "http://127.0.0.1:8700/v1/rank",
    JObj [text_field "model" "clm-latest"; text_field "context" "The customer was charged twice for an invoice.";
          text_field "question" "Which department handles this request?";
          ("answers", JArr [JStr "Billing: invoices and charges"; JStr "Technical: software bugs"])]);
   ("deepseek", "http://127.0.0.1:8000/v1/chat/completions",
    JObj [text_field "model" "/model"; ("max_tokens", JInt 512); ("temperature", JInt 0);
          ("messages", JArr [JObj [text_field "role" "user";
                                   text_field "content" "Reply with one sentence: what is an invoice?"]])])].

Definition or_null (v : option json) : json := default JNull v.

(** What is recorded of the language model's answer. *)
Definition recorded (body : json) : result json :=
  choices ← get_or body "choices" (JArr []);
  final ← (if truth (Some choices)
           then choice ← first_item choices; message ← get_or choice "message" (JObj []);
                text ← get_of message "content"; Ok (or_null text)
           else Ok JNull);
  finish ← (if truth (Some choices)
            then choice ← first_item choices; reason ← get_of choice "finish_reason"; Ok (or_null reason)
            else Ok JNull);
  usage ← get_of body "usage";
  Ok (JObj [("final_text", final); ("finish_reason", finish); ("usage", or_null usage)]).

Section live.
Context {E : Type} {host : ProbeHost E} (loads_text : string -> result json).

(** One turn of the loop: the line it prints. *)
Definition run_live (p : string * string * json) : io E json :=
  let '(name, url, payload) := p in
  started ← pb_clock;
  reply ← pb_exchange (mkProbeRequest "POST" url None (Some payload) (Some 60%Z));
  body ← lift (loads_text (snd reply));
  shown ← lift (if String.eqb name "deepseek" then recorded body else Ok body);
  ended ← pb_clock;
  mret (JObj [("provider", JStr name); ("status", JInt (fst reply)); ("latency_ms", JFloat (rounded_ms started ended));
              ("result", shown)]).

Definition live_main : io E (list json) := io_map run_live live_probes.
End live.

(** Whatever reasoning the answer carries, in any field of its message but the text,
    nothing of it is recorded. *)
Theorem reasoning_is_not_recorded field reasoning message choice rest body :
  field <> "content" -> assoc "choices" body = Some (JArr (JObj choice :: rest)) ->
  assoc "message" choice = Some (JObj message) ->
  recorded (JObj (dict_set "choices" (JArr (JObj (dict_set "message" (JObj (dict_set field reasoning message)) choice) :: rest)) body))
  = recorded (JObj body).
Proof.
  intros Hf Hb Hm.
  assert (Hc : String.eqb "content" field = false) by (apply String.eqb_neq; congruence).
  assert (Ht : forall x l, truth (Some (JArr (x :: l))) = true) by done.
  unfold recorded, get_or, get_of, from_option, id. rewrite !assoc_dict_set, Hb. cbn [String.eqb Ascii.eqb Bool.eqb mbind result_bind].
  rewrite !Ht. cbn [first_item mbind result_bind]. rewrite !assoc_dict_set, Hm. cbn [String.eqb Ascii.eqb Bool.eqb mbind result_bind].
  by rewrite assoc_dict_set, Hc.
Qed.

(** ** A small service *)

(** Time passes with every exchange; the service answers by the request. *)
Definition small_service (answer : probe_request -> Z * string) : ProbeHost Z := {|
  pb_config e := (Ok (env_text [("C3R_CLIENT_TOKEN", "secret"); ("PORT", "9000")]), e);
  pb_clock e := (Ok (float_of_Z e), e);
  pb_exchange rq e := (Ok (answer rq), (e + 1)%Z) |}.

(** The requests of a pool, one after the other. *)
Definition in_turn (count : Z) (m : io Z measurement) : io Z (list measurement) := io_map (fun _ => m) (from 0 (Z.to_nat count)).

Definition service_answer (rq : probe_request) : Z * string :=
  if negb (bool_decide (pr_token rq = Some "secret")) then (401%Z, "{}")
  else match List.find (fun c => String.eqb (pr_url rq) ("http://127.0.0.1:9000" ++ ck_path c)
                                 && bool_decide (option_map (print canonical_options) (pr_payload rq)
                                                 = option_map (print canonical_options) (ck_payload c))) smoke_checks with
       | Some c => (ck_expected c,
                    print canonical_options
                      (JObj [("answers", JObj [("department", JObj [text_field "choice" "billing"])]);
                             ("output", JArr [JObj [("content", JArr [JObj [text_field "text" "twice"]])]])]))
       | None => (404%Z, "{}")
       end.

(** A service that answers as expected passes; one that never routes to billing, or
    whose key is another, does not. *)
Example smoke_runs :
  (let '(r, _) := smoke_main (host := small_service service_answer) loads 0%Z in
   match r with Ok results => forallb sr_passed results && Z.eqb (lenZ results) 13 | Raise _ => false end = true)
  /\ (let '(r, _) := smoke_main (host := small_service (fun rq => (fst (service_answer rq), "{}"))) loads 0%Z in
      match r with Ok results => map sr_check (List.filter (fun x => negb (sr_passed x)) results) = ["typed"; "responses"]
      | Raise _ => False end).
Proof. vm_compute. by split. Qed.

(** A pilot goes through all its profiles, or stops at the first refusal it does not
    expect. *)
Example pilot_runs :
  (let '(r, _) := run_pilot (host := small_service (fun _ => (200%Z, ""))) in_turn "http" "t" [1; 10]%Z 0%Z in
   match r with
   | Ok ([p; q], false) => lp_statuses q = [("200", 10%Z)] /\ lp_p95 q = Some (float_of_Z 1000) /\ lp_requests p = 1%Z
   | _ => False end)
  /\ (let '(r, _) := run_pilot (host := small_service (fun _ => (500%Z, ""))) in_turn "http" "t" [1; 10]%Z 0%Z in
      match r with Ok ([p], true) => lp_statuses p = [("500", 1%Z)] /\ lp_p50 p = None | _ => False end).
Proof. vm_compute. by repeat split. Qed.
