(* ===== verification/ModelTransport.v ===== *)
(** * HTTP exchanges with the model servers ([c3r/http_transport.py],
      [_default_transport] of [c3r/adapters/providers.py], [ClmAdapter._post] and
      [c3r/system_one/factory.py])

    The network is [exchange]: one request, one reply.  What [urllib] does around it
    is modelled: an answer with an error status is an [HTTPError], and a redirection
    is followed when the redirect handler gives a new request.  The world carries,
    next to the network's own state, the list of the requests sent so far. *)

From Stdlib Require Import Lia ZArith Ascii String.
From stdpp Require Import base option strings gmap list.
From S2P Require Import Prelude Effects PyStr PyFloat FloatRepr Json PyNumber StateSchema SystemOne Invocations.
From S2P Require Import ClmAdapter Providers.

Local Open Scope string_scope.

(** ** Requests and redirections *)

Record url_request : Type := mkUrlRequest {
  ur_url : string; ur_data : string; ur_headers : list (string * string); ur_method : string }.

Record url_reply : Type := mkUrlReply { up_status : Z; up_location : option string; up_body : string }.

(** [HTTPRedirectHandler.redirect_request(req, fp, code, msg, headers, newurl)]. *)
Definition redirect_handler : Type := url_request -> Z -> string -> option url_request.

(** [NoRedirectHandler.redirect_request]. *)
Definition no_redirect : redirect_handler := fun _ _ _ => None.

(** The world next to the requests sent. *)
Definition sent_world (E : Type) : Type := list url_request * E.

#[export] Program Instance sent_counts {E} `{!HasCounts E} : HasCounts (sent_world E) := {|
  get_counts w := get_counts (snd w); set_counts c w := (fst w, set_counts c (snd w)) |}.
Next Obligation. intros. apply get_set_counts. Qed.

Section transport.
Context {E : Type} (exchange : url_request -> float -> io E url_reply) (monotonic : io E float).

Definition send (rq : url_request) (timeout : float) : io (sent_world E) url_reply := fun '(sent, e) =>
  let '(r, e') := exchange rq timeout e in (r, ((sent ++ [rq])%list, e')).

Definition now : io (sent_world E) float := fun '(sent, e) => let '(r, e') := monotonic e in (r, (sent, e')).

(** [HTTPError] is an [OSError]. *)
Definition http_error : io (sent_world E) url_reply := lift (raise OSError "HTTP Error").

(** [opener.open(request, timeout=timeout)] with this redirect handler; [urllib]
    follows at most ten redirections. *)
Fixpoint open_url (redirect : redirect_handler) (fuel : nat) (rq : url_request) (timeout : float)
    : io (sent_world E) url_reply :=
  reply ← send rq timeout;
  if Z.leb 200 (up_status reply) && Z.ltb (up_status reply) 300 then mret reply
  else if bool_decide (up_status reply ∈ [301; 302; 303; 307; 308]%Z) then
    match fuel, up_location reply with
    | S f, Some newurl =>
        match redirect rq (up_status reply) newurl with
        | Some rq' => open_url redirect f rq' timeout
        | None => http_error
        end
    | _, _ => http_error
    end
  else http_error.

Definition REDIRECTIONS : nat := 10.

(** [response.read(n)]. *)
Definition read_reply (n : Z) (reply : url_reply) : string := String.substring 0 (Z.to_nat n) (up_body reply).

(** [headers.pop(key)] leaves. *)
Definition without_header (key : string) (headers : list (string * string)) : list (string * string) :=
  List.filter (fun kv => negb (String.eqb key (fst kv))) headers.

Definition post_request (url : string) (data : string) (headers : list (string * string)) : url_request :=
  mkUrlRequest url data headers "POST".

(** ** [_default_transport] *)

(** [json.dumps(payload, separators=(",", ":")).encode()]. *)
Definition payload_options : dump_options := DumpOptions "," ":" false true true.

Definition sent_headers (headers : list (string * string)) : list (string * string) :=
  dict_set "Content-Type" "application/json" (without_header "X-C3R-Timeout" headers).

(** [loads_text] is [json.loads(raw.decode("utf-8"))]. *)
Definition default_transport (loads_text : string -> result json) (url : string) (headers : list (string * string))
    (payload : list (string * json)) : io (sent_world E) TransportResponse :=
  timeout ← lift (float_of_string (default "60" (assoc "X-C3R-Timeout" headers)));
  data ← lift (dumps payload_options (JObj payload));
  let request := post_request url data (sent_headers headers) in
  started ← now;
  response ← open_url no_redirect REDIRECTIONS request timeout;
  let raw := read_reply (MAX_RESPONSE_BYTES + 1) response in
  _ ← lift (raise_if (Z.ltb MAX_RESPONSE_BYTES (len raw)) ValueError "provider response exceeds byte limit");
  parsed ← lift (loads_text raw);
  match parsed with
  | JObj object =>
      ended ← now;
      mret (mkResponse (up_status response) object (fmul (fsub ended started) (float_of_Z 1000)))
  | _ => lift (raise TypeError "provider returned a non-object response")
  end.

(** ** [ClmAdapter._post] *)

Definition CLM_RESPONSE_BYTES : Z := 65536.
Definition rank_options : dump_options := DumpOptions ", " ": " false false false.

Definition rank_url (a : ClmAdapter) : string := rstrip_slash (clm_endpoint a) ++ "/v1/rank".

Definition rank_headers (a : ClmAdapter) : list (string * string) :=
  ("Content-Type", "application/json")
    :: match clm_api_key a with
       | Some key => if nonempty key then [("Authorization", "Bearer " ++ key)] else []
       | None => []
       end.

Definition post_rank (loads_bytes : string -> result json) (a : ClmAdapter) (payload : list (string * json))
    (timeout : float) : io (sent_world E) (list (string * json)) :=
  text ← lift (dumps rank_options (JObj payload));
  response ← open_url no_redirect REDIRECTIONS (post_request (rank_url a) (utf8 text) (rank_headers a)) timeout;
  let body := read_reply (CLM_RESPONSE_BYTES + 1) response in
  _ ← lift (raise_if (Z.ltb CLM_RESPONSE_BYTES (len body)) ValueError "CLM response exceeds the allowed size");
  parsed ← lift (loads_bytes body);
  match parsed with
  | JObj object => mret object
  | _ => lift (raise ValueError "CLM returned a non-object response")
  end.
End transport.

(** ** [build_default_clm_fast_path] *)

Definition default_clm (revision endpoint : string) (api_key : option string) (timeout : float) : ClmAdapter :=
  mkClm revision endpoint api_key timeout "Contrastive-LM/CLM" "clm-latest".

(** [predict] and [rank_actions] of the adapter are given by [as_adapter]. *)
Definition build_default_clm_fast_path {W} (urlsplit : string -> result split_url)
    (as_adapter : ClmAdapter -> InferenceAdapter W) (values : gmap string string) (calibrator : TemperatureCalibrator)
    : result (CalibratedFastPath W) :=
  let revision := default "" (values !! "C3R_CLM_ARTIFACT_REVISION") in
  let endpoint := default "http://127.0.0.1:8700" (values !! "C3R_CLM_URL") in
  milliseconds ← float_of_string (default "500" (values !! "C3R_CLM_TIMEOUT_MS"));
  timeout ← div_int milliseconds 1000;
  adapter ← make_clm urlsplit (default_clm revision endpoint (values !! "C3R_CLM_API_KEY") timeout);
  make_fast_path (as_adapter adapter) calibrator (float_of_decimal 65 (-2)) (float_of_decimal 1 (-1)) timeout.

(** ** What is sent *)

(** Through binds and the cases of their results. *)
Ltac wp_cases :=
  repeat first [wp_step | lazymatch goal with |- match ?x with Ok _ => _ | Raise _ => _ end => destruct x end].

Section sent.
Context {E : Type} (exchange : url_request -> float -> io E url_reply) (monotonic : io E float)
  (loads : string -> result json).

(** Without redirections an opener sends its request once and answers a reply of a
    success status or an exception of the exchange or an [HTTPError]. *)
Lemma open_once n rq timeout (w : sent_world E) :
  wp (open_url exchange no_redirect n rq timeout)
    (fun r w' => fst w' = (fst w ++ [rq])%list
                 /\ forall reply, r = Ok reply -> (200 <= up_status reply < 300)%Z) w.
Proof.
  destruct w as [sent e]. destruct n as [|n]; cbn [open_url].
  all: apply wp_bind; unfold wp at 1, send; destruct (exchange rq timeout e) as [[reply|x] e1]; cbn [fst snd];
    [|split; [done|by intros ? [=]]].
  all: destruct (_ && _) eqn:Es; [apply wp_ret; split; [done|]; intros ? [= <-]; bool_hyps; lia|].
  all: destruct (bool_decide _); [|apply wp_lift; split; [done|by intros ? [=]]].
  all: try destruct (up_location reply); apply wp_lift; (split; [done|by intros ? [=]]).
Qed.

Lemma now_keeps (w : sent_world E) : wp (now monotonic) (fun _ w' => fst w' = fst w) w.
Proof. destruct w as [sent e]. unfold wp, now. by destruct (monotonic e). Qed.

(** What the default transport sends, and what it returns. *)
Lemma default_transport_sends url headers payload (w : sent_world E) :
  wp (default_transport exchange monotonic loads url headers payload)
    (fun r w' =>
       (fst w' = fst w
        \/ exists data, dumps payload_options (JObj payload) = Ok data
           /\ fst w' = (fst w ++ [post_request url data (sent_headers headers)])%list)
       /\ forall response, r = Ok response -> fst w' <> fst w /\ (200 <= status response < 300)%Z) w.
Proof.
  unfold default_transport. apply wp_bind, wp_lift. destruct (float_of_string _) as [timeout|x];
    [|split; [by left|by intros ? [=]]].
  apply wp_bind, wp_lift. destruct (dumps _ _) as [data|x]; [|split; [by left|by intros ? [=]]].
  apply wp_bind. eapply wp_mono; [apply now_keeps|]. intros [started|x] w1 E1; [|split; [by left|by intros ? [=]]].
  apply wp_bind. eapply wp_mono; [apply open_once|]. intros r w2 [E2 Hs]. rewrite E1 in E2.
  assert (Hsent : fst w2 = fst w \/ exists data0, Ok data = Ok data0
            /\ fst w2 = (fst w ++ [post_request url data0 (sent_headers headers)])%list) by eauto.
  assert (Hne : fst w2 <> fst w).
  { rewrite E2. intros Heq. apply (f_equal length) in Heq. rewrite length_app in Heq. cbn in Heq. lia. }
  destruct r as [reply|x]; [|split; [done|by intros ? [=]]].
  apply wp_bind, wp_lift. destruct (raise_if _ _ _); [|split; [done|by intros ? [=]]].
  apply wp_bind, wp_lift. destruct (loads _) as [j|x]; [|split; [done|by intros ? [=]]].
  destruct j as [| | | | | |object]; try (apply wp_lift; split; [done|by intros ? [=]]).
  apply wp_bind. eapply wp_mono; [apply now_keeps|]. intros [ended|x] w3 E3; [|rewrite E3; split; [done|by intros ? [=]]].
  apply wp_ret. rewrite E3. split; [done|]. intros ? [= <-]. cbn. eauto.
Qed.

(** The default transport of the providers makes at most one exchange, with the
    URL, the encoded payload and the headers it was given, the timeout apart; it
    never follows a redirection, and a response it returns is a JSON object with a
    success status that came from that exchange. *)
Theorem default_transport_exchanges_once url headers payload (w : sent_world E) :
  wp (default_transport exchange monotonic loads url headers payload)
    (fun r w' =>
       (fst w' = fst w
        \/ exists data, dumps payload_options (JObj payload) = Ok data
           /\ fst w' = (fst w ++ [post_request url data (sent_headers headers)])%list)
       /\ forall response, r = Ok response -> fst w' <> fst w /\ (200 <= status response < 300)%Z) w.
Proof. apply default_transport_sends. Qed.

Context `{!HasCounts E}.

Lemma attempt_keeps system (w : sent_world E) :
  wp (transport_attempt system) (fun _ w' => fst w' = fst w) w.
Proof. unfold wp, transport_attempt. cbn. destruct (get_counts (snd w)); [|done]. by destruct (bump _ _). Qed.

(** The request of a deliberation over the default transport. *)
Definition deliberation_request (prompt : string) (c : ProviderConfig) (text data : string) : url_request :=
  post_request (url (build prompt c text)) data (sent_headers (headers (build prompt c text))).

Lemma deliberate_sends prompt c state (w : sent_world E) :
  wp (deliberate prompt (default_transport exchange monotonic loads) c state)
    (fun _ w' => fst w' = fst w
       \/ exists text data, fst w' = (fst w ++ [deliberation_request prompt c text data])%list) w.
Proof.
  unfold deliberate. apply wp_bind, wp_lift. destruct (dumps _ _) as [text|x]; [|by left].
  apply wp_bind. eapply wp_mono; [apply attempt_keeps|]. intros [[]|x] w1 E1; [|by left].
  apply wp_bind. eapply wp_mono; [apply default_transport_sends|]. intros r w2 [H _].
  assert (Hsent : fst w2 = fst w
            \/ exists text data, fst w2 = (fst w ++ [deliberation_request prompt c text data])%list).
  { rewrite E1 in H. destruct H as [H|(data & _ & H)]; [by left|right]. by exists text, data. }
  destruct r as [response|x]; [|done]. wp_cases; exact Hsent.
Qed.

Lemma build_url prompt c text :
  exists suffix, url (build prompt c text) = rstrip_slash (base_url c) ++ suffix.
Proof. unfold build. destruct (kind c); cbn; eexists; done. Qed.

(** C14: A compiled state leaves the machine at most once, and only where it may.
    Deliberating with an accepted configuration sends nothing, or one request whose
    URL starts with the configured base URL, and then the endpoint's host is the
    local one or it is reached over HTTPS with a data boundary that allows a remote
    provider; a redirection never moves the state on. *)
Theorem state_leaves_once_where_approved prompt urlparse c state parsed (w : sent_world E)
    (Hc : make_provider urlparse c = Ok c) (Hu : urlparse (base_url c) = Ok parsed) :
  wp (bridge_deliberate prompt urlparse (default_transport exchange monotonic loads) c state)
    (fun _ w' => fst w' = fst w
       \/ (exists rq suffix, fst w' = (fst w ++ [rq])%list /\ ur_url rq = rstrip_slash (base_url c) ++ suffix)
          /\ (local_host parsed = true
              \/ u_scheme parsed = "https" /\ data_boundary state ∈ ["approved_remote"; "public"])) w.
Proof.
  unfold bridge_deliberate. rewrite Hu. apply wp_bind, wp_lift, wp_bind, wp_lift.
  destruct (raise_if _ _ _) as [u|x] eqn:Ha; [|by left]. apply raise_if_ok in Ha.
  eapply wp_mono; [apply deliberate_sends|]. intros r w' [H|(text & data & H)]; [by left|right]. split.
  - destruct (build_url prompt c text) as [suffix Hs]. by exists (deliberation_request prompt c text data), suffix.
  - destruct (local_host parsed) eqn:El; [by left|right]. cbn in Ha. apply negb_false_iff, bool_decide_eq_true_1 in Ha.
    split; [|done]. unfold make_provider in Hc. rewrite Hu in Hc. cbn in Hc. rewrite El, andb_false_r in Hc.
    destruct (String.eqb_spec (u_scheme parsed) "https"); [done|]. by cbn in Hc.
Qed.

(** ** The ranking server *)

Definition to_ranker (a : ClmAdapter) (rq : url_request) : Prop :=
  ur_url rq = rank_url a /\ ur_headers rq = rank_headers a /\ ur_method rq = "POST".

Definition ranked_at_most (a : ClmAdapter) (n : nat) (w w' : sent_world E) : Prop :=
  exists new, fst w' = (fst w ++ new)%list /\ length new <= n /\ Forall (to_ranker a) new.

Lemma ranked_none a n w w' : fst w' = fst w -> ranked_at_most a n w w'.
Proof. intros H. exists []. rewrite app_nil_r. split; [done|]. split; [cbn; lia|done]. Qed.

Lemma ranked_trans a n m w1 w2 w3 :
  ranked_at_most a n w1 w2 -> ranked_at_most a m w2 w3 -> ranked_at_most a (n + m) w1 w3.
Proof.
  intros (l1 & E1 & L1 & F1) (l2 & E2 & L2 & F2). exists (l1 ++ l2)%list.
  rewrite E2, E1, app_assoc, length_app. split; [done|]. split; [lia|by apply Forall_app].
Qed.

Lemma ranked_after a n w w1 w2 : fst w1 = fst w -> ranked_at_most a n w1 w2 -> ranked_at_most a n w w2.
Proof. intros E1 H. by apply (ranked_trans a 0 n w w1 w2 (ranked_none a 0 w w1 E1)). Qed.

Lemma ranked_weaken a n m w w' : n <= m -> ranked_at_most a n w w' -> ranked_at_most a m w w'.
Proof. intros L (new & E1 & L1 & F). exists new. split; [done|]. split; [lia|done]. Qed.

Lemma post_rank_sends a payload timeout w :
  wp (post_rank exchange loads a payload timeout) (fun _ w' => ranked_at_most a 1 w w') w.
Proof.
  unfold post_rank. apply wp_bind, wp_lift. destruct (dumps _ _) as [text|x]; [|by apply ranked_none].
  apply wp_bind. eapply wp_mono; [apply open_once|]. intros r w' [H _].
  assert (ranked_at_most a 1 w w') by (eexists; split; [exact H|]; split; [cbn; lia|by repeat constructor]).
  destruct r as [reply|x]; [|done]. cbv zeta. wp_cases; done.
Qed.

Lemma rank_sends a context question options deadline w :
  wp (rank (now monotonic) (post_rank exchange loads) a context question options deadline)
    (fun _ w' => ranked_at_most a 1 w w') w.
Proof.
  unfold rank. apply wp_bind, wp_lift. destruct (check_options options); [|by apply ranked_none].
  apply wp_bind. apply (wp_mono _ (fun _ w' => fst w' = fst w)).
  { destruct deadline; [|by apply wp_ret]. apply wp_bind. eapply wp_mono; [apply now_keeps|].
    intros [t|x] w1 E1; [by apply wp_ret|done]. }
  intros [remaining|x] w1 E1; [|by apply ranked_none]. apply wp_bind, wp_lift.
  destruct (raise_if _ _ _); [|by apply ranked_none].
  apply wp_bind. eapply wp_mono; [apply attempt_keeps|]. intros [u|x] w2 E2; [|apply ranked_none; congruence].
  apply wp_bind. eapply wp_mono; [apply post_rank_sends|]. intros r w3 H.
  apply (ranked_after _ _ w) in H; [|congruence]. destruct r as [response|x]; [|done]. by apply wp_lift.
Qed.

Lemma predict_questions_sends log a context qs deadline : forall output w,
  wp (predict_questions (now monotonic) log (post_rank exchange loads) a context qs deadline output)
    (fun _ w' => ranked_at_most a (length qs) w w') w.
Proof.
  induction qs as [|q qs IH]; intros output w; cbn [predict_questions]; [by apply wp_ret, ranked_none|].
  apply wp_bind. eapply wp_mono; [apply rank_sends|]. intros [ps|x] w1 H1.
  - eapply wp_mono; [apply IH|]. intros r w2 H2. exact (ranked_trans a 1 (length qs) w w1 w2 H1 H2).
  - eapply ranked_weaken; [|exact H1]. cbn. lia.
Qed.

(** Whatever the ranking server answers, a prediction of an accepted CLM adapter
    sends at most one request per question, each a POST to the rank path of the
    configured endpoint, which is an origin of this machine; a redirection never
    takes the state or the key elsewhere. *)
Theorem clm_traffic_is_local urlsplit log a state qs deadline (w : sent_world E)
    (Ha : make_clm urlsplit a = Ok a) :
  (exists u, urlsplit (clm_endpoint a) = Ok u /\ local_origin u = true)
  /\ wp (predict (now monotonic) log (post_rank exchange loads) a state qs deadline)
       (fun _ w' => exists new, fst w' = (fst w ++ new)%list /\ length new <= length qs
                      /\ Forall (to_ranker a) new) w.
Proof.
  split.
  - unfold make_clm in Ha. destruct (urlsplit (clm_endpoint a)) as [u|x]; [|done]. exists u. split; [done|].
    cbn in Ha. by destruct (local_origin u).
  - unfold predict. apply wp_bind, wp_lift. destruct (clm_context state) as [context|x].
    + eapply wp_mono; [apply predict_questions_sends|]. by intros.
    + by apply (ranked_none a).
Qed.
End sent.

(** ** The default fast path *)

(** The default fast path exists only for an immutable revision the host named and a
    local endpoint, and its one timeout, within ten seconds, bounds the exchange and
    the decision alike. *)
Theorem default_fast_path_is_pinned {W} urlsplit (as_adapter : ClmAdapter -> InferenceAdapter W) values calibrator fp
    (H : build_default_clm_fast_path urlsplit as_adapter values calibrator = Ok fp) :
  exists a u, cf_adapter fp = as_adapter a /\ cf_calibrator fp = calibrator
  /\ values !! "C3R_CLM_ARTIFACT_REVISION" = Some (clm_revision a) /\ is_revision (clm_revision a) = true
  /\ urlsplit (clm_endpoint a) = Ok u /\ local_origin u = true
  /\ cf_maximum_seconds fp = clm_timeout_seconds a
  /\ isfinite (clm_timeout_seconds a) = true /\ fle (clm_timeout_seconds a) (float_of_Z 10) = true.
Proof.
  unfold build_default_clm_fast_path in H. apply bind_ok in H as (ms & Hms & H). apply bind_ok in H as (t & Ht & H).
  apply bind_ok in H as (a & Ha & H). unfold make_clm in Ha. apply bind_ok in Ha as (u & Hu & Ha).
  destruct (local_origin u) eqn:Eu; cbn [negb] in Ha; [|done].
  destruct (is_revision _) eqn:Er; cbn [negb] in Ha; [|done].
  destruct (negb (isfinite _) || _) eqn:Et; [done|]. destruct (negb (nonempty _) || _); [done|].
  injection Ha as <-. unfold make_fast_path in H.
  destruct (negb (isfinite t) || fle t fzero); [done|]. injection H as <-. bool_hyps.
  eexists _, u. split; [done|]. split; [done|]. cbn in *. split; [|done].
  destruct (values !! "C3R_CLM_ARTIFACT_REVISION") as [revision|]; [done|]. done.
Qed.

(** ** Examples *)

(** A network that redirects every request to another host. *)
Definition redirecting (rq : url_request) (timeout : float) : io (option counts) url_reply :=
  fun e => (Ok (mkUrlReply 307 (Some "http://elsewhere.example/") ""), e).

Definition still : io (option counts) float := fun e => (Ok fzero, e).

(** What an opener without [NoRedirectHandler] may do: the request moves on with its
    headers. *)
Definition follow : redirect_handler := fun rq _ newurl =>
  Some (mkUrlRequest newurl (ur_data rq) (ur_headers rq) (ur_method rq)).

Definition hosts {A} (m : io (sent_world (option counts)) A) : list string :=
  map ur_url (fst (snd (m ([], None)))).

Definition local_clm : ClmAdapter :=
  default_clm "0123456789abcdef0123456789abcdef01234567" "http://127.0.0.1:8700/" (Some "secret") fone.

Definition local_urlsplit (_ : string) : result split_url :=
  Ok (mkSplit "http" (Some "127.0.0.1") "/" None None "" "" (Some 8700%Z)).

Example redirections_end :
  hosts (post_rank redirecting loads local_clm [] fone) = ["http://127.0.0.1:8700/v1/rank"]
  /\ hosts (open_url redirecting follow 1 (post_request "http://127.0.0.1:8700/v1/rank" "" []) fone)
     = ["http://127.0.0.1:8700/v1/rank"; "http://elsewhere.example/"].
Proof. by vm_compute. Qed.

(** A ranking server that answers a fixed ranking. *)
Definition answering (body : string) (rq : url_request) (timeout : float) : io (option counts) url_reply :=
  fun e => (Ok (mkUrlReply 200 None body), e).

Lemma clm_traffic_is_local_witness :
  (exists u, local_urlsplit (clm_endpoint local_clm) = Ok u /\ local_origin u = true)
  /\ wp (predict (now still) (fun x => x) (post_rank redirecting loads) local_clm example_state
          [example_question] None)
       (fun _ w' => exists new, fst w' = ([] ++ new)%list /\ length new <= 1
                      /\ Forall (to_ranker local_clm) new) ([], None).
Proof.
  exact (clm_traffic_is_local redirecting still loads local_urlsplit (fun x => x) local_clm example_state
           [example_question] None ([], None) eq_refl).
Defined.

Lemma state_leaves_once_where_approved_witness :
  wp (bridge_deliberate "p" example_urlparse (default_transport redirecting still loads) remote_config example_state)
    (fun _ w' => fst w' = []
       \/ (exists rq suffix, fst w' = ([] ++ [rq])%list /\ ur_url rq = rstrip_slash (base_url remote_config) ++ suffix)
          /\ (local_host (mkSplit "https" (Some "models.example") "/v1" None None "" "" None) = true
              \/ u_scheme (mkSplit "https" (Some "models.example") "/v1" None None "" "" None) = "https"
                 /\ data_boundary example_state ∈ ["approved_remote"; "public"])) ([], None).
Proof.
  apply (state_leaves_once_where_approved redirecting still loads "p" example_urlparse remote_config example_state
           (mkSplit "https" (Some "models.example") "/v1" None None "" "" None) ([], None)); vm_compute; reflexivity.
Defined.

(** A whole exchange with a provider. *)
Example provider_exchange_runs :
  let run := default_transport (answering "{}") still loads "http://127.0.0.1:8000/v1/chat/completions"
               [("X-C3R-Timeout", "60.0"); ("Authorization", "Bearer k")] [("model", JStr "m")] ([], None) in
  fst run = Ok (mkResponse 200 [] fzero)
  /\ fst (snd run) = [post_request "http://127.0.0.1:8000/v1/chat/completions"
       (String "{" (quote payload_options "model" ++ ":" ++ quote payload_options "m" ++ "}"))
       [("Authorization", "Bearer k"); ("Content-Type", "application/json")]].
Proof. by vm_compute. Qed.
