(* ===== verification/StreamDelivery.v ===== *)
(** * Delivering an event stream ([_open_stream] and [_send_stream] of
    [c3r/http_service.py])

    Two threads share the handler's local events and lock: the handler, which
    opens the stream and writes its frames, and a watcher, which looks for a
    client that left.  Each thread is a step function on the shared state; its
    second argument is what the outside world answers at that step (a socket, the
    backend, the thread starter).  A schedule is any sequence of steps of the two
    threads.  A section under [release_lock] is one step; [join] has a timeout and
    never waits for the watcher. *)

From Stdlib Require Import Lia ZArith Ascii String.
From stdpp Require Import base option strings gmap list.
From S2P Require Import Prelude PyStr Json JsonText Invocations Responses HttpService.

Local Open Scope string_scope.

(** ** Frames *)

Definition frame_options : dump_options := DumpOptions "," ":" false false true.

(** The data of an event, with the invocation counts in its response. *)
Definition frame_data {W} `{!HasCounts W} (data : list (string * json)) (w : W) : list (string * json) :=
  match assoc "response" data with
  | Some (JObj response) => dict_set "response" (JObj (with_invocations response w)) data
  | _ => data
  end.

Definition frame_of {W} `{!HasCounts W} (name : string) (data : list (string * json)) (w : W) : result string :=
  text ← dumps frame_options (JObj (frame_data data w));
  Ok (utf8 ("event: " ++ name ++ line_feed ++ "data: " ++ text ++ line_feed ++ line_feed)).

Lemma frame_lines {W} `{!HasCounts W} name data (w : W) frame :
  all_plain name = true -> frame_of name data w = Ok frame ->
  lines frame = ["event: " ++ utf8 name; "data: " ++ utf8 (print frame_options (JObj (frame_data data w))); ""; ""].
Proof.
  assert (Hinj : forall x y : string, Ok x = Ok y -> x = y) by congruence.
  intros Hn H. unfold frame_of, dumps in H. cbn [allow_nan frame_options orb] in H. apply Hinj in H as <-.
  rewrite !utf8_app. change (utf8 "event: ") with "event: ". change (utf8 "data: ") with "data: ".
  change (utf8 line_feed) with line_feed.
  assert (Hp : all_plain (utf8 (print frame_options (JObj (frame_data data w)))) = true)
    by (apply utf8_plain, print_plain; reflexivity).
  rewrite <- (str_app_assoc "event: "), lines_plain by (apply str_forall_append; [done|by apply utf8_plain]).
  rewrite <- (str_app_assoc "data: "), lines_plain by (by apply str_forall_append). done.
Qed.

(** C22: A frame is exactly one server-sent event, whatever text the event's data
    holds: its lines are the event's name, one line of data and the blank line that
    ends the event, and parsing that data line gives the event's data back, with the
    invocation counts in its response. *)
Theorem frames_carry_one_event {W} `{!HasCounts W} name data (w : W) frame :
  all_plain name = true -> wf_json (JObj (frame_data data w)) = true ->
  frame_of name data w = Ok frame ->
  exists text, lines frame = ["event: " ++ utf8 name; "data: " ++ utf8 text; ""; ""]
  /\ loads text = Ok (canon frame_options (JObj (frame_data data w))).
Proof.
  intros Hn Hw H. eexists. split; [by apply frame_lines|]. by apply loads_print.
Qed.

Definition example_event : list (string * json) :=
  [("type", JStr "response.created"); ("response", JObj [("text", JStr ("two" ++ line_feed ++ "lines"))])].

Lemma frames_carry_one_event_witness :
  match frame_of (W := option counts) "response.created" example_event (Some fresh_counts) with
  | Ok frame => exists text, lines frame = ["event: response.created"; "data: " ++ utf8 text; ""; ""]
      /\ loads text = Ok (canon frame_options (JObj (frame_data (W := option counts) example_event (Some fresh_counts))))
  | Raise _ => False
  end.
Proof.
  destruct (frame_of (W := option counts) "response.created" example_event (Some fresh_counts)) as [frame|e] eqn:E;
    [|discriminate E].
  apply (frames_carry_one_event (W := option counts) "response.created" example_event (Some fresh_counts) frame);
    [reflexivity|vm_compute; reflexivity|exact E].
Defined.

Definition stream_head : list (string * string) :=
  [("Content-Type", "text/event-stream"); ("Cache-Control", "no-store"); ("X-Accel-Buffering", "no");
   ("Connection", "close")].

(** ** Answers of the outside world *)

Inductive answer : Type :=
  | Fine
  | Idle
  | Readable
  | Yields (frame : string)
  | Fails (e : exn).

(** [except OSError]. *)
Definition socket_error (e : exn) : bool := caught_by [OSError] (exn_class e).

(** ** [_send_stream] *)

(** Where the handler stands; a result is what [_send_stream] will end with. *)
Inductive handler_pc : Type :=
  | Heading
  | Starting
  | Pulling
  | Holding (frame : string)
  | Writing (frame : string)
  | Recording
  | Stopping (r : result unit)
  | Closing (r : result unit)
  | Joining (r : result unit)
  | Releasing (r : result unit)
  | Finished (r : result unit).

(** Where the watcher stands; [in_handler] is true inside its [except] clause. *)
Inductive watcher_pc : Type :=
  | Off
  | Checking
  | Selecting
  | Peeking
  | Noting (in_handler : bool)
  | Aborting (in_handler : bool)
  | GivingBack (in_handler : bool)
  | Dead.

Inductive chunk : Type := Head (fields : list (string * string)) | Frame (text : string).

(** The local variables both threads see, the server's two counters as changed by
    this stream, what was written, and (for the theorems) the frames pulled, the
    end of the events and a failing close. *)
Record stream : Type := mkStream {
  st_handler : handler_pc;
  st_watcher : watcher_pc;
  st_stop : bool;
  st_gone : bool;
  st_released : bool;
  st_given_back : Z;
  st_disconnects : Z;
  st_wire : list chunk;
  st_pulled : list string;
  st_exhausted : bool;
  st_close_failed : bool }.

Definition begin_stream : stream := mkStream Heading Off false false false 0 0 [] [] false false.

Definition at_pc (h : handler_pc) (s : stream) : stream :=
  mkStream h (st_watcher s) (st_stop s) (st_gone s) (st_released s) (st_given_back s) (st_disconnects s) (st_wire s)
    (st_pulled s) (st_exhausted s) (st_close_failed s).

Definition watching (p : watcher_pc) (s : stream) : stream :=
  mkStream (st_handler s) p (st_stop s) (st_gone s) (st_released s) (st_given_back s) (st_disconnects s) (st_wire s)
    (st_pulled s) (st_exhausted s) (st_close_failed s).

(** [record_disconnect]. *)
Definition record_disconnect (s : stream) : stream :=
  if st_gone s then s
  else mkStream (st_handler s) (st_watcher s) (st_stop s) true (st_released s) (st_given_back s)
         (st_disconnects s + 1) (st_wire s) (st_pulled s) (st_exhausted s) (st_close_failed s).

(** [release_capacity]. *)
Definition release_capacity (s : stream) : stream :=
  if st_released s then s
  else mkStream (st_handler s) (st_watcher s) (st_stop s) (st_gone s) true (st_given_back s + 1)
         (st_disconnects s) (st_wire s) (st_pulled s) (st_exhausted s) (st_close_failed s).

Definition set_stop (s : stream) : stream :=
  mkStream (st_handler s) (st_watcher s) true (st_gone s) (st_released s) (st_given_back s) (st_disconnects s)
    (st_wire s) (st_pulled s) (st_exhausted s) (st_close_failed s).

Definition put (c : chunk) (s : stream) : stream :=
  mkStream (st_handler s) (st_watcher s) (st_stop s) (st_gone s) (st_released s) (st_given_back s)
    (st_disconnects s) (st_wire s ++ [c])%list (st_pulled s) (st_exhausted s) (st_close_failed s).

Definition pull (frame : string) (s : stream) : stream :=
  mkStream (st_handler s) (st_watcher s) (st_stop s) (st_gone s) (st_released s) (st_given_back s)
    (st_disconnects s) (st_wire s) (st_pulled s ++ [frame])%list (st_exhausted s) (st_close_failed s).

Definition exhaust (s : stream) : stream :=
  mkStream (st_handler s) (st_watcher s) (st_stop s) (st_gone s) (st_released s) (st_given_back s)
    (st_disconnects s) (st_wire s) (st_pulled s) true (st_close_failed s).

Definition fail_close (s : stream) : stream :=
  mkStream (st_handler s) (st_watcher s) (st_stop s) (st_gone s) (st_released s) (st_given_back s)
    (st_disconnects s) (st_wire s) (st_pulled s) (st_exhausted s) true.

(** An exception of the [try] body. *)
Definition raised (e : exn) (s : stream) : stream :=
  at_pc (if socket_error e then Recording else Stopping (Raise e)) s.

(** One step of the handler. *)
Definition handler_step (a : answer) (s : stream) : stream :=
  match st_handler s with
  | Heading => match a with Fails e => raised e s | _ => at_pc Starting (put (Head stream_head) s) end
  | Starting => match a with Fails e => raised e s | _ => at_pc Pulling (watching Checking s) end
  | Pulling =>
      match a with
      | Yields frame => at_pc (Holding frame) (pull frame s)
      | Fails e => raised e s
      | _ => at_pc (Stopping (Ok tt)) (exhaust s)
      end
  | Holding frame => at_pc (if st_gone s then Stopping (Ok tt) else Writing frame) s
  | Writing frame => match a with Fails e => raised e s | _ => at_pc Pulling (put (Frame frame) s) end
  | Recording => at_pc (Stopping (Ok tt)) (record_disconnect s)
  | Stopping r => at_pc (Closing r) (set_stop s)
  | Closing r => match a with
                 | Fails e => at_pc (Finished (Raise e)) (fail_close s)
                 | _ => at_pc (Joining r) s
                 end
  | Joining r => at_pc (Releasing r) s
  | Releasing r => at_pc (Finished r) (release_capacity s)
  | Finished _ => s
  end.

(** One step of [watch_disconnect]. *)
Definition watcher_step (a : answer) (s : stream) : stream :=
  match st_watcher s with
  | Off | Dead => s
  | Checking => watching (if st_stop s then Dead else Selecting) s
  | Selecting => match a with
                 | Idle => watching Checking s
                 | Fails e => watching (if socket_error e then Noting true else Dead) s
                 | _ => watching Peeking s
                 end
  | Peeking => match a with
               | Fails e => watching (if socket_error e then Noting true else Dead) s
               | _ => watching (Noting false) s
               end
  | Noting h => watching (Aborting h) (record_disconnect s)
  | Aborting h => match a with
                  | Fails e => watching (if socket_error e && negb h then Noting true else Dead) s
                  | _ => watching (GivingBack h) s
                  end
  | GivingBack h => watching Dead (release_capacity s)
  end.

Inductive thread : Type := Handler | Watcher.

Definition step (x : thread * answer) (s : stream) : stream :=
  match fst x with Handler => handler_step (snd x) s | Watcher => watcher_step (snd x) s end.

(** A schedule: the steps of the threads in order. *)
Definition run_schedule (l : list (thread * answer)) (s : stream) : stream := fold_left (fun s x => step x s) l s.

(** ** Invariant *)

(** The handler is past the writing, with result [r]. *)
Definition leaving (h : handler_pc) : option (result unit) :=
  match h with
  | Stopping r | Closing r | Joining r | Releasing r | Finished r => Some r
  | _ => None
  end.

Definition finished (h : handler_pc) : bool := match h with Finished _ => true | _ => false end.

Definition past_record (p : watcher_pc) : bool :=
  match p with Aborting _ | GivingBack _ => true | _ => false end.

Definition b2z (b : bool) : Z := if b then 1 else 0.

(** The head and the first frames pulled, all but [rest]. *)
Definition written (wire : list chunk) (pulled rest : list string) : Prop :=
  exists fs, wire = (Head stream_head :: map Frame fs)%list /\ pulled = (fs ++ rest)%list.

(** Nothing at all, or all but at most one frame pulled. *)
Definition cut_short (wire : list chunk) (pulled : list string) : Prop :=
  (wire = [] /\ pulled = []) \/ exists rest, written wire pulled rest /\ length rest <= 1.

Definition wire_ok (h : handler_pc) (gone exhausted : bool) (wire : list chunk) (pulled : list string) : Prop :=
  match h with
  | Heading => wire = [] /\ pulled = []
  | Starting | Pulling => written wire pulled []
  | Holding f | Writing f => written wire pulled [f]
  | Recording => cut_short wire pulled
  | Stopping r | Closing r | Joining r | Releasing r | Finished r =>
      cut_short wire pulled
      /\ (r = Ok tt -> gone = true \/ exhausted = true /\ written wire pulled [])
  end.

Record stream_ok (s : stream) : Prop := {
  so_capacity : st_given_back s = b2z (st_released s);
  so_disconnects : st_disconnects s = b2z (st_gone s);
  so_watcher : past_record (st_watcher s) = true -> st_gone s = true;
  so_finished : finished (st_handler s) = true -> st_released s = true \/ st_close_failed s = true;
  so_close : st_close_failed s = true -> exists e, st_handler s = Finished (Raise e);
  so_released : st_released s = true -> st_gone s = true \/ finished (st_handler s) = true;
  so_wire : wire_ok (st_handler s) (st_gone s) (st_exhausted s) (st_wire s) (st_pulled s) }.

Lemma begin_ok : stream_ok begin_stream.
Proof. by split. Qed.

Lemma written_cut_short wire pulled rest : written wire pulled rest -> length rest <= 1 -> cut_short wire pulled.
Proof. intros. right. eauto. Qed.

Lemma written_put wire pulled f : written wire pulled [f] -> written (wire ++ [Frame f]) pulled [].
Proof.
  intros (fs & -> & ->). exists (fs ++ [f])%list. rewrite map_app, app_nil_r. split; [|done].
  by rewrite app_comm_cons.
Qed.

Lemma written_pull wire pulled f : written wire pulled [] -> written wire (pulled ++ [f]) [f].
Proof. intros (fs & -> & ->). exists fs. by rewrite app_nil_r. Qed.

Lemma wire_ok_cut h gone exhausted wire pulled :
  wire_ok h gone exhausted wire pulled -> h <> Heading -> cut_short wire pulled.
Proof.
  destruct h; cbn; try done; intros H _; try (by destruct H); try done;
    (eapply written_cut_short; [exact H|cbn; lia]).
Qed.

#[local] Hint Resolve written_cut_short written_put written_pull : core.

Lemma first_head wire pulled : wire = [] /\ pulled = [] -> written (wire ++ [Head stream_head]) pulled [].
Proof. intros [-> ->]. by exists []. Qed.

Lemma nothing_written wire pulled : wire = [] /\ pulled = [] -> cut_short wire pulled.
Proof. by left. Qed.
#[local] Hint Resolve first_head nothing_written : core.

Lemma handler_ok a s : stream_ok s -> stream_ok (handler_step a s).
Proof.
  intros [H1 H2 H3 H4 H5 H6 H7].
  destruct s as [h p stop gone released given disc wire pulled exh cf]; cbn in *.
  destruct h as [| | |f|f| |r|r|r|r|r]; unfold handler_step, raised, record_disconnect, release_capacity; cbn.
  all: try (assert (cf = false) as -> by (destruct cf; [destruct (H5 eq_refl) as (? & ?); done|done])).
  all: repeat case_match; simplify_eq; constructor; cbn in *; try done; auto.
  all: try (split; [eauto; fail|]); try (intros; simplify_eq; eauto; fail).
  all: destruct H7; split; [done|]; by intros [=].
Qed.

(** A frame pulled and dropped because the client is gone, or a client noted as
    gone meanwhile, leaves the wire as it is. *)
Lemma wire_ok_gone h gone exhausted wire pulled :
  wire_ok h gone exhausted wire pulled -> wire_ok h true exhausted wire pulled.
Proof. destruct h; cbn; try done; intros [H _]; (split; [done|by left]). Qed.
#[local] Hint Resolve wire_ok_gone : core.

Lemma watcher_ok a s : stream_ok s -> stream_ok (watcher_step a s).
Proof.
  intros [H1 H2 H3 H4 H5 H6 H7].
  destruct s as [h p stop gone released given disc wire pulled exh cf]; cbn in *.
  destruct p as [| | | |b|b|b|]; unfold watcher_step, record_disconnect, release_capacity; cbn.
  all: repeat case_match; simplify_eq; constructor; cbn in *; try done; auto.
  all: eauto.
Qed.

Lemma step_ok x s : stream_ok s -> stream_ok (step x s).
Proof. intros H. destruct x as [[] a]; [by apply handler_ok|by apply watcher_ok]. Qed.

Lemma schedule_ok l : forall s, stream_ok s -> stream_ok (run_schedule l s).
Proof. induction l as [|x l IH]; intros s H; [done|]. by apply IH, step_ok. Qed.

Lemma b2z_at_most_one b : (0 <= b2z b <= 1)%Z.
Proof. by destruct b. Qed.

(** ** Bounded steps *)

Definition times {A} (p : A -> bool) (l : list A) : nat := length (List.filter p l).

Definition handler_steps : list (thread * answer) -> nat :=
  times (fun x => match fst x with Handler => true | Watcher => false end).

Definition watcher_steps : list (thread * answer) -> nat :=
  times (fun x => match fst x with Watcher => true | Handler => false end).

(** The events the backend hands to the handler. *)
Definition yields : list (thread * answer) -> nat :=
  times (fun x => match x with (Handler, Yields _) => true | _ => false end).

Definition handler_rank (h : handler_pc) : nat :=
  match h with
  | Heading | Holding _ => 8
  | Starting | Writing _ => 7
  | Pulling => 6
  | Recording => 5
  | Stopping _ => 4
  | Closing _ => 3
  | Joining _ => 2
  | Releasing _ => 1
  | Finished _ => 0
  end.

(** The steps the watcher has left once it is told to stop. *)
Definition watcher_rank (p : watcher_pc) : nat :=
  match p with
  | Off | Dead => 0
  | Checking | GivingBack _ => 1
  | Aborting true => 2
  | Noting true => 3
  | Aborting false => 4
  | Noting false => 5
  | Peeking => 6
  | Selecting => 7
  end.

Lemma watcher_rank_bound p : watcher_rank p <= 7.
Proof. destruct p as [| | | |[]|[]|[]|]; cbn; lia. Qed.

Lemma watcher_keeps_handler a s : st_handler (watcher_step a s) = st_handler s.
Proof. unfold watcher_step, record_disconnect, release_capacity. by repeat case_match. Qed.

Lemma handler_step_rank a s :
  st_handler s = st_handler (handler_step a s) /\ finished (st_handler s) = true
  \/ handler_rank (st_handler (handler_step a s)) + 1
     <= handler_rank (st_handler s) + match a with Yields _ => 3 | _ => 0 end.
Proof.
  unfold handler_step, raised, record_disconnect, release_capacity.
  destruct (st_handler s) eqn:E; cbn; rewrite ?E; auto; right; repeat case_match; cbn; lia.
Qed.

Lemma finished_stays l : forall s r, st_handler s = Finished r -> st_handler (run_schedule l s) = Finished r.
Proof.
  induction l as [|[[] a] l IH]; intros s r H; [done| |]; apply IH; cbn.
  - unfold handler_step. by rewrite H.
  - by rewrite watcher_keeps_handler.
Qed.

Lemma handler_progress l : forall s,
  finished (st_handler (run_schedule l s)) = true
  \/ handler_rank (st_handler (run_schedule l s)) + handler_steps l
     <= handler_rank (st_handler s) + 3 * yields l.
Proof.
  induction l as [|[[] a] l IH]; intros s; [right; cbn; lia| |].
  - destruct (handler_step_rank a s) as [[E F]|Hr].
    + left. destruct (st_handler s) eqn:Es; try done. by rewrite (finished_stays ((Handler, a) :: l) s r Es).
    + destruct (IH (handler_step a s)) as [|H]; [by left|right].
      change (run_schedule ((Handler, a) :: l) s) with (run_schedule l (handler_step a s)).
      unfold handler_steps, yields, times in *. destruct a; cbn [List.filter fst length] in *; lia.
  - rewrite <- (watcher_keeps_handler a s). exact (IH (watcher_step a s)).
Qed.

Lemma watcher_step_rank a s :
  st_stop s = true ->
  st_stop (watcher_step a s) = true
  /\ watcher_rank (st_watcher (watcher_step a s)) <= pred (watcher_rank (st_watcher s)).
Proof.
  intros H. unfold watcher_step, record_disconnect, release_capacity.
  destruct (st_watcher s) as [| | | |[]|[]|[]|] eqn:E; rewrite ?E, ?H; cbn; rewrite ?H; cbn;
    try (split; [done|lia]); rewrite ?andb_false_r;
    repeat case_match; cbn; rewrite ?H; split; try done; lia.
Qed.

Lemma handler_after_stop a s :
  st_stop s = true -> leaving (st_handler s) <> None ->
  let s' := handler_step a s in
  st_stop s' = true /\ leaving (st_handler s') <> None /\ st_watcher s' = st_watcher s.
Proof.
  intros H Hl. unfold handler_step, release_capacity. destruct (st_handler s) eqn:E; cbn in *; try done;
    repeat case_match; cbn; rewrite ?H, ?E; done.
Qed.

Lemma watcher_after_stop l : forall s,
  st_stop s = true -> leaving (st_handler s) <> None ->
  watcher_rank (st_watcher (run_schedule l s)) <= watcher_rank (st_watcher s) - watcher_steps l.
Proof.
  induction l as [|[[] a] l IH]; intros s H Hl; [cbn; lia| |].
  - destruct (handler_after_stop a s H Hl) as (H' & Hl' & E). specialize (IH _ H' Hl'). rewrite E in IH. exact IH.
  - destruct (watcher_step_rank a s H) as [H' Hr].
    specialize (IH (watcher_step a s) H'). rewrite watcher_keeps_handler in IH. specialize (IH Hl).
    change (run_schedule ((Watcher, a) :: l) s) with (run_schedule l (watcher_step a s)).
    unfold watcher_steps, times in *. cbn [List.filter fst length]. lia.
Qed.

(** The handler tells the watcher to stop before it ends. *)
Lemma stop_before_end a s :
  match st_handler s with Closing _ | Joining _ | Releasing _ | Finished _ => st_stop s = true | _ => True end ->
  match st_handler (handler_step a s) with
  | Closing _ | Joining _ | Releasing _ | Finished _ => st_stop (handler_step a s) = true
  | _ => True
  end.
Proof.
  unfold handler_step, raised, record_disconnect, release_capacity.
  destruct (st_handler s) eqn:E; cbn; rewrite ?E; intros H; repeat case_match; cbn; rewrite ?E in *;
    simplify_eq; try done.
Qed.

Lemma watcher_keeps_stop a s : st_stop (watcher_step a s) = st_stop s.
Proof. unfold watcher_step, record_disconnect, release_capacity. by repeat case_match. Qed.

Lemma finished_stopped l : forall s,
  match st_handler s with Closing _ | Joining _ | Releasing _ | Finished _ => st_stop s = true | _ => True end ->
  match st_handler (run_schedule l s) with
  | Closing _ | Joining _ | Releasing _ | Finished _ => st_stop (run_schedule l s) = true
  | _ => True
  end.
Proof.
  induction l as [|[[] a] l IH]; intros s H; [done| |].
  - by apply IH, stop_before_end.
  - apply IH. cbn. by rewrite watcher_keeps_handler, watcher_keeps_stop.
Qed.

(** ** The theorems *)


(** What the client has read is always a beginning of the stream: nothing, or the
    head and then the frames of the events in their order, each once and complete,
    at most the last one pulled missing; and when the handler returns without an
    exception to a client that did not leave, the events were read to their end and
    every frame was written. *)
Theorem frames_arrive_in_order l :
  let s := run_schedule l begin_stream in
  cut_short (st_wire s) (st_pulled s)
  /\ (st_handler s = Finished (Ok tt) -> st_gone s = false ->
      st_exhausted s = true /\ st_wire s = Head stream_head :: map Frame (st_pulled s)).
Proof.
  intros s. destruct (schedule_ok l _ begin_ok) as [_ _ _ _ _ _ Hw]. fold s in Hw. split.
  - destruct (st_handler s) eqn:E; try (by eapply wire_ok_cut); by apply nothing_written.
  - intros E G. rewrite E, G in Hw. destruct Hw as [_ Hw].
    destruct (Hw eq_refl) as [|[Hx (fs & -> & ->)]]; [done|]. by rewrite app_nil_r.
Qed.

(** C23: Both threads end.  The handler is done after eight of its own steps and three
    more for each event the backend hands it, whatever the watcher does in between;
    and from then on the watcher is over after seven of its own. *)
Theorem both_threads_end l l' :
  8 + 3 * yields l <= handler_steps l ->
  7 <= watcher_steps l' ->
  let s := run_schedule l' (run_schedule l begin_stream) in
  finished (st_handler s) = true /\ watcher_rank (st_watcher s) = 0.
Proof.
  intros Hh Hw s. assert (F : finished (st_handler (run_schedule l begin_stream)) = true).
  { destruct (handler_progress l begin_stream) as [|H]; [done|]. cbn in H.
    destruct (st_handler (run_schedule l begin_stream)); cbn in H; try done; lia. }
  destruct (st_handler (run_schedule l begin_stream)) as [| | | | | | | | | |r] eqn:E; try done.
  split; [unfold s; by rewrite (finished_stays l' _ r E)|].
  pose proof (finished_stopped l begin_stream I) as Hs. rewrite E in Hs.
  assert (Hl : leaving (st_handler (run_schedule l begin_stream)) <> None) by by rewrite E.
  pose proof (watcher_after_stop l' _ Hs Hl) as Hx. fold s in Hx.
  pose proof (watcher_rank_bound (st_watcher (run_schedule l begin_stream))). lia.
Qed.

(** Two events, the client leaving after the first. *)
Definition left_early : list (thread * answer) :=
  [(Handler, Fine); (Handler, Fine); (Handler, Yields "a"); (Handler, Fine); (Watcher, Fine); (Watcher, Readable);
   (Handler, Fine); (Handler, Yields "b"); (Watcher, Fine); (Watcher, Fine); (Watcher, Fine);
   (Handler, Fine); (Handler, Fine); (Handler, Fine); (Handler, Fine); (Handler, Fine); (Handler, Fine);
   (Handler, Fine); (Handler, Fine); (Handler, Fine)].

Lemma both_threads_end_witness :
  finished (st_handler (run_schedule (repeat (Watcher, Fine) 7) (run_schedule left_early begin_stream))) = true
  /\ watcher_rank (st_watcher (run_schedule (repeat (Watcher, Fine) 7) (run_schedule left_early begin_stream))) = 0.
Proof. apply (both_threads_end left_early (repeat (Watcher, Fine) 7)); vm_compute; lia. Defined.

Example left_early_runs :
  let s := run_schedule left_early begin_stream in
  st_handler s = Finished (Ok tt) /\ st_wire s = [Head stream_head; Frame "a"] /\ st_given_back s = 1%Z
  /\ st_disconnects s = 1%Z.
Proof. by vm_compute. Qed.

(** A [close] that raises skips the last two lines of the [finally] clause: the place
    in the generation capacity is never given back. *)
Example close_failure_keeps_capacity :
  let s := run_schedule [(Handler, Fine); (Handler, Fine); (Handler, Fine); (Handler, Fine);
                         (Handler, Fails (Exn RuntimeError "close"))] begin_stream in
  st_handler s = Finished (Raise (Exn RuntimeError "close")) /\ st_given_back s = 0%Z.
Proof. by vm_compute. Qed.

(** What the boundary sees of a delivery that ended. *)
Definition delivery_of (s : stream) : option delivery :=
  match st_handler s with
  | Finished r => Some (mkDelivery r (st_gone s) (st_released s))
  | _ => None
  end.

(** ** [_open_stream] *)

(** Where the handler stands; [Ok true] is the events, [Ok false] is
    [ClientDisconnected]. *)
Inductive opener_pc : Type :=
  | Launching
  | Calling
  | Looking
  | ClosingUnseen
  | Excepting (e : exn)
  | Leaving (r : result bool)
  | Lingering (r : result bool)
  | Ended (r : result bool).

(** Where [watch_opening] stands. *)
Inductive lookout_pc : Type := Unborn | Sleeping | Polling | Counting | Over.

(** The two local events and, for the theorems, whether the backend handed out
    events, whether they were closed, and the disconnections counted. *)
Record doorway : Type := mkDoorway {
  dw_opener : opener_pc;
  dw_lookout : lookout_pc;
  dw_cancelled : bool;
  dw_finished : bool;
  dw_opened : bool;
  dw_closed : bool;
  dw_counted : Z }.

Definition begin_opening : doorway := mkDoorway Launching Unborn false false false false 0.

Definition opener_at (o : opener_pc) (s : doorway) : doorway :=
  mkDoorway o (dw_lookout s) (dw_cancelled s) (dw_finished s) (dw_opened s) (dw_closed s) (dw_counted s).

Definition lookout_at (p : lookout_pc) (s : doorway) : doorway :=
  mkDoorway (dw_opener s) p (dw_cancelled s) (dw_finished s) (dw_opened s) (dw_closed s) (dw_counted s).

Definition cancel (s : doorway) : doorway :=
  mkDoorway (dw_opener s) (dw_lookout s) true (dw_finished s) (dw_opened s) (dw_closed s) (dw_counted s).

Definition finish (s : doorway) : doorway :=
  mkDoorway (dw_opener s) (dw_lookout s) (dw_cancelled s) true (dw_opened s) (dw_closed s) (dw_counted s).

Definition hand_out (s : doorway) : doorway :=
  mkDoorway (dw_opener s) (dw_lookout s) (dw_cancelled s) (dw_finished s) true (dw_closed s) (dw_counted s).

Definition close_unseen (s : doorway) : doorway :=
  mkDoorway (dw_opener s) (dw_lookout s) (dw_cancelled s) (dw_finished s) (dw_opened s) true (dw_counted s).

Definition count_departure (s : doorway) : doorway :=
  mkDoorway (dw_opener s) (dw_lookout s) (dw_cancelled s) (dw_finished s) (dw_opened s) (dw_closed s)
    (dw_counted s + 1).

(** An exception of the [try] body: [except RuntimeError] or not. *)
Definition opener_raised (e : exn) (s : doorway) : doorway :=
  opener_at (if caught_by [RuntimeError] (exn_class e) then Excepting e else Leaving (Raise e)) s.

Definition opener_step (a : answer) (s : doorway) : doorway :=
  match dw_opener s with
  | Launching => match a with
                 | Fails e => opener_at (Ended (Raise e)) s
                 | _ => opener_at Calling (lookout_at Sleeping s)
                 end
  | Calling => match a with Fails e => opener_raised e s | _ => opener_at Looking (hand_out s) end
  | Looking => opener_at (if dw_cancelled s then ClosingUnseen else Leaving (Ok true)) s
  | ClosingUnseen => match a with
                     | Fails e => opener_raised e (close_unseen s)
                     | _ => opener_at (Leaving (Ok false)) (close_unseen s)
                     end
  | Excepting e => opener_at (Leaving (if dw_cancelled s then Ok false else Raise e)) s
  | Leaving r => opener_at (Lingering r) (finish s)
  | Lingering r => opener_at (Ended r) s
  | Ended _ => s
  end.

Definition lookout_step (a : answer) (s : doorway) : doorway :=
  match dw_lookout s with
  | Unborn | Over => s
  | Sleeping => lookout_at (if dw_finished s then Over else Polling) s
  | Polling => match a with
               | Readable => lookout_at Counting (cancel s)
               | Fails e => lookout_at Over (if caught_by [OSError; ValueError] (exn_class e) then cancel s else s)
               | _ => lookout_at Sleeping s
               end
  | Counting => lookout_at Over (count_departure s)
  end.

Definition opening_step (x : thread * answer) (s : doorway) : doorway :=
  match fst x with Handler => opener_step (snd x) s | Watcher => lookout_step (snd x) s end.

Definition run_opening (l : list (thread * answer)) (s : doorway) : doorway :=
  fold_left (fun s x => opening_step x s) l s.

(** What the boundary sees of an opening that ended with these events. *)
Definition opening_of (events : ResponseEventStream) (s : doorway) : option opening :=
  match dw_opener s with
  | Ended (Ok b) => Some (mkOpening (Ok (if b then Some events else None)) (Z.ltb 0 (dw_counted s)))
  | Ended (Raise e) => Some (mkOpening (Raise e) (Z.ltb 0 (dw_counted s)))
  | _ => None
  end.

(** The events of a result that is not returned have been closed. *)
Definition settled (r : result bool) (s : doorway) : Prop :=
  match r with
  | Ok true => dw_opened s = true /\ dw_closed s = false
  | Ok false => dw_cancelled s = true /\ dw_closed s = dw_opened s
  | Raise _ => dw_closed s = dw_opened s
  end.

Definition opener_ok (s : doorway) : Prop :=
  match dw_opener s with
  | Launching | Calling => dw_opened s = false /\ dw_closed s = false
  | Looking => dw_opened s = true /\ dw_closed s = false
  | ClosingUnseen => dw_opened s = true /\ dw_closed s = false /\ dw_cancelled s = true
  | Excepting _ => dw_closed s = dw_opened s
  | Leaving r | Lingering r | Ended r => settled r s
  end.

Record doorway_ok (s : doorway) : Prop := {
  dk_opener : opener_ok s;
  dk_counted : dw_counted s = 0%Z
    \/ dw_counted s = 1%Z /\ dw_lookout s = Over /\ dw_cancelled s = true;
  dk_counting : dw_lookout s = Counting -> dw_cancelled s = true;
  dk_launching : dw_opener s = Launching -> dw_lookout s = Unborn /\ dw_counted s = 0%Z }.

Lemma opener_step_ok a s : doorway_ok s -> doorway_ok (opener_step a s).
Proof.
  intros [H1 H2 H3 H4].
  destruct s as [o p cancelled fin opened closed counted]; unfold opener_ok in *; cbn in *.
  destruct o as [| | | |e|r|r|r]; unfold opener_step, opener_raised; cbn.
  all: repeat case_match; simplify_eq; constructor; unfold opener_ok; cbn in *; try done; try tauto.
  all: try (destruct (H4 eq_refl) as [-> ->]; auto; fail).
  all: intuition congruence.
Qed.

Lemma opener_ok_mono s s' :
  dw_opener s' = dw_opener s -> dw_opened s' = dw_opened s -> dw_closed s' = dw_closed s ->
  (dw_cancelled s = true -> dw_cancelled s' = true) -> opener_ok s -> opener_ok s'.
Proof.
  destruct s as [o p c f opened closed n], s' as [o' p' c' f' opened' closed' n']. unfold opener_ok. cbn.
  intros -> -> -> Hc. destruct o as [| | | |e|r|r|r]; try tauto; destruct r as [[]|]; cbn; tauto.
Qed.

Lemma lookout_keeps_opener a s :
  let s' := lookout_step a s in
  dw_opener s' = dw_opener s /\ dw_opened s' = dw_opened s /\ dw_closed s' = dw_closed s
  /\ (dw_cancelled s = true -> dw_cancelled s' = true).
Proof. unfold lookout_step. by repeat case_match. Qed.

Lemma lookout_step_ok a s : doorway_ok s -> doorway_ok (lookout_step a s).
Proof.
  intros [H1 H2 H3 H4]. destruct (lookout_keeps_opener a s) as (E1 & E2 & E3 & E4).
  assert (Hu : dw_lookout s = Unborn -> lookout_step a s = s) by (intros E; unfold lookout_step; by rewrite E).
  constructor.
  - by apply (opener_ok_mono s).
  - unfold lookout_step. destruct (dw_lookout s) eqn:E; repeat case_match; cbn; rewrite ?E; auto;
      intuition (try congruence); right; rewrite H; auto.
  - unfold lookout_step. destruct (dw_lookout s) eqn:E; repeat case_match; cbn; rewrite ?E; auto; done.
  - rewrite E1. intros E. destruct (H4 E) as [Eu Ec]. by rewrite (Hu Eu).
Qed.

Lemma opening_ok l : forall s, doorway_ok s -> doorway_ok (run_opening l s).
Proof.
  induction l as [|[[] a] l IH]; intros s H; [done| |]; apply IH; [by apply opener_step_ok|by apply lookout_step_ok].
Qed.

Lemma begin_opening_ok : doorway_ok begin_opening.
Proof. constructor; cbn; auto; done. Qed.

Definition opener_rank (o : opener_pc) : nat :=
  match o with
  | Launching => 7 | Calling => 6 | Looking => 5 | ClosingUnseen => 4
  | Excepting _ => 3 | Leaving _ => 2 | Lingering _ => 1 | Ended _ => 0
  end.

Lemma opener_step_rank a s : opener_rank (dw_opener (opener_step a s)) <= pred (opener_rank (dw_opener s)).
Proof.
  unfold opener_step, opener_raised. destruct (dw_opener s) eqn:E; repeat case_match; cbn; rewrite ?E; cbn; lia.
Qed.

Lemma opener_progress l : forall s,
  opener_rank (dw_opener (run_opening l s)) <= opener_rank (dw_opener s) - handler_steps l.
Proof.
  induction l as [|[[] a] l IH]; intros s; [cbn; lia| |].
  - pose proof (opener_step_rank a s). specialize (IH (opener_step a s)).
    change (run_opening ((Handler, a) :: l) s) with (run_opening l (opener_step a s)).
    unfold handler_steps, times in *. cbn [List.filter fst length]. lia.
  - destruct (lookout_keeps_opener a s) as (E & _). specialize (IH (lookout_step a s)). rewrite E in IH. exact IH.
Qed.

(** Opening a stream ends after seven steps of the handler, and its outcome is
    true to what happened: events are returned open; the handler reports a client
    that left only when the watcher saw it; and events it does not return have been
    closed, whatever was raised and however late the client left.  The watcher counts
    at most one disconnection, and only for a client that left. *)
Theorem opened_events_are_not_lost l :
  7 <= handler_steps l ->
  let s := run_opening l begin_opening in
  (exists r, dw_opener s = Ended r /\ settled r s)
  /\ (dw_counted s = 0 \/ dw_counted s = 1 /\ dw_cancelled s = true)%Z.
Proof.
  intros Hn s. destruct (opening_ok l _ begin_opening_ok) as [Ho Hc _ _]. fold s in Ho, Hc.
  pose proof (opener_progress l begin_opening) as Hr. fold s in Hr. cbn in Hr. split; [|tauto].
  unfold opener_ok in Ho. destruct (dw_opener s) as [| | | |e|r|r|r] eqn:E; cbn in Hr; try lia. eauto.
Qed.

(** The client leaves after the handler has looked. *)
Definition left_late : list (thread * answer) :=
  [(Handler, Fine); (Handler, Fine); (Handler, Fine); (Watcher, Fine); (Watcher, Readable); (Watcher, Fine);
   (Handler, Fine); (Handler, Fine); (Handler, Fine); (Handler, Fine)].

Lemma opened_events_are_not_lost_witness :
  (exists r, dw_opener (run_opening left_late begin_opening) = Ended r
             /\ settled r (run_opening left_late begin_opening))
  /\ (dw_counted (run_opening left_late begin_opening) = 0
      \/ dw_counted (run_opening left_late begin_opening) = 1
         /\ dw_cancelled (run_opening left_late begin_opening) = true)%Z.
Proof. apply (opened_events_are_not_lost left_late). vm_compute. lia. Defined.

(** The watcher of the opening counts a client that leaves too late for the handler
    to notice, and the watcher of the delivery counts the same client again: the
    server's metric counts one disconnection twice. *)
Example one_disconnect_counted_twice :
  let o := run_opening left_late begin_opening in
  let s := run_schedule left_early begin_stream in
  dw_opener o = Ended (Ok true) /\ (dw_counted o + st_disconnects s = 2)%Z.
Proof. by vm_compute. Qed.

(** ** The boundary's interface *)

(** A delivery that ended without a failing close gives the capacity back: what the
    boundary asks of [h_send_stream]. *)
Lemma delivery_releases l d :
  let s := run_schedule l begin_stream in
  delivery_of s = Some d -> st_close_failed s = false -> dv_released d = true.
Proof.
  intros s E Hc. destruct (schedule_ok l _ begin_ok) as [_ _ _ Hf _ _ _]. fold s in Hf.
  unfold delivery_of in E. destruct (st_handler s) eqn:Eh; try done. injection E as <-. cbn.
  destruct (Hf eq_refl) as [|H]; [done|congruence].
Qed.
