(* ===== verification/ModelDefaults.v ===== *)
(** * The system prompt and the default models ([c3r/system_prompt.py],
      [c3r/deliberative/defaults.py], [c3r/deliberative/__init__.py])

    What is fixed when the package is imported: the prompt resource is read once and
    checked against its digest, and the names of the default models are exported
    lazily.  The resource's bytes and the UTF-8 decoder are parameters, since the
    prompt has characters above 255. *)

From Stdlib Require Import Lia ZArith Ascii String.
From stdpp Require Import base option strings list.
From S2P Require Import Prelude PyStr PyFloat Json Hash Providers ClmAdapter.

Local Open Scope string_scope.

(** ** The prompt *)

Definition SYSTEM_PROMPT_VERSION : string := "2026-10-06".
Definition SYSTEM_PROMPT_SHA256 : string := "6cae0e283d911b3166f02eb771c0f90a00df86f29211f82832dee0435320b608".

Section prompt.
Context {E : Type} (read_resource : io E string) (decode : string -> result string).

(** The statements that give [C3R_SYSTEM_PROMPT]. *)
Definition load_system_prompt : io E string :=
  resource ← read_resource;
  _ ← lift (raise_if (negb (String.eqb (sha256_hex resource) SYSTEM_PROMPT_SHA256)) RuntimeError
              "C3R system prompt resource does not match the reviewed version");
  lift (decode resource).

Lemma load_system_prompt_ok e prompt e' : load_system_prompt e = (Ok prompt, e') ->
  exists resource, read_resource e = (Ok resource, e') /\ sha256_hex resource = SYSTEM_PROMPT_SHA256
    /\ decode resource = Ok prompt.
Proof.
  unfold load_system_prompt. intros H. apply io_bind_ok in H as (resource & w & Hr & H).
  apply io_bind_ok in H as (? & w1 & Hd & H). apply lift_ok in Hd as [Hd ->]. apply lift_ok in H as [H ->].
  apply raise_if_ok, negb_false_iff, String.eqb_eq in Hd. by exists resource.
Qed.
End prompt.

(** Every deployment sends the reviewed prompt.  Two imports that succeed, on
    whatever machines, give the same prompt unless their two resources are a SHA-256
    collision; and both texts sent to a model start with it and then state the
    boundary of the runtime. *)
Theorem prompt_is_reviewed {E} read1 read2 decode (e1 e1' e2 e2' : E) p1 p2
    (H1 : load_system_prompt read1 decode e1 = (Ok p1, e1'))
    (H2 : load_system_prompt read2 decode e2 = (Ok p2, e2')) :
  (p1 = p2 \/ exists r1 r2, read1 e1 = (Ok r1, e1') /\ read2 e2 = (Ok r2, e2')
     /\ r1 <> r2 /\ sha256_hex r1 = sha256_hex r2)
  /\ exists rest rest', TEXT_SYSTEM_PROMPT p1 = p1 ++ Providers.line_feed ++ Providers.line_feed ++ RUNTIME_BOUNDARY ++ rest
     /\ SYSTEM p1 = p1 ++ Providers.line_feed ++ Providers.line_feed ++ RUNTIME_BOUNDARY ++ rest'.
Proof.
  apply load_system_prompt_ok in H1 as (r1 & Hr1 & Hs1 & Hd1).
  apply load_system_prompt_ok in H2 as (r2 & Hr2 & Hs2 & Hd2). split.
  - destruct (decide (r1 = r2)) as [->|Hne]; [left; congruence|right].
    exists r1, r2. by rewrite Hs1, Hs2.
  - by eexists _, _.
Qed.

(** ** The default models *)

Definition DEFAULT_LANGUAGE_MODEL : string := "deepseek-ai/DeepSeek-V4.1-Flash".
Definition DEFAULT_DEEPSEEK_API_MODEL : string := "deepseek-flash".
Definition DEFAULT_OPENROUTER_MODEL : string := "deepseek/deepseek-v4.1-flash".

Record DefaultModelProfile : Type := mkProfile {
  display_name : string; checkpoint : string; license_id : string; role : string }.

(** [DefaultModelProfile()]. *)
Definition default_profile : DefaultModelProfile :=
  mkProfile "DeepSeek V4.1 Flash" DEFAULT_LANGUAGE_MODEL "MIT" "deliberative-language-model".

(** A profile asks for the model its constant names. *)
Lemma default_models_named urlparse key gateway c :
  default_provider_config urlparse key gateway = Ok c ->
  kind c = OPENAI_COMPATIBLE
  /\ (gateway, model c) ∈ [("self_hosted", "/model"); ("deepseek", DEFAULT_DEEPSEEK_API_MODEL);
                           ("openrouter", DEFAULT_OPENROUTER_MODEL)]
  /\ (api_key c = None <-> gateway = "self_hosted").
Proof.
  assert (Hsame : forall c c', make_provider urlparse c = Ok c' -> c' = c).
  { intros c0 c' H. unfold make_provider in H. apply bind_ok in H as (p & _ & H).
    repeat match type of H with (if ?b then _ else _) = _ => destruct b; [done|] end. by injection H. }
  unfold default_provider_config. destruct (String.eqb_spec gateway "self_hosted") as [->|Hs].
  { intros ->%Hsame. cbn. split; [done|]. split; [by left|done]. }
  destruct (bool_decide_reflect (gateway ∈ ["openrouter"; "deepseek"])) as [Hg|]; [|done]. cbn [negb].
  destruct (truthy key) eqn:Ek; [|done]. cbn [negb].
  assert (Hk : key <> None) by by destruct key.
  destruct (String.eqb_spec gateway "deepseek") as [->|Hd]; intros ->%Hsame; cbn.
  - split; [done|]. split; [right; by left|done].
  - apply elem_of_cons in Hg as [->|Hg]; [|apply list_elem_of_singleton in Hg; congruence].
    split; [done|]. split; [right; right; by left|done].
Qed.

(** The lazily exported names: what [getattr(defaults, name)] finds. *)
Inductive default_export : Type :=
  | Text (value : string)
  | ProfileClass
  | ConfigFunction.

(** [__getattr__] of the package [deliberative]. *)
Definition deliberative_getattr (name : string) : result default_export :=
  if String.eqb name "DEFAULT_DEEPSEEK_API_MODEL" then Ok (Text DEFAULT_DEEPSEEK_API_MODEL)
  else if String.eqb name "DEFAULT_LANGUAGE_MODEL" then Ok (Text DEFAULT_LANGUAGE_MODEL)
  else if String.eqb name "DEFAULT_OPENROUTER_MODEL" then Ok (Text DEFAULT_OPENROUTER_MODEL)
  else if String.eqb name "DefaultModelProfile" then Ok ProfileClass
  else if String.eqb name "default_provider_config" then Ok ConfigFunction
  else raise AttributeError name.

(** [__all__]; the two names of the envelope are imported directly. *)
Definition deliberative_all : list string :=
  ["DEFAULT_DEEPSEEK_API_MODEL"; "DEFAULT_LANGUAGE_MODEL"; "DEFAULT_OPENROUTER_MODEL"; "DefaultModelProfile";
   "DeliberativeEnvelope"; "DeliberativeResult"; "default_provider_config"].

Definition directly_imported : list string := ["DeliberativeEnvelope"; "DeliberativeResult"].

(** [from c3r.deliberative import *] finds every name, and [__getattr__] has no
    name that is not exported. *)
Theorem exports_resolve name :
  name ∈ deliberative_all <-> name ∈ directly_imported \/ is_ok (deliberative_getattr name) = true.
Proof.
  unfold deliberative_getattr, deliberative_all, directly_imported.
  repeat match goal with
  | |- context [String.eqb name ?s] => destruct (String.eqb_spec name s) as [->|?]; [split; [by right|intros _]; apply (bool_decide_eq_true_1 _); reflexivity|]
  end.
  split.
  - intros H. left. repeat (apply elem_of_cons in H as [->|H]; [try done; apply (bool_decide_eq_true_1 _); reflexivity|]).
    by apply elem_of_nil in H.
  - intros [H|H]; [|done].
    repeat (apply elem_of_cons in H as [->|H]; [apply (bool_decide_eq_true_1 _); reflexivity|]).
    by apply elem_of_nil in H.
Qed.
