(* ===== verification/DecisionService.v ===== *)
(** * Decisions over the wire

    The HTTP boundary ([c3r/http_service.py]) composed with the controller
    ([c3r/runtime.py]), a request factory ([c3r/host_factory.py]) and a trace sink:
    the world of the boundary is the world of the models next to the sink.  The
    other components of the server (ranking, text responses, streams) are whatever
    the host has. *)

From Stdlib Require Import Lia ZArith Ascii String.
From stdpp Require Import base option strings gmap list.
From S2P Require Import Prelude PyStr PySort PyFloat FloatRepr Json Hash StateSchema.
From S2P Require StateCompiler CandidateCompiler.
From S2P Require Import Cvoc Authority VerifierFirewall TraceLedger Sinks SystemOne Invocations PyNumber.
From S2P Require Import ClmAdapter Controls Providers Runtime HostFactory Responses HttpService.
From S2P Require Import LocalArtifacts ProductionHost.

Local Open Scope string_scope.

(** The document of an answer with status 200. *)
Definition accepted (out : result http_reply) : list (list (string * json)) :=
  match out with Ok (Sent 200 v) => [v] | _ => [] end.

(** An answer of another status, or an exception. *)
Definition refused (out : result http_reply) : bool :=
  match out with Ok (Sent st _) => negb (Z.eqb st 200) | Ok _ => false | Raise _ => true end.

Lemma refused_accepted out : refused out = true -> accepted out = [].
Proof.
  destruct out as [[st v| |]|e]; try done. cbn [refused accepted]. intros H%negb_true_iff%Z.eqb_neq.
  destruct st as [|p|p]; [done| |done]. by repeat (destruct p as [p|p|]; try done).
Qed.

(** The paths whose requests the controller decides: the ranking paths are among
    them when the host has no ranking component. *)
Definition decides {W D} (host : Host W D) (path : string) : Prop :=
  path ∈ ["/v1/decisions"; "/v1/c3r/decide"] \/ path ∈ ranking_paths /\ h_infer host = None.

Section boundary.
Context {W D : Type} `{!HasCounts W} (monotonic : io W float) (loads_bytes : string -> result json)
  (host : Host W D).

Lemma refused_nothing (st : Z) v s (w : W) out s' w' :
  st <> 200%Z -> send st v s w = (out, s', w') -> refused out = true /\ w' = w.
Proof. unfold send. intros Hst [= <- _ <-]. split; [|done]. by apply negb_true_iff, Z.eqb_neq. Qed.

Lemma exception_nothing e s (w : W) out s' w' :
  on_exception e s w = (out, s', w') -> refused out = true /\ w' = w.
Proof.
  unfold on_exception, count_and_send.
  destruct (caught_by _ _); [by apply refused_nothing|].
  destruct (caught_by _ _); [by apply refused_nothing|]. by intros [= <- _ <-].
Qed.

(** Either the request was refused and nothing happened after the clock was read, or
    the request reached the decision. *)
Lemma post_reaches r s w out s' w' :
  decides host (h_path r) -> post monotonic loads_bytes host r s w = (out, s', w') ->
  (refused out = true /\ (w' = w \/ w' = snd (monotonic w)))
  \/ exists payload s1, post_decision host (h_path r) payload s1 (snd (monotonic w)) = (out, s', w').
Proof.
  intros Hd. unfold post.
  assert (Hrefused : forall st v s1 w1, st <> 200%Z -> w1 = w \/ w1 = snd (monotonic w) ->
    send st v s1 w1 = (out, s', w') -> refused out = true /\ (w' = w \/ w' = snd (monotonic w))).
  { intros st v s1 w1 Hst Hw H. by apply refused_nothing in H as [? ->]. }
  assert (Hraised : forall e s1, on_exception e s1 (snd (monotonic w)) = (out, s', w') ->
    refused out = true /\ (w' = w \/ w' = snd (monotonic w))).
  { intros e s1 H. apply exception_nothing in H as [? ->]. auto. }
  destruct (negb _); [intros H; left; eapply Hrefused; [| |exact H]; auto|].
  destruct (negb _); [intros H; left; eapply Hrefused; [| |exact H]; auto|].
  destruct (monotonic w) as [[now|e] w1]; cbn [snd] in *; [|intros [= <- _ <-]; auto].
  destruct (take_token (sv_limiter s) now) as [taken limiter].
  destruct (negb _); [intros H; left; eapply Hrefused; [| |exact H]; auto|].
  destruct (_ || _); [intros H; left; eapply Hrefused; [| |exact H]; auto|].
  destruct (parse_int _) as [n|]; [|intros H; left; eapply Hrefused; [| |exact H]; auto].
  destruct (_ || _); [intros H; left; eapply Hrefused; [| |exact H]; auto|].
  destruct (loads_bytes _) as [j|e]; [|intros H; left; by eapply Hraised].
  destruct j as [| | | | | |payload]; try (intros H; left; by eapply Hraised).
  intros H. right. exists payload, (with_limiter limiter s). rewrite <- H. symmetry.
  assert (Hr : h_path r <> "/v1/responses").
  { destruct Hd as [Hd|[Hd _]]; unfold ranking_paths in Hd; intros Heq; rewrite Heq in Hd;
      by repeat (apply elem_of_cons in Hd as [Hd|Hd]; [discriminate Hd|]); apply elem_of_nil in Hd. }
  assert (Hp : post_payload host (h_path r) payload (with_limiter limiter s) w1
               = post_ranking host (h_path r) payload (with_limiter limiter s) w1).
  { unfold post_payload. destruct (h_responses host); [|done]. by rewrite (proj2 (String.eqb_neq _ _) Hr). }
  rewrite Hp. unfold post_ranking. destruct (h_infer host) as [f|] eqn:Ef; [|done].
  destruct Hd as [Hd|[_ Hd]]; [|congruence].
  rewrite bool_decide_eq_false_2; [done|].
  repeat (apply elem_of_cons in Hd as [->|Hd]; [apply (bool_decide_eq_false_1 _); reflexivity|]).
  by apply elem_of_nil in Hd.
Qed.

(** A decision is the factory, the run and the outcome's document. *)
Lemma decision_cases path payload s w out s' w' :
  post_decision host path payload s w = (out, s', w') ->
  match h_factory host payload w with
  | (Ok rq, w1) =>
      match h_run host rq w1 with
      | (Ok o, w2) => out = Ok (Sent 200 (with_invocations (outcome_json path o) w2)) /\ w' = w2
      | (Raise _, w2) => refused out = true /\ w' = w2
      end
  | (Raise _, w1) => refused out = true /\ w' = w1
  end.
Proof.
  unfold post_decision, within, mbind, io_bind.
  destruct (h_factory host payload w) as [[rq|x] w1]; [|apply exception_nothing].
  destruct (h_run host rq w1) as [[o|x] w2]; [|apply exception_nothing].
  unfold count_and_send, send. by intros [= <- _ <-].
Qed.

(** A decision path answers with documents only. *)
Lemma post_documents r s w out s' w' :
  decides host (h_path r) -> do_POST monotonic loads_bytes host r s w = (out, s', w') ->
  refused out = true \/ exists v, out = Ok (Sent 200 v).
Proof.
  intros Hd. unfold do_POST. destruct (post _ _ _ r s _) as [[out1 s1] w1] eqn:Ep. intros [= <- _ _].
  destruct (post_reaches _ _ _ _ _ _ Hd Ep) as [[Ha _]|(payload & s2 & Hpost)]; [by left|].
  apply decision_cases in Hpost. destruct (h_factory host payload _) as [[rq|x] w2]; [|left; apply Hpost].
  destruct (h_run host rq w2) as [[o|x] w3]; [|left; apply Hpost]. right. destruct Hpost as [-> _]. eauto.
Qed.
End boundary.

(** ** The composed service *)

(** The invocation counters are in the world of the models, beside the sink. *)
#[local] Program Instance counts_with_sink {E L} `{!HasCounts E} : HasCounts (E * L) := {|
  get_counts w := get_counts (fst w); set_counts c w := (set_counts c (fst w), snd w) |}.
Next Obligation. intros E L ? c w. apply get_set_counts. Qed.

Section service.
Context {E L D : Type} `{!HasCounts E, !TraceSink L} (monotonic : io E float)
  (loads_bytes : string -> result json) (c : StandaloneController E D)
  (factory : list (string * json) -> io E RuntimeRequest).

(** The server's [runtime] and [request_factory]; the rest of the host is [other]. *)
Definition decision_host (other : Host (E * L) D) : Host (E * L) D :=
  mkHost (decision_enabled c) (sc_system_one_enabled c) (in_world (provider_ready c))
    (h_system_one_ready other) (h_infer other) (h_responses other) (h_open_stream other) (h_send_stream other)
    (fun payload => in_world (factory payload)) (fun request => run c request None).

Context (other : Host (E * L) D).

(** One POST after another. *)
Fixpoint post_all (rs : list http_request) (s : C3RHTTPServer) (w : E * L)
    : list (result http_reply) * C3RHTTPServer * (E * L) :=
  match rs with
  | [] => ([], s, w)
  | r :: rs' =>
      let '(out, s1, w1) := do_POST (in_world monotonic) loads_bytes (decision_host other) r s w in
      let '(outs, s2, w2) := post_all rs' s1 w1 in
      (out :: outs, s2, w2)
  end.

(** The record of an answer: the hash answered is the record's, the record's text
    is a trace that says what the answer says, and an action named was a read-only
    one that the firewall accepted, with a usable estimate of positive worst value. *)
Record answered (v : list (string * json)) (r : LedgerRecord) : Prop := mkAnswered {
  an_hash : assoc "trace_hash" v = Some (JStr (record_hash r))
            /\ record_hash r = hash_record (previous_hash r) (canonical_json r);
  an_effect : assoc "effect_executed" v = Some (JBool false);
  an_trace : exists t status,
    canonical_trace_json t = Ok (canonical_json r)
    /\ task_outcome t !! "status" = Some (SStr status) /\ assoc "reason" v = Some (JStr status)
    /\ assoc "selected_action_id" v = Some (json_opt (selected_action_id t))
    /\ assoc "authority_result" v = Some (JStr (authority_result t));
  an_action : forall i, assoc "selected_action_id" v = Some (JStr i) ->
    assoc "authority_result" v = Some (JStr "verified_not_committed")
    /\ exists payload e rq e' x verdict est,
      factory payload e = (Ok rq, e')
      /\ ac_id x = i /\ ac_risk_class x = READ_ONLY /\ ac_family x <> DELIBERATE
      /\ verify (sc_verifier c) x = Ok verdict /\ vr_accepted verdict = true
      /\ estimates rq !! i = Some est /\ usable est
      /\ fle (lower_bound_of (sc_cvoc c) est) fzero = false }.

(** The counters written into an answer leave the rest of it alone. *)
Lemma with_invocations_other {W} `{!HasCounts W} k value (w : W) :
  k <> "c3r" -> assoc k (with_invocations value w) = assoc k value.
Proof.
  intros Hk. unfold with_invocations. destruct (get_counts w); [|done].
  rewrite assoc_dict_set. by destruct (String.eqb_spec k "c3r").
Qed.

(** An outcome's document and its record belong together. *)
Lemma outcome_answered path payload e0 e1 rq rd e l o e' l' w
    (Hl : sink_invariant l) (Hf : factory payload e0 = (Ok rq, e1))
    (Hrun : run c rq rd (e, l) = (Ok o, (e', l'))) :
  answered (with_invocations (W := E * L) (outcome_json path o) w) (ledger_record o).
Proof.
  destruct (every_outcome_is_traced c _ _ _ _ _ _ _ Hl Hrun)
    as (_ & _ & t & Ht & Hh & _ & _ & Hs & Ha & _ & Hr).
  split; rewrite ?with_invocations_other by done; [done|done| |].
  - exists t, (reason o). split; [done|]. split; [done|]. split; [done|].
    split; [cbn; by rewrite Hs|cbn; by rewrite Ha].
  - intros i Hi. change (Some (json_opt (ro_selected_action_id o)) = Some (JStr i)) in Hi.
    change (assoc "authority_result" (outcome_json path o)) with (Some (JStr (ro_authority_result o))).
    apply run_ok in Hrun as (hash & a & rec & _ & _ & Ha' & _ & ->). unfold outcome_of in Hi |- *.
    cbn [ro_selected_action_id ro_authority_result] in Hi |- *.
    destruct (fa_selected a) as [x|] eqn:Ex; [|discriminate Hi]. injection Hi as Hi.
    assert (exists cs, sound_finish c rq cs a) as (cs & _ & _ & _ & Hsel)
      by (apply decide_run_sound in Ha' as [[_ ?]|(_ & ? & ? & _ & ?)]; eauto).
    rewrite Ex in Hsel.
    destruct Hsel as (_ & Hro & Hnd & (v & Hv & Hacc) & (est & He & Hu & _ & Hpos) & _ & _ & -> & _).
    split; [done|]. rewrite Hi in He. by exists payload, e0, rq, e1, x, v, est.
Qed.

(** One POST: at most one record, and then the answer is its. *)
Lemma post_recorded r s e l out s' e' l' :
  trace_persistence (L := L) = true -> sink_invariant l -> decides (decision_host other) (h_path r) ->
  do_POST (in_world monotonic) loads_bytes (decision_host other) r s (e, l) = (out, s', (e', l')) ->
  sink_invariant l'
  /\ exists new, sink_records l' = (sink_records l ++ new)%list /\ Forall2 answered (accepted out) new.
Proof.
  intros Hp Hl Hd. unfold do_POST. set (w0 := set_counts (Some fresh_counts) (e, l)).
  destruct (post _ _ _ r s w0) as [[out1 s1] w1] eqn:Ep. intros [= <- <- _ <-].
  assert (Hkeep : refused out1 = true -> snd w1 = l ->
    sink_invariant (snd w1) /\ exists new, sink_records (snd w1) = (sink_records l ++ new)%list
      /\ Forall2 answered (accepted out1) new).
  { intros ->%refused_accepted ->. split; [done|]. exists []. by rewrite app_nil_r. }
  assert (Hclock : snd (snd (in_world monotonic w0)) = l).
  { unfold in_world, w0. cbn. by destruct (monotonic _). }
  destruct (post_reaches _ _ _ _ _ _ _ _ _ Hd Ep) as [[Ha [->| ->]]|(payload & s2 & Hpost)];
    [by apply Hkeep|by apply Hkeep|].
  destruct (in_world monotonic w0) as [[now|x] [e1 l1]]; cbn [snd] in Hclock, Hpost; subst l1;
    apply decision_cases in Hpost; cbn [decision_host h_factory h_run in_world] in Hpost;
    (destruct (factory payload e1) as [[rq|y] e2] eqn:Ef; [|destruct Hpost as [? ->]; by apply Hkeep]);
    (destruct (run c rq None (e2, l)) as [[o|y] [e3 l3]] eqn:Erun; destruct Hpost as [Hout ->];
     [|cbn [snd]; destruct (every_outcome_is_traced c _ _ _ _ _ _ _ Hl Erun) as [? Hr];
       rewrite (refused_accepted _ Hout), Hr; split; [done|]; exists []; by rewrite app_nil_r]);
    destruct (every_outcome_is_traced c _ _ _ _ _ _ _ Hl Erun) as (? & Hr & _); rewrite Hp in Hr;
    (split; [done|]; exists [ledger_record o]; split; [done|]; rewrite Hout; cbn [accepted];
     apply List.Forall2_cons; [|apply List.Forall2_nil];
     eapply outcome_answered; [exact Hl|exact Ef|exact Erun]).
Qed.

End service.

(** ** The production composition *)

Section production.
Context {E : Type} `{!HasCounts E, !ReadinessCells E} {files : LocalFiles E} (http_get : string -> io E string)
  (loads_bytes : string -> result json) (monotonic : io E float) (log : float -> float) (uuid4 : io E string)
  (urlsplit urlparse : string -> result split_url) (prompt : string)
  (clm_transport : ClmAdapter -> list (string * json) -> float -> io E (list (string * json)))
  (transport : string -> list (string * string) -> list (string * json) -> io E TransportResponse).

(** The production host behind the HTTP boundary names no action: whatever is
    posted to a decision path, an answer of status 200 has a null action and claims
    no effect, since its catalogs give every request no estimates.  Nothing is
    kept of the request either: the sink is the request-local one. *)
Theorem production_names_no_action values key e components e' other r s w out s' w' v
    (Hbuild : production_build http_get loads_bytes monotonic log uuid4 urlsplit urlparse prompt clm_transport
                transport values key e = (Ok components, e'))
    (Hd : decides (decision_host (L := unit) (hc_runtime components) (hc_factory components) other) (h_path r))
    (H : do_POST (in_world monotonic) loads_bytes
           (decision_host (hc_runtime components) (hc_factory components) other) r s w = (out, s', w'))
    (Hv : v ∈ accepted out) :
  assoc "selected_action_id" v = Some JNull /\ assoc "effect_executed" v = Some (JBool false).
Proof using Type.
  destruct (production_build_ok _ _ _ _ _ _ _ _ _ _ _ _ _ _ _ Hbuild)
    as (_ & _ & registry & _ & _ & _ & Hreg & _ & _ & _ & _ & Hfac & _).
  unfold do_POST in H. destruct (post _ _ _ r s _) as [[out1 s1] w1] eqn:Ep. injection H as <- _ _.
  destruct (post_reaches _ _ _ _ _ _ _ _ _ Hd Ep) as [[Ha _]|(payload & s2 & Hpost)];
    [rewrite (refused_accepted _ Ha) in Hv; by apply elem_of_nil in Hv|].
  apply decision_cases in Hpost. cbn [decision_host h_factory h_run] in Hpost.
  destruct (snd (in_world monotonic _)) as [e1 []]. unfold in_world in Hpost. rewrite Hfac in Hpost.
  destruct (registry_build uuid4 registry payload e1) as [[rq|x] e2] eqn:Ef;
    [|destruct Hpost as [Ha _]; rewrite (refused_accepted _ Ha) in Hv; by apply elem_of_nil in Hv].
  destruct (run _ rq None (e2, tt)) as [[o|x] [e3 l3]] eqn:Erun;
    [|destruct Hpost as [Ha _]; rewrite (refused_accepted _ Ha) in Hv; by apply elem_of_nil in Hv].
  destruct (catalog_grants_no_action _ _ _ _ _ _ _ Hreg Ef) as (_ & _ & _ & _ & _ & _ & _ & _ & Hnone).
  specialize (Hnone _ _ _ _ _ _ _ _ _ _ _ Erun).
  destruct Hpost as [-> _]. cbn [accepted] in Hv. apply list_elem_of_singleton in Hv as ->.
  rewrite !with_invocations_other by done.
  change (assoc "selected_action_id" (outcome_json (h_path r) o))
    with (Some (json_opt (ro_selected_action_id o))). by rewrite Hnone.
Qed.
End production.

(** ** A concrete service *)

Definition wire_controller : StandaloneController (option counts) unit :=
  mkStandalone (example_flags false false) StateCompiler.default_compiler
    (CandidateCompiler.mkCandidateCompiler 4) (mkController fone) example_firewall None None None.

(** A factory that always asks for the same decision. *)
Definition wire_factory (_ : list (string * json)) : io (option counts) RuntimeRequest := mret example_request.

Definition quiet_host : Host (option counts * TraceLedger) unit :=
  mkHost false false (mret false) None None None (fun _ w => (mkOpening (raise ValueError "no") false, w))
    (fun _ w => (mkDelivery (raise ValueError "no") false true, w)) (fun _ => mret example_request)
    (fun _ w => (raise ValueError "no", w)).

Definition wire_run : list (result http_reply) * C3RHTTPServer * (option counts * TraceLedger) :=
  post_all (mret fzero) loads wire_controller wire_factory quiet_host
    [example_post; mkHttp "/v1/c3r/decide" [] (Some "2") "{}"; mkHttp "/v1/c3r/rank" ["Bearer " ++ example_token] (Some "2") "{}"]
    example_server (None, mkLedger []).

