(* ===== verification/Deployment.v ===== *)
(** * The proxy in front of the service

    The serving process ([c3r/serve.py]) puts [c3r/ingress_proxy.py] before
    [c3r/http_service.py].  Here the upstream of the proxy is the service: the
    request the proxy sends is handled by [do_POST] or [do_GET], and the document it
    answers is what the proxy reads.  Everything else the proxy meets (its client,
    its clock, its credential store, the network with its failures) is a world of
    its own. *)

From Stdlib Require Import Lia ZArith Ascii String.
From stdpp Require Import base option strings gmap list.
From S2P Require Import Prelude Effects PyStr PySort PyFloat FloatRepr Json Hash StateSchema.
From S2P Require Import Authority VerifierFirewall TraceLedger Sinks Invocations PyNumber Runtime HostFactory Responses.
From S2P Require Import Controls Access HttpService DecisionService IngressProxy.

Local Open Scope string_scope.

(** [_send]: the bytes of a document. *)
Definition sent_text (v : list (string * json)) : string := utf8 (print compact_options (JObj v)).

(** The proxy's request as the service parses it; [http.client] announces the
    length of a body. *)
Definition as_http (q : upstream_request) : http_request :=
  mkHttp (uq_path q)
    (map snd (List.filter (fun kv => String.eqb (lower (fst kv)) "authorization") (uq_headers q)))
    ((fun b => str_of_Z (len b)) <$> uq_body q) (default "" (uq_body q)).

(** A read that returned fewer bytes than asked for returned all. *)
Lemma substring_within t n : (len (String.substring 0 n t) < Z.of_nat n)%Z -> String.substring 0 n t = t.
Proof.
  unfold len. revert n; induction t as [|a t IH]; intros [|n]; cbn [String.substring String.length]; try done.
  intros H. f_equal. apply IH. lia.
Qed.

Lemma accepted_one out : (length (accepted out) <= 1)%nat.
Proof. unfold accepted. repeat case_match; cbn; lia. Qed.

Section deployment.
Context {X E L D : Type} `{!HasCounts E, !TraceSink L} (front : Outside X)
  (delivers : upstream_request -> X -> bool) (monotonic : io E float) (loads_bytes : string -> result json)
  (c : Runtime.StandaloneController E D) (factory : list (string * json) -> io E RuntimeRequest)
  (other : Host (E * L) D).

#[local] Existing Instance counts_with_sink.

(** The service behind the proxy, and its reply to the request of a connection. *)
Record back : Type := mkBack {
  bk_server : C3RHTTPServer; bk_world : E * L; bk_reply : option http_reply }.

Definition handle_request (q : upstream_request) (b : back) : back :=
  let '(out, s', w') :=
    if String.eqb (uq_method q) "GET"
    then do_GET (decision_host c factory other) (as_http q) (bk_server b) (bk_world b)
    else do_POST (in_world monotonic) loads_bytes (decision_host c factory other) (as_http q)
           (bk_server b) (bk_world b) in
  mkBack s' w' (match out with Ok reply => Some reply | Raise _ => None end).

Definition store_in_front (store : access_service X) : access_service (X * back) :=
  mkAccessService (fun token => in_world (as_authenticate store token)) (fun p => in_world (as_admit store p))
    (fun p id => in_world (as_dispatch store p id)) (fun p id a => in_world (as_record_usage store p id a)).

Definition calling_front {A} (f : X -> A * X) : X * back -> A * (X * back) := fun '(x, b) =>
  let '(a, x') := f x in (a, (x', b)).

(** The proxy's outside, joined to the service.  A request may reach the service or
    not, whether or not sending it fails ([delivers]); a connection on which the
    service wrote nothing is closed by it. *)
Definition joined : Outside (X * back) := mkOutside
  (calling_front (ow_monotonic front)) (calling_front (ow_uuid_hex front))
  (fun n => in_world (ow_read_body front n)) (fun x => in_world (ow_client front x))
  (fun w => ow_disconnected front (fst w))
  (fun '(x, b) => let '(r, x') := ow_connect front x in (r, (x', mkBack (bk_server b) (bk_world b) None)))
  (in_world (ow_watch front))
  (fun q '(x, b) => let '(r, x') := ow_request front q x in (r, (x', if delivers q x then handle_request q b else b)))
  (fun '(x, b) =>
     let '(r, x') := ow_getresponse front x in
     (h ← r;
      match bk_reply b with
      | Some (Sent st _) => Ok (mkUpstreamHead st (Some "application/json"))
      | Some Streamed => Ok h
      | _ => raise HTTPException "remote end closed connection without response"
      end, (x', b)))
  (fun n '(x, b) =>
     let '(r, x') := ow_read front n x in
     (text ← r;
      Ok match bk_reply b with
         | Some (Sent _ v) => String.substring 0 (Z.to_nat n) (sent_text v)
         | _ => text
         end, (x', b)))
  (fun n => in_world (ow_readline front n)) (fun w => (ow_stop front (fst w), snd w)) (in_world (ow_close front))
  (ow_loads front) (store_in_front <$> ow_store front).

(** ** What the parts of a handler leave alone *)

(** A predicate of what was written to the client, what was sent upstream, and the
    service. *)
Definition view (P : list wire -> list upstream_request -> back -> Prop) : ing_state * (X * back) -> Prop :=
  fun sw => P (is_wire (fst sw)) (is_upstream (fst sw)) (snd (snd sw)).

Section views.
Context (P : list wire -> list upstream_request -> back -> Prop) (r : ingress_request).
Notation kept := (preserves (view P)).

Lemma kept_reading {A} (g : ing_state -> A) : kept (reading g).
Proof. by intros [s w] Hw. Qed.
Lemma kept_disconnected : kept (disconnected joined).
Proof. by intros [s w] Hw. Qed.
Lemma kept_front {A} (m : io X A) : kept (beside (in_world m)).
Proof. intros [s [x b]] Hw. unfold wp, beside, in_world. by destruct (m x). Qed.
Lemma kept_calling_front {A} (f : X -> A * X) : kept (calling (calling_front f)).
Proof. intros [s [x b]] Hw. unfold wp, calling, calling_front. by destruct (f x). Qed.
Lemma kept_stop : kept (calling (fun w => (tt, ow_stop joined w))).
Proof. by intros [s [x b]] Hw. Qed.
Lemma kept_update g : (forall s, is_wire (g s) = is_wire s /\ is_upstream (g s) = is_upstream s) -> kept (update g).
Proof. intros Hg [s w] Hw. unfold wp, update, view in *. cbn in *. by destruct (Hg s) as [-> ->]. Qed.
Hint Resolve kept_reading kept_disconnected kept_front kept_calling_front kept_stop : c3r.

Ltac kept_steps :=
  repeat first
    [ solve [auto with c3r]
    | apply preserves_bind; [|intros ?]
    | apply preserves_try; [|intros ?]
    | apply preserves_finally
    | apply kept_update; intros ?; split; reflexivity
    | progress cbn [store_in_front as_authenticate as_admit as_dispatch as_record_usage]
    | match goal with
      | |- preserves _ (match ?x with _ => _ end) => destruct x eqn:?
      | H : store_in_front <$> ?o = Some _ |- _ => destruct o; [|done]; injection H as <-
      end ].

Lemma kept_begin : kept (begin_request joined).
Proof. unfold begin_request, joined. cbn [ow_uuid_hex ow_monotonic]. kept_steps. Qed.
Lemma kept_record status decoded : kept (record_request joined r status decoded).
Proof. unfold record_request, joined. cbn [ow_store ow_monotonic]. kept_steps. Qed.
Hint Resolve kept_record : c3r.
Lemma kept_authorized : kept (IngressProxy.authorized joined r).
Proof. unfold IngressProxy.authorized, joined. cbn [ow_store]. kept_steps. Qed.
Lemma kept_admitted : kept (IngressProxy.admitted joined).
Proof. unfold IngressProxy.admitted, joined. cbn [ow_store ow_monotonic]. kept_steps. Qed.
Lemma kept_dispatch p id : kept (match ow_store joined, p with
  | Some store, Some p => beside (as_dispatch store p id) | _, _ => mret tt end).
Proof. unfold joined. cbn [ow_store]. kept_steps. Qed.
Lemma kept_give_back slot : kept (give_back joined slot).
Proof. unfold give_back, on_gateway, joined. cbn [ow_close]. kept_steps. Qed.

(** Refusals write a head of another status than 200, and its body. *)
Definition refusable : Prop := forall ws up b st hs, st <> 200%Z -> P ws up b ->
  P (ws ++ [Head st hs])%list up b /\ forall text, P ((ws ++ [Head st hs]) ++ [Bytes text])%list up b.

(** A piece written to the client. *)
Lemma wp_written x (Q : result unit -> ing_state * (X * back) -> Prop) s w :
  (forall res x', Q res (with_wire x s, (x', snd w))) -> wp (to_client joined x) Q (s, w).
Proof.
  intros HQ. destruct w as [y b]. unfold to_client. apply wp_bind, wp_update.
  unfold wp, beside, joined, in_world. cbn [ow_client]. destruct (ow_client front x y). apply HQ.
Qed.

Lemma kept_send_error status code : refusable -> status <> 200%Z -> kept (send_error joined r status code).
Proof.
  intros HP Hst sw Hw. unfold send_error. apply wp_bind.
  apply wp_mono with (Q := fun res sw => view P sw /\ match res with Ok p => fst p <> 200%Z | Raise _ => True end).
  { apply wp_try, wp_bind. apply (wp_preserves (view P)); [by apply kept_record|done|].
    intros [u|e] w1 H1; [by apply wp_ret|]. by destruct (caught_by _ _). }
  intros [[st code']|e] [s1 w1] [H1 Hst1]; [|done]. cbn [fst] in Hst1. apply wp_bind, wp_reading, wp_bind.
  apply wp_written. intros [u|e] x2.
  - destruct (String.eqb _ "HEAD").
    + apply wp_ret. by apply (HP _ _ _ _ _ Hst1 H1).
    + apply wp_written. intros res x3. by apply (HP _ _ _ _ _ Hst1 H1).
  - by apply (HP _ _ _ _ _ Hst1 H1).
Qed.

Lemma kept_over_capacity : refusable -> kept (over_capacity joined r).
Proof. intros HP. unfold over_capacity. apply kept_send_error; [done|]. by destruct (present _). Qed.

Lemma kept_exchange_failed e : refusable -> kept (exchange_failed joined r e).
Proof.
  intros HP. unfold exchange_failed. apply preserves_bind; [apply kept_disconnected|]. intros gone.
  apply preserves_bind; [|intros ?; apply preserves_ret].
  destruct gone; [kept_steps|by apply kept_send_error].
Qed.
End views.

(** ** One request through both *)

Section request.
Context (Hpersistent : trace_persistence (L := L) = true) (base : list LedgerRecord) (r : ingress_request)
  (Hpost : ir_command r = "POST") (Hpath : ir_path r ∈ ["/v1/decisions"; "/v1/c3r/decide"]).

Definition ledger (b : back) : L := snd (bk_world b).

Definition answer_of (b : back) : list (list (string * json)) :=
  match bk_reply b with Some reply => accepted (Ok reply) | None => [] end.

(** The records are the old ones until something is sent, and then those and the
    record of the service's answer. *)
Definition linked (up : list upstream_request) (b : back) : Prop :=
  sink_invariant (ledger b)
  /\ (up = [] /\ sink_records (ledger b) = base
      \/ up <> [] /\ exists new, sink_records (ledger b) = (base ++ new)%list
           /\ Forall2 (DecisionService.answered c factory) (answer_of b) new).

(** A client that sees a success sees the bytes of the service's document. *)
Definition shown (ws : list wire) (up : list upstream_request) (b : back) : Prop := forall hs text,
  ws = [Head 200 hs; Bytes text] -> up <> [] /\ exists v, bk_reply b = Some (Sent 200 v) /\ text = sent_text v.

Definition consistent (ws : list wire) (up : list upstream_request) (b : back) : Prop :=
  linked up b /\ shown ws up b.

(** Before the request is sent. *)
Definition untouched_yet (ws : list wire) (up : list upstream_request) (b : back) : Prop :=
  ws = [] /\ up = [] /\ linked up b.

Lemma untouched_consistent sw : view untouched_yet sw -> view consistent sw.
Proof. unfold view, untouched_yet. intros (Hw & Hu & Hl). split; [done|]. rewrite Hw. by intros ? ?. Qed.

Lemma consistent_refusable : refusable consistent.
Proof.
  intros ws up b st hs Hst [Hl Hs].
  split; [|intros t]; (split; [done|]); intros hs' text; destruct ws as [|x [|y ws]]; cbn; intros H;
    simplify_eq; try done; by destruct ws as [|? [|? ?]].
Qed.

(** The same with the service's reply, once the request was sent. *)
Definition replied_with (st : Z) (v : list (string * json)) (ws : list wire) (up : list upstream_request)
    (b : back) : Prop := consistent ws up b /\ up <> [] /\ bk_reply b = Some (Sent st v).

(** What the service does with the request. *)
Lemma handled_by_service q b : uq_method q = "POST" -> uq_path q = ir_path r -> sink_invariant (ledger b) ->
  sink_invariant (ledger (handle_request q b))
  /\ (exists new, sink_records (ledger (handle_request q b)) = (sink_records (ledger b) ++ new)%list
       /\ Forall2 (DecisionService.answered c factory) (answer_of (handle_request q b)) new)
  /\ match bk_reply (handle_request q b) with Some (Sent _ _) | None => True | _ => False end.
Proof using Hpersistent Hpath.
  intros Hm Hq Hl. unfold handle_request. rewrite Hm. cbn [String.eqb Ascii.eqb Bool.eqb].
  destruct b as [sv [e l] rep]. cbn [bk_server bk_world ledger snd] in *.
  assert (Hd : decides (decision_host c factory other) (h_path (as_http q))) by (left; cbn; by rewrite Hq).
  destruct (do_POST _ _ _ (as_http q) sv (e, l)) as [[out s'] [e' l']] eqn:Edo.
  destruct (post_recorded monotonic loads_bytes c factory other _ _ _ _ _ _ _ _ Hpersistent Hl Hd Edo)
    as (Hl' & new & Hn & Ha).
  destruct (post_documents _ _ _ _ _ _ _ _ _ Hd Edo) as [Hdoc|[v ->]].
  - unfold answer_of. cbn [ledger bk_world bk_reply snd]. split; [done|].
    destruct out as [reply|x]; [|by split; [exists new|]]. split; [by exists new|]. by destruct reply.
  - unfold answer_of. cbn [ledger bk_world bk_reply snd]. split; [done|]. split; [by exists new|done].
Qed.

Lemma linked_reply_reset b : linked [] b -> sink_records (ledger b) = base /\ sink_invariant (ledger b).
Proof. intros [Hi [[_ H]|[H _]]]; done. Qed.

(** The stages of an exchange: connected; sent, and answered with a document if at all. *)
Definition connected (ws : list wire) (up : list upstream_request) (b : back) : Prop :=
  untouched_yet ws up b /\ bk_reply b = None.

Definition sent (ws : list wire) (up : list upstream_request) (b : back) : Prop :=
  consistent ws up b /\ up <> [] /\ match bk_reply b with Some (Sent _ _) | None => True | _ => False end.

Lemma connect_linked sw : view untouched_yet sw -> wp (beside (ow_connect joined)) (fun _ => view connected) sw.
Proof.
  destruct sw as [s [x b]]. intros (Hw & Hu & Hl). apply wp_beside. intros res w2 E1. unfold joined in E1.
  cbn [ow_connect] in E1. destruct (ow_connect front x) as [rc x2]. apply pair_equal_spec in E1 as [_ <-].
  cbn [fst snd] in *. rewrite Hu in Hl. destruct (linked_reply_reset _ Hl).
  unfold view, connected, untouched_yet. cbn [fst snd]. rewrite Hu. split; [|done]. split; [done|]. split; [done|].
  split; [done|]. by left.
Qed.

Lemma request_linked q s w : uq_method q = "POST" -> uq_path q = ir_path r -> view connected (s, w) ->
  wp (beside (ow_request joined q)) (fun _ => view sent) (with_upstream q s, w).
Proof.
  intros Hm Hq. destruct w as [x b]. intros [(Hw & Hu & Hl) Hnone]. cbn [fst snd] in *. rewrite Hu in Hl.
  destruct (linked_reply_reset _ Hl) as [Hrec Hinv]. apply wp_beside. intros res w2 E1. unfold joined in E1.
  cbn [ow_request] in E1. destruct (ow_request front q x) as [rq x2]. apply pair_equal_spec in E1 as [_ <-].
  unfold view, sent, consistent, linked, shown. cbn [fst snd is_wire is_upstream with_upstream]. rewrite Hw, Hu.
  destruct (delivers q x).
  - destruct (handled_by_service q b Hm Hq Hinv) as (Hi & (new & Hn & Ha) & Hd). rewrite Hrec in Hn.
    split; [|done]. split; [|done]. split; [done|]. right. split; [done|]. by exists new.
  - rewrite Hnone. split; [|done]. split; [|done]. split; [done|]. right. split; [done|].
    exists []. rewrite app_nil_r. unfold answer_of. by rewrite Hnone.
Qed.

Lemma response_linked sw : view sent sw ->
  wp (beside (ow_getresponse joined)) (fun res sw' => view consistent sw'
    /\ match res with
       | Ok h => exists st v, h = mkUpstreamHead st (Some "application/json") /\ view (replied_with st v) sw'
       | Raise _ => True
       end) sw.
Proof.
  destruct sw as [s [x b]]. intros (Hc & Hu & Hd). cbn [fst snd] in *. apply wp_beside. intros res w2 E1.
  unfold joined in E1. cbn [ow_getresponse] in E1. destruct (ow_getresponse front x) as [rr x2].
  apply pair_equal_spec in E1 as [<- <-]. split; [done|]. destruct rr as [h|e]; [|done]. cbn [mbind result_bind].
  destruct (bk_reply b) as [[st v| |]|] eqn:Erep; [|done..]. by exists st, v.
Qed.

Lemma read_linked n st v sw : view (replied_with st v) sw ->
  wp (beside (ow_read joined n)) (fun res sw' => view (replied_with st v) sw'
    /\ match res with Ok text => text = String.substring 0 (Z.to_nat n) (sent_text v) | Raise _ => True end) sw.
Proof.
  destruct sw as [s [x b]]. intros (Hc & Hu & Hd). cbn [fst snd] in *. apply wp_beside. intros res w2 E1.
  unfold joined in E1. cbn [ow_read] in E1. destruct (ow_read front n x) as [rt x2].
  apply pair_equal_spec in E1 as [<- <-]. split; [done|]. destruct rt; [|done]. cbn [mbind result_bind]. by rewrite Hd.
Qed.

(** The [try] block of the proxy: what it leaves to be written is the service's answer. *)
Lemma exchange_linked body sw : view untouched_yet sw ->
  wp (exchange_upstream joined r "POST" body) (fun res sw' => view consistent sw'
    /\ match res with
       | Ok (Some (st, text)) => exists v, view (replied_with st v) sw' /\ text = sent_text v
       | _ => True
       end) sw.
Proof.
  intros Hw. unfold exchange_upstream. destruct sw as [s w]. apply wp_bind, wp_reading, wp_bind.
  apply (wp_preserves (view untouched_yet)); [apply kept_dispatch|done|].
  intros [u|e] w1 H1; [|split; [by apply untouched_consistent|done]].
  apply wp_bind. eapply wp_mono; [by apply connect_linked|].
  intros [u1|e] w2 H2; [|split; [apply untouched_consistent, H2|done]].
  apply wp_bind. apply (wp_preserves (view connected)); [apply kept_front|done|].
  intros [u2|e] [s3 w3] H3; [|split; [apply untouched_consistent, H3|done]].
  apply wp_bind, wp_update, wp_bind. eapply wp_mono; [by apply request_linked|].
  intros [u3|e] w4 H4; [|split; [apply H4|done]].
  apply wp_bind. eapply wp_mono; [by apply response_linked|]. intros [h|e] w5 [H5 Hh]; [|done].
  destruct Hh as (st & v & -> & Hv5).
  change (is_event_stream (mkUpstreamHead st (Some "application/json"))) with (Z.eqb st 200 && false).
  rewrite andb_false_r. apply wp_bind. eapply wp_mono; [by apply read_linked|].
  intros [text|e] w6 [Hv6 Ht]; [|split; [apply Hv6|done]]. pose proof (proj1 Hv6 : view consistent w6) as H6.
  destruct (Z.ltb_spec MAX_RESPONSE_BYTES (len text)) as [Hlong|Hshort].
  - apply wp_bind. eapply wp_preserves; [apply kept_send_error; [apply consistent_refusable|done]|exact H6|].
    intros [u4|e] w7 H7; [|by split]. by apply wp_ret.
  - apply wp_bind, wp_lift. destruct (ow_loads joined text) as [decoded|e]; [|by split].
    destruct decoded as [| | | | | |kvs]; try by (apply wp_lift; split).
    cbn [uh_status]. destruct (negb _); [by apply wp_lift; split|].
    apply wp_bind. eapply wp_preserves; [apply kept_record|exact Hv6|].
    intros [u4|e] w7 H7; [|split; [apply H7|done]]. pose proof (proj1 H7 : view consistent w7) as Hc7.
    destruct (Z.leb 400 st && _) eqn:Eerr.
    + apply andb_true_iff in Eerr as [Hst%Z.leb_le _]. apply wp_bind.
      eapply wp_preserves; [apply kept_send_error; [apply consistent_refusable|lia]|exact Hc7|].
      intros [u5|e] w8 H8; [|by split]. by apply wp_ret.
    + apply wp_ret. split; [exact Hc7|]. exists v. split; [exact H7|]. rewrite Ht in Hshort |- *.
      apply substring_within. unfold MAX_RESPONSE_BYTES in *. lia.
Qed.

Lemma exchange_failed_none e sw :
  wp (exchange_failed joined r e) (fun res _ => match res with Ok (Some _) => False | _ => True end) sw.
Proof.
  unfold exchange_failed. apply wp_bind, wp_any. intros [gone|e'] w1; [|done].
  apply wp_bind, wp_any. intros [u|e'] w2; [|done]. by apply wp_ret.
Qed.

Lemma kept_gateway P f : preserves (view P) (on_gateway f).
Proof. apply kept_update. by split. Qed.

(** Writing the reply. *)
Lemma reply_linked st v sw : view (replied_with st v) sw ->
  wp (id ← reading is_request_id;
      _ ← to_client joined (Head st (document_headers id (sent_text v)));
      to_client joined (Bytes (sent_text v))) (fun _ => view consistent) sw.
Proof.
  destruct sw as [s [x b]]. intros ([Hl Hs] & Hsent & Hr). cbn [fst snd] in *. apply wp_bind, wp_reading, wp_bind.
  assert (Hfin : forall (y : X) hs, view consistent (with_wire (Head st hs) s, (y, b))
    /\ view consistent (with_wire (Bytes (sent_text v)) (with_wire (Head st hs) s), (y, b))).
  { intros y hs. split; (split; [done|]); intros hs' text; cbn; destruct (is_wire s) as [|a [|a' [|]]]; cbn;
      intros Heq; simplify_eq; try done. split; [done|]. by exists v. }
  apply wp_written. intros [u|e] x1; [|apply Hfin]. apply wp_written. intros res x2. apply Hfin.
Qed.

Lemma forward_linked body sw : view untouched_yet sw ->
  wp (forward joined r "POST" body) (fun _ => view consistent) sw.
Proof.
  intros Hw. unfold forward. destruct sw as [s w]. cbv zeta. apply wp_bind, wp_reading.
  assert (Hover : forall sw, view untouched_yet sw -> wp (over_capacity joined r) (fun _ => view consistent) sw).
  { intros sw H. apply (kept_over_capacity consistent r consistent_refusable). by apply untouched_consistent. }
  destruct (match route_slot_of _ with Some _ => _ | None => _ end); [by apply Hover|].
  apply wp_bind. apply (wp_preserves (view untouched_yet)); [apply kept_gateway|done|].
  intros [u|e] w1 H1; [|by apply untouched_consistent].
  destruct (Z.leb _ 0).
  { apply wp_bind. apply (wp_preserves (view untouched_yet)); [apply kept_gateway|done|].
    intros [u2|e] w2 H2; [by apply Hover|by apply untouched_consistent]. }
  apply wp_bind. apply (wp_preserves (view untouched_yet)); [apply kept_gateway|done|].
  intros [u2|e] w2 H2; [|by apply untouched_consistent]. apply wp_bind, wp_finally, wp_try.
  eapply wp_mono; [by apply exchange_linked|].
  assert (Hback : forall (res : result (option (Z * string))) w3, view consistent w3 ->
    match res with Ok (Some _) => False | _ => True end ->
    wp (give_back joined (route_slot_of (ir_path r))) (fun res' w4 =>
      match res' with
      | Ok _ => match res with
                | Ok a => wp (match a with
                              | Some (status, forwarded) =>
                                  id ← reading is_request_id;
                                  _ ← to_client joined (Head status (document_headers id forwarded));
                                  to_client joined (Bytes forwarded)
                              | None => mret tt
                              end) (fun _ => view consistent) w4
                | Raise e => view consistent w4
                end
      | Raise e => view consistent w4
      end) w3).
  { intros res w3 H3 Hres. eapply wp_preserves; [apply kept_give_back|exact H3|].
    intros [u4|e] w4 H4; [|done]. destruct res as [[[]|]|]; done. }
  intros [[[st text]|]|e] w3 [H3 Hreply].
  - destruct Hreply as (v & Hv & ->).
    eapply wp_preserves; [apply kept_give_back|exact Hv|].
    intros [u4|e] w4 H4; [by apply reply_linked|apply H4].
  - by apply (Hback (Ok None)).
  - destruct (caught_by _ _).
    + eapply wp_mono; [apply wp_and; [apply (kept_exchange_failed consistent r e consistent_refusable _ H3)|
                                      apply exchange_failed_none]|].
      intros res w4 [H4 Hn]. by apply (Hback res).
    + by apply (Hback (Raise e)).
Qed.

Lemma post_linked sw : view untouched_yet sw -> wp (ingress_post joined r) (fun _ => view consistent) sw.
Proof.
  intros Hw. unfold ingress_post.
  assert (Hrefuse : forall st code sw, st <> 200%Z -> view untouched_yet sw ->
    wp (send_error joined r st code) (fun _ => view consistent) sw).
  { intros st code w Hst H. apply (kept_send_error consistent r st code consistent_refusable Hst).
    by apply untouched_consistent. }
  apply wp_bind. apply (wp_preserves (view untouched_yet)); [apply kept_begin|done|].
  intros [u|e] w1 H1; [|by apply untouched_consistent].
  destruct (negb _); [by apply Hrefuse|].
  apply wp_bind. apply (wp_preserves (view untouched_yet)); [apply kept_authorized|done|].
  intros [ok|e] w2 H2; [|by apply untouched_consistent].
  destruct (negb ok); [by apply Hrefuse|]. destruct w2 as [s2 y2]. apply wp_bind, wp_reading.
  destruct (negb _); [by apply Hrefuse|]. destruct (present _); [by apply Hrefuse|].
  destruct (negb _); [by apply Hrefuse|].
  apply wp_bind. apply (wp_preserves (view untouched_yet)); [apply kept_admitted|done|].
  intros [ok'|e] w3 H3; [|by apply untouched_consistent].
  destruct (negb ok'); [by apply Hrefuse|]. cbv zeta. destruct (_ || _); [by apply Hrefuse|].
  apply wp_bind. apply (wp_preserves (view untouched_yet)); [apply kept_front|done|].
  intros [body|e] w4 H4; [by apply forward_linked|by apply untouched_consistent].
Qed.

(** C2: From the caller to the record and back.  One POST to a decision path of the
    proxy, with the service behind it, whatever fails in between: at most one record
    is appended, and only when the proxy sent its one request, for a caller that
    proved its identity, has the route's scope and had quota left, with a JSON body
    within bounds.  A caller that gets a success gets, byte for byte, a document the
    service answered, and its record was appended: the hash, action, authority
    result and reason it reads are those recorded, and an action it names was read-only
    and accepted by the firewall. *)
Theorem success_means_record s x b
    (Hup : is_upstream s = []) (Hwire : is_wire s = [])
    (Hinv : sink_invariant (ledger b)) (Hbase : sink_records (ledger b) = base) :
  let '(_, (s', (_, b'))) := ingress_handle joined r (s, (x, b)) in
  sink_invariant (ledger b')
  /\ exists new, sink_records (ledger b') = (base ++ new)%list /\ (length new <= 1)%nat
     /\ (new <> [] -> exists q, is_upstream s' = [q] /\ may_forward joined r (is_gateway s) q)
     /\ (forall hs text, is_wire s' = [Head 200 hs; Bytes text] ->
          exists v record, new = [record] /\ DecisionService.answered c factory v record /\ text = sent_text v).
Proof.
  assert (Hstart : view untouched_yet (s, (x, b))).
  { unfold view, untouched_yet. cbn [fst snd]. rewrite Hwire, Hup. split; [done|]. split; [done|]. split; [done|].
    by left. }
  assert (H : wp (ingress_handle joined r) (fun _ sw => view consistent sw
      /\ gated joined r (is_gateway s) (is_upstream (fst sw))) (s, (x, b))).
  { unfold ingress_handle. rewrite Hpost. cbn [String.eqb Ascii.eqb Bool.eqb]. apply wp_and.
    - unfold ingress_do_POST, guarded_handler. apply wp_try. eapply wp_mono; [by apply post_linked|].
      intros [u|e] w1 H1; [done|]. destruct (caught_by _ _); [|done].
      by apply (kept_send_error consistent r _ _ consistent_refusable).
    - unfold ingress_do_POST, guarded_handler. apply (ends_try is_upstream (gated joined r (is_gateway s))).
      + by apply post_gated.
      + intros e. fixes_steps. }
  unfold wp in H. destruct (ingress_handle joined r (s, (x, b))) as [res [s' [x' b']]].
  cbn [fst snd view] in H. destruct H as [[[Hi Hl] Hs] Hg]. split; [done|].
  destruct Hl as [[Hu Hr]|[Hu (new & Hr & Ha)]].
  - exists []. rewrite app_nil_r. split; [done|]. split; [cbn; lia|]. split; [done|].
    intros hs text Hx. by destruct (Hs _ _ Hx).
  - exists new. split; [done|]. apply Forall2_length in Ha as Hlen. split; [|split].
    + rewrite <- Hlen. unfold answer_of. cbn [fst snd]. destruct (bk_reply b'); [apply accepted_one|cbn; lia].
    + intros _. destruct Hg as [Hg|Hg]; [done|exact Hg].
    + intros hs text Hx. destruct (Hs _ _ Hx) as (_ & v & Hv & ->). unfold answer_of in Ha. cbn [fst snd] in Ha, Hv. rewrite Hv in Ha.
      cbn [accepted] in Ha. apply Forall2_cons_inv_l in Ha as (record & rest & Ha & Hrest & ->).
      apply Forall2_nil_inv_l in Hrest as ->. by exists v, record.
Qed.
End request.
End deployment.

(** ** A concrete deployment *)

Definition quiet_front : Outside unit :=
  mkOutside (fun w => (fzero, w)) (fun w => ("0", w)) (fun _ w => (Ok "{}", w)) (fun _ w => (Ok tt, w))
    (fun _ => false) (fun w => (Ok tt, w)) (fun w => (Ok tt, w)) (fun _ w => (Ok tt, w))
    (fun w => (Ok (mkUpstreamHead 200 None), w)) (fun _ w => (Ok "", w))
    (fun _ w => (Ok "", w)) (fun w => w) (fun w => (Ok tt, w)) loads None.

Definition deployed_gateway : gateway :=
  mkGateway "client" example_token (mkBucket 60 fone fone fzero) 32 16 (mkSlots 1 4 4 2).

Definition decision_request : ingress_request :=
  mkIngress "POST" "/v1/c3r/decide"
    [("Authorization", "Bearer client"); ("Content-Type", "application/json"); ("Content-Length", "2")].

Definition deployed_start : ing_state * (unit * back (E := option counts) (L := TraceLedger)) :=
  (mkState deployed_gateway None "" fzero false false [] [] [], (tt, mkBack example_server (None, mkLedger []) None)).

Definition deployed_run (reached : bool) : result unit * (ing_state * (unit * back)) :=
  ingress_handle (joined quiet_front (fun _ _ => reached) (mret fzero) loads wire_controller wire_factory quiet_host)
    decision_request deployed_start.

(** The caller gets the document of the one record; when the request is lost on its
    way, it gets a refusal, and nothing is recorded. *)
Lemma success_means_record_witness :
  (let '(_, (s', (_, b'))) := deployed_run true in
   exists hs text v record, is_wire s' = [Head 200 hs; Bytes text] /\ text = sent_text v
   /\ records (ledger b') = [record] /\ DecisionService.answered wire_controller wire_factory v record)
  /\ (let '(_, (s', (_, b'))) := deployed_run false in
      (exists hs text, is_wire s' = [Head 503 hs; Bytes text]) /\ records (ledger b') = []).
Proof.
  split; [|vm_compute; split; [by eexists _, _|reflexivity]].
  assert (Hwire : let '(_, (s', _)) := deployed_run true in exists hs text, is_wire s' = [Head 200 hs; Bytes text])
    by (vm_compute; by eexists _, _).
  assert (Hp : trace_persistence (L := TraceLedger) = true) by reflexivity.
  assert (Hpath : ir_path decision_request ∈ ["/v1/decisions"; "/v1/c3r/decide"])
    by (apply (bool_decide_eq_true_1 _); reflexivity).
  pose proof (success_means_record quiet_front (fun _ _ => true) (mret fzero) loads wire_controller wire_factory quiet_host
    Hp [] decision_request eq_refl Hpath (fst deployed_start) (fst (snd deployed_start)) (snd (snd deployed_start))
    eq_refl eq_refl I eq_refl) as H.
  unfold deployed_run in *. change (fst deployed_start, (fst (snd deployed_start), snd (snd deployed_start)))
    with deployed_start in H.
  destruct (ingress_handle _ decision_request deployed_start) as [res [s' [x' b']]].
  destruct Hwire as (hs & text & Hw). destruct H as (_ & new & Hr & _ & _ & Hc).
  destruct (Hc hs text Hw) as (v & record & Hn & Ha & Ht). exists hs, text, v, record.
  split; [exact Hw|]. split; [exact Ht|]. split; [|exact Ha]. rewrite Hn in Hr. exact Hr.
Defined.
