(* ===== verification/Inspections.v ===== *)
(** * Release inspections ([deploy/inspect_head_sboms.py],
      [deploy/deepseek-v41/check_upstream_dependencies.py])

    The first script lists what the software bills of materials of an image say about
    three packages next to what is installed; the second refuses an image whose
    dependency conflicts are not exactly the reviewed one.  The files found, their
    texts, the installed versions and what [pip check] reports are parameters. *)

From Stdlib Require Import Lia ZArith Ascii String.
From stdpp Require Import base option strings list.
From S2P Require Import Prelude PyStr Json JsonText PyNumber Inference ReleaseIdentity Probes.

Local Open Scope string_scope.

(** ** The bills of materials *)

Definition TARGETS : list string := ["msgpack"; "setuptools"; "urllib3"].

(** The entry of [results] for a component. *)
Definition sbom_row (path name : string) (declared : option json) (actual : option string) : json :=
  JObj [("sbom", JStr path); ("package", JStr name); ("sbom_version", default JNull declared);
        ("installed_distribution_version", JStr (default "not_installed" actual))].

Section sboms.
Context (read_text : string -> result string) (installed : string -> option string).

(** The body of the inner loop. *)
Definition inspect_component (path : string) (component : json) : result (list json) :=
  name ← get_or component "name" (JStr "");
  target ← in_string_set (Some name) TARGETS;
  match name with
  | JStr n => if (target : bool)
              then declared ← get_of component "version"; Ok [sbom_row path n declared (installed n)]
              else Ok []
  | _ => Ok []
  end.

(** The body of the outer loop. *)
Definition inspect_document (path : string) : result (list json) :=
  text ← read_text path;
  document ← loads text;
  components ← get_or document "components" (JArr []);
  items ← items_of components;
  @List.concat _ <$> mapR (inspect_component path) items.

(** The script up to its [print]. *)
Definition inspect_sboms (paths : list string) : result (list json) :=
  @List.concat _ <$> mapR inspect_document paths.

Lemma concat_mapR {A B} (f : A -> result (list B)) l rows :
  @List.concat _ <$> mapR f l = Ok rows ->
  forall y, y ∈ rows <-> exists x ys, x ∈ l /\ f x = Ok ys /\ y ∈ ys.
Proof.
  revert rows; induction l as [|x l IH]; intros rows H y.
  - injection H as <-. split; [by intros ?%elem_of_nil|]. by intros (? & ? & ?%elem_of_nil & _).
  - cbn [mapR] in H. destruct (f x) as [ys|e] eqn:Ef; [|done].
    destruct (mapR f l) as [yss|e] eqn:El; [|done]. injection H as <-.
    rewrite elem_of_app, (IH _ eq_refl). split.
    + intros [Hy|(z & zs & Hz & Hf & Hy)]; [exists x, ys|exists z, zs]; (split; [|done]); by constructor.
    + intros (z & zs & Hz & Hf & Hy). apply elem_of_cons in Hz as [->|Hz]; [|by right; exists z, zs].
      left. rewrite Ef in Hf. by injection Hf as ->.
Qed.

(** The report is the targets, all of them and nothing else: a script that ends
    has a row exactly for each component named in [TARGETS] of the documents found,
    with the version the document declares and the one installed, found or not.
    No discrepancy is left out, and none is added. *)
Theorem sboms_are_reported paths rows (H : inspect_sboms paths = Ok rows) row :
  row ∈ rows <->
  exists path text document items component name,
    path ∈ paths /\ read_text path = Ok text /\ loads text = Ok (JObj document)
    /\ items_of (default (JArr []) (assoc "components" document)) = Ok items
    /\ JObj component ∈ items /\ assoc "name" component = Some (JStr name) /\ name ∈ TARGETS
    /\ row = sbom_row path name (assoc "version" component) (installed name).
Proof.
  unfold inspect_sboms in H. rewrite (concat_mapR _ _ _ H). split.
  - intros (path & ys & Hp & Hd & Hy). unfold inspect_document in Hd.
    apply bind_ok in Hd as (text & Ht & Hd). apply bind_ok in Hd as (document & Hl & Hd).
    apply bind_ok in Hd as (components & Hc & Hd). apply bind_ok in Hd as (items & Hi & Hd).
    apply (concat_mapR _ _ _ Hd) in Hy as (component & zs & Hin & Hz & Hy).
    unfold inspect_component in Hz. apply bind_ok in Hz as (name & Hn & Hz).
    apply bind_ok in Hz as (target & Htg & Hz). unfold get_or in Hc, Hn.
    destruct document as [| | | | | |document]; try done. injection Hc as <-.
    destruct component as [| | | | | |component]; try done. injection Hn as <-.
    destruct (assoc "name" component) as [[| | | |n| |]|] eqn:En; cbn [default] in Htg, Hz;
      try (injection Hz as <-; by apply elem_of_nil in Hy); [|].
    + injection Htg as <-. destruct (bool_decide_reflect (n ∈ TARGETS)) as [Hn|];
        [|injection Hz as <-; by apply elem_of_nil in Hy].
      injection Hz as <-. apply list_elem_of_singleton in Hy as ->. eauto 20.
    + injection Htg as <-. injection Hz as <-. by apply elem_of_nil in Hy.
  - intros (path & text & document & items & component & name & Hp & Ht & Hl & Hi & Hc & Hn & Hin & ->).
    assert (exists ys, inspect_document path = Ok ys) as [ys Hys].
    { destruct (mapR inspect_document paths) as [yss|e] eqn:Em; [|done].
      apply list_elem_of_lookup in Hp as [n Hp]. apply mapR_ok in Em.
      destruct (Forall2_lookup_l _ _ _ _ _ Em Hp) as (ys & _ & Hys). by exists ys. }
    exists path, ys. split; [done|]. split; [done|]. unfold inspect_document in Hys.
    rewrite Ht in Hys. cbn [mbind result_bind] in Hys. rewrite Hl in Hys. cbn [mbind result_bind] in Hys.
    unfold get_or, get_of in Hys. cbn [mbind result_bind] in Hys. rewrite Hi in Hys. cbn [mbind result_bind] in Hys.
    apply (concat_mapR _ _ _ Hys). exists (JObj component), [sbom_row path name (assoc "version" component) (installed name)].
    split; [done|]. split; [|by apply list_elem_of_singleton].
    unfold inspect_component, get_or, get_of. cbn [mbind result_bind]. rewrite Hn.
    unfold in_string_set, from_option, id. by rewrite bool_decide_eq_true_2.
Qed.
End sboms.

(** One document with a target, another package and a target that is not installed. *)
Example sboms_run :
  let text := print canonical_options (JObj [("components", JArr
    [JObj [("name", JStr "urllib3"); ("version", JStr "1.26.0")]; JObj [("name", JStr "pip")];
     JObj [("name", JStr "msgpack")]])]) in
  inspect_sboms (fun _ => Ok text) (fun n => if String.eqb n "urllib3" then Some "2.6.0" else None) ["a.cdx.json"]
  = Ok [sbom_row "a.cdx.json" "urllib3" (Some (JStr "1.26.0")) (Some "2.6.0");
        sbom_row "a.cdx.json" "msgpack" None None].
Proof. vm_compute. reflexivity. Qed.

(** ** The reviewed dependency conflict *)

Definition expected_versions : list (string * string) :=
  [("vllm", "0.30.1rc1.dev396+gac68c3087"); ("torch", "2.13.0+cu130"); ("nvidia-nccl-cu13", "2.30.7")].

Definition known_conflict : string :=
  "torch 2.13.0+cu130 has requirement nvidia-nccl-cu13==2.29.7; platform_system == " ++
  String "034" ("Linux" ++ String "034" ", but you have nvidia-nccl-cu13 2.30.7.").

(** What [subprocess.run] gives back. *)
Record completed : Type := mkCompleted { returncode : Z; stdout : string; stderr : string }.

Section preflight.
Context (version : string -> result string) (pip_check : result completed).

(** [{name: importlib.metadata.version(name) for name in (...)}]. *)
Definition installed_versions : result (list (string * string)) :=
  mapR (fun name => v ← version name; Ok (name, v)) (map fst expected_versions).

Definition reviewed_conflict (r : completed) : bool :=
  Z.eqb (returncode r) 1 && bool_decide (splitlines (strip (stdout r)) = [known_conflict])
  && negb (nonempty (strip (stderr r))).

(** The script; the document it prints. *)
Definition dependency_preflight : result json :=
  versions ← installed_versions;
  _ ← raise_if (negb (bool_decide (versions = expected_versions))) RuntimeError
        "Pinned upstream dependency identities changed";
  result ← pip_check;
  _ ← raise_if (negb (reviewed_conflict result)) RuntimeError
        "Dependency preflight differs from the reviewed upstream override";
  Ok (JObj [("known_upstream_nccl_override", JStr known_conflict); ("other_dependency_errors", JArr []);
            ("tp8_compatibility", JStr "not_yet_tested")]).
End preflight.

(** A conflict as [pip] prints it: one line that starts and ends with a word. *)
Definition conflict_line (s : string) : bool :=
  one_line s && String.eqb (rstrip s) s
  && match s with String c _ => negb (is_space c) | EmptyString => false end.

(** [pip check]'s report: a line for each conflict. *)
Definition conflict_report (conflicts : list string) : string :=
  String.concat "" (map (fun s => s ++ line_feed) conflicts).

Lemma rstrip_space s c : is_space c = true -> rstrip (s ++ String c "") = rstrip s.
Proof.
  intros Hc. induction s as [|d s IH]; cbn [String.append rstrip]; [by rewrite Hc|]. by rewrite IH.
Qed.

(** What is left of a text that [rstrip] does not change when more is put before it. *)
Lemma rstrip_before s t : t <> "" -> rstrip t = t -> rstrip (s ++ t) = s ++ t.
Proof.
  intros Hn Ht. induction s as [|c s IH]; [done|]. cbn [String.append rstrip]. rewrite IH.
  destruct (s ++ t) eqn:E; [|done]. destruct s; [by cbn in E; subst|done].
Qed.

Lemma conflict_nonempty s : conflict_line s = true -> s <> "".
Proof. intros H ->. unfold conflict_line in H. by rewrite andb_false_r in H. Qed.

Lemma rstrip_join l : l <> [] -> Forall (fun s => conflict_line s = true) l ->
  join line_feed l <> "" /\ rstrip (join line_feed l) = join line_feed l.
Proof.
  intros Hne H. induction H as [|s l Hs Hl IH]; [done|]. pose proof (conflict_nonempty _ Hs) as Hn.
  destruct l as [|t l]; cbn [join].
  - split; [done|]. unfold conflict_line in Hs. bool_hyps. by apply String.eqb_eq.
  - destruct (IH (fun E => match nil_cons (eq_sym E) with end)) as [IHn IHr].
    split; [by destruct s|]. apply rstrip_before; [done|]. by apply rstrip_before.
Qed.

(** The report, stripped and split: the lines. *)
Lemma report_lines l : Forall (fun s => conflict_line s = true) l ->
  splitlines (strip (conflict_report l)) = l.
Proof.
  intros H. destruct l as [|s l]; [done|].
  assert (E : conflict_report (s :: l) = join line_feed (s :: l) ++ line_feed).
  { clear H. unfold conflict_report. revert s; induction l as [|t l IH]; intros s; [done|].
    cbn [map String.concat join] in IH |- *. rewrite IH. by rewrite !str_app_assoc. }
  destruct (rstrip_join (s :: l)) as [Hn Hr]; [done|done|].
  assert (Hhead : strip (conflict_report (s :: l)) = join line_feed (s :: l)).
  { rewrite E. unfold strip. apply Forall_cons in H as [Hs _]. unfold conflict_line in Hs. bool_hyps.
    destruct s as [|c s]; [done|].
    assert (Hc : is_space c = false) by by apply negb_true_iff.
    assert (exists rest, join line_feed (String c s :: l) = String c rest) as [rest Erest]
      by (destruct l; cbn; eauto).
    rewrite Erest in *. change (String c rest ++ line_feed) with (String c (rest ++ line_feed)).
    rewrite lstrip_head by done. change (String c (rest ++ line_feed)) with (String c rest ++ line_feed).
    unfold line_feed. by rewrite rstrip_space. }
  rewrite Hhead. apply splitlines_join. eapply Forall_impl; [exact H|]. intros x Hx.
  split; [|by apply conflict_nonempty]. unfold conflict_line in Hx. by bool_hyps.
Qed.

Lemma versions_exact version l :
  mapR (fun name => v ← version name; Ok (name, v)) (map fst l) = Ok l
  <-> Forall (fun nv : string * string => version (fst nv) = Ok (snd nv)) l.
Proof.
  induction l as [|[name v] l IH]; [done|]. rewrite Forall_cons, <- IH. cbn [map fst snd mapR].
  split.
  - intros H. apply bind_ok in H as ([n' v'] & Hn & H). apply bind_ok in Hn as (x & Hx & [= <- <-]).
    apply bind_ok in H as (ys & Hy & [= <- ->]). done.
  - intros [-> ->]. done.
Qed.

(** Only the reviewed conflict passes.  When [pip] reports its conflicts a line
    each, the preflight succeeds exactly when the three packages have the pinned
    versions, [pip] ended with status one and nothing but blanks on its error
    stream, and the conflicts are the one reviewed: an unknown conflict, a second
    one, or a vanished one stops the build, as does a package that is missing. *)
Theorem preflight_is_exact version code conflicts err
    (H : Forall (fun s => conflict_line s = true) conflicts) :
  is_ok (dependency_preflight version (Ok (mkCompleted code (conflict_report conflicts) err))) = true
  <-> Forall (fun nv => version (fst nv) = Ok (snd nv)) expected_versions
      /\ code = 1%Z /\ conflicts = [known_conflict] /\ strip err = "".
Proof.
  unfold dependency_preflight. split.
  - intros Hok. destruct (installed_versions version) as [vs|x] eqn:Ev; [|done].
    cbn [mbind result_bind] in Hok.
    destruct (bool_decide_reflect (vs = expected_versions)) as [->|]; [|done].
    apply versions_exact in Ev. split; [done|]. cbn [negb raise_if mbind result_bind] in Hok.
    unfold reviewed_conflict in Hok. cbn [returncode stdout stderr] in Hok. rewrite report_lines in Hok by done.
    destruct (Z.eqb_spec code 1); [|done]. destruct (bool_decide_reflect (conflicts = [known_conflict])); [|done].
    destruct (strip err); [done|discriminate Hok].
  - intros (Hv & -> & -> & He). apply versions_exact in Hv. fold (installed_versions version) in Hv.
    rewrite Hv. cbn [mbind result_bind]. rewrite bool_decide_eq_true_2 by done.
    cbn [negb raise_if mbind result_bind]. unfold reviewed_conflict. cbn [returncode stdout stderr].
    rewrite report_lines, He by done. by rewrite bool_decide_eq_true_2.
Qed.

(** The reviewed image passes; one with a second conflict does not. *)
Example preflight_runs :
  let version name := match assoc name expected_versions with Some v => Ok v | None => raise OtherException name end in
  let run l := is_ok (dependency_preflight version (Ok (mkCompleted 1 (conflict_report l) ""))) in
  conflict_line known_conflict = true /\ run [known_conflict] = true
  /\ run [known_conflict; "vllm 0.30.1 requires numpy, which is not installed."] = false /\ run [] = false.
Proof. vm_compute. done. Qed.
